(* ===== verification/_CoqProject ===== *)
-Q . S2P
Prelude.v
Interpolation.v
Gf256.v
Shamir.v
GoStrings.v
Base64.v
Json.v
JsonText.v
GoTime.v
Keyring.v
KeyProtection.v
Tpm.v
TpmSeal.v
Recovery.v
NodeEvidence.v
LocalState.v
StateText.v
LocalStateProps.v
Grants.v
Config.v
Sql.v
Store.v
Challenges.v
SqlNodeEvidence.v
StoreInv.v
StoreOps.v
Lockout.v
Policy.v
Kubernetes.v
EvidenceText.v
TpmAttest.v
Admin.v
Enrollment.v
Ctl.v
Service.v
KmsConfig.v
KmsPlugin.v
BrokerAdmin.v
NodeAgent.v
Runtime.v
CtlProps.v
KmsProps.v
KmsLive.v
NodeAgentProps.v
Agent.v
AgentProps.v
CtlRotate.v
CtlRotateProps.v
CtlK8s.v
CtlK8sProps.v
CtlProvision.v
CtlProvisionProps.v
KubeApi.v
KubeApiProps.v
Daemon.v
DaemonProps.v
CtlFiles.v
CtlFilesProps.v
