(* ===== verification/Prelude.v ===== *)
(** * Verification of openbao-attested-unseal

    OpenBao seals its root key with a wrapping key it must not hold itself.  This
    program is the broker that holds the key and releases the unwrapped root key only
    to attested, enrolled callers, together with the tools around it.  The library
    models the Go code under src/internal as executable functions and proves what it
    promises.

    ** The program and the files

    - keyring (key.go, metadata.go, ring.go, wrap.go): [Keyring].  Key references,
      the authenticated metadata of a blob, the ring of key versions, [Encrypt] and
      [Decrypt].
    - keyprotection: [KeyProtection].  The stored form of a key version, the
      [Repository] and [Protector] interfaces as classes, the development protector and
      the loader, proved against the interfaces.
    - tpm: [Tpm] (pcr.go, quote.go, policy.go: PCR selections, quote verification and
      the evaluation of an enrolled policy), [EvidenceText] (the JSON text of a quote,
      in both directions), [TpmAttest] (device.go, ak.go, the collecting side of quote.go
      and attestation/providers/tpm: from the device to a verified envelope), [TpmSeal]
      (seal.go: sealing and unsealing as sequences of TPM commands), [LocalState] (state.go: the state directory), [StateText] and
      [LocalStateProps] (its JSON texts and what it guarantees).
    - nodeevidence: [NodeEvidence].  Evidence and enrollment records, the in-memory
      repositories, and the contract between repository and clients as a class.
    - broker: [Config] (configuration), [Sql] (schema, inserts with their
      constraints), [Store], [Challenges] and [SqlNodeEvidence] (one definition per
      method of [SQLiteStore]), [StoreInv] and [StoreOps] (the store as a state machine:
      steps, reachability, invariant, what no run undoes), [Lockout], [Policy] (the
      default-deny engine and the audit record), [Service] (Challenge, Wrap, Unwrap,
      Status), [Kubernetes] (token review and pod binding), [KubeApi] and
      [KubeApiProps] (the HTTP clients behind them, and how the broker builds them), [Admin] (node agents
      publish evidence), [Enrollment] (operators change node trust), [Runtime] (how the
      parts are wired when the daemon starts, and serving any list of calls).
    - baounseald (command.go), with the rest of broker/config.go and server.go: [Daemon],
      [DaemonProps].  The JSON text of a configuration, and the daemon from its command
      line to the end of serving.
    - recovery (package.go): [Gf256] (the byte field and its loops), [Interpolation]
      (polynomials over any field), [Shamir] (splitting and combining), [Recovery]
      (packages and printable shares).
    - enrollment (enrollment.go): [Grants].  Offline requests and signed grants.
    - baounsealctl (command.go) and cli (exit.go): [Ctl], [CtlProps] (the operator
      commands on the broker state: init, rotate, revoke, recover, enroll), [CtlRotate],
      [CtlRotateProps] (the commands that ask OpenBao: rotate openbao-root and
      verify-restart; the status commands), [CtlProvision], [CtlProvisionProps] (tpm
      provision and status, enroll request, recover finish), [CtlFiles], [CtlFilesProps]
      (the JSON files that the operator carries between machines, as text, and the
      commands that read them); kubernetes*.go: [CtlK8s],
      [CtlK8sProps] (the commands that ask the broker: k8s nodes, evidence, publish-node
      and check).
    - kmsplugin: [KmsConfig] (config.go and config/kubernetes.go: the seal stanza),
      [KmsPlugin] (the wrapper OpenBao drives, its broker and local TPM backends),
      [KmsProps] and [KmsLive] (the broker backend connected to the handlers of
      [Service]).
    - brokeradmin (client.go, node_evidence.go, node_enrollment.go): [BrokerAdmin].  The
      clients of the broker's admin and enrollment services.
    - nodeagent (publisher.go, tpm_provider.go): [NodeAgent], [NodeAgentProps].  The agent
      that publishes node evidence, then the agent, its TPM and the handlers of [Admin]
      put together.
    - baounsealagent (command.go, run.go): [Agent], [AgentProps].  bao-unseal-agent:
      options, one publication, and the loop that publishes until too many fail.
    - Go's standard library as far as the code depends on it: [GoStrings] (strings,
      strconv, hex, base64 encoding), [Base64], [GoTime] (RFC 3339), [Json]
      (encoding/json in both directions, on bytes), [JsonText] (printing, then parsing).

    ** How state and effects are modelled

    A fallible function returns [result], with Go's error tree as far as [errors.Is]
    and messages see it.  The database is a record of finite maps, one per table
    ([Sql.DB]); a store method maps a database to a result and a database, a failed
    transaction leaves it unchanged.  The audit file is the list of its records.  A
    request of the broker is not atomic: before each of its accesses to the store (a
    [Policy.point]) an arbitrary list of store operations of other requests runs, which
    the environment of the request supplies; the environment also holds its clock, its
    random bytes and the outcome of I/O that may fail.  The operator commands run alone
    on the state file, in a state and error monad ([Ctl.cmd]); the commands and the agent
    that work on something else run in one with exit codes over that world
    ([Agent.action]).  A command starts from the values of its flags.  The TPM is a state with
    one operation per command ([TpmSeal.TpmDevice]), the file system of a node or an
    operator a finite map from paths to files and directories with their mode and to
    symbolic links, which reading and writing follow ([LocalState.FS]).  The wrapper's calls run in a state
    and error monad over the world behind it ([KmsPlugin.call]); where that world is the
    broker ([KmsProps.broker_client]) other clients' store operations come before each
    call, and requests and responses may be lost.  Times are nanoseconds
    since year 1 and 64-bit where Go multiplies durations; key versions are uint32;
    byte strings are strings of 8-bit characters; GF(256) works on 8-bit values with
    Go's shifts.

    ** What the theorems show

    - Release: [Service.unwrap_sound], [Runtime.kubernetes_unwrap_sound],
      [Kubernetes.KubernetesEvidenceVerifier_sound], [KubeApiProps.workload_vouched_by_api]
      (down to the requests that the API server answered), [Tpm.EvaluatePolicy_sound],
      [Admin.publish_sound]: who obtains plaintext or gets evidence stored, and on what
      proof ([Tpm.quote_signed] says what a signature is in terms of the parameter that
      stands for the cryptography, not of the code that checks it).  No replay: [Service.unwrap_challenge_not_replayable],
      [Admin.publish_challenge_not_replayable], [Challenges.challenge_single_use].
    - Revocation and trust: [StoreOps.revocation_permanent],
      [Runtime.revoked_node_workloads_locked_out],
      [CtlK8sProps.operator_revocation_effective] (the operator's command against the
      broker's handlers: what its success means),
      [NodeEvidence.revoked_node_has_no_evidence],
      [Enrollment.trust_change_permitted_and_audited].
    - Keys: [StoreOps.reachable_keyring_wellformed], [StoreOps.rotation_completes],
      [StoreOps.key_versions_never_lost], [Keyring.Encrypt_Decrypt_roundtrip],
      [Keyring.Decrypt_authentic], [Service.wrap_rotate_unwrap] (what was wrapped is
      unwrapped after any rotations).
    - The plugin: [KmsConfig.parseConfig_sound] and
      [KmsConfig.parseConfig_order_irrelevant] (the stanza),
      [KmsProps.wrapper_backend_configured] (the wrapper's life cycle),
      [KmsProps.broker_backend_roundtrip] (never a wrong plaintext) and
      [KmsLive.enrolled_node_unseals] (an enrolled node gets its root key).
    - Local TPM state: [LocalStateProps.local_state_roundtrip],
      [LocalStateProps.stored_key_loads], [LocalStateProps.LoadLocalKeyring_exact],
      [TpmSeal.handles_released]; [EvidenceText.Evidence_roundtrip] and
      [EvidenceText.token_envelope_roundtrip] for evidence on its way to the broker.
    - The node: [TpmAttest.collected_evidence_accepted] (what an honest TPM quotes is
      accepted, with the claims of the quote), [TpmAttest.collect_releases_handles],
      [NodeAgentProps.attested_node_publishes] (challenge, quote, self-check and
      submission end in a fresh record), [BrokerAdmin.enrollment_report_roundtrip]
      (what a client reads back of an enrollment, and that the captured registers are
      not reported), [AgentProps.agent_gives_up_exactly] (when the agent's loop ends),
      [CtlK8sProps.k8s_check_exact] and [CtlK8sProps.verified_workload_admitted] (what
      the operator's check of a node shows).
    - Disaster recovery: [Shamir.splitSecret_hides_secret] (fewer shares than the
      threshold say nothing: any view of them has the same number of random strings
      behind it for every secret), [Recovery.Recover_Create], [Recovery.Recover_outcome],
      [CtlProps.recovered_broker_opens] (init, then recovery on another machine),
      [CtlProvisionProps.provisioned_node_opens] (init, then a node that unseals with its
      own TPM), [CtlProvisionProps.second_version_blocks_loading] (and what a second
      provisioned version does to it).
    - Grants: [Grants.IssueGrant_verifies], [Grants.Verify_lifetime],
      [Grants.SameGrant_exact], [CtlProps.grant_applied_once],
      [CtlFilesProps.issued_grant_enrolls] (issue and apply through a file),
      [CtlFilesProps.issue_enrolls_already] (what issuing alone does),
      [CtlFilesProps.json_file_roundtrip] and [CtlFilesProps.readJSONFile_Ok] (what files
      carry, and how strictly they are read).
    - The daemon: [DaemonProps.daemon_runs_its_config] (what serves is the validated
      configuration of the file), [DaemonProps.deprecated_trust_refused] (trust in nodes can
      no longer be configured).
    - State: [Runtime.serving_preserves_store] and [CtlProps.run_command_steps]
      connect the handlers and the commands to the reachable states of [StoreOps];
      [CtlRotateProps.verifications_attested]: what a recorded verification of a rotation
      stands for, down to the exchanges with the OpenBao server.
    - Refinement and equivalence: [NodeEvidence.EnrollmentContract] is kept by the
      memory and the SQLite repository; [Challenges.challenge_stores_bisimilar]: the two
      challenge stores answer every sequence of calls alike;
      [KeyProtection.LoadKeyring_correct] holds for every repository and protector.

    A property whose theorem has hypotheses has a witness, named after it, on a
    concrete broker, database or grant.

    ** Parameters

    Code outside the repository is a class: [Keyring.AEAD] (AES-256-GCM),
    [Tpm.Hashes], [Tpm.TpmLib] and [Tpm.EvidenceJSON] (go-tpm and the decoding of its
    evidence), [Policy.ProtoLib] (protobuf), [Grants.Ed25519], [Runtime.CertFiles]
    (certificate files), [Kubernetes.PayloadJSON], [TpmSeal.TpmDevice] (the chip and
    go-tpm's encoders), [LocalState.OS] (how the file system fails), [KmsPlugin.KmsEnv] (the plugin's files and certificates), [KmsPlugin.LocalNode] and
    [KmsPlugin.UnsealClient] (the node and the connection to the broker),
    [TpmAttest.TpmAttestor] (the commands of go-tpm for keys and quotes),
    [BrokerAdmin.AdminClient] and [BrokerAdmin.EnrollmentClient] (the connection of the
    admin clients), [CtlK8s.EvidenceReader] (the calls of that connection that only
    read), [CtlRotate.OpenBaoServer] (HTTP to OpenBao) and [CtlRotate.UrlLib] (net/url),
    [NodeAgent.TpmNode] (a node with a TPM), [Agent.Stdout], [KubeApi.Machine] (the
    broker's environment, files and certificate pools) and [KubeApi.KubeServer] (HTTP to
    the Kubernetes API server).  Laws that a theorem needs (a cipher opens what it sealed, a signature
    verifies) are separate classes, each with a concrete instance used by witnesses.
    Iteration over a Go map is a permutation given as an argument.

    ** Bounds and fuel

    Decimal printing has fuel 20, enough for 64 bits.  The JSON parser has fuel
    [2 * length + 2], enough for every input ([Json.json_fuel_enough]).  The loops of
    [gfMul] and [gfPow] have fuel 8 and 63 and are proved to end within it.  Theorems on
    stored times assume years 1 to 9999, beyond which Go itself cannot write RFC 3339
    text.  Quotes and sealing read at most eight registers at once, as the TPM command
    does; the theorems on collected evidence say so.

    ** Not modelled

    Network transport, gRPC, HTTP and TLS handshakes; whether the process may read or
    write a path, which is the parameter [LocalState.OS]; links among the directories of
    a path; failures of the SQLite driver other than constraints; generated protobuf code
    (its messages are records).  Of the programs: flag parsing, usage texts, the text form
    of what commands print, signals and process start; the JSON files of
    bao-unsealctl are text in [CtlFiles] and the values they hold in the other files.  Of the broker: logging, telemetry (broker/telemetry.go: instruments
    whose readings nothing reads back), and closing in server.go.  [keyring.ParseCanonicalAAD] is used
    by tests only. *)


From stdpp Require Export base decidable option list gmap strings sorting.
From Stdlib Require Export ZArith Lia.

(** ** Notation scope and hint databases of the development *)

Declare Scope go_scope.
Delimit Scope go_scope with go.
Open Scope go_scope.

Create HintDb unseal discriminated.

(** A Go [[]byte] and a Go [string] are both byte sequences. *)
Abbreviation bytes := string (only parsing).

(** ** Go errors

    An error is the list of sentinel identities its chain wraps (what
    [errors.Is] looks at) together with its message ([err.Error()]). *)

Record error := mkError { err_is : list string; err_msg : string }.

Inductive result (A : Type) : Type :=
| Ok (a : A)
| Err (e : error).
Arguments Ok {A} a.
Arguments Err {A} e.

(** [errors.New] used for a package-level sentinel. *)
Definition sentinel (id msg : string) : error := mkError [id] msg.

(** [errors.New] and [fmt.Errorf] without [%w]: an error nobody tests for. *)
Definition errorf (msg : string) : error := mkError [] msg.

(** [fmt.Errorf("%w: detail", base)]. *)
Definition errorw (base : error) (detail : string) : error :=
  mkError (err_is base) (err_msg base +:+ ": " +:+ detail).

(** [fmt.Errorf("prefix: %w", base)]. *)
Definition errorp (prefix : string) (base : error) : error :=
  mkError (err_is base) (prefix +:+ ": " +:+ err_msg base).

(** [errors.Is(e, target)] for a sentinel [target]. *)
Definition errors_Is (e target : error) : bool :=
  match err_is target with
  | id :: _ => existsb (String.eqb id) (err_is e)
  | [] => false
  end.

Global Instance error_eq_dec : EqDecision error.
Proof. solve_decision. Defined.

Global Instance result_eq_dec `{EqDecision A} : EqDecision (result A).
Proof. solve_decision. Defined.

(** ** The error monad of Go's [(T, error)] returns *)

Global Instance result_ret : MRet result := fun A a => Ok a.
Global Instance result_bind : MBind result := fun A B f m =>
  match m with Ok a => f a | Err e => Err e end.
Global Instance result_fmap : FMap result := fun A B f m =>
  match m with Ok a => Ok (f a) | Err e => Err e end.

(** [if !b { return err }]. *)
Definition check (b : bool) (e : error) : result unit :=
  if b then Ok tt else Err e.

(** [if err != nil { return wrap(err) }]. *)
Definition map_err {A} (f : error -> error) (m : result A) : result A :=
  match m with Ok a => Ok a | Err e => Err (f e) end.

Definition is_ok {A} (m : result A) : bool :=
  match m with Ok _ => true | Err _ => false end.

Definition of_option {A} (e : error) (o : option A) : result A :=
  match o with Some a => Ok a | None => Err e end.

(** A Go loop that returns at the first error. *)
Fixpoint mapR {A B} (f : A -> result B) (l : list A) : result (list B) :=
  match l with
  | [] => Ok []
  | x :: r => y ← f x; ys ← mapR f r; Ok (y :: ys)
  end.

Fixpoint foldR {A S} (f : S -> A -> result S) (s : S) (l : list A) : result S :=
  match l with
  | [] => Ok s
  | x :: r => s' ← f s x; foldR f s' r
  end.

(** ** Fixed-width integers *)

Definition uint32_max : Z := 4294967295.
Definition int64_max : Z := 9223372036854775807.

(** Conversion to a signed 64-bit integer, with two's-complement wrap. *)
Definition wrap_int64 (z : Z) : Z :=
  (z + 9223372036854775808) mod 18446744073709551616 - 9223372036854775808.

Definition wrap_uint64 (z : Z) : Z := z mod 18446744073709551616.

(** Go's [len] of a string or byte slice. *)
Definition len (s : string) : Z := Z.of_nat (String.length s).

(** ** Lemmas on the error monad *)

Lemma bind_Ok {A B} (m : result A) (f : A -> result B) b :
  (m ≫= f) = Ok b <-> exists a, m = Ok a /\ f a = Ok b.
Proof. destruct m; naive_solver. Qed.

Lemma check_Ok b e u : check b e = Ok u <-> b = true.
Proof. destruct b, u; naive_solver. Qed.

Lemma map_err_Ok {A} f (m : result A) a : map_err f m = Ok a <-> m = Ok a.
Proof. destruct m; naive_solver. Qed.

Lemma map_err_Err {A} f (m : result A) e :
  map_err f m = Err e <-> exists e', m = Err e' /\ e = f e'.
Proof. destruct m; naive_solver. Qed.

Lemma of_option_Ok {A} e (o : option A) a : of_option e o = Ok a <-> o = Some a.
Proof. destruct o; naive_solver. Qed.

Lemma bind_Err {A B} (m : result A) (f : A -> result B) e :
  (m ≫= f) = Err e <-> m = Err e \/ exists a, m = Ok a /\ f a = Err e.
Proof. destruct m; simpl; naive_solver. Qed.

Lemma check_Err b e e' : check b e = Err e' <-> b = false /\ e' = e.
Proof. destruct b; simpl; naive_solver. Qed.

Lemma of_option_Err {A} e e' (o : option A) : of_option e o = Err e' <-> o = None /\ e' = e.
Proof. destruct o; simpl; naive_solver. Qed.

Lemma is_ok_Ok {A} (m : result A) : is_ok m = true <-> exists a, m = Ok a.
Proof. destruct m; naive_solver. Qed.

Lemma mapR_Ok {A B} (f : A -> result B) l ys :
  mapR f l = Ok ys <-> Forall2 (fun x y => f x = Ok y) l ys.
Proof.
  revert ys; induction l as [|x r IH]; intros ys; simpl.
  - split; [intros [= <-]; constructor | inversion 1; done].
  - rewrite bind_Ok. setoid_rewrite bind_Ok. split.
    + intros (y & Hy & ys' & Hys & [= <-]). constructor; [done | by apply IH].
    + inversion 1; subst. eexists; split; [done|]. eexists; split; [by apply IH | done].
Qed.

Lemma foldR_app {A S} (f : S -> A -> result S) s l1 l2 :
  foldR f s (l1 ++ l2) = (s' ← foldR f s l1; foldR f s' l2).
Proof.
  revert s; induction l1 as [|x r IH]; intros s; simpl; [done|].
  destruct (f s x); simpl; [apply IH | done].
Qed.

(** ** Tactics *)

(** Take a successful run of monadic code apart. *)
Ltac inv_ok :=
  repeat match goal with
  | H : Ok _ = Ok _ |- _ => injection H as H; subst
  | H : Err _ = Err _ |- _ => injection H as H; subst
  | H : Ok _ = Err _ |- _ => discriminate H
  | H : Err _ = Ok _ |- _ => discriminate H
  | H : Some _ = None |- _ => discriminate H
  | H : None = Some _ |- _ => discriminate H
  | H : Some _ = Some _ |- _ => injection H as H; subst
  | H : (_ ≫= _) = Ok _ |- _ => apply bind_Ok in H as (? & ? & ?)
  | H : check _ _ = Ok _ |- _ => apply check_Ok in H
  | H : map_err _ _ = Ok _ |- _ => apply map_err_Ok in H
  | H : of_option _ _ = Ok _ |- _ => apply of_option_Ok in H
  end.

(** Case on the innermost [match] of the goal or of a hypothesis. *)
Ltac case_goal :=
  match goal with
  | |- context [match ?x with _ => _ end] =>
      lazymatch x with
      | context [match _ with _ => _ end] => fail
      | _ => destruct x eqn:?
      end
  end.

Ltac case_hyp H :=
  match type of H with
  | context [match ?x with _ => _ end] =>
      lazymatch x with
      | context [match _ with _ => _ end] => fail
      | _ => destruct x eqn:?
      end
  end.

(** Forget the values of unit type. *)
Ltac units := repeat match goal with u : unit |- _ => destruct u end.

(** Rewrite the goal with the boolean tests and outcomes known in the context. *)
Ltac use_eqs :=
  repeat match goal with
  | H : ?a = true |- context [?a] => rewrite H
  | H : ?a = false |- context [?a] => rewrite H
  | H : ?a = Ok _ |- context [?a] => rewrite H
  | H : ?a = Some _ |- context [?a] => rewrite H
  | H : ?a = None |- context [?a] => rewrite H
  end.

(** Booleans to propositions. *)
Ltac to_prop :=
  repeat match goal with
  | H : negb _ = true |- _ => apply negb_true_iff in H
  | H : negb _ = false |- _ => apply negb_false_iff in H
  | H : _ && _ = true |- _ => apply andb_true_iff in H as [? ?]
  | H : _ || _ = false |- _ => apply orb_false_iff in H as [? ?]
  | H : String.eqb _ _ = true |- _ => apply String.eqb_eq in H
  | H : String.eqb _ _ = false |- _ => apply String.eqb_neq in H
  | H : Z.eqb _ _ = true |- _ => apply Z.eqb_eq in H
  | H : Z.eqb _ _ = false |- _ => apply Z.eqb_neq in H
  | H : Z.ltb _ _ = true |- _ => apply Z.ltb_lt in H
  | H : Z.ltb _ _ = false |- _ => apply Z.ltb_ge in H
  | H : Z.leb _ _ = true |- _ => apply Z.leb_le in H
  | H : Z.leb _ _ = false |- _ => apply Z.leb_gt in H
  | H : bool_decide _ = true |- _ => apply bool_decide_eq_true in H
  | H : bool_decide _ = false |- _ => apply bool_decide_eq_false in H
  end.
