(* ===== verification/Interpolation.v ===== *)
(** * Interpolation over a field

    Polynomials as coefficient lists, the bound on their roots, and Lagrange's
    formula: a polynomial of fewer than [n] coefficients is determined by its
    values at [n] distinct points, and for any [n] prescribed values there is one.
    The recovery shares use this over GF(256). *)

From S2P Require Import Prelude.
From Stdlib Require Import Ring.

(** A commutative ring with inverses of what is not zero. *)
Record is_field {F : Type} (zero one : F) (add mul sub : F -> F -> F) (opp inv : F -> F) : Prop := {
  fd_ring : ring_theory zero one add mul sub opp eq;
  fd_inv x : x <> zero -> mul x (inv x) = one;
  fd_nontrivial : one <> zero;
}.

Section Interpolation.
Context {F : Type} `{EqDecision F} (zero one : F) (add mul sub : F -> F -> F) (opp inv : F -> F).
Context (HF : is_field zero one add mul sub opp inv).

Local Infix "+" := add.
Local Infix "*" := mul.
Local Infix "-" := sub.

Let ringF := fd_ring _ _ _ _ _ _ _ HF.
Add Ring ring_of_field : ringF.

Lemma mul_zero x y : x * y = zero -> x = zero \/ y = zero.
Proof.
  intros H. destruct (decide (x = zero)) as [->|Hx]; [by left|]. right.
  transitivity ((x * inv x) * y); [rewrite (fd_inv _ _ _ _ _ _ _ HF) by done; ring|].
  transitivity (inv x * (x * y)); [ring|]. rewrite H. ring.
Qed.

Lemma sub_zero x y : x - y = zero -> x = y.
Proof. intros H. transitivity ((x - y) + y); [ring|]. rewrite H. ring. Qed.

Lemma sub_nonzero x y : x <> y -> x - y <> zero.
Proof. intros Hne H. by apply Hne, sub_zero. Qed.

(** Horner's rule; the constant coefficient comes first. *)
Fixpoint horner (cs : list F) (x : F) : F :=
  match cs with
  | [] => zero
  | c :: r => horner r x * x + c
  end.

(** The functions that are given by [n] coefficients. *)
Definition poly (n : nat) (f : F -> F) : Prop := exists cs, length cs = n /\ forall x, f x = horner cs x.

Fixpoint scale (k : F) (cs : list F) : list F :=
  match cs with [] => [] | c :: r => k * c :: scale k r end.

Lemma scale_length k cs : length (scale k cs) = length cs.
Proof. induction cs as [|c r IH]; simpl; [done | by rewrite IH]. Qed.

Lemma horner_scale k cs x : horner (scale k cs) x = k * horner cs x.
Proof. induction cs as [|c r IH]; simpl; [ring|]. rewrite IH. ring. Qed.

Fixpoint plus_coeffs (a b : list F) : list F :=
  match a, b with
  | x :: r, y :: s => x + y :: plus_coeffs r s
  | _, _ => []
  end.

Lemma plus_length a b : length a = length b -> length (plus_coeffs a b) = length a.
Proof. revert b; induction a as [|x r IH]; intros [|y s] [=]; simpl; [done | by rewrite IH]. Qed.

Lemma horner_plus a b x : length a = length b -> horner (plus_coeffs a b) x = horner a x + horner b x.
Proof. revert b; induction a as [|c r IH]; intros [|d s] [=]; simpl; [ring|]. rewrite IH by done. ring. Qed.

Lemma poly_ext n f g : (forall x, f x = g x) -> poly n f -> poly n g.
Proof. intros He (cs & Hl & Hc). exists cs. split; [done|]. intros x. by rewrite <- He. Qed.

Lemma poly_add n f g : poly n f -> poly n g -> poly n (fun x => f x + g x).
Proof.
  intros (a & Ha & Hf) (b & Hb & Hg). exists (plus_coeffs a b). split; [rewrite plus_length; congruence|].
  intros x. rewrite horner_plus by congruence. by rewrite Hf, Hg.
Qed.

Lemma poly_scale n k f : poly n f -> poly n (fun x => k * f x).
Proof.
  intros (a & Ha & Hf). exists (scale k a). rewrite scale_length. split; [done|]. intros x.
  by rewrite horner_scale, Hf.
Qed.

Lemma horner_zeros n x : horner (replicate n zero) x = zero.
Proof. induction n as [|n IH]; simpl; [done|]. rewrite IH. ring. Qed.

Lemma poly_zero n : poly n (fun _ => zero).
Proof. exists (replicate n zero). rewrite length_replicate. split; [done|]. intros x. by rewrite horner_zeros. Qed.

Lemma horner_snoc_zero cs x : horner (cs ++ [zero]) x = horner cs x.
Proof. induction cs as [|c r IH]; simpl; [ring|]. by rewrite IH. Qed.

Lemma poly_more n f : poly n f -> poly (S n) f.
Proof.
  intros (cs & Hl & Hc). exists (cs ++ [zero]). rewrite length_app, Hl. split; [simpl; lia|].
  intros x. by rewrite horner_snoc_zero.
Qed.

(** A linear factor. *)
Lemma poly_mul_linear n a f : poly n f -> poly (S n) (fun x => f x * (x - a)).
Proof.
  intros Hp. destruct Hp as (cs & Hl & Hc).
  assert (poly (S n) (fun x => f x * x)) as Hx.
  { exists (zero :: cs). simpl. split; [by rewrite Hl|]. intros x. rewrite Hc. ring. }
  apply (poly_ext _ (fun x => f x * x + opp a * f x)); [intros x; ring|].
  apply poly_add; [done|]. apply poly_scale, poly_more. by exists cs.
Qed.

(** Synthetic division by [x - a]. *)
Lemma horner_divide cs a : exists q, length q = pred (length cs) /\ forall x, horner cs x = horner q x * (x - a) + horner cs a.
Proof.
  induction cs as [|c r IH]; simpl.
  - exists []. split; [done|]. intros x. simpl. ring.
  - destruct IH as (q & Hl & Hq). destruct r as [|d r]; simpl in *.
    + exists []. split; [done|]. intros x. simpl. ring.
    + exists (horner (d :: r) a :: q). simpl. split; [by rewrite Hl|]. intros x. rewrite Hq. ring.
Qed.

Lemma poly_divide n f a : poly (S n) f -> f a = zero -> exists g, poly n g /\ forall x, f x = g x * (x - a).
Proof.
  intros (cs & Hl & Hc) Ha. destruct (horner_divide cs a) as (q & Hlq & Hq). exists (horner q). split.
  - exists q. rewrite Hlq, Hl. done.
  - intros x. rewrite Hc, Hq, <- (Hc a), Ha. ring.
Qed.

(** A polynomial with as many distinct roots as coefficients is zero everywhere. *)
Lemma poly_roots n f roots :
  poly n f -> NoDup roots -> length roots = n -> (forall r, r ∈ roots -> f r = zero) -> forall x, f x = zero.
Proof.
  revert f roots; induction n as [|n IH]; intros f roots Hp Hnd Hl Hr x.
  - destruct Hp as ([|] & ? & Hc); [apply Hc | done].
  - destruct roots as [|a roots]; [done|]. apply NoDup_cons in Hnd as [Ha Hnd].
    destruct (poly_divide n f a Hp) as (g & Hg & Hf); [apply Hr; left|]. rewrite Hf.
    rewrite (IH g roots Hg Hnd); [ring | simpl in Hl; lia |].
    intros r Hin. assert (g r * (r - a) = zero) as Hz by (rewrite <- Hf; apply Hr; by right).
    apply mul_zero in Hz as [|Hz]; [done|]. apply sub_zero in Hz. by subst.
Qed.

Lemma poly_agree n f g points :
  poly n f -> poly n g -> NoDup points -> length points = n -> (forall r, r ∈ points -> f r = g r) ->
  forall x, f x = g x.
Proof.
  intros Hf Hg Hnd Hl He x. apply sub_zero.
  apply (poly_roots n (fun x => f x - g x) points); [| done | done | intros r Hr; rewrite He by done; ring].
  apply (poly_ext _ (fun x => f x + opp one * g x)); [intros y; ring|]. by apply poly_add, poly_scale.
Qed.

(** ** Lagrange's formula *)

(** The product over the other points [xj] of [(z - xj) / (xi - xj)]. *)
Fixpoint weight (xs : list F) (xi z : F) : F :=
  match xs with
  | [] => one
  | xj :: r => if decide (xj = xi) then weight r xi z else weight r xi z * ((z - xj) * inv (xi - xj))
  end.

Fixpoint lagrange_sum (xs : list F) (points : list (F * F)) (z : F) : F :=
  match points with
  | [] => zero
  | (xi, yi) :: r => yi * weight xs xi z + lagrange_sum xs r z
  end.

Definition lagrange (points : list (F * F)) (z : F) : F := lagrange_sum (points.*1) points z.

Lemma weight_self xs xi : weight xs xi xi = one.
Proof.
  induction xs as [|xj r IH]; simpl; [done|]. destruct (decide (xj = xi)) as [|Hne]; [done|].
  rewrite IH, (fd_inv _ _ _ _ _ _ _ HF) by (by apply sub_nonzero). ring.
Qed.

Lemma weight_other xs xi xk : xk ∈ xs -> xk <> xi -> weight xs xi xk = zero.
Proof.
  intros Hin Hne. induction xs as [|xj r IH]; [by apply not_elem_of_nil in Hin|]. simpl.
  apply elem_of_cons in Hin as [<-|Hin].
  - rewrite decide_False by done. ring.
  - destruct (decide (xj = xi)); [by apply IH|]. rewrite IH by done. ring.
Qed.

Lemma poly_const k : poly 1 (fun _ => k).
Proof. exists [k]. split; [done|]. intros x. simpl. ring. Qed.

Lemma weight_notin xs xi : xi ∉ xs -> poly (S (length xs)) (weight xs xi).
Proof.
  induction xs as [|xj r IH]; intros Hni; simpl; [apply poly_const|].
  apply not_elem_of_cons in Hni as [Hne Hni]. destruct (decide (xj = xi)); [by subst|].
  apply (poly_ext _ (fun z => inv (xi - xj) * (weight r xi z * (z - xj)))); [intros z; ring|].
  by apply poly_scale, poly_mul_linear, IH.
Qed.

Lemma weight_poly xs xi : NoDup xs -> xi ∈ xs -> poly (length xs) (weight xs xi).
Proof.
  induction xs as [|xj r IH]; intros Hnd Hin; [by apply not_elem_of_nil in Hin|].
  apply NoDup_cons in Hnd as [Hni Hnd]. simpl. destruct (decide (xj = xi)) as [<-|Hne].
  - by apply weight_notin.
  - apply elem_of_cons in Hin as [|Hin]; [by subst|].
    apply (poly_ext _ (fun z => inv (xi - xj) * (weight r xi z * (z - xj)))); [intros z; ring|].
    by apply poly_scale, poly_mul_linear, IH.
Qed.

Lemma lagrange_sum_poly xs points :
  NoDup xs -> points.*1 ⊆ xs -> poly (length xs) (lagrange_sum xs points).
Proof.
  intros Hnd. induction points as [|[xi yi] r IH]; intros Hs; simpl; [apply poly_zero|]. apply poly_add.
  - apply poly_scale, weight_poly; [done|]. apply Hs. left.
  - apply IH. intros x Hx. apply Hs. by right.
Qed.

Lemma lagrange_poly points : NoDup (points.*1) -> poly (length points) (lagrange points).
Proof. intros Hnd. rewrite <- (length_fmap fst). by apply lagrange_sum_poly. Qed.

Lemma lagrange_sum_at xs points xk :
  xk ∈ xs -> xk ∉ points.*1 -> lagrange_sum xs points xk = zero.
Proof.
  intros Hin. induction points as [|[xi yi] r IH]; simpl; [done|]. intros Hni.
  apply not_elem_of_cons in Hni as [Hne Hni]. rewrite weight_other, IH by done. ring.
Qed.

Lemma lagrange_sum_here xs points xk yk :
  xk ∈ xs -> NoDup (points.*1) -> (xk, yk) ∈ points -> lagrange_sum xs points xk = yk.
Proof.
  intros Hxs. induction points as [|[xi yi] r IH]; intros Hnd Hin; [by apply not_elem_of_nil in Hin|].
  simpl in Hnd |- *. apply NoDup_cons in Hnd as [Hni Hnd]. apply elem_of_cons in Hin as [[= -> ->]|Hin].
  - rewrite weight_self, lagrange_sum_at by done. ring.
  - rewrite IH by done. rewrite weight_other; [ring | done |]. intros ->. apply Hni.
    by apply (list_elem_of_fmap_2 fst _ (xi, yk)).
Qed.

Lemma lagrange_at points xk yk : NoDup (points.*1) -> (xk, yk) ∈ points -> lagrange points xk = yk.
Proof.
  intros Hnd Hin. apply lagrange_sum_here; [|done..]. by apply (list_elem_of_fmap_2 fst _ (xk, yk)).
Qed.

(** Interpolation: [n] values of a polynomial with [n] coefficients give it back. *)
Lemma lagrange_interpolates n f points :
  poly n f -> length points = n -> NoDup (points.*1) -> (forall p, p ∈ points -> p.2 = f p.1) ->
  forall z, lagrange points z = f z.
Proof.
  intros Hf Hl Hnd Hv. apply (poly_agree n _ _ (points.*1)); [| done | done | by rewrite length_fmap |].
  - rewrite <- Hl. by apply lagrange_poly.
  - intros r (p & -> & Hp)%list_elem_of_fmap. rewrite <- Hv by done. destruct p as [x y].
    by apply lagrange_at.
Qed.

(** Existence: any values at [n] distinct points are those of a polynomial with
    [n] coefficients. *)
Lemma lagrange_exists points :
  NoDup (points.*1) ->
  exists cs, length cs = length points /\ forall p, p ∈ points -> horner cs p.1 = p.2.
Proof.
  intros Hnd. destruct (lagrange_poly points Hnd) as (cs & Hl & Hc). exists cs. split; [done|].
  intros [x y] Hp. rewrite <- Hc. by apply lagrange_at.
Qed.

Lemma horner_cancel r r' x :
  x <> zero -> horner r x * x = horner r' x * x -> horner r x = horner r' x.
Proof.
  intros Hx He. apply sub_zero. destruct (mul_zero (horner r x - horner r' x) x) as [|]; [|done..].
  transitivity (horner r x * x - horner r' x * x); [ring|]. rewrite He. ring.
Qed.

(** Coefficients are determined by the function, as long as the field has enough
    points. *)
Lemma coefficients_unique points cs cs' :
  NoDup points -> zero ∉ points -> length cs = length cs' -> (length cs <= S (length points))%nat ->
  (forall x, horner cs x = horner cs' x) -> cs = cs'.
Proof.
  intros Hnd Hz. revert cs'; induction cs as [|c r IH]; intros [|c' r'] Hl Hle He; try done.
  injection Hl as Hl. simpl in Hle. assert (c = c') as ->.
  { pose proof (He zero) as H. simpl in H. transitivity (horner r zero * zero + c); [ring|]. rewrite H. ring. }
  f_equal. apply IH; [done | lia |]. intros x.
  apply (poly_agree (length r) (horner r) (horner r') (take (length r) points));
    [by exists r | by exists r' | eapply sublist_NoDup; [done | apply sublist_take] | rewrite length_take; lia |].
  intros a Ha. apply elem_of_take in Ha as (i & Hi%list_elem_of_lookup_2 & _).
  apply horner_cancel; [by intros -> | ].
  pose proof (He a) as H. simpl in H.
  transitivity ((horner r a * a + c') - c'); [ring|]. rewrite H. ring.
Qed.
End Interpolation.
