(* ===== verification/Gf256.v ===== *)
(** * Arithmetic in GF(256) (internal/recovery/package.go)

    [gfMul], [gfPow] and [gfDiv] with their loops and 8-bit shifts, and the proof
    that bytes with exclusive or and [gfMul] are a field.  Multiplication is shown
    bilinear over exclusive or from its loop, so that the laws follow from small
    finite checks. *)

From S2P Require Import Prelude Interpolation.
From Stdlib Require Import Ring.
Local Open Scope Z_scope.

Definition ErrInvalidShare : error := sentinel "recovery.ErrInvalidShare" "invalid recovery share".

(** A byte is an 8-bit unsigned integer. *)
Definition is_byte (z : Z) : Prop := 0 <= z < 256.
#[export] Instance is_byte_dec z : Decision (is_byte z) := _.

(** ** The operations *)

(** One round of the multiplication loop on [a]: [carry := a & 0x80; a <<= 1] and
    the reduction by 0x1b. *)
Definition gf_double (a : Z) : Z :=
  let carry := Z.land a 128 in
  let a := Z.land (Z.shiftl a 1) 255 in
  if negb (carry =? 0) then Z.lxor a 27 else a.

(** The loop of [gfMul]; [None] when the fuel is used up before [b] is zero. *)
Fixpoint gfMul_loop (fuel : nat) (product a b : Z) : option Z :=
  if b =? 0 then Some product
  else
    match fuel with
    | O => None
    | S f =>
        gfMul_loop f (if negb (Z.land b 1 =? 0) then Z.lxor product a else product)
          (gf_double a) (Z.shiftr b 1)
    end.

(** A byte is zero after eight shifts. *)
Definition gfMul (a b : Z) : Z := default 0 (gfMul_loop 8 0 a b).

(** The loop of [gfPow]; a 63-bit power is zero after 63 shifts. *)
Fixpoint gfPow_loop (fuel : nat) (result a power : Z) : option Z :=
  if power <=? 0 then Some result
  else
    match fuel with
    | O => None
    | S f =>
        gfPow_loop f (if negb (Z.land power 1 =? 0) then gfMul result a else result)
          (gfMul a a) (Z.shiftr power 1)
    end.

Definition gfPow (a power : Z) : Z := default 0 (gfPow_loop 63 1 a power).

Definition gfDiv (a b : Z) : result Z :=
  if b =? 0 then Err (errorw ErrInvalidShare "duplicate share") else Ok (gfMul a (gfPow b 254)).

(** ** Bytes *)

Lemma byte_bits z : is_byte z <-> 0 <= z /\ forall n, 8 <= n -> Z.testbit z n = false.
Proof.
  unfold is_byte. split.
  - intros Hz. split; [lia|]. intros n Hn. destruct (Z.eq_dec z 0) as [->|Hne]; [apply Z.testbit_0_l|].
    apply Z.bits_above_log2; [lia|]. assert (Z.log2 z < 8) by (apply Z.log2_lt_pow2; lia). lia.
  - intros [Hp Hb]. split; [done|]. change 256 with (2 ^ 8). destruct (Z.eq_dec z 0) as [->|Hne]; [done|].
    apply Z.log2_lt_pow2; [lia|]. destruct (Z.lt_ge_cases (Z.log2 z) 8) as [|Hge]; [done|].
    assert (Z.testbit z (Z.log2 z) = true) as Ht by (apply Z.bit_log2; lia). by rewrite (Hb _ Hge) in Ht.
Qed.

Lemma byte_lxor a b : is_byte a -> is_byte b -> is_byte (Z.lxor a b).
Proof.
  rewrite !byte_bits. intros [Ha Hba] [Hb Hbb]. split; [apply Z.lxor_nonneg; lia|].
  intros n Hn. by rewrite Z.lxor_spec, Hba, Hbb.
Qed.

Lemma byte_land a b : 0 <= a -> is_byte b -> is_byte (Z.land a b).
Proof.
  rewrite !byte_bits. intros Ha [Hb Hbb]. split; [apply Z.land_nonneg; lia|].
  intros n Hn. by rewrite Z.land_spec, Hbb, andb_false_r.
Qed.

(** Checks over all bytes. *)
Definition all_bytes : list Z := Z.of_nat <$> seq 0 256.

Lemma all_bytes_elem z : is_byte z -> In z all_bytes.
Proof.
  intros Hz. apply in_map_iff. exists (Z.to_nat z). unfold is_byte in Hz. split; [lia|]. apply in_seq. lia.
Qed.

Lemma check_bytes (P : Z -> bool) : forallb P all_bytes = true -> forall z, is_byte z -> P z = true.
Proof. intros Hf z Hz. rewrite forallb_forall in Hf. by apply Hf, all_bytes_elem. Qed.

Lemma check_bytes2 (P : Z -> Z -> bool) :
  forallb (fun a => forallb (P a) all_bytes) all_bytes = true -> forall a b, is_byte a -> is_byte b -> P a b = true.
Proof.
  intros Hf a b Ha Hb. apply (check_bytes (P a)); [|done].
  by apply (check_bytes (fun a => forallb (P a) all_bytes)).
Qed.

Lemma byte_double a : is_byte a -> is_byte (gf_double a).
Proof.
  intros Ha. unfold gf_double. cbv zeta. assert (is_byte (Z.land (Z.shiftl a 1) 255)) as Hs.
  { apply byte_land; [rewrite Z.shiftl_mul_pow2 by lia; unfold is_byte in Ha; lia | unfold is_byte; lia]. }
  case_goal; [|done]. apply byte_lxor; [done | unfold is_byte; lia].
Qed.

(** ** Multiplication is bilinear *)

(** What the loop adds to the product for an [n]-bit [b]. *)
Fixpoint mul_bits (n : nat) (a b : Z) : Z :=
  match n with
  | O => 0
  | S n => Z.lxor (if negb (Z.land b 1 =? 0) then a else 0) (mul_bits n (gf_double a) (Z.shiftr b 1))
  end.

Lemma mul_bits_0 n a : mul_bits n a 0 = 0.
Proof. revert a; induction n as [|n IH]; intros a; simpl; [done|]. by rewrite IH. Qed.

Lemma shiftr1_bound n b : 0 <= b < 2 ^ Z.of_nat (S n) -> 0 <= Z.shiftr b 1 < 2 ^ Z.of_nat n.
Proof.
  rewrite Z.shiftr_div_pow2 by lia. rewrite Nat2Z.inj_succ, Z.pow_succ_r by lia. change (2 ^ 1) with 2.
  intros Hb. split; [apply Z.div_pos; lia | apply Z.div_lt_upper_bound; lia].
Qed.

(** The loop terminates within as many rounds as [b] has bits. *)
Lemma gfMul_loop_bits n p a b :
  0 <= b < 2 ^ Z.of_nat n -> gfMul_loop n p a b = Some (Z.lxor p (mul_bits n a b)).
Proof.
  revert p a b; induction n as [|n IH]; intros p a b Hb; cbn [gfMul_loop mul_bits].
  - assert (b = 0) as -> by (simpl in Hb; lia). by rewrite Z.lxor_0_r.
  - destruct (Z.eqb_spec b 0) as [->|Hne].
    + rewrite mul_bits_0. simpl. by rewrite Z.lxor_0_r.
    + rewrite IH by (by apply shiftr1_bound). f_equal.
      destruct (negb (Z.land b 1 =? 0)); [|by rewrite Z.lxor_0_l]. by rewrite Z.lxor_assoc.
Qed.

Lemma gfMul_bits a b : is_byte b -> gfMul a b = mul_bits 8 a b.
Proof. intros Hb. unfold gfMul. by rewrite gfMul_loop_bits by exact Hb. Qed.

Lemma byte_0 : is_byte 0.
Proof. unfold is_byte. lia. Qed.

Lemma byte_mul_bits n a b : is_byte a -> is_byte (mul_bits n a b).
Proof.
  revert a b; induction n as [|n IH]; intros a b Ha; cbn [mul_bits]; [apply byte_0|].
  apply byte_lxor; [case_goal; [done | apply byte_0] | by apply IH, byte_double].
Qed.

Lemma byte_gfMul a b : is_byte a -> is_byte b -> is_byte (gfMul a b).
Proof. intros Ha Hb. rewrite gfMul_bits by done. by apply byte_mul_bits. Qed.

Lemma gf_double_lxor a b : is_byte a -> is_byte b -> gf_double (Z.lxor a b) = Z.lxor (gf_double a) (gf_double b).
Proof.
  intros Ha Hb. apply Z.eqb_eq.
  apply (check_bytes2 (fun a b => gf_double (Z.lxor a b) =? Z.lxor (gf_double a) (gf_double b))); [|done..].
  vm_compute. reflexivity.
Qed.

Lemma lxor_swap a b c d : Z.lxor (Z.lxor a b) (Z.lxor c d) = Z.lxor (Z.lxor a c) (Z.lxor b d).
Proof.
  rewrite !Z.lxor_assoc. f_equal. rewrite <- !Z.lxor_assoc. by rewrite (Z.lxor_comm b c).
Qed.

Lemma mul_bits_lxor_l n a b c :
  is_byte a -> is_byte b -> mul_bits n (Z.lxor a b) c = Z.lxor (mul_bits n a c) (mul_bits n b c).
Proof.
  revert a b c; induction n as [|n IH]; intros a b c Ha Hb; cbn [mul_bits]; [done|].
  rewrite gf_double_lxor, IH by (done || by apply byte_double). rewrite lxor_swap. f_equal.
  by case_goal.
Qed.

Lemma odd_lxor b c : Z.odd (Z.lxor b c) = xorb (Z.odd b) (Z.odd c).
Proof. by rewrite <- !Z.bit0_odd, Z.lxor_spec. Qed.

Lemma land1_odd b : negb (Z.land b 1 =? 0) = Z.odd b.
Proof.
  change 1 with (Z.ones 1). rewrite Z.land_ones by lia. change (2 ^ 1) with 2. rewrite Zmod_odd.
  by destruct (Z.odd b).
Qed.

Lemma mul_bits_lxor_r n a b c : mul_bits n a (Z.lxor b c) = Z.lxor (mul_bits n a b) (mul_bits n a c).
Proof.
  revert a b c; induction n as [|n IH]; intros a b c; cbn [mul_bits]; [done|].
  rewrite Z.shiftr_lxor, IH, lxor_swap. f_equal. rewrite !land1_odd, odd_lxor.
  destruct (Z.odd b), (Z.odd c); simpl; by rewrite ?Z.lxor_nilpotent, ?Z.lxor_0_r, ?Z.lxor_0_l.
Qed.

Lemma gfMul_lxor_r a b c : is_byte b -> is_byte c -> gfMul a (Z.lxor b c) = Z.lxor (gfMul a b) (gfMul a c).
Proof. intros Hb Hc. rewrite !gfMul_bits by (done || by apply byte_lxor). apply mul_bits_lxor_r. Qed.

Lemma gfMul_lxor_l a b c :
  is_byte a -> is_byte b -> is_byte c -> gfMul (Z.lxor a b) c = Z.lxor (gfMul a c) (gfMul b c).
Proof. intros Ha Hb Hc. rewrite !gfMul_bits by done. by apply mul_bits_lxor_l. Qed.

(** ** The field laws *)

Definition basis : list Z := [1; 2; 4; 8; 16; 32; 64; 128].

Definition bits_of (z : Z) : list Z := List.filter (fun k => negb (Z.land z k =? 0)) basis.

Lemma byte_basis z : is_byte z -> exists ks, Forall (fun k => k ∈ basis) ks /\ z = foldr Z.lxor 0 ks.
Proof.
  intros Hz. exists (bits_of z). split.
  - apply Forall_forall. intros k Hk%list_elem_of_In. apply filter_In in Hk as [Hk _]. by apply list_elem_of_In.
  - apply Z.eqb_eq. apply (check_bytes (fun z => z =? foldr Z.lxor 0 (bits_of z))); [|done].
    vm_compute. reflexivity.
Qed.

Lemma basis_byte k : k ∈ basis -> is_byte k.
Proof. intros Hk%list_elem_of_In. unfold basis, is_byte in *. simpl in Hk. lia. Qed.

(** A property of bytes that exclusive or preserves holds of all once it holds of
    the single bits. *)
Lemma byte_ind (P : Z -> Prop) :
  P 0 -> (forall k, k ∈ basis -> P k) ->
  (forall a b, is_byte a -> is_byte b -> P a -> P b -> P (Z.lxor a b)) ->
  forall z, is_byte z -> P z.
Proof.
  intros H0 Hk Hx z (ks & Hks & ->)%byte_basis.
  assert (is_byte (foldr Z.lxor 0 ks) /\ P (foldr Z.lxor 0 ks)) as [_ ?]; [|done].
  induction Hks as [|k ks Hin _ [IHb IH]]; simpl; [split; [apply byte_0 | done]|].
  pose proof (basis_byte k Hin). split; [by apply byte_lxor | by apply Hx, IH; [..|apply Hk]].
Qed.

Lemma gfMul_0_r a : gfMul a 0 = 0.
Proof. done. Qed.

Lemma gfMul_1_r a : is_byte a -> gfMul a 1 = a.
Proof. intros Ha. unfold gfMul. simpl. apply Z.lxor_0_l. Qed.

Lemma gfMul_comm a b : is_byte a -> is_byte b -> gfMul a b = gfMul b a.
Proof.
  intros Ha Hb. apply Z.eqb_eq. apply (check_bytes2 (fun a b => gfMul a b =? gfMul b a)); [|done..].
  vm_compute. reflexivity.
Qed.

Lemma gfMul_assoc a b c : is_byte a -> is_byte b -> is_byte c -> gfMul a (gfMul b c) = gfMul (gfMul a b) c.
Proof.
  intros Ha Hb. revert c. apply byte_ind; [done| |].
  - intros k Hk. revert b Hb. apply byte_ind.
    + assert (forallb (fun k => forallb (fun a => gfMul a (gfMul 0 k) =? gfMul (gfMul a 0) k) all_bytes) basis = true)
        as Hc by (vm_compute; reflexivity).
      rewrite forallb_forall in Hc. apply Z.eqb_eq.
      apply (check_bytes (fun a => gfMul a (gfMul 0 k) =? gfMul (gfMul a 0) k)); [|done].
      by apply Hc, list_elem_of_In.
    + intros j Hj.
      assert (forallb (fun k => forallb (fun j => forallb (fun a => gfMul a (gfMul j k) =? gfMul (gfMul a j) k)
                all_bytes) basis) basis = true) as Hc by (vm_compute; reflexivity).
      rewrite forallb_forall in Hc. specialize (Hc k (proj1 (list_elem_of_In _ _) Hk)). cbv beta in Hc.
      rewrite forallb_forall in Hc. specialize (Hc j (proj1 (list_elem_of_In _ _) Hj)).
      apply Z.eqb_eq. by apply (check_bytes (fun a => gfMul a (gfMul j k) =? gfMul (gfMul a j) k)).
    + intros b1 b2 H1 H2 E1 E2. pose proof (basis_byte k Hk).
      rewrite gfMul_lxor_l, !gfMul_lxor_r, gfMul_lxor_l, E1, E2 by (done || by apply byte_gfMul). done.
  - intros c1 c2 H1 H2 E1 E2. rewrite !gfMul_lxor_r, E1, E2 by (done || by apply byte_gfMul). done.
Qed.

(** The 254th power is the inverse. *)
Lemma gfMul_inverse a : is_byte a -> a <> 0 -> gfMul a (gfPow a 254) = 1.
Proof.
  intros Ha Hne. assert ((a =? 0) || (gfMul a (gfPow a 254) =? 1) = true) as H.
  { apply (check_bytes (fun a => (a =? 0) || (gfMul a (gfPow a 254) =? 1))); [|done]. vm_compute. reflexivity. }
  apply orb_true_iff in H as [H|H]; by to_prop.
Qed.

Lemma byte_gfPow_loop n r a p : is_byte r -> is_byte a -> is_byte (default 0 (gfPow_loop n r a p)).
Proof.
  revert r a p; induction n as [|n IH]; intros r a p Hr Ha; cbn [gfPow_loop].
  - case_goal; [done | apply byte_0].
  - case_goal; [done|]. apply IH; [|by apply byte_gfMul].
    case_goal; [by apply byte_gfMul | done].
Qed.

Lemma byte_gfPow a p : is_byte a -> is_byte (gfPow a p).
Proof. intros Ha. apply byte_gfPow_loop; [unfold is_byte; lia | done]. Qed.

(** ** The loops terminate, and what they compute *)

(** Repeated multiplication. *)
Definition power_of (a : Z) (n : nat) : Z := Nat.iter n (gfMul a) 1.

Lemma byte_power a n : is_byte a -> is_byte (power_of a n).
Proof. intros Ha. induction n as [|n IH]; simpl; [unfold is_byte; lia | by apply byte_gfMul]. Qed.

Lemma power_add a n m : is_byte a -> power_of a (n + m) = gfMul (power_of a n) (power_of a m).
Proof.
  intros Ha. induction n as [|n IH].
  - pose proof (byte_power a m Ha). simpl. rewrite gfMul_comm by (done || (unfold is_byte; lia)).
    by rewrite gfMul_1_r.
  - change (gfMul a (power_of a (n + m)) = gfMul (gfMul a (power_of a n)) (power_of a m)).
    by rewrite IH, gfMul_assoc by (done || by apply byte_power).
Qed.

Lemma power_square a n : is_byte a -> power_of (gfMul a a) n = power_of a (n + n).
Proof.
  intros Ha. induction n as [|n IH]; [done|].
  change (gfMul (gfMul a a) (power_of (gfMul a a) n) = power_of a (S n + S n)). rewrite IH.
  replace (S n + S n)%nat with (S (S (n + n))) by lia.
  change (gfMul (gfMul a a) (power_of a (n + n)) = gfMul a (gfMul a (power_of a (n + n)))).
  symmetry. apply gfMul_assoc; try done. by apply byte_power.
Qed.

Lemma gfPow_loop_spec n r a p :
  is_byte r -> is_byte a -> 0 <= p < 2 ^ Z.of_nat n ->
  gfPow_loop n r a p = Some (gfMul r (power_of a (Z.to_nat p))).
Proof.
  revert r a p; induction n as [|n IH]; intros r a p Hr Ha Hp; cbn [gfPow_loop].
  - assert (p = 0) as -> by (simpl in Hp; lia). simpl. by rewrite gfMul_1_r.
  - destruct (Z.leb_spec p 0).
    + assert (p = 0) as -> by lia. simpl. by rewrite gfMul_1_r.
    + pose proof (shiftr1_bound n p Hp) as Hs. rewrite land1_odd.
      rewrite IH; [| case_goal; [by apply byte_gfMul | done] | by apply byte_gfMul | done]. f_equal.
      rewrite power_square by done. rewrite Z.shiftr_div_pow2 in * by lia. change (2 ^ 1) with 2 in *.
      pose proof (Z.div_mod p 2 ltac:(lia)) as Hd. rewrite Zmod_odd in Hd. destruct (Z.odd p).
      * replace (Z.to_nat p) with (S (Z.to_nat (p / 2) + Z.to_nat (p / 2))) by lia. simpl.
        symmetry. apply gfMul_assoc; try done. by apply byte_power.
      * by replace (Z.to_nat p) with (Z.to_nat (p / 2) + Z.to_nat (p / 2))%nat by lia.
Qed.

(** The product of two polynomials over GF(2), bits as coefficients, and its
    remainder modulo x^8 + x^4 + x^3 + x + 1. *)
Definition clmul (a b : Z) : Z :=
  foldr (fun i acc => if Z.testbit b i then Z.lxor (Z.shiftl a i) acc else acc) 0 [0; 1; 2; 3; 4; 5; 6; 7].
Definition reduce (z : Z) : Z :=
  foldl (fun z i => if Z.testbit z (8 + i) then Z.lxor z (Z.shiftl 283 i) else z) z [6; 5; 4; 3; 2; 1; 0].

(** The multiplication loop terminates after at most eight rounds on every pair
    of bytes, and computes the product of the two polynomials over GF(2) modulo
    x^8 + x^4 + x^3 + x + 1. *)
Theorem gfMul_is_polynomial_product a b :
  is_byte a -> is_byte b ->
  gfMul_loop 8 0 a b = Some (reduce (clmul a b)) /\ is_byte (reduce (clmul a b)).
Proof.
  intros Ha Hb. assert (gfMul a b = reduce (clmul a b)) as <-.
  { apply Z.eqb_eq. apply (check_bytes2 (fun a b => gfMul a b =? reduce (clmul a b))); [|done..].
    vm_compute. reflexivity. }
  split; [|by apply byte_gfMul]. unfold gfMul. by rewrite gfMul_loop_bits by exact Hb.
Qed.

Lemma gfMul_is_polynomial_product_witness : gfMul_loop 8 0 87 131 = Some 193 /\ reduce (clmul 87 131) = 193.
Proof.
  destruct (gfMul_is_polynomial_product 87 131) as [H _]; [vm_compute; split; congruence..|].
  split; [rewrite H; vm_compute; reflexivity | vm_compute; reflexivity].
Defined.

(** The exponentiation loop terminates on every non-negative [int] and is
    repeated multiplication; division is defined for every non-zero divisor and is
    the one of the field: the quotient times the divisor is the dividend. *)
Theorem gfPow_gfDiv_correct a b p :
  is_byte a -> is_byte b -> 0 <= p < 2 ^ 63 ->
  gfPow_loop 63 1 a p = Some (power_of a (Z.to_nat p)) /\
  (b = 0 -> gfDiv a b = Err (errorw ErrInvalidShare "duplicate share")) /\
  (b <> 0 -> exists q, gfDiv a b = Ok q /\ is_byte q /\ gfMul q b = a /\
     forall q', is_byte q' -> gfMul q' b = a -> q' = q).
Proof.
  intros Ha Hb Hp. pose proof (byte_power a (Z.to_nat p) Ha) as Hpow.
  assert (is_byte (gfPow b 254)) as Hi by (by apply byte_gfPow). split_and!.
  - rewrite gfPow_loop_spec by (done || (unfold is_byte; lia)).
    rewrite gfMul_comm by (done || (unfold is_byte; lia)). by rewrite gfMul_1_r.
  - by intros ->.
  - intros Hne. exists (gfMul a (gfPow b 254)). unfold gfDiv. destruct (Z.eqb_spec b 0); [done|].
    split_and!; [done | by apply byte_gfMul | |].
    + rewrite <- gfMul_assoc, (gfMul_comm _ b), gfMul_inverse, gfMul_1_r by done. done.
    + intros q' Hq <-. rewrite <- gfMul_assoc, gfMul_inverse, gfMul_1_r by done. done.
Qed.

Lemma gfPow_gfDiv_correct_witness : gfPow_loop 63 1 3 254 = Some (power_of 3 254) /\ exists q, gfDiv 5 3 = Ok q /\ gfMul q 3 = 5.
Proof.
  destruct (gfPow_gfDiv_correct 5 3 254) as (_ & _ & Hd); [vm_compute; split; congruence..|].
  destruct (gfPow_gfDiv_correct 3 3 254) as (Hp & _); [vm_compute; split; congruence..|].
  split; [exact Hp|]. destruct (Hd ltac:(discriminate)) as (q & Hq & _ & Hm & _). exists q. split; [exact Hq | exact Hm].
Defined.

(** ** Bytes as a field *)

Definition gf256 : Type := dsig is_byte.
Definition gf (z : Z) (H : is_byte z) : gf256 := dexist z H.

Lemma gf256_byte (x : gf256) : is_byte (`x).
Proof. apply (proj2_dsig x). Qed.

Lemma gf256_eq (x y : gf256) : `x = `y -> x = y.
Proof. intros H. by apply dsig_eq. Qed.

Definition gf_zero : gf256 := gf 0 byte_0.
Lemma byte_1 : is_byte 1.
Proof. unfold is_byte. lia. Qed.

Definition gf_one : gf256 := gf 1 byte_1.
Definition gf_add (x y : gf256) : gf256 := gf (Z.lxor (`x) (`y)) (byte_lxor _ _ (gf256_byte x) (gf256_byte y)).
Definition gf_mul (x y : gf256) : gf256 := gf (gfMul (`x) (`y)) (byte_gfMul _ _ (gf256_byte x) (gf256_byte y)).
Definition gf_inv (x : gf256) : gf256 := gf (gfPow (`x) 254) (byte_gfPow _ 254 (gf256_byte x)).

(** Bytes with exclusive or and [gfMul] are a field of characteristic two, where
    subtraction is addition and the 254th power the inverse. *)
Lemma gf256_field : is_field gf_zero gf_one gf_add gf_mul gf_add id gf_inv.
Proof.
  split.
  - constructor; intros; apply gf256_eq; simpl; repeat match goal with x : gf256 |- _ =>
      lazymatch goal with H : is_byte (`x) |- _ => fail | _ => pose proof (gf256_byte x) end end.
    + apply Z.lxor_0_l.
    + apply Z.lxor_comm.
    + by rewrite Z.lxor_assoc.
    + rewrite gfMul_comm by (done || (unfold is_byte; lia)). by apply gfMul_1_r.
    + by apply gfMul_comm.
    + by apply gfMul_assoc.
    + by apply gfMul_lxor_l.
    + done.
    + apply Z.lxor_nilpotent.
  - intros x Hx. apply gf256_eq. simpl. apply gfMul_inverse; [apply gf256_byte|].
    intros H. apply Hx, gf256_eq. done.
  - intros H. apply (f_equal proj1_sig) in H. done.
Qed.
