(* ===== verification/Shamir.v ===== *)
(** * Shamir's secret sharing (internal/recovery/package.go)

    [splitSecret], [evalPolynomial] and [combineShares], byte by byte over GF(256).
    A Go [[]byte] is a list of bytes here.  The reader of random bytes is the list
    of what it delivers before it fails. *)

From S2P Require Import Prelude Interpolation Gf256.
Local Open Scope Z_scope.

Definition ErrThreshold : error := sentinel "recovery.ErrThreshold" "recovery threshold not met".

Record sharePoint := mkPoint { sp_index : Z; sp_value : list Z }.

(** ** Splitting *)

(** Horner's rule from the last coefficient down. *)
Definition evalPolynomial (coefficients : list Z) (x : Z) : Z :=
  foldr (fun coefficient result => Z.lxor (gfMul result x) coefficient) 0 coefficients.

(** [io.ReadFull]: [n] bytes and the reader after them, or an error. *)
Definition ReadFull (random : list Z) (n : nat) : result (list Z * list Z) :=
  if (length random <? n)%nat
  then Err (errorf (if (length random =? 0)%nat then "EOF" else "unexpected EOF"))
  else Ok (take n random, drop n random).

(** The coefficients for the secret byte [b]. *)
Definition coefficients_for (threshold b : Z) (random : list Z) : result (list Z * list Z) :=
  if 1 <? threshold then
    read ← map_err (errorp "generate share coefficients") (ReadFull random (Z.to_nat (threshold - 1)));
    Ok (b :: read.1, read.2)
  else Ok ([b], random).

(** [points[i].value[offset] = evalPolynomial(coefficients, points[i].index)] for
    the next offset. *)
Definition set_value (coefficients : list Z) (point : sharePoint) : sharePoint :=
  mkPoint (sp_index point) (sp_value point ++ [evalPolynomial coefficients (sp_index point)]).

Definition first_points (shares : Z) : list sharePoint :=
  (fun i => mkPoint ((Z.of_nat i + 1) mod 256) []) <$> seq 0 (Z.to_nat shares).

(** One round of the loop over the secret. *)
Definition split_round (threshold : Z) (st : list sharePoint * list Z) (b : Z)
  : result (list sharePoint * list Z) :=
  read ← coefficients_for threshold b st.2; Ok (set_value read.1 <$> st.1, read.2).

(** The points and what is left of the reader. *)
Definition splitSecret (secret : list Z) (threshold shares : Z) (random : list Z)
  : result (list sharePoint * list Z) :=
  foldR (split_round threshold) (first_points shares, random) secret.

(** ** Combining *)

(** The checks on one point before the secret is computed. *)
Definition check_point (secretLen : nat) (seen : list Z) (point : sharePoint) : result (list Z) :=
  check (negb (sp_index point =? 0)) (errorw ErrInvalidShare "zero index");;
  check (negb (existsb (Z.eqb (sp_index point)) seen)) (errorw ErrInvalidShare "duplicate share");;
  check (length (sp_value point) =? secretLen)%nat (errorw ErrInvalidShare "share length mismatch");;
  Ok (sp_index point :: seen).

Definition check_points (secretLen : nat) (points : list sharePoint) : result (list Z) :=
  foldR (check_point secretLen) [] points.

(** The positions and points that a [range] loop visits. *)
Definition ranged (points : list sharePoint) : list (nat * sharePoint) :=
  zip (seq 0 (length points)) points.

Definition share_basis (points : list sharePoint) (i : nat) (point : sharePoint) : result Z :=
  foldR (fun basis other =>
      if (i =? other.1)%nat then Ok basis
      else
        divisor ← gfDiv (sp_index other.2) (Z.lxor (sp_index point) (sp_index other.2));
        Ok (gfMul basis divisor))
    1 (ranged points).

(** The byte at [offset]; every value has that offset after the checks. *)
Definition combine_offset (points : list sharePoint) (offset : nat) : result Z :=
  foldR (fun value p =>
      basis ← share_basis points p.1 p.2;
      Ok (Z.lxor value (gfMul (default 0 (sp_value p.2 !! offset)) basis)))
    0 (ranged points).

Definition combineShares (points : list sharePoint) : result (list Z) :=
  match points with
  | [] => Err ErrThreshold
  | first :: _ =>
      let secretLen := length (sp_value first) in
      check_points secretLen points;;
      mapR (combine_offset points) (seq 0 secretLen)
  end.

(** ** The field elements behind the bytes *)

Definition to_gf (z : Z) : gf256 := match decide (is_byte z) with left H => gf z H | right _ => gf_zero end.

Lemma to_gf_val z : is_byte z -> proj1_sig (to_gf z) = z.
Proof. intros H. unfold to_gf. by destruct (decide (is_byte z)). Qed.

Lemma to_gf_of x : to_gf (`x) = x.
Proof. apply gf256_eq, to_gf_val, gf256_byte. Qed.

Lemma to_gf_inj x y : is_byte x -> is_byte y -> to_gf x = to_gf y -> x = y.
Proof. intros Hx Hy H. by rewrite <- (to_gf_val x), <- (to_gf_val y), H. Qed.

Lemma to_gf_nonzero x : is_byte x -> x <> 0 -> to_gf x <> gf_zero.
Proof. intros Hx Hne H. apply Hne. rewrite <- (to_gf_val x), H by done. done. Qed.

Lemma to_gf_mul x y : is_byte x -> is_byte y -> to_gf (gfMul x y) = gf_mul (to_gf x) (to_gf y).
Proof.
  intros Hx Hy. apply gf256_eq. rewrite to_gf_val by (by apply byte_gfMul). unfold gf_mul, gf. simpl proj1_sig.
  by rewrite (to_gf_val x), (to_gf_val y).
Qed.

Lemma to_gf_add x y : is_byte x -> is_byte y -> to_gf (Z.lxor x y) = gf_add (to_gf x) (to_gf y).
Proof.
  intros Hx Hy. apply gf256_eq. rewrite to_gf_val by (by apply byte_lxor). unfold gf_add, gf. simpl proj1_sig.
  by rewrite (to_gf_val x), (to_gf_val y).
Qed.

Lemma to_gf_pow x : is_byte x -> to_gf (gfPow x 254) = gf_inv (to_gf x).
Proof.
  intros Hx. apply gf256_eq. rewrite to_gf_val by (by apply byte_gfPow). unfold gf_inv, gf. simpl proj1_sig.
  by rewrite (to_gf_val x).
Qed.

Local Notation ghorner := (horner gf_zero gf_add gf_mul).
Local Notation gweight := (weight gf_one gf_mul gf_add gf_inv).
Local Notation glagrange := (lagrange gf_zero gf_one gf_add gf_mul gf_add gf_inv).
Local Notation gpoly := (poly gf_zero gf_add gf_mul).

Lemma eval_horner cs x :
  Forall is_byte cs -> is_byte x -> evalPolynomial cs x = proj1_sig (ghorner (to_gf <$> cs) (to_gf x)).
Proof.
  intros Hcs Hx. induction Hcs as [|c r Hc _ IH]; [done|].
  change (evalPolynomial (c :: r) x) with (Z.lxor (gfMul (evalPolynomial r x) x) c).
  rewrite IH. cbn. by rewrite !to_gf_val.
Qed.

Lemma byte_eval cs x : Forall is_byte cs -> is_byte x -> is_byte (evalPolynomial cs x).
Proof. intros Hcs Hx. rewrite eval_horner by done. apply gf256_byte. Qed.

Lemma eval_zero b rest : evalPolynomial (b :: rest) 0 = b.
Proof.
  change (evalPolynomial (b :: rest) 0) with (Z.lxor (gfMul (evalPolynomial rest 0) 0) b).
  by rewrite gfMul_0_r, Z.lxor_0_l.
Qed.

(** ** What splitting computes *)

(** The coefficients of each secret byte, from the random bytes in order. *)
Fixpoint columns (t : nat) (secret random : list Z) : list (list Z) :=
  match secret with
  | [] => []
  | b :: r => (b :: take (t - 1) random) :: columns t r (drop (t - 1) random)
  end.

(** The value of the share with index [x]. *)
Definition value_at (cols : list (list Z)) (x : Z) : list Z := (fun cs => evalPolynomial cs x) <$> cols.

Definition indices (shares : Z) : list Z := (fun i => (Z.of_nat i + 1) mod 256) <$> seq 0 (Z.to_nat shares).

Lemma coefficients_for_spec threshold b random :
  1 <= threshold ->
  coefficients_for threshold b random =
    if (length random <? Z.to_nat threshold - 1)%nat
    then Err (errorp "generate share coefficients" (errorf (if (length random =? 0)%nat then "EOF" else "unexpected EOF")))
    else Ok (b :: take (Z.to_nat threshold - 1) random, drop (Z.to_nat threshold - 1) random).
Proof.
  intros Ht. unfold coefficients_for, ReadFull. destruct (Z.ltb_spec 1 threshold) as [Hlt|Hge].
  - replace (Z.to_nat (threshold - 1)) with (Z.to_nat threshold - 1)%nat by lia. by case_goal.
  - replace (Z.to_nat threshold - 1)%nat with 0%nat by lia. by destruct random.
Qed.

Lemma split_round_spec threshold points random b :
  1 <= threshold ->
  split_round threshold (points, random) b =
    if (length random <? Z.to_nat threshold - 1)%nat
    then Err (errorp "generate share coefficients" (errorf (if (length random =? 0)%nat then "EOF" else "unexpected EOF")))
    else Ok (set_value (b :: take (Z.to_nat threshold - 1) random) <$> points, drop (Z.to_nat threshold - 1) random).
Proof. intros Ht. unfold split_round. rewrite coefficients_for_spec by done. simpl. by case_goal. Qed.

Lemma set_value_all cols cs (xs : list Z) :
  set_value cs <$> ((fun x => mkPoint x (value_at cols x)) <$> xs) =
  (fun x => mkPoint x (value_at (cols ++ [cs]) x)) <$> xs.
Proof.
  rewrite <- list_fmap_compose. apply list_fmap_ext. intros i x _. unfold compose, set_value. simpl.
  unfold value_at. by rewrite fmap_app.
Qed.

Lemma split_loop threshold secret random cols (xs : list Z) :
  1 <= threshold -> ((Z.to_nat threshold - 1) * length secret <= length random)%nat ->
  foldR (split_round threshold) ((fun x => mkPoint x (value_at cols x)) <$> xs, random) secret =
    Ok ((fun x => mkPoint x (value_at (cols ++ columns (Z.to_nat threshold) secret random) x)) <$> xs,
        drop ((Z.to_nat threshold - 1) * length secret) random).
Proof.
  intros Ht. revert random cols; induction secret as [|b r IH]; intros random cols Hge.
  - simpl. by rewrite Nat.mul_0_r, app_nil_r, drop_0.
  - cbn [length] in Hge. rewrite Nat.mul_succ_r in Hge. cbn [foldR]. rewrite split_round_spec by done.
    destruct (Nat.ltb_spec (length random) (Z.to_nat threshold - 1)) as [|_]; [nia|].
    cbn [mbind result_bind fst snd]. rewrite set_value_all, IH by (rewrite length_drop; nia).
    rewrite drop_drop. cbn [columns length]. rewrite <- app_assoc. cbn [app].
    do 3 f_equal. rewrite Nat.mul_succ_r. lia.
Qed.

Lemma split_short threshold secret random points :
  1 <= threshold -> (length random < (Z.to_nat threshold - 1) * length secret)%nat ->
  exists e, foldR (split_round threshold) (points, random) secret = Err (errorp "generate share coefficients" e).
Proof.
  intros Ht. revert random points; induction secret as [|b r IH]; intros random points Hlt.
  - simpl in Hlt. lia.
  - cbn [length] in Hlt. rewrite Nat.mul_succ_r in Hlt. cbn [foldR]. rewrite split_round_spec by done.
    destruct (Nat.ltb_spec (length random) (Z.to_nat threshold - 1)) as [|Hge]; [by eexists|].
    cbn [mbind result_bind fst snd]. apply IH. rewrite length_drop. nia.
Qed.

(** The shares: at each index the values of the columns. *)
Lemma splitSecret_spec secret threshold shares random :
  1 <= threshold -> ((Z.to_nat threshold - 1) * length secret <= length random)%nat ->
  splitSecret secret threshold shares random =
    Ok ((fun x => mkPoint x (value_at (columns (Z.to_nat threshold) secret random) x)) <$> indices shares,
        drop ((Z.to_nat threshold - 1) * length secret) random).
Proof.
  intros Ht Hl. rewrite <- (split_loop threshold secret random []) by done.
  unfold splitSecret, first_points, indices. by rewrite <- list_fmap_compose.
Qed.

Lemma indices_elem shares x : 0 <= shares <= 255 -> x ∈ indices shares <-> 1 <= x <= shares.
Proof.
  intros Hs. unfold indices. rewrite list_elem_of_fmap. setoid_rewrite elem_of_seq. split.
  - intros (i & -> & Hi). rewrite Z.mod_small; lia.
  - intros Hx. exists (Z.to_nat (x - 1)). rewrite Z.mod_small; lia.
Qed.

Lemma indices_lookup shares i :
  0 <= shares <= 255 -> (i < Z.to_nat shares)%nat -> indices shares !! i = Some (Z.of_nat i + 1).
Proof.
  intros Hs Hi. unfold indices. rewrite list_lookup_fmap, lookup_seq_lt by done. simpl. f_equal.
  apply Z.mod_small. lia.
Qed.

Lemma indices_NoDup shares : 0 <= shares <= 255 -> NoDup (indices shares).
Proof.
  intros Hs. apply NoDup_alt. intros i j x Hi Hj.
  assert (forall k, indices shares !! k = Some x -> x = Z.of_nat k + 1) as H; [|apply H in Hi, Hj; lia].
  intros k Hk. pose proof (lookup_lt_Some _ _ _ Hk) as Hlt. unfold indices in Hlt.
  rewrite length_fmap, length_seq in Hlt. rewrite indices_lookup in Hk by done. congruence.
Qed.

Lemma index_byte shares x : 0 <= shares <= 255 -> x ∈ indices shares -> is_byte x /\ x <> 0.
Proof. intros Hs Hx%indices_elem; [|done]. unfold is_byte. lia. Qed.

Lemma columns_byte t secret random :
  Forall is_byte secret -> Forall is_byte random -> Forall (Forall is_byte) (columns t secret random).
Proof.
  intros Hs. revert random; induction Hs as [|b r Hb _ IH]; intros random Hr; simpl; constructor.
  - constructor; [done|]. by apply Forall_take.
  - by apply IH, Forall_drop.
Qed.

Lemma columns_length t secret random : length (columns t secret random) = length secret.
Proof. revert random; induction secret as [|b r IH]; intros random; simpl; [done | by rewrite IH]. Qed.

Lemma value_length cols x : length (value_at cols x) = length cols.
Proof. apply length_fmap. Qed.

Lemma value_byte cols x : Forall (Forall is_byte) cols -> is_byte x -> Forall is_byte (value_at cols x).
Proof. intros Hc Hx. apply Forall_fmap. eapply Forall_impl; [done|]. intros cs Hcs. by apply byte_eval. Qed.

(** ** What combining computes *)

Definition gf_ring := fd_ring _ _ _ _ _ _ _ gf256_field.
Add Ring gf256_ring : gf_ring.
Ltac gf_ring_eq := match goal with |- ?a = ?b => change (@eq gf256 a b); ring end.

Lemma lxor_nonzero x y : x <> y -> Z.lxor x y <> 0.
Proof. intros Hne H. apply Hne. by apply Z.lxor_eq. Qed.

Lemma ranged_lookup points j q : (j, q) ∈ ranged points <-> points !! j = Some q.
Proof.
  unfold ranged. rewrite list_elem_of_lookup. setoid_rewrite lookup_zip_Some. split.
  - intros (k & Hk & Hq). apply lookup_seq in Hk as [-> _]. done.
  - intros Hq. exists j. split; [|done]. apply lookup_seq_lt. by apply lookup_lt_Some in Hq.
Qed.

Lemma ranged_points points : (ranged points).*2 = points.
Proof. unfold ranged. apply snd_zip. by rewrite length_seq. Qed.

(** The points that pass the checks: non-zero distinct indices, values of one
    length. *)
Definition good_points (n : nat) (points : list sharePoint) : Prop :=
  NoDup (sp_index <$> points) /\
  Forall (fun p => is_byte (sp_index p) /\ sp_index p <> 0 /\ length (sp_value p) = n /\ Forall is_byte (sp_value p)) points.

Lemma basis_loop x i l acc :
  is_byte x -> is_byte acc ->
  (forall p, p ∈ l -> is_byte (sp_index p.2) /\ (i = p.1 <-> sp_index p.2 = x)) ->
  foldR (fun basis other =>
      if (i =? other.1)%nat then Ok basis
      else
        divisor ← gfDiv (sp_index other.2) (Z.lxor x (sp_index other.2));
        Ok (gfMul basis divisor)) acc l =
  Ok (proj1_sig (gf_mul (to_gf acc) (gweight ((fun p => to_gf (sp_index p.2)) <$> l) (to_gf x) gf_zero))).
Proof.
  intros Hx. revert acc; induction l as [|[j q] l IH]; intros acc Hacc Hl.
  - simpl. f_equal. rewrite to_gf_val by done. change (proj1_sig gf_one) with 1. by rewrite gfMul_1_r.
  - destruct (Hl (j, q)) as [Hq Hj]; [left|]. assert (forall p, p ∈ l -> _) as Hl' by (intros p Hp; apply Hl; by right).
    cbn [foldR fmap list_fmap weight fst snd] in *. destruct (Nat.eqb_spec i j) as [E|E].
    + apply Hj in E as ->. rewrite decide_True by done. by apply IH.
    + assert (sp_index q <> x) as Hne by (intros ?; by apply E, Hj).
      rewrite decide_False by (intros H; by apply Hne, to_gf_inj).
      unfold gfDiv. destruct (Z.eqb_spec (Z.lxor x (sp_index q)) 0) as [H|_]; [by apply lxor_nonzero in H|].
      cbn [mbind result_bind].
      assert (is_byte (Z.lxor x (sp_index q))) as Hb by (by apply byte_lxor).
      assert (is_byte (gfMul (sp_index q) (gfPow (Z.lxor x (sp_index q)) 254))) as Hd
        by (by apply byte_gfMul, byte_gfPow).
      rewrite IH; [| by apply byte_gfMul | done]. f_equal. f_equal.
      assert (to_gf (gfMul acc (gfMul (sp_index q) (gfPow (Z.lxor x (sp_index q)) 254))) =
              gf_mul (to_gf acc) (gf_mul (to_gf (sp_index q)) (gf_inv (gf_add (to_gf x) (to_gf (sp_index q)))))) as ->.
      { rewrite !to_gf_mul, to_gf_pow, to_gf_add by (done || by apply byte_gfPow). reflexivity. }
      gf_ring_eq.
Qed.

Lemma share_basis_weight n points i p :
  good_points n points -> points !! i = Some p ->
  share_basis points i p =
    Ok (proj1_sig (gweight ((fun p => to_gf (sp_index p)) <$> points) (to_gf (sp_index p)) gf_zero)).
Proof.
  intros [Hnd Hall] Hi. pose proof (Forall_lookup_1 _ _ _ _ Hall Hi) as (Hp & _ & _). unfold share_basis.
  rewrite basis_loop; [| done | apply byte_1 |].
  - do 2 f_equal.
    assert ((fun p => to_gf (sp_index p)) <$> points = (fun p => to_gf (sp_index p.2)) <$> ranged points) as ->.
    { rewrite <- (ranged_points points) at 1. by rewrite <- list_fmap_compose. }
    assert (to_gf 1 = gf_one) as -> by (by apply gf256_eq). set (w := gweight _ _ _). gf_ring_eq.
  - intros [j q] Hq%ranged_lookup. simpl. pose proof (Forall_lookup_1 _ _ _ _ Hall Hq) as (? & _ & _).
    split; [done|]. split.
    + intros <-. congruence.
    + intros He. apply (NoDup_lookup (sp_index <$> points) i j (sp_index p) Hnd);
        rewrite list_lookup_fmap; [by rewrite Hi | by rewrite Hq, <- He].
Qed.

Definition gpoint (offset : nat) (p : sharePoint) : gf256 * gf256 :=
  (to_gf (sp_index p), to_gf (default 0 (sp_value p !! offset))).

Lemma value_default_byte p o : Forall is_byte (sp_value p) -> is_byte (default 0 (sp_value p !! o)).
Proof.
  intros Hv. destruct (sp_value p !! o) as [b|] eqn:E; simpl; [by eapply Forall_lookup_1 | apply byte_0].
Qed.

Lemma offset_loop n points offset l acc :
  good_points n points -> is_byte acc -> (forall p, p ∈ l -> p ∈ ranged points) ->
  foldR (fun value p =>
      basis ← share_basis points p.1 p.2;
      Ok (Z.lxor value (gfMul (default 0 (sp_value p.2 !! offset)) basis))) acc l =
  Ok (proj1_sig (gf_add (to_gf acc)
        (lagrange_sum gf_zero gf_one gf_add gf_mul gf_add gf_inv ((fun p => to_gf (sp_index p)) <$> points)
           ((fun p => gpoint offset p.2) <$> l) gf_zero))).
Proof.
  intros Hg. revert acc; induction l as [|[j q] l IH]; intros acc Hacc Hl.
  - simpl. f_equal. rewrite to_gf_val by done. change (proj1_sig gf_zero) with 0. by rewrite Z.lxor_0_r.
  - assert (points !! j = Some q) as Hq by (apply ranged_lookup, Hl; left).
    pose proof (Forall_lookup_1 _ _ _ _ (proj2 Hg) Hq) as (_ & _ & _ & Hv).
    cbn [foldR fmap list_fmap lagrange_sum fst snd gpoint]. rewrite (share_basis_weight n) by done.
    cbn [mbind result_bind]. set (w := gweight _ _ _).
    assert (is_byte (default 0 (sp_value q !! offset))) as Hb by (by apply value_default_byte).
    assert (is_byte (gfMul (default 0 (sp_value q !! offset)) (proj1_sig w))) as Hm by (apply byte_gfMul; [done | apply gf256_byte]).
    rewrite IH; [| by apply byte_lxor | intros p Hp; apply Hl; by right]. do 2 f_equal.
    assert (to_gf (Z.lxor acc (gfMul (default 0 (sp_value q !! offset)) (proj1_sig w))) =
            gf_add (to_gf acc) (gf_mul (to_gf (default 0 (sp_value q !! offset))) w)) as ->.
    { rewrite to_gf_add, to_gf_mul, to_gf_of by (done || apply gf256_byte). reflexivity. }
    unfold gpoint. simpl. fold w. gf_ring_eq.
Qed.

Lemma combine_offset_lagrange n points offset :
  good_points n points ->
  combine_offset points offset = Ok (proj1_sig (glagrange (gpoint offset <$> points) gf_zero)).
Proof.
  intros Hg. unfold combine_offset. rewrite (offset_loop n); [| done | apply byte_0 | done]. do 2 f_equal.
  unfold lagrange. rewrite <- list_fmap_compose.
  assert ((fun p => gpoint offset p.2) <$> ranged points = gpoint offset <$> points) as ->.
  { rewrite <- (ranged_points points) at 2. by rewrite <- list_fmap_compose. }
  assert (to_gf 0 = gf_zero) as -> by (by apply gf256_eq).
  change (fst ∘ gpoint offset) with (fun p => to_gf (sp_index p)). set (v := lagrange_sum _ _ _ _ _ _ _ _ _). gf_ring_eq.
Qed.

Lemma check_points_from n seen points :
  (exists r, foldR (check_point n) seen points = Ok r) <->
  NoDup (sp_index <$> points) /\
  Forall (fun p => sp_index p <> 0 /\ length (sp_value p) = n /\ sp_index p ∉ seen) points.
Proof.
  revert seen; induction points as [|p r IH]; intros seen.
  - simpl. split; [intros _; split; constructor | intros _; by eexists].
  - cbn [foldR fmap list_fmap]. rewrite NoDup_cons, Forall_cons. split.
    + intros (x & H). inv_ok. match goal with E : check_point _ _ _ = Ok _ |- _ => unfold check_point in E end. inv_ok. to_prop. destruct (proj1 (IH (sp_index p :: seen))) as [Hnd Hall]; [by eexists|].
      assert (sp_index p ∉ seen) as Hns.
      { intros Hin%list_elem_of_In. match goal with E : existsb _ _ = false |- _ => rename E into Ex end.
        assert (existsb (Z.eqb (sp_index p)) seen = true) as E; [|congruence].
        apply existsb_exists. exists (sp_index p). split; [done | apply Z.eqb_refl]. }
      split_and!; try done.
      * intros (q & Hq & Hin)%list_elem_of_fmap. pose proof (proj1 (Forall_forall _ _) Hall q Hin) as (_ & _ & Hni).
        apply Hni. rewrite Hq. left.
      * by apply Nat.eqb_eq.
      * eapply Forall_impl; [exact Hall|]. intros q (? & ? & Hni). split_and!; try done.
        intros ?. apply Hni. by right.
    + intros ([Hni Hnd] & (Hz & Hlen & Hns) & Hall). apply Z.eqb_neq in Hz.
      assert (existsb (Z.eqb (sp_index p)) seen = false) as Hex.
      { apply not_true_iff_false. intros (y & Hy & E%Z.eqb_eq)%existsb_exists. subst y.
        by apply Hns, list_elem_of_In. }
      assert (check_point n seen p = Ok (sp_index p :: seen)) as ->; [|apply IH].
      { apply Nat.eqb_eq in Hlen. unfold check_point. by rewrite Hz, Hex, Hlen. }
      split; [done|].
      apply Forall_forall. intros q Hq. pose proof (proj1 (Forall_forall _ _) Hall q Hq) as (? & ? & ?).
      split_and!; try done. intros [E|]%elem_of_cons; [|done]. apply Hni. rewrite <- E.
      by apply list_elem_of_fmap_2.
Qed.

Lemma mapR_total {A B} (f : A -> result B) g l : (forall x, f x = Ok (g x)) -> mapR f l = Ok (g <$> l).
Proof. intros H. induction l as [|x r IH]; simpl; [done|]. by rewrite H, IH. Qed.

Lemma combine_good n points :
  points <> [] -> good_points n points ->
  combineShares points = Ok ((fun o => proj1_sig (glagrange (gpoint o <$> points) gf_zero)) <$> seq 0 n).
Proof.
  intros Hne Hg. destruct points as [|first r]; [done|]. unfold combineShares.
  assert (length (sp_value first) = n) as ->.
  { destruct Hg as [_ Hall]. by apply Forall_cons in Hall as [(_ & _ & ? & _) _]. }
  destruct (proj2 (check_points_from n [] (first :: r))) as (seen & Hs).
  { destruct Hg as [Hnd Hall]. split; [done|]. eapply Forall_impl; [exact Hall|].
    intros p (? & ? & ? & ?). split_and!; try done. apply not_elem_of_nil. }
  unfold check_points. rewrite Hs. cbn [mbind result_bind]. apply mapR_total.
  intros o. by apply (combine_offset_lagrange n).
Qed.

(** ** Shares determine the secret *)

Lemma columns_lookup t secret random o :
  ((t - 1) * length secret <= length random)%nat ->
  columns t secret random !! o =
    (fun b => b :: take (t - 1) (drop ((t - 1) * o) random)) <$> (secret !! o).
Proof.
  revert random o; induction secret as [|b r IH]; intros random o Hl; [done|]. destruct o as [|o].
  - simpl. by rewrite Nat.mul_0_r, drop_0.
  - simpl in Hl |- *. rewrite Nat.mul_succ_r in Hl. rewrite IH by (rewrite length_drop; nia).
    destruct (r !! o); [|done]. simpl. rewrite drop_drop, Nat.mul_succ_r. do 4 f_equal. lia.
Qed.

Lemma poly_weaken n m f : (n <= m)%nat -> gpoly n f -> gpoly m f.
Proof. intros Hle Hp. induction Hle as [|m _ IH]; [done|]. by apply (poly_more _ _ _ _ _ _ _ gf256_field). Qed.

(** The point of a share index. *)
Definition point_of (cols : list (list Z)) (x : Z) : sharePoint := mkPoint x (value_at cols x).

Lemma points_good cols shares xs :
  0 <= shares <= 255 -> Forall (Forall is_byte) cols -> NoDup xs -> xs ⊆ indices shares ->
  good_points (length cols) (point_of cols <$> xs).
Proof.
  intros Hs Hc Hnd Hin. split.
  - rewrite <- list_fmap_compose. by rewrite list_fmap_id.
  - apply Forall_fmap, Forall_forall. intros x Hx. destruct (index_byte shares x) as [Hb Hne]; [done | by apply Hin|].
    simpl. split_and!; [done | done | apply value_length | by apply value_byte].
Qed.

Lemma interpolate_column cols shares xs o b rest t :
  0 <= shares <= 255 -> Forall (Forall is_byte) cols -> NoDup xs -> xs ⊆ indices shares ->
  cols !! o = Some (b :: rest) -> length rest = (t - 1)%nat -> (1 <= t <= length xs)%nat ->
  proj1_sig (glagrange (gpoint o <$> (point_of cols <$> xs)) gf_zero) = b.
Proof.
  intros Hs Hc Hnd Hin Ho Hr Ht. pose proof (Forall_lookup_1 _ _ _ _ Hc Ho) as Hb.
  assert (forall x, x ∈ xs -> is_byte x) as Hx by (intros x Hx; by apply (index_byte shares), Hin).
  rewrite (lagrange_interpolates _ _ _ _ _ _ _ gf256_field (length xs) (ghorner (to_gf <$> b :: rest))).
  - transitivity (evalPolynomial (b :: rest) 0); [|apply eval_zero]. rewrite eval_horner by (done || apply byte_0).
    by assert (to_gf 0 = gf_zero) as -> by (by apply gf256_eq).
  - apply (poly_weaken t); [lia|]. eexists. split; [|intros; reflexivity]. rewrite length_fmap. simpl. lia.
  - by rewrite !length_fmap.
  - rewrite <- !list_fmap_compose. apply NoDup_fmap_2_strong; [|done]. intros x y Hx1 Hy1 He.
    apply to_gf_inj in He; [done | by apply Hx..].
  - intros p (q & -> & (x & -> & Hxx)%list_elem_of_fmap)%list_elem_of_fmap.
    change (to_gf (default 0 (value_at cols x !! o)) = ghorner (to_gf <$> b :: rest) (to_gf x)).
    unfold value_at. rewrite list_lookup_fmap, Ho.
    change (to_gf (evalPolynomial (b :: rest) x) = ghorner (to_gf <$> b :: rest) (to_gf x)).
    rewrite eval_horner; [apply to_gf_of | done | by apply Hx].
Qed.

Lemma combine_columns secret random t shares xs :
  0 <= shares <= 255 -> Forall is_byte secret -> Forall is_byte random ->
  ((t - 1) * length secret <= length random)%nat ->
  NoDup xs -> xs ⊆ indices shares -> (1 <= t <= length xs)%nat ->
  combineShares (point_of (columns t secret random) <$> xs) = Ok secret.
Proof.
  intros Hs Hsec Hr Hl Hnd Hin Ht. pose proof (columns_byte t secret random Hsec Hr) as Hc.
  rewrite (combine_good (length (columns t secret random))); [| by destruct xs; simpl in *; [lia|] | by eapply points_good].
  f_equal. rewrite columns_length. apply list_eq. intros o. rewrite list_lookup_fmap.
  destruct (secret !! o) as [b|] eqn:Eb.
  - pose proof (lookup_lt_Some _ _ _ Eb) as Hlt. rewrite lookup_seq_lt by done. simpl. f_equal.
    pose proof (columns_lookup t secret random o Hl) as Hco. rewrite Eb in Hco. simpl in Hco.
    eapply interpolate_column; [done..|exact Hco| |done]. rewrite length_take, length_drop. nia.
  - apply lookup_ge_None in Eb. by rewrite lookup_seq_ge.
Qed.

(** ** Fewer shares determine nothing *)

Lemma fmap_to_gf_vals (r : list gf256) : to_gf <$> (proj1_sig <$> r) = r.
Proof.
  rewrite <- list_fmap_compose. rewrite <- (list_fmap_id r) at 2. apply list_fmap_ext.
  intros i y _. apply to_gf_of.
Qed.

Lemma fmap_vals_to_gf r : Forall is_byte r -> proj1_sig <$> (to_gf <$> r) = r.
Proof.
  intros Hr. rewrite <- list_fmap_compose. rewrite <- (list_fmap_id r) at 2. apply list_fmap_ext.
  intros i y Hy. apply to_gf_val. by eapply Forall_lookup_1.
Qed.

Lemma vals_byte (r : list gf256) : Forall is_byte (proj1_sig <$> r).
Proof. apply Forall_fmap, Forall_forall. intros y _. apply gf256_byte. Qed.

(** Distinct non-zero bytes as field elements. *)
Definition share_indices (xs : list Z) : Prop := NoDup xs /\ Forall (fun x => is_byte x /\ x <> 0) xs.

Lemma share_indices_gf xs : share_indices xs -> NoDup (gf_zero :: (to_gf <$> xs)).
Proof.
  intros [Hnd Hxs]. rewrite Forall_forall in Hxs. apply NoDup_cons. split.
  - intros (x & He & Hin)%list_elem_of_fmap. destruct (Hxs x Hin) as [Hbx Hne]. by apply (to_gf_nonzero x Hbx Hne).
  - apply NoDup_fmap_2_strong; [|done]. intros x y Hx Hy He. apply to_gf_inj in He; [done | by apply Hxs..].
Qed.

(** The values of a polynomial with a given constant coefficient are arbitrary at
    as many points as there are other coefficients. *)
Lemma column_exists xs b ys :
  share_indices xs -> is_byte b -> length ys = length xs -> Forall is_byte ys ->
  exists rest, length rest = length xs /\ Forall is_byte rest /\
               (fun x => evalPolynomial (b :: rest) x) <$> xs = ys.
Proof.
  intros Hxs Hb Hly Hys. pose proof (share_indices_gf xs Hxs) as Hnd. destruct Hxs as [_ Hx].
  destruct (lagrange_exists _ _ _ _ _ _ _ gf256_field ((gf_zero, to_gf b) :: zip (to_gf <$> xs) (to_gf <$> ys)))
    as (cs & Hlen & Hcs); [simpl; by rewrite fst_zip by (rewrite !length_fmap; lia)|].
  simpl in Hlen. rewrite length_zip_with, !length_fmap, Hly, Nat.min_id in Hlen.
  destruct cs as [|c rest]; [done|]. injection Hlen as Hlen. assert (c = to_gf b) as ->.
  { pose proof (Hcs (gf_zero, to_gf b) ltac:(left)) as H. simpl in H. rewrite <- H. gf_ring_eq. }
  exists (proj1_sig <$> rest). split_and!; [by rewrite length_fmap | apply vals_byte |].
  apply list_eq. intros i. rewrite list_lookup_fmap. destruct (xs !! i) as [x|] eqn:Ex.
  - destruct (lookup_lt_is_Some_2 ys i) as [y Ey]; [rewrite Hly; by eapply lookup_lt_Some|]. rewrite Ey.
    change (Some (evalPolynomial (b :: (proj1_sig <$> rest)) x) = Some y). f_equal.
    pose proof (Forall_lookup_1 _ _ _ _ Hx Ex) as [Hbx _].
    rewrite eval_horner by (done || (constructor; [done | apply vals_byte])). rewrite fmap_cons, fmap_to_gf_vals.
    pose proof (Hcs (to_gf x, to_gf y)) as H. cbn [fst snd] in H. rewrite H; [apply to_gf_val; by eapply Forall_lookup_1|]. right.
    apply list_elem_of_lookup. exists i. apply lookup_zip_Some. by rewrite !list_lookup_fmap, Ex, Ey.
  - symmetry. apply lookup_ge_None. rewrite Hly. by apply lookup_ge_None.
Qed.

(** They determine the other coefficients. *)
Lemma column_determined xs b rest rest' :
  share_indices xs -> is_byte b -> length rest = length xs -> length rest' = length xs ->
  Forall is_byte rest -> Forall is_byte rest' ->
  (fun x => evalPolynomial (b :: rest) x) <$> xs = (fun x => evalPolynomial (b :: rest') x) <$> xs ->
  rest = rest'.
Proof.
  intros Hxs Hb Hl Hl' Hr Hr' He. pose proof (share_indices_gf xs Hxs) as Hnd. destruct Hxs as [_ Hx].
  rewrite Forall_forall in Hx.
  assert (to_gf <$> (b :: rest) = to_gf <$> (b :: rest')) as Hcs.
  { apply (coefficients_unique _ _ _ _ _ _ _ gf256_field (to_gf <$> xs)).
    1, 2: by apply NoDup_cons in Hnd as [? ?].
    1, 2: rewrite !length_fmap; simpl; lia.
    apply (poly_agree _ _ _ _ _ _ _ gf256_field (S (length xs)) _ _ (gf_zero :: (to_gf <$> xs))).
    - eexists. split; [|reflexivity]. rewrite length_fmap. simpl. lia.
    - eexists. split; [|reflexivity]. rewrite length_fmap. simpl. lia.
    - done.
    - simpl. by rewrite length_fmap.
    - intros r [->|(x & -> & Hin)%list_elem_of_fmap]%elem_of_cons; [simpl; gf_ring_eq|].
      destruct (Hx x Hin) as [Hbx _]. apply gf256_eq. rewrite <- !eval_horner by (done || by constructor).
      apply list_elem_of_lookup in Hin as [i Hi]. apply (f_equal (lookup i)) in He.
      rewrite !list_lookup_fmap, Hi in He. by injection He. }
  rewrite <- (fmap_vals_to_gf rest), <- (fmap_vals_to_gf rest') by done. f_equal. by injection Hcs.
Qed.

Lemma columns_exist xs secret secret' random :
  share_indices xs -> Forall is_byte secret -> Forall is_byte secret' -> Forall is_byte random ->
  length secret' = length secret -> length random = (length xs * length secret)%nat ->
  exists random', length random' = length random /\ Forall is_byte random' /\
    forall x, x ∈ xs -> value_at (columns (S (length xs)) secret' random') x = value_at (columns (S (length xs)) secret random) x.
Proof.
  intros Hxs Hs. revert secret' random; induction Hs as [|b r Hb _ IH]; intros [|b' r'] random Hs' Hr Hl Hlr; try done.
  - by exists random.
  - apply Forall_cons in Hs' as [Hb' Hs']. simpl in Hl, Hlr. rewrite Nat.mul_succ_r in Hlr.
    destruct (column_exists xs b' ((fun x => evalPolynomial (b :: take (length xs) random) x) <$> xs))
      as (rest & Hrl & Hrb & He); [done | done | by rewrite length_fmap | |].
    { apply Forall_fmap, Forall_forall. intros x Hx. apply byte_eval.
      - constructor; [done|]. by apply Forall_take.
      - destruct Hxs as [_ Hxs]. rewrite Forall_forall in Hxs. by apply Hxs. }
    destruct (IH r' (drop (length xs) random)) as (tail & Htl & Htb & Ht);
      [done | by apply Forall_drop | lia | rewrite length_drop; lia |].
    exists (rest ++ tail). split_and!.
    + rewrite length_app, Htl, length_drop. lia.
    + by apply Forall_app.
    + intros x Hx. cbn [columns]. rewrite Nat.sub_succ, Nat.sub_0_r, take_app_length', drop_app_length' by done.
      unfold value_at in *. rewrite !fmap_cons, Ht by done. f_equal.
      apply list_elem_of_lookup in Hx as [i Hi]. apply (f_equal (lookup i)) in He.
      rewrite !list_lookup_fmap, Hi in He. by injection He.
Qed.

Lemma columns_determined xs secret random random' :
  share_indices xs -> Forall is_byte secret -> Forall is_byte random -> Forall is_byte random' ->
  length random = (length xs * length secret)%nat -> length random' = length random ->
  (forall x, x ∈ xs -> value_at (columns (S (length xs)) secret random') x = value_at (columns (S (length xs)) secret random) x) ->
  random' = random.
Proof.
  intros Hxs Hs. revert random random'; induction Hs as [|b r Hb _ IH]; intros random random' Hr Hr' Hl Hl' He.
  - simpl in Hl. rewrite Nat.mul_0_r in Hl. destruct random; [|done]. by destruct random'.
  - simpl in Hl. rewrite Nat.mul_succ_r in Hl.
    rewrite <- (take_drop (length xs) random), <- (take_drop (length xs) random').
    assert (forall x, x ∈ xs ->
      evalPolynomial (b :: take (length xs) random') x = evalPolynomial (b :: take (length xs) random) x /\
      value_at (columns (S (length xs)) r (drop (length xs) random')) x =
      value_at (columns (S (length xs)) r (drop (length xs) random)) x) as Hx.
    { intros x Hx. specialize (He x Hx). cbn [columns] in He. rewrite Nat.sub_succ, Nat.sub_0_r in He.
      unfold value_at in *. rewrite !fmap_cons in He. injection He as E1 E2. done. }
    f_equal.
    + apply (column_determined xs b); [done | done | rewrite length_take; lia | rewrite length_take; lia
        | by apply Forall_take | by apply Forall_take |].
      apply list_fmap_ext. intros i x Hi. apply list_elem_of_lookup_2, Hx in Hi as [-> _]. done.
    + apply IH; [by apply Forall_drop | by apply Forall_drop | rewrite length_drop; lia | rewrite !length_drop; lia |].
      intros x Hin. by apply Hx.
Qed.

Lemma known_indices shares (known : list nat) :
  0 <= shares <= 255 -> NoDup known -> Forall (fun i => (i < Z.to_nat shares)%nat) known ->
  share_indices ((fun i => Z.of_nat i + 1) <$> known).
Proof.
  intros Hs Hnd Hk. split.
  - apply NoDup_fmap_2; [|done]. intros i j. lia.
  - apply Forall_fmap. eapply Forall_impl; [done|]. intros i Hi. unfold compose, is_byte. cbn beta in *. lia.
Qed.

(** ** What a holder of some shares sees *)

(** All strings of [n] bytes. *)
Fixpoint byte_strings (n : nat) : list (list Z) :=
  match n with
  | O => [[]]
  | S n => (Z.of_nat <$> seq 0 256) ≫= fun b => cons b <$> byte_strings n
  end.

Lemma byte_strings_elem n r : r ∈ byte_strings n <-> length r = n /\ Forall is_byte r.
Proof.
  revert r. induction n as [|n IH]; intros r; cbn [byte_strings].
  - rewrite list_elem_of_singleton. split; [intros ->; by split | intros [H _]; by destruct r].
  - rewrite list_elem_of_bind. split.
    + intros (b & (r' & -> & [Hl Hf]%IH)%list_elem_of_fmap & (i & -> & Hi%elem_of_seq)%list_elem_of_fmap).
      split; [simpl; lia|]. constructor; [unfold is_byte; lia | done].
    + intros [Hl Hf]. destruct r as [|b r]; [done|]. apply Forall_cons in Hf as [Hb Hf]. exists b. split.
      * apply list_elem_of_fmap_2, IH. by split; [simpl in Hl; lia|].
      * apply list_elem_of_fmap. exists (Z.to_nat b). unfold is_byte in Hb. split; [lia | apply elem_of_seq; lia].
Qed.

Lemma byte_strings_NoDup n : NoDup (byte_strings n).
Proof.
  induction n as [|n IH]; cbn [byte_strings]; [by apply NoDup_singleton|]. apply NoDup_bind.
  - intros b1 b2 r _ _ (r1 & -> & _)%list_elem_of_fmap (r2 & [= <- _] & _)%list_elem_of_fmap. done.
  - intros b _. by apply (NoDup_fmap_2 _).
  - apply (NoDup_fmap_2 _), NoDup_seq.
Qed.

(** A relation that pairs every element of a list with an element of the other, and
    no two with the same one. *)
Lemma paired_length {A B} (R : A -> B -> Prop) l1 l2 :
  NoDup l1 -> (forall x, x ∈ l1 -> exists y, y ∈ l2 /\ R x y) ->
  (forall x x' y, x ∈ l1 -> x' ∈ l1 -> R x y -> R x' y -> x = x') -> (length l1 <= length l2)%nat.
Proof.
  intros Hnd. revert l2. induction Hnd as [|x l1 Hx _ IH]; intros l2 Htot Hinj; [simpl; lia|].
  destruct (Htot x ltac:(set_solver)) as (y & [l2' Hp]%elem_of_Permutation & Hxy). rewrite Hp. simpl.
  apply le_n_S, IH; [|intros; eapply Hinj; set_solver].
  intros x' Hx'. destruct (Htot x' ltac:(set_solver)) as (y' & Hy' & Hxy'). rewrite Hp in Hy'.
  apply elem_of_cons in Hy' as [->|Hy']; [|by exists y'].
  destruct Hx. by rewrite (Hinj x x' y ltac:(set_solver) ltac:(set_solver) Hxy Hxy').
Qed.

(** Positions can be added up to any number. *)
Lemma more_positions n (known : list nat) k :
  NoDup known -> Forall (fun i => (i < n)%nat) known -> (length known + k <= n)%nat ->
  exists more, NoDup more /\ Forall (fun i => (i < n)%nat) more /\ known ⊆ more /\ length more = (length known + k)%nat.
Proof.
  intros Hnd Hk. induction k as [|k IH]; intros Hn; [by exists known; rewrite Nat.add_0_r|].
  destruct IH as (more & Hm1 & Hm2 & Hm3 & Hm4); [lia|].
  destruct (decide (Forall (fun i => i ∈ more) (seq 0 n))) as [Hall|Hsome].
  - rewrite Forall_forall in Hall. assert (length (seq 0 n) <= length more)%nat as Hle; [|rewrite length_seq in Hle; lia].
    apply submseteq_length, NoDup_submseteq; [apply NoDup_seq | exact Hall].
  - apply not_Forall_Exists in Hsome; [|apply _]. apply Exists_exists in Hsome as (i & Hi%elem_of_seq & Hni).
    exists (i :: more). split_and!; [by constructor | constructor; [lia | done] | set_solver | simpl; lia].
Qed.

#[global] Instance sharePoint_eq_dec : EqDecision sharePoint.
Proof. solve_decision. Defined.

(** The shares at the positions [known]. *)
Definition shares_seen (known : list nat) (secret : list Z) (threshold shares : Z) (random : list Z)
  : list (option sharePoint) :=
  match splitSecret secret threshold shares random with
  | Ok (points, _) => (fun i => points !! i) <$> known
  | Err _ => []
  end.

Section Seen.
Context (threshold shares : Z) (known : list nat).
Hypothesis Ht : 1 <= threshold <= shares.
Hypothesis Hsh : shares <= 255.
Hypothesis Hnd : NoDup known.
Hypothesis Hk : Forall (fun i => (i < Z.to_nat shares)%nat) known.

Lemma split_exactly secret random :
  length random = (Z.to_nat (threshold - 1) * length secret)%nat ->
  splitSecret secret threshold shares random
  = Ok (point_of (columns (Z.to_nat threshold) secret random) <$> indices shares, []).
Proof.
  intros Hl. rewrite splitSecret_spec by (lia || (rewrite Hl; nia)).
  replace (Z.to_nat threshold - 1)%nat with (Z.to_nat (threshold - 1)) by lia. by rewrite <- Hl, drop_all.
Qed.

(** Two holders of the same positions see the same exactly if all the values agree. *)
Lemma seen_same secret secret' random random' :
  length secret' = length secret -> length random = (Z.to_nat (threshold - 1) * length secret)%nat ->
  length random' = length random ->
  shares_seen known secret' threshold shares random' = shares_seen known secret threshold shares random <->
  forall x, x ∈ (fun i => Z.of_nat i + 1) <$> known ->
    value_at (columns (Z.to_nat threshold) secret' random') x = value_at (columns (Z.to_nat threshold) secret random) x.
Proof.
  intros Hl Hr Hr'. unfold shares_seen. rewrite !split_exactly by congruence. rewrite Forall_forall in Hk.
  assert (forall cols i, i ∈ known -> (point_of cols <$> indices shares) !! i = Some (point_of cols (Z.of_nat i + 1))) as Hat.
  { intros cols i Hi. by rewrite list_lookup_fmap, indices_lookup by (lia || by apply Hk). }
  split.
  - intros He x (i & -> & Hi)%list_elem_of_fmap. pose proof Hi as [j Hj]%list_elem_of_lookup.
    apply (f_equal (lookup j)) in He. rewrite !list_lookup_fmap, Hj in He. cbn in He. rewrite !Hat in He by done. by injection He.
  - intros He. apply list_fmap_ext. intros j i Hi%list_elem_of_lookup_2. rewrite !Hat by done. unfold point_of.
    rewrite He; [done|]. by apply (list_elem_of_fmap_2 (fun i => Z.of_nat i + 1)).
Qed.

Context (secret secret' : list Z).
Hypothesis Hs : Forall is_byte secret.
Hypothesis Hs' : Forall is_byte secret'.
Hypothesis Hl : length secret' = length secret.
Hypothesis Hfull : Z.of_nat (length known) = threshold - 1.

(** With one share less than the threshold, every string of random bytes for one
    secret has exactly one for the other with which the holder sees the same. *)
Lemma seen_counterpart random :
  Forall is_byte random -> length random = (Z.to_nat (threshold - 1) * length secret)%nat ->
  exists! random', (length random' = length random /\ Forall is_byte random') /\
    shares_seen known secret' threshold shares random' = shares_seen known secret threshold shares random.
Proof.
  intros Hr Hlr. set (xs := (fun i => Z.of_nat i + 1) <$> known).
  assert (length xs = length known) as Hxl by (apply length_fmap).
  assert (share_indices xs) as Hxs by (apply (known_indices shares); [lia | done..]).
  assert (Z.to_nat threshold = S (length xs)) as Htn by lia.
  assert (length random = (length xs * length secret)%nat) as Hlx by (rewrite Hlr; f_equal; lia).
  destruct (columns_exist xs secret secret' random) as (random' & Hl' & Hb' & He); try done.
  exists random'. split.
  - split; [done|]. apply seen_same; try done. by rewrite Htn.
  - intros random'' ((Hl'' & Hb'') & Hsame). pose proof (proj1 (seen_same secret secret' random random'' Hl Hlr Hl'') Hsame) as Hx. rewrite Htn in Hx.
    symmetry. apply (columns_determined xs secret'); try done; [rewrite Hl', Hlx, Hl; done | congruence |].
    intros x Hin. by rewrite He, Hx.
Qed.
End Seen.

(** A view is given by as many strings for one secret as for the other. *)
Lemma seen_count_le threshold shares known secret secret' view :
  1 <= threshold <= shares -> shares <= 255 -> NoDup known -> Forall (fun i => (i < Z.to_nat shares)%nat) known ->
  Forall is_byte secret -> Forall is_byte secret' -> length secret' = length secret ->
  Z.of_nat (length known) <= threshold - 1 ->
  let n := (Z.to_nat (threshold - 1) * length secret)%nat in
  (length (filter (fun r => shares_seen known secret threshold shares r = view) (byte_strings n))
   <= length (filter (fun r => shares_seen known secret' threshold shares r = view) (byte_strings n)))%nat.
Proof.
  intros Ht Hsh Hnd Hk Hs Hs' Hl Hn n.
  destruct (more_positions (Z.to_nat shares) known (Z.to_nat (threshold - 1) - length known) Hnd Hk)
    as (more & Hm1 & Hm2 & Hm3 & Hm4); [lia|]. assert (Z.of_nat (length more) = threshold - 1) as Hfull by lia.
  apply (paired_length (fun r r' => shares_seen more secret' threshold shares r' = shares_seen more secret threshold shares r)).
  - apply NoDup_filter, byte_strings_NoDup.
  - intros r [Hv [Hlr Hr]%byte_strings_elem]%list_elem_of_filter.
    destruct (seen_counterpart threshold shares more Ht Hsh Hm1 Hm2 secret secret' Hs Hs' Hl Hfull r Hr Hlr)
      as (r' & ((Hlr' & Hr') & He) & _). exists r'. split; [|done].
    apply list_elem_of_filter. split; [|apply byte_strings_elem; split; [lia | done]]. rewrite <- Hv.
    apply (seen_same threshold shares known); try done.
    pose proof (proj1 (seen_same threshold shares more Ht Hsh Hm2 secret secret' r r' Hl Hlr Hlr') He) as Hx.
    intros x (i & -> & Hi)%list_elem_of_fmap. apply Hx. apply (list_elem_of_fmap_2 (fun i => Z.of_nat i + 1)). by apply Hm3.
  - intros r1 r2 r' [_ [Hl1 Hr1]%byte_strings_elem]%list_elem_of_filter [_ [Hl2 Hr2]%byte_strings_elem]%list_elem_of_filter H1 H2.
    destruct (seen_counterpart threshold shares more Ht Hsh Hm1 Hm2 secret secret Hs Hs eq_refl Hfull r1 Hr1 Hl1)
      as (r & _ & Hu). rewrite <- (Hu r1), <- (Hu r2); [done | | done]. split; [split; [unfold n in *; congruence | done] | congruence].
Qed.

(** ** Properties *)

(** C15: fewer shares than the threshold say nothing about the secret.  Whatever the
    holder of at most [threshold - 1] shares sees, as many strings of random bytes
    give this view for one secret as for any other secret of the same length, so that
    with uniform random bytes every secret is equally likely; and one share less than
    the threshold leaves for every secret exactly one string with which [splitSecret]
    hands out the very same shares at those positions. *)
Theorem splitSecret_hides_secret secret secret' threshold shares (known : list nat) :
  Forall is_byte secret -> Forall is_byte secret' -> length secret' = length secret ->
  1 <= threshold <= shares -> shares <= 255 ->
  NoDup known -> Forall (fun i => (i < Z.to_nat shares)%nat) known -> Z.of_nat (length known) <= threshold - 1 ->
  let n := (Z.to_nat (threshold - 1) * length secret)%nat in
  (forall view,
    length (filter (fun r => shares_seen known secret threshold shares r = view) (byte_strings n))
    = length (filter (fun r => shares_seen known secret' threshold shares r = view) (byte_strings n))) /\
  forall random, length random = n -> Forall is_byte random ->
    (exists points, splitSecret secret threshold shares random = Ok (points, [])) /\
    (Z.of_nat (length known) = threshold - 1 ->
     exists! random', (length random' = n /\ Forall is_byte random') /\
       shares_seen known secret' threshold shares random' = shares_seen known secret threshold shares random).
Proof.
  intros Hs Hs' Hl Ht Hsh Hnd Hk Hn n. split.
  - intros view. apply Nat.le_antisymm; [by apply seen_count_le|].
    unfold n. rewrite <- Hl. by apply seen_count_le; [..|congruence|].
  - intros random Hlr Hr. split; [eexists; by apply split_exactly|]. intros Hfull.
    pose proof (seen_counterpart threshold shares known Ht Hsh Hnd Hk secret secret' Hs Hs' Hl Hfull random Hr Hlr) as H.
    by rewrite Hlr in H.
Qed.

Lemma splitSecret_hides_secret_witness :
  (exists! random', (length random' = 4%nat /\ Forall is_byte random') /\
    shares_seen [1; 4]%nat [99; 98] 3 5 random' = shares_seen [1; 4]%nat [7; 255] 3 5 [10; 20; 30; 40]) /\
  (forall view, length (filter (fun r => shares_seen [1%nat] [7; 255] 3 5 r = view) (byte_strings 4))
    = length (filter (fun r => shares_seen [1%nat] [99; 98] 3 5 r = view) (byte_strings 4))).
Proof.
  split.
  - destruct (splitSecret_hides_secret [7; 255] [99; 98] 3 5 [1; 4]%nat) as [_ H];
      [by apply (bool_decide_unpack _) | by apply (bool_decide_unpack _) | reflexivity | lia | lia
      | by apply (bool_decide_unpack _) | by apply (bool_decide_unpack _) | simpl; lia |].
    apply (H [10; 20; 30; 40]); [reflexivity | by apply (bool_decide_unpack _) | reflexivity].
  - destruct (splitSecret_hides_secret [7; 255] [99; 98] 3 5 [1]%nat) as [H _];
      [by apply (bool_decide_unpack _) | by apply (bool_decide_unpack _) | reflexivity | lia | lia
      | by apply (bool_decide_unpack _) | by apply (bool_decide_unpack _) | simpl; lia |].
    exact H.
Defined.

(** C35: on byte-valued input of a valid size, splitting fails exactly when the reader
    of random bytes runs short; otherwise there are [shares] points with the indices
    1, 2, ... in order and as many value bytes as the secret has. *)
Theorem splitSecret_typed secret threshold shares random :
  Forall is_byte secret -> Forall is_byte random -> 1 <= threshold <= shares -> shares <= 255 ->
  match splitSecret secret threshold shares random with
  | Ok (points, rest) =>
      (Z.to_nat (threshold - 1) * length secret <= length random)%nat /\
      rest = drop (Z.to_nat (threshold - 1) * length secret) random /\
      sp_index <$> points = (fun i => Z.of_nat i + 1) <$> seq 0 (Z.to_nat shares) /\
      good_points (length secret) points
  | Err e => (length random < Z.to_nat (threshold - 1) * length secret)%nat /\
             exists cause, e = errorp "generate share coefficients" cause
  end.
Proof.
  intros Hs Hr Ht Hsh. replace (Z.to_nat (threshold - 1)) with (Z.to_nat threshold - 1)%nat by lia.
  destruct (Nat.le_gt_cases ((Z.to_nat threshold - 1) * length secret) (length random)) as [Hle|Hgt].
  - rewrite splitSecret_spec by (done || lia). split_and!; [done | done | |].
    + rewrite <- list_fmap_compose. apply list_eq. intros i. rewrite !list_lookup_fmap.
      destruct (Nat.lt_ge_cases i (Z.to_nat shares)) as [Hi|Hi].
      * by rewrite indices_lookup, lookup_seq_lt by (done || lia).
      * rewrite lookup_seq_ge by done. by rewrite lookup_ge_None_2 by (unfold indices; rewrite length_fmap, length_seq; lia).
    + rewrite <- (columns_length (Z.to_nat threshold) secret random).
      apply (points_good _ shares); [lia | by apply columns_byte | apply indices_NoDup; lia | done].
  - destruct (split_short threshold secret random (first_points shares)) as [e He]; [lia | done|].
    unfold splitSecret. rewrite He. split; [done | by eexists].
Qed.

Lemma splitSecret_typed_witness :
  (sp_index <$> match splitSecret [7] 2 3 [9] with Ok (points, _) => points | Err _ => [] end) = [1; 2; 3].
Proof.
  pose proof (splitSecret_typed [7] 2 3 [9]) as H.
  destruct (splitSecret [7] 2 3 [9]) as [[points rest]|e] eqn:E; [|discriminate E].
  destruct H as (_ & _ & Hi & _);
    [by apply (bool_decide_unpack _) | by apply (bool_decide_unpack _) | lia | lia | exact Hi].
Defined.

Lemma check_points_err n seen points e :
  foldR (check_point n) seen points = Err e -> errors_Is e ErrInvalidShare = true.
Proof.
  revert seen; induction points as [|p r IH]; intros seen; cbn [foldR]; [done|].
  destruct (check_point n seen p) as [seen'|e'] eqn:E; [apply IH|]. intros [= <-]. unfold check_point, check in E.
  destruct (sp_index p =? 0), (existsb _ seen), (length _ =? n)%nat; by (discriminate E || injection E as <-).
Qed.

Definition byte_points (points : list sharePoint) : Prop :=
  Forall (fun p => is_byte (sp_index p) /\ Forall is_byte (sp_value p)) points.

(** Either the checks pass and the formula applies, or they give the error. *)
Lemma combine_cases first r :
  byte_points (first :: r) ->
  (exists n, good_points n (first :: r) /\
     combineShares (first :: r) = Ok ((fun o => proj1_sig (glagrange (gpoint o <$> (first :: r)) gf_zero)) <$> seq 0 n)) \/
  (exists e, combineShares (first :: r) = Err e /\ errors_Is e ErrInvalidShare = true).
Proof.
  intros Hb. destruct (check_points (length (sp_value first)) (first :: r)) as [seen|e] eqn:Hc.
  - left. exists (length (sp_value first)).
    assert (good_points (length (sp_value first)) (first :: r)) as Hg; [|split; [done | by apply combine_good]].
    destruct (proj1 (check_points_from _ _ _) (ex_intro _ _ Hc)) as [Hnd Hall]. split; [done|].
    unfold byte_points in Hb. rewrite Forall_forall in *. intros p Hp.
    destruct (Hb p Hp), (Hall p Hp) as (? & ? & _). done.
  - right. exists e. split; [cbn [combineShares]; by rewrite Hc | by eapply check_points_err].
Qed.

(** On byte-valued points combining succeeds exactly when there is a point, the
    indices are non-zero and distinct and the values have one length; then the
    secret consists of as many bytes, each the value at zero of the polynomial
    through the points.  Division by zero never happens. *)
Theorem combineShares_total points :
  byte_points points ->
  match combineShares points with
  | Ok secret =>
      points <> [] /\ good_points (length secret) points /\ Forall is_byte secret /\
      forall o b, secret !! o = Some b -> to_gf b = glagrange (gpoint o <$> points) gf_zero
  | Err e =>
      if decide (points = []) then e = ErrThreshold
      else errors_Is e ErrInvalidShare = true /\ forall n, ~ good_points n points
  end.
Proof.
  intros Hb. destruct points as [|first r]; [done|].
  destruct (combine_cases first r Hb) as [(n & Hg & Hc)|(e & Hc & He)]; rewrite Hc.
  - rewrite length_fmap, length_seq. split_and!; [done | done | |].
    + apply Forall_fmap, Forall_forall. intros o _. apply gf256_byte.
    + intros o b. rewrite list_lookup_fmap. destruct (seq 0 _ !! o) as [o'|] eqn:E; [|done].
      apply lookup_seq in E as [-> _]. intros Hs. set (v := glagrange _ _) in *.
      change (Some (proj1_sig v) = Some b) in Hs. apply Some_inj in Hs as <-. apply to_gf_of.
  - rewrite decide_False by done. split; [done|]. intros n Hg. by rewrite (combine_good n) in Hc.
Qed.

Lemma combineShares_total_witness :
  match combineShares [mkPoint 1 [14; 200]; mkPoint 3 [4]] with
  | Ok _ => False
  | Err e => errors_Is e ErrInvalidShare = true
  end.
Proof.
  pose proof (combineShares_total [mkPoint 1 [14; 200]; mkPoint 3 [4]]) as H.
  destruct (combineShares _) as [s|e] eqn:E; [discriminate E|].
  apply H. by apply (bool_decide_unpack _).
Defined.
