(* ===== verification/GoStrings.v ===== *)
(** * The parts of Go's standard library on strings the broker relies on

    [strings.TrimSpace] (exact on every byte sequence, the Unicode spaces
    included), [strings.HasPrefix], [strings.TrimPrefix], [strings.Split] on a
    one-byte separator, [strings.Join], decimal printing and
    [strconv.ParseUint], [encoding/hex] and the standard base64 encoding. *)

From S2P Require Import Prelude.
From Stdlib Require Import Ascii.
Local Open Scope Z_scope.

(** ** [strings.TrimSpace]

    [unicode.IsSpace] holds of the ASCII spaces and of U+0085, U+00A0, U+1680,
    U+2000 to U+200A, U+2028, U+2029, U+202F, U+205F and U+3000; the tests below
    are on their UTF-8 encodings of one, two and three bytes. *)

Definition byte_val (c : ascii) : Z := Z.of_N (N_of_ascii c).

Definition space1 (a : ascii) : bool :=
  let x := byte_val a in ((9 <=? x) && (x <=? 13)) || (x =? 32).

Definition space2 (a b : ascii) : bool :=
  (byte_val a =? 194) && ((byte_val b =? 133) || (byte_val b =? 160)).

Definition space3 (a b c : ascii) : bool :=
  let x := byte_val a in let y := byte_val b in let z := byte_val c in
  ((x =? 225) && (y =? 154) && (z =? 128)) ||
  ((x =? 226) && (y =? 128) &&
     (((128 <=? z) && (z <=? 138)) || (z =? 168) || (z =? 169) || (z =? 175))) ||
  ((x =? 226) && (y =? 129) && (z =? 159)) ||
  ((x =? 227) && (y =? 128) && (z =? 128)).

Fixpoint trimLeftSpace (s : string) : string :=
  match s with
  | String a r1 =>
      if space1 a then trimLeftSpace r1
      else match r1 with
           | String b r2 =>
               if space2 a b then trimLeftSpace r2
               else match r2 with
                    | String c r3 => if space3 a b c then trimLeftSpace r3 else s
                    | EmptyString => s
                    end
           | EmptyString => s
           end
  | EmptyString => EmptyString
  end.

(** The same loop over a reversed string: the encodings read backwards. *)
Fixpoint trimRightRev (s : string) : string :=
  match s with
  | String a r1 =>
      if space1 a then trimRightRev r1
      else match r1 with
           | String b r2 =>
               if space2 b a then trimRightRev r2
               else match r2 with
                    | String c r3 => if space3 c b a then trimRightRev r3 else s
                    | EmptyString => s
                    end
           | EmptyString => s
           end
  | EmptyString => EmptyString
  end.

Definition TrimSpace (s : string) : string :=
  String.rev (trimRightRev (String.rev (trimLeftSpace s))).

(** ** Prefixes, splitting and joining *)

Definition HasPrefix (s p : string) : bool := String.prefix p s.

Fixpoint string_drop (n : nat) (s : string) : string :=
  match n, s with
  | S m, String _ r => string_drop m r
  | _, _ => s
  end.

Definition TrimPrefix (s p : string) : string :=
  if HasPrefix s p then string_drop (String.length p) s else s.

(** [strings.Split(s, sep)] for a separator of one byte. *)
Fixpoint Split (s : string) (sep : ascii) : list string :=
  match s with
  | EmptyString => [EmptyString]
  | String c r =>
      if Ascii.eqb c sep then EmptyString :: Split r sep
      else match Split r sep with
           | h :: t => String c h :: t
           | [] => [String c EmptyString]
           end
  end.

Fixpoint Join (parts : list string) (sep : string) : string :=
  match parts with
  | [] => EmptyString
  | [p] => p
  | p :: r => p +:+ sep +:+ Join r sep
  end.

Fixpoint string_forall (P : ascii -> bool) (s : string) : bool :=
  match s with
  | EmptyString => true
  | String c r => P c && string_forall P r
  end.

(** [strings.ToLower] on ASCII letters. *)
Definition lower_ascii (c : ascii) : ascii :=
  let x := byte_val c in
  if (65 <=? x) && (x <=? 90) then ascii_of_N (Z.to_N (x + 32)) else c.

Fixpoint ToLower (s : string) : string :=
  match s with
  | EmptyString => EmptyString
  | String c r => String (lower_ascii c) (ToLower r)
  end.

(** ** Decimal numbers *)

Definition digit (d : Z) : ascii := ascii_of_N (Z.to_N (48 + d)).

Definition digit_val (c : ascii) : option Z :=
  let x := byte_val c in
  if (48 <=? x) && (x <=? 57) then Some (x - 48) else None.

Fixpoint dec_go (fuel : nat) (n : Z) (acc : string) : string :=
  match fuel with
  | O => acc
  | S f =>
      let acc' := String (digit (n mod 10)) acc in
      if n / 10 =? 0 then acc' else dec_go f (n / 10) acc'
  end.

(** Decimal text of an unsigned integer of at most 64 bits ([%d]). *)
Definition FormatUint (n : Z) : string := dec_go 20 n EmptyString.

Fixpoint parse_digits (s : string) (v : Z) : option Z :=
  match s with
  | EmptyString => Some v
  | String c r =>
      match digit_val c with
      | Some d => parse_digits r (v * 10 + d)
      | None => None
      end
  end.

(** [strconv.ParseUint(s, 10, 32)]: no sign, no empty text, at most 2^32-1. *)
Definition ParseUint32 (s : string) : option Z :=
  match s with
  | EmptyString => None
  | _ => match parse_digits s 0 with
         | Some v => if v <=? uint32_max then Some v else None
         | None => None
         end
  end.

(** ** Hexadecimal *)

Definition hex_digit (d : Z) : ascii :=
  ascii_of_N (Z.to_N (if d <? 10 then 48 + d else 87 + d)).

Definition hex_val (c : ascii) : option Z :=
  let x := byte_val c in
  if (48 <=? x) && (x <=? 57) then Some (x - 48)
  else if (97 <=? x) && (x <=? 102) then Some (x - 87)
  else if (65 <=? x) && (x <=? 70) then Some (x - 55)
  else None.

Fixpoint hex_EncodeToString (s : bytes) : string :=
  match s with
  | EmptyString => EmptyString
  | String c r =>
      String (hex_digit (byte_val c / 16))
        (String (hex_digit (byte_val c mod 16)) (hex_EncodeToString r))
  end.

Fixpoint hex_DecodeString (s : string) : option bytes :=
  match s with
  | EmptyString => Some EmptyString
  | String a (String b r) =>
      match hex_val a, hex_val b, hex_DecodeString r with
      | Some x, Some y, Some t => Some (String (ascii_of_N (Z.to_N (x * 16 + y))) t)
      | _, _, _ => None
      end
  | String _ EmptyString => None
  end.

(** ** Standard base64 with padding ([base64.StdEncoding.EncodeToString]) *)

Definition b64_char (d : Z) : ascii :=
  ascii_of_N (Z.to_N
    (if d <? 26 then 65 + d else if d <? 52 then 71 + d
     else if d <? 62 then d - 4 else if d =? 62 then 43 else 47)).

Definition b64_pad : ascii := ascii_of_N 61.

Fixpoint b64_EncodeToString (s : bytes) : string :=
  match s with
  | EmptyString => EmptyString
  | String a EmptyString =>
      let x := byte_val a in
      String (b64_char (x / 4)) (String (b64_char ((x mod 4) * 16))
        (String b64_pad (String b64_pad EmptyString)))
  | String a (String b EmptyString) =>
      let x := byte_val a in let y := byte_val b in
      String (b64_char (x / 4)) (String (b64_char ((x mod 4) * 16 + y / 16))
        (String (b64_char ((y mod 16) * 4)) (String b64_pad EmptyString)))
  | String a (String b (String c r)) =>
      let x := byte_val a in let y := byte_val b in let z := byte_val c in
      String (b64_char (x / 4)) (String (b64_char ((x mod 4) * 16 + y / 16))
        (String (b64_char ((y mod 16) * 4 + z / 64))
          (String (b64_char (z mod 64)) (b64_EncodeToString r))))
  end.

(** ** Lemmas: strings *)

Lemma sapp_nil (t : string) : EmptyString +:+ t = t.
Proof. done. Qed.

Lemma sapp_cons c (s t : string) : String c s +:+ t = String c (s +:+ t).
Proof. done. Qed.

Lemma sapp_nil_r (s : string) : s +:+ EmptyString = s.
Proof. induction s as [|c s IH]; [done|]. by rewrite sapp_cons, IH. Qed.

Lemma sapp_assoc (s t u : string) : s +:+ (t +:+ u) = (s +:+ t) +:+ u.
Proof. induction s as [|c s IH]; [done|]. by rewrite !sapp_cons, IH. Qed.

Lemma sapp_length (s t : string) :
  String.length (s +:+ t) = (String.length s + String.length t)%nat.
Proof. induction s as [|c s IH]; [done|]. rewrite sapp_cons. simpl. lia. Qed.

Lemma sapp_inv_l (s t u : string) : s +:+ t = s +:+ u -> t = u.
Proof. apply (inj (String.append s)). Qed.

(** Two concatenations with a common first length split the same way. *)
Lemma sapp_inv_length (s1 s2 t1 t2 : string) :
  String.length s1 = String.length s2 -> s1 +:+ t1 = s2 +:+ t2 -> s1 = s2 /\ t1 = t2.
Proof.
  revert s2; induction s1 as [|c s1 IH]; intros [|d s2]; simpl; try done.
  rewrite !sapp_cons. intros [= Hl] [= -> He]. by destruct (IH s2 Hl He) as [-> ->].
Qed.

Lemma rev_app_spec (s t : string) : String.rev_app s t = String.rev s +:+ t.
Proof.
  unfold String.rev. revert t. induction s as [|c s IH]; intros t; simpl; [done|].
  rewrite (IH (String c t)), (IH (String c EmptyString)), <- sapp_assoc. done.
Qed.

Lemma srev_cons c (s : string) : String.rev (String c s) = String.rev s +:+ String c EmptyString.
Proof. exact (rev_app_spec s (String c EmptyString)). Qed.

Lemma srev_app (s t : string) : String.rev (s +:+ t) = String.rev t +:+ String.rev s.
Proof.
  induction s as [|c s IH]; [by rewrite sapp_nil_r|].
  by rewrite sapp_cons, !srev_cons, IH, sapp_assoc.
Qed.

Lemma srev_involutive (s : string) : String.rev (String.rev s) = s.
Proof. induction s as [|c s IH]; [done|]. by rewrite srev_cons, srev_app, IH. Qed.

(** ** Lemmas: [TrimSpace] *)

Lemma string_len_ind (P : string -> Prop) :
  (forall s, (forall t, (String.length t < String.length s)%nat -> P t) -> P s) -> forall s, P s.
Proof.
  intros H s. remember (String.length s) as n eqn:Hn. revert s Hn.
  induction n as [n IH] using lt_wf_ind. intros s ->. apply H. intros t Ht. by eapply IH.
Qed.

Ltac trim_cases :=
  repeat case_goal; simpl;
  repeat match goal with E : _ = true |- _ => rewrite E | E : _ = false |- _ => rewrite E end.

Lemma trimLeft_idem s : trimLeftSpace (trimLeftSpace s) = trimLeftSpace s.
Proof.
  induction s as [s IH] using string_len_ind.
  destruct s as [|a [|b [|c r]]]; simpl; trim_cases; try done; apply IH; simpl; lia.
Qed.

Lemma trimRightRev_idem s : trimRightRev (trimRightRev s) = trimRightRev s.
Proof.
  induction s as [s IH] using string_len_ind.
  destruct s as [|a [|b [|c r]]]; simpl; trim_cases; try done; apply IH; simpl; lia.
Qed.

Lemma trimLeft_length s : (String.length (trimLeftSpace s) <= String.length s)%nat.
Proof.
  induction s as [s IH] using string_len_ind.
  destruct s as [|a [|b [|c r]]]; simpl; trim_cases; try lia;
    (etrans; [apply IH|]); simpl; lia.
Qed.

Lemma trimRightRev_suffix s : exists p, s = p +:+ trimRightRev s.
Proof.
  induction s as [s IH] using string_len_ind.
  assert (forall a t, a <> EmptyString -> s = a +:+ t ->
    exists p, s = p +:+ trimRightRev t) as Hstep.
  { intros [|x a] t Ha ->; [done|]. destruct (IH t) as [p Hp].
    - rewrite sapp_cons. simpl. rewrite sapp_length. lia.
    - exists (String x a +:+ p). by rewrite <- sapp_assoc, <- Hp. }
  destruct s as [|a r1]; [by exists EmptyString|]. simpl.
  destruct (space1 a); [by apply (Hstep (String a EmptyString))|].
  destruct r1 as [|b r2]; [by exists EmptyString|].
  destruct (space2 b a); [by apply (Hstep (String a (String b EmptyString)))|].
  destruct r2 as [|c r3]; [by exists EmptyString|].
  destruct (space3 c b a); [|by exists EmptyString].
  by apply (Hstep (String a (String b (String c EmptyString)))).
Qed.

Lemma trimLeft_prefix (a b : string) :
  trimLeftSpace (a +:+ b) = a +:+ b -> trimLeftSpace a = a.
Proof.
  assert (forall s t, (String.length s < String.length t)%nat -> trimLeftSpace s <> t) as Hne.
  { intros s t Hl <-. pose proof (trimLeft_length s). lia. }
  intros H. destruct a as [|x r1]; [done|]. rewrite sapp_cons in H. simpl in *.
  destruct (space1 x); [by apply Hne in H; simpl; [|lia]|].
  destruct r1 as [|y r2]; [done|]. rewrite sapp_cons in H. simpl in *.
  destruct (space2 x y); [by apply Hne in H; simpl; [|lia]|].
  destruct r2 as [|z r3]; [done|]. rewrite sapp_cons in H. simpl in *.
  destruct (space3 x y z); [by apply Hne in H; simpl; [|lia]|done].
Qed.

Lemma TrimSpace_idem s : TrimSpace (TrimSpace s) = TrimSpace s.
Proof.
  unfold TrimSpace. set (u := trimLeftSpace s). set (v := trimRightRev (String.rev u)).
  assert (trimLeftSpace (String.rev v) = String.rev v) as ->.
  { destruct (trimRightRev_suffix (String.rev u)) as [p Hp]. fold v in Hp.
    apply (trimLeft_prefix _ (String.rev p)). rewrite <- srev_app, <- Hp, srev_involutive.
    apply trimLeft_idem. }
  rewrite srev_involutive. unfold v. by rewrite trimRightRev_idem.
Qed.

Lemma TrimSpace_empty : TrimSpace EmptyString = EmptyString.
Proof. done. Qed.
#[export] Hint Rewrite TrimSpace_idem TrimSpace_empty : unseal.

(** ** Lemmas: splitting *)

Definition no_char (c : ascii) (s : string) : bool :=
  string_forall (fun d => negb (Ascii.eqb d c)) s.

Lemma string_forall_app P (s t : string) :
  string_forall P (s +:+ t) = string_forall P s && string_forall P t.
Proof.
  induction s as [|c s IH]; [done|]. rewrite sapp_cons. simpl. by rewrite IH, andb_assoc.
Qed.

Lemma string_forall_impl (P Q : ascii -> bool) s :
  (forall c, P c = true -> Q c = true) -> string_forall P s = true -> string_forall Q s = true.
Proof. intros HPQ. induction s as [|c s IH]; simpl; [done|]. intros ?; to_prop. by rewrite HPQ, IH. Qed.

Definition ascii_only (s : string) : bool := string_forall (fun c => byte_val c <? 128) s.

Lemma Split_no_char c s : no_char c s = true -> Split s c = [s].
Proof.
  unfold no_char. induction s as [|d s IH]; simpl; [done|]. intros ?; to_prop.
  rewrite H, IH; done.
Qed.

Lemma Split_sep c s t : no_char c s = true -> Split (s +:+ String c t) c = s :: Split t c.
Proof.
  unfold no_char. induction s as [|d s IH]; simpl.
  - intros _. by rewrite Ascii.eqb_refl.
  - intros ?; to_prop. rewrite H, IH; done.
Qed.

Lemma Split_nonempty s c : Split s c <> [].
Proof. destruct s as [|a s]; simpl; [done|]. destruct (Ascii.eqb a c); [done|]. by destruct (Split s c). Qed.

(** Joining the parts with the separator gives the text back. *)
Lemma Join_Split s c : Join (Split s c) (String c EmptyString) = s.
Proof.
  induction s as [|a s IH]; [done|]. simpl. pose proof (Split_nonempty s c) as Hne.
  destruct (Ascii.eqb_spec a c) as [->|_]; destruct (Split s c) as [|h t]; try done.
  - change (String c (Join (h :: t) (String c EmptyString)) = String c s). by rewrite IH.
  - transitivity (String a (Join (h :: t) (String c EmptyString))); [by destruct t | by rewrite IH].
Qed.

(** ** Lemmas: bytes and digits *)

Lemma byte_val_range c : 0 <= byte_val c < 256.
Proof. by destruct c as [[] [] [] [] [] [] [] []]. Qed.

Lemma byte_of_val c : ascii_of_N (Z.to_N (byte_val c)) = c.
Proof. unfold byte_val. by rewrite N2Z.id, ascii_N_embedding. Qed.

Lemma byte_val_inj c d : byte_val c = byte_val d -> c = d.
Proof. intros H. by rewrite <- (byte_of_val c), <- (byte_of_val d), H. Qed.

(** A property of the integers below [n] checked by evaluation. *)
Lemma Z_below_forall (P : Z -> bool) (n : nat) :
  forallb P (Z.of_nat <$> seq 0 n) = true -> forall z, 0 <= z < Z.of_nat n -> P z = true.
Proof.
  intros H z Hz. rewrite forallb_forall in H. apply H. apply list_elem_of_In.
  apply list_elem_of_fmap. exists (Z.to_nat z). split; [lia|]. apply elem_of_seq. lia.
Qed.

Lemma digit_val_digit d : 0 <= d < 10 -> digit_val (digit d) = Some d.
Proof.
  intros Hd. pose proof (Z_below_forall
    (fun d => bool_decide (digit_val (digit d) = Some d)) 10 eq_refl d ltac:(lia)) as H.
  cbv beta in H. by to_prop.
Qed.

Definition is_digit (c : ascii) : bool :=
  match digit_val c with Some _ => true | None => false end.

(** ** Lemmas: decimal numbers *)

Lemma parse_dec_go fuel n acc :
  0 <= n < 10 ^ Z.of_nat fuel ->
  exists k, forall v, parse_digits (dec_go fuel n acc) v = parse_digits acc (v * 10 ^ k + n) /\ 0 <= k.
Proof.
  revert n acc. induction fuel as [|f IH]; intros n acc Hn.
  - exists 0. intros v. simpl in *. split; [f_equal; lia | lia].
  - assert (0 <= n mod 10 < 10) by (apply Z.mod_pos_bound; lia).
    assert (n = 10 * (n / 10) + n mod 10) by (apply Z.div_mod; lia).
    cbn [dec_go]. case_goal; to_prop.
    + exists 1. intros v. simpl parse_digits at 1. rewrite digit_val_digit by done.
      split; [f_equal; lia | lia].
    + rewrite Nat2Z.inj_succ, Z.pow_succ_r in Hn by lia.
      destruct (IH (n / 10) (String (digit (n mod 10)) acc)) as [k Hk].
      { split; [apply Z.div_pos; lia | apply Z.div_lt_upper_bound; lia]. }
      exists (k + 1). intros v. destruct (Hk v) as [-> Hk0]. simpl.
      rewrite digit_val_digit, Z.pow_add_r by lia. split; [f_equal; lia | lia].
Qed.

Lemma dec_go_cons fuel n c acc : dec_go fuel n (String c acc) <> EmptyString.
Proof. revert n c acc. induction fuel as [|f IH]; intros; simpl; [done|]. by case_goal. Qed.

Lemma dec_go_nonempty fuel n acc : dec_go (S fuel) n acc <> EmptyString.
Proof. cbn [dec_go]. case_goal; [done|]. apply dec_go_cons. Qed.

Lemma FormatUint_nonempty n : FormatUint n <> EmptyString.
Proof. apply dec_go_nonempty. Qed.

Lemma parse_FormatUint n : 0 <= n < 10 ^ 20 -> parse_digits (FormatUint n) 0 = Some n.
Proof. intros Hn. destruct (parse_dec_go 20 n EmptyString Hn) as [k Hk]. exact (proj1 (Hk 0)). Qed.

Lemma ParseUint32_FormatUint n : 0 <= n <= uint32_max -> ParseUint32 (FormatUint n) = Some n.
Proof.
  unfold uint32_max. intros Hn. unfold ParseUint32. pose proof (FormatUint_nonempty n).
  destruct (FormatUint n) eqn:E; [done|]. rewrite <- E, parse_FormatUint by lia.
  case_goal; to_prop; [done | unfold uint32_max in *; lia].
Qed.

Lemma FormatUint_inj n m :
  0 <= n < 10 ^ 20 -> 0 <= m < 10 ^ 20 -> FormatUint n = FormatUint m -> n = m.
Proof. intros Hn Hm H. apply parse_FormatUint in Hn, Hm. rewrite H in Hn. congruence. Qed.

Lemma dec_go_digits fuel n acc :
  0 <= n -> string_forall is_digit acc = true -> string_forall is_digit (dec_go fuel n acc) = true.
Proof.
  revert n acc. induction fuel as [|f IH]; intros n acc Hn Ha; simpl; [done|].
  assert (0 <= n mod 10 < 10) by (apply Z.mod_pos_bound; lia).
  assert (string_forall is_digit (String (digit (n mod 10)) acc) = true) as Hd.
  { simpl. unfold is_digit at 1. by rewrite digit_val_digit. }
  case_goal; [done|]. apply IH; [apply Z.div_pos; lia | done].
Qed.

Lemma FormatUint_digits n : 0 <= n -> string_forall is_digit (FormatUint n) = true.
Proof. intros Hn. by apply dec_go_digits. Qed.

(** ** Lemmas: hexadecimal *)

Lemma hex_byte_roundtrip c :
  hex_val (hex_digit (byte_val c / 16)) = Some (byte_val c / 16) /\
  hex_val (hex_digit (byte_val c mod 16)) = Some (byte_val c mod 16) /\
  ascii_of_N (Z.to_N (byte_val c / 16 * 16 + byte_val c mod 16)) = c.
Proof. by destruct c as [[] [] [] [] [] [] [] []]. Qed.

Lemma hex_Decode_Encode s : hex_DecodeString (hex_EncodeToString s) = Some s.
Proof.
  induction s as [|c s IH]; simpl; [done|].
  destruct (hex_byte_roundtrip c) as (-> & -> & Hc). by rewrite IH, Hc.
Qed.

Lemma hex_Encode_length s :
  String.length (hex_EncodeToString s) = (2 * String.length s)%nat.
Proof. induction s as [|c s IH]; simpl; [done|]. lia. Qed.

Lemma hex_Encode_inj s t : hex_EncodeToString s = hex_EncodeToString t -> s = t.
Proof. intros H. apply (f_equal hex_DecodeString) in H. rewrite !hex_Decode_Encode in H. congruence. Qed.

(** Printable ASCII without the blank: nothing to trim. *)
Definition visible (c : ascii) : bool := (33 <=? byte_val c) && (byte_val c <=? 126).

Lemma visible_not_space a : visible a = true ->
  space1 a = false /\ (forall b, space2 a b = false /\ space2 b a = false) /\
  (forall b c, space3 a b c = false /\ space3 c b a = false).
Proof.
  unfold visible, space1, space2, space3. intros H. to_prop. split_and!; intros; try split; lia.
Qed.

Lemma string_forall_rev P s : string_forall P (String.rev s) = string_forall P s.
Proof.
  induction s as [|c s IH]; [done|]. rewrite srev_cons, string_forall_app, IH. simpl.
  rewrite andb_true_r. apply andb_comm.
Qed.

Lemma TrimSpace_visible s : string_forall visible s = true -> TrimSpace s = s.
Proof.
  assert (forall t, string_forall visible t = true -> trimLeftSpace t = t /\ trimRightRev t = t) as Ht.
  { intros [|a r1] H; [done|]. simpl in H. apply andb_true_iff in H as [Ha H].
    destruct (visible_not_space a Ha) as (H1 & H2 & H3). simpl. rewrite H1.
    destruct r1 as [|b r2]; [done|]. destruct (H2 b) as [-> ->].
    destruct r2 as [|c r3]; [done|]. by destruct (H3 b c) as [-> ->]. }
  intros H. unfold TrimSpace. rewrite (proj1 (Ht s H)).
  rewrite (proj2 (Ht _ (eq_trans (string_forall_rev _ _) H))). apply srev_involutive.
Qed.

Lemma hex_visible s : string_forall visible (hex_EncodeToString s) = true.
Proof.
  assert (forallb (fun n => visible (hex_digit (Z.of_nat n))) (seq 0 16) = true) as Hd by reflexivity.
  rewrite forallb_forall in Hd.
  assert (forall z, 0 <= z < 16 -> visible (hex_digit z) = true) as Hz.
  { intros z Hz. rewrite <- (Z2Nat.id z) by lia. apply Hd, in_seq. lia. }
  induction s as [|c s IH]; [done|]. simpl. destruct (byte_val_range c).
  rewrite !Hz, IH; [done | apply Z.mod_pos_bound; lia |].
  split; [apply Z.div_pos; lia | apply Z.div_lt_upper_bound; lia].
Qed.

(** ** Base64 is injective and keeps out of the way of a quoted string *)

Definition b64_val (c : ascii) : option Z :=
  let x := byte_val c in
  if (65 <=? x) && (x <=? 90) then Some (x - 65)
  else if (97 <=? x) && (x <=? 122) then Some (x - 71)
  else if (48 <=? x) && (x <=? 57) then Some (x + 4)
  else if x =? 43 then Some 62
  else if x =? 47 then Some 63
  else None.

Lemma b64_val_char d : 0 <= d < 64 -> b64_val (b64_char d) = Some d.
Proof.
  intros Hd. pose proof (Z_below_forall
    (fun d => bool_decide (b64_val (b64_char d) = Some d)) 64 eq_refl d ltac:(lia)) as H.
  by apply bool_decide_eq_true in H.
Qed.

Lemma b64_char_inj d e : 0 <= d < 64 -> 0 <= e < 64 -> b64_char d = b64_char e -> d = e.
Proof. intros Hd He H. apply b64_val_char in Hd, He. rewrite H in Hd. congruence. Qed.

Lemma b64_char_pad d : 0 <= d < 64 -> b64_char d <> b64_pad.
Proof. intros Hd H. apply b64_val_char in Hd. rewrite H in Hd. by vm_compute in Hd. Qed.

(** Collect the ranges of the six-bit groups of the bytes in the context. *)
Ltac byte_ranges :=
  repeat match goal with
  | c : ascii |- _ =>
      lazymatch goal with
      | H : 0 <= byte_val c < 256 |- _ => fail
      | _ => pose proof (byte_val_range c)
      end
  end.

Ltac b64_groups :=
  repeat match goal with
  | H : b64_char _ = b64_char _ |- _ =>
      apply b64_char_inj in H; [| Z.to_euclidean_division_equations; lia
                                | Z.to_euclidean_division_equations; lia]
  | H : b64_char _ = b64_pad |- _ =>
      exfalso; revert H; apply b64_char_pad; Z.to_euclidean_division_equations; lia
  | H : b64_pad = b64_char _ |- _ => symmetry in H
  end.

Lemma b64_Encode_inj s t : b64_EncodeToString s = b64_EncodeToString t -> s = t.
Proof.
  revert t. induction s as [s IH] using string_len_ind.
  intros t H.
  destruct s as [|a [|b [|c r]]], t as [|a' [|b' [|c' r']]]; simpl in H; try done;
    injection H as; byte_ranges; b64_groups.
  - assert (byte_val a = byte_val a') by (Z.to_euclidean_division_equations; lia).
    by rewrite (byte_val_inj a a').
  - assert (byte_val a = byte_val a' /\ byte_val b = byte_val b') as [? ?]
      by (Z.to_euclidean_division_equations; lia).
    by rewrite (byte_val_inj a a'), (byte_val_inj b b').
  - assert (byte_val a = byte_val a' /\ byte_val b = byte_val b' /\ byte_val c = byte_val c')
      as (? & ? & ?) by (Z.to_euclidean_division_equations; lia).
    rewrite (byte_val_inj a a'), (byte_val_inj b b'), (byte_val_inj c c') by done.
    do 3 f_equal. apply IH; [simpl; lia | done].
Qed.

(** The double quote, which no base64 text, number or identifier contains. *)
Definition dquote : ascii := ascii_of_N 34.

Lemma no_char_until c (s1 s2 t1 t2 : string) :
  no_char c s1 = true -> no_char c s2 = true ->
  s1 +:+ String c t1 = s2 +:+ String c t2 -> s1 = s2 /\ t1 = t2.
Proof.
  intros H1 H2 H. assert (Split (s1 +:+ String c t1) c = Split (s2 +:+ String c t2) c) as HS
    by (by rewrite H). rewrite !Split_sep in HS by done. injection HS as -> _.
  apply sapp_inv_l in H. by injection H.
Qed.

Lemma prefix_app (p s : string) : String.prefix p (p +:+ s) = true.
Proof. induction p as [|c p IH]; [by destruct s|]. rewrite sapp_cons. simpl. by destruct (ascii_dec c c). Qed.

Lemma string_drop_app (p s : string) : string_drop (String.length p) (p +:+ s) = s.
Proof. induction p as [|c p IH]; [by destruct s|]. rewrite sapp_cons. exact IH. Qed.

Lemma prefix_split (p s : string) :
  String.prefix p s = true -> s = p +:+ string_drop (String.length p) s.
Proof.
  revert s; induction p as [|c p IH]; intros s H; [by destruct s|].
  destruct s as [|d s]; [done|]. simpl in H. destruct (ascii_dec c d) as [->|]; [|done].
  rewrite sapp_cons. simpl. f_equal. by apply IH.
Qed.

Lemma no_char_app c (s t : string) : no_char c (s +:+ t) = no_char c s && no_char c t.
Proof. apply string_forall_app. Qed.

Lemma len_nonneg s : 0 <= len s.
Proof. unfold len. lia. Qed.

Lemma len_app (s t : string) : len (s +:+ t) = len s + len t.
Proof. unfold len. rewrite sapp_length. lia. Qed.

Lemma len_zero s : len s = 0 <-> s = EmptyString.
Proof. unfold len. destruct s; simpl; split; intros; (done || lia). Qed.

Lemma TrimPrefix_app (p s : string) : HasPrefix (p +:+ s) p = true /\ TrimPrefix (p +:+ s) p = s.
Proof. unfold TrimPrefix, HasPrefix. by rewrite prefix_app, string_drop_app. Qed.

Lemma sapp_inv_r (s t u : string) : s +:+ u = t +:+ u -> s = t.
Proof.
  intros H. pose proof (f_equal String.length H) as Hl. rewrite !sapp_length in Hl.
  by apply sapp_inv_length in H as [? _]; [|lia].
Qed.

Lemma parse_digits_nonneg s v n : 0 <= v -> parse_digits s v = Some n -> 0 <= n.
Proof.
  revert v; induction s as [|c s IH]; intros v Hv; simpl; [intros [= <-]; done|].
  unfold digit_val. case_goal; [|done]. to_prop. apply IH. lia.
Qed.

(** [strconv.Itoa] and [%d] of a signed integer. *)
Definition FormatInt (n : Z) : string :=
  if n <? 0 then String "-" (FormatUint (- n)) else FormatUint n.

(** ** Base64 decoding ([base64.StdEncoding.DecodeString]): carriage returns and
    line feeds are skipped, padding closes the last group of four. *)

Fixpoint drop_newlines (s : string) : string :=
  match s with
  | EmptyString => EmptyString
  | String c r =>
      if (byte_val c =? 10) || (byte_val c =? 13) then drop_newlines r
      else String c (drop_newlines r)
  end.

Definition byte_of (x : Z) : ascii := ascii_of_N (Z.to_N (x mod 256)).

Fixpoint b64_decode_go (s : string) : option bytes :=
  match s with
  | EmptyString => Some EmptyString
  | String a (String b (String c (String d r))) =>
      match b64_val a, b64_val b with
      | Some x, Some y =>
          let b1 := byte_of (x * 4 + y / 16) in
          if Ascii.eqb c b64_pad then
            if Ascii.eqb d b64_pad && String.eqb r EmptyString
            then Some (String b1 EmptyString) else None
          else
            match b64_val c with
            | None => None
            | Some z =>
                let b2 := byte_of (y * 16 + z / 4) in
                if Ascii.eqb d b64_pad then
                  if String.eqb r EmptyString then Some (String b1 (String b2 EmptyString)) else None
                else
                  match b64_val d, b64_decode_go r with
                  | Some w, Some t => Some (String b1 (String b2 (String (byte_of (z * 64 + w)) t)))
                  | _, _ => None
                  end
            end
      | _, _ => None
      end
  | _ => None
  end.

Definition b64_DecodeString (s : string) : option bytes := b64_decode_go (drop_newlines s).

Lemma lower_ascii_idem c : lower_ascii (lower_ascii c) = lower_ascii c.
Proof. by destruct c as [[] [] [] [] [] [] [] []]. Qed.

Lemma ToLower_idem s : ToLower (ToLower s) = ToLower s.
Proof. induction s as [|c s IH]; simpl; [done|]. by rewrite lower_ascii_idem, IH. Qed.
#[export] Hint Rewrite ToLower_idem : unseal.
