(* ===== verification/Base64.v ===== *)
(** * Base64 round trips (encoding/base64)

    The standard alphabet of [GoStrings] decodes what it encoded, and so does
    [base64.RawURLEncoding], which has two characters of its own and no padding. *)

From S2P Require Import Prelude GoStrings.
From Stdlib Require Import Ascii.
Local Open Scope Z_scope.

(** ** [base64.RawURLEncoding] *)

Definition url_char (d : Z) : ascii :=
  if d =? 62 then "-"%char else if d =? 63 then "_"%char else b64_char d.

Definition url_val (c : ascii) : option Z :=
  if Ascii.eqb c "-" then Some 62
  else if Ascii.eqb c "_" then Some 63
  else if Ascii.eqb c "+" || Ascii.eqb c "/" then None
  else b64_val c.

Fixpoint rawurl_EncodeToString (s : bytes) : string :=
  match s with
  | EmptyString => EmptyString
  | String a EmptyString =>
      let x := byte_val a in
      String (url_char (x / 4)) (String (url_char ((x mod 4) * 16)) EmptyString)
  | String a (String b EmptyString) =>
      let x := byte_val a in let y := byte_val b in
      String (url_char (x / 4)) (String (url_char ((x mod 4) * 16 + y / 16))
        (String (url_char ((y mod 16) * 4)) EmptyString))
  | String a (String b (String c r)) =>
      let x := byte_val a in let y := byte_val b in let z := byte_val c in
      String (url_char (x / 4)) (String (url_char ((x mod 4) * 16 + y / 16))
        (String (url_char ((y mod 16) * 4 + z / 64))
          (String (url_char (z mod 64)) (rawurl_EncodeToString r))))
  end.

Fixpoint rawurl_decode_go (s : string) : option bytes :=
  match s with
  | EmptyString => Some EmptyString
  | String a (String b EmptyString) =>
      x ← url_val a; y ← url_val b; Some (String (byte_of (x * 4 + y / 16)) EmptyString)
  | String a (String b (String c EmptyString)) =>
      x ← url_val a; y ← url_val b; z ← url_val c;
      Some (String (byte_of (x * 4 + y / 16)) (String (byte_of (y * 16 + z / 4)) EmptyString))
  | String a (String b (String c (String d r))) =>
      x ← url_val a; y ← url_val b; z ← url_val c; w ← url_val d; t ← rawurl_decode_go r;
      Some (String (byte_of (x * 4 + y / 16)) (String (byte_of (y * 16 + z / 4))
              (String (byte_of (z * 64 + w)) t)))
  | _ => None
  end.

Definition rawurl_DecodeString (s : string) : option bytes := rawurl_decode_go (drop_newlines s).

(** ** Round trips *)

Lemma byte_of_congruent c x : x mod 256 = byte_val c -> byte_of x = c.
Proof. unfold byte_of. intros ->. by destruct c as [[] [] [] [] [] [] [] []]. Qed.

Lemma url_val_char d : 0 <= d < 64 -> url_val (url_char d) = Some d.
Proof.
  intros Hd. pose proof (Z_below_forall
    (fun d => bool_decide (url_val (url_char d) = Some d)) 64 eq_refl d ltac:(lia)) as H.
  by apply bool_decide_eq_true in H.
Qed.

Definition not_newline (c : ascii) : bool := negb ((byte_val c =? 10) || (byte_val c =? 13)).

Lemma drop_newlines_id s : string_forall not_newline s = true -> drop_newlines s = s.
Proof.
  induction s as [|c r IH]; simpl; [done|]. intros H. apply andb_true_iff in H as [Hc Hr].
  unfold not_newline in Hc. apply negb_true_iff in Hc. by rewrite Hc, IH.
Qed.

Lemma url_char_visible d : 0 <= d < 64 -> not_newline (url_char d) = true.
Proof. intros Hd. by apply (Z_below_forall (fun d => not_newline (url_char d)) 64 eq_refl d). Qed.

Lemma b64_char_visible d : 0 <= d < 64 -> not_newline (b64_char d) = true.
Proof. intros Hd. by apply (Z_below_forall (fun d => not_newline (b64_char d)) 64 eq_refl d). Qed.

Ltac sextets := byte_ranges; Z.to_euclidean_division_equations; lia.

Lemma rawurl_roundtrip s : rawurl_DecodeString (rawurl_EncodeToString s) = Some s.
Proof.
  assert (string_forall not_newline (rawurl_EncodeToString s) = true) as Hn.
  { induction s as [s IH] using string_len_ind. destruct s as [|a [|b [|c r]]]; cbn [rawurl_EncodeToString string_forall]; [done|..];
      rewrite !url_char_visible; first [done | sextets | simpl; apply IH; simpl; lia]. }
  unfold rawurl_DecodeString. rewrite drop_newlines_id by done. clear Hn.
  induction s as [s IH] using string_len_ind.
  destruct s as [|a [|b [|c r]]]; cbn [rawurl_EncodeToString rawurl_decode_go]; [done|..];
    rewrite !url_val_char by sextets; cbn [mbind option_bind].
  - rewrite (byte_of_congruent a) by sextets. done.
  - rewrite (byte_of_congruent a), (byte_of_congruent b) by sextets. done.
  - rewrite IH by (simpl; lia). cbn [mbind option_bind].
    rewrite (byte_of_congruent a), (byte_of_congruent b), (byte_of_congruent c) by sextets. done.
Qed.

Lemma b64_roundtrip s : b64_DecodeString (b64_EncodeToString s) = Some s.
Proof.
  assert (string_forall not_newline (b64_EncodeToString s) = true) as Hn.
  { induction s as [s IH] using string_len_ind. destruct s as [|a [|b [|c r]]]; cbn [b64_EncodeToString string_forall]; [done|..];
      rewrite !b64_char_visible; first [done | sextets | simpl; apply IH; simpl; lia]. }
  unfold b64_DecodeString. rewrite drop_newlines_id by done. clear Hn.
  assert (forall d, 0 <= d < 64 -> Ascii.eqb (b64_char d) b64_pad = false) as Hpad.
  { intros d Hd. apply Ascii.eqb_neq. by apply b64_char_pad. }
  induction s as [s IH] using string_len_ind.
  destruct s as [|a [|b [|c r]]]; cbn [b64_EncodeToString b64_decode_go]; [done|..];
    rewrite !b64_val_char by sextets; rewrite ?Hpad by sextets.
  - cbn. rewrite (byte_of_congruent a) by sextets. done.
  - cbn -[Z.div Z.modulo Z.mul Z.add]. rewrite (byte_of_congruent a), (byte_of_congruent b) by sextets. done.
  - rewrite IH by (simpl; lia). rewrite (byte_of_congruent a), (byte_of_congruent b), (byte_of_congruent c) by sextets. done.
Qed.

(** Standard base64 text is plain ASCII: JSON prints it as it is. *)
Lemma b64_char_ascii d : 0 <= d < 64 -> byte_val (b64_char d) < 128.
Proof. intros Hd. apply Z.ltb_lt. by apply (Z_below_forall (fun d => byte_val (b64_char d) <? 128) 64 eq_refl d). Qed.

Lemma b64_ascii s : string_forall (fun c => byte_val c <? 128) (b64_EncodeToString s) = true.
Proof.
  induction s as [s IH] using string_len_ind. destruct s as [|a [|b [|c r]]]; cbn [b64_EncodeToString string_forall]; [done|..];
    repeat (rewrite (proj2 (Z.ltb_lt _ _)) by (apply b64_char_ascii; sextets)); try done.
  cbn [andb]. apply IH. simpl. lia.
Qed.
