(* ===== verification/Json.v ===== *)
(** * Go's encoding/json

    The texts that [json.Marshal] produces and what [json.Unmarshal] makes of
    arbitrary bytes: white space, nesting up to the scanner's limit, numbers,
    strings with their escapes, surrogate pairs and the replacement of malformed
    UTF-8, duplicate, unknown and differently cased keys.  Both ends are
    functions on bytes; decoding into a struct is a table of its fields. *)

From S2P Require Import Prelude GoStrings.
From Stdlib Require Import Ascii.
Local Open Scope Z_scope.

Inductive json :=
| JNull
| JBool (b : bool)
| JNumber (text : string)
| JString (s : string)
| JArray (elements : list json)
| JObject (members : list (string * json)).

Definition chr (n : N) : ascii := ascii_of_N n.
Definition quote_mark : ascii := chr 34.
Definition backslash : ascii := chr 92.

Fixpoint string_take (n : nat) (s : string) : string :=
  match n, s with
  | S m, String c r => String c (string_take m r)
  | _, _ => EmptyString
  end.

(** ** UTF-8 *)

Definition between (lo hi x : Z) : bool := (lo <=? x) && (x <=? hi).
Definition continuation (c : ascii) : bool := between 128 191 (byte_val c).

(** The second byte that may follow the first of a longer sequence. *)
Definition second3 (a b : Z) : bool :=
  (between 225 236 a || between 238 239 a) && between 128 191 b || (a =? 224) && between 160 191 b ||
  (a =? 237) && between 128 159 b.
Definition second4 (a b : Z) : bool :=
  between 241 243 a && between 128 191 b || (a =? 240) && between 144 191 b || (a =? 244) && between 128 143 b.

(** The bytes of the first rune, 0 when it is malformed ([utf8.DecodeRune]). *)
Definition rune_len (s : string) : nat :=
  match s with
  | EmptyString => 0%nat
  | String a r1 =>
      if byte_val a <? 128 then 1%nat
      else match r1 with
           | EmptyString => 0%nat
           | String b r2 =>
               if between 194 223 (byte_val a) && continuation b then 2%nat
               else match r2 with
                    | EmptyString => 0%nat
                    | String c r3 =>
                        if second3 (byte_val a) (byte_val b) && continuation c then 3%nat
                        else match r3 with
                             | EmptyString => 0%nat
                             | String d _ =>
                                 if second4 (byte_val a) (byte_val b) && continuation c && continuation d then 4%nat else 0%nat
                             end
                    end
           end
  end.

Definition byte_chr (z : Z) : ascii := ascii_of_N (Z.to_N z).
Definition replacement : string := String (chr 239) (String (chr 191) (String (chr 189) EmptyString)).
Definition is_surrogate (r : Z) : bool := between 55296 57343 r.

(** [utf8.EncodeRune]. *)
Definition EncodeRune (r : Z) : string :=
  if r <? 128 then String (byte_chr r) EmptyString
  else if r <? 2048 then String (byte_chr (192 + r / 64)) (String (byte_chr (128 + r mod 64)) EmptyString)
  else if is_surrogate r || (1114111 <? r) then replacement
  else if r <? 65536
  then String (byte_chr (224 + r / 4096)) (String (byte_chr (128 + r / 64 mod 64))
         (String (byte_chr (128 + r mod 64)) EmptyString))
  else String (byte_chr (240 + r / 262144)) (String (byte_chr (128 + r / 4096 mod 64))
         (String (byte_chr (128 + r / 64 mod 64)) (String (byte_chr (128 + r mod 64)) EmptyString))).

(** ** Encoding strings *)

Definition hex2 (z : Z) : string := String (hex_digit (z / 16)) (String (hex_digit (z mod 16)) EmptyString).

(** [appendString] with HTML escaping on one byte below 128. *)
Definition quote_ascii (c : ascii) : string :=
  let x := byte_val c in
  if (x =? 34) || (x =? 92) then String backslash (String c EmptyString)
  else if x =? 8 then String backslash "b"
  else if x =? 12 then String backslash "f"
  else if x =? 10 then String backslash "n"
  else if x =? 13 then String backslash "r"
  else if x =? 9 then String backslash "t"
  else if (x <? 32) || (x =? 60) || (x =? 62) || (x =? 38)
  then String backslash ("u00" +:+ hex2 x)
  else String c EmptyString.

(** U+2028 and U+2029 are escaped too. *)
Definition quote_rune (rune : string) : string :=
  if String.eqb rune (EncodeRune 8232) then String backslash "u2028"
  else if String.eqb rune (EncodeRune 8233) then String backslash "u2029"
  else rune.

(** Each round takes at least one byte: the length is fuel enough. *)
Fixpoint quote_go (fuel : nat) (s : string) : string :=
  match fuel, s with
  | S f, String a r =>
      if byte_val a <? 128 then quote_ascii a +:+ quote_go f r
      else match rune_len s with
           | O => String backslash "ufffd" +:+ quote_go f r
           | n => quote_rune (string_take n s) +:+ quote_go f (string_drop n s)
           end
  | _, _ => EmptyString
  end.

Definition quote (s : string) : string :=
  String quote_mark (quote_go (String.length s) s +:+ String quote_mark EmptyString).

(** ** Decoding strings *)

(** [getu4] on what follows the backslash and the u. *)
Definition hex4 (s : string) : option (Z * string) :=
  match s with
  | String a (String b (String c (String d r))) =>
      match hex_val a, hex_val b, hex_val c, hex_val d with
      | Some w, Some x, Some y, Some z => Some (w * 4096 + x * 256 + y * 16 + z, r)
      | _, _, _, _ => None
      end
  | _ => None
  end.

(** The second half of a surrogate pair and the rune of the pair. *)
Definition low_surrogate (high : Z) (s : string) : option (Z * string) :=
  match s with
  | String a (String b r) =>
      if Ascii.eqb a backslash && Ascii.eqb b (chr 117) && between 55296 56319 high then
        match hex4 r with
        | Some (low, r') =>
            if between 56320 57343 low
            then Some ((high - 55296) * 1024 + (low - 56320) + 65536, r') else None
        | None => None
        end
      else None
  | _ => None
  end.

Definition simple_escape (c : ascii) : option ascii :=
  let x := byte_val c in
  if (x =? 34) || (x =? 92) || (x =? 47) then Some c
  else if x =? 98 then Some (chr 8)
  else if x =? 102 then Some (chr 12)
  else if x =? 110 then Some (chr 10)
  else if x =? 114 then Some (chr 13)
  else if x =? 116 then Some (chr 9)
  else None.

(** The content of a string up to its closing quote, and what follows. *)
Fixpoint unquote_go (fuel : nat) (s : string) : option (string * string) :=
  match fuel with
  | O => None
  | S f =>
      let put (prefix : string) (rest : string) :=
        match unquote_go f rest with
        | Some (content, tail) => Some (prefix +:+ content, tail)
        | None => None
        end in
      match s with
      | EmptyString => None
      | String a r =>
          if Ascii.eqb a quote_mark then Some (EmptyString, r)
          else if Ascii.eqb a backslash then
            match r with
            | EmptyString => None
            | String e r' =>
                if Ascii.eqb e (chr 117) then
                  match hex4 r' with
                  | None => None
                  | Some (rune, r'') =>
                      if is_surrogate rune then
                        match low_surrogate rune r'' with
                        | Some (combined, tail) => put (EncodeRune combined) tail
                        | None => put replacement r''
                        end
                      else put (EncodeRune rune) r''
                  end
                else match simple_escape e with
                     | Some c => put (String c EmptyString) r'
                     | None => None
                     end
            end
          else if byte_val a <? 32 then None
          else match rune_len s with
               | O => put replacement r
               | n => put (string_take n s) (string_drop n s)
               end
      end
  end.

Definition unquote (s : string) : option (string * string) := unquote_go (S (String.length s)) s.

(** ** Numbers *)

Definition is_digit_char (c : ascii) : bool := between 48 57 (byte_val c).

(** The leading digits and the rest. *)
Fixpoint digits (s : string) : string * string :=
  match s with
  | String c r =>
      if is_digit_char c then let '(d, rest) := digits r in (String c d, rest) else (EmptyString, s)
  | EmptyString => (EmptyString, EmptyString)
  end.

Definition one_char (s : string) (cs : string) : string * string :=
  match s with
  | String c r => if no_char c cs then (EmptyString, s) else (String c EmptyString, r)
  | EmptyString => (EmptyString, EmptyString)
  end.

(** An optional part that starts with one of [cs] and goes on with digits after
    an optional sign from [signs]. *)
Definition optional_part (cs signs : string) (s : string) : option (string * string) :=
  let '(start, r) := one_char s cs in
  if String.eqb start EmptyString then Some (EmptyString, s)
  else
    let '(sign, r) := one_char r signs in
    let '(ds, rest) := digits r in
    if String.eqb ds EmptyString then None else Some (start +:+ sign +:+ ds, rest).

(** A number literal: no leading zeros. *)
Definition parse_number (s : string) : option (string * string) :=
  let '(sign, r) := one_char s "-" in
  let '(ds, r) := digits r in
  match ds with
  | EmptyString => None
  | String c (String _ _) => if Ascii.eqb c (chr 48) then None else
      match optional_part "." EmptyString r with
      | None => None
      | Some (fraction, r) =>
          match optional_part "eE" "+-" r with
          | None => None
          | Some (exponent, rest) => Some (sign +:+ ds +:+ fraction +:+ exponent, rest)
          end
      end
  | String _ EmptyString =>
      match optional_part "." EmptyString r with
      | None => None
      | Some (fraction, r) =>
          match optional_part "eE" "+-" r with
          | None => None
          | Some (exponent, rest) => Some (sign +:+ ds +:+ fraction +:+ exponent, rest)
          end
      end
  end.

(** ** Values *)

Definition json_space (c : ascii) : bool :=
  let x := byte_val c in (x =? 32) || (x =? 9) || (x =? 13) || (x =? 10).

Fixpoint skip_space (s : string) : string :=
  match s with
  | String c r => if json_space c then skip_space r else s
  | EmptyString => s
  end.

Definition maxNestingDepth : Z := 10000.

Definition expect (c : ascii) (s : string) : option string :=
  match skip_space s with
  | String d r => if Ascii.eqb d c then Some r else None
  | EmptyString => None
  end.

Definition literal (text : string) (v : json) (s : string) : option (json * string) :=
  if HasPrefix s text then Some (v, string_drop (String.length text) s) else None.

Definition parse_string (s : string) : option (string * string) :=
  match expect quote_mark s with Some r => unquote r | None => None end.

(** A value at nesting depth [depth]; the members of an object and the elements
    of an array from the first on. *)
Fixpoint parse_value (fuel : nat) (depth : Z) (s : string) : option (json * string) :=
  match fuel with
  | O => None
  | S f =>
      match skip_space s with
      | EmptyString => None
      | String c r =>
          if Ascii.eqb c quote_mark
          then match unquote r with Some (content, rest) => Some (JString content, rest) | None => None end
          else if Ascii.eqb c (chr 123) then
            if maxNestingDepth <=? depth then None
            else match expect (chr 125) r with
                 | Some rest => Some (JObject [], rest)
                 | None => match parse_members f (depth + 1) r with
                           | Some (ms, rest) => Some (JObject ms, rest)
                           | None => None
                           end
                 end
          else if Ascii.eqb c (chr 91) then
            if maxNestingDepth <=? depth then None
            else match expect (chr 93) r with
                 | Some rest => Some (JArray [], rest)
                 | None => match parse_elements f (depth + 1) r with
                           | Some (vs, rest) => Some (JArray vs, rest)
                           | None => None
                           end
                 end
          else if Ascii.eqb c (chr 116) then literal "true" (JBool true) (String c r)
          else if Ascii.eqb c (chr 102) then literal "false" (JBool false) (String c r)
          else if Ascii.eqb c (chr 110) then literal "null" JNull (String c r)
          else match parse_number (String c r) with
               | Some (text, rest) => Some (JNumber text, rest)
               | None => None
               end
      end
  end
with parse_members (fuel : nat) (depth : Z) (s : string) : option (list (string * json) * string) :=
  match fuel with
  | O => None
  | S f =>
      match parse_string s with
      | None => None
      | Some (key, r) =>
          match expect (chr 58) r with
          | None => None
          | Some r =>
              match parse_value f depth r with
              | None => None
              | Some (v, r) =>
                  match expect (chr 125) r with
                  | Some rest => Some ([(key, v)], rest)
                  | None =>
                      match expect (chr 44) r with
                      | None => None
                      | Some r => match parse_members f depth r with
                                  | Some (ms, rest) => Some ((key, v) :: ms, rest)
                                  | None => None
                                  end
                      end
                  end
              end
          end
      end
  end
with parse_elements (fuel : nat) (depth : Z) (s : string) : option (list json * string) :=
  match fuel with
  | O => None
  | S f =>
      match parse_value f depth s with
      | None => None
      | Some (v, r) =>
          match expect (chr 93) r with
          | Some rest => Some ([v], rest)
          | None =>
              match expect (chr 44) r with
              | None => None
              | Some r => match parse_elements f depth r with
                          | Some (vs, rest) => Some (v :: vs, rest)
                          | None => None
                          end
              end
          end
      end
  end.

(** Every second call takes at least one byte. *)
Definition json_fuel (s : string) : nat := 2 * String.length s + 2.

(** [json.Unmarshal] up to the values: one value and nothing but space after it. *)
Definition json_Parse (s : string) : option json :=
  match parse_value (json_fuel s) 0 s with
  | Some (v, rest) => if String.eqb (skip_space rest) EmptyString then Some v else None
  | None => None
  end.

(** ** Printing ([json.Marshal]) *)

Fixpoint json_Print (v : json) : string :=
  match v with
  | JNull => "null"
  | JBool true => "true"
  | JBool false => "false"
  | JNumber text => text
  | JString s => quote s
  | JArray vs => "[" +:+ Join (map json_Print vs) "," +:+ "]"
  | JObject ms => "{" +:+ Join (map (fun m => quote m.1 +:+ ":" +:+ json_Print m.2) ms) "," +:+ "}"
  end.

(** [json.MarshalIndent(v, "", "  ")]. *)
Definition newline : string := String (chr 10) EmptyString.

Fixpoint json_Indent (indent : string) (v : json) : string :=
  let deeper := indent +:+ "  " in
  match v with
  | JArray ((_ :: _) as vs) =>
      "[" +:+ newline +:+ deeper +:+ Join (map (json_Indent deeper) vs) ("," +:+ newline +:+ deeper) +:+
      newline +:+ indent +:+ "]"
  | JObject ((_ :: _) as ms) =>
      "{" +:+ newline +:+ deeper +:+
      Join (map (fun m => quote m.1 +:+ ": " +:+ json_Indent deeper m.2) ms) ("," +:+ newline +:+ deeper) +:+
      newline +:+ indent +:+ "}"
  | _ => json_Print v
  end.

Definition json_MarshalIndent (v : json) : string := json_Indent EmptyString v.

(** ** Structs *)

(** [foldName] as far as it matters for keys in ASCII: letters lose their case,
    and so do U+017F and U+212A, which fold to s and k. *)
Fixpoint fold_name (s : string) : string :=
  match s with
  | EmptyString => EmptyString
  | String a r =>
      match r with
      | String b r2 =>
          if (byte_val a =? 197) && (byte_val b =? 191) then String (chr 115) (fold_name r2)
          else match r2 with
               | String c r3 =>
                   if (byte_val a =? 226) && (byte_val b =? 132) && (byte_val c =? 170)
                   then String (chr 107) (fold_name r3)
                   else String (lower_ascii a) (fold_name r)
               | EmptyString => String (lower_ascii a) (fold_name r)
               end
      | EmptyString => String (lower_ascii a) (fold_name r)
      end
  end.

(** The field a key names: by its exact name, else by its folded one. *)
Definition find_field {A} (fields : list (string * A)) (key : string) : option A :=
  match List.find (fun p => String.eqb p.1 key) fields with
  | Some p => Some p.2
  | None => snd <$> List.find (fun p => String.eqb (fold_name p.1) (fold_name key)) fields
  end.

Definition mismatch (what : string) : error := errorf ("json: cannot unmarshal " +:+ what).

(** Decoding an object into a struct: each known key sets its field, unknown keys
    are ignored, null changes nothing. *)
Definition decode_struct {St} (fields : list (string * (json -> St -> result St))) (v : json) (st : St)
  : result St :=
  match v with
  | JNull => Ok st
  | JObject ms =>
      foldR (fun st m => match find_field fields m.1 with
                         | Some set => set m.2 st
                         | None => Ok st
                         end) st ms
  | _ => Err (mismatch "value into Go struct")
  end.

(** [json.NewDecoder] on a body of which [limit] bytes are read: the first value in it
    is decoded, what follows is not looked at. *)
Definition decode_first {St} (limit : Z) (fields : list (string * (json -> St -> result St))) (zero : St) (body : result string)
  : result St :=
  body ← body;
  let body := string_take (Z.to_nat limit) body in
  v ← of_option (errorf "invalid JSON") (fst <$> parse_value (json_fuel body) 0 body);
  decode_struct fields v zero.

(** A field of a basic type: null leaves it alone. *)
Definition field {A St} (decode : json -> result A) (set : A -> St -> St) (v : json) (st : St) : result St :=
  match v with
  | JNull => Ok st
  | _ => x ← decode v; Ok (set x st)
  end.

Definition decode_string (v : json) : result string :=
  match v with JString s => Ok s | _ => Err (mismatch "value into Go value of type string") end.

Definition decode_bool (v : json) : result bool :=
  match v with JBool b => Ok b | _ => Err (mismatch "value into Go value of type bool") end.

(** [strconv.ParseInt(text, 10, 64)] and [ParseUint] on number literals. *)
Definition parse_int (text : string) : option Z :=
  match text with
  | String c r =>
      if Ascii.eqb c (chr 45) then match r with EmptyString => None | _ => Z.opp <$> parse_digits r 0 end
      else parse_digits text 0
  | EmptyString => None
  end.

(** An integer of the range [lo, hi]. *)
Definition decode_int (lo hi : Z) (v : json) : result Z :=
  match v with
  | JNumber text =>
      match parse_int text with
      | Some n => if between lo hi n then Ok n else Err (mismatch "number out of range")
      | None => Err (mismatch "number into Go value of integer type")
      end
  | _ => Err (mismatch "value into Go value of integer type")
  end.

Definition decode_int64 : json -> result Z := decode_int (- int64_max - 1) int64_max.

(** Unsigned integers take no sign, not even that of -0. *)
Definition decode_uint32 (v : json) : result Z :=
  match v with
  | JNumber (String c _) =>
      if Ascii.eqb c (chr 45) then Err (mismatch "number into Go value of unsigned type")
      else decode_int 0 uint32_max v
  | _ => decode_int 0 uint32_max v
  end.

(** A slice: the elements in order, where null is the zero value; null itself
    gives the nil slice. *)
Definition decode_list {A} (zero : A) (decode : json -> result A) (v : json) : result (list A) :=
  match v with
  | JNull => Ok []
  | JArray vs => mapR (fun v => match v with JNull => Ok zero | _ => decode v end) vs
  | _ => Err (mismatch "value into Go slice")
  end.

Definition list_field {A St} (zero : A) (decode : json -> result A) (set : list A -> St -> St) (v : json) (st : St)
  : result St := xs ← decode_list zero decode v; Ok (set xs st).

(** ** Strings survive *)

(** Well-formed UTF-8. *)
Fixpoint valid_go (fuel : nat) (s : string) : bool :=
  match fuel, s with
  | S f, String _ _ => match rune_len s with O => false | n => valid_go f (string_drop n s) end
  | _, _ => true
  end.
Definition valid_utf8 (s : string) : bool := valid_go (String.length s) s.

Lemma ascii_valid s : ascii_only s = true -> valid_utf8 s = true.
Proof.
  unfold valid_utf8. induction s as [|c s IH]; [done|]. unfold ascii_only in *. cbn [string_forall].
  intros [Hc Hs]%andb_true_iff. cbn [String.length valid_go rune_len]. rewrite Hc. cbn [string_drop]. by apply IH.
Qed.

Lemma string_drop_length n s : String.length (string_drop n s) = (String.length s - n)%nat.
Proof.
  revert s; induction n as [|n IH]; intros s; [simpl; lia|]. destruct s as [|c s]; [done|]. simpl. apply IH.
Qed.

Lemma string_take_length n s : (n <= String.length s)%nat -> String.length (string_take n s) = n.
Proof.
  revert s; induction n as [|n IH]; intros s Hn; [done|]. destruct s as [|c s]; simpl in Hn; [lia|].
  cbn [string_take String.length]. by rewrite IH by lia.
Qed.

Lemma take_drop_string n s : string_take n s +:+ string_drop n s = s.
Proof.
  revert s; induction n as [|n IH]; intros s; [done|]. destruct s as [|c s]; [done|].
  cbn [string_take string_drop]. rewrite sapp_cons. f_equal. apply IH.
Qed.

(** The first rune lies within the text. *)
Lemma rune_len_le s : (rune_len s <= String.length s)%nat.
Proof.
  destruct s as [|a [|b [|c [|d r]]]]; simpl; repeat case_goal; simpl; lia.
Qed.

Lemma rune_len_app s t : rune_len s <> 0%nat -> rune_len (string_take (rune_len s) s +:+ t) = rune_len s.
Proof.
  destruct s as [|a [|b [|c [|d r]]]]; simpl; try done; repeat (case_goal; simpl; try done);
    intros _; rewrite ?sapp_cons, ?sapp_nil; simpl; use_eqs; try done.
Qed.

Lemma string_take_app n s t : (n <= String.length s)%nat -> string_take n (string_take n s +:+ t) = string_take n s.
Proof.
  revert s; induction n as [|n IH]; intros s Hn; [done|]. destruct s as [|c s]; simpl in Hn; [lia|].
  cbn [string_take]. rewrite sapp_cons. cbn [string_take string_drop]. rewrite IH by lia. done.
Qed.

Lemma string_drop_take_app n s t : (n <= String.length s)%nat -> string_drop n (string_take n s +:+ t) = t.
Proof.
  revert s; induction n as [|n IH]; intros s Hn; [done|]. destruct s as [|c s]; simpl in Hn; [lia|].
  cbn [string_take]. rewrite sapp_cons. cbn [string_take string_drop]. rewrite IH by lia. done.
Qed.

Lemma byte_val_lt c : 0 <= byte_val c < 256.
Proof. unfold byte_val. pose proof (N_ascii_bounded c). lia. Qed.

(** A property of ASCII characters, checked on each. *)
Lemma ascii_check (P : ascii -> bool) :
  forallb (fun n => P (chr (N.of_nat n))) (seq 0 128) = true -> forall c, byte_val c < 128 -> P c = true.
Proof.
  intros Hf c Hc. rewrite forallb_forall in Hf. specialize (Hf (N.to_nat (N_of_ascii c))). unfold chr in Hf.
  rewrite N2Nat.id, ascii_N_embedding in Hf. apply Hf, in_seq. unfold byte_val in Hc. lia.
Qed.

(** One round of [unquote_go]. *)
Definition put (r : option (string * string)) (prefix : string) : option (string * string) :=
  match r with Some (content, tail) => Some (prefix +:+ content, tail) | None => None end.

Lemma unquote_ascii f c t :
  byte_val c < 128 -> unquote_go (S f) (quote_ascii c +:+ t) = put (unquote_go f t) (String c EmptyString).
Proof.
  intros Hc. destruct c as [[] [] [] [] [] [] [] []]; try (exfalso; revert Hc; vm_compute; by intros);
    reflexivity.
Qed.

Lemma unquote_rune f s t n :
  128 <= byte_val (match s with String a _ => a | EmptyString => chr 128 end) ->
  rune_len s = S n -> unquote_go (S f) (quote_rune (string_take (S n) s) +:+ t)
                      = put (unquote_go f t) (string_take (S n) s).
Proof.
  intros Ha Hn. pose proof (rune_len_le s) as Hle. rewrite Hn in Hle. unfold quote_rune.
  destruct (String.eqb_spec (string_take (S n) s) (EncodeRune 8232)) as [->|_]; [reflexivity|].
  destruct (String.eqb_spec (string_take (S n) s) (EncodeRune 8233)) as [->|_]; [reflexivity|].
  destruct s as [|a r]; [done|]. pose proof (rune_len_app (String a r) t) as Hr. rewrite Hn in Hr.
  specialize (Hr ltac:(done)). pose proof (string_take_app (S n) (String a r) t Hle) as Htake.
  pose proof (string_drop_take_app (S n) (String a r) t Hle) as Hdrop.
  cbn [string_take] in *. rewrite sapp_cons in *.
  assert (Ascii.eqb a quote_mark = false) as E1.
  { apply Ascii.eqb_neq. intros ->. revert Ha. by vm_compute. }
  assert (Ascii.eqb a backslash = false) as E2.
  { apply Ascii.eqb_neq. intros ->. revert Ha. by vm_compute. }
  assert (byte_val a <? 32 = false) as E3 by lia.
  cbn [unquote_go]. rewrite E1, E2, E3, Hr. cbn [string_take string_drop] in *. by rewrite Htake, Hdrop.
Qed.

(** Decoding an encoded well-formed text gives it back, whatever follows. *)
Lemma unquote_quote_go n s fuel rest :
  (String.length s <= n)%nat -> (String.length s < fuel)%nat -> valid_go n s = true ->
  unquote_go fuel (quote_go n s +:+ String quote_mark rest) = Some (s, rest).
Proof.
  revert s fuel; induction n as [|n IH]; intros s fuel Hn Hf Hv.
  - destruct s; [|simpl in Hn; lia]. destruct fuel as [|fuel]; [lia|]. reflexivity.
  - destruct s as [|a r]; [destruct fuel as [|fuel]; [lia|]; reflexivity|].
    destruct fuel as [|fuel]; [lia|]. cbn [valid_go quote_go] in *.
    destruct (byte_val a <? 128) eqn:Ea.
    + assert (rune_len (String a r) = 1%nat) as Hl by (cbn [rune_len]; by rewrite Ea).
      rewrite Hl in Hv. cbn [string_drop] in Hv. simpl in Hn, Hf.
      rewrite <- sapp_assoc, unquote_ascii by lia. rewrite IH by (done || lia). simpl. done.
    + destruct (rune_len (String a r)) as [|k] eqn:Hl; [done|].
      pose proof (rune_len_le (String a r)) as Hle. rewrite Hl in Hle.
      pose proof (string_drop_length (S k) (String a r)) as Hd.
      rewrite <- sapp_assoc, unquote_rune by (done || lia). rewrite IH; [| simpl in *; lia..| done].
      unfold put. by rewrite take_drop_string.
Qed.

Lemma unquote_quote s rest :
  valid_utf8 s = true ->
  exists body, quote s +:+ rest = String quote_mark body /\ unquote body = Some (s, rest).
Proof.
  intros Hv. exists (quote_go (String.length s) s +:+ String quote_mark rest). split.
  - unfold quote. by rewrite sapp_cons, <- sapp_assoc.
  - unfold unquote. apply unquote_quote_go; [done | | done]. rewrite sapp_length.
    assert (String.length s <= String.length (quote_go (String.length s) s))%nat; [|simpl; lia].
    assert (forall n t, (String.length t <= n)%nat -> (String.length t <= String.length (quote_go n t))%nat) as Hq; [|by apply Hq].
    clear. intros n. induction n as [|n IH]; intros t Ht; [simpl; lia|]. destruct t as [|a r]; [simpl; lia|].
    cbn [quote_go]. pose proof (rune_len_le (String a r)) as Hle. destruct (byte_val a <? 128).
    + rewrite sapp_length. simpl in Ht. specialize (IH r ltac:(lia)).
      assert (1 <= String.length (quote_ascii a))%nat; [|simpl; lia].
      unfold quote_ascii. cbv zeta. repeat case_goal; simpl; lia.
    + destruct (rune_len (String a r)) as [|k].
      * simpl in Ht. specialize (IH r ltac:(lia)). rewrite sapp_length. simpl in *. lia.
      * pose proof (string_drop_length (S k) (String a r)) as Hd. rewrite sapp_length.
        specialize (IH (string_drop (S k) (String a r)) ltac:(simpl in *; lia)).
        assert (S k <= String.length (quote_rune (string_take (S k) (String a r))))%nat; [|simpl in *; lia].
        assert (String.length (string_take (S k) (String a r)) = S k) as Ht' by (apply string_take_length; lia).
        unfold quote_rune. destruct (String.eqb_spec (string_take (S k) (String a r)) (EncodeRune 8232)) as [Eq|_].
        { rewrite Eq in Ht'. vm_compute in Ht'. simpl. lia. }
        destruct (String.eqb_spec (string_take (S k) (String a r)) (EncodeRune 8233)) as [Eq|_]; [|lia].
        rewrite Eq in Ht'. vm_compute in Ht'. simpl. lia.
Qed.

(** ** Values survive *)

(** What follows a value inside a text that was printed. *)
Definition delimited (rest : string) : Prop :=
  match rest with
  | EmptyString => True
  | String c _ => c = chr 44 \/ c = chr 93 \/ c = chr 125 \/ c = chr 10
  end.

(** A literal that is read back as it is. *)
Definition number_ok (text : string) : Prop :=
  text <> EmptyString /\
  (forall c r, text = String c r -> c = chr 45 \/ is_digit_char c = true) /\
  forall rest, delimited rest -> parse_number (text +:+ rest) = Some (text, rest).

(** Values whose strings are well-formed and that are nested [depth] deep at most. *)
Fixpoint printable (depth : nat) (v : json) : Prop :=
  match v with
  | JNumber text => number_ok text
  | JString s => valid_utf8 s = true
  | JArray vs => match depth with O => False | S d => Forall (printable d) vs end
  | JObject ms =>
      match depth with
      | O => False
      | S d => Forall (fun m => valid_utf8 m.1 = true /\ printable d m.2) ms
      end
  | _ => True
  end.

(** The first character of a printed value starts a value, and nothing else. *)
Definition starts_value (c : ascii) : bool :=
  negb (json_space c) && negb (Ascii.eqb c (chr 93)) && negb (Ascii.eqb c (chr 125)) && negb (Ascii.eqb c (chr 44)).

Lemma digit_starts c : is_digit_char c = true -> byte_val c < 128.
Proof. unfold is_digit_char, between. intros H. to_prop. lia. Qed.

Definition number_start (c : ascii) : bool :=
  starts_value c && negb (Ascii.eqb c quote_mark) && negb (Ascii.eqb c (chr 123)) && negb (Ascii.eqb c (chr 91)) &&
  negb (Ascii.eqb c (chr 116)) && negb (Ascii.eqb c (chr 102)) && negb (Ascii.eqb c (chr 110)).

Lemma number_starts c : c = chr 45 \/ is_digit_char c = true -> number_start c = true.
Proof.
  intros [->|Hd]; [reflexivity|]. pose proof (digit_starts c Hd) as Hc.
  assert (negb (is_digit_char c) || number_start c = true) as H.
  { apply (ascii_check (fun c => negb (is_digit_char c) || number_start c)); [vm_compute; reflexivity | done]. }
  by rewrite Hd in H.
Qed.

Lemma print_starts d v : printable d v -> exists c r, json_Print v = String c r /\ starts_value c = true.
Proof.
  destruct d as [|d], v as [|[]|text|s|vs|ms]; intros Hp; try (by destruct Hp);
    try (eexists _, _; split; [reflexivity | reflexivity]);
    destruct Hp as (Hne & Hc & _), text as [|c r]; try done; exists c, r; (split; [done|]);
    specialize (Hc c r eq_refl); apply number_starts in Hc; unfold number_start in Hc; by to_prop.
Qed.

Lemma starts_skip c r : starts_value c = true -> skip_space (String c r) = String c r.
Proof. unfold starts_value. intros H. to_prop. simpl. by use_eqs. Qed.

Lemma expect_starts e c r :
  starts_value c = true -> (e = chr 93 \/ e = chr 125 \/ e = chr 44) -> expect e (String c r) = None.
Proof.
  intros Hs He. unfold expect. rewrite starts_skip by done. unfold starts_value in Hs. to_prop.
  destruct He as [->|[->| ->]]; by use_eqs.
Qed.

(** Reading a printed value back, the statement of the induction. *)
Definition reads_back (d : nat) (v : json) : Prop :=
  forall fuel depth rest, delimited rest -> depth + Z.of_nat d <= maxNestingDepth ->
    (2 * String.length (json_Print v) + 2 <= fuel)%nat ->
    parse_value fuel depth (json_Print v +:+ rest) = Some (v, rest).

Lemma elements_read_back d vs fuel depth rest :
  vs <> [] -> Forall (fun v => printable d v /\ reads_back d v) vs -> depth + Z.of_nat d <= maxNestingDepth ->
  (2 * String.length (Join (map json_Print vs) ",") + 3 <= fuel)%nat ->
  parse_elements fuel depth (Join (map json_Print vs) "," +:+ String (chr 93) rest) = Some (vs, rest).
Proof.
  intros Hne Hf Hd. revert fuel. induction Hf as [|v vs [Hp Hv] Hf IH]; [done|]. intros fuel Hfuel.
  destruct fuel as [|f]; [lia|]. cbn [parse_elements]. destruct vs as [|w vs].
  - cbn [map Join] in *. rewrite Hv; [reflexivity | right; by left | done | lia].
  - change (Join (map json_Print (v :: w :: vs)) ",")
      with (json_Print v +:+ "," +:+ Join (map json_Print (w :: vs)) ",") in *.
    set (J := Join (map json_Print (w :: vs)) ",") in *. rewrite !sapp_length in Hfuel. simpl in Hfuel.
    rewrite <- !sapp_assoc. rewrite Hv; [| by left | done | lia].
    change (expect (chr 93) ("," +:+ J +:+ String (chr 93) rest)) with (@None string).
    change (expect (chr 44) ("," +:+ J +:+ String (chr 93) rest)) with (Some (J +:+ String (chr 93) rest)).
    cbv iota. rewrite IH; [done | done | lia].
Qed.

Lemma skip_quote s : skip_space (String quote_mark s) = String quote_mark s.
Proof. reflexivity. Qed.

Definition print_member (m : string * json) : string := quote m.1 +:+ ":" +:+ json_Print m.2.

Lemma parse_string_quote s rest : valid_utf8 s = true -> parse_string (quote s +:+ rest) = Some (s, rest).
Proof. intros Hv. destruct (unquote_quote s rest Hv) as (body & -> & Hu). exact Hu. Qed.

Lemma members_read_back d ms fuel depth rest :
  ms <> [] -> Forall (fun m => valid_utf8 m.1 = true /\ printable d m.2 /\ reads_back d m.2) ms ->
  depth + Z.of_nat d <= maxNestingDepth ->
  (2 * String.length (Join (map print_member ms) ",") + 3 <= fuel)%nat ->
  parse_members fuel depth (Join (map print_member ms) "," +:+ String (chr 125) rest) = Some (ms, rest).
Proof.
  intros Hne Hf Hd. revert fuel. induction Hf as [|[k v] ms (Hk & Hp & Hv) Hf IH]; [done|]. intros fuel Hfuel.
  destruct fuel as [|f]; [lia|]. cbn [parse_members]. simpl in Hk, Hp, Hv. destruct ms as [|w ms].
  - cbn [map Join] in *. unfold print_member in *. cbn [fst snd] in *. rewrite !sapp_length in Hfuel. simpl in Hfuel.
    rewrite <- !sapp_assoc, parse_string_quote by done.
    change (expect (chr 58) (":" +:+ ?x)) with (Some x). cbv iota.
    rewrite Hv; [reflexivity | right; right; by left | done | lia].
  - change (Join (map print_member ((k, v) :: w :: ms)) ",")
      with ((quote k +:+ ":" +:+ json_Print v) +:+ "," +:+ Join (map print_member (w :: ms)) ",") in *.
    set (J := Join (map print_member (w :: ms)) ",") in *. rewrite !sapp_length in Hfuel. simpl in Hfuel.
    rewrite <- !sapp_assoc, parse_string_quote by done.
    change (expect (chr 58) (":" +:+ json_Print v +:+ "," +:+ J +:+ String (chr 125) rest))
      with (Some (json_Print v +:+ "," +:+ J +:+ String (chr 125) rest)). cbv iota.
    rewrite Hv; [| by left | done | lia].
    change (expect (chr 125) ("," +:+ J +:+ String (chr 125) rest)) with (@None string).
    change (expect (chr 44) ("," +:+ J +:+ String (chr 125) rest)) with (Some (J +:+ String (chr 125) rest)).
    cbv iota. rewrite IH; [done | done | lia].
Qed.

Lemma Join_starts (x : string) xs c r sep :
  x = String c r -> exists r', Join (x :: xs) sep = String c r'.
Proof. intros ->. destruct xs as [|y ys]; eexists; [done|]. cbn [Join]. by rewrite sapp_cons. Qed.

Lemma literal_app text v rest : literal text v (text +:+ rest) = Some (v, rest).
Proof. unfold literal, HasPrefix. by rewrite prefix_app, string_drop_app. Qed.

Lemma printed_reads_back d v : printable d v -> reads_back d v.
Proof.
  revert v. induction d as [|d IH]; intros v Hp fuel depth rest Hr Hd Hfuel; (destruct fuel as [|f]; [lia|]);
    destruct v as [|[]|text|s|vs|ms]; try done; try (by destruct Hp);
    try exact (literal_app "null" JNull rest); try exact (literal_app "true" (JBool true) rest);
    try exact (literal_app "false" (JBool false) rest).
  1, 3: destruct Hp as (Hne & Hc & Hnum); destruct text as [|c r]; [done|]; cbn [json_Print] in *;
    specialize (Hc c r eq_refl); apply number_starts in Hc; unfold number_start in Hc; to_prop;
    specialize (Hnum rest Hr); rewrite sapp_cons in *; cbn [parse_value];
    rewrite starts_skip by done; by use_eqs.
  1, 2: cbn [json_Print] in *; destruct (unquote_quote s rest Hp) as (body & -> & Hu); cbn [parse_value];
    rewrite skip_quote; change (Ascii.eqb quote_mark quote_mark) with true; cbv iota; by rewrite Hu.
  - cbn [json_Print] in *. cbn [printable] in Hp. rewrite !sapp_length in Hfuel. simpl in Hfuel.
    rewrite <- !sapp_assoc. cbn [parse_value].
    change (skip_space ("[" +:+ ?x)) with (String (chr 91) x). cbv iota.
    change (Ascii.eqb (chr 91) quote_mark) with false. change (Ascii.eqb (chr 91) (chr 123)) with false.
    change (Ascii.eqb (chr 91) (chr 91)) with true. cbv iota.
    assert (maxNestingDepth <=? depth = false) as -> by (unfold maxNestingDepth in *; lia).
    destruct vs as [|v vs]; [reflexivity|].
    change ("]" +:+ rest) with (String (chr 93) rest).
    assert (Forall (fun v => printable d v /\ reads_back d v) (v :: vs)) as Hf.
    { eapply Forall_impl; [exact Hp|]. intros w Hw. split; [done | by apply IH]. }
    assert (exists c r, Join (map json_Print (v :: vs)) "," = String c r /\ starts_value c = true) as (c & r & Hj & Hc).
    { apply Forall_cons in Hp as [Hp _]. destruct (print_starts d v Hp) as (c & r & Hcr & Hc).
      destruct (Join_starts _ (map json_Print vs) c r "," Hcr) as (r' & Hr'). by exists c, r'. }
    rewrite (elements_read_back d) by (done || lia).
    rewrite Hj, sapp_cons, expect_starts by auto. done.
  - cbn [json_Print] in *. cbn [printable] in Hp. rewrite !sapp_length in Hfuel. simpl in Hfuel.
    fold print_member in *.
    rewrite <- !sapp_assoc. cbn [parse_value].
    change (skip_space ("{" +:+ ?x)) with (String (chr 123) x). cbv iota.
    change (Ascii.eqb (chr 123) quote_mark) with false. change (Ascii.eqb (chr 123) (chr 123)) with true. cbv iota.
    assert (maxNestingDepth <=? depth = false) as -> by (unfold maxNestingDepth in *; lia).
    destruct ms as [|m ms]; [reflexivity|].
    change ("}" +:+ rest) with (String (chr 125) rest).
    assert (Forall (fun m => valid_utf8 m.1 = true /\ printable d m.2 /\ reads_back d m.2) (m :: ms)) as Hf.
    { eapply Forall_impl; [exact Hp|]. intros w [Hw1 Hw2]. split_and!; [done | done | by apply IH]. }
    rewrite (members_read_back d) by (done || lia).
    destruct (Join_starts (print_member m) (map print_member ms) quote_mark (quote_go (String.length m.1) m.1 +:+ String quote_mark EmptyString +:+ ":" +:+ json_Print m.2) ",") as (r' & Hj).
    { unfold print_member, quote. by rewrite sapp_cons, <- sapp_assoc. }
    cbn [map]. rewrite Hj, sapp_cons, expect_starts by auto. done.
Qed.

(** [json.Unmarshal] reads what [json.Marshal] wrote as the value that was written. *)
Lemma json_Parse_Print d v : printable d v -> Z.of_nat d <= maxNestingDepth -> json_Parse (json_Print v) = Some v.
Proof.
  intros Hp Hd. unfold json_Parse, json_fuel.
  assert (parse_value (2 * String.length (json_Print v) + 2) 0 (json_Print v) = Some (v, EmptyString)) as ->; [|done].
  rewrite <- (sapp_nil_r (json_Print v)) at 2. by apply (printed_reads_back d).
Qed.

(** ** Integers survive *)

Lemma digit_is_digit d : 0 <= d < 10 -> is_digit_char (digit d) = true.
Proof.
  intros Hd. assert (forallb (fun n => is_digit_char (digit (Z.of_nat n))) (seq 0 10) = true) as H by reflexivity.
  rewrite forallb_forall in H. rewrite <- (Z2Nat.id d) by lia. apply H, in_seq. lia.
Qed.

Lemma dec_go_head fuel n acc :
  0 < n < 10 ^ Z.of_nat fuel -> exists c r, dec_go fuel n acc = String c r /\ c <> chr 48.
Proof.
  revert n acc; induction fuel as [|f IH]; intros n acc Hn; [simpl in Hn; lia|]. cbn [dec_go].
  destruct (Z.eqb_spec (n / 10) 0) as [E|E].
  - exists (digit (n mod 10)), acc. split; [done|].
    assert (0 < n < 10) as Hs by (Z.to_euclidean_division_equations; lia). rewrite Z.mod_small by lia.
    assert (forallb (fun m => (Z.of_nat m =? 0) || negb (Ascii.eqb (digit (Z.of_nat m)) (chr 48))) (seq 0 10) = true)
      as H by reflexivity.
    rewrite forallb_forall in H. specialize (H (Z.to_nat n) ltac:(apply in_seq; lia)). rewrite Z2Nat.id in H by lia.
    intros Hc. rewrite Hc in H. apply orb_true_iff in H as [H|H]; [lia | done].
  - apply IH. rewrite Nat2Z.inj_succ, Z.pow_succ_r in Hn by lia.
    split; [Z.to_euclidean_division_equations; lia | apply Z.div_lt_upper_bound; lia].
Qed.

Lemma digits_app ds rest :
  string_forall is_digit_char ds = true -> delimited rest -> digits (ds +:+ rest) = (ds, rest).
Proof.
  intros Hd Hr. induction ds as [|c r IH].
  - rewrite sapp_nil. destruct rest as [|c rest]; [done|]. simpl. by destruct Hr as [->|[->|[->| ->]]].
  - rewrite sapp_cons. simpl in Hd |- *. to_prop. use_eqs. by rewrite IH.
Qed.

Lemma no_optional_part cs signs rest :
  delimited rest -> no_char (chr 44) cs = true -> no_char (chr 93) cs = true -> no_char (chr 125) cs = true ->
  no_char (chr 10) cs = true -> optional_part cs signs rest = Some (EmptyString, rest).
Proof.
  intros Hr H1 H2 H3 H4. unfold optional_part, one_char. destruct rest as [|c rest]; [done|].
  destruct Hr as [->|[->|[->| ->]]]; by use_eqs.
Qed.

Lemma parse_unsigned ds rest sign r :
  one_char (sign +:+ ds +:+ rest) "-" = (sign, ds +:+ rest) -> string_forall is_digit_char ds = true ->
  ds = String (chr 48) EmptyString \/ (exists c r, ds = String c r /\ c <> chr 48) -> delimited rest ->
  r = sign +:+ ds -> parse_number (r +:+ rest) = Some (r, rest).
Proof.
  intros Hs Hd Hz Hr ->. unfold parse_number. rewrite <- sapp_assoc, Hs, digits_app by done.
  rewrite !no_optional_part by (done || reflexivity). destruct Hz as [-> | (c & r & -> & Hc)]; [done|].
  destruct r as [|c' r]; [by rewrite !sapp_nil_r|]. apply Ascii.eqb_neq in Hc as ->. by rewrite !sapp_nil_r.
Qed.

Lemma is_digit_same c : is_digit c = is_digit_char c.
Proof. unfold is_digit, digit_val, is_digit_char, between. by case_goal. Qed.

Lemma FormatUint_shape n :
  0 <= n < 10 ^ 20 ->
  string_forall is_digit_char (FormatUint n) = true /\
  (FormatUint n = String (chr 48) EmptyString \/ exists c r, FormatUint n = String c r /\ c <> chr 48).
Proof.
  intros Hn. split.
  - apply (string_forall_impl is_digit); [intros c Hc; by rewrite <- is_digit_same | apply FormatUint_digits; lia].
  - destruct (decide (n = 0)) as [->|Hne]; [by left|]. right. apply dec_go_head. simpl. lia.
Qed.

Lemma FormatUint_number n : 0 <= n < 10 ^ 20 -> number_ok (FormatUint n).
Proof.
  intros Hn. destruct (FormatUint_shape n Hn) as [Hd Hz]. split_and!.
  - apply FormatUint_nonempty.
  - intros c r Hc. right. rewrite Hc in Hd. simpl in Hd. by to_prop.
  - intros rest Hr. apply (parse_unsigned (FormatUint n) rest EmptyString); try done.
    destruct (FormatUint n) as [|c r] eqn:E; [by apply FormatUint_nonempty in E|]. rewrite sapp_nil, sapp_cons.
    simpl in Hd. to_prop. unfold one_char, no_char. cbn [string_forall].
    destruct (Ascii.eqb_spec "-"%char c) as [<-|]; done.
Qed.

Lemma FormatInt_number n : - 10 ^ 19 < n < 10 ^ 19 -> number_ok (FormatInt n).
Proof.
  intros Hn. unfold FormatInt. destruct (Z.ltb_spec n 0); [|apply FormatUint_number; lia].
  destruct (FormatUint_shape (- n) ltac:(lia)) as [Hd Hz]. split_and!; [done | |].
  - intros c r [= <- <-]. by left.
  - intros rest Hr. by apply (parse_unsigned (FormatUint (- n)) rest (String (chr 45) EmptyString)).
Qed.

Lemma parse_int_FormatInt n : - 10 ^ 19 < n < 10 ^ 19 -> parse_int (FormatInt n) = Some n.
Proof.
  intros Hn. unfold FormatInt, parse_int. destruct (Z.ltb_spec n 0).
  - simpl. pose proof (FormatUint_nonempty (- n)). destruct (FormatUint (- n)) as [|c r] eqn:E; [done|].
    rewrite <- E, parse_FormatUint by lia. simpl. f_equal. lia.
  - destruct (FormatUint_shape n ltac:(lia)) as [Hd _]. destruct (FormatUint n) as [|c r] eqn:E; [by apply FormatUint_nonempty in E|].
    simpl in Hd. to_prop. assert (Ascii.eqb c (chr 45) = false) as E1.
    { apply Ascii.eqb_neq. intros ->. done. }
    rewrite E1, <- E. apply parse_FormatUint. lia.
Qed.

Lemma decode_int_Print lo hi n :
  - 10 ^ 19 < n < 10 ^ 19 -> lo <= n <= hi -> decode_int lo hi (JNumber (FormatInt n)) = Ok n.
Proof. intros Hn Hr. unfold decode_int, between. rewrite parse_int_FormatInt by done. case_goal; [done | lia]. Qed.

Lemma decode_uint32_Print n : 0 <= n <= uint32_max -> decode_uint32 (JNumber (FormatInt n)) = Ok n.
Proof.
  unfold uint32_max. intros Hn. pose proof (FormatInt_number n ltac:(lia)) as (Hne & _).
  assert (FormatInt n = FormatUint n) as Hf by (unfold FormatInt; destruct (Z.ltb_spec n 0); [lia | done]).
  destruct (FormatUint_shape n ltac:(lia)) as [Hd _]. rewrite <- Hf in Hd. unfold decode_uint32.
  destruct (FormatInt n) as [|c r] eqn:E; [done|]. simpl in Hd. to_prop.
  assert (Ascii.eqb c (chr 45) = false) as ->.
  { apply Ascii.eqb_neq. intros ->. done. }
  rewrite <- E. apply decode_int_Print; unfold uint32_max; lia.
Qed.

(** ** The fuel is enough *)

Lemma skip_space_le s : (String.length (skip_space s) <= String.length s)%nat.
Proof. induction s as [|c r IH]; simpl; [done|]. case_goal; simpl; lia. Qed.

Lemma expect_lt c s r : expect c s = Some r -> (String.length r < String.length s)%nat.
Proof.
  unfold expect. pose proof (skip_space_le s). destruct (skip_space s) as [|d t]; [done|].
  case_goal; [|done]. intros [= <-]. simpl in *. lia.
Qed.

Lemma hex4_lt s z r : hex4 s = Some (z, r) -> (String.length r < String.length s)%nat.
Proof.
  unfold hex4. destruct s as [|a [|b [|c [|d s]]]]; try done. repeat (case_goal; try done).
  intros [= _ <-]. simpl. lia.
Qed.

Lemma low_surrogate_lt h s z r : low_surrogate h s = Some (z, r) -> (String.length r < String.length s)%nat.
Proof.
  unfold low_surrogate. destruct s as [|a [|b s]]; try done. case_goal; [|done].
  destruct (hex4 s) as [[low r']|] eqn:E; [|done]. case_goal; [|done]. intros [= _ <-].
  apply hex4_lt in E. simpl. lia.
Qed.

Ltac length_chain :=
  repeat match goal with
  | H : expect _ _ = Some _ |- _ => apply expect_lt in H
  | H : hex4 _ = Some _ |- _ => apply hex4_lt in H
  | H : low_surrogate _ _ = Some _ |- _ => apply low_surrogate_lt in H
  end; simpl in *; try lia.

(** Decoding a string ends before the end of the text, with any fuel beyond its
    length alike. *)
Lemma unquote_go_lt f s content r :
  unquote_go f s = Some (content, r) -> (String.length r < String.length s)%nat.
Proof.
  revert s content; induction f as [|f IH]; intros s content; cbn [unquote_go]; [done|].
  assert (forall prefix rest, (String.length rest < String.length s)%nat ->
    put (unquote_go f rest) prefix = Some (content, r) -> (String.length r < String.length s)%nat) as Hput.
  { intros prefix rest Hl. unfold put. destruct (unquote_go f rest) as [[t' tail]|] eqn:E; [|done].
    intros [= _ <-]. apply IH in E. lia. }
  unfold put in Hput. destruct s as [|a s']; [done|]. case_goal; [intros [= _ <-]; simpl; lia|]. case_goal.
  - destruct s' as [|e s'']; [done|]. case_goal.
    + destruct (hex4 s'') as [[rune r'']|] eqn:E; [|done]. case_goal.
      * destruct (low_surrogate rune r'') as [[p tail]|] eqn:E2; apply Hput; length_chain.
      * apply Hput. length_chain.
    + destruct (simple_escape e); [|done]. apply Hput. simpl. lia.
  - case_goal; [done|]. destruct (rune_len (String a s')) as [|n]; apply Hput; [simpl; lia|].
    rewrite string_drop_length. simpl. lia.
Qed.

Lemma unquote_go_fuel f f' s :
  (String.length s < f)%nat -> (String.length s < f')%nat -> unquote_go f s = unquote_go f' s.
Proof.
  revert f' s; induction f as [|f IH]; intros f' s Hf Hf'; [lia|]. destruct f' as [|f']; [lia|].
  assert (forall rest, (String.length rest < String.length s)%nat -> unquote_go f rest = unquote_go f' rest) as Hput.
  { intros rest Hl. apply IH; lia. }
  cbn [unquote_go]. destruct s as [|a s']; [done|]. case_goal; [done|]. case_goal.
  - destruct s' as [|e s'']; [done|]. case_goal.
    + destruct (hex4 s'') as [[rune r'']|] eqn:E; [|done]. case_goal.
      * destruct (low_surrogate rune r'') as [[p tail]|] eqn:E2; rewrite Hput; length_chain; done.
      * rewrite Hput; length_chain; done.
    + destruct (simple_escape e); [|done]. rewrite Hput; [done | simpl; lia].
  - case_goal; [done|]. destruct (rune_len (String a s')) as [|n]; rewrite Hput; try done; [simpl; lia|].
    rewrite string_drop_length. simpl. lia.
Qed.

Lemma digits_le s ds r : digits s = (ds, r) -> String.length s = (String.length ds + String.length r)%nat.
Proof.
  revert ds r; induction s as [|c s IH]; intros ds r; simpl; [by intros [= <- <-]|]. case_goal; [|by intros [= <- <-]].
  destruct (digits s) as [d t] eqn:E. intros [= <- <-]. simpl. by rewrite (IH _ _ eq_refl).
Qed.

Lemma one_char_le s cs p r : one_char s cs = (p, r) -> String.length s = (String.length p + String.length r)%nat.
Proof. unfold one_char. destruct s as [|c s]; [by intros [= <- <-]|]. case_goal; by intros [= <- <-]. Qed.

Lemma optional_part_le cs signs s p r : optional_part cs signs s = Some (p, r) -> (String.length r <= String.length s)%nat.
Proof.
  unfold optional_part. destruct (one_char s cs) as [p1 r1] eqn:E1. case_goal; [by intros [= _ <-]|].
  destruct (one_char r1 signs) as [p2 r2] eqn:E2. destruct (digits r2) as [ds r3] eqn:E3. case_goal; [done|].
  intros [= _ <-]. apply one_char_le in E1, E2. apply digits_le in E3. lia.
Qed.

Lemma parse_number_lt s text r : parse_number s = Some (text, r) -> (String.length r < String.length s)%nat.
Proof.
  unfold parse_number. destruct (one_char s "-") as [sign r1] eqn:E1. destruct (digits r1) as [ds r2] eqn:E2.
  apply one_char_le in E1. apply digits_le in E2.
  assert (forall p1 p2 r3 r4, optional_part "." EmptyString r2 = Some (p1, r3) -> optional_part "eE" "+-" r3 = Some (p2, r4) ->
            ds <> EmptyString -> (String.length r4 < String.length s)%nat) as H.
  { intros p1 p2 r3 r4 H1%optional_part_le H2%optional_part_le Hne. destruct ds; [done|]. simpl in E2. lia. }
  destruct ds as [|c [|c' ds]]; [done| |case_goal; [done|]];
    (destruct (optional_part "." EmptyString r2) as [[p1 r3]|] eqn:E3; [|done];
     destruct (optional_part "eE" "+-" r3) as [[p2 r4]|] eqn:E4; [|done]; intros [= _ <-]; by eapply H).
Qed.

Lemma literal_lt text v s w r :
  text <> EmptyString -> literal text v s = Some (w, r) -> (String.length r < String.length s)%nat.
Proof.
  intros Hne. unfold literal. destruct (HasPrefix s text) eqn:E; [|done]. intros [= _ <-].
  destruct s as [|c s]; [destruct text; done|]. rewrite string_drop_length. destruct text; [done|]. simpl. lia.
Qed.

Lemma parse_string_lt s k r : parse_string s = Some (k, r) -> (String.length r < String.length s)%nat.
Proof.
  unfold parse_string, unquote. destruct (expect quote_mark s) as [t|] eqn:E; [|done].
  apply expect_lt in E. intros H%unquote_go_lt. lia.
Qed.

(** Every value, member list and element list takes at least one byte. *)
Lemma parse_lt f :
  (forall depth s v r, parse_value f depth s = Some (v, r) -> (String.length r < String.length s)%nat) /\
  (forall depth s v r, parse_members f depth s = Some (v, r) -> (String.length r < String.length s)%nat) /\
  (forall depth s v r, parse_elements f depth s = Some (v, r) -> (String.length r < String.length s)%nat).
Proof.
  induction f as [|f (IHv & IHm & IHe)]; [done|]. split_and!; intros depth s v r H.
  - cbn [parse_value] in H. pose proof (skip_space_le s) as Hs. destruct (skip_space s) as [|c t]; [done|].
    simpl in Hs. destruct (Ascii.eqb c quote_mark).
    { unfold unquote in H. destruct (unquote_go _ t) as [[k r']|] eqn:E; [|done]. injection H as _ <-.
      apply unquote_go_lt in E. lia. }
    destruct (Ascii.eqb c (chr 123)).
    { case_hyp H; [done|]. destruct (expect (chr 125) t) eqn:E; [injection H as _ <-; length_chain|].
      destruct (parse_members f _ t) as [[ms r']|] eqn:E2; [|done]. injection H as _ <-. apply IHm in E2. lia. }
    destruct (Ascii.eqb c (chr 91)).
    { case_hyp H; [done|]. destruct (expect (chr 93) t) eqn:E; [injection H as _ <-; length_chain|].
      destruct (parse_elements f _ t) as [[vs r']|] eqn:E2; [|done]. injection H as _ <-. apply IHe in E2. lia. }
    repeat match type of H with (if ?b then _ else _) = _ => destruct b end;
      [apply literal_lt in H; [simpl in H; lia | done]..|].
    destruct (parse_number _) as [[text r']|] eqn:E; [|done]. injection H as _ <-. apply parse_number_lt in E. simpl in E. lia.
  - cbn [parse_members] in H. destruct (parse_string s) as [[k t]|] eqn:E1; [|done]. apply parse_string_lt in E1.
    destruct (expect (chr 58) t) eqn:E2; [|done]. destruct (parse_value f depth _) as [[w t2]|] eqn:E3; [|done].
    apply IHv in E3. destruct (expect (chr 125) t2) eqn:E4; [injection H as _ <-; length_chain|].
    destruct (expect (chr 44) t2) eqn:E5; [|done]. destruct (parse_members f depth _) as [[ms t3]|] eqn:E6; [|done].
    injection H as _ <-. apply IHm in E6. length_chain.
  - cbn [parse_elements] in H. destruct (parse_value f depth s) as [[w t2]|] eqn:E3; [|done].
    apply IHv in E3. destruct (expect (chr 93) t2) eqn:E4; [injection H as _ <-; length_chain|].
    destruct (expect (chr 44) t2) eqn:E5; [|done]. destruct (parse_elements f depth _) as [[ms t3]|] eqn:E6; [|done].
    injection H as _ <-. apply IHe in E6. length_chain.
Qed.

Lemma parse_fuel f :
  (forall f' depth s, (2 * String.length s + 2 <= f)%nat -> (f <= f')%nat -> parse_value f' depth s = parse_value f depth s) /\
  (forall f' depth s, (2 * String.length s + 3 <= f)%nat -> (f <= f')%nat -> parse_members f' depth s = parse_members f depth s) /\
  (forall f' depth s, (2 * String.length s + 3 <= f)%nat -> (f <= f')%nat -> parse_elements f' depth s = parse_elements f depth s).
Proof.
  induction f as [|f (IHv & IHm & IHe)]; [split_and!; intros; lia|].
  split_and!; intros f' depth s Hf Hf'; (destruct f' as [|f']; [lia|]).
  - cbn [parse_value]. pose proof (skip_space_le s) as Hs. destruct (skip_space s) as [|c t]; [done|]. simpl in Hs.
    by rewrite IHm, IHe by lia.
  - cbn [parse_members]. destruct (parse_string s) as [[k t]|] eqn:E1; [|done]. apply parse_string_lt in E1.
    destruct (expect (chr 58) t) as [t1|] eqn:E2; [|done]. apply expect_lt in E2. rewrite IHv by lia.
    destruct (parse_value f depth t1) as [[w t2]|] eqn:E3; [|done]. apply parse_lt in E3.
    destruct (expect (chr 125) t2); [done|]. destruct (expect (chr 44) t2) as [t3|] eqn:E5; [|done].
    apply expect_lt in E5. by rewrite IHm by lia.
  - cbn [parse_elements]. rewrite IHv by lia.
    destruct (parse_value f depth s) as [[w t2]|] eqn:E3; [|done]. apply parse_lt in E3.
    destruct (expect (chr 93) t2); [done|]. destruct (expect (chr 44) t2) as [t3|] eqn:E5; [|done].
    apply expect_lt in E5. by rewrite IHe by lia.
Qed.

(** The fuel of [json_Parse] is enough for every text: more changes nothing. *)
Lemma json_fuel_enough f s : (json_fuel s <= f)%nat -> parse_value f 0 s = parse_value (json_fuel s) 0 s.
Proof. intros Hf. by apply parse_fuel. Qed.
