(* ===== verification/JsonText.v ===== *)
(** * Indented JSON and Go's containers in it (encoding/json)

    [json.MarshalIndent] writes what [json.Unmarshal] reads back; decoders for byte
    slices (base64), string maps (keys in order, the last of two equal keys wins) and
    pointers. *)

From S2P Require Import Prelude GoStrings Base64 Json.
Local Open Scope Z_scope.

(** ** White space is skipped *)

Lemma skip_space_app ws s : string_forall json_space ws = true -> skip_space (ws +:+ s) = skip_space s.
Proof. induction ws as [|c r IH]; [done|]. simpl. intros H. to_prop. use_eqs. by apply IH. Qed.

Lemma expect_space c ws s : string_forall json_space ws = true -> expect c (ws +:+ s) = expect c s.
Proof. intros H. unfold expect. by rewrite skip_space_app. Qed.

Lemma parse_value_space f d ws s : string_forall json_space ws = true -> parse_value f d (ws +:+ s) = parse_value f d s.
Proof. intros H. destruct f; [done|]. cbn [parse_value]. by rewrite skip_space_app. Qed.

Lemma parse_string_space ws s : string_forall json_space ws = true -> parse_string (ws +:+ s) = parse_string s.
Proof. intros H. unfold parse_string. by rewrite expect_space. Qed.

Lemma members_space f d ws s : string_forall json_space ws = true -> parse_members f d (ws +:+ s) = parse_members f d s.
Proof. intros H. destruct f; [done|]. cbn [parse_members]. by rewrite parse_string_space. Qed.

Lemma elements_space f d ws s : string_forall json_space ws = true -> parse_elements f d (ws +:+ s) = parse_elements f d s.
Proof. intros H. destruct f; [done|]. cbn [parse_elements]. by rewrite parse_value_space. Qed.

(** ** Indented text is read back *)

Definition indent_reads_back (d : nat) (v : json) : Prop :=
  forall indent fuel depth rest, string_forall json_space indent = true -> delimited rest ->
    depth + Z.of_nat d <= maxNestingDepth -> (2 * String.length (json_Indent indent v) + 2 <= fuel)%nat ->
    parse_value fuel depth (json_Indent indent v +:+ rest) = Some (v, rest).

(** A line break and the indentation after it. *)
Definition line_break (indent : string) : string := newline +:+ indent.

Lemma line_break_space indent : string_forall json_space indent = true -> string_forall json_space (line_break indent) = true.
Proof. intros H. unfold line_break. by rewrite string_forall_app. Qed.

Lemma deeper_space indent : string_forall json_space indent = true -> string_forall json_space (indent +:+ "  ") = true.
Proof. intros H. by rewrite string_forall_app, H. Qed.

Lemma elements_indented d vs inner outer fuel depth rest :
  vs <> [] -> Forall (indent_reads_back d) vs -> string_forall json_space inner = true ->
  string_forall json_space outer = true -> depth + Z.of_nat d <= maxNestingDepth ->
  (2 * String.length (Join (map (json_Indent inner) vs) ("," +:+ line_break inner)) + 3 <= fuel)%nat ->
  parse_elements fuel depth (Join (map (json_Indent inner) vs) ("," +:+ line_break inner) +:+ line_break outer +:+ String (chr 93) rest)
  = Some (vs, rest).
Proof.
  intros Hne Hf Hi Ho Hd. revert fuel. induction Hf as [|v vs Hv Hf IH]; [done|]. intros fuel Hfuel.
  destruct fuel as [|f]; [lia|]. cbn [parse_elements]. destruct vs as [|w vs].
  - cbn [map Join] in *. rewrite Hv; [| done | right; right; by right | done | lia].
    by rewrite expect_space by (by apply line_break_space).
  - change (Join (map (json_Indent inner) (v :: w :: vs)) ("," +:+ line_break inner))
      with (json_Indent inner v +:+ ("," +:+ line_break inner) +:+ Join (map (json_Indent inner) (w :: vs)) ("," +:+ line_break inner)) in *.
    set (J := Join (map (json_Indent inner) (w :: vs)) ("," +:+ line_break inner)) in *.
    rewrite !sapp_length in Hfuel. cbn [String.length] in Hfuel. rewrite <- !sapp_assoc.
    rewrite Hv; [| done | by left | done | lia].
    change (expect (chr 93) ("," +:+ ?x)) with (@None string). change (expect (chr 44) ("," +:+ ?x)) with (Some x). cbv iota.
    rewrite elements_space by (by apply line_break_space). rewrite IH; [done | done | lia].
Qed.

Definition indent_member (indent : string) (m : string * json) : string := quote m.1 +:+ ": " +:+ json_Indent indent m.2.

Lemma members_indented d ms inner outer fuel depth rest :
  ms <> [] -> Forall (fun m => valid_utf8 m.1 = true /\ indent_reads_back d m.2) ms -> string_forall json_space inner = true ->
  string_forall json_space outer = true -> depth + Z.of_nat d <= maxNestingDepth ->
  (2 * String.length (Join (map (indent_member inner) ms) ("," +:+ line_break inner)) + 3 <= fuel)%nat ->
  parse_members fuel depth (Join (map (indent_member inner) ms) ("," +:+ line_break inner) +:+ line_break outer +:+ String (chr 125) rest)
  = Some (ms, rest).
Proof.
  intros Hne Hf Hi Ho Hd. revert fuel. induction Hf as [|[k v] ms (Hk & Hv) Hf IH]; [done|]. intros fuel Hfuel.
  destruct fuel as [|f]; [lia|]. cbn [parse_members]. cbn [fst snd] in Hk, Hv. destruct ms as [|w ms].
  - cbn [map Join] in *. unfold indent_member in *. cbn [fst snd] in *. rewrite !sapp_length in Hfuel. cbn [String.length] in Hfuel.
    rewrite <- !sapp_assoc, parse_string_quote by done.
    change (expect (chr 58) (": " +:+ ?x)) with (Some (" " +:+ x)). cbv iota.
    rewrite parse_value_space by done. rewrite Hv; [| done | right; right; by right | done | lia].
    by rewrite expect_space by (by apply line_break_space).
  - change (Join (map (indent_member inner) ((k, v) :: w :: ms)) ("," +:+ line_break inner))
      with ((quote k +:+ ": " +:+ json_Indent inner v) +:+ ("," +:+ line_break inner) +:+
            Join (map (indent_member inner) (w :: ms)) ("," +:+ line_break inner)) in *.
    set (J := Join (map (indent_member inner) (w :: ms)) ("," +:+ line_break inner)) in *.
    rewrite !sapp_length in Hfuel. cbn [String.length] in Hfuel. rewrite <- !sapp_assoc, parse_string_quote by done.
    change (expect (chr 58) (": " +:+ ?x)) with (Some (" " +:+ x)). cbv iota.
    rewrite parse_value_space by done. rewrite Hv; [| done | by left | done | lia].
    change (expect (chr 125) ("," +:+ ?x)) with (@None string). change (expect (chr 44) ("," +:+ ?x)) with (Some x). cbv iota.
    rewrite members_space by (by apply line_break_space). rewrite IH; [done | done | lia].
Qed.

Lemma indent_starts d v indent : printable d v -> exists c r, json_Indent indent v = String c r /\ starts_value c = true.
Proof.
  intros Hp. destruct v as [| b | t | s | [|v vs] | [|m ms]]; try exact (print_starts d _ Hp); by eexists _, _.
Qed.

Lemma Join_head (x : string) xs sep rest c r :
  x = String c r -> exists r', Join (x :: xs) sep +:+ rest = String c r'.
Proof. intros Hx. destruct (Join_starts x xs c r sep Hx) as (r' & ->). by eexists. Qed.

Lemma indented_reads_back d v : printable d v -> indent_reads_back d v.
Proof.
  revert v. induction d as [|d IH]; intros v Hp indent fuel depth rest Hi Hr Hd Hfuel; destruct v as [| b | t | s | [|v vs] | [|m ms]];
    try exact (printed_reads_back _ _ Hp fuel depth rest Hr Hd Hfuel); try (by destruct Hp).
  - cbn [json_Indent] in *. fold (line_break indent) in *. fold (line_break (indent +:+ "  ")) in *.
    set (inner := indent +:+ "  ") in *. assert (string_forall json_space inner = true) as Hin by (by apply deeper_space).
    change (newline +:+ inner +:+ Join (map (json_Indent inner) (v :: vs)) ("," +:+ newline +:+ inner) +:+ newline +:+ indent +:+ "]")
      with (newline +:+ inner +:+ Join (map (json_Indent inner) (v :: vs)) ("," +:+ line_break inner) +:+ newline +:+ indent +:+ "]") in *.
    destruct fuel as [|f]; [lia|].
    replace (("[" +:+ newline +:+ inner +:+ Join (map (json_Indent inner) (v :: vs)) ("," +:+ line_break inner) +:+ newline +:+ indent +:+ "]") +:+ rest)
      with (String (chr 91) (line_break inner +:+ Join (map (json_Indent inner) (v :: vs)) ("," +:+ line_break inner) +:+ line_break indent +:+ String (chr 93) rest))
      by (unfold line_break; by rewrite <- !sapp_assoc).
    rewrite !sapp_length in Hfuel. cbn [String.length] in Hfuel.
    cbn [parse_value]. change (skip_space (String (chr 91) ?x)) with (String (chr 91) x). cbv iota.
    change (Ascii.eqb (chr 91) quote_mark) with false. change (Ascii.eqb (chr 91) (chr 123)) with false.
    change (Ascii.eqb (chr 91) (chr 91)) with true. cbv iota.
    assert (maxNestingDepth <=? depth = false) as -> by (unfold maxNestingDepth in *; lia).
    rewrite expect_space, elements_space by (by apply line_break_space).
    cbn [printable] in Hp. rewrite (elements_indented d) by (done || lia || (eapply Forall_impl; [exact Hp|]; intros w; apply IH)).
    apply Forall_cons in Hp as [Hp _]. destruct (indent_starts d v inner Hp) as (c & r & Hcr & Hc).
    cbn [map]. edestruct (Join_head (json_Indent inner v)) as (r' & ->); [exact Hcr|]. by rewrite expect_starts by auto.
  - cbn [json_Indent] in *. fold (indent_member (indent +:+ "  ")) in *.
    set (inner := indent +:+ "  ") in *. assert (string_forall json_space inner = true) as Hin by (by apply deeper_space).
    change (newline +:+ inner +:+ Join (map (indent_member inner) (m :: ms)) ("," +:+ newline +:+ inner) +:+ newline +:+ indent +:+ "}")
      with (newline +:+ inner +:+ Join (map (indent_member inner) (m :: ms)) ("," +:+ line_break inner) +:+ newline +:+ indent +:+ "}") in *.
    destruct fuel as [|f]; [lia|].
    replace (("{" +:+ newline +:+ inner +:+ Join (map (indent_member inner) (m :: ms)) ("," +:+ line_break inner) +:+ newline +:+ indent +:+ "}") +:+ rest)
      with (String (chr 123) (line_break inner +:+ Join (map (indent_member inner) (m :: ms)) ("," +:+ line_break inner) +:+ line_break indent +:+ String (chr 125) rest))
      by (unfold line_break; by rewrite <- !sapp_assoc).
    rewrite !sapp_length in Hfuel. cbn [String.length] in Hfuel.
    cbn [parse_value]. change (skip_space (String (chr 123) ?x)) with (String (chr 123) x). cbv iota.
    change (Ascii.eqb (chr 123) quote_mark) with false. change (Ascii.eqb (chr 123) (chr 123)) with true. cbv iota.
    assert (maxNestingDepth <=? depth = false) as -> by (unfold maxNestingDepth in *; lia).
    rewrite expect_space, members_space by (by apply line_break_space).
    cbn [printable] in Hp. rewrite (members_indented d) by (done || lia || (eapply Forall_impl; [exact Hp|]; intros w [? ?]; split; [done | by apply IH])).
    cbn [map]. edestruct (Join_head (indent_member inner m)) as (r' & ->).
    { unfold indent_member, quote. by rewrite sapp_cons. }
    by rewrite expect_starts by auto.
Qed.

(** [json.Unmarshal] reads what [json.MarshalIndent] wrote, also with white space after it. *)
Lemma json_Parse_MarshalIndent d v trailing :
  printable d v -> Z.of_nat d <= maxNestingDepth -> string_forall json_space trailing = true ->
  trailing = EmptyString \/ (exists r, trailing = String (chr 10) r) -> json_Parse (json_MarshalIndent v +:+ trailing) = Some v.
Proof.
  intros Hp Hd Ht Hr. unfold json_Parse, json_fuel, json_MarshalIndent.
  rewrite (indented_reads_back d v Hp EmptyString); [| done | | lia |].
  - rewrite <- (sapp_nil_r trailing), skip_space_app by done. done.
  - destruct Hr as [-> | (r & ->)]; [done | right; right; by right].
  - rewrite sapp_length. lia.
Qed.

(** ** Byte slices, string maps and pointers *)

(** A []byte is its base64 text; a JSON array of numbers is accepted too. *)
Definition decode_uint8 (v : json) : result Z :=
  match v with
  | JNumber (String c _) =>
      if Ascii.eqb c (chr 45) then Err (mismatch "number into Go value of type uint8") else decode_int 0 255 v
  | _ => decode_int 0 255 v
  end.

Definition decode_bytes (v : json) : result bytes :=
  match v with
  | JString s => of_option (errorf "illegal base64 data") (b64_DecodeString s)
  | JArray _ => zs ← decode_list 0 decode_uint8 v;
                Ok (String.string_of_list_ascii (byte_of <$> zs))
  | _ => Err (mismatch "value into Go value of type []uint8")
  end.

Definition bytes_json (b : bytes) : json := JString (b64_EncodeToString b).

(** A map[string]string as the list of its entries: setting a key. *)
Fixpoint map_put (key value : string) (m : list (string * string)) : list (string * string) :=
  match m with
  | [] => [(key, value)]
  | (k, v) :: r => if String.eqb k key then (k, value) :: r else (k, v) :: map_put key value r
  end.

(** Decoding into a map keeps the entries it had; null clears it. *)
Definition decode_string_map (v : json) (m : list (string * string)) : result (list (string * string)) :=
  match v with
  | JNull => Ok []
  | JObject ms =>
      foldR (fun m e => match e.2 with
                        | JNull => Ok (map_put e.1 EmptyString m)
                        | x => s ← decode_string x; Ok (map_put e.1 s m)
                        end) m ms
  | _ => Err (mismatch "value into Go value of type map[string]string")
  end.

Definition entry_le (a b : string * string) : Prop := String.leb a.1 b.1 = true.
Global Instance entry_le_dec : RelDecision entry_le.
Proof. intros a b. unfold entry_le. apply _. Defined.

(** Maps are written in the order of their keys. *)
Definition sorted_entries (m : list (string * string)) : list (string * string) := merge_sort entry_le m.
Definition string_map_json (m : list (string * string)) : json := JObject ((fun e => (e.1, JString e.2)) <$> sorted_entries m).

(** A pointer to a struct: null is nil, anything else is decoded into the struct
    it points to, a new one if it was nil. *)
Definition decode_pointer {A} (zero : A) (decode : json -> A -> result A) (v : json) (p : option A) : result (option A) :=
  match v with
  | JNull => Ok None
  | _ => x ← decode v (default zero p); Ok (Some x)
  end.

Lemma map_put_new key value m : key ∉ m.*1 -> map_put key value m = m ++ [(key, value)].
Proof.
  induction m as [|[k v] m IH]; cbn [map_put app]; [done|]. intros Hn. rewrite fmap_cons, not_elem_of_cons in Hn. destruct Hn as [Hk Hn].
  destruct (String.eqb_spec k key) as [<-|]; [done|]. by rewrite IH.
Qed.

Lemma decode_string_map_entries es m :
  NoDup (es.*1 ++ m.*1) ->
  decode_string_map (JObject ((fun e => (e.1, JString e.2)) <$> es)) m = Ok (m ++ es).
Proof.
  unfold decode_string_map. revert m. induction es as [|[k v] es IH]; intros m Hnd; [by rewrite app_nil_r|].
  cbn [fmap list_fmap foldR fst snd decode_string mbind result_bind].
  rewrite fmap_cons in Hnd. cbn [app fst] in Hnd. apply NoDup_cons in Hnd as [Hn Hnd].
  rewrite map_put_new by (intros Hin; apply Hn, elem_of_app; by right). unfold fmap in IH. rewrite IH; [by rewrite <- app_assoc|].
  change (NoDup (es.*1 ++ (m ++ [(k, v)]).*1)). rewrite fmap_app. cbn. rewrite app_assoc. apply NoDup_app. split_and!; [done | |].
  - intros x Hx ->%list_elem_of_singleton. by apply Hn.
  - apply NoDup_singleton.
Qed.

(** A map that was written is read as the same entries in the order of their keys. *)
Lemma string_map_roundtrip m : NoDup m.*1 -> decode_string_map (string_map_json m) [] = Ok (sorted_entries m).
Proof.
  intros Hnd. unfold string_map_json. rewrite decode_string_map_entries; [done|]. cbn. rewrite app_nil_r.
  unfold sorted_entries. by rewrite merge_sort_Permutation.
Qed.

Lemma decode_bytes_json b : decode_bytes (bytes_json b) = Ok b.
Proof. unfold decode_bytes, bytes_json. by rewrite b64_roundtrip. Qed.
