(* ===== verification/GoTime.v ===== *)
(** * Instants and their RFC 3339 text

    The broker keeps every time in a TEXT column: it writes
    [t.UTC().Format(time.RFC3339Nano)] and reads it back with
    [time.Parse(time.RFC3339Nano, text)].  An instant is the number of
    nanoseconds since the zero [time.Time] (January 1, year 1, 00:00:00 UTC), so
    that [UTC()] is the identity and [IsZero] is [t = 0]. *)

From S2P Require Import Prelude GoStrings.
From Stdlib Require Import Ascii.
Local Open Scope Z_scope.

Abbreviation Time := Z.
Abbreviation Duration := Z.

Definition IsZero (t : Time) : bool := t =? 0.
Definition Before (t u : Time) : bool := t <? u.
Definition After (t u : Time) : bool := u <? t.

Definition Second : Duration := 1000000000.
Definition Minute : Duration := 60 * Second.
Definition Hour : Duration := 60 * Minute.
Definition day_ns : Z := 24 * Hour.

(** Seconds of the Unix epoch (January 1, 1970) since the zero time. *)
Definition unix_epoch : Z := 62135596800.
Definition Unix (t : Time) : Z := t / Second - unix_epoch.

(** ** The proleptic Gregorian calendar, years starting in March *)

Definition is_leap (y : Z) : bool :=
  (y mod 4 =? 0) && (negb (y mod 100 =? 0) || (y mod 400 =? 0)).

Definition daysIn (m y : Z) : Z :=
  if m =? 2 then (if is_leap y then 29 else 28)
  else if (m =? 4) || (m =? 6) || (m =? 9) || (m =? 11) then 30 else 31.

(** Year, month and day of the day [n] days after January 1 of year 1. *)
Definition civil (n : Z) : Z * Z * Z :=
  let z := n + 306 in
  let era := z / 146097 in
  let doe := z mod 146097 in
  let c := Z.min 3 (doe / 36524) in
  let doc := doe - c * 36524 in
  let q := doc / 1461 in
  let doq := doc - q * 1461 in
  let y := Z.min 3 (doq / 365) in
  let doy := doq - y * 365 in
  let mp := (5 * doy + 2) / 153 in
  let d := doy - (153 * mp + 2) / 5 + 1 in
  let m := if mp <? 10 then mp + 3 else mp - 9 in
  (400 * era + 100 * c + 4 * q + y + (if m <=? 2 then 1 else 0), m, d).

Definition days_of_civil (y m d : Z) : Z :=
  let y' := if m <=? 2 then y - 1 else y in
  let mp := if m <=? 2 then m + 9 else m - 3 in
  let yoe := y' mod 400 in
  146097 * (y' / 400) + 365 * yoe + yoe / 4 - yoe / 100 + (153 * mp + 2) / 5 + d - 1 - 306.

(** ** Formatting *)

(** The [w] low decimal digits of [n], most significant first. *)
Fixpoint digits (w : nat) (n : Z) : string :=
  match w with
  | O => EmptyString
  | S w' => String (digit (n / 10 ^ Z.of_nat w' mod 10)) (digits w' n)
  end.

(** The fraction of a second with trailing zeros dropped: layout [.999999999]. *)
Fixpoint frac_digits (w : nat) (n : Z) : string :=
  match w with
  | O => EmptyString
  | S w' =>
      if n =? 0 then EmptyString
      else String (digit (n / 10 ^ Z.of_nat w')) (frac_digits w' (n mod 10 ^ Z.of_nat w'))
  end.

Definition year_text (y : Z) : string := if y <? 10000 then digits 4 y else FormatUint y.

Definition c_dash : ascii := "-".
Definition c_colon : ascii := ":".
Definition c_T : ascii := "T".
Definition c_Z : ascii := "Z".
Definition c_dot : ascii := ".".
Definition c_plus : ascii := "+".

Definition FormatRFC3339Nano (t : Time) : string :=
  let '(y, m, d) := civil (t / day_ns) in
  let s := t mod day_ns / Second in
  let ns := t mod Second in
  year_text y +:+ String c_dash (digits 2 m +:+ String c_dash (digits 2 d +:+
  String c_T (digits 2 (s / 3600) +:+ String c_colon (digits 2 (s / 60 mod 60) +:+
  String c_colon (digits 2 (s mod 60) +:+
  (if ns =? 0 then EmptyString else String c_dot (frac_digits 9 ns)) +:+
  String c_Z EmptyString))))).

(** ** Parsing (the strict RFC 3339 path of [time.Parse]) *)

(** Exactly [w] digits whose value lies in [[lo, hi]], and the rest. *)
Fixpoint take_digits (w : nat) (v : Z) (s : string) : option (Z * string) :=
  match w, s with
  | O, _ => Some (v, s)
  | S w', String c r =>
      match digit_val c with
      | Some d => take_digits w' (v * 10 + d) r
      | None => None
      end
  | S _, EmptyString => None
  end.

Definition take_field (w : nat) (lo hi : Z) (s : string) : option (Z * string) :=
  match take_digits w 0 s with
  | Some (v, r) => if (lo <=? v) && (v <=? hi) then Some (v, r) else None
  | None => None
  end.

Definition take_char (c : ascii) (s : string) : option string :=
  match s with
  | String d r => if Ascii.eqb d c then Some r else None
  | EmptyString => None
  end.

(** Fraction digits: the first nine count, further ones are dropped. *)
Fixpoint take_frac (w : nat) (s : string) : Z * string :=
  match s with
  | EmptyString => (0, s)
  | String c r =>
      match digit_val c with
      | None => (0, s)
      | Some d =>
          match w with
          | O => take_frac O r
          | S w' => let '(v, r') := take_frac w' r in (d * 10 ^ Z.of_nat w' + v, r')
          end
      end
  end.

Definition take_fraction (s : string) : Z * string :=
  match s with
  | String c ((String d _) as r) =>
      if Ascii.eqb c c_dot && is_digit d then take_frac 9 r else (0, s)
  | _ => (0, s)
  end.

(** The zone: [Z], or a sign, two digits, a colon and two digits; in seconds. *)
Definition take_zone (s : string) : option Z :=
  match s with
  | String c r =>
      if Ascii.eqb c c_Z && String.eqb r EmptyString then Some 0
      else if Ascii.eqb c c_plus || Ascii.eqb c c_dash then
        '(hh, r) ← take_field 2 0 23 r;
        r ← take_char c_colon r;
        '(mm, r) ← take_field 2 0 59 r;
        if String.eqb r EmptyString
        then Some ((if Ascii.eqb c c_dash then -1 else 1) * (hh * 60 + mm) * 60)
        else None
      else None
  | EmptyString => None
  end.

Definition ParseRFC3339Nano (s : string) : option Time :=
  '(y, s) ← take_field 4 0 9999 s;
  s ← take_char c_dash s;
  '(m, s) ← take_field 2 1 12 s;
  s ← take_char c_dash s;
  '(d, s) ← take_field 2 1 (daysIn m y) s;
  s ← take_char c_T s;
  '(hh, s) ← take_field 2 0 23 s;
  s ← take_char c_colon s;
  '(mi, s) ← take_field 2 0 59 s;
  s ← take_char c_colon s;
  '(ss, s) ← take_field 2 0 59 s;
  let '(ns, s) := take_fraction s in
  off ← take_zone s;
  Some (days_of_civil y m d * day_ns + (hh * 3600 + mi * 60 + ss - off) * Second + ns).

(** The instants whose text is well formed: years 1 to 9999. *)
Definition time_ok (t : Time) : Prop := 0 <= t < 3652059 * day_ns.

(** ** The calendar round trip *)

Section Calendar.
Context (n : Z) (Hn : 0 <= n < 3652059).

Let z := n + 306.
Let era := z / 146097.
Let doe := z mod 146097.
Let c := Z.min 3 (doe / 36524).
Let doc := doe - c * 36524.
Let q := doc / 1461.
Let doq := doc - q * 1461.
Let y := Z.min 3 (doq / 365).
Let doy := doq - y * 365.

(** Each digit of the mixed-radix decomposition is in range, and a day 365 (the
    last of February) only exists in a leap cycle. *)
Lemma civil_decompose :
  z = 146097 * era + 36524 * c + 1461 * q + 365 * y + doy /\ 0 <= c <= 3 /\ 0 <= q <= 24 /\
  0 <= y <= 3 /\ 0 <= doy <= 365 /\ 0 <= era <= 25 /\
  (doy = 365 -> y = 3 /\ (q = 24 -> c = 3)).
Proof.
  subst doy y doq q doc c doe era z.
  pose proof (Z.div_mod (n + 306) 146097 ltac:(lia)).
  pose proof (Z.mod_pos_bound (n + 306) 146097 ltac:(lia)).
  set (era := (n + 306) / 146097) in *. set (doe := (n + 306) mod 146097) in *.
  pose proof (Z.div_mod doe 36524 ltac:(lia)). pose proof (Z.mod_pos_bound doe 36524 ltac:(lia)).
  set (c := Z.min 3 (doe / 36524)) in *. set (doc := doe - c * 36524) in *.
  assert (0 <= c <= 3 /\ 0 <= doc <= 36524 /\ (doc = 36524 -> c = 3)) by lia.
  pose proof (Z.div_mod doc 1461 ltac:(lia)). pose proof (Z.mod_pos_bound doc 1461 ltac:(lia)).
  set (q := doc / 1461) in *. set (doq := doc - q * 1461) in *.
  assert (0 <= q <= 24 /\ 0 <= doq <= 1460) by lia.
  pose proof (Z.div_mod doq 365 ltac:(lia)). pose proof (Z.mod_pos_bound doq 365 ltac:(lia)).
  set (y := Z.min 3 (doq / 365)) in *. lia.
Qed.

End Calendar.

(** Month and day of a day of the March-based year, checked day by day. *)
Definition month_ok (doy : Z) : bool :=
  let mp := (5 * doy + 2) / 153 in
  let d := doy - (153 * mp + 2) / 5 + 1 in
  let m := if mp <? 10 then mp + 3 else mp - 9 in
  (0 <=? mp) && (mp <=? 11) && (1 <=? d) &&
  (d <=? (if m =? 2 then (if doy =? 365 then 29 else 28) else daysIn m 1)).

Lemma month_ok_all doy : 0 <= doy <= 365 -> month_ok doy = true.
Proof. intros H. apply (Z_below_forall month_ok 366); [vm_compute; reflexivity | lia]. Qed.

Lemma is_leap_cycle c q era :
  0 <= c <= 3 -> 0 <= q <= 24 -> (q = 24 -> c = 3) ->
  is_leap (400 * era + 100 * c + 4 * q + 3 + 1) = true.
Proof.
  intros Hc Hq Hqc. unfold is_leap.
  replace (400 * era + 100 * c + 4 * q + 3 + 1) with ((100 * era + 25 * c + q + 1) * 4) by lia.
  rewrite Z.mod_mul by lia. simpl. apply orb_true_iff. destruct (decide (q = 24)) as [->|Hne].
  - right. rewrite Hqc by done. replace ((100 * era + 25 * 3 + 24 + 1) * 4) with ((era + 1) * 400)
      by lia. by rewrite Z.mod_mul.
  - left. replace ((100 * era + 25 * c + q + 1) * 4) with (4 * (q + 1) + (4 * era + c) * 100) by lia.
    rewrite Z.mod_add, Z.mod_small by lia. apply negb_true_iff, Z.eqb_neq. lia.
Qed.

Lemma civil_roundtrip n :
  0 <= n < 3652059 ->
  let '(y, m, d) := civil n in
  days_of_civil y m d = n /\ 0 <= y <= 9999 /\ 1 <= m <= 12 /\ 1 <= d <= daysIn m y.
Proof.
  intros Hn. destruct (civil_decompose n Hn) as (Hz & Hc & Hq & Hy & Hdoy & Hera & Hleap).
  unfold civil. cbv zeta in *.
  set (era := (n + 306) / 146097) in *. set (doe := (n + 306) mod 146097) in *.
  set (c := Z.min 3 (doe / 36524)) in *. set (doc := doe - c * 36524) in *.
  set (q := doc / 1461) in *. set (doq := doc - q * 1461) in *.
  set (y := Z.min 3 (doq / 365)) in *. set (doy := doq - y * 365) in *.
  clearbody doy. clearbody y. clear doq. clearbody q. clear doc. clearbody c. clear doe.
  clearbody era.
  pose proof (month_ok_all doy Hdoy) as Hm. unfold month_ok in Hm.
  set (mp := (5 * doy + 2) / 153) in *.
  assert (10 <= mp -> 306 <= doy) by (subst mp; Z.to_euclidean_division_equations; lia).
  set (m := if mp <? 10 then mp + 3 else mp - 9) in *.
  set (d := doy - (153 * mp + 2) / 5 + 1) in *.
  assert (0 <= mp <= 11 /\ 1 <= d) as [Hmp Hd] by (to_prop; lia).
  assert (1 <= m <= 12 /\ (m <=? 2) = (10 <=? mp)) as [Hm1 Hm2].
  { subst m. destruct (Z.ltb_spec mp 10); split; try lia. }
  set (yoe := 100 * c + 4 * q + y).
  assert (yoe / 4 = 25 * c + q) as Hy4 by (subst yoe; Z.to_euclidean_division_equations; lia).
  assert (yoe / 100 = c) as Hy100 by (subst yoe; Z.to_euclidean_division_equations; lia).
  assert ((400 * era + yoe) / 400 = era /\ (400 * era + yoe) mod 400 = yoe) as [He1 He2]
    by (subst yoe; Z.to_euclidean_division_equations; lia).
  replace (400 * era + 100 * c + 4 * q + y) with (400 * era + yoe) by (subst yoe; lia).
  split; [|split; [|split; [done|split; [done|]]]].
  - unfold days_of_civil. rewrite Hm2.
    assert ((if 10 <=? mp then m + 9 else m - 3) = mp) as ->.
    { subst m. destruct (Z.ltb_spec mp 10), (Z.leb_spec 10 mp); lia. }
    assert ((if 10 <=? mp then 400 * era + yoe + (if 10 <=? mp then 1 else 0) - 1
             else 400 * era + yoe + (if 10 <=? mp then 1 else 0)) = 400 * era + yoe) as ->.
    { destruct (10 <=? mp); lia. }
    rewrite He1, He2, Hy4, Hy100. subst d yoe. lia.
  - rewrite Hm2. subst yoe. destruct (Z.leb_spec 10 mp); lia.
  - unfold daysIn in Hm |- *. to_prop. destruct (m =? 2) eqn:E2; [|lia].
    destruct (doy =? 365) eqn:E365; [|destruct (is_leap _); lia]. to_prop.
    destruct (Hleap E365) as [-> Hqc]. rewrite E2. simpl. subst yoe.
    replace (400 * era + (100 * c + 4 * q + 3) + 1) with (400 * era + 100 * c + 4 * q + 3 + 1) by lia.
    rewrite is_leap_cycle by done. lia.
Qed.

(** ** The text round trip *)

Lemma take_digits_app w n v r :
  take_digits w v (digits w n +:+ r) = Some (v * 10 ^ Z.of_nat w + n mod 10 ^ Z.of_nat w, r).
Proof.
  revert v; induction w as [|w IH]; intros v.
  - simpl. rewrite Z.mod_1_r. do 2 f_equal. lia.
  - simpl take_digits. rewrite digit_val_digit, IH by (apply Z.mod_pos_bound; lia).
    rewrite Nat2Z.inj_succ, Z.pow_succ_r, (Z.mul_comm 10) by lia.
    rewrite (Z.rem_mul_r n (10 ^ Z.of_nat w) 10) by (try apply Z.pow_nonzero; lia).
    do 2 f_equal. lia.
Qed.

Lemma take_field_digits w lo hi n r :
  lo <= n <= hi -> 0 <= n < 10 ^ Z.of_nat w ->
  take_field w lo hi (digits w n +:+ r) = Some (n, r).
Proof.
  intros H1 H2. unfold take_field. rewrite take_digits_app, Z.mod_small by done.
  rewrite Z.mul_0_l, Z.add_0_l.
  assert ((lo <=? n) && (n <=? hi) = true) as -> by (apply andb_true_iff; lia). done.
Qed.

Lemma take_char_hd c r : take_char c (String c r) = Some r.
Proof. simpl. by rewrite Ascii.eqb_refl. Qed.

Lemma take_frac_digits w n r :
  0 <= n < 10 ^ Z.of_nat w -> take_frac w (frac_digits w n +:+ String c_Z r) = (n, String c_Z r).
Proof.
  revert n; induction w as [|w IH]; intros n Hn.
  - simpl in *. f_equal. lia.
  - simpl frac_digits. destruct (Z.eqb_spec n 0) as [->|Hne]; [done|]. simpl.
    pose proof (Z.pow_pos_nonneg 10 (Z.of_nat w) ltac:(lia) ltac:(lia)).
    rewrite Nat2Z.inj_succ, Z.pow_succ_r in Hn by lia.
    rewrite digit_val_digit by (split; [apply Z.div_pos | apply Z.div_lt_upper_bound]; lia).
    rewrite IH by (apply Z.mod_pos_bound; lia). f_equal.
    pose proof (Z.div_mod n (10 ^ Z.of_nat w) ltac:(lia)). lia.
Qed.

Lemma take_fraction_text ns r :
  0 <= ns < Second ->
  take_fraction ((if ns =? 0 then EmptyString else String c_dot (frac_digits 9 ns)) +:+ String c_Z r)
  = (ns, String c_Z r).
Proof.
  intros Hns. destruct (Z.eqb_spec ns 0) as [->|Hne]; [by destruct r|].
  assert (0 <= ns < 10 ^ Z.of_nat 9) as Hns9 by (unfold Second in *; simpl; lia).
  pose proof (take_frac_digits 9 ns r Hns9) as Hf.
  assert (exists d r', frac_digits 9 ns +:+ String c_Z r = String d r' /\ is_digit d = true)
    as (d & r' & Heq & Hd).
  { cbn [frac_digits]. destruct (Z.eqb_spec ns 0); [done|]. do 2 eexists. split; [reflexivity|].
    unfold is_digit. rewrite digit_val_digit; [done|].
    split; [apply Z.div_pos | apply Z.div_lt_upper_bound]; simpl in *; lia. }
  change (String c_dot (frac_digits 9 ns) +:+ String c_Z r)
    with (String c_dot (frac_digits 9 ns +:+ String c_Z r)).
  rewrite Heq in Hf |- *. unfold take_fraction. by rewrite Ascii.eqb_refl, Hd.
Qed.

Lemma ParseRFC3339Nano_Format t :
  time_ok t -> ParseRFC3339Nano (FormatRFC3339Nano t) = Some t.
Proof.
  unfold time_ok. intros Ht. unfold ParseRFC3339Nano, FormatRFC3339Nano.
  assert (0 < day_ns) by done.
  pose proof (civil_roundtrip (t / day_ns)
    ltac:(split; [apply Z.div_pos | apply Z.div_lt_upper_bound]; lia)) as Hc.
  destruct (civil (t / day_ns)) as [[y m] d]. destruct Hc as (Hday & Hy & Hm & Hd).
  assert (daysIn m y <= 31) by (unfold daysIn; repeat case_goal; lia).
  pose proof (Z.div_mod t day_ns ltac:(lia)). pose proof (Z.mod_pos_bound t day_ns ltac:(lia)).
  set (s := t mod day_ns / Second).
  assert (0 <= s < 86400) by (split; [apply Z.div_pos | apply Z.div_lt_upper_bound]; unfold day_ns, Hour, Minute, Second in *; lia).
  assert (0 <= s / 3600 <= 23 /\ s = s / 3600 * 3600 + s / 60 mod 60 * 60 + s mod 60) as [Hh Hs]
    by (clearbody s; Z.to_euclidean_division_equations; lia).
  pose proof (Z.mod_pos_bound (s / 60) 60 ltac:(lia)). pose proof (Z.mod_pos_bound s 60 ltac:(lia)).
  assert (0 <= t mod Second < Second) by (by apply Z.mod_pos_bound).
  assert (t mod Second = t mod day_ns - s * Second) as Hns.
  { subst s. unfold day_ns, Hour, Minute, Second in *. Z.to_euclidean_division_equations; lia. }
  unfold year_text. assert (y <? 10000 = true) as -> by lia.
  repeat first [ rewrite take_field_digits by (simpl; lia) | rewrite take_char_hd
               | progress cbn [mbind option_bind] ].
  rewrite take_fraction_text by done. cbn. f_equal. rewrite Hday, Hns. lia.
Qed.
