(* ===== verification/Keyring.v ===== *)
(** * The keyring (internal/keyring)

    Key references, key versions, the authenticated metadata of a ciphertext, the
    ring of key versions and its [Encrypt] and [Decrypt].  AES-256-GCM is a class
    of operations with the laws of a correct authenticated cipher; the random
    source is an argument. *)

From S2P Require Import Prelude GoStrings.
From Stdlib Require Import Ascii.
Local Open Scope Z_scope.

(** ** key.go: identifiers and key references *)

Definition KeySize : Z := 32.
Definition NonceSize : Z := 12.
Definition Purpose : string := "openbao-auto-unseal".
Definition BlobFormat : string := "openbao-attested-unseal.v1.aes256gcm".
Definition AlgorithmAES256GCM : string := "AES-256-GCM".
Definition BlobMechanismAES256GCM : Z := 1.

Definition ErrInvalidMetadata : error := sentinel "keyring.ErrInvalidMetadata" "invalid key metadata".
Definition ErrKeyNotFound : error := sentinel "keyring.ErrKeyNotFound" "key version not found".
Definition ErrKeyNotUsable : error := sentinel "keyring.ErrKeyNotUsable" "key version is not usable".

(** [Status] and [Algorithm] are Go string types: any text may occur. *)
Abbreviation Status := string.
Definition StatusPending : Status := "pending".
Definition StatusActive : Status := "active".
Definition StatusDecryptOnly : Status := "decrypt-only".
Definition StatusRetired : Status := "retired".

Definition alnum (c : ascii) : bool :=
  let x := byte_val c in
  ((48 <=? x) && (x <=? 57)) || ((65 <=? x) && (x <=? 90)) || ((97 <=? x) && (x <=? 122)).

Definition ident_char (c : ascii) : bool :=
  alnum c || Ascii.eqb c "." || Ascii.eqb c "_" || Ascii.eqb c "-".

(** [^[A-Za-z0-9][A-Za-z0-9._-]{0,127}$] *)
Definition validIdentifier (raw : string) : bool :=
  match raw with
  | EmptyString => false
  | String c r => alnum c && string_forall ident_char r && (len r <=? 127)
  end.

Definition ValidateIdentifier (raw : string) : result unit :=
  check (validIdentifier raw) (errorw ErrInvalidMetadata "invalid identifier").

Record KeyRef := mkKeyRef { ClusterID : string; KeyID : string; Version : Z }.

Global Instance KeyRef_eq_dec : EqDecision KeyRef.
Proof. solve_decision. Defined.

Definition KeyRef_Validate (r : KeyRef) : result unit :=
  check (validIdentifier (ClusterID r)) (errorw ErrInvalidMetadata "invalid cluster ID");;
  check (validIdentifier (KeyID r)) (errorw ErrInvalidMetadata "invalid key ID");;
  check (negb (Version r =? 0))
    (errorw ErrInvalidMetadata "key version must be greater than zero").

Definition KeyRef_String (r : KeyRef) : string :=
  ClusterID r +:+ "/" +:+ KeyID r +:+ "/v" +:+ FormatUint (Version r).

Definition ParseKeyRef (raw : string) : result KeyRef :=
  match Split raw "/" with
  | [p0; p1; p2] =>
      check (HasPrefix p2 "v") (errorw ErrInvalidMetadata "malformed key version");;
      version ← of_option (errorw ErrInvalidMetadata "malformed key version")
                  (ParseUint32 (TrimPrefix p2 "v"));
      let ref := mkKeyRef p0 p1 version in
      KeyRef_Validate ref;;
      Ok ref
  | _ => Err (errorw ErrInvalidMetadata "malformed key reference")
  end.

(** ** key.go: key versions *)

Record KeyVersion := mkKeyVersion {
  Ref : KeyRef;
  KStatus : Status;
  Algorithm : string;
  PolicyID : string;
  Material : bytes;
}.

Definition known_status (s : Status) : bool :=
  String.eqb s StatusPending || String.eqb s StatusActive ||
  String.eqb s StatusDecryptOnly || String.eqb s StatusRetired.

Definition KeyVersion_Validate (v : KeyVersion) : result unit :=
  KeyRef_Validate (Ref v);;
  check (known_status (KStatus v)) (errorw ErrInvalidMetadata "unknown key status");;
  check (String.eqb (Algorithm v) AlgorithmAES256GCM)
    (errorw ErrInvalidMetadata "unsupported algorithm");;
  check (validIdentifier (PolicyID v)) (errorw ErrInvalidMetadata "invalid policy ID");;
  check (len (Material v) =? KeySize)
    (errorw ErrInvalidMetadata "key material must be 32 bytes").

Definition canEncrypt (v : KeyVersion) : bool := String.eqb (KStatus v) StatusActive.

Definition canDecrypt (v : KeyVersion) : bool :=
  String.eqb (KStatus v) StatusActive || String.eqb (KStatus v) StatusDecryptOnly.

(** [GenerateKey] on the outcome of reading [KeySize] random bytes. *)
Definition GenerateKey (random : result bytes) : result bytes :=
  map_err (errorp "generate wrapping key") random.

(** ** metadata.go *)

Definition schemaVersion : Z := 1.

Record Metadata := mkMetadata {
  m_SchemaVersion : Z;
  m_Purpose : string;
  m_ClusterID : string;
  m_KeyID : string;
  m_KeyVersion : Z;
  m_Algorithm : string;
  m_PolicyID : string;
  m_BlobFormat : string;
}.

Definition NewMetadata (version : KeyVersion) : Metadata :=
  mkMetadata schemaVersion Purpose (ClusterID (Ref version)) (KeyID (Ref version))
    (Version (Ref version)) (Algorithm version) (PolicyID version) BlobFormat.

Definition Metadata_Validate (m : Metadata) : result unit :=
  check (m_SchemaVersion m =? schemaVersion)
    (errorw ErrInvalidMetadata "unsupported metadata schema version");;
  KeyRef_Validate (mkKeyRef (m_ClusterID m) (m_KeyID m) (m_KeyVersion m));;
  check (String.eqb (m_Algorithm m) AlgorithmAES256GCM)
    (errorw ErrInvalidMetadata "unsupported metadata algorithm");;
  check (validIdentifier (m_PolicyID m)) (errorw ErrInvalidMetadata "invalid metadata policy ID");;
  check (String.eqb (m_Purpose m) Purpose) (errorw ErrInvalidMetadata "invalid metadata purpose");;
  check (String.eqb (m_BlobFormat m) BlobFormat) (errorw ErrInvalidMetadata "invalid blob format").

(** A JSON string whose text needs no escape: the only texts that reach the
    encoder are validated identifiers, constants and base64. *)
Definition json_string (s : string) : string :=
  String dquote (s +:+ String dquote EmptyString).

Definition json_field (name value : string) : string := json_string name +:+ ":" +:+ value.

Definition json_object (fields : list string) : string := "{" +:+ Join fields "," +:+ "}".

Definition Metadata_json (m : Metadata) : string :=
  json_object [
    json_field "schema_version" (FormatUint (m_SchemaVersion m));
    json_field "purpose" (json_string (m_Purpose m));
    json_field "cluster_id" (json_string (m_ClusterID m));
    json_field "key_id" (json_string (m_KeyID m));
    json_field "key_version" (FormatUint (m_KeyVersion m));
    json_field "algorithm" (json_string (m_Algorithm m));
    json_field "policy_id" (json_string (m_PolicyID m));
    json_field "blob_format" (json_string (m_BlobFormat m))].

(** The JSON of the [authenticatedData] struct; [caller_aad] is [omitempty]. *)
Definition authenticatedData_json (m : Metadata) (callerAAD : bytes) : string :=
  json_object (json_field "metadata" (Metadata_json m) ::
    if String.eqb callerAAD EmptyString then []
    else [json_field "caller_aad" (json_string (b64_EncodeToString callerAAD))]).

Definition CanonicalAAD (m : Metadata) (callerAAD : bytes) : result bytes :=
  Metadata_Validate m;; Ok (authenticatedData_json m callerAAD).

(** ** ring.go *)

Record Ring := mkRing { versions : list KeyVersion }.

Definition sameRef (left right : KeyRef) : bool :=
  String.eqb (ClusterID left) (ClusterID right) && String.eqb (KeyID left) (KeyID right) &&
  (Version left =? Version right).

Fixpoint containsRef (vs : list KeyVersion) (ref : KeyRef) : bool :=
  match vs with
  | [] => false
  | v :: r => if sameRef (Ref v) ref then true else containsRef r ref
  end.

(** The loop of [NewRing]: [copied] and [activeCount] are its state. *)
Definition newRing_step (st : list KeyVersion * Z) (version : KeyVersion)
  : result (list KeyVersion * Z) :=
  let '(copied, activeCount) := st in
  KeyVersion_Validate version;;
  check (negb (containsRef copied (Ref version)))
    (errorw ErrInvalidMetadata "duplicate key reference");;
  Ok (copied ++ [version],
      if String.eqb (KStatus version) StatusActive then activeCount + 1 else activeCount).

Definition NewRing (vs : list KeyVersion) : result Ring :=
  match vs with
  | [] => Err (errorw ErrInvalidMetadata "at least one key version is required")
  | _ =>
      '(copied, activeCount) ← foldR newRing_step ([], 0) vs;
      check (activeCount =? 1)
        (errorw ErrInvalidMetadata "exactly one active key version is required");;
      Ok (mkRing copied)
  end.

Fixpoint active_loop (vs : list KeyVersion) : result KeyVersion :=
  match vs with
  | [] => Err ErrKeyNotUsable
  | v :: r => if canEncrypt v then Ok v else active_loop r
  end.

(** The receiver is a pointer: [None] is a nil ring. *)
Definition Active (r : option Ring) : result KeyVersion :=
  match r with
  | None => Err (errorw ErrInvalidMetadata "nil keyring")
  | Some r => active_loop (versions r)
  end.

Fixpoint decrypt_loop (vs : list KeyVersion) (ref : KeyRef) : result KeyVersion :=
  match vs with
  | [] => Err ErrKeyNotFound
  | v :: r =>
      if sameRef (Ref v) ref
      then if negb (canDecrypt v) then Err ErrKeyNotUsable else Ok v
      else decrypt_loop r ref
  end.

Definition keyForDecrypt (r : option Ring) (ref : KeyRef) : result KeyVersion :=
  match r with
  | None => Err (errorw ErrInvalidMetadata "nil keyring")
  | Some r => decrypt_loop (versions r) ref
  end.

(** ** wrap.go *)

(** The parts of the wrapping library's [BlobInfo] that the keyring uses. *)
Record KeyInfo := mkKeyInfo { Mechanism : Z; KeyId : string }.
Record BlobInfo := mkBlobInfo { Ciphertext : bytes; Iv : bytes; BKeyInfo : option KeyInfo }.

(** AES-GCM of crypto/cipher.  The laws: [NewCipher] takes the three AES key
    sizes, opening succeeds exactly on what sealing produced with the same key,
    nonce and additional data, and a sealed text carries a tag, so it is never
    empty. *)
Class AEAD := {
  Seal : bytes -> bytes -> bytes -> bytes -> bytes;
  Open : bytes -> bytes -> bytes -> bytes -> option bytes;
}.

Class AEADLaws `{AEAD} := {
  Open_Seal key nonce plaintext aad :
    len key = KeySize -> len nonce = NonceSize ->
    Open key nonce (Seal key nonce plaintext aad) aad = Some plaintext;
  Open_authentic key nonce ciphertext aad plaintext :
    len key = KeySize -> len nonce = NonceSize ->
    Open key nonce ciphertext aad = Some plaintext ->
    ciphertext = Seal key nonce plaintext aad;
  Seal_nonempty key nonce plaintext aad :
    len key = KeySize -> len nonce = NonceSize ->
    Seal key nonce plaintext aad <> EmptyString;
}.

Definition newAEAD (material : bytes) : result bytes :=
  check ((len material =? 16) || (len material =? 24) || (len material =? 32))
    (errorf ("create AES cipher: crypto/aes: invalid key size " +:+ FormatUint (len material)));;
  Ok material.

Definition validateBlob (blob : option BlobInfo) : result KeyRef :=
  match blob with
  | None => Err (errorw ErrInvalidMetadata "nil blob")
  | Some blob =>
      check (negb (len (Ciphertext blob) =? 0)) (errorw ErrInvalidMetadata "empty ciphertext");;
      check (len (Iv blob) =? NonceSize) (errorw ErrInvalidMetadata "invalid nonce size");;
      match BKeyInfo blob with
      | None => Err (errorw ErrInvalidMetadata "missing key info")
      | Some keyInfo =>
          check (Mechanism keyInfo =? BlobMechanismAES256GCM)
            (errorw ErrInvalidMetadata "unsupported mechanism");;
          ParseKeyRef (KeyId keyInfo)
      end
  end.

Section Wrap.
Context `{AEAD}.

(** [ctx] is the value of [ctx.Err()] on entry and [random] the outcome of
    reading [NonceSize] random bytes. *)
Definition Encrypt (ctx : result unit) (random : result bytes) (r : option Ring)
  (plaintext callerAAD : bytes) : result BlobInfo :=
  ctx;;
  version ← Active r;
  aad ← CanonicalAAD (NewMetadata version) callerAAD;
  aead ← newAEAD (Material version);
  nonce ← map_err (errorp "generate nonce") random;
  Ok (mkBlobInfo (Seal aead nonce plaintext aad) nonce
        (Some (mkKeyInfo BlobMechanismAES256GCM (KeyRef_String (Ref version))))).

Definition Decrypt (ctx : result unit) (r : option Ring) (blob : option BlobInfo)
  (callerAAD : bytes) : result bytes :=
  ctx;;
  ref ← validateBlob blob;
  version ← keyForDecrypt r ref;
  aad ← CanonicalAAD (NewMetadata version) callerAAD;
  aead ← newAEAD (Material version);
  match blob with
  | None => Err (errorw ErrInvalidMetadata "nil blob")
  | Some b =>
      of_option (errorf "decrypt blob: cipher: message authentication failed")
        (Open aead (Iv b) (Ciphertext b) aad)
  end.

End Wrap.

(** ** A concrete cipher for evaluation: the key, nonce and additional data in
    front of the plaintext. *)

Definition toy_Open (key nonce ciphertext aad : bytes) : option bytes :=
  if HasPrefix ciphertext (key +:+ nonce +:+ aad)
  then Some (string_drop (String.length (key +:+ nonce +:+ aad)) ciphertext) else None.

Definition toy_AEAD : AEAD := {|
  Seal key nonce plaintext aad := (key +:+ nonce +:+ aad) +:+ plaintext;
  Open := toy_Open;
|}.

Lemma toy_AEADLaws : @AEADLaws toy_AEAD.
Proof.
  split; simpl; unfold toy_Open, HasPrefix.
  - intros. by rewrite prefix_app, string_drop_app.
  - intros key nonce ct aad p _ _ H. case_hyp H; [|done]. injection H as <-. by apply prefix_split.
  - intros key nonce p aad Hk _ H. apply (f_equal len) in H.
    rewrite !len_app, Hk in H. change (len EmptyString) with 0 in H.
    pose proof (len_nonneg nonce); pose proof (len_nonneg aad); pose proof (len_nonneg p).
    unfold KeySize in *. lia.
Qed.

(** ** Identifiers and key references *)

Lemma alnum_ident c : alnum c = true -> ident_char c = true.
Proof. unfold ident_char. by intros ->. Qed.

Lemma validIdentifier_chars s : validIdentifier s = true -> string_forall ident_char s = true.
Proof.
  destruct s as [|c r]; [done|]. simpl. intros H; to_prop. rewrite alnum_ident by done. done.
Qed.

(** A byte outside the identifier alphabet does not occur in an identifier. *)
Lemma identifier_ascii s : validIdentifier s = true -> ascii_only s = true.
Proof.
  assert (forall c, ident_char c = true -> (byte_val c <? 128) = true) as Hi.
  { intros c. by destruct c as [[] [] [] [] [] [] [] []]. }
  destruct s as [|c r]; [done|]. unfold validIdentifier. intros (Hcr & _)%andb_true_iff.
  apply andb_true_iff in Hcr as [Hc Hr]. unfold ascii_only. cbn [string_forall]. apply andb_true_iff. split.
  - apply Hi. unfold ident_char. by rewrite Hc.
  - by eapply string_forall_impl.
Qed.

Lemma validIdentifier_no_char c s :
  ident_char c = false -> validIdentifier s = true -> no_char c s = true.
Proof.
  intros Hc Hs. apply validIdentifier_chars in Hs. revert Hs. apply string_forall_impl.
  intros d Hd. apply negb_true_iff, Ascii.eqb_neq. intros ->. congruence.
Qed.

Lemma digits_no_char c n : is_digit c = false -> 0 <= n -> no_char c (FormatUint n) = true.
Proof.
  intros Hc Hn. generalize (FormatUint_digits n Hn). apply string_forall_impl.
  intros d Hd. apply negb_true_iff, Ascii.eqb_neq. intros ->. congruence.
Qed.

(** The range a [uint32] field has by its type. *)
Definition uint32 (n : Z) : Prop := 0 <= n <= uint32_max.

Definition KeyRef_ok (r : KeyRef) : Prop :=
  validIdentifier (ClusterID r) = true /\ validIdentifier (KeyID r) = true /\
  1 <= Version r <= uint32_max.

Lemma KeyRef_Validate_Ok r :
  uint32 (Version r) -> KeyRef_Validate r = Ok tt <-> KeyRef_ok r.
Proof.
  unfold uint32, KeyRef_ok, KeyRef_Validate. intros Hv. split.
  - intros H. inv_ok. to_prop. split_and!; try done; lia.
  - intros (H1 & H2 & H3). rewrite H1, H2. simpl.
    destruct (Z.eqb_spec (Version r) 0); [lia | done].
Qed.

Lemma ParseKeyRef_String_ok r : KeyRef_ok r -> ParseKeyRef (KeyRef_String r) = Ok r.
Proof.
  intros Hr. destruct r as [cid kid v]. pose proof Hr as (H1 & H2 & H3). simpl in *.
  unfold ParseKeyRef, KeyRef_String. simpl ClusterID; simpl KeyID; simpl Version.
  change ("/" +:+ ?s) with (String "/" s). change ("/v" +:+ ?s) with (String "/" ("v" +:+ s)).
  rewrite !Split_sep, Split_no_char.
  - pose proof (TrimPrefix_app "v" (FormatUint v)) as [-> ->]. cbn [check mbind result_bind].
    rewrite ParseUint32_FormatUint by lia. cbn [of_option mbind result_bind].
    rewrite (proj2 (KeyRef_Validate_Ok (mkKeyRef cid kid v) ltac:(unfold uint32; simpl; lia))); done.
  - change (no_char "/" (FormatUint v) = true). apply digits_no_char; [done | lia].
  - by apply validIdentifier_no_char.
  - by apply validIdentifier_no_char.
Qed.

Lemma ParseKeyRef_valid raw r : ParseKeyRef raw = Ok r -> KeyRef_Validate r = Ok tt /\ KeyRef_ok r.
Proof.
  unfold ParseKeyRef. intros H. repeat case_hyp H; try done. inv_ok.
  rename H1 into Hv, H0 into Hu. unfold ParseUint32 in Hu. repeat case_hyp Hu; try done. inv_ok.
  destruct x1. split; [done|]. apply KeyRef_Validate_Ok; [|done].
  split; simpl; [|to_prop; done]. eapply parse_digits_nonneg; [|done]. lia.
Qed.

(** ** The canonical additional data is injective *)

Definition Metadata_ok (m : Metadata) : Prop := uint32 (m_KeyVersion m) /\ Metadata_Validate m = Ok tt.

Lemma NewMetadata_ok v :
  uint32 (Version (Ref v)) -> KeyVersion_Validate v = Ok tt -> Metadata_ok (NewMetadata v).
Proof.
  intros Hu H. split; [done|]. unfold KeyVersion_Validate in H. inv_ok.
  destruct v as [[cid kid n] st alg pol mat]. unfold Metadata_Validate, NewMetadata; simpl in *.
  destruct x. by use_eqs.
Qed.

Lemma Metadata_fixed m :
  Metadata_Validate m = Ok tt ->
  m_SchemaVersion m = schemaVersion /\ m_Purpose m = Purpose /\ m_Algorithm m = AlgorithmAES256GCM /\
  m_BlobFormat m = BlobFormat /\ validIdentifier (m_ClusterID m) = true /\
  validIdentifier (m_KeyID m) = true /\ validIdentifier (m_PolicyID m) = true.
Proof.
  unfold Metadata_Validate, KeyRef_Validate. intros H. inv_ok. to_prop. simpl in *. done.
Qed.



Lemma json_string_app_inj (s1 s2 t1 t2 : string) :
  validIdentifier s1 = true -> validIdentifier s2 = true ->
  json_string s1 +:+ t1 = json_string s2 +:+ t2 -> s1 = s2 /\ t1 = t2.
Proof.
  unfold json_string. rewrite !sapp_cons, <- !sapp_assoc. intros H1 H2 [= H].
  apply no_char_until in H; [done| |]; by apply validIdentifier_no_char.
Qed.

Lemma number_comma_inj n1 n2 (t1 t2 : string) :
  uint32 n1 -> uint32 n2 ->
  FormatUint n1 +:+ ("," +:+ t1) = FormatUint n2 +:+ ("," +:+ t2) -> n1 = n2 /\ t1 = t2.
Proof.
  unfold uint32, uint32_max. intros H1 H2 H.
  apply no_char_until in H as [H ->]; [|apply digits_no_char; done || lia..].
  by apply FormatUint_inj in H; [|lia..].
Qed.

Lemma Metadata_json_app_inj m1 m2 (t1 t2 : string) :
  Metadata_ok m1 -> Metadata_ok m2 ->
  Metadata_json m1 +:+ t1 = Metadata_json m2 +:+ t2 -> m1 = m2 /\ t1 = t2.
Proof.
  intros [Hu1 H1] [Hu2 H2].
  apply Metadata_fixed in H1 as (? & ? & ? & ? & Hc1 & Hk1 & Hp1).
  apply Metadata_fixed in H2 as (? & ? & ? & ? & Hc2 & Hk2 & Hp2).
  destruct m1, m2; simpl in *; subst.
  unfold Metadata_json, json_object, json_field. cbn -[String.append json_string FormatUint].
  rewrite <- !sapp_assoc. intros H.
  repeat first [ apply sapp_inv_l in H
               | apply json_string_app_inj in H as [-> H]; [|done..]
               | apply number_comma_inj in H as [-> H]; [|done..] ].
  done.
Qed.

Lemma authenticatedData_json_inj m1 m2 a1 a2 :
  Metadata_ok m1 -> Metadata_ok m2 ->
  authenticatedData_json m1 a1 = authenticatedData_json m2 a2 -> m1 = m2 /\ a1 = a2.
Proof.
  intros H1 H2. unfold authenticatedData_json, json_object, json_field.
  destruct (String.eqb_spec a1 EmptyString) as [->|], (String.eqb_spec a2 EmptyString) as [->|];
    cbn [Join]; rewrite <- !sapp_assoc; intros H; do 3 apply sapp_inv_l in H;
    apply Metadata_json_app_inj in H as [-> H]; try done.
  split; [done|]. do 3 apply sapp_inv_l in H. apply sapp_inv_r in H.
  injection H as H. by apply sapp_inv_r, b64_Encode_inj in H.
Qed.

(** ** The ring *)

Lemma sameRef_spec a b : sameRef a b = true <-> a = b.
Proof.
  destruct a as [c1 k1 v1], b as [c2 k2 v2]. unfold sameRef; simpl.
  rewrite !andb_true_iff, !String.eqb_eq, Z.eqb_eq. naive_solver.
Qed.

Lemma containsRef_spec vs ref : containsRef vs ref = true <-> ref ∈ (Ref <$> vs).
Proof.
  induction vs as [|v vs IH]; cbn -[sameRef]; [by rewrite elem_of_nil|].
  rewrite elem_of_cons, <- IH. destruct (sameRef (Ref v) ref) eqn:E.
  - apply sameRef_spec in E. naive_solver.
  - assert (ref <> Ref v) by (intros ->; assert (sameRef (Ref v) (Ref v) = true)
      by (by apply sameRef_spec); congruence). naive_solver.
Qed.

(** The number of versions with a given status. *)
Definition count_status (s : Status) (vs : list KeyVersion) : Z :=
  Z.of_nat (length (filter (fun v => KStatus v = s) vs)).

Lemma count_status_cons s v vs :
  count_status s (v :: vs) = (if String.eqb (KStatus v) s then 1 else 0) + count_status s vs.
Proof.
  unfold count_status. rewrite filter_cons.
  destruct (String.eqb_spec (KStatus v) s); case_decide; try done. simpl length. lia.
Qed.

(** What [NewRing] asks of its arguments. *)
Definition ring_ok (vs : list KeyVersion) : Prop :=
  Forall (fun v => KeyVersion_Validate v = Ok tt) vs /\ NoDup (Ref <$> vs) /\
  count_status StatusActive vs = 1.

Lemma newRing_step_Ok copied n v st' :
  newRing_step (copied, n) v = Ok st' <->
  KeyVersion_Validate v = Ok tt /\ Ref v ∉ Ref <$> copied /\
  st' = (copied ++ [v], n + (if String.eqb (KStatus v) StatusActive then 1 else 0)).
Proof.
  rewrite <- containsRef_spec. unfold newRing_step.
  destruct (KeyVersion_Validate v) as [[]|]; cbn -[containsRef]; [|split; [done | by intros [? _]]].
  destruct (containsRef copied (Ref v)); cbn; [split; [done | by intros (_ & ? & _)]|].
  destruct (String.eqb (KStatus v) StatusActive); rewrite ?Z.add_0_r;
    (split; [by intros [= <-] | by intros (_ & _ & ->)]).
Qed.

Lemma newRing_loop vs copied n copied' n' :
  NoDup (Ref <$> copied) ->
  foldR newRing_step (copied, n) vs = Ok (copied', n') <->
  Forall (fun v => KeyVersion_Validate v = Ok tt) vs /\ NoDup (Ref <$> (copied ++ vs)) /\
  copied' = copied ++ vs /\ n' = n + count_status StatusActive vs.
Proof.
  revert copied n; induction vs as [|v vs IH]; intros copied n Hnd; cbn [foldR].
  - rewrite app_nil_r. change (count_status StatusActive []) with 0. rewrite Z.add_0_r.
    rewrite Forall_nil. split; [by intros [= <- <-] | by intros (_ & _ & -> & ->)].
  - rewrite bind_Ok, count_status_cons, Forall_cons, (cons_middle v copied vs), app_assoc, Z.add_assoc.
    assert (Ref v ∉ Ref <$> copied <-> NoDup (Ref <$> (copied ++ [v]))) as Hni.
    { rewrite fmap_app, NoDup_app. simpl. setoid_rewrite list_elem_of_singleton.
      pose proof (NoDup_singleton (Ref v)). naive_solver. }
    split.
    + intros (st & (Hv & Hr & ->)%newRing_step_Ok & H). apply IH in H; [tauto|]. by apply Hni.
    + intros ((Hv & Hf) & Hnd' & Hc & Hn). eexists. split.
      * apply newRing_step_Ok. split_and!; [done| |done]. apply Hni.
        rewrite fmap_app in Hnd'. by apply NoDup_app in Hnd' as [? _].
      * apply IH; [|done]. rewrite fmap_app in Hnd'. by apply NoDup_app in Hnd' as [? _].
Qed.

Lemma NewRing_spec vs r : NewRing vs = Ok r <-> ring_ok vs /\ r = mkRing vs.
Proof.
  unfold ring_ok. destruct vs as [|v vs].
  - split; [done|]. intros [(_ & _ & H) _]. done.
  - unfold NewRing. set (l := v :: vs). destruct (foldR newRing_step ([], 0) l) as [[c n]|e] eqn:E.
    + apply newRing_loop in E as (Hf & Hnd & -> & ->); [|constructor]. simpl app in *.
      cbn -[count_status]. destruct (Z.eqb_spec (0 + count_status StatusActive l) 1); simpl; naive_solver lia.
    + split; [done|]. intros [(Hf & Hnd & Hc) _].
      assert (foldR newRing_step ([], 0) l = Ok (l, 0 + count_status StatusActive l)) as Heq
        by (apply newRing_loop; [constructor | done]). congruence.
Qed.

Lemma active_loop_Ok vs v : active_loop vs = Ok v -> v ∈ vs /\ KStatus v = StatusActive.
Proof.
  induction vs as [|w vs IH]; cbn -[canEncrypt]; [done|]. unfold canEncrypt. case_goal; intros H.
  - inv_ok. to_prop. split; [left | done].
  - apply IH in H as [? ?]. split; [by right | done].
Qed.

Lemma active_loop_exists vs : 0 < count_status StatusActive vs -> exists v, active_loop vs = Ok v.
Proof.
  induction vs as [|w vs IH]; cbn -[canEncrypt count_status]; [done|].
  rewrite count_status_cons. unfold canEncrypt. case_goal; [eauto|]. done.
Qed.

Lemma decrypt_loop_Ok vs ref v :
  decrypt_loop vs ref = Ok v -> v ∈ vs /\ Ref v = ref /\ canDecrypt v = true.
Proof.
  induction vs as [|w vs IH]; cbn -[canDecrypt sameRef]; [done|]. case_goal.
  - apply sameRef_spec in Heqb as <-. case_goal; [done|]. intros; inv_ok. to_prop.
    split_and!; [left | done | done].
  - intros H. apply IH in H as (? & ? & ?). split_and!; [by right | done | done].
Qed.

(** With distinct references the loop finds the version that has the reference. *)
Lemma decrypt_loop_find vs v :
  NoDup (Ref <$> vs) -> v ∈ vs ->
  decrypt_loop vs (Ref v) = if canDecrypt v then Ok v else Err ErrKeyNotUsable.
Proof.
  induction vs as [|w vs IH]; cbn -[canDecrypt sameRef]; intros Hnd Hin; [by apply not_elem_of_nil in Hin|].
  apply NoDup_cons in Hnd as [Hni Hnd]. apply elem_of_cons in Hin as [<-|Hin].
  - rewrite (proj2 (sameRef_spec (Ref v) (Ref v)) eq_refl). by destruct (canDecrypt v).
  - destruct (sameRef (Ref w) (Ref v)) eqn:E; [|by apply IH].
    apply sameRef_spec in E. exfalso. apply Hni. rewrite E. by apply list_elem_of_fmap_2.
Qed.

Lemma decrypt_loop_missing vs ref :
  ref ∉ Ref <$> vs -> decrypt_loop vs ref = Err ErrKeyNotFound.
Proof.
  induction vs as [|w vs IH]; cbn -[canDecrypt sameRef]; [done|]. intros Hni.
  rewrite not_elem_of_cons in Hni. destruct Hni as [Hne Hni].
  destruct (sameRef (Ref w) ref) eqn:E; [apply sameRef_spec in E; congruence | by apply IH].
Qed.

(** ** Encryption and decryption *)

Definition versions_typed (vs : list KeyVersion) : Prop :=
  Forall (fun v => uint32 (Version (Ref v))) vs.

Lemma KeyVersion_Validate_len v :
  KeyVersion_Validate v = Ok tt -> len (Material v) = KeySize /\ KeyRef_Validate (Ref v) = Ok tt.
Proof. unfold KeyVersion_Validate. intros H. inv_ok. to_prop. by destruct x. Qed.

Lemma newAEAD_32 k : len k = KeySize -> newAEAD k = Ok k.
Proof. unfold newAEAD. by intros ->. Qed.

Section WrapFacts.
Context `{AEADLaws}.

(** The blob that a valid active version produces. *)
Definition sealed (v : KeyVersion) (nonce p aad : bytes) : BlobInfo :=
  mkBlobInfo (Seal (Material v) nonce p (authenticatedData_json (NewMetadata v) aad)) nonce
    (Some (mkKeyInfo BlobMechanismAES256GCM (KeyRef_String (Ref v)))).

Lemma CanonicalAAD_valid v aad :
  uint32 (Version (Ref v)) -> KeyVersion_Validate v = Ok tt ->
  CanonicalAAD (NewMetadata v) aad = Ok (authenticatedData_json (NewMetadata v) aad).
Proof. intros Hu Hv. unfold CanonicalAAD. by rewrite (proj2 (NewMetadata_ok v Hu Hv)). Qed.

Lemma Encrypt_active r v nonce p aad :
  Active r = Ok v -> uint32 (Version (Ref v)) -> KeyVersion_Validate v = Ok tt ->
  Encrypt (Ok tt) (Ok nonce) r p aad = Ok (sealed v nonce p aad).
Proof.
  intros Ha Hu Hv. unfold Encrypt. rewrite Ha. cbn [mbind result_bind].
  rewrite CanonicalAAD_valid by done. cbn [mbind result_bind].
  by rewrite newAEAD_32 by (by apply KeyVersion_Validate_len).
Qed.

Lemma validateBlob_sealed v nonce p aad :
  uint32 (Version (Ref v)) -> KeyVersion_Validate v = Ok tt -> len nonce = NonceSize ->
  validateBlob (Some (sealed v nonce p aad)) = Ok (Ref v).
Proof.
  intros Hu Hv Hn. destruct (KeyVersion_Validate_len v Hv) as [Hl Hr].
  unfold validateBlob, sealed. simpl Ciphertext. simpl Iv. simpl BKeyInfo.
  destruct (Z.eqb_spec (len (Seal (Material v) nonce p
    (authenticatedData_json (NewMetadata v) aad))) 0) as [Hz|_].
  { apply len_zero in Hz. by apply Seal_nonempty in Hz. }
  rewrite Hn. cbn. apply ParseKeyRef_String_ok. by apply KeyRef_Validate_Ok.
Qed.

(** Decrypting with any version of the same reference, material and policy. *)
Lemma Decrypt_sealed vs v v' nonce p aad :
  NoDup (Ref <$> vs) -> v' ∈ vs -> Ref v' = Ref v -> Material v' = Material v ->
  PolicyID v' = PolicyID v -> KeyVersion_Validate v' = Ok tt -> KeyVersion_Validate v = Ok tt ->
  uint32 (Version (Ref v)) -> len nonce = NonceSize ->
  Decrypt (Ok tt) (Some (mkRing vs)) (Some (sealed v nonce p aad)) aad
  = if canDecrypt v' then Ok p else Err ErrKeyNotUsable.
Proof.
  intros Hnd Hin Hr Hm Hp Hv' Hv Hu Hn. unfold Decrypt. cbn [mbind result_bind].
  rewrite validateBlob_sealed by done. cbn [mbind result_bind keyForDecrypt versions].
  rewrite <- Hr, decrypt_loop_find by done. destruct (canDecrypt v'); [|done].
  cbn [mbind result_bind]. rewrite CanonicalAAD_valid by (by rewrite ?Hr). cbn [mbind result_bind].
  rewrite newAEAD_32 by (by apply KeyVersion_Validate_len). cbn.
  assert (NewMetadata v' = NewMetadata v) as ->.
  { assert (Algorithm v' = Algorithm v).
    { unfold KeyVersion_Validate in Hv, Hv'. inv_ok. to_prop. congruence. }
    unfold NewMetadata. congruence. }
  rewrite Hm, Open_Seal; [done| |done]. by apply KeyVersion_Validate_len.
Qed.

End WrapFacts.

(** ** Properties of the keyring *)

(** [KeyRef.String] followed by [ParseKeyRef] gives back every reference that
    [Validate] accepts, and [ParseKeyRef] only ever returns references that
    [Validate] accepts. *)
Theorem ParseKeyRef_roundtrip r raw r' :
  uint32 (Version r) -> KeyRef_Validate r = Ok tt -> ParseKeyRef raw = Ok r' ->
  ParseKeyRef (KeyRef_String r) = Ok r /\
  KeyRef_Validate r' = Ok tt /\ ParseKeyRef (KeyRef_String r') = Ok r'.
Proof.
  intros Hu Hv Hp. apply ParseKeyRef_valid in Hp as [? ?].
  split_and!; [apply ParseKeyRef_String_ok; by apply KeyRef_Validate_Ok | done |].
  by apply ParseKeyRef_String_ok.
Qed.

Definition example_ref : KeyRef := mkKeyRef "cluster-a" "root" 7.

Lemma ParseKeyRef_roundtrip_witness :
  ParseKeyRef (KeyRef_String example_ref) = Ok example_ref /\
  KeyRef_Validate (mkKeyRef "c" "k" 12) = Ok tt /\
  ParseKeyRef (KeyRef_String (mkKeyRef "c" "k" 12)) = Ok (mkKeyRef "c" "k" 12).
Proof.
  apply (ParseKeyRef_roundtrip example_ref "c/k/v0012");
    [unfold uint32, uint32_max; simpl; lia | reflexivity | reflexivity].
Defined.

(** The authenticated data of a ciphertext determines the key metadata and
    the caller's additional data: two different (metadata, caller data) pairs
    that [CanonicalAAD] accepts never get the same encoding. *)
Theorem CanonicalAAD_injective m1 m2 a1 a2 e :
  uint32 (m_KeyVersion m1) -> uint32 (m_KeyVersion m2) ->
  CanonicalAAD m1 a1 = Ok e -> CanonicalAAD m2 a2 = Ok e -> m1 = m2 /\ a1 = a2.
Proof.
  unfold CanonicalAAD. intros Hu1 Hu2.
  intros ([] & Hv1 & H1)%bind_Ok ([] & Hv2 & H2)%bind_Ok.
  apply authenticatedData_json_inj; [done | done | congruence].
Qed.

Definition example_metadata : Metadata :=
  mkMetadata 1 Purpose "cluster-a" "root" 7 AlgorithmAES256GCM "policy-1" BlobFormat.

Lemma CanonicalAAD_injective_witness :
  exists e, CanonicalAAD example_metadata "aad" = Ok e /\
            example_metadata = example_metadata /\ "aad"%string = "aad"%string.
Proof.
  exists (authenticatedData_json example_metadata "aad"). split; [reflexivity|].
  apply (CanonicalAAD_injective _ _ _ _ (authenticatedData_json example_metadata "aad"));
    [unfold uint32, uint32_max; simpl; lia | unfold uint32, uint32_max; simpl; lia
    | reflexivity | reflexivity].
Defined.

(** [NewRing] succeeds exactly on version lists that are all valid, have
    pairwise distinct references and exactly one active version; the ring then
    holds those versions in order, and [Active] returns its one active version. *)
Theorem NewRing_exact vs r :
  NewRing vs = Ok r ->
  ring_ok vs /\ r = mkRing vs /\
  exists v, Active (Some r) = Ok v /\ v ∈ vs /\ KStatus v = StatusActive /\
            forall w, w ∈ vs -> KStatus w = StatusActive -> w = v.
Proof.
  intros H. apply NewRing_spec in H as [Hok ->]. split; [done|]. split; [done|].
  destruct Hok as (_ & _ & Hc). destruct (active_loop_exists vs ltac:(lia)) as [v Hv].
  exists v. pose proof (active_loop_Ok vs v Hv) as [Hin Hs]. split_and!; try done.
  intros w Hw Hws. unfold count_status in Hc.
  destruct (filter (fun v => KStatus v = StatusActive) vs) as [|x [|y l]] eqn:E; [done| |simpl in Hc; lia].
  assert (v ∈ [x]) as Hvx by (rewrite <- E; by apply list_elem_of_filter).
  assert (w ∈ [x]) as Hwx by (rewrite <- E; by apply list_elem_of_filter).
  apply list_elem_of_singleton in Hvx, Hwx. congruence.
Qed.

Definition example_material : bytes := "0123456789abcdef0123456789abcdef".
Definition example_version (n : Z) (s : Status) : KeyVersion :=
  mkKeyVersion (mkKeyRef "cluster-a" "root" n) s AlgorithmAES256GCM "policy-1" example_material.
Definition example_versions : list KeyVersion :=
  [example_version 1 StatusDecryptOnly; example_version 2 StatusActive].

Lemma NewRing_exact_witness :
  ring_ok example_versions /\ mkRing example_versions = mkRing example_versions /\
  exists v, Active (Some (mkRing example_versions)) = Ok v /\ v ∈ example_versions /\
            KStatus v = StatusActive /\
            forall w, w ∈ example_versions -> KStatus w = StatusActive -> w = v.
Proof. apply (NewRing_exact example_versions (mkRing example_versions)). reflexivity. Defined.

(** C24: encryption never fails on a ring that [NewRing] built, and what it
    produces is decrypted to the plaintext by every ring that holds the same key
    version as active or decrypt-only; a ring that holds it as pending or retired
    refuses with [ErrKeyNotUsable]. *)
Theorem Encrypt_Decrypt_roundtrip `{AEADLaws} vs1 vs2 r1 r2 nonce p aad :
  NewRing vs1 = Ok r1 -> NewRing vs2 = Ok r2 -> versions_typed vs1 -> len nonce = NonceSize ->
  exists v blob, Active (Some r1) = Ok v /\ Encrypt (Ok tt) (Ok nonce) (Some r1) p aad = Ok blob /\
    forall v', v' ∈ vs2 -> Ref v' = Ref v -> Material v' = Material v -> PolicyID v' = PolicyID v ->
      Decrypt (Ok tt) (Some r2) (Some blob) aad
      = if canDecrypt v' then Ok p else Err ErrKeyNotUsable.
Proof.
  intros [(Hf1 & _ & Hc1) ->]%NewRing_spec [(Hf2 & Hnd2 & _) ->]%NewRing_spec Ht Hn.
  destruct (active_loop_exists vs1 ltac:(lia)) as [v Hv].
  destruct (active_loop_Ok vs1 v Hv) as [Hin _].
  unfold versions_typed in Ht. rewrite Forall_forall in Hf1, Hf2, Ht.
  exists v, (sealed v nonce p aad). split; [done|]. split; [apply Encrypt_active; auto|].
  intros v' Hin' Hr Hm Hp. apply Decrypt_sealed; auto.
Qed.

Lemma Encrypt_Decrypt_roundtrip_witness :
  let vs2 := [example_version 2 StatusDecryptOnly; example_version 3 StatusActive] in
  exists v blob, Active (Some (mkRing example_versions)) = Ok v /\
    @Encrypt toy_AEAD (Ok tt) (Ok "nonce-nonce-"%string) (Some (mkRing example_versions)) "root key" "aad"
    = Ok blob /\
    forall v', v' ∈ vs2 -> Ref v' = Ref v -> Material v' = Material v -> PolicyID v' = PolicyID v ->
      @Decrypt toy_AEAD (Ok tt) (Some (mkRing vs2)) (Some blob) "aad"
      = if canDecrypt v' then Ok "root key"%string else Err ErrKeyNotUsable.
Proof.
  apply (@Encrypt_Decrypt_roundtrip toy_AEAD toy_AEADLaws example_versions); [reflexivity | reflexivity | | reflexivity].
  repeat constructor; simpl; unfold uint32_max; lia.
Defined.

(** C25: a blob that [Decrypt] opens was sealed, with exactly this nonce and this
    additional data, under the key version its reference names, and that version
    is one of the ring's active or decrypt-only versions. *)
Theorem Decrypt_authentic `{AEADLaws} vs r blob aad p :
  NewRing vs = Ok r -> versions_typed vs ->
  Decrypt (Ok tt) (Some r) (Some blob) aad = Ok p ->
  exists v ki, v ∈ vs /\ canDecrypt v = true /\ BKeyInfo blob = Some ki /\
    ParseKeyRef (KeyId ki) = Ok (Ref v) /\
    Ciphertext blob = Seal (Material v) (Iv blob) p (authenticatedData_json (NewMetadata v) aad).
Proof.
  intros [(Hf & _) ->]%NewRing_spec Ht Hd. unfold versions_typed in Ht.
  rewrite Forall_forall in Hf, Ht. unfold Decrypt in Hd. inv_ok.
  cbn [keyForDecrypt versions] in *.
  match goal with H : decrypt_loop _ _ = _ |- _ => apply decrypt_loop_Ok in H as (Hin & <- & Hcd) end.
  rewrite CanonicalAAD_valid in * by auto. inv_ok.
  match goal with H : validateBlob _ = _ |- _ => rename H into Hb end.
  unfold validateBlob in Hb. inv_ok. destruct (BKeyInfo blob) as [ki|] eqn:E; [|done]. inv_ok. to_prop.
  pose proof (proj1 (KeyVersion_Validate_len _ (Hf _ Hin))) as Hl.
  rewrite newAEAD_32 in * by done. inv_ok.
  eexists _, ki. split_and!; try done. by apply Open_authentic.
Qed.

Definition example_blob : BlobInfo :=
  @sealed toy_AEAD (example_version 1 StatusActive) "nonce-nonce-" "root key" "aad".

Lemma Decrypt_authentic_witness :
  exists v ki, v ∈ example_versions /\ canDecrypt v = true /\ BKeyInfo example_blob = Some ki /\
    ParseKeyRef (KeyId ki) = Ok (Ref v) /\
    Ciphertext example_blob
    = @Seal toy_AEAD (Material v) (Iv example_blob) "root key"
        (authenticatedData_json (NewMetadata v) "aad").
Proof.
  apply (@Decrypt_authentic toy_AEAD toy_AEADLaws example_versions (mkRing example_versions));
    [reflexivity | repeat constructor; simpl; unfold uint32_max; lia | vm_compute; reflexivity].
Defined.
