(* ===== verification/KeyProtection.v ===== *)
(** * Key protection (internal/keyprotection)

    The durable form of a key version, the [Protector] and [Repository]
    interfaces, the development protector and the loader that rebuilds a ring
    from stored records.  The loader is proved correct against the interfaces. *)

From S2P Require Import Prelude GoStrings Keyring.
Local Open Scope Z_scope.

(** ** protection.go *)

Definition ProfileDevelopment : string := "development".
Definition FormatDevelopmentPlaintextV1 : string :=
  "openbao-attested-unseal.development-plaintext.v1".

Definition ErrInvalidProtectedKey : error :=
  sentinel "keyprotection.ErrInvalidProtectedKey" "invalid protected key record".
Definition ErrProtectorMismatch : error :=
  sentinel "keyprotection.ErrProtectorMismatch" "key protector profile mismatch".

Record ProtectedKey := mkProtectedKey {
  pk_Ref : KeyRef;
  pk_Status : Status;
  pk_Algorithm : string;
  pk_PolicyID : string;
  pk_ProtectorProfile : string;
  pk_Format : string;
  pk_Payload : bytes;
}.

Global Instance ProtectedKey_eq_dec : EqDecision ProtectedKey.
Proof. solve_decision. Defined.

Definition ProtectedKey_Validate (k : ProtectedKey) : result unit :=
  map_err (fun e => errorw ErrInvalidProtectedKey (err_msg e)) (KeyRef_Validate (pk_Ref k));;
  check (known_status (pk_Status k)) (errorw ErrInvalidProtectedKey "unsupported key status");;
  check (String.eqb (pk_Algorithm k) AlgorithmAES256GCM)
    (errorw ErrInvalidProtectedKey "unsupported key algorithm");;
  map_err (fun _ => errorw ErrInvalidProtectedKey "invalid policy ID")
    (ValidateIdentifier (pk_PolicyID k));;
  map_err (fun _ => errorw ErrInvalidProtectedKey "invalid protector profile")
    (ValidateIdentifier (pk_ProtectorProfile k));;
  check (negb (String.eqb (TrimSpace (pk_Format k)) EmptyString))
    (errorw ErrInvalidProtectedKey "protected format is required");;
  check (negb (len (pk_Payload k) =? 0))
    (errorw ErrInvalidProtectedKey "protected payload is required").

Definition ProtectedKey_Metadata (k : ProtectedKey) : KeyVersion :=
  mkKeyVersion (pk_Ref k) (pk_Status k) (pk_Algorithm k) (pk_PolicyID k) EmptyString.

(** The [Repository] interface on the state [St] that holds the records. *)
Class Repository (St : Type) := {
  ProtectedKeys : St -> string -> result (list ProtectedKey);
  ProtectedKeyOf : St -> KeyRef -> result ProtectedKey;
}.

(** The [Protector] interface; [ctx] is the value of [ctx.Err()]. *)
Class Protector := {
  Profile : string;
  Protect : result unit -> KeyVersion -> result ProtectedKey;
  Unprotect : result unit -> ProtectedKey -> result KeyVersion;
}.

(** [%q] of a text that needs no escape. *)
Definition quoted (s : string) : string := json_string s.

Definition unprotect_step `{Protector} (ctx : result unit) (versions : list KeyVersion)
  (record : ProtectedKey) : result (list KeyVersion) :=
  check (String.eqb (pk_ProtectorProfile record) Profile)
    (errorw ErrProtectorMismatch ("loader profile " +:+ quoted Profile +:+
       " cannot open record profile " +:+ quoted (pk_ProtectorProfile record)));;
  version ← Unprotect ctx record;
  Ok (versions ++ [version]).

(** A [Loader] with both fields set (a nil field is the error the broker's
    construction rules out). *)
Definition LoadKeyring {St} `{Repository St, Protector} (ctx : result unit) (st : St)
  (clusterID : string) : result Ring :=
  records ← ProtectedKeys st clusterID;
  versions ← foldR (unprotect_step ctx) [] records;
  NewRing versions.

(** ** development.go *)

Definition Development_Protect (ctx : result unit) (version : KeyVersion) : result ProtectedKey :=
  ctx;;
  KeyVersion_Validate version;;
  let record := mkProtectedKey (Ref version) (KStatus version) (Algorithm version)
                  (PolicyID version) ProfileDevelopment FormatDevelopmentPlaintextV1
                  (Material version) in
  ProtectedKey_Validate record;;
  Ok record.

Definition Development_Unprotect (ctx : result unit) (record : ProtectedKey) : result KeyVersion :=
  ctx;;
  ProtectedKey_Validate record;;
  check (String.eqb (pk_ProtectorProfile record) ProfileDevelopment &&
         String.eqb (pk_Format record) FormatDevelopmentPlaintextV1)
    (errorw ErrProtectorMismatch ("development protector cannot open profile " +:+
       quoted (pk_ProtectorProfile record) +:+ " format " +:+ quoted (pk_Format record)));;
  let m := ProtectedKey_Metadata record in
  let version := mkKeyVersion (Ref m) (KStatus m) (Algorithm m) (PolicyID m) (pk_Payload record) in
  KeyVersion_Validate version;;
  Ok version.

Global Instance DevelopmentProtector : Protector := {|
  Profile := ProfileDevelopment;
  Protect := Development_Protect;
  Unprotect := Development_Unprotect;
|}.

(** ** What a protector promises

    Protecting a valid version gives a valid record under the protector's own
    profile with the version's metadata, and a record whose status column was
    changed afterwards (a rotation does that) still opens, to the version with
    the new status. *)

Definition with_status (s : Status) (v : KeyVersion) : KeyVersion :=
  mkKeyVersion (Ref v) s (Algorithm v) (PolicyID v) (Material v).

Definition pk_with_status (s : Status) (k : ProtectedKey) : ProtectedKey :=
  mkProtectedKey (pk_Ref k) s (pk_Algorithm k) (pk_PolicyID k) (pk_ProtectorProfile k)
    (pk_Format k) (pk_Payload k).

Class ProtectorLaws `{Protector} := {
  Protect_valid v :
    KeyVersion_Validate v = Ok tt ->
    exists k, Protect (Ok tt) v = Ok k /\ ProtectedKey_Validate k = Ok tt /\
      pk_Ref k = Ref v /\ pk_Status k = KStatus v /\ pk_Algorithm k = Algorithm v /\
      pk_PolicyID k = PolicyID v /\ pk_ProtectorProfile k = Profile;
  Unprotect_Protect v k s :
    Protect (Ok tt) v = Ok k -> known_status s = true ->
    Unprotect (Ok tt) (pk_with_status s k) = Ok (with_status s v);
}.

Lemma ProtectedKey_Validate_Ok k :
  ProtectedKey_Validate k = Ok tt <->
  KeyRef_Validate (pk_Ref k) = Ok tt /\ known_status (pk_Status k) = true /\
  pk_Algorithm k = AlgorithmAES256GCM /\ validIdentifier (pk_PolicyID k) = true /\
  validIdentifier (pk_ProtectorProfile k) = true /\ TrimSpace (pk_Format k) <> EmptyString /\
  pk_Payload k <> EmptyString.
Proof.
  unfold ProtectedKey_Validate, ValidateIdentifier. split.
  - intros H. inv_ok. to_prop. destruct x. split_and!; try done.
    intros He. by apply len_zero in He.
  - intros (H1 & H2 & H3 & H4 & H5 & H6 & H7). rewrite <- len_zero in H7.
    rewrite H1, H2, H3, H4, H5. simpl.
    destruct (String.eqb_spec (TrimSpace (pk_Format k)) EmptyString); [done|].
    destruct (Z.eqb_spec (len (pk_Payload k)) 0); done.
Qed.

Lemma KeyVersion_Validate_Ok v :
  KeyVersion_Validate v = Ok tt <->
  KeyRef_Validate (Ref v) = Ok tt /\ known_status (KStatus v) = true /\
  Algorithm v = AlgorithmAES256GCM /\ validIdentifier (PolicyID v) = true /\
  len (Material v) = KeySize.
Proof.
  unfold KeyVersion_Validate. split.
  - intros H. inv_ok. to_prop. by destruct x.
  - intros (H1 & H2 & H3 & H4 & H5). by rewrite H1, H2, H3, H4, H5.
Qed.

Lemma Development_Protect_Ok v k :
  Development_Protect (Ok tt) v = Ok k <->
  KeyVersion_Validate v = Ok tt /\
  k = mkProtectedKey (Ref v) (KStatus v) (Algorithm v) (PolicyID v) ProfileDevelopment
        FormatDevelopmentPlaintextV1 (Material v).
Proof.
  unfold Development_Protect. cbn [mbind result_bind].
  destruct (KeyVersion_Validate v) as [[]|] eqn:E; [|split; [done | by intros [? _]]].
  cbn [mbind result_bind]. rewrite (proj2 (ProtectedKey_Validate_Ok _)).
  { split; [by intros [= <-] | by intros [_ ->]]. }
  apply KeyVersion_Validate_Ok in E as (? & ? & ? & ? & Hl). simpl.
  split_and!; try done. intros He. by rewrite He in Hl.
Qed.

Global Instance Development_Laws : @ProtectorLaws DevelopmentProtector.
Proof.
  split; simpl.
  - intros v Hv. eexists. split; [by apply Development_Protect_Ok|]. simpl.
    split_and!; try done. apply KeyVersion_Validate_Ok in Hv as (? & ? & ? & ? & Hl).
    apply ProtectedKey_Validate_Ok. simpl. split_and!; try done. intros He. by rewrite He in Hl.
  - intros v k s [Hv ->]%Development_Protect_Ok Hs.
    apply KeyVersion_Validate_Ok in Hv as (? & ? & ? & ? & Hl).
    unfold Development_Unprotect. cbn [mbind result_bind].
    rewrite (proj2 (ProtectedKey_Validate_Ok _)).
    2:{ simpl. split_and!; try done. intros He. by rewrite He in Hl. }
    cbn -[KeyVersion_Validate]. by rewrite (proj2 (KeyVersion_Validate_Ok _)).
Qed.

(** ** The loader *)

Section Loader.
Context {St} `{Repository St, ProtectorLaws}.

Lemma unprotect_step_Ok ctx acc k vs :
  unprotect_step ctx acc k = Ok vs <->
  pk_ProtectorProfile k = Profile /\ exists v, Unprotect ctx k = Ok v /\ vs = acc ++ [v].
Proof.
  unfold unprotect_step. split.
  - intros H'. inv_ok. to_prop. eauto.
  - intros (-> & v & Hv & ->). by rewrite String.eqb_refl, Hv.
Qed.

Lemma unprotect_loop ctx records acc vs :
  Forall2 (fun k v => pk_ProtectorProfile k = Profile /\ Unprotect ctx k = Ok v) records vs ->
  foldR (unprotect_step ctx) acc records = Ok (acc ++ vs).
Proof.
  intros HF. revert acc. induction HF as [|k v records vs [Hp Hu] _ IH]; intros acc; cbn [foldR].
  - by rewrite app_nil_r.
  - rewrite (proj2 (unprotect_step_Ok ctx acc k (acc ++ [v]))) by eauto.
    cbn [mbind result_bind]. by rewrite IH, <- app_assoc.
Qed.

Lemma unprotect_loop_inv ctx records acc vs :
  foldR (unprotect_step ctx) acc records = Ok vs ->
  exists us, vs = acc ++ us /\
    Forall2 (fun k v => pk_ProtectorProfile k = Profile /\ Unprotect ctx k = Ok v) records us.
Proof.
  revert acc. induction records as [|k records IH]; intros acc H'; cbn [foldR] in H'.
  - inv_ok. exists []. by rewrite app_nil_r.
  - apply bind_Ok in H' as (? & (Hp & v & Hv & ->)%unprotect_step_Ok & (us & -> & HF)%IH).
    exists (v :: us). rewrite <- app_assoc. split; [done|]. by constructor.
Qed.

End Loader.

(** ** Properties of key protection *)

(** The development protector is a faithful codec: protecting a valid version
    succeeds, and opening the record, also after its status column was set to
    another known status, gives back the reference, policy and key material. *)
Theorem Development_roundtrip v s :
  KeyVersion_Validate v = Ok tt -> known_status s = true ->
  exists k, Development_Protect (Ok tt) v = Ok k /\
    Development_Unprotect (Ok tt) k = Ok v /\
    Development_Unprotect (Ok tt) (pk_with_status s k) = Ok (with_status s v).
Proof.
  intros Hv Hs. destruct (Protect_valid v Hv) as (k & Hk & _ & Hr & Hst & _).
  exists k. split; [done|]. split; [|by apply (@Unprotect_Protect _ Development_Laws v k s)].
  assert (known_status (KStatus v) = true) as Hks by (apply KeyVersion_Validate_Ok in Hv; tauto).
  pose proof (@Unprotect_Protect _ Development_Laws v k (KStatus v) Hk Hks) as Hu.
  rewrite <- Hst in Hu at 1. by destruct k, v.
Qed.

Lemma Development_roundtrip_witness :
  exists k, Development_Protect (Ok tt) (example_version 2 StatusActive) = Ok k /\
    Development_Unprotect (Ok tt) k = Ok (example_version 2 StatusActive) /\
    Development_Unprotect (Ok tt) (pk_with_status StatusDecryptOnly k)
    = Ok (with_status StatusDecryptOnly (example_version 2 StatusActive)).
Proof. apply Development_roundtrip; reflexivity. Defined.

(** C38: the loader opens only what is its protector's, and all of it.  It answers a
    ring exactly when the repository answers, every record has the protector's own
    profile and opens, and the opened versions, in the order of the records, make a
    ring; the first record of another profile is answered by the mismatch error, and
    never given to the protector: two protectors that agree on the records of their
    profile load alike.  So with a protector that keeps its promise, records that are
    protected versions, their status columns possibly rewritten since, load as
    [NewRing] of those versions with the stored statuses. *)
Theorem LoadKeyring_correct {St} `{Repository St} (P : Protector) ctx st cluster :
  (forall ring, LoadKeyring ctx st cluster = Ok ring <->
     exists records vs, ProtectedKeys st cluster = Ok records /\
       Forall2 (fun k v => pk_ProtectorProfile k = Profile /\ Unprotect ctx k = Ok v) records vs /\ NewRing vs = Ok ring) /\
  (forall before k after vs, ProtectedKeys st cluster = Ok (before ++ k :: after) ->
     Forall2 (fun k v => pk_ProtectorProfile k = Profile /\ Unprotect ctx k = Ok v) before vs ->
     pk_ProtectorProfile k <> Profile ->
     exists detail, LoadKeyring ctx st cluster = Err (errorw ErrProtectorMismatch detail)) /\
  (forall Q : Protector, @Profile Q = @Profile P ->
     (forall k, pk_ProtectorProfile k = @Profile P -> @Unprotect Q ctx k = @Unprotect P ctx k) ->
     @LoadKeyring _ _ Q ctx st cluster = @LoadKeyring _ _ P ctx st cluster) /\
  (ProtectorLaws -> ctx = Ok tt -> forall records vs, ProtectedKeys st cluster = Ok records ->
     Forall2 (fun k v => known_status (KStatus v) = true /\
                exists v0 k0, KeyVersion_Validate v0 = Ok tt /\ Protect (Ok tt) v0 = Ok k0 /\
                  k = pk_with_status (KStatus v) k0 /\ v = with_status (KStatus v) v0) records vs ->
     LoadKeyring ctx st cluster = NewRing vs).
Proof.
  unfold LoadKeyring. split_and!.
  - intros ring. split.
    + intros (records & Hr & (vs & Hl & Hn)%bind_Ok)%bind_Ok.
      apply unprotect_loop_inv in Hl as (us & -> & HF). by exists records, us.
    + intros (records & vs & -> & HF & Hn). cbn [mbind result_bind]. by rewrite (unprotect_loop ctx records [] vs HF).
  - intros before k after vs -> HF Hk. cbn [mbind result_bind].
    rewrite foldR_app, (unprotect_loop ctx before [] vs HF). cbn [foldR mbind result_bind].
    unfold unprotect_step. destruct (String.eqb_spec (pk_ProtectorProfile k) Profile); [done | by eexists].
  - intros Q Hp Hag. destruct (ProtectedKeys st cluster) as [records|]; [|done]. cbn [mbind result_bind]. f_equal.
    generalize (@nil KeyVersion). induction records as [|k records IH]; intros acc; [done|]. cbn [foldR].
    assert (@unprotect_step Q ctx acc k = @unprotect_step P ctx acc k) as ->.
    { unfold unprotect_step. rewrite Hp. destruct (String.eqb_spec (pk_ProtectorProfile k) (@Profile P)); [|done].
      by rewrite Hag. }
    destruct (unprotect_step ctx acc k); [apply IH | done].
  - intros HL -> records vs -> HF. cbn [mbind result_bind]. rewrite (unprotect_loop (Ok tt) records [] vs); [done|].
    eapply Forall2_impl; [exact HF|]. intros k v (Hs & v0 & k0 & Hv & Hp & -> & ->). split; [|by apply Unprotect_Protect].
    destruct (Protect_valid v0 Hv) as (k1 & Hk1 & _ & _ & _ & _ & _ & Hprof). rewrite Hp in Hk1. by injection Hk1 as <-.
Qed.

(** A repository that is the list of its records. *)
Definition list_Repository : Repository (list ProtectedKey) := {|
  ProtectedKeys st cluster := Ok (filter (fun k => ClusterID (pk_Ref k) = cluster) st);
  ProtectedKeyOf st ref :=
    of_option ErrKeyNotFound (list_find (fun k => pk_Ref k = ref) st ≫= fun p => Some p.2);
|}.

Definition example_record (n : Z) (s : Status) : ProtectedKey :=
  mkProtectedKey (mkKeyRef "cluster-a" "root" n) s AlgorithmAES256GCM "policy-1"
    ProfileDevelopment FormatDevelopmentPlaintextV1 example_material.

Definition foreign_record : ProtectedKey :=
  mkProtectedKey (mkKeyRef "cluster-a" "root" 3) StatusPending AlgorithmAES256GCM "policy-1" "kms"
    FormatDevelopmentPlaintextV1 example_material.

Lemma LoadKeyring_correct_witness :
  @LoadKeyring _ list_Repository DevelopmentProtector (Ok tt)
    [example_record 1 StatusDecryptOnly; example_record 2 StatusActive] "cluster-a"
  = NewRing example_versions /\
  exists detail, @LoadKeyring _ list_Repository DevelopmentProtector (Ok tt)
    [example_record 1 StatusDecryptOnly; foreign_record; example_record 2 StatusActive] "cluster-a"
  = Err (errorw ErrProtectorMismatch detail).
Proof.
  split.
  - apply (@LoadKeyring_correct _ list_Repository DevelopmentProtector (Ok tt)
      [example_record 1 StatusDecryptOnly; example_record 2 StatusActive] "cluster-a") with
      [example_record 1 StatusDecryptOnly; example_record 2 StatusActive];
      [exact Development_Laws | reflexivity | reflexivity |].
    constructor; [|constructor; [|constructor]]; (split; [reflexivity|]).
    + exists (example_version 1 StatusActive), (example_record 1 StatusActive).
      split; [reflexivity|]. split; [reflexivity|]. split; reflexivity.
    + exists (example_version 2 StatusActive), (example_record 2 StatusActive).
      split; [reflexivity|]. split; [reflexivity|]. split; reflexivity.
  - apply (@LoadKeyring_correct _ list_Repository DevelopmentProtector (Ok tt)
      [example_record 1 StatusDecryptOnly; foreign_record; example_record 2 StatusActive] "cluster-a") with
      [example_record 1 StatusDecryptOnly] foreign_record [example_record 2 StatusActive]
      [example_version 1 StatusDecryptOnly].
    + reflexivity.
    + constructor; [|constructor]. split; reflexivity.
    + discriminate.
Defined.
