(* ===== verification/Tpm.v ===== *)
(** * TPM quotes and policies (internal/tpm: pcr.go, quote.go, policy.go)

    PCR selections and digests, the shape check of quote evidence, the
    verification of a quote against a nonce and the evaluation of an enrolled
    policy.  The hash functions, the signature schemes and the decoders of the
    go-tpm library are parameters (classes [Hashes] and [TpmLib]). *)

From S2P Require Import Prelude GoStrings Keyring KeyProtection.
From Stdlib Require Import Ascii.
Local Open Scope Z_scope.

Definition ErrInvalidEvidence : error := sentinel "tpm.ErrInvalidEvidence" "invalid TPM evidence".
Definition ErrQuoteVerification : error :=
  sentinel "tpm.ErrQuoteVerification" "TPM quote verification failed".
Definition ErrAttestationPolicy : error :=
  sentinel "tpm.ErrAttestationPolicy" "TPM attestation policy failed".
Definition ErrUnsupportedProfile : error :=
  sentinel "tpm.ErrUnsupportedProfile" "unsupported TPM profile".

(** ** pcr.go *)

Definition HashSHA1 : string := "sha1".
Definition HashSHA256 : string := "sha256".
Definition HashSHA384 : string := "sha384".
Definition HashSHA512 : string := "sha512".

Record PCRSelection := mkPCRSelection { sel_Hash : string; sel_PCRs : list Z }.

(** A Go map is the list of its entries in iteration order. *)
Record PCRPolicy := mkPCRPolicy {
  pp_Selection : PCRSelection;
  pp_ExpectedDigest : string;
  pp_CapturedValues : list (string * string);
  pp_Profile : string;
}.

Global Instance PCRSelection_eq_dec : EqDecision PCRSelection.
Proof. solve_decision. Defined.
Global Instance PCRPolicy_eq_dec : EqDecision PCRPolicy.
Proof. solve_decision. Defined.

Definition known_hash (h : string) : bool :=
  String.eqb h HashSHA1 || String.eqb h HashSHA256 || String.eqb h HashSHA384 ||
  String.eqb h HashSHA512.

Definition validateHashName (hashName : string) : result unit :=
  check (known_hash (ToLower hashName)) (errorf ("unsupported hash " +:+ quoted hashName)).

Definition hashDigestSize (hashName : string) : result Z :=
  let h := ToLower hashName in
  if String.eqb h HashSHA1 then Ok 20
  else if String.eqb h HashSHA256 then Ok 32
  else if String.eqb h HashSHA384 then Ok 48
  else if String.eqb h HashSHA512 then Ok 64
  else Err (errorf ("unsupported hash " +:+ quoted hashName)).

(** The loop over the sorted indexes; [prev] is [pcrs[i-1]]. *)
Fixpoint check_pcrs (prev : option Z) (pcrs : list Z) : result unit :=
  match pcrs with
  | [] => Ok tt
  | pcr :: r =>
      check ((0 <=? pcr) && (pcr <=? 23))
        (errorf ("PCR index " +:+ FormatInt pcr +:+ " is out of range"));;
      check (negb (bool_decide (prev = Some pcr)))
        (errorf ("duplicate PCR index " +:+ FormatInt pcr));;
      check_pcrs (Some pcr) r
  end.

Definition Selection_Normalize (s : PCRSelection) : result PCRSelection :=
  let lowered := ToLower (TrimSpace (sel_Hash s)) in
  let hashName := if String.eqb lowered EmptyString then HashSHA256 else lowered in
  validateHashName hashName;;
  check (negb (bool_decide (sel_PCRs s = [])))
    (errorf "PCR selection must include at least one PCR");;
  let pcrs := merge_sort Z.le (sel_PCRs s) in
  check_pcrs None pcrs;;
  Ok (mkPCRSelection hashName pcrs).

Definition Selection_contains (s : PCRSelection) (index : Z) : bool :=
  existsb (fun pcr => pcr =? index) (sel_PCRs s).

Fixpoint sameList (left right : list Z) : bool :=
  match left, right with
  | [], [] => true
  | a :: l, b :: r => (a =? b) && sameList l r
  | _, _ => false
  end.

Definition sameSelection (left right : PCRSelection) : bool :=
  String.eqb (sel_Hash left) (sel_Hash right) && sameList (sel_PCRs left) (sel_PCRs right).

Definition EncodePCRValues (values : list (Z * bytes)) : list (string * string) :=
  (fun '(index, value) => (FormatInt index, hex_EncodeToString value)) <$> values.

(** [strconv.Atoi]: an optional sign, decimal digits, the range of a 64-bit int. *)
Definition Atoi (s : string) : option Z :=
  let '(neg, digits) :=
    match s with
    | String c r =>
        if Ascii.eqb c "-" then (true, r) else if Ascii.eqb c "+" then (false, r) else (false, s)
    | EmptyString => (false, s)
    end in
  match digits with
  | EmptyString => None
  | _ => match parse_digits digits 0 with
         | Some v =>
             let z := if neg then - v else v in
             if (- int64_max - 1 <=? z) && (z <=? int64_max) then Some z else None
         | None => None
         end
  end.

Definition decode_pcr (out : gmap Z bytes) (entry : string * string) : result (gmap Z bytes) :=
  let '(rawIndex, rawValue) := entry in
  match Atoi rawIndex with
  | Some index =>
      check ((0 <=? index) && (index <=? 23)) (errorf ("invalid PCR index " +:+ quoted rawIndex));;
      value ← of_option (errorf ("decode PCR " +:+ FormatInt index +:+ " value: encoding/hex"))
                (hex_DecodeString (TrimPrefix rawValue "0x"));
      Ok (<[index := value]> out)
  | None => Err (errorf ("invalid PCR index " +:+ quoted rawIndex))
  end.

Definition DecodePCRValues (values : list (string * string)) : result (gmap Z bytes) :=
  match values with
  | [] => Err (errorf "PCR values are required")
  | _ => foldR decode_pcr ∅ values
  end.

Definition digestString (hashName : string) (digest : bytes) : string :=
  ToLower hashName +:+ ":" +:+ hex_EncodeToString digest.

(** [strings.SplitN(raw, ":", 2)]: the text before and after the first colon. *)
Fixpoint split_colon (s : string) : option (string * string) :=
  match s with
  | EmptyString => None
  | String c r =>
      if Ascii.eqb c ":" then Some (EmptyString, r)
      else match split_colon r with
           | Some (a, b) => Some (String c a, b)
           | None => None
           end
  end.

Definition parseDigestString (raw : string) : result (string * bytes) :=
  '(name, rest) ← of_option (errorf "digest must use hash:hex format") (split_colon raw);
  let hashName := ToLower name in
  validateHashName hashName;;
  digest ← of_option (errorf "decode digest: encoding/hex") (hex_DecodeString rest);
  Ok (hashName, digest).

(** The hash functions of crypto/sha1, sha256 and sha512, by lower-case name. *)
Class Hashes := { Sum : string -> bytes -> bytes }.

Class HashesLaws `{Hashes} := {
  Sum_size h n m : hashDigestSize h = Ok n -> len (Sum (ToLower h) m) = n;
}.

Section Digest.
Context `{Hashes}.

(** The loop that feeds the selected values to the hash in order. *)
Fixpoint pcr_bytes (size : Z) (values : gmap Z bytes) (pcrs : list Z) : result bytes :=
  match pcrs with
  | [] => Ok EmptyString
  | pcr :: r =>
      value ← of_option (errorf ("PCR " +:+ FormatInt pcr +:+ " value is required")) (values !! pcr);
      check (len value =? size)
        (errorf ("PCR " +:+ FormatInt pcr +:+ " digest size = " +:+ FormatInt (len value) +:+
                 ", want " +:+ FormatInt size));;
      rest ← pcr_bytes size values r;
      Ok (value +:+ rest)
  end.

Definition ComputePCRDigest (selection : PCRSelection) (values : gmap Z bytes) : result bytes :=
  normalized ← Selection_Normalize selection;
  size ← hashDigestSize (sel_Hash normalized);
  message ← pcr_bytes size values (sel_PCRs normalized);
  Ok (Sum (ToLower (sel_Hash normalized)) message).

Definition NewPCRPolicy (selection : PCRSelection) (values : gmap Z bytes) (profile : string)
  : result PCRPolicy :=
  digest ← ComputePCRDigest selection values;
  normalized ← Selection_Normalize selection;
  Ok (mkPCRPolicy normalized (digestString (sel_Hash normalized) digest)
        (EncodePCRValues (map_to_list values)) profile).

Definition NonceDigest (nonce : bytes) : string :=
  "sha256:" +:+ hex_EncodeToString (Sum HashSHA256 nonce).

Definition PublicDigest (public : bytes) : string :=
  "sha256:" +:+ hex_EncodeToString (Sum HashSHA256 public).

End Digest.

(** ** quote.go *)

Definition EvidenceSchemaVersion : Z := 1.
Definition EvidenceFormat : string := "openbao-attested-unseal.tpm2-quote.v1".

Record Evidence := mkEvidence {
  ev_SchemaVersion : Z;
  ev_ChallengeID : string;
  ev_NonceHash : string;
  ev_AKPublic : bytes;
  ev_Quote : bytes;
  ev_Signature : bytes;
  ev_PCRSelection : PCRSelection;
  ev_PCRValues : list (string * string);
  ev_EKPublicHash : string;
  ev_PlatformHint : string;
  ev_CollectedBy : string;
  ev_CollectedAtUTC : string;
}.

Record QuoteClaims := mkQuoteClaims {
  qc_AKPublicHash : string;
  qc_PCRSelection : PCRSelection;
  qc_PCRDigest : string;
  qc_NonceHash : string;
}.

Fixpoint require_pcrs (values : gmap Z bytes) (pcrs : list Z) : result unit :=
  match pcrs with
  | [] => Ok tt
  | pcr :: r =>
      check (bool_decide (is_Some (values !! pcr)))
        (errorw ErrInvalidEvidence ("PCR " +:+ FormatInt pcr +:+ " value is required"));;
      require_pcrs values r
  end.

Definition Evidence_Validate (e : Evidence) : result unit :=
  check (ev_SchemaVersion e =? EvidenceSchemaVersion)
    (errorw ErrInvalidEvidence "unsupported schema version");;
  check (negb (String.eqb (TrimSpace (ev_ChallengeID e)) EmptyString))
    (errorw ErrInvalidEvidence "challenge ID is required");;
  check (match parseDigestString (ev_NonceHash e) with
         | Ok (_, digest) => len digest =? 32
         | Err _ => false
         end) (errorw ErrInvalidEvidence "nonce hash must be sha256:hex");;
  check (negb (len (ev_AKPublic e) =? 0)) (errorw ErrInvalidEvidence "AK public area is required");;
  check (negb (len (ev_Quote e) =? 0)) (errorw ErrInvalidEvidence "quote is required");;
  check (negb (len (ev_Signature e) =? 0)) (errorw ErrInvalidEvidence "quote signature is required");;
  map_err (fun x => errorw ErrInvalidEvidence (err_msg x)) (Selection_Normalize (ev_PCRSelection e));;
  values ← map_err (fun x => errorw ErrInvalidEvidence (err_msg x)) (DecodePCRValues (ev_PCRValues e));
  require_pcrs values (sel_PCRs (ev_PCRSelection e)).

(** The parts of go-tpm and of crypto/rsa and crypto/ecdsa that verification
    calls. *)
Inductive PublicKey :=
| RSAPublicKey (k : bytes)
| ECDSAPublicKey (k : bytes)
| OtherPublicKey.

Record SignatureRSA := mkSignatureRSA { rsa_HashAlg : Z; rsa_Signature : bytes }.
Record SignatureECC := mkSignatureECC { ecc_HashAlg : Z; ecc_R : Z; ecc_S : Z }.
Record Signature := mkSignature {
  sig_Alg : Z;
  sig_RSA : option SignatureRSA;
  sig_ECC : option SignatureECC;
}.

Record QuoteInfo := mkQuoteInfo { qi_Hash : Z; qi_PCRs : list Z; qi_PCRDigest : bytes }.
Record AttestationData := mkAttestationData {
  att_Type : Z;
  att_ExtraData : bytes;
  att_QuoteInfo : option QuoteInfo;
}.

Definition AlgSHA1 : Z := 4.
Definition AlgSHA256 : Z := 11.
Definition AlgSHA384 : Z := 12.
Definition AlgSHA512 : Z := 13.
Definition AlgRSASSA : Z := 20.
Definition AlgRSAPSS : Z := 22.
Definition AlgECDSA : Z := 24.
Definition TagAttestQuote : Z := 32792.

Class TpmLib := {
  DecodePublic : bytes -> result bytes;
  PublicKeyOf : bytes -> result PublicKey;
  DecodeSignature : bytes -> result Signature;
  DecodeAttestationData : bytes -> result AttestationData;
  AlgorithmHash : Z -> result string;
  VerifyPSS : bytes -> string -> bytes -> bytes -> bool;
  VerifyPKCS1v15 : bytes -> string -> bytes -> bytes -> bool;
  ECDSAVerify : bytes -> bytes -> Z -> Z -> bool;
}.

(** Lower-case hexadecimal of a number ([%x]) without leading zeros. *)
Fixpoint hex_go (fuel : nat) (n : Z) (acc : string) : string :=
  match fuel with
  | O => acc
  | S f =>
      let acc' := String (hex_digit (n mod 16)) acc in
      if n / 16 =? 0 then acc' else hex_go f (n / 16) acc'
  end.

Definition FormatHex (n : Z) : string := hex_go 16 n EmptyString.

Definition hashNameOf (alg : Z) : string :=
  if alg =? AlgSHA1 then HashSHA1
  else if alg =? AlgSHA256 then HashSHA256
  else if alg =? AlgSHA384 then HashSHA384
  else if alg =? AlgSHA512 then HashSHA512
  else "0x" +:+ FormatHex (alg mod 65536).

Definition selectionFromLegacy (hash : Z) (pcrs : list Z) : PCRSelection :=
  mkPCRSelection (hashNameOf hash) pcrs.

Section Quote.
Context `{Hashes, TpmLib}.

Definition hashMessage (alg : Z) (message : bytes) : result (string * bytes) :=
  h ← AlgorithmHash alg; Ok (h, Sum h message).

Definition verifyRSASignature (publicKey : PublicKey) (signature : option SignatureRSA)
  (message : bytes) (pss : bool) : result unit :=
  signature ← of_option (errorw ErrQuoteVerification "missing RSA signature") signature;
  '(hash, digest) ← map_err (fun e => errorw ErrQuoteVerification (err_msg e))
                      (hashMessage (rsa_HashAlg signature) message);
  match publicKey with
  | RSAPublicKey k =>
      if pss then
        check (VerifyPSS k hash digest (rsa_Signature signature))
          (errorw ErrQuoteVerification "RSA-PSS signature mismatch")
      else
        check (VerifyPKCS1v15 k hash digest (rsa_Signature signature))
          (errorw ErrQuoteVerification "RSA signature mismatch")
  | _ => Err (errorw ErrQuoteVerification "AK is not an RSA key")
  end.

Definition verifyECDSASignature (publicKey : PublicKey) (signature : option SignatureECC)
  (message : bytes) : result unit :=
  signature ← of_option (errorw ErrQuoteVerification "missing ECDSA signature") signature;
  '(_, digest) ← map_err (fun e => errorw ErrQuoteVerification (err_msg e))
                   (hashMessage (ecc_HashAlg signature) message);
  match publicKey with
  | ECDSAPublicKey k =>
      check (ECDSAVerify k digest (ecc_R signature) (ecc_S signature))
        (errorw ErrQuoteVerification "ECDSA signature mismatch")
  | _ => Err (errorw ErrQuoteVerification "AK is not an ECDSA key")
  end.

Definition verifySignature (publicKey : PublicKey) (signature : Signature) (message : bytes)
  : result unit :=
  if sig_Alg signature =? AlgRSASSA then
    verifyRSASignature publicKey (sig_RSA signature) message false
  else if sig_Alg signature =? AlgRSAPSS then
    verifyRSASignature publicKey (sig_RSA signature) message true
  else if sig_Alg signature =? AlgECDSA then
    verifyECDSASignature publicKey (sig_ECC signature) message
  else Err (errorw ErrQuoteVerification
              ("unsupported signature algorithm 0x" +:+ FormatHex (sig_Alg signature))).

Definition verifyNonceHash (evidence : Evidence) (expectedNonce : bytes) : result unit :=
  check (negb (len expectedNonce =? 0)) (errorw ErrQuoteVerification "expected nonce is required");;
  check (String.eqb (ev_NonceHash evidence) (NonceDigest expectedNonce))
    (errorw ErrQuoteVerification "nonce hash mismatch").

Definition verifyAKSignature (evidence : Evidence) : result string :=
  public ← map_err (fun e => errorw ErrQuoteVerification ("decode AK public: " +:+ err_msg e))
             (DecodePublic (ev_AKPublic evidence));
  publicKey ← map_err (fun e => errorw ErrQuoteVerification ("decode AK public key: " +:+ err_msg e))
                (PublicKeyOf public);
  signature ← map_err (fun e => errorw ErrQuoteVerification ("decode signature: " +:+ err_msg e))
                (DecodeSignature (ev_Signature evidence));
  verifySignature publicKey signature (ev_Quote evidence);;
  Ok (PublicDigest (ev_AKPublic evidence)).

(** The quote info of an attestation that is a quote over the nonce. *)
Definition verifyAttestation (evidence : Evidence) (expectedNonce : bytes) : result QuoteInfo :=
  attestation ← map_err (fun e => errorw ErrQuoteVerification ("decode attestation: " +:+ err_msg e))
                  (DecodeAttestationData (ev_Quote evidence));
  check (att_Type attestation =? TagAttestQuote)
    (errorw ErrQuoteVerification "attestation is not a quote");;
  info ← of_option (errorw ErrQuoteVerification "attestation is not a quote")
           (att_QuoteInfo attestation);
  check (String.eqb (att_ExtraData attestation) expectedNonce)
    (errorw ErrQuoteVerification "quote nonce mismatch");;
  Ok info.

Definition verifyAttestedPCRs (evidence : Evidence) (info : QuoteInfo)
  : result (PCRSelection * bytes) :=
  quoteSelection ← map_err (fun e => errorw ErrQuoteVerification ("quote PCR selection: " +:+ err_msg e))
                     (Selection_Normalize (selectionFromLegacy (qi_Hash info) (qi_PCRs info)));
  evidenceSelection ← Selection_Normalize (ev_PCRSelection evidence);
  check (sameSelection quoteSelection evidenceSelection)
    (errorw ErrQuoteVerification "quote PCR selection mismatch");;
  pcrValues ← map_err (fun e => errorw ErrQuoteVerification (err_msg e))
                (DecodePCRValues (ev_PCRValues evidence));
  computed ← map_err (fun e => errorw ErrQuoteVerification ("compute PCR digest: " +:+ err_msg e))
               (ComputePCRDigest evidenceSelection pcrValues);
  check (String.eqb (qi_PCRDigest info) computed) (errorw ErrQuoteVerification "PCR digest mismatch");;
  Ok (evidenceSelection, computed).

Definition VerifyQuote (evidence : Evidence) (expectedNonce : bytes) : result QuoteClaims :=
  Evidence_Validate evidence;;
  verifyNonceHash evidence expectedNonce;;
  akPublicHash ← verifyAKSignature evidence;
  attestation ← verifyAttestation evidence expectedNonce;
  '(evidenceSelection, computedPCRDigest) ← verifyAttestedPCRs evidence attestation;
  Ok (mkQuoteClaims akPublicHash evidenceSelection
        (digestString (sel_Hash evidenceSelection) computedPCRDigest) (ev_NonceHash evidence)).

End Quote.

(** [json.Unmarshal] into an [Evidence]. *)
Class EvidenceJSON := { json_Unmarshal_Evidence : bytes -> result Evidence }.

Definition UnmarshalEvidence `{EvidenceJSON} (payload : bytes) : result Evidence :=
  evidence ← map_err (fun e => errorw ErrInvalidEvidence ("decode JSON: " +:+ err_msg e))
               (json_Unmarshal_Evidence payload);
  Evidence_Validate evidence;;
  Ok evidence.

(** ** policy.go *)

Definition PolicyModeTPMOnly : string := "tpm-only".
Definition PolicyModeSecureBoot : string := "secureboot".
Definition PolicyModeMeasured : string := "measured".
Definition ProfileGenericPCSecureBoot : string := "generic-pc-secureboot".

Record TPMPolicy := mkTPMPolicy {
  tp_Mode : string;
  tp_EnrolledAKPublicHash : string;
  tp_PCRPolicy : option PCRPolicy;
  tp_ProviderProfile : string;
}.

Global Instance TPMPolicy_eq_dec : EqDecision TPMPolicy.
Proof. solve_decision. Defined.

Record Claims := mkClaims {
  cl_SubjectFingerprint : string;
  cl_AKPublicHash : string;
  cl_PCRSelection : PCRSelection;
  cl_PCRDigest : string;
  cl_SecureBoot : bool;
  cl_Fresh : bool;
  cl_PolicyMode : string;
  cl_ProviderProfile : string;
}.

Definition PCRPolicy_Validate (p : PCRPolicy) : result unit :=
  selection ← map_err (fun e => errorw ErrAttestationPolicy ("invalid PCR policy selection: " +:+ err_msg e))
                (Selection_Normalize (pp_Selection p));
  '(hash, digest) ← map_err (fun e => errorw ErrAttestationPolicy ("invalid PCR policy digest: " +:+ err_msg e))
                      (parseDigestString (pp_ExpectedDigest p));
  check (String.eqb hash (sel_Hash selection))
    (errorw ErrAttestationPolicy "PCR policy digest hash mismatch");;
  size ← hashDigestSize hash;
  check (len digest =? size)
    (errorw ErrAttestationPolicy ("PCR policy digest size = " +:+ FormatInt (len digest) +:+
       ", want " +:+ FormatInt size)).

Definition Policy_Validate (p : TPMPolicy) : result unit :=
  let mode := TrimSpace (tp_Mode p) in
  check (String.eqb mode PolicyModeTPMOnly || String.eqb mode PolicyModeSecureBoot ||
         String.eqb mode PolicyModeMeasured)
    (errorw ErrAttestationPolicy ("unsupported policy mode " +:+ quoted (tp_Mode p)));;
  (if String.eqb (tp_EnrolledAKPublicHash p) EmptyString then Ok tt
   else check (match parseDigestString (tp_EnrolledAKPublicHash p) with
               | Ok (hashName, digest) => String.eqb hashName HashSHA256 && (len digest =? 32)
               | Err _ => false
               end) (errorw ErrAttestationPolicy "enrolled AK public hash must be sha256:hex"));;
  if String.eqb mode PolicyModeSecureBoot then
    check (negb (String.eqb (tp_ProviderProfile p) EmptyString))
      (errorw ErrAttestationPolicy "secureboot profile is required");;
    check (String.eqb (tp_ProviderProfile p) ProfileGenericPCSecureBoot)
      (errorw ErrUnsupportedProfile (tp_ProviderProfile p));;
    pcr ← of_option (errorw ErrAttestationPolicy "PCR policy is required for secureboot")
            (tp_PCRPolicy p);
    PCRPolicy_Validate pcr;;
    check (Selection_contains (pp_Selection pcr) 7)
      (errorw ErrAttestationPolicy "generic secureboot profile requires PCR 7")
  else Ok tt.

(** A nil [PCRPolicy] would be a nil dereference; [Policy_Validate] rules it out. *)
Definition verifySecureBootPolicy (claims : QuoteClaims) (policy : TPMPolicy) : result unit :=
  pcr ← of_option (errorf "nil pointer dereference") (tp_PCRPolicy policy);
  check (String.eqb (pp_ExpectedDigest pcr) (qc_PCRDigest claims))
    (errorw ErrAttestationPolicy "secureboot PCR policy mismatch");;
  check (sameSelection (pp_Selection pcr) (qc_PCRSelection claims))
    (errorw ErrAttestationPolicy "secureboot PCR selection mismatch").

Definition EvaluatePolicy `{Hashes, TpmLib} (evidence : Evidence) (expectedNonce : bytes)
  (policy : TPMPolicy) : result Claims :=
  Policy_Validate policy;;
  quoteClaims ← VerifyQuote evidence expectedNonce;
  check (String.eqb (tp_EnrolledAKPublicHash policy) EmptyString ||
         String.eqb (tp_EnrolledAKPublicHash policy) (qc_AKPublicHash quoteClaims))
    (errorw ErrAttestationPolicy "AK public hash mismatch");;
  let claims secureBoot :=
    mkClaims (qc_AKPublicHash quoteClaims) (qc_AKPublicHash quoteClaims)
      (qc_PCRSelection quoteClaims) (qc_PCRDigest quoteClaims) secureBoot true
      (tp_Mode policy) (tp_ProviderProfile policy) in
  if String.eqb (tp_Mode policy) PolicyModeTPMOnly then Ok (claims false)
  else if String.eqb (tp_Mode policy) PolicyModeSecureBoot then
    verifySecureBootPolicy quoteClaims policy;; Ok (claims true)
  else if String.eqb (tp_Mode policy) PolicyModeMeasured then
    Err (errorw ErrAttestationPolicy "measured mode requires policy-update flow")
  else Err (errorw ErrAttestationPolicy ("unsupported policy mode " +:+ quoted (tp_Mode policy))).

(** ** Selections *)

Lemma check_pcrs_Ok prev pcrs :
  check_pcrs prev pcrs = Ok tt <->
  Forall (fun p => 0 <= p <= 23) pcrs /\
  (forall i p q, pcrs !! i = Some p -> pcrs !! (S i) = Some q -> p <> q) /\
  (forall p, pcrs !! 0%nat = Some p -> prev <> Some p).
Proof.
  revert prev; induction pcrs as [|a pcrs IH]; intros prev; cbn [check_pcrs].
  - split; [|done]. intros _. split_and!; [constructor | |]; intros; by rewrite lookup_nil in *.
  - rewrite Forall_cons. split.
    + intros Hc. inv_ok. destruct x, x0. apply IH in H1 as (HF & Hadj & Hhd). to_prop.
      split_and!; [lia | lia | done | |].
      * intros [|i] p q; simpl; [intros [= <-] Hq ->; by apply (Hhd q) in Hq | apply Hadj].
      * intros p [= <-]. done.
    + intros ([Ha HF] & Hadj & Hhd).
      assert ((0 <=? a) && (a <=? 23) = true) as -> by (apply andb_true_iff; lia).
      rewrite bool_decide_false by (by apply Hhd). simpl. apply IH. split_and!; [done| |].
      * intros i p q Hp Hq. by apply (Hadj (S i) p q).
      * intros p Hp [= ->]. by apply (Hadj 0%nat p p).
Qed.

Lemma sorted_adjacent_NoDup (l : list Z) :
  Sorted Z.le l -> (forall i p q, l !! i = Some p -> l !! (S i) = Some q -> p <> q) -> NoDup l.
Proof.
  intros Hs. apply (Sorted_StronglySorted Z.le) in Hs.
  induction Hs as [|a l Hs IH HF]; intros Hadj; [constructor|].
  constructor.
  - intros Hin. destruct l as [|b l]; [by apply not_elem_of_nil in Hin|].
    assert (a <> b) by (by apply (Hadj 0%nat)).
    apply Forall_cons in HF as [Hab _]. apply StronglySorted_inv in Hs as [_ HF'].
    apply elem_of_cons in Hin as [->|Hin]; [done|].
    rewrite Forall_forall in HF'. apply HF' in Hin. lia.
  - apply IH. intros i p q Hp Hq. by apply (Hadj (S i)).
Qed.

(** What a normalised selection is. *)
Definition selection_ok (s : PCRSelection) : Prop :=
  known_hash (sel_Hash s) = true /\ sel_PCRs s <> [] /\ Sorted Z.le (sel_PCRs s) /\
  NoDup (sel_PCRs s) /\ Forall (fun p => 0 <= p <= 23) (sel_PCRs s).

Lemma known_hash_cases h :
  known_hash h = true ->
  h = HashSHA1 \/ h = HashSHA256 \/ h = HashSHA384 \/ h = HashSHA512.
Proof. unfold known_hash. rewrite !orb_true_iff, !String.eqb_eq. tauto. Qed.

Lemma known_hash_fix h :
  known_hash h = true -> ToLower h = h /\ TrimSpace h = h /\ h <> EmptyString.
Proof. intros [->|[->|[->| ->]]]%known_hash_cases; done. Qed.

Lemma NoDup_adjacent (l : list Z) i p q :
  NoDup l -> l !! i = Some p -> l !! (S i) = Some q -> p <> q.
Proof. intros Hnd Hp Hq ->. pose proof (NoDup_lookup _ _ _ _ Hnd Hp Hq). lia. Qed.

Lemma Selection_Normalize_ok s t :
  Selection_Normalize s = Ok t -> selection_ok t /\ sel_PCRs t ≡ₚ sel_PCRs s.
Proof.
  unfold Selection_Normalize, validateHashName. intros Hn. inv_ok. destruct x, x0, x1.
  match goal with Hc : check_pcrs _ _ = _ |- _ => apply check_pcrs_Ok in Hc as (HF & Hadj & _) end.
  to_prop. unfold selection_ok; simpl.
  assert (Sorted Z.le (merge_sort Z.le (sel_PCRs s))) by (apply (Sorted_merge_sort Z.le)).
  assert (merge_sort Z.le (sel_PCRs s) ≡ₚ sel_PCRs s) as HP by (apply merge_sort_Permutation).
  split_and!; try done; try (by apply sorted_adjacent_NoDup).
  - match goal with H : known_hash (ToLower ?h) = true |- _ => rename H into Hk; set (x := h) in * end.
    destruct (String.eqb_spec (ToLower (TrimSpace (sel_Hash s))) EmptyString); [done|].
    subst x. by rewrite ToLower_idem in Hk.
  - intros He. rewrite He in HP. symmetry in HP. by apply Permutation_nil_r in HP.
Qed.

Lemma Selection_Normalize_id s : selection_ok s -> Selection_Normalize s = Ok s.
Proof.
  intros (Hk & Hne & Hs & Hnd & HF). unfold Selection_Normalize, validateHashName.
  destruct (known_hash_fix _ Hk) as (Hl & Ht & He). rewrite Ht, Hl.
  apply String.eqb_neq in He. rewrite He, Hl, Hk. cbn [check mbind result_bind].
  rewrite bool_decide_false by done. cbn [check negb mbind result_bind].
  assert (merge_sort Z.le (sel_PCRs s) = sel_PCRs s) as Hms.
  { apply (Sorted_unique Z.le); [apply (Sorted_merge_sort Z.le) | done | apply merge_sort_Permutation]. }
  rewrite Hms, (proj2 (check_pcrs_Ok None (sel_PCRs s))).
  - by destruct s.
  - split_and!; [done | by intros; eapply NoDup_adjacent | done].
Qed.

Lemma sameList_spec l r : sameList l r = true <-> l = r.
Proof.
  revert r; induction l as [|a l IH]; intros [|b r]; simpl; try done.
  rewrite andb_true_iff, Z.eqb_eq, IH. naive_solver.
Qed.

Lemma sameSelection_spec a b : sameSelection a b = true <-> a = b.
Proof.
  destruct a, b. unfold sameSelection; simpl.
  rewrite andb_true_iff, String.eqb_eq, sameList_spec. naive_solver.
Qed.

(** ** Digest texts *)

Lemma split_colon_app (a b : string) :
  no_char ":" a = true -> split_colon (a +:+ String ":" b) = Some (a, b).
Proof.
  unfold no_char. induction a as [|c a IH]; simpl; [done|]. intros Hc. to_prop.
  match goal with H : Ascii.eqb c ":" = false |- _ => rewrite H end. by rewrite IH.
Qed.

Lemma parse_digestString h d :
  known_hash h = true -> parseDigestString (digestString h d) = Ok (h, d).
Proof.
  intros Hk. destruct (known_hash_fix _ Hk) as (Hl & _ & _).
  unfold parseDigestString, digestString. rewrite Hl.
  change (":" +:+ ?s) with (String ":" s). rewrite split_colon_app.
  2:{ by apply known_hash_cases in Hk as [->|[->|[->| ->]]]. }
  cbn [of_option mbind result_bind]. unfold validateHashName. rewrite !Hl, Hk.
  cbn [check mbind result_bind]. by rewrite hex_Decode_Encode.
Qed.

(** ** Quotes *)

Section QuoteFacts.
Context `{Hashes, TpmLib}.

(** A signature of a message that one of the three schemes accepts for the key: of the
    message's digest under the hash that the signature names. *)
Inductive signature_valid (message : bytes) : PublicKey -> Signature -> Prop :=
| valid_rsassa k signature alg hash raw :
    sig_Alg signature = AlgRSASSA -> sig_RSA signature = Some (mkSignatureRSA alg raw) ->
    AlgorithmHash alg = Ok hash -> VerifyPKCS1v15 k hash (Sum hash message) raw = true ->
    signature_valid message (RSAPublicKey k) signature
| valid_rsapss k signature alg hash raw :
    sig_Alg signature = AlgRSAPSS -> sig_RSA signature = Some (mkSignatureRSA alg raw) ->
    AlgorithmHash alg = Ok hash -> VerifyPSS k hash (Sum hash message) raw = true ->
    signature_valid message (RSAPublicKey k) signature
| valid_ecdsa k signature alg hash r sv :
    sig_Alg signature = AlgECDSA -> sig_ECC signature = Some (mkSignatureECC alg r sv) ->
    AlgorithmHash alg = Ok hash -> ECDSAVerify k (Sum hash message) r sv = true ->
    signature_valid message (ECDSAPublicKey k) signature.

Lemma verifyRSASignature_Ok key signature message pss :
  verifyRSASignature key signature message pss = Ok tt <->
  exists k alg hash raw, key = RSAPublicKey k /\ signature = Some (mkSignatureRSA alg raw) /\ AlgorithmHash alg = Ok hash /\
    (if pss then VerifyPSS else VerifyPKCS1v15) k hash (Sum hash message) raw = true.
Proof.
  unfold verifyRSASignature, hashMessage. split.
  - intros Hv. apply bind_Ok in Hv as ([alg raw] & Hs%of_option_Ok & Hv). apply bind_Ok in Hv as ([hash d] & Hh%map_err_Ok & Hv).
    cbn [rsa_HashAlg rsa_Signature] in *. apply bind_Ok in Hh as (h & Ha & [= <- <-]).
    destruct key as [k|k|]; try done. exists k, alg, h, raw. split_and!; try done. by destruct pss; apply check_Ok in Hv.
  - intros (k & alg & hash & raw & -> & -> & Ha & Hv). cbn [of_option mbind result_bind rsa_HashAlg rsa_Signature].
    rewrite Ha. cbn [mbind result_bind map_err]. by destruct pss; rewrite Hv.
Qed.

Lemma verifyECDSASignature_Ok key signature message :
  verifyECDSASignature key signature message = Ok tt <->
  exists k alg hash r sv, key = ECDSAPublicKey k /\ signature = Some (mkSignatureECC alg r sv) /\ AlgorithmHash alg = Ok hash /\
    ECDSAVerify k (Sum hash message) r sv = true.
Proof.
  unfold verifyECDSASignature, hashMessage. split.
  - intros Hv. apply bind_Ok in Hv as ([alg r sv] & Hs%of_option_Ok & Hv). apply bind_Ok in Hv as ([hash d] & Hh%map_err_Ok & Hv).
    cbn [ecc_HashAlg ecc_R ecc_S] in *. apply bind_Ok in Hh as (h & Ha & [= <- <-]).
    destruct key as [k|k|]; try done. apply check_Ok in Hv. by exists k, alg, h, r, sv.
  - intros (k & alg & hash & r & sv & -> & -> & Ha & Hv). cbn [of_option mbind result_bind ecc_HashAlg ecc_R ecc_S].
    rewrite Ha. cbn [mbind result_bind map_err]. by rewrite Hv.
Qed.

Lemma verifySignature_Ok key signature message :
  verifySignature key signature message = Ok tt <-> signature_valid message key signature.
Proof.
  unfold verifySignature. split.
  - destruct (Z.eqb_spec (sig_Alg signature) AlgRSASSA) as [E|_].
    { intros (k & alg & hash & raw & -> & ? & ? & ?)%verifyRSASignature_Ok. by eapply valid_rsassa. }
    destruct (Z.eqb_spec (sig_Alg signature) AlgRSAPSS) as [E|_].
    { intros (k & alg & hash & raw & -> & ? & ? & ?)%verifyRSASignature_Ok. by eapply valid_rsapss. }
    destruct (Z.eqb_spec (sig_Alg signature) AlgECDSA) as [E|_]; [|done].
    intros (k & alg & hash & r & sv & -> & ? & ? & ?)%verifyECDSASignature_Ok. by eapply valid_ecdsa.
  - intros [k sg alg hash raw E Hs Ha Hv|k sg alg hash raw E Hs Ha Hv|k sg alg hash r sv E Hs Ha Hv]; rewrite E;
      [apply verifyRSASignature_Ok | apply verifyRSASignature_Ok | apply verifyECDSASignature_Ok]; [by exists k, alg, hash, raw.. |].
    by exists k, alg, hash, r, sv.
Qed.

(** The signature that the quote carries is a valid signature of the quote by
    the key in the AK public area. *)
Definition quote_signed (e : Evidence) : Prop :=
  exists public key signature,
    DecodePublic (ev_AKPublic e) = Ok public /\ PublicKeyOf public = Ok key /\
    DecodeSignature (ev_Signature e) = Ok signature /\ signature_valid (ev_Quote e) key signature.

(** The quote attests the nonce and the PCR values that the evidence carries. *)
Definition quote_attests (e : Evidence) (nonce : bytes) (sel : PCRSelection) (digest : bytes) : Prop :=
  exists att info values size message,
    DecodeAttestationData (ev_Quote e) = Ok att /\ att_Type att = TagAttestQuote /\
    att_ExtraData att = nonce /\ att_QuoteInfo att = Some info /\ qi_PCRDigest info = digest /\
    Selection_Normalize (selectionFromLegacy (qi_Hash info) (qi_PCRs info)) = Ok sel /\
    Selection_Normalize (ev_PCRSelection e) = Ok sel /\
    DecodePCRValues (ev_PCRValues e) = Ok values /\ hashDigestSize (sel_Hash sel) = Ok size /\
    pcr_bytes size values (sel_PCRs sel) = Ok message /\ digest = Sum (sel_Hash sel) message.

Lemma verifyAttestation_Ok e nonce info :
  verifyAttestation e nonce = Ok info <->
  exists att, DecodeAttestationData (ev_Quote e) = Ok att /\ att_Type att = TagAttestQuote /\
              att_ExtraData att = nonce /\ att_QuoteInfo att = Some info.
Proof.
  unfold verifyAttestation. split.
  - intros Hv. inv_ok. to_prop. eauto.
  - intros (att & -> & Ht & Hx & Hi). cbn [map_err mbind result_bind].
    rewrite Ht, Z.eqb_refl, Hi, Hx. cbn [check of_option mbind result_bind].
    by rewrite String.eqb_refl.
Qed.

Lemma verifyAttestedPCRs_Ok e info sel digest :
  verifyAttestedPCRs e info = Ok (sel, digest) ->
  qi_PCRDigest info = digest /\
  Selection_Normalize (selectionFromLegacy (qi_Hash info) (qi_PCRs info)) = Ok sel /\
  Selection_Normalize (ev_PCRSelection e) = Ok sel /\
  exists values size message, DecodePCRValues (ev_PCRValues e) = Ok values /\
    hashDigestSize (sel_Hash sel) = Ok size /\
    pcr_bytes size values (sel_PCRs sel) = Ok message /\ digest = Sum (sel_Hash sel) message.
Proof.
  unfold verifyAttestedPCRs. intros Hv. inv_ok. to_prop.
  match goal with H : sameSelection _ _ = true |- _ => apply sameSelection_spec in H as -> end.
  match goal with H : ComputePCRDigest _ _ = Ok _ |- _ => rename H into Hc end.
  match goal with H : Selection_Normalize (ev_PCRSelection e) = Ok _ |- _ => rename H into Hs end.
  pose proof (Selection_Normalize_ok _ _ Hs) as [Hok _].
  unfold ComputePCRDigest in Hc. rewrite (Selection_Normalize_id _ Hok) in Hc. inv_ok.
  destruct (known_hash_fix _ (proj1 Hok)) as (Hl & _). rewrite Hl in *. eauto 10.
Qed.

Lemma VerifyQuote_Ok e nonce claims :
  VerifyQuote e nonce = Ok claims ->
  nonce <> EmptyString /\ quote_signed e /\
  qc_AKPublicHash claims = PublicDigest (ev_AKPublic e) /\
  exists digest, quote_attests e nonce (qc_PCRSelection claims) digest /\
    qc_PCRDigest claims = digestString (sel_Hash (qc_PCRSelection claims)) digest.
Proof.
  unfold VerifyQuote, verifyNonceHash, verifyAKSignature. intros Hv. inv_ok.
  match goal with x : PCRSelection * bytes |- _ => destruct x as [sel digest] end. inv_ok. to_prop.
  match goal with H : verifyAttestation _ _ = _ |- _ =>
    apply verifyAttestation_Ok in H as (att & Ha1 & Ha2 & Ha3 & Ha4) end.
  match goal with H : verifyAttestedPCRs _ _ = _ |- _ =>
    apply verifyAttestedPCRs_Ok in H as (Hd & Hs1 & Hs2 & values & size & message & Hp1 & Hp2 & Hp3 & Hp4) end.
  simpl. split_and!; [by rewrite <- len_zero | | done |].
  - unfold quote_signed. units. setoid_rewrite <- verifySignature_Ok. eauto 10.
  - exists digest. split; [|done]. unfold quote_attests. by eauto 20.
Qed.

Lemma EvaluatePolicy_quote e nonce policy claims :
  EvaluatePolicy e nonce policy = Ok claims ->
  nonce <> EmptyString /\ quote_signed e /\
  (tp_EnrolledAKPublicHash policy <> EmptyString ->
     tp_EnrolledAKPublicHash policy = PublicDigest (ev_AKPublic e)) /\
  exists sel digest, quote_attests e nonce sel digest.
Proof.
  unfold EvaluatePolicy. intros Hv. inv_ok.
  match goal with H : VerifyQuote _ _ = Ok _ |- _ =>
    apply VerifyQuote_Ok in H as (Hn & Hs & Hak & digest & Hat & _) end.
  match goal with H : _ || _ = true |- _ => rename H into Hhash end.
  split_and!; eauto. intros Hne. apply orb_true_iff in Hhash as [Hh|Hh]; to_prop; congruence.
Qed.

End QuoteFacts.

Lemma Policy_Validate_secureboot p :
  TrimSpace (tp_Mode p) = PolicyModeSecureBoot -> Policy_Validate p = Ok tt ->
  exists pcr, tp_PCRPolicy p = Some pcr /\ PCRPolicy_Validate pcr = Ok tt /\
    Selection_contains (pp_Selection pcr) 7 = true.
Proof.
  intros Hm. unfold Policy_Validate. rewrite Hm. intros Hv. apply bind_Ok in Hv as (? & _ & Hv).
  apply bind_Ok in Hv as (? & _ & Hv). simpl in Hv. inv_ok. units. eauto.
Qed.

(** ** Toy hashes and a toy TPM library, for evaluation *)

(** The first byte of the message, repeated to the size of the hash. *)
Fixpoint repeat_byte (n : nat) (c : ascii) : string :=
  match n with O => EmptyString | S m => String c (repeat_byte m c) end.

Definition toy_Sum (h : string) (m : bytes) : bytes :=
  let c := match m with String c _ => c | EmptyString => zero end in
  repeat_byte (match hashDigestSize h with Ok n => Z.to_nat n | Err _ => O end) c.

Definition toy_Hashes : Hashes := {| Sum := toy_Sum |}.

Lemma repeat_byte_len n c : len (repeat_byte n c) = Z.of_nat n.
Proof. unfold len. induction n as [|n IH]; simpl String.length; lia. Qed.

Lemma toy_HashesLaws : @HashesLaws toy_Hashes.
Proof.
  split. intros h n m Hn. simpl. unfold toy_Sum. rewrite repeat_byte_len.
  unfold hashDigestSize in *. rewrite ToLower_idem. repeat case_hyp Hn; inv_ok; use_eqs; done.
Qed.

(** A quote is its text "nonce|pcrs"; every signature is an RSASSA signature and
    is the message itself. *)
Definition toy_info : QuoteInfo := mkQuoteInfo AlgSHA256 [7] (toy_Sum HashSHA256 "p").
Definition toy_TpmLib : TpmLib := {|
  DecodePublic p := Ok p;
  PublicKeyOf p := Ok (RSAPublicKey p);
  DecodeSignature s := Ok (mkSignature AlgRSASSA (Some (mkSignatureRSA AlgSHA256 s)) None);
  DecodeAttestationData q := Ok (mkAttestationData TagAttestQuote q (Some toy_info));
  AlgorithmHash _ := Ok HashSHA256;
  VerifyPSS _ _ _ _ := false;
  VerifyPKCS1v15 k h d s := String.eqb d s;
  ECDSAVerify _ _ _ _ := false;
|}.

Definition example_evidence : Evidence :=
  mkEvidence 1 "chal" (@NonceDigest toy_Hashes "nonce") "ak" "nonce" (toy_Sum HashSHA256 "nonce")
    (mkPCRSelection "SHA256" [7]) [("7"%string, hex_EncodeToString (toy_Sum HashSHA256 "p"))]
    "" "" "" "".

Definition example_pcr_policy : PCRPolicy :=
  mkPCRPolicy (mkPCRSelection HashSHA256 [7]) (digestString HashSHA256 (toy_Sum HashSHA256 "p")) [] "".

Definition example_policy : TPMPolicy :=
  mkTPMPolicy PolicyModeSecureBoot (@PublicDigest toy_Hashes "ak") (Some example_pcr_policy)
    ProfileGenericPCSecureBoot.

(** ** Properties of TPM verification *)

(** C30: a quote that [EvaluatePolicy] accepts is signed by the key of the AK
    public area, that area hashes to the enrolled AK hash (when one is enrolled),
    the signed attestation is a quote over exactly the expected (non-empty) nonce
    and over the hash of the selected PCR values of the evidence, and under a
    secureboot policy the selection (with PCR 7) and digest are the enrolled
    ones. *)
Theorem EvaluatePolicy_sound `{Hashes, TpmLib} e nonce policy claims :
  EvaluatePolicy e nonce policy = Ok claims ->
  nonce <> EmptyString /\ quote_signed e /\
  cl_AKPublicHash claims = PublicDigest (ev_AKPublic e) /\
  (tp_EnrolledAKPublicHash policy <> EmptyString ->
     tp_EnrolledAKPublicHash policy = PublicDigest (ev_AKPublic e)) /\
  (exists digest, quote_attests e nonce (cl_PCRSelection claims) digest /\
     cl_PCRDigest claims = digestString (sel_Hash (cl_PCRSelection claims)) digest) /\
  (tp_Mode policy = PolicyModeTPMOnly \/
   tp_Mode policy = PolicyModeSecureBoot /\ cl_SecureBoot claims = true /\
   exists pcr, tp_PCRPolicy policy = Some pcr /\ pp_ExpectedDigest pcr = cl_PCRDigest claims /\
     pp_Selection pcr = cl_PCRSelection claims /\ Selection_contains (cl_PCRSelection claims) 7 = true).
Proof.
  unfold EvaluatePolicy. intros Hv. inv_ok.
  match goal with H : VerifyQuote _ _ = Ok ?c |- _ =>
    apply VerifyQuote_Ok in H as (Hn & Hs & Hak & digest & Hat & Hpd); rename c into qc end.
  match goal with H : _ || _ = true |- _ => rename H into Hhash end.
  match goal with H : Policy_Validate _ = Ok ?u |- _ => rename H into Hpv; destruct u end.
  assert (tp_EnrolledAKPublicHash policy <> EmptyString ->
          tp_EnrolledAKPublicHash policy = PublicDigest (ev_AKPublic e)) as Hak2.
  { intros Hne. apply orb_true_iff in Hhash as [Hh|Hh]; to_prop; congruence. }
  match goal with H : (if _ then _ else _) = Ok claims |- _ => rename H into Hm end.
  repeat case_hyp Hm; try done; inv_ok; to_prop; simpl; split_and!; eauto.
  unfold verifySecureBootPolicy in *. inv_ok. to_prop.
  destruct (Policy_Validate_secureboot policy) as (pcr & Hp & _ & H7);
    [match goal with H : tp_Mode policy = _ |- _ => by rewrite H end | done |].
  right. split_and!; try done. exists pcr.
  match goal with H : sameSelection _ _ = true |- _ => apply sameSelection_spec in H end.
  simplify_eq. split_and!; try congruence.
Qed.

Lemma EvaluatePolicy_sound_witness :
  exists claims, @EvaluatePolicy toy_Hashes toy_TpmLib example_evidence "nonce" example_policy = Ok claims /\
    cl_SecureBoot claims = true /\ "nonce"%string <> EmptyString.
Proof.
  eexists. split; [vm_compute; reflexivity|]. split; [reflexivity|].
  eapply (@EvaluatePolicy_sound toy_Hashes toy_TpmLib example_evidence "nonce" example_policy).
  vm_compute. reflexivity.
Defined.

(** [PCRSelection.Normalize] returns a known lower-case hash name and the
    given indexes, sorted, in range and without duplicates, and changes nothing
    when it is applied again. *)
Theorem Selection_Normalize_canonical s t :
  Selection_Normalize s = Ok t ->
  selection_ok t /\ sel_PCRs t ≡ₚ sel_PCRs s /\ Selection_Normalize t = Ok t.
Proof.
  intros Hn. destruct (Selection_Normalize_ok s t Hn) as [Hok HP].
  split_and!; [done..|]. by apply Selection_Normalize_id.
Qed.

Lemma Selection_Normalize_canonical_witness :
  selection_ok (mkPCRSelection HashSHA256 [0; 7; 23]) /\
  sel_PCRs (mkPCRSelection HashSHA256 [0; 7; 23]) ≡ₚ [23; 0; 7] /\
  Selection_Normalize (mkPCRSelection HashSHA256 [0; 7; 23]) = Ok (mkPCRSelection HashSHA256 [0; 7; 23]).
Proof.
  apply (Selection_Normalize_canonical (mkPCRSelection " Sha256 " [23; 0; 7])). vm_compute. reflexivity.
Defined.

(** A digest text written by [digestString] is read back by
    [parseDigestString] as the same hash name and bytes. *)
Theorem digestString_roundtrip h d :
  known_hash h = true -> parseDigestString (digestString h d) = Ok (h, d).
Proof. apply parse_digestString. Qed.

Lemma digestString_roundtrip_witness :
  parseDigestString (digestString HashSHA256 "ab") = Ok (HashSHA256, "ab"%string).
Proof. apply (digestString_roundtrip HashSHA256 "ab"). reflexivity. Defined.

(** Enrolling a policy and checking a quote disagree about normal forms: a
    policy whose mode carries surrounding white space, or whose secureboot PCR
    selection is not already normalised, is satisfied by no quote, although
    [Validate] accepts such policies. *)
Theorem EvaluatePolicy_needs_canonical `{Hashes, TpmLib} e nonce policy :
  (TrimSpace (tp_Mode policy) <> tp_Mode policy \/
   tp_Mode policy = PolicyModeSecureBoot /\
   exists pcr, tp_PCRPolicy policy = Some pcr /\
     Selection_Normalize (pp_Selection pcr) <> Ok (pp_Selection pcr)) ->
  exists err, EvaluatePolicy e nonce policy = Err err.
Proof.
  intros Hp. destruct (EvaluatePolicy e nonce policy) as [claims|err] eqn:E; [exfalso|eauto].
  unfold EvaluatePolicy in E. inv_ok.
  match goal with H : (if _ then _ else _) = Ok claims |- _ => rename H into Hm end.
  destruct Hp as [Hmode|(Hmode & pcr & Hpcr & Hsel)].
  - repeat case_hyp Hm; try done; to_prop; apply Hmode; match goal with H : tp_Mode policy = _ |- _ => by rewrite H end.
  - rewrite Hmode in Hm. cbn -[verifySecureBootPolicy] in Hm. unfold verifySecureBootPolicy in Hm.
    rewrite Hpcr in Hm. inv_ok. to_prop.
    match goal with H : VerifyQuote _ _ = Ok _ |- _ =>
      apply VerifyQuote_Ok in H as (_ & _ & _ & digest & Hat & _) end.
    destruct Hat as (att & info & values & size & message & _ & _ & _ & _ & _ & _ & Hn & _).
    match goal with H : sameSelection _ _ = true |- _ => apply sameSelection_spec in H as Heq end.
    apply Selection_Normalize_ok in Hn as [Hok _]. apply Hsel. rewrite Heq.
    by apply Selection_Normalize_id.
Qed.

Definition example_padded_policy : TPMPolicy :=
  mkTPMPolicy " tpm-only" (@PublicDigest toy_Hashes "ak") None EmptyString.

Lemma EvaluatePolicy_needs_canonical_witness :
  Policy_Validate example_padded_policy = Ok tt /\
  exists err, @EvaluatePolicy toy_Hashes toy_TpmLib example_evidence "nonce" example_padded_policy = Err err.
Proof.
  split; [reflexivity|].
  apply (@EvaluatePolicy_needs_canonical toy_Hashes toy_TpmLib). left. vm_compute. discriminate.
Defined.
