(* ===== verification/TpmSeal.v ===== *)
(** * Keys sealed by a TPM (internal/tpm/seal.go, device.go)

    [SealKey] and [UnsealKey] as the calls they make to the TPM, handles and their
    release included.  The device is a class: a state and the commands of go-tpm that
    the code uses. *)

From S2P Require Import Prelude GoStrings GoTime Json KeyProtection Tpm.
Local Open Scope Z_scope.

(** ** The device *)

Definition Handle : Type := Z.

(** The commands of go-tpm's legacy/tpm2 package with the fixed arguments of this
    code left out: the owner hierarchy and the storage-root-key template of
    [CreatePrimary], an unbound SHA-256 policy session, empty authorizations. *)
Class TpmDevice := {
  tpm : Type;
  tpm_CreatePrimary : tpm -> result Handle * tpm;
  tpm_StartAuthSession : tpm -> result Handle * tpm;
  tpm_PolicyPCR : Handle -> PCRSelection -> tpm -> result unit * tpm;
  tpm_PolicyPassword : Handle -> tpm -> result unit * tpm;
  tpm_PolicyGetDigest : Handle -> tpm -> result bytes * tpm;
  tpm_ReadPCRs : PCRSelection -> tpm -> result (list (Z * bytes)) * tpm;
  tpm_Seal : Handle -> bytes -> bytes -> tpm -> result (bytes * bytes) * tpm;
  tpm_Load : Handle -> bytes -> bytes -> tpm -> result Handle * tpm;
  tpm_UnsealWithSession : Handle -> Handle -> tpm -> result bytes * tpm;
  tpm_FlushContext : Handle -> tpm -> tpm;
}.

(** A sequence of TPM commands that may fail. *)
Definition tpm_cmd `{TpmDevice} (A : Type) : Type := tpm -> result A * tpm.

Section Commands.
Context `{TpmDevice}.

Global Instance tpm_ret : MRet tpm_cmd := fun A a t => (Ok a, t).
Global Instance tpm_bind : MBind tpm_cmd := fun A B f m t =>
  match m t with (Ok a, t') => f a t' | (Err e, t') => (Err e, t') end.

Definition lift {A} (r : result A) : tpm_cmd A := fun t => (r, t).
Definition map_error {A} (f : error -> error) (m : tpm_cmd A) : tpm_cmd A := fun t =>
  let '(r, t') := m t in (map_err f r, t').

(** [defer FlushContext(rw, handle)] for the rest of the function. *)
Definition deferring {A} (handle : Handle) (rest : tpm_cmd A) : tpm_cmd A := fun t =>
  let '(r, t') := rest t in (r, tpm_FlushContext handle t').

Definition flush (handle : Handle) : tpm_cmd unit := fun t => (Ok tt, tpm_FlushContext handle t).

(** Flush and return the error when a step after [StartAuthSession] fails. *)
Definition or_flush {A} (handle : Handle) (m : tpm_cmd A) : tpm_cmd A := fun t =>
  match m t with
  | (Ok a, t') => (Ok a, t')
  | (Err e, t') => (Err e, tpm_FlushContext handle t')
  end.
End Commands.

(** ** Sealed objects *)

Definition SealedBlobSchemaVersion : Z := 1.

Record SealedBlob := mkSealedBlob {
  sb_SchemaVersion : Z;
  sb_PolicyMode : string;
  sb_Public : bytes;
  sb_Private : bytes;
  sb_PCRPolicy : option PCRPolicy;
  sb_CreatedAtUTC : string;
}.

Definition SealedBlob_Validate (b : SealedBlob) : result unit :=
  check (sb_SchemaVersion b =? SealedBlobSchemaVersion) (errorf "unsupported sealed blob schema version");;
  check (negb ((len (sb_Public b) =? 0) || (len (sb_Private b) =? 0)))
    (errorf "sealed object public and private blobs are required");;
  if String.eqb (sb_PolicyMode b) PolicyModeTPMOnly then
    check (bool_decide (sb_PCRPolicy b = None))
      (errorw ErrAttestationPolicy "tpm-only sealed object must not contain PCR policy")
  else if String.eqb (sb_PolicyMode b) PolicyModeSecureBoot then
    pcr ← of_option (errorw ErrAttestationPolicy "secureboot sealed object requires PCR policy") (sb_PCRPolicy b);
    PCRPolicy_Validate pcr
  else if String.eqb (sb_PolicyMode b) PolicyModeMeasured
  then Err (errorw ErrAttestationPolicy "measured mode is not implemented")
  else Err (errorw ErrAttestationPolicy ("unsupported policy mode " +:+ quoted (sb_PolicyMode b))).

(** [PCRSelection.legacy]: the normal form; every hash it accepts has an algorithm
    number. *)
Definition Selection_legacy (s : PCRSelection) : result PCRSelection := Selection_Normalize s.

Section Sealing.
Context `{TpmDevice, Hashes}.

Definition createSRK : tpm_cmd Handle := map_error (errorp "create SRK") tpm_CreatePrimary.

Definition policySession (selection : option PCRSelection) : tpm_cmd (Handle * bytes) :=
  map_error (errorp "start policy session") tpm_StartAuthSession ≫= fun session =>
  (match selection with
   | Some selection =>
       or_flush session (lift (Selection_legacy selection)) ≫= fun legacySelection =>
       or_flush session (map_error (errorp "bind PCR policy") (tpm_PolicyPCR session legacySelection))
   | None => mret tt
   end) ≫= fun _ =>
  or_flush session (map_error (errorp "bind password policy") (tpm_PolicyPassword session)) ≫= fun _ =>
  or_flush session (map_error (errorp "read policy digest") (tpm_PolicyGetDigest session)) ≫= fun digest =>
  mret (session, digest).

Definition readPCRValues (selection : PCRSelection) : tpm_cmd (list (Z * bytes)) :=
  lift (Selection_legacy selection) ≫= fun legacySelection =>
  map_error (errorp "read PCR values") (tpm_ReadPCRs legacySelection).

(** The policy digest a key is sealed under, and the PCR policy stored with it. *)
Definition seal_policy (mode : string) (selection : PCRSelection) : tpm_cmd (bytes * option PCRPolicy) :=
  if String.eqb mode PolicyModeTPMOnly then
    policySession None ≫= fun sd =>
    flush sd.1 ≫= fun _ =>
    mret (sd.2, None)
  else if String.eqb mode PolicyModeSecureBoot then
    lift (Selection_Normalize selection) ≫= fun normalized =>
    lift (check (Selection_contains normalized 7) (errorw ErrAttestationPolicy "secureboot seal requires PCR 7")) ≫= fun _ =>
    policySession (Some normalized) ≫= fun sd =>
    flush sd.1 ≫= fun _ =>
    readPCRValues normalized ≫= fun values =>
    lift (NewPCRPolicy normalized (list_to_map values) ProfileGenericPCSecureBoot) ≫= fun policy =>
    mret (sd.2, Some policy)
  else if String.eqb mode PolicyModeMeasured
  then lift (Err (errorw ErrAttestationPolicy "measured mode is not implemented"))
  else lift (Err (errorw ErrAttestationPolicy ("unsupported policy mode " +:+ quoted mode))).

(** [now] is what [time.Now()] returns. *)
Definition SealKey (plaintext : bytes) (mode : string) (selection : PCRSelection) (now : Time) : tpm_cmd SealedBlob :=
  lift (check (negb (len plaintext =? 0)) (errorf "plaintext is required")) ≫= fun _ =>
  createSRK ≫= fun srkHandle =>
  deferring srkHandle (
    seal_policy mode selection ≫= fun policy =>
    map_error (errorp "seal key material") (tpm_Seal srkHandle policy.1 plaintext) ≫= fun blobs =>
    let blob := mkSealedBlob SealedBlobSchemaVersion mode blobs.2 blobs.1 policy.2 (FormatRFC3339Nano now) in
    lift (SealedBlob_Validate blob) ≫= fun _ =>
    mret blob).

Definition UnsealKey (blob : SealedBlob) : tpm_cmd bytes :=
  lift (SealedBlob_Validate blob) ≫= fun _ =>
  createSRK ≫= fun srkHandle =>
  deferring srkHandle (
    map_error (errorp "load sealed object") (tpm_Load srkHandle (sb_Public blob) (sb_Private blob)) ≫= fun objectHandle =>
    deferring objectHandle (
      let selection := if String.eqb (sb_PolicyMode blob) PolicyModeSecureBoot
                       then pp_Selection <$> sb_PCRPolicy blob else None in
      policySession selection ≫= fun sd =>
      deferring sd.1 (
        map_error (errorp "unseal key material") (tpm_UnsealWithSession sd.1 objectHandle)))).
End Sealing.

(** ** Successful commands *)

Section CommandLemmas.
Context `{TpmDevice}.

Lemma bind_cmd_Ok {A B} (m : tpm_cmd A) (f : A -> tpm_cmd B) t b t' :
  (m ≫= f) t = (Ok b, t') -> exists a t1, m t = (Ok a, t1) /\ f a t1 = (Ok b, t').
Proof. unfold mbind, tpm_bind. destruct (m t) as [[a|] t1]; [eauto | done]. Qed.

Lemma lift_Ok {A} (r : result A) t a t' : lift r t = (Ok a, t') -> r = Ok a /\ t' = t.
Proof. unfold lift. by intros [= -> ->]. Qed.

Lemma ret_Ok {A} (x : A) t a t' : (mret x : tpm_cmd A) t = (Ok a, t') -> x = a /\ t' = t.
Proof. unfold mret, tpm_ret. by intros [= -> ->]. Qed.

Lemma map_error_Ok {A} f (m : tpm_cmd A) t a t' : map_error f m t = (Ok a, t') -> m t = (Ok a, t').
Proof. unfold map_error. destruct (m t) as [[x|] t1]; [by intros [= -> ->] | done]. Qed.

Lemma deferring_Ok {A} h (m : tpm_cmd A) t a t' :
  deferring h m t = (Ok a, t') -> exists t1, m t = (Ok a, t1) /\ t' = tpm_FlushContext h t1.
Proof. unfold deferring. destruct (m t) as [r t1]. intros [= -> <-]. eauto. Qed.
End CommandLemmas.

(** Takes a successful sequence of commands apart. *)
Ltac inv_cmd :=
  repeat match goal with
  | H : (_ ≫= _) _ = (Ok _, _) |- _ => apply bind_cmd_Ok in H as (? & ? & ? & H)
  | H : lift _ _ = (Ok _, _) |- _ => apply lift_Ok in H as [H ?]
  | H : mret _ _ = (Ok _, _) |- _ => apply ret_Ok in H as [H ?]
  | H : map_error _ _ _ = (Ok _, _) |- _ => apply map_error_Ok in H
  | H : deferring _ _ _ = (Ok _, _) |- _ => apply deferring_Ok in H as (? & H & ?)
  end; subst.

(** ** Handles are released *)

(** A device's transient handles: what opens one returns a handle that was not in
    use, a command that fails opens none, flushing closes. *)
Definition opens_one `{TpmDevice} (handles : tpm -> gset Z) (m : tpm_cmd Handle) : Prop := forall t,
  match m t with
  | (Ok h, t') => h ∉ handles t /\ handles t' = {[h]} ∪ handles t
  | (Err _, t') => handles t' = handles t
  end.

Class TpmHandles `{TpmDevice} := {
  handles : tpm -> gset Z;
  CreatePrimary_opens : opens_one handles tpm_CreatePrimary;
  StartAuthSession_opens : opens_one handles tpm_StartAuthSession;
  Load_opens parent public private : opens_one handles (tpm_Load parent public private);
  PolicyPCR_keeps s sel t : handles (tpm_PolicyPCR s sel t).2 = handles t;
  PolicyPassword_keeps s t : handles (tpm_PolicyPassword s t).2 = handles t;
  PolicyGetDigest_keeps s t : handles (tpm_PolicyGetDigest s t).2 = handles t;
  ReadPCRs_keeps sel t : handles (tpm_ReadPCRs sel t).2 = handles t;
  Seal_keeps parent digest plaintext t : handles (tpm_Seal parent digest plaintext t).2 = handles t;
  Unseal_keeps session object t : handles (tpm_UnsealWithSession session object t).2 = handles t;
  FlushContext_closes h t : handles (tpm_FlushContext h t) = handles t ∖ {[h]};
}.

Section Handles.
Context `{TpmHandles, Hashes}.

(** From the handles [S], success leaves [Q] and failure leaves [E]. *)
Definition triple {A} (S : gset Z) (m : tpm_cmd A) (Q : A -> gset Z -> Prop) (E : gset Z) : Prop :=
  forall t, handles t = S -> match m t with (Ok a, t') => Q a (handles t') | (Err _, t') => handles t' = E end.

(** Success leaves [S'], failure leaves [E]. *)
Definition leaves {A} (S : gset Z) (m : tpm_cmd A) (S' E : gset Z) : Prop := triple S m (fun _ X => X = S') E.
Definition keeps {A} (m : tpm_cmd A) : Prop := forall S, leaves S m S S.

Lemma triple_bind {A B} S (m : tpm_cmd A) Q (f : A -> tpm_cmd B) R E :
  triple S m Q E -> (forall a S', Q a S' -> triple S' (f a) R E) -> triple S (m ≫= f) R E.
Proof.
  intros Hm Hf t Ht. specialize (Hm t Ht). unfold mbind, tpm_bind. destruct (m t) as [[a|] t1]; [|done]. by apply (Hf a _ Hm).
Qed.

Lemma leaves_bind {A B} S S1 S2 E (m : tpm_cmd A) (f : A -> tpm_cmd B) :
  leaves S m S1 E -> (forall a, leaves S1 (f a) S2 E) -> leaves S (m ≫= f) S2 E.
Proof. intros Hm Hf. eapply triple_bind; [exact Hm|]. intros a S' ->. apply Hf. Qed.

Lemma keeps_lift {A} (r : result A) : keeps (lift r).
Proof. intros S t <-. unfold lift. by destruct r. Qed.

Lemma leaves_ret {A} S E (a : A) : leaves S (mret a) S E.
Proof. by intros t <-. Qed.

Lemma keeps_ret {A} (a : A) : keeps (mret a).
Proof. intros S. apply leaves_ret. Qed.

Lemma keeps_bind {A B} (m : tpm_cmd A) (f : A -> tpm_cmd B) : keeps m -> (forall a, keeps (f a)) -> keeps (m ≫= f).
Proof. intros Hm Hf S. eapply leaves_bind; [apply Hm | intros; apply Hf]. Qed.

Lemma triple_map_error {A} f S (m : tpm_cmd A) Q E : triple S m Q E -> triple S (map_error f m) Q E.
Proof. intros Hm t Ht. specialize (Hm t Ht). unfold map_error. by destruct (m t) as [[|] ?]. Qed.

Lemma keeps_map_error {A} f (m : tpm_cmd A) : keeps m -> keeps (map_error f m).
Proof. intros Hm S. apply triple_map_error, Hm. Qed.

Lemma keeps_command {A} (m : tpm_cmd A) : (forall t, handles (m t).2 = handles t) -> keeps m.
Proof. intros Hm S t <-. specialize (Hm t). by destruct (m t) as [[|] ?]. Qed.

Lemma opens_triple f m S : opens_one handles m -> triple S (map_error f m) (fun h X => h ∉ S /\ X = {[h]} ∪ S) S.
Proof. intros Hm. apply triple_map_error. intros t <-. specialize (Hm t). by destruct (m t) as [[|] ?]. Qed.

Lemma close_one (h : Z) (S : gset Z) : h ∉ S -> ({[h]} ∪ S) ∖ {[h]} = S.
Proof. set_solver. Qed.

Lemma leaves_deferring {A} h S (m : tpm_cmd A) : h ∉ S -> keeps m -> leaves ({[h]} ∪ S) (deferring h m) S S.
Proof.
  intros Hh Hm t Ht. specialize (Hm _ t Ht). unfold deferring. destruct (m t) as [[a|] t1]; rewrite FlushContext_closes, Hm; by apply close_one.
Qed.

Lemma leaves_flush h S E : h ∉ S -> leaves ({[h]} ∪ S) (flush h) S E.
Proof. intros Hh t Ht. unfold flush. rewrite FlushContext_closes, Ht. by apply close_one. Qed.

Lemma leaves_or_flush {A} h S (m : tpm_cmd A) : h ∉ S -> keeps m -> leaves ({[h]} ∪ S) (or_flush h m) ({[h]} ∪ S) S.
Proof.
  intros Hh Hm t Ht. specialize (Hm _ t Ht). unfold or_flush. destruct (m t) as [[a|] t1]; [done|].
  rewrite FlushContext_closes, Hm. by apply close_one.
Qed.

(** Opening, and deferring the release, keeps the handles. *)
Lemma keeps_opened {A} f m (k : Handle -> tpm_cmd A) :
  opens_one handles m -> (forall h, keeps (k h)) -> keeps (map_error f m ≫= fun h => deferring h (k h)).
Proof.
  intros Hm Hk S. eapply triple_bind; [by apply opens_triple|]. intros h S' [Hh ->]. by apply leaves_deferring.
Qed.

Lemma policySession_opens selection S :
  triple S (policySession selection) (fun sd X => sd.1 ∉ S /\ X = {[sd.1]} ∪ S) S.
Proof.
  eapply triple_bind; [apply opens_triple, StartAuthSession_opens|]. intros s S' [Hs ->].
  assert (forall B (m : tpm_cmd B), keeps m -> leaves ({[s]} ∪ S) (or_flush s m) ({[s]} ∪ S) S) as Hk
    by (intros; by apply leaves_or_flush).
  eapply triple_bind.
  { destruct selection as [sel|]; [|apply leaves_ret]. eapply leaves_bind; [apply Hk, keeps_lift|]. intros a.
    apply Hk, keeps_map_error, keeps_command, PolicyPCR_keeps. }
  intros a S1 ->. eapply triple_bind; [apply Hk, keeps_map_error, keeps_command, PolicyPassword_keeps|].
  intros b S1 ->. eapply triple_bind; [apply Hk, keeps_map_error, keeps_command, PolicyGetDigest_keeps|].
  intros c S1 ->. intros t Ht. by split.
Qed.

Lemma keeps_session {A} selection (k : Handle * bytes -> tpm_cmd A) :
  (forall sd S, sd.1 ∉ S -> leaves ({[sd.1]} ∪ S) (k sd) S S) -> keeps (policySession selection ≫= k).
Proof.
  intros Hk S. eapply triple_bind; [apply policySession_opens|]. intros sd S' [Hs ->]. by apply Hk.
Qed.

Lemma keeps_flushed {A} (sd : Handle * bytes) S (k : unit -> tpm_cmd A) :
  sd.1 ∉ S -> keeps (k tt) -> leaves ({[sd.1]} ∪ S) (flush sd.1 ≫= k) S S.
Proof. intros Hs Hk. eapply leaves_bind; [by apply leaves_flush|]. intros []. apply Hk. Qed.

Lemma keeps_seal_policy mode selection : keeps (seal_policy mode selection).
Proof.
  unfold seal_policy. case_goal; [|case_goal; [|case_goal; apply keeps_lift]].
  - apply keeps_session. intros sd S Hs. apply keeps_flushed; [done | apply keeps_ret].
  - apply keeps_bind; [apply keeps_lift|]. intros normalized. apply keeps_bind; [apply keeps_lift|]. intros _.
    apply keeps_session. intros sd S Hs. apply keeps_flushed; [done|].
    apply keeps_bind; [|intros; apply keeps_bind; [apply keeps_lift | intros; apply keeps_ret]].
    apply keeps_bind; [apply keeps_lift|]. intros. apply keeps_map_error, keeps_command, ReadPCRs_keeps.
Qed.

Lemma keeps_SealKey plaintext mode selection now : keeps (SealKey plaintext mode selection now).
Proof.
  apply keeps_bind; [apply keeps_lift|]. intros _. apply keeps_opened; [apply CreatePrimary_opens|]. intros srk.
  apply keeps_bind; [apply keeps_seal_policy|]. intros policy.
  apply keeps_bind; [apply keeps_map_error, keeps_command, Seal_keeps|]. intros blobs.
  apply keeps_bind; [apply keeps_lift | intros; apply keeps_ret].
Qed.

Lemma keeps_UnsealKey blob : keeps (UnsealKey blob).
Proof.
  apply keeps_bind; [apply keeps_lift|]. intros _. apply keeps_opened; [apply CreatePrimary_opens|]. intros srk.
  apply keeps_opened; [apply Load_opens|]. intros object. apply keeps_session. intros sd S Hs.
  apply leaves_deferring; [done|]. apply keeps_map_error, keeps_command, Unseal_keeps.
Qed.

(** Sealing and unsealing return with exactly the handles open that were open
    before, on success and on every error path. *)
Theorem handles_released plaintext mode selection now blob t :
  handles (SealKey plaintext mode selection now t).2 = handles t /\ handles (UnsealKey blob t).2 = handles t.
Proof.
  split; [pose proof (keeps_SealKey plaintext mode selection now _ t eq_refl) as Hk
         | pose proof (keeps_UnsealKey blob _ t eq_refl) as Hk]; match goal with |- handles (?m t).2 = _ => by destruct (m t) as [[|] ?] end.
Qed.
End Handles.

(** ** A device in miniature, for the witnesses *)

Inductive toy_slot :=
| ToyPrimary
| ToySession (policy : string)
| ToyObject (policy content : string).

Record toy_tpm := mkToyTpm { toy_pcrs : list (Z * bytes); toy_slots : gmap Z toy_slot }.

Definition toy_error : error := errorf "TPM_RC_FAILURE".
Definition toy_fresh (slots : gmap Z toy_slot) : Z := foldr Z.max 0 (map_to_list slots).*1 + 1.
Definition toy_open (slot : toy_slot) (t : toy_tpm) : result Handle * toy_tpm :=
  let h := toy_fresh (toy_slots t) in (Ok h, mkToyTpm (toy_pcrs t) (<[h := slot]> (toy_slots t))).
Definition toy_extend (session : Handle) (what : string) (t : toy_tpm) : result unit * toy_tpm :=
  match toy_slots t !! session with
  | Some (ToySession policy) => (Ok tt, mkToyTpm (toy_pcrs t) (<[session := ToySession (policy +:+ what)]> (toy_slots t)))
  | _ => (Err toy_error, t)
  end.
Definition toy_selected (sel : PCRSelection) (t : toy_tpm) : list (Z * bytes) :=
  filter (fun e => e.1 ∈ sel_PCRs sel /\ 0 <= e.1 <= 23) (toy_pcrs t).

#[export] Instance toy_device : TpmDevice := {|
  tpm := toy_tpm;
  tpm_CreatePrimary := toy_open ToyPrimary;
  tpm_StartAuthSession := toy_open (ToySession "policy");
  tpm_PolicyPCR s sel t := toy_extend s (Join (snd <$> toy_selected sel t) ",") t;
  tpm_PolicyPassword s t := toy_extend s "password" t;
  tpm_PolicyGetDigest s t :=
    (match toy_slots t !! s with Some (ToySession policy) => Ok policy | _ => Err toy_error end, t);
  tpm_ReadPCRs sel t := (Ok (toy_selected sel t), t);
  tpm_Seal parent digest plaintext t := (Ok (plaintext, digest), t);
  tpm_Load parent public private := toy_open (ToyObject public private);
  tpm_UnsealWithSession session object t :=
    (match toy_slots t !! session, toy_slots t !! object with
     | Some (ToySession policy), Some (ToyObject policy' content) =>
         if String.eqb policy policy' then Ok content else Err toy_error
     | _, _ => Err toy_error
     end, t);
  tpm_FlushContext h t := mkToyTpm (toy_pcrs t) (delete h (toy_slots t));
|}.

Lemma toy_fresh_new slots : slots !! toy_fresh slots = None.
Proof.
  destruct (slots !! toy_fresh slots) as [slot|] eqn:E; [|done]. exfalso.
  apply elem_of_map_to_list in E. apply (list_elem_of_fmap_2 fst) in E. cbn [fst] in E.
  assert (forall l x, x ∈ l -> x <= foldr Z.max 0 l) as Hmax.
  { induction l as [|y l IH]; intros x Hx; [by apply not_elem_of_nil in Hx|]. cbn. apply elem_of_cons in Hx as [->|Hx]; [lia|].
    specialize (IH x Hx). lia. }
  apply Hmax in E. unfold toy_fresh in E. lia.
Qed.

Lemma toy_extend_dom s what t : dom (toy_slots (toy_extend s what t).2) = dom (toy_slots t).
Proof.
  unfold toy_extend. destruct (toy_slots t !! s) as [[| |]|] eqn:E; try done. cbn [snd toy_slots].
  rewrite dom_insert_L. apply elem_of_dom_2 in E. set_solver.
Qed.

#[export] Instance toy_handles : TpmHandles.
Proof.
  refine {| handles t := dom (toy_slots t) |}.
  all: try (intros; apply toy_extend_dom); try done.
  1-3: intros; intros t; cbn; split; [apply not_elem_of_dom, toy_fresh_new | apply dom_insert_L].
  intros h t. cbn [tpm_FlushContext toy_device toy_slots]. apply dom_delete_L.
Defined.

Definition toy_start : toy_tpm := mkToyTpm [(7, "secure boot state of the machine"); (8, "boot loader and its configuration")] ∅.
Definition toy_selection : PCRSelection := mkPCRSelection HashSHA256 [7].

(** Sealed under a PCR and unsealed again; not with another value of the PCR. *)
Definition toy_sealed : result SealedBlob * toy_tpm :=
  @SealKey toy_device toy_Hashes "key material" PolicyModeSecureBoot toy_selection 0 toy_start.

Definition toy_unseal (pcrs : list (Z * bytes)) : result bytes :=
  match toy_sealed.1 with
  | Ok blob => fst (UnsealKey blob (mkToyTpm pcrs ∅))
  | Err e => Err e
  end.

Example toy_unseals : toy_unseal (toy_pcrs toy_start) = Ok "key material"%string.
Proof. vm_compute. reflexivity. Qed.

Example toy_refuses_other_boot_state : toy_unseal [(7, "another boot state")] = Err (errorp "unseal key material" toy_error).
Proof. vm_compute. reflexivity. Qed.

Lemma handles_released_witness :
  @handles _ toy_handles (@SealKey toy_device toy_Hashes "key material" PolicyModeSecureBoot toy_selection 0 toy_start).2 = ∅ /\
  @handles _ toy_handles (@UnsealKey toy_device (mkSealedBlob 1 PolicyModeTPMOnly "p" "q" None EmptyString) toy_start).2 = ∅.
Proof.
  apply (@handles_released toy_device toy_handles toy_Hashes "key material" PolicyModeSecureBoot toy_selection 0
           (mkSealedBlob 1 PolicyModeTPMOnly "p" "q" None EmptyString) toy_start).
Defined.
