(* ===== verification/Recovery.v ===== *)
(** * Recovery packages (internal/recovery/package.go)

    The metadata of a package, the printable shares and [Create] and [Recover] on
    top of the secret sharing of [Shamir].  A share is base64 of JSON, both modelled
    to the byte.  [crypto/rand] is the list of bytes it delivers. *)

From S2P Require Import Prelude Gf256 Shamir GoStrings Base64 Json GoTime Keyring Tpm.
From Stdlib Require Import Ascii.
Local Open Scope Z_scope.

Definition SchemaVersion : Z := 1.
Definition DefaultThreshold : Z := 3.
Definition DefaultShares : Z := 5.
Definition SharePrefix : string := "raus1.".

Definition ErrInvalidPackage : error := sentinel "recovery.ErrInvalidPackage" "invalid recovery package".

Record PackageMetadata := mkPackageMetadata {
  pm_SchemaVersion : Z;
  pm_PackageID : string;
  pm_ClusterID : string;
  pm_KeyID : string;
  pm_CreatedAt : string;
  pm_Threshold : Z;
  pm_Shares : Z;
  pm_KDF : string;
  pm_WrappingAlgorithm : string;
  pm_SecretChecksum : string;
  pm_AllowedOperations : list string;
}.

Record Package := mkPackage { pkg_Metadata : PackageMetadata; pkg_Shares : list string }.

Record shareEnvelope := mkShareEnvelope {
  sh_SchemaVersion : Z;
  sh_PackageID : string;
  sh_Index : Z;
  sh_Value : string;
}.

(** [[]byte(s)] and [string(b)]. *)
Definition byte_list (s : bytes) : list Z := byte_val <$> String.list_ascii_of_string s.
Definition bytes_of (l : list Z) : bytes := String.string_of_list_ascii (byte_of <$> l).

(** [fmt.Errorf("%w: what: %w", base, err)]. *)
Definition wrapping (base : error) (what : string) (err : error) : error :=
  mkError (err_is base ++ err_is err) (err_msg base +:+ ": " +:+ what +:+ ": " +:+ err_msg err).

(** ** Checks *)

Definition PackageMetadata_Validate (m : PackageMetadata) : result unit :=
  check (pm_SchemaVersion m =? SchemaVersion) (errorw ErrInvalidPackage "unsupported schema version");;
  map_err (fun _ => errorw ErrInvalidPackage "invalid recovery package ID") (ValidateIdentifier (pm_PackageID m));;
  map_err (fun _ => errorw ErrInvalidPackage "invalid cluster ID") (ValidateIdentifier (pm_ClusterID m));;
  map_err (fun _ => errorw ErrInvalidPackage "invalid key ID") (ValidateIdentifier (pm_KeyID m));;
  check (negb ((pm_Threshold m <=? 0) || (pm_Shares m <=? 0) || (pm_Shares m <? pm_Threshold m) || (255 <? pm_Shares m)))
    (errorw ErrInvalidPackage "invalid threshold");;
  check (String.eqb (pm_KDF m) "none") (errorw ErrInvalidPackage "unsupported KDF");;
  check (String.eqb (pm_WrappingAlgorithm m) AlgorithmAES256GCM)
    (errorw ErrInvalidPackage "unsupported wrapping algorithm");;
  check (HasPrefix (pm_SecretChecksum m) "sha256:") (errorw ErrInvalidPackage "invalid checksum");;
  of_option (errorw ErrInvalidPackage "invalid created_at") (ParseRFC3339Nano (pm_CreatedAt m));;
  check (existsb (String.eqb "recover-enroll") (pm_AllowedOperations m))
    (errorw ErrInvalidPackage "missing recover-enroll operation").

Definition validateCreateInputs (packageID clusterID keyID : string) (secret : bytes) (threshold shares : Z)
  : result unit :=
  map_err (fun _ => errorw ErrInvalidPackage "invalid recovery package ID") (ValidateIdentifier packageID);;
  map_err (fun _ => errorw ErrInvalidPackage "invalid cluster ID") (ValidateIdentifier clusterID);;
  map_err (fun _ => errorw ErrInvalidPackage "invalid key ID") (ValidateIdentifier keyID);;
  check (negb (len secret =? 0)) (errorw ErrInvalidPackage "empty secret");;
  check (negb ((threshold <=? 0) || (shares <=? 0) || (shares <? threshold) || (255 <? shares)))
    (errorw ErrInvalidPackage "invalid threshold").

(** ** Shares *)

Definition share_json (share : shareEnvelope) : json :=
  JObject [("schema_version"%string, JNumber (FormatInt (sh_SchemaVersion share)));
           ("recovery_package_id"%string, JString (sh_PackageID share));
           ("index"%string, JNumber (FormatInt (sh_Index share)));
           ("value"%string, JString (sh_Value share))].

(** [json.Marshal] cannot fail on this type. *)
Definition encodeShare (share : shareEnvelope) : string :=
  SharePrefix +:+ rawurl_EncodeToString (json_Print (share_json share)).

Definition zero_share : shareEnvelope := mkShareEnvelope 0 EmptyString 0 EmptyString.

Definition set_SchemaVersion x s := mkShareEnvelope x (sh_PackageID s) (sh_Index s) (sh_Value s).
Definition set_PackageID x s := mkShareEnvelope (sh_SchemaVersion s) x (sh_Index s) (sh_Value s).
Definition set_Index x s := mkShareEnvelope (sh_SchemaVersion s) (sh_PackageID s) x (sh_Value s).
Definition set_Value x s := mkShareEnvelope (sh_SchemaVersion s) (sh_PackageID s) (sh_Index s) x.

Definition share_fields : list (string * (json -> shareEnvelope -> result shareEnvelope)) :=
  [("schema_version"%string, field decode_uint32 set_SchemaVersion);
   ("recovery_package_id"%string, field decode_string set_PackageID);
   ("index"%string, field decode_int64 set_Index);
   ("value"%string, field decode_string set_Value)].

Definition parseShare (encoded : string) : result shareEnvelope :=
  check (HasPrefix encoded SharePrefix) (errorw ErrInvalidShare "missing prefix");;
  raw ← of_option (wrapping ErrInvalidShare "decode share" (errorf "illegal base64 data"))
          (rawurl_DecodeString (TrimPrefix encoded SharePrefix));
  v ← of_option (wrapping ErrInvalidShare "parse share" (errorf "invalid JSON")) (json_Parse raw);
  share ← map_err (wrapping ErrInvalidShare "parse share") (decode_struct share_fields v zero_share);
  check (sh_SchemaVersion share =? SchemaVersion) (errorw ErrInvalidShare "unsupported schema version");;
  Ok share.

(** ** Creating and recovering *)

Section Recovery.
Context `{Hashes}.

Definition checksum (secret : bytes) : string := "sha256:" +:+ hex_EncodeToString (Sum HashSHA256 secret).

Definition share_of (packageID : string) (point : sharePoint) : shareEnvelope :=
  mkShareEnvelope SchemaVersion packageID (sp_index point) (b64_EncodeToString (bytes_of (sp_value point))).

Definition Create (packageID clusterID keyID : string) (secret : bytes) (threshold shares : Z) (now : Time)
    (random : list Z) : result Package :=
  validateCreateInputs packageID clusterID keyID secret threshold shares;;
  split ← splitSecret (byte_list secret) threshold shares random;
  let metadata := mkPackageMetadata SchemaVersion packageID clusterID keyID (FormatRFC3339Nano now)
    threshold shares "none" AlgorithmAES256GCM (checksum secret) ["recover-enroll"%string] in
  Ok (mkPackage metadata ((fun point => encodeShare (share_of packageID point)) <$> split.1)).

(** One round of the loop over the shares: the indices seen and the points. *)
Definition add_share (metadata : PackageMetadata) (st : list Z * list sharePoint) (encoded : string)
  : result (list Z * list sharePoint) :=
  share ← parseShare encoded;
  check (String.eqb (sh_PackageID share) (pm_PackageID metadata)) (errorw ErrInvalidShare "package ID mismatch");;
  check (negb ((sh_Index share <=? 0) || (pm_Shares metadata <? sh_Index share)))
    (errorw ErrInvalidShare "share index out of range");;
  let index := sh_Index share mod 256 in
  check (negb (existsb (Z.eqb index) st.1)) (errorw ErrInvalidShare "duplicate share");;
  value ← of_option (wrapping ErrInvalidShare "decode share value" (errorf "illegal base64 data"))
            (b64_DecodeString (sh_Value share));
  Ok (index :: st.1, st.2 ++ [mkPoint index (byte_list value)]).

Definition Recover (metadata : PackageMetadata) (encodedShares : list string) : result bytes :=
  PackageMetadata_Validate metadata;;
  check (negb (Z.of_nat (length encodedShares) <? pm_Threshold metadata)) ErrThreshold;;
  st ← foldR (add_share metadata) ([], []) encodedShares;
  let points := st.2 in
  check (negb (Z.of_nat (length points) <? pm_Threshold metadata)) ErrThreshold;;
  let points := take (Z.to_nat (pm_Threshold metadata)) points in
  secret ← combineShares points;
  check (String.eqb (checksum (bytes_of secret)) (pm_SecretChecksum metadata)) (errorw ErrInvalidShare "checksum mismatch");;
  Ok (bytes_of secret).

(** ** Lemmas: bytes and text *)

Lemma bytes_of_list s : bytes_of (byte_list s) = s.
Proof.
  induction s as [|c s IH]; [done|]. unfold bytes_of, byte_list in *. cbn. f_equal; [|exact IH].
  unfold byte_of. pose proof (byte_val_range c). rewrite Z.mod_small by lia. apply byte_of_val.
Qed.

Lemma byte_list_of l : Forall is_byte l -> byte_list (bytes_of l) = l.
Proof.
  intros Hl. unfold bytes_of, byte_list. rewrite String.list_ascii_of_string_of_list_ascii, <- list_fmap_compose.
  rewrite <- (list_fmap_id l) at 2. apply list_fmap_ext. intros i x Hx. unfold compose, byte_of, byte_val.
  assert (is_byte x) as Hb by (by eapply Forall_lookup_1). unfold is_byte in Hb.
  rewrite Z.mod_small, N_ascii_embedding by lia. simpl. lia.
Qed.

Lemma byte_list_bytes s : Forall is_byte (byte_list s).
Proof. apply Forall_fmap, Forall_forall. intros c _. apply byte_val_range. Qed.

Lemma byte_list_length s : length (byte_list s) = String.length s.
Proof. unfold byte_list. rewrite length_fmap. induction s as [|c s IH]; simpl; [done | by rewrite IH]. Qed.

(** ** Lemmas: shares *)

(** What [encodeShare] writes and [parseShare] reads back. *)
Definition share_ok (share : shareEnvelope) : Prop :=
  sh_SchemaVersion share = SchemaVersion /\ valid_utf8 (sh_PackageID share) = true /\
  - int64_max - 1 <= sh_Index share <= int64_max /\ valid_utf8 (sh_Value share) = true.

Lemma share_field_of :
  find_field share_fields "schema_version" = Some (field decode_uint32 set_SchemaVersion) /\
  find_field share_fields "recovery_package_id" = Some (field decode_string set_PackageID) /\
  find_field share_fields "index" = Some (field decode_int64 set_Index) /\
  find_field share_fields "value" = Some (field decode_string set_Value).
Proof. done. Qed.

Lemma decode_share share : share_ok share -> decode_struct share_fields (share_json share) zero_share = Ok share.
Proof.
  intros (Hs & _ & Hi & _). destruct share_field_of as (E1 & E2 & E3 & E4).
  unfold share_json, decode_struct. cbn [foldR fst snd]. rewrite E1, E2, E3, E4.
  unfold field, decode_int64. rewrite decode_uint32_Print by (rewrite Hs; done).
  rewrite decode_int_Print by (unfold int64_max in *; lia).
  by destruct share.
Qed.

Lemma share_printable share : share_ok share -> printable 1 (share_json share).
Proof.
  intros (Hs & Hp & Hi & Hv). unfold int64_max in Hi. unfold share_json. cbn [printable].
  rewrite !Forall_cons. cbn [fst snd printable].
  split_and!; try done; try apply Forall_nil; apply FormatInt_number; [rewrite Hs; done | lia].
Qed.

Lemma parseShare_encodeShare share : share_ok share -> parseShare (encodeShare share) = Ok share.
Proof.
  intros Hok. pose proof (decode_share share Hok) as Hd. pose proof (proj1 Hok) as Hs.
  pose proof (json_Parse_Print 1 _ (share_printable share Hok) ltac:(done)) as Hj.
  unfold encodeShare. revert Hj. generalize (json_Print (share_json share)). intros text Hj.
  destruct (TrimPrefix_app SharePrefix (rawurl_EncodeToString text)) as [Hp Ht].
  unfold parseShare. rewrite Hp, Ht, rawurl_roundtrip. cbn [of_option mbind result_bind check]. rewrite Hj.
  cbn [of_option mbind result_bind]. rewrite Hd. cbn [map_err mbind result_bind]. by rewrite Hs.
Qed.

(** ** Lemmas: the loop over the shares *)

(** A point as [Create] hands it out. *)
Definition fair_point (shares : Z) (p : sharePoint) : Prop :=
  1 <= sp_index p <= shares /\ Forall is_byte (sp_value p).

Lemma share_of_ok packageID shares p :
  validIdentifier packageID = true -> shares <= 255 -> fair_point shares p -> share_ok (share_of packageID p).
Proof.
  intros Hid Hs [Hi _]. unfold share_ok, int64_max. simpl. split_and!; try (done || lia).
  - by apply ascii_valid, identifier_ascii.
  - apply ascii_valid, b64_ascii.
Qed.

Lemma add_share_point metadata st p :
  validIdentifier (pm_PackageID metadata) = true -> pm_Shares metadata <= 255 ->
  fair_point (pm_Shares metadata) p -> sp_index p ∉ st.1 ->
  add_share metadata st (encodeShare (share_of (pm_PackageID metadata) p)) = Ok (sp_index p :: st.1, st.2 ++ [p]).
Proof.
  intros Hid Hs Hp Hni. pose proof (share_of_ok _ _ _ Hid Hs Hp) as Hok. destruct Hp as [Hi Hv].
  unfold add_share. rewrite parseShare_encodeShare by done. cbn [mbind result_bind share_of sh_PackageID sh_Index sh_Value].
  rewrite String.eqb_refl. cbn [check mbind result_bind].
  destruct (Z.leb_spec (sp_index p) 0); [lia|]. destruct (Z.ltb_spec (pm_Shares metadata) (sp_index p)); [lia|].
  cbn [orb negb check mbind result_bind]. rewrite Z.mod_small by lia.
  destruct (existsb (Z.eqb (sp_index p)) st.1) eqn:E.
  { apply existsb_exists in E as (y & Hy%list_elem_of_In & <-%Z.eqb_eq). done. }
  cbn [negb check mbind result_bind]. rewrite b64_roundtrip. cbn [of_option mbind result_bind].
  rewrite byte_list_of by done. by destruct p.
Qed.

Lemma add_shares metadata st ps :
  validIdentifier (pm_PackageID metadata) = true -> pm_Shares metadata <= 255 ->
  Forall (fun p => fair_point (pm_Shares metadata) p /\ sp_index p ∉ st.1) ps -> NoDup (sp_index <$> ps) ->
  exists seen, foldR (add_share metadata) st ((fun p => encodeShare (share_of (pm_PackageID metadata) p)) <$> ps)
    = Ok (seen, st.2 ++ ps).
Proof.
  intros Hid Hs. revert st; induction ps as [|p r IH]; intros st Hall Hnd.
  - exists (st.1). simpl. rewrite app_nil_r. by destruct st.
  - apply Forall_cons in Hall as [[Hp Hni] Hall]. cbn [fmap list_fmap] in Hnd |- *. apply NoDup_cons in Hnd as [Hpr Hnd].
    cbn [foldR]. rewrite add_share_point by done. cbn [mbind result_bind].
    destruct (IH (sp_index p :: st.1, st.2 ++ [p])) as (seen & E); [|done|].
    + rewrite Forall_forall in *. intros q Hq. destruct (Hall q Hq) as [Hf Hn]. split; [done|].
      simpl. intros [He|]%elem_of_cons; [|done]. apply Hpr. rewrite <- He. by apply list_elem_of_fmap_2.
    + exists seen. rewrite E. simpl. by rewrite <- app_assoc.
Qed.

Lemma subset_of_fmap {A B} (f : A -> B) (ys : list B) (l : list A) :
  ys ⊆ f <$> l -> exists xs : list A, ys = f <$> xs /\ xs ⊆ l.
Proof.
  induction ys as [|y r IH]; intros Hs; [exists []; split; [done | intros ? []%not_elem_of_nil]|].
  destruct (proj1 (list_elem_of_fmap f l y)) as (x & -> & Hx); [apply Hs; left|].
  destruct IH as (xs & -> & Hxs); [intros z Hz; apply Hs; by right|].
  exists (x :: xs). split; [done|]. intros z [->|Hz]%elem_of_cons; [done | by apply Hxs].
Qed.

Lemma Validate_created packageID clusterID keyID secret threshold shares now :
  validateCreateInputs packageID clusterID keyID secret threshold shares = Ok tt -> time_ok now ->
  PackageMetadata_Validate (mkPackageMetadata SchemaVersion packageID clusterID keyID (FormatRFC3339Nano now)
    threshold shares "none" AlgorithmAES256GCM (checksum secret) ["recover-enroll"%string]) = Ok tt.
Proof.
  intros Hv Ht. unfold validateCreateInputs in Hv. inv_ok. units. unfold PackageMetadata_Validate. simpl.
  repeat match goal with E : ValidateIdentifier _ = Ok _ |- _ => rewrite E; clear E; cbn [map_err mbind result_bind] end.
  match goal with E : negb _ = true |- _ => rewrite E end. cbn [check mbind result_bind].
  rewrite ParseRFC3339Nano_Format by done. unfold checksum, HasPrefix. by rewrite prefix_app.
Qed.

Lemma valid_inputs packageID clusterID keyID secret threshold shares :
  validateCreateInputs packageID clusterID keyID secret threshold shares = Ok tt ->
  validIdentifier packageID = true /\ 1 <= threshold <= shares /\ shares <= 255.
Proof.
  unfold validateCreateInputs. intros Hv. inv_ok. to_prop.
  match goal with E : ValidateIdentifier packageID = Ok _ |- _ => unfold ValidateIdentifier in E; apply check_Ok in E end.
  repeat match goal with E : _ || _ = false |- _ => apply orb_false_iff in E as [? ?] end. to_prop. split; [done | lia].
Qed.

(** ** Properties *)

(** The point [Create] makes for an index is one [Recover] accepts. *)
Lemma created_point secret random t shares x :
  0 <= shares <= 255 -> Forall is_byte random -> x ∈ indices shares ->
  fair_point shares (point_of (columns t (byte_list secret) random) x).
Proof.
  intros Hs Hr Hx. pose proof (index_byte shares x Hs Hx) as [Hb _]. split.
  - by apply indices_elem in Hx.
  - apply value_byte; [|done]. apply columns_byte; [apply byte_list_bytes | done].
Qed.

(** Different indices make different shares. *)
Lemma created_shares_distinct packageID shares cols xs :
  validIdentifier packageID = true -> shares <= 255 -> NoDup xs ->
  Forall (fun x => fair_point shares (point_of cols x)) xs ->
  NoDup ((fun p => encodeShare (share_of packageID p)) <$> (point_of cols <$> xs)).
Proof.
  intros Hid Hs Hnd Hf. rewrite <- list_fmap_compose. rewrite Forall_forall in Hf. apply NoDup_fmap_2_strong; [|done].
  unfold compose. intros x y Hx Hy He. apply (f_equal parseShare) in He.
  rewrite !parseShare_encodeShare in He by (by eapply share_of_ok, Hf). by injection He.
Qed.

(** The package that [Create] makes. *)
Definition created (packageID clusterID keyID : string) (secret : bytes) (threshold shares : Z) (now : Time)
    (random : list Z) : Package :=
  mkPackage (mkPackageMetadata SchemaVersion packageID clusterID keyID (FormatRFC3339Nano now) threshold shares "none"
      AlgorithmAES256GCM (checksum secret) ["recover-enroll"%string])
    ((fun point => encodeShare (share_of packageID point)) <$>
       (point_of (columns (Z.to_nat threshold) (byte_list secret) random) <$> indices shares)).

Lemma Create_Ok packageID clusterID keyID secret threshold shares now random pkg :
  Create packageID clusterID keyID secret threshold shares now random = Ok pkg <->
  validateCreateInputs packageID clusterID keyID secret threshold shares = Ok tt /\
  (Z.to_nat (threshold - 1) * String.length secret <= length random)%nat /\
  pkg = created packageID clusterID keyID secret threshold shares now random.
Proof.
  unfold Create. destruct (validateCreateInputs _ _ _ _ _ _) as [[]|] eqn:Hv; [|by split; [|intros []]].
  pose proof (valid_inputs _ _ _ _ _ _ Hv) as (_ & Hth & _). cbn [mbind result_bind].
  assert (Z.to_nat (threshold - 1) = (Z.to_nat threshold - 1)%nat) as -> by lia. rewrite <- byte_list_length.
  destruct (Nat.le_gt_cases ((Z.to_nat threshold - 1) * length (byte_list secret)) (length random)) as [Hl|Hl].
  - rewrite splitSecret_spec by (done || lia). cbn [mbind result_bind fst]. split.
    + by intros [= <-].
    + by intros (_ & _ & ->).
  - destruct (split_short threshold (byte_list secret) random (first_points shares)) as [e He]; [lia | done|].
    unfold splitSecret. rewrite He. split; [done | intros (_ & ? & _); lia].
Qed.

(** Any [threshold] shares of a package or more, in any order, give the secret back. *)
Lemma Recover_chosen packageID clusterID keyID secret threshold shares now random pkg chosen :
  Create packageID clusterID keyID secret threshold shares now random = Ok pkg -> time_ok now ->
  Forall is_byte random -> NoDup chosen -> chosen ⊆ pkg_Shares pkg -> threshold <= Z.of_nat (length chosen) ->
  Recover (pkg_Metadata pkg) chosen = Ok secret.
Proof.
  intros (Hv & Hl & ->)%Create_Ok Ht Hr Hnd Hc Hn. pose proof (valid_inputs _ _ _ _ _ _ Hv) as (Hid & Hth & Hs).
  unfold created in *. cbn [pkg_Shares pkg_Metadata] in *. set (t := Z.to_nat threshold) in *.
  assert (Z.to_nat (threshold - 1) = (t - 1)%nat) as Et by lia. rewrite Et in Hl.
  set (cols := columns t (byte_list secret) random) in *.
  assert (Forall (fun x => fair_point shares (point_of cols x)) (indices shares)) as Hfair.
  { apply Forall_forall. intros x Hx. apply created_point; [lia | done..]. }
  rewrite <- list_fmap_compose in Hc. apply subset_of_fmap in Hc as (xs & -> & Hxs).
  apply NoDup_fmap_1 in Hnd. rewrite length_fmap in Hn. unfold Recover. rewrite Validate_created by done.
  cbn [pm_Threshold mbind result_bind]. rewrite length_fmap, (proj2 (Z.ltb_ge _ _) Hn). cbn [negb check mbind result_bind].
  rewrite (list_fmap_compose (point_of cols)).
  edestruct (add_shares (mkPackageMetadata SchemaVersion packageID clusterID keyID (FormatRFC3339Nano now)
    threshold shares "none" AlgorithmAES256GCM (checksum secret) ["recover-enroll"%string]) ([], []) (point_of cols <$> xs))
    as (seen & E); [done | done | | by rewrite <- list_fmap_compose, list_fmap_id |].
  { apply Forall_fmap, Forall_forall. intros x Hx. rewrite Forall_forall in Hfair.
    split; [by apply Hfair, Hxs | apply not_elem_of_nil]. }
  cbn [pm_PackageID] in E. rewrite E. cbn [mbind result_bind snd app].
  rewrite length_fmap, (proj2 (Z.ltb_ge _ _) Hn). cbn [negb check mbind result_bind]. rewrite <- fmap_take.
  rewrite (combine_columns (byte_list secret) random t shares).
  - cbn [mbind result_bind pm_SecretChecksum]. by rewrite bytes_of_list, String.eqb_refl.
  - lia.
  - apply byte_list_bytes.
  - done.
  - by rewrite byte_list_length.
  - eapply sublist_NoDup; [done | apply sublist_take].
  - intros x Hx. apply Hxs. by apply subseteq_take in Hx.
  - rewrite length_take. lia.
Qed.

(** C14: on valid input and with enough random bytes [Create] succeeds and hands out
    as many different shares as asked for; any [threshold] of them or more, in any
    order, make [Recover] return the secret. *)
Theorem Recover_Create packageID clusterID keyID secret threshold shares now random :
  validateCreateInputs packageID clusterID keyID secret threshold shares = Ok tt ->
  time_ok now -> Forall is_byte random ->
  (Z.to_nat (threshold - 1) * String.length secret <= length random)%nat ->
  exists pkg, Create packageID clusterID keyID secret threshold shares now random = Ok pkg /\
    Z.of_nat (length (pkg_Shares pkg)) = shares /\ NoDup (pkg_Shares pkg) /\
    forall chosen, NoDup chosen -> chosen ⊆ pkg_Shares pkg -> threshold <= Z.of_nat (length chosen) ->
      Recover (pkg_Metadata pkg) chosen = Ok secret.
Proof.
  intros Hv Ht Hr Hl. pose proof (valid_inputs _ _ _ _ _ _ Hv) as (Hid & Hth & Hs).
  eexists. assert (Create packageID clusterID keyID secret threshold shares now random = Ok _) as Hc by (by apply Create_Ok).
  split; [exact Hc|]. split_and!.
  - unfold created, indices. cbn [pkg_Shares]. rewrite !length_fmap, length_seq. lia.
  - unfold created. cbn [pkg_Shares].
    apply (created_shares_distinct packageID shares); [done | done | apply indices_NoDup; lia |].
    apply Forall_forall. intros x Hx. apply created_point; [lia | done..].
  - intros chosen. by eapply Recover_chosen.
Qed.
(** The share and the point an accepted text stands for. *)
Definition accepted (metadata : PackageMetadata) (encoded : string) (p : sharePoint) : Prop :=
  exists share value, parseShare encoded = Ok share /\ sh_PackageID share = pm_PackageID metadata /\
    1 <= sh_Index share <= pm_Shares metadata /\ b64_DecodeString (sh_Value share) = Some value /\
    p = mkPoint (sh_Index share) (byte_list value).

Lemma add_share_Ok metadata st encoded st' :
  pm_Shares metadata <= 255 -> add_share metadata st encoded = Ok st' ->
  exists p, accepted metadata encoded p /\ sp_index p ∉ st.1 /\ st' = (sp_index p :: st.1, st.2 ++ [p]).
Proof.
  unfold add_share. intros Hs He. inv_ok. to_prop.
  repeat match goal with E : _ || _ = false |- _ => apply orb_false_iff in E as [? ?] end. to_prop.
  match goal with E : parseShare _ = Ok ?sh |- _ => rename sh into share end.
  match goal with E : b64_DecodeString _ = Some ?v |- _ => rename v into value end.
  rewrite Z.mod_small in * by lia. exists (mkPoint (sh_Index share) (byte_list value)). split_and!.
  - exists share, value. split_and!; (done || lia).
  - simpl. intros Hin%list_elem_of_In.
    match goal with E : existsb _ _ = false |- _ => apply not_true_iff_false in E; apply E end.
    apply existsb_exists. eexists. split; [exact Hin | apply Z.eqb_refl].
  - done.
Qed.

Lemma add_shares_Ok metadata st encs st' :
  pm_Shares metadata <= 255 -> foldR (add_share metadata) st encs = Ok st' ->
  exists ps, Forall2 (accepted metadata) encs ps /\ st'.2 = st.2 ++ ps /\
    (NoDup st.1 -> NoDup (reverse (sp_index <$> ps) ++ st.1)).
Proof.
  intros Hs. revert st; induction encs as [|enc r IH]; intros st He; cbn [foldR] in He.
  - inv_ok. exists []. split_and!; [constructor | by rewrite app_nil_r | done].
  - inv_ok. match goal with E : add_share _ _ _ = Ok _ |- _ => apply add_share_Ok in E as (p & Hp & Hni & ->) end; [|done].
    match goal with E : foldR _ _ _ = Ok _ |- _ => apply IH in E as (ps & Hps & Hst & Hnd) end.
    exists (p :: ps). split_and!; [by constructor | rewrite Hst; simpl; by rewrite <- app_assoc |].
    intros Hn. cbn [fmap list_fmap]. rewrite reverse_cons, <- app_assoc. apply Hnd. by apply NoDup_cons.
Qed.

Lemma parseShare_Err encoded e : parseShare encoded = Err e -> errors_Is e ErrInvalidShare = true.
Proof.
  unfold parseShare, check. destruct (HasPrefix _ _); simpl; [|by intros [= <-]].
  destruct (rawurl_DecodeString _); simpl; [|by intros [= <-]]. destruct (json_Parse _); simpl; [|by intros [= <-]].
  destruct (decode_struct _ _ _); simpl; [|by intros [= <-]]. case_goal; simpl; [done | by intros [= <-]].
Qed.

Lemma add_share_Err metadata st encoded e :
  add_share metadata st encoded = Err e -> errors_Is e ErrInvalidShare = true.
Proof.
  unfold add_share, check. destruct (parseShare encoded) as [share|e'] eqn:E; cbn [mbind result_bind].
  - destruct (String.eqb _ _); cbn [mbind result_bind]; [|by intros [= <-]].
    destruct (negb ((_ <=? _) || _)); cbn [mbind result_bind]; [|by intros [= <-]].
    destruct (negb (existsb _ _)); cbn [mbind result_bind]; [|by intros [= <-]].
    destruct (b64_DecodeString _); simpl; [done | by intros [= <-]].
  - intros [= <-]. by eapply parseShare_Err.
Qed.

Lemma add_shares_Err metadata st encs e :
  foldR (add_share metadata) st encs = Err e -> errors_Is e ErrInvalidShare = true.
Proof.
  revert st; induction encs as [|enc r IH]; intros st; cbn [foldR]; [done|].
  destruct (add_share metadata st enc) eqn:E; cbn [mbind result_bind]; [apply IH|].
  intros [= <-]. by eapply add_share_Err.
Qed.

Lemma Validate_Err m e : PackageMetadata_Validate m = Err e -> errors_Is e ErrInvalidPackage = true.
Proof.
  unfold PackageMetadata_Validate.
  repeat (rewrite bind_Err; intros [He|(? & _ & He)]; revert He); rewrite ?map_err_Err, ?check_Err, ?of_option_Err;
    try (by intros (_ & _ & ->)); by intros (_ & ->).
Qed.

Lemma Validate_bounds m : PackageMetadata_Validate m = Ok tt -> 1 <= pm_Threshold m <= pm_Shares m /\ pm_Shares m <= 255.
Proof.
  unfold PackageMetadata_Validate. intros Hv. inv_ok. to_prop.
  repeat match goal with E : _ || _ = false |- _ => apply orb_false_iff in E as [? ?] end. to_prop. lia.
Qed.
Lemma accepted_bytes metadata encs ps :
  pm_Shares metadata <= 255 -> Forall2 (accepted metadata) encs ps -> byte_points ps.
Proof.
  intros Hs Hf. unfold byte_points. apply Forall_forall. intros p Hp.
  apply list_elem_of_lookup in Hp as [i Hi]. destruct (Forall2_lookup_r _ _ _ _ _ Hf Hi) as (enc & _ & share & value & _ & _ & Hx & _ & ->).
  simpl. split; [unfold is_byte; lia | apply byte_list_bytes].
Qed.

(** C33: what [Recover] returns for any metadata and any texts.  A secret comes from
    valid metadata and at least [threshold] texts, each a share of this package with
    an index of its own in range, and it has the recorded checksum; every failure is
    one of the three sentinel errors, for its own reason. *)
Theorem Recover_outcome metadata encoded :
  match Recover metadata encoded with
  | Ok secret =>
      PackageMetadata_Validate metadata = Ok tt /\ pm_Threshold metadata <= Z.of_nat (length encoded) /\
      checksum secret = pm_SecretChecksum metadata /\
      exists points, Forall2 (accepted metadata) encoded points /\ NoDup (sp_index <$> points) /\
        combineShares (take (Z.to_nat (pm_Threshold metadata)) points) = Ok (byte_list secret)
  | Err e =>
      PackageMetadata_Validate metadata = Err e /\ errors_Is e ErrInvalidPackage = true \/
      PackageMetadata_Validate metadata = Ok tt /\
        (Z.of_nat (length encoded) < pm_Threshold metadata /\ e = ErrThreshold \/
         pm_Threshold metadata <= Z.of_nat (length encoded) /\ errors_Is e ErrInvalidShare = true)
  end.
Proof.
  unfold Recover. destruct (PackageMetadata_Validate metadata) as [[]|e] eqn:Ev; cbn [mbind result_bind];
    [|left; split; [done | by eapply Validate_Err]].
  pose proof (Validate_bounds _ Ev) as [Ht Hs].
  destruct (Z.ltb_spec (Z.of_nat (length encoded)) (pm_Threshold metadata)) as [Hlt|Hge]; cbn [negb check mbind result_bind];
    [by right; split; [|left]|].
  destruct (foldR (add_share metadata) ([], []) encoded) as [st|e] eqn:Ef; cbn [mbind result_bind];
    [|right; split; [done | right; split; [done | by eapply add_shares_Err]]].
  apply add_shares_Ok in Ef as (ps & Hps & Hst & Hnd); [|done]. simpl in Hst. rewrite Hst.
  pose proof (Forall2_length _ _ _ Hps) as Hlen. rewrite <- Hlen, (proj2 (Z.ltb_ge _ _) Hge). cbn [negb check mbind result_bind].
  pose proof (Forall_take _ (Z.to_nat (pm_Threshold metadata)) _ (accepted_bytes _ _ _ Hs Hps)) as Hb.
  destruct (take (Z.to_nat (pm_Threshold metadata)) ps) as [|first r] eqn:Etake.
  { apply (f_equal length) in Etake. rewrite length_take in Etake. simpl in Etake. lia. }
  destruct (combine_cases first r Hb) as [(n & _ & Hc)|(e & Hc & He)]; rewrite Hc; cbn [mbind result_bind];
    [|right; split; [done | right; by split]].
  set (sec := _ <$> seq 0 n) in *.
  assert (Forall is_byte sec) as Hsec by (apply Forall_fmap, Forall_forall; intros o _; apply gf256_byte).
  destruct (String.eqb_spec (checksum (bytes_of sec)) (pm_SecretChecksum metadata)) as [Hck|_]; cbn [check mbind result_bind];
    [|right; split; [done | right; by split]].
  split_and!; try done. exists ps. rewrite Etake, byte_list_of by done. split_and!; try done.
  specialize (Hnd (NoDup_nil_2)). simpl in Hnd. by rewrite app_nil_r, reverse_Permutation in Hnd.
Qed.
End Recovery.

(** ** A package on concrete input *)

Definition example_package : result Package :=
  @Create toy_Hashes "pkg-1" "cluster-a" "root" "k" 2 3 0 [200].

Example example_shares : length (match example_package with Ok p => pkg_Shares p | Err _ => [] end) = 3%nat.
Proof. vm_compute. reflexivity. Qed.

Lemma Recover_Create_witness :
  exists pkg, example_package = Ok pkg /\
    forall a b, a <> b -> a ∈ pkg_Shares pkg -> b ∈ pkg_Shares pkg ->
      @Recover toy_Hashes (pkg_Metadata pkg) [a; b] = Ok "k"%string.
Proof.
  destruct (@Recover_Create toy_Hashes "pkg-1" "cluster-a" "root" "k" 2 3 0 [200]) as (pkg & Hp & _ & _ & Hr);
    [vm_compute; reflexivity | vm_compute; split; congruence | by apply (bool_decide_unpack _) | vm_compute; lia |].
  exists pkg. split; [exact Hp|]. intros a b Hne Ha Hb. apply Hr.
  - apply NoDup_cons. split; [by intros ->%list_elem_of_singleton | apply NoDup_singleton].
  - intros x [->|[->|[]%not_elem_of_nil]%elem_of_cons]%elem_of_cons; done.
  - simpl. lia.
Defined.
