(* ===== verification/NodeEvidence.v ===== *)
(** * Node evidence (internal/nodeevidence: evidence.go, enrollment.go)

    Node-evidence records, node trust enrollments, their normal forms, the
    process-local repositories, and the contract between the enrollment
    repository and its clients as a class that both repositories implement. *)

From S2P Require Import Prelude GoStrings GoTime Keyring KeyProtection Tpm.
From Stdlib Require Import Ascii.
Local Open Scope Z_scope.

Definition ErrNotFound : error := sentinel "nodeevidence.ErrNotFound" "node evidence not found".
Definition ErrStale : error := sentinel "nodeevidence.ErrStale" "node evidence stale".
Definition ErrInvalid : error := sentinel "nodeevidence.ErrInvalid" "node evidence invalid".
Definition ErrEnrollmentNotFound : error :=
  sentinel "nodeevidence.ErrEnrollmentNotFound" "node evidence enrollment not found".
Definition ErrEnrollmentRevoked : error :=
  sentinel "nodeevidence.ErrEnrollmentRevoked" "node evidence enrollment revoked".
Definition ErrEnrollmentChanged : error :=
  sentinel "nodeevidence.ErrEnrollmentChanged" "node evidence enrollment changed".
Definition ErrInvalidEnrollment : error :=
  sentinel "nodeevidence.ErrInvalidEnrollment" "invalid node evidence enrollment".

Definition ProviderFakeLocal : string := "fake-local".
Definition ProviderTPM2Quote : string := "generic-tpm2-quote".
Definition FormatFakeLocal : string := "openbao-attested-unseal.fake-local.v1".

(** [s == ""]. *)
Definition empty (s : string) : bool := String.eqb s EmptyString.

(** [slices.Sort] of strings: byte order. *)
Definition sort_strings (l : list string) : list string := merge_sort String.le l.

(** ** evidence.go: records *)

Record ChallengeRequest := mkChallengeRequest {
  cr_ClusterID : string; cr_NodeName : string; cr_NodeUID : string; cr_Provider : string;
}.

Record NodeChallenge := mkNodeChallenge { nc_ID : string; nc_Nonce : bytes; nc_ExpiresAt : Time }.

Record Submission := mkSubmission {
  sb_ClusterID : string; sb_NodeName : string; sb_NodeUID : string; sb_Provider : string;
  sb_Format : string; sb_Payload : bytes; sb_ChallengeID : string; sb_RequestedTTL : Duration;
}.

Record NodeEvidence := mkNodeEvidence {
  ne_ClusterID : string;
  ne_NodeName : string;
  ne_NodeUID : string;
  ne_Provider : string;
  ne_EvidenceHash : string;
  ne_CollectedAt : Time;
  ne_ExpiresAt : Time;
}.

Definition Normalize (e : NodeEvidence) : result NodeEvidence :=
  let e := mkNodeEvidence (TrimSpace (ne_ClusterID e)) (TrimSpace (ne_NodeName e))
             (TrimSpace (ne_NodeUID e)) (TrimSpace (ne_Provider e)) (TrimSpace (ne_EvidenceHash e))
             (ne_CollectedAt e) (ne_ExpiresAt e) in
  check (negb (empty (ne_ClusterID e) || empty (ne_NodeName e) || empty (ne_Provider e) ||
               empty (ne_EvidenceHash e)))
    (errorw ErrInvalid "cluster_id, node_name, provider, and evidence_hash are required");;
  check (negb (IsZero (ne_CollectedAt e) || IsZero (ne_ExpiresAt e)))
    (errorw ErrInvalid "collected_at and expires_at are required");;
  check (After (ne_ExpiresAt e) (ne_CollectedAt e))
    (errorw ErrInvalid "expires_at must be after collected_at");;
  Ok e.

Definition NormalizeChallengeRequest (r : ChallengeRequest) : result ChallengeRequest :=
  let r := mkChallengeRequest (TrimSpace (cr_ClusterID r)) (TrimSpace (cr_NodeName r))
             (TrimSpace (cr_NodeUID r)) (TrimSpace (cr_Provider r)) in
  check (negb (empty (cr_ClusterID r) || empty (cr_NodeName r) || empty (cr_Provider r)))
    (errorw ErrInvalid "cluster_id, node_name, and provider are required");;
  Ok r.

Definition NormalizeChallenge (c : NodeChallenge) : result NodeChallenge :=
  let c := mkNodeChallenge (TrimSpace (nc_ID c)) (nc_Nonce c) (nc_ExpiresAt c) in
  check (negb (empty (nc_ID c) || empty (nc_Nonce c) || IsZero (nc_ExpiresAt c)))
    (errorw ErrInvalid "challenge id, nonce, and expiry are required");;
  Ok c.

Definition NormalizeSubmission (s : Submission) : result Submission :=
  let s := mkSubmission (TrimSpace (sb_ClusterID s)) (TrimSpace (sb_NodeName s))
             (TrimSpace (sb_NodeUID s)) (TrimSpace (sb_Provider s)) (TrimSpace (sb_Format s))
             (sb_Payload s) (TrimSpace (sb_ChallengeID s)) (sb_RequestedTTL s) in
  check (negb (empty (sb_ClusterID s) || empty (sb_NodeName s) || empty (sb_Provider s)))
    (errorw ErrInvalid "cluster_id, node_name, and provider are required");;
  check (negb (empty (sb_Format s) || empty (sb_Payload s) || empty (sb_ChallengeID s)))
    (errorw ErrInvalid "format, payload, and challenge_id are required");;
  check (0 <? sb_RequestedTTL s) (errorw ErrInvalid "requested_ttl must be greater than zero");;
  Ok s.

Definition nul : string := String Ascii.zero EmptyString.

Definition FakeLocalPayload `{Hashes} (r : ChallengeRequest) (c : NodeChallenge) : result bytes :=
  r ← NormalizeChallengeRequest r;
  let id := TrimSpace (nc_ID c) in
  check (negb (empty id || empty (nc_Nonce c)))
    (errorw ErrInvalid "challenge id and nonce are required");;
  Ok (Sum HashSHA256 (Join [cr_ClusterID r; cr_NodeName r; cr_NodeUID r; cr_Provider r; id;
                            nc_Nonce c] nul)).

(** ** enrollment.go: records *)

Record EnrollmentRequest := mkEnrollmentRequest {
  er_ClusterID : string;
  er_NodeName : string;
  er_NodeUID : string;
  er_Provider : string;
  er_TPMPolicy : TPMPolicy;
  er_PublisherCertificateHashes : list string;
  er_EnrolledAt : Time;
}.

Record Enrollment := mkEnrollment {
  en_ClusterID : string;
  en_NodeName : string;
  en_NodeUID : string;
  en_Provider : string;
  en_TPMPolicy : TPMPolicy;
  en_PublisherCertificateHashes : list string;
  en_Revision : Z;
  en_EnrolledAt : Time;
  en_UpdatedAt : Time;
  en_RevokedAt : Time;
}.

Definition Enrollment_Active (e : Enrollment) : bool := IsZero (en_RevokedAt e).

Definition CanonicalSHA256Digest (value : string) : result string :=
  let prefix := "sha256:"%string in
  check (HasPrefix value prefix) (errorf "SHA-256 digest prefix is required");;
  raw ← of_option (errorf "SHA-256 digest must contain 32 bytes")
          (hex_DecodeString (TrimPrefix value prefix));
  check (len raw =? 32) (errorf "SHA-256 digest must contain 32 bytes");;
  let canonical := prefix +:+ hex_EncodeToString raw in
  check (String.eqb canonical value) (errorf "SHA-256 digest is not canonical");;
  Ok canonical.

(** The loop over the publisher hashes; [seen] are the canonical hashes so far. *)
Fixpoint canonical_hashes (seen : list string) (values : list string) : result (list string) :=
  match values with
  | [] => Ok seen
  | value :: r =>
      canonical ← map_err (fun e => errorw ErrInvalidEnrollment
                             ("invalid publisher certificate hash: " +:+ err_msg e))
                    (CanonicalSHA256Digest value);
      check (negb (bool_decide (canonical ∈ seen)))
        (errorw ErrInvalidEnrollment "duplicate publisher certificate hash");;
      canonical_hashes (seen ++ [canonical]) r
  end.

Definition NormalizeEnrollmentRequest (r : EnrollmentRequest) : result EnrollmentRequest :=
  let cluster := TrimSpace (er_ClusterID r) in
  let node := TrimSpace (er_NodeName r) in
  let uid := TrimSpace (er_NodeUID r) in
  let provider := TrimSpace (er_Provider r) in
  check (negb (empty cluster || empty node || empty uid))
    (errorw ErrInvalidEnrollment "cluster_id, node_name, and node_uid are required");;
  check (String.eqb provider ProviderTPM2Quote)
    (errorw ErrInvalidEnrollment ("unsupported provider " +:+ quoted provider));;
  check (negb (empty (TrimSpace (tp_EnrolledAKPublicHash (er_TPMPolicy r)))))
    (errorw ErrInvalidEnrollment "enrolled AK public hash is required");;
  map_err (fun e => errorw ErrInvalidEnrollment (err_msg e)) (Policy_Validate (er_TPMPolicy r));;
  check (negb (bool_decide (er_PublisherCertificateHashes r = [])))
    (errorw ErrInvalidEnrollment "at least one publisher certificate hash is required");;
  hashes ← canonical_hashes [] (er_PublisherCertificateHashes r);
  check (negb (IsZero (er_EnrolledAt r))) (errorw ErrInvalidEnrollment "enrolled_at is required");;
  Ok (mkEnrollmentRequest cluster node uid provider (er_TPMPolicy r) (sort_strings hashes)
        (er_EnrolledAt r)).

Definition request_of (e : Enrollment) : EnrollmentRequest :=
  mkEnrollmentRequest (en_ClusterID e) (en_NodeName e) (en_NodeUID e) (en_Provider e)
    (en_TPMPolicy e) (en_PublisherCertificateHashes e) (en_EnrolledAt e).

Definition NormalizeEnrollment (e : Enrollment) : result Enrollment :=
  r ← NormalizeEnrollmentRequest (request_of e);
  check (negb ((en_Revision e =? 0) || IsZero (en_UpdatedAt e)))
    (errorw ErrInvalidEnrollment "revision and updated_at are required");;
  check (negb (Before (en_UpdatedAt e) (er_EnrolledAt r)))
    (errorw ErrInvalidEnrollment "updated_at precedes enrolled_at");;
  check (negb (negb (IsZero (en_RevokedAt e)) && Before (en_RevokedAt e) (en_UpdatedAt e)))
    (errorw ErrInvalidEnrollment "revoked_at precedes updated_at");;
  Ok (mkEnrollment (er_ClusterID r) (er_NodeName r) (er_NodeUID r) (er_Provider r) (er_TPMPolicy r)
        (er_PublisherCertificateHashes r) (en_Revision e) (er_EnrolledAt r) (en_UpdatedAt e)
        (en_RevokedAt e)).

Definition AuthorizesPublisher (e : Enrollment) (certificateHash : string) : bool :=
  match CanonicalSHA256Digest certificateHash with
  | Err _ => false
  | Ok canonical => existsb (String.eqb canonical) (en_PublisherCertificateHashes e)
  end.

(** ** evidence.go: the memory repository *)

Abbreviation evidenceKey := (string * string)%type.
Abbreviation Records := (gmap evidenceKey NodeEvidence).

Definition key_of (cluster node : string) : evidenceKey := (TrimSpace cluster, TrimSpace node).

(** Operations take the state and, where the code reads the wall clock, its
    value; they return their result and the new state. *)
Definition mem_PutNodeEvidence (r : Records) (e : NodeEvidence) : result unit * Records :=
  match Normalize e with
  | Err err => (Err err, r)
  | Ok n => (Ok tt, <[(ne_ClusterID n, ne_NodeName n) := n]> r)
  end.

Definition or_now (wall t : Time) : Time := if IsZero t then wall else t.

Definition mem_FreshNodeEvidence (wall : Time) (r : Records) (cluster node : string) (now : Time)
  : result NodeEvidence :=
  let now := or_now wall now in
  match r !! key_of cluster node with
  | None => Err ErrNotFound
  | Some e => if negb (After (ne_ExpiresAt e) now) then Err ErrStale else Ok e
  end.

Definition mem_NodeEvidence (r : Records) (cluster node : string) : result NodeEvidence :=
  of_option ErrNotFound (r !! key_of cluster node).

(** The entries in map order, which Go leaves unspecified. *)
Definition mem_ListNodeEvidence (r : Records) (cluster node : string) : result (list NodeEvidence) :=
  let cluster := TrimSpace cluster in
  let node := TrimSpace node in
  let out := snd <$> filter (fun p : evidenceKey * NodeEvidence =>
               p.1.1 = cluster /\ (node = EmptyString \/ p.1.2 = node)) (map_to_list r) in
  match out with [] => Err ErrNotFound | _ => Ok out end.

Definition mem_PruneNodeEvidence (wall : Time) (r : Records) (cluster : string) (expiredBefore : Time)
  : result Z * Records :=
  let cluster := TrimSpace cluster in
  let cutoff := or_now wall expiredBefore in
  let expired := filter (fun p : evidenceKey * NodeEvidence =>
                   p.1.1 = cluster /\ Before (ne_ExpiresAt p.2) cutoff = true) r in
  (Ok (Z.of_nat (size expired)), r ∖ expired).

(** ** enrollment.go: the memory repository

    The repository shares the evidence repository it invalidates; [m_evidence] is
    [None] for a nil pointer. *)

Record MemEnroll := mkMemEnroll {
  m_enrollments : gmap evidenceKey Enrollment;
  m_evidence : option Records;
}.

Definition deleteEvidence (key : evidenceKey) (ev : option Records) : option Records :=
  delete key <$> ev.

Definition enrollment_of (r : EnrollmentRequest) (revision : Z) : Enrollment :=
  mkEnrollment (er_ClusterID r) (er_NodeName r) (er_NodeUID r) (er_Provider r) (er_TPMPolicy r)
    (er_PublisherCertificateHashes r) revision (er_EnrolledAt r) (er_EnrolledAt r) 0.

Definition mem_EnrollNodeEvidence (m : MemEnroll) (req : EnrollmentRequest)
  : result Enrollment * MemEnroll :=
  match NormalizeEnrollmentRequest req with
  | Err e => (Err e, m)
  | Ok r =>
      let key := (er_ClusterID r, er_NodeName r) in
      let revision := match m_enrollments m !! key with
                      | Some current => wrap_uint64 (en_Revision current + 1)
                      | None => 1
                      end in
      let enrollment := enrollment_of r revision in
      (Ok enrollment,
       mkMemEnroll (<[key := enrollment]> (m_enrollments m)) (deleteEvidence key (m_evidence m)))
  end.

Definition revoked (e : Enrollment) (now : Time) : Enrollment :=
  mkEnrollment (en_ClusterID e) (en_NodeName e) (en_NodeUID e) (en_Provider e) (en_TPMPolicy e)
    (en_PublisherCertificateHashes e) (wrap_uint64 (en_Revision e + 1)) (en_EnrolledAt e) now now.

Definition mem_RevokeNodeEvidence (m : MemEnroll) (cluster node : string) (now : Time)
  : result Enrollment * MemEnroll :=
  if IsZero now then (Err (errorw ErrInvalidEnrollment "revocation time is required"), m)
  else
    let key := key_of cluster node in
    match m_enrollments m !! key with
    | None => (Err ErrEnrollmentNotFound, m)
    | Some e =>
        if negb (Enrollment_Active e) then (Err ErrEnrollmentRevoked, m)
        else (Ok (revoked e now),
              mkMemEnroll (<[key := revoked e now]> (m_enrollments m))
                (deleteEvidence key (m_evidence m)))
    end.

Definition mem_ActiveNodeEvidenceEnrollment (m : MemEnroll) (cluster node : string)
  : result Enrollment :=
  match m_enrollments m !! key_of cluster node with
  | None => Err ErrEnrollmentNotFound
  | Some e => if negb (Enrollment_Active e) then Err ErrEnrollmentRevoked else NormalizeEnrollment e
  end.

Definition node_le (a b : Enrollment) : Prop := String.le (en_NodeName a) (en_NodeName b).
Global Instance node_le_dec : RelDecision node_le.
Proof. intros a b. unfold node_le. apply _. Defined.

Definition mem_ListNodeEvidenceEnrollments (m : MemEnroll) (cluster node : string)
  (includeRevoked : bool) : result (list Enrollment) :=
  let cluster := TrimSpace cluster in
  let node := TrimSpace node in
  let hits := snd <$> filter (fun p : evidenceKey * Enrollment =>
                p.1.1 = cluster /\ (node = EmptyString \/ p.1.2 = node) /\
                (includeRevoked = true \/ Enrollment_Active p.2 = true))
                (map_to_list (m_enrollments m)) in
  out ← mapR NormalizeEnrollment hits;
  match out with [] => Err ErrEnrollmentNotFound | _ => Ok (merge_sort node_le out) end.

Definition mem_PutEnrolledNodeEvidence (m : MemEnroll) (e : NodeEvidence) (revision : Z)
  : result unit * MemEnroll :=
  let key := (ne_ClusterID e, ne_NodeName e) in
  match m_enrollments m !! key with
  | None => (Err ErrEnrollmentChanged, m)
  | Some en =>
      if negb (Enrollment_Active en) || negb (en_Revision en =? revision)
      then (Err ErrEnrollmentChanged, m)
      else match m_evidence m with
           | None => (Err (errorw ErrInvalidEnrollment "evidence repository is nil"), m)
           | Some r =>
               let '(res, r') := mem_PutNodeEvidence r e in
               (res, mkMemEnroll (m_enrollments m) (Some r'))
           end
  end.

(** ** The contract of an enrollment repository

    Enroll and Revoke must invalidate previously verified evidence for the node;
    PutEnrolledNodeEvidence must reject records whose enrollment revision is no
    longer active.  [StoredEnrollment] is the stored record of a node, if any, and
    [er_inv] the repository's own state invariant. *)

Class EnrollmentRepository (St : Type) := {
  EnrollNodeEvidence : St -> EnrollmentRequest -> result Enrollment * St;
  RevokeNodeEvidence : St -> string -> string -> Time -> result Enrollment * St;
  ActiveNodeEvidenceEnrollment : St -> string -> string -> result Enrollment;
  PutEnrolledNodeEvidence : St -> NodeEvidence -> Z -> result unit * St;
  StoredNodeEvidence : St -> string -> string -> result NodeEvidence;
  StoredEnrollment : St -> string -> string -> option Enrollment;
}.

Class EnrollmentContract (St : Type) `{EnrollmentRepository St} := {
  er_inv : St -> Prop;
  er_enroll_inv st r : er_inv st -> time_ok (er_EnrolledAt r) -> er_inv (EnrollNodeEvidence st r).2;
  er_revoke_inv st c n t : er_inv st -> time_ok t -> er_inv (RevokeNodeEvidence st c n t).2;
  er_put_inv st e rev : er_inv st -> er_inv (PutEnrolledNodeEvidence st e rev).2;
  er_enroll_invalidates st r en st' :
    er_inv st -> EnrollNodeEvidence st r = (Ok en, st') ->
    StoredNodeEvidence st' (er_ClusterID r) (er_NodeName r) = Err ErrNotFound;
  er_revoke_invalidates st c n t en st' :
    er_inv st -> time_ok t -> RevokeNodeEvidence st c n t = (Ok en, st') ->
    StoredNodeEvidence st' c n = Err ErrNotFound /\
    ActiveNodeEvidenceEnrollment st' c n = Err ErrEnrollmentRevoked /\
    exists en', StoredEnrollment st' c n = Some en' /\ Enrollment_Active en' = false;
  er_put_checked st e rev st' :
    er_inv st -> 0 <= rev -> PutEnrolledNodeEvidence st e rev = (Ok tt, st') ->
    exists en, StoredEnrollment st (ne_ClusterID e) (ne_NodeName e) = Some en /\
      Enrollment_Active en = true /\ en_Revision en = rev;
}.

(** ** Normal forms *)

Lemma Normalize_fixed e n :
  Normalize e = Ok n ->
  Normalize n = Ok n /\ TrimSpace (ne_ClusterID n) = ne_ClusterID n /\
  TrimSpace (ne_NodeName n) = ne_NodeName n /\
  ne_ClusterID n = TrimSpace (ne_ClusterID e) /\ ne_NodeName n = TrimSpace (ne_NodeName e) /\
  ne_CollectedAt n < ne_ExpiresAt n /\ ne_ExpiresAt n <> 0 /\ ne_CollectedAt n <> 0.
Proof.
  unfold Normalize. cbv zeta. cbn [ne_ClusterID ne_NodeName ne_NodeUID ne_Provider ne_EvidenceHash
    ne_CollectedAt ne_ExpiresAt]. intros H. inv_ok. simpl. autorewrite with unseal. units.
  use_eqs. cbn. unfold After, IsZero in *. to_prop. done.
Qed.

Lemma CanonicalSHA256Digest_id v c : CanonicalSHA256Digest v = Ok c -> c = v.
Proof. unfold CanonicalSHA256Digest. intros H. inv_ok. to_prop. done. Qed.

Lemma canonical_hashes_Ok seen values out :
  NoDup seen ->
  canonical_hashes seen values = Ok out <->
  out = seen ++ values /\ Forall (fun v => CanonicalSHA256Digest v = Ok v) values /\
  NoDup (seen ++ values).
Proof.
  revert seen; induction values as [|v values IH]; intros seen Hnd; cbn [canonical_hashes].
  - rewrite app_nil_r. split; [by intros [= ->] | by intros (-> & _)].
  - destruct (CanonicalSHA256Digest v) as [c|e] eqn:E.
    2:{ split; [done|]. intros (_ & HF & _). apply Forall_cons in HF as [HF _]. congruence. }
    pose proof (CanonicalSHA256Digest_id _ _ E) as ->. cbn [map_err mbind result_bind].
    rewrite (cons_middle v seen values), app_assoc, Forall_cons.
    assert (v ∉ seen <-> NoDup (seen ++ [v])) as Hni.
    { rewrite NoDup_app. setoid_rewrite list_elem_of_singleton.
      pose proof (NoDup_singleton v). naive_solver. }
    destruct (bool_decide (v ∈ seen)) eqn:Hd; to_prop; cbn [check negb mbind result_bind].
    + split; [done|]. intros (_ & _ & Hnd'). apply NoDup_app in Hnd' as [Hnd' _]. tauto.
    + rewrite IH by (by apply Hni). tauto.
Qed.

Lemma NormalizeEnrollmentRequest_Ok r n :
  NormalizeEnrollmentRequest r = Ok n <->
  TrimSpace (er_ClusterID r) <> EmptyString /\ TrimSpace (er_NodeName r) <> EmptyString /\
  TrimSpace (er_NodeUID r) <> EmptyString /\ TrimSpace (er_Provider r) = ProviderTPM2Quote /\
  TrimSpace (tp_EnrolledAKPublicHash (er_TPMPolicy r)) <> EmptyString /\
  Policy_Validate (er_TPMPolicy r) = Ok tt /\
  er_PublisherCertificateHashes r <> [] /\
  Forall (fun v => CanonicalSHA256Digest v = Ok v) (er_PublisherCertificateHashes r) /\
  NoDup (er_PublisherCertificateHashes r) /\ er_EnrolledAt r <> 0 /\
  n = mkEnrollmentRequest (TrimSpace (er_ClusterID r)) (TrimSpace (er_NodeName r))
        (TrimSpace (er_NodeUID r)) (TrimSpace (er_Provider r)) (er_TPMPolicy r)
        (sort_strings (er_PublisherCertificateHashes r)) (er_EnrolledAt r).
Proof.
  unfold NormalizeEnrollmentRequest, empty, IsZero. split.
  - intros H. inv_ok. units. to_prop.
    match goal with Hc : canonical_hashes _ _ = Ok _ |- _ =>
      apply canonical_hashes_Ok in Hc as (-> & HF & Hnd); [|constructor] end.
    simpl app in *. split_and!; done.
  - intros (H1 & H2 & H3 & H4 & H5 & H6 & H7 & H8 & H9 & H10 & ->).
    apply String.eqb_neq in H1, H2, H3, H5. apply Z.eqb_neq in H10.
    rewrite H1, H2, H3, H4, H5, H6, H10. cbn -[canonical_hashes bool_decide].
    rewrite bool_decide_false by done. cbn -[canonical_hashes].
    by rewrite (proj2 (canonical_hashes_Ok [] _ (er_PublisherCertificateHashes r)
      ltac:(constructor))).
Qed.

Lemma sort_strings_perm l : sort_strings l ≡ₚ l.
Proof. apply merge_sort_Permutation. Qed.

Lemma sort_strings_idem l : sort_strings (sort_strings l) = sort_strings l.
Proof.
  apply (Sorted_unique String.le); [apply (Sorted_merge_sort _) | apply (Sorted_merge_sort _) |].
  apply sort_strings_perm.
Qed.

Lemma NormalizeEnrollmentRequest_idem r n :
  NormalizeEnrollmentRequest r = Ok n -> NormalizeEnrollmentRequest n = Ok n.
Proof.
  intros (H1 & H2 & H3 & H4 & H5 & H6 & H7 & H8 & H9 & H10 & ->)%NormalizeEnrollmentRequest_Ok.
  apply NormalizeEnrollmentRequest_Ok. simpl. autorewrite with unseal.
  rewrite sort_strings_idem. split_and!; try done.
  - intros He. apply H7. apply Permutation_nil_r. rewrite <- He. symmetry. apply sort_strings_perm.
  - by rewrite sort_strings_perm.
  - by rewrite sort_strings_perm.
Qed.

Lemma NormalizeEnrollment_new r n rev :
  NormalizeEnrollmentRequest r = Ok n -> rev <> 0 ->
  NormalizeEnrollment (enrollment_of n rev) = Ok (enrollment_of n rev).
Proof.
  intros Hn Hrev. pose proof (NormalizeEnrollmentRequest_idem _ _ Hn) as Hi.
  pose proof (proj1 (NormalizeEnrollmentRequest_Ok _ _) Hi) as (_ & _ & _ & _ & _ & _ & _ & _ & _ & Ht & _).
  unfold NormalizeEnrollment, enrollment_of, request_of. simpl. destruct n. simpl in *.
  rewrite Hi. cbn [mbind result_bind]. unfold IsZero, Before. cbn [er_EnrolledAt].
  apply Z.eqb_neq in Hrev, Ht. rewrite Hrev, Ht, Z.ltb_irrefl. done.
Qed.

(** ** The memory repository implements the contract *)

Definition trimmed (k : evidenceKey) : Prop := TrimSpace k.1 = k.1 /\ TrimSpace k.2 = k.2.

Global Instance MemEnroll_Repository : EnrollmentRepository MemEnroll := {|
  EnrollNodeEvidence := mem_EnrollNodeEvidence;
  RevokeNodeEvidence := mem_RevokeNodeEvidence;
  ActiveNodeEvidenceEnrollment := mem_ActiveNodeEvidenceEnrollment;
  PutEnrolledNodeEvidence := mem_PutEnrolledNodeEvidence;
  StoredNodeEvidence m c n :=
    match m_evidence m with Some r => mem_NodeEvidence r c n | None => Err ErrNotFound end;
  StoredEnrollment m c n := m_enrollments m !! key_of c n;
|}.

Definition mem_inv (m : MemEnroll) : Prop := forall k en, m_enrollments m !! k = Some en -> trimmed k.

Lemma key_of_trimmed (k : evidenceKey) : trimmed k -> key_of k.1 k.2 = k.
Proof. destruct k as [a b]. intros [H1 H2]. unfold key_of. simpl in *. by rewrite H1, H2. Qed.

Lemma trimmed_key_of c n : trimmed (key_of c n).
Proof. split; apply TrimSpace_idem. Qed.

Lemma mem_inv_insert m k en ev :
  mem_inv m -> trimmed k -> mem_inv (mkMemEnroll (<[k := en]> (m_enrollments m)) ev).
Proof.
  intros Hi Hk k' en' H. simpl in H. apply lookup_insert_Some in H as [[<- _]|[_ H]]; [done|].
  by eapply Hi.
Qed.

Lemma normalized_key r n :
  NormalizeEnrollmentRequest r = Ok n ->
  (er_ClusterID n, er_NodeName n) = key_of (er_ClusterID r) (er_NodeName r).
Proof. intros (_ & _ & _ & _ & _ & _ & _ & _ & _ & _ & ->)%NormalizeEnrollmentRequest_Ok. done. Qed.

Global Program Instance MemEnroll_Contract : EnrollmentContract MemEnroll := {| er_inv := mem_inv |}.
Next Obligation.
  intros m r Hi _. simpl. unfold mem_EnrollNodeEvidence.
  destruct (NormalizeEnrollmentRequest r) as [n|] eqn:E; [|done].
  apply mem_inv_insert; [done|]. rewrite (normalized_key _ _ E). apply trimmed_key_of.
Qed.
Next Obligation.
  intros m c n t Hi _. simpl. unfold mem_RevokeNodeEvidence. repeat case_goal; try done.
  apply mem_inv_insert; [done|]. apply trimmed_key_of.
Qed.
Next Obligation.
  intros m e rev Hi. simpl. unfold mem_PutEnrolledNodeEvidence.
  by repeat case_goal.
Qed.
Next Obligation.
  intros m r en m' Hi. simpl. unfold mem_EnrollNodeEvidence.
  destruct (NormalizeEnrollmentRequest r) as [n|] eqn:E; [|done]. intros [= _ <-]. simpl.
  rewrite (normalized_key _ _ E). unfold mem_NodeEvidence.
  destruct (m_evidence m); simpl; [|done]. by rewrite lookup_delete_eq.
Qed.
Next Obligation.
  intros m c n t en m' Hi _. simpl. unfold mem_RevokeNodeEvidence.
  destruct (IsZero t) eqn:Ht; [done|].
  destruct (m_enrollments m !! key_of c n) as [en0|]; [|done].
  destruct (Enrollment_Active en0); [|done]. simpl. intros [= _ <-]. simpl. split_and!.
  - unfold mem_NodeEvidence. destruct (m_evidence m); simpl; [|done]. by rewrite lookup_delete_eq.
  - unfold mem_ActiveNodeEvidenceEnrollment. simpl. rewrite lookup_insert_eq.
    unfold Enrollment_Active. simpl. by rewrite Ht.
  - eexists. rewrite lookup_insert_eq. split; [done|]. exact Ht.
Qed.
Next Obligation.
  intros m e rev m' Hi _. simpl. unfold mem_PutEnrolledNodeEvidence.
  destruct (m_enrollments m !! _) as [en|] eqn:E; [|done].
  pose proof (key_of_trimmed _ (Hi _ _ E)) as Hk. simpl in Hk. rewrite Hk. clear Hk.
  destruct (Enrollment_Active en) eqn:Ha, (Z.eqb_spec (en_Revision en) rev); simpl; try done.
  intros _. eauto.
Qed.

(** ** Properties of node evidence *)

(** [NormalizeEnrollmentRequest] is idempotent, and what [EnrollNodeEvidence]
    stores for an accepted request is already in the normal form that
    [NormalizeEnrollment] checks when the record is read back. *)
Theorem NormalizeEnrollment_idempotent r n rev :
  NormalizeEnrollmentRequest r = Ok n -> rev <> 0 ->
  NormalizeEnrollmentRequest n = Ok n /\
  NormalizeEnrollment (enrollment_of n rev) = Ok (enrollment_of n rev).
Proof.
  intros Hn Hrev. split; [by eapply NormalizeEnrollmentRequest_idem|].
  by eapply NormalizeEnrollment_new.
Qed.

Definition example_hash (c : Ascii.ascii) : string := "sha256:" +:+ repeat_byte 64 c.

Definition example_request : EnrollmentRequest :=
  mkEnrollmentRequest " cluster-a " "node-1" "uid-1" ProviderTPM2Quote
    (mkTPMPolicy PolicyModeTPMOnly (example_hash "a"%char) None EmptyString)
    [example_hash "c"%char; example_hash "b"%char] 5000000000000.

Lemma NormalizeEnrollment_idempotent_witness :
  exists n, NormalizeEnrollmentRequest example_request = Ok n /\
    NormalizeEnrollmentRequest n = Ok n /\ NormalizeEnrollment (enrollment_of n 3) = Ok (enrollment_of n 3).
Proof.
  eexists. split; [vm_compute; reflexivity|].
  apply (NormalizeEnrollment_idempotent example_request); [vm_compute; reflexivity | lia].
Defined.

(** A sequence of enrollment-repository operations, as a client may interleave
    them. *)
Inductive enroll_op :=
| OpEnroll (r : EnrollmentRequest)
| OpRevoke (cluster node : string) (now : Time)
| OpPut (e : NodeEvidence) (revision : Z).

Definition enroll_op_typed (op : enroll_op) : Prop :=
  match op with
  | OpEnroll r => time_ok (er_EnrolledAt r)
  | OpRevoke _ _ t => time_ok t
  | OpPut _ _ => True
  end.

Definition enroll_step {St} `{EnrollmentRepository St} (st : St) (op : enroll_op) : St :=
  match op with
  | OpEnroll r => (EnrollNodeEvidence st r).2
  | OpRevoke c n t => (RevokeNodeEvidence st c n t).2
  | OpPut e rev => (PutEnrolledNodeEvidence st e rev).2
  end.

(** For every enrollment repository that keeps the contract and every
    sequence of operations on it: right after a successful revocation there is no
    stored evidence for the node, its enrollment reads as revoked, and no
    submission for the node is accepted. *)
Theorem revoked_node_has_no_evidence {St} `{EnrollmentContract St} st0 ops c n t en st' e rev st'' :
  er_inv st0 -> Forall enroll_op_typed ops -> time_ok t ->
  RevokeNodeEvidence (foldl enroll_step st0 ops) c n t = (Ok en, st') ->
  ne_ClusterID e = c -> ne_NodeName e = n -> 0 <= rev ->
  StoredNodeEvidence st' c n = Err ErrNotFound /\
  ActiveNodeEvidenceEnrollment st' c n = Err ErrEnrollmentRevoked /\
  PutEnrolledNodeEvidence st' e rev <> (Ok tt, st'').
Proof.
  intros Hi HF Ht Hr Hc Hn Hrev. assert (er_inv (foldl enroll_step st0 ops)) as Hi'.
  { clear Hr. revert st0 Hi. induction HF as [|op ops Hop _ IH]; intros st0 Hi; [done|]. simpl. apply IH.
    destruct op; simpl in *; [by apply er_enroll_inv | by apply er_revoke_inv | by apply er_put_inv]. }
  destruct (er_revoke_invalidates _ _ _ _ _ _ Hi' Ht Hr) as (H1 & H2 & en1 & Hs1 & Ha1). split_and!; [done..|].
  intros Hp. assert (er_inv st') as Hi2 by (by pose proof (er_revoke_inv _ c n t Hi' Ht) as H3; rewrite Hr in H3).
  destruct (er_put_checked _ _ _ _ Hi2 Hrev Hp) as (en' & Hs & Ha & _).
  rewrite Hc, Hn in Hs. congruence.
Qed.

Definition example_mem : MemEnroll := mkMemEnroll ∅ (Some ∅).
Definition example_node_evidence (t : Time) : NodeEvidence :=
  mkNodeEvidence "cluster-a" "node-1" "uid-1" ProviderTPM2Quote "hash" t (t + Hour).

Definition example_ops : list enroll_op :=
  [OpEnroll example_request; OpPut (example_node_evidence 1000) 1].

Definition example_revoked : result Enrollment * MemEnroll :=
  RevokeNodeEvidence (foldl enroll_step example_mem example_ops) "cluster-a" "node-1" 9000000000000.

Lemma revoked_node_has_no_evidence_witness :
  is_ok example_revoked.1 = true /\
  StoredNodeEvidence example_revoked.2 "cluster-a" "node-1" = Err ErrNotFound /\
  ActiveNodeEvidenceEnrollment example_revoked.2 "cluster-a" "node-1" = Err ErrEnrollmentRevoked /\
  PutEnrolledNodeEvidence example_revoked.2 (example_node_evidence 1000) 2 <> (Ok tt, example_mem).
Proof.
  assert (is_ok example_revoked.1 = true) as Hok by (vm_compute; reflexivity). split; [exact Hok|].
  destruct example_revoked as [[en|e] st'] eqn:E; [|discriminate Hok].
  apply (@revoked_node_has_no_evidence MemEnroll MemEnroll_Repository MemEnroll_Contract example_mem
           example_ops "cluster-a" "node-1" 9000000000000 en st');
    [intros k en' Hk; vm_compute in Hk; discriminate Hk
    | repeat constructor; vm_compute; congruence | vm_compute; split; congruence
    | exact E | reflexivity | reflexivity | lia].
Defined.

(** Pruning removes exactly the records of the (trimmed) cluster that expired
    before the cut-off, reports their number, and leaves every other record as it
    was. *)
Theorem mem_PruneNodeEvidence_exact wall r cluster cutoff k :
  let '(removed, r') := mem_PruneNodeEvidence wall r cluster cutoff in
  r' !! k = (e ← r !! k; if bool_decide (k.1 = TrimSpace cluster) && Before (ne_ExpiresAt e) (or_now wall cutoff)
                         then None else Some e) /\
  removed = Ok (Z.of_nat (size r - size r')).
Proof.
  unfold mem_PruneNodeEvidence. cbv zeta. set (f := fun p : evidenceKey * NodeEvidence => _ /\ _). split.
  - destruct (r !! k) as [e|] eqn:E; simpl.
    + destruct (decide (f (k, e))) as [Hf|Hf].
      * rewrite (proj2 (lookup_difference_None r (filter f r) k)).
        { destruct Hf as [Hk Hb]. simpl in Hk, Hb. by rewrite Hb, bool_decide_true. }
        right. exists e. by apply map_lookup_filter_Some.
      * rewrite lookup_difference, (proj2 (map_lookup_filter_None f r k)) by (right; naive_solver).
        rewrite E. destruct (bool_decide (k.1 = TrimSpace cluster)) eqn:Hk; [|done]. to_prop.
        destruct (Before (ne_ExpiresAt e) (or_now wall cutoff)) eqn:Hb; [|done]. by destruct Hf.
    + rewrite lookup_difference, E. by destruct (filter f r !! k).
  - do 2 f_equal. assert (filter f r ⊆ r) by apply map_filter_subseteq.
    pose proof (map_size_disj_union (filter f r) (r ∖ filter f r) ltac:(by apply map_disjoint_difference_r1)) as Hs.
    rewrite map_difference_union in Hs by done. lia.
Qed.
