(* ===== verification/LocalState.v ===== *)
(** * Local TPM state (internal/tpm/state.go)

    A node may keep its wrapping keys itself: sealed by its TPM, one file per key
    version next to the metadata in JSON, under a directory that nobody else may
    write.  The file system is explicit; the texts of the files are modelled to the
    byte. *)

From S2P Require Import Prelude GoStrings Base64 Json JsonText GoTime Keyring KeyProtection Tpm TpmSeal NodeEvidence.
Local Open Scope Z_scope.

(** ** The file system below a state path

    A path is the list of its components below the state path; the state path itself
    is the empty list.  A path may end in a symbolic link, which [os.Lstat] sees and
    reading, writing and changing the mode follow; among the directories on the way
    there is none: nothing lies below a link. *)

Abbreviation path := (list string).

Inductive node :=
| Dir (perm : Z)
| File (perm : Z) (content : bytes)
| Symlink (target : path).

Abbreviation FS := (gmap path node).

(** What the operating system answers beyond the tree: failures of reads, of writes and
    of changes of the mode. *)
Record OS := mkOS { os_read : path -> result unit; os_write : path -> result unit; os_chmod : path -> result unit }.

Definition no_such_file : error := errorf "no such file or directory".

(** Where a chain of links ends; the system gives up after 40 of them. *)
Fixpoint follow_links (fuel : nat) (fs : FS) (p : path) : result path :=
  match fs !! p with
  | Some (Symlink target) =>
      match fuel with
      | O => Err (errorf "too many levels of symbolic links")
      | S fuel => follow_links fuel fs target
      end
  | _ => Ok p
  end.
Definition resolve (fs : FS) (p : path) : result path := follow_links 40 fs p.

Definition Lstat (os : OS) (fs : FS) (p : path) : result node := os_read os p;; of_option no_such_file (fs !! p).

Definition Stat (os : OS) (fs : FS) (p : path) : result node :=
  os_read os p;; q ← resolve fs p; of_option no_such_file (fs !! q).

(** Permission bits of group and others. *)
Definition perm_of (n : node) : Z := match n with Dir p => p | File p _ => p | Symlink _ => 511 end.
Definition writable_by_others (n : node) : bool := negb (Z.land (perm_of n) 18 =? 0).
Definition accessible_by_others (n : node) : bool := negb (Z.land (perm_of n) 63 =? 0).

Definition ReadFile (os : OS) (fs : FS) (p : path) : result bytes :=
  os_read os p;;
  q ← resolve fs p;
  match fs !! q with
  | Some (File _ content) => Ok content
  | Some _ => Err (errorf "is a directory")
  | None => Err no_such_file
  end.

(** [os.MkdirAll]: the missing directories on the way to [p], from the state path on. *)
Definition make_dir (os : OS) (fs : FS) (p : path) : result FS :=
  match fs !! p with
  | Some (Dir _) => Ok fs
  | Some _ => Err (errorf "not a directory")
  | None => os_write os p;; Ok (<[p := Dir 448]> fs)
  end.

Fixpoint prefixes (done p : path) : list path :=
  match p with
  | [] => [done]
  | c :: r => done :: prefixes (done ++ [c]) r
  end.

(** The first failure ends it; the directories made so far stay. *)
Fixpoint make_dirs (os : OS) (fs : FS) (ps : list path) : result unit * FS :=
  match ps with
  | [] => (Ok tt, fs)
  | p :: r => match make_dir os fs p with Ok fs' => make_dirs os fs' r | Err e => (Err e, fs) end
  end.

Definition MkdirAll (os : OS) (fs : FS) (p : path) : result unit * FS := make_dirs os fs (prefixes [] p).

(** [os.WriteFile]: a file that is there keeps its mode, a new one gets [perm]. *)
Definition WriteFile (os : OS) (fs : FS) (p : path) (content : bytes) (perm : Z) : result unit * FS :=
  match os_write os p;; resolve fs p with
  | Err e => (Err e, fs)
  | Ok q =>
      match fs !! q with
      | Some (File mode _) => (Ok tt, <[q := File mode content]> fs)
      | Some _ => (Err (errorf "is a directory"), fs)
      | None => match fs !! removelast q with
                | Some (Dir _) => (Ok tt, <[q := File perm content]> fs)
                | _ => (Err no_such_file, fs)
                end
      end
  end.

Definition Chmod (os : OS) (fs : FS) (p : path) (perm : Z) : result unit * FS :=
  match os_chmod os p;; resolve fs p with
  | Err e => (Err e, fs)
  | Ok q =>
      match fs !! q with
      | Some (File _ content) => (Ok tt, <[q := File perm content]> fs)
      | Some (Dir _) => (Ok tt, <[q := Dir perm]> fs)
      | _ => (Err no_such_file, fs)
      end
  end.

(** [if err := step; err != nil { return err }] on the file system. *)
Definition then_fs {A : Type} (m : result unit * FS) (k : FS -> result A * FS) : result A * FS :=
  match m with (Ok _, fs) => k fs | (Err e, fs) => (Err e, fs) end.

(** A step whose error is wrapped. *)
Definition wrapped (wrap : error -> error) (m : result unit * FS) : result unit * FS :=
  let '(r, fs) := m in (map_err wrap r, fs).

(** ** JSON of the records *)

Definition int_json (n : Z) : json := JNumber (FormatInt n).
Definition omit_empty (name value : string) : list (string * json) :=
  if String.eqb value EmptyString then [] else [(name, JString value)].

Definition PCRSelection_json (s : PCRSelection) : json :=
  JObject [("hash"%string, JString (sel_Hash s));
           ("pcrs"%string, match sel_PCRs s with [] => JNull | l => JArray (int_json <$> l) end)].

Definition PCRPolicy_json (p : PCRPolicy) : json :=
  JObject ([("selection"%string, PCRSelection_json (pp_Selection p));
            ("expected_digest"%string, JString (pp_ExpectedDigest p))] ++
           (match pp_CapturedValues p with [] => [] | m => [("captured_values"%string, string_map_json m)] end) ++
           omit_empty "profile" (pp_Profile p)).

Definition pcr_policy_member (p : option PCRPolicy) : list (string * json) :=
  match p with None => [] | Some p => [("pcr_policy"%string, PCRPolicy_json p)] end.

Definition Policy_json (p : TPMPolicy) : json :=
  JObject ([("mode"%string, JString (tp_Mode p)); ("enrolled_ak_public_hash"%string, JString (tp_EnrolledAKPublicHash p))] ++
           pcr_policy_member (tp_PCRPolicy p) ++ omit_empty "provider_profile" (tp_ProviderProfile p)).

Definition SealedBlob_json (b : SealedBlob) : json :=
  JObject ([("schema_version"%string, int_json (sb_SchemaVersion b)); ("policy_mode"%string, JString (sb_PolicyMode b));
            ("public"%string, bytes_json (sb_Public b)); ("private"%string, bytes_json (sb_Private b))] ++
           pcr_policy_member (sb_PCRPolicy b) ++ [("created_at_utc"%string, JString (sb_CreatedAtUTC b))]).

Definition zero_selection : PCRSelection := mkPCRSelection EmptyString [].
Definition zero_pcr_policy : PCRPolicy := mkPCRPolicy zero_selection EmptyString [] EmptyString.
Definition zero_policy : TPMPolicy := mkTPMPolicy EmptyString EmptyString None EmptyString.
Definition zero_sealed : SealedBlob := mkSealedBlob 0 EmptyString EmptyString EmptyString None EmptyString.

(** A field that is decoded in place, as structs, maps and pointers are. *)
Definition in_place {A St} (decode : json -> A -> result A) (get : St -> A) (set : A -> St -> St) (v : json) (st : St)
  : result St := x ← decode v (get st); Ok (set x st).

Definition set_sel_Hash x s := mkPCRSelection x (sel_PCRs s).
Definition set_sel_PCRs x s := mkPCRSelection (sel_Hash s) x.
Definition selection_fields : list (string * (json -> PCRSelection -> result PCRSelection)) :=
  [("hash"%string, field decode_string set_sel_Hash);
   ("pcrs"%string, list_field 0 decode_int64 set_sel_PCRs)].

Definition set_pp_Selection x p := mkPCRPolicy x (pp_ExpectedDigest p) (pp_CapturedValues p) (pp_Profile p).
Definition set_pp_ExpectedDigest x p := mkPCRPolicy (pp_Selection p) x (pp_CapturedValues p) (pp_Profile p).
Definition set_pp_CapturedValues x p := mkPCRPolicy (pp_Selection p) (pp_ExpectedDigest p) x (pp_Profile p).
Definition set_pp_Profile x p := mkPCRPolicy (pp_Selection p) (pp_ExpectedDigest p) (pp_CapturedValues p) x.
Definition pcr_policy_fields : list (string * (json -> PCRPolicy -> result PCRPolicy)) :=
  [("selection"%string, in_place (decode_struct selection_fields) pp_Selection set_pp_Selection);
   ("expected_digest"%string, field decode_string set_pp_ExpectedDigest);
   ("captured_values"%string, in_place decode_string_map pp_CapturedValues set_pp_CapturedValues);
   ("profile"%string, field decode_string set_pp_Profile)].
Definition decode_pcr_policy : json -> option PCRPolicy -> result (option PCRPolicy) :=
  decode_pointer zero_pcr_policy (decode_struct pcr_policy_fields).

Definition set_tp_Mode x p := mkTPMPolicy x (tp_EnrolledAKPublicHash p) (tp_PCRPolicy p) (tp_ProviderProfile p).
Definition set_tp_AKHash x p := mkTPMPolicy (tp_Mode p) x (tp_PCRPolicy p) (tp_ProviderProfile p).
Definition set_tp_PCRPolicy x p := mkTPMPolicy (tp_Mode p) (tp_EnrolledAKPublicHash p) x (tp_ProviderProfile p).
Definition set_tp_Profile x p := mkTPMPolicy (tp_Mode p) (tp_EnrolledAKPublicHash p) (tp_PCRPolicy p) x.
Definition policy_fields : list (string * (json -> TPMPolicy -> result TPMPolicy)) :=
  [("mode"%string, field decode_string set_tp_Mode);
   ("enrolled_ak_public_hash"%string, field decode_string set_tp_AKHash);
   ("pcr_policy"%string, in_place decode_pcr_policy tp_PCRPolicy set_tp_PCRPolicy);
   ("provider_profile"%string, field decode_string set_tp_Profile)].

Definition set_sb_Schema x b := mkSealedBlob x (sb_PolicyMode b) (sb_Public b) (sb_Private b) (sb_PCRPolicy b) (sb_CreatedAtUTC b).
Definition set_sb_Mode x b := mkSealedBlob (sb_SchemaVersion b) x (sb_Public b) (sb_Private b) (sb_PCRPolicy b) (sb_CreatedAtUTC b).
Definition set_sb_Public x b := mkSealedBlob (sb_SchemaVersion b) (sb_PolicyMode b) x (sb_Private b) (sb_PCRPolicy b) (sb_CreatedAtUTC b).
Definition set_sb_Private x b := mkSealedBlob (sb_SchemaVersion b) (sb_PolicyMode b) (sb_Public b) x (sb_PCRPolicy b) (sb_CreatedAtUTC b).
Definition set_sb_PCRPolicy x b := mkSealedBlob (sb_SchemaVersion b) (sb_PolicyMode b) (sb_Public b) (sb_Private b) x (sb_CreatedAtUTC b).
Definition set_sb_CreatedAt x b := mkSealedBlob (sb_SchemaVersion b) (sb_PolicyMode b) (sb_Public b) (sb_Private b) (sb_PCRPolicy b) x.

(** null makes a byte slice nil. *)
Definition bytes_field {St} (set : bytes -> St -> St) (v : json) (st : St) : result St :=
  match v with JNull => Ok (set EmptyString st) | _ => x ← decode_bytes v; Ok (set x st) end.

Definition sealed_fields : list (string * (json -> SealedBlob -> result SealedBlob)) :=
  [("schema_version"%string, field decode_uint32 set_sb_Schema);
   ("policy_mode"%string, field decode_string set_sb_Mode);
   ("public"%string, bytes_field set_sb_Public);
   ("private"%string, bytes_field set_sb_Private);
   ("pcr_policy"%string, in_place decode_pcr_policy sb_PCRPolicy set_sb_PCRPolicy);
   ("created_at_utc"%string, field decode_string set_sb_CreatedAt)].

(** ** Local key metadata *)

Definition LocalStateSchemaVersion : Z := 1.
Definition LocalStateDir : string := "local-tpm".
Definition RevocationWarning : string := "local TPM revocation requires key rotation".

Record LocalKeyMetadata := mkLocalKeyMetadata {
  lm_SchemaVersion : Z;
  lm_ClusterID : string;
  lm_KeyID : string;
  lm_Version : Z;
  lm_Status : string;
  lm_Algorithm : string;
  lm_PolicyID : string;
  lm_TPMPolicy : TPMPolicy;
  lm_RevocationNotice : string;
  lm_CreatedAtUTC : string;
  lm_PCRPolicy : option PCRPolicy;
}.

Record LocalStatus := mkLocalStatus {
  ls_Ready : bool; ls_Key : KeyRef; ls_Mode : string; ls_Warnings : list string; ls_Errors : list string;
}.

Definition LocalKeyMetadata_json (m : LocalKeyMetadata) : json :=
  JObject ([("schema_version"%string, int_json (lm_SchemaVersion m)); ("cluster_id"%string, JString (lm_ClusterID m));
            ("key_id"%string, JString (lm_KeyID m)); ("version"%string, int_json (lm_Version m));
            ("status"%string, JString (lm_Status m)); ("algorithm"%string, JString (lm_Algorithm m));
            ("policy_id"%string, JString (lm_PolicyID m)); ("tpm_policy"%string, Policy_json (lm_TPMPolicy m));
            ("revocation_notice"%string, JString (lm_RevocationNotice m));
            ("created_at_utc"%string, JString (lm_CreatedAtUTC m))] ++ pcr_policy_member (lm_PCRPolicy m)).

Definition zero_metadata : LocalKeyMetadata :=
  mkLocalKeyMetadata 0 EmptyString EmptyString 0 EmptyString EmptyString EmptyString zero_policy EmptyString EmptyString None.

Definition set_lm_Schema x m := mkLocalKeyMetadata x (lm_ClusterID m) (lm_KeyID m) (lm_Version m) (lm_Status m) (lm_Algorithm m) (lm_PolicyID m) (lm_TPMPolicy m) (lm_RevocationNotice m) (lm_CreatedAtUTC m) (lm_PCRPolicy m).
Definition set_lm_Cluster x m := mkLocalKeyMetadata (lm_SchemaVersion m) x (lm_KeyID m) (lm_Version m) (lm_Status m) (lm_Algorithm m) (lm_PolicyID m) (lm_TPMPolicy m) (lm_RevocationNotice m) (lm_CreatedAtUTC m) (lm_PCRPolicy m).
Definition set_lm_Key x m := mkLocalKeyMetadata (lm_SchemaVersion m) (lm_ClusterID m) x (lm_Version m) (lm_Status m) (lm_Algorithm m) (lm_PolicyID m) (lm_TPMPolicy m) (lm_RevocationNotice m) (lm_CreatedAtUTC m) (lm_PCRPolicy m).
Definition set_lm_Version x m := mkLocalKeyMetadata (lm_SchemaVersion m) (lm_ClusterID m) (lm_KeyID m) x (lm_Status m) (lm_Algorithm m) (lm_PolicyID m) (lm_TPMPolicy m) (lm_RevocationNotice m) (lm_CreatedAtUTC m) (lm_PCRPolicy m).
Definition set_lm_Status x m := mkLocalKeyMetadata (lm_SchemaVersion m) (lm_ClusterID m) (lm_KeyID m) (lm_Version m) x (lm_Algorithm m) (lm_PolicyID m) (lm_TPMPolicy m) (lm_RevocationNotice m) (lm_CreatedAtUTC m) (lm_PCRPolicy m).
Definition set_lm_Algorithm x m := mkLocalKeyMetadata (lm_SchemaVersion m) (lm_ClusterID m) (lm_KeyID m) (lm_Version m) (lm_Status m) x (lm_PolicyID m) (lm_TPMPolicy m) (lm_RevocationNotice m) (lm_CreatedAtUTC m) (lm_PCRPolicy m).
Definition set_lm_Policy x m := mkLocalKeyMetadata (lm_SchemaVersion m) (lm_ClusterID m) (lm_KeyID m) (lm_Version m) (lm_Status m) (lm_Algorithm m) x (lm_TPMPolicy m) (lm_RevocationNotice m) (lm_CreatedAtUTC m) (lm_PCRPolicy m).
Definition set_lm_TPMPolicy x m := mkLocalKeyMetadata (lm_SchemaVersion m) (lm_ClusterID m) (lm_KeyID m) (lm_Version m) (lm_Status m) (lm_Algorithm m) (lm_PolicyID m) x (lm_RevocationNotice m) (lm_CreatedAtUTC m) (lm_PCRPolicy m).
Definition set_lm_Notice x m := mkLocalKeyMetadata (lm_SchemaVersion m) (lm_ClusterID m) (lm_KeyID m) (lm_Version m) (lm_Status m) (lm_Algorithm m) (lm_PolicyID m) (lm_TPMPolicy m) x (lm_CreatedAtUTC m) (lm_PCRPolicy m).
Definition set_lm_CreatedAt x m := mkLocalKeyMetadata (lm_SchemaVersion m) (lm_ClusterID m) (lm_KeyID m) (lm_Version m) (lm_Status m) (lm_Algorithm m) (lm_PolicyID m) (lm_TPMPolicy m) (lm_RevocationNotice m) x (lm_PCRPolicy m).
Definition set_lm_PCRPolicy x m := mkLocalKeyMetadata (lm_SchemaVersion m) (lm_ClusterID m) (lm_KeyID m) (lm_Version m) (lm_Status m) (lm_Algorithm m) (lm_PolicyID m) (lm_TPMPolicy m) (lm_RevocationNotice m) (lm_CreatedAtUTC m) x.

Definition metadata_fields : list (string * (json -> LocalKeyMetadata -> result LocalKeyMetadata)) :=
  [("schema_version"%string, field decode_uint32 set_lm_Schema);
   ("cluster_id"%string, field decode_string set_lm_Cluster);
   ("key_id"%string, field decode_string set_lm_Key);
   ("version"%string, field decode_uint32 set_lm_Version);
   ("status"%string, field decode_string set_lm_Status);
   ("algorithm"%string, field decode_string set_lm_Algorithm);
   ("policy_id"%string, field decode_string set_lm_Policy);
   ("tpm_policy"%string, in_place (decode_struct policy_fields) lm_TPMPolicy set_lm_TPMPolicy);
   ("revocation_notice"%string, field decode_string set_lm_Notice);
   ("created_at_utc"%string, field decode_string set_lm_CreatedAt);
   ("pcr_policy"%string, in_place decode_pcr_policy lm_PCRPolicy set_lm_PCRPolicy)].

Definition LocalKeyMetadata_Validate (m : LocalKeyMetadata) (ref : KeyRef) : result unit :=
  check (lm_SchemaVersion m =? LocalStateSchemaVersion)
    (errorw ErrInvalidMetadata "unsupported local state schema version");;
  check (String.eqb (lm_ClusterID m) (ClusterID ref) && String.eqb (lm_KeyID m) (KeyID ref) && (lm_Version m =? Version ref))
    (errorw ErrInvalidMetadata "local TPM metadata key reference mismatch");;
  KeyRef_Validate ref;;
  check (String.eqb (lm_Algorithm m) AlgorithmAES256GCM) (errorw ErrInvalidMetadata "unsupported local key algorithm");;
  check (known_status (lm_Status m)) (errorw ErrInvalidMetadata "unsupported local key status");;
  ValidateIdentifier (lm_PolicyID m);;
  check (String.eqb (lm_RevocationNotice m) RevocationWarning)
    (errorw ErrInvalidMetadata "missing local TPM revocation notice");;
  Policy_Validate (lm_TPMPolicy m).

(** ** Paths *)

Record keyPaths := mkKeyPaths { kp_dir : path; kp_sealed : path; kp_metadata : path; kp_pcr : path }.

Definition keys_dir : path := [LocalStateDir; "keys"%string].
Definition key_dir (keyID : string) : path := [LocalStateDir; "keys"%string; keyID].
Definition metadata_suffix : string := ".metadata.json".
Definition version_name (v : Z) : string := "v" +:+ FormatUint v.

Definition localKeyPaths (ref : KeyRef) : result keyPaths :=
  KeyRef_Validate ref;;
  let version := version_name (Version ref) in
  let dir := key_dir (KeyID ref) in
  Ok (mkKeyPaths dir (dir ++ [version +:+ ".sealed"]) (dir ++ [version +:+ metadata_suffix])
        (dir ++ ["pcr-policy.json"%string])).

Definition HasSuffix (s t : string) : bool := HasPrefix (String.rev s) (String.rev t).

(** [filepath.Glob(keyDir/v*.metadata.json)], then sorted: the names in the key
    directory that start with v and end in the suffix. *)
Definition metadata_names (fs : FS) (keyID : string) : list string :=
  sort_strings (omap (fun p => match p with
                               | [a; b; k; name] =>
                                   if String.eqb a LocalStateDir && String.eqb b "keys" && String.eqb k keyID &&
                                      HasPrefix name "v" && HasSuffix (string_drop 1 name) metadata_suffix
                                   then Some name else None
                               | _ => None
                               end) (fst <$> map_to_list fs)).

(** ** Reading *)

Section State.
Context (os : OS).

(** [statePath] matters only as far as it may be blank. *)
Definition check_dir (fs : FS) (p : path) : result unit :=
  info ← map_err (errorp "inspect local TPM state path") (Lstat os fs p);
  check (match info with Symlink _ => false | _ => true end)
    (errorw ErrInvalidMetadata "local TPM state path must not contain symlinks");;
  check (match info with Dir _ => true | _ => false end)
    (errorw ErrInvalidMetadata "local TPM state path component is not a directory");;
  check (negb (writable_by_others info)) (errorw ErrInvalidMetadata "local TPM state path must not be group/world writable").

Definition validateStateRoot (statePath : string) (fs : FS) : result unit :=
  check (negb (String.eqb (TrimSpace statePath) EmptyString)) (errorw ErrInvalidMetadata "state path is required");;
  check_dir fs [];;
  check_dir fs [LocalStateDir];;
  check_dir fs keys_dir.

Definition readLocalJSON {A} (fields : list (string * (json -> A -> result A))) (zero : A) (fs : FS) (p : path) : result A :=
  let name := Join p "/" in
  info ← map_err (errorp ("inspect " +:+ name)) (Lstat os fs p);
  check (match info with Symlink _ => false | _ => true end) (errorw ErrInvalidMetadata (name +:+ " must not be a symlink"));;
  check (negb (accessible_by_others info)) (errorw ErrInvalidMetadata (name +:+ " must not be group/world accessible"));;
  payload ← map_err (errorp ("read " +:+ name)) (ReadFile os fs p);
  v ← of_option (errorp ("decode " +:+ name) (errorf "invalid JSON")) (json_Parse payload);
  map_err (errorp ("decode " +:+ name)) (decode_struct fields v zero).

Definition readSealedBlob : FS -> path -> result SealedBlob := readLocalJSON sealed_fields zero_sealed.
Definition readLocalKeyMetadata : FS -> path -> result LocalKeyMetadata := readLocalJSON metadata_fields zero_metadata.

Definition ReadLocalState (statePath : string) (fs : FS) (ref : KeyRef) : result (SealedBlob * LocalKeyMetadata) :=
  validateStateRoot statePath fs;;
  paths ← localKeyPaths ref;
  metadata ← readLocalKeyMetadata fs (kp_metadata paths);
  LocalKeyMetadata_Validate metadata ref;;
  sealed ← readSealedBlob fs (kp_sealed paths);
  SealedBlob_Validate sealed;;
  Ok (sealed, metadata).

Definition StatusLocal (statePath : string) (fs : FS) (ref : KeyRef) : LocalStatus :=
  match ReadLocalState statePath fs ref with
  | Err e => mkLocalStatus false ref EmptyString [RevocationWarning] [err_msg e]
  | Ok (_, metadata) => mkLocalStatus true ref (tp_Mode (lm_TPMPolicy metadata)) [RevocationWarning] []
  end.

(** One metadata file of the listing. *)
Definition usable_step (fs : FS) (clusterID keyID : string) (refs : list KeyRef) (name : string) : result (list KeyRef) :=
  metadata ← readLocalKeyMetadata fs (key_dir keyID ++ [name]);
  let ref := mkKeyRef (lm_ClusterID metadata) (lm_KeyID metadata) (lm_Version metadata) in
  LocalKeyMetadata_Validate metadata ref;;
  check (String.eqb (ClusterID ref) clusterID && String.eqb (KeyID ref) keyID)
    (errorw ErrInvalidMetadata "local TPM metadata key reference mismatch");;
  if String.eqb (lm_Status metadata) StatusActive || String.eqb (lm_Status metadata) StatusDecryptOnly
  then Ok (refs ++ [ref])
  else if String.eqb (lm_Status metadata) StatusPending || String.eqb (lm_Status metadata) StatusRetired
  then Ok refs
  else Err (errorw ErrInvalidMetadata "unsupported local key status").

Definition localUsableKeyRefs (statePath : string) (fs : FS) (clusterID keyID : string) : result (list KeyRef) :=
  validateStateRoot statePath fs;;
  info ← map_err (errorp "inspect local TPM key directory") (Lstat os fs (key_dir keyID));
  check (match info with Symlink _ => false | _ => true end)
    (errorw ErrInvalidMetadata "local TPM key directory must not be a symlink");;
  check (match info with Dir _ => true | _ => false end)
    (errorw ErrInvalidMetadata "local TPM key path is not a directory");;
  check (negb (writable_by_others info)) (errorw ErrInvalidMetadata "local TPM key directory must not be group/world writable");;
  refs ← foldR (usable_step fs clusterID keyID) [] (metadata_names fs keyID);
  match refs with
  | [] => Err (errorw ErrKeyNotFound "no usable local TPM keys found")
  | _ => Ok refs
  end.

(** ** Writing *)

Definition writeLocalJSON (v : json) (fs : FS) (p : path) : result unit * FS :=
  then_fs (wrapped (errorp ("write " +:+ Join p "/")) (WriteFile os fs p (json_MarshalIndent v +:+ newline) 384)) (fun fs =>
  wrapped (errorp ("chmod " +:+ Join p "/")) (Chmod os fs p 384)).

Definition ensureStateRoot (statePath : string) (fs : FS) : result unit * FS :=
  if String.eqb (TrimSpace statePath) EmptyString then (Err (errorw ErrInvalidMetadata "state path is required"), fs)
  else match MkdirAll os fs keys_dir with
       | (Err e, fs) => (Err (errorp "create local TPM state path" e), fs)
       | (Ok _, fs) => (validateStateRoot statePath fs, fs)
       end.

Definition writeLocalState (statePath : string) (ref : KeyRef) (sealed : SealedBlob) (metadata : LocalKeyMetadata) (fs : FS)
  : result unit * FS :=
  then_fs (ensureStateRoot statePath fs) (fun fs =>
  match localKeyPaths ref with
  | Err e => (Err e, fs)
  | Ok paths =>
      then_fs (wrapped (errorp "create local TPM key directory") (MkdirAll os fs (kp_dir paths))) (fun fs =>
      then_fs (writeLocalJSON (SealedBlob_json sealed) fs (kp_sealed paths)) (fun fs =>
      then_fs (writeLocalJSON (LocalKeyMetadata_json metadata) fs (kp_metadata paths)) (fun fs =>
      match sb_PCRPolicy sealed with
      | Some policy => writeLocalJSON (PCRPolicy_json policy) fs (kp_pcr paths)
      | None => (Ok tt, fs)
      end)))
  end).

(** ** Keys *)

Definition profileForMode (mode : string) : string :=
  if String.eqb mode PolicyModeSecureBoot then ProfileGenericPCSecureBoot else EmptyString.

Definition local_metadata (version : KeyVersion) (mode : string) (sealed : SealedBlob) (now : Time) : LocalKeyMetadata :=
  mkLocalKeyMetadata LocalStateSchemaVersion (ClusterID (Ref version)) (KeyID (Ref version)) (Version (Ref version))
    (KStatus version) (Algorithm version) (PolicyID version)
    (mkTPMPolicy mode EmptyString (sb_PCRPolicy sealed) (profileForMode mode)) RevocationWarning
    (FormatRFC3339Nano now) (sb_PCRPolicy sealed).

Section Device.
Context `{TpmDevice, Hashes}.

(** [open] is the outcome of opening the device, [now] and [later] what the two
    calls of [time.Now] return. *)
Definition StoreLocalKey (ctx open : result unit) (statePath : string) (version : KeyVersion) (mode : string)
    (selection : PCRSelection) (now later : Time) (fs : FS) (t : tpm) : result LocalKeyMetadata * FS * tpm :=
  match ctx;; KeyRef_Validate (Ref version);;
        check (len (Material version) =? KeySize) (errorw ErrInvalidMetadata "key material must be 32 bytes");; open with
  | Err e => (Err e, fs, t)
  | Ok _ =>
      match SealKey (Material version) mode selection now t with
      | (Err e, t) => (Err e, fs, t)
      | (Ok sealed, t) =>
          match map_error (errorp "verify local TPM sealed key") (UnsealKey sealed) t with
          | (Err e, t) => (Err e, fs, t)
          | (Ok unsealed, t) =>
              let metadata := local_metadata version mode sealed later in
              match check (String.eqb unsealed (Material version))
                      (errorw ErrInvalidMetadata "local TPM sealed key verification failed");;
                    LocalKeyMetadata_Validate metadata (Ref version) with
              | Err e => (Err e, fs, t)
              | Ok _ =>
                  let '(r, fs) := writeLocalState statePath (Ref version) sealed metadata fs in
                  (r;; Ok metadata, fs, t)
              end
          end
      end
  end.

Definition local_version (ref : KeyRef) (metadata : LocalKeyMetadata) (material : bytes) : KeyVersion :=
  mkKeyVersion ref (lm_Status metadata) (lm_Algorithm metadata) (lm_PolicyID metadata) material.

Definition LoadLocalRing (ctx open : result unit) (statePath : string) (ref : KeyRef) (fs : FS) : tpm_cmd (Ring * LocalKeyMetadata) :=
  lift ctx ≫= fun _ =>
  lift (ReadLocalState statePath fs ref) ≫= fun state =>
  lift open ≫= fun _ =>
  UnsealKey state.1 ≫= fun material =>
  lift (NewRing [local_version ref state.2 material]) ≫= fun ring =>
  mret (ring, state.2).

Fixpoint load_refs (statePath : string) (fs : FS) (refs : list KeyRef) : tpm_cmd (list KeyVersion * list LocalKeyMetadata) :=
  match refs with
  | [] => mret ([], [])
  | ref :: r =>
      lift (ReadLocalState statePath fs ref) ≫= fun state =>
      map_error (errorp ("unseal local TPM key " +:+ KeyRef_String ref)) (UnsealKey state.1) ≫= fun material =>
      load_refs statePath fs r ≫= fun rest =>
      mret (local_version ref state.2 material :: rest.1, state.2 :: rest.2)
  end.

Definition LoadLocalKeyring (ctx open : result unit) (statePath clusterID keyID : string) (fs : FS)
  : tpm_cmd (Ring * list LocalKeyMetadata) :=
  lift ctx ≫= fun _ =>
  lift (map_err (errorp "invalid cluster ID") (ValidateIdentifier clusterID)) ≫= fun _ =>
  lift (map_err (errorp "invalid key ID") (ValidateIdentifier keyID)) ≫= fun _ =>
  lift (localUsableKeyRefs statePath fs clusterID keyID) ≫= fun refs =>
  lift open ≫= fun _ =>
  load_refs statePath fs refs ≫= fun loaded =>
  lift (NewRing loaded.1) ≫= fun ring =>
  mret (ring, loaded.2).
End Device.
End State.
