(* ===== verification/StateText.v ===== *)
(** * The JSON texts of TPM policies, sealed keys and key metadata

    What the encoders of LocalState.v write, their decoders read back: the record
    itself with its map in the order of the keys.  Printability of every text, and the
    strings that are text by construction. *)

From S2P Require Import Prelude GoStrings Base64 Json JsonText GoTime Keyring KeyProtection Tpm TpmSeal NodeEvidence LocalState.
Local Open Scope Z_scope.

(** ** The texts of the files *)

Lemma decode_member {St} (fields : list (string * (json -> St -> result St))) name v ms st set :
  find_field fields name = Some set ->
  decode_struct fields (JObject ((name, v) :: ms)) st = (st' ← set v st; decode_struct fields (JObject ms) st').
Proof. intros H. unfold decode_struct. cbn [foldR fst snd]. by rewrite H. Qed.

Lemma decode_end {St} (fields : list (string * (json -> St -> result St))) st : decode_struct fields (JObject []) st = Ok st.
Proof. done. Qed.

(** What Go's types and UTF-8 text guarantee of a record. *)
Definition text (s : string) : Prop := valid_utf8 s = true.
Definition selection_typed (s : PCRSelection) : Prop :=
  text (sel_Hash s) /\ Forall (fun n => - int64_max - 1 <= n <= int64_max) (sel_PCRs s).
Definition pcr_policy_typed (p : PCRPolicy) : Prop :=
  selection_typed (pp_Selection p) /\ text (pp_ExpectedDigest p) /\ text (pp_Profile p) /\
  NoDup (pp_CapturedValues p).*1 /\ Forall (fun e => text e.1 /\ text e.2) (pp_CapturedValues p).
Definition option_typed (p : option PCRPolicy) : Prop := match p with Some p => pcr_policy_typed p | None => True end.
Definition policy_typed (p : TPMPolicy) : Prop :=
  text (tp_Mode p) /\ text (tp_EnrolledAKPublicHash p) /\ option_typed (tp_PCRPolicy p) /\ text (tp_ProviderProfile p).
Definition sealed_typed (b : SealedBlob) : Prop :=
  0 <= sb_SchemaVersion b <= uint32_max /\ text (sb_PolicyMode b) /\ option_typed (sb_PCRPolicy b) /\ text (sb_CreatedAtUTC b).
Definition metadata_typed (m : LocalKeyMetadata) : Prop :=
  0 <= lm_SchemaVersion m <= uint32_max /\ text (lm_ClusterID m) /\ text (lm_KeyID m) /\ 0 <= lm_Version m <= uint32_max /\
  text (lm_Status m) /\ text (lm_Algorithm m) /\ text (lm_PolicyID m) /\ policy_typed (lm_TPMPolicy m) /\
  text (lm_RevocationNotice m) /\ text (lm_CreatedAtUTC m) /\ option_typed (lm_PCRPolicy m).

(** The same record with its map in the order of the keys. *)
Definition ordered_pcr (p : PCRPolicy) : PCRPolicy := set_pp_CapturedValues (sorted_entries (pp_CapturedValues p)) p.
Definition ordered_policy (p : TPMPolicy) : TPMPolicy := set_tp_PCRPolicy (ordered_pcr <$> tp_PCRPolicy p) p.
Definition ordered_sealed (b : SealedBlob) : SealedBlob := set_sb_PCRPolicy (ordered_pcr <$> sb_PCRPolicy b) b.
Definition ordered_metadata (m : LocalKeyMetadata) : LocalKeyMetadata :=
  set_lm_TPMPolicy (ordered_policy (lm_TPMPolicy m)) (set_lm_PCRPolicy (ordered_pcr <$> lm_PCRPolicy m) m).

Lemma decode_ints l :
  Forall (fun n => - int64_max - 1 <= n <= int64_max) l -> decode_list 0 decode_int64 (JArray (int_json <$> l)) = Ok l.
Proof.
  intros Hf. unfold decode_list. apply mapR_Ok. apply Forall2_fmap_l, Forall_Forall2_diag.
  eapply Forall_impl; [exact Hf|]. intros n Hn. unfold int_json, decode_int64. apply decode_int_Print; unfold int64_max in *; lia.
Qed.

Lemma field_string {St} (set : string -> St -> St) s st : field decode_string set (JString s) st = Ok (set s st).
Proof. done. Qed.

Lemma field_uint32 {St} (set : Z -> St -> St) n st :
  0 <= n <= uint32_max -> field decode_uint32 set (int_json n) st = Ok (set n st).
Proof. intros Hn. unfold field, int_json. by rewrite decode_uint32_Print. Qed.

Lemma omit_empty_cases {St} (fields : list (string * (json -> St -> result St))) name (set : string -> St -> St) s st :
  find_field fields name = Some (field decode_string set) ->
  decode_struct fields (JObject (omit_empty name s)) st = Ok (if String.eqb s EmptyString then st else set s st).
Proof.
  intros Hf. unfold omit_empty. destruct (String.eqb s EmptyString); [done|]. by erewrite decode_member by exact Hf.
Qed.

Ltac decode_step := erewrite decode_member by reflexivity; cbn [snd mbind result_bind].

Lemma decode_selection s : selection_typed s -> decode_struct selection_fields (PCRSelection_json s) zero_selection = Ok s.
Proof.
  intros [_ Hp]. unfold PCRSelection_json. decode_step. rewrite field_string. cbn [mbind result_bind]. decode_step.
  unfold list_field. destruct s as [h [|n l]]; cbn [sel_PCRs sel_Hash] in *; [done|].
  rewrite decode_ints by done. done.
Qed.

Lemma decode_pcr_policy_json p :
  pcr_policy_typed p -> decode_struct pcr_policy_fields (PCRPolicy_json p) zero_pcr_policy = Ok (ordered_pcr p).
Proof.
  intros (Hs & _ & _ & Hnd & _). unfold PCRPolicy_json. cbn [app]. decode_step. unfold in_place at 1. cbn [pp_Selection zero_pcr_policy].
  rewrite decode_selection by done. cbn [mbind result_bind]. decode_step. rewrite field_string. cbn [mbind result_bind].
  destruct p as [sel digest [|e values] profile]; cbn [pp_Selection pp_ExpectedDigest pp_CapturedValues pp_Profile] in *.
  - cbn [app]. erewrite omit_empty_cases by reflexivity. destruct (String.eqb_spec profile EmptyString) as [->|]; done.
  - cbn [app]. decode_step. unfold in_place at 1. cbn [pp_CapturedValues set_pp_Selection set_pp_ExpectedDigest zero_pcr_policy].
    rewrite string_map_roundtrip by done. cbn [mbind result_bind].
    erewrite omit_empty_cases by reflexivity. destruct (String.eqb_spec profile EmptyString) as [->|]; done.
Qed.

Lemma decode_pcr_pointer p : pcr_policy_typed p -> decode_pcr_policy (PCRPolicy_json p) None = Ok (Some (ordered_pcr p)).
Proof.
  intros Hp. unfold decode_pcr_policy, decode_pointer. cbn [default]. rewrite decode_pcr_policy_json by done. by destruct p.
Qed.

Lemma decode_policy p : policy_typed p -> decode_struct policy_fields (Policy_json p) zero_policy = Ok (ordered_policy p).
Proof.
  intros (_ & _ & Hp & _). unfold Policy_json. cbn [app]. decode_step. rewrite field_string. cbn [mbind result_bind].
  decode_step. rewrite field_string. cbn [mbind result_bind]. destruct p as [mode ak [pcr|] profile];
    cbn [tp_Mode tp_EnrolledAKPublicHash tp_PCRPolicy tp_ProviderProfile option_typed pcr_policy_member app] in *.
  - decode_step. unfold in_place at 1. cbn [tp_PCRPolicy set_tp_Mode set_tp_AKHash zero_policy]. rewrite decode_pcr_pointer by done.
    cbn [mbind result_bind]. erewrite omit_empty_cases by reflexivity. destruct (String.eqb_spec profile EmptyString) as [->|]; done.
  - erewrite omit_empty_cases by reflexivity. destruct (String.eqb_spec profile EmptyString) as [->|]; done.
Qed.

Lemma bytes_field_json {St} (set : bytes -> St -> St) b st : bytes_field set (bytes_json b) st = Ok (set b st).
Proof. unfold bytes_field. by rewrite decode_bytes_json. Qed.

Lemma decode_sealed b : sealed_typed b -> decode_struct sealed_fields (SealedBlob_json b) zero_sealed = Ok (ordered_sealed b).
Proof.
  intros (Hv & _ & Hp & _). unfold SealedBlob_json. cbn [app]. decode_step. rewrite field_uint32 by done. cbn [mbind result_bind].
  decode_step. rewrite field_string. cbn [mbind result_bind]. do 2 (decode_step; rewrite bytes_field_json; cbn [mbind result_bind]).
  destruct b as [v mode pub priv [pcr|] created]; cbn [sb_PCRPolicy option_typed pcr_policy_member app] in *.
  - decode_step. unfold in_place at 1. cbn [sb_PCRPolicy set_sb_Private set_sb_Public set_sb_Mode set_sb_Schema zero_sealed].
    rewrite decode_pcr_pointer by done. cbn [mbind result_bind]. decode_step. done.
  - decode_step. done.
Qed.

Lemma decode_metadata m :
  metadata_typed m -> decode_struct metadata_fields (LocalKeyMetadata_json m) zero_metadata = Ok (ordered_metadata m).
Proof.
  intros (Hs & _ & _ & Hv & _ & _ & _ & Hp & _ & _ & Ho). unfold LocalKeyMetadata_json. cbn [app].
  decode_step. rewrite field_uint32 by done. cbn [mbind result_bind].
  do 2 (decode_step; rewrite field_string; cbn [mbind result_bind]).
  decode_step. rewrite field_uint32 by done. cbn [mbind result_bind].
  do 3 (decode_step; rewrite field_string; cbn [mbind result_bind]).
  decode_step. unfold in_place at 1. cbn [lm_TPMPolicy set_lm_Policy set_lm_Algorithm set_lm_Status set_lm_Version set_lm_Key set_lm_Cluster set_lm_Schema zero_metadata].
  rewrite decode_policy by done. cbn [mbind result_bind].
  do 2 (decode_step; rewrite field_string; cbn [mbind result_bind]).
  destruct m as [v c k n st alg pol tp notice created [pcr|]]; cbn [lm_PCRPolicy option_typed pcr_policy_member] in *.
  - decode_step. unfold in_place at 1. cbn [lm_PCRPolicy set_lm_Schema set_lm_Cluster set_lm_Key set_lm_Version set_lm_Status set_lm_Algorithm set_lm_Policy set_lm_TPMPolicy set_lm_Notice set_lm_CreatedAt zero_metadata].
    rewrite decode_pcr_pointer by done. cbn [mbind result_bind]. done.
  - done.
Qed.

Lemma int_printable d n : - int64_max - 1 <= n <= int64_max -> printable d (int_json n).
Proof. unfold int64_max. intros Hn. destruct d; apply FormatInt_number; lia. Qed.

Lemma uint32_printable d n : 0 <= n <= uint32_max -> printable d (int_json n).
Proof. unfold uint32_max. intros Hn. apply int_printable. unfold int64_max. lia. Qed.

Lemma string_printable d s : text s -> printable d (JString s).
Proof. by destruct d. Qed.

Lemma members_printable d ms : Forall (fun m => text m.1 /\ printable d m.2) ms -> printable (S d) (JObject ms).
Proof. done. Qed.

Lemma omit_printable d name s : text name -> text s -> Forall (fun m => text m.1 /\ printable d m.2) (omit_empty name s).
Proof. intros Hn Hs. unfold omit_empty. case_goal; repeat constructor; try done. by apply string_printable. Qed.

Lemma bytes_printable d b : printable d (bytes_json b).
Proof. apply string_printable, ascii_valid, b64_ascii. Qed.

Lemma map_printable d m : Forall (fun e => text e.1 /\ text e.2) m -> printable (S d) (string_map_json m).
Proof.
  intros Hf. apply members_printable, Forall_fmap. unfold sorted_entries. rewrite merge_sort_Permutation.
  eapply Forall_impl; [exact Hf|]. intros e [H1 H2]. split; [done | by apply string_printable].
Qed.

Create HintDb printing discriminated.
#[export] Hint Resolve int_printable uint32_printable string_printable bytes_printable map_printable : printing.
#[export] Hint Constructors Forall : printing.
#[export] Hint Extern 1 (text _) => reflexivity : printing.

(** The members of an object one by one. *)
Ltac members :=
  lazymatch goal with
  | |- Forall _ (_ :: _) => apply Forall_cons; split; [split; [reflexivity | cbn [snd]] | members]
  | |- Forall _ [] => exact (List.Forall_nil _)
  end.

Lemma selection_printable d s : selection_typed s -> printable (S (S d)) (PCRSelection_json s).
Proof.
  intros [Hh Hp]. apply members_printable. members; [by apply string_printable|].
  destruct (sel_PCRs s) as [|n l]; [done|]. apply Forall_fmap. eapply Forall_impl; [exact Hp|]. apply int_printable.
Qed.

Lemma pcr_policy_printable d p : pcr_policy_typed p -> printable (S (S (S d))) (PCRPolicy_json p).
Proof.
  intros (Hs & Hd & Hp & _ & Hm). apply members_printable. rewrite !Forall_app. split_and!.
  - members; [by apply selection_printable | by apply string_printable].
  - destruct (pp_CapturedValues p); [exact (List.Forall_nil _)|]. members. by apply map_printable.
  - by apply omit_printable.
Qed.

Lemma pcr_member_printable d p :
  option_typed p -> Forall (fun m => text m.1 /\ printable (S (S (S d))) m.2) (pcr_policy_member p).
Proof. destruct p; [|constructor]. intros Hp. cbn [pcr_policy_member]. members. by apply pcr_policy_printable. Qed.

Lemma policy_printable d p : policy_typed p -> printable (S (S (S (S d)))) (Policy_json p).
Proof.
  intros (H1 & H2 & H3 & H4). apply members_printable. rewrite !Forall_app. split_and!.
  - members; by apply string_printable.
  - by apply pcr_member_printable.
  - by apply omit_printable.
Qed.

Lemma sealed_printable b : sealed_typed b -> printable 4 (SealedBlob_json b).
Proof.
  intros (H1 & H2 & H3 & H4). apply members_printable. rewrite !Forall_app. split_and!.
  - members; auto with printing.
  - by apply pcr_member_printable.
  - members; auto with printing.
Qed.

Lemma metadata_printable m : metadata_typed m -> printable 5 (LocalKeyMetadata_json m).
Proof.
  intros (H1 & H2 & H3 & H4 & H5 & H6 & H7 & H8 & H9 & H10 & H11). apply members_printable. rewrite Forall_app. split.
  - members; auto with printing. by apply policy_printable.
  - by apply (pcr_member_printable 1).
Qed.

(** ** Times, digests and PCR values are text *)

Lemma visible_ascii s : string_forall visible s = true -> ascii_only s = true.
Proof. apply string_forall_impl. intros c. by destruct c as [[] [] [] [] [] [] [] []]. Qed.

Lemma decimal_ascii s : string_forall is_digit s = true -> ascii_only s = true.
Proof. apply string_forall_impl. intros c. by destruct c as [[] [] [] [] [] [] [] []]. Qed.

Lemma digit_decimal d : 0 <= d < 10 -> is_digit (digit d) = true.
Proof. intros Hd. unfold is_digit. by rewrite digit_val_digit. Qed.

Lemma ascii_app s t : ascii_only s = true -> ascii_only t = true -> ascii_only (s +:+ t) = true.
Proof. unfold ascii_only. intros Hs Ht. by rewrite string_forall_app, Hs. Qed.

Lemma ascii_cons c s : byte_val c <? 128 = true -> ascii_only s = true -> ascii_only (String c s) = true.
Proof. unfold ascii_only. cbn [string_forall]. intros -> Hs. exact Hs. Qed.

Lemma digits_ascii w n : ascii_only (digits w n) = true.
Proof.
  apply decimal_ascii. induction w as [|w IH]; [done|]. cbn [digits string_forall].
  by rewrite digit_decimal, IH by (apply Z.mod_pos_bound; lia).
Qed.

Lemma frac_digits_ascii w n : 0 <= n < 10 ^ Z.of_nat w -> ascii_only (frac_digits w n) = true.
Proof.
  intros Hn. apply decimal_ascii. revert n Hn. induction w as [|w IH]; intros n Hn; [done|]. cbn [frac_digits]. case_goal; [done|].
  rewrite Nat2Z.inj_succ, Z.pow_succ_r in Hn by lia. cbn [string_forall]. rewrite digit_decimal.
  - apply IH, Z.mod_pos_bound. lia.
  - split; [apply Z.div_pos; lia | apply Z.div_lt_upper_bound; lia].
Qed.

Lemma FormatUint_ascii n : 0 <= n -> ascii_only (FormatUint n) = true.
Proof. intros Hn. by apply decimal_ascii, FormatUint_digits. Qed.

Lemma FormatInt_ascii n : ascii_only (FormatInt n) = true.
Proof. unfold FormatInt. case_goal; to_prop; [apply ascii_cons; [done|] |]; apply FormatUint_ascii; lia. Qed.

Lemma FormatRFC3339Nano_text t : text (FormatRFC3339Nano t).
Proof.
  apply ascii_valid. unfold FormatRFC3339Nano, year_text. destruct (civil (t / day_ns)) as [[y m] d].
  pose proof (Z.mod_pos_bound t Second ltac:(done)).
  assert (ascii_only (if y <? 10000 then digits 4 y else FormatUint y) = true) by (case_goal; to_prop; [apply digits_ascii | apply FormatUint_ascii; lia]).
  assert (ascii_only (if t mod Second =? 0 then EmptyString else String c_dot (frac_digits 9 (t mod Second))) = true)
    by (case_goal; [done|]; apply ascii_cons; [done|]; by apply frac_digits_ascii).
  repeat first [assumption | reflexivity | apply digits_ascii | apply ascii_app | apply ascii_cons].
Qed.

Lemma FormatInt_inj a b : - 10 ^ 19 < a < 10 ^ 19 -> - 10 ^ 19 < b < 10 ^ 19 -> FormatInt a = FormatInt b -> a = b.
Proof.
  intros Ha Hb. unfold FormatInt. repeat case_goal; to_prop; intros He.
  - injection He as He. apply FormatUint_inj in He; lia.
  - pose proof (FormatUint_digits b ltac:(lia)) as Hd. rewrite <- He in Hd. done.
  - pose proof (FormatUint_digits a ltac:(lia)) as Hd. rewrite He in Hd. done.
  - apply FormatUint_inj in He; lia.
Qed.

Definition pcr_index (n : Z) : Prop := - int64_max - 1 <= n <= int64_max.

Lemma EncodePCRValues_typed values :
  NoDup values.*1 -> Forall (fun e => pcr_index e.1) values ->
  NoDup (EncodePCRValues values).*1 /\ Forall (fun e => text e.1 /\ text e.2) (EncodePCRValues values).
Proof.
  intros Hnd Hf. split.
  - unfold EncodePCRValues. rewrite <- list_fmap_compose.
    replace (_ <$> values) with (FormatInt <$> values.*1) by (rewrite <- list_fmap_compose; apply list_fmap_ext; by intros ? []).
    apply NoDup_fmap_2_strong; [|done]. intros a b [ea [-> Ha]]%list_elem_of_fmap [eb [-> Hb]]%list_elem_of_fmap.
    rewrite Forall_forall in Hf. apply Hf in Ha, Hb. unfold pcr_index, int64_max in *. apply FormatInt_inj; lia.
  - apply Forall_fmap, Forall_forall. intros [i v] _. split; [apply ascii_valid, FormatInt_ascii | apply ascii_valid, visible_ascii, hex_visible].
Qed.

Lemma known_hash_text h : known_hash h = true -> text h.
Proof. by intros [->|[->|[->| ->]]]%known_hash_cases. Qed.

Lemma NewPCRPolicy_typed sel (values : list (Z * bytes)) profile `{Hashes} p :
  NewPCRPolicy sel (list_to_map values) profile = Ok p -> Forall (fun e => pcr_index e.1) values -> text profile ->
  pcr_policy_typed p.
Proof.
  unfold NewPCRPolicy. intros Hp Hf Ht. inv_ok. subst.
  match goal with E : Selection_Normalize sel = Ok _ |- _ => apply Selection_Normalize_ok in E as ((Hk & _ & _ & _ & Hr) & _) end.
  unfold pcr_policy_typed. cbn [pp_Selection pp_ExpectedDigest pp_Profile pp_CapturedValues].
  pose proof (known_hash_text _ Hk). split_and!; try done.
  - split; [done|]. eapply Forall_impl; [exact Hr|]. unfold int64_max. cbn. lia.
  - unfold digestString. apply ascii_valid, ascii_app; [by apply known_hash_cases in Hk as [->|[->|[->| ->]]]|].
    apply ascii_cons; [done | apply visible_ascii, hex_visible].
  - apply EncodePCRValues_typed; [apply NoDup_fst_map_to_list|].
    apply Forall_forall. intros [i v] Hi%elem_of_map_to_list%elem_of_list_to_map_2. rewrite Forall_forall in Hf. by apply Hf in Hi.
  - apply EncodePCRValues_typed; [apply NoDup_fst_map_to_list|].
    apply Forall_forall. intros [i v] Hi%elem_of_map_to_list%elem_of_list_to_map_2. rewrite Forall_forall in Hf. by apply Hf in Hi.
Qed.
