(* ===== verification/LocalStateProps.v ===== *)
(** * Properties of the local TPM state

    What [writeLocalState] wrote [ReadLocalState] reads back; a loaded keyring holds
    exactly what valid, private files say and the TPM opens; a stored key loads. *)

From S2P Require Import Prelude GoStrings Base64 Json JsonText GoTime Keyring KeyProtection Tpm TpmSeal NodeEvidence LocalState StateText.
Local Open Scope Z_scope.

(** ** Files that were written are read back *)

Section Files.
Context (os : OS).
Hypothesis reads_ok : forall p, os_read os p = Ok tt.

(** A path that is not a symbolic link. *)
Definition plain (fs : FS) (p : path) : Prop := forall target, fs !! p <> Some (Symlink target).

Lemma follow_plain n fs p : plain fs p -> follow_links n fs p = Ok p.
Proof. intros Hp. destruct n; cbn; destruct (fs !! p) as [[| |t]|] eqn:E; try done; by destruct (Hp t). Qed.

Lemma resolve_plain fs p : plain fs p -> resolve fs p = Ok p.
Proof. apply follow_plain. Qed.

Lemma plain_node fs p n : fs !! p = Some n -> match n with Symlink _ => False | _ => True end -> plain fs p.
Proof. intros Hp Hn t E. rewrite Hp in E. by injection E as ->. Qed.

Lemma plain_insert fs p q n :
  match n with Symlink _ => False | _ => True end -> plain fs q -> plain (<[p := n]> fs) q.
Proof.
  intros Hn Hq t. destruct (decide (p = q)) as [->|Hne]; [|by rewrite lookup_insert_ne].
  rewrite lookup_insert_eq. intros [= ->]. done.
Qed.

Lemma readLocalJSON_written {A} (fields : list (string * (json -> A -> result A))) zero v x fs p d :
  fs !! p = Some (File 384 (json_MarshalIndent v +:+ newline)) -> printable d v -> Z.of_nat d <= maxNestingDepth ->
  decode_struct fields v zero = Ok x -> readLocalJSON os fields zero fs p = Ok x.
Proof.
  intros Hp Hv Hd Hx. unfold readLocalJSON, Lstat, ReadFile. rewrite (resolve_plain fs p) by (by eapply plain_node).
  rewrite Hp, reads_ok. cbn [mbind result_bind of_option map_err check]. rewrite Hp.
  cbn [mbind result_bind of_option map_err check].
  rewrite (json_Parse_MarshalIndent d) by (done || (right; by eexists)). cbn [of_option mbind result_bind]. by rewrite Hx.
Qed.

Lemma WriteFile_Ok fs p content perm fs' :
  plain fs p -> WriteFile os fs p content perm = (Ok tt, fs') ->
  exists mode, fs' = <[p := File mode content]> fs /\ forall q, fs !! p <> Some (Dir q).
Proof.
  intros Hp. unfold WriteFile. destruct (os_write os p); [|done]. cbn [mbind result_bind]. rewrite resolve_plain by done.
  cbv beta iota. destruct (fs !! p) as [[|mode old|]|] eqn:E; try done; [intros [= Hw]; by exists mode|].
  destruct (fs !! removelast p) as [[| |]|]; try done; intros [= Hw]; by exists perm.
Qed.

Lemma Chmod_Ok fs p perm mode content fs' :
  fs !! p = Some (File mode content) -> Chmod os fs p perm = (Ok tt, fs') -> fs' = <[p := File perm content]> fs.
Proof.
  intros Hp. unfold Chmod. destruct (os_chmod os p); [|done]. cbn [mbind result_bind].
  rewrite resolve_plain by (by eapply plain_node). cbv beta iota. rewrite Hp. by intros [= <-].
Qed.

Lemma then_fs_Ok {A : Type} (m : result unit * FS) (k : FS -> result A * FS) a fs' :
  then_fs m k = (Ok a, fs') -> exists fs, m = (Ok tt, fs) /\ k fs = (Ok a, fs').
Proof. destruct m as [[[]|] fs]; [|done]. eauto. Qed.

Lemma wrapped_Ok wrap m fs : wrapped wrap m = (Ok tt, fs) <-> m = (Ok tt, fs).
Proof. unfold wrapped. destruct m as [[[]|] fs1]; cbn; [done|]. by split; intros [=]. Qed.

(** Writing and then setting the mode leaves a private file, whatever was there. *)
Lemma write_private {wrap1 wrap2} fs p content fs' :
  plain fs p ->
  then_fs (wrapped wrap1 (WriteFile os fs p content 384)) (fun fs => wrapped wrap2 (Chmod os fs p 384)) = (Ok tt, fs') ->
  fs' = <[p := File 384 content]> fs /\ forall q, fs !! p <> Some (Dir q).
Proof.
  intros Hp (fs1 & Hw%wrapped_Ok & Hc%wrapped_Ok)%then_fs_Ok. apply WriteFile_Ok in Hw as (mode & -> & Hd); [|done].
  apply (Chmod_Ok _ _ _ mode content) in Hc; [|apply lookup_insert_eq]. by rewrite Hc, insert_insert_eq.
Qed.

Lemma writeLocalJSON_Ok v fs p fs' :
  plain fs p -> writeLocalJSON os v fs p = (Ok tt, fs') ->
  fs' = <[p := File 384 (json_MarshalIndent v +:+ newline)]> fs /\ forall q, fs !! p <> Some (Dir q).
Proof. apply write_private. Qed.

Lemma make_dirs_grows ps fs r fs' : make_dirs os fs ps = (r, fs') -> forall q n, fs !! q = Some n -> fs' !! q = Some n.
Proof.
  revert fs. induction ps as [|p ps IH]; intros fs; [by intros [= _ <-]|]. cbn [make_dirs].
  destruct (make_dir os fs p) as [fs1|] eqn:E; [|by intros [= _ <-]]. intros Hr q n Hq. eapply IH; [exact Hr|].
  unfold make_dir in E. destruct (fs !! p) as [[| |]|] eqn:Ep; [by simplify_eq | done | done |].
  destruct (os_write os p); cbn [mbind result_bind] in E; [|done]. injection E as <-. by rewrite lookup_insert_ne by congruence.
Qed.

Lemma check_dir_same fs fs' p n : fs !! p = Some n -> fs' !! p = Some n -> check_dir os fs' p = check_dir os fs p.
Proof. intros H1 H2. unfold check_dir, Lstat. by rewrite H1, H2. Qed.

Lemma check_dir_Dir fs p : check_dir os fs p = Ok tt -> exists q, fs !! p = Some (Dir q).
Proof.
  unfold check_dir, Lstat. rewrite reads_ok. cbn [mbind result_bind]. intros H. inv_ok. to_prop.
  match goal with E : fs !! p = Some ?x |- _ => destruct x; simplify_eq end. by eexists.
Qed.

(** What validated a state root still does when only other paths change. *)
Lemma validateStateRoot_kept statePath fs fs' :
  validateStateRoot os statePath fs = Ok tt -> (forall p q, (length p < 4)%nat -> fs !! p = Some (Dir q) -> fs' !! p = Some (Dir q)) ->
  validateStateRoot os statePath fs' = Ok tt.
Proof.
  unfold validateStateRoot. intros H Hk. inv_ok.
  assert (forall p, (length p < 4)%nat -> check_dir os fs p = Ok tt -> check_dir os fs' p = Ok tt) as Hc.
  { intros p Hl Hp. destruct (check_dir_Dir fs p Hp) as (q & Hq). rewrite (check_dir_same fs fs' p (Dir q)); eauto. }
  units. rewrite !Hc by (done || (cbn; lia)).
  by rewrite H.
Qed.

(** The three steps of [writeLocalState]: directories, then files. *)
Definition written (paths : keyPaths) (sealed : SealedBlob) (metadata : LocalKeyMetadata) (fs : FS) : FS :=
  let file v := File 384 (json_MarshalIndent v +:+ newline) in
  let fs := <[kp_metadata paths := file (LocalKeyMetadata_json metadata)]> (<[kp_sealed paths := file (SealedBlob_json sealed)]> fs) in
  match sb_PCRPolicy sealed with Some p => <[kp_pcr paths := file (PCRPolicy_json p)]> fs | None => fs end.

Lemma make_dirs_plain ps fs r fs' q : make_dirs os fs ps = (r, fs') -> plain fs q -> plain fs' q.
Proof.
  revert fs. induction ps as [|p ps IH]; intros fs; [by intros [= _ <-]|]. cbn [make_dirs].
  destruct (make_dir os fs p) as [fs1|] eqn:E; [|by intros [= _ <-]]. intros Hr Hq. eapply IH; [exact Hr|].
  unfold make_dir in E. destruct (fs !! p) as [[| |]|]; [by simplify_eq | done | done |].
  destruct (os_write os p); cbn [mbind result_bind] in E; [|done]. injection E as <-. by apply plain_insert.
Qed.

(** No file of the key is a symbolic link. *)
Definition plain_files (fs : FS) (keyID : string) : Prop := forall name, plain fs (key_dir keyID ++ [name]).

Lemma plain_files_insert fs keyID p perm content : plain_files fs keyID -> plain_files (<[p := File perm content]> fs) keyID.
Proof. intros Hp name. by apply plain_insert. Qed.

Lemma localKeyPaths_Ok ref paths :
  localKeyPaths ref = Ok paths ->
  KeyRef_Validate ref = Ok tt /\
  paths = mkKeyPaths (key_dir (KeyID ref)) (key_dir (KeyID ref) ++ [version_name (Version ref) +:+ ".sealed"])
            (key_dir (KeyID ref) ++ [version_name (Version ref) +:+ metadata_suffix]) (key_dir (KeyID ref) ++ ["pcr-policy.json"%string]).
Proof. unfold localKeyPaths. intros H. inv_ok. units. by split. Qed.

(** The directories that [writeLocalState] makes. *)
Lemma writeLocalState_dirs statePath ref sealed metadata fs fs' :
  writeLocalState os statePath ref sealed metadata fs = (Ok tt, fs') ->
  exists paths fs1 fs2, localKeyPaths ref = Ok paths /\ MkdirAll os fs keys_dir = (Ok tt, fs1) /\
    validateStateRoot os statePath fs1 = Ok tt /\ MkdirAll os fs1 (kp_dir paths) = (Ok tt, fs2) /\
    (plain_files fs (KeyID ref) -> fs' = written paths sealed metadata fs2).
Proof.
  unfold writeLocalState. intros (fs1 & Hroot & Hw)%then_fs_Ok. destruct (localKeyPaths ref) as [paths|] eqn:Hp; [|done].
  apply then_fs_Ok in Hw as (fs2 & Hmk%wrapped_Ok & Hw). unfold ensureStateRoot in Hroot.
  destruct (String.eqb _ _); [done|]. destruct (MkdirAll os fs keys_dir) as [[[]|] fs1'] eqn:Er; [|done]. injection Hroot as Hroot ->.
  exists paths, fs1, fs2. split_and!; try done. intros Hplain.
  assert (plain_files fs2 (KeyID ref)) as Hp2.
  { intros name. eapply make_dirs_plain; [exact Hmk|]. by eapply make_dirs_plain. }
  apply localKeyPaths_Ok in Hp as (_ & ->). cbn [kp_sealed kp_metadata kp_pcr] in Hw.
  apply then_fs_Ok in Hw as (fs3 & Hs & Hw). apply then_fs_Ok in Hw as (fs4 & Hm & Hw).
  apply writeLocalJSON_Ok in Hs as (-> & _); [|apply Hp2].
  apply writeLocalJSON_Ok in Hm as (-> & _); [|by apply plain_files_insert].
  unfold written. destruct (sb_PCRPolicy sealed) as [p|]; [|by simplify_eq].
  apply writeLocalJSON_Ok in Hw as (-> & _); [done|]. by do 2 apply plain_files_insert.
Qed.

Lemma writeLocalState_Ok statePath ref sealed metadata fs fs' :
  writeLocalState os statePath ref sealed metadata fs = (Ok tt, fs') -> plain_files fs (KeyID ref) ->
  exists paths fs0, localKeyPaths ref = Ok paths /\ validateStateRoot os statePath fs0 = Ok tt /\
    (forall q n, fs !! q = Some n -> fs0 !! q = Some n) /\ fs' = written paths sealed metadata fs0.
Proof.
  intros (paths & fs1 & fs2 & Hp & Er & Hroot & Ek & Hw)%writeLocalState_dirs Hplain. exists paths, fs2.
  pose proof (make_dirs_grows _ _ _ _ Er) as G1. pose proof (make_dirs_grows _ _ _ _ Ek) as G2. split_and!.
  - done.
  - eapply validateStateRoot_kept; [exact Hroot|]. intros. by apply G2.
  - intros q n Hq. by apply G2, G1.
  - by apply Hw.
Qed.

Lemma written_plain paths sealed metadata fs keyID : plain_files fs keyID -> plain_files (written paths sealed metadata fs) keyID.
Proof. intros Hp. unfold written. destruct (sb_PCRPolicy sealed); by repeat apply plain_files_insert. Qed.

Lemma writeLocalState_plain statePath ref sealed metadata fs fs' :
  writeLocalState os statePath ref sealed metadata fs = (Ok tt, fs') -> plain_files fs (KeyID ref) -> plain_files fs' (KeyID ref).
Proof.
  intros (paths & fs1 & fs2 & _ & Er & _ & Ek & Hw)%writeLocalState_dirs Hplain. rewrite Hw by done. apply written_plain.
  intros name. eapply make_dirs_plain; [exact Ek|]. by eapply make_dirs_plain.
Qed.

Lemma version_path_distinct dir v (suffix : string) : dir ++ [version_name v +:+ suffix] <> dir ++ ["pcr-policy.json"%string].
Proof. intros H. apply app_inv_head in H. by injection H. Qed.

Lemma sealed_metadata_distinct dir v : dir ++ [version_name v +:+ ".sealed"] <> dir ++ [version_name v +:+ metadata_suffix].
Proof. intros H. apply app_inv_head in H. injection H as H. apply sapp_inv_l in H. done. Qed.

Lemma written_lookup ref paths sealed metadata fs :
  localKeyPaths ref = Ok paths ->
  written paths sealed metadata fs !! kp_metadata paths = Some (File 384 (json_MarshalIndent (LocalKeyMetadata_json metadata) +:+ newline)) /\
  written paths sealed metadata fs !! kp_sealed paths = Some (File 384 (json_MarshalIndent (SealedBlob_json sealed) +:+ newline)) /\
  forall q, q <> kp_metadata paths -> q <> kp_sealed paths -> q <> kp_pcr paths -> written paths sealed metadata fs !! q = fs !! q.
Proof.
  intros (_ & ->)%localKeyPaths_Ok. unfold written. cbn [kp_metadata kp_sealed kp_pcr].
  pose proof (sealed_metadata_distinct (key_dir (KeyID ref)) (Version ref)) as D1.
  pose proof (version_path_distinct (key_dir (KeyID ref)) (Version ref)) as D2.
  destruct (sb_PCRPolicy sealed); split_and!; intros; rewrite ?lookup_insert_ne by auto; try apply lookup_insert_eq.
  all: rewrite ?(lookup_insert_ne _ _ _ _ D1), ?(lookup_insert_ne _ _ _ _ (not_eq_sym D1)).
  all: try apply lookup_insert_eq; rewrite ?lookup_insert_ne by auto; try apply lookup_insert_eq; done.
Qed.

(** What is validated does not depend on the order of the captured values. *)
Lemma PCRPolicy_Validate_ordered p : PCRPolicy_Validate (ordered_pcr p) = PCRPolicy_Validate p.
Proof. done. Qed.

Lemma SealedBlob_Validate_ordered b : SealedBlob_Validate (ordered_sealed b) = SealedBlob_Validate b.
Proof. destruct b as [v mode pub priv [p|] created]; [|done]. unfold SealedBlob_Validate. cbn. repeat case_match; done. Qed.

Lemma LocalKeyMetadata_Validate_ordered m ref : LocalKeyMetadata_Validate (ordered_metadata m) ref = LocalKeyMetadata_Validate m ref.
Proof. destruct m as [v c k n st alg pol [mode ak [p|] profile] notice created pcr]; done. Qed.

Lemma written_is_read statePath ref sealed metadata paths fs :
  localKeyPaths ref = Ok paths -> validateStateRoot os statePath fs = Ok tt -> sealed_typed sealed -> metadata_typed metadata ->
  SealedBlob_Validate sealed = Ok tt -> LocalKeyMetadata_Validate metadata ref = Ok tt ->
  ReadLocalState os statePath (written paths sealed metadata fs) ref = Ok (ordered_sealed sealed, ordered_metadata metadata).
Proof.
  intros Hp Hroot Hs Hm Vs Vm. destruct (written_lookup ref paths sealed metadata fs Hp) as (Lm & Ls & Lo). unfold ReadLocalState.
  rewrite (validateStateRoot_kept statePath fs); [| done |].
  - rewrite Hp. cbn [mbind result_bind]. unfold readLocalKeyMetadata, readSealedBlob.
    rewrite (readLocalJSON_written _ _ (LocalKeyMetadata_json metadata) (ordered_metadata metadata) _ _ 5); [| exact Lm | by apply metadata_printable | done | by apply decode_metadata].
    cbn [mbind result_bind]. rewrite LocalKeyMetadata_Validate_ordered, Vm. cbn [mbind result_bind].
    rewrite (readLocalJSON_written _ _ (SealedBlob_json sealed) (ordered_sealed sealed) _ _ 4); [| exact Ls | by apply sealed_printable | done | by apply decode_sealed].
    cbn [mbind result_bind]. by rewrite SealedBlob_Validate_ordered, Vs.
  - intros p q Hl Hq. apply localKeyPaths_Ok in Hp as (_ & ->). rewrite Lo; [done | intros ->..]; cbn in Hl; lia.
Qed.

(** C32: the sealed key and metadata that [writeLocalState] reports as written, none of the
    key's files being a symbolic link, are what [ReadLocalState] reads from the files,
    maps in the order of their keys; no file other than those of the key version and the
    key's PCR policy changes. *)
Theorem local_state_roundtrip statePath ref sealed metadata fs fs' :
  writeLocalState os statePath ref sealed metadata fs = (Ok tt, fs') -> plain_files fs (KeyID ref) ->
  sealed_typed sealed -> metadata_typed metadata ->
  SealedBlob_Validate sealed = Ok tt -> LocalKeyMetadata_Validate metadata ref = Ok tt ->
  ReadLocalState os statePath fs' ref = Ok (ordered_sealed sealed, ordered_metadata metadata) /\
  exists paths, localKeyPaths ref = Ok paths /\
    forall q n, fs !! q = Some n -> q ∉ [kp_metadata paths; kp_sealed paths; kp_pcr paths] -> fs' !! q = Some n.
Proof.
  intros Hw Hplain Hs Hm Vs Vm. apply writeLocalState_Ok in Hw as (paths & fs0 & Hp & Hroot & Hk & ->); [|done].
  split; [by apply written_is_read|].
  exists paths. split; [done|]. intros q n Hq Hn. destruct (written_lookup ref paths sealed metadata fs0 Hp) as (_ & _ & Lo).
  rewrite !not_elem_of_cons in Hn. destruct Hn as (N1 & N2 & N3 & _). rewrite Lo by done. by apply Hk.
Qed.
End Files.

(** ** Storing a key and loading it *)

Section Device.
Context `{TpmDevice, Hashes}.

(** PCR indexes are Go ints. *)
Definition pcrs_typed : Prop :=
  forall sel t values t', tpm_ReadPCRs sel t = (Ok values, t') -> Forall (fun e => pcr_index e.1) values.

Lemma seal_policy_typed mode sel t dp t' :
  pcrs_typed -> seal_policy mode sel t = (Ok dp, t') ->
  (mode = PolicyModeTPMOnly \/ mode = PolicyModeSecureBoot) /\ option_typed dp.2.
Proof.
  intros Hty. unfold seal_policy. destruct (String.eqb_spec mode PolicyModeTPMOnly) as [->|].
  - intros Hs. inv_cmd. simplify_eq. split; [by left | done].
  - destruct (String.eqb_spec mode PolicyModeSecureBoot) as [->|]; [|destruct (String.eqb mode PolicyModeMeasured); intros Hs; by inv_cmd].
    intros Hs. unfold readPCRValues in Hs. inv_cmd. simplify_eq. split; [by auto|].
    repeat match goal with E : (_ ≫= _) _ = (Ok _, _) |- _ => progress inv_cmd | _ => progress inv_cmd end.
    eapply NewPCRPolicy_typed; [eassumption | by eapply Hty | done].
Qed.

Lemma SealKey_typed plaintext mode sel now t blob t' :
  pcrs_typed -> SealKey plaintext mode sel now t = (Ok blob, t') ->
  sealed_typed blob /\ SealedBlob_Validate blob = Ok tt /\ sb_PolicyMode blob = mode /\
  (mode = PolicyModeTPMOnly \/ mode = PolicyModeSecureBoot).
Proof.
  intros Hty Hs. unfold SealKey in Hs. inv_cmd.
  match goal with E : seal_policy _ _ _ = _ |- _ => apply seal_policy_typed in E as [Hm Hp]; [|done] end.
  match goal with E : SealedBlob_Validate _ = Ok ?u |- _ => destruct u; rename E into Hv end.
  unfold sealed_typed. cbn [sb_SchemaVersion sb_PolicyMode sb_PCRPolicy sb_CreatedAtUTC].
  pose proof (FormatRFC3339Nano_text now). assert (text mode) by (by destruct Hm as [->| ->]). by split_and!.
Qed.

Lemma UnsealKey_ordered b t : UnsealKey (ordered_sealed b) t = UnsealKey b t.
Proof. unfold UnsealKey. rewrite SealedBlob_Validate_ordered. by destruct b as [v mode pub priv [p|] created]. Qed.

Lemma known_status_text s : known_status s = true -> text s.
Proof. unfold known_status. rewrite !orb_true_iff, !String.eqb_eq. by intros [[[->| ->]| ->]| ->]. Qed.

Lemma KeyRef_Validate_text r : KeyRef_Validate r = Ok tt -> text (ClusterID r) /\ text (KeyID r).
Proof. unfold KeyRef_Validate. intros Hr. inv_ok. split; by apply ascii_valid, identifier_ascii. Qed.

Lemma local_metadata_typed version mode sealed now :
  uint32 (Version (Ref version)) -> sealed_typed sealed -> text mode ->
  LocalKeyMetadata_Validate (local_metadata version mode sealed now) (Ref version) = Ok tt ->
  metadata_typed (local_metadata version mode sealed now).
Proof.
  intros Hu (_ & _ & Hp & _) Hm Hv. unfold LocalKeyMetadata_Validate, ValidateIdentifier in Hv. inv_ok. to_prop. units.
  match goal with E : KeyRef_Validate _ = _ |- _ => apply KeyRef_Validate_text in E as [Hc Hk] end.
  cbn [lm_Algorithm lm_PolicyID lm_Status local_metadata] in *.
  assert (text (KStatus version)) by (by apply known_status_text).
  assert (text (PolicyID version)) by (by apply ascii_valid, identifier_ascii).
  assert (text (profileForMode mode)) by (unfold profileForMode; by case_goal).
  assert (text (Algorithm version)) by (match goal with E : Algorithm version = _ |- _ => by rewrite E end).
  pose proof (FormatRFC3339Nano_text now). unfold uint32 in Hu. split_and!; first [done | cbn; lia].
Qed.

(** What validates as metadata of a version is a valid version, alone in its ring. *)
Lemma stored_version_valid version mode sealed later :
  LocalKeyMetadata_Validate (local_metadata version mode sealed later) (Ref version) = Ok tt -> len (Material version) = KeySize ->
  KeyVersion_Validate version = Ok tt.
Proof.
  intros Hv Hl. unfold LocalKeyMetadata_Validate, ValidateIdentifier in Hv. cbn in Hv. inv_ok. units.
  unfold KeyVersion_Validate. use_eqs. cbn [mbind result_bind check]. by rewrite (proj2 (Z.eqb_eq _ _) Hl).
Qed.

Lemma active_alone version : KeyVersion_Validate version = Ok tt -> KStatus version = StatusActive -> NewRing [version] = Ok (mkRing [version]).
Proof.
  intros Hv Hs. apply NewRing_spec. split; [|done]. split; [by repeat constructor|]. split; [apply NoDup_singleton|].
  unfold count_status. by rewrite filter_cons, decide_True by done.
Qed.

Context (os : OS).

Lemma StoreLocalKey_Ok ctx open statePath version mode sel now later fs t metadata fs' t' :
  StoreLocalKey os ctx open statePath version mode sel now later fs t = (Ok metadata, fs', t') ->
  KeyRef_Validate (Ref version) = Ok tt /\ len (Material version) = KeySize /\
  exists sealed t1, SealKey (Material version) mode sel now t = (Ok sealed, t1) /\
    UnsealKey sealed t1 = (Ok (Material version), t') /\ metadata = local_metadata version mode sealed later /\
    LocalKeyMetadata_Validate metadata (Ref version) = Ok tt /\
    writeLocalState os statePath (Ref version) sealed metadata fs = (Ok tt, fs').
Proof.
  unfold StoreLocalKey. destruct (ctx;; _) as [u|] eqn:E; [|done]. inv_ok. to_prop. units.
  destruct (SealKey _ _ _ _ t) as [[sealed|] t1]; [|done].
  destruct (map_error _ (UnsealKey sealed) t1) as [[material|] t2] eqn:Eu; [|done]. apply map_error_Ok in Eu.
  destruct (check _ _;; _) as [u|] eqn:Ec; [|done]. inv_ok. to_prop. subst. units.
  destruct (writeLocalState os statePath _ sealed _ fs) as [[[]|] fs1] eqn:Ew; cbn [mbind result_bind]; intros [= <- <- <-].
  split_and!; try done. by exists sealed, t1.
Qed.

Hypothesis reads_ok : forall p, os_read os p = Ok tt.

(** A key that was stored loads again: the files hold the blob whose material the
    device returned when it was sealed, and whenever the device unseals it again the
    ring holds exactly the stored version, which [Active] selects. *)
Theorem stored_key_loads statePath version mode sel now later fs t metadata fs' t' :
  pcrs_typed -> uint32 (Version (Ref version)) -> KStatus version = StatusActive -> plain_files fs (KeyID (Ref version)) ->
  StoreLocalKey os (Ok tt) (Ok tt) statePath version mode sel now later fs t = (Ok metadata, fs', t') ->
  exists sealed t1, UnsealKey sealed t1 = (Ok (Material version), t') /\
    ReadLocalState os statePath fs' (Ref version) = Ok (ordered_sealed sealed, ordered_metadata metadata) /\
    forall t2 t3, UnsealKey sealed t2 = (Ok (Material version), t3) ->
      LoadLocalRing os (Ok tt) (Ok tt) statePath (Ref version) fs' t2 = (Ok (mkRing [version], ordered_metadata metadata), t3) /\
      Active (Some (mkRing [version])) = Ok version.
Proof.
  intros Hty Hu Hact Hplain (Hr & Hl & sealed & t1 & Hs & Hun & Hm & Hv & Hw)%StoreLocalKey_Ok.
  apply SealKey_typed in Hs as (Hst & Hsv & _ & Hmode); [|done]. exists sealed, t1. split; [done|].
  assert (text mode) as Htm by (by destruct Hmode as [->| ->]).
  assert (metadata_typed metadata) as Hmt by (subst; by apply local_metadata_typed).
  apply (writeLocalState_Ok os reads_ok) in Hw as (paths & fs0 & Hp & Hroot & _ & ->); [|done].
  pose proof (written_is_read os reads_ok statePath _ _ _ _ _ Hp Hroot Hst Hmt Hsv Hv) as Hread. split; [done|].
  intros t2 t3 Hun2. unfold LoadLocalRing, mbind, tpm_bind, lift, mret, tpm_ret. rewrite Hread. cbn [fst snd].
  rewrite UnsealKey_ordered, Hun2.
  assert (local_version (Ref version) (ordered_metadata metadata) (Material version) = version) as Heq.
  { subst metadata. unfold local_version. by destruct version. }
  rewrite Heq, active_alone by (done || (subst metadata; by eapply stored_version_valid)).
  split; [done|]. cbn. unfold canEncrypt. rewrite Hact. done.
Qed.
End Device.

(** ** Loading every usable version *)

Section Loading.
Context (os : OS).

(** A private file. *)
Definition private_file (fs : FS) (p : path) : Prop :=
  exists perm content, fs !! p = Some (File perm content) /\ Z.land perm 63 = 0.

Definition usable_status (s : string) : Prop := s = StatusActive \/ s = StatusDecryptOnly.

Lemma readLocalJSON_private {A} (fields : list (string * (json -> A -> result A))) zero fs p x :
  readLocalJSON os fields zero fs p = Ok x -> private_file fs p.
Proof.
  unfold readLocalJSON, Lstat, ReadFile. intros Hr. inv_ok. to_prop.
  match goal with E : fs !! p = Some ?n |- _ => rename E into Ef; assert (plain fs p) as Hp by (eapply plain_node; [exact Ef|]; by destruct n) end.
  rewrite resolve_plain in * by done. simplify_eq. rewrite Ef in *.
  match goal with E : match ?n with Dir _ => _ | _ => _ end = Ok _ |- _ => destruct n as [|perm content|]; try done end.
  eexists _, _. split; [eassumption|]. unfold accessible_by_others in *. cbn [perm_of] in *. by to_prop.
Qed.

Lemma ReadLocalState_private statePath fs ref sealed metadata :
  ReadLocalState os statePath fs ref = Ok (sealed, metadata) ->
  LocalKeyMetadata_Validate metadata ref = Ok tt /\
  exists paths, localKeyPaths ref = Ok paths /\ private_file fs (kp_metadata paths) /\ private_file fs (kp_sealed paths) /\
    readLocalKeyMetadata os fs (kp_metadata paths) = Ok metadata.
Proof.
  unfold ReadLocalState. intros Hr. inv_ok. units. simplify_eq. split; [done|]. eexists. split_and!; try done; by eapply readLocalJSON_private.
Qed.

(** The listing: what each step adds. *)
Lemma usable_step_Ok fs clusterID keyID refs name refs' :
  usable_step os fs clusterID keyID refs name = Ok refs' ->
  exists m, readLocalKeyMetadata os fs (key_dir keyID ++ [name]) = Ok m /\
    let ref := mkKeyRef (lm_ClusterID m) (lm_KeyID m) (lm_Version m) in
    ClusterID ref = clusterID /\ KeyID ref = keyID /\
    (usable_status (lm_Status m) /\ refs' = refs ++ [ref] \/ ~ usable_status (lm_Status m) /\ refs' = refs).
Proof.
  unfold usable_step, usable_status. intros Hs. inv_ok. eexists. split; [eassumption|]. to_prop. cbn zeta. split_and!; [done..|].
  match goal with E : (if ?a || ?b then _ else _) = _ |- _ => destruct (a || b) eqn:Eu; [left | right] end; inv_ok.
  - apply orb_true_iff in Eu as [Eu|Eu]; to_prop; auto.
  - to_prop. split; [tauto|]. match goal with E : (if ?c then _ else _) = _ |- _ => destruct c; by inv_ok end.
Qed.

(** A version that a metadata file of the listing announces as usable. *)
Definition announced (fs : FS) (names : list string) (ref : KeyRef) : Prop :=
  exists name m, name ∈ names /\ readLocalKeyMetadata os fs (key_dir (KeyID ref) ++ [name]) = Ok m /\
    ref = mkKeyRef (lm_ClusterID m) (lm_KeyID m) (lm_Version m) /\ usable_status (lm_Status m).

Lemma announced_more fs names names' ref : (forall n, n ∈ names -> n ∈ names') -> announced fs names ref -> announced fs names' ref.
Proof. intros Hn (name & m & Hin & Hr). exists name, m. by split; [apply Hn|]. Qed.

Lemma usable_refs_Ok fs clusterID keyID names refs refs' :
  foldR (usable_step os fs clusterID keyID) refs names = Ok refs' ->
  (forall r, r ∈ refs' -> r ∈ refs \/ (ClusterID r = clusterID /\ KeyID r = keyID) /\ announced fs names r) /\
  (forall r, r ∈ refs -> r ∈ refs') /\
  forall name m, name ∈ names -> readLocalKeyMetadata os fs (key_dir keyID ++ [name]) = Ok m -> usable_status (lm_Status m) ->
    mkKeyRef (lm_ClusterID m) (lm_KeyID m) (lm_Version m) ∈ refs'.
Proof.
  revert refs. induction names as [|name names IH]; intros refs; cbn [foldR].
  - intros [= ->]. split_and!; [by left | done |]. by intros ? ? ?%not_elem_of_nil.
  - intros Hs. inv_ok. match goal with E : usable_step _ _ _ _ _ _ = Ok _ |- _ => apply usable_step_Ok in E as (m & Hm & Hc & Hk & Hu) end.
    match goal with E : foldR _ ?r _ = Ok _ |- _ => apply IH in E as (IH1 & IH2 & IH3) end. split_and!.
    + intros r [Hr|[Hr Ha]]%IH1.
      * destruct Hu as [[Hu ->]|[_ ->]]; [|by left]. apply elem_of_app in Hr as [Hr|Hr]; [by left | right].
        apply list_elem_of_singleton in Hr as ->. split; [done|]. exists name, m. split; [by left|]. cbn [KeyID] in *. by rewrite Hk.
      * right. split; [done|]. eapply announced_more; [|exact Ha]. intros n Hn. by right.
    + intros r Hr. apply IH2. destruct Hu as [[_ ->]|[_ ->]]; [apply elem_of_app; by left | done].
    + intros nm m' Hin Hm' Hu'. apply elem_of_cons in Hin as [->|Hin]; [|by eapply IH3]. rewrite Hm in Hm'. simplify_eq.
      destruct Hu as [[_ ->]|[? _]]; [|done]. apply IH2, elem_of_app. right. by apply list_elem_of_singleton.
Qed.

Lemma metadata_name_listed fs keyID name n :
  fs !! (key_dir keyID ++ [name]) = Some n -> HasPrefix name "v" = true -> HasSuffix (string_drop 1 name) metadata_suffix = true ->
  name ∈ metadata_names fs keyID.
Proof.
  intros Hn Hp Hs. unfold metadata_names. rewrite sort_strings_perm. apply list_elem_of_omap. exists (key_dir keyID ++ [name]). split.
  - by apply elem_of_map_to_list, (list_elem_of_fmap_2 fst) in Hn.
  - unfold key_dir. cbn [app]. by rewrite !String.eqb_refl, Hp, Hs.
Qed.

Lemma version_file_listed fs ref paths :
  localKeyPaths ref = Ok paths -> private_file fs (kp_metadata paths) ->
  kp_metadata paths = key_dir (KeyID ref) ++ [version_name (Version ref) +:+ metadata_suffix] /\
  version_name (Version ref) +:+ metadata_suffix ∈ metadata_names fs (KeyID ref).
Proof.
  intros (_ & ->)%localKeyPaths_Ok (perm & content & Hf & _). split; [done|]. eapply metadata_name_listed; [exact Hf | |].
  - apply (proj1 (TrimPrefix_app "v" (FormatUint (Version ref) +:+ metadata_suffix))).
  - unfold HasSuffix, HasPrefix, version_name. rewrite <- sapp_assoc.
    change (string_drop 1 ("v" +:+ ?x)) with x. rewrite srev_app. by rewrite prefix_app.
Qed.

(** The listing has the readable versions of a usable status, and only that key's. *)
Lemma usable_refs_listed statePath fs clusterID keyID refs :
  localUsableKeyRefs os statePath fs clusterID keyID = Ok refs ->
  Forall (fun r => (ClusterID r = clusterID /\ KeyID r = keyID) /\ announced fs (metadata_names fs keyID) r) refs /\
  forall ref sealed m, ClusterID ref = clusterID -> KeyID ref = keyID ->
    ReadLocalState os statePath fs ref = Ok (sealed, m) -> usable_status (lm_Status m) -> ref ∈ refs.
Proof.
  unfold localUsableKeyRefs. intros Hu. inv_ok.
  match goal with E : (match ?l with [] => _ | _ => _ end) = Ok _ |- _ => assert (l = refs) as -> by (destruct l; by inv_ok) end.
  match goal with E : foldR _ _ _ = Ok _ |- _ => apply usable_refs_Ok in E as (Hids & _ & Hall) end.
  split; [apply Forall_forall; intros r [?%not_elem_of_nil|?]%Hids; done|]. intros ref sealed m Hc Hk (Hv & paths & Hp & Hpriv & _ & Hm)%ReadLocalState_private Hst.
  destruct (version_file_listed fs ref paths Hp Hpriv) as [Heq Hin]. rewrite Heq, <- ?Hk in *.
  specialize (Hall _ _ Hin Hm Hst). unfold LocalKeyMetadata_Validate in Hv. inv_ok. to_prop. destruct ref; cbn in *. congruence.
Qed.

Context `{TpmDevice}.

(** What one loaded version comes from. *)
Definition loaded_from (statePath : string) (fs : FS) (v : KeyVersion) (m : LocalKeyMetadata) : Prop :=
  exists sealed t1 t2, ReadLocalState os statePath fs (Ref v) = Ok (sealed, m) /\
    UnsealKey sealed t1 = (Ok (Material v), t2) /\ v = local_version (Ref v) m (Material v).

Lemma load_refs_Ok statePath fs refs t vs ms t' :
  load_refs os statePath fs refs t = (Ok (vs, ms), t') -> Ref <$> vs = refs /\ Forall2 (loaded_from statePath fs) vs ms.
Proof.
  revert t vs ms. induction refs as [|ref refs IH]; intros t vs ms; cbn [load_refs].
  - intros Hr. inv_cmd. simplify_eq. by split; [|constructor].
  - intros Hr. inv_cmd. simplify_eq.
    match goal with E : load_refs _ _ _ _ _ = (Ok ?rest, _) |- _ => destruct rest as [vs ms]; apply IH in E as [<- Hf] end.
    split; [done|]. constructor; [|done]. destruct x as [sealed metadata]. by eexists _, _, _.
Qed.

Lemma LoadLocalKeyring_Ok ctx open statePath clusterID keyID fs t ring ms t' :
  LoadLocalKeyring os ctx open statePath clusterID keyID fs t = (Ok (ring, ms), t') ->
  NewRing (versions ring) = Ok ring /\ Forall2 (loaded_from statePath fs) (versions ring) ms /\
  localUsableKeyRefs os statePath fs clusterID keyID = Ok (Ref <$> versions ring).
Proof.
  unfold LoadLocalKeyring. intros Hl. inv_cmd. simplify_eq.
  match goal with E : load_refs _ _ _ _ _ = (Ok ?l, _) |- _ => destruct l as [vs ms]; apply load_refs_Ok in E as [<- Hf] end.
  match goal with E : NewRing _ = Ok _ |- _ => pose proof E as Hn; apply NewRing_spec in E as [_ ->] end. by split_and!.
Qed.

Lemma Forall2_with {A B} (P : A -> Prop) (R S : A -> B -> Prop) l k :
  Forall P l -> Forall2 R l k -> (forall x y, P x -> R x y -> S x y) -> Forall2 S l k.
Proof. intros Hl Hf Hi. induction Hf; constructor; apply Forall_cons in Hl as [? ?]; auto. Qed.

(** Every listed metadata file bears the name of the version in it, as those that
    [StoreLocalKey] writes do. *)
Definition named_after_versions (fs : FS) (keyID : string) : Prop := forall name m,
  name ∈ metadata_names fs keyID -> readLocalKeyMetadata os fs (key_dir keyID ++ [name]) = Ok m ->
  name = version_name (lm_Version m) +:+ metadata_suffix.

Lemma announced_usable statePath fs ref sealed m :
  named_after_versions fs (KeyID ref) -> announced fs (metadata_names fs (KeyID ref)) ref ->
  ReadLocalState os statePath fs ref = Ok (sealed, m) -> usable_status (lm_Status m).
Proof.
  intros Hn (name & m' & Hin & Hm & Href & Hu) (_ & paths & Hp & _ & _ & Hr)%ReadLocalState_private.
  apply localKeyPaths_Ok in Hp as (_ & ->). cbn [kp_metadata] in Hr. pose proof (Hn _ _ Hin Hm) as Hname.
  assert (Version ref = lm_Version m') as Hv by (by rewrite Href). rewrite Hname, <- Hv, Hr in Hm. by injection Hm as ->.
Qed.

(** C27: a keyring that loads from local state is exact: each version has private files
    whose metadata validates for that cluster and key, the device unsealed its material,
    and some metadata file of the key's directory announces it as active or decrypt-only,
    which is its own status when the metadata files bear the names of their versions; and
    every version of the key whose files are readable with a usable status is in it, the
    one active version included. *)
Theorem LoadLocalKeyring_exact ctx open statePath clusterID keyID fs t ring ms t' :
  LoadLocalKeyring os ctx open statePath clusterID keyID fs t = (Ok (ring, ms), t') ->
  ring_ok (versions ring) /\
  Forall2 (fun v m => ClusterID (Ref v) = clusterID /\ KeyID (Ref v) = keyID /\ loaded_from statePath fs v m /\
     (exists paths, localKeyPaths (Ref v) = Ok paths /\ private_file fs (kp_metadata paths) /\ private_file fs (kp_sealed paths)) /\
     announced fs (metadata_names fs keyID) (Ref v) /\
     (named_after_versions fs keyID -> usable_status (KStatus v)))
    (versions ring) ms /\
  forall ref sealed m, ClusterID ref = clusterID -> KeyID ref = keyID ->
    ReadLocalState os statePath fs ref = Ok (sealed, m) -> usable_status (lm_Status m) -> ref ∈ Ref <$> versions ring.
Proof.
  intros (Hn & Hf & Hu)%LoadLocalKeyring_Ok. apply NewRing_spec in Hn as [Hok _]. split; [done|].
  apply usable_refs_listed in Hu as [Hids Hall]. split; [|done]. apply Forall_fmap in Hids.
  eapply Forall2_with; [exact Hids | exact Hf |]. intros v m [[Hc <-] Ha] Hv. pose proof Hv as (sealed & t1 & t2 & Hr & _ & Heq).
  pose proof Hr as (_ & paths & ? & ? & ? & _)%ReadLocalState_private. split_and!; [done..|by exists paths | done |].
  intros Hnamed. rewrite Heq. by eapply announced_usable.
Qed.
End Loading.

(** The paths hold the key ID only: one file of another cluster under the same key ID
    makes every load for this cluster fail. *)
Lemma usable_refs_clusters os fs clusterID keyID names refs refs' :
  foldR (usable_step os fs clusterID keyID) refs names = Ok refs' ->
  forall name, name ∈ names -> exists m, readLocalKeyMetadata os fs (key_dir keyID ++ [name]) = Ok m /\ lm_ClusterID m = clusterID.
Proof.
  revert refs. induction names as [|n names IH]; intros refs Hs name Hin; [by apply not_elem_of_nil in Hin|].
  cbn [foldR] in Hs. inv_ok. apply elem_of_cons in Hin as [->|Hin]; [|by eapply IH].
  match goal with E : usable_step _ _ _ _ _ _ = Ok _ |- _ => apply usable_step_Ok in E as (m & ? & ? & _) end. by exists m.
Qed.

Lemma foreign_metadata_blocks_loading os statePath clusterID keyID fs name m refs :
  name ∈ metadata_names fs keyID -> readLocalKeyMetadata os fs (key_dir keyID ++ [name]) = Ok m -> lm_ClusterID m <> clusterID ->
  localUsableKeyRefs os statePath fs clusterID keyID <> Ok refs.
Proof.
  intros Hin Hm Hne Hu. unfold localUsableKeyRefs in Hu. inv_ok.
  match goal with E : foldR _ _ _ = Ok _ |- _ => destruct (usable_refs_clusters _ _ _ _ _ _ _ E name Hin) as (m' & Hm' & Hc) end. congruence.
Qed.

(** ** A node in miniature *)

Definition toy_os : OS := mkOS (fun _ => Ok tt) (fun _ => Ok tt) (fun _ => Ok tt).
Definition toy_fs : FS := {[ [] := Dir 448 ]}.
Definition toy_version : KeyVersion :=
  mkKeyVersion (mkKeyRef "cluster-a" "root" 1) StatusActive AlgorithmAES256GCM "default" "0123456789abcdef0123456789abcdef".

Definition toy_store : result LocalKeyMetadata * FS * tpm :=
  @StoreLocalKey toy_os toy_device toy_Hashes (Ok tt) (Ok tt) "/var/lib/node" toy_version PolicyModeSecureBoot toy_selection
    1700000000000000000 1700000001000000000 toy_fs toy_start.

Definition toy_sealed_blob : SealedBlob := default zero_sealed (match toy_sealed.1 with Ok b => Some b | Err _ => None end).
Definition toy_metadata : LocalKeyMetadata := local_metadata toy_version PolicyModeSecureBoot toy_sealed_blob 1700000001000000000.

Example toy_stored_loads :
  match toy_store with
  | (Ok _, fs, t) =>
      match fst (LoadLocalKeyring toy_os (Ok tt) (Ok tt) "/var/lib/node" "cluster-a" "root" fs t) with
      | Ok (ring, _) => versions ring = [toy_version]
      | Err _ => False
      end
  | _ => False
  end.
Proof. vm_compute. reflexivity. Qed.

Lemma toy_reads_ok p : os_read toy_os p = Ok tt.
Proof. reflexivity. Qed.

Lemma toy_fs_plain keyID : plain_files toy_fs keyID.
Proof. intros name t. unfold toy_fs. by rewrite lookup_singleton_ne. Qed.

Lemma toy_pcrs_typed : @pcrs_typed toy_device.
Proof.
  intros sel t values t' Hr. injection Hr as <- _. apply Forall_forall. intros e [[_ He] _]%list_elem_of_filter.
  unfold pcr_index, int64_max. lia.
Qed.

Definition toy_stored_metadata : LocalKeyMetadata := match toy_store.1.1 with Ok m => m | Err _ => zero_metadata end.

Lemma stored_key_loads_witness :
  exists sealed t1, @UnsealKey toy_device sealed t1 = (Ok (Material toy_version), toy_store.2) /\
    ReadLocalState toy_os "/var/lib/node" toy_store.1.2 (Ref toy_version) = Ok (ordered_sealed sealed, ordered_metadata toy_stored_metadata) /\
    forall t2 t3, @UnsealKey toy_device sealed t2 = (Ok (Material toy_version), t3) ->
      LoadLocalRing toy_os (Ok tt) (Ok tt) "/var/lib/node" (Ref toy_version) toy_store.1.2 t2 =
        (Ok (mkRing [toy_version], ordered_metadata toy_stored_metadata), t3) /\
      Active (Some (mkRing [toy_version])) = Ok toy_version.
Proof.
  apply (@stored_key_loads toy_device toy_Hashes toy_os toy_reads_ok "/var/lib/node" toy_version PolicyModeSecureBoot toy_selection
           1700000000000000000 1700000001000000000 toy_fs toy_start toy_stored_metadata toy_store.1.2 toy_store.2).
  - exact toy_pcrs_typed.
  - unfold uint32, uint32_max. cbn. lia.
  - reflexivity.
  - apply toy_fs_plain.
  - vm_cast_no_check (@eq_refl _ toy_store).
Defined.

Definition toy_local_sealed : SealedBlob :=
  mkSealedBlob 1 PolicyModeTPMOnly "pub" "priv" None "2024-01-01T00:00:00Z".
Definition toy_local_metadata : LocalKeyMetadata := local_metadata toy_version PolicyModeTPMOnly toy_local_sealed 0.
Definition toy_written : FS := snd (writeLocalState toy_os "/state" (Ref toy_version) toy_local_sealed toy_local_metadata toy_fs).

Lemma local_state_roundtrip_witness :
  ReadLocalState toy_os "/state" toy_written (Ref toy_version) = Ok (ordered_sealed toy_local_sealed, ordered_metadata toy_local_metadata) /\
  exists paths, localKeyPaths (Ref toy_version) = Ok paths /\
    forall q n, toy_fs !! q = Some n -> q ∉ [kp_metadata paths; kp_sealed paths; kp_pcr paths] -> toy_written !! q = Some n.
Proof.
  apply (local_state_roundtrip toy_os toy_reads_ok "/state" (Ref toy_version) toy_local_sealed toy_local_metadata toy_fs toy_written).
  - vm_cast_no_check (@eq_refl _ (Ok tt : result unit, toy_written)).
  - apply toy_fs_plain.
  - repeat split; vm_compute; discriminate.
  - repeat split; vm_compute; discriminate.
  - reflexivity.
  - reflexivity.
Defined.

Definition toy_loaded : result (Ring * list LocalKeyMetadata) * tpm :=
  @LoadLocalKeyring toy_os toy_device (Ok tt) (Ok tt) "/var/lib/node" "cluster-a" "root" toy_store.1.2 toy_store.2.

Example toy_names : metadata_names toy_store.1.2 "root" = ["v1.metadata.json"%string].
Proof. vm_compute. reflexivity. Qed.

Lemma toy_named : named_after_versions toy_os toy_store.1.2 "root".
Proof.
  intros name m Hin Hm. rewrite toy_names in Hin. apply list_elem_of_singleton in Hin as ->.
  vm_compute in Hm. injection Hm as <-. reflexivity.
Qed.

Lemma LoadLocalKeyring_exact_witness :
  ring_ok [toy_version] /\ usable_status (KStatus toy_version) /\
  forall ref sealed m, ClusterID ref = "cluster-a"%string -> KeyID ref = "root"%string ->
    ReadLocalState toy_os "/var/lib/node" toy_store.1.2 ref = Ok (sealed, m) -> usable_status (lm_Status m) ->
    ref ∈ Ref <$> [toy_version].
Proof.
  destruct (@LoadLocalKeyring_exact toy_os toy_device (Ok tt) (Ok tt) "/var/lib/node" "cluster-a" "root" toy_store.1.2 toy_store.2
           (mkRing [toy_version]) [ordered_metadata toy_stored_metadata] toy_loaded.2) as (Hr & Hf & Hall).
  - vm_cast_no_check (@eq_refl _ toy_loaded).
  - split; [exact Hr|]. split; [|exact Hall]. inversion Hf as [|v m vs ms Hv Hvs Ev Em]. apply Hv. exact toy_named.
Defined.

(** *** A copy under another name *)

(** A listing takes the versions from the contents of the files, not from their names.  A
    copy of an old metadata file makes its version count as usable although its own file
    says it is retired by now, and it is loaded. *)
Definition toy_retired_metadata : LocalKeyMetadata := set_lm_Status StatusRetired toy_local_metadata.
Definition toy_second : KeyRef := mkKeyRef "cluster-a" "root" 2.
Definition toy_second_metadata : LocalKeyMetadata := set_lm_Version 2 toy_local_metadata.
Definition toy_copied_fs : FS :=
  let file v := File 384 (json_MarshalIndent v +:+ newline) in
  <[key_dir "root" ++ ["v1-old.metadata.json"%string] := file (LocalKeyMetadata_json (set_lm_Status StatusDecryptOnly toy_local_metadata))]>
  (<[key_dir "root" ++ ["v1.metadata.json"%string] := file (LocalKeyMetadata_json toy_retired_metadata)]>
  (<[key_dir "root" ++ ["v2.metadata.json"%string] := file (LocalKeyMetadata_json toy_second_metadata)]> toy_written)).

Example stale_copy_listed :
  localUsableKeyRefs toy_os "/state" toy_copied_fs "cluster-a" "root" = Ok [Ref toy_version; toy_second] /\
  match ReadLocalState toy_os "/state" toy_copied_fs (Ref toy_version) with
  | Ok (_, m) => lm_Status m = StatusRetired
  | Err _ => False
  end.
Proof. split; vm_compute; reflexivity. Qed.
