(* ===== verification/Grants.v ===== *)
(** * Offline enrollment requests and grants (internal/enrollment/enrollment.go)

    A target writes a [Request], an operator answers with a signed [Grant].  The
    signed text is the JSON of the grant without its signature, modelled to the
    byte; Ed25519 is a class with its documented laws. *)

From S2P Require Import Prelude GoStrings Base64 Json GoTime Keyring KeyProtection Tpm NodeEvidence.
From Stdlib Require Import Ascii.
Local Open Scope Z_scope.

Definition SchemaVersion : Z := 1.
Definition ModeBroker : string := "broker".

Definition ErrInvalidRequest : error := sentinel "enrollment.ErrInvalidRequest" "invalid enrollment request".
Definition ErrInvalidGrant : error := sentinel "enrollment.ErrInvalidGrant" "invalid enrollment grant".
Definition ErrExpired : error := sentinel "enrollment.ErrExpired" "enrollment artifact expired".
Definition ErrSignature : error := sentinel "enrollment.ErrSignature" "invalid enrollment grant signature".

(** crypto/ed25519.  A private key carries its public key. *)
Class Ed25519 := {
  ed_Public : bytes -> bytes;
  ed_Sign : bytes -> bytes -> bytes;
  ed_Verify : bytes -> bytes -> bytes -> bool;
}.
Definition ed25519_PublicKeySize : Z := 32.
Definition ed25519_PrivateKeySize : Z := 64.
Definition ed25519_SignatureSize : Z := 64.

Class Ed25519Laws `{Ed25519} := {
  ed_Public_size k : len k = ed25519_PrivateKeySize -> len (ed_Public k) = ed25519_PublicKeySize;
  ed_Sign_size k m : len k = ed25519_PrivateKeySize -> len (ed_Sign k m) = ed25519_SignatureSize;
  ed_Verify_Sign k m : len k = ed25519_PrivateKeySize -> ed_Verify (ed_Public k) m (ed_Sign k m) = true;
}.

(** A [[]string] is [None] when it is nil: its JSON is null. *)
Record Request := mkRequest {
  rq_SchemaVersion : Z;
  rq_RequestID : string;
  rq_ClusterID : string;
  rq_SubjectID : string;
  rq_Mode : string;
  rq_AllowedOperations : option (list string);
  rq_EvidenceFormat : string;
  rq_EvidencePayload : string;
  rq_EvidenceHash : string;
  rq_PublicIdentity : string;
  rq_Nonce : string;
  rq_ExpiresAt : string;
}.

Record Grant := mkGrant {
  g_SchemaVersion : Z;
  g_GrantID : string;
  g_RequestID : string;
  g_ClusterID : string;
  g_KeyID : string;
  g_SubjectID : string;
  g_Mode : string;
  g_ApprovalMode : string;
  g_AllowedOperations : option (list string);
  g_PolicyID : string;
  g_EvidenceHash : string;
  g_ExpiresAt : string;
  g_OneTime : bool;
  g_IssuerPublicKey : string;
  g_Signature : string;
}.

Record RequestOptions := mkRequestOptions {
  qo_RequestID : string;
  qo_ClusterID : string;
  qo_SubjectID : string;
  qo_AllowedOperations : list string;
  qo_EvidenceFormat : string;
  qo_EvidencePayload : bytes;
  qo_PublicIdentity : string;
  qo_Nonce : string;
  qo_ExpiresAt : Time;
}.

Record GrantOptions := mkGrantOptions {
  go_GrantID : string;
  go_KeyID : string;
  go_PolicyID : string;
  go_ApprovalMode : string;
  go_ExpiresAt : Time;
  go_OneTime : bool;
}.

(** ** Normalization *)

(** The loop that drops blanks and repetitions, before the sort. *)
Fixpoint distinct_operations (seen : list string) (operations : list string) : list string :=
  match operations with
  | [] => []
  | operation :: r =>
      let operation := ToLower (TrimSpace operation) in
      if empty operation then distinct_operations seen r
      else if existsb (String.eqb operation) seen then distinct_operations seen r
      else operation :: distinct_operations (operation :: seen) r
  end.

Definition normalizeOperations (operations : list string) : list string :=
  sort_strings (distinct_operations [] operations).

Definition normalizeApprovalMode (mode : string) : string :=
  let mode := ToLower (TrimSpace mode) in
  if empty mode then "single-operator" else mode.

Definition validateOperations (operations : option (list string)) : result unit :=
  let operations := default [] operations in
  check (negb (length operations =? 0)%nat) (errorw ErrInvalidRequest "operations are required");;
  foldR (fun _ operation =>
      check (String.eqb operation "wrap" || String.eqb operation "unwrap")
        (errorw ErrInvalidRequest ("unsupported operation " +:+ quoted operation)))
    tt operations.

Definition evidenceHash `{Hashes} (payload : bytes) : string := "sha256:" +:+ hex_EncodeToString (Sum HashSHA256 payload).

(** [time.Parse] of the expiry and [!now.Before(expiresAt)]. *)
Definition check_expiry (base : error) (expiry : string) (now : Time) : result unit :=
  expiresAt ← of_option (errorw base "invalid expiry") (ParseRFC3339Nano expiry);
  check (Before now expiresAt) ErrExpired.

Definition Request_Validate (r : Request) (now : Time) : result unit :=
  check (rq_SchemaVersion r =? SchemaVersion) (errorw ErrInvalidRequest "unsupported schema version");;
  map_err (fun _ => errorw ErrInvalidRequest "invalid request ID") (ValidateIdentifier (rq_RequestID r));;
  map_err (fun _ => errorw ErrInvalidRequest "invalid cluster ID") (ValidateIdentifier (rq_ClusterID r));;
  map_err (fun _ => errorw ErrInvalidRequest "invalid subject ID") (ValidateIdentifier (rq_SubjectID r));;
  check (String.eqb (rq_Mode r) ModeBroker) (errorw ErrInvalidRequest "unsupported mode");;
  validateOperations (rq_AllowedOperations r);;
  check (negb (empty (TrimSpace (rq_EvidenceFormat r)))) (errorw ErrInvalidRequest "evidence format is required");;
  check (HasPrefix (rq_EvidenceHash r) "sha256:") (errorw ErrInvalidRequest "invalid evidence hash");;
  check (negb (empty (TrimSpace (rq_PublicIdentity r)))) (errorw ErrInvalidRequest "public identity is required");;
  check (negb (empty (TrimSpace (rq_Nonce r)))) (errorw ErrInvalidRequest "nonce is required");;
  check_expiry ErrInvalidRequest (rq_ExpiresAt r) now.

(** [now] is what [time.Now()] returns. *)
Definition NewRequest `{Hashes} (opts : RequestOptions) (now : Time) : result Request :=
  let operations :=
    match qo_AllowedOperations opts with [] => ["wrap"; "unwrap"]%string | l => l end in
  let request := mkRequest SchemaVersion (qo_RequestID opts) (qo_ClusterID opts) (qo_SubjectID opts) ModeBroker
    (Some (normalizeOperations operations)) (qo_EvidenceFormat opts)
    (b64_EncodeToString (qo_EvidencePayload opts)) (evidenceHash (qo_EvidencePayload opts))
    (qo_PublicIdentity opts) (qo_Nonce opts) (FormatRFC3339Nano (qo_ExpiresAt opts)) in
  Request_Validate request now;;
  Ok request.

(** ** The signed text *)

Definition operations_json (operations : option (list string)) : json :=
  match operations with None => JNull | Some l => JArray (JString <$> l) end.

Definition unsigned_json (g : Grant) : json :=
  JObject [("schema_version"%string, JNumber (FormatInt (g_SchemaVersion g)));
           ("grant_id"%string, JString (g_GrantID g));
           ("request_id"%string, JString (g_RequestID g));
           ("cluster_id"%string, JString (g_ClusterID g));
           ("key_id"%string, JString (g_KeyID g));
           ("subject_id"%string, JString (g_SubjectID g));
           ("mode"%string, JString (g_Mode g));
           ("approval_mode"%string, JString (g_ApprovalMode g));
           ("allowed_operations"%string, operations_json (g_AllowedOperations g));
           ("policy_id"%string, JString (g_PolicyID g));
           ("evidence_hash"%string, JString (g_EvidenceHash g));
           ("expires_at"%string, JString (g_ExpiresAt g));
           ("one_time"%string, JBool (g_OneTime g));
           ("issuer_public_key"%string, JString (g_IssuerPublicKey g))].

(** [json.Marshal] cannot fail on this type. *)
Definition signingPayload (g : Grant) : bytes := json_Print (unsigned_json g).

Definition SameGrant (left right : Grant) : bool := String.eqb (signingPayload left) (signingPayload right).

(** ** Grants *)

Section Grants.
Context `{Ed25519}.

(** The order in which [range] visits the map of identifiers, which Go leaves open. *)
Context (range : list (string * string) -> list (string * string)).

Definition grant_identifiers (g : Grant) : list (string * string) :=
  [("grant ID"%string, g_GrantID g); ("request ID"%string, g_RequestID g); ("cluster ID"%string, g_ClusterID g);
   ("key ID"%string, g_KeyID g); ("subject ID"%string, g_SubjectID g); ("policy ID"%string, g_PolicyID g)].

Definition validateUnsigned (g : Grant) (now : Time) : result unit :=
  check (g_SchemaVersion g =? SchemaVersion) (errorw ErrInvalidGrant "unsupported schema version");;
  foldR (fun _ (p : string * string) =>
      map_err (fun _ => errorw ErrInvalidGrant ("invalid " +:+ p.1)) (ValidateIdentifier p.2))
    tt (range (grant_identifiers g));;
  check (String.eqb (g_Mode g) ModeBroker) (errorw ErrInvalidGrant "unsupported mode");;
  check (String.eqb (g_ApprovalMode g) "single-operator" || String.eqb (g_ApprovalMode g) "quorum")
    (errorw ErrInvalidGrant "unsupported approval mode");;
  validateOperations (g_AllowedOperations g);;
  check (HasPrefix (g_EvidenceHash g) "sha256:") (errorw ErrInvalidGrant "invalid evidence hash");;
  check_expiry ErrInvalidGrant (g_ExpiresAt g) now.

(** [base64] of exactly [size] bytes. *)
Definition decode_sized (size : Z) (e : error) (text : string) : result bytes :=
  match b64_DecodeString text with
  | Some b => check (len b =? size) e;; Ok b
  | None => Err e
  end.

Definition Verify (g : Grant) (now : Time) : result unit :=
  validateUnsigned g now;;
  publicKey ← decode_sized ed25519_PublicKeySize (errorw ErrInvalidGrant "invalid issuer public key") (g_IssuerPublicKey g);
  signature ← decode_sized ed25519_SignatureSize (errorw ErrInvalidGrant "invalid signature encoding") (g_Signature g);
  check (ed_Verify publicKey (signingPayload g) signature) ErrSignature.

Definition unsigned_grant (request : Request) (privateKey : bytes) (opts : GrantOptions) : Grant :=
  mkGrant SchemaVersion (go_GrantID opts) (rq_RequestID request) (rq_ClusterID request) (go_KeyID opts)
    (rq_SubjectID request) ModeBroker (normalizeApprovalMode (go_ApprovalMode opts)) (rq_AllowedOperations request)
    (go_PolicyID opts) (rq_EvidenceHash request) (FormatRFC3339Nano (go_ExpiresAt opts)) (go_OneTime opts)
    (b64_EncodeToString (ed_Public privateKey)) EmptyString.

Definition with_signature (g : Grant) (signature : string) : Grant :=
  mkGrant (g_SchemaVersion g) (g_GrantID g) (g_RequestID g) (g_ClusterID g) (g_KeyID g) (g_SubjectID g) (g_Mode g)
    (g_ApprovalMode g) (g_AllowedOperations g) (g_PolicyID g) (g_EvidenceHash g) (g_ExpiresAt g) (g_OneTime g)
    (g_IssuerPublicKey g) signature.

Definition IssueGrant (request : Request) (privateKey : bytes) (opts : GrantOptions) (now : Time) : result Grant :=
  Request_Validate request now;;
  check (len privateKey =? ed25519_PrivateKeySize) (errorw ErrInvalidGrant "invalid issuer key");;
  let grant := unsigned_grant request privateKey opts in
  validateUnsigned grant now;;
  let grant := with_signature grant (b64_EncodeToString (ed_Sign privateKey (signingPayload grant))) in
  Verify grant now;;
  Ok grant.
End Grants.

(** ** Lemmas: operations *)

Lemma existsb_String_eqb s l : existsb (String.eqb s) l = true <-> s ∈ l.
Proof.
  rewrite existsb_exists, list_elem_of_In. split.
  - intros (x & Hx & ->%String.eqb_eq). done.
  - intros Hx. exists s. split; [done | apply String.eqb_refl].
Qed.

Definition normalized (o : string) : string := ToLower (TrimSpace o).

Lemma distinct_operations_elem seen l x :
  x ∈ distinct_operations seen l <-> x ∉ seen /\ x <> EmptyString /\ x ∈ normalized <$> l.
Proof.
  revert seen; induction l as [|o r IH]; intros seen; cbn [distinct_operations fmap list_fmap].
  - split; [intros []%not_elem_of_nil | intros (_ & _ & []%not_elem_of_nil)].
  - fold (normalized o). unfold empty. rewrite elem_of_cons. destruct (String.eqb_spec (normalized o) EmptyString) as [E|E].
    + rewrite IH. split; [by intros (? & ? & ?); auto|]. intros (? & Hne & [->|?]); [by rewrite E in Hne | done].
    + destruct (existsb (String.eqb (normalized o)) seen) eqn:Ex.
      * apply existsb_String_eqb in Ex. rewrite IH. split; [by intros (? & ? & ?); auto|].
        by intros (? & ? & [->|?]).
      * assert (normalized o ∉ seen) as Hni.
        { intros H. apply existsb_String_eqb in H. congruence. }
        rewrite elem_of_cons, IH, not_elem_of_cons. destruct (decide (x = normalized o)) as [->|Hne]; naive_solver.
Qed.

Lemma distinct_operations_NoDup seen l : NoDup (distinct_operations seen l).
Proof.
  revert seen; induction l as [|o r IH]; intros seen; cbn [distinct_operations]; [constructor|].
  repeat case_goal; [done..|]. apply NoDup_cons. split; [|done].
  intros (Hni & _)%distinct_operations_elem. apply Hni. left.
Qed.

Lemma normalizeOperations_elem l x : x ∈ normalizeOperations l <-> x <> EmptyString /\ x ∈ normalized <$> l.
Proof.
  unfold normalizeOperations. rewrite sort_strings_perm, distinct_operations_elem.
  split; [naive_solver|]. intros (? & ?). split_and!; try done. apply not_elem_of_nil.
Qed.

Lemma normalizeOperations_NoDup l : NoDup (normalizeOperations l).
Proof. unfold normalizeOperations. rewrite sort_strings_perm. apply distinct_operations_NoDup. Qed.

(** Normalizing operations gives them without blanks and repetitions in ascending
    order, whatever the order and spelling of the input: two lists that name the same
    operations have the same normal form, which is its own normal form. *)
Theorem normalizeOperations_canonical l l' :
  let n := normalizeOperations l in
  Sorted String.le n /\ NoDup n /\
  (forall x, x ∈ n <-> x <> EmptyString /\ x ∈ normalized <$> l) /\
  ((forall x, x <> EmptyString -> x ∈ normalized <$> l <-> x ∈ normalized <$> l') -> normalizeOperations l' = n) /\
  ((forall x, x ∈ n -> normalized x = x) -> normalizeOperations n = n).
Proof.
  assert (forall l l', (forall x, x <> EmptyString -> x ∈ normalized <$> l <-> x ∈ normalized <$> l') ->
    normalizeOperations l' = normalizeOperations l) as Hsame.
  { intros a b He. apply (Sorted_unique String.le); [apply (Sorted_merge_sort _) | apply (Sorted_merge_sort _) |].
    apply NoDup_Permutation; [apply normalizeOperations_NoDup | apply normalizeOperations_NoDup |].
    intros x. rewrite !normalizeOperations_elem. naive_solver. }
  split_and!; [apply (Sorted_merge_sort _) | apply normalizeOperations_NoDup | apply normalizeOperations_elem | apply Hsame |].
  intros Hid. apply Hsame. intros x Hx. rewrite !list_elem_of_fmap. split.
  - intros (o & -> & Ho). exists (normalized o). assert (normalized o ∈ normalizeOperations l) as Hin.
    { apply normalizeOperations_elem. split; [done | by apply list_elem_of_fmap_2]. }
    split; [symmetry; by apply Hid | done].
  - intros (o & -> & Ho). pose proof Ho as (_ & Hin)%normalizeOperations_elem. rewrite (Hid o Ho).
    by apply list_elem_of_fmap.
Qed.

Lemma validateOperations_Ok ops :
  validateOperations ops = Ok tt <->
  exists l, ops = Some l /\ l <> [] /\ Forall (fun o => o = "wrap" \/ o = "unwrap")%string l.
Proof.
  unfold validateOperations. rewrite bind_Ok. setoid_rewrite check_Ok.
  assert (forall l : list string, foldR (fun _ operation =>
      check (String.eqb operation "wrap" || String.eqb operation "unwrap")
        (errorw ErrInvalidRequest ("unsupported operation " +:+ quoted operation))) tt l = Ok tt <->
    Forall (fun o => o = "wrap" \/ o = "unwrap")%string l) as Hl.
  { induction l as [|o r IH]; cbn [foldR]; [split; [constructor | done]|].
    rewrite Forall_cons, <- IH, bind_Ok. setoid_rewrite check_Ok. setoid_rewrite orb_true_iff. setoid_rewrite String.eqb_eq.
    split; [intros ([] & ? & ?); done | intros (? & ?); by exists tt]. }
  split.
  - intros ([] & Hne & Hall). destruct ops as [l|]; [|done]. exists l. simpl in *. apply Hl in Hall.
    split_and!; try done. by intros ->.
  - intros (l & -> & Hne & Hall). exists tt. simpl. split; [by destruct l | by apply Hl].
Qed.

(** ** Lemmas: the signed text *)

(** Grants whose strings are well-formed, as every text read from JSON is, and whose
    version fits its 32 bits. *)
Definition grant_typed (g : Grant) : Prop :=
  0 <= g_SchemaVersion g <= uint32_max /\
  Forall (fun s => valid_utf8 s = true)
    [g_GrantID g; g_RequestID g; g_ClusterID g; g_KeyID g; g_SubjectID g; g_Mode g; g_ApprovalMode g; g_PolicyID g;
     g_EvidenceHash g; g_ExpiresAt g; g_IssuerPublicKey g] /\
  Forall (fun s => valid_utf8 s = true) (default [] (g_AllowedOperations g)).

Lemma unsigned_printable g : grant_typed g -> printable 2 (unsigned_json g).
Proof.
  unfold grant_typed, uint32_max. intros (Hv & Hs & Ho). rewrite !Forall_cons in Hs.
  destruct Hs as (? & ? & ? & ? & ? & ? & ? & ? & ? & ? & ? & _).
  unfold unsigned_json. cbn [printable]. rewrite !Forall_cons. cbn [fst snd].
  split_and!; try done; try apply Forall_nil.
  - apply FormatInt_number. lia.
  - destruct (g_AllowedOperations g) as [l|]; [|done]. simpl in *. by apply Forall_fmap.
Qed.

Lemma JString_inj (l l' : list string) : JString <$> l = JString <$> l' -> l = l'.
Proof.
  revert l'; induction l as [|x r IH]; intros [|y r'] H; try done. cbn [fmap list_fmap] in H.
  injection H as -> H. f_equal. by apply IH.
Qed.

Lemma operations_json_inj a b : operations_json a = operations_json b -> a = b.
Proof.
  destruct a as [l|], b as [l'|]; simpl; try done. intros [= H]. f_equal. by apply JString_inj.
Qed.

Lemma FormatInt_inj_uint32 a b :
  0 <= a <= uint32_max -> 0 <= b <= uint32_max -> FormatInt a = FormatInt b -> a = b.
Proof.
  intros Ha Hb H. pose proof (decode_uint32_Print a Ha) as Ea. pose proof (decode_uint32_Print b Hb) as Eb.
  rewrite H in Ea. congruence.
Qed.

(** C36: the signature covers every field: two grants have the same signed text exactly
    when they agree in everything but the signature. *)
Theorem SameGrant_exact left right :
  grant_typed left -> grant_typed right ->
  SameGrant left right = true <-> with_signature left EmptyString = with_signature right EmptyString.
Proof.
  intros Hl Hr. unfold SameGrant, signingPayload. rewrite String.eqb_eq. split.
  - intros H. pose proof (json_Parse_Print 2 _ (unsigned_printable _ Hl) ltac:(done)) as El.
    pose proof (json_Parse_Print 2 _ (unsigned_printable _ Hr) ltac:(done)) as Er.
    rewrite H, Er in El. apply Some_inj in El. revert El.
    destruct Hl as (Hv & _ & _), Hr as (Hv' & _ & _). destruct left as [v], right as [v'].
    unfold unsigned_json, with_signature. simpl in *. intros [= Hver]. subst.
    match goal with E : operations_json _ = operations_json _ |- _ => apply operations_json_inj in E as -> end.
    by rewrite (FormatInt_inj_uint32 v v').
  - intros H. f_equal. destruct left, right. unfold with_signature in H. simpl in H. injection H as. by subst.
Qed.

(** ** Lemmas: checks on grants *)

Section Checks.
Context `{Ed25519} (range : list (string * string) -> list (string * string)).
Context (range_perm : forall l, range l ≡ₚ l).

(** What [validateUnsigned] asks for, the order of the map aside. *)
Definition valid_unsigned (g : Grant) (now : Time) : Prop :=
  g_SchemaVersion g = SchemaVersion /\ Forall (fun p => validIdentifier p.2 = true) (grant_identifiers g) /\
  g_Mode g = ModeBroker /\ (g_ApprovalMode g = "single-operator" \/ g_ApprovalMode g = "quorum")%string /\
  validateOperations (g_AllowedOperations g) = Ok tt /\ HasPrefix (g_EvidenceHash g) "sha256:" = true /\
  exists expiresAt, ParseRFC3339Nano (g_ExpiresAt g) = Some expiresAt /\ now < expiresAt.

Lemma check_expiry_Ok base text now :
  check_expiry base text now = Ok tt <-> exists t, ParseRFC3339Nano text = Some t /\ now < t.
Proof.
  unfold check_expiry. rewrite bind_Ok. setoid_rewrite of_option_Ok. setoid_rewrite check_Ok.
  unfold Before. by setoid_rewrite Z.ltb_lt.
Qed.

Lemma identifiers_Ok l :
  foldR (fun _ (p : string * string) =>
      map_err (fun _ => errorw ErrInvalidGrant ("invalid " +:+ p.1)) (ValidateIdentifier p.2)) tt l = Ok tt <->
  Forall (fun p => validIdentifier p.2 = true) l.
Proof.
  induction l as [|p r IH]; cbn [foldR]; [split; [constructor | done]|].
  rewrite Forall_cons, <- IH, bind_Ok. setoid_rewrite map_err_Ok. unfold ValidateIdentifier. setoid_rewrite check_Ok.
  split; [intros ([] & ? & ?); done | intros (? & ?); by exists tt].
Qed.

Lemma validateUnsigned_Ok g now : validateUnsigned range g now = Ok tt <-> valid_unsigned g now.
Proof.
  unfold validateUnsigned, valid_unsigned. split.
  - intros Hv. inv_ok. units. to_prop.
    match goal with E : foldR _ _ _ = Ok tt |- _ => apply identifiers_Ok in E; rewrite range_perm in E end.
    match goal with E : check_expiry _ _ _ = Ok tt |- _ => apply check_expiry_Ok in E end.
    match goal with E : _ || _ = true |- _ => apply orb_true_iff in E; rewrite !String.eqb_eq in E end. done.
  - intros (Hs & Hids & Hm & Ha & Ho & Hh & He). rewrite Hs. cbn [check mbind result_bind Z.eqb].
    rewrite <- range_perm in Hids. apply identifiers_Ok in Hids. rewrite Hids. cbn [mbind result_bind].
    rewrite Hm. assert (String.eqb (g_ApprovalMode g) "single-operator" || String.eqb (g_ApprovalMode g) "quorum" = true) as ->.
    { rewrite orb_true_iff, !String.eqb_eq. done. }
    rewrite Ho, Hh. cbn [check mbind result_bind]. by apply check_expiry_Ok.
Qed.

Lemma decode_sized_Ok size e text b :
  decode_sized size e text = Ok b <-> b64_DecodeString text = Some b /\ len b = size.
Proof.
  unfold decode_sized. destruct (b64_DecodeString text) as [b'|]; [|naive_solver]. rewrite bind_Ok. setoid_rewrite check_Ok.
  setoid_rewrite Z.eqb_eq. split; [by intros (_ & ? & [= ->]) | by intros ([= ->] & ?); exists tt].
Qed.

(** The signature check alone. *)
Definition signed (g : Grant) : Prop :=
  exists publicKey signature,
    b64_DecodeString (g_IssuerPublicKey g) = Some publicKey /\ len publicKey = ed25519_PublicKeySize /\
    b64_DecodeString (g_Signature g) = Some signature /\ len signature = ed25519_SignatureSize /\
    ed_Verify publicKey (signingPayload g) signature = true.

Lemma Verify_Ok g now : Verify range g now = Ok tt <-> valid_unsigned g now /\ signed g.
Proof.
  unfold Verify. rewrite bind_Ok. split.
  - intros ([] & Hv & Hr). apply validateUnsigned_Ok in Hv. split; [done|]. inv_ok.
    repeat match goal with E : decode_sized _ _ _ = Ok _ |- _ => apply decode_sized_Ok in E as [? ?] end.
    eexists _, _. by split_and!.
  - intros (Hv & pk & sg & H1 & H2 & H3 & H4 & H5). exists tt. split; [by apply validateUnsigned_Ok|].
    assert (forall e, decode_sized ed25519_PublicKeySize e (g_IssuerPublicKey g) = Ok pk) as ->
      by (intros e; by apply decode_sized_Ok).
    assert (forall e, decode_sized ed25519_SignatureSize e (g_Signature g) = Ok sg) as Hsg
      by (intros e; by apply decode_sized_Ok).
    cbn [mbind result_bind]. rewrite Hsg. cbn [mbind result_bind]. by rewrite H5.
Qed.

(** A grant that is valid but for its expiry. *)
Lemma validateUnsigned_expired g now later t :
  valid_unsigned g now -> ParseRFC3339Nano (g_ExpiresAt g) = Some t -> t <= later ->
  validateUnsigned range g later = Err ErrExpired.
Proof.
  intros (Hs & Hids & Hm & Ha & Ho & Hh & _) Ht Hl. unfold validateUnsigned. rewrite Hs. cbn [check mbind result_bind Z.eqb].
  rewrite <- range_perm in Hids. apply identifiers_Ok in Hids. rewrite Hids. cbn [mbind result_bind].
  rewrite Hm. assert (String.eqb (g_ApprovalMode g) "single-operator" || String.eqb (g_ApprovalMode g) "quorum" = true) as ->.
  { rewrite orb_true_iff, !String.eqb_eq. done. }
  rewrite Ho, Hh. cbn [check mbind result_bind]. unfold check_expiry. rewrite Ht. cbn [of_option mbind result_bind].
  unfold Before. by rewrite (proj2 (Z.ltb_ge _ _) Hl).
Qed.

Lemma Verify_until g now t later :
  valid_unsigned g now -> signed g -> ParseRFC3339Nano (g_ExpiresAt g) = Some t ->
  Verify range g later = if later <? t then Ok tt else Err ErrExpired.
Proof.
  intros Hv Hs Ht. destruct (Z.ltb_spec later t) as [Hlt|Hge].
  - apply Verify_Ok. split; [|done]. destruct Hv as (? & ? & ? & ? & ? & ? & _). split_and!; try done. by exists t.
  - unfold Verify. by rewrite (validateUnsigned_expired g now later t).
Qed.
End Checks.

Section Properties.
Context `{Ed25519Laws} (range range' : list (string * string) -> list (string * string)).
Context (range_perm : forall l, range l ≡ₚ l) (range_perm' : forall l, range' l ≡ₚ l).

(** Whether a grant verifies does not depend on the order in which the identifiers
    are visited; a grant that verifies once keeps verifying until the moment it
    expires, and from then on is refused as expired. *)
Theorem Verify_lifetime g now :
  Verify range g now = Ok tt ->
  exists expiresAt, ParseRFC3339Nano (g_ExpiresAt g) = Some expiresAt /\ now < expiresAt /\
    forall later, Verify range' g later = if later <? expiresAt then Ok tt else Err ErrExpired.
Proof.
  intros (Hv & Hs)%(Verify_Ok range range_perm). pose proof Hv as (_ & _ & _ & _ & _ & _ & t & Ht & Hlt).
  exists t. split_and!; [done..|]. intros later. by apply (Verify_until range' range_perm' g now).
Qed.

(** What the operator's options must satisfy for a grant. *)
Definition options_ok (opts : GrantOptions) (now : Time) : Prop :=
  validIdentifier (go_GrantID opts) = true /\ validIdentifier (go_KeyID opts) = true /\
  validIdentifier (go_PolicyID opts) = true /\
  (normalizeApprovalMode (go_ApprovalMode opts) = "single-operator" \/
   normalizeApprovalMode (go_ApprovalMode opts) = "quorum")%string /\
  time_ok (go_ExpiresAt opts) /\ now < go_ExpiresAt opts.

Lemma request_valid r now :
  Request_Validate r now = Ok tt ->
  validIdentifier (rq_RequestID r) = true /\ validIdentifier (rq_ClusterID r) = true /\
  validIdentifier (rq_SubjectID r) = true /\ validateOperations (rq_AllowedOperations r) = Ok tt /\
  HasPrefix (rq_EvidenceHash r) "sha256:" = true.
Proof.
  unfold Request_Validate, ValidateIdentifier. intros Hv. inv_ok. units. done.
Qed.

Lemma issued_valid r key opts now :
  Request_Validate r now = Ok tt -> options_ok opts now -> valid_unsigned (unsigned_grant r key opts) now.
Proof.
  intros (H1 & H2 & H3 & H4 & H5)%request_valid (O1 & O2 & O3 & O4 & O5 & O6). unfold valid_unsigned. simpl.
  split_and!; try done; [by repeat constructor |].
  exists (go_ExpiresAt opts). by rewrite ParseRFC3339Nano_Format.
Qed.

Lemma issued_signed g key :
  len key = ed25519_PrivateKeySize -> g_IssuerPublicKey g = b64_EncodeToString (ed_Public key) ->
  signed (with_signature g (b64_EncodeToString (ed_Sign key (signingPayload g)))).
Proof.
  intros Hk Hp. exists (ed_Public key), (ed_Sign key (signingPayload g)). simpl. rewrite Hp, !b64_roundtrip.
  split_and!; [done | by apply ed_Public_size | done | by apply ed_Sign_size | by apply ed_Verify_Sign].
Qed.

(** For a valid request, a key of the right size and valid options [IssueGrant]
    succeeds; the grant takes over the request's identity, operations and evidence,
    and verifies until the chosen expiry and not from then on. *)
Theorem IssueGrant_verifies request key opts now :
  Request_Validate request now = Ok tt -> len key = ed25519_PrivateKeySize -> options_ok opts now ->
  exists g, IssueGrant range request key opts now = Ok g /\
    with_signature g EmptyString = unsigned_grant request key opts /\
    forall later, Verify range' g later = if later <? go_ExpiresAt opts then Ok tt else Err ErrExpired.
Proof.
  intros Hr Hk Ho. pose proof (issued_valid request key opts now Hr Ho) as Hv.
  set (g := with_signature (unsigned_grant request key opts)
              (b64_EncodeToString (ed_Sign key (signingPayload (unsigned_grant request key opts))))).
  assert (valid_unsigned g now) as Hvg by exact Hv.
  assert (signed g) as Hs by (by apply issued_signed). exists g. split_and!.
  - unfold IssueGrant. rewrite Hr. cbn [mbind result_bind]. rewrite Hk. cbn [check mbind result_bind Z.eqb].
    rewrite (proj2 (validateUnsigned_Ok range range_perm _ _) Hv). cbn [mbind result_bind]. fold g.
    by rewrite (proj2 (Verify_Ok range range_perm g now) (conj Hvg Hs)).
  - done.
  - intros later. apply (Verify_until range' range_perm' g now); [done..|]. simpl.
    apply ParseRFC3339Nano_Format. by destruct Ho as (_ & _ & _ & _ & ? & _).
Qed.
End Properties.

(** ** Examples *)

Definition toy_Ed25519 : Ed25519 := {|
  ed_Public k := string_drop 32 k;
  ed_Sign k m := repeat_byte 64 (Ascii.ascii_of_N (N.of_nat (String.length m) mod 256));
  ed_Verify pk m s := String.eqb s (repeat_byte 64 (Ascii.ascii_of_N (N.of_nat (String.length m) mod 256)));
|}.

Lemma toy_Ed25519Laws : @Ed25519Laws toy_Ed25519.
Proof.
  split.
  - intros k. unfold len, ed25519_PrivateKeySize, ed25519_PublicKeySize.
    change (ed_Public k) with (string_drop 32 k). rewrite string_drop_length. lia.
  - intros k m _. unfold len. simpl. reflexivity.
  - intros k m _. apply String.eqb_refl.
Qed.

Definition example_request_options : RequestOptions :=
  mkRequestOptions "req-1" "cluster-a" "node-a" [" Unwrap"; "wrap"; "UNWRAP"]%string "format" "evidence" "identity" "nonce"
    (2 * Hour).
Definition example_grant_request : result Request := @NewRequest toy_Hashes example_request_options 0.
Definition example_options : GrantOptions := mkGrantOptions "grant-1" "root" "policy-1" EmptyString Hour true.
Definition example_key : bytes := repeat_byte 64 "k"%char.

Definition the_request : Request :=
  match example_grant_request with
  | Ok r => r
  | Err _ => mkRequest 0 EmptyString EmptyString EmptyString EmptyString None EmptyString EmptyString EmptyString
               EmptyString EmptyString EmptyString
  end.

Example example_operations : rq_AllowedOperations the_request = Some ["unwrap"; "wrap"]%string.
Proof. vm_compute. reflexivity. Qed.

Definition the_grant : Grant := with_signature (@unsigned_grant toy_Ed25519 the_request example_key example_options)
  (b64_EncodeToString (@ed_Sign toy_Ed25519 example_key
     (signingPayload (@unsigned_grant toy_Ed25519 the_request example_key example_options)))).

Lemma IssueGrant_verifies_witness :
  exists g, @IssueGrant toy_Ed25519 id the_request example_key example_options 0 = Ok g /\
    @Verify toy_Ed25519 (@rev _) g (30 * Minute) = Ok tt /\ @Verify toy_Ed25519 (@rev _) g Hour = Err ErrExpired.
Proof.
  destruct (@IssueGrant_verifies toy_Ed25519 toy_Ed25519Laws id (@rev _) (fun l => Permutation_refl l)
              (fun l => Permutation_sym (Permutation_rev l)) the_request example_key example_options 0)
    as (g & Hg & _ & Hv);
    [vm_compute; reflexivity | vm_compute; reflexivity | vm_compute; intuition congruence |].
  exists g. split; [exact Hg|]. split; [apply (Hv (30 * Minute)) | apply (Hv Hour)].
Defined.

Lemma Verify_lifetime_witness :
  exists t, ParseRFC3339Nano (g_ExpiresAt the_grant) = Some t /\
    @Verify toy_Ed25519 (@rev _) the_grant t = Err ErrExpired.
Proof.
  destruct (@Verify_lifetime toy_Ed25519 id (@rev _) (fun l => Permutation_refl l)
              (fun l => Permutation_sym (Permutation_rev l)) the_grant 0) as (t & Ht & _ & Hv);
    [vm_compute; reflexivity|].
  exists t. split; [exact Ht|]. rewrite Hv, Z.ltb_irrefl. reflexivity.
Defined.

Lemma SameGrant_exact_witness :
  SameGrant the_grant (with_signature the_grant "other") = true.
Proof.
  apply (SameGrant_exact the_grant (with_signature the_grant "other"));
    [unfold grant_typed; apply (bool_decide_unpack _); vm_compute; exact I..|]. reflexivity.
Defined.
