(* ===== verification/Config.v ===== *)
(** * Broker configuration (internal/broker/config.go)

    The configuration record, its accessors with their defaults, and the static
    validation.  [Daemon] reads the record from the JSON text of its file. *)

From S2P Require Import Prelude GoStrings GoTime Keyring KeyProtection Tpm NodeEvidence.
From Stdlib Require Import Ascii.
Local Open Scope Z_scope.

Definition DefaultChallengeTTL : Duration := 2 * Minute.
Definition DefaultKubernetesNodeEvidenceTTL : Duration := 5 * Minute.
Definition DefaultKubernetesNodeEvidenceRetention : Duration := 24 * Hour.
Definition DefaultKubernetesAPITimeout : Duration := 10 * Second.
Definition DevelopmentProfile : string := ProfileDevelopment.
Definition OTelExporterNone : string := "none".
Definition OTelExporterStdout : string := "stdout".
Definition PolicyModeDevelopmentSubject : string := "development-subject".
Definition ControlPlaneRoleNodeEvidenceAdmin : string := "node-evidence-admin".

Record KubernetesConfig := mkKubernetesConfig {
  k_Enabled : bool;
  k_APIServer : string;
  k_CACertFile : string;
  k_BearerTokenFile : string;
  k_TokenReviewAudience : string;
  k_Namespace : string;
  k_ServiceAccount : string;
  k_NodeEvidenceTTLSeconds : Z;
  k_NodeEvidenceRetentionSeconds : Z;
  k_APITimeoutSeconds : Z;
  k_AllowUnboundServiceAccountTokens : bool;
  k_AllowFakeNodeEvidencePublish : bool;
  k_NodeEvidencePublishProviders : list string;
}.

Record ControlPlaneIdentity := mkControlPlaneIdentity {
  cp_Roles : list string;
  cp_ClusterIDs : list string;
}.

Record PolicyDocument := mkPolicyDocument {
  pd_PolicyID : string;
  pd_Mode : string;
  pd_DevelopmentSubjects : list string;
}.

Record Config := mkConfig {
  c_ListenAddress : string;
  c_TLSCertFile : string;
  c_TLSKeyFile : string;
  c_ClientCAFile : string;
  c_RequireClientCert : bool;
  c_AllowPlaintextForTests : bool;
  c_SQLitePath : string;
  c_AuditFilePath : string;
  c_AuditFsync : bool;
  c_OTelExporter : string;
  c_DefaultPolicyPath : string;
  c_KeyringProtectionProfile : string;
  c_ClusterID : string;
  c_KeyID : string;
  c_PolicyID : string;
  c_Identities : gmap string ControlPlaneIdentity;
  c_DevelopmentSubject : string;
  c_DevelopmentWrappingKeyB64 : string;
  c_ChallengeTTLSeconds : Z;
  c_Kubernetes : KubernetesConfig;
  c_DefaultPolicy : PolicyDocument;
}.

(** ** Accessors *)

(** [strings.TrimSpace(s) == ""]. *)
Definition blank (s : string) : bool := String.eqb (TrimSpace s) EmptyString.

(** [time.Duration(n) * time.Second], a product of signed 64-bit integers. *)
Definition seconds (n : Z) : Duration := wrap_int64 (n * Second).

Definition ChallengeTTL (c : Config) : Duration :=
  if c_ChallengeTTLSeconds c =? 0 then DefaultChallengeTTL else seconds (c_ChallengeTTLSeconds c).

Definition NodeEvidenceTTL (k : KubernetesConfig) : Duration :=
  if k_NodeEvidenceTTLSeconds k =? 0 then DefaultKubernetesNodeEvidenceTTL
  else seconds (k_NodeEvidenceTTLSeconds k).

Definition NodeEvidenceRetention (k : KubernetesConfig) : Duration :=
  if k_NodeEvidenceRetentionSeconds k =? 0 then DefaultKubernetesNodeEvidenceRetention
  else seconds (k_NodeEvidenceRetentionSeconds k).

Definition APITimeout (k : KubernetesConfig) : Duration :=
  if k_APITimeoutSeconds k =? 0 then DefaultKubernetesAPITimeout
  else seconds (k_APITimeoutSeconds k).

Definition RequirePodBoundToken (k : KubernetesConfig) : bool :=
  negb (k_AllowUnboundServiceAccountTokens k).

Definition Config_Profile (c : Config) : string :=
  if blank (c_KeyringProtectionProfile c) then DevelopmentProfile
  else TrimSpace (c_KeyringProtectionProfile c).

Definition Config_Policy (c : Config) : string :=
  if negb (blank (pd_PolicyID (c_DefaultPolicy c))) then TrimSpace (pd_PolicyID (c_DefaultPolicy c))
  else if blank (c_PolicyID c) then "development"
  else TrimSpace (c_PolicyID c).

Definition Exporter (c : Config) : string :=
  if blank (c_OTelExporter c) then OTelExporterNone else TrimSpace (c_OTelExporter c).

(** The closure [add] of [DevelopmentSubjects]; its state is the subject list,
    whose elements are the keys of [seen]. *)
Definition add_subject (subjects : list string) (subject : string) : list string :=
  let subject := TrimSpace subject in
  if String.eqb subject EmptyString then subjects
  else if bool_decide (subject ∈ subjects) then subjects
  else subjects ++ [subject].

Definition DevelopmentSubjects (c : Config) : list string :=
  merge_sort String.le
    (foldl add_subject (add_subject [] (c_DevelopmentSubject c))
       (pd_DevelopmentSubjects (c_DefaultPolicy c))).

Definition DevelopmentWrappingKey (c : Config) : result bytes :=
  let raw := TrimSpace (c_DevelopmentWrappingKeyB64 c) in
  check (negb (String.eqb raw EmptyString))
    (errorf "development_wrapping_key_b64 is required when development_subject is configured");;
  key ← of_option (errorf "decode development_wrapping_key_b64: illegal base64 data")
          (b64_DecodeString raw);
  check (len key =? KeySize) (errorf "development_wrapping_key_b64 must decode to 32 bytes");;
  Ok key.

(** ** Validation *)

(** A loop that runs a check on every element and stops at the first error. *)
Fixpoint eachR {A} (f : A -> result unit) (l : list A) : result unit :=
  match l with
  | [] => Ok tt
  | x :: r => f x;; eachR f r
  end.

Definition PolicyDocument_Validate (p : PolicyDocument) : result unit :=
  map_err (errorp "invalid default policy policy_id") (ValidateIdentifier (pd_PolicyID p));;
  check (String.eqb (pd_Mode p) PolicyModeDevelopmentSubject)
    (errorf ("unsupported default policy mode " +:+ quoted (pd_Mode p)));;
  check (negb (bool_decide (pd_DevelopmentSubjects p = [])))
    (errorf "default policy development_subjects must not be empty");;
  eachR (fun subject => map_err (errorp ("invalid default policy development subject " +:+
           quoted subject)) (ValidateIdentifier subject)) (pd_DevelopmentSubjects p).

(** [WithLoadedPolicy] on the outcome of loading the policy file. *)
Definition WithLoadedPolicy (loaded : string -> result PolicyDocument) (c : Config) : result Config :=
  let path := TrimSpace (c_DefaultPolicyPath c) in
  if String.eqb path EmptyString then Ok c
  else
    policy ← loaded path;
    check (blank (c_PolicyID c) || String.eqb (c_PolicyID c) (pd_PolicyID policy))
      (errorf ("policy_id " +:+ quoted (c_PolicyID c) +:+
               " does not match default policy file policy_id " +:+ quoted (pd_PolicyID policy)));;
    Ok (mkConfig (c_ListenAddress c) (c_TLSCertFile c) (c_TLSKeyFile c) (c_ClientCAFile c)
          (c_RequireClientCert c) (c_AllowPlaintextForTests c) (c_SQLitePath c) (c_AuditFilePath c)
          (c_AuditFsync c) (c_OTelExporter c) (c_DefaultPolicyPath c) (c_KeyringProtectionProfile c)
          (c_ClusterID c) (c_KeyID c) (c_PolicyID c) (c_Identities c) (c_DevelopmentSubject c)
          (c_DevelopmentWrappingKeyB64 c) (c_ChallengeTTLSeconds c) (c_Kubernetes c) policy).

Definition validateRequiredPaths (c : Config) : result unit :=
  check (negb (blank (c_ListenAddress c))) (errorf "listen_address is required");;
  check (negb (blank (c_SQLitePath c))) (errorf "sqlite_path is required");;
  check (negb (blank (c_AuditFilePath c))) (errorf "audit_file_path is required").

Definition validateTLS (c : Config) : result unit :=
  (if negb (c_AllowPlaintextForTests c) then
     check (negb (blank (c_TLSCertFile c)))
       (errorf "tls_cert_file is required unless plaintext is explicitly allowed for tests");;
     check (negb (blank (c_TLSKeyFile c)))
       (errorf "tls_key_file is required unless plaintext is explicitly allowed for tests")
   else Ok tt);;
  check (negb (c_RequireClientCert c && blank (c_ClientCAFile c)))
    (errorf "client_ca_file is required when require_client_cert is true").

Definition validateIdentifiers (c : Config) : result unit :=
  map_err (errorp "invalid cluster_id") (ValidateIdentifier (c_ClusterID c));;
  map_err (errorp "invalid key_id") (ValidateIdentifier (c_KeyID c));;
  map_err (errorp "invalid policy_id") (ValidateIdentifier (Config_Policy c)).

Definition validateModes (c : Config) : result unit :=
  check (String.eqb (Config_Profile c) DevelopmentProfile)
    (errorf ("unsupported keyring_protection_profile " +:+ quoted (Config_Profile c)));;
  check (String.eqb (Exporter c) OTelExporterNone || String.eqb (Exporter c) OTelExporterStdout)
    (errorf ("unsupported otel_exporter " +:+ quoted (Exporter c))).

Definition validateDefaultPolicy (c : Config) : result unit :=
  if blank (c_DefaultPolicyPath c) then Ok tt
  else
    check (negb (String.eqb (pd_PolicyID (c_DefaultPolicy c)) EmptyString))
      (errorf "default_policy_path must be loaded before validation");;
    PolicyDocument_Validate (c_DefaultPolicy c).

Definition validateDevelopment (c : Config) : result unit :=
  eachR (fun subject => map_err (errorp ("invalid development subject " +:+ quoted subject))
           (ValidateIdentifier subject)) (DevelopmentSubjects c);;
  if bool_decide (DevelopmentSubjects c = []) then Ok tt
  else DevelopmentWrappingKey c;; Ok tt.

Definition validateChallengeTTL (c : Config) : result unit :=
  check (0 <? ChallengeTTL c) (errorf "challenge_ttl_seconds must be greater than zero").

(** The loops over roles and cluster IDs; [seen] holds the keys of the Go set. *)
Fixpoint validateRoles (hash : string) (seen roles : list string) : result unit :=
  match roles with
  | [] => Ok tt
  | role :: r =>
      check (String.eqb role ControlPlaneRoleNodeEvidenceAdmin)
        (errorf ("control-plane identity " +:+ quoted hash +:+ " has unsupported role " +:+ quoted role));;
      check (negb (bool_decide (role ∈ seen)))
        (errorf ("control-plane identity " +:+ quoted hash +:+ " contains duplicate role " +:+ quoted role));;
      validateRoles hash (role :: seen) r
  end.

Fixpoint validateClusterIDs (hash : string) (seen ids : list string) : result unit :=
  match ids with
  | [] => Ok tt
  | id :: r =>
      check (String.eqb id (TrimSpace id))
        (errorf ("control-plane identity " +:+ quoted hash +:+ " contains a non-canonical cluster ID"));;
      map_err (errorp ("control-plane identity " +:+ quoted hash +:+ " contains invalid cluster ID"))
        (ValidateIdentifier id);;
      check (negb (bool_decide (id ∈ seen)))
        (errorf ("control-plane identity " +:+ quoted hash +:+ " contains duplicate cluster ID " +:+ quoted id));;
      validateClusterIDs hash (id :: seen) r
  end.

Definition validateControlPlaneIdentity (hash : string) (identity : ControlPlaneIdentity) : result unit :=
  check (match CanonicalSHA256Digest hash with
         | Ok canonical => String.eqb canonical hash
         | Err _ => false
         end)
    (errorf "control_plane.identities contains a non-canonical certificate SHA-256 hash");;
  check (negb (bool_decide (cp_Roles identity = [])))
    (errorf ("control-plane identity " +:+ quoted hash +:+ " requires roles"));;
  validateRoles hash [] (cp_Roles identity);;
  check (negb (bool_decide (cp_ClusterIDs identity = [])))
    (errorf ("control-plane identity " +:+ quoted hash +:+ " requires cluster_ids"));;
  validateClusterIDs hash [] (cp_ClusterIDs identity).

(** Map order decides which identity's error is reported, not whether one is. *)
Definition validateControlPlane (c : Config) : result unit :=
  if bool_decide (c_Identities c = ∅) then Ok tt
  else
    check (negb (c_AllowPlaintextForTests c))
      (errorf "plaintext transport is not allowed when control_plane.identities is configured");;
    check (c_RequireClientCert c)
      (errorf "require_client_cert must be true when control_plane.identities is configured");;
    eachR (fun p => validateControlPlaneIdentity p.1 p.2) (map_to_list (c_Identities c)).

Definition controlPlaneHasRole (c : Config) (role clusterID : string) : bool :=
  existsb (fun p => bool_decide (role ∈ cp_Roles p.2) && bool_decide (clusterID ∈ cp_ClusterIDs p.2))
    (map_to_list (c_Identities c)).

(** [slices.Compact]: runs of equal elements to one. *)
Fixpoint Compact (l : list string) : list string :=
  match l with
  | a :: ((b :: _) as r) => if String.eqb a b then Compact r else a :: Compact r
  | _ => l
  end.

Definition normalizedProviderIDs (providers : list string) : list string :=
  Compact (sort_strings (TrimSpace <$> providers)).

(** Binary search in the sorted, compacted list is membership in it. *)
Definition validateNodeEvidenceProviders (providers : list string) : result bool :=
  eachR (fun provider =>
    let provider := TrimSpace provider in
    check (negb (String.eqb provider EmptyString))
      (errorf "kubernetes.node_evidence_publish_providers must not contain empty values");;
    check (String.eqb provider ProviderTPM2Quote)
      (errorf ("unsupported kubernetes node evidence publish provider " +:+ quoted provider)))
    providers;;
  Ok (bool_decide (ProviderTPM2Quote ∈ normalizedProviderIDs providers)).

Definition validateTPMNodeEvidenceTransport (tpmProviderEnabled requireClientCert allowPlaintext
  hasNodeEvidenceAdmin : bool) : result unit :=
  check (negb (tpmProviderEnabled && allowPlaintext))
    (errorf "plaintext transport is not allowed when generic-tpm2-quote is enabled");;
  check (negb (tpmProviderEnabled && negb requireClientCert))
    (errorf "require_client_cert must be true when generic-tpm2-quote is enabled");;
  check (negb (tpmProviderEnabled && negb hasNodeEvidenceAdmin))
    (errorf "a node-evidence-admin control-plane identity is required when generic-tpm2-quote is enabled").

Definition validateKubernetesNodeEvidence (k : KubernetesConfig) (requireClientCert allowPlaintext
  hasNodeEvidenceAdmin : bool) : result unit :=
  tpmProviderEnabled ← validateNodeEvidenceProviders (k_NodeEvidencePublishProviders k);
  validateTPMNodeEvidenceTransport tpmProviderEnabled requireClientCert allowPlaintext
    hasNodeEvidenceAdmin.

Definition validateEnabledKubernetes (k : KubernetesConfig) : result unit :=
  check (negb (blank (k_TokenReviewAudience k)))
    (errorf "kubernetes.token_review_audience is required when kubernetes is enabled");;
  check (negb (blank (k_Namespace k)))
    (errorf "kubernetes.namespace is required when kubernetes is enabled");;
  map_err (errorp "invalid kubernetes.namespace") (ValidateIdentifier (TrimSpace (k_Namespace k)));;
  check (negb (blank (k_ServiceAccount k)))
    (errorf "kubernetes.service_account is required when kubernetes is enabled");;
  map_err (errorp "invalid kubernetes.service_account")
    (ValidateIdentifier (TrimSpace (k_ServiceAccount k)));;
  check (0 <? NodeEvidenceTTL k)
    (errorf "kubernetes.node_evidence_ttl_seconds must be greater than zero");;
  check (0 <? APITimeout k) (errorf "kubernetes.api_timeout_seconds must be greater than zero").

Definition validateKubernetes (c : Config) : result unit :=
  let k := c_Kubernetes c in
  validateKubernetesNodeEvidence k (c_RequireClientCert c) (c_AllowPlaintextForTests c)
    (controlPlaneHasRole c ControlPlaneRoleNodeEvidenceAdmin (c_ClusterID c));;
  check (negb (k_NodeEvidenceTTLSeconds k <? 0))
    (errorf "kubernetes.node_evidence_ttl_seconds must not be negative");;
  check (negb (k_NodeEvidenceRetentionSeconds k <? 0))
    (errorf "kubernetes.node_evidence_retention_seconds must not be negative");;
  check (negb (k_APITimeoutSeconds k <? 0))
    (errorf "kubernetes.api_timeout_seconds must not be negative");;
  if negb (k_Enabled k) then Ok tt else validateEnabledKubernetes k.

Definition Config_Validate (c : Config) : result unit :=
  validateRequiredPaths c;; validateTLS c;; validateIdentifiers c;; validateModes c;;
  validateDefaultPolicy c;; validateDevelopment c;; validateChallengeTTL c;;
  validateControlPlane c;; validateKubernetes c.

(** ** Lemmas *)

Lemma eachR_Ok {A} (f : A -> result unit) l :
  eachR f l = Ok tt <-> Forall (fun x => f x = Ok tt) l.
Proof.
  induction l as [|x l IH]; cbn [eachR]; [by split|]. rewrite Forall_cons, <- IH.
  destruct (f x) as [[]|]; cbn; naive_solver.
Qed.

Lemma ValidateIdentifier_Ok s u : ValidateIdentifier s = Ok u <-> validIdentifier s = true.
Proof. apply check_Ok. Qed.

Lemma Config_Validate_parts c :
  Config_Validate c = Ok tt ->
  validateTLS c = Ok tt /\ validateIdentifiers c = Ok tt /\ validateModes c = Ok tt /\
  validateDevelopment c = Ok tt /\ validateChallengeTTL c = Ok tt /\
  validateControlPlane c = Ok tt /\ validateKubernetes c = Ok tt.
Proof. unfold Config_Validate. intros H. inv_ok. units. done. Qed.

Lemma add_subject_NoDup l s :
  NoDup l -> Forall (fun x => TrimSpace x = x /\ x <> EmptyString) l ->
  NoDup (add_subject l s) /\ Forall (fun x => TrimSpace x = x /\ x <> EmptyString) (add_subject l s).
Proof.
  intros Hnd HF. unfold add_subject. destruct (String.eqb_spec (TrimSpace s) EmptyString); [done|].
  destruct (bool_decide (TrimSpace s ∈ l)) eqn:E; [done|]. to_prop. split.
  - apply NoDup_app. split_and!; [done| |apply NoDup_singleton].
    intros x Hx Hx'. apply list_elem_of_singleton in Hx'. by subst.
  - apply Forall_app. split; [done|]. constructor; [|constructor]. by rewrite TrimSpace_idem.
Qed.

Lemma foldl_add_subject ss l :
  NoDup l -> Forall (fun x => TrimSpace x = x /\ x <> EmptyString) l ->
  NoDup (foldl add_subject l ss) /\
  Forall (fun x => TrimSpace x = x /\ x <> EmptyString) (foldl add_subject l ss).
Proof.
  revert l; induction ss as [|s ss IH]; intros l Hnd HF; [done|]. simpl.
  destruct (add_subject_NoDup l s Hnd HF). by apply IH.
Qed.

Lemma DevelopmentSubjects_props c :
  NoDup (DevelopmentSubjects c) /\ Sorted String.le (DevelopmentSubjects c) /\
  Forall (fun x => TrimSpace x = x /\ x <> EmptyString) (DevelopmentSubjects c).
Proof.
  unfold DevelopmentSubjects. set (l := foldl _ _ _).
  assert (NoDup l /\ Forall (fun x => TrimSpace x = x /\ x <> EmptyString) l) as [Hnd HF].
  { apply foldl_add_subject; apply add_subject_NoDup; constructor. }
  split_and!.
  - by rewrite merge_sort_Permutation.
  - apply (Sorted_merge_sort String.le).
  - by rewrite merge_sort_Permutation.
Qed.

Lemma Compact_elem x l : x ∈ Compact l <-> x ∈ l.
Proof.
  induction l as [|a l IH]; [done|]. destruct l as [|b l]; [done|]. simpl Compact.
  destruct (String.eqb_spec a b) as [->|Hne]; rewrite ?elem_of_cons in *; rewrite ?IH; [|done].
  change (x ∈ Compact (b :: l)) with (x ∈ Compact (b :: l)) in *. tauto.
Qed.

Lemma validateRoles_Ok hash seen roles :
  validateRoles hash seen roles = Ok tt -> Forall (fun r => r = ControlPlaneRoleNodeEvidenceAdmin) roles.
Proof.
  revert seen; induction roles as [|r roles IH]; intros seen H; cbn [validateRoles] in H; [constructor|].
  inv_ok. to_prop. constructor; [done|]. by eapply IH.
Qed.

Lemma validateClusterIDs_Ok hash seen ids :
  validateClusterIDs hash seen ids = Ok tt ->
  Forall (fun id => validIdentifier id = true /\ id ∉ seen) ids /\ NoDup ids.
Proof.
  revert seen; induction ids as [|id ids IH]; intros seen H; cbn [validateClusterIDs] in H.
  - split; constructor.
  - inv_ok. to_prop.
    match goal with H : ValidateIdentifier _ = Ok _ |- _ => apply ValidateIdentifier_Ok in H end.
    match goal with H : validateClusterIDs _ _ _ = Ok _ |- _ => apply IH in H as [HF Hnd] end.
    rewrite Forall_forall in HF. split.
    + constructor; [done|]. apply Forall_forall. intros y Hy. destruct (HF y Hy) as [? Hni].
      rewrite not_elem_of_cons in Hni. tauto.
    + constructor; [|done]. intros Hin. destruct (HF id Hin) as [_ Hni]. apply Hni. left.
Qed.

Lemma validateControlPlane_Ok c :
  validateControlPlane c = Ok tt -> c_Identities c <> ∅ ->
  c_AllowPlaintextForTests c = false /\ c_RequireClientCert c = true /\
  forall h i, c_Identities c !! h = Some i ->
    CanonicalSHA256Digest h = Ok h /\ cp_Roles i <> [] /\ cp_ClusterIDs i <> [] /\
    Forall (fun r => r = ControlPlaneRoleNodeEvidenceAdmin) (cp_Roles i) /\
    Forall (fun id => validIdentifier id = true) (cp_ClusterIDs i) /\ NoDup (cp_ClusterIDs i).
Proof.
  unfold validateControlPlane. intros H Hne. rewrite bool_decide_false in H by done. inv_ok. to_prop.
  split_and!; [done..|]. intros h i Hl.
  match goal with H : eachR _ _ = Ok _ |- _ => apply eachR_Ok in H; rename H into HF end.
  rewrite Forall_forall in HF. specialize (HF (h, i)). simpl in HF.
  unfold validateControlPlaneIdentity in HF. specialize (HF ltac:(by apply elem_of_map_to_list)).
  inv_ok. units. to_prop.
  match goal with H : validateClusterIDs _ _ _ = Ok _ |- _ => apply validateClusterIDs_Ok in H as [HC Hnd] end.
  split_and!; try done.
  - destruct (CanonicalSHA256Digest h) eqn:E; [|done]. to_prop. by subst.
  - by eapply validateRoles_Ok.
  - eapply Forall_impl; [exact HC|]. by intros id [? _].
Qed.

Lemma controlPlaneHasRole_spec c role cluster :
  controlPlaneHasRole c role cluster = true <->
  exists h i, c_Identities c !! h = Some i /\ role ∈ cp_Roles i /\ cluster ∈ cp_ClusterIDs i.
Proof.
  unfold controlPlaneHasRole. rewrite existsb_exists. split.
  - intros ([h i] & Hin & Hb). to_prop. exists h, i. split; [|done].
    by apply elem_of_map_to_list, list_elem_of_In.
  - intros (h & i & Hl & Hr & Hc). exists (h, i). split.
    + by apply list_elem_of_In, elem_of_map_to_list.
    + simpl. by rewrite !bool_decide_true.
Qed.

Lemma validateTPM_transport b r p a :
  validateTPMNodeEvidenceTransport b r p a = Ok tt -> b = true -> p = false /\ r = true /\ a = true.
Proof. unfold validateTPMNodeEvidenceTransport. intros H ->. inv_ok. by destruct p, r, a. Qed.

Lemma provider_enabled providers p :
  p ∈ providers -> TrimSpace p = ProviderTPM2Quote ->
  bool_decide (ProviderTPM2Quote ∈ normalizedProviderIDs providers) = true.
Proof.
  intros Hp Ht. apply bool_decide_eq_true. unfold normalizedProviderIDs.
  rewrite Compact_elem, sort_strings_perm, <- Ht. by apply list_elem_of_fmap_2.
Qed.

(** ** Properties of the configuration *)

(** A configuration that [Validate] accepts never publishes TPM node evidence
    over an unauthenticated transport: when the TPM provider is listed, client
    certificates are required, plaintext is off, a client CA is configured and
    some control-plane identity with a canonical certificate hash holds the
    node-evidence-admin role for the broker's own cluster. *)
Theorem Validate_tpm_transport_safe c p :
  Config_Validate c = Ok tt ->
  p ∈ k_NodeEvidencePublishProviders (c_Kubernetes c) -> TrimSpace p = ProviderTPM2Quote ->
  c_RequireClientCert c = true /\ c_AllowPlaintextForTests c = false /\
  blank (c_ClientCAFile c) = false /\ blank (c_TLSCertFile c) = false /\
  exists h i, c_Identities c !! h = Some i /\ CanonicalSHA256Digest h = Ok h /\
    ControlPlaneRoleNodeEvidenceAdmin ∈ cp_Roles i /\ c_ClusterID c ∈ cp_ClusterIDs i.
Proof.
  intros (Htls & _ & _ & _ & _ & Hcp & Hk)%Config_Validate_parts Hp Ht.
  unfold validateKubernetes, validateKubernetesNodeEvidence, validateNodeEvidenceProviders in Hk. inv_ok.
  match goal with H : validateTPMNodeEvidenceTransport _ _ _ _ = Ok ?u |- _ => destruct u;
    apply validateTPM_transport in H as (Hpl & Hrc & Ha); [|by eapply provider_enabled] end.
  apply controlPlaneHasRole_spec in Ha as (h & i & Hl & Hr & Hc).
  unfold validateTLS in Htls. rewrite Hpl, Hrc in Htls. cbn [negb andb] in Htls. inv_ok. to_prop.
  split_and!; try done. exists h, i. split_and!; try done.
  eapply validateControlPlane_Ok; [done| |done]. intros He. by rewrite He, lookup_empty in Hl.
Qed.

Definition example_k8s (providers : list string) : KubernetesConfig :=
  mkKubernetesConfig false "" "" "" "" "" "" 0 0 0 false false providers.

Definition example_config : Config :=
  mkConfig ":8443" "cert" "key" "ca" true false "db" "audit" false "" "" "" "cluster-a" "root" "policy-1"
    {[ example_hash "d"%char := mkControlPlaneIdentity [ControlPlaneRoleNodeEvidenceAdmin] ["cluster-a"%string] ]}
    "openbao-0" (b64_EncodeToString example_material) 0 (example_k8s [" generic-tpm2-quote"%string])
    (mkPolicyDocument "" "" []).

Lemma Validate_tpm_transport_safe_witness :
  Config_Validate example_config = Ok tt /\
  c_RequireClientCert example_config = true /\ c_AllowPlaintextForTests example_config = false /\
  blank (c_ClientCAFile example_config) = false /\ blank (c_TLSCertFile example_config) = false /\
  exists h i, c_Identities example_config !! h = Some i /\ CanonicalSHA256Digest h = Ok h /\
    ControlPlaneRoleNodeEvidenceAdmin ∈ cp_Roles i /\ c_ClusterID example_config ∈ cp_ClusterIDs i.
Proof.
  split; [vm_compute; reflexivity|].
  apply (Validate_tpm_transport_safe example_config " generic-tpm2-quote");
    [vm_compute; reflexivity | left | vm_compute; reflexivity].
Defined.

(** The development key version the broker seeds from its configuration. *)
Definition development_version (c : Config) (material : bytes) : KeyVersion :=
  mkKeyVersion (mkKeyRef (c_ClusterID c) (c_KeyID c) 1) StatusActive AlgorithmAES256GCM
    (Config_Policy c) material.

(** Whenever a validated configuration names a development subject, its
    wrapping key decodes, the key version built from it is valid, and the
    development subjects are distinct, sorted, trimmed, valid identifiers. *)
Theorem Validate_development_ready c :
  Config_Validate c = Ok tt -> DevelopmentSubjects c <> [] ->
  (exists material, DevelopmentWrappingKey c = Ok material /\
     KeyVersion_Validate (development_version c material) = Ok tt) /\
  NoDup (DevelopmentSubjects c) /\ Sorted String.le (DevelopmentSubjects c) /\
  Forall (fun s => validIdentifier s = true) (DevelopmentSubjects c).
Proof.
  intros (_ & Hid & _ & Hdev & _)%Config_Validate_parts Hne.
  destruct (DevelopmentSubjects_props c) as (Hnd & Hs & _).
  unfold validateDevelopment in Hdev. rewrite (bool_decide_false (DevelopmentSubjects c = [])) in Hdev by done.
  unfold validateIdentifiers in Hid. inv_ok.
  repeat match goal with H : ValidateIdentifier _ = Ok _ |- _ => apply ValidateIdentifier_Ok in H end.
  split_and!; try done.
  - eexists. split; [done|]. apply KeyVersion_Validate_Ok. simpl.
    match goal with H : DevelopmentWrappingKey _ = Ok _ |- _ =>
      unfold DevelopmentWrappingKey in H; apply bind_Ok in H as (? & _ & H) end.
    inv_ok. to_prop. split_and!; try done.
    apply KeyRef_Validate_Ok; [unfold uint32, uint32_max; simpl; lia|].
    split_and!; try done; unfold uint32_max; simpl; lia.
  - units. match goal with H : eachR _ _ = Ok _ |- _ => apply eachR_Ok in H end.
    eapply Forall_impl; [done|]. intros s Hv. simpl in Hv. inv_ok. by apply ValidateIdentifier_Ok in Hv.
Qed.

Lemma Validate_development_ready_witness :
  (exists material, DevelopmentWrappingKey example_config = Ok material /\
     KeyVersion_Validate (development_version example_config material) = Ok tt) /\
  NoDup (DevelopmentSubjects example_config) /\ Sorted String.le (DevelopmentSubjects example_config) /\
  Forall (fun s => validIdentifier s = true) (DevelopmentSubjects example_config).
Proof. apply Validate_development_ready; vm_compute; [reflexivity | discriminate]. Defined.

(** C39: what the check of the challenge lifetime lets through.  A configuration passes
    it exactly when the lifetime is left at zero, for the default, or the number of
    nanoseconds, taken as a signed 64-bit number, is positive; so the lifetime of a
    validated configuration is positive, two minutes if it was left at zero, and the
    configured number of seconds less a multiple of 2^64 nanoseconds otherwise, a
    multiple that is zero exactly for 1 to 9223372036 seconds: any other number
    that passes, a negative one too, gives a lifetime that was not asked for. *)
Theorem ChallengeTTL_bounds c :
  let n := c_ChallengeTTLSeconds c in
  (validateChallengeTTL c = Ok tt <-> n = 0 \/ exists k, 0 < n * Second - k * 2 ^ 64 <= int64_max) /\
  (Config_Validate c = Ok tt ->
   0 < ChallengeTTL c <= int64_max /\
   (n = 0 -> ChallengeTTL c = 2 * Minute) /\
   (n <> 0 -> exists k, ChallengeTTL c = n * Second - k * 2 ^ 64 /\ (k = 0 <-> 1 <= n <= 9223372036))).
Proof.
  intros n. assert (n <> 0 -> exists k, ChallengeTTL c = n * Second - k * 2 ^ 64 /\
    - int64_max - 1 <= ChallengeTTL c <= int64_max) as Hwrap.
  { intros Hn. unfold ChallengeTTL, seconds, wrap_int64. fold n. destruct (Z.eqb_spec n 0); [done|].
    exists ((n * Second + 9223372036854775808) / 18446744073709551616). unfold int64_max.
    pose proof (Z.div_mod (n * Second + 9223372036854775808) 18446744073709551616 ltac:(lia)).
    pose proof (Z.mod_pos_bound (n * Second + 9223372036854775808) 18446744073709551616 ltac:(lia)). lia. }
  assert (n = 0 -> ChallengeTTL c = 2 * Minute) as Hzero by (intros Hn; unfold ChallengeTTL; fold n; by rewrite Hn).
  assert (validateChallengeTTL c = Ok tt <-> 0 < ChallengeTTL c) as Hv.
  { unfold validateChallengeTTL. rewrite <- Z.ltb_lt. by destruct (0 <? ChallengeTTL c). }
  split.
  - rewrite Hv. destruct (Z.eq_dec n 0) as [Hn|Hn]; [rewrite Hzero by done; split; [by left | done]|].
    destruct (Hwrap Hn) as (k & Hk & Hb). split; [intros Hp; right; exists k; lia|]. intros [?|[k' Hk']]; [done|].
    unfold int64_max in *. assert (k' = k) by lia. lia.
  - intros (_ & _ & _ & _ & Ht%Hv & _)%Config_Validate_parts. split_and!; [done | | done |].
    + destruct (Z.eq_dec n 0) as [Hn|Hn]; [by rewrite Hzero | by destruct (Hwrap Hn) as (k & _ & _ & ?)].
    + intros Hn. destruct (Hwrap Hn) as (k & Hk & _ & Hb). exists k. split; [done|].
      unfold int64_max, Second in *. lia.
Qed.

Definition with_ttl (n : Z) : Config :=
  mkConfig ":8443" "cert" "key" "ca" true false "db" "audit" false "" "" "" "cluster-a" "root" "policy-1"
    {[ example_hash "d"%char := mkControlPlaneIdentity [ControlPlaneRoleNodeEvidenceAdmin] ["cluster-a"%string] ]}
    "openbao-0" (b64_EncodeToString example_material) n (example_k8s [" generic-tpm2-quote"%string])
    (mkPolicyDocument "" "" []).

(** 300 seconds as asked for; 0.29 seconds for 18446744074, 0.7 for -18446744073. *)
Lemma ChallengeTTL_bounds_witness :
  ChallengeTTL (with_ttl 300) = 300 * Second /\
  (exists k, k <> 0 /\ 290448384 = 18446744074 * Second - k * 2 ^ 64) /\
  (exists k, k <> 0 /\ 709551616 = (-18446744073) * Second - k * 2 ^ 64).
Proof.
  split; [|split].
  - destruct (ChallengeTTL_bounds (with_ttl 300)) as [_ H]. destruct H as (_ & _ & H); [vm_compute; reflexivity|].
    destruct H as (k & -> & Hk); [discriminate|]. rewrite (proj2 Hk); [reflexivity | split; discriminate].
  - destruct (ChallengeTTL_bounds (with_ttl 18446744074)) as [_ H]. destruct H as (_ & _ & H); [vm_compute; reflexivity|].
    destruct H as (k & H & Hk); [discriminate|]. exists k. split; [|exact H].
    intros E. destruct (proj1 Hk E) as [_ Hle]. exact (Hle eq_refl).
  - destruct (ChallengeTTL_bounds (with_ttl (-18446744073))) as [_ H]. destruct H as (_ & _ & H); [vm_compute; reflexivity|].
    destruct H as (k & H & Hk); [discriminate|]. exists k. split; [|exact H].
    intros E. destruct (proj1 Hk E) as [Hle _]. exact (Hle eq_refl).
Defined.
