(* ===== verification/Sql.v ===== *)
(** * The broker database (internal/broker/sqlite.go: schema and helpers;
    store.go and audit.go: records)

    A table is a finite map from its primary key to the other columns; times are
    TEXT columns in RFC 3339 form.  Each INSERT is a function that enforces the
    constraints of the schema: primary keys, UNIQUE columns, the two partial
    unique indexes, CHECKs and foreign keys.  The driver's own failures (I/O,
    cancelled contexts) are not modelled: a statement fails only on a constraint. *)

From S2P Require Import Prelude GoStrings GoTime Keyring KeyProtection Tpm NodeEvidence.
Local Open Scope Z_scope.

(** ** Protocol enums: open 32-bit integers with names *)

Abbreviation Operation := Z.
Definition OPERATION_UNSPECIFIED : Operation := 0.
Definition OPERATION_WRAP : Operation := 1.
Definition OPERATION_UNWRAP : Operation := 2.
Definition OPERATION_ENROLL : Operation := 3.
Definition OPERATION_ROTATE : Operation := 4.
Definition OPERATION_RECOVER : Operation := 5.

Definition Operation_String (o : Operation) : string :=
  if o =? 0 then "OPERATION_UNSPECIFIED"
  else if o =? 1 then "OPERATION_WRAP"
  else if o =? 2 then "OPERATION_UNWRAP"
  else if o =? 3 then "OPERATION_ENROLL"
  else if o =? 4 then "OPERATION_ROTATE"
  else if o =? 5 then "OPERATION_RECOVER"
  else FormatInt o.

(** ** store.go: records and errors *)

Definition ErrSubjectNotFound : error := sentinel "broker.ErrSubjectNotFound" "subject not found".
Definition ErrSubjectRevoked : error := sentinel "broker.ErrSubjectRevoked" "subject revoked".
Definition ErrChallengeNotFound : error := sentinel "broker.ErrChallengeNotFound" "challenge not found".
Definition ErrChallengeExpired : error := sentinel "broker.ErrChallengeExpired" "challenge expired".
Definition ErrChallengeReplayed : error :=
  sentinel "broker.ErrChallengeReplayed" "challenge already consumed".
Definition ErrChallengeMismatch : error :=
  sentinel "broker.ErrChallengeMismatch" "challenge scope mismatch".
Definition ErrRotationNotFound : error :=
  sentinel "broker.ErrRotationNotFound" "rotation operation not found".
Definition ErrRotationInProgress : error :=
  sentinel "broker.ErrRotationInProgress" "rotation operation already in progress".
Definition ErrRotationInvalidTransition : error :=
  sentinel "broker.ErrRotationInvalidTransition" "rotation transition is invalid".

Record Challenge := mkChallenge {
  ch_ID : string;
  ch_Nonce : bytes;
  ch_ClusterID : string;
  ch_Subject : string;
  ch_Operation : Operation;
  ch_ExpiresAt : Time;
  ch_CreatedAt : Time;
}.

Record Subject := mkSubject { su_ClusterID : string; su_Subject : string; su_Revoked : bool }.

Record BootstrapKeyringRequest := mkBootstrapKeyringRequest {
  bk_Key : ProtectedKey;
  bk_RecoveryPackageID : string;
  bk_RecoveryThreshold : Z;
  bk_RecoveryShares : Z;
  bk_RecoveryChecksum : string;
  bk_RecoveryMetadataJSON : string;
  bk_CreatedAt : Time;
}.

Record RecoveryPackageRecord := mkRecoveryPackageRecord {
  rp_PackageID : string; rp_ClusterID : string; rp_KeyID : string; rp_Threshold : Z;
  rp_Shares : Z; rp_Checksum : string; rp_Body : string; rp_CreatedAt : Time;
}.

Record EnrollmentRequestRecord := mkEnrollmentRequestRecord {
  qr_RequestID : string; qr_ClusterID : string; qr_Subject : string; qr_Body : string;
  qr_ExpiresAt : Time; qr_CreatedAt : Time;
}.

Record EnrollmentGrantRecord := mkEnrollmentGrantRecord {
  gr_GrantID : string; gr_RequestID : string; gr_ClusterID : string; gr_Subject : string;
  gr_Body : string; gr_ExpiresAt : Time; gr_CreatedAt : Time;
}.

Abbreviation RotationStatus := string.
Definition RotationStatusStarted : RotationStatus := "started".
Definition RotationStatusActivated : RotationStatus := "activated".
Definition RotationStatusCancelled : RotationStatus := "cancelled".

Record RotationStartRequest := mkRotationStartRequest {
  rs_OperationID : string; rs_Key : ProtectedKey; rs_CreatedAt : Time;
}.

Record RotationOperation := mkRotationOperation {
  ro_OperationID : string;
  ro_ClusterID : string;
  ro_KeyID : string;
  ro_FromVersion : Z;
  ro_ToVersion : Z;
  ro_Status : RotationStatus;
  ro_CreatedAt : Time;
  ro_UpdatedAt : Time;
  ro_ActivatedAt : Time;
}.

Definition RotationVerificationOpenBAORoot : string := "openbao-root".
Definition RotationVerificationRestart : string := "restart".
Definition RotationVerificationKeyVersion : string := "key-version".

Record RotationVerification := mkRotationVerification {
  rv_OperationID : string; rv_Name : string; rv_VerifiedAt : Time; rv_Detail : string;
}.

(** ** audit.go: the audit record *)

Record AuditEvent := mkAuditEvent {
  ae_SchemaVersion : Z; ae_AuditID : string; ae_Time : string; ae_Subject : string;
  ae_Operation : string; ae_ClusterID : string; ae_KeyID : string; ae_KeyVersion : Z;
  ae_Decision : string; ae_PolicyID : string; ae_Reason : string; ae_EvidenceHash : string;
  ae_RemoteAddress : string; ae_ErrorCode : string; ae_Actor : string; ae_Target : string;
  ae_CorrelationID : string; ae_RequestID : string;
}.

(** ** Rows of the schema, without the primary key *)

Record cluster_row := mkClusterRow { clr_recovery_package_id : option string; clr_created_at : string }.
Record keyring_row := mkKeyringRow { krr_profile : string; krr_created_at : string }.
Record key_version_row := mkKeyVersionRow {
  kvr_status : string; kvr_algorithm : string; kvr_policy_id : string;
  kvr_protector_profile : string; kvr_protected_format : string; kvr_protected_payload : bytes;
  kvr_created_at : string;
}.
Record rotation_row := mkRotationRow {
  ror_cluster_id : string; ror_key_id : string; ror_from_version : Z; ror_to_version : Z;
  ror_status : string; ror_created_at : string; ror_updated_at : string;
  ror_activated_at : option string;
}.
Record verification_row := mkVerificationRow { ver_verified_at : string; ver_detail : string }.
Record subject_row := mkSubjectRow {
  sur_revoked : Z; sur_created_at : string; sur_revoked_at : option string;
}.
Record policy_row := mkPolicyRow { por_body : string; por_created_at : string }.
Record challenge_row := mkChallengeRow {
  chr_nonce : bytes; chr_cluster_id : string; chr_subject_id : string; chr_operation : string;
  chr_expires_at : string; chr_consumed_at : option string; chr_created_at : string;
}.
Record recovery_row := mkRecoveryRow {
  rer_cluster_id : string; rer_key_id : string; rer_threshold_count : Z; rer_shares_count : Z;
  rer_checksum : string; rer_body : string; rer_created_at : string;
}.
Record enrollment_request_row := mkEnrollmentRequestRow {
  erq_cluster_id : string; erq_subject_id : string; erq_body : string; erq_expires_at : string;
  erq_created_at : string;
}.
Record enrollment_grant_row := mkEnrollmentGrantRow {
  egr_request_id : string; egr_cluster_id : string; egr_subject_id : string; egr_body : string;
  egr_expires_at : string; egr_consumed_at : option string; egr_created_at : string;
}.
Record node_evidence_row := mkNodeEvidenceRow {
  ner_node_uid : option string; ner_provider : string; ner_evidence_hash : string;
  ner_collected_at : string; ner_expires_at : string; ner_updated_at : string;
  ner_enrollment_revision : option Z;
}.
(** The [tpm_policy] column holds the JSON of the policy; the model keeps the
    policy value that the JSON denotes. *)
Record enrollment_row := mkEnrollmentRow {
  enr_node_uid : string; enr_provider : string; enr_tpm_policy : TPMPolicy; enr_revision : Z;
  enr_enrolled_at : string; enr_updated_at : string; enr_revoked_at : option string;
}.

Abbreviation key3 := (string * string * Z)%type.

Record DB := mkDB {
  clusters : gmap string cluster_row;
  keyrings : gmap (string * string) keyring_row;
  key_versions : gmap key3 key_version_row;
  rotation_operations : gmap string rotation_row;
  rotation_verifications : gmap (string * string) verification_row;
  subjects : gmap (string * string) subject_row;
  policies : gmap (string * string) policy_row;
  challenges : gmap string challenge_row;
  recovery_packages : gmap string recovery_row;
  enrollment_requests : gmap string enrollment_request_row;
  enrollment_grants : gmap string enrollment_grant_row;
  audit_events : gmap string AuditEvent;
  node_evidence : gmap (string * string) node_evidence_row;
  node_evidence_enrollments : gmap (string * string) enrollment_row;
  node_evidence_publishers : gmap (string * string * string) string;
}.

Definition empty_db : DB := mkDB ∅ ∅ ∅ ∅ ∅ ∅ ∅ ∅ ∅ ∅ ∅ ∅ ∅ ∅ ∅.

(** Replacing one table. *)
Definition set_clusters t (db : DB) : DB :=
  mkDB t (keyrings db) (key_versions db) (rotation_operations db) (rotation_verifications db)
    (subjects db) (policies db) (challenges db) (recovery_packages db) (enrollment_requests db)
    (enrollment_grants db) (audit_events db) (node_evidence db) (node_evidence_enrollments db)
    (node_evidence_publishers db).
Definition set_keyrings t (db : DB) : DB :=
  mkDB (clusters db) t (key_versions db) (rotation_operations db) (rotation_verifications db)
    (subjects db) (policies db) (challenges db) (recovery_packages db) (enrollment_requests db)
    (enrollment_grants db) (audit_events db) (node_evidence db) (node_evidence_enrollments db)
    (node_evidence_publishers db).
Definition set_key_versions t (db : DB) : DB :=
  mkDB (clusters db) (keyrings db) t (rotation_operations db) (rotation_verifications db)
    (subjects db) (policies db) (challenges db) (recovery_packages db) (enrollment_requests db)
    (enrollment_grants db) (audit_events db) (node_evidence db) (node_evidence_enrollments db)
    (node_evidence_publishers db).
Definition set_rotation_operations t (db : DB) : DB :=
  mkDB (clusters db) (keyrings db) (key_versions db) t (rotation_verifications db) (subjects db)
    (policies db) (challenges db) (recovery_packages db) (enrollment_requests db)
    (enrollment_grants db) (audit_events db) (node_evidence db) (node_evidence_enrollments db)
    (node_evidence_publishers db).
Definition set_rotation_verifications t (db : DB) : DB :=
  mkDB (clusters db) (keyrings db) (key_versions db) (rotation_operations db) t (subjects db)
    (policies db) (challenges db) (recovery_packages db) (enrollment_requests db)
    (enrollment_grants db) (audit_events db) (node_evidence db) (node_evidence_enrollments db)
    (node_evidence_publishers db).
Definition set_subjects t (db : DB) : DB :=
  mkDB (clusters db) (keyrings db) (key_versions db) (rotation_operations db)
    (rotation_verifications db) t (policies db) (challenges db) (recovery_packages db)
    (enrollment_requests db) (enrollment_grants db) (audit_events db) (node_evidence db)
    (node_evidence_enrollments db) (node_evidence_publishers db).
Definition set_policies t (db : DB) : DB :=
  mkDB (clusters db) (keyrings db) (key_versions db) (rotation_operations db)
    (rotation_verifications db) (subjects db) t (challenges db) (recovery_packages db)
    (enrollment_requests db) (enrollment_grants db) (audit_events db) (node_evidence db)
    (node_evidence_enrollments db) (node_evidence_publishers db).
Definition set_challenges t (db : DB) : DB :=
  mkDB (clusters db) (keyrings db) (key_versions db) (rotation_operations db)
    (rotation_verifications db) (subjects db) (policies db) t (recovery_packages db)
    (enrollment_requests db) (enrollment_grants db) (audit_events db) (node_evidence db)
    (node_evidence_enrollments db) (node_evidence_publishers db).
Definition set_recovery_packages t (db : DB) : DB :=
  mkDB (clusters db) (keyrings db) (key_versions db) (rotation_operations db)
    (rotation_verifications db) (subjects db) (policies db) (challenges db) t
    (enrollment_requests db) (enrollment_grants db) (audit_events db) (node_evidence db)
    (node_evidence_enrollments db) (node_evidence_publishers db).
Definition set_enrollment_requests t (db : DB) : DB :=
  mkDB (clusters db) (keyrings db) (key_versions db) (rotation_operations db)
    (rotation_verifications db) (subjects db) (policies db) (challenges db) (recovery_packages db)
    t (enrollment_grants db) (audit_events db) (node_evidence db) (node_evidence_enrollments db)
    (node_evidence_publishers db).
Definition set_enrollment_grants t (db : DB) : DB :=
  mkDB (clusters db) (keyrings db) (key_versions db) (rotation_operations db)
    (rotation_verifications db) (subjects db) (policies db) (challenges db) (recovery_packages db)
    (enrollment_requests db) t (audit_events db) (node_evidence db) (node_evidence_enrollments db)
    (node_evidence_publishers db).
Definition set_audit_events t (db : DB) : DB :=
  mkDB (clusters db) (keyrings db) (key_versions db) (rotation_operations db)
    (rotation_verifications db) (subjects db) (policies db) (challenges db) (recovery_packages db)
    (enrollment_requests db) (enrollment_grants db) t (node_evidence db)
    (node_evidence_enrollments db) (node_evidence_publishers db).
Definition set_node_evidence t (db : DB) : DB :=
  mkDB (clusters db) (keyrings db) (key_versions db) (rotation_operations db)
    (rotation_verifications db) (subjects db) (policies db) (challenges db) (recovery_packages db)
    (enrollment_requests db) (enrollment_grants db) (audit_events db) t
    (node_evidence_enrollments db) (node_evidence_publishers db).
Definition set_node_evidence_enrollments t (db : DB) : DB :=
  mkDB (clusters db) (keyrings db) (key_versions db) (rotation_operations db)
    (rotation_verifications db) (subjects db) (policies db) (challenges db) (recovery_packages db)
    (enrollment_requests db) (enrollment_grants db) (audit_events db) (node_evidence db) t
    (node_evidence_publishers db).
Definition set_node_evidence_publishers t (db : DB) : DB :=
  mkDB (clusters db) (keyrings db) (key_versions db) (rotation_operations db)
    (rotation_verifications db) (subjects db) (policies db) (challenges db) (recovery_packages db)
    (enrollment_requests db) (enrollment_grants db) (audit_events db) (node_evidence db)
    (node_evidence_enrollments db) t.

(** ** Statements *)

Definition constraint_failed (what : string) : error := errorf ("constraint failed: " +:+ what).
Definition unique_failed : error := constraint_failed "UNIQUE constraint failed".
Definition check_failed : error := constraint_failed "CHECK constraint failed".
Definition foreign_key_failed : error := constraint_failed "FOREIGN KEY constraint failed".

(** A transaction that fails is rolled back: the database is unchanged. *)
Definition transact {A} (f : DB -> result (A * DB)) (db : DB) : result A * DB :=
  match f db with
  | Ok (a, db') => (Ok a, db')
  | Err e => (Err e, db)
  end.

Definition has {K} `{Countable K} {V} (m : gmap K V) (k : K) : bool := bool_decide (is_Some (m !! k)).

Definition insert_clusters (id : string) (row : cluster_row) (db : DB) : result DB :=
  check (negb (has (clusters db) id)) unique_failed;;
  Ok (set_clusters (<[id := row]> (clusters db)) db).

Definition insert_or_ignore_clusters (id : string) (row : cluster_row) (db : DB) : result DB :=
  if has (clusters db) id then Ok db else insert_clusters id row db.

Definition insert_keyrings (k : string * string) (row : keyring_row) (db : DB) : result DB :=
  check (negb (has (keyrings db) k)) unique_failed;;
  check (has (clusters db) k.1) foreign_key_failed;;
  Ok (set_keyrings (<[k := row]> (keyrings db)) db).

Definition insert_or_ignore_keyrings (k : string * string) (row : keyring_row) (db : DB) : result DB :=
  if has (keyrings db) k then Ok db else insert_keyrings k row db.

(** The rows of one keyring. *)
Definition versions_of (db : DB) (k : string * string) : list (Z * key_version_row) :=
  (fun p : key3 * key_version_row => (p.1.2, p.2)) <$>
    filter (fun p : key3 * key_version_row => p.1.1 = k) (map_to_list (key_versions db)).

(** The versions that the partial index [key_versions_one_active] covers. *)
Definition active_versions (db : DB) (k : string * string) : list Z :=
  fst <$> filter (fun p : Z * key_version_row => kvr_status p.2 = StatusActive) (versions_of db k).

Definition key_version_conflict (k : key3) (row : key_version_row) (db : DB) : bool :=
  has (key_versions db) k ||
  (String.eqb (kvr_status row) StatusActive && negb (bool_decide (active_versions db k.1 = []))).

Definition insert_key_versions (k : key3) (row : key_version_row) (db : DB) : result DB :=
  check (0 <? k.2) check_failed;;
  check (negb (key_version_conflict k row db)) unique_failed;;
  check (has (keyrings db) k.1) foreign_key_failed;;
  Ok (set_key_versions (<[k := row]> (key_versions db)) db).

Definition insert_or_ignore_key_versions (k : key3) (row : key_version_row) (db : DB) : result DB :=
  if (k.2 <=? 0) || key_version_conflict k row db then Ok db else insert_key_versions k row db.

Definition insert_policies (k : string * string) (row : policy_row) (db : DB) : result DB :=
  check (negb (has (policies db) k)) unique_failed;;
  check (has (clusters db) k.1) foreign_key_failed;;
  Ok (set_policies (<[k := row]> (policies db)) db).

Definition insert_or_ignore_policies (k : string * string) (row : policy_row) (db : DB) : result DB :=
  if has (policies db) k then Ok db else insert_policies k row db.

Definition insert_or_ignore_subjects (k : string * string) (row : subject_row) (db : DB) : result DB :=
  if has (subjects db) k then Ok db
  else check (has (clusters db) k.1) foreign_key_failed;;
       Ok (set_subjects (<[k := row]> (subjects db)) db).

Definition insert_recovery_packages (id : string) (row : recovery_row) (db : DB) : result DB :=
  check (negb (has (recovery_packages db) id)) unique_failed;;
  check (has (keyrings db) (rer_cluster_id row, rer_key_id row)) foreign_key_failed;;
  Ok (set_recovery_packages (<[id := row]> (recovery_packages db)) db).

Definition insert_or_ignore_recovery_packages (id : string) (row : recovery_row) (db : DB) : result DB :=
  if has (recovery_packages db) id then Ok db else insert_recovery_packages id row db.

Definition insert_or_replace_enrollment_requests (id : string) (row : enrollment_request_row) (db : DB)
  : result DB :=
  check (has (clusters db) (erq_cluster_id row)) foreign_key_failed;;
  Ok (set_enrollment_requests (<[id := row]> (enrollment_requests db)) db).

Definition insert_enrollment_grants (id : string) (row : enrollment_grant_row) (db : DB) : result DB :=
  check (negb (has (enrollment_grants db) id)) unique_failed;;
  check (has (enrollment_requests db) (egr_request_id row) && has (clusters db) (egr_cluster_id row))
    foreign_key_failed;;
  Ok (set_enrollment_grants (<[id := row]> (enrollment_grants db)) db).

(** The started operations of one keyring, in the order of the table. *)
Definition started_rotations (db : DB) (k : string * string) : list string :=
  fst <$> filter (fun p : string * rotation_row =>
    (ror_cluster_id p.2, ror_key_id p.2) = k /\ ror_status p.2 = RotationStatusStarted)
    (map_to_list (rotation_operations db)).

Definition insert_rotation_operations (id : string) (row : rotation_row) (db : DB) : result DB :=
  let k := (ror_cluster_id row, ror_key_id row) in
  check ((0 <? ror_from_version row) && (0 <? ror_to_version row)) check_failed;;
  check (negb (has (rotation_operations db) id)) unique_failed;;
  check (negb (String.eqb (ror_status row) RotationStatusStarted &&
               negb (bool_decide (started_rotations db k = [])))) unique_failed;;
  check (has (keyrings db) k && has (key_versions db) (k, ror_from_version row) &&
         has (key_versions db) (k, ror_to_version row)) foreign_key_failed;;
  Ok (set_rotation_operations (<[id := row]> (rotation_operations db)) db).

(** A nonce is UNIQUE among all challenges. *)
Definition nonce_used (db : DB) (nonce : bytes) : bool :=
  existsb (fun p : string * challenge_row => String.eqb (chr_nonce p.2) nonce)
    (map_to_list (challenges db)).

Definition insert_challenges (id : string) (row : challenge_row) (db : DB) : result DB :=
  check (negb (has (challenges db) id || nonce_used db (chr_nonce row))) unique_failed;;
  check (has (clusters db) (chr_cluster_id row)) foreign_key_failed;;
  Ok (set_challenges (<[id := row]> (challenges db)) db).

Definition insert_audit_events (id : string) (row : AuditEvent) (db : DB) : result DB :=
  check (negb (has (audit_events db) id)) unique_failed;;
  Ok (set_audit_events (<[id := row]> (audit_events db)) db).

(** [sql.NullString] of a text: NULL for the empty one. *)
Definition nullableString (value : string) : option string :=
  if String.eqb value EmptyString then None else Some value.

Definition parse_time (what : string) (raw : string) : result Time :=
  of_option (errorf (what +:+ ": cannot parse")) (ParseRFC3339Nano raw).

Lemma has_true {K} `{Countable K} {V} (m : gmap K V) k : has m k = true <-> exists v, m !! k = Some v.
Proof. unfold has. rewrite bool_decide_eq_true. split; [by intros [v ?]; exists v | by intros [v ->]]. Qed.

Lemma has_false {K} `{Countable K} {V} (m : gmap K V) k : has m k = false <-> m !! k = None.
Proof. unfold has. rewrite bool_decide_eq_false, eq_None_not_Some. done. Qed.

Lemma versions_of_elem db k v row :
  (v, row) ∈ versions_of db k <-> key_versions db !! (k, v) = Some row.
Proof.
  unfold versions_of. rewrite list_elem_of_fmap. split.
  - intros ([[k' v'] row'] & [= -> ->] & Hin). apply list_elem_of_filter in Hin as [Hk Hin].
    simpl in *. subst. by apply elem_of_map_to_list in Hin.
  - intros Hl. exists ((k, v), row). split; [done|]. apply list_elem_of_filter. split; [done|].
    by apply elem_of_map_to_list.
Qed.

Lemma active_versions_elem db k v :
  v ∈ active_versions db k <->
  exists row, key_versions db !! (k, v) = Some row /\ kvr_status row = StatusActive.
Proof.
  unfold active_versions. rewrite list_elem_of_fmap. split.
  - intros ([v' row] & -> & Hin). apply list_elem_of_filter in Hin as [Hs Hin].
    apply versions_of_elem in Hin. eauto.
  - intros (row & Hl & Hs). exists (v, row). split; [done|]. apply list_elem_of_filter.
    split; [done|]. by apply versions_of_elem.
Qed.

Lemma started_rotations_elem db k id :
  id ∈ started_rotations db k <->
  exists row, rotation_operations db !! id = Some row /\ (ror_cluster_id row, ror_key_id row) = k /\
              ror_status row = RotationStatusStarted.
Proof.
  unfold started_rotations. rewrite list_elem_of_fmap. split.
  - intros ([id' row] & -> & Hin). apply list_elem_of_filter in Hin as [[Hk Hs] Hin].
    apply elem_of_map_to_list in Hin. eauto.
  - intros (row & Hl & Hk & Hs). exists (id, row). split; [done|]. apply list_elem_of_filter.
    split; [done|]. by apply elem_of_map_to_list.
Qed.

Lemma nonce_used_spec db nonce :
  nonce_used db nonce = true <-> exists id row, challenges db !! id = Some row /\ chr_nonce row = nonce.
Proof.
  unfold nonce_used. rewrite existsb_exists. split.
  - intros ([id row] & Hin & Hn). to_prop. exists id, row. split; [|done].
    by apply elem_of_map_to_list, list_elem_of_In.
  - intros (id & row & Hl & <-). exists (id, row). split; [|apply String.eqb_refl].
    by apply list_elem_of_In, elem_of_map_to_list.
Qed.

Lemma list_empty_iff {A} (l : list A) : l = [] <-> forall x, x ∉ l.
Proof.
  split; [intros -> x Hx; by apply not_elem_of_nil in Hx|].
  destruct l as [|a l]; [done|]. intros H. exfalso. apply (H a). left.
Qed.
