(* ===== verification/Store.v ===== *)
(** * The SQLite store: keyrings, subjects, rotation, grants, audit
    (internal/broker/sqlite.go, rotation.go)

    One definition per store method.  A method takes the database (and the wall
    clock where the code calls [time.Now]) and returns its result and the new
    database. *)

From S2P Require Import Prelude GoStrings GoTime Keyring KeyProtection Tpm NodeEvidence Config Sql.
Local Open Scope Z_scope.

Definition maxKeyVersion : Z := uint32_max.

(** ** Keyrings *)

Definition key_row (k : ProtectedKey) (now : string) : key_version_row :=
  mkKeyVersionRow (pk_Status k) (pk_Algorithm k) (pk_PolicyID k) (pk_ProtectorProfile k)
    (pk_Format k) (pk_Payload k) now.

Definition bootstrap_tx (r : BootstrapKeyringRequest) (db : DB) : result (unit * DB) :=
  let key := bk_Key r in
  let c := ClusterID (pk_Ref key) in
  let k := KeyID (pk_Ref key) in
  let now := FormatRFC3339Nano (bk_CreatedAt r) in
  db ← map_err (errorp "insert cluster")
         (insert_clusters c (mkClusterRow (nullableString (bk_RecoveryPackageID r)) now) db);
  db ← map_err (errorp "insert keyring")
         (insert_keyrings (c, k) (mkKeyringRow (pk_ProtectorProfile key) now) db);
  db ← map_err (errorp "insert key version")
         (insert_key_versions (c, k, Version (pk_Ref key)) (key_row key now) db);
  db ← map_err (errorp "insert policy")
         (insert_policies (c, pk_PolicyID key)
            (mkPolicyRow "default-deny-with-enrolled-subjects" now) db);
  db ← (if String.eqb (bk_RecoveryPackageID r) EmptyString then Ok db
        else map_err (errorp "insert recovery package")
               (insert_recovery_packages (bk_RecoveryPackageID r)
                  (mkRecoveryRow c k (bk_RecoveryThreshold r) (bk_RecoveryShares r)
                     (bk_RecoveryChecksum r) (bk_RecoveryMetadataJSON r) now) db));
  Ok (tt, db).

Definition BootstrapKeyring (r : BootstrapKeyringRequest) (db : DB) : result unit * DB :=
  match ProtectedKey_Validate (bk_Key r) with
  | Err e => (Err e, db)
  | Ok _ =>
      if negb (String.eqb (pk_Status (bk_Key r)) StatusActive) ||
         negb (Version (pk_Ref (bk_Key r)) =? 1)
      then (Err (errorf "bootstrap key must be active version 1"), db)
      else transact (bootstrap_tx r) db
  end.

Definition validateDevelopmentProtectedKey (c : Config) (key : ProtectedKey) : result unit :=
  ProtectedKey_Validate key;;
  check (String.eqb (ClusterID (pk_Ref key)) (c_ClusterID c) &&
         String.eqb (KeyID (pk_Ref key)) (c_KeyID c) && (Version (pk_Ref key) =? 1) &&
         String.eqb (pk_Status key) StatusActive && String.eqb (pk_PolicyID key) (Config_Policy c) &&
         String.eqb (pk_ProtectorProfile key) (Config_Profile c))
    (errorf "development protected key does not match broker configuration").

Definition seed_subject (c : Config) (now : string) (db : DB) (subject : string) : result DB :=
  map_err (errorp "insert development subject")
    (insert_or_ignore_subjects (c_ClusterID c, subject) (mkSubjectRow 0 now None) db).

Definition configure_tx (c : Config) (key : ProtectedKey) (now : string) (db : DB)
  : result (unit * DB) :=
  db ← map_err (errorp "insert cluster")
         (insert_or_ignore_clusters (c_ClusterID c) (mkClusterRow None now) db);
  db ← map_err (errorp "insert keyring")
         (insert_or_ignore_keyrings (c_ClusterID c, c_KeyID c) (mkKeyringRow (Config_Profile c) now) db);
  db ← map_err (errorp "insert key version")
         (insert_or_ignore_key_versions (c_ClusterID c, c_KeyID c, Version (pk_Ref key))
            (key_row key now) db);
  db ← map_err (errorp "insert policy")
         (insert_or_ignore_policies (c_ClusterID c, Config_Policy c)
            (mkPolicyRow "default-deny-with-development-subject" now) db);
  db ← foldR (seed_subject c now) db (DevelopmentSubjects c);
  Ok (tt, db).

Definition ConfigureDevelopment (wall : Time) (c : Config) (key : ProtectedKey) (db : DB)
  : result unit * DB :=
  match validateDevelopmentProtectedKey c key with
  | Err e => (Err e, db)
  | Ok _ => transact (configure_tx c key (FormatRFC3339Nano wall)) db
  end.

(** ORDER BY key_id, version. *)
Definition key3_le (a b : key3 * key_version_row) : Prop :=
  String.leb a.1.1.2 b.1.1.2 && (negb (String.eqb a.1.1.2 b.1.1.2) || (a.1.2 <=? b.1.2)) = true.
Global Instance key3_le_dec : RelDecision key3_le.
Proof. intros a b. unfold key3_le. apply _. Defined.

Definition uint32KeyVersion (value : Z) : result Z :=
  check (negb ((value <=? 0) || (maxKeyVersion <? value)))
    (errorf ("key version exceeds uint32: " +:+ FormatInt value));;
  Ok value.

Definition row_key (k : key3) (row : key_version_row) : ProtectedKey :=
  mkProtectedKey (mkKeyRef k.1.1 k.1.2 k.2) (kvr_status row) (kvr_algorithm row) (kvr_policy_id row)
    (kvr_protector_profile row) (kvr_protected_format row) (kvr_protected_payload row).

Definition scan_key (p : key3 * key_version_row) : result ProtectedKey :=
  uint32KeyVersion p.1.2;;
  let record := row_key p.1 p.2 in
  ProtectedKey_Validate record;;
  Ok record.

Definition cluster_key_rows (db : DB) (cluster : string) : list (key3 * key_version_row) :=
  merge_sort key3_le
    (filter (fun p : key3 * key_version_row => p.1.1.1 = cluster) (map_to_list (key_versions db))).

Definition store_ProtectedKeys (db : DB) (cluster : string) : result (list ProtectedKey) :=
  records ← mapR scan_key (cluster_key_rows db cluster);
  match records with [] => Err ErrKeyNotFound | _ => Ok records end.

Definition store_ProtectedKey (db : DB) (ref : KeyRef) : result ProtectedKey :=
  row ← of_option ErrKeyNotFound (key_versions db !! (ClusterID ref, KeyID ref, Version ref));
  let record := row_key (ClusterID ref, KeyID ref, Version ref) row in
  ProtectedKey_Validate record;;
  Ok record.

Global Instance SQLite_Repository : Repository DB := {|
  ProtectedKeys := store_ProtectedKeys;
  ProtectedKeyOf := store_ProtectedKey;
|}.

(** ** Subjects *)

Definition store_Subject (db : DB) (cluster subject : string) : result Subject :=
  match subjects db !! (cluster, subject) with
  | None => Err ErrSubjectNotFound
  | Some row =>
      if negb (sur_revoked row =? 0) then Err ErrSubjectRevoked
      else Ok (mkSubject cluster subject false)
  end.

(** A single statement outside a transaction. *)
Definition exec (what : string) (f : DB -> result DB) (db : DB) : result unit * DB :=
  match f db with
  | Ok db' => (Ok tt, db')
  | Err e => (Err (errorp what e), db)
  end.

Definition InsertSubject (cluster subject : string) (now : Time) (db : DB) : result unit * DB :=
  exec "insert subject"
    (insert_or_ignore_subjects (cluster, subject) (mkSubjectRow 0 (FormatRFC3339Nano now) None)) db.

Definition RevokeSubject (wall : Time) (cluster subject : string) (db : DB) : result unit * DB :=
  match subjects db !! (cluster, subject) with
  | None => (Err ErrSubjectNotFound, db)
  | Some row =>
      (Ok tt, set_subjects (<[(cluster, subject) :=
                 mkSubjectRow 1 (sur_created_at row) (Some (FormatRFC3339Nano wall))]> (subjects db)) db)
  end.

(** ** Recovery packages, enrollment requests and grants *)

Definition InsertRecoveryPackage (r : RecoveryPackageRecord) (db : DB) : result unit * DB :=
  exec "insert recovery package"
    (insert_or_ignore_recovery_packages (rp_PackageID r)
       (mkRecoveryRow (rp_ClusterID r) (rp_KeyID r) (rp_Threshold r) (rp_Shares r) (rp_Checksum r)
          (rp_Body r) (FormatRFC3339Nano (rp_CreatedAt r)))) db.

Definition InsertEnrollmentRequest (r : EnrollmentRequestRecord) (db : DB) : result unit * DB :=
  exec "insert enrollment request"
    (insert_or_replace_enrollment_requests (qr_RequestID r)
       (mkEnrollmentRequestRow (qr_ClusterID r) (qr_Subject r) (qr_Body r)
          (FormatRFC3339Nano (qr_ExpiresAt r)) (FormatRFC3339Nano (qr_CreatedAt r)))) db.

Definition InsertEnrollmentGrant (r : EnrollmentGrantRecord) (db : DB) : result unit * DB :=
  exec "insert enrollment grant"
    (insert_enrollment_grants (gr_GrantID r)
       (mkEnrollmentGrantRow (gr_RequestID r) (gr_ClusterID r) (gr_Subject r) (gr_Body r)
          (FormatRFC3339Nano (gr_ExpiresAt r)) None (FormatRFC3339Nano (gr_CreatedAt r)))) db.

Definition grant_consumed (row : enrollment_grant_row) (at_ : string) : enrollment_grant_row :=
  mkEnrollmentGrantRow (egr_request_id row) (egr_cluster_id row) (egr_subject_id row) (egr_body row)
    (egr_expires_at row) (Some at_) (egr_created_at row).

Definition ConsumeEnrollmentGrant (grantID : string) (now : Time) (db : DB) : result unit * DB :=
  match enrollment_grants db !! grantID with
  | None => (Err (errorw ErrChallengeNotFound "enrollment grant not found"), db)
  | Some row =>
      match egr_consumed_at row with
      | Some _ => (Err ErrChallengeReplayed, db)
      | None =>
          match parse_time "parse enrollment grant expiry" (egr_expires_at row) with
          | Err e => (Err e, db)
          | Ok expiresAt =>
              if negb (Before now expiresAt) then (Err ErrChallengeExpired, db)
              else (Ok tt, set_enrollment_grants
                     (<[grantID := grant_consumed row (FormatRFC3339Nano now)]> (enrollment_grants db)) db)
          end
      end
  end.

(** ** Rotation *)

Definition validateRotationStart (r : RotationStartRequest) : result unit :=
  check (negb (String.eqb (rs_OperationID r) EmptyString))
    (errorw ErrRotationInvalidTransition "operation_id is required");;
  map_err (fun e => errorw ErrRotationInvalidTransition (err_msg e)) (ProtectedKey_Validate (rs_Key r));;
  map_err (fun e => errorw e "invalid cluster_id") (ValidateIdentifier (ClusterID (pk_Ref (rs_Key r))));;
  map_err (fun e => errorw e "invalid key_id") (ValidateIdentifier (KeyID (pk_Ref (rs_Key r))));;
  map_err (fun e => errorw e "invalid policy_id") (ValidateIdentifier (pk_PolicyID (rs_Key r)));;
  check (String.eqb (pk_Status (rs_Key r)) StatusPending)
    (errorw ErrRotationInvalidTransition "new rotation key must be pending").

Definition validateRotationVerification (name detail : string) : result unit :=
  check (String.eqb name RotationVerificationOpenBAORoot ||
         String.eqb name RotationVerificationRestart || String.eqb name RotationVerificationKeyVersion)
    (errorw ErrRotationInvalidTransition ("unsupported rotation verification " +:+ quoted name));;
  check (negb (String.eqb (TrimSpace detail) EmptyString))
    (errorf "rotation verification detail is required").

Definition ensureNoStartedRotation (db : DB) (k : string * string) : result unit :=
  match started_rotations db k with
  | [] => Ok tt
  | id :: _ => Err (errorw ErrRotationInProgress id)
  end.

(** SELECT MAX(version): 0 stands for NULL, which cannot occur once an active row
    was found. *)
Definition max_version (db : DB) (k : string * string) : Z :=
  foldr Z.max 0 (fst <$> versions_of db k).

Definition nextRotationVersions (db : DB) (k : string * string) : result (Z * Z) :=
  match active_versions db k with
  | [] => Err ErrKeyNotUsable
  | activeVersion :: _ =>
      let maxVersion := max_version db k in
      check (negb (maxKeyVersion <=? maxVersion))
        (errorw ErrRotationInvalidTransition "key version limit reached");;
      fromVersion ← uint32KeyVersion activeVersion;
      toVersion ← uint32KeyVersion (maxVersion + 1);
      Ok (fromVersion, toVersion)
  end.

Definition NextRotationKeyRef (db : DB) (cluster key : string) : result KeyRef :=
  '(_, version) ← nextRotationVersions db (cluster, key);
  Ok (mkKeyRef cluster key version).

Definition start_tx (now : Time) (r : RotationStartRequest) (db : DB) : result (RotationOperation * DB) :=
  let ref := pk_Ref (rs_Key r) in
  let k := (ClusterID ref, KeyID ref) in
  ensureNoStartedRotation db k;;
  '(fromVersion, toVersion) ← nextRotationVersions db k;
  check (Version ref =? toVersion)
    (errorw ErrRotationInvalidTransition ("pending key version " +:+ FormatInt (Version ref) +:+
       " does not match next version " +:+ FormatInt toVersion));;
  db ← map_err (errorp "insert pending key version")
         (insert_key_versions (k, toVersion) (key_row (rs_Key r) (FormatRFC3339Nano now)) db);
  let op := mkRotationOperation (rs_OperationID r) (ClusterID ref) (KeyID ref) fromVersion toVersion
              RotationStatusStarted now now 0 in
  db ← map_err (errorp "insert rotation operation")
         (insert_rotation_operations (rs_OperationID r)
            (mkRotationRow (ClusterID ref) (KeyID ref) fromVersion toVersion RotationStatusStarted
               (FormatRFC3339Nano now) (FormatRFC3339Nano now) None) db);
  Ok (op, db).

Definition StartRotation (wall : Time) (r : RotationStartRequest) (db : DB)
  : result RotationOperation * DB :=
  match validateRotationStart r with
  | Err e => (Err e, db)
  | Ok _ => transact (start_tx (or_now wall (rs_CreatedAt r)) r) db
  end.

Definition scanRotationOperation (id : string) (row : rotation_row) : result RotationOperation :=
  fromVersion ← uint32KeyVersion (ror_from_version row);
  toVersion ← uint32KeyVersion (ror_to_version row);
  createdAt ← parse_time "parse rotation created_at" (ror_created_at row);
  updatedAt ← parse_time "parse rotation updated_at" (ror_updated_at row);
  activatedAt ← match ror_activated_at row with
                | Some raw => parse_time "parse rotation activated_at" raw
                | None => Ok 0
                end;
  Ok (mkRotationOperation id (ror_cluster_id row) (ror_key_id row) fromVersion toVersion
        (ror_status row) createdAt updatedAt activatedAt).

Definition queryRotationOperation (db : DB) (id : string) : result RotationOperation :=
  row ← of_option ErrRotationNotFound (rotation_operations db !! id);
  scanRotationOperation id row.

Definition with_row_status (s : Status) (row : key_version_row) : key_version_row :=
  mkKeyVersionRow s (kvr_algorithm row) (kvr_policy_id row) (kvr_protector_profile row)
    (kvr_protected_format row) (kvr_protected_payload row) (kvr_created_at row).

(** The UPDATE affects the row when it has the expected status; making a second
    row of the keyring active violates the unique index. *)
Definition updateKeyStatus (k : string * string) (version : Z) (from to : Status) (db : DB) : result DB :=
  match key_versions db !! (k, version) with
  | None => Err ErrRotationInvalidTransition
  | Some row =>
      check (String.eqb (kvr_status row) from) ErrRotationInvalidTransition;;
      check (negb (String.eqb to StatusActive &&
                   negb (bool_decide (filter (fun v => v <> version) (active_versions db k) = []))))
        (errorp "update key version status" unique_failed);;
      Ok (set_key_versions (<[(k, version) := with_row_status to row]> (key_versions db)) db)
  end.

Definition activated_row (now : string) (row : rotation_row) : rotation_row :=
  mkRotationRow (ror_cluster_id row) (ror_key_id row) (ror_from_version row) (ror_to_version row)
    RotationStatusActivated (ror_created_at row) now (Some now).

Definition activate_tx (now : Time) (id : string) (db : DB) : result (RotationOperation * DB) :=
  op ← queryRotationOperation db id;
  if String.eqb (ro_Status op) RotationStatusActivated then Ok (op, db)
  else if String.eqb (ro_Status op) RotationStatusStarted then
    let k := (ro_ClusterID op, ro_KeyID op) in
    db ← updateKeyStatus k (ro_FromVersion op) StatusActive StatusDecryptOnly db;
    db ← updateKeyStatus k (ro_ToVersion op) StatusPending StatusActive db;
    let db := set_rotation_operations
                (alter (activated_row (FormatRFC3339Nano now)) id (rotation_operations db)) db in
    Ok (mkRotationOperation (ro_OperationID op) (ro_ClusterID op) (ro_KeyID op) (ro_FromVersion op)
          (ro_ToVersion op) RotationStatusActivated (ro_CreatedAt op) now now, db)
  else Err ErrRotationInvalidTransition.

Definition ActivateRotation (wall : Time) (id : string) (now : Time) (db : DB)
  : result RotationOperation * DB :=
  transact (activate_tx (or_now wall now) id) db.

Definition RecordRotationVerification (wall : Time) (id name detail : string) (now : Time) (db : DB)
  : result RotationVerification * DB :=
  match validateRotationVerification name detail with
  | Err e => (Err e, db)
  | Ok _ =>
      transact (fun db =>
        let now := or_now wall now in
        queryRotationOperation db id;;
        Ok (mkRotationVerification id name now detail,
            set_rotation_verifications
              (<[(id, name) := mkVerificationRow (FormatRFC3339Nano now) detail]>
                 (rotation_verifications db)) db)) db
  end.

Definition verification_le (a b : (string * string) * verification_row) : Prop :=
  String.le a.1.2 b.1.2.
Global Instance verification_le_dec : RelDecision verification_le.
Proof. intros a b. unfold verification_le. apply _. Defined.

Definition RotationVerifications (db : DB) (id : string) : result (list RotationVerification) :=
  queryRotationOperation db id;;
  mapR (fun p : (string * string) * verification_row =>
          verifiedAt ← parse_time "parse rotation verification time" (ver_verified_at p.2);
          Ok (mkRotationVerification p.1.1 p.1.2 verifiedAt (ver_detail p.2)))
    (merge_sort verification_le
       (filter (fun p : (string * string) * verification_row => p.1.1 = id)
          (map_to_list (rotation_verifications db)))).

(** ** Audit *)

Definition InsertAuditEvent (e : AuditEvent) (db : DB) : result unit * DB :=
  exec "insert audit event" (insert_audit_events (ae_AuditID e) e) db.

(** ORDER BY occurred_at, audit_id: byte order of the two texts. *)
Definition audit_le (a b : AuditEvent) : Prop :=
  String.leb (ae_Time a) (ae_Time b) &&
  (negb (String.eqb (ae_Time a) (ae_Time b)) || String.leb (ae_AuditID a) (ae_AuditID b)) = true.
Global Instance audit_le_dec : RelDecision audit_le.
Proof. intros a b. unfold audit_le. apply _. Defined.

(** The scan rebuilds the event with schema version 1. *)
Definition scan_audit (e : AuditEvent) : AuditEvent :=
  mkAuditEvent 1 (ae_AuditID e) (ae_Time e) (ae_Subject e) (ae_Operation e) (ae_ClusterID e)
    (ae_KeyID e) (ae_KeyVersion e) (ae_Decision e) (ae_PolicyID e) (ae_Reason e) (ae_EvidenceHash e)
    (ae_RemoteAddress e) (ae_ErrorCode e) (ae_Actor e) (ae_Target e) (ae_CorrelationID e)
    (ae_RequestID e).

Definition AuditEvents (db : DB) : list AuditEvent :=
  scan_audit <$> merge_sort audit_le (snd <$> map_to_list (audit_events db)).
