(* ===== verification/Challenges.v ===== *)
(** * Challenges (internal/broker/memory_challenge.go and the challenge methods
    of sqlite.go)

    The two challenge stores and the ledger that specifies both: a challenge is
    issued once, valid only for the cluster, subject and operation it was issued
    for and only before it expires, and consumed at most once. *)

From S2P Require Import Prelude GoStrings GoTime Keyring KeyProtection Tpm NodeEvidence Config Sql Store.
From Stdlib Require Import Ascii.
Local Open Scope Z_scope.

(** ** The specification: a ledger of issued challenges *)

Abbreviation Ledger := (string -> option (Challenge * bool)).

(** The scope, replay and freshness checks, in the order of the code. *)
Definition ledger_valid (o : option (Challenge * bool)) (cluster subject : string)
  (operation : Operation) (now : Time) : result Challenge :=
  match o with
  | None => Err ErrChallengeNotFound
  | Some (ch, consumed) =>
      check (String.eqb (ch_ClusterID ch) cluster && String.eqb (ch_Subject ch) subject &&
             (ch_Operation ch =? operation)) ErrChallengeMismatch;;
      check (negb consumed) ErrChallengeReplayed;;
      check (Before now (ch_ExpiresAt ch)) ErrChallengeExpired;;
      Ok ch
  end.

(** Enums are 32-bit, times lie in the years 1 to 9999. *)
Definition int32 (z : Z) : Prop := -2147483648 <= z <= 2147483647.
Definition challenge_typed (ch : Challenge) : Prop :=
  int32 (ch_Operation ch) /\ time_ok (ch_ExpiresAt ch) /\ time_ok (ch_CreatedAt ch).

Class ChallengeStore (St : Type) := {
  CreateChallenge : St -> Challenge -> result unit * St;
  ChallengeNonce : St -> string -> string -> string -> Operation -> Time -> result bytes;
  ConsumeChallenge : St -> string -> string -> string -> Operation -> Time -> result unit * St;
}.

Class ChallengeSpec (St : Type) `{ChallengeStore St} := {
  cs_inv : St -> Prop;
  cs_ledger : St -> Ledger;
  cs_create st ch r st' :
    cs_inv st -> challenge_typed ch -> CreateChallenge st ch = (r, st') ->
    cs_inv st' /\
    match r with
    | Ok _ => cs_ledger st (ch_ID ch) = None /\
              forall i, cs_ledger st' i = if decide (i = ch_ID ch) then Some (ch, false) else cs_ledger st i
    | Err _ => forall i, cs_ledger st' i = cs_ledger st i
    end;
  cs_nonce st id cluster subject op now :
    cs_inv st -> int32 op ->
    ChallengeNonce st id cluster subject op now
    = (ch ← ledger_valid (cs_ledger st id) cluster subject op now; Ok (ch_Nonce ch));
  cs_consume st id cluster subject op now r st' :
    cs_inv st -> int32 op -> ConsumeChallenge st id cluster subject op now = (r, st') ->
    cs_inv st' /\
    match ledger_valid (cs_ledger st id) cluster subject op now with
    | Ok ch => r = Ok tt /\
               forall i, cs_ledger st' i = if decide (i = id) then Some (ch, true) else cs_ledger st i
    | Err e => r = Err e /\ forall i, cs_ledger st' i = cs_ledger st i
    end;
}.

(** ** memory_challenge.go *)

Abbreviation MemChallenges := (gmap string (Challenge * bool)).

Definition mem_CreateChallenge (m : MemChallenges) (ch : Challenge) : result unit * MemChallenges :=
  if blank (ch_ID ch) || (len (ch_Nonce ch) =? 0)
  then (Err (errorf "challenge id and nonce are required"), m)
  else if has m (ch_ID ch)
  then (Err (errorf ("challenge " +:+ quoted (ch_ID ch) +:+ " already exists")), m)
  else (Ok tt, <[ch_ID ch := (ch, false)]> m).

Definition mem_validChallenge (m : MemChallenges) (id cluster subject : string) (operation : Operation)
  (now : Time) : result (Challenge * bool) :=
  match (m !! id : option (Challenge * bool)) with
  | None => Err ErrChallengeNotFound
  | Some (ch, consumed) =>
      if negb (String.eqb (ch_ClusterID ch) cluster) || negb (String.eqb (ch_Subject ch) subject) ||
         negb (ch_Operation ch =? operation)
      then Err ErrChallengeMismatch
      else if consumed then Err ErrChallengeReplayed
      else if negb (Before now (ch_ExpiresAt ch)) then Err ErrChallengeExpired
      else Ok (ch, consumed)
  end.

Definition mem_ChallengeNonce (m : MemChallenges) (id cluster subject : string) (operation : Operation)
  (now : Time) : result bytes :=
  stored ← mem_validChallenge m id cluster subject operation now;
  Ok (ch_Nonce stored.1).

Definition mem_ConsumeChallenge (m : MemChallenges) (id cluster subject : string)
  (operation : Operation) (now : Time) : result unit * MemChallenges :=
  match mem_validChallenge m id cluster subject operation now with
  | Err e => (Err e, m)
  | Ok stored => (Ok tt, <[id := (stored.1, true)]> m)
  end.

Global Instance Memory_ChallengeStore : ChallengeStore MemChallenges := {|
  CreateChallenge := mem_CreateChallenge;
  ChallengeNonce := mem_ChallengeNonce;
  ConsumeChallenge := mem_ConsumeChallenge;
|}.

(** ** sqlite.go *)

Definition challenge_row_of (ch : Challenge) : challenge_row :=
  mkChallengeRow (ch_Nonce ch) (ch_ClusterID ch) (ch_Subject ch) (Operation_String (ch_Operation ch))
    (FormatRFC3339Nano (ch_ExpiresAt ch)) None (FormatRFC3339Nano (ch_CreatedAt ch)).

Definition sql_CreateChallenge (db : DB) (ch : Challenge) : result unit * DB :=
  exec "insert challenge" (insert_challenges (ch_ID ch) (challenge_row_of ch)) db.

Definition sql_ChallengeNonce (db : DB) (id cluster subject : string) (operation : Operation)
  (now : Time) : result bytes :=
  row ← of_option ErrChallengeNotFound (challenges db !! id);
  check (String.eqb (chr_cluster_id row) cluster && String.eqb (chr_subject_id row) subject &&
         String.eqb (chr_operation row) (Operation_String operation)) ErrChallengeMismatch;;
  check (bool_decide (chr_consumed_at row = None)) ErrChallengeReplayed;;
  expiresAt ← parse_time "parse challenge expiry" (chr_expires_at row);
  check (Before now expiresAt) ErrChallengeExpired;;
  Ok (chr_nonce row).

Definition challenge_consumed (at_ : string) (row : challenge_row) : challenge_row :=
  mkChallengeRow (chr_nonce row) (chr_cluster_id row) (chr_subject_id row) (chr_operation row)
    (chr_expires_at row) (Some at_) (chr_created_at row).

Definition consume_tx (id cluster subject : string) (operation : Operation) (now : Time) (db : DB)
  : result (unit * DB) :=
  row ← of_option ErrChallengeNotFound (challenges db !! id);
  check (String.eqb (chr_cluster_id row) cluster && String.eqb (chr_subject_id row) subject &&
         String.eqb (chr_operation row) (Operation_String operation)) ErrChallengeMismatch;;
  check (bool_decide (chr_consumed_at row = None)) ErrChallengeReplayed;;
  expiresAt ← parse_time "parse challenge expiry" (chr_expires_at row);
  check (Before now expiresAt) ErrChallengeExpired;;
  Ok (tt, set_challenges
            (<[id := challenge_consumed (FormatRFC3339Nano now) row]> (challenges db)) db).

Definition sql_ConsumeChallenge (db : DB) (id cluster subject : string) (operation : Operation)
  (now : Time) : result unit * DB :=
  transact (consume_tx id cluster subject operation now) db.

Global Instance SQLite_ChallengeStore : ChallengeStore DB := {|
  CreateChallenge := sql_CreateChallenge;
  ChallengeNonce := sql_ChallengeNonce;
  ConsumeChallenge := sql_ConsumeChallenge;
|}.

(** ** The memory store refines the ledger *)

Lemma mem_valid_ledger m id c s o now :
  mem_validChallenge m id c s o now
  = (ch ← ledger_valid (m !! id) c s o now; Ok (ch, false)).
Proof.
  unfold mem_validChallenge, ledger_valid. destruct (m !! id) as [[ch consumed]|]; [|done].
  destruct (String.eqb (ch_ClusterID ch) c), (String.eqb (ch_Subject ch) s), (ch_Operation ch =? o);
    try done. simpl. destruct consumed; [done|]. simpl. by destruct (Before now (ch_ExpiresAt ch)).
Qed.

Lemma insert_ledger {V} (m : gmap string V) k v i :
  <[k := v]> m !! i = if decide (i = k) then Some v else m !! i.
Proof. case_decide; subst; [by rewrite lookup_insert_eq | by rewrite lookup_insert_ne]. Qed.

Global Program Instance Memory_Spec : ChallengeSpec MemChallenges := {|
  cs_inv _ := True;
  cs_ledger m := fun i => m !! i;
|}.
Next Obligation.
  intros m ch r m' _ _. simpl. unfold mem_CreateChallenge. intros H. split; [done|].
  repeat case_hyp H; injection H as <- <-; try done. split; [by apply has_false|].
  intros i. apply insert_ledger.
Qed.
Next Obligation.
  intros m id c s o now _ _. simpl. unfold mem_ChallengeNonce. rewrite mem_valid_ledger.
  by destruct (ledger_valid (m !! id) c s o now).
Qed.
Next Obligation.
  intros m id c s o now r m' _ _. simpl. unfold mem_ConsumeChallenge. rewrite mem_valid_ledger.
  intros H. split; [done|]. destruct (ledger_valid (m !! id) c s o now); simpl in H; injection H as <- <-.
  - split; [done|]. intros i. apply insert_ledger.
  - done.
Qed.

(** ** The SQLite store refines the ledger *)

(** Reading an operation column back. *)
Definition Operation_of_String (s : string) : Operation :=
  if String.eqb s "OPERATION_UNSPECIFIED" then 0
  else if String.eqb s "OPERATION_WRAP" then 1
  else if String.eqb s "OPERATION_UNWRAP" then 2
  else if String.eqb s "OPERATION_ENROLL" then 3
  else if String.eqb s "OPERATION_ROTATE" then 4
  else if String.eqb s "OPERATION_RECOVER" then 5
  else default 0 (Atoi s).

Lemma FormatUint_head n : 0 <= n -> exists c r, FormatUint n = String c r /\ is_digit c = true.
Proof.
  intros Hn. pose proof (FormatUint_nonempty n). pose proof (FormatUint_digits n Hn) as Hd.
  destruct (FormatUint n) as [|c r]; [done|]. simpl in Hd. to_prop. eauto.
Qed.

Lemma Atoi_FormatInt z : int32 z -> Atoi (FormatInt z) = Some z.
Proof.
  unfold int32. intros Hz. unfold FormatInt. destruct (Z.ltb_spec z 0).
  - unfold Atoi. change (Ascii.eqb "-" "-") with true. cbv iota beta zeta.
    destruct (FormatUint_head (- z) ltac:(lia)) as (c & r & E & _). rewrite E at 1. cbv iota beta.
    rewrite parse_FormatUint by lia. rewrite Z.opp_involutive.
    assert ((- int64_max - 1 <=? z) && (z <=? int64_max) = true) as ->; [|done].
    apply andb_true_iff. unfold int64_max. lia.
  - destruct (FormatUint_head z ltac:(lia)) as (c & r & E & Hc). unfold Atoi. rewrite E.
    assert (Ascii.eqb c "-" = false /\ Ascii.eqb c "+" = false) as [-> ->].
    { split; apply Ascii.eqb_neq; by intros ->. }
    rewrite <- E, parse_FormatUint by lia.
    assert ((- int64_max - 1 <=? z) && (z <=? int64_max) = true) as ->; [|done].
    apply andb_true_iff. unfold int64_max. lia.
Qed.

Lemma FormatInt_head z : int32 z -> exists c r, FormatInt z = String c r /\ c <> "O"%char.
Proof.
  unfold int32. intros Hz. unfold FormatInt. destruct (Z.ltb_spec z 0); [by eexists _, _|].
  destruct (FormatUint_head z ltac:(lia)) as (c & r & -> & Hc). exists c, r. split; [done|]. by intros ->.
Qed.

Lemma Operation_of_String_spec o : int32 o -> Operation_of_String (Operation_String o) = o.
Proof.
  intros Ho. unfold Operation_String.
  repeat match goal with |- context [?a =? ?b] => destruct (Z.eqb_spec a b) as [->|]; [done|] end.
  unfold Operation_of_String. destruct (FormatInt_head o Ho) as (c & r & E & Hc).
  assert (forall t, String.eqb (FormatInt o) (String "O" t) = false) as Hne.
  { intros t. apply String.eqb_neq. rewrite E. by intros [= ->]. }
  rewrite !Hne. by rewrite Atoi_FormatInt.
Qed.

Lemma Operation_String_eqb a b :
  int32 a -> int32 b -> String.eqb (Operation_String a) (Operation_String b) = (a =? b).
Proof.
  intros Ha Hb. destruct (Z.eqb_spec a b) as [->|Hne]; [apply String.eqb_refl|].
  apply String.eqb_neq. intros H. apply Hne.
  by rewrite <- (Operation_of_String_spec a Ha), <- (Operation_of_String_spec b Hb), H.
Qed.

(** The challenge a row stands for, and rows that a store method wrote. *)
Definition decode_challenge (id : string) (row : challenge_row) : Challenge :=
  mkChallenge id (chr_nonce row) (chr_cluster_id row) (chr_subject_id row)
    (Operation_of_String (chr_operation row)) (default 0 (ParseRFC3339Nano (chr_expires_at row)))
    (default 0 (ParseRFC3339Nano (chr_created_at row))).

Definition challenge_row_ok (row : challenge_row) : Prop :=
  (exists o, int32 o /\ chr_operation row = Operation_String o) /\
  (exists t, ParseRFC3339Nano (chr_expires_at row) = Some t) /\
  (exists t, ParseRFC3339Nano (chr_created_at row) = Some t).

Definition challenges_ok (db : DB) : Prop :=
  forall id row, challenges db !! id = Some row -> challenge_row_ok row.

Definition sql_ledger (db : DB) : Ledger := fun id =>
  (fun row => (decode_challenge id row, negb (bool_decide (chr_consumed_at row = None)))) <$>
  (challenges db !! id).

Lemma decode_encode_challenge ch :
  challenge_typed ch -> decode_challenge (ch_ID ch) (challenge_row_of ch) = ch.
Proof.
  intros (Ho & He & Hc). unfold decode_challenge, challenge_row_of. simpl.
  rewrite Operation_of_String_spec, !ParseRFC3339Nano_Format by done. by destruct ch.
Qed.

Lemma challenge_row_of_ok ch : challenge_typed ch -> challenge_row_ok (challenge_row_of ch).
Proof.
  intros (Ho & He & Hc). split_and!; simpl; [eauto| |]; eexists; by apply ParseRFC3339Nano_Format.
Qed.

Lemma insert_challenges_Ok id row db db' :
  insert_challenges id row db = Ok db' <->
  challenges db !! id = None /\ nonce_used db (chr_nonce row) = false /\
  has (clusters db) (chr_cluster_id row) = true /\
  db' = set_challenges (<[id := row]> (challenges db)) db.
Proof.
  unfold insert_challenges. split.
  - intros H. inv_ok. to_prop. by rewrite <- has_false.
  - rewrite <- has_false. intros (H1 & H2 & H3 & ->). by rewrite H1, H2, H3.
Qed.

(** The row-level check of both readers, against the ledger's check. *)
Lemma row_check_ledger db id c s o now {A} (k : challenge_row -> result A) :
  challenges_ok db -> int32 o ->
  (row ← of_option ErrChallengeNotFound (challenges db !! id);
   check (String.eqb (chr_cluster_id row) c && String.eqb (chr_subject_id row) s &&
          String.eqb (chr_operation row) (Operation_String o)) ErrChallengeMismatch;;
   check (bool_decide (chr_consumed_at row = None)) ErrChallengeReplayed;;
   expiresAt ← parse_time "parse challenge expiry" (chr_expires_at row);
   check (Before now expiresAt) ErrChallengeExpired;; k row)
  = match ledger_valid (sql_ledger db id) c s o now with
    | Err e => Err e
    | Ok _ => match challenges db !! id with Some row => k row | None => Err ErrChallengeNotFound end
    end.
Proof.
  intros Hok Ho. unfold ledger_valid, sql_ledger.
  destruct (challenges db !! id) as [row|] eqn:E; [|done]. simpl.
  destruct (Hok id row E) as ((o' & Ho' & Heq) & (t & Ht) & _).
  rewrite Heq, Operation_String_eqb, Operation_of_String_spec by done.
  unfold parse_time. rewrite Ht. simpl.
  destruct (String.eqb (chr_cluster_id row) c && String.eqb (chr_subject_id row) s && (o' =? o)); [|done].
  simpl. destruct (bool_decide (chr_consumed_at row = None)); [|done]. simpl.
  by destruct (Before now t).
Qed.

Lemma sql_ledger_insert db id row i :
  sql_ledger (set_challenges (<[id := row]> (challenges db)) db) i
  = if decide (i = id)
    then Some (decode_challenge i row, negb (bool_decide (chr_consumed_at row = None)))
    else sql_ledger db i.
Proof. unfold sql_ledger. simpl. rewrite insert_ledger. by case_decide. Qed.

Lemma challenges_ok_insert db id row :
  challenges_ok db -> challenge_row_ok row ->
  challenges_ok (set_challenges (<[id := row]> (challenges db)) db).
Proof.
  intros Hok Hr i r H. simpl in H. apply lookup_insert_Some in H as [[_ <-]|[_ H]]; [done|]. by eapply Hok.
Qed.

Lemma ledger_valid_Ok o c s op now ch :
  ledger_valid o c s op now = Ok ch <->
  o = Some (ch, false) /\ ch_ClusterID ch = c /\ ch_Subject ch = s /\ ch_Operation ch = op /\
  now < ch_ExpiresAt ch.
Proof.
  unfold ledger_valid, Before. destruct o as [[ch' consumed]|].
  - split.
    + intros H. inv_ok. to_prop. by subst.
    + intros ([= -> ->] & <- & <- & <- & Ht). rewrite !String.eqb_refl, Z.eqb_refl. simpl.
      apply Z.ltb_lt in Ht. by rewrite Ht.
  - split; [done | by intros [? _]].
Qed.

Global Program Instance SQLite_Spec : ChallengeSpec DB := {|
  cs_inv := challenges_ok;
  cs_ledger := sql_ledger;
|}.
Next Obligation.
  intros db ch r db' Hok Ht. simpl. unfold sql_CreateChallenge, exec.
  destruct (insert_challenges _ _ db) as [db1|e] eqn:E; intros [= <- <-]; [|done].
  apply insert_challenges_Ok in E as (Hn & _ & _ & ->). split.
  - apply challenges_ok_insert; [done | by apply challenge_row_of_ok].
  - split; [unfold sql_ledger; by rewrite Hn|]. intros i. rewrite sql_ledger_insert.
    case_decide as Hi; [|done]. subst. by rewrite decode_encode_challenge.
Qed.
Next Obligation.
  intros db id c s o now Hok Ho. simpl. unfold sql_ChallengeNonce.
  rewrite (row_check_ledger db id c s o now (fun row => Ok (chr_nonce row))) by done.
  destruct (ledger_valid (sql_ledger db id) c s o now) as [ch|] eqn:E; [|done].
  apply ledger_valid_Ok in E as (E & _). unfold sql_ledger in E.
  destruct (challenges db !! id) as [row|]; [|done]. simpl in E. injection E as <- _. done.
Qed.
Next Obligation.
  intros db id c s o now r db' Hok Ho. simpl. unfold sql_ConsumeChallenge, transact, consume_tx.
  rewrite (row_check_ledger db id c s o now (fun row => Ok (tt, set_challenges
    (<[id := challenge_consumed (FormatRFC3339Nano now) row]> (challenges db)) db))) by done.
  destruct (ledger_valid (sql_ledger db id) c s o now) as [ch|] eqn:E.
  2:{ by intros [= <- <-]. }
  apply ledger_valid_Ok in E as (E & _). unfold sql_ledger in E.
  destruct (challenges db !! id) as [row|] eqn:Er; [|done]. simpl in E. injection E as <- _.
  intros [= <- <-]. split; [|split; [done|]].
  - apply challenges_ok_insert; [done|]. by destruct (Hok id row Er) as (H1 & H2 & H3).
  - intros i. rewrite sql_ledger_insert. by case_decide; subst.
Qed.

(** ** Runs of challenge operations *)

Inductive challenge_op :=
| OpCreate (ch : Challenge)
| OpConsume (id cluster subject : string) (operation : Operation) (now : Time).

Definition challenge_op_typed (o : challenge_op) : Prop :=
  match o with
  | OpCreate ch => challenge_typed ch
  | OpConsume _ _ _ op _ => int32 op
  end.

Section Runs.
Context {St} `{ChallengeSpec St}.

Definition challenge_step (st : St) (o : challenge_op) : result unit * St :=
  match o with
  | OpCreate ch => CreateChallenge st ch
  | OpConsume id c s op now => ConsumeChallenge st id c s op now
  end.

(** How often a run consumes the challenge [id]. *)
Fixpoint consumptions (id : string) (st : St) (ops : list challenge_op) : nat :=
  match ops with
  | [] => 0
  | o :: r =>
      let '(res, st') := challenge_step st o in
      (match o with
       | OpConsume id' _ _ _ _ => if String.eqb id' id && is_ok res then 1 else 0
       | OpCreate _ => 0
       end + consumptions id st' r)%nat
  end.

(** A step that leaves the state well formed and a consumed challenge consumed. *)
Lemma challenge_step_spec st o res st' id :
  cs_inv st -> challenge_op_typed o -> challenge_step st o = (res, st') ->
  cs_inv st' /\
  (forall ch, cs_ledger st id = Some (ch, true) -> cs_ledger st' id = Some (ch, true)) /\
  match o with
  | OpConsume id' c s op now =>
      id' = id -> is_ok res = true ->
      exists ch, cs_ledger st id = Some (ch, false) /\ cs_ledger st' id = Some (ch, true) /\
        ch_ClusterID ch = c /\ ch_Subject ch = s /\ ch_Operation ch = op /\ now < ch_ExpiresAt ch
  | OpCreate _ => True
  end.
Proof.
  intros Hi Ht Hs. destruct o as [ch|id' c s op now]; simpl in Hs, Ht.
  - destruct (cs_create st ch res st' Hi Ht Hs) as [Hi' Hl]. split; [done|]. split; [|done].
    intros ch0 Hc. destruct res as [u|e]; [|by rewrite Hl]. destruct Hl as [Hn Hl]. rewrite Hl.
    case_decide; [|done]. subst. congruence.
  - destruct (cs_consume st id' c s op now res st' Hi Ht Hs) as [Hi' Hl]. split; [done|].
    destruct (ledger_valid (cs_ledger st id') c s op now) as [ch|e] eqn:E.
    + apply ledger_valid_Ok in E as (E & H1 & H2 & H3 & H4). destruct Hl as [-> Hl]. split.
      * intros ch0 Hc. rewrite Hl. case_decide; [|done]. subst. congruence.
      * intros <- _. exists ch. rewrite Hl, decide_True by done. done.
    + destruct Hl as [-> Hl]. split; [|done]. intros ch0 Hc. by rewrite Hl.
Qed.

Lemma consumptions_consumed id ops st ch :
  cs_inv st -> Forall challenge_op_typed ops -> cs_ledger st id = Some (ch, true) ->
  consumptions id st ops = 0%nat.
Proof.
  revert st; induction ops as [|o ops IH]; intros st Hi HF Hl; [done|].
  apply Forall_cons in HF as [Ho HF]. cbn [consumptions].
  destruct (challenge_step st o) as [res st'] eqn:E.
  destruct (challenge_step_spec st o res st' id Hi Ho E) as (Hi' & Hk & Hc).
  rewrite (IH st') by auto. destruct o as [|id' c s op now]; [done|].
  destruct (String.eqb_spec id' id) as [->|]; [|done]. destruct (is_ok res) eqn:Er; [|done].
  destruct (Hc eq_refl eq_refl) as (ch' & Hl' & _). congruence.
Qed.

Lemma consumptions_le_one id ops st :
  cs_inv st -> Forall challenge_op_typed ops -> (consumptions id st ops <= 1)%nat.
Proof.
  revert st; induction ops as [|o ops IH]; intros st Hi HF; [simpl; lia|].
  apply Forall_cons in HF as [Ho HF]. cbn [consumptions].
  destruct (challenge_step st o) as [res st'] eqn:E.
  destruct (challenge_step_spec st o res st' id Hi Ho E) as (Hi' & _ & Hc).
  destruct o as [|id' c s op now]; [by apply IH|].
  destruct (String.eqb_spec id' id) as [->|]; [|by apply IH].
  destruct (is_ok res) eqn:Er; [|by apply IH].
  destruct (Hc eq_refl eq_refl) as (ch & _ & Hl & _).
  rewrite (consumptions_consumed id ops st' ch) by done. done.
Qed.

End Runs.

(** ** Properties of challenges *)

(** A challenge is consumed at most once: in every run of create and consume
    operations on any store that implements the ledger (the SQLite store and the
    memory store do), at most one consume operation for a given challenge id
    succeeds, whatever scopes and times the calls carry. *)
Theorem challenge_single_use {St} `{ChallengeSpec St} st ops id :
  cs_inv st -> Forall challenge_op_typed ops -> (consumptions id st ops <= 1)%nat.
Proof. apply consumptions_le_one. Qed.

Definition example_challenge : Challenge :=
  mkChallenge "chal_1" "nonce" "cluster-a" "openbao-0" OPERATION_UNWRAP (100 * Hour) (99 * Hour).
Definition example_db0 : DB := set_clusters {[ "cluster-a"%string := mkClusterRow None EmptyString ]} empty_db.
Definition example_challenge_ops : list challenge_op :=
  [OpCreate example_challenge; OpConsume "chal_1" "cluster-a" "openbao-0" OPERATION_UNWRAP (99 * Hour);
   OpConsume "chal_1" "cluster-a" "openbao-0" OPERATION_UNWRAP (99 * Hour); OpCreate example_challenge;
   OpConsume "chal_1" "cluster-a" "openbao-0" OPERATION_UNWRAP (99 * Hour)].

Lemma example_db0_ok : challenges_ok example_db0.
Proof. intros i row Hr. vm_compute in Hr. discriminate Hr. Qed.

Lemma example_challenge_typed : challenge_typed example_challenge.
Proof. repeat split; vm_compute; congruence. Qed.

Lemma challenge_single_use_witness :
  consumptions "chal_1" example_db0 example_challenge_ops = 1%nat /\
  (consumptions "chal_1" example_db0 example_challenge_ops <= 1)%nat.
Proof.
  split; [vm_compute; reflexivity|].
  apply (@challenge_single_use DB SQLite_ChallengeStore SQLite_Spec).
  - exact example_db0_ok.
  - repeat constructor; vm_compute; congruence.
Defined.

(** Consuming succeeds exactly when the challenge was issued, is not yet
    consumed, names this cluster, subject and operation, and has not expired; the
    only effect is that it is now consumed, and every refused call leaves the
    database as it was. *)
Theorem sql_ConsumeChallenge_exact db id c s op now r db' :
  challenges_ok db -> int32 op -> sql_ConsumeChallenge db id c s op now = (r, db') ->
  (r = Ok tt <-> exists ch, sql_ledger db id = Some (ch, false) /\ ch_ClusterID ch = c /\
     ch_Subject ch = s /\ ch_Operation ch = op /\ now < ch_ExpiresAt ch) /\
  (r = Ok tt -> exists row, challenges db !! id = Some row /\
     db' = set_challenges (<[id := challenge_consumed (FormatRFC3339Nano now) row]> (challenges db)) db) /\
  (r <> Ok tt -> db' = db).
Proof.
  intros Hok Ho Hc. destruct (@cs_consume DB SQLite_ChallengeStore SQLite_Spec db id c s op now r db' Hok Ho Hc) as [_ Hl].
  unfold sql_ConsumeChallenge, transact in Hc.
  destruct (consume_tx id c s op now db) as [[[] db1]|e] eqn:E; injection Hc as <- <-.
  2:{ split_and!; try done. split; [done|]. intros (ch & Hch). apply ledger_valid_Ok in Hch.
      simpl in Hl. rewrite Hch in Hl. by destruct Hl. }
  split_and!; [|intros _|done].
  - split; [intros _|done]. destruct (ledger_valid (cs_ledger db id) c s op now) as [ch|] eqn:Ev.
    + exists ch. by apply ledger_valid_Ok.
    + by destruct Hl.
  - unfold consume_tx in E. inv_ok. eauto.
Qed.

Lemma sql_ConsumeChallenge_exact_witness :
  let db := (sql_CreateChallenge example_db0 example_challenge).2 in
  let res := sql_ConsumeChallenge db "chal_1" "cluster-a" "openbao-0" OPERATION_UNWRAP (99 * Hour) in
  (res.1 = Ok tt <-> exists ch, sql_ledger db "chal_1" = Some (ch, false) /\ ch_ClusterID ch = "cluster-a"%string /\
     ch_Subject ch = "openbao-0"%string /\ ch_Operation ch = OPERATION_UNWRAP /\ 99 * Hour < ch_ExpiresAt ch).
Proof.
  intros db res.
  apply (sql_ConsumeChallenge_exact db "chal_1" "cluster-a" "openbao-0" OPERATION_UNWRAP (99 * Hour)
           res.1 res.2).
  - eapply (@cs_create DB SQLite_ChallengeStore SQLite_Spec example_db0 example_challenge);
      [exact example_db0_ok | exact example_challenge_typed | apply surjective_pairing].
  - vm_compute. split; congruence.
  - reflexivity.
Defined.

(** *** The two stores side by side *)

(** The SQLite store and the process-local store hold the same challenges. *)
Definition same_challenges (db : DB) (m : MemChallenges) : Prop :=
  challenges_ok db /\ forall i, sql_ledger db i = m !! i.

(** The calls of the [ChallengeStore] interface, and what a caller sees of the answer:
    of a refused create, that it was refused. *)
Inductive challenge_call :=
| CallCreate (ch : Challenge)
| CallNonce (id cluster subject : string) (operation : Operation) (now : Time)
| CallConsume (id cluster subject : string) (operation : Operation) (now : Time).

Inductive challenge_answer :=
| Created (ok : bool)
| Nonce (r : result bytes)
| Consumed (r : result unit).

Definition call {St} `{ChallengeStore St} (st : St) (o : challenge_call) : challenge_answer * St :=
  match o with
  | CallCreate ch => let '(r, st') := CreateChallenge st ch in (Created (is_ok r), st')
  | CallNonce id c s op now => (Nonce (ChallengeNonce st id c s op now), st)
  | CallConsume id c s op now => let '(r, st') := ConsumeChallenge st id c s op now in (Consumed r, st')
  end.

Fixpoint calls {St} `{ChallengeStore St} (st : St) (ops : list challenge_call) : list challenge_answer * St :=
  match ops with
  | [] => ([], st)
  | o :: r => let '(a, st) := call st o in let '(rest, st) := calls st r in (a :: rest, st)
  end.

Definition call_typed (o : challenge_call) : Prop :=
  match o with
  | CallCreate ch => challenge_typed ch
  | CallNonce _ _ _ op _ | CallConsume _ _ _ op _ => int32 op
  end.

(** What each store asks of a challenge beyond a new id. *)
Definition mem_accepts (ch : Challenge) : Prop := blank (ch_ID ch) = false /\ ch_Nonce ch <> EmptyString.
Definition sql_accepts (db : DB) (ch : Challenge) : Prop :=
  nonce_used db (ch_Nonce ch) = false /\ has (clusters db) (ch_ClusterID ch) = true.

(** The creates of a run are of challenges that both accept or both refuse. *)
Fixpoint calls_fit (db : DB) (ops : list challenge_call) : Prop :=
  match ops with
  | [] => True
  | o :: r =>
      match o with
      | CallCreate ch => challenges db !! ch_ID ch = None -> mem_accepts ch <-> sql_accepts db ch
      | _ => True
      end /\ calls_fit (call db o).2 r
  end.

Lemma mem_create_ok m ch :
  is_ok (mem_CreateChallenge m ch).1 = true <-> mem_accepts ch /\ m !! ch_ID ch = None.
Proof.
  unfold mem_CreateChallenge, mem_accepts. rewrite <- len_zero, <- has_false.
  destruct (blank _), (Z.eqb_spec (len (ch_Nonce ch)) 0), (has m _); simpl; naive_solver.
Qed.

Lemma sql_create_ok db ch :
  is_ok (sql_CreateChallenge db ch).1 = true <-> sql_accepts db ch /\ challenges db !! ch_ID ch = None.
Proof.
  unfold sql_CreateChallenge, exec, sql_accepts. destruct (insert_challenges _ _ db) as [db1|e] eqn:E.
  - apply insert_challenges_Ok in E as (H1 & H2 & H3 & _). simpl. split; [done | done].
  - simpl. split; [done|]. intros [[H1 H2] H3].
    assert (insert_challenges (ch_ID ch) (challenge_row_of ch) db
      = Ok (set_challenges (<[ch_ID ch := challenge_row_of ch]> (challenges db)) db)) as E'; [|by rewrite E' in E].
    by apply insert_challenges_Ok.
Qed.

Lemma same_unknown db m i : same_challenges db m -> challenges db !! i = None <-> m !! i = None.
Proof. intros [_ <-]. unfold sql_ledger. by rewrite fmap_None. Qed.

Lemma call_same db m o :
  same_challenges db m -> call_typed o ->
  match o with
  | CallCreate ch => challenges db !! ch_ID ch = None -> mem_accepts ch <-> sql_accepts db ch
  | _ => True
  end ->
  (call db o).1 = (call m o).1 /\ same_challenges (call db o).2 (call m o).2.
Proof.
  intros Hsame Ht Hfit. pose proof Hsame as [Hok Hl]. destruct o as [ch|id c s op now|id c s op now]; simpl in Ht |- *.
  - pose proof (cs_create (St:=DB) db ch _ _ Hok Ht (surjective_pairing _)) as [Ha Hra].
    pose proof (cs_create (St:=MemChallenges) m ch _ _ I Ht (surjective_pairing _)) as [_ Hrb]. simpl in Ha, Hra, Hrb.
    pose proof (sql_create_ok db ch) as Hs. pose proof (mem_create_ok m ch) as Hm.
    rewrite <- (same_unknown _ _ _ Hsame) in Hm.
    destruct (sql_CreateChallenge db ch) as [[u|e] db'], (mem_CreateChallenge m ch) as [[v|f] m']; simpl in *;
      try (split; [done|]; split; [done|]; intros i).
    + destruct Hra as [_ Hra], Hrb as [_ Hrb]. by rewrite Hra, Hrb, Hl.
    + destruct (proj1 Hs eq_refl) as [Hsa Hn]. by pose proof (proj2 Hm (conj (proj2 (Hfit Hn) Hsa) Hn)).
    + destruct (proj1 Hm eq_refl) as [Hma Hn]. by pose proof (proj2 Hs (conj (proj1 (Hfit Hn) Hma) Hn)).
    + by rewrite Hra, Hrb.
  - pose proof (cs_nonce (St:=DB) db id c s op now Hok Ht) as H1.
    pose proof (cs_nonce (St:=MemChallenges) m id c s op now I Ht) as H2. simpl in H1, H2.
    split; [|done]. by rewrite H1, H2, Hl.
  - pose proof (cs_consume (St:=DB) db id c s op now _ _ Hok Ht (surjective_pairing _)) as [Ha Hra].
    pose proof (cs_consume (St:=MemChallenges) m id c s op now _ _ I Ht (surjective_pairing _)) as [_ Hrb].
    simpl in Ha, Hra, Hrb. rewrite <- Hl in Hrb.
    destruct (sql_ConsumeChallenge db id c s op now) as [r db'], (mem_ConsumeChallenge m id c s op now) as [q m']; simpl in *.
    destruct (ledger_valid (sql_ledger db id) c s op now); destruct Hra as [-> Hra], Hrb as [-> Hrb];
      (split; [done|]; split; [done|]; intros i; rewrite Hra, Hrb, Hl; done).
Qed.

(** C37: the SQLite store and the process-local store are interchangeable.  Started
    with the same challenges, every sequence of creates, nonce reads and consumes gets
    the same answers of both, and leaves them with the same challenges, as long as
    the creates are of challenges that both accept or both refuse.  And which they accept differs
    exactly so: under an unused id, the process-local store wants an id that is not
    blank and a nonce, the SQLite store a nonce that no challenge had and a known cluster. *)
Theorem challenge_stores_bisimilar db m ops :
  same_challenges db m -> Forall call_typed ops ->
  (calls_fit db ops ->
   (calls db ops).1 = (calls m ops).1 /\ same_challenges (calls db ops).2 (calls m ops).2) /\
  forall ch,
    (is_ok (mem_CreateChallenge m ch).1 = true <-> mem_accepts ch /\ m !! ch_ID ch = None) /\
    (is_ok (sql_CreateChallenge db ch).1 = true <-> sql_accepts db ch /\ m !! ch_ID ch = None).
Proof.
  intros Hsame Ht. split.
  2:{ intros ch. split; [apply mem_create_ok|]. rewrite sql_create_ok. by rewrite (same_unknown _ _ _ Hsame). }
  revert db m Hsame. induction Ht as [|o ops Ho _ IH]; intros db m Hsame Hfit; [done|].
  destruct Hfit as [Hf Hfit]. destruct (call_same db m o Hsame Ho Hf) as [Ha Hs].
  cbn [calls]. destruct (call db o) as [a db'], (call m o) as [a' m']. simpl in Ha, Hs, Hfit. subst a'.
  destruct (IH db' m' Hs Hfit) as [Hr Hs'].
  destruct (calls db' ops) as [r db''], (calls m' ops) as [r' m'']. simpl in *. by subst.
Qed.

Definition example_calls : list challenge_call :=
  [CallCreate example_challenge; CallNonce "chal_1" "cluster-a" "openbao-0" OPERATION_UNWRAP (99 * Hour);
   CallConsume "chal_1" "cluster-a" "openbao-0" OPERATION_WRAP (99 * Hour); CallCreate example_challenge;
   CallConsume "chal_1" "cluster-a" "openbao-0" OPERATION_UNWRAP (99 * Hour);
   CallConsume "chal_1" "cluster-a" "openbao-0" OPERATION_UNWRAP (99 * Hour)].

Lemma challenge_stores_bisimilar_witness :
  (calls (St:=DB) example_db0 example_calls).1
  = [Created true; Nonce (Ok "nonce"%string); Consumed (Err ErrChallengeMismatch); Created false;
     Consumed (Ok tt); Consumed (Err ErrChallengeReplayed)] /\
  (calls (St:=MemChallenges) ∅ example_calls).1 = (calls (St:=DB) example_db0 example_calls).1.
Proof.
  split; [vm_compute; reflexivity|]. symmetry.
  apply (challenge_stores_bisimilar example_db0 ∅ example_calls).
  - split; [exact example_db0_ok|]. intros i. reflexivity.
  - repeat constructor; vm_compute; congruence.
  - split; [|split; [exact I|split; [exact I|split; [|split; [exact I|split; [exact I|exact I]]]]]].
    + intros _. split; intros _; (split; [vm_compute; reflexivity|]); [vm_compute; reflexivity | discriminate].
    + intros Hn. vm_compute in Hn. discriminate Hn.
Defined.
