(* ===== verification/SqlNodeEvidence.v ===== *)
(** * The SQLite store: node evidence and node trust enrollments
    (internal/broker/sqlite.go)

    The store methods on the three node-evidence tables, the invariant that ties
    stored TPM evidence to the active enrollment it was verified under, and the
    proof that the store keeps the enrollment-repository contract. *)

From S2P Require Import Prelude GoStrings GoTime Keyring KeyProtection Tpm NodeEvidence Config Sql Store.
Local Open Scope Z_scope.

Definition maxNodeEvidenceEnrollmentRevision : Z := int64_max.

(** ** Statements *)

Definition upsert_enrollment (k : evidenceKey) (row : enrollment_row) (db : DB) : result DB :=
  check (0 <? enr_revision row) check_failed;;
  check (has (clusters db) k.1) foreign_key_failed;;
  Ok (set_node_evidence_enrollments (<[k := row]> (node_evidence_enrollments db)) db).

Definition delete_publishers (k : evidenceKey) (db : DB) : DB :=
  set_node_evidence_publishers
    (filter (fun p : (evidenceKey * string) * string => p.1.1 <> k) (node_evidence_publishers db)) db.

Definition insert_publisher (k : evidenceKey) (now : string) (db : DB) (hash : string) : result DB :=
  check (negb (has (node_evidence_publishers db) (k, hash))) unique_failed;;
  check (has (node_evidence_enrollments db) k) foreign_key_failed;;
  Ok (set_node_evidence_publishers (<[(k, hash) := now]> (node_evidence_publishers db)) db).

Definition delete_evidence (k : evidenceKey) (db : DB) : DB :=
  set_node_evidence (delete k (node_evidence db)) db.

(** ** Reading enrollments *)

Definition scanNodeEvidenceEnrollment (k : evidenceKey) (row : enrollment_row) : result Enrollment :=
  check (0 <? enr_revision row)
    (errorf ("invalid node evidence enrollment revision " +:+ FormatInt (enr_revision row)));;
  enrolledAt ← parse_time "parse node evidence enrollment enrolled_at" (enr_enrolled_at row);
  updatedAt ← parse_time "parse node evidence enrollment updated_at" (enr_updated_at row);
  revokedAt ← match enr_revoked_at row with
              | Some raw => parse_time "parse node evidence enrollment revoked_at" raw
              | None => Ok 0
              end;
  Ok (mkEnrollment k.1 k.2 (enr_node_uid row) (enr_provider row) (enr_tpm_policy row) []
        (enr_revision row) enrolledAt updatedAt revokedAt).

Definition queryEnrollment (db : DB) (k : evidenceKey) : result Enrollment :=
  row ← of_option ErrEnrollmentNotFound (node_evidence_enrollments db !! k);
  scanNodeEvidenceEnrollment k row.

(** ORDER BY certificate_sha256. *)
Definition nodeEvidencePublisherHashes (db : DB) (k : evidenceKey) : list string :=
  sort_strings ((fun p : (evidenceKey * string) * string => p.1.2) <$>
    filter (fun p : (evidenceKey * string) * string => p.1.1 = k)
      (map_to_list (node_evidence_publishers db))).

Definition with_hashes (hashes : list string) (e : Enrollment) : Enrollment :=
  mkEnrollment (en_ClusterID e) (en_NodeName e) (en_NodeUID e) (en_Provider e) (en_TPMPolicy e) hashes
    (en_Revision e) (en_EnrolledAt e) (en_UpdatedAt e) (en_RevokedAt e).

Definition sql_ActiveNodeEvidenceEnrollment (db : DB) (cluster node : string) : result Enrollment :=
  let k := key_of cluster node in
  e ← queryEnrollment db k;
  if negb (Enrollment_Active e) then Err ErrEnrollmentRevoked
  else NormalizeEnrollment (with_hashes (nodeEvidencePublisherHashes db k) e).

Definition enrollment_key_le (a b : evidenceKey * enrollment_row) : Prop := String.le a.1.2 b.1.2.
Global Instance enrollment_key_le_dec : RelDecision enrollment_key_le.
Proof. intros a b. unfold enrollment_key_le. apply _. Defined.

Definition sql_ListNodeEvidenceEnrollments (db : DB) (cluster node : string) (includeRevoked : bool)
  : result (list Enrollment) :=
  let cluster := TrimSpace cluster in
  let node := TrimSpace node in
  let rows := merge_sort enrollment_key_le
                (filter (fun p : evidenceKey * enrollment_row =>
                   p.1.1 = cluster /\ (node = EmptyString \/ p.1.2 = node) /\
                   (includeRevoked = true \/ enr_revoked_at p.2 = None))
                   (map_to_list (node_evidence_enrollments db))) in
  scanned ← mapR (fun p => scanNodeEvidenceEnrollment p.1 p.2) rows;
  match scanned with
  | [] => Err ErrEnrollmentNotFound
  | _ => mapR (fun e => NormalizeEnrollment
                 (with_hashes (nodeEvidencePublisherHashes db (en_ClusterID e, en_NodeName e)) e)) scanned
  end.

(** ** Enroll and revoke *)

Definition enroll_tx (r : EnrollmentRequest) (db : DB) : result (Z * DB) :=
  let k := (er_ClusterID r, er_NodeName r) in
  let currentRevision := match node_evidence_enrollments db !! k with
                         | Some row => enr_revision row
                         | None => 0
                         end in
  check (negb (currentRevision =? maxNodeEvidenceEnrollmentRevision))
    (errorf "node evidence enrollment revision exhausted");;
  let revision := currentRevision + 1 in
  let now := FormatRFC3339Nano (er_EnrolledAt r) in
  db ← map_err (errorp "upsert node evidence enrollment")
         (upsert_enrollment k (mkEnrollmentRow (er_NodeUID r) (er_Provider r) (er_TPMPolicy r) revision
            now now None) db);
  db ← map_err (errorp "insert node evidence publisher")
         (foldR (insert_publisher k now) (delete_publishers k db) (er_PublisherCertificateHashes r));
  Ok (revision, delete_evidence k db).

Definition sql_EnrollNodeEvidence (db : DB) (request : EnrollmentRequest) : result Enrollment * DB :=
  match NormalizeEnrollmentRequest request with
  | Err e => (Err e, db)
  | Ok r =>
      match transact (enroll_tx r) db with
      | (Err e, db') => (Err e, db')
      | (Ok revision, db') => (NormalizeEnrollment (enrollment_of r revision), db')
      end
  end.

Definition revoke_row (now : string) (row : enrollment_row) : enrollment_row :=
  mkEnrollmentRow (enr_node_uid row) (enr_provider row) (enr_tpm_policy row) (enr_revision row + 1)
    (enr_enrolled_at row) now (Some now).

Definition revoke_tx (k : evidenceKey) (now : Time) (db : DB) : result (Enrollment * DB) :=
  row ← of_option ErrEnrollmentNotFound (node_evidence_enrollments db !! k);
  e ← scanNodeEvidenceEnrollment k row;
  check (Enrollment_Active e) ErrEnrollmentRevoked;;
  check (negb (maxNodeEvidenceEnrollmentRevision <=? en_Revision e))
    (errorf "node evidence enrollment revision exhausted");;
  let db := match enr_revoked_at row with
            | None => set_node_evidence_enrollments
                        (<[k := revoke_row (FormatRFC3339Nano now) row]> (node_evidence_enrollments db)) db
            | Some _ => db
            end in
  Ok (mkEnrollment (en_ClusterID e) (en_NodeName e) (en_NodeUID e) (en_Provider e) (en_TPMPolicy e) []
        (en_Revision e + 1) (en_EnrolledAt e) now now, delete_evidence k db).

Definition sql_RevokeNodeEvidence (db : DB) (cluster node : string) (now : Time)
  : result Enrollment * DB :=
  let k := key_of cluster node in
  if empty k.1 || empty k.2 || IsZero now
  then (Err (errorw ErrInvalidEnrollment "cluster_id, node_name, and revocation time are required"), db)
  else
    match transact (revoke_tx k now) db with
    | (Err e, db') => (Err e, db')
    | (Ok e, db') => (NormalizeEnrollment (with_hashes (nodeEvidencePublisherHashes db' k) e), db')
    end.

(** ** Evidence records *)

Definition evidence_row (wall : Time) (n : NodeEvidence) (revision : option Z) : node_evidence_row :=
  mkNodeEvidenceRow (nullableString (ne_NodeUID n)) (ne_Provider n) (ne_EvidenceHash n)
    (FormatRFC3339Nano (ne_CollectedAt n)) (FormatRFC3339Nano (ne_ExpiresAt n))
    (FormatRFC3339Nano wall) revision.

Definition upsertNodeEvidence (wall : Time) (n : NodeEvidence) (revision : option Z) (db : DB) : result DB :=
  map_err (errorp "upsert node evidence")
    (check (has (clusters db) (ne_ClusterID n)) foreign_key_failed;;
     Ok (set_node_evidence
           (<[(ne_ClusterID n, ne_NodeName n) := evidence_row wall n revision]> (node_evidence db)) db)).

Definition put_enrolled_tx (wall : Time) (n : NodeEvidence) (revision : Z) (db : DB) : result (unit * DB) :=
  row ← of_option ErrEnrollmentChanged
          (node_evidence_enrollments db !! (ne_ClusterID n, ne_NodeName n));
  check (negb ((enr_revision row <=? 0) || negb (bool_decide (enr_revoked_at row = None)) ||
               negb (enr_revision row =? wrap_int64 revision) ||
               negb (String.eqb (enr_node_uid row) (ne_NodeUID n)) ||
               negb (String.eqb (enr_provider row) (ne_Provider n)))) ErrEnrollmentChanged;;
  db ← upsertNodeEvidence wall n (Some (enr_revision row)) db;
  Ok (tt, db).

Definition sql_PutEnrolledNodeEvidence (wall : Time) (db : DB) (evidence : NodeEvidence) (revision : Z)
  : result unit * DB :=
  match Normalize evidence with
  | Err e => (Err e, db)
  | Ok n =>
      if (revision =? 0) || (maxNodeEvidenceEnrollmentRevision <? revision)
      then (Err ErrEnrollmentChanged, db)
      else transact (put_enrolled_tx wall n revision) db
  end.

Definition sql_PutNodeEvidence (wall : Time) (evidence : NodeEvidence) (db : DB) : result unit * DB :=
  match Normalize evidence with
  | Err e => (Err e, db)
  | Ok n =>
      if String.eqb (ne_Provider n) ProviderTPM2Quote
      then (Err (errorw ErrEnrollmentChanged "TPM evidence requires an active enrollment revision"), db)
      else match upsertNodeEvidence wall n None db with
           | Ok db' => (Ok tt, db')
           | Err e => (Err e, db)
           end
  end.

Definition scanNodeEvidence (k : evidenceKey) (row : node_evidence_row) : result NodeEvidence :=
  collectedAt ← parse_time "parse node evidence collected_at" (ner_collected_at row);
  expiresAt ← parse_time "parse node evidence expires_at" (ner_expires_at row);
  Ok (mkNodeEvidence k.1 k.2 (default EmptyString (ner_node_uid row)) (ner_provider row)
        (ner_evidence_hash row) collectedAt expiresAt).

Definition sql_NodeEvidence (db : DB) (cluster node : string) : result NodeEvidence :=
  let k := key_of cluster node in
  row ← of_option ErrNotFound (node_evidence db !! k);
  scanNodeEvidence k row.

Definition sql_FreshNodeEvidence (wall : Time) (db : DB) (cluster node : string) (now : Time)
  : result NodeEvidence :=
  let now := or_now wall now in
  e ← sql_NodeEvidence db cluster node;
  if negb (After (ne_ExpiresAt e) now) then Err ErrStale else Ok e.

Definition evidence_key_le (a b : evidenceKey * node_evidence_row) : Prop := String.le a.1.2 b.1.2.
Global Instance evidence_key_le_dec : RelDecision evidence_key_le.
Proof. intros a b. unfold evidence_key_le. apply _. Defined.

Definition sql_ListNodeEvidence (db : DB) (cluster node : string) : result (list NodeEvidence) :=
  let cluster := TrimSpace cluster in
  let node := TrimSpace node in
  let rows := merge_sort evidence_key_le
                (filter (fun p : evidenceKey * node_evidence_row =>
                   p.1.1 = cluster /\ (node = EmptyString \/ p.1.2 = node))
                   (map_to_list (node_evidence db))) in
  records ← mapR (fun p => scanNodeEvidence p.1 p.2) rows;
  match records with [] => Err ErrNotFound | _ => Ok records end.

(** The rows of the cluster whose expiry lies before the cut-off; an unreadable
    expiry aborts the transaction. *)
Fixpoint expired_nodes (cutoff : Time) (rows : list (evidenceKey * node_evidence_row))
  : result (list string) :=
  match rows with
  | [] => Ok []
  | (k, row) :: r =>
      expiresAt ← parse_time "parse node evidence prune expires_at" (ner_expires_at row);
      rest ← expired_nodes cutoff r;
      Ok (if Before expiresAt cutoff then k.2 :: rest else rest)
  end.

(** DELETE of one row, counting the rows affected. *)
Definition prune_step (cluster : string) (st : Z * DB) (node : string) : Z * DB :=
  let '(removed, db) := st in
  (removed + (if has (node_evidence db) (cluster, node) then 1 else 0), delete_evidence (cluster, node) db).

Definition prune_tx (cluster : string) (cutoff : Time) (db : DB) : result (Z * DB) :=
  expired ← expired_nodes cutoff
              (filter (fun p : evidenceKey * node_evidence_row => p.1.1 = cluster)
                 (map_to_list (node_evidence db)));
  Ok (foldl (prune_step cluster) (0, db) expired).

Definition sql_PruneNodeEvidence (wall : Time) (cluster : string) (expiredBefore : Time) (db : DB)
  : result Z * DB :=
  transact (prune_tx (TrimSpace cluster) (or_now wall expiredBefore)) db.

(** ** The invariant *)

(** A stored enrollment can be read back, its key and node UID are trimmed, it is a
    TPM enrollment and its revision fits the column. *)
Definition enrollment_row_ok (k : evidenceKey) (row : enrollment_row) : Prop :=
  trimmed k /\ 1 <= enr_revision row <= int64_max /\
  (exists t, ParseRFC3339Nano (enr_enrolled_at row) = Some t) /\
  (exists t, ParseRFC3339Nano (enr_updated_at row) = Some t) /\
  (forall raw, enr_revoked_at row = Some raw -> exists t, ParseRFC3339Nano raw = Some t /\ t <> 0) /\
  TrimSpace (enr_node_uid row) = enr_node_uid row /\ enr_provider row = ProviderTPM2Quote.

(** Stored TPM evidence belongs to an active enrollment of the same node, at the
    same revision and node UID. *)
Definition tpm_evidence_ok (db : DB) (k : evidenceKey) (row : node_evidence_row) : Prop :=
  ner_provider row = ProviderTPM2Quote ->
  exists en, node_evidence_enrollments db !! k = Some en /\ enr_revoked_at en = None /\
    ner_enrollment_revision row = Some (enr_revision en) /\
    default EmptyString (ner_node_uid row) = enr_node_uid en.

Record node_inv (db : DB) : Prop := {
  ni_enrollments k row : node_evidence_enrollments db !! k = Some row -> enrollment_row_ok k row;
  ni_evidence k row : node_evidence db !! k = Some row -> tpm_evidence_ok db k row;
}.

(** The invariant looks at two tables only. *)
Definition same_node_tables (a b : DB) : Prop :=
  node_evidence_enrollments a = node_evidence_enrollments b /\ node_evidence a = node_evidence b.

Global Instance node_inv_Proper : Proper (same_node_tables ==> iff) node_inv.
Proof.
  intros a b [H1 H2]. split; intros [Ha Hb]; split; unfold tpm_evidence_ok in *.
  - by rewrite <- H1.
  - rewrite <- H1, <- H2. exact Hb.
  - by rewrite H1.
  - rewrite H1, H2. exact Hb.
Qed.

Lemma scan_enrollment_ok k row :
  enrollment_row_ok k row ->
  exists e, scanNodeEvidenceEnrollment k row = Ok e /\ en_ClusterID e = k.1 /\ en_NodeName e = k.2 /\
    en_Revision e = enr_revision row /\ en_NodeUID e = enr_node_uid row /\
    en_PublisherCertificateHashes e = [] /\
    (Enrollment_Active e = true <-> enr_revoked_at row = None).
Proof.
  intros (_ & Hr & (t1 & H1) & (t2 & H2) & H3 & _). unfold scanNodeEvidenceEnrollment, parse_time.
  assert (0 <? enr_revision row = true) as -> by lia. rewrite H1, H2. cbn [check of_option mbind result_bind].
  destruct (enr_revoked_at row) as [raw|].
  - destruct (H3 raw eq_refl) as (t & -> & Ht). cbn. eexists. split; [done|]. simpl.
    split_and!; try done. unfold Enrollment_Active, IsZero; simpl. split; [|done].
    intros Hz. to_prop. done.
  - cbn. eexists. split; [done|]. simpl. split_and!; try done.
Qed.

Lemma insert_publishers_frame k now hs db db' :
  foldR (insert_publisher k now) db hs = Ok db' ->
  same_node_tables db db' /\ clusters db' = clusters db.
Proof.
  revert db; induction hs as [|h hs IH]; intros db H; cbn [foldR] in H; [by inv_ok|].
  apply bind_Ok in H as (db1 & H1 & H). apply IH in H as [[H2 H3] H4].
  unfold insert_publisher in H1. inv_ok. done.
Qed.

Lemma node_inv_delete_evidence k db : node_inv db -> node_inv (delete_evidence k db).
Proof.
  intros [H1 H2]. split; [exact H1|]. intros k' row Hl. simpl in Hl.
  apply lookup_delete_Some in Hl as [_ Hl]. by apply H2.
Qed.

(** Replacing the enrollment of a node whose evidence is deleted. *)
Lemma node_inv_replace_enrollment k row db :
  node_inv db -> enrollment_row_ok k row ->
  node_inv (delete_evidence k (set_node_evidence_enrollments
              (<[k := row]> (node_evidence_enrollments db)) db)).
Proof.
  intros [H1 H2] Hr. split; simpl.
  - intros k' row' Hl. apply lookup_insert_Some in Hl as [[<- <-]|[_ Hl]]; [done | by apply H1].
  - intros k' row' Hl. apply lookup_delete_Some in Hl as [Hne Hl]. intros Hp.
    destruct (H2 k' row' Hl Hp) as (en & He & Hrest). exists en. simpl.
    by rewrite lookup_insert_ne.
Qed.

Lemma enroll_tx_effect r db rev db' :
  enroll_tx r db = Ok (rev, db') ->
  let k := (er_ClusterID r, er_NodeName r) in
  let now := FormatRFC3339Nano (er_EnrolledAt r) in
  let row := mkEnrollmentRow (er_NodeUID r) (er_Provider r) (er_TPMPolicy r) rev now now None in
  rev = match node_evidence_enrollments db !! k with Some o => enr_revision o | None => 0 end + 1 /\
  rev - 1 <> int64_max /\ 0 < rev /\
  node_evidence_enrollments db' = <[k := row]> (node_evidence_enrollments db) /\
  node_evidence db' = delete k (node_evidence db).
Proof.
  unfold enroll_tx, upsert_enrollment. intros H. inv_ok. to_prop. cbv zeta.
  match goal with H : foldR _ _ _ = Ok _ |- _ => apply insert_publishers_frame in H as [[He Hn] _] end.
  simpl in *. unfold maxNodeEvidenceEnrollmentRevision in *. split_and!; try done; try lia.
  by rewrite Hn.
Qed.

Lemma new_enrollment_row_ok r n rev pol :
  NormalizeEnrollmentRequest r = Ok n -> time_ok (er_EnrolledAt n) -> 1 <= rev <= int64_max ->
  enrollment_row_ok (er_ClusterID n, er_NodeName n)
    (mkEnrollmentRow (er_NodeUID n) (er_Provider n) pol rev (FormatRFC3339Nano (er_EnrolledAt n))
       (FormatRFC3339Nano (er_EnrolledAt n)) None).
Proof.
  intros Hn Ht Hr. split_and!; simpl; try lia; try done.
  - rewrite (normalized_key _ _ Hn). apply trimmed_key_of.
  - eexists. by apply ParseRFC3339Nano_Format.
  - eexists. by apply ParseRFC3339Nano_Format.
  - apply NormalizeEnrollmentRequest_Ok in Hn as (_ & _ & _ & _ & _ & _ & _ & _ & _ & _ & ->). apply TrimSpace_idem.
  - by apply NormalizeEnrollmentRequest_Ok in Hn as (_ & _ & _ & Hp & _ & _ & _ & _ & _ & _ & ->).
Qed.

Lemma Normalize_EnrolledAt r n : NormalizeEnrollmentRequest r = Ok n -> er_EnrolledAt n = er_EnrolledAt r.
Proof. intros (_ & _ & _ & _ & _ & _ & _ & _ & _ & _ & ->)%NormalizeEnrollmentRequest_Ok. done. Qed.

Lemma node_inv_enroll db r :
  node_inv db -> time_ok (er_EnrolledAt r) -> node_inv (sql_EnrollNodeEvidence db r).2.
Proof.
  intros Hi Ht. unfold sql_EnrollNodeEvidence, transact.
  destruct (NormalizeEnrollmentRequest r) as [n|] eqn:En; [|done].
  destruct (enroll_tx n db) as [[rev db']|] eqn:E; [|done]. simpl.
  apply enroll_tx_effect in E as (Hrev & Hmax & Hpos & He & Hn).
  assert (rev <= int64_max).
  { destruct (node_evidence_enrollments db !! _) as [o|] eqn:Eo; [|rewrite Hrev; unfold int64_max; lia].
    destruct (ni_enrollments _ Hi _ _ Eo) as (_ & Hb & _). lia. }
  eapply node_inv_Proper; [|apply (node_inv_replace_enrollment (er_ClusterID n, er_NodeName n)
    (mkEnrollmentRow (er_NodeUID n) (er_Provider n) (er_TPMPolicy n) rev
       (FormatRFC3339Nano (er_EnrolledAt n)) (FormatRFC3339Nano (er_EnrolledAt n)) None) db Hi)].
  - split; simpl; [by rewrite He | by rewrite Hn].
  - apply (new_enrollment_row_ok r); [done | by rewrite (Normalize_EnrolledAt _ _ En) | lia].
Qed.

Lemma revoke_tx_effect k now db e db' :
  node_inv db -> revoke_tx k now db = Ok (e, db') ->
  exists row, node_evidence_enrollments db !! k = Some row /\ enr_revoked_at row = None /\
    enr_revision row < int64_max /\
    node_evidence_enrollments db'
    = <[k := revoke_row (FormatRFC3339Nano now) row]> (node_evidence_enrollments db) /\
    node_evidence db' = delete k (node_evidence db).
Proof.
  intros Hi. unfold revoke_tx. intros H. inv_ok.
  match goal with H : node_evidence_enrollments db !! k = Some ?row |- _ =>
    rename H into Hl; rename row into row0 end.
  destruct (scan_enrollment_ok k row0 (ni_enrollments _ Hi _ _ Hl)) as (e' & He' & _ & _ & Hrev & _ & _ & Hact).
  match goal with H : scanNodeEvidenceEnrollment _ _ = Ok _ |- _ => rewrite He' in H; injection H as <- end.
  match goal with H : Enrollment_Active _ = true |- _ => apply Hact in H; rename H into Hnone end.
  to_prop. exists row0. rewrite Hnone. unfold maxNodeEvidenceEnrollmentRevision in *.
  split_and!; try done. lia.
Qed.

Lemma revoked_row_ok k row now :
  enrollment_row_ok k row -> enr_revision row < int64_max -> time_ok now -> now <> 0 ->
  enrollment_row_ok k (revoke_row (FormatRFC3339Nano now) row).
Proof.
  intros (Ht & Hr & He & _ & _ & Hu & Hp) Hlt Hok Hnz. split_and!; simpl; try done; try lia.
  - eexists. by apply ParseRFC3339Nano_Format.
  - intros raw [= <-]. eexists. split; [by apply ParseRFC3339Nano_Format | done].
Qed.

Lemma node_inv_revoke db c n t : node_inv db -> time_ok t -> node_inv (sql_RevokeNodeEvidence db c n t).2.
Proof.
  intros Hi Ht. unfold sql_RevokeNodeEvidence, transact.
  destruct (empty (key_of c n).1 || empty (key_of c n).2 || IsZero t) eqn:Ez; [done|].
  destruct (revoke_tx (key_of c n) t db) as [[e db']|] eqn:E; [|done]. simpl.
  apply revoke_tx_effect in E as (row & Hl & Hnone & Hlt & He & Hn); [|done].
  eapply node_inv_Proper; [|apply (node_inv_replace_enrollment (key_of c n)
    (revoke_row (FormatRFC3339Nano t) row) db Hi)].
  - split; simpl; [by rewrite He | by rewrite Hn].
  - unfold IsZero in Ez. to_prop. apply revoked_row_ok; [by apply (ni_enrollments _ Hi) | done..].
Qed.

Lemma node_inv_put_enrolled wall db e rev :
  node_inv db -> node_inv (sql_PutEnrolledNodeEvidence wall db e rev).2.
Proof.
  intros Hi. unfold sql_PutEnrolledNodeEvidence, transact.
  destruct (Normalize e) as [n|] eqn:En; [|done]. destruct (_ || _); [done|].
  destruct (put_enrolled_tx wall n rev db) as [[[] db']|] eqn:E; [|done]. simpl.
  unfold put_enrolled_tx, upsertNodeEvidence in E. inv_ok. to_prop. destruct Hi as [Hen Hev].
  match goal with H : node_evidence_enrollments db !! _ = Some ?r |- _ => rename H into Hl, r into row0 end.
  split; [exact Hen|]. simpl. intros k row Hk. apply lookup_insert_Some in Hk as [[<- <-]|[_ Hk]].
  - intros _. exists row0. simpl. unfold nullableString. split_and!; try done.
    destruct (String.eqb_spec (ne_NodeUID n) EmptyString) as [Heq|]; simpl; congruence.
  - by apply Hev.
Qed.

Lemma node_inv_put wall e db : node_inv db -> node_inv (sql_PutNodeEvidence wall e db).2.
Proof.
  intros [H1 H2]. unfold sql_PutNodeEvidence. destruct (Normalize e) as [n|]; [|done].
  destruct (String.eqb_spec (ne_Provider n) ProviderTPM2Quote) as [|Hne]; [done|].
  unfold upsertNodeEvidence. destruct (has (clusters db) (ne_ClusterID n)); simpl; [|done].
  split; [exact H1|]. simpl. intros k row Hk. apply lookup_insert_Some in Hk as [[<- <-]|[_ Hk]].
  - by intros Hp.
  - by apply H2.
Qed.

(** ** Pruning *)

Definition evidence_times_ok (db : DB) : Prop :=
  forall k row, node_evidence db !! k = Some row ->
    (exists t, ParseRFC3339Nano (ner_expires_at row) = Some t) /\
    (exists t, ParseRFC3339Nano (ner_collected_at row) = Some t).

(** The nodes of a cluster whose stored expiry lies before the cut-off. *)
Definition row_expired (cutoff : Time) (row : node_evidence_row) : bool :=
  match ParseRFC3339Nano (ner_expires_at row) with
  | Some t => Before t cutoff
  | None => false
  end.

Lemma expired_nodes_Ok cutoff rows :
  Forall (fun p : evidenceKey * node_evidence_row =>
    exists t, ParseRFC3339Nano (ner_expires_at p.2) = Some t) rows ->
  expired_nodes cutoff rows
  = Ok ((fun p : evidenceKey * node_evidence_row => p.1.2) <$>
        filter (fun p : evidenceKey * node_evidence_row => row_expired cutoff p.2 = true) rows).
Proof.
  induction 1 as [|[k row] rows [t Ht] _ IH]; [done|]. cbn [expired_nodes]. simpl in Ht.
  unfold parse_time. rewrite Ht, IH. cbn [of_option mbind result_bind]. rewrite filter_cons. simpl.
  assert (row_expired cutoff row = Before t cutoff) as -> by (unfold row_expired; by rewrite Ht).
  by destruct (Before t cutoff).
Qed.

Lemma prune_fold cluster nodes n db n' db' :
  NoDup nodes -> Forall (fun node => is_Some (node_evidence db !! (cluster, node))) nodes ->
  foldl (prune_step cluster) (n, db) nodes = (n', db') ->
  n' = n + Z.of_nat (length nodes) /\
  db' = set_node_evidence (node_evidence db') db /\
  forall k, node_evidence db' !! k
            = if bool_decide (k.1 = cluster /\ k.2 ∈ nodes) then None else node_evidence db !! k.
Proof.
  revert n db. induction nodes as [|node nodes IH]; intros n db Hnd HF H.
  - simpl in H. injection H as <- <-. split_and!; [simpl; lia | by destruct db |].
    intros k. rewrite bool_decide_false; [done|]. intros [_ Hin]. by apply not_elem_of_nil in Hin.
  - apply NoDup_cons in Hnd as [Hni Hnd]. apply Forall_cons in HF as [Hs HF].
    cbn [foldl] in H. unfold prune_step at 2 in H.
    assert (has (node_evidence db) (cluster, node) = true) as Hh by (by apply bool_decide_eq_true).
    rewrite Hh in H. apply IH in H as (-> & -> & Hk); [| done |].
    + split_and!; [simpl length; lia | done |]. intros k. simpl in *. rewrite Hk. destruct k as [c nd]. simpl.
      destruct (decide (c = cluster /\ nd ∈ node :: nodes)) as [Hin|Hout].
      * rewrite (bool_decide_true (_ /\ nd ∈ node :: _)) by done.
        destruct (bool_decide (c = cluster /\ nd ∈ nodes)) eqn:Hb; [done|]. to_prop.
        destruct Hin as [-> Hin]. apply elem_of_cons in Hin as [->|Hin]; [|tauto].
        by rewrite lookup_delete_eq.
      * rewrite (bool_decide_false (_ /\ nd ∈ node :: _)) by done.
        rewrite bool_decide_false by (intros [-> Hin]; apply Hout; split; [done | by right]).
        rewrite lookup_delete_ne; [done|]. intros [= <- <-]. apply Hout. split; [done | left].
    + eapply Forall_impl; [|intros x Hx; exact Hx]. rewrite Forall_forall in HF |- *. intros x Hx.
      simpl. rewrite lookup_delete_ne; [by apply HF|]. intros [= ->]. done.
Qed.

Lemma cluster_nodes_NoDup (rows : list (evidenceKey * node_evidence_row)) cluster :
  NoDup rows.*1 -> Forall (fun p => p.1.1 = cluster) rows -> NoDup ((fun p => p.1.2) <$> rows).
Proof.
  intros Hnd HF. induction HF as [|[[c n] row] rows Hc HF IH]; [constructor|]. simpl in *. subst.
  apply NoDup_cons in Hnd as [Hni Hnd]. constructor; [|by apply IH].
  intros Hin. apply list_elem_of_fmap in Hin as ([[c' n'] row'] & Heq & Hin). simpl in Heq. subst.
  rewrite Forall_forall in HF. pose proof (HF _ Hin) as Hc. simpl in Hc. subst.
  apply Hni. apply list_elem_of_fmap. by exists ((cluster, n'), row').
Qed.

Lemma prune_tx_exact cluster cutoff db :
  evidence_times_ok db ->
  exists n db', prune_tx cluster cutoff db = Ok (n, db') /\
    db' = set_node_evidence (node_evidence db') db /\
    n = Z.of_nat (size (filter (fun p : evidenceKey * node_evidence_row =>
          p.1.1 = cluster /\ row_expired cutoff p.2 = true) (node_evidence db))) /\
    forall k, node_evidence db' !! k
      = (row ← node_evidence db !! k;
         if bool_decide (k.1 = cluster) && row_expired cutoff row then None else Some row).
Proof.
  intros Hok. unfold prune_tx.
  set (rows := filter (fun p : evidenceKey * node_evidence_row => p.1.1 = cluster)
                 (map_to_list (node_evidence db))).
  assert (Forall (fun p : evidenceKey * node_evidence_row =>
            exists t, ParseRFC3339Nano (ner_expires_at p.2) = Some t) rows) as HF.
  { apply Forall_forall. intros [k row] Hin. apply list_elem_of_filter in Hin as [_ Hin].
    apply elem_of_map_to_list in Hin. by apply (Hok k row Hin). }
  rewrite (expired_nodes_Ok cutoff rows HF). cbn [mbind result_bind].
  set (ex := filter (fun p : evidenceKey * node_evidence_row => row_expired cutoff p.2 = true) rows).
  assert (forall k row, (k, row) ∈ ex <->
            node_evidence db !! k = Some row /\ k.1 = cluster /\ row_expired cutoff row = true) as Hex.
  { intros k row. unfold ex, rows. rewrite !list_elem_of_filter, elem_of_map_to_list. simpl. tauto. }
  assert (NoDup ex) as Hnd.
  { unfold ex, rows. do 2 apply NoDup_filter. apply NoDup_map_to_list. }
  assert (NoDup ex.*1) as Hnd1.
  { apply (NoDup_fmap_2_strong fst); [|done]. intros [k1 r1] [k2 r2] [H1 _]%Hex [H2 _]%Hex Heq.
    simpl in Heq. subst. congruence. }
  assert (ex ≡ₚ map_to_list (filter (fun p : evidenceKey * node_evidence_row =>
            p.1.1 = cluster /\ row_expired cutoff p.2 = true) (node_evidence db))) as HP.
  { apply NoDup_Permutation; [done | apply NoDup_map_to_list|]. intros [k row].
    rewrite Hex, elem_of_map_to_list, map_lookup_filter_Some. simpl. tauto. }
  destruct (foldl (prune_step cluster) (0, db) ((fun p => p.1.2) <$> ex)) as [n db'] eqn:E.
  apply prune_fold in E as (-> & Hdb & Hk).
  - exists (Z.of_nat (length ex)), db'. split_and!; [by rewrite length_fmap | done | |].
    + by rewrite HP, length_map_to_list.
    + intros k. rewrite Hk. destruct (node_evidence db !! k) as [row|] eqn:El; simpl.
      * destruct (bool_decide (k.1 = cluster) && row_expired cutoff row) eqn:Hb.
        -- to_prop. rewrite bool_decide_true; [done|]. split; [done|]. apply list_elem_of_fmap.
           exists (k, row). split; [done|]. by apply Hex.
        -- rewrite bool_decide_false; [done|]. intros [Hc Hin].
           apply list_elem_of_fmap in Hin as ([k' row'] & Heq & Hin). apply Hex in Hin as (Hl & Hc' & Hx).
           assert (k' = k) as -> by (destruct k, k'; simpl in *; congruence).
           simplify_eq. rewrite bool_decide_true in Hb by done. simpl in Hb. congruence.
      * by case_bool_decide.
  - apply (cluster_nodes_NoDup ex cluster Hnd1). apply Forall_forall. intros [k row] Hin.
    by apply Hex in Hin as (_ & ? & _).
  - apply Forall_forall. intros node Hin. apply list_elem_of_fmap in Hin as ([[c n'] row] & -> & Hin).
    apply Hex in Hin as (Hl & Hc & _). simpl in *. subst. eauto.
Qed.

Lemma node_inv_prune wall cluster t db :
  node_inv db -> evidence_times_ok db -> node_inv (sql_PruneNodeEvidence wall cluster t db).2.
Proof.
  intros [He Hv] Hok. unfold sql_PruneNodeEvidence, transact.
  destruct (prune_tx_exact (TrimSpace cluster) (or_now wall t) db Hok) as (n & db' & -> & Hdb & _ & Hk).
  simpl. rewrite Hdb in *. split; [exact He|]. intros k row Hl. rewrite Hk in Hl.
  destruct (node_evidence db !! k) as [row0|] eqn:El; [|done]. simpl in Hl. case_hyp Hl; [done|].
  simplify_eq. intros Hp. by apply (Hv k row).
Qed.

(** ** The store keeps the enrollment-repository contract *)

Global Instance SQLite_EnrollmentRepository (wall : Time) : EnrollmentRepository DB := {|
  EnrollNodeEvidence := sql_EnrollNodeEvidence;
  RevokeNodeEvidence := sql_RevokeNodeEvidence;
  ActiveNodeEvidenceEnrollment := sql_ActiveNodeEvidenceEnrollment;
  PutEnrolledNodeEvidence := sql_PutEnrolledNodeEvidence wall;
  StoredNodeEvidence := sql_NodeEvidence;
  StoredEnrollment db c n :=
    match queryEnrollment db (key_of c n) with Ok e => Some e | Err _ => None end;
|}.

(** The stored row of an active enrollment. *)
Lemma active_enrollment_row db c n en :
  node_inv db -> sql_ActiveNodeEvidenceEnrollment db c n = Ok en ->
  exists row, node_evidence_enrollments db !! key_of c n = Some row /\ enr_revoked_at row = None /\
    enr_revision row = en_Revision en /\ 0 < en_Revision en <= int64_max /\
    enr_node_uid row = en_NodeUID en /\ enr_provider row = ProviderTPM2Quote /\
    en_ClusterID en = TrimSpace c /\ en_NodeName en = TrimSpace n /\ en_Provider en = ProviderTPM2Quote /\
    en_TPMPolicy en = enr_tpm_policy row /\ Enrollment_Active en = true.
Proof.
  intros Hi Ha. unfold sql_ActiveNodeEvidenceEnrollment, queryEnrollment in Ha.
  apply bind_Ok in Ha as (e & He & Ha). apply bind_Ok in He as (row & Hl & He). apply of_option_Ok in Hl.
  pose proof (ni_enrollments _ Hi _ _ Hl) as Hok.
  destruct (scan_enrollment_ok _ _ Hok) as (e' & He' & Hc & Hn & Hr & Hu & _ & Hact).
  assert (e' = e) as -> by congruence. destruct Hok as ((T1 & T2) & Hrev & _ & _ & _ & Hut & Hp).
  destruct (Enrollment_Active e) eqn:Ea; cbn [negb] in Ha; [|done].
  assert (en_TPMPolicy e = enr_tpm_policy row) as Hpol.
  { unfold scanNodeEvidenceEnrollment in He. by inv_ok. }
  unfold NormalizeEnrollment in Ha. apply bind_Ok in Ha as (r & Hreq & Ha). inv_ok. units.
  apply NormalizeEnrollmentRequest_Ok in Hreq as (_ & _ & _ & Hprov & _ & _ & _ & _ & _ & _ & ->). simpl in *.
  exists row. rewrite Hc, Hn, Hu, Hr, T1, T2, Hut. split_and!; try done; try lia; try (by apply Hact).

Qed.

(** When verified evidence is stored, and its whole effect. *)
Lemma put_enrolled_Ok wall db e rev db' :
  0 <= rev ->
  sql_PutEnrolledNodeEvidence wall db e rev = (Ok tt, db') <->
  exists n row, Normalize e = Ok n /\
    node_evidence_enrollments db !! (ne_ClusterID n, ne_NodeName n) = Some row /\
    enr_revoked_at row = None /\ enr_revision row = rev /\ 0 < rev <= int64_max /\
    enr_node_uid row = ne_NodeUID n /\ enr_provider row = ne_Provider n /\
    has (clusters db) (ne_ClusterID n) = true /\
    db' = set_node_evidence
            (<[(ne_ClusterID n, ne_NodeName n) := evidence_row wall n (Some rev)]> (node_evidence db)) db.
Proof.
  intros Hpos. unfold sql_PutEnrolledNodeEvidence, transact, maxNodeEvidenceEnrollmentRevision, wrap_int64. split.
  - destruct (Normalize e) as [n|] eqn:En; [|done]. destruct (_ || _) eqn:Er; [done|].
    destruct (put_enrolled_tx wall n rev db) as [[[] db1]|] eqn:E; [|done]. intros [= <-].
    unfold put_enrolled_tx, upsertNodeEvidence, wrap_int64 in E. inv_ok. to_prop.
    match goal with H : enr_revision ?r = _ |- _ => rename H into Hrev, r into row end.
    rewrite Z.mod_small in Hrev by (unfold int64_max in *; lia).
    exists n, row. split_and!; try done; try lia. by replace (enr_revision row) with rev by lia.
  - intros (n & row & -> & Hl & Hn & Hr & Hb & Hu & Hp & Hc & ->).
    assert ((rev =? 0) || (int64_max <? rev) = false) as -> by lia.
    unfold put_enrolled_tx, upsertNodeEvidence, wrap_int64. rewrite Hl.
    cbn [of_option mbind result_bind]. rewrite Hn, Hr, Hu, Hp, Hc, !String.eqb_refl.
    rewrite Z.mod_small by (unfold int64_max in *; lia).
    assert (rev <=? 0 = false) as -> by lia.
    rewrite bool_decide_true by done.
    replace (rev + 9223372036854775808 - 9223372036854775808) with rev by lia.
    by rewrite Z.eqb_refl.
Qed.

Lemma sql_revoke_effect db c n t en db' :
  node_inv db -> time_ok t -> sql_RevokeNodeEvidence db c n t = (Ok en, db') ->
  exists row, node_evidence_enrollments db' !! key_of c n = Some row /\
    enr_revoked_at row <> None /\ enrollment_row_ok (key_of c n) row /\
    node_evidence db' !! key_of c n = None.
Proof.
  intros Hi Ht H. pose proof (node_inv_revoke db c n t Hi Ht) as Hi'. rewrite H in Hi'. simpl in Hi'.
  unfold sql_RevokeNodeEvidence, transact in H. case_hyp H; [done|].
  destruct (revoke_tx (key_of c n) t db) as [[e db1]|] eqn:E; [|done]. injection H as _ <-.
  apply revoke_tx_effect in E as (row & _ & _ & _ & He & Hn); [|done].
  exists (revoke_row (FormatRFC3339Nano t) row). rewrite He, Hn, lookup_insert_eq, lookup_delete_eq.
  split_and!; try done. apply (ni_enrollments _ Hi'). by rewrite He, lookup_insert_eq.
Qed.

Global Program Instance SQLite_EnrollmentContract (wall : Time) :
  @EnrollmentContract DB (SQLite_EnrollmentRepository wall) := {| er_inv := node_inv |}.
Next Obligation. intros wall db r Hi Ht. by apply node_inv_enroll. Qed.
Next Obligation. intros wall db c n t Hi Ht. by apply node_inv_revoke. Qed.
Next Obligation. intros wall db e rev Hi. by apply node_inv_put_enrolled. Qed.
Next Obligation.
  intros wall db r en db' Hi. simpl. unfold sql_EnrollNodeEvidence, transact.
  destruct (NormalizeEnrollmentRequest r) as [n|] eqn:En; [|done].
  destruct (enroll_tx n db) as [[rev db1]|] eqn:E; [|done]. intros [= _ <-].
  apply enroll_tx_effect in E as (_ & _ & _ & _ & Hn). unfold sql_NodeEvidence.
  by rewrite Hn, (normalized_key _ _ En), lookup_delete_eq.
Qed.
Next Obligation.
  intros wall db c n t en db' Hi Ht. simpl. intros H.
  destruct (sql_revoke_effect _ _ _ _ _ _ Hi Ht H) as (row & Hl & Hr & Hok & Hn).
  destruct (scan_enrollment_ok _ _ Hok) as (e & He & _ & _ & _ & _ & _ & Hact).
  assert (Enrollment_Active e = false) as Hf by (apply not_true_is_false; intros Ha; by apply Hr, Hact).
  unfold sql_NodeEvidence, sql_ActiveNodeEvidenceEnrollment, queryEnrollment. rewrite Hn, Hl.
  cbn [of_option mbind result_bind]. rewrite He. cbn [mbind result_bind]. rewrite Hf. eauto.
Qed.
Next Obligation.
  intros wall db e rev db' Hi Hpos. simpl. unfold sql_PutEnrolledNodeEvidence, transact.
  destruct (Normalize e) as [n|] eqn:En; [|done].
  destruct ((rev =? 0) || (maxNodeEvidenceEnrollmentRevision <? rev)) eqn:Er; [done|].
  destruct (put_enrolled_tx wall n rev db) as [[[] db1]|] eqn:E; [|done]. intros [= <-].
  destruct (Normalize_fixed _ _ En) as (_ & _ & _ & Hc & Hn & _).
  unfold put_enrolled_tx in E. inv_ok. to_prop. unfold key_of. rewrite <- Hc, <- Hn.
  match goal with H : node_evidence_enrollments db !! _ = Some ?r |- _ => rename H into Hl, r into row end.
  destruct (scan_enrollment_ok _ _ (ni_enrollments _ Hi _ _ Hl)) as (en & He & _ & _ & Hrev & _ & _ & Hact).
  exists en. unfold queryEnrollment. rewrite Hl. cbn [of_option mbind result_bind]. rewrite He.
  split_and!; [done | by apply Hact |]. rewrite Hrev.
  match goal with H : enr_revision row = wrap_int64 rev |- _ => rewrite H end.
  unfold maxNodeEvidenceEnrollmentRevision, int64_max in *. unfold wrap_int64.
  rewrite Z.mod_small; lia.
Qed.

(** ** Publishers of an enrollment *)

Lemma insert_publisher_Ok k now db h :
  node_evidence_publishers db !! (k, h) = None -> has (node_evidence_enrollments db) k = true ->
  insert_publisher k now db h
  = Ok (set_node_evidence_publishers (<[(k, h) := now]> (node_evidence_publishers db)) db).
Proof. intros Hn%has_false Hh. unfold insert_publisher. by rewrite Hn, Hh. Qed.

Lemma insert_publishers_Ok k now hs db :
  NoDup hs -> has (node_evidence_enrollments db) k = true ->
  (forall h, h ∈ hs -> node_evidence_publishers db !! (k, h) = None) ->
  exists db', foldR (insert_publisher k now) db hs = Ok db' /\
    db' = set_node_evidence_publishers (node_evidence_publishers db') db /\
    forall q, node_evidence_publishers db' !! q
              = if bool_decide (q.1 = k /\ q.2 ∈ hs) then Some now else node_evidence_publishers db !! q.
Proof.
  revert db; induction hs as [|h hs IH]; intros db Hnd Hh Hfree.
  - exists db. split_and!; [done | by destruct db |]. intros q.
    rewrite bool_decide_false; [done|]. intros [_ Hin]. by apply not_elem_of_nil in Hin.
  - apply NoDup_cons in Hnd as [Hni Hnd]. cbn [foldR]. rewrite insert_publisher_Ok by (done || (apply Hfree; left)).
    cbn [mbind result_bind]. set (db1 := set_node_evidence_publishers _ db).
    destruct (IH db1) as (db' & HF & Hdb & Hq); [done | done | |].
    { intros h' Hin. simpl. rewrite lookup_insert_ne; [apply Hfree; by right|]. intros [= ->]. done. }
    exists db'. split; [exact HF|]. split; [by rewrite Hdb|]. intros q. rewrite Hq. destruct q as [k' h'].
    simpl. destruct (bool_decide (k' = k /\ h' ∈ hs)) eqn:Hb; to_prop.
    + rewrite bool_decide_true; [done|]. split; [tauto | right; tauto].
    + destruct (decide (k' = k /\ h' = h)) as [[-> ->]|Hne].
      * rewrite lookup_insert_eq, bool_decide_true; [done|]. split; [done | left].
      * rewrite lookup_insert_ne by naive_solver. rewrite bool_decide_false; [done|].
        intros [-> Hin]. apply elem_of_cons in Hin as [->|Hin]; naive_solver.
Qed.

Lemma publisher_hashes_spec db k hs now :
  NoDup hs ->
  (forall h, node_evidence_publishers db !! (k, h) = if bool_decide (h ∈ hs) then Some now else None) ->
  nodeEvidencePublisherHashes db k = sort_strings hs.
Proof.
  intros Hnd Hq. unfold nodeEvidencePublisherHashes.
  set (l := filter (fun p : (evidenceKey * string) * string => p.1.1 = k)
              (map_to_list (node_evidence_publishers db))).
  assert (forall h t, ((k, h), t) ∈ l <-> node_evidence_publishers db !! (k, h) = Some t) as Hl.
  { intros h t. unfold l. rewrite list_elem_of_filter, elem_of_map_to_list. simpl. tauto. }
  assert (((fun p : (evidenceKey * string) * string => p.1.2) <$> l) ≡ₚ hs) as HP.
  { apply NoDup_Permutation; [| done |].
    - apply (NoDup_fmap_2_strong); [|apply NoDup_filter, NoDup_map_to_list].
      intros [[k1 h1] t1] [[k2 h2] t2] H1 H2 Heq. simpl in Heq. subst.
      pose proof (proj1 (list_elem_of_filter _ _ _) H1) as [Hk1 H1']. simpl in Hk1.
      pose proof (proj1 (list_elem_of_filter _ _ _) H2) as [Hk2 H2']. simpl in Hk2. subst.
      apply elem_of_map_to_list in H1', H2'. congruence.
    - intros h. rewrite list_elem_of_fmap. split.
      + intros ([[k1 h1] t1] & -> & Hin). simpl.
        pose proof (proj1 (list_elem_of_filter _ _ _) Hin) as [Hk1 _]. simpl in Hk1. subst.
        apply Hl in Hin. rewrite Hq in Hin. case_bool_decide; done.
      + intros Hin. exists ((k, h), now). split; [done|]. apply Hl. rewrite Hq.
        by rewrite bool_decide_true. }
  apply (Sorted_unique String.le); [apply (Sorted_merge_sort _)..|]. unfold sort_strings.
  by rewrite !merge_sort_Permutation.
Qed.

(** The whole effect of a transaction that enrolls a normalised request. *)
Lemma enroll_tx_total r n db :
  NormalizeEnrollmentRequest r = Ok n ->
  has (clusters db) (er_ClusterID n) = true ->
  let k := (er_ClusterID n, er_NodeName n) in
  let cur := match node_evidence_enrollments db !! k with Some o => enr_revision o | None => 0 end in
  0 <= cur < int64_max ->
  exists db', enroll_tx n db = Ok (cur + 1, db') /\
    nodeEvidencePublisherHashes db' k = er_PublisherCertificateHashes n.
Proof.
  intros Hn Hc k cur Hcur. pose proof (NormalizeEnrollmentRequest_idem _ _ Hn) as Hidem.
  apply NormalizeEnrollmentRequest_Ok in Hidem as (_ & _ & _ & _ & _ & _ & _ & _ & Hnd & _ & Heq).
  assert (sort_strings (er_PublisherCertificateHashes n) = er_PublisherCertificateHashes n) as Hsort.
  { rewrite Heq at 2. done. }
  unfold enroll_tx. fold k. fold cur. unfold maxNodeEvidenceEnrollmentRevision.
  assert (cur =? int64_max = false) as -> by lia. cbn [negb check mbind result_bind].
  unfold upsert_enrollment. simpl enr_revision. assert (0 <? cur + 1 = true) as -> by lia.
  cbn [check mbind result_bind]. simpl fst. rewrite Hc. cbn [check mbind result_bind map_err].
  set (now := FormatRFC3339Nano (er_EnrolledAt n)).
  set (db1 := delete_publishers k _).
  destruct (insert_publishers_Ok k now (er_PublisherCertificateHashes n) db1) as (db' & -> & _ & Hq).
  - done.
  - apply has_true. eexists. simpl. apply lookup_insert_eq.
  - intros h _. simpl. apply map_lookup_filter_None. right. intros t _ Hne. by apply Hne.
  - cbn [mbind result_bind map_err]. eexists. split; [reflexivity|].
    rewrite <- Hsort. apply (publisher_hashes_spec _ k _ now); [done|]. intros h.
    change (node_evidence_publishers (delete_evidence k db')) with (node_evidence_publishers db').
    rewrite Hq. simpl. case_bool_decide as Hb.
    + rewrite bool_decide_true by tauto. done.
    + rewrite bool_decide_false by naive_solver. apply map_lookup_filter_None. right.
      intros t _ Hne. by apply Hne.
Qed.

(** What a transaction that enrolled the request left is read back as the record. *)
Lemma enrolled_reads_back r n db rev db' :
  NormalizeEnrollmentRequest r = Ok n -> time_ok (er_EnrolledAt r) -> 0 < rev <= int64_max ->
  enroll_tx n db = Ok (rev, db') ->
  nodeEvidencePublisherHashes db' (er_ClusterID n, er_NodeName n) = er_PublisherCertificateHashes n ->
  sql_ActiveNodeEvidenceEnrollment db' (er_ClusterID r) (er_NodeName r) = Ok (enrollment_of n rev).
Proof.
  intros Hn Ht Hrev Htx Hpub. apply enroll_tx_effect in Htx as (_ & _ & _ & He & _).
  unfold sql_ActiveNodeEvidenceEnrollment. rewrite <- (normalized_key _ _ Hn).
  unfold queryEnrollment. rewrite He, lookup_insert_eq, Hpub. cbn [of_option mbind result_bind].
  unfold scanNodeEvidenceEnrollment, parse_time. simpl.
  assert (0 <? rev = true) as -> by lia.
  rewrite ParseRFC3339Nano_Format by (by rewrite (Normalize_EnrolledAt _ _ Hn)).
  cbn. apply (NormalizeEnrollment_new r n); [done | lia].
Qed.

(** The effect of an enrollment that is reported as done. *)
Lemma sql_enroll_effect db r en db' :
  node_inv db -> time_ok (er_EnrolledAt r) -> sql_EnrollNodeEvidence db r = (Ok en, db') ->
  exists n, NormalizeEnrollmentRequest r = Ok n /\ en = enrollment_of n (en_Revision en) /\
    sql_ActiveNodeEvidenceEnrollment db' (er_ClusterID r) (er_NodeName r) = Ok en /\
    sql_NodeEvidence db' (er_ClusterID r) (er_NodeName r) = Err ErrNotFound.
Proof.
  intros Hi Ht. unfold sql_EnrollNodeEvidence, transact.
  destruct (NormalizeEnrollmentRequest r) as [n|] eqn:Hn; [|done].
  destruct (enroll_tx n db) as [[rev db1]|] eqn:Htx; [|done]. intros [= Hen <-].
  pose proof (enroll_tx_effect _ _ _ _ Htx) as (Hrev & Hmax & Hpos & _ & Hev).
  set (k := (er_ClusterID n, er_NodeName n)) in *.
  assert (0 <= match node_evidence_enrollments db !! k with Some o => enr_revision o | None => 0 end < int64_max) as Hcur.
  { destruct (node_evidence_enrollments db !! k) as [o|] eqn:E; [|unfold int64_max; lia].
    destruct (ni_enrollments _ Hi _ _ E) as (_ & Hb & _). lia. }
  assert (has (clusters db) (er_ClusterID n) = true) as Hc.
  { unfold enroll_tx in Htx. fold k in Htx. apply bind_Ok in Htx as (? & _ & Htx).
    apply bind_Ok in Htx as (d & Hup & _). unfold upsert_enrollment in Hup. inv_ok. done. }
  destruct (enroll_tx_total r n db Hn Hc Hcur) as (db2 & Htx2 & Hpub). fold k in Htx2, Hpub.
  rewrite Htx in Htx2. injection Htx2 as _ <-.
  rewrite (NormalizeEnrollment_new r n) in Hen by (done || lia). injection Hen as <-.
  exists n. split_and!; [done | done | |].
  - eapply enrolled_reads_back; try done. lia.
  - unfold sql_NodeEvidence. by rewrite <- (normalized_key _ _ Hn), Hev, lookup_delete_eq.
Qed.

(** Fresh TPM evidence and the enrollment behind it. *)
Lemma fresh_enrolled wall db c n now e :
  node_inv db -> sql_FreshNodeEvidence wall db c n now = Ok e -> ne_Provider e = ProviderTPM2Quote ->
  or_now wall now < ne_ExpiresAt e /\
  exists row en, node_evidence db !! key_of c n = Some row /\
    queryEnrollment db (key_of c n) = Ok en /\ Enrollment_Active en = true /\
    en_NodeUID en = ne_NodeUID e /\ ner_enrollment_revision row = Some (en_Revision en).
Proof.
  intros Hi H Hp. unfold sql_FreshNodeEvidence, sql_NodeEvidence in H. inv_ok.
  match goal with H : (if _ then _ else _) = Ok e |- _ => rename H into Hf end.
  unfold After in Hf. case_hyp Hf; [done|]. inv_ok. to_prop. split; [done|].
  match goal with H : node_evidence db !! _ = Some ?r |- _ => rename H into Hl, r into row end.
  unfold scanNodeEvidence in *. inv_ok. simpl in *.
  destruct (ni_evidence _ Hi _ _ Hl Hp) as (er & He & Hnone & Hrev & Huid).
  destruct (scan_enrollment_ok _ _ (ni_enrollments _ Hi _ _ He)) as (en & Hs & _ & _ & Hr & Hu & _ & Hact).
  exists row, en. unfold queryEnrollment. rewrite He. cbn [of_option mbind result_bind].
  split_and!; try done; [by apply Hact | congruence | by rewrite Hr].
Qed.

(** ** Properties of the node-evidence store *)

(** Enrolling a node and reading its active enrollment back gives the same
    record: for every request that normalises, in a known cluster, the store
    accepts it with the next revision and [ActiveNodeEvidenceEnrollment] returns
    exactly the returned enrollment, publisher hashes and times included. *)
Theorem enroll_then_active wall db r n :
  node_inv db -> time_ok (er_EnrolledAt r) -> NormalizeEnrollmentRequest r = Ok n ->
  has (clusters db) (er_ClusterID n) = true ->
  (forall row, node_evidence_enrollments db !! (er_ClusterID n, er_NodeName n) = Some row ->
     enr_revision row < int64_max) ->
  exists en db', @EnrollNodeEvidence DB (SQLite_EnrollmentRepository wall) db r = (Ok en, db') /\
    sql_ActiveNodeEvidenceEnrollment db' (er_ClusterID r) (er_NodeName r) = Ok en /\
    en = enrollment_of n (en_Revision en) /\
    en_Revision en = match node_evidence_enrollments db !! (er_ClusterID n, er_NodeName n) with
                     | Some o => enr_revision o | None => 0 end + 1.
Proof.
  intros Hi Ht Hn Hc Hlt. simpl. set (k := (er_ClusterID n, er_NodeName n)) in *.
  set (cur := match node_evidence_enrollments db !! k with Some o => enr_revision o | None => 0 end).
  assert (0 <= cur < int64_max) as Hcur.
  { unfold cur. destruct (node_evidence_enrollments db !! k) as [o|] eqn:E; [|unfold int64_max; lia].
    destruct (ni_enrollments _ Hi _ _ E) as (_ & Hb & _). specialize (Hlt _ eq_refl). lia. }
  destruct (enroll_tx_total r n db Hn Hc Hcur) as (db' & Htx & Hpub). fold k in Htx, Hpub. fold cur in Htx.
  exists (enrollment_of n (cur + 1)), db'. unfold sql_EnrollNodeEvidence, transact. rewrite Hn, Htx.
  rewrite (NormalizeEnrollment_new r n) by (done || lia). split_and!; try done.
  eapply enrolled_reads_back; try done. lia.
Qed.

Definition example_db1 : DB := set_clusters {[ "cluster-a"%string := mkClusterRow None EmptyString ]} empty_db.

Lemma example_db1_inv : node_inv example_db1.
Proof. split; intros k row H; vm_compute in H; discriminate H. Qed.

Definition example_request_n : EnrollmentRequest :=
  match NormalizeEnrollmentRequest example_request with Ok n => n | Err _ => example_request end.

Lemma enroll_then_active_witness :
  exists en db', @EnrollNodeEvidence DB (SQLite_EnrollmentRepository 0) example_db1 example_request = (Ok en, db') /\
    sql_ActiveNodeEvidenceEnrollment db' (er_ClusterID example_request) (er_NodeName example_request) = Ok en /\
    en = enrollment_of example_request_n (en_Revision en) /\
    en_Revision en = match node_evidence_enrollments example_db1 !!
                       (er_ClusterID example_request_n, er_NodeName example_request_n) with
                     | Some o => enr_revision o | None => 0 end + 1.
Proof.
  apply enroll_then_active; [exact example_db1_inv | vm_compute; split; congruence
    | vm_compute; reflexivity | vm_compute; reflexivity | intros row H; vm_compute in H; discriminate H].
Defined.

(** Fresh TPM evidence that the store hands to the policy engine is backed by
    trust that is still in force: the node has an enrollment that is not revoked,
    for the node UID the evidence names, at exactly the revision the evidence was
    stored under, and the evidence has not expired. *)
Theorem fresh_tpm_evidence_is_enrolled wall db c n now e :
  node_inv db -> sql_FreshNodeEvidence wall db c n now = Ok e -> ne_Provider e = ProviderTPM2Quote ->
  or_now wall now < ne_ExpiresAt e /\
  exists row en, node_evidence db !! key_of c n = Some row /\
    queryEnrollment db (key_of c n) = Ok en /\ Enrollment_Active en = true /\
    en_NodeUID en = ne_NodeUID e /\ ner_enrollment_revision row = Some (en_Revision en).
Proof. apply fresh_enrolled. Qed.

Definition example_db2 : DB :=
  (sql_PutEnrolledNodeEvidence 0 (sql_EnrollNodeEvidence example_db1 example_request).2
     (example_node_evidence 6000000000000) 1).2.

Lemma example_db2_inv : node_inv example_db2.
Proof.
  apply node_inv_put_enrolled, node_inv_enroll; [exact example_db1_inv | vm_compute; split; congruence].
Qed.

Lemma fresh_tpm_evidence_is_enrolled_witness :
  exists row en, node_evidence example_db2 !! key_of "cluster-a" "node-1" = Some row /\
    queryEnrollment example_db2 (key_of "cluster-a" "node-1") = Ok en /\ Enrollment_Active en = true /\
    en_NodeUID en = "uid-1"%string /\ ner_enrollment_revision row = Some (en_Revision en).
Proof.
  apply (fresh_tpm_evidence_is_enrolled 0 example_db2 "cluster-a" "node-1" 7000000000000
           (example_node_evidence 6000000000000));
    [exact example_db2_inv | vm_compute; reflexivity | reflexivity].
Defined.

(** A revocation takes effect whatever the call returns: once the enrollment
    is found active, the stored record is revoked with the next revision and the
    node's evidence is gone.  When the revocation time precedes the enrollment
    time the caller still gets an error, because the record is validated only
    after the commit. *)
Theorem revoke_commits_before_validation db c n now row :
  node_inv db -> time_ok now -> now <> 0 ->
  node_evidence_enrollments db !! key_of c n = Some row -> enr_revoked_at row = None ->
  enr_revision row < int64_max -> (key_of c n).1 <> EmptyString -> (key_of c n).2 <> EmptyString ->
  let '(res, db') := sql_RevokeNodeEvidence db c n now in
  node_evidence_enrollments db' !! key_of c n = Some (revoke_row (FormatRFC3339Nano now) row) /\
  node_evidence db' !! key_of c n = None /\
  (forall t, ParseRFC3339Nano (enr_enrolled_at row) = Some t -> now < t -> is_ok res = false).
Proof.
  intros Hi Ht Hnz Hl Hnone Hlt H1 H2. unfold sql_RevokeNodeEvidence, transact.
  assert (empty (key_of c n).1 || empty (key_of c n).2 || IsZero now = false) as ->.
  { unfold empty, IsZero. rewrite !orb_false_iff, !String.eqb_neq, Z.eqb_neq. done. }
  destruct (scan_enrollment_ok _ _ (ni_enrollments _ Hi _ _ Hl)) as (e & Hs & _ & _ & Hr & _ & _ & Hact).
  assert (exists e' db', revoke_tx (key_of c n) now db = Ok (e', db') /\
    en_EnrolledAt e' = en_EnrolledAt e /\ en_UpdatedAt e' = now) as (e' & db' & Htx & He' & Hu).
  { unfold revoke_tx. rewrite Hl. cbn [of_option mbind result_bind]. rewrite Hs.
    cbn [mbind result_bind]. rewrite (proj2 Hact Hnone). cbn [check mbind result_bind].
    unfold maxNodeEvidenceEnrollmentRevision. rewrite Hr.
    assert (int64_max <=? enr_revision row = false) as -> by lia. cbn [negb check mbind result_bind].
    do 2 eexists. split; [reflexivity|]. done. }
  rewrite Htx. pose proof (revoke_tx_effect _ _ _ _ _ Hi Htx) as (row' & Hl' & _ & _ & Hen & Hev).
  assert (row' = row) as -> by congruence. rewrite Hen, Hev, lookup_insert_eq, lookup_delete_eq.
  split_and!; [done..|]. intros t Hp Hbefore.
  assert (en_EnrolledAt e = t) as Het.
  { unfold scanNodeEvidenceEnrollment, parse_time in Hs. rewrite Hp in Hs. inv_ok. by simplify_eq. }
  destruct (NormalizeEnrollment _) as [x|] eqn:En; [|done]. exfalso.
  unfold NormalizeEnrollment in En. apply bind_Ok in En as (rn & Hrn & En).
  apply bind_Ok in En as (? & _ & En). apply bind_Ok in En as (? & Hb & _).
  apply check_Ok, negb_true_iff in Hb. apply Normalize_EnrolledAt in Hrn. simpl in Hrn, Hb.
  unfold Before in Hb. rewrite Hrn, He', Hu, Het in Hb. lia.
Qed.

Lemma revoke_commits_before_validation_witness :
  let '(res, db') := sql_RevokeNodeEvidence example_db2 "cluster-a" "node-1" 1000 in
  is_ok res = false /\ node_evidence db' !! key_of "cluster-a" "node-1" = None.
Proof.
  pose proof (revoke_commits_before_validation example_db2 "cluster-a" "node-1" 1000
    (mkEnrollmentRow "uid-1" ProviderTPM2Quote (er_TPMPolicy example_request) 1
       (FormatRFC3339Nano 5000000000000) (FormatRFC3339Nano 5000000000000) None)) as H.
  destruct (sql_RevokeNodeEvidence example_db2 "cluster-a" "node-1" 1000) as [res db'].
  destruct H as (_ & H2 & H3);
    [exact example_db2_inv | vm_compute; split; congruence | discriminate | vm_compute; reflexivity
    | reflexivity | vm_compute; reflexivity | vm_compute; discriminate | vm_compute; discriminate |].
  split; [|exact H2]. apply (H3 5000000000000); [vm_compute; reflexivity | lia].
Defined.

(** Pruning deletes exactly the evidence of the (trimmed) cluster that expired
    before the cut-off, reports how many records it deleted, and touches no other
    table. *)
Theorem sql_prune_exact wall cluster cutoff db :
  evidence_times_ok db ->
  let '(res, db') := sql_PruneNodeEvidence wall cluster cutoff db in
  res = Ok (Z.of_nat (size (filter (fun p : evidenceKey * node_evidence_row =>
          p.1.1 = TrimSpace cluster /\ row_expired (or_now wall cutoff) p.2 = true) (node_evidence db)))) /\
  db' = set_node_evidence (node_evidence db') db /\
  forall k, node_evidence db' !! k
    = (row ← node_evidence db !! k;
       if bool_decide (k.1 = TrimSpace cluster) && row_expired (or_now wall cutoff) row
       then None else Some row).
Proof.
  intros Hok. unfold sql_PruneNodeEvidence, transact.
  destruct (prune_tx_exact (TrimSpace cluster) (or_now wall cutoff) db Hok) as (n & db' & -> & Hdb & -> & Hk).
  done.
Qed.

Definition example_db3 : DB :=
  set_node_evidence {[ ("cluster-a"%string, "node-1"%string) :=
    evidence_row 0 (example_node_evidence 6000000000000) None ]} example_db1.

Lemma sql_prune_exact_witness :
  exists n, (sql_PruneNodeEvidence 0 "cluster-a" 9000000000000000 example_db3).1 = Ok n.
Proof.
  pose proof (sql_prune_exact 0 "cluster-a" 9000000000000000 example_db3) as H.
  destruct (sql_PruneNodeEvidence 0 "cluster-a" 9000000000000000 example_db3) as [res db'].
  destruct H as [-> _]; [|eexists; reflexivity].
  intros k row Hl. simpl in Hl. apply lookup_singleton_Some in Hl as [_ <-].
  split; eexists; vm_compute; reflexivity.
Defined.
