(* ===== verification/StoreInv.v ===== *)
(** * Invariants of the store

    The invariant of the keyring tables (every keyring has exactly one active
    version, every stored record is readable, a started rotation goes from the
    active version to a pending one), its preservation by every operation of the
    store, and what it gives to the readers. *)

From S2P Require Import Prelude GoStrings GoTime Keyring KeyProtection Tpm NodeEvidence Config.
From S2P Require Import Sql Store Challenges SqlNodeEvidence.
Local Open Scope Z_scope.

(** ** The keyring invariant *)

Definition has_status (db : DB) (k : string * string) (v : Z) (s : Status) : Prop :=
  exists row, key_versions db !! (k, v) = Some row /\ kvr_status row = s.

Definition key_row_ok (db : DB) (k : string * string) (v : Z) (row : key_version_row) : Prop :=
  1 <= v <= uint32_max /\ ProtectedKey_Validate (row_key (k, v) row) = Ok tt /\ is_Some (keyrings db !! k).

Definition rotation_ok (db : DB) (id : string) (row : rotation_row) : Prop :=
  let k := (ror_cluster_id row, ror_key_id row) in
  (exists op, scanRotationOperation id row = Ok op) /\
  ror_from_version row < ror_to_version row /\
  (ror_status row = RotationStatusActivated \/
   ror_status row = RotationStatusStarted /\ has_status db k (ror_from_version row) StatusActive /\
   has_status db k (ror_to_version row) StatusPending).

Record keys_inv (db : DB) : Prop := {
  ki_row k v row : key_versions db !! (k, v) = Some row -> key_row_ok db k v row;
  ki_cluster k : is_Some (keyrings db !! k) -> is_Some (clusters db !! k.1);
  ki_active k : is_Some (keyrings db !! k) ->
    exists v, has_status db k v StatusActive /\ forall w, has_status db k w StatusActive -> w = v;
  ki_rotation id row : rotation_operations db !! id = Some row -> rotation_ok db id row;
  ki_started id1 id2 r1 r2 :
    rotation_operations db !! id1 = Some r1 -> rotation_operations db !! id2 = Some r2 ->
    ror_status r1 = RotationStatusStarted -> ror_status r2 = RotationStatusStarted ->
    (ror_cluster_id r1, ror_key_id r1) = (ror_cluster_id r2, ror_key_id r2) -> id1 = id2;
}.

(** The invariant looks at four tables only. *)
Definition same_key_tables (a b : DB) : Prop :=
  clusters a = clusters b /\ keyrings a = keyrings b /\ key_versions a = key_versions b /\
  rotation_operations a = rotation_operations b.

Global Instance same_key_tables_Equivalence : Equivalence same_key_tables.
Proof.
  split; unfold same_key_tables; [done | |]; repeat intro; destruct_and?; split_and!; congruence.
Qed.

Lemma keys_inv_transfer a b : same_key_tables a b -> keys_inv a -> keys_inv b.
Proof.
  intros (H1 & H2 & H3 & H4) [Ha Hb Hc Hd He].
  split; unfold key_row_ok, rotation_ok, has_status in *; rewrite <- ?H1, <- ?H2, <- ?H3, <- ?H4;
    done.
Qed.

Global Instance keys_inv_Proper : Proper (same_key_tables ==> iff) keys_inv.
Proof. intros a b H. split; apply keys_inv_transfer; [done | by symmetry]. Qed.

Lemma keys_inv_empty : keys_inv empty_db.
Proof.
  split; simpl; intros; try (by rewrite lookup_empty in *); try (by destruct H as [? H]; rewrite lookup_empty in H).
Qed.

(** ** Rows and records *)

Lemma row_key_key_row key now :
  row_key (ClusterID (pk_Ref key), KeyID (pk_Ref key), Version (pk_Ref key)) (key_row key now) = key.
Proof. by destruct key as [[]]. Qed.

Lemma uint32KeyVersion_Ok v : 1 <= v <= uint32_max -> uint32KeyVersion v = Ok v.
Proof.
  intros Hv. unfold uint32KeyVersion, maxKeyVersion.
  assert ((v <=? 0) || (uint32_max <? v) = false) as ->; [|done]. rewrite orb_false_iff. lia.
Qed.

Lemma uint32KeyVersion_inv v w : uint32KeyVersion v = Ok w -> w = v /\ 1 <= v <= uint32_max.
Proof. unfold uint32KeyVersion, maxKeyVersion. intros H. inv_ok. to_prop. lia. Qed.

Lemma validate_with_status k row s :
  known_status s = true -> ProtectedKey_Validate (row_key k row) = Ok tt ->
  ProtectedKey_Validate (row_key k (with_row_status s row)) = Ok tt.
Proof. rewrite !ProtectedKey_Validate_Ok. simpl. tauto. Qed.

Lemma active_nil db k : active_versions db k = [] <-> forall v, ~ has_status db k v StatusActive.
Proof.
  rewrite list_empty_iff. split; intros H v; specialize (H v); by rewrite active_versions_elem in *.
Qed.

Lemma started_nil db k :
  started_rotations db k = [] <->
  forall id row, rotation_operations db !! id = Some row ->
    (ror_cluster_id row, ror_key_id row) = k -> ror_status row <> RotationStatusStarted.
Proof.
  rewrite list_empty_iff. split.
  - intros H id row Hl Hk Hs. apply (H id), started_rotations_elem. eauto.
  - intros H id Hin. apply started_rotations_elem in Hin as (row & Hl & Hk & Hs). by apply (H id row).
Qed.

Lemma max_version_bound db k v row : key_versions db !! (k, v) = Some row -> v <= max_version db k.
Proof.
  intros Hl. unfold max_version. assert (v ∈ fst <$> versions_of db k) as Hin.
  { apply list_elem_of_fmap. exists (v, row). split; [done|]. by apply versions_of_elem. }
  revert Hin. induction (fst <$> versions_of db k) as [|a l IH]; intros Hin; [by apply not_elem_of_nil in Hin|].
  simpl. apply elem_of_cons in Hin as [->|Hin]; [lia|]. apply IH in Hin. lia.
Qed.

(** ** Inserting a row into [key_versions] *)

Lemma insert_key_versions_Ok k v row db db' :
  insert_key_versions (k, v) row db = Ok db' <->
  0 < v /\ key_versions db !! (k, v) = None /\
  (kvr_status row = StatusActive -> forall w, ~ has_status db k w StatusActive) /\
  is_Some (keyrings db !! k) /\ db' = set_key_versions (<[(k, v) := row]> (key_versions db)) db.
Proof.
  unfold insert_key_versions, key_version_conflict. simpl. split.
  - intros H. inv_ok. to_prop.
    match goal with H : has _ (k, v) = false |- _ => apply has_false in H end.
    match goal with H : has _ k = true |- _ => apply has_true in H as [r Hr] end.
    split_and!; eauto. intros Hs.
    match goal with H : _ && _ = false |- _ => rewrite Hs, String.eqb_refl in H; simpl in H end.
    to_prop. by apply active_nil.
  - intros (Hv & Hn & Ha & [r Hr] & ->). apply has_false in Hn. rewrite Hn.
    assert (0 <? v = true) as -> by lia. cbn [check mbind result_bind orb].
    assert (has (keyrings db) k = true) as -> by (apply has_true; eauto).
    destruct (String.eqb_spec (kvr_status row) StatusActive) as [Hs|]; [|done].
    rewrite bool_decide_true by (apply active_nil; auto). done.
Qed.

Lemma no_conflict db k v row :
  (forall w, key_versions db !! (k, w) = None) -> key_version_conflict (k, v) row db = false.
Proof.
  intros Hfree. unfold key_version_conflict. rewrite (proj2 (has_false _ _) (Hfree v)). simpl.
  rewrite bool_decide_true; [by rewrite andb_false_r|]. apply active_nil.
  intros w (r & Hr & _). by rewrite Hfree in Hr.
Qed.

Lemma has_status_insert db k v row k' v' s :
  has_status (set_key_versions (<[(k, v) := row]> (key_versions db)) db) k' v' s <->
  ((k', v') = (k, v) /\ kvr_status row = s) \/ ((k', v') <> (k, v) /\ has_status db k' v' s).
Proof.
  unfold has_status. simpl. split.
  - intros (r & Hl & Hs). apply lookup_insert_Some in Hl as [[[= <- <-] <-]|[Hne Hl]]; [by left | right].
    split; [done | eauto].
  - intros [[[= -> ->] Hs]|[Hne (r & Hl & Hs)]].
    + exists row. by rewrite lookup_insert_eq.
    + exists r. by rewrite lookup_insert_ne.
Qed.

(** Rotations of a keyring do not notice a new version of it that is neither
    endpoint. *)
Lemma rotation_ok_insert db k v row id rot :
  key_versions db !! (k, v) = None -> rotation_ok db id rot ->
  rotation_ok (set_key_versions (<[(k, v) := row]> (key_versions db)) db) id rot.
Proof.
  intros Hn (Hs & Hlt & Hst). split_and!; [done..|]. destruct Hst as [|(H1 & H2 & H3)]; [by left|right].
  split; [done|].
  assert (forall w s, has_status db (ror_cluster_id rot, ror_key_id rot) w s ->
    has_status (set_key_versions (<[(k, v) := row]> (key_versions db)) db)
      (ror_cluster_id rot, ror_key_id rot) w s) as Hmono.
  { intros w s Hws. apply has_status_insert. right. split; [|done].
    intros [= <- <-]. destruct Hws as (r & Hl & _). congruence. }
  split; by apply Hmono.
Qed.

(** A new keyring row together with its first, active version. *)
Lemma keys_inv_new_keyring db k row key now :
  keys_inv db -> is_Some (clusters db !! k.1) -> keyrings db !! k = None ->
  ProtectedKey_Validate key = Ok tt -> pk_Status key = StatusActive ->
  pk_Ref key = mkKeyRef k.1 k.2 1 ->
  keys_inv (set_key_versions (<[(k, 1) := key_row key now]> (key_versions db))
              (set_keyrings (<[k := row]> (keyrings db)) db)).
Proof.
  intros [Ha Hb Hc Hd He] Hcl Hnone Hval Hst Href.
  assert (forall v, key_versions db !! (k, v) = None) as Hfree.
  { intros v. destruct (key_versions db !! (k, v)) eqn:E; [|done]. apply Ha in E as (_ & _ & [? ?]). congruence. }
  set (db1 := set_keyrings (<[k := row]> (keyrings db)) db).
  split; simpl.
  - intros k' v' row' Hl. apply lookup_insert_Some in Hl as [[[= <- <-] <-]|[Hne Hl]].
    + split; [unfold uint32_max; lia|]. split; [|eexists; apply lookup_insert_eq].
      pose proof (row_key_key_row key now) as Heq. rewrite Href in Heq. simpl in Heq.
      destruct k; simpl in *. by rewrite Heq.
    + destruct (Ha _ _ _ Hl) as (H1 & H2 & [r Hr]). split; [done|]. split; [done|]. exists r.
      change (<[k := row]> (keyrings db) !! k' = Some r).
      destruct (decide (k' = k)) as [->|Hk]; [congruence|]. by rewrite lookup_insert_ne.
  - intros k' [r Hr]. apply lookup_insert_Some in Hr as [[<- _]|[_ Hr]]; [done|]. apply Hb. eauto.
  - intros k' [r Hr]. destruct (decide (k' = k)) as [->|Hk].
    + exists 1. split; [apply (has_status_insert db1); left; split; [done | exact Hst]|].
      intros w Hw. apply (has_status_insert db1) in Hw as [[[= ->] _]|[_ (r' & Hl & _)]]; [done|].
      simpl in Hl. by rewrite Hfree in Hl.
    + rewrite lookup_insert_ne in Hr by done. destruct (Hc k') as (v & Hv & Hu); [eauto|].
      exists v. split; [apply (has_status_insert db1); right; split; [congruence | exact Hv]|].
      intros w Hw. apply (has_status_insert db1) in Hw as [[[= -> _] _]|[_ Hw]]; [done|]. by apply Hu.
  - intros id rot Hl. apply (rotation_ok_insert db1); [apply Hfree|]. exact (Hd id rot Hl).
  - exact He.
Qed.

Lemma keys_inv_new_cluster db c row :
  keys_inv db -> keys_inv (set_clusters (<[c := row]> (clusters db)) db).
Proof.
  intros [Ha Hb Hc Hd He]. split; simpl; try done.
  intros k Hk. destruct (Hb k Hk) as [r Hr]. destruct (decide (k.1 = c)) as [->|Hne].
  - eexists. apply lookup_insert_eq.
  - rewrite lookup_insert_ne by done. eauto.
Qed.

Lemma insert_keyrings_Ok k row db db' :
  insert_keyrings k row db = Ok db' <->
  keyrings db !! k = None /\ is_Some (clusters db !! k.1) /\
  db' = set_keyrings (<[k := row]> (keyrings db)) db.
Proof.
  unfold insert_keyrings. split.
  - intros H. inv_ok. to_prop.
    repeat match goal with
    | H : has _ _ = false |- _ => apply has_false in H
    | H : has _ _ = true |- _ => apply has_true in H as [? ?]
    end. eauto.
  - intros (Hn & [r Hr] & ->). apply has_false in Hn. rewrite Hn.
    assert (has (clusters db) k.1 = true) as -> by (apply has_true; eauto). done.
Qed.

Lemma keys_inv_insert_keyring db db1 db2 k row key now :
  keys_inv db -> insert_keyrings k row db = Ok db1 ->
  insert_key_versions (k, 1) (key_row key now) db1 = Ok db2 ->
  ProtectedKey_Validate key = Ok tt -> pk_Status key = StatusActive ->
  pk_Ref key = mkKeyRef k.1 k.2 1 -> keys_inv db2.
Proof.
  intros Hi (Hn & Hc & ->)%insert_keyrings_Ok (_ & _ & _ & _ & ->)%insert_key_versions_Ok Hv Hs Hr.
  exact (keys_inv_new_keyring db k row key now Hi Hc Hn Hv Hs Hr).
Qed.

(** Statements that leave the four tables alone. *)
Lemma insert_policies_frame k row db db' : insert_policies k row db = Ok db' -> same_key_tables db db'.
Proof. unfold insert_policies. intros H. by inv_ok. Qed.

Lemma insert_or_ignore_policies_frame k row db db' :
  insert_or_ignore_policies k row db = Ok db' -> same_key_tables db db'.
Proof.
  unfold insert_or_ignore_policies. case_goal; [by intros [= <-]|]. apply insert_policies_frame.
Qed.

Lemma insert_recovery_frame id row db db' :
  insert_recovery_packages id row db = Ok db' -> same_key_tables db db'.
Proof. unfold insert_recovery_packages. intros H. by inv_ok. Qed.

Lemma insert_subjects_frame k row db db' :
  insert_or_ignore_subjects k row db = Ok db' -> same_key_tables db db'.
Proof. unfold insert_or_ignore_subjects. case_goal; intros H; by inv_ok. Qed.

Lemma seed_subjects_frame c now ss db db' :
  foldR (seed_subject c now) db ss = Ok db' -> same_key_tables db db'.
Proof.
  revert db; induction ss as [|s ss IH]; intros db H; cbn [foldR] in H; [by inv_ok|].
  apply bind_Ok in H as (db1 & H1 & H). unfold seed_subject in H1. inv_ok.
  apply insert_subjects_frame in H1. by etransitivity; [|apply IH].
Qed.

Lemma transact_inv {A} (P : DB -> Prop) (f : DB -> result (A * DB)) db :
  P db -> (forall a db', f db = Ok (a, db') -> P db') -> P (transact f db).2.
Proof. intros Hp Hf. unfold transact. destruct (f db) as [[a db']|]; simpl; eauto. Qed.

Lemma exec_inv (P : DB -> Prop) what f db :
  P db -> (forall db', f db = Ok db' -> P db') -> P (exec what f db).2.
Proof. intros Hp Hf. unfold exec. destruct (f db) as [db'|]; simpl; eauto. Qed.

Lemma keys_inv_BootstrapKeyring r db : keys_inv db -> keys_inv (BootstrapKeyring r db).2.
Proof.
  intros Hi. unfold BootstrapKeyring. destruct (ProtectedKey_Validate (bk_Key r)) as [[]|] eqn:Ev; [|done].
  destruct (String.eqb_spec (pk_Status (bk_Key r)) StatusActive) as [Hst|]; [|done].
  destruct (Z.eqb_spec (Version (pk_Ref (bk_Key r))) 1) as [Hv|]; [|done].
  cbn [negb orb]. apply transact_inv; [done|]. intros [] db' H. unfold bootstrap_tx in H. cbv zeta in H.
  apply bind_Ok in H as (db1 & H1 & H). apply bind_Ok in H as (db2 & H2 & H).
  apply bind_Ok in H as (db3 & H3 & H). apply bind_Ok in H as (db4 & H4 & H).
  apply bind_Ok in H as (db5 & H5 & H). inv_ok.
  apply insert_policies_frame in H4.
  assert (same_key_tables db4 db') as H45 by (case_hyp H5; inv_ok; [done | by eapply insert_recovery_frame]).
  rewrite <- H45, <- H4. rewrite Hv in H3.
  eapply (keys_inv_insert_keyring db1); [|exact H2 | exact H3 | done | done |].
  - unfold insert_clusters in H1. inv_ok. by apply keys_inv_new_cluster.
  - simpl. rewrite <- Hv. by destruct (pk_Ref (bk_Key r)).
Qed.

Lemma keys_inv_ConfigureDevelopment wall c key db :
  keys_inv db -> keys_inv (ConfigureDevelopment wall c key db).2.
Proof.
  intros Hi. unfold ConfigureDevelopment.
  destruct (validateDevelopmentProtectedKey c key) as [[]|] eqn:Ev; [|done].
  apply transact_inv; [done|]. intros [] db' H. unfold configure_tx in H.
  apply bind_Ok in H as (db1 & H1 & H). apply bind_Ok in H as (db2 & H2 & H).
  apply bind_Ok in H as (db3 & H3 & H). apply bind_Ok in H as (db4 & H4 & H).
  apply bind_Ok in H as (db5 & H5 & H). inv_ok.
  unfold validateDevelopmentProtectedKey in Ev. inv_ok. units. to_prop.
  apply seed_subjects_frame in H5. apply insert_or_ignore_policies_frame in H4. rewrite <- H5, <- H4.
  assert (keys_inv db1) as Hi1.
  { unfold insert_or_ignore_clusters, insert_clusters in H1. case_hyp H1; inv_ok; [done|].
    by apply keys_inv_new_cluster. }
  unfold insert_or_ignore_keyrings in H2. case_hyp H2.
  - inv_ok. match goal with H : has (keyrings _) _ = true |- _ => apply has_true in H as [kr Hkr] end.
    unfold insert_or_ignore_key_versions in H3. case_hyp H3; [by inv_ok|]. exfalso.
    apply insert_key_versions_Ok in H3 as (_ & _ & Hno & _ & _).
    destruct (ki_active _ Hi1 (c_ClusterID c, c_KeyID c)) as (v & Hv & _); [eauto|].
    by apply (Hno ltac:(simpl; congruence) v).
  - match goal with H : Version (pk_Ref key) = 1 |- _ => rename H into Hv end.
    pose proof (proj1 (insert_keyrings_Ok _ _ _ _) H2) as (Hn & _ & Hdb2).
    unfold insert_or_ignore_key_versions in H3. rewrite Hv in H3.
    assert (key_version_conflict (c_ClusterID c, c_KeyID c, 1) (key_row key (FormatRFC3339Nano wall)) db2
            = false) as Hnc.
    { apply no_conflict. intros v. rewrite Hdb2. simpl.
      destruct (key_versions db1 !! _) eqn:E; [|done].
      apply (ki_row _ Hi1) in E as (_ & _ & [? ?]). congruence. }
    rewrite Hnc in H3. simpl in H3.
    eapply (keys_inv_insert_keyring db1); [done | exact H2 | exact H3 | done | congruence |].
    simpl. destruct (pk_Ref key); simpl in *; congruence.
Qed.

(** ** Rotation *)

Lemma nextRotationVersions_Ok db k from to :
  nextRotationVersions db k = Ok (from, to) ->
  has_status db k from StatusActive /\ 1 <= from <= uint32_max /\ to = max_version db k + 1 /\
  1 <= to <= uint32_max.
Proof.
  unfold nextRotationVersions. destruct (active_versions db k) as [|a l] eqn:E; [done|]. intros H. inv_ok.
  repeat match goal with H : uint32KeyVersion _ = Ok _ |- _ => apply uint32KeyVersion_inv in H as [-> ?] end.
  split_and!; try lia; try done. apply active_versions_elem. rewrite E. left.
Qed.

Definition started_row (ref : KeyRef) (from to : Z) (now : Time) : rotation_row :=
  mkRotationRow (ClusterID ref) (KeyID ref) from to RotationStatusStarted (FormatRFC3339Nano now)
    (FormatRFC3339Nano now) None.

Definition started_db (now : Time) (r : RotationStartRequest) (from to : Z) (db : DB) : DB :=
  let ref := pk_Ref (rs_Key r) in
  set_rotation_operations (<[rs_OperationID r := started_row ref from to now]> (rotation_operations db))
    (set_key_versions (<[(ClusterID ref, KeyID ref, to) := key_row (rs_Key r) (FormatRFC3339Nano now)]>
                         (key_versions db)) db).

Lemma start_tx_effect now r db op db' :
  start_tx now r db = Ok (op, db') ->
  let ref := pk_Ref (rs_Key r) in
  let k := (ClusterID ref, KeyID ref) in
  exists from to,
    nextRotationVersions db k = Ok (from, to) /\ Version ref = to /\ started_rotations db k = [] /\
    rotation_operations db !! rs_OperationID r = None /\ is_Some (keyrings db !! k) /\
    key_versions db !! (k, to) = None /\ db' = started_db now r from to db /\
    op = mkRotationOperation (rs_OperationID r) (ClusterID ref) (KeyID ref) from to
           RotationStatusStarted now now 0.
Proof.
  unfold start_tx, ensureNoStartedRotation. cbv zeta. intros H. apply bind_Ok in H as (? & Hst & H).
  destruct (started_rotations db _) as [|] eqn:Es; [|done].
  apply bind_Ok in H as ([from to] & Hnext & H). inv_ok. to_prop.
  match goal with H : insert_key_versions _ _ _ = Ok _ |- _ =>
    apply insert_key_versions_Ok in H as (_ & Hfree & _ & Hkr & ->) end.
  match goal with H : insert_rotation_operations _ _ _ = Ok _ |- _ => unfold insert_rotation_operations in H end.
  inv_ok. to_prop.
  match goal with H : has (rotation_operations _) _ = false |- _ => apply has_false in H end.
  exists from, (Version (pk_Ref (rs_Key r))). split_and!; done.
Qed.

(** The converse: with the preconditions the transaction succeeds. *)
Lemma start_tx_total now r db from :
  keys_inv db -> uint32 (Version (pk_Ref (rs_Key r))) -> validateRotationStart r = Ok tt ->
  let ref := pk_Ref (rs_Key r) in
  let k := (ClusterID ref, KeyID ref) in
  is_Some (keyrings db !! k) -> started_rotations db k = [] ->
  rotation_operations db !! rs_OperationID r = None -> Version ref = max_version db k + 1 ->
  active_versions db k = [from] ->
  start_tx now r db
  = Ok (mkRotationOperation (rs_OperationID r) (ClusterID ref) (KeyID ref) from (Version ref)
          RotationStatusStarted now now 0, started_db now r from (Version ref) db).
Proof.
  intros Hi H32 Hval ref k Hk Hs Hid Hv Hact.
  assert (1 <= Version ref <= uint32_max /\ pk_Status (rs_Key r) = StatusPending) as [Hver Hst].
  { unfold validateRotationStart in Hval. inv_ok. units. to_prop. split; [|done].
    match goal with H : ProtectedKey_Validate _ = _ |- _ => apply ProtectedKey_Validate_Ok in H as (H & _) end.
    apply KeyRef_Validate_Ok in H0 as (_ & _ & H0); [|done]. done. }
  assert (has_status db k from StatusActive) as (frow & Hfl & _) by (apply active_versions_elem; rewrite Hact; left).
  destruct (ki_row _ Hi _ _ _ Hfl) as (Hfv & _ & _).
  assert (key_versions db !! (k, Version ref) = None) as Hfree.
  { destruct (key_versions db !! (k, Version ref)) eqn:E; [|done]. apply max_version_bound in E. lia. }
  unfold start_tx, ensureNoStartedRotation, nextRotationVersions. cbv zeta. fold ref k.
  rewrite Hs, Hact, <- Hv, !uint32KeyVersion_Ok by done. unfold maxKeyVersion.
  assert (uint32_max <=? max_version db k = false) as -> by lia. cbn [check negb mbind result_bind].
  rewrite Z.eqb_refl. cbn [check mbind result_bind].
  rewrite (proj2 (insert_key_versions_Ok k (Version ref) (key_row (rs_Key r) (FormatRFC3339Nano now)) db
    (set_key_versions (<[(k, Version ref) := key_row (rs_Key r) (FormatRFC3339Nano now)]> (key_versions db)) db)));
    [|split_and!; try done; [lia | by simpl; rewrite Hst]].
  cbn [map_err mbind result_bind]. unfold insert_rotation_operations. cbv zeta. simpl. fold k.
  assert ((0 <? from) && (0 <? Version ref) = true) as -> by (apply andb_true_iff; lia).
  rewrite (proj2 (has_false _ _) Hid). change (started_rotations (set_key_versions ?t db) k) with (started_rotations db k).
  rewrite Hs, bool_decide_true by done.
  destruct Hk as [kr Hkr]. rewrite (proj2 (has_true (keyrings db) k)) by eauto.
  rewrite !(proj2 (has_true (<[_ := _]> (key_versions db)) _)); [done| |].
  - eexists. apply lookup_insert_eq.
  - exists frow. rewrite lookup_insert_ne; [done|]. intros [= E]. rewrite E in Hfree. congruence.
Qed.

Lemma started_db_status now r from to db k v s :
  let ref := pk_Ref (rs_Key r) in
  key_versions db !! (ClusterID ref, KeyID ref, to) = None ->
  has_status (started_db now r from to db) k v s <->
  (k, v) = (ClusterID ref, KeyID ref, to) /\ pk_Status (rs_Key r) = s \/ has_status db k v s.
Proof.
  intros ref Hn. unfold started_db. fold ref.
  change (has_status (set_rotation_operations ?a ?d) k v s) with (has_status d k v s).
  rewrite has_status_insert. simpl. split; [tauto|]. intros [?|Hs]; [tauto|]. right. split; [|done].
  intros [= -> ->]. destruct Hs as (row & Hl & _). simpl in Hl. congruence.
Qed.

Lemma scan_started_row id ref from to now :
  time_ok now -> 1 <= from <= uint32_max -> 1 <= to <= uint32_max ->
  scanRotationOperation id (started_row ref from to now)
  = Ok (mkRotationOperation id (ClusterID ref) (KeyID ref) from to RotationStatusStarted now now 0).
Proof.
  intros Ht Hf Hto. unfold scanRotationOperation, parse_time. simpl.
  rewrite !uint32KeyVersion_Ok, !ParseRFC3339Nano_Format by done. done.
Qed.

Lemma keys_inv_start now r from to db :
  keys_inv db -> time_ok now -> ProtectedKey_Validate (rs_Key r) = Ok tt ->
  pk_Status (rs_Key r) = StatusPending ->
  let ref := pk_Ref (rs_Key r) in
  let k := (ClusterID ref, KeyID ref) in
  nextRotationVersions db k = Ok (from, to) -> Version ref = to -> started_rotations db k = [] ->
  rotation_operations db !! rs_OperationID r = None -> is_Some (keyrings db !! k) ->
  key_versions db !! (k, to) = None -> keys_inv (started_db now r from to db).
Proof.
  intros [Ha Hb Hc Hd He] Ht Hval Hst ref k Hnext Hver Hno Hid Hkr Hfree.
  apply nextRotationVersions_Ok in Hnext as ((frow & Hfl & Hfs) & Hfr & Hto & Htor).
  assert (from < to) as Hlt by (apply max_version_bound in Hfl; lia).
  pose proof (fun k v s => started_db_status now r from to db k v s Hfree) as Hstat. fold ref in Hstat. fold k in Hstat.
  assert (forall w, has_status (started_db now r from to db) k w StatusActive <-> has_status db k w StatusActive) as Hact.
  { intros w. rewrite Hstat, Hst. split; [intros [[_ ?]|?]; done | by right]. }
  split.
  - intros k' v' row' Hl. change (<[(k, to) := key_row (rs_Key r) (FormatRFC3339Nano now)]> (key_versions db) !! (k', v') = Some row') in Hl.
    apply lookup_insert_Some in Hl as [[[= <- <-] <-]|[_ Hl]]; [|by apply Ha].
    split; [done|]. split; [|done]. rewrite <- Hver. unfold k, ref. by rewrite row_key_key_row.
  - exact Hb.
  - intros k' Hk'. destruct (Hc k' Hk') as (v & Hv & Hu). exists v. split; [apply Hstat; by right|].
    intros w Hw. apply Hu. apply Hstat in Hw as [[_ Hw]|?]; [by rewrite Hst in Hw | done].
  - intros id row Hl. change (<[rs_OperationID r := started_row ref from to now]> (rotation_operations db) !! id = Some row) in Hl.
    apply lookup_insert_Some in Hl as [[<- <-]|[_ Hl]].
    + split; [eexists; by apply scan_started_row|]. split; [done|]. right. split; [done|]. simpl. split.
      * apply Hact. by exists frow.
      * apply Hstat. by left.
    + destruct (Hd id row Hl) as (H1 & H2 & [H3|(H3 & H4 & H5)]); (split; [done|]; split; [done|]); [by left|right].
      split_and!; [done | apply Hstat; by right..].
  - intros id1 id2 r1 r2 Hl1 Hl2 Hs1 Hs2 Heq. pose proof (proj1 (started_nil db k) Hno) as Hnil.
    change (<[rs_OperationID r := started_row ref from to now]> (rotation_operations db) !! id1 = Some r1) in Hl1.
    change (<[rs_OperationID r := started_row ref from to now]> (rotation_operations db) !! id2 = Some r2) in Hl2.
    apply lookup_insert_Some in Hl1 as [[<- <-]|[_ Hl1]], Hl2 as [[<- <-]|[_ Hl2]]; try done.
    + exfalso. by apply (Hnil id2 r2 Hl2).
    + exfalso. by apply (Hnil id1 r1 Hl1).
    + by apply (He id1 id2 r1 r2).
Qed.

Lemma validateRotationStart_Ok r :
  validateRotationStart r = Ok tt ->
  ProtectedKey_Validate (rs_Key r) = Ok tt /\ pk_Status (rs_Key r) = StatusPending /\
  rs_OperationID r <> EmptyString.
Proof. unfold validateRotationStart. intros H. inv_ok. units. by to_prop. Qed.

Lemma keys_inv_StartRotation wall r db :
  keys_inv db -> time_ok (or_now wall (rs_CreatedAt r)) -> keys_inv (StartRotation wall r db).2.
Proof.
  intros Hi Ht. unfold StartRotation. destruct (validateRotationStart r) as [[]|] eqn:Ev; [|done].
  apply validateRotationStart_Ok in Ev as (Hv & Hs & _).
  apply transact_inv; [done|]. intros op db' H.
  apply start_tx_effect in H as (from & to & H1 & H2 & H3 & H4 & H5 & H6 & -> & _).
  by apply keys_inv_start.
Qed.

(** *** Activation *)

Definition activated_db (now : Time) (id : string) (rot : rotation_row) (rfrom rto : key_version_row)
  (db : DB) : DB :=
  let k := (ror_cluster_id rot, ror_key_id rot) in
  set_rotation_operations (<[id := activated_row (FormatRFC3339Nano now) rot]> (rotation_operations db))
    (set_key_versions (<[(k, ror_to_version rot) := with_row_status StatusActive rto]>
       (<[(k, ror_from_version rot) := with_row_status StatusDecryptOnly rfrom]> (key_versions db))) db).

Lemma updateKeyStatus_Ok k v from to row db :
  key_versions db !! (k, v) = Some row -> kvr_status row = from ->
  (to = StatusActive -> forall w, has_status db k w StatusActive -> w = v) ->
  updateKeyStatus k v from to db =
  Ok (set_key_versions (<[(k, v) := with_row_status to row]> (key_versions db)) db).
Proof.
  intros Hl <- Hu. unfold updateKeyStatus. rewrite Hl, String.eqb_refl. cbn [check mbind result_bind].
  destruct (String.eqb_spec to StatusActive) as [Ht|]; [|done].
  rewrite bool_decide_true; [done|]. apply list_empty_iff. intros w Hw.
  apply list_elem_of_filter in Hw as [Hne Hin]. apply Hne, Hu; [done|]. by apply active_versions_elem.
Qed.

Lemma scan_fields id row op :
  scanRotationOperation id row = Ok op ->
  ro_OperationID op = id /\ ro_ClusterID op = ror_cluster_id row /\ ro_KeyID op = ror_key_id row /\
  ro_FromVersion op = ror_from_version row /\ ro_ToVersion op = ror_to_version row /\
  ro_Status op = ror_status row.
Proof.
  unfold scanRotationOperation. intros H. inv_ok.
  repeat match goal with H : uint32KeyVersion _ = Ok _ |- _ => apply uint32KeyVersion_inv in H as [-> _] end.
  done.
Qed.

Definition activated_op (now : Time) (op : RotationOperation) : RotationOperation :=
  mkRotationOperation (ro_OperationID op) (ro_ClusterID op) (ro_KeyID op) (ro_FromVersion op)
    (ro_ToVersion op) RotationStatusActivated (ro_CreatedAt op) now now.

(** In a state with the invariant a started rotation can always be activated. *)
Lemma activate_tx_started now id rot db :
  keys_inv db -> rotation_operations db !! id = Some rot -> ror_status rot = RotationStatusStarted ->
  let k := (ror_cluster_id rot, ror_key_id rot) in
  exists op rfrom rto,
    scanRotationOperation id rot = Ok op /\
    key_versions db !! (k, ror_from_version rot) = Some rfrom /\ kvr_status rfrom = StatusActive /\
    key_versions db !! (k, ror_to_version rot) = Some rto /\ kvr_status rto = StatusPending /\
    activate_tx now id db = Ok (activated_op now op, activated_db now id rot rfrom rto db).
Proof.
  intros Hi Hl Hs k. destruct (ki_rotation _ Hi id rot Hl) as ((op & Hop) & Hlt & [Hx|(_ & Hf & Ht)]); [by rewrite Hs in Hx|].
  fold k in Hf, Ht. pose proof Hf as (rfrom & Hfl & Hfs). pose proof Ht as (rto & Htl & Hts).
  exists op, rfrom, rto. split_and!; try done.
  pose proof (scan_fields _ _ _ Hop) as (E1 & E2 & E3 & E4 & E5 & E6).
  unfold activate_tx, queryRotationOperation. rewrite Hl. cbn [of_option mbind result_bind]. rewrite Hop.
  cbn [mbind result_bind]. unfold activated_op. rewrite E2, E3, E4, E5, E6, Hs. cbn -[updateKeyStatus has_status]. fold k.
  rewrite (updateKeyStatus_Ok k _ _ _ rfrom db Hfl Hfs) by done. cbn [mbind result_bind].
  rewrite (updateKeyStatus_Ok k _ _ _ rto); [|simpl; rewrite lookup_insert_ne by (intros [=]; lia); done|done|].
  - cbn [mbind result_bind]. do 2 f_equal. unfold activated_db. simpl. f_equal.
    apply map_eq. intros j. destruct (decide (j = id)) as [->|Hj].
    + by rewrite lookup_alter_eq, lookup_insert_eq, Hl.
    + by rewrite lookup_alter_ne, lookup_insert_ne.
  - intros _ w Hw. apply has_status_insert in Hw as [[_ ?]|[Hne Hw]]; [done|]. exfalso. apply Hne. f_equal.
    destruct (ki_active _ Hi k) as (v & Hv & Hu).
    { destruct (ki_row _ Hi _ _ _ Hfl) as (_ & _ & ?). done. }
    rewrite (Hu w Hw). symmetry. by apply Hu.
Qed.

Lemma activated_db_status now id rot rfrom rto db k v s :
  let rk := (ror_cluster_id rot, ror_key_id rot) in
  ror_from_version rot < ror_to_version rot ->
  has_status (activated_db now id rot rfrom rto db) k v s <->
  (k = rk /\ v = ror_to_version rot /\ s = StatusActive) \/
  (k = rk /\ v = ror_from_version rot /\ s = StatusDecryptOnly) \/
  (~ (k = rk /\ (v = ror_to_version rot \/ v = ror_from_version rot)) /\ has_status db k v s).
Proof.
  intros rk Hlt. unfold activated_db. fold rk.
  change (has_status (set_rotation_operations ?a ?d) k v s) with (has_status d k v s).
  unfold has_status. simpl. split.
  - intros (r & Hl & Hs). apply lookup_insert_Some in Hl as [[[= <- <-] <-]|[Hne Hl]]; [by left|].
    apply lookup_insert_Some in Hl as [[[= <- <-] <-]|[Hne' Hl]]; [right; left; done|].
    right; right. split; [|eauto]. intros [-> [-> | ->]]; done.
  - intros [(-> & -> & ->)|[(-> & -> & ->)|[Hne (r & Hl & Hs)]]].
    + eexists. rewrite lookup_insert_eq. done.
    + eexists. rewrite lookup_insert_ne by (intros [=]; lia). rewrite lookup_insert_eq. done.
    + exists r. rewrite !lookup_insert_ne; [done| |]; intros [= -> <-]; apply Hne; auto.
Qed.

Lemma scan_activated_row now id rot op :
  time_ok now -> scanRotationOperation id rot = Ok op ->
  scanRotationOperation id (activated_row (FormatRFC3339Nano now) rot) = Ok (activated_op now op).
Proof.
  unfold scanRotationOperation. intros Ht H.
  apply bind_Ok in H as (f & Hf & H). apply bind_Ok in H as (t & Hto & H).
  apply bind_Ok in H as (c & Hc & H). apply bind_Ok in H as (u & _ & H). apply bind_Ok in H as (a & _ & H).
  inv_ok. simpl. rewrite Hf, Hto. cbn [mbind result_bind]. rewrite Hc. cbn [mbind result_bind].
  unfold parse_time. rewrite ParseRFC3339Nano_Format by done. done.
Qed.

Lemma keys_inv_activated now id rot rfrom rto op db :
  keys_inv db -> time_ok now -> rotation_operations db !! id = Some rot ->
  ror_status rot = RotationStatusStarted -> scanRotationOperation id rot = Ok op ->
  let k := (ror_cluster_id rot, ror_key_id rot) in
  key_versions db !! (k, ror_from_version rot) = Some rfrom -> kvr_status rfrom = StatusActive ->
  key_versions db !! (k, ror_to_version rot) = Some rto ->
  keys_inv (activated_db now id rot rfrom rto db).
Proof.
  intros Hi Ht Hl Hs Hop k Hf Hfs Hto. destruct (ki_rotation _ Hi id rot Hl) as (_ & Hlt & _).
  pose proof (fun k v s => activated_db_status now id rot rfrom rto db k v s Hlt) as Hstat. fold k in Hstat.
  destruct Hi as [Ha Hb Hc Hd He]. split.
  - intros k' v' row' Hk. unfold activated_db in Hk. simpl in Hk. fold k in Hk.
    apply lookup_insert_Some in Hk as [[[= <- <-] <-]|[_ Hk]].
    { destruct (Ha _ _ _ Hto) as (? & ? & ?). split; [done|]. split; [by apply validate_with_status | done]. }
    apply lookup_insert_Some in Hk as [[[= <- <-] <-]|[_ Hk]]; [|by apply Ha].
    destruct (Ha _ _ _ Hf) as (? & ? & ?). split; [done|]. split; [by apply validate_with_status | done].
  - exact Hb.
  - intros k' Hk'. destruct (Hc k' Hk') as (v & Hv & Hu). destruct (decide (k' = k)) as [->|Hne].
    + exists (ror_to_version rot). split; [apply Hstat; by left|].
      intros w Hw. apply Hstat in Hw as [(_ & -> & _)|[(_ & _ & ?)|[Hn Hw]]]; [done..|].
      exfalso. apply Hn. split; [done|]. right. rewrite (Hu w Hw). symmetry. apply Hu. by exists rfrom.
    + exists v. split; [apply Hstat; right; right; split; [tauto | done]|].
      intros w Hw. apply Hu. by apply Hstat in Hw as [(-> & _)|[(-> & _)|[_ Hw]]].
  - intros id' row' Hk. change (<[id := activated_row (FormatRFC3339Nano now) rot]> (rotation_operations db) !! id' = Some row') in Hk.
    apply lookup_insert_Some in Hk as [[<- <-]|[Hne Hk]].
    + split; [eexists; by apply scan_activated_row|]. split; [done | by left].
    + destruct (Hd id' row' Hk) as (H1 & H2 & [H3|(H3 & H4 & H5)]); (split; [done|]; split; [done|]); [by left|right].
      assert ((ror_cluster_id row', ror_key_id row') <> k) as Hother.
      { intros Heq. apply Hne. symmetry. by apply (He id' id row' rot). }
      split_and!; [done | apply Hstat; right; right; split; [tauto | done]..].
  - intros id1 id2 r1 r2 Hl1 Hl2 Hs1 Hs2 Heq.
    change (<[id := activated_row (FormatRFC3339Nano now) rot]> (rotation_operations db) !! id1 = Some r1) in Hl1.
    change (<[id := activated_row (FormatRFC3339Nano now) rot]> (rotation_operations db) !! id2 = Some r2) in Hl2.
    apply lookup_insert_Some in Hl1 as [[<- <-]|[_ Hl1]], Hl2 as [[<- <-]|[_ Hl2]]; try done.
    by apply (He id1 id2 r1 r2).
Qed.

(** An operation that was activated is returned again and nothing changes. *)
Lemma activate_tx_activated now id rot db :
  keys_inv db -> rotation_operations db !! id = Some rot -> ror_status rot = RotationStatusActivated ->
  exists op, scanRotationOperation id rot = Ok op /\ activate_tx now id db = Ok (op, db).
Proof.
  intros Hi Hl Hs. destruct (ki_rotation _ Hi id rot Hl) as ((op & Hop) & _ & _). exists op. split; [done|].
  pose proof (scan_fields _ _ _ Hop) as (_ & _ & _ & _ & _ & E6).
  unfold activate_tx, queryRotationOperation. rewrite Hl. cbn [of_option mbind result_bind]. rewrite Hop.
  cbn [mbind result_bind]. by rewrite E6, Hs.
Qed.

Lemma activate_tx_absent now id db :
  rotation_operations db !! id = None -> activate_tx now id db = Err ErrRotationNotFound.
Proof. intros Hl. unfold activate_tx, queryRotationOperation. by rewrite Hl. Qed.

Lemma keys_inv_ActivateRotation wall id now db :
  keys_inv db -> time_ok (or_now wall now) -> keys_inv (ActivateRotation wall id now db).2.
Proof.
  intros Hi Ht. unfold ActivateRotation. apply transact_inv; [done|]. intros op db' H.
  destruct (rotation_operations db !! id) as [rot|] eqn:Hl; [|by rewrite activate_tx_absent in H].
  destruct (ki_rotation _ Hi id rot Hl) as (_ & _ & [Hs|(Hs & _)]).
  - destruct (activate_tx_activated (or_now wall now) id rot db Hi Hl Hs) as (? & _ & E). rewrite E in H. by inv_ok.
  - destruct (activate_tx_started (or_now wall now) id rot db Hi Hl Hs) as (op' & rf & rt & H1 & H2 & H3 & H4 & _ & E).
    rewrite E in H. injection H as <- <-. by eapply keys_inv_activated.
Qed.
