(* ===== verification/StoreOps.v ===== *)
(** * Runs of the store

    Every method of [SQLiteStore] that writes, as one step of a state machine;
    the states that can be reached; the invariant of the reachable states; and
    what no run can undo: a revoked subject stays revoked, a consumed challenge or
    grant stays consumed, and a key version is never lost nor changed, its status
    moving only from pending to active to decrypt-only. *)

From S2P Require Import Prelude GoStrings GoTime Keyring KeyProtection Tpm NodeEvidence Config.
From S2P Require Import Sql Store Challenges SqlNodeEvidence StoreInv.
Local Open Scope Z_scope.

(** ** Steps *)

Inductive store_op :=
| OBootstrapKeyring (r : BootstrapKeyringRequest)
| OConfigureDevelopment (wall : Time) (c : Config) (key : ProtectedKey)
| OInsertSubject (cluster subject : string) (now : Time)
| ORevokeSubject (wall : Time) (cluster subject : string)
| OInsertRecoveryPackage (r : RecoveryPackageRecord)
| OInsertEnrollmentRequest (r : EnrollmentRequestRecord)
| OInsertEnrollmentGrant (r : EnrollmentGrantRecord)
| OConsumeEnrollmentGrant (id : string) (now : Time)
| OStartRotation (wall : Time) (r : RotationStartRequest)
| OActivateRotation (wall : Time) (id : string) (now : Time)
| ORecordRotationVerification (wall : Time) (id name detail : string) (now : Time)
| OInsertAuditEvent (e : AuditEvent)
| OCreateChallenge (ch : Challenge)
| OConsumeChallenge (id cluster subject : string) (operation : Operation) (now : Time)
| OEnrollNodeEvidence (r : EnrollmentRequest)
| ORevokeNodeEvidence (cluster node : string) (now : Time)
| OPutEnrolledNodeEvidence (wall : Time) (e : NodeEvidence) (revision : Z)
| OPutNodeEvidence (wall : Time) (e : NodeEvidence)
| OPruneNodeEvidence (wall : Time) (cluster : string) (expiredBefore : Time).

Definition store_step (o : store_op) (db : DB) : DB :=
  match o with
  | OBootstrapKeyring r => (BootstrapKeyring r db).2
  | OConfigureDevelopment wall c key => (ConfigureDevelopment wall c key db).2
  | OInsertSubject c s now => (InsertSubject c s now db).2
  | ORevokeSubject wall c s => (RevokeSubject wall c s db).2
  | OInsertRecoveryPackage r => (InsertRecoveryPackage r db).2
  | OInsertEnrollmentRequest r => (InsertEnrollmentRequest r db).2
  | OInsertEnrollmentGrant r => (InsertEnrollmentGrant r db).2
  | OConsumeEnrollmentGrant id now => (ConsumeEnrollmentGrant id now db).2
  | OStartRotation wall r => (StartRotation wall r db).2
  | OActivateRotation wall id now => (ActivateRotation wall id now db).2
  | ORecordRotationVerification wall id name detail now =>
      (RecordRotationVerification wall id name detail now db).2
  | OInsertAuditEvent e => (InsertAuditEvent e db).2
  | OCreateChallenge ch => (sql_CreateChallenge db ch).2
  | OConsumeChallenge id c s op now => (sql_ConsumeChallenge db id c s op now).2
  | OEnrollNodeEvidence r => (sql_EnrollNodeEvidence db r).2
  | ORevokeNodeEvidence c n now => (sql_RevokeNodeEvidence db c n now).2
  | OPutEnrolledNodeEvidence wall e rev => (sql_PutEnrolledNodeEvidence wall db e rev).2
  | OPutNodeEvidence wall e => (sql_PutNodeEvidence wall e db).2
  | OPruneNodeEvidence wall c t => (sql_PruneNodeEvidence wall c t db).2
  end.

(** What the callers' types guarantee: times in the years 1 to 9999, 32-bit enums. *)
Definition op_typed (o : store_op) : Prop :=
  match o with
  | OStartRotation wall r => time_ok (or_now wall (rs_CreatedAt r))
  | OActivateRotation wall _ now => time_ok (or_now wall now)
  | OCreateChallenge ch => challenge_typed ch
  | OConsumeChallenge _ _ _ op _ => int32 op
  | OEnrollNodeEvidence r => time_ok (er_EnrolledAt r)
  | ORevokeNodeEvidence _ _ now => time_ok now
  | _ => True
  end.

Inductive reachable : DB -> Prop :=
| reach_empty : reachable empty_db
| reach_step o db : reachable db -> op_typed o -> reachable (store_step o db).

Definition run (ops : list store_op) (db : DB) : DB := foldl (fun db o => store_step o db) db ops.

(** ** Frames: which tables an operation leaves alone *)

Lemma exec_frame {T} (view : DB -> T) what f db :
  (forall db', f db = Ok db' -> view db' = view db) -> view (exec what f db).2 = view db.
Proof. intros Hf. by apply (exec_inv (fun d => view d = view db)). Qed.

Lemma transact_frame {T A} (view : DB -> T) (f : DB -> result (A * DB)) db :
  (forall a db', f db = Ok (a, db') -> view db' = view db) -> view (transact f db).2 = view db.
Proof. intros Hf. by apply (transact_inv (fun d => view d = view db)). Qed.

Definition key_view (db : DB) := (clusters db, keyrings db, key_versions db, rotation_operations db).
Definition node_view (db : DB) := (node_evidence_enrollments db, node_evidence db).

Lemma key_view_same a b : key_view a = key_view b -> same_key_tables a b.
Proof. by intros [= ? ? ? ?]. Qed.

Lemma insert_publishers_only k now hs db db' :
  foldR (insert_publisher k now) db hs = Ok db' ->
  db' = set_node_evidence_publishers (node_evidence_publishers db') db.
Proof.
  revert db; induction hs as [|h hs IH]; intros db H; cbn [foldR] in H; [inv_ok; by destruct db'|].
  apply bind_Ok in H as (db1 & H1 & H). apply IH in H. unfold insert_publisher in H1. inv_ok.
  rewrite H. by destruct db.
Qed.

Lemma seed_subjects_only c now ss db db' :
  foldR (seed_subject c now) db ss = Ok db' -> db' = set_subjects (subjects db') db.
Proof.
  revert db; induction ss as [|s ss IH]; intros db H; cbn [foldR] in H; [inv_ok; by destruct db'|].
  apply bind_Ok in H as (db1 & H1 & H). unfold seed_subject in H1. inv_ok.
  apply IH in H. unfold insert_or_ignore_subjects in H1. case_hyp H1; inv_ok; rewrite H; first [done | by destruct db].
Qed.

Lemma prune_fold_only cluster nodes n db :
  (foldl (prune_step cluster) (n, db) nodes).2 =
  set_node_evidence (node_evidence (foldl (prune_step cluster) (n, db) nodes).2) db.
Proof.
  revert n db; induction nodes as [|m ms IH]; intros n db; simpl; [by destruct db|].
  rewrite IH. by destruct db.
Qed.

(** An operation on node evidence changes only the node-evidence tables. *)
Definition other_than_nodes (db : DB) :=
  (key_view db, challenges db, subjects db, enrollment_grants db).

Lemma node_ops_frame db :
  (forall r, other_than_nodes (sql_EnrollNodeEvidence db r).2 = other_than_nodes db) /\
  (forall c n t, other_than_nodes (sql_RevokeNodeEvidence db c n t).2 = other_than_nodes db) /\
  (forall w e rev, other_than_nodes (sql_PutEnrolledNodeEvidence w db e rev).2 = other_than_nodes db) /\
  (forall w e, other_than_nodes (sql_PutNodeEvidence w e db).2 = other_than_nodes db) /\
  (forall w c t, other_than_nodes (sql_PruneNodeEvidence w c t db).2 = other_than_nodes db).
Proof.
  split_and!; intros.
  - unfold sql_EnrollNodeEvidence, transact. destruct (NormalizeEnrollmentRequest r) as [n|]; [|done].
    destruct (enroll_tx n db) as [[rev db']|] eqn:E; [|done]. simpl. unfold enroll_tx in E. inv_ok.
    match goal with H : foldR _ _ _ = Ok _ |- _ => apply insert_publishers_only in H; rewrite H end.
    unfold upsert_enrollment in *. inv_ok. done.
  - unfold sql_RevokeNodeEvidence, transact. case_goal; [done|].
    destruct (revoke_tx _ t db) as [[e db']|] eqn:E; [|done]. simpl. unfold revoke_tx in E. inv_ok.
    by destruct (enr_revoked_at _).
  - unfold sql_PutEnrolledNodeEvidence. destruct (Normalize e) as [n|]; [|done]. case_goal; [done|].
    apply transact_frame. intros [] db' H. unfold put_enrolled_tx, upsertNodeEvidence in H. by inv_ok.
  - unfold sql_PutNodeEvidence, upsertNodeEvidence. destruct (Normalize e) as [n|]; [|done].
    case_goal; [done|]. by destruct (has (clusters db) (ne_ClusterID n)).
  - apply transact_frame. intros m db' H. unfold prune_tx in H. inv_ok.
    match goal with H : foldl _ _ ?x = _ |- _ => pose proof (prune_fold_only (TrimSpace c) x 0 db) as Hp; rewrite H in Hp end.
    simpl in Hp. by rewrite Hp.
Qed.

(** An operation on keys changes only the key tables, and [ConfigureDevelopment]
    the subjects. *)
Definition other_than_keys (db : DB) := (node_view db, challenges db, enrollment_grants db).

Lemma insert_clusters_only id row db db' :
  insert_or_ignore_clusters id row db = Ok db' -> db' = set_clusters (clusters db') db.
Proof.
  unfold insert_or_ignore_clusters, insert_clusters. intros H. case_hyp H; inv_ok; [by destruct db' | done].
Qed.

Lemma insert_keyrings_only k row db db' :
  insert_or_ignore_keyrings k row db = Ok db' -> db' = set_keyrings (keyrings db') db.
Proof.
  unfold insert_or_ignore_keyrings, insert_keyrings. intros H. case_hyp H; inv_ok; [by destruct db' | done].
Qed.

Lemma insert_key_versions_only k row db db' :
  insert_or_ignore_key_versions k row db = Ok db' -> db' = set_key_versions (key_versions db') db.
Proof.
  unfold insert_or_ignore_key_versions, insert_key_versions. intros H.
  case_hyp H; inv_ok; [by destruct db' | done].
Qed.

Lemma insert_policies_only k row db db' :
  insert_or_ignore_policies k row db = Ok db' -> db' = set_policies (policies db') db.
Proof.
  unfold insert_or_ignore_policies, insert_policies. intros H. case_hyp H; inv_ok; [by destruct db' | done].
Qed.

(** The effect of seeding the development database, table by table. *)
Lemma configure_tx_effect c key now db db' :
  configure_tx c key now db = Ok (tt, db') ->
  exists kv db5, insert_or_ignore_key_versions (c_ClusterID c, c_KeyID c, Version (pk_Ref key))
      (key_row key now) kv = Ok db5 /\
    key_versions kv = key_versions db /\ key_versions db' = key_versions db5 /\
    rotation_operations db' = rotation_operations db /\
    other_than_keys db' = other_than_keys db /\
    exists db6, subjects db6 = subjects db /\ foldR (seed_subject c now) db6 (DevelopmentSubjects c) = Ok db'.
Proof.
  unfold configure_tx. intros H.
  apply bind_Ok in H as (db1 & H1 & H). apply bind_Ok in H as (db2 & H2 & H).
  apply bind_Ok in H as (db3 & H3 & H). apply bind_Ok in H as (db4 & H4 & H).
  apply bind_Ok in H as (db5 & H5 & H). inv_ok.
  exists db2, db3. split; [done|].
  apply insert_clusters_only in H1. apply insert_keyrings_only in H2.
  apply insert_key_versions_only in H3. apply insert_policies_only in H4.
  pose proof (seed_subjects_only _ _ _ _ _ H5) as H6.
  split; [by rewrite H2, H1|]. split; [by rewrite H6, H4|]. split; [by rewrite H6, H4, H3, H2, H1|].
  split; [by rewrite H6, H4, H3, H2, H1|]. exists db4. split; [by rewrite H4, H3, H2, H1 | done].
Qed.

Lemma bootstrap_tx_frame r db db' :
  bootstrap_tx r db = Ok (tt, db') ->
  other_than_keys db' = other_than_keys db /\ subjects db' = subjects db /\
  rotation_operations db' = rotation_operations db /\
  (forall k row, key_versions db !! k = Some row -> key_versions db' !! k = Some row).
Proof.
  unfold bootstrap_tx. cbv zeta. intros H.
  apply bind_Ok in H as (db1 & H1 & H). apply bind_Ok in H as (db2 & H2 & H).
  apply bind_Ok in H as (db3 & H3 & H). apply bind_Ok in H as (db4 & H4 & H).
  apply bind_Ok in H as (db5 & H5 & H). inv_ok.
  apply insert_key_versions_Ok in H3 as (_ & Hfree & _ & _ & ->).
  assert (other_than_keys db' = other_than_keys db4 /\ subjects db' = subjects db4 /\
          key_versions db' = key_versions db4 /\
          rotation_operations db' = rotation_operations db4) as (E1 & E2 & E3 & E4).
  { case_hyp H5; inv_ok; [done|]. unfold insert_recovery_packages in H5. by inv_ok. }
  unfold insert_policies in H4. unfold insert_keyrings in H2. unfold insert_clusters in H1. inv_ok.
  rewrite E1, E2, E3, E4. split_and!; [done..|]. intros k row Hl. simpl in *.
  rewrite lookup_insert_ne; [done|]. intros <-. congruence.
Qed.

Lemma updateKeyStatus_only k v from to db db' :
  updateKeyStatus k v from to db = Ok db' -> db' = set_key_versions (key_versions db') db.
Proof. unfold updateKeyStatus. intros H. case_hyp H; by inv_ok. Qed.

Lemma key_ops_frame db :
  (forall r, other_than_keys (BootstrapKeyring r db).2 = other_than_keys db /\
             subjects (BootstrapKeyring r db).2 = subjects db) /\
  (forall w c key, other_than_keys (ConfigureDevelopment w c key db).2 = other_than_keys db) /\
  (forall w r, other_than_keys (StartRotation w r db).2 = other_than_keys db /\
               subjects (StartRotation w r db).2 = subjects db) /\
  (forall w id t, other_than_keys (ActivateRotation w id t db).2 = other_than_keys db /\
                  subjects (ActivateRotation w id t db).2 = subjects db).
Proof.
  split_and!; intros.
  - unfold BootstrapKeyring. case_goal; [|done]. case_goal; [done|].
    apply (transact_inv (fun d => other_than_keys d = other_than_keys db /\ subjects d = subjects db)); [done|]. intros [] db' H.
    by apply bootstrap_tx_frame in H as (? & ? & _).
  - unfold ConfigureDevelopment. case_goal; [|done]. apply transact_frame. intros [] db' H.
    by apply configure_tx_effect in H as (? & ? & _ & _ & _ & _ & ? & _).
  - unfold StartRotation. case_goal; [|done]. apply (transact_inv (fun d => other_than_keys d = other_than_keys db /\ subjects d = subjects db)); [done|].
    intros op db' H. by apply start_tx_effect in H as (? & ? & _ & _ & _ & _ & _ & _ & -> & _).
  - apply (transact_inv (fun d => other_than_keys d = other_than_keys db /\ subjects d = subjects db)); [done|]. intros op db' H.
    unfold activate_tx in H. apply bind_Ok in H as (o & _ & H). case_hyp H; [by inv_ok|].
    case_hyp H; [|done]. apply bind_Ok in H as (d1 & H1 & H). apply bind_Ok in H as (d2 & H2 & H).
    inv_ok. apply updateKeyStatus_only in H1, H2. by rewrite H2, H1.
Qed.

(** ** The invariant of the reachable states *)

Record store_inv (db : DB) : Prop := {
  si_keys : keys_inv db;
  si_nodes : node_inv db;
  si_challenges : challenges_ok db;
}.

Lemma node_inv_view a b : node_view a = node_view b -> node_inv a -> node_inv b.
Proof. intros [= H1 H2]. by apply node_inv_Proper. Qed.

Lemma store_inv_other_keys a b :
  store_inv a -> other_than_keys b = other_than_keys a -> keys_inv b -> store_inv b.
Proof.
  intros [_ Hn Hc] [= H1 H2 H3 H4] Hk. split; [done| |].
  - eapply node_inv_view; [|done]. unfold node_view. congruence.
  - unfold challenges_ok. by rewrite H3.
Qed.

Lemma store_inv_other_nodes a b :
  store_inv a -> other_than_nodes b = other_than_nodes a -> node_inv b -> store_inv b.
Proof.
  intros [Hk _ Hc] [= H1 H2 H3 H4 H5 H6 H7] Hn. split; [|done|].
  - eapply keys_inv_transfer; [|exact Hk]. unfold same_key_tables; split_and!; congruence.
  - unfold challenges_ok. by rewrite H5.
Qed.

(** The views of the invariant. *)
Definition inv_view (db : DB) := (key_view db, node_view db, challenges db).

Lemma store_inv_view a b : inv_view b = inv_view a -> store_inv a -> store_inv b.
Proof.
  intros [= H1 H2 H3 H4 H5 H6 H7] [Hk Hn Hc]. split.
  - eapply keys_inv_transfer; [|exact Hk]. unfold same_key_tables; split_and!; congruence.
  - eapply node_inv_view; [|done]. unfold node_view. congruence.
  - unfold challenges_ok. by rewrite H7.
Qed.

(** The operations that touch neither keys, nodes nor challenges. *)
Lemma plain_ops_frame db :
  (forall c s t, inv_view (InsertSubject c s t db).2 = inv_view db) /\
  (forall w c s, inv_view (RevokeSubject w c s db).2 = inv_view db) /\
  (forall r, inv_view (InsertRecoveryPackage r db).2 = inv_view db) /\
  (forall r, inv_view (InsertEnrollmentRequest r db).2 = inv_view db) /\
  (forall r, inv_view (InsertEnrollmentGrant r db).2 = inv_view db) /\
  (forall id t, inv_view (ConsumeEnrollmentGrant id t db).2 = inv_view db) /\
  (forall w id n d t, inv_view (RecordRotationVerification w id n d t db).2 = inv_view db) /\
  (forall e, inv_view (InsertAuditEvent e db).2 = inv_view db).
Proof.
  split_and!; intros.
  - apply exec_frame. intros db' H. unfold insert_or_ignore_subjects in H. case_hyp H; by inv_ok.
  - unfold RevokeSubject. by case_goal.
  - apply exec_frame. intros db' H. unfold insert_or_ignore_recovery_packages, insert_recovery_packages in H.
    case_hyp H; by inv_ok.
  - apply exec_frame. intros db' H. unfold insert_or_replace_enrollment_requests in H. by inv_ok.
  - apply exec_frame. intros db' H. unfold insert_enrollment_grants in H. by inv_ok.
  - unfold ConsumeEnrollmentGrant. by repeat case_goal.
  - unfold RecordRotationVerification. case_goal; [|done]. apply transact_frame. intros v db' H. by inv_ok.
  - apply exec_frame. intros db' H. unfold insert_audit_events in H. by inv_ok.
Qed.

Lemma node_inv_prune_any wall cluster t db : node_inv db -> node_inv (sql_PruneNodeEvidence wall cluster t db).2.
Proof.
  intros Hi. unfold sql_PruneNodeEvidence. apply transact_inv; [done|]. intros m db' H. unfold prune_tx in H.
  apply bind_Ok in H as (nodes & _ & H). injection H as H. change db' with (m, db').2. rewrite <- H.
  clear H m db'. generalize 0. revert db Hi.
  induction nodes as [|n ns IH]; intros db Hi z; simpl; [done|]. by apply IH, node_inv_delete_evidence.
Qed.

(** An operation on challenges changes only their table. *)
Lemma challenge_ops_frame db :
  (forall ch, (sql_CreateChallenge db ch).2 = set_challenges (challenges (sql_CreateChallenge db ch).2) db) /\
  (forall id c s op t, (sql_ConsumeChallenge db id c s op t).2
     = set_challenges (challenges (sql_ConsumeChallenge db id c s op t).2) db).
Proof.
  split; intros.
  - apply (exec_inv (fun d => d = set_challenges (challenges d) db)); [by destruct db|].
    intros db' H. unfold insert_challenges in H. by inv_ok.
  - apply (transact_inv (fun d => d = set_challenges (challenges d) db)); [by destruct db|].
    intros [] db' H. unfold consume_tx in H. by inv_ok.
Qed.

Lemma store_inv_set_challenges db t :
  store_inv db -> challenges_ok (set_challenges t db) -> store_inv (set_challenges t db).
Proof.
  intros [Hk Hn _] Hc. split; [|eapply node_inv_view; [|exact Hn]; done|done].
  by eapply keys_inv_transfer; [|exact Hk].
Qed.

Lemma store_inv_empty : store_inv empty_db.
Proof.
  split; [apply keys_inv_empty| |].
  - split; intros k row Hl; simpl in Hl; by rewrite lookup_empty in Hl.
  - intros k row Hl. simpl in Hl. by rewrite lookup_empty in Hl.
Qed.

Lemma store_inv_step o db : store_inv db -> op_typed o -> store_inv (store_step o db).
Proof.
  intros Hi Ht. destruct (key_ops_frame db) as (K1 & K2 & K3 & K4).
  destruct (node_ops_frame db) as (N1 & N2 & N3 & N4 & N5).
  destruct (plain_ops_frame db) as (P1 & P2 & P3 & P4 & P5 & P6 & P7 & P8).
  destruct (challenge_ops_frame db) as (C1 & C2).
  pose proof (si_keys _ Hi) as Hk. pose proof (si_nodes _ Hi) as Hn. pose proof (si_challenges _ Hi) as Hc.
  destruct o; simpl in Ht |- *; try (by eapply store_inv_view; [|exact Hi]).
  - eapply store_inv_other_keys; [done | apply K1 | by apply keys_inv_BootstrapKeyring].
  - eapply store_inv_other_keys; [done | apply K2 | by apply keys_inv_ConfigureDevelopment].
  - eapply store_inv_other_keys; [done | apply K3 | by apply keys_inv_StartRotation].
  - eapply store_inv_other_keys; [done | apply K4 | by apply keys_inv_ActivateRotation].
  - rewrite C1. apply store_inv_set_challenges; [done|]. rewrite <- C1.
    destruct (sql_CreateChallenge db ch) as [r db'] eqn:E. by apply (@cs_create DB _ SQLite_Spec) in E as [? _].
  - rewrite C2. apply store_inv_set_challenges; [done|]. rewrite <- C2.
    destruct (sql_ConsumeChallenge db id cluster subject operation now) as [r db'] eqn:E.
    by apply (@cs_consume DB _ SQLite_Spec) in E as [? _].
  - eapply store_inv_other_nodes; [done | apply N1 | by apply node_inv_enroll].
  - eapply store_inv_other_nodes; [done | apply N2 | by apply node_inv_revoke].
  - eapply store_inv_other_nodes; [done | apply N3 | by apply node_inv_put_enrolled].
  - eapply store_inv_other_nodes; [done | apply N4 | by apply node_inv_put].
  - eapply store_inv_other_nodes; [done | apply N5 | by apply node_inv_prune_any].
Qed.

Lemma reachable_inv db : reachable db -> store_inv db.
Proof. induction 1; [apply store_inv_empty | by apply store_inv_step]. Qed.

(** ** What no run undoes *)

Definition status_le (s s' : Status) : Prop :=
  s' = s \/ (s = StatusPending /\ (s' = StatusActive \/ s' = StatusDecryptOnly)) \/
  (s = StatusActive /\ s' = StatusDecryptOnly).

(** A rotation keeps its keyring and its two versions. *)
Definition same_rotation (a b : rotation_row) : Prop :=
  ror_cluster_id b = ror_cluster_id a /\ ror_key_id b = ror_key_id a /\
  ror_from_version b = ror_from_version a /\ ror_to_version b = ror_to_version a.

Record store_le (a b : DB) : Prop := {
  le_keys k row : key_versions a !! k = Some row ->
    exists s, key_versions b !! k = Some (with_row_status s row) /\ status_le (kvr_status row) s;
  le_subjects k row : subjects a !! k = Some row -> sur_revoked row <> 0 ->
    exists row', subjects b !! k = Some row' /\ sur_revoked row' <> 0;
  le_challenges id row : challenges a !! id = Some row -> chr_consumed_at row <> None ->
    challenges b !! id = Some row;
  le_grants id row : enrollment_grants a !! id = Some row -> egr_consumed_at row <> None ->
    enrollment_grants b !! id = Some row;
  le_rotations id row : rotation_operations a !! id = Some row ->
    exists row', rotation_operations b !! id = Some row' /\ same_rotation row row';
}.

Lemma status_le_trans s1 s2 s3 : status_le s1 s2 -> status_le s2 s3 -> status_le s1 s3.
Proof. unfold status_le. intuition (subst; auto; discriminate). Qed.

Lemma with_same_status row : with_row_status (kvr_status row) row = row.
Proof. by destruct row. Qed.

Global Instance store_le_PreOrder : PreOrder store_le.
Proof.
  split.
  - intros a. split; eauto.
    + intros k row Hl. exists (kvr_status row). rewrite with_same_status. split; [done | by left].
    + intros id row Hl. by exists row.
  - intros a b c [A1 A2 A3 A4 A5] [B1 B2 B3 B4 B5]. split; eauto.
    + intros k row Hl. destruct (A1 k row Hl) as (s & Hs & Hle). destruct (B1 k _ Hs) as (s' & Hs' & Hle').
      exists s'. split; [exact Hs'|]. by eapply status_le_trans.
    + intros k row Hl Hr. destruct (A2 k row Hl Hr) as (r & Hl' & Hr'). eauto.
    + intros id row Hl. destruct (A5 id row Hl) as (r & Hl' & E1 & E2 & E3 & E4).
      destruct (B5 id r Hl') as (r' & Hr' & F1 & F2 & F3 & F4). exists r'. split; [done|].
      split_and!; congruence.
Qed.

Definition rotations_kept (a b : DB) : Prop :=
  forall id row, rotation_operations a !! id = Some row ->
    exists row', rotation_operations b !! id = Some row' /\ same_rotation row row'.

Lemma rotations_same a b : rotation_operations b = rotation_operations a -> rotations_kept a b.
Proof. intros H id row Hl. exists row. by rewrite H. Qed.
#[export] Hint Resolve rotations_same : unseal.

(** The views of the order. *)
Lemma store_le_views a b :
  (forall k row, key_versions a !! k = Some row ->
    exists s, key_versions b !! k = Some (with_row_status s row) /\ status_le (kvr_status row) s) ->
  subjects b = subjects a -> other_than_keys b = other_than_keys a -> rotations_kept a b -> store_le a b.
Proof.
  intros Hk Hs [= _ _ Hc Hg] Hr. split; rewrite ?Hs, ?Hc, ?Hg; eauto.
Qed.

Lemma keys_kept a b :
  (forall k row, key_versions a !! k = Some row -> key_versions b !! k = Some row) ->
  forall k row, key_versions a !! k = Some row ->
    exists s, key_versions b !! k = Some (with_row_status s row) /\ status_le (kvr_status row) s.
Proof. intros H k row Hl. exists (kvr_status row). rewrite with_same_status. split; [auto | by left]. Qed.

Lemma store_le_rest a b :
  key_versions b = key_versions a -> challenges b = challenges a ->
  enrollment_grants b = enrollment_grants a ->
  (forall k row, subjects a !! k = Some row -> sur_revoked row <> 0 ->
    exists row', subjects b !! k = Some row' /\ sur_revoked row' <> 0) ->
  rotation_operations b = rotation_operations a -> store_le a b.
Proof.
  intros Hk Hc Hg Hs Hr. split; rewrite ?Hc, ?Hg; eauto; [|by apply rotations_same].
  apply keys_kept. by rewrite Hk.
Qed.

Lemma insert_subjects_mono k row db db' :
  insert_or_ignore_subjects k row db = Ok db' ->
  forall j r, subjects db !! j = Some r -> subjects db' !! j = Some r.
Proof.
  unfold insert_or_ignore_subjects. intros H j r Hl. case_hyp H; inv_ok; [done|]. simpl.
  match goal with H : has (subjects _) _ = false |- _ => apply has_false in H end.
  rewrite lookup_insert_ne; [done|]. intros ->. congruence.
Qed.

Lemma seed_subjects_mono c now ss db db' :
  foldR (seed_subject c now) db ss = Ok db' ->
  forall j r, subjects db !! j = Some r -> subjects db' !! j = Some r.
Proof.
  revert db; induction ss as [|s ss IH]; intros db H j r Hl; cbn [foldR] in H; [by inv_ok|].
  apply bind_Ok in H as (db1 & H1 & H). apply (IH _ H). unfold seed_subject in H1. inv_ok.
  by eapply insert_subjects_mono.
Qed.

Lemma insert_key_versions_mono k row db db' :
  insert_or_ignore_key_versions k row db = Ok db' ->
  forall j r, key_versions db !! j = Some r -> key_versions db' !! j = Some r.
Proof.
  unfold insert_or_ignore_key_versions. intros H j r Hl. case_hyp H; [by inv_ok|].
  destruct k as [k v]. apply insert_key_versions_Ok in H as (_ & Hn & _ & _ & ->). simpl.
  rewrite lookup_insert_ne; [done|]. intros <-. congruence.
Qed.

Lemma store_le_configure wall c key db : store_le db (ConfigureDevelopment wall c key db).2.
Proof.
  unfold ConfigureDevelopment. case_goal; [|done]. apply transact_inv; [done|]. intros [] db' H.
  apply configure_tx_effect in H as (kv & db5 & H1 & H2 & H3 & H6 & [= _ _ Hc Hg] & db6 & H4 & H5).
  split; rewrite ?Hc, ?Hg; eauto; [| |by apply rotations_same].
  - apply keys_kept. intros k row Hl. rewrite H3. eapply insert_key_versions_mono; [exact H1|]. by rewrite H2.
  - intros k row Hl Hr. exists row. split; [|done]. eapply seed_subjects_mono; [exact H5|]. by rewrite H4.
Qed.

Lemma store_le_activate wall id now db : keys_inv db -> store_le db (ActivateRotation wall id now db).2.
Proof.
  intros Hi. unfold ActivateRotation. apply transact_inv; [done|]. intros op db' H.
  destruct (rotation_operations db !! id) as [rot|] eqn:Hl; [|by rewrite activate_tx_absent in H].
  destruct (ki_rotation _ Hi id rot Hl) as (_ & Hlt & [Hs|(Hs & _)]).
  - destruct (activate_tx_activated (or_now wall now) id rot db Hi Hl Hs) as (? & _ & E). rewrite E in H. by inv_ok.
  - destruct (activate_tx_started (or_now wall now) id rot db Hi Hl Hs) as (op' & rf & rt & _ & Hf & Hfs & Ht & Hts & E).
    rewrite E in H. injection H as <- <-. apply store_le_views; [|done..|].
    2:{ intros i r Hr. unfold activated_db. simpl. destruct (decide (i = id)) as [->|Hne].
        - rewrite lookup_insert_eq. eexists. split; [done|]. by simplify_eq.
        - rewrite lookup_insert_ne by done. by exists r. }
    intros k row Hk. unfold activated_db. simpl.
    destruct (decide (k = (ror_cluster_id rot, ror_key_id rot, ror_to_version rot))) as [->|H1].
    { rewrite lookup_insert_eq. exists StatusActive. simplify_eq. split; [done|]. right; left. auto. }
    rewrite lookup_insert_ne by done.
    destruct (decide (k = (ror_cluster_id rot, ror_key_id rot, ror_from_version rot))) as [->|H2].
    { rewrite lookup_insert_eq. exists StatusDecryptOnly. simplify_eq. split; [done|]. right; right. auto. }
    rewrite lookup_insert_ne by done. exists (kvr_status row). rewrite with_same_status. split; [done | by left].
Qed.

Lemma store_le_start wall r db : store_le db (StartRotation wall r db).2.
Proof.
  unfold StartRotation. case_goal; [|done]. apply transact_inv; [done|]. intros op db' H.
  apply start_tx_effect in H as (from & to & _ & _ & _ & Hid & _ & Hfree & -> & _).
  apply store_le_views; [|done..|].
  2:{ intros i row Hl. exists row. split; [|done]. simpl. rewrite lookup_insert_ne; [done|]. intros <-. congruence. }
  apply keys_kept. intros k row Hl. simpl.
  rewrite lookup_insert_ne; [done|]. intros <-. simpl in *. congruence.
Qed.

Lemma store_le_bootstrap r db : store_le db (BootstrapKeyring r db).2.
Proof.
  unfold BootstrapKeyring. case_goal; [|done]. case_goal; [done|]. apply transact_inv; [done|]. intros [] db' H.
  apply bootstrap_tx_frame in H as (H1 & H2 & H3 & H4).
  apply store_le_views; [by apply keys_kept | done..| by apply rotations_same].
Qed.

Lemma store_le_challenges db t :
  (forall id row, challenges db !! id = Some row -> chr_consumed_at row <> None -> t !! id = Some row) ->
  store_le db (set_challenges t db).
Proof. intros H. split; simpl; eauto; [by apply keys_kept | by apply rotations_same]. Qed.

Lemma store_le_create ch db : store_le db (sql_CreateChallenge db ch).2.
Proof.
  unfold sql_CreateChallenge. apply exec_inv; [done|]. intros db' H.
  apply insert_challenges_Ok in H as (Hn & _ & _ & ->). apply store_le_challenges. intros id row Hl _.
  rewrite lookup_insert_ne; [done|]. intros <-. congruence.
Qed.

Lemma store_le_consume id c s op now db : store_le db (sql_ConsumeChallenge db id c s op now).2.
Proof.
  unfold sql_ConsumeChallenge. apply transact_inv; [done|]. intros [] db' H. unfold consume_tx in H. inv_ok.
  to_prop. apply store_le_challenges. intros i r Hl Hc. rewrite lookup_insert_ne; [done|].
  intros <-. simplify_eq.
Qed.

Lemma store_le_grants db t :
  (forall id row, enrollment_grants db !! id = Some row -> egr_consumed_at row <> None -> t !! id = Some row) ->
  store_le db (set_enrollment_grants t db).
Proof. intros H. split; simpl; eauto; [by apply keys_kept | by apply rotations_same]. Qed.

Lemma store_le_consume_grant id now db : store_le db (ConsumeEnrollmentGrant id now db).2.
Proof.
  unfold ConsumeEnrollmentGrant. destruct (enrollment_grants db !! id) as [row|] eqn:E; [|done].
  destruct (egr_consumed_at row) eqn:Ec; [done|]. case_goal; [|done]. case_goal; [done|]. simpl.
  apply store_le_grants. intros i r Hl Hc. rewrite lookup_insert_ne; [done|]. intros <-. congruence.
Qed.

Lemma store_le_insert_grant r db : store_le db (InsertEnrollmentGrant r db).2.
Proof.
  unfold InsertEnrollmentGrant. apply exec_inv; [done|]. intros db' H. unfold insert_enrollment_grants in H.
  inv_ok. to_prop.
  match goal with H : has (enrollment_grants _) _ = false |- _ => apply has_false in H; rename H into Hn end.
  apply store_le_grants. intros i row Hl _. rewrite lookup_insert_ne; [done|]. intros <-. congruence.
Qed.

Lemma store_le_revoke wall c s db : store_le db (RevokeSubject wall c s db).2.
Proof.
  unfold RevokeSubject. destruct (subjects db !! (c, s)) as [row|] eqn:E; [|done]. simpl.
  apply store_le_rest; [done..| |done]. intros k r Hl Hr. simpl.
  destruct (decide (k = (c, s))) as [->|Hne]; [eexists; by rewrite lookup_insert_eq|].
  exists r. by rewrite lookup_insert_ne.
Qed.

Lemma store_le_insert_subject c s t db : store_le db (InsertSubject c s t db).2.
Proof.
  unfold InsertSubject. apply exec_inv; [done|]. intros db' H. pose proof (insert_subjects_mono _ _ _ _ H) as Hm.
  unfold insert_or_ignore_subjects in H. apply store_le_rest; [case_hyp H; by inv_ok..| |case_hyp H; by inv_ok]. eauto.
Qed.

(** The operations on other tables. *)
Definition le_view (db : DB) :=
  (key_versions db, challenges db, enrollment_grants db, subjects db, rotation_operations db).

Lemma store_le_same a b : le_view b = le_view a -> store_le a b.
Proof. intros [= H1 H2 H3 H4 H5]. apply store_le_rest; [done..| |done]. rewrite H4. eauto. Qed.

Lemma side_ops_frame db :
  (forall r, le_view (InsertRecoveryPackage r db).2 = le_view db) /\
  (forall r, le_view (InsertEnrollmentRequest r db).2 = le_view db) /\
  (forall w id n d t, le_view (RecordRotationVerification w id n d t db).2 = le_view db) /\
  (forall e, le_view (InsertAuditEvent e db).2 = le_view db).
Proof.
  split_and!; intros.
  - apply exec_frame. intros db' H. unfold insert_or_ignore_recovery_packages, insert_recovery_packages in H.
    case_hyp H; by inv_ok.
  - apply exec_frame. intros db' H. unfold insert_or_replace_enrollment_requests in H. by inv_ok.
  - unfold RecordRotationVerification. case_goal; [|done]. apply transact_frame. intros v db' H. by inv_ok.
  - apply exec_frame. intros db' H. unfold insert_audit_events in H. by inv_ok.
Qed.

#[export] Hint Resolve store_le_bootstrap store_le_configure store_le_insert_subject store_le_revoke
  store_le_insert_grant store_le_consume_grant store_le_start store_le_create store_le_consume
  store_le_activate si_keys : unseal.

Lemma store_le_step o db : store_inv db -> store_le db (store_step o db).
Proof.
  intros Hi. destruct (node_ops_frame db) as (N1 & N2 & N3 & N4 & N5).
  destruct (side_ops_frame db) as (S1 & S2 & S3 & S4).
  assert (forall b, other_than_nodes b = other_than_nodes db -> store_le db b) as Hn.
  { intros b [= E1 E2 E3 E4 E5 E6 E7]. apply store_le_same. unfold le_view. congruence. }
  destruct o; simpl; auto using store_le_same with unseal.
Qed.

(** An issued challenge keeps its content: later it is the same row or a consumed
    one. *)
Definition issued_kept (a b : DB) : Prop :=
  forall id row, challenges a !! id = Some row ->
    exists row', challenges b !! id = Some row' /\ (row' = row \/ chr_consumed_at row' <> None).

Lemma issued_kept_same a b : challenges b = challenges a -> issued_kept a b.
Proof. intros E id row Hl. rewrite E. eauto. Qed.

Lemma issued_kept_step o db : issued_kept db (store_step o db).
Proof.
  destruct (node_ops_frame db) as (N1 & N2 & N3 & N4 & N5). destruct (side_ops_frame db) as (S1 & S2 & S3 & S4).
  destruct (key_ops_frame db) as (K1 & K2 & K3 & K4). destruct (plain_ops_frame db) as (P1 & P2 & P3 & P4 & P5 & P6 & _).
  assert (forall b, other_than_nodes b = other_than_nodes db -> issued_kept db b) as Hn.
  { intros b [= _ _ _ _ E _ _]. by apply issued_kept_same. }
  assert (forall b, other_than_keys b = other_than_keys db -> issued_kept db b) as Hk.
  { intros b [= _ _ E _]. by apply issued_kept_same. }
  assert (forall b, inv_view b = inv_view db -> issued_kept db b) as Hp.
  { intros b [= _ _ _ _ _ _ E]. by apply issued_kept_same. }
  assert (forall b, le_view b = le_view db -> issued_kept db b) as Hs.
  { intros b [= _ E _ _ _]. by apply issued_kept_same. }
  destruct o; simpl; auto; [by apply Hk, K1 | by apply Hk, K3 | by apply Hk, K4 | |].
  - unfold sql_CreateChallenge. apply exec_inv; [by apply issued_kept_same|]. intros db' H.
    apply insert_challenges_Ok in H as (Hnone & _ & _ & ->). intros id row Hl. simpl. exists row.
    rewrite lookup_insert_ne; [by auto|]. intros <-. congruence.
  - unfold sql_ConsumeChallenge. apply transact_inv; [by apply issued_kept_same|]. intros [] db' H.
    unfold consume_tx in H. inv_ok. to_prop. intros i r Hl. simpl. destruct (decide (i = id)) as [->|Hne].
    + rewrite lookup_insert_eq. eexists. split; [done|]. by right.
    + rewrite lookup_insert_ne by done. eauto.
Qed.

Lemma run_issued ops db : issued_kept db (run ops db).
Proof.
  revert db; induction ops as [|o ops IH]; intros db; simpl; [by apply issued_kept_same|].
  intros id row Hl. destruct (issued_kept_step o db id row Hl) as (r1 & Hl1 & H1).
  destruct (IH _ id r1 Hl1) as (r2 & Hl2 & [->|H2]); eauto.
Qed.

Lemma run_inv ops db : store_inv db -> Forall op_typed ops -> store_inv (run ops db).
Proof.
  revert db; induction ops as [|o ops IH]; intros db Hi Ht; inversion Ht; subst; simpl; [done|].
  apply IH; [by apply store_inv_step | done].
Qed.

Lemma run_le ops db : store_inv db -> Forall op_typed ops -> store_le db (run ops db).
Proof.
  revert db; induction ops as [|o ops IH]; intros db Hi Ht; inversion Ht; subst; simpl; [done|].
  etransitivity; [by apply store_le_step | apply IH; [by apply store_inv_step | done]].
Qed.

Lemma run_reachable ops db : reachable db -> Forall op_typed ops -> reachable (run ops db).
Proof.
  revert db; induction ops as [|o ops IH]; intros db Hi Ht; inversion Ht; subst; simpl; [done|].
  apply IH; [by constructor | done].
Qed.

(** ** Loading the keyring of a well-formed store *)

Lemma NoDup_length_one {A} (l : list A) :
  NoDup l -> length l = 1%nat <-> exists x, x ∈ l /\ forall y, y ∈ l -> y = x.
Proof.
  intros Hnd. split.
  - destruct l as [|x [|y l]]; try done. intros _. exists x. split; [left|]. intros y. by rewrite list_elem_of_singleton.
  - intros (x & Hx & Hu). destruct l as [|a [|b l]]; [by apply not_elem_of_nil in Hx | done |]. exfalso.
    apply NoDup_cons in Hnd as [Hna _]. apply Hna.
    rewrite (Hu a), <- (Hu b) by (repeat constructor). left.
Qed.

Lemma cluster_rows_elem db cluster p :
  p ∈ cluster_key_rows db cluster <-> p.1.1.1 = cluster /\ key_versions db !! p.1 = Some p.2.
Proof.
  unfold cluster_key_rows. rewrite merge_sort_Permutation, list_elem_of_filter, <- elem_of_map_to_list.
  by destruct p.
Qed.

Lemma cluster_rows_NoDup db cluster : NoDup (fst <$> cluster_key_rows db cluster).
Proof.
  apply NoDup_fmap_fst.
  - intros k r1 r2 H1 H2. apply cluster_rows_elem in H1 as [_ H1], H2 as [_ H2]. simpl in *. congruence.
  - unfold cluster_key_rows. rewrite merge_sort_Permutation. apply NoDup_filter, NoDup_map_to_list.
Qed.

Definition row_ref (k : key3) : KeyRef := mkKeyRef k.1.1 k.1.2 k.2.
Global Instance row_ref_inj : Inj eq eq row_ref.
Proof. intros [[a b] c] [[a' b'] c'] [=]. simpl in *. by subst. Qed.

(** In a store with the invariant every record of a cluster can be read. *)
Lemma ProtectedKeys_inv db cluster :
  keys_inv db -> (exists p, p ∈ cluster_key_rows db cluster) ->
  store_ProtectedKeys db cluster = Ok ((fun p => row_key p.1 p.2) <$> cluster_key_rows db cluster).
Proof.
  intros Hi (p & Hp). unfold store_ProtectedKeys.
  rewrite (proj2 (mapR_Ok scan_key (cluster_key_rows db cluster) ((fun p => row_key p.1 p.2) <$> cluster_key_rows db cluster))).
  - cbn [mbind result_bind]. by destruct (cluster_key_rows db cluster) eqn:E; [apply not_elem_of_nil in Hp|].
  - apply Forall2_fmap_r, Forall_Forall2_diag, Forall_forall. intros [[k v] row] Hin.
    apply cluster_rows_elem in Hin as [_ Hl]. simpl in Hl.
    destruct (ki_row _ Hi k v row Hl) as (Hv & Hval & _). unfold scan_key. simpl.
    rewrite uint32KeyVersion_Ok by done. cbn [mbind result_bind]. by rewrite Hval.
Qed.

(** The active rows of a cluster correspond to its keyrings. *)
Definition active_rows (db : DB) (cluster : string) : list (key3 * key_version_row) :=
  filter (fun p => kvr_status p.2 = StatusActive) (cluster_key_rows db cluster).

Lemma active_rows_elem db cluster p :
  p ∈ active_rows db cluster <->
  kvr_status p.2 = StatusActive /\ p.1.1.1 = cluster /\ key_versions db !! p.1 = Some p.2.
Proof. unfold active_rows. by rewrite list_elem_of_filter, cluster_rows_elem. Qed.

Lemma active_rows_keyrings db cluster :
  keys_inv db ->
  length (active_rows db cluster) = 1%nat <->
  exists key, forall key', is_Some (keyrings db !! (cluster, key')) <-> key' = key.
Proof.
  intros Hi.
  assert (NoDup (active_rows db cluster)) as Hnd
    by (apply NoDup_filter; eapply NoDup_fmap_1; apply cluster_rows_NoDup).
  assert (forall k, is_Some (keyrings db !! (cluster, k)) -> exists p, p ∈ active_rows db cluster /\ p.1.1 = (cluster, k)) as Hto.
  { intros k Hk. destruct (ki_active _ Hi _ Hk) as (v & (row & Hl & Hs) & _).
    exists ((cluster, k, v), row). by rewrite active_rows_elem. }
  assert (forall p, p ∈ active_rows db cluster -> is_Some (keyrings db !! (cluster, p.1.1.2))) as Hfrom.
  { intros [[[c k] v] row] (_ & E & Hl)%active_rows_elem. simpl in *. subst.
    by destruct (ki_row _ Hi _ _ _ Hl) as (_ & _ & ?). }
  rewrite NoDup_length_one by done. split.
  - intros (p & Hp & Hu). exists p.1.1.2. intros k. split.
    + intros Hk. destruct (Hto k Hk) as (q & Hq & E). apply Hu in Hq as ->. by rewrite E.
    + intros ->. by apply Hfrom.
  - intros (key & Hkey). destruct (Hto key) as (p & Hp & E); [by apply Hkey|]. exists p. split; [done|].
    intros q Hq. assert (q.1.1.2 = key) as Ek by (apply Hkey, Hfrom, Hq).
    apply active_rows_elem in Hp as (Hs & _ & Hl), Hq as (Hs' & Hc' & Hl').
    destruct p as [[[pc pk] pv] prow], q as [[[qc qk] qv] qrow]. simpl in *. simplify_eq.
    destruct (ki_active _ Hi (cluster, key)) as (u & _ & Hu); [by apply Hkey|].
    assert (pv = u) as -> by (apply Hu; by exists prow). assert (qv = u) as -> by (apply Hu; by exists qrow). congruence.
Qed.

(** The opened versions of a cluster: one per row, with the row's reference and status. *)
Section OpenedRows.
Context (db : DB) (cluster : string) (vs : list KeyVersion).
Hypothesis opened : Forall2 (fun (p : key3 * key_version_row) v =>
  Ref v = row_ref p.1 /\ KStatus v = kvr_status p.2 /\ KeyVersion_Validate v = Ok tt)
  (cluster_key_rows db cluster) vs.

Lemma opened_refs : Ref <$> vs = row_ref <$> (fst <$> cluster_key_rows db cluster).
Proof.
  revert opened. generalize (cluster_key_rows db cluster). intros rows HF.
  induction HF as [|p v ps ws (H1 & _) _ IH]; csimpl; [done|]. by rewrite H1, IH.
Qed.

Lemma opened_active :
  Ref <$> filter (fun v => KStatus v = StatusActive) vs = row_ref <$> (fst <$> active_rows db cluster).
Proof.
  unfold active_rows. revert opened. generalize (cluster_key_rows db cluster). intros rows HF.
  induction HF as [|p v ps ws (H1 & H2 & _) _ IH]; [done|]. rewrite !filter_cons.
  rewrite H2. case_decide; csimpl; by rewrite ?H1, IH.
Qed.

Lemma opened_valid : Forall (fun v => KeyVersion_Validate v = Ok tt) vs.
Proof. eapply Forall2_Forall_r; [exact opened|]. apply Forall_forall. intros p _ v. tauto. Qed.

(** The ring exists exactly when the cluster has one keyring. *)
Lemma opened_ring_ok :
  keys_inv db ->
  ring_ok vs <-> exists key, forall key', is_Some (keyrings db !! (cluster, key')) <-> key' = key.
Proof.
  intros Hi. rewrite <- active_rows_keyrings by done. unfold ring_ok, count_status.
  pose proof (f_equal length opened_active) as H. rewrite !length_fmap in H. rewrite H.
  split; [intros (_ & _ & ?); lia|]. intros Hl. split; [apply opened_valid|]. split; [|lia].
  rewrite opened_refs. apply NoDup_fmap_2; [apply _|]. apply cluster_rows_NoDup.
Qed.
End OpenedRows.

Lemma singleton_of_unique {A} (l : list A) x : NoDup l -> x ∈ l -> (forall y, y ∈ l -> y = x) -> l = [x].
Proof.
  intros Hnd Hx Hu. assert (length l = 1%nat) as Hl by (apply NoDup_length_one; eauto).
  destruct l as [|a [|]]; try done. f_equal. apply Hu. left.
Qed.

Lemma length_le_one_of_unique {A} (l : list A) :
  NoDup l -> (forall x y, x ∈ l -> y ∈ l -> x = y) -> (length l <= 1)%nat.
Proof.
  intros Hnd Hu. destruct l as [|a l]; [simpl; lia|].
  rewrite (proj2 (NoDup_length_one (a :: l) Hnd)); [done|]. exists a. split; [left|]. intros y Hy.
  apply Hu; [done | left].
Qed.

Lemma active_versions_NoDup db k : NoDup (active_versions db k).
Proof.
  unfold active_versions. apply NoDup_fmap_fst.
  - intros v r1 r2. rewrite !list_elem_of_filter, !versions_of_elem. intros [_ ?] [_ ?]. congruence.
  - apply NoDup_filter. unfold versions_of. apply NoDup_fmap_2_strong.
    + intros [[k1 v1] r1] [[k2 v2] r2]. rewrite !list_elem_of_filter. simpl.
      intros [-> _] [-> _] [= -> ->]. done.
    + apply NoDup_filter, NoDup_map_to_list.
Qed.

Lemma started_rotations_NoDup db k : NoDup (started_rotations db k).
Proof.
  unfold started_rotations. apply NoDup_fmap_fst.
  - intros v r1 r2. rewrite !list_elem_of_filter, !elem_of_map_to_list. intros [_ ?] [_ ?]. congruence.
  - apply NoDup_filter, NoDup_map_to_list.
Qed.

Lemma open_rows {A B} (R : A -> B -> Prop) l :
  (forall a, a ∈ l -> exists b, R a b) -> exists bs, Forall2 R l bs.
Proof.
  induction l as [|a l IH]; intros H; [exists []; constructor|].
  destruct (H a) as (b & Hb); [left|]. destruct IH as (bs & Hbs); [intros x Hx; apply H; by right|].
  exists (b :: bs). by constructor.
Qed.

(** ** Properties of the store *)

Definition example_time : Time := 63000000000000000000.

(** The cluster of the examples: one keyring, bootstrapped at version 1. *)
Definition example_boot : BootstrapKeyringRequest :=
  mkBootstrapKeyringRequest (example_record 1 StatusActive) EmptyString 0 0 EmptyString EmptyString
    example_time.
Definition example_store : DB := (BootstrapKeyring example_boot empty_db).2.
Definition example_start : RotationStartRequest :=
  mkRotationStartRequest "op-1" (example_record 2 StatusPending) example_time.

Lemma example_store_reachable : reachable example_store.
Proof. apply (reach_step (OBootstrapKeyring example_boot)); [apply reach_empty | exact I]. Qed.

(** C20: whatever sequence of store operations produced the database, every keyring
    has exactly one active version, every stored key version is readable and in
    the uint32 range, and a keyring has at most one started rotation, from its
    active version to a later pending one. *)
Theorem reachable_keyring_wellformed db k :
  reachable db ->
  (is_Some (keyrings db !! k) -> exists v, active_versions db k = [v]) /\
  (forall v row, key_versions db !! (k, v) = Some row ->
     1 <= v <= uint32_max /\ is_Some (keyrings db !! k) /\
     store_ProtectedKey db (mkKeyRef k.1 k.2 v) = Ok (row_key (k, v) row)) /\
  (length (started_rotations db k) <= 1)%nat /\
  (forall id, id ∈ started_rotations db k -> exists row,
     rotation_operations db !! id = Some row /\ has_status db k (ror_from_version row) StatusActive /\
     has_status db k (ror_to_version row) StatusPending /\ ror_from_version row < ror_to_version row).
Proof.
  intros Hr. destruct (reachable_inv db Hr) as [Hi _ _]. split_and!.
  - intros Hk. destruct (ki_active _ Hi k Hk) as (v & Hv & Hu). exists v.
    apply singleton_of_unique; [apply active_versions_NoDup | by apply active_versions_elem |].
    intros w Hw. by apply Hu, active_versions_elem.
  - intros v row Hl. destruct (ki_row _ Hi k v row Hl) as (Hv & Hval & Hk). split; [done|]. split; [done|].
    unfold store_ProtectedKey. destruct k as [c n]. simpl in *. rewrite Hl. cbn [of_option mbind result_bind].
    by rewrite Hval.
  - apply length_le_one_of_unique; [apply started_rotations_NoDup|].
    intros id1 id2 (r1 & L1 & K1 & S1)%started_rotations_elem (r2 & L2 & K2 & S2)%started_rotations_elem.
    apply (ki_started _ Hi id1 id2 r1 r2); try done. congruence.
  - intros id (row & Hl & Hk & Hs)%started_rotations_elem.
    destruct (ki_rotation _ Hi id row Hl) as (_ & Hlt & [E|(_ & Hf & Ht)]); [by rewrite Hs in E|].
    exists row. by rewrite Hk in Hf, Ht.
Qed.

Lemma reachable_keyring_wellformed_witness :
  exists v, active_versions example_store ("cluster-a", "root")%string = [v].
Proof.
  apply (proj1 (reachable_keyring_wellformed example_store ("cluster-a", "root")%string example_store_reachable)).
  vm_compute. eexists. reflexivity.
Defined.

(** C21: a rotation can always be completed: once [StartRotation] succeeded, then
    after any number of further store operations [ActivateRotation] of that
    operation succeeds and reports the same two versions as activated; when the
    operation was still open it makes the new version the active one and the old
    one decrypt-only and leaves the status of every other version alone; and
    activating again changes nothing. *)
Theorem rotation_completes db wall r op db1 ops wall2 now2 :
  reachable db -> time_ok (or_now wall (rs_CreatedAt r)) -> StartRotation wall r db = (Ok op, db1) ->
  Forall op_typed ops -> time_ok (or_now wall2 now2) ->
  let k := (ClusterID (pk_Ref (rs_Key r)), KeyID (pk_Ref (rs_Key r))) in
  let db2 := run ops db1 in
  exists op' db3, ActivateRotation wall2 (rs_OperationID r) now2 db2 = (Ok op', db3) /\
    ro_Status op' = RotationStatusActivated /\ ro_FromVersion op' = ro_FromVersion op /\
    ro_ToVersion op' = ro_ToVersion op /\
    (rs_OperationID r ∈ started_rotations db2 k -> forall j v s, has_status db3 j v s <->
       (j = k /\ v = ro_ToVersion op /\ s = StatusActive) \/
       (j = k /\ v = ro_FromVersion op /\ s = StatusDecryptOnly) \/
       (~ (j = k /\ (v = ro_ToVersion op \/ v = ro_FromVersion op)) /\ has_status db2 j v s)) /\
    exists op'', ActivateRotation wall2 (rs_OperationID r) now2 db3 = (Ok op'', db3).
Proof.
  intros Hr Ht Hst Hops Ht2 k db2. pose proof (si_keys _ (reachable_inv db Hr)) as Hi.
  assert (reachable db1) as Hr1.
  { change db1 with (Ok op, db1).2. rewrite <- Hst. by apply (reach_step (OStartRotation wall r)). }
  assert (store_inv db2) as Hi2 by (apply reachable_inv, run_reachable; done).
  pose proof (run_le ops db1 (reachable_inv _ Hr1) Hops) as Hle. fold db2 in Hle.
  unfold StartRotation in Hst. case_hyp Hst; [|done]. unfold transact in Hst.
  destruct (start_tx _ r db) as [[o d]|] eqn:E; [|done]. injection Hst as <- <-.
  apply start_tx_effect in E as (from & to & _ & _ & _ & _ & _ & _ & Hd & Ho). subst d o. simpl.
  destruct (le_rotations _ _ Hle (rs_OperationID r) (started_row (pk_Ref (rs_Key r)) from to (or_now wall (rs_CreatedAt r))))
    as (rot & Hrot & E1 & E2 & E3 & E4); [apply lookup_insert_eq|]. simpl in E1, E2, E3, E4.
  destruct (ki_rotation _ (si_keys _ Hi2) _ _ Hrot) as (_ & Hlt & Hcase).
  unfold ActivateRotation at 1, transact. destruct Hcase as [Hs|(Hs & _)].
  - destruct (activate_tx_activated (or_now wall2 now2) _ rot db2 (si_keys _ Hi2) Hrot Hs) as (op' & Hop & Ea).
    rewrite Ea. pose proof (scan_fields _ _ _ Hop) as (_ & _ & _ & F4 & F5 & F6).
    exists op', db2. split_and!; try congruence.
    + intros Hin. apply started_rotations_elem in Hin as (row & Hl & _ & Hs'). rewrite Hrot in Hl. injection Hl as <-.
      by rewrite Hs in Hs'.
    + exists op'. unfold ActivateRotation, transact. by rewrite Ea.
  - destruct (activate_tx_started (or_now wall2 now2) _ rot db2 (si_keys _ Hi2) Hrot Hs)
      as (op' & rf & rt & Hop & Hf & Hfs & Htl & Hts & Ea).
    rewrite Ea. pose proof (scan_fields _ _ _ Hop) as (_ & _ & _ & F4 & F5 & F6).
    eexists _, _. split; [done|]. split_and!; simpl; try congruence.
    + intros _ j v s. rewrite activated_db_status by done. unfold k. rewrite E1, E2, E3, E4. done.
    + pose proof (keys_inv_activated _ _ _ _ rt _ _ (si_keys _ Hi2) Ht2 Hrot Hs Hop Hf Hfs Htl) as Hi3.
      destruct (activate_tx_activated (or_now wall2 now2) (rs_OperationID r)
                  (activated_row (FormatRFC3339Nano (or_now wall2 now2)) rot) _ Hi3) as (o & _ & Eo);
        [apply lookup_insert_eq | done |].
      exists o. unfold ActivateRotation, transact. by rewrite Eo.
Qed.

Definition example_rotated : DB := (StartRotation 0 example_start example_store).2.
Definition example_op : RotationOperation :=
  mkRotationOperation "op-1" "cluster-a" "root" 1 2 RotationStatusStarted example_time example_time 0.

Lemma rotation_completes_witness :
  exists op' db3, ActivateRotation 0 "op-1" example_time example_rotated = (Ok op', db3) /\
    ro_Status op' = RotationStatusActivated.
Proof.
  destruct (rotation_completes example_store 0 example_start example_op example_rotated [] 0 example_time)
    as (op' & db3 & H1 & H2 & _).
  - exact example_store_reachable.
  - vm_compute. split; congruence.
  - vm_compute. reflexivity.
  - constructor.
  - vm_compute. split; congruence.
  - exists op', db3. split; [exact H1 | exact H2].
Defined.

(** [StartRotation] succeeds exactly when the request carries a valid pending
    key and an operation id that is not taken, the keyring exists, no rotation of
    it is started, and the key's version is the successor of the largest version
    stored; it then adds that one key version and that one operation. *)
Theorem StartRotation_exact db wall r op db' :
  reachable db -> uint32 (Version (pk_Ref (rs_Key r))) ->
  let ref := pk_Ref (rs_Key r) in
  let k := (ClusterID ref, KeyID ref) in
  let now := or_now wall (rs_CreatedAt r) in
  StartRotation wall r db = (Ok op, db') <->
  validateRotationStart r = Ok tt /\ is_Some (keyrings db !! k) /\ started_rotations db k = [] /\
  rotation_operations db !! rs_OperationID r = None /\ Version ref = max_version db k + 1 /\
  (exists from, active_versions db k = [from] /\ db' = started_db now r from (Version ref) db /\
     op = mkRotationOperation (rs_OperationID r) (ClusterID ref) (KeyID ref) from (Version ref)
            RotationStatusStarted now now 0).
Proof.
  intros Hr H32 ref k now. pose proof (si_keys _ (reachable_inv db Hr)) as Hi.
  unfold StartRotation. destruct (validateRotationStart r) as [[]|] eqn:Ev; [|by split; [|intros [? _]]].
  unfold transact. fold now. split.
  - destruct (start_tx now r db) as [[o d]|] eqn:E; [|done]. intros [= <- <-].
    apply start_tx_effect in E as (from & to & Hn & Hv & Hs & Hid & Hk & _ & -> & ->). fold ref k in Hn, Hv, Hs, Hk |- *.
    pose proof (nextRotationVersions_Ok db k from to Hn) as (Hf & _ & Hto & _). split_and!; try done; [congruence|].
    exists from. rewrite Hv. split; [|done]. destruct (ki_active _ Hi k Hk) as (v & _ & Hu).
    apply singleton_of_unique; [apply active_versions_NoDup | by apply active_versions_elem |].
    intros w Hw. apply active_versions_elem in Hw. rewrite (Hu w Hw). symmetry. by apply Hu.
  - intros (_ & Hk & Hs & Hid & Hv & from & Hf & -> & ->).
    assert (has_status db k from StatusActive) as Hact by (apply active_versions_elem; rewrite Hf; left).
    rewrite (start_tx_total now r db from); done.
Qed.

Lemma StartRotation_exact_witness :
  StartRotation 0 example_start example_store = (Ok example_op, example_rotated).
Proof.
  apply StartRotation_exact; [exact example_store_reachable | vm_compute; split; congruence |].
  split; [reflexivity|]. split; [vm_compute; eexists; reflexivity|]. split; [reflexivity|].
  split; [reflexivity|]. split; [reflexivity|]. exists 1.
  split; [reflexivity|]. split; vm_compute; reflexivity.
Defined.

(** C23: revocation is permanent: after a successful [RevokeSubject] no sequence of
    store operations, a renewed [InsertSubject] or a restart's
    [ConfigureDevelopment] included, makes the subject usable again. *)
Theorem revocation_permanent db wall cluster subject db1 ops :
  reachable db -> RevokeSubject wall cluster subject db = (Ok tt, db1) -> Forall op_typed ops ->
  store_Subject (run ops db1) cluster subject = Err ErrSubjectRevoked.
Proof.
  intros Hr Hrev Hops.
  assert (reachable db1) as Hr1.
  { change db1 with (@Ok unit tt, db1).2. rewrite <- Hrev. by apply (reach_step (ORevokeSubject wall cluster subject)). }
  pose proof (run_le ops db1 (reachable_inv _ Hr1) Hops) as Hle.
  unfold RevokeSubject in Hrev. case_hyp Hrev; [|done]. injection Hrev as <-.
  destruct (le_subjects _ _ Hle (cluster, subject) (mkSubjectRow 1 (sur_created_at s) (Some (FormatRFC3339Nano wall))))
    as (row & Hl & Hne); [apply lookup_insert_eq | done |].
  unfold store_Subject. rewrite Hl. destruct (Z.eqb_spec (sur_revoked row) 0); [done|]. reflexivity.
Qed.

Definition example_subject_db : DB := (InsertSubject "cluster-a" "openbao-0" example_time example_store).2.
Definition example_revoked_db : DB := (RevokeSubject example_time "cluster-a" "openbao-0" example_subject_db).2.

Lemma revocation_permanent_witness :
  store_Subject (run [OInsertSubject "cluster-a" "openbao-0" example_time] example_revoked_db)
    "cluster-a" "openbao-0" = Err ErrSubjectRevoked.
Proof.
  apply (revocation_permanent example_subject_db example_time).
  - apply (reach_step (OInsertSubject "cluster-a" "openbao-0" example_time)); [exact example_store_reachable | exact I].
  - vm_compute. reflexivity.
  - repeat constructor.
Defined.

(** C22: no store operation loses or alters a key: a key version that can be read
    stays readable with the same reference, policy, profile and protected payload
    whatever operations follow, and its status only moves from pending to active
    to decrypt-only; in particular what was usable for decryption stays usable. *)
Theorem key_versions_never_lost db ref key ops :
  reachable db -> Forall op_typed ops -> store_ProtectedKey db ref = Ok key ->
  exists s, store_ProtectedKey (run ops db) ref = Ok (pk_with_status s key) /\
    status_le (pk_Status key) s /\
    ((pk_Status key = StatusActive \/ pk_Status key = StatusDecryptOnly) ->
     s = StatusActive \/ s = StatusDecryptOnly).
Proof.
  intros Hr Hops Hk. pose proof (run_le ops db (reachable_inv _ Hr) Hops) as Hle.
  pose proof (run_inv ops db (reachable_inv _ Hr) Hops) as [Hi _ _].
  unfold store_ProtectedKey in Hk. inv_ok. units.
  match goal with H : key_versions db !! _ = Some _ |- _ => apply (le_keys _ _ Hle) in H as (s & Hl & Hs) end.
  exists s. destruct (ki_row _ Hi _ _ _ Hl) as (_ & Hval & _). split_and!.
  - unfold store_ProtectedKey. rewrite Hl. cbn [of_option mbind result_bind]. by rewrite Hval.
  - exact Hs.
  - simpl in *. unfold status_le in Hs. intuition (subst; auto; congruence).
Qed.

Lemma key_versions_never_lost_witness :
  exists s, store_ProtectedKey (run [OStartRotation 0 example_start; OActivateRotation 0 "op-1" example_time]
      example_store) (mkKeyRef "cluster-a" "root" 1)
    = Ok (pk_with_status s (example_record 1 StatusActive)) /\ status_le StatusActive s.
Proof.
  destruct (key_versions_never_lost example_store (mkKeyRef "cluster-a" "root" 1) (example_record 1 StatusActive)
    [OStartRotation 0 example_start; OActivateRotation 0 "op-1" example_time]) as (s & H1 & H2 & _).
  - exact example_store_reachable.
  - repeat constructor; vm_compute; congruence.
  - reflexivity.
  - exists s. split; [exact H1 | exact H2].
Defined.

(** An enrollment grant is consumed at most once: after a successful
    [ConsumeEnrollmentGrant] every later attempt, whatever happens in between,
    is refused as a replay. *)
Theorem grant_single_use db id now db1 ops now2 :
  reachable db -> ConsumeEnrollmentGrant id now db = (Ok tt, db1) -> Forall op_typed ops ->
  ConsumeEnrollmentGrant id now2 (run ops db1) = (Err ErrChallengeReplayed, run ops db1).
Proof.
  intros Hr Hc Hops.
  assert (reachable db1) as Hr1.
  { change db1 with (@Ok unit tt, db1).2. rewrite <- Hc. by apply (reach_step (OConsumeEnrollmentGrant id now)). }
  pose proof (run_le ops db1 (reachable_inv _ Hr1) Hops) as Hle.
  unfold ConsumeEnrollmentGrant in Hc. destruct (enrollment_grants db !! id) as [row|]; [|done].
  destruct (egr_consumed_at row); [done|]. case_hyp Hc; [|done]. case_hyp Hc; [done|]. injection Hc as <-.
  unfold ConsumeEnrollmentGrant. rewrite (le_grants _ _ Hle id (grant_consumed row (FormatRFC3339Nano now)));
    [done | apply lookup_insert_eq | done].
Qed.

Definition example_grant_ops : list store_op :=
  [OInsertEnrollmentRequest (mkEnrollmentRequestRecord "req-1" "cluster-a" "openbao-0" "{}"
     (example_time + Hour) example_time);
   OInsertEnrollmentGrant (mkEnrollmentGrantRecord "grant-1" "req-1" "cluster-a" "openbao-0" "{}"
     (example_time + Hour) example_time)].

Definition example_granted : DB := run example_grant_ops example_store.
Definition example_used_grant : DB := (ConsumeEnrollmentGrant "grant-1" example_time example_granted).2.

Lemma grant_single_use_witness :
  ConsumeEnrollmentGrant "grant-1" example_time (run [] example_used_grant)
  = (Err ErrChallengeReplayed, run [] example_used_grant).
Proof.
  apply (grant_single_use example_granted "grant-1" example_time example_used_grant [] example_time).
  - apply run_reachable; [exact example_store_reachable | repeat constructor].
  - vm_compute. reflexivity.
  - constructor.
Defined.

(** In every reachable state the keyring of a cluster loads exactly when the
    cluster has one keyring, provided the protector opens the stored records. *)
Theorem LoadKeyring_iff_one_keyring `{ProtectorLaws} db cluster :
  reachable db -> (exists p, p ∈ cluster_key_rows db cluster) ->
  (forall p, p ∈ cluster_key_rows db cluster ->
     pk_ProtectorProfile (row_key p.1 p.2) = Profile /\
     exists v, Unprotect (Ok tt) (row_key p.1 p.2) = Ok v /\ Ref v = row_ref p.1 /\
       KStatus v = kvr_status p.2 /\ KeyVersion_Validate v = Ok tt) ->
  (exists ring, LoadKeyring (Ok tt) db cluster = Ok ring) <->
  exists key, forall key', is_Some (keyrings db !! (cluster, key')) <-> key' = key.
Proof.
  intros Hr Hne Hopen. pose proof (si_keys _ (reachable_inv db Hr)) as Hi.
  destruct (open_rows (fun p v => pk_ProtectorProfile (row_key p.1 p.2) = Profile /\
      Unprotect (Ok tt) (row_key p.1 p.2) = Ok v /\ Ref v = row_ref p.1 /\
      KStatus v = kvr_status p.2 /\ KeyVersion_Validate v = Ok tt) (cluster_key_rows db cluster)) as (vs & HF).
  { intros p Hp. destruct (Hopen p Hp) as (? & v & ?). eauto. }
  assert (Forall2 (fun (p : key3 * key_version_row) v =>
    Ref v = row_ref p.1 /\ KStatus v = kvr_status p.2 /\ KeyVersion_Validate v = Ok tt)
    (cluster_key_rows db cluster) vs) as Ho by (eapply Forall2_impl; [exact HF|]; intros p v; naive_solver).
  rewrite <- (opened_ring_ok db cluster vs Ho Hi).
  unfold LoadKeyring. cbn [ProtectedKeys SQLite_Repository]. rewrite ProtectedKeys_inv by done. cbn [mbind result_bind].
  rewrite (unprotect_loop (Ok tt) _ [] vs).
  - cbn [mbind result_bind]. setoid_rewrite NewRing_spec. split; [by intros (? & ? & _) | eauto].
  - apply Forall2_fmap_l. eapply Forall2_impl; [exact HF|]. naive_solver.
Qed.

Lemma example_row_opens p :
  p ∈ cluster_key_rows example_store "cluster-a" ->
  pk_ProtectorProfile (row_key p.1 p.2) = @Profile DevelopmentProtector /\
  exists v, @Unprotect DevelopmentProtector (Ok tt) (row_key p.1 p.2) = Ok v /\ Ref v = row_ref p.1 /\
    KStatus v = kvr_status p.2 /\ KeyVersion_Validate v = Ok tt.
Proof.
  intros Hp. assert (cluster_key_rows example_store "cluster-a"
    = [("cluster-a"%string, "root"%string, 1, key_row (example_record 1 StatusActive) (FormatRFC3339Nano example_time))]) as E
    by (vm_compute; reflexivity).
  rewrite E in Hp. apply list_elem_of_singleton in Hp as ->. split; [reflexivity|].
  exists (example_version 1 StatusActive). repeat split.
Qed.

Lemma LoadKeyring_iff_one_keyring_witness :
  (exists ring, @LoadKeyring DB SQLite_Repository DevelopmentProtector (Ok tt) example_store "cluster-a" = Ok ring) <->
  exists key, forall key', is_Some (keyrings example_store !! ("cluster-a"%string, key')) <-> key' = key.
Proof.
  apply (@LoadKeyring_iff_one_keyring DevelopmentProtector Development_Laws).
  - exact example_store_reachable.
  - eexists. apply list_elem_of_In. vm_compute. left. reflexivity.
  - apply example_row_opens.
Defined.

Lemma Development_Unprotect_fields record v :
  Development_Unprotect (Ok tt) record = Ok v ->
  Ref v = pk_Ref record /\ KStatus v = pk_Status record /\ KeyVersion_Validate v = Ok tt.
Proof. unfold Development_Unprotect. intros H. inv_ok. units. done. Qed.

(** A successful [ConfigureDevelopment] leaves the configured keyring in place. *)
Lemma configure_keyring wall c key db db' :
  ConfigureDevelopment wall c key db = (Ok tt, db') ->
  is_Some (keyrings db' !! (c_ClusterID c, c_KeyID c)) /\
  forall k, is_Some (keyrings db !! k) -> is_Some (keyrings db' !! k).
Proof.
  unfold ConfigureDevelopment, transact. intros H. case_hyp H; [|done]. case_hyp H; [|done].
  match goal with E : configure_tx _ _ _ _ = Ok ?p |- _ => destruct p as [[] d]; rename E into Hc end.
  injection H as <-. unfold configure_tx in Hc.
  apply bind_Ok in Hc as (db1 & H1 & Hc). apply bind_Ok in Hc as (db2 & H2 & Hc).
  apply bind_Ok in Hc as (db3 & H3 & Hc). apply bind_Ok in Hc as (db4 & H4 & Hc).
  apply bind_Ok in Hc as (db5 & H5 & Hc). inv_ok.
  apply seed_subjects_frame in H5 as (_ & E5 & _). apply insert_or_ignore_policies_frame in H4 as (_ & E4 & _).
  apply insert_key_versions_only in H3. apply insert_clusters_only in H1.
  rewrite <- E5, <- E4, H3. simpl. assert (keyrings db = keyrings db1) as -> by (by rewrite H1).
  unfold insert_or_ignore_keyrings in H2. case_hyp H2.
  - inv_ok. split; [|done]. match goal with H : has _ _ = true |- _ => by apply has_true in H as [? ?] end.
  - apply insert_keyrings_Ok in H2 as (_ & _ & ->). simpl. split; [eexists; apply lookup_insert_eq|].
    intros k [r Hr]. destruct (decide (k = (c_ClusterID c, c_KeyID c))) as [->|Hne].
    + eexists. apply lookup_insert_eq.
    + exists r. by rewrite lookup_insert_ne.
Qed.

(** Starting the development broker on a populated database with another
    [key_id] succeeds and leaves the cluster with two keyrings, after which no
    keyring of the cluster loads any more: the broker can neither wrap nor unwrap. *)
Theorem changed_key_id_breaks_keyring db wall c key db' old :
  reachable db -> is_Some (keyrings db !! (c_ClusterID c, old)) -> c_KeyID c <> old ->
  ConfigureDevelopment wall c key db = (Ok tt, db') ->
  is_ok (@LoadKeyring DB SQLite_Repository DevelopmentProtector (Ok tt) db' (c_ClusterID c)) = false.
Proof.
  intros Hr Hold Hne Hc.
  assert (keys_inv db') as Hi.
  { change db' with (@Ok unit tt, db').2. rewrite <- Hc. apply keys_inv_ConfigureDevelopment, reachable_inv, Hr. }
  apply configure_keyring in Hc as [Hnew Hkeep]. apply Hkeep in Hold.
  destruct (LoadKeyring (Ok tt) db' (c_ClusterID c)) as [ring|] eqn:E; [exfalso|done].
  unfold LoadKeyring in E. cbn [ProtectedKeys SQLite_Repository] in E.
  rewrite ProtectedKeys_inv in E; [|done|].
  2:{ destruct (ki_active _ Hi _ Hnew) as (v & (row & Hl & _) & _).
      exists ((c_ClusterID c, c_KeyID c, v), row). by rewrite cluster_rows_elem. }
  cbn [mbind result_bind] in E. apply bind_Ok in E as (vs & Hvs & E).
  apply (@unprotect_loop_inv DevelopmentProtector) in Hvs as (us & -> & HF). simpl in E.
  apply NewRing_spec in E as [Hok _]. apply Forall2_fmap_l in HF.
  apply (opened_ring_ok db' (c_ClusterID c) us) in Hok as (k & Hk); [|eapply Forall2_impl; [exact HF|]|done].
  - apply Hk in Hold, Hnew. congruence.
  - intros p v [_ Hu]. by apply Development_Unprotect_fields in Hu.
Qed.

Definition example_config2 : Config :=
  mkConfig ":8443" "cert" "key" "ca" true false "db" "audit" false "" "" "" "cluster-a" "root-2" "policy-1"
    ∅ "openbao-0" (b64_EncodeToString example_material) 0 (example_k8s []) (mkPolicyDocument "" "" []).
Definition example_key2 : ProtectedKey :=
  mkProtectedKey (mkKeyRef "cluster-a" "root-2" 1) StatusActive AlgorithmAES256GCM "policy-1"
    ProfileDevelopment FormatDevelopmentPlaintextV1 example_material.

Lemma changed_key_id_breaks_keyring_witness :
  is_ok (@LoadKeyring DB SQLite_Repository DevelopmentProtector (Ok tt)
           (ConfigureDevelopment example_time example_config2 example_key2 example_store).2 "cluster-a") = false.
Proof.
  apply (changed_key_id_breaks_keyring example_store example_time example_config2 example_key2 _ "root").
  - exact example_store_reachable.
  - vm_compute. eexists. reflexivity.
  - discriminate.
  - vm_compute. reflexivity.
Defined.
