(* ===== verification/Lockout.v ===== *)
(** * Revoked nodes stay locked out

    A revoked node has no evidence and no active enrollment, and no store
    operation gives it either back but an enrollment of that node or unenrolled
    evidence for it, which only providers other than the TPM can submit.  The argument is an invariant of runs of store operations,
    shared by the enrollment service and the broker; so is the statement of which
    operations give a node evidence at all. *)

From S2P Require Import Prelude GoStrings GoTime Keyring KeyProtection Tpm NodeEvidence Config.
From S2P Require Import Sql Store Challenges SqlNodeEvidence StoreInv StoreOps.
Local Open Scope Z_scope.

(** The node has neither evidence nor an active enrollment. *)
Definition locked_out (k : evidenceKey) (db : DB) : Prop :=
  node_evidence db !! k = None /\
  forall row, node_evidence_enrollments db !! k = Some row -> enr_revoked_at row <> None.

(** The operations that may admit a node again. *)
Definition readmits (k : evidenceKey) (o : store_op) : Prop :=
  match o with
  | OEnrollNodeEvidence r => key_of (er_ClusterID r) (er_NodeName r) = k
  | OPutNodeEvidence _ e =>
      key_of (ne_ClusterID e) (ne_NodeName e) = k /\ TrimSpace (ne_Provider e) <> ProviderTPM2Quote
  | _ => False
  end.

Lemma locked_out_view k a b : node_view b = node_view a -> locked_out k a -> locked_out k b.
Proof. unfold locked_out. by intros [= -> ->]. Qed.

Lemma locked_out_prune k cluster nodes n db :
  locked_out k db -> locked_out k (foldl (prune_step cluster) (n, db) nodes).2.
Proof.
  revert n db; induction nodes as [|m ms IH]; intros n db Hl; simpl; [done|]. apply IH.
  destruct Hl as [Hn He]. split; [|done]. simpl. apply lookup_delete_None. auto.
Qed.

Lemma Normalize_key e n : Normalize e = Ok n -> (ne_ClusterID n, ne_NodeName n) = key_of (ne_ClusterID e) (ne_NodeName e).
Proof. intros (_ & _ & _ & -> & -> & _)%Normalize_fixed. done. Qed.

Lemma locked_out_put k wall n rev db db' :
  upsertNodeEvidence wall n rev db = Ok db' -> (ne_ClusterID n, ne_NodeName n) <> k ->
  locked_out k db -> locked_out k db'.
Proof.
  unfold upsertNodeEvidence. intros H Hk [Hn He]. inv_ok. split; simpl; [by rewrite lookup_insert_ne | done].
Qed.

Lemma locked_out_step k o db : ~ readmits k o -> locked_out k db -> locked_out k (store_step o db).
Proof.
  intros Hne Hl. destruct (key_ops_frame db) as (K1 & K2 & K3 & K4).
  destruct (plain_ops_frame db) as (P1 & P2 & P3 & P4 & P5 & P6 & P7 & P8).
  destruct (challenge_ops_frame db) as [C1 C2].
  assert (forall b, other_than_keys b = other_than_keys db -> locked_out k b) as Hk.
  { intros b E. apply (locked_out_view k db); [|done]. injection E as E1 E2 _ _. unfold node_view. congruence. }
  assert (forall b, inv_view b = inv_view db -> locked_out k b) as Hp.
  { intros b E. apply (locked_out_view k db); [|done]. unfold inv_view in E. congruence. }
  destruct o; simpl in *; auto; [by apply Hk, K1 | by apply Hk, K3 | by apply Hk, K4 | | | | | | |].
  - apply (locked_out_view k db); [by rewrite C1 | done].
  - apply (locked_out_view k db); [by rewrite C2 | done].
  - unfold sql_EnrollNodeEvidence, transact. destruct (NormalizeEnrollmentRequest r) as [n|] eqn:Hn; [|done].
    destruct (enroll_tx n db) as [[rev db']|] eqn:E; [simpl | done].
    apply enroll_tx_effect in E as (_ & _ & _ & He & Hv). rewrite (normalized_key _ _ Hn) in He, Hv.
    destruct Hl as [Hl1 Hl2]. split; [rewrite Hv, lookup_delete_ne by done | rewrite He, lookup_insert_ne by done]; done.
  - unfold sql_RevokeNodeEvidence, transact. case_goal; [done|].
    destruct (revoke_tx _ now db) as [[e db']|] eqn:E; [simpl | done]. unfold revoke_tx in E. inv_ok.
    destruct Hl as [Hl1 Hl2]. split; simpl; [apply lookup_delete_None; destruct (enr_revoked_at _); auto|].
    destruct (enr_revoked_at x) eqn:Er; simpl; [done|]. intros row [[<- <-]|[_ Hr]]%lookup_insert_Some; [done | auto].
  - unfold sql_PutEnrolledNodeEvidence. destruct (Normalize e) as [n|] eqn:Hn; [|done]. case_goal; [done|].
    apply (transact_inv (locked_out k)); [done|]. intros [] db' H. unfold put_enrolled_tx in H. inv_ok. to_prop.
    eapply locked_out_put; [eassumption | | done]. intros Hkey. rewrite Hkey in *. destruct Hl as [_ Hl].
    by eapply Hl.
  - unfold sql_PutNodeEvidence. destruct (Normalize e) as [n|] eqn:Hn; [|done]. case_goal; [done|].
    destruct (upsertNodeEvidence _ _ _ _) as [db'|] eqn:E; [|done]. eapply locked_out_put; [exact E | | done].
    rewrite (Normalize_key _ _ Hn). intros Hkey. apply Hne. split; [done|].
    assert (ne_Provider n = TrimSpace (ne_Provider e)) as <- by (unfold Normalize in Hn; by inv_ok). by to_prop.
  - apply (transact_inv (locked_out k)); [done|]. intros m db' H. unfold prune_tx in H. apply bind_Ok in H as (nodes & _ & H).
    injection H as H. change db' with (m, db').2. rewrite <- H. by apply locked_out_prune.
Qed.

Lemma locked_out_run k ops db :
  Forall (fun o => ~ readmits k o) ops -> locked_out k db -> locked_out k (run ops db).
Proof.
  intros Hf. revert db. induction Hf as [|o ops Ho _ IH]; intros db Hl; [done|]. by apply IH, locked_out_step.
Qed.

(** A revocation locks the node out. *)
Lemma revoked_locked_out db c n t en db' :
  node_inv db -> time_ok t -> sql_RevokeNodeEvidence db c n t = (Ok en, db') -> locked_out (key_of c n) db'.
Proof.
  intros Hi Ht H. destruct (sql_revoke_effect _ _ _ _ _ _ Hi Ht H) as (row & Hl & Hr & _ & Hn).
  split; [done|]. intros row'. rewrite Hl. by intros [= <-].
Qed.

Lemma locked_out_stale wall db c n now :
  locked_out (key_of c n) db -> sql_FreshNodeEvidence wall db c n now = Err ErrNotFound.
Proof. intros [Hn _]. unfold sql_FreshNodeEvidence, sql_NodeEvidence. by rewrite Hn. Qed.

(** ** Who stores evidence

    Nothing but the two puts gives a node an evidence record: every other store
    operation leaves the records as they are or removes some. *)

Definition stores_evidence (o : store_op) : Prop :=
  match o with OPutEnrolledNodeEvidence _ _ _ | OPutNodeEvidence _ _ => True | _ => False end.

(** No request that runs in between stores evidence. *)
Definition stores_none (ops : list store_op) : Prop := Forall (fun o => ~ stores_evidence o) ops.

(** No new and no changed record. *)
Definition no_more_evidence (db db' : DB) : Prop := node_evidence db' ⊆ node_evidence db.

#[global] Instance no_more_evidence_preorder : PreOrder no_more_evidence.
Proof. unfold no_more_evidence. split; [intros db; reflexivity | intros a b c H1 H2; by transitivity (node_evidence b)]. Qed.

Lemma no_more_view a b : node_view b = node_view a -> no_more_evidence a b.
Proof. unfold no_more_evidence. by intros [= _ ->]. Qed.

Lemma no_more_prune cluster nodes n db : no_more_evidence db (foldl (prune_step cluster) (n, db) nodes).2.
Proof.
  revert n db; induction nodes as [|m ms IH]; intros n db; simpl; [done|].
  etrans; [|apply IH]. unfold no_more_evidence. simpl. apply delete_subseteq.
Qed.

Lemma no_more_evidence_step o db : ~ stores_evidence o -> no_more_evidence db (store_step o db).
Proof.
  intros Hne. destruct (key_ops_frame db) as (K1 & K2 & K3 & K4).
  destruct (plain_ops_frame db) as (P1 & P2 & P3 & P4 & P5 & P6 & P7 & P8).
  destruct (challenge_ops_frame db) as [C1 C2].
  assert (forall b, other_than_keys b = other_than_keys db -> no_more_evidence db b) as Hk.
  { intros b E. apply no_more_view. injection E as E1 E2 _ _. unfold node_view. congruence. }
  assert (forall b, inv_view b = inv_view db -> no_more_evidence db b) as Hp.
  { intros b E. apply no_more_view. unfold inv_view in E. congruence. }
  destruct o; simpl in *; try (by destruct Hne); auto; [by apply Hk, K1 | by apply Hk, K3 | by apply Hk, K4 | | | | |].
  - apply no_more_view. by rewrite C1.
  - apply no_more_view. by rewrite C2.
  - unfold sql_EnrollNodeEvidence, transact. destruct (NormalizeEnrollmentRequest r) as [n|]; [|done].
    destruct (enroll_tx n db) as [[rev db']|] eqn:E; [simpl | done].
    apply enroll_tx_effect in E as (_ & _ & _ & _ & Hv). unfold no_more_evidence. rewrite Hv. apply delete_subseteq.
  - unfold sql_RevokeNodeEvidence, transact. case_goal; [done|].
    destruct (revoke_tx _ now db) as [[e db']|] eqn:E; [simpl | done]. unfold revoke_tx in E. inv_ok.
    unfold no_more_evidence. simpl. destruct (enr_revoked_at x); apply delete_subseteq.
  - apply (transact_inv (no_more_evidence db)); [done|]. intros m db' H. unfold prune_tx in H.
    apply bind_Ok in H as (nodes & _ & H). injection H as H. change db' with (m, db').2. rewrite <- H.
    apply no_more_prune.
Qed.

Lemma no_more_evidence_run ops db : stores_none ops -> no_more_evidence db (run ops db).
Proof.
  intros Hf. revert db. induction Hf as [|o ops Ho _ IH]; intros db; [done|].
  simpl. etrans; [by apply no_more_evidence_step | apply IH].
Qed.

(** What the puts store: one record, under the normalized key. *)
Lemma put_enrolled_stores wall db e rev r db' :
  sql_PutEnrolledNodeEvidence wall db e rev = (r, db') ->
  r <> Ok tt /\ no_more_evidence db db' \/
  exists n row, r = Ok tt /\ Normalize e = Ok n /\ row = evidence_row wall n row.(ner_enrollment_revision) /\
    node_evidence db' = <[(ne_ClusterID n, ne_NodeName n) := row]> (node_evidence db).
Proof.
  unfold sql_PutEnrolledNodeEvidence, transact. destruct (Normalize e) as [n|]; [|intros [= <- <-]; by left].
  case_goal; [intros [= <- <-]; by left|]. destruct (put_enrolled_tx wall n rev db) as [[[] db1]|] eqn:E;
    intros [= <- <-]; [right | by left].
  unfold put_enrolled_tx, upsertNodeEvidence in E. inv_ok. by exists n, (evidence_row wall n (Some (enr_revision x))).
Qed.

Lemma put_stores wall db e r db' :
  sql_PutNodeEvidence wall e db = (r, db') ->
  r <> Ok tt /\ no_more_evidence db db' \/
  exists n row, r = Ok tt /\ Normalize e = Ok n /\ row = evidence_row wall n row.(ner_enrollment_revision) /\
    node_evidence db' = <[(ne_ClusterID n, ne_NodeName n) := row]> (node_evidence db).
Proof.
  unfold sql_PutNodeEvidence, upsertNodeEvidence. destruct (Normalize e) as [n|]; [|intros [= <- <-]; by left].
  case_goal; [intros [= <- <-]; by left|]. destruct (map_err _ _) as [db1|] eqn:E; intros [= <- <-]; [right | by left].
  inv_ok. by exists n, (evidence_row wall n None).
Qed.
