(* ===== verification/Policy.v ===== *)
(** * The broker policy (internal/broker/policy.go, audit.go, ids.go,
    attestation.go)

    Policy decisions, the audit record of a decision, and the default-deny policy
    engine.  A request is not atomic: between two accesses to the store other
    requests may run, so every access is preceded by an arbitrary list of store
    operations that the environment supplies. *)

From S2P Require Import Prelude GoStrings GoTime Keyring KeyProtection Tpm NodeEvidence Config.
From S2P Require Import Sql Store Challenges SqlNodeEvidence StoreInv StoreOps.
From Stdlib Require Import Ascii.
Local Open Scope Z_scope.

(** ** Protocol enums and messages *)

Abbreviation PolicyDecisionState := Z.
Definition POLICY_DECISION_STATE_ALLOW : PolicyDecisionState := 1.
Definition POLICY_DECISION_STATE_DENY : PolicyDecisionState := 2.
Definition PolicyDecisionState_String (s : PolicyDecisionState) : string :=
  if s =? 0 then "POLICY_DECISION_STATE_UNSPECIFIED"
  else if s =? 1 then "POLICY_DECISION_STATE_ALLOW"
  else if s =? 2 then "POLICY_DECISION_STATE_DENY"
  else FormatInt s.

Abbreviation ErrorCode := Z.
Definition ERROR_CODE_UNSPECIFIED : ErrorCode := 0.
Definition ERROR_CODE_INVALID_REQUEST : ErrorCode := 1.
Definition ERROR_CODE_UNAUTHENTICATED : ErrorCode := 2.
Definition ERROR_CODE_PERMISSION_DENIED : ErrorCode := 3.
Definition ERROR_CODE_KEY_NOT_FOUND : ErrorCode := 4.
Definition ERROR_CODE_KEY_NOT_USABLE : ErrorCode := 5.
Definition ERROR_CODE_ATTESTATION_FAILED : ErrorCode := 6.
Definition ERROR_CODE_BROKER_UNAVAILABLE : ErrorCode := 7.
Definition ERROR_CODE_INTERNAL : ErrorCode := 8.
Definition ErrorCode_String (c : ErrorCode) : string :=
  if c =? 0 then "ERROR_CODE_UNSPECIFIED"
  else if c =? 1 then "ERROR_CODE_INVALID_REQUEST"
  else if c =? 2 then "ERROR_CODE_UNAUTHENTICATED"
  else if c =? 3 then "ERROR_CODE_PERMISSION_DENIED"
  else if c =? 4 then "ERROR_CODE_KEY_NOT_FOUND"
  else if c =? 5 then "ERROR_CODE_KEY_NOT_USABLE"
  else if c =? 6 then "ERROR_CODE_ATTESTATION_FAILED"
  else if c =? 7 then "ERROR_CODE_BROKER_UNAVAILABLE"
  else if c =? 8 then "ERROR_CODE_INTERNAL"
  else FormatInt c.

Record BrokerError := mkBrokerError { be_Code : ErrorCode; be_Message : string }.
Record ProtoDecision := mkProtoDecision {
  pd_State : PolicyDecisionState; pd_PolicyId : string; pd_Errors : list BrokerError;
}.

Record EvidenceEnvelope := mkEvidenceEnvelope {
  ev_Provider : Z; ev_Format : string; ev_Payload : bytes; ev_ChallengeId : string;
  ev_NormalizedClaims : list (string * string * string);
}.

(** The generated getters: a nil message reads as the zero value. *)
Definition GetPayload (e : option EvidenceEnvelope) : bytes :=
  match e with Some e => ev_Payload e | None => EmptyString end.
Definition GetChallengeId (e : option EvidenceEnvelope) : string :=
  match e with Some e => ev_ChallengeId e | None => EmptyString end.

(** [proto.Marshal] of an evidence envelope. *)
Class ProtoLib := { Marshal_EvidenceEnvelope : EvidenceEnvelope -> result bytes }.

(** ** attestation.go *)

Record WorkloadIdentity := mkWorkloadIdentity {
  wi_Namespace : string; wi_ServiceAccount : string; wi_PodName : string; wi_PodUID : string;
  wi_NodeName : string; wi_NodeUID : string;
}.
Global Instance WorkloadIdentity_eq_dec : EqDecision WorkloadIdentity.
Proof. solve_decision. Defined.
Definition no_workload : WorkloadIdentity :=
  mkWorkloadIdentity EmptyString EmptyString EmptyString EmptyString EmptyString EmptyString.

Record VerifiedEvidence := mkVerifiedEvidence { vf_Subject : string; vf_Workload : WorkloadIdentity }.

Abbreviation EvidenceVerifier := (option EvidenceEnvelope -> result VerifiedEvidence).

Definition DevelopmentEvidenceVerifier : EvidenceVerifier := fun evidence =>
  Ok (mkVerifiedEvidence (TrimSpace (GetPayload evidence)) no_workload).

(** ** ids.go *)

(** [base64.RawURLEncoding]: the URL alphabet, without padding. *)
Fixpoint rawurl (s : string) : string :=
  match s with
  | EmptyString => EmptyString
  | String c r =>
      if Ascii.eqb c "=" then EmptyString
      else String (if Ascii.eqb c "+" then "-"%char else if Ascii.eqb c "/" then "_"%char else c) (rawurl r)
  end.
Definition RawURL_EncodeToString (s : bytes) : string := rawurl (b64_EncodeToString s).

(** [random] is what [rand.Read] delivers. *)
Definition randomID (random : result bytes) (prefix : string) : result string :=
  bytes ← map_err (errorp ("generate " +:+ prefix +:+ " ID")) random;
  Ok (prefix +:+ "_" +:+ RawURL_EncodeToString bytes).

Definition randomNonce (random : result bytes) : result bytes :=
  map_err (errorp "generate challenge nonce") random.

Definition evidenceHash `{ProtoLib, Hashes} (evidence : option EvidenceEnvelope) : string :=
  match evidence with
  | None => EmptyString
  | Some e =>
      match Marshal_EvidenceEnvelope e with
      | Err _ => EmptyString
      | Ok encoded => hex_EncodeToString (Sum "sha256" encoded)
      end
  end.

(** ** policy.go: decisions *)

Record PolicyDecision := mkPolicyDecision {
  d_State : PolicyDecisionState; d_ErrorCode : ErrorCode; d_PolicyID : string; d_Reason : string;
}.

Definition Allow (policyID : string) : PolicyDecision :=
  mkPolicyDecision POLICY_DECISION_STATE_ALLOW ERROR_CODE_UNSPECIFIED policyID
    "allowed by development subject policy".

Definition Deny (policyID : string) (code : ErrorCode) (reason : string) : PolicyDecision :=
  mkPolicyDecision POLICY_DECISION_STATE_DENY code policyID reason.

Definition Proto (d : PolicyDecision) : ProtoDecision :=
  mkProtoDecision (d_State d) (d_PolicyID d)
    (if negb (d_ErrorCode d =? ERROR_CODE_UNSPECIFIED) || negb (String.eqb (d_Reason d) EmptyString)
     then [mkBrokerError (d_ErrorCode d) (d_Reason d)] else []).

Definition Allowed (d : PolicyDecision) : bool := d_State d =? POLICY_DECISION_STATE_ALLOW.

(** ** audit.go *)

Record keyRefView := mkKeyRefView { kv_KeyID : string; kv_Version : Z }.
Definition no_key : keyRefView := mkKeyRefView EmptyString 0.

Definition auditErrorCode (d : PolicyDecision) : string :=
  if d_ErrorCode d =? ERROR_CODE_UNSPECIFIED then EmptyString else ErrorCode_String (d_ErrorCode d).

Definition newAuditEvent `{ProtoLib, Hashes} (random : result bytes) (now : Time) (subject : string)
  (operation : Operation) (clusterID : string) (ref : keyRefView) (decision : PolicyDecision)
  (evidence : option EvidenceEnvelope) (remoteAddress : string) : result AuditEvent :=
  auditID ← randomID random "audit";
  Ok (mkAuditEvent 1 auditID (FormatRFC3339Nano now) subject (Operation_String operation) clusterID
        (kv_KeyID ref) (kv_Version ref) (PolicyDecisionState_String (d_State decision))
        (d_PolicyID decision) (d_Reason decision) (evidenceHash evidence) remoteAddress
        (auditErrorCode decision) EmptyString EmptyString EmptyString EmptyString).

(** [FileAuditSink.Write]: the file is the list of its records; [io] is the
    outcome of opening, writing and syncing it. *)
Definition audit_Write (ctx io : result unit) (event : AuditEvent) (file : list AuditEvent)
  : result unit * list AuditEvent :=
  match ctx with
  | Err e => (Err e, file)
  | Ok _ => match io with Err e => (Err e, file) | Ok _ => (Ok tt, file ++ [event]) end
  end.

(** The database and the audit file. *)
Record Broker := mkBroker { b_db : DB; b_file : list AuditEvent }.

(** ** The environment of one request *)

(** The accesses to the store before which other requests may run. *)
Inductive point :=
| AtRef | AtSubject | AtNode | AtConsume | AtKey | AtLoad | AtAudit
| AtEnrollment | AtNonce | AtPrune | AtPut | AtRead | AtReply.

Record Env := mkEnv {
  e_ctx : result unit;
  e_clock : point -> Time;
  e_audit_random : result bytes;
  e_seal_random : result bytes;
  e_remote : string;
  e_audit_io : result unit;
  e_others : point -> list store_op;
}.

(** The store as the request finds it at an access. *)
Definition at_ (env : Env) (p : point) (db : DB) : DB := run (e_others env p) db.

(** ** policy.go: the engine *)

Record policyRequest := mkPolicyRequest {
  pr_ClusterID : string; pr_Subject : string; pr_Workload : WorkloadIdentity; pr_Operation : Operation;
  pr_ChallengeID : string; pr_KeyRef : KeyRef;
}.

Abbreviation NodeEvidenceReader := (DB -> string -> string -> Time -> result NodeEvidence).

(** A nil reader is [None]. *)
Record PolicyEngine := mkPolicyEngine {
  pe_nodeEvidence : option NodeEvidenceReader;
  pe_policyID : string;
}.

Definition nodeEvidenceDeny (pe : PolicyEngine) (err : error) : PolicyDecision :=
  if errors_Is err ErrNotFound
  then Deny (pe_policyID pe) ERROR_CODE_ATTESTATION_FAILED "node evidence is missing"
  else if errors_Is err ErrStale
  then Deny (pe_policyID pe) ERROR_CODE_ATTESTATION_FAILED "node evidence is stale"
  else Deny (pe_policyID pe) ERROR_CODE_INTERNAL "node evidence lookup failed".

Definition evaluateNodeEvidence (env : Env) (pe : PolicyEngine) (req : policyRequest) (db : DB)
  : PolicyDecision :=
  match pe_nodeEvidence pe with
  | None => Allow (pe_policyID pe)
  | Some freshNodeEvidence =>
      if String.eqb (wi_NodeName (pr_Workload req)) EmptyString then Allow (pe_policyID pe)
      else match freshNodeEvidence db (pr_ClusterID req) (wi_NodeName (pr_Workload req))
                   (e_clock env AtNode) with
           | Err err => nodeEvidenceDeny pe err
           | Ok evidence =>
               let uid := wi_NodeUID (pr_Workload req) in
               if negb (String.eqb uid EmptyString) && negb (String.eqb (ne_NodeUID evidence) EmptyString) &&
                  negb (String.eqb uid (ne_NodeUID evidence))
               then Deny (pe_policyID pe) ERROR_CODE_ATTESTATION_FAILED
                      "node evidence does not match workload node"
               else Allow (pe_policyID pe)
           end
  end.

Definition evaluateSubjectAndNodeEvidence (env : Env) (pe : PolicyEngine) (req : policyRequest) (db : DB)
  : PolicyDecision * DB :=
  if String.eqb (pr_Subject req) EmptyString
  then (Deny (pe_policyID pe) ERROR_CODE_UNAUTHENTICATED "subject evidence is required", db)
  else
    let db := at_ env AtSubject db in
    match store_Subject db (pr_ClusterID req) (pr_Subject req) with
    | Err err =>
        (if errors_Is err ErrSubjectRevoked
         then Deny (pe_policyID pe) ERROR_CODE_PERMISSION_DENIED "subject is revoked"
         else if errors_Is err ErrSubjectNotFound
         then Deny (pe_policyID pe) ERROR_CODE_PERMISSION_DENIED "subject is not allowed"
         else Deny (pe_policyID pe) ERROR_CODE_INTERNAL "subject lookup failed", db)
    | Ok _ =>
        let db := at_ env AtNode db in
        let decision := evaluateNodeEvidence env pe req db in
        if negb (Allowed decision) then (decision, db) else (Allow (pe_policyID pe), db)
    end.

Definition challengeDeny (pe : PolicyEngine) (err : error) : PolicyDecision :=
  if errors_Is err ErrChallengeExpired
  then Deny (pe_policyID pe) ERROR_CODE_PERMISSION_DENIED "challenge expired"
  else if errors_Is err ErrChallengeReplayed
  then Deny (pe_policyID pe) ERROR_CODE_PERMISSION_DENIED "challenge was already consumed"
  else if errors_Is err ErrChallengeNotFound || errors_Is err ErrChallengeMismatch
  then Deny (pe_policyID pe) ERROR_CODE_PERMISSION_DENIED "challenge is invalid"
  else Deny (pe_policyID pe) ERROR_CODE_INTERNAL "challenge validation failed".

(** The telemetry of [consumeChallenge] does not change what it returns. *)
Definition consumeChallenge (env : Env) (req : policyRequest) (challengeID : string) (db : DB)
  : result unit * DB :=
  sql_ConsumeChallenge db challengeID (pr_ClusterID req) (pr_Subject req) (pr_Operation req)
    (e_clock env AtConsume).

Definition key_decision (pe : PolicyEngine) (operation : Operation) (looked_up : result ProtectedKey)
  : PolicyDecision :=
  match looked_up with
  | Err err =>
      if errors_Is err ErrKeyNotFound
      then Deny (pe_policyID pe) ERROR_CODE_KEY_NOT_FOUND "key version was not found"
      else Deny (pe_policyID pe) ERROR_CODE_INTERNAL "key lookup failed"
  | Ok version =>
      if (operation =? OPERATION_WRAP) && negb (String.eqb (pk_Status version) StatusActive)
      then Deny (pe_policyID pe) ERROR_CODE_KEY_NOT_USABLE "wrap requires active key"
      else if (operation =? OPERATION_UNWRAP) &&
              negb (String.eqb (pk_Status version) StatusActive ||
                    String.eqb (pk_Status version) StatusDecryptOnly)
      then Deny (pe_policyID pe) ERROR_CODE_KEY_NOT_USABLE "unwrap requires active or decrypt-only key"
      else Allow (pe_policyID pe)
  end.

Definition evaluate (env : Env) (pe : PolicyEngine) (req : policyRequest) (db : DB) : PolicyDecision * DB :=
  let '(decision, db) := evaluateSubjectAndNodeEvidence env pe req db in
  if negb (Allowed decision) then (decision, db)
  else if String.eqb (pr_ChallengeID req) EmptyString
  then (Deny (pe_policyID pe) ERROR_CODE_INVALID_REQUEST "challenge is required", db)
  else
    match consumeChallenge env req (pr_ChallengeID req) (at_ env AtConsume db) with
    | (Err err, db) => (challengeDeny pe err, db)
    | (Ok _, db) =>
        let db := at_ env AtKey db in
        (key_decision pe (pr_Operation req) (store_ProtectedKey db (pr_KeyRef req)), db)
    end.

Definition keyRefFromProto (ref : option KeyRef) : result KeyRef :=
  match ref with
  | None => Err (errorw ErrInvalidMetadata "missing key reference")
  | Some keyRef => KeyRef_Validate keyRef;; Ok keyRef
  end.

(** ** When the engine allows *)

Definition status_allows (operation : Operation) (s : Status) : Prop :=
  (operation = OPERATION_WRAP -> s = StatusActive) /\
  (operation = OPERATION_UNWRAP -> s = StatusActive \/ s = StatusDecryptOnly).

Lemma nodeEvidenceDeny_denies pe err : Allowed (nodeEvidenceDeny pe err) = false.
Proof. unfold nodeEvidenceDeny. by repeat case_goal. Qed.

Lemma challengeDeny_denies pe err : Allowed (challengeDeny pe err) = false.
Proof. unfold challengeDeny. by repeat case_goal. Qed.

Lemma key_decision_Allowed pe op looked_up :
  Allowed (key_decision pe op looked_up) = true <->
  exists key, looked_up = Ok key /\ status_allows op (pk_Status key).
Proof.
  unfold key_decision, status_allows. destruct looked_up as [key|err].
  2:{ case_goal; (split; [done | by intros (? & ? & _)]). }
  destruct (Z.eqb_spec op OPERATION_WRAP) as [E1|E1], (Z.eqb_spec op OPERATION_UNWRAP) as [E2|E2],
    (String.eqb_spec (pk_Status key) StatusActive) as [E3|E3],
    (String.eqb_spec (pk_Status key) StatusDecryptOnly) as [E4|E4]; simpl;
    (split; [intros Ha; first [discriminate Ha | exists key; naive_solver]
            | intros (k & [= <-] & H1 & H2); first [done | exfalso; naive_solver]]).
Qed.

Lemma key_decision_Allow pe op looked_up :
  Allowed (key_decision pe op looked_up) = true -> key_decision pe op looked_up = Allow (pe_policyID pe).
Proof. unfold key_decision. by repeat case_goal. Qed.

Lemma evaluateSubject_Allowed env pe req db d db' :
  evaluateSubjectAndNodeEvidence env pe req db = (d, db') ->
  Allowed d = true <->
  pr_Subject req <> EmptyString /\ is_ok (store_Subject (at_ env AtSubject db) (pr_ClusterID req) (pr_Subject req)) = true /\
  Allowed (evaluateNodeEvidence env pe req (at_ env AtNode (at_ env AtSubject db))) = true.
Proof.
  unfold evaluateSubjectAndNodeEvidence.
  destruct (String.eqb_spec (pr_Subject req) EmptyString) as [E|E].
  { intros [= <- <-]. split; [done | tauto]. }
  cbv zeta. destruct (store_Subject _ _ _) as [s|err]; simpl.
  - destruct (Allowed (evaluateNodeEvidence _ _ _ _)) eqn:Ea; intros [= <- <-]; [by split|].
    rewrite Ea. split; [done | tauto].
  - intros [= <- <-]. split; [by repeat case_goal | by intros (_ & ? & _)].
Qed.

Lemma evaluateSubject_db env pe req db d db' :
  evaluateSubjectAndNodeEvidence env pe req db = (d, db') ->
  Allowed d = true -> db' = at_ env AtNode (at_ env AtSubject db).
Proof.
  unfold evaluateSubjectAndNodeEvidence. cbv zeta. case_goal; [by intros [= <- <-]|].
  destruct (store_Subject _ _ _) as [s|err]; simpl.
  - case_goal; by intros [= <- <-].
  - intros [= <- <-]. by repeat case_goal.
Qed.

(** The states the engine goes through when it allows. *)
Lemma evaluate_Allowed env pe req db d db' :
  evaluate env pe req db = (d, db') ->
  Allowed d = true <->
  pr_Subject req <> EmptyString /\
  is_ok (store_Subject (at_ env AtSubject db) (pr_ClusterID req) (pr_Subject req)) = true /\
  Allowed (evaluateNodeEvidence env pe req (at_ env AtNode (at_ env AtSubject db))) = true /\
  pr_ChallengeID req <> EmptyString /\
  exists db4 key,
    sql_ConsumeChallenge (at_ env AtConsume (at_ env AtNode (at_ env AtSubject db))) (pr_ChallengeID req)
      (pr_ClusterID req) (pr_Subject req) (pr_Operation req) (e_clock env AtConsume) = (Ok tt, db4) /\
    db' = at_ env AtKey db4 /\ store_ProtectedKey db' (pr_KeyRef req) = Ok key /\
    status_allows (pr_Operation req) (pk_Status key).
Proof.
  unfold evaluate. destruct (evaluateSubjectAndNodeEvidence env pe req db) as [d0 db0] eqn:E0.
  pose proof (evaluateSubject_Allowed _ _ _ _ _ _ E0) as H0.
  destruct (Allowed d0) eqn:Ea; simpl.
  2:{ intros [= <- <-]. rewrite Ea. split; [done|]. intros (? & ? & ? & _). apply H0. auto. }
  apply evaluateSubject_db in E0 as ->; [|done]. destruct H0 as [H0 _]. specialize (H0 eq_refl) as (H1 & H2 & H3).
  destruct (String.eqb_spec (pr_ChallengeID req) EmptyString) as [Ec|Ec].
  { intros [= <- <-]. split; [done | tauto]. }
  unfold consumeChallenge. destruct (sql_ConsumeChallenge _ _ _ _ _ _) as [[[]|err] db4] eqn:E4.
  - intros [= <- <-]. rewrite key_decision_Allowed. split.
    + intros (key & Hk & Hs). split_and!; try done. exists db4, key. split_and!; try done; apply Hs.
    + intros (_ & _ & _ & _ & db5 & key & [= <-] & _ & Hk & Hs). eauto.
  - intros [= <- <-]. rewrite challengeDeny_denies. split; [done|]. by intros (_ & _ & _ & _ & ? & ? & ? & _).
Qed.

Lemma evaluate_Allow env pe req db d db' :
  evaluate env pe req db = (d, db') -> Allowed d = true -> d = Allow (pe_policyID pe).
Proof.
  unfold evaluate. destruct (evaluateSubjectAndNodeEvidence env pe req db) as [d0 db0].
  destruct (Allowed d0) eqn:Ea; simpl; [|intros [= <- <-]; congruence].
  case_goal; [by intros [= <- <-]|]. destruct (consumeChallenge _ _ _ _) as [[[]|err] db4].
  - intros [= <- <-]. apply key_decision_Allow.
  - intros [= <- <-]. by rewrite challengeDeny_denies.
Qed.

(** ** The states of a request *)

Definition env_typed (env : Env) : Prop := forall p, Forall op_typed (e_others env p).

Ltac ops_typed :=
  repeat first [apply Forall_app_2 | apply Forall_cons_2 | apply Forall_nil_2]; eauto.

Lemma at_inv env p db : env_typed env -> store_inv db -> store_inv (at_ env p db).
Proof. intros He Hi. by apply run_inv. Qed.

Lemma at_le env p db : env_typed env -> store_inv db -> store_le db (at_ env p db).
Proof. intros He Hi. by apply run_le. Qed.

(** The steps of the engine are store operations. *)
Definition req_ops (env : Env) (req : policyRequest) : list store_op :=
  e_others env AtSubject ++ e_others env AtNode ++ e_others env AtConsume ++
  [OConsumeChallenge (pr_ChallengeID req) (pr_ClusterID req) (pr_Subject req) (pr_Operation req)
     (e_clock env AtConsume)] ++ e_others env AtKey.

Lemma run_app a b db : run (a ++ b) db = run b (run a db).
Proof. unfold run. by rewrite foldl_app. Qed.

(** The database after the engine allowed. *)
Lemma evaluate_run env pe req db d db' :
  evaluate env pe req db = (d, db') -> Allowed d = true -> db' = run (req_ops env req) db.
Proof.
  intros He Ha. apply (evaluate_Allowed _ _ _ _ _ _ He) in Ha as (_ & _ & _ & _ & db4 & key & Hc & -> & _).
  unfold req_ops. rewrite !run_app. unfold at_ in *. simpl. by rewrite Hc.
Qed.

Lemma req_ops_typed env req :
  env_typed env -> int32 (pr_Operation req) -> Forall op_typed (req_ops env req).
Proof. intros He Ho. unfold req_ops. ops_typed. Qed.

(** Whatever it answers, the engine only performs store operations. *)
Lemma evaluate_steps env pe req db d db' :
  env_typed env -> int32 (pr_Operation req) -> evaluate env pe req db = (d, db') ->
  exists ops, Forall op_typed ops /\ db' = run ops db.
Proof.
  intros He Ho. unfold evaluate.
  assert (exists ops, Forall op_typed ops /\ (evaluateSubjectAndNodeEvidence env pe req db).2 = run ops db) as (ops0 & T0 & E0).
  { unfold evaluateSubjectAndNodeEvidence. cbv zeta. case_goal; [by exists []|].
    destruct (store_Subject _ _ _); simpl.
    - exists (e_others env AtSubject ++ e_others env AtNode). rewrite run_app.
      split; [by ops_typed|]. by case_goal.
    - exists (e_others env AtSubject). split; [done|]. done. }
  destruct (evaluateSubjectAndNodeEvidence env pe req db) as [d0 db0]. simpl in E0. subst db0.
  case_goal; [intros [= <- <-]; eauto|]. case_goal; [intros [= <- <-]; eauto|].
  destruct (consumeChallenge _ _ _ _) as [[[]|err] db4] eqn:Ec; intros [= <- <-].
  - exists (ops0 ++ e_others env AtConsume ++ [OConsumeChallenge (pr_ChallengeID req) (pr_ClusterID req)
      (pr_Subject req) (pr_Operation req) (e_clock env AtConsume)] ++ e_others env AtKey).
    split; [by ops_typed|]. rewrite !run_app. simpl. unfold consumeChallenge, at_ in Ec.
    by rewrite Ec.
  - exists (ops0 ++ e_others env AtConsume ++ [OConsumeChallenge (pr_ChallengeID req) (pr_ClusterID req)
      (pr_Subject req) (pr_Operation req) (e_clock env AtConsume)]).
    split; [by ops_typed|]. rewrite !run_app. simpl. unfold consumeChallenge, at_ in Ec.
    by rewrite Ec.
Qed.

(** A spent challenge makes the engine deny. *)
Definition spent (db : DB) (id : string) : Prop :=
  exists row, challenges db !! id = Some row /\ chr_consumed_at row <> None.

Lemma spent_mono a b id : store_le a b -> spent a id -> spent b id.
Proof. intros Hle (row & Hl & Hc). exists row. split; [by apply (le_challenges _ _ Hle) | done]. Qed.

Lemma consume_spends db id c s op now db' :
  sql_ConsumeChallenge db id c s op now = (Ok tt, db') -> spent db' id /\ ~ spent db id.
Proof.
  unfold sql_ConsumeChallenge, transact. destruct (consume_tx id c s op now db) as [[[] d]|] eqn:E; [|done].
  intros [= <-]. unfold consume_tx in E. inv_ok. to_prop. split.
  - eexists. split; [apply lookup_insert_eq | done].
  - intros (r & Hl & Hc). congruence.
Qed.

Lemma evaluate_spent env pe req db d db' :
  env_typed env -> store_inv db -> int32 (pr_Operation req) -> spent db (pr_ChallengeID req) ->
  evaluate env pe req db = (d, db') -> Allowed d = false.
Proof.
  intros He Hi Ho Hs Hev. destruct (Allowed d) eqn:Ha; [exfalso|done].
  apply (evaluate_Allowed _ _ _ _ _ _ Hev) in Ha as (_ & _ & _ & _ & db4 & key & Hc & _).
  apply consume_spends in Hc as [_ Hc]. apply Hc.
  assert (store_inv (at_ env AtSubject db)) as H1 by auto using at_inv.
  assert (store_inv (at_ env AtNode (at_ env AtSubject db))) as H2 by auto using at_inv.
  eapply spent_mono; [by apply at_le|]. eapply spent_mono; [by apply at_le|]. eapply spent_mono; [by apply at_le | done].
Qed.

Lemma int32_wrap : int32 OPERATION_WRAP.
Proof. done. Qed.

Lemma int32_unwrap : int32 OPERATION_UNWRAP.
Proof. done. Qed.

Lemma consume_step db id c s op now db' :
  store_inv db -> int32 op -> sql_ConsumeChallenge db id c s op now = (Ok tt, db') ->
  store_inv db' /\ store_le db db'.
Proof.
  intros Hi Ho Hc. pose proof (store_inv_step (OConsumeChallenge id c s op now) db Hi Ho) as H1.
  pose proof (store_le_step (OConsumeChallenge id c s op now) db Hi) as H2. simpl in *. by rewrite Hc in *.
Qed.

Lemma consume_ledger db id c s op now db' :
  challenges_ok db -> int32 op -> sql_ConsumeChallenge db id c s op now = (Ok tt, db') ->
  exists ch, sql_ledger db id = Some (ch, false) /\ ch_ClusterID ch = c /\ ch_Subject ch = s /\
    ch_Operation ch = op /\ now < ch_ExpiresAt ch.
Proof.
  intros Hok Ho Hc. apply (@cs_consume DB _ SQLite_Spec) in Hc as [_ Hc]; [|done..]. simpl in Hc.
  destruct (ledger_valid (sql_ledger db id) c s op now) as [ch|e] eqn:E; [|by destruct Hc].
  exists ch. by apply ledger_valid_Ok in E.
Qed.

(** A run of store operations, whatever the outcome. *)
Definition steps (a b : DB) : Prop := exists ops, Forall op_typed ops /\ b = run ops a.

Lemma steps_refl db : steps db db.
Proof. by exists []. Qed.

Lemma steps_trans a b c : steps a b -> steps b c -> steps a c.
Proof. intros (o1 & T1 & ->) (o2 & T2 & ->). exists (o1 ++ o2). rewrite run_app. split; [by ops_typed | done]. Qed.

Lemma steps_at env p db : env_typed env -> steps db (at_ env p db).
Proof. intros He. by exists (e_others env p). Qed.

Lemma steps_subject env pe req db :
  env_typed env -> steps db (evaluateSubjectAndNodeEvidence env pe req db).2.
Proof.
  intros He. unfold evaluateSubjectAndNodeEvidence. cbv zeta. case_goal; [apply steps_refl|].
  eapply steps_trans; [by apply (steps_at env AtSubject)|].
  destruct (store_Subject _ _ _); [|apply steps_refl].
  eapply steps_trans; [by apply (steps_at env AtNode)|]. case_goal; apply steps_refl.
Qed.

Lemma steps_evaluate env pe req db :
  env_typed env -> int32 (pr_Operation req) -> steps db (evaluate env pe req db).2.
Proof. intros He Ho. destruct (evaluate env pe req db) as [d db'] eqn:E. by eapply evaluate_steps. Qed.

Lemma steps_reachable a b : steps a b -> reachable a -> reachable b.
Proof. intros (ops & Ht & ->) Hr. by apply run_reachable. Qed.

Lemma steps_le a b : store_inv a -> steps a b -> store_le a b /\ store_inv b.
Proof. intros Hi (ops & Ht & ->). split; [by apply run_le | by apply run_inv]. Qed.
