(* ===== verification/Kubernetes.v ===== *)
(** * The Kubernetes workload verifier
    (internal/attestation/providers/kubernetes: evidence.go, verifier.go,
    tokenreview.go and pod.go without their HTTP clients;
    internal/broker/kubernetes_verifier.go)

    Evidence is a projected service-account token.  The API server reviews the
    token and, when pod binding is required, says where the pod runs; both
    answers are parameters.  What the broker makes of them is modelled in full. *)

From S2P Require Import Prelude GoStrings GoTime Keyring KeyProtection Tpm NodeEvidence Config.
From S2P Require Import Sql Store Challenges SqlNodeEvidence StoreInv StoreOps Policy.
From Stdlib Require Import Ascii.
Local Open Scope Z_scope.

Definition ATTESTATION_PROVIDER_TPM2_QUOTE : Z := 1.
Definition ATTESTATION_PROVIDER_KUBERNETES_WORKLOAD : Z := 2.
Definition MaxProtoPayloadSize : Z := 1048576.

(** ** evidence.go *)

Definition EvidenceFormat : string := "openbao-attested-unseal.kubernetes-workload.v1".
Definition ClaimNamespace : string := "kubernetes".
Definition ErrInvalidEvidence : error :=
  sentinel "kubernetes.ErrInvalidEvidence" "invalid Kubernetes workload evidence".
Definition ErrTokenReview : error := sentinel "kubernetes.ErrTokenReview" "kubernetes tokenreview failed".
Definition ErrPodLookup : error := sentinel "kubernetes.ErrPodLookup" "kubernetes pod lookup failed".

(** [fmt.Errorf("%w: token is not authenticated", ErrInvalidEvidence)]: a sentinel
    of its own that also is an [ErrInvalidEvidence]. *)
Definition ErrUnauthenticated : error :=
  mkError ["kubernetes.ErrUnauthenticated"%string; "kubernetes.ErrInvalidEvidence"%string]
    "invalid Kubernetes workload evidence: token is not authenticated".

(** [fmt.Errorf("%w: what: %w", ErrInvalidEvidence, err)]. *)
Definition invalid_wrapping (what : string) (err : error) : error :=
  mkError (err_is ErrInvalidEvidence ++ err_is err)
    (err_msg ErrInvalidEvidence +:+ ": " +:+ what +:+ ": " +:+ err_msg err).

(** [json.Unmarshal] into an [EvidencePayload]: the token, empty when absent. *)
Class PayloadJSON := { json_Unmarshal_token : bytes -> result string }.

Definition decodeEvidencePayload `{PayloadJSON} (envelope : option EvidenceEnvelope) : result string :=
  envelope ← of_option (errorw ErrInvalidEvidence "evidence envelope is required") envelope;
  check (ev_Provider envelope =? ATTESTATION_PROVIDER_KUBERNETES_WORKLOAD)
    (errorw ErrInvalidEvidence "provider is not Kubernetes workload");;
  check (String.eqb (ev_Format envelope) EvidenceFormat)
    (errorw ErrInvalidEvidence "unsupported evidence format");;
  check (negb (len (ev_Payload envelope) =? 0)) (errorw ErrInvalidEvidence "payload is required");;
  check (negb (MaxProtoPayloadSize <? len (ev_Payload envelope)))
    (errorw ErrInvalidEvidence "payload exceeds maximum size");;
  token ← map_err (invalid_wrapping "decode payload") (json_Unmarshal_token (ev_Payload envelope));
  check (negb (String.eqb token EmptyString)) (errorw ErrInvalidEvidence "token is required");;
  Ok token.

(** ** tokenreview.go and pod.go: what the API server answers *)

Record UserInfo := mkUserInfo {
  ui_Username : string; ui_UID : string; ui_Groups : list string; ui_Extra : gmap string (list string);
}.
Record TokenReviewStatus := mkTokenReviewStatus {
  tr_Authenticated : bool; tr_User : UserInfo; tr_Audiences : list string; tr_Error : string;
}.
Record PodInfo := mkPodInfo { pi_Namespace : string; pi_Name : string; pi_UID : string; pi_NodeName : string }.

Abbreviation TokenReviewer := (string -> list string -> result TokenReviewStatus).
Abbreviation PodLookup := (string -> string -> result PodInfo).

(** ** verifier.go *)

Definition extraPodName : string := "authentication.kubernetes.io/pod-name".
Definition extraPodUID : string := "authentication.kubernetes.io/pod-uid".
Definition extraNodeName : string := "authentication.kubernetes.io/node-name".
Definition extraNodeUID : string := "authentication.kubernetes.io/node-uid".

Record VerifierConfig := mkVerifierConfig {
  vc_Audience : string; vc_Namespace : string; vc_ServiceAccount : string; vc_RequirePodBinding : bool;
}.
Record Claims := mkClaims {
  cl_Subject : string; cl_Namespace : string; cl_ServiceAccount : string; cl_Username : string;
  cl_UID : string; cl_Groups : list string; cl_Audiences : list string; cl_PodName : string;
  cl_PodUID : string; cl_NodeName : string; cl_NodeUID : string;
}.

(** Nil interfaces are [None]. *)
Record Verifier := mkVerifier {
  v_Reviewer : option TokenReviewer; v_PodLookup : option PodLookup; v_Config : VerifierConfig;
}.

Definition reviewToken (v : Verifier) (reviewer : TokenReviewer) (token : string) : result TokenReviewStatus :=
  reviewer token
    (if String.eqb (TrimSpace (vc_Audience (v_Config v))) EmptyString then []
     else [TrimSpace (vc_Audience (v_Config v))]).

Definition parseServiceAccountUsername (username : string) : result (string * string) :=
  match Split username ":" with
  | [system; serviceaccount; namespace; name] =>
      if negb (String.eqb system "system") || negb (String.eqb serviceaccount "serviceaccount")
      then Err (errorw ErrInvalidEvidence "username is not a service account")
      else if String.eqb namespace EmptyString || String.eqb name EmptyString
      then Err (errorw ErrInvalidEvidence "service account username is incomplete")
      else Ok (namespace, name)
  | _ => Err (errorw ErrInvalidEvidence "username is not a service account")
  end.

Definition validateServiceAccount (v : Verifier) (namespace serviceAccount : string) : result unit :=
  let ns := TrimSpace (vc_Namespace (v_Config v)) in
  let sa := TrimSpace (vc_ServiceAccount (v_Config v)) in
  check (String.eqb ns EmptyString || String.eqb namespace ns)
    (errorw ErrInvalidEvidence "namespace is not allowed");;
  check (String.eqb sa EmptyString || String.eqb serviceAccount sa)
    (errorw ErrInvalidEvidence "service account is not allowed").

Definition firstExtra (extra : gmap string (list string)) (key : string) : string :=
  match (extra !! key : option (list string)) with
  | Some (value :: _) => value
  | _ => EmptyString
  end.

Definition claimsFromStatus (v : Verifier) (status : TokenReviewStatus) : result Claims :=
  check (tr_Authenticated status && String.eqb (tr_Error status) EmptyString) ErrUnauthenticated;;
  let expected := TrimSpace (vc_Audience (v_Config v)) in
  check (String.eqb expected EmptyString || bool_decide (expected ∈ tr_Audiences status))
    (errorw ErrInvalidEvidence "audience was not accepted");;
  '(namespace, serviceAccount) ← parseServiceAccountUsername (ui_Username (tr_User status));
  validateServiceAccount v namespace serviceAccount;;
  let extra := ui_Extra (tr_User status) in
  let claims := mkClaims (namespace +:+ "." +:+ serviceAccount) namespace serviceAccount
                  (ui_Username (tr_User status)) (ui_UID (tr_User status)) (ui_Groups (tr_User status))
                  (tr_Audiences status) (firstExtra extra extraPodName) (firstExtra extra extraPodUID)
                  (firstExtra extra extraNodeName) (firstExtra extra extraNodeUID) in
  check (negb (vc_RequirePodBinding (v_Config v) &&
               (String.eqb (cl_PodName claims) EmptyString || String.eqb (cl_PodUID claims) EmptyString)))
    (errorw ErrInvalidEvidence "pod-bound token claims are required");;
  check (negb (vc_RequirePodBinding (v_Config v) && negb (bool_decide (is_Some (v_PodLookup v))) &&
               String.eqb (cl_NodeName claims) EmptyString))
    (errorw ErrInvalidEvidence "pod-bound token node claim is required");;
  Ok claims.

Definition with_node (node : string) (c : Claims) : Claims :=
  mkClaims (cl_Subject c) (cl_Namespace c) (cl_ServiceAccount c) (cl_Username c) (cl_UID c) (cl_Groups c)
    (cl_Audiences c) (cl_PodName c) (cl_PodUID c) node (cl_NodeUID c).

Definition verifyPodBinding (v : Verifier) (claims : Claims) : result Claims :=
  match v_PodLookup v with
  | None => Ok claims
  | Some lookup =>
      check (negb (String.eqb (cl_PodName claims) EmptyString || String.eqb (cl_PodUID claims) EmptyString))
        (errorw ErrInvalidEvidence "pod name and UID claims are required");;
      pod ← map_err (invalid_wrapping "pod lookup failed") (lookup (cl_Namespace claims) (cl_PodName claims));
      check (negb (String.eqb (pi_UID pod) EmptyString))
        (errorw ErrInvalidEvidence "pod lookup returned no UID");;
      check (String.eqb (pi_UID pod) (cl_PodUID claims))
        (errorw ErrInvalidEvidence "pod UID does not match token");;
      check (negb (String.eqb (pi_NodeName pod) EmptyString))
        (errorw ErrInvalidEvidence "pod is not scheduled to a node");;
      check (String.eqb (cl_NodeName claims) EmptyString || String.eqb (cl_NodeName claims) (pi_NodeName pod))
        (errorw ErrInvalidEvidence "pod node does not match token");;
      Ok (with_node (pi_NodeName pod) claims)
  end.

(** [add] skips empty values. *)
Definition add_claim (name value : string) (out : list (string * string * string)) :=
  if String.eqb value EmptyString then out else out ++ [(ClaimNamespace, name, value)].

Definition ClaimsToProto (c : Claims) : list (string * string * string) :=
  let out := [("dev", "subject", cl_Subject c); (ClaimNamespace, "namespace", cl_Namespace c);
              (ClaimNamespace, "service_account", cl_ServiceAccount c);
              (ClaimNamespace, "username", cl_Username c)]%string in
  let out := add_claim "uid" (cl_UID c) out in
  let out := add_claim "audiences" (Join (cl_Audiences c) ",") out in
  let out := add_claim "pod_name" (cl_PodName c) out in
  let out := add_claim "pod_uid" (cl_PodUID c) out in
  let out := add_claim "node_name" (cl_NodeName c) out in
  add_claim "node_uid" (cl_NodeUID c) out.

Definition Verify `{PayloadJSON} (v : Verifier) (envelope : option EvidenceEnvelope)
  : result (option EvidenceEnvelope * Claims) :=
  token ← decodeEvidencePayload envelope;
  reviewer ← of_option (errorw ErrTokenReview "token reviewer is required") (v_Reviewer v);
  status ← reviewToken v reviewer token;
  claims ← claimsFromStatus v status;
  claims ← verifyPodBinding v claims;
  let out := match envelope with
             | Some e => Some (mkEvidenceEnvelope (ev_Provider e) (ev_Format e) (ev_Payload e)
                                 (ev_ChallengeId e) (ClaimsToProto claims))
             | None => None
             end in
  Ok (out, claims).

(** ** kubernetes_verifier.go and kubernetes_runtime.go *)

Definition NewKubernetesEvidenceVerifierWithPodLookup (reviewer : option TokenReviewer)
  (podLookup : option PodLookup) (k : KubernetesConfig) : Verifier :=
  mkVerifier reviewer podLookup
    (mkVerifierConfig (k_TokenReviewAudience k) (k_Namespace k) (k_ServiceAccount k)
       (RequirePodBoundToken k)).

(** The broker looks pods up exactly when it requires pod-bound tokens. *)
Definition newKubernetesRuntimeDependencies (reviewer : TokenReviewer) (lookup : PodLookup)
  (k : KubernetesConfig) : Verifier :=
  NewKubernetesEvidenceVerifierWithPodLookup (Some reviewer)
    (if RequirePodBoundToken k then Some lookup else None) k.

Definition KubernetesEvidenceVerifier `{PayloadJSON} (v : Verifier) : EvidenceVerifier := fun evidence =>
  '(_, claims) ← Verify v evidence;
  Ok (mkVerifiedEvidence (cl_Subject claims)
        (mkWorkloadIdentity (cl_Namespace claims) (cl_ServiceAccount claims) (cl_PodName claims)
           (cl_PodUID claims) (cl_NodeName claims) (cl_NodeUID claims))).

(** ** What the verifier accepts *)

Lemma decodeEvidencePayload_Ok `{PayloadJSON} envelope token :
  decodeEvidencePayload envelope = Ok token <->
  exists e, envelope = Some e /\ ev_Provider e = ATTESTATION_PROVIDER_KUBERNETES_WORKLOAD /\
    ev_Format e = EvidenceFormat /\ 0 < len (ev_Payload e) <= MaxProtoPayloadSize /\
    json_Unmarshal_token (ev_Payload e) = Ok token /\ token <> EmptyString.
Proof.
  split.
  - unfold decodeEvidencePayload. intros Hd. inv_ok. to_prop.
    match goal with E : _ = Some ?e |- _ => exists e end. split_and!; try done.
    unfold len in *. lia.
  - intros (e & -> & Hp & Hf & Hl & Hj & Ht). unfold decodeEvidencePayload. cbn [of_option mbind result_bind].
    rewrite Hp, Hf, Z.eqb_refl, String.eqb_refl. cbn [check negb mbind result_bind].
    assert (len (ev_Payload e) =? 0 = false) as -> by lia.
    assert (MaxProtoPayloadSize <? len (ev_Payload e) = false) as -> by lia.
    rewrite Hj. cbn. by apply String.eqb_neq in Ht as ->.
Qed.

(** The texts that stand for a service account, and the account they stand for. *)
Lemma parseServiceAccountUsername_Ok username ns sa :
  parseServiceAccountUsername username = Ok (ns, sa) ->
  username = "system:serviceaccount:" +:+ ns +:+ ":" +:+ sa /\ ns <> EmptyString /\ sa <> EmptyString.
Proof.
  unfold parseServiceAccountUsername. destruct (Split username ":") as [|p0 [|p1 [|p2 [|p3 [|]]]]] eqn:Hs; try done.
  case_goal; [done|]. case_goal; [done|]. to_prop. intros [= <- <-].
  pose proof (Join_Split username ":") as Hj. rewrite Hs in Hj. split_and!; [|done..].
  rewrite <- Hj. subst. done.
Qed.

(** A claim of the reviewed token about the pod it is bound to. *)
Definition claim (status : TokenReviewStatus) (key : string) : string := firstExtra (ui_Extra (tr_User status)) key.

(** A configured restriction, empty when there is none. *)
Definition restricts (configured value : string) : Prop :=
  TrimSpace configured = EmptyString \/ value = TrimSpace configured.

(** The review of a token that the verifier accepts, for account [sa] of [ns]. *)
Record reviewed (v : Verifier) (status : TokenReviewStatus) (ns sa : string) : Prop := {
  rv_authenticated : tr_Authenticated status = true /\ tr_Error status = EmptyString;
  rv_audience : TrimSpace (vc_Audience (v_Config v)) = EmptyString \/
                TrimSpace (vc_Audience (v_Config v)) ∈ tr_Audiences status;
  rv_account : ui_Username (tr_User status) = "system:serviceaccount:" +:+ ns +:+ ":" +:+ sa;
  rv_names : ns <> EmptyString /\ sa <> EmptyString;
  rv_allowed : restricts (vc_Namespace (v_Config v)) ns /\ restricts (vc_ServiceAccount (v_Config v)) sa;
  rv_pod : vc_RequirePodBinding (v_Config v) = true \/ v_PodLookup v <> None ->
           claim status extraPodName <> EmptyString /\ claim status extraPodUID <> EmptyString;
  rv_node : vc_RequirePodBinding (v_Config v) = true -> v_PodLookup v = None ->
            claim status extraNodeName <> EmptyString;
}.

Lemma restricts_check configured value :
  String.eqb (TrimSpace configured) EmptyString || String.eqb value (TrimSpace configured) = true ->
  restricts configured value.
Proof. unfold restricts. intros [E|E]%orb_true_iff; to_prop; auto. Qed.

(** The identity of the token before the pod is looked up. *)
Definition claims_of (status : TokenReviewStatus) (ns sa : string) : Claims :=
  mkClaims (ns +:+ "." +:+ sa) ns sa (ui_Username (tr_User status)) (ui_UID (tr_User status))
    (ui_Groups (tr_User status)) (tr_Audiences status) (claim status extraPodName) (claim status extraPodUID)
    (claim status extraNodeName) (claim status extraNodeUID).

Lemma verify_claims_Ok v status c c' :
  claimsFromStatus v status = Ok c -> verifyPodBinding v c = Ok c' ->
  exists ns sa, reviewed v status ns sa /\
    match v_PodLookup v with
    | None => c' = claims_of status ns sa
    | Some lookup => exists pod, lookup ns (claim status extraPodName) = Ok pod /\
        pi_UID pod = claim status extraPodUID /\ pi_NodeName pod <> EmptyString /\
        (claim status extraNodeName = EmptyString \/ claim status extraNodeName = pi_NodeName pod) /\
        c' = with_node (pi_NodeName pod) (claims_of status ns sa)
    end.
Proof.
  unfold claimsFromStatus, validateServiceAccount. intros H Hp.
  apply bind_Ok in H as (? & Hau & H). apply bind_Ok in H as (? & Haud & H).
  apply bind_Ok in H as ([ns sa] & Hparse & H). apply bind_Ok in H as (? & Hsa & H).
  apply bind_Ok in H as (? & Hpod & H). apply bind_Ok in H as (? & Hnode & H). injection H as <-.
  apply bind_Ok in Hsa as (? & Hns & Hsa).
  apply check_Ok in Hau, Haud, Hns, Hsa, Hpod, Hnode. fold (claims_of status ns sa) in Hp.
  apply parseServiceAccountUsername_Ok in Hparse as (Hu & Hn1 & Hn2).
  apply restricts_check in Hns, Hsa. to_prop. simpl in Hpod, Hnode.
  fold (claim status extraPodName) (claim status extraPodUID) in Hpod. fold (claim status extraNodeName) in Hnode.
  exists ns, sa. unfold verifyPodBinding in Hp. destruct (v_PodLookup v) as [lookup|] eqn:El.
  - apply bind_Ok in Hp as (? & H1 & Hp). apply bind_Ok in Hp as (pod & H2 & Hp).
    apply bind_Ok in Hp as (? & _ & Hp). apply bind_Ok in Hp as (? & H4 & Hp).
    apply bind_Ok in Hp as (? & H5 & Hp). apply bind_Ok in Hp as (? & H6 & Hp). injection Hp as <-.
    apply check_Ok in H1, H4, H5, H6. apply map_err_Ok in H2. simpl in *. to_prop.
    split.
    + split; try done; [| by rewrite El].
      apply orb_true_iff in Haud as [|]; to_prop; auto.
    + exists pod. split_and!; try done. apply orb_true_iff in H6 as [|]; to_prop; auto.
  - injection Hp as <-. split; [|done]. split; try done.
    + apply orb_true_iff in Haud as [|]; to_prop; auto.
    + rewrite El. intros [Hr|]; [|done]. rewrite Hr in Hpod. simpl in Hpod. by to_prop.
    + intros Hr _. rewrite Hr in Hnode. simpl in Hnode. by to_prop.
Qed.

(** The identity the broker hands to its policy, for a token bound to [pod], if
    the pod was looked up. *)
Definition identity_of (status : TokenReviewStatus) (ns sa : string) (pod : option PodInfo) : VerifiedEvidence :=
  mkVerifiedEvidence (ns +:+ "." +:+ sa)
    (mkWorkloadIdentity ns sa (claim status extraPodName) (claim status extraPodUID)
       (match pod with Some p => pi_NodeName p | None => claim status extraNodeName end)
       (claim status extraNodeUID)).

Lemma verifier_accepts `{PayloadJSON} v envelope vf :
  KubernetesEvidenceVerifier v envelope = Ok vf ->
  exists e token reviewer status ns sa pod,
    envelope = Some e /\ ev_Provider e = ATTESTATION_PROVIDER_KUBERNETES_WORKLOAD /\
    json_Unmarshal_token (ev_Payload e) = Ok token /\ token <> EmptyString /\
    v_Reviewer v = Some reviewer /\ reviewToken v reviewer token = Ok status /\
    reviewed v status ns sa /\ vf = identity_of status ns sa pod /\
    match v_PodLookup v, pod with
    | None, None => True
    | Some lookup, Some p => lookup ns (claim status extraPodName) = Ok p /\
        pi_UID p = claim status extraPodUID /\ pi_NodeName p <> EmptyString
    | _, _ => False
    end.
Proof.
  unfold KubernetesEvidenceVerifier, Verify. intros Hv.
  apply bind_Ok in Hv as ([out claims] & Hv & Hvf). injection Hvf as <-.
  apply bind_Ok in Hv as (token & Hd & Hv). apply bind_Ok in Hv as (reviewer & Hr & Hv).
  apply bind_Ok in Hv as (status & Hs & Hv). apply bind_Ok in Hv as (c & Hc & Hv).
  apply bind_Ok in Hv as (c' & Hp & Hv). injection Hv as _ <-. apply of_option_Ok in Hr.
  apply decodeEvidencePayload_Ok in Hd as (e & -> & Hpr & _ & _ & Hj & Ht).
  destruct (verify_claims_Ok _ _ _ _ Hc Hp) as (ns & sa & Hrev & Hpod).
  destruct (v_PodLookup v) as [lookup|] eqn:El.
  - destruct Hpod as (pod & Hl & Hu & Hn & _ & ->).
    exists e, token, reviewer, status, ns, sa, (Some pod). by split_and!.
  - subst c'. exists e, token, reviewer, status, ns, sa, None. by split_and!.
Qed.

(** The Kubernetes verifier vouches only for what the API server said.  When
    it accepts, the payload's token was reviewed as authenticated without error,
    for the configured audience; the reviewed user is the service account the
    policy subject is made of, and it satisfies the configured namespace and
    account; and when pod-bound tokens are required the pod name and UID are
    claims of the token and the node is the one the token names or, with pod
    lookup, the one the pod with that very UID runs on. *)
Theorem KubernetesEvidenceVerifier_sound `{PayloadJSON} v envelope vf :
  KubernetesEvidenceVerifier v envelope = Ok vf ->
  exists e token reviewer status ns sa pod,
    envelope = Some e /\ json_Unmarshal_token (ev_Payload e) = Ok token /\ token <> EmptyString /\
    v_Reviewer v = Some reviewer /\ reviewToken v reviewer token = Ok status /\
    reviewed v status ns sa /\ vf = identity_of status ns sa pod /\
    (vc_RequirePodBinding (v_Config v) = true -> wi_NodeName (vf_Workload vf) <> EmptyString) /\
    (forall lookup, v_PodLookup v = Some lookup -> exists p, pod = Some p /\
       lookup ns (claim status extraPodName) = Ok p /\ pi_UID p = claim status extraPodUID /\
       wi_NodeName (vf_Workload vf) = pi_NodeName p).
Proof.
  intros Hv. apply verifier_accepts in Hv as (e & token & reviewer & status & ns & sa & pod & -> & _ & Hj & Ht & Hr & Hs & Hrev & -> & Hpod).
  exists e, token, reviewer, status, ns, sa, pod. split_and!; try done.
  - intros Hb. simpl. destruct (v_PodLookup v) as [lookup|] eqn:El, pod as [p|]; try done; [tauto|].
    by apply (rv_node _ _ _ _ Hrev).
  - intros lookup Hl. rewrite Hl in Hpod. destruct pod as [p|]; [|done]. exists p. tauto.
Qed.

(** The policy subject identifies the service account: two accepted tokens
    with the same subject belong to the same account, for namespaces without dots,
    which Kubernetes does not allow in them. *)
Theorem subject_identifies_account `{PayloadJSON} v e1 e2 vf1 vf2 :
  KubernetesEvidenceVerifier v e1 = Ok vf1 -> KubernetesEvidenceVerifier v e2 = Ok vf2 ->
  no_char "." (wi_Namespace (vf_Workload vf1)) = true -> no_char "." (wi_Namespace (vf_Workload vf2)) = true ->
  vf_Subject vf1 = vf_Subject vf2 ->
  wi_Namespace (vf_Workload vf1) = wi_Namespace (vf_Workload vf2) /\
  wi_ServiceAccount (vf_Workload vf1) = wi_ServiceAccount (vf_Workload vf2).
Proof.
  intros H1 H2. apply verifier_accepts in H1 as (? & ? & ? & st1 & ns1 & sa1 & pod1 & _ & _ & _ & _ & _ & _ & _ & -> & _).
  apply verifier_accepts in H2 as (? & ? & ? & st2 & ns2 & sa2 & pod2 & _ & _ & _ & _ & _ & _ & _ & -> & _).
  simpl. intros Hn1 Hn2 Heq. by apply (no_char_until "."%char).
Qed.

(** ** Examples *)

Definition toy_PayloadJSON : PayloadJSON := {| json_Unmarshal_token payload := Ok payload |}.
Definition example_reviewer : TokenReviewer := fun token audiences =>
  if String.eqb token "token" && bool_decide (audiences = ["openbao"%string])
  then Ok (mkTokenReviewStatus true
             (mkUserInfo "system:serviceaccount:openbao:agent" "sa-uid" []
                {[ extraPodName := ["openbao-0"%string]; extraPodUID := ["pod-uid"%string] ]})
             ["openbao"%string] EmptyString)
  else Err ErrTokenReview.
Definition example_lookup : PodLookup := fun ns name =>
  if String.eqb ns "openbao" && String.eqb name "openbao-0"
  then Ok (mkPodInfo "openbao" "openbao-0" "pod-uid" "node-1") else Err ErrPodLookup.
Definition example_kubernetes : KubernetesConfig :=
  mkKubernetesConfig true EmptyString EmptyString EmptyString "openbao" "openbao" "agent" 0 0 0 false false
    [ProviderTPM2Quote].
Definition example_verifier : Verifier :=
  newKubernetesRuntimeDependencies example_reviewer example_lookup example_kubernetes.
Definition example_token_envelope : EvidenceEnvelope :=
  mkEvidenceEnvelope ATTESTATION_PROVIDER_KUBERNETES_WORKLOAD EvidenceFormat "token" "chal" [].
Definition example_identity : VerifiedEvidence :=
  mkVerifiedEvidence "openbao.agent" (mkWorkloadIdentity "openbao" "agent" "openbao-0" "pod-uid" "node-1" EmptyString).

Lemma example_verified :
  @KubernetesEvidenceVerifier toy_PayloadJSON example_verifier (Some example_token_envelope) = Ok example_identity.
Proof. vm_compute. reflexivity. Qed.

Lemma KubernetesEvidenceVerifier_sound_witness :
  exists token status, reviewToken example_verifier example_reviewer token = Ok status /\
    tr_Authenticated status = true.
Proof.
  destruct (@KubernetesEvidenceVerifier_sound toy_PayloadJSON example_verifier (Some example_token_envelope)
    example_identity example_verified)
    as (e & token & reviewer & status & ns & sa & pod & _ & _ & _ & Hr & Hs & Hrev & _).
  injection Hr as <-. exists token, status. split; [exact Hs | apply (rv_authenticated _ _ _ _ Hrev)].
Defined.

Lemma subject_identifies_account_witness :
  wi_Namespace (vf_Workload example_identity) = "openbao"%string /\
  wi_Namespace (vf_Workload example_identity) = wi_Namespace (vf_Workload example_identity).
Proof.
  split; [reflexivity|].
  apply (@subject_identifies_account toy_PayloadJSON example_verifier (Some example_token_envelope)
    (Some example_token_envelope) example_identity example_identity example_verified example_verified);
    reflexivity.
Defined.
