(* ===== verification/EvidenceText.v ===== *)
(** * Evidence as JSON text (internal/tpm/quote.go, internal/attestation/providers/kubernetes/evidence.go)

    The classes [EvidenceJSON] and [PayloadJSON], which stand for [json.Unmarshal] in
    the verifiers, discharged by the decoder of Json.v; [Evidence.Marshal] and
    [NewEvidenceEnvelope], whose texts the verifiers read back. *)

From S2P Require Import Prelude GoStrings Base64 Json JsonText GoTime Keyring KeyProtection Tpm TpmSeal NodeEvidence LocalState StateText.
From S2P Require Import Config Sql Store Challenges Policy Kubernetes.
Local Open Scope Z_scope.

(** ** TPM evidence *)

Definition set_ev_Schema x e := mkEvidence x (ev_ChallengeID e) (ev_NonceHash e) (ev_AKPublic e) (ev_Quote e) (ev_Signature e) (ev_PCRSelection e) (ev_PCRValues e) (ev_EKPublicHash e) (ev_PlatformHint e) (ev_CollectedBy e) (ev_CollectedAtUTC e).
Definition set_ev_Challenge x e := mkEvidence (ev_SchemaVersion e) x (ev_NonceHash e) (ev_AKPublic e) (ev_Quote e) (ev_Signature e) (ev_PCRSelection e) (ev_PCRValues e) (ev_EKPublicHash e) (ev_PlatformHint e) (ev_CollectedBy e) (ev_CollectedAtUTC e).
Definition set_ev_NonceHash x e := mkEvidence (ev_SchemaVersion e) (ev_ChallengeID e) x (ev_AKPublic e) (ev_Quote e) (ev_Signature e) (ev_PCRSelection e) (ev_PCRValues e) (ev_EKPublicHash e) (ev_PlatformHint e) (ev_CollectedBy e) (ev_CollectedAtUTC e).
Definition set_ev_AKPublic x e := mkEvidence (ev_SchemaVersion e) (ev_ChallengeID e) (ev_NonceHash e) x (ev_Quote e) (ev_Signature e) (ev_PCRSelection e) (ev_PCRValues e) (ev_EKPublicHash e) (ev_PlatformHint e) (ev_CollectedBy e) (ev_CollectedAtUTC e).
Definition set_ev_Quote x e := mkEvidence (ev_SchemaVersion e) (ev_ChallengeID e) (ev_NonceHash e) (ev_AKPublic e) x (ev_Signature e) (ev_PCRSelection e) (ev_PCRValues e) (ev_EKPublicHash e) (ev_PlatformHint e) (ev_CollectedBy e) (ev_CollectedAtUTC e).
Definition set_ev_Signature x e := mkEvidence (ev_SchemaVersion e) (ev_ChallengeID e) (ev_NonceHash e) (ev_AKPublic e) (ev_Quote e) x (ev_PCRSelection e) (ev_PCRValues e) (ev_EKPublicHash e) (ev_PlatformHint e) (ev_CollectedBy e) (ev_CollectedAtUTC e).
Definition set_ev_PCRSelection x e := mkEvidence (ev_SchemaVersion e) (ev_ChallengeID e) (ev_NonceHash e) (ev_AKPublic e) (ev_Quote e) (ev_Signature e) x (ev_PCRValues e) (ev_EKPublicHash e) (ev_PlatformHint e) (ev_CollectedBy e) (ev_CollectedAtUTC e).
Definition set_ev_PCRValues x e := mkEvidence (ev_SchemaVersion e) (ev_ChallengeID e) (ev_NonceHash e) (ev_AKPublic e) (ev_Quote e) (ev_Signature e) (ev_PCRSelection e) x (ev_EKPublicHash e) (ev_PlatformHint e) (ev_CollectedBy e) (ev_CollectedAtUTC e).
Definition set_ev_EKPublicHash x e := mkEvidence (ev_SchemaVersion e) (ev_ChallengeID e) (ev_NonceHash e) (ev_AKPublic e) (ev_Quote e) (ev_Signature e) (ev_PCRSelection e) (ev_PCRValues e) x (ev_PlatformHint e) (ev_CollectedBy e) (ev_CollectedAtUTC e).
Definition set_ev_PlatformHint x e := mkEvidence (ev_SchemaVersion e) (ev_ChallengeID e) (ev_NonceHash e) (ev_AKPublic e) (ev_Quote e) (ev_Signature e) (ev_PCRSelection e) (ev_PCRValues e) (ev_EKPublicHash e) x (ev_CollectedBy e) (ev_CollectedAtUTC e).
Definition set_ev_CollectedBy x e := mkEvidence (ev_SchemaVersion e) (ev_ChallengeID e) (ev_NonceHash e) (ev_AKPublic e) (ev_Quote e) (ev_Signature e) (ev_PCRSelection e) (ev_PCRValues e) (ev_EKPublicHash e) (ev_PlatformHint e) x (ev_CollectedAtUTC e).
Definition set_ev_CollectedAt x e := mkEvidence (ev_SchemaVersion e) (ev_ChallengeID e) (ev_NonceHash e) (ev_AKPublic e) (ev_Quote e) (ev_Signature e) (ev_PCRSelection e) (ev_PCRValues e) (ev_EKPublicHash e) (ev_PlatformHint e) (ev_CollectedBy e) x.

Definition evidence_fields : list (string * (json -> Evidence -> result Evidence)) :=
  [("schema_version"%string, field decode_uint32 set_ev_Schema);
   ("challenge_id"%string, field decode_string set_ev_Challenge);
   ("nonce_hash"%string, field decode_string set_ev_NonceHash);
   ("ak_public"%string, bytes_field set_ev_AKPublic);
   ("quote"%string, bytes_field set_ev_Quote);
   ("signature"%string, bytes_field set_ev_Signature);
   ("pcr_selection"%string, in_place (decode_struct selection_fields) ev_PCRSelection set_ev_PCRSelection);
   ("pcr_values"%string, in_place decode_string_map ev_PCRValues set_ev_PCRValues);
   ("ek_public_hash"%string, field decode_string set_ev_EKPublicHash);
   ("platform_hint"%string, field decode_string set_ev_PlatformHint);
   ("collected_by"%string, field decode_string set_ev_CollectedBy);
   ("collected_at_utc"%string, field decode_string set_ev_CollectedAt)].

Definition zero_evidence : Evidence :=
  mkEvidence 0 EmptyString EmptyString EmptyString EmptyString EmptyString zero_selection [] EmptyString EmptyString
    EmptyString EmptyString.

(** Evidence that validates has PCR values, so the map is never nil. *)
Definition Evidence_json (e : Evidence) : json :=
  JObject ([("schema_version"%string, int_json (ev_SchemaVersion e)); ("challenge_id"%string, JString (ev_ChallengeID e));
            ("nonce_hash"%string, JString (ev_NonceHash e)); ("ak_public"%string, bytes_json (ev_AKPublic e));
            ("quote"%string, bytes_json (ev_Quote e)); ("signature"%string, bytes_json (ev_Signature e));
            ("pcr_selection"%string, PCRSelection_json (ev_PCRSelection e));
            ("pcr_values"%string, string_map_json (ev_PCRValues e))] ++
           omit_empty "ek_public_hash" (ev_EKPublicHash e) ++ omit_empty "platform_hint" (ev_PlatformHint e) ++
           omit_empty "collected_by" (ev_CollectedBy e) ++ omit_empty "collected_at_utc" (ev_CollectedAtUTC e)).

(** [json.Unmarshal] into a struct. *)
Definition unmarshal {A} (fields : list (string * (json -> A -> result A))) (zero : A) (payload : bytes) : result A :=
  v ← of_option (errorf "invalid JSON") (json_Parse payload);
  decode_struct fields v zero.

Definition Evidence_JSON : EvidenceJSON := {| json_Unmarshal_Evidence := unmarshal evidence_fields zero_evidence |}.

Definition Evidence_Marshal (e : Evidence) : result bytes :=
  Evidence_Validate e;;
  Ok (json_Print (Evidence_json e)).

(** ** Kubernetes workload evidence *)

Definition token_fields : list (string * (json -> string -> result string)) :=
  [("token"%string, field decode_string (fun x _ => x))].
Definition Token_JSON : PayloadJSON := {| json_Unmarshal_token := unmarshal token_fields EmptyString |}.

(** Marshalling a struct of one string cannot fail. *)
Definition NewEvidenceEnvelope (challengeID token : string) : EvidenceEnvelope :=
  mkEvidenceEnvelope ATTESTATION_PROVIDER_KUBERNETES_WORKLOAD Kubernetes.EvidenceFormat
    (json_Print (JObject [("token"%string, JString token)])) challengeID [].

(** ** The texts are read back *)

Definition evidence_typed (e : Evidence) : Prop :=
  0 <= ev_SchemaVersion e <= uint32_max /\ text (ev_ChallengeID e) /\ text (ev_NonceHash e) /\
  selection_typed (ev_PCRSelection e) /\ NoDup (ev_PCRValues e).*1 /\ Forall (fun x => text x.1 /\ text x.2) (ev_PCRValues e) /\
  text (ev_EKPublicHash e) /\ text (ev_PlatformHint e) /\ text (ev_CollectedBy e) /\ text (ev_CollectedAtUTC e).

Definition ordered_evidence (e : Evidence) : Evidence := set_ev_PCRValues (sorted_entries (ev_PCRValues e)) e.

Lemma evidence_printable e : evidence_typed e -> printable 3 (Evidence_json e).
Proof.
  intros (H1 & H2 & H3 & H4 & _ & H5 & H6 & H7 & H8 & H9). apply members_printable. rewrite !Forall_app. split_and!.
  - members; auto with printing. by apply selection_printable.
  - by apply omit_printable.
  - by apply omit_printable.
  - by apply omit_printable.
  - by apply omit_printable.
Qed.

(** Members in a row. *)
Lemma decode_app {St} (fields : list (string * (json -> St -> result St))) ms1 ms2 st :
  decode_struct fields (JObject (ms1 ++ ms2)) st =
  (st' ← decode_struct fields (JObject ms1) st; decode_struct fields (JObject ms2) st').
Proof.
  unfold decode_struct. revert st. induction ms1 as [|[name v] ms1 IH]; intros st; [done|].
  cbn [app foldR fst snd]. destruct (find_field fields name) as [set|]; cbn [mbind result_bind]; [|apply IH].
  destruct (set v st); cbn [mbind result_bind]; [apply IH | done].
Qed.

Lemma omit_empty_decode {St} (fields : list (string * (json -> St -> result St))) name (set : string -> St -> St) s st :
  find_field fields name = Some (field decode_string set) -> set EmptyString st = st ->
  decode_struct fields (JObject (omit_empty name s)) st = Ok (set s st).
Proof. intros Hf He. erewrite omit_empty_cases by exact Hf. destruct (String.eqb_spec s EmptyString) as [->|]; [by rewrite He | done]. Qed.

(** The optional members, decoded into evidence that has none of them. *)
Lemma decode_optional st ek hint by_ at_ :
  ev_EKPublicHash st = EmptyString -> ev_PlatformHint st = EmptyString -> ev_CollectedBy st = EmptyString ->
  ev_CollectedAtUTC st = EmptyString ->
  decode_struct evidence_fields
    (JObject (omit_empty "ek_public_hash" ek ++ omit_empty "platform_hint" hint ++ omit_empty "collected_by" by_ ++
              omit_empty "collected_at_utc" at_)) st
  = Ok (set_ev_CollectedAt at_ (set_ev_CollectedBy by_ (set_ev_PlatformHint hint (set_ev_EKPublicHash ek st)))).
Proof.
  destruct st as [v c nh ak q sig sel vals ek0 hint0 by0 at0]. cbn [ev_EKPublicHash ev_PlatformHint ev_CollectedBy ev_CollectedAtUTC].
  intros -> -> -> ->. do 3 (rewrite decode_app; erewrite omit_empty_decode by reflexivity; cbn [mbind result_bind]).
  by erewrite omit_empty_decode by reflexivity.
Qed.

Lemma decode_evidence e :
  evidence_typed e -> decode_struct evidence_fields (Evidence_json e) zero_evidence = Ok (ordered_evidence e).
Proof.
  intros (Hv & _ & _ & Hs & Hnd & _). unfold Evidence_json. rewrite decode_app.
  decode_step. rewrite field_uint32 by done. cbn [mbind result_bind].
  do 2 (decode_step; rewrite field_string; cbn [mbind result_bind]).
  do 3 (decode_step; rewrite bytes_field_json; cbn [mbind result_bind]).
  decode_step. unfold in_place at 1. cbn [ev_PCRSelection set_ev_Signature set_ev_Quote set_ev_AKPublic set_ev_NonceHash set_ev_Challenge set_ev_Schema zero_evidence].
  rewrite decode_selection by done. cbn [mbind result_bind].
  decode_step. unfold in_place at 1. cbn [ev_PCRValues set_ev_PCRSelection set_ev_Signature set_ev_Quote set_ev_AKPublic set_ev_NonceHash set_ev_Challenge set_ev_Schema zero_evidence].
  rewrite string_map_roundtrip by done. cbn [mbind result_bind]. rewrite decode_end. cbn [mbind result_bind].
  rewrite decode_optional by done. by destruct e.
Qed.

Lemma unmarshal_print {A} (fields : list (string * (json -> A -> result A))) zero v d :
  printable d v -> Z.of_nat d <= maxNestingDepth -> unmarshal fields zero (json_Print v) = decode_struct fields v zero.
Proof. intros Hp Hd. unfold unmarshal. by rewrite (json_Parse_Print d). Qed.

(** Validation of the values does not depend on their order when the keys are distinct
    numbers. *)
Lemma unmarshal_evidence e :
  evidence_typed e -> unmarshal evidence_fields zero_evidence (json_Print (Evidence_json e)) = Ok (ordered_evidence e).
Proof.
  intros He. rewrite (unmarshal_print _ _ _ 3) by (done || by apply evidence_printable). by apply decode_evidence.
Qed.

Lemma token_printable token : text token -> printable 1 (JObject [("token"%string, JString token)]).
Proof. intros Ht. apply members_printable. members. by apply string_printable. Qed.

Lemma unmarshal_token token :
  text token -> unmarshal token_fields EmptyString (json_Print (JObject [("token"%string, JString token)])) = Ok token.
Proof. intros Ht. rewrite (unmarshal_print _ _ _ 1) by (done || by apply token_printable). done. Qed.

(** ** Validation after the round trip *)

Lemma decode_pcr_indep m1 m2 e m1' :
  decode_pcr m1 e = Ok m1' -> exists i v, m1' = <[i := v]> m1 /\ decode_pcr m2 e = Ok (<[i := v]> m2).
Proof.
  destruct e as [rawIndex rawValue]. unfold decode_pcr. destruct (Atoi rawIndex) as [i|]; [|done]. intros H. inv_ok.
  use_eqs. eexists _, _. split; [reflexivity|]. done.
Qed.

(** What decoding registers depends on the order of the entries only through which of
    two spellings of one register wins. *)
Lemma decode_pcrs_perm l l' m m1 :
  l ≡ₚ l' -> foldR decode_pcr m l = Ok m1 -> exists m2, foldR decode_pcr m l' = Ok m2 /\ dom m2 = dom m1.
Proof.
  assert (forall l (m m' m1 : gmap Z bytes), dom m = dom m' -> foldR decode_pcr m l = Ok m1 ->
    exists m2, foldR decode_pcr m' l = Ok m2 /\ dom m2 = dom m1) as Hdom.
  { clear. induction l as [|e l IH]; intros m m' m1 Hd; cbn [foldR]; [intros [= <-]; by exists m'|]. intros H. inv_ok.
    match goal with E : decode_pcr m e = Ok _ |- _ => destruct (decode_pcr_indep _ m' _ _ E) as (i & v & -> & ->) end.
    cbn [mbind result_bind]. eapply IH; [|eassumption]. rewrite !dom_insert_L. set_solver. }
  intros Hp. revert m m1. induction Hp as [|e l l' Hp IH|e e' l|l l' l'' Hp1 IH1 Hp2 IH2]; intros m m1 H.
  - by exists m1.
  - cbn [foldR] in *. inv_ok. use_eqs. cbn [mbind result_bind]. by apply IH.
  - cbn [foldR] in *. inv_ok.
    match goal with E : decode_pcr m e' = Ok ?x, E2 : decode_pcr ?x e = Ok _ |- _ =>
      destruct (decode_pcr_indep _ m _ _ E2) as (i & v & -> & ->); destruct (decode_pcr_indep _ (<[i := v]> m) _ _ E) as (j & w & -> & Hw) end.
    cbn [mbind result_bind]. rewrite Hw. cbn [mbind result_bind]. eapply Hdom; [|eassumption]. rewrite !dom_insert_L. set_solver.
  - destruct (IH1 _ _ H) as (m2 & H2 & D2). destruct (IH2 _ _ H2) as (m3 & H3 & D3). exists m3. split; [done | congruence].
Qed.

Lemma require_pcrs_dom (m m' : gmap Z bytes) l : dom m = dom m' -> require_pcrs m l = require_pcrs m' l.
Proof.
  intros Hd. induction l as [|p l IH]; [done|]. cbn [require_pcrs]. rewrite IH.
  assert (bool_decide (is_Some (m !! p)) = bool_decide (is_Some (m' !! p))) as ->; [|done].
  apply bool_decide_ext. by rewrite <- !elem_of_dom, Hd.
Qed.

Lemma Evidence_Validate_ordered e : Evidence_Validate e = Ok tt -> Evidence_Validate (ordered_evidence e) = Ok tt.
Proof.
  unfold Evidence_Validate. destruct e as [v c nh ak q sig sel vals ek hint by_ at_].
  cbn [ordered_evidence set_ev_PCRValues ev_SchemaVersion ev_ChallengeID ev_NonceHash ev_AKPublic ev_Quote ev_Signature ev_PCRSelection ev_PCRValues].
  intros H. inv_ok. use_eqs. cbn [check mbind result_bind map_err].
  match goal with E : DecodePCRValues vals = Ok ?x |- _ => rename E into Hd, x into values end.
  destruct vals as [|e vals]; [done|]. unfold DecodePCRValues in *.
  assert (e :: vals ≡ₚ sorted_entries (e :: vals)) as Hp by (unfold sorted_entries; by rewrite merge_sort_Permutation).
  destruct (decode_pcrs_perm _ _ _ _ Hp Hd) as (m2 & Hm2 & D2).
  destruct (sorted_entries (e :: vals)) as [|e' vals'] eqn:E; [by apply Permutation_nil_r in Hp|]. rewrite Hm2. cbn [map_err mbind result_bind].
  by rewrite (require_pcrs_dom m2 values).
Qed.

(** Evidence that was marshalled is read back by the verifier's parser, its
    registers in the order of their names. *)
Theorem Evidence_roundtrip e payload :
  evidence_typed e -> Evidence_Marshal e = Ok payload ->
  @UnmarshalEvidence Evidence_JSON payload = Ok (ordered_evidence e).
Proof.
  unfold Evidence_Marshal. intros He Hm. apply bind_Ok in Hm as ([] & Hv & Hm).
  assert (json_Print (Evidence_json e) = payload) as <- by congruence. clear Hm. unfold UnmarshalEvidence, Evidence_JSON. cbn [json_Unmarshal_Evidence].
  rewrite unmarshal_evidence by done. cbn [map_err mbind result_bind]. by rewrite Evidence_Validate_ordered.
Qed.

(** The envelope a workload sends is decoded by the broker to the same token, within
    the size limit. *)
Theorem token_envelope_roundtrip challengeID token :
  text token -> token <> EmptyString -> len (ev_Payload (NewEvidenceEnvelope challengeID token)) <= MaxProtoPayloadSize ->
  @decodeEvidencePayload Token_JSON (Some (NewEvidenceEnvelope challengeID token)) = Ok token.
Proof.
  intros Ht Hne Hl. unfold decodeEvidencePayload. cbn [of_option mbind result_bind]. rewrite (proj2 (Z.ltb_ge _ _) Hl).
  change (ev_Provider (NewEvidenceEnvelope challengeID token) =? _) with true.
  change (String.eqb (ev_Format (NewEvidenceEnvelope challengeID token)) _) with true.
  change (len (ev_Payload (NewEvidenceEnvelope challengeID token)) =? 0) with false. cbn [check mbind result_bind negb].
  cbn [json_Unmarshal_token Token_JSON NewEvidenceEnvelope ev_Payload]. rewrite unmarshal_token by done.
  cbn [map_err mbind result_bind]. by rewrite (proj2 (String.eqb_neq _ _) Hne).
Qed.

Lemma Evidence_roundtrip_witness :
  @UnmarshalEvidence Evidence_JSON (json_Print (Evidence_json example_evidence)) = Ok (ordered_evidence example_evidence).
Proof.
  refine (Evidence_roundtrip example_evidence (json_Print (Evidence_json example_evidence)) _ _).
  - unfold evidence_typed, selection_typed. split_and!.
    all: try reflexivity; cbn [example_evidence ev_SchemaVersion ev_PCRSelection sel_PCRs ev_PCRValues].
    1-2: unfold uint32_max; lia.
    + apply Forall_singleton. unfold int64_max. lia.
    + apply NoDup_singleton.
    + apply Forall_singleton. by split.
  - vm_cast_no_check (@eq_refl _ (Ok (json_Print (Evidence_json example_evidence)))).
Defined.

Lemma token_envelope_roundtrip_witness :
  @decodeEvidencePayload Token_JSON (Some (NewEvidenceEnvelope "chal-1" "header.payload.signature")) = Ok "header.payload.signature"%string.
Proof. apply (token_envelope_roundtrip "chal-1" "header.payload.signature"); vm_compute; congruence. Defined.
