(* ===== verification/TpmAttest.v ===== *)
(** * Quoting with a TPM (internal/tpm: ak.go, device.go, quote.go;
    internal/attestation/providers/tpm/provider.go)

    The side of the node: opening the device, creating the attestation key, quoting a
    challenge nonce and wrapping the evidence in an envelope; and the provider's check
    of such an envelope.  What a TPM that works as specified quotes, under a policy
    captured from the same registers, is accepted. *)

From S2P Require Import Prelude GoStrings GoTime Json JsonText KeyProtection Gf256 Shamir Recovery Policy Kubernetes.
From S2P Require Import Tpm TpmSeal StateText EvidenceText.
From Stdlib Require Import Ascii.
Local Open Scope Z_scope.

(** ** The device *)

(** The further commands of go-tpm that attestation uses, with the fixed arguments of
    this code left out: the owner hierarchy, the template of an RSA-2048 signing key
    with RSASSA and SHA-256, an empty owner password. *)
Class TpmAttestor `{TpmDevice} := {
  tpm_OpenTPM : string -> tpm -> result unit * tpm;
  tpm_Close : tpm -> tpm;
  tpm_CreateAK : string -> tpm -> result (Handle * bytes * bytes) * tpm;
  tpm_QuoteRaw : Handle -> string -> bytes -> PCRSelection -> tpm -> result (bytes * bytes) * tpm;
}.

(** ** ak.go *)

Definition defaultAKAuth : string := EmptyString.

Record AK := mkAK { ak_Handle : Handle; ak_Public : bytes; ak_Name : bytes; ak_auth : string }.

(** ** provider.go: claims *)

Definition ClaimNamespace : string := "tpm".

Definition FormatBool (b : bool) : string := if b then "true" else "false".

(** [fmt.Sprint] of an [[]int]. *)
Definition SprintInts (l : list Z) : string := "[" +:+ Join (FormatInt <$> l) " " +:+ "]".

Definition ClaimsToProto (claims : Claims) : list (string * string * string) :=
  [("dev", "subject", cl_SubjectFingerprint claims);
   (ClaimNamespace, "ak_public_hash", cl_AKPublicHash claims);
   (ClaimNamespace, "pcr_hash", sel_Hash (cl_PCRSelection claims));
   (ClaimNamespace, "pcrs", SprintInts (sel_PCRs (cl_PCRSelection claims)));
   (ClaimNamespace, "pcr_digest", cl_PCRDigest claims);
   (ClaimNamespace, "fresh", FormatBool (cl_Fresh claims));
   (ClaimNamespace, "secureboot", FormatBool (cl_SecureBoot claims));
   (ClaimNamespace, "policy_mode", cl_PolicyMode claims);
   (ClaimNamespace, "provider_profile", cl_ProviderProfile claims)]%string.

Definition quote_envelope (payload : bytes) (challengeID : string) (claims : list (string * string * string))
  : EvidenceEnvelope :=
  mkEvidenceEnvelope ATTESTATION_PROVIDER_TPM2_QUOTE Tpm.EvidenceFormat payload challengeID claims.

(** ** provider.go: Verify *)

Definition Verify `{Hashes, TpmLib, EvidenceJSON} (envelope : option EvidenceEnvelope) (expectedNonce : bytes)
  (policy : TPMPolicy) : result (EvidenceEnvelope * Claims) :=
  envelope ← of_option (errorw Tpm.ErrInvalidEvidence "evidence envelope is required") envelope;
  check (ev_Provider envelope =? ATTESTATION_PROVIDER_TPM2_QUOTE)
    (errorw Tpm.ErrInvalidEvidence "provider is not TPM2_QUOTE");;
  check (String.eqb (ev_Format envelope) Tpm.EvidenceFormat)
    (errorw Tpm.ErrInvalidEvidence "unsupported TPM evidence format");;
  evidence ← UnmarshalEvidence (ev_Payload envelope);
  check (String.eqb (Tpm.ev_ChallengeID evidence) (ev_ChallengeId envelope))
    (errorw Tpm.ErrInvalidEvidence "challenge ID mismatch");;
  claims ← EvaluatePolicy evidence expectedNonce policy;
  Ok (mkEvidenceEnvelope (ev_Provider envelope) (ev_Format envelope) (ev_Payload envelope) (ev_ChallengeId envelope)
        (ClaimsToProto claims), claims).

Section Attest.
Context `{TpmAttestor, Hashes}.

Definition CreateAK : tpm_cmd AK :=
  map_error (errorp "create AK") (tpm_CreateAK defaultAKAuth) ≫= fun '(handle, public, name) =>
  mret (mkAK handle public name defaultAKAuth).

(** The error of the flush is dropped by its only caller. *)
Definition AK_Flush (ak : AK) : tpm_cmd unit :=
  if ak_Handle ak =? 0 then mret tt else flush (ak_Handle ak).

(** ** device.go *)

Definition or_close_tpm {A} (m : tpm_cmd A) : tpm_cmd A := fun t =>
  match m t with
  | (Ok a, t') => (Ok a, t')
  | (Err e, t') => (Err e, tpm_Close t')
  end.

(** [before] and [after] are what [ctx.Err()] says around the opening; the TPM is
    closed again when the context was cancelled meanwhile. *)
Definition Device_Open (before after : result unit) (path : string) : tpm_cmd unit :=
  lift before ≫= fun _ =>
  map_error (errorp "open TPM") (tpm_OpenTPM path) ≫= fun _ =>
  or_close_tpm (lift after).

(** ** quote.go *)

(** The connection is never nil here; [now] is what [time.Now()] returns. *)
Definition CollectQuote (ak : AK) (challengeID : string) (nonce : bytes) (selection : PCRSelection)
  (platformHint : string) (now : Time) : tpm_cmd Evidence :=
  lift (check (negb ((ak_Handle ak =? 0) || (len (ak_Public ak) =? 0))) (errorw Tpm.ErrInvalidEvidence "AK is required")) ≫= fun _ =>
  lift (check (negb (len nonce =? 0)) (errorw Tpm.ErrInvalidEvidence "nonce is required")) ≫= fun _ =>
  lift (map_err (fun e => errorw Tpm.ErrInvalidEvidence (err_msg e)) (Selection_Normalize selection)) ≫= fun normalized =>
  lift (Selection_legacy normalized) ≫= fun legacySelection =>
  map_error (errorp "collect TPM quote") (tpm_QuoteRaw (ak_Handle ak) (ak_auth ak) nonce legacySelection) ≫= fun quote =>
  map_error (errorp "read PCR values") (tpm_ReadPCRs legacySelection) ≫= fun pcrValues =>
  let evidence :=
    mkEvidence EvidenceSchemaVersion challengeID (NonceDigest nonce) (ak_Public ak) quote.1 quote.2 normalized
      (EncodePCRValues pcrValues) EmptyString platformHint "go-tpm" (FormatRFC3339Nano now) in
  lift (Evidence_Validate evidence) ≫= fun _ =>
  mret evidence.

(** ** provider.go: Collect *)

(** [defer ak.Flush(rwc)] and [defer rwc.Close()]. *)
Definition then_always {A} (rest : tpm_cmd A) (cleanup : tpm -> tpm) : tpm_cmd A := fun t =>
  let '(r, t') := rest t in (r, cleanup t').

Definition Provider_Collect (before after : result unit) (path challengeID : string) (nonce : bytes)
  (selection : PCRSelection) (platformHint : string) (now : Time) : tpm_cmd EvidenceEnvelope :=
  Device_Open before after path ≫= fun _ =>
  then_always (
    CreateAK ≫= fun ak =>
    then_always (
      CollectQuote ak challengeID nonce selection platformHint now ≫= fun evidence =>
      lift (Evidence_Marshal evidence) ≫= fun payload =>
      mret (quote_envelope payload challengeID []))
      (fun t => (AK_Flush ak t).2))
    tpm_Close.
End Attest.

(** ** A TPM that works as specified *)

(** [registers t sel] are the values of the selected registers in the order of the
    selection; no command of this code changes them.  A quote is signed by the loaded
    key over the caller's nonce and the digest of the selected registers; one
    TPM2_PCR_Read returns at most eight of them, in an unspecified order. *)
Class TpmQuoteLaws `{TpmAttestor, Hashes, TpmLib} := {
  registers : tpm -> PCRSelection -> list (Z * bytes);
  ak_public : tpm -> bytes;
  loaded_key : tpm -> Handle -> option bytes;
  OpenTPM_keeps path t r t' :
    tpm_OpenTPM path t = (r, t') -> registers t' = registers t /\ ak_public t' = ak_public t;
  CreateAK_loads auth t h public name t' :
    tpm_CreateAK auth t = (Ok (h, public, name), t') ->
    public = ak_public t /\ loaded_key t' h = Some public /\ registers t' = registers t;
  QuoteRaw_keeps h auth nonce sel t r t' :
    tpm_QuoteRaw h auth nonce sel t = (r, t') -> registers t' = registers t;
  QuoteRaw_registers h auth nonce sel t q t' :
    tpm_QuoteRaw h auth nonce sel t = (Ok q, t') ->
    (registers t sel).*1 = sel_PCRs sel /\
    Forall (fun e => hashDigestSize (sel_Hash sel) = Ok (len e.2)) (registers t sel);
  QuoteRaw_signs h auth nonce sel t q t' public :
    tpm_QuoteRaw h auth nonce sel t = (Ok q, t') -> loaded_key t h = Some public ->
    exists area key raw, DecodePublic public = Ok area /\ PublicKeyOf area = Ok (RSAPublicKey key) /\
      DecodeSignature q.2 = Ok (mkSignature AlgRSASSA (Some (mkSignatureRSA AlgSHA256 raw)) None) /\
      AlgorithmHash AlgSHA256 = Ok HashSHA256 /\ VerifyPKCS1v15 key HashSHA256 (Sum HashSHA256 q.1) raw = true;
  QuoteRaw_attests h auth nonce sel t q t' :
    tpm_QuoteRaw h auth nonce sel t = (Ok q, t') ->
    exists alg, hashNameOf alg = sel_Hash sel /\
      DecodeAttestationData q.1 = Ok (mkAttestationData TagAttestQuote nonce
        (Some (mkQuoteInfo alg (sel_PCRs sel) (Sum (sel_Hash sel) (Join (registers t sel).*2 EmptyString)))));
  ReadPCRs_returns sel t values t' :
    tpm_ReadPCRs sel t = (Ok values, t') -> (length (sel_PCRs sel) <= 8)%nat -> values ≡ₚ registers t sel;
}.

(** ** Registers as text *)

Lemma hex_no_prefix v : TrimPrefix (hex_EncodeToString v) "0x" = hex_EncodeToString v.
Proof. unfold TrimPrefix. destruct v as [|[[] [] [] [] [] [] [] []] v]; reflexivity. Qed.

Lemma Atoi_index i : 0 <= i <= 23 -> Atoi (FormatInt i) = Some i.
Proof.
  intros Hi. assert (Forall (fun i => Atoi (FormatInt i) = Some i) (seqZ 0 24)) as Hf
    by (apply (bool_decide_unpack _); vm_compute; reflexivity).
  rewrite Forall_forall in Hf. apply Hf, elem_of_seqZ. lia.
Qed.

Lemma decode_register m i v : 0 <= i <= 23 -> decode_pcr m (FormatInt i, hex_EncodeToString v) = Ok (<[i := v]> m).
Proof.
  intros Hi. unfold decode_pcr. rewrite Atoi_index, hex_no_prefix, hex_Decode_Encode by done.
  rewrite (proj2 (andb_true_iff _ _)) by lia. done.
Qed.

Lemma decode_registers vs m :
  NoDup vs.*1 -> Forall (fun e => 0 <= e.1 <= 23) vs -> foldR decode_pcr m (EncodePCRValues vs) = Ok (list_to_map vs ∪ m).
Proof.
  revert m. induction vs as [|[i v] vs IH]; intros m Hnd Hf; [by rewrite list_to_map_nil, (left_id_L ∅ (∪))|].
  apply Forall_cons in Hf as [Hi Hf]. cbn [fmap list_fmap fst] in Hnd. apply NoDup_cons in Hnd as [Hni Hnd].
  cbn [EncodePCRValues fmap list_fmap foldR]. rewrite decode_register by done. cbn [mbind result_bind].
  change (list_fmap _ _ _ vs) with (EncodePCRValues vs). rewrite IH by done. f_equal. cbn [list_to_map foldr]. cbn.
  rewrite <- insert_union_l, insert_union_r; [done|]. by apply not_elem_of_list_to_map_1.
Qed.

(** However the map of values is ordered, it is read as the same registers. *)
Lemma DecodePCRValues_registers l vs :
  l ≡ₚ EncodePCRValues vs -> vs <> [] -> NoDup vs.*1 -> Forall (fun e => 0 <= e.1 <= 23) vs ->
  DecodePCRValues l = Ok (list_to_map vs).
Proof.
  intros Hp Hne Hnd Hf. apply Permutation_map_inv in Hp as (vs' & -> & Hp).
  change (map _ vs') with (EncodePCRValues vs'). assert (EncodePCRValues vs' <> []) as Hne'.
  { intros E. apply fmap_nil_inv in E as ->. apply Permutation_nil_r in Hp. done. }
  unfold DecodePCRValues. destruct (EncodePCRValues vs') as [|e l'] eqn:E; [done|]. rewrite <- E, decode_registers.
  - rewrite (right_id_L ∅ (∪)). f_equal. symmetry. by apply list_to_map_proper.
  - by rewrite <- Hp.
  - by rewrite <- Hp.
Qed.

Lemma Join_cons_empty v vs : Join (v :: vs) EmptyString = v +:+ Join vs EmptyString.
Proof. destruct vs; [|done]. cbn [Join]. by rewrite sapp_nil_r. Qed.

Lemma pcr_bytes_registers size vs (m : gmap Z bytes) :
  Forall (fun e => size = len e.2) vs -> Forall (fun e => m !! e.1 = Some e.2) vs ->
  pcr_bytes size m vs.*1 = Ok (Join vs.*2 EmptyString).
Proof.
  induction vs as [|[i v] vs IH]; [done|]. intros [Hs Hss]%Forall_cons [Hv Hvs]%Forall_cons. cbn [fst snd] in *.
  cbn [fmap list_fmap pcr_bytes fst snd]. rewrite Hv. cbn [of_option mbind result_bind]. rewrite <- Hs, Z.eqb_refl.
  cbn [check mbind result_bind]. change (list_fmap _ _ fst vs) with vs.*1. rewrite IH by done. cbn [mbind result_bind].
  by rewrite <- Join_cons_empty.
Qed.

Lemma list_to_map_values (vs : list (Z * bytes)) :
  NoDup vs.*1 -> Forall (fun e => (list_to_map vs : gmap Z bytes) !! e.1 = Some e.2) vs.
Proof. intros Hnd. apply Forall_forall. intros [i v] Hin. by apply elem_of_list_to_map_1. Qed.

(** The digest of the selected registers. *)
Definition register_digest `{Hashes} (hash : string) (vs : list (Z * bytes)) : bytes := Sum hash (Join vs.*2 EmptyString).

Lemma ComputePCRDigest_registers `{Hashes} sel vs :
  selection_ok sel -> vs.*1 = sel_PCRs sel -> Forall (fun e => hashDigestSize (sel_Hash sel) = Ok (len e.2)) vs ->
  ComputePCRDigest sel (list_to_map vs) = Ok (register_digest (sel_Hash sel) vs).
Proof.
  intros Hok Hk Hs. unfold ComputePCRDigest. rewrite Selection_Normalize_id by done. cbn [mbind result_bind].
  destruct (hashDigestSize (sel_Hash sel)) as [size|e] eqn:Eh.
  2:{ exfalso. destruct vs as [|v vs]; [|by apply Forall_cons in Hs as [? _]].
      destruct Hok as (_ & Hne & _). by rewrite <- Hk in Hne. }
  cbn [mbind result_bind]. rewrite <- Hk, pcr_bytes_registers.
  - cbn [mbind result_bind]. by rewrite (proj1 (known_hash_fix _ (proj1 Hok))).
  - eapply Forall_impl; [exact Hs|]. intros e [= ->]. done.
  - apply list_to_map_values. rewrite Hk. apply Hok.
Qed.

Lemma digest_text (m : bytes) : text ("sha256:" +:+ hex_EncodeToString m).
Proof. apply ascii_valid, ascii_app; [done | apply visible_ascii, hex_visible]. Qed.

(** ** Evidence from such a TPM *)

Section Genuine.
Context `{TpmQuoteLaws}.

(** Evidence of the attestation key [ak] over [nonce] and the registers [vs] of the
    selection [sel]; the order of its map is left open. *)
Record genuine (ak : bytes) (vs : list (Z * bytes)) (nonce : bytes) (sel : PCRSelection) (e : Evidence) : Prop := {
  gen_valid : Evidence_Validate e = Ok tt;
  gen_ak : ev_AKPublic e = ak;
  gen_nonce : ev_NonceHash e = NonceDigest nonce /\ nonce <> EmptyString;
  gen_selection : ev_PCRSelection e = sel /\ selection_ok sel;
  gen_registers : vs.*1 = sel_PCRs sel /\ Forall (fun x => hashDigestSize (sel_Hash sel) = Ok (len x.2)) vs;
  gen_values : ev_PCRValues e ≡ₚ EncodePCRValues vs;
  gen_signed : quote_signed e;
  gen_attests : exists alg, hashNameOf alg = sel_Hash sel /\
    DecodeAttestationData (ev_Quote e) = Ok (mkAttestationData TagAttestQuote nonce
      (Some (mkQuoteInfo alg (sel_PCRs sel) (register_digest (sel_Hash sel) vs))));
}.

Definition genuine_claims (ak : bytes) (vs : list (Z * bytes)) (nonce : bytes) (sel : PCRSelection) : QuoteClaims :=
  mkQuoteClaims (PublicDigest ak) sel (digestString (sel_Hash sel) (register_digest (sel_Hash sel) vs)) (NonceDigest nonce).

Lemma genuine_verifies ak vs nonce sel e : genuine ak vs nonce sel e -> VerifyQuote e nonce = Ok (genuine_claims ak vs nonce sel).
Proof.
  intros [Hv Hak [Hn Hne] [Hsel Hok] [Hk Hsz] Hvals (area & key & sig & Hd1 & Hd2 & Hd3 & Hsig) (alg & Halg & Hatt)].
  pose proof Hok as (_ & Hsne & _ & Hnd & Hrange).
  unfold VerifyQuote, verifyNonceHash, verifyAKSignature. rewrite Hv. cbn [mbind result_bind].
  rewrite (proj2 (Z.eqb_neq _ _)) by (by rewrite len_zero). rewrite Hn, String.eqb_refl. cbn [check negb mbind result_bind].
  rewrite Hd1. cbn [map_err mbind result_bind]. rewrite Hd2. cbn [map_err mbind result_bind]. rewrite Hd3.
  cbn [map_err mbind result_bind]. rewrite (proj2 (verifySignature_Ok _ _ _) Hsig). cbn [mbind result_bind].
  erewrite (proj2 (verifyAttestation_Ok _ _ _)) by (eexists; split_and!; [exact Hatt | done..]). cbn [mbind result_bind].
  unfold verifyAttestedPCRs, selectionFromLegacy. cbn [qi_Hash qi_PCRs qi_PCRDigest]. rewrite Halg, Hsel.
  replace (mkPCRSelection (sel_Hash sel) (sel_PCRs sel)) with sel by (by destruct sel). rewrite Selection_Normalize_id by done.
  cbn [map_err mbind result_bind]. rewrite (proj2 (sameSelection_spec _ _) eq_refl). cbn [check mbind result_bind].
  rewrite (DecodePCRValues_registers _ vs); [| done | by intros -> | by rewrite Hk |].
  2:{ apply Forall_forall. intros x Hx. rewrite Forall_forall in Hrange. apply Hrange. rewrite <- Hk. by apply list_elem_of_fmap_2. }
  cbn [map_err mbind result_bind]. rewrite ComputePCRDigest_registers by done. cbn [map_err mbind result_bind].
  rewrite String.eqb_refl. cbn [check mbind result_bind]. by rewrite Hak.
Qed.

Lemma genuine_ordered ak vs nonce sel e : genuine ak vs nonce sel e -> genuine ak vs nonce sel (ordered_evidence e).
Proof.
  intros [Hv Hak Hn Hsel Hk Hvals Hs Ha]. destruct e as [v id nh k q sig s vals ek hint by_ at_]. split; try done.
  - by apply Evidence_Validate_ordered.
  - cbn [ordered_evidence set_ev_PCRValues ev_PCRValues] in *. unfold sorted_entries. by rewrite merge_sort_Permutation.
Qed.

(** A policy that the registers [vs] satisfy: its mode is tpm-only, or secureboot with
    the digest captured from these registers. *)
Record policy_accepts (policy : TPMPolicy) (ak : bytes) (vs : list (Z * bytes)) (sel : PCRSelection) : Prop := {
  acc_valid : Policy_Validate policy = Ok tt;
  acc_ak : tp_EnrolledAKPublicHash policy = EmptyString \/ tp_EnrolledAKPublicHash policy = PublicDigest ak;
  acc_mode : tp_Mode policy = PolicyModeTPMOnly \/
    tp_Mode policy = PolicyModeSecureBoot /\ exists pcr profile, tp_PCRPolicy policy = Some pcr /\
      NewPCRPolicy sel (list_to_map vs) profile = Ok pcr;
}.

Definition accepted_claims (policy : TPMPolicy) (claims : QuoteClaims) : Claims :=
  mkClaims (qc_AKPublicHash claims) (qc_AKPublicHash claims) (qc_PCRSelection claims) (qc_PCRDigest claims)
    (String.eqb (tp_Mode policy) PolicyModeSecureBoot) true (tp_Mode policy) (tp_ProviderProfile policy).

Lemma genuine_accepted ak vs nonce sel e policy :
  genuine ak vs nonce sel e -> policy_accepts policy ak vs sel ->
  EvaluatePolicy e nonce policy = Ok (accepted_claims policy (genuine_claims ak vs nonce sel)).
Proof.
  intros Hg [Hv Hak Hm]. unfold EvaluatePolicy. rewrite Hv, (genuine_verifies _ _ _ _ _ Hg). cbn [mbind result_bind].
  rewrite (proj2 (orb_true_iff _ _)) by (rewrite !String.eqb_eq; by destruct Hak; [left|right]). cbn [check mbind result_bind].
  destruct Hm as [Hm|(Hm & pcr & profile & Hp & Hcap)].
  - unfold accepted_claims. by rewrite Hm.
  - unfold accepted_claims. rewrite Hm. change (String.eqb PolicyModeSecureBoot PolicyModeTPMOnly) with false.
    change (String.eqb PolicyModeSecureBoot PolicyModeSecureBoot) with true. cbv iota. unfold verifySecureBootPolicy. rewrite Hp.
    destruct Hg as [_ _ _ [_ Hok] [Hk Hsz] _ _ _]. unfold NewPCRPolicy in Hcap.
    rewrite ComputePCRDigest_registers, Selection_Normalize_id in Hcap by done. cbn [mbind result_bind] in Hcap. injection Hcap as <-.
    cbn [of_option mbind result_bind pp_ExpectedDigest pp_Selection genuine_claims qc_PCRDigest qc_PCRSelection].
    rewrite String.eqb_refl. cbn [check mbind result_bind]. by rewrite (proj2 (sameSelection_spec _ _) eq_refl).
Qed.

Lemma collected_genuine ak id nonce sel hint now t e t' nsel :
  CollectQuote ak id nonce sel hint now t = (Ok e, t') -> loaded_key t (ak_Handle ak) = Some (ak_Public ak) ->
  Selection_Normalize sel = Ok nsel -> (length (sel_PCRs nsel) <= 8)%nat -> text id -> text hint ->
  genuine (ak_Public ak) (registers t nsel) nonce nsel e /\ evidence_typed e /\ ev_ChallengeID e = id.
Proof.
  intros Hc Hload Hsel Hlen Hid Hhint. unfold CollectQuote in Hc. inv_cmd. units.
  repeat match goal with H : check _ _ = Ok _ |- _ => apply check_Ok in H end.
  match goal with H : map_err _ _ = Ok _ |- _ => apply map_err_Ok in H; rewrite Hsel in H; injection H as <- end.
  destruct (Selection_Normalize_ok _ _ Hsel) as [Hok _].
  match goal with H : Selection_legacy _ = Ok _ |- _ => unfold Selection_legacy in H; rewrite Selection_Normalize_id in H by done; injection H as <- end.
  match goal with H : tpm_QuoteRaw _ _ _ _ _ = _ |- _ => rename H into Hq end.
  match goal with H : tpm_ReadPCRs _ _ = _ |- _ => rename H into Hr end.
  match goal with H : Evidence_Validate _ = _ |- _ => rename H into Hv end.
  pose proof (QuoteRaw_keeps _ _ _ _ _ _ _ Hq) as Hkeep. destruct (QuoteRaw_registers _ _ _ _ _ _ _ Hq) as [Hk Hsz].
  pose proof (ReadPCRs_returns _ _ _ _ Hr Hlen) as Hp. rewrite Hkeep in Hp.
  destruct (QuoteRaw_signs _ _ _ _ _ _ _ _ Hq Hload) as (area & key & raw & S1 & S2 & S3 & S4 & S5).
  pose proof Hok as (Hknown & _ & _ & Hnd & Hrange).
  assert (Forall (fun e => 0 <= e.1 <= 23) (registers t nsel)) as Hf.
  { apply Forall_forall. intros x Hx. rewrite Forall_forall in Hrange. apply Hrange. rewrite <- Hk. by apply list_elem_of_fmap_2. }
  split_and!; [| |done].
  - split; try done.
    + split; [done|]. intros ->. done.
    + cbn [ev_PCRValues]. unfold EncodePCRValues. by rewrite Hp.
    + exists area, (RSAPublicKey key), (mkSignature AlgRSASSA (Some (mkSignatureRSA AlgSHA256 raw)) None). split_and!; [done..|].
      by eapply valid_rsassa.
    + by apply QuoteRaw_attests in Hq.
  - match type of Hp with ?values ≡ₚ _ => destruct (EncodePCRValues_typed values) as [Hnd' Htext] end.
    + rewrite Hp, Hk. apply Hnd.
    + rewrite Hp. eapply Forall_impl; [exact Hf|]. unfold pcr_index, int64_max. cbn. lia.
    + unfold evidence_typed. cbn [ev_SchemaVersion ev_ChallengeID ev_NonceHash ev_PCRSelection ev_PCRValues ev_EKPublicHash
        ev_PlatformHint ev_CollectedBy ev_CollectedAtUTC]. split_and!; try done.
      * apply digest_text.
      * split; [by apply known_hash_text|]. eapply Forall_impl; [exact Hrange|]. unfold int64_max. cbn. lia.
      * apply FormatRFC3339Nano_text.
Qed.

Lemma then_always_Ok {A} (m : tpm_cmd A) cleanup t a t' :
  then_always m cleanup t = (Ok a, t') -> exists t1, m t = (Ok a, t1) /\ t' = cleanup t1.
Proof. unfold then_always. destruct (m t) as [r t1]. intros [= -> <-]. eauto. Qed.

Lemma Device_Open_keeps before after path t t' :
  Device_Open before after path t = (Ok tt, t') -> registers t' = registers t /\ ak_public t' = ak_public t.
Proof.
  unfold Device_Open. intros Ho. inv_cmd.
  match goal with H : tpm_OpenTPM _ _ = _ |- _ => apply OpenTPM_keeps in H as [<- <-] end.
  unfold or_close_tpm, lift in Ho. destruct after as [[]|]; [|done]. injection Ho as ->. done.
Qed.

(** What [Provider_Collect] returned is the text of genuine evidence. *)
Lemma Provider_Collect_genuine before after path id nonce sel hint now t envelope t' nsel :
  Provider_Collect before after path id nonce sel hint now t = (Ok envelope, t') ->
  Selection_Normalize sel = Ok nsel -> (length (sel_PCRs nsel) <= 8)%nat -> text id -> text hint ->
  exists e payload, envelope = quote_envelope payload id [] /\ Evidence_Marshal e = Ok payload /\ evidence_typed e /\
    genuine (ak_public t) (registers t nsel) nonce nsel e /\ ev_ChallengeID e = id.
Proof.
  intros Hc Hsel Hlen Hid Hhint. unfold Provider_Collect in Hc. apply bind_cmd_Ok in Hc as ([] & t1 & Ho & Hc).
  apply Device_Open_keeps in Ho as [Hreg Hak]. apply then_always_Ok in Hc as (t2 & Hc & ->).
  apply bind_cmd_Ok in Hc as (ak & t3 & Hcr & Hc). apply then_always_Ok in Hc as (t4 & Hc & ->).
  unfold CreateAK in Hcr. apply bind_cmd_Ok in Hcr as ([[h public] name] & t5 & Hcr & Hret). apply ret_Ok in Hret as [<- ->].
  apply map_error_Ok, CreateAK_loads in Hcr as (-> & Hload & Hreg2).
  apply bind_cmd_Ok in Hc as (e & t6 & Hq & Hc). inv_cmd.
  destruct (collected_genuine _ _ _ _ _ _ _ _ _ _ Hq Hload Hsel Hlen Hid Hhint) as (Hg & Ht & Hi).
  cbn [ak_Public] in Hg. rewrite Hreg2, Hreg, Hak in Hg. eexists _, _. split_and!; [reflexivity | eassumption | done..].
Qed.
End Genuine.

(** C29: what a TPM that works as specified quotes is accepted: evidence that [Collect]
    returned passes [Verify] for the same nonce under every valid policy for the node's
    attestation key, whether it asks for the key only or for the registers as they were
    captured, and the claims carry the key, the selection and the digest of the
    registers at the time of the quote. *)
Theorem collected_evidence_accepted `{TpmQuoteLaws} before after path id nonce sel hint now t envelope t' nsel policy :
  Provider_Collect before after path id nonce sel hint now t = (Ok envelope, t') ->
  Selection_Normalize sel = Ok nsel -> (length (sel_PCRs nsel) <= 8)%nat -> text id -> text hint ->
  policy_accepts policy (ak_public t) (registers t nsel) nsel ->
  let claims := accepted_claims policy (genuine_claims (ak_public t) (registers t nsel) nonce nsel) in
  @Verify _ _ Evidence_JSON (Some envelope) nonce policy
  = Ok (quote_envelope (ev_Payload envelope) id (ClaimsToProto claims), claims).
Proof.
  intros Hc Hsel Hlen Hid Hhint Hp claims.
  destruct (Provider_Collect_genuine _ _ _ _ _ _ _ _ _ _ _ _ Hc Hsel Hlen Hid Hhint) as (e & payload & -> & Hm & Ht & Hg & Hi).
  unfold Verify. cbn [of_option mbind result_bind quote_envelope ev_Provider ev_Format ev_Payload ev_ChallengeId].
  rewrite Z.eqb_refl, String.eqb_refl. cbn [check mbind result_bind].
  rewrite (Evidence_roundtrip _ _ Ht Hm). cbn [mbind result_bind].
  replace (Tpm.ev_ChallengeID (ordered_evidence e)) with id by (by destruct e). rewrite String.eqb_refl. cbn [check mbind result_bind].
  by rewrite (genuine_accepted _ _ _ _ _ _ (genuine_ordered _ _ _ _ _ Hg) Hp).
Qed.

(** ** Handles *)

Class AttestHandles `{TpmHandles, !TpmAttestor} := {
  CreateAK_opens auth : forall t, match tpm_CreateAK auth t with
    | (Ok (h, _, _), t') => h <> 0 /\ h ∉ handles t /\ handles t' = {[h]} ∪ handles t
    | (Err _, t') => handles t' = handles t
    end;
  QuoteRaw_handles h auth nonce sel t : handles (tpm_QuoteRaw h auth nonce sel t).2 = handles t;
  OpenTPM_handles path t : handles (tpm_OpenTPM path t).2 = handles t;
  Close_handles t : handles (tpm_Close t) = handles t;
}.

Section AttestHandlesFacts.
Context `{AttestHandles, Hashes}.

Lemma keeps_CollectQuote ak id nonce sel hint now : keeps (CollectQuote ak id nonce sel hint now).
Proof.
  unfold CollectQuote. repeat (apply keeps_bind; [first [apply keeps_lift | apply keeps_map_error, keeps_command, QuoteRaw_handles
    | apply keeps_map_error, keeps_command, ReadPCRs_keeps] | intros ?]). apply keeps_ret.
Qed.

Lemma keeps_then_close {A} (m : tpm_cmd A) : keeps m -> keeps (then_always m tpm_Close).
Proof. intros Hm S t Ht. specialize (Hm S t Ht). unfold then_always. destruct (m t) as [[a|] t1]; by rewrite Close_handles. Qed.

Lemma keeps_with_AK {A} (k : AK -> tpm_cmd A) :
  (forall ak, keeps (k ak)) -> keeps (CreateAK ≫= fun ak => then_always (k ak) (fun t => (AK_Flush ak t).2)).
Proof.
  intros Hk S t Ht. unfold CreateAK, mbind, tpm_bind, map_error. pose proof (CreateAK_opens defaultAKAuth t) as Ho.
  destruct (tpm_CreateAK defaultAKAuth t) as [[[[h public] name]|e] t1]; cbn [map_err mret tpm_ret]; [|by rewrite Ho].
  destruct Ho as (Hne & Hnew & Hh). unfold then_always. specialize (Hk (mkAK h public name defaultAKAuth) _ t1 Hh).
  assert (forall t2, handles t2 = {[h]} ∪ handles t -> handles (AK_Flush (mkAK h public name defaultAKAuth) t2).2 = S) as Hf.
  { intros t2 Ht2. unfold AK_Flush. cbn [ak_Handle]. rewrite (proj2 (Z.eqb_neq _ _) Hne). unfold flush. cbn [snd].
    rewrite FlushContext_closes, Ht2, <- Ht. by apply close_one. }
  destruct (k _ t1) as [[a|] t2]; by apply Hf.
Qed.

(** Collecting evidence leaves no handle open, whether it succeeds or fails. *)
Theorem collect_releases_handles before after path id nonce sel hint now t :
  handles (Provider_Collect before after path id nonce sel hint now t).2 = handles t.
Proof.
  assert (keeps (Provider_Collect before after path id nonce sel hint now)) as Hk.
  { apply keeps_bind.
    - unfold Device_Open. apply keeps_bind; [apply keeps_lift|]. intros _. apply keeps_bind.
      + apply keeps_map_error, keeps_command, OpenTPM_handles.
      + intros [] S t' Ht'. unfold or_close_tpm, lift. destruct after; [done|]. by rewrite Close_handles.
    - intros _. apply keeps_then_close, keeps_with_AK. intros ak. apply keeps_bind; [apply keeps_CollectQuote|].
      intros e. apply keeps_bind; [apply keeps_lift|]. intros payload. apply keeps_ret. }
  specialize (Hk _ t eq_refl). by destruct (Provider_Collect before after path id nonce sel hint now t) as [[|] ?].
Qed.
End AttestHandlesFacts.

(** ** The device in miniature, attesting *)

Definition toy_alg (hash : string) : Z :=
  if String.eqb hash HashSHA1 then AlgSHA1 else if String.eqb hash HashSHA256 then AlgSHA256
  else if String.eqb hash HashSHA384 then AlgSHA384 else AlgSHA512.
Definition toy_register_le (a b : Z * bytes) : Prop := a.1 <= b.1.
#[local] Instance toy_register_le_dec : RelDecision toy_register_le := fun a b => Z_le_dec a.1 b.1.
Definition toy_registers (t : toy_tpm) (sel : PCRSelection) : list (Z * bytes) :=
  merge_sort toy_register_le (toy_selected sel t).

(** A quote is the nonce, the hash, the registers and their digest, in hexadecimal. *)
Definition toy_quote (nonce : bytes) (sel : PCRSelection) (vs : list (Z * bytes)) : bytes :=
  hex_EncodeToString nonce +:+ ":" +:+ sel_Hash sel +:+ ":" +:+ hex_EncodeToString (bytes_of (sel_PCRs sel)) +:+ ":" +:+
  hex_EncodeToString (@register_digest toy_Hashes (sel_Hash sel) vs).
Definition toy_read_quote (q : bytes) : result AttestationData :=
  of_option toy_error (
    '(n, r) ← split_colon q; '(h, r) ← split_colon r; '(p, d) ← split_colon r;
    nonce ← hex_DecodeString n; pcrs ← hex_DecodeString p; digest ← hex_DecodeString d;
    Some (mkAttestationData TagAttestQuote nonce (Some (mkQuoteInfo (toy_alg h) (byte_list pcrs) digest)))).

Definition toy_quotes (sel : PCRSelection) (t : toy_tpm) : Prop :=
  known_hash (sel_Hash sel) = true /\ (toy_registers t sel).*1 = sel_PCRs sel /\
  Forall (fun e => hashDigestSize (sel_Hash sel) = Ok (len e.2)) (toy_registers t sel).
#[local] Instance toy_quotes_dec sel t : Decision (toy_quotes sel t).
Proof. unfold toy_quotes. apply _. Defined.

#[export] Instance toy_attestor : TpmAttestor := {|
  tpm_OpenTPM path t := (Ok tt, t);
  tpm_Close t := t;
  tpm_CreateAK auth t := let '(h, t) := toy_open (ToyObject "ak" EmptyString) t in
    (h ← h; Ok (h, "ak"%string, "name"%string), t);
  tpm_QuoteRaw h auth nonce sel t :=
    (if bool_decide (toy_quotes sel t)
     then let q := toy_quote nonce sel (toy_registers t sel) in Ok (q, toy_Sum HashSHA256 q)
     else Err toy_error, t);
|}.

Definition toy_quote_lib : TpmLib := {|
  DecodePublic p := Ok p;
  PublicKeyOf p := Ok (RSAPublicKey p);
  DecodeSignature s := Ok (mkSignature AlgRSASSA (Some (mkSignatureRSA AlgSHA256 s)) None);
  DecodeAttestationData := toy_read_quote;
  AlgorithmHash _ := Ok HashSHA256;
  VerifyPSS _ _ _ _ := false;
  VerifyPKCS1v15 k h d s := String.eqb d s;
  ECDSAVerify _ _ _ _ := false;
|}.

Lemma hex_no_colon s : no_char ":" (hex_EncodeToString s) = true.
Proof. induction s as [|[[] [] [] [] [] [] [] []] s IH]; first done; exact IH. Qed.

Lemma split_colon_mid a b : no_char ":" a = true -> split_colon (a +:+ ":" +:+ b) = Some (a, b).
Proof. apply split_colon_app. Qed.

Lemma toy_read_toy_quote nonce sel vs :
  known_hash (sel_Hash sel) = true -> Forall is_byte (sel_PCRs sel) ->
  toy_read_quote (toy_quote nonce sel vs) = Ok (mkAttestationData TagAttestQuote nonce
    (Some (mkQuoteInfo (toy_alg (sel_Hash sel)) (sel_PCRs sel) (@register_digest toy_Hashes (sel_Hash sel) vs)))).
Proof.
  intros Hk Hb. unfold toy_read_quote, toy_quote. assert (no_char ":" (sel_Hash sel) = true) as Hh
    by (by apply known_hash_cases in Hk as [->|[->|[->| ->]]]).
  rewrite split_colon_mid by apply hex_no_colon. cbn [mbind option_bind].
  rewrite split_colon_mid by done. cbn [mbind option_bind]. rewrite split_colon_mid by apply hex_no_colon. cbn [mbind option_bind].
  rewrite !hex_Decode_Encode. cbn [mbind option_bind of_option]. by rewrite byte_list_of.
Qed.

#[export] Instance toy_quote_laws : @TpmQuoteLaws toy_device toy_attestor toy_Hashes toy_quote_lib.
Proof.
  refine {| registers := toy_registers; ak_public _ := "ak"%string;
            loaded_key t h := match toy_slots t !! h with Some (ToyObject public _) => Some public | _ => None end |}.
  - intros path t r t' [= <- <-]. done.
  - intros auth t h public name t' [= <- <- <- <-]. split_and!; [done | | done]. cbn [toy_slots]. by rewrite lookup_insert_eq.
  - intros h auth nonce sel t r t' [= <- <-]. done.
  - intros h auth nonce sel t q t' [= Hq <-]. case_bool_decide as Hs; [|done]. apply Hs.
  - intros h auth nonce sel t q t' public [= Hq <-] _. case_bool_decide; [|done]. injection Hq as <-.
    eexists public, public, _. split_and!; [reflexivity..|]. cbn. apply String.eqb_refl.
  - intros h auth nonce sel t q t' [= Hq <-]. case_bool_decide as Hs; [|done]. injection Hq as <-. destruct Hs as (Hk & Hr & _).
    exists (toy_alg (sel_Hash sel)). split; [by apply known_hash_cases in Hk as [->|[->|[->| ->]]]|].
    cbn [DecodeAttestationData toy_quote_lib fst]. apply toy_read_toy_quote; [done|]. rewrite <- Hr.
    apply Forall_fmap, Forall_forall. intros e He. unfold toy_registers in He. rewrite merge_sort_Permutation in He.
    apply list_elem_of_filter in He as [[_ He] _]. unfold is_byte. cbn. lia.
  - intros sel t values t' [= <- <-] _. unfold toy_registers. symmetry. apply merge_sort_Permutation.
Defined.

#[export] Instance toy_attest_handles : AttestHandles.
Proof.
  refine {| CreateAK_opens := _ |}; try done.
  intros auth t. cbn. split_and!.
  - unfold toy_fresh. enough (0 <= foldr Z.max 0 (map_to_list (toy_slots t)).*1) by lia.
    induction (map_to_list (toy_slots t)).*1 as [|x l IH]; cbn; lia.
  - apply not_elem_of_dom, toy_fresh_new.
  - apply dom_insert_L.
Defined.

Definition toy_node_policy : TPMPolicy :=
  mkTPMPolicy PolicyModeSecureBoot (@PublicDigest toy_Hashes "ak")
    (match @NewPCRPolicy toy_Hashes toy_selection (list_to_map (toy_registers toy_start toy_selection)) ProfileGenericPCSecureBoot with
     | Ok pcr => Some pcr | Err _ => None end) ProfileGenericPCSecureBoot.
Definition toy_collected : result EvidenceEnvelope * toy_tpm :=
  @Provider_Collect toy_device toy_attestor toy_Hashes (Ok tt) (Ok tt) EmptyString "chal-1" "nonce" toy_selection "lab" 0 toy_start.

Lemma collected_evidence_accepted_witness :
  exists envelope claims, toy_collected.1 = Ok envelope /\
    @Verify toy_Hashes toy_quote_lib Evidence_JSON (Some envelope) "nonce" toy_node_policy
    = Ok (quote_envelope (ev_Payload envelope) "chal-1" (ClaimsToProto claims), claims) /\ cl_SecureBoot claims = true.
Proof.
  assert (is_ok toy_collected.1 = true) as Hok by (vm_cast_no_check (@eq_refl _ true)).
  destruct toy_collected as [[envelope|e] t'] eqn:E; [|done]. exists envelope. eexists. split; [reflexivity|]. split.
  - apply (@collected_evidence_accepted toy_device toy_attestor toy_Hashes toy_quote_lib toy_quote_laws (Ok tt) (Ok tt) EmptyString
      "chal-1" "nonce" toy_selection "lab" 0 toy_start envelope t' toy_selection toy_node_policy E); try reflexivity.
    + cbn. lia.
    + split; [vm_compute; reflexivity | by right |]. right. split; [reflexivity|]. eexists _, ProfileGenericPCSecureBoot.
      split; vm_compute; reflexivity.
  - reflexivity.
Defined.
