(* ===== verification/Admin.v ===== *)
(** * The admin service (internal/broker: admin.go, node_evidence_authorization.go,
    node_evidence_verifier.go)

    Node agents ask for a challenge, quote it with their TPM and publish the
    evidence; the broker authorizes the publisher by its client certificate,
    verifies the quote under the enrolled policy, spends the challenge and stores
    the record under the enrollment revision it was verified against.  The stores
    are the SQLite store, as [NewGRPCServer] wires them; other requests may run
    between any two accesses. *)

From S2P Require Import Prelude GoStrings GoTime Keyring KeyProtection Tpm NodeEvidence Config.
From S2P Require Import Sql Store Challenges SqlNodeEvidence StoreInv StoreOps Lockout Policy Kubernetes.
From Stdlib Require Import Ascii.
Local Open Scope Z_scope.

Definition adminOperationNodeEvidenceChallenge : string := "NODE_EVIDENCE_CHALLENGE".
Definition adminOperationEvidenceCheck : string := "EVIDENCE_CHECK".
Definition adminOperationNodeEvidenceList : string := "NODE_EVIDENCE_LIST".
Definition adminOperationNodeEvidencePublish : string := "NODE_EVIDENCE_PUBLISH".

(** ** Messages *)

Record NodeEvidenceChallengeRequest := mkNodeEvidenceChallengeRequest {
  ncq_ClusterId : string; ncq_NodeName : string; ncq_NodeUid : string; ncq_ProviderId : string;
}.
Record NodeEvidenceChallengeResponse := mkNodeEvidenceChallengeResponse {
  ncp_ChallengeId : string; ncp_Nonce : bytes; ncp_ExpiresUnixSeconds : Z; ncp_Decision : ProtoDecision;
}.
Record NodeEvidenceSubmission := mkNodeEvidenceSubmission {
  nes_ClusterId : string; nes_NodeName : string; nes_NodeUid : string; nes_ProviderId : string;
  nes_Format : string; nes_Payload : bytes; nes_ChallengeId : string; nes_RequestedTtlSeconds : Z;
}.
Record NodeEvidenceRecord := mkNodeEvidenceRecord {
  nr_ClusterId : string; nr_NodeName : string; nr_NodeUid : string; nr_ProviderId : string;
  nr_EvidenceHash : string; nr_CollectedUnixSeconds : Z; nr_ExpiresUnixSeconds : Z; nr_Status : Z;
}.
Definition NODE_EVIDENCE_STATUS_FRESH : Z := 1.
Definition NODE_EVIDENCE_STATUS_STALE : Z := 2.
Record NodeEvidencePublishResponse := mkNodeEvidencePublishResponse {
  np_Evidence : option NodeEvidenceRecord; np_Decision : ProtoDecision;
}.
Record NodeEvidenceListResponse := mkNodeEvidenceListResponse {
  nl_Evidence : list NodeEvidenceRecord; nl_Decision : ProtoDecision;
}.
Record AdminStatusResponse := mkAdminStatusResponse { as_Implemented : bool; as_Message : string }.
Record EvidenceCheckRequest := mkEvidenceCheckRequest {
  ecq_ClusterId : string; ecq_Operation : Operation; ecq_Evidence : option EvidenceEnvelope;
}.
Record EvidenceCheckResponse := mkEvidenceCheckResponse {
  ecp_Decision : ProtoDecision; ecp_Subject : string; ecp_Workload : option WorkloadIdentity;
  ecp_NodeEvidence : option NodeEvidenceRecord;
}.

(** ** The service *)

(** The fields that hold a nil-able store or sink say whether it is set: the stores
    are the broker's database, the sink its audit file. *)
Record AdminService := mkAdminService {
  ad_nodeEvidence : bool;
  ad_auditStore : bool;
  ad_audit : bool;
  ad_store : bool;
  ad_verifier : option EvidenceVerifier;
  ad_challengeTTL : Duration;
  ad_nodeEvidenceTTL : Duration;
  ad_nodeEvidenceRetention : Duration;
  ad_clusterID : string;
  ad_policyID : string;
  ad_allowFakeNodeEvidencePublish : bool;
  ad_nodeEvidencePublishProviders : list string;
  ad_nodeEvidenceEnrollments : bool;
}.

Definition newAdminService (config : AdminService) : AdminService :=
  mkAdminService (ad_nodeEvidence config) (ad_auditStore config) (ad_audit config) (ad_store config)
    (ad_verifier config) (ad_challengeTTL config) (ad_nodeEvidenceTTL config)
    (ad_nodeEvidenceRetention config) (TrimSpace (ad_clusterID config)) (ad_policyID config)
    (ad_allowFakeNodeEvidencePublish config) (ad_nodeEvidencePublishProviders config)
    (ad_nodeEvidenceEnrollments config).

(** ** node_evidence_authorization.go *)

(** The peer of the connection as [peer.FromContext] reports it; without TLS there
    are no certificates. *)
Inductive AuthInfo :=
| TLSInfo (PeerCertificates : list bytes)
| OtherAuthInfo.
Abbreviation Peer := (option (option AuthInfo)) (only parsing).

Definition nodeEvidencePayloadHash `{Hashes} (payload : bytes) : string :=
  "sha256:" +:+ hex_EncodeToString (Sum HashSHA256 payload).

Definition nodeEvidenceClientCertificateHash `{Hashes} (peer : Peer) : result string :=
  match peer with
  | Some (Some (TLSInfo (raw :: _))) => Ok ("sha256:" +:+ hex_EncodeToString (Sum HashSHA256 raw))
  | Some (Some _) => Err (errorf "peer certificate is unavailable")
  | _ => Err (errorf "peer authentication is unavailable")
  end.

Definition zero_enrollment : Enrollment :=
  mkEnrollment EmptyString EmptyString EmptyString EmptyString
    (mkTPMPolicy EmptyString EmptyString None EmptyString) [] 0 0 0 0.

(** The enrollment and the publisher, or the error code and reason to deny with. *)
Inductive authorization :=
| Authorized (enrollment : Enrollment) (publisherID : string)
| Unauthorized (code : ErrorCode) (reason : string).

Definition authorizeNodeEvidencePublisher `{Hashes} (s : AdminService) (peer : Peer)
  (clusterID nodeName nodeUID provider : string) (db : DB) : authorization :=
  if negb (String.eqb provider ProviderTPM2Quote) then Authorized zero_enrollment EmptyString
  else
    match nodeEvidenceClientCertificateHash peer with
    | Err _ => Unauthorized ERROR_CODE_UNAUTHENTICATED
                 "node evidence publisher requires an authenticated client certificate"
    | Ok certificateHash =>
        if negb (ad_nodeEvidenceEnrollments s)
        then Unauthorized ERROR_CODE_INTERNAL "node evidence enrollment storage is not configured"
        else
          match sql_ActiveNodeEvidenceEnrollment db clusterID nodeName with
          | Err err =>
              if errors_Is err ErrEnrollmentNotFound || errors_Is err ErrEnrollmentRevoked
              then Unauthorized ERROR_CODE_PERMISSION_DENIED "node TPM identity is not enrolled"
              else Unauthorized ERROR_CODE_INTERNAL "node evidence enrollment lookup failed"
          | Ok enrollment =>
              if negb (String.eqb (en_Provider enrollment) provider) ||
                 negb (String.eqb (en_NodeUID enrollment) nodeUID)
              then Unauthorized ERROR_CODE_PERMISSION_DENIED "node TPM identity is not enrolled"
              else if negb (AuthorizesPublisher enrollment certificateHash)
              then Unauthorized ERROR_CODE_PERMISSION_DENIED
                     "node evidence publisher is not authorized for this node"
              else Authorized enrollment certificateHash
          end
    end.

(** ** node_evidence_verifier.go *)

Definition maxNodeEvidencePayloadSize : Z := 1024 * 1024.
Definition ErrNodeEvidenceVerification : error :=
  sentinel "broker.ErrNodeEvidenceVerification" "node evidence verification failed".

Definition verifyFakeLocalSubmission `{Hashes} (submission : Submission) (nonce : bytes) : result unit :=
  check (String.eqb (sb_Format submission) FormatFakeLocal)
    (errorw ErrNodeEvidenceVerification "unsupported fake-local format");;
  expected ← map_err (fun _ => errorw ErrNodeEvidenceVerification "invalid fake-local evidence")
    (FakeLocalPayload (mkChallengeRequest (sb_ClusterID submission) (sb_NodeName submission)
                         (sb_NodeUID submission) (sb_Provider submission))
       (mkNodeChallenge (sb_ChallengeID submission) nonce 0));
  check (String.eqb expected (sb_Payload submission))
    (errorw ErrNodeEvidenceVerification "fake-local challenge mismatch").

Definition verifyTPMNodeEvidenceSubmission `{Hashes, TpmLib, EvidenceJSON} (submission : Submission)
  (nonce : bytes) (enrollment : Enrollment) : result unit :=
  check (String.eqb (sb_Format submission) Tpm.EvidenceFormat)
    (errorw ErrNodeEvidenceVerification "unsupported TPM evidence format");;
  check (negb (negb (Enrollment_Active enrollment) ||
               negb (String.eqb (en_NodeName enrollment) (sb_NodeName submission)) ||
               negb (String.eqb (en_ClusterID enrollment) (sb_ClusterID submission))))
    (errorw ErrNodeEvidenceVerification "node TPM policy is not enrolled");;
  check (String.eqb (TrimSpace (en_NodeUID enrollment)) (sb_NodeUID submission))
    (errorw ErrNodeEvidenceVerification "node UID does not match enrollment");;
  evidence ← map_err (fun _ => errorw ErrNodeEvidenceVerification "invalid TPM evidence")
               (UnmarshalEvidence (sb_Payload submission));
  check (String.eqb (ev_ChallengeID evidence) (sb_ChallengeID submission))
    (errorw ErrNodeEvidenceVerification "TPM challenge ID mismatch");;
  map_err (fun _ => errorw ErrNodeEvidenceVerification "TPM policy rejected evidence")
    (EvaluatePolicy evidence nonce (en_TPMPolicy enrollment));;
  Ok tt.

Definition verifyNodeEvidenceSubmission `{Hashes, TpmLib, EvidenceJSON} (submission : Submission)
  (nonce : bytes) (enrollment : Enrollment) : result NodeEvidence :=
  check (negb (maxNodeEvidencePayloadSize <? len (sb_Payload submission)))
    (errorw ErrNodeEvidenceVerification "payload exceeds maximum size");;
  (if String.eqb (sb_Provider submission) ProviderFakeLocal
   then verifyFakeLocalSubmission submission nonce
   else if String.eqb (sb_Provider submission) ProviderTPM2Quote
   then verifyTPMNodeEvidenceSubmission submission nonce enrollment
   else Err (errorw ErrNodeEvidenceVerification
               ("unsupported provider " +:+ quoted (sb_Provider submission))));;
  Ok (mkNodeEvidence (sb_ClusterID submission) (sb_NodeName submission) (sb_NodeUID submission)
        (sb_Provider submission) (nodeEvidencePayloadHash (sb_Payload submission)) 0 0).

(** ** admin.go: conversions and helpers *)

Definition nodeEvidenceChallengeRequestFromProto (req : option NodeEvidenceChallengeRequest)
  : result ChallengeRequest :=
  req ← of_option (errorf "node evidence challenge request is required") req;
  NormalizeChallengeRequest
    (mkChallengeRequest (ncq_ClusterId req) (ncq_NodeName req) (ncq_NodeUid req) (ncq_ProviderId req)).

(** [req] is the submission inside the request, if there is one.  The product is at
    most 365 days, far below the 64-bit bound. *)
Definition nodeEvidenceSubmissionFromProto (req : option NodeEvidenceSubmission) : result Submission :=
  submission ← of_option (errorf "node evidence submission is required") req;
  let requestedTTLSeconds := nes_RequestedTtlSeconds submission in
  check (negb ((requestedTTLSeconds <=? 0) || ((365 * 24 * Hour) / Second <? requestedTTLSeconds)))
    (errorf "requested_ttl_seconds is invalid");;
  NormalizeSubmission
    (mkSubmission (nes_ClusterId submission) (nes_NodeName submission) (nes_NodeUid submission)
       (nes_ProviderId submission) (nes_Format submission) (nes_Payload submission)
       (nes_ChallengeId submission) (requestedTTLSeconds * Second)).

Definition nodeEvidenceChallengeSubject `{Hashes} (request : ChallengeRequest) (publisherID : string)
  : string :=
  "node-evidence:" +:+ nodeEvidencePayloadHash
    (Join [cr_ClusterID request; cr_NodeName request; cr_NodeUID request; cr_Provider request;
           publisherID] nul).

Definition nodeEvidenceChallengeDeny (policyID : string) (err : error) : PolicyDecision :=
  if errors_Is err ErrChallengeExpired
  then Deny policyID ERROR_CODE_PERMISSION_DENIED "node evidence challenge expired"
  else if errors_Is err ErrChallengeReplayed
  then Deny policyID ERROR_CODE_PERMISSION_DENIED "node evidence challenge was replayed"
  else if errors_Is err ErrChallengeNotFound || errors_Is err ErrChallengeMismatch
  then Deny policyID ERROR_CODE_PERMISSION_DENIED "node evidence challenge is invalid"
  else Deny policyID ERROR_CODE_INTERNAL "node evidence challenge validation failed".

Definition acceptedNodeEvidenceTTL (s : AdminService) (requested : Duration) : Duration :=
  let maximum := if ad_nodeEvidenceTTL s <=? 0 then DefaultKubernetesNodeEvidenceTTL
                 else ad_nodeEvidenceTTL s in
  if maximum <? requested then maximum else requested.

Definition acceptsNodeEvidenceCluster (s : AdminService) (clusterID : string) : bool :=
  String.eqb (ad_clusterID s) EmptyString || String.eqb (ad_clusterID s) (TrimSpace clusterID).

Definition canPublishNodeEvidenceProvider (s : AdminService) (providerID : string) : bool :=
  let providerID := TrimSpace providerID in
  if String.eqb providerID EmptyString then false
  else if String.eqb providerID ProviderFakeLocal && ad_allowFakeNodeEvidencePublish s then true
  else existsb (fun allowed => String.eqb (TrimSpace allowed) providerID)
         (ad_nodeEvidencePublishProviders s).

Definition nodeEvidenceToProto (e : NodeEvidence) (now : Time) : NodeEvidenceRecord :=
  mkNodeEvidenceRecord (ne_ClusterID e) (ne_NodeName e) (ne_NodeUID e) (ne_Provider e)
    (ne_EvidenceHash e) (Unix (ne_CollectedAt e)) (Unix (ne_ExpiresAt e))
    (if negb (After (ne_ExpiresAt e) now) then NODE_EVIDENCE_STATUS_STALE
     else NODE_EVIDENCE_STATUS_FRESH).

Definition pruneNodeEvidence (s : AdminService) (env : Env) (clusterID : string) (db : DB)
  : result Z * DB :=
  if negb (ad_nodeEvidence s) then (Ok 0, db)
  else
    let retention := if ad_nodeEvidenceRetention s <=? 0 then DefaultKubernetesNodeEvidenceRetention
                     else ad_nodeEvidenceRetention s in
    sql_PruneNodeEvidence (e_clock env AtPrune) clusterID (e_clock env AtPrune - retention)
      (at_ env AtPrune db).

(** ** admin.go: the audit *)

Definition newNodeEvidenceAuditEvent (env : Env) (operation clusterID nodeName evidenceHash : string)
  (decision : PolicyDecision) : result AuditEvent :=
  auditID ← randomID (e_audit_random env) "audit";
  Ok (mkAuditEvent 1 auditID (FormatRFC3339Nano (e_clock env AtAudit)) nodeName operation clusterID
        EmptyString 0 (PolicyDecisionState_String (d_State decision)) (d_PolicyID decision)
        (d_Reason decision) evidenceHash (e_remote env) (auditErrorCode decision)
        EmptyString EmptyString EmptyString EmptyString).

Definition auditNodeEvidence (s : AdminService) (env : Env)
  (operation clusterID nodeName evidenceHash : string) (decision : PolicyDecision) (b : Broker) : Broker :=
  if negb (ad_auditStore s) && negb (ad_audit s) then b
  else
    match newNodeEvidenceAuditEvent env operation clusterID nodeName evidenceHash decision with
    | Err _ => b
    | Ok event =>
        mkBroker
          (if ad_auditStore s then (InsertAuditEvent event (at_ env AtAudit (b_db b))).2 else b_db b)
          (if ad_audit s then (audit_Write (e_ctx env) (e_audit_io env) event (b_file b)).2 else b_file b)
    end.

(** ** admin.go: the challenge *)

Definition ChallengeNodeEvidence `{Hashes} (s : AdminService) (env : Env) (peer : Peer)
  (random1 random2 : result bytes) (req : option NodeEvidenceChallengeRequest) (b : Broker)
  : result NodeEvidenceChallengeResponse * Broker :=
  let answer (id nonce : string) (expires : Z) (cluster node : string) (d : PolicyDecision) (b : Broker) :=
    (Ok (mkNodeEvidenceChallengeResponse id nonce expires (Proto d)),
     auditNodeEvidence s env adminOperationNodeEvidenceChallenge cluster node EmptyString d b) in
  match nodeEvidenceChallengeRequestFromProto req with
  | Err err => answer EmptyString EmptyString 0 EmptyString EmptyString
                 (Deny (ad_policyID s) ERROR_CODE_INVALID_REQUEST (err_msg err)) b
  | Ok request =>
      let deny (code : ErrorCode) (reason : string) (b : Broker) :=
        answer EmptyString EmptyString 0 (cr_ClusterID request) (cr_NodeName request)
          (Deny (ad_policyID s) code reason) b in
      if negb (acceptsNodeEvidenceCluster s (cr_ClusterID request))
      then deny ERROR_CODE_PERMISSION_DENIED "node evidence cluster is not configured" b
      else if negb (canPublishNodeEvidenceProvider s (cr_Provider request))
      then deny ERROR_CODE_PERMISSION_DENIED
             ("node evidence publish provider " +:+ quoted (cr_Provider request) +:+ " is not enabled") b
      else
        let db := at_ env AtEnrollment (b_db b) in
        match authorizeNodeEvidencePublisher s peer (cr_ClusterID request) (cr_NodeName request)
                (cr_NodeUID request) (cr_Provider request) db with
        | Unauthorized code reason => deny code reason (mkBroker db (b_file b))
        | Authorized _ publisherID =>
            match randomID random1 "node_chal" with
            | Err e => (Err e, mkBroker db (b_file b))
            | Ok challengeID =>
                match randomNonce random2 with
                | Err e => (Err e, mkBroker db (b_file b))
                | Ok nonce =>
                    let now := e_clock env AtPut in
                    let ttl := if ad_challengeTTL s <=? 0 then DefaultChallengeTTL else ad_challengeTTL s in
                    let expiresAt := now + ttl in
                    match sql_CreateChallenge (at_ env AtPut db)
                            (mkChallenge challengeID nonce (cr_ClusterID request)
                               (nodeEvidenceChallengeSubject request publisherID) OPERATION_ENROLL
                               expiresAt now) with
                    | (Err _, db) => deny ERROR_CODE_INTERNAL "node evidence challenge failed"
                                       (mkBroker db (b_file b))
                    | (Ok _, db) => answer challengeID nonce (Unix expiresAt) (cr_ClusterID request)
                                      (cr_NodeName request) (Allow (ad_policyID s)) (mkBroker db (b_file b))
                    end
                end
            end
        end
  end.

(** ** admin.go: publishing *)

Definition PublishNodeEvidence `{Hashes, TpmLib, EvidenceJSON} (s : AdminService) (env : Env) (peer : Peer)
  (req : option NodeEvidenceSubmission) (b : Broker) : NodeEvidencePublishResponse * Broker :=
  let audit := auditNodeEvidence s env adminOperationNodeEvidencePublish in
  let refuse (cluster node hash : string) (d : PolicyDecision) (b : Broker) :=
    (mkNodeEvidencePublishResponse None (Proto d), audit cluster node hash d b) in
  if negb (ad_nodeEvidence s)
  then refuse EmptyString EmptyString EmptyString
         (Deny (ad_policyID s) ERROR_CODE_INTERNAL "node evidence storage is not configured") b
  else
    match nodeEvidenceSubmissionFromProto req with
    | Err err => refuse EmptyString EmptyString EmptyString
                   (Deny (ad_policyID s) ERROR_CODE_INVALID_REQUEST (err_msg err)) b
    | Ok submission =>
        let refuse := refuse (sb_ClusterID submission) (sb_NodeName submission)
                        (nodeEvidencePayloadHash (sb_Payload submission)) in
        let deny (code : ErrorCode) (reason : string) (db : DB) :=
          refuse (Deny (ad_policyID s) code reason) (mkBroker db (b_file b)) in
        if negb (acceptsNodeEvidenceCluster s (sb_ClusterID submission))
        then deny ERROR_CODE_PERMISSION_DENIED "node evidence cluster is not configured" (b_db b)
        else if negb (canPublishNodeEvidenceProvider s (sb_Provider submission))
        then deny ERROR_CODE_PERMISSION_DENIED
               ("node evidence publish provider " +:+ quoted (sb_Provider submission) +:+
                " is not enabled") (b_db b)
        else
          let db := at_ env AtEnrollment (b_db b) in
          match authorizeNodeEvidencePublisher s peer (sb_ClusterID submission) (sb_NodeName submission)
                  (sb_NodeUID submission) (sb_Provider submission) db with
          | Unauthorized code reason => deny code reason db
          | Authorized enrollment publisherID =>
              let subject := nodeEvidenceChallengeSubject
                (mkChallengeRequest (sb_ClusterID submission) (sb_NodeName submission)
                   (sb_NodeUID submission) (sb_Provider submission)) publisherID in
              let now := e_clock env AtNonce in
              let db := at_ env AtNonce db in
              match sql_ChallengeNonce db (sb_ChallengeID submission) (sb_ClusterID submission) subject
                      OPERATION_ENROLL now with
              | Err err => refuse (nodeEvidenceChallengeDeny (ad_policyID s) err) (mkBroker db (b_file b))
              | Ok nonce =>
                  match verifyNodeEvidenceSubmission submission nonce enrollment with
                  | Err _ => deny ERROR_CODE_ATTESTATION_FAILED "node evidence verification failed" db
                  | Ok evidence =>
                      match sql_ConsumeChallenge (at_ env AtConsume db) (sb_ChallengeID submission)
                              (sb_ClusterID submission) subject OPERATION_ENROLL now with
                      | (Err err, db) => refuse (nodeEvidenceChallengeDeny (ad_policyID s) err)
                                           (mkBroker db (b_file b))
                      | (Ok _, db) =>
                          let evidence :=
                            mkNodeEvidence (ne_ClusterID evidence) (ne_NodeName evidence)
                              (ne_NodeUID evidence) (ne_Provider evidence) (ne_EvidenceHash evidence)
                              now (now + acceptedNodeEvidenceTTL s (sb_RequestedTTL submission)) in
                          match pruneNodeEvidence s env (ne_ClusterID evidence) db with
                          | (Err _, db) => deny ERROR_CODE_INTERNAL "node evidence cleanup failed" db
                          | (Ok _, db) =>
                              let put :=
                                if String.eqb (sb_Provider submission) ProviderTPM2Quote
                                then sql_PutEnrolledNodeEvidence (e_clock env AtPut) (at_ env AtPut db)
                                       evidence (en_Revision enrollment)
                                else sql_PutNodeEvidence (e_clock env AtPut) evidence (at_ env AtPut db) in
                              match put with
                              | (Err err, db) =>
                                  if errors_Is err ErrEnrollmentChanged
                                  then deny ERROR_CODE_PERMISSION_DENIED
                                         "node evidence enrollment changed during verification" db
                                  else deny ERROR_CODE_INVALID_REQUEST (err_msg err) db
                              | (Ok _, db) =>
                                  (mkNodeEvidencePublishResponse
                                     (Some (nodeEvidenceToProto evidence (e_clock env AtReply)))
                                     (Proto (Allow (ad_policyID s))),
                                   audit (ne_ClusterID evidence) (ne_NodeName evidence)
                                     (ne_EvidenceHash evidence) (Allow (ad_policyID s))
                                     (mkBroker db (b_file b)))
                              end
                          end
                      end
                  end
              end
          end
    end.

(** ** admin.go: diagnostics *)

Definition AdminStatus (s : AdminService) : AdminStatusResponse :=
  if negb (ad_nodeEvidence s)
  then mkAdminStatusResponse false "admin node evidence APIs require Kubernetes node evidence storage"
  else mkAdminStatusResponse true "admin node evidence APIs are available".

(** [req] is the cluster and node of the request, if there is one. *)
Definition ListNodeEvidence (s : AdminService) (env : Env) (req : option (string * string)) (b : Broker)
  : NodeEvidenceListResponse * Broker :=
  let answer (cluster node : string) (out : list NodeEvidenceRecord) (d : PolicyDecision) (b : Broker) :=
    (mkNodeEvidenceListResponse out (Proto d),
     auditNodeEvidence s env adminOperationNodeEvidenceList cluster node EmptyString d b) in
  if negb (ad_nodeEvidence s)
  then answer EmptyString EmptyString []
         (Deny (ad_policyID s) ERROR_CODE_INTERNAL "node evidence storage is not configured") b
  else
    let '(cluster, node) := default (EmptyString, EmptyString) req in
    if String.eqb cluster EmptyString
    then answer EmptyString EmptyString []
           (Deny (ad_policyID s) ERROR_CODE_INVALID_REQUEST "cluster_id is required") b
    else
      match pruneNodeEvidence s env cluster (b_db b) with
      | (Err _, db) => answer cluster node []
                         (Deny (ad_policyID s) ERROR_CODE_INTERNAL "node evidence cleanup failed")
                         (mkBroker db (b_file b))
      | (Ok _, db) =>
          let db := at_ env AtRead db in
          match sql_ListNodeEvidence db cluster node with
          | Err err =>
              answer cluster node []
                (if errors_Is err ErrNotFound
                 then Deny (ad_policyID s) ERROR_CODE_ATTESTATION_FAILED "node evidence is missing"
                 else Deny (ad_policyID s) ERROR_CODE_INTERNAL "node evidence lookup failed")
                (mkBroker db (b_file b))
          | Ok records =>
              answer cluster node
                ((fun evidence => nodeEvidenceToProto evidence (e_clock env AtReply)) <$> records)
                (Allow (ad_policyID s)) (mkBroker db (b_file b))
          end
      end.

(** [strings.Contains]. *)
Fixpoint Contains (s fragment : string) : bool :=
  String.prefix fragment s ||
  match s with EmptyString => false | String _ r => Contains r fragment end.

Definition safeEvidenceCheckReasons : list (string * string) :=
  [("audience was not accepted", "kubernetes token audience was not accepted");
   ("namespace is not allowed", "kubernetes namespace is not allowed");
   ("service account is not allowed", "kubernetes service account is not allowed");
   ("token is required", "kubernetes token is required");
   ("pod-bound token claims are required", "pod-bound token claims are required");
   ("pod-bound token node claim is required", "pod-bound token node claim is required");
   ("pod name and UID claims are required", "pod name and UID claims are required");
   ("pod lookup failed", "kubernetes pod lookup failed");
   ("pod UID does not match token", "pod UID does not match token");
   ("pod node does not match token", "pod node does not match token");
   ("pod is not scheduled to a node", "pod is not scheduled to a node");
   ("username is not a service account", "kubernetes username is not a service account");
   ("service account username is incomplete", "kubernetes service account username is incomplete");
   ("provider is not Kubernetes workload", "evidence provider is not Kubernetes workload");
   ("unsupported evidence format", "unsupported Kubernetes evidence format");
   ("payload is required", "evidence payload is required");
   ("payload exceeds maximum size", "evidence payload exceeds maximum size");
   ("decode payload", "evidence payload could not be decoded")]%string.

Definition safeEvidenceCheckReason (err : error) : string :=
  match List.find (fun item : string * string => Contains (err_msg err) item.1) safeEvidenceCheckReasons with
  | Some item => item.2
  | None => "attestation verification failed"
  end.

Definition evidenceCheckVerificationDeny (policyID : string) (err : error) : PolicyDecision :=
  if errors_Is err ErrTokenReview
  then Deny policyID ERROR_CODE_BROKER_UNAVAILABLE "kubernetes tokenreview failed"
  else if errors_Is err ErrUnauthenticated
  then Deny policyID ERROR_CODE_UNAUTHENTICATED "kubernetes token is not authenticated"
  else if errors_Is err ErrInvalidEvidence
  then Deny policyID ERROR_CODE_ATTESTATION_FAILED (safeEvidenceCheckReason err)
  else Deny policyID ERROR_CODE_ATTESTATION_FAILED "attestation verification failed".

Definition workloadIdentityToProto (w : WorkloadIdentity) : option WorkloadIdentity :=
  if bool_decide (w = no_workload) then None else Some w.

Definition diagnosticNodeEvidence (s : AdminService) (env : Env) (clusterID nodeName : string) (db : DB)
  : option NodeEvidenceRecord :=
  if negb (ad_nodeEvidence s) || String.eqb (TrimSpace nodeName) EmptyString then None
  else match sql_NodeEvidence db clusterID nodeName with
       | Err _ => None
       | Ok evidence => Some (nodeEvidenceToProto evidence (e_clock env AtReply))
       end.

Definition CheckEvidence `{ProtoLib, Hashes} (s : AdminService) (env : Env)
  (req : option EvidenceCheckRequest) (b : Broker) : EvidenceCheckResponse * Broker :=
  let audit := auditNodeEvidence s env adminOperationEvidenceCheck in
  let refuse (cluster hash : string) (d : PolicyDecision) (b : Broker) :=
    (mkEvidenceCheckResponse (Proto d) EmptyString None None, audit cluster EmptyString hash d b) in
  let evidence := match req with Some r => ecq_Evidence r | None => None end in
  let clusterID := match req with Some r => TrimSpace (ecq_ClusterId r) | None => EmptyString end in
  if String.eqb clusterID EmptyString || negb (bool_decide (is_Some evidence))
  then refuse EmptyString (evidenceHash evidence)
         (Deny (ad_policyID s) ERROR_CODE_INVALID_REQUEST "cluster_id and evidence are required") b
  else if negb (ad_store s)
  then refuse clusterID (evidenceHash evidence)
         (Deny (ad_policyID s) ERROR_CODE_INTERNAL "policy store is not configured") b
  else
    match default DevelopmentEvidenceVerifier (ad_verifier s) evidence with
    | Err err => refuse clusterID (evidenceHash evidence) (evidenceCheckVerificationDeny (ad_policyID s) err) b
    | Ok verified =>
        let requested := match req with Some r => ecq_Operation r | None => OPERATION_UNSPECIFIED end in
        let operation := if requested =? OPERATION_UNSPECIFIED then OPERATION_WRAP else requested in
        let engine := mkPolicyEngine
          (if ad_nodeEvidence s then Some (sql_FreshNodeEvidence (e_clock env AtNode)) else None)
          (ad_policyID s) in
        let '(decision, db) := evaluateSubjectAndNodeEvidence env engine
          (mkPolicyRequest clusterID (vf_Subject verified) (vf_Workload verified) operation EmptyString
             (mkKeyRef EmptyString EmptyString 0)) (b_db b) in
        let db := at_ env AtRead db in
        (mkEvidenceCheckResponse (Proto decision) (vf_Subject verified)
           (workloadIdentityToProto (vf_Workload verified))
           (diagnosticNodeEvidence s env clusterID (wi_NodeName (vf_Workload verified)) db),
         audit clusterID (wi_NodeName (vf_Workload verified)) (evidenceHash evidence) decision
           (mkBroker db (b_file b)))
    end.

(** ** What the handlers do *)

Lemma nodeEvidenceChallengeDeny_denies policy err :
  d_State (nodeEvidenceChallengeDeny policy err) = POLICY_DECISION_STATE_DENY.
Proof. unfold nodeEvidenceChallengeDeny. by repeat case_goal. Qed.

Lemma auditNodeEvidence_steps s env op c n h d b :
  env_typed env -> steps (b_db b) (b_db (auditNodeEvidence s env op c n h d b)).
Proof.
  intros He. unfold auditNodeEvidence. case_goal; [apply steps_refl|].
  destruct (newNodeEvidenceAuditEvent _ _ _ _ _ _) as [event|]; [|apply steps_refl]. simpl.
  destruct (ad_auditStore s); [|apply steps_refl].
  exists (e_others env AtAudit ++ [OInsertAuditEvent event]). rewrite run_app. split; [by ops_typed | done].
Qed.

Lemma pruneNodeEvidence_steps s env c db :
  env_typed env -> steps db (pruneNodeEvidence s env c db).2.
Proof.
  intros He. unfold pruneNodeEvidence. case_goal; [apply steps_refl|]. cbv zeta.
  set (t := e_clock env AtPrune - _).
  exists (e_others env AtPrune ++ [OPruneNodeEvidence (e_clock env AtPrune) c t]).
  rewrite run_app. split; [by ops_typed | done].
Qed.

Lemma int32_enroll : int32 OPERATION_ENROLL.
Proof. done. Qed.

Section PublishFacts.
Context `{Hashes, TpmLib, EvidenceJSON}.

(** The subject of the challenge that a submission must answer. *)
Definition submission_subject (sub : Submission) (publisherID : string) : string :=
  nodeEvidenceChallengeSubject
    (mkChallengeRequest (sb_ClusterID sub) (sb_NodeName sub) (sb_NodeUID sub) (sb_Provider sub)) publisherID.

(** The record that an accepted submission is stored as. *)
Definition accepted_evidence (s : AdminService) (env : Env) (sub : Submission) : NodeEvidence :=
  mkNodeEvidence (sb_ClusterID sub) (sb_NodeName sub) (sb_NodeUID sub) (sb_Provider sub)
    (nodeEvidencePayloadHash (sb_Payload sub)) (e_clock env AtNonce)
    (e_clock env AtNonce + acceptedNodeEvidenceTTL s (sb_RequestedTTL sub)).

Definition put_evidence (s : AdminService) (env : Env) (sub : Submission) (en : Enrollment) (db : DB)
  : result unit * DB :=
  if String.eqb (sb_Provider sub) ProviderTPM2Quote
  then sql_PutEnrolledNodeEvidence (e_clock env AtPut) (at_ env AtPut db) (accepted_evidence s env sub)
         (en_Revision en)
  else sql_PutNodeEvidence (e_clock env AtPut) (accepted_evidence s env sub) (at_ env AtPut db).

(** The states that an allowing publish goes through. *)
Record publish_trace (s : AdminService) (env : Env) (peer : Peer) (sub : Submission) (db : DB)
  (en : Enrollment) (publisher nonce : string) (db3 db4 db5 : DB) : Prop := {
  pt_cluster : acceptsNodeEvidenceCluster s (sb_ClusterID sub) = true;
  pt_provider : canPublishNodeEvidenceProvider s (sb_Provider sub) = true;
  pt_authorized : authorizeNodeEvidencePublisher s peer (sb_ClusterID sub) (sb_NodeName sub)
    (sb_NodeUID sub) (sb_Provider sub) (at_ env AtEnrollment db) = Authorized en publisher;
  pt_nonce : sql_ChallengeNonce (at_ env AtNonce (at_ env AtEnrollment db)) (sb_ChallengeID sub)
    (sb_ClusterID sub) (submission_subject sub publisher) OPERATION_ENROLL (e_clock env AtNonce) = Ok nonce;
  pt_verified : is_ok (verifyNodeEvidenceSubmission sub nonce en) = true;
  pt_consumed : sql_ConsumeChallenge (at_ env AtConsume (at_ env AtNonce (at_ env AtEnrollment db)))
    (sb_ChallengeID sub) (sb_ClusterID sub) (submission_subject sub publisher) OPERATION_ENROLL
    (e_clock env AtNonce) = (Ok tt, db3);
  pt_pruned : exists n, pruneNodeEvidence s env (sb_ClusterID sub) db3 = (Ok n, db4);
  pt_put : put_evidence s env sub en db4 = (Ok tt, db5);
}.

Lemma verifyNodeEvidenceSubmission_Ok sub nonce en ev :
  verifyNodeEvidenceSubmission sub nonce en = Ok ev ->
  ev = mkNodeEvidence (sb_ClusterID sub) (sb_NodeName sub) (sb_NodeUID sub) (sb_Provider sub)
         (nodeEvidencePayloadHash (sb_Payload sub)) 0 0.
Proof. unfold verifyNodeEvidenceSubmission. intros Hv. by inv_ok. Qed.

Lemma Publish_allow s env peer req b resp b' :
  PublishNodeEvidence s env peer req b = (resp, b') ->
  pd_State (np_Decision resp) = POLICY_DECISION_STATE_ALLOW ->
  exists sub en publisher nonce db3 db4 db5,
    ad_nodeEvidence s = true /\ nodeEvidenceSubmissionFromProto req = Ok sub /\
    publish_trace s env peer sub (b_db b) en publisher nonce db3 db4 db5 /\
    resp = mkNodeEvidencePublishResponse
             (Some (nodeEvidenceToProto (accepted_evidence s env sub) (e_clock env AtReply)))
             (Proto (Allow (ad_policyID s))) /\
    b' = auditNodeEvidence s env adminOperationNodeEvidencePublish (sb_ClusterID sub) (sb_NodeName sub)
           (nodeEvidencePayloadHash (sb_Payload sub)) (Allow (ad_policyID s)) (mkBroker db5 (b_file b)).
Proof.
  unfold PublishNodeEvidence. destruct (ad_nodeEvidence s) eqn:En; cbn [negb]; [|by intros [= <- _]].
  destruct (nodeEvidenceSubmissionFromProto req) as [sub|]; [|by intros [= <- _]]. cbv zeta.
  destruct (acceptsNodeEvidenceCluster _ _) eqn:Ec; cbn [negb]; [|by intros [= <- _]].
  destruct (canPublishNodeEvidenceProvider _ _) eqn:Ep; cbn [negb]; [|by intros [= <- _]].
  destruct (authorizeNodeEvidencePublisher _ _ _ _ _ _ _) as [en publisher|] eqn:Ea; [|by intros [= <- _]].
  fold (submission_subject sub publisher).
  destruct (sql_ChallengeNonce _ _ _ _ _ _) as [nonce|] eqn:Eno.
  2:{ intros [= <- _]. simpl. by rewrite nodeEvidenceChallengeDeny_denies. }
  destruct (verifyNodeEvidenceSubmission sub nonce en) as [ev|] eqn:Ev; [|by intros [= <- _]].
  destruct (sql_ConsumeChallenge _ _ _ _ _ _) as [[[]|] db3] eqn:Eco.
  2:{ intros [= <- _]. simpl. by rewrite nodeEvidenceChallengeDeny_denies. }
  pose proof (verifyNodeEvidenceSubmission_Ok _ _ _ _ Ev) as ->. cbn [ne_ClusterID ne_NodeName ne_NodeUID ne_Provider ne_EvidenceHash].
  fold (accepted_evidence s env sub).
  destruct (pruneNodeEvidence _ _ _ _) as [[n|] db4] eqn:Epr; [|by intros [= <- _]].
  fold (put_evidence s env sub en db4).
  destruct (put_evidence s env sub en db4) as [[[]|err] db5] eqn:Epu.
  2:{ by destruct (errors_Is err ErrEnrollmentChanged); intros [= <- _]. }
  intros [= <- <-] _. exists sub, en, publisher, nonce, db3, db4, db5.
  split_and!; try done. split; try done; [by rewrite Ev | eauto].
Qed.
End PublishFacts.

Section PublishSound.
Context `{Hashes, TpmLib, EvidenceJSON}.

Lemma authorize_tpm s peer c n uid db en publisher :
  authorizeNodeEvidencePublisher s peer c n uid ProviderTPM2Quote db = Authorized en publisher ->
  nodeEvidenceClientCertificateHash peer = Ok publisher /\ AuthorizesPublisher en publisher = true /\
  sql_ActiveNodeEvidenceEnrollment db c n = Ok en /\ en_NodeUID en = uid.
Proof.
  unfold authorizeNodeEvidencePublisher. rewrite String.eqb_refl. cbn [negb].
  destruct (nodeEvidenceClientCertificateHash peer) as [h|]; [|done]. case_goal; [done|].
  destruct (sql_ActiveNodeEvidenceEnrollment db c n) as [e|err]; [|by case_goal].
  destruct (_ || _) eqn:Eu; [done|]. destruct (AuthorizesPublisher e h) eqn:Ea; cbn [negb]; [|done].
  intros [= <- <-]. to_prop. by split_and!.
Qed.

Lemma verified_tpm sub nonce en :
  sb_Provider sub = ProviderTPM2Quote -> is_ok (verifyNodeEvidenceSubmission sub nonce en) = true ->
  exists e claims, UnmarshalEvidence (sb_Payload sub) = Ok e /\ ev_ChallengeID e = sb_ChallengeID sub /\
    EvaluatePolicy e nonce (en_TPMPolicy en) = Ok claims /\ Enrollment_Active en = true /\
    en_NodeName en = sb_NodeName sub /\ en_ClusterID en = sb_ClusterID sub.
Proof.
  intros Hp Hv. apply is_ok_Ok in Hv as [ev Hv]. unfold verifyNodeEvidenceSubmission in Hv. rewrite Hp in Hv.
  inv_ok. simpl in *. unfold verifyTPMNodeEvidenceSubmission in *. inv_ok. to_prop. eauto 10.
Qed.

(** An active enrollment names an AK, so the policy check compares against it. *)
Lemma active_enrollment_has_ak db c n en :
  sql_ActiveNodeEvidenceEnrollment db c n = Ok en -> tp_EnrolledAKPublicHash (en_TPMPolicy en) <> EmptyString.
Proof.
  unfold sql_ActiveNodeEvidenceEnrollment. intros Ha. apply bind_Ok in Ha as (e & _ & Ha). case_hyp Ha; [done|].
  unfold NormalizeEnrollment in Ha. apply bind_Ok in Ha as (r & Hr & Ha). inv_ok. simpl.
  apply NormalizeEnrollmentRequest_Ok in Hr as (_ & _ & _ & _ & Hk & _ & _ & _ & _ & _ & ->). simpl in *.
  intros E. apply Hk. by rewrite E.
Qed.

Lemma active_revision_pos db c n en : sql_ActiveNodeEvidenceEnrollment db c n = Ok en -> 0 < en_Revision en.
Proof.
  unfold sql_ActiveNodeEvidenceEnrollment, queryEnrollment, scanNodeEvidenceEnrollment, NormalizeEnrollment.
  intros Ha. apply bind_Ok in Ha as (e & He & Ha). case_hyp Ha; [done|]. inv_ok. to_prop. done.
Qed.

(** The nonce that was read belongs to the challenge that is then spent. *)
Lemma nonce_consumed db2 ops id c s op t t' nonce db3 :
  store_inv db2 -> Forall op_typed ops -> int32 op ->
  sql_ChallengeNonce db2 id c s op t = Ok nonce ->
  sql_ConsumeChallenge (run ops db2) id c s op t' = (Ok tt, db3) ->
  exists ch, sql_ledger db2 id = Some (ch, false) /\ sql_ledger (run ops db2) id = Some (ch, false) /\
    ch_ClusterID ch = c /\ ch_Subject ch = s /\ ch_Operation ch = op /\ ch_Nonce ch = nonce /\
    t' < ch_ExpiresAt ch.
Proof.
  intros Hi Ht Ho Hn Hc.
  destruct (consume_ledger _ _ _ _ _ _ _ (si_challenges _ (run_inv _ _ Hi Ht)) Ho Hc) as (ch & Hl & C1 & C2 & C3 & C4).
  unfold sql_ChallengeNonce in Hn. inv_ok. to_prop.
  match goal with H : challenges db2 !! id = Some ?r |- _ => rename H into Hrow, r into row end.
  destruct (run_issued ops db2 id row Hrow) as (row' & Hrow' & Hsame).
  unfold sql_ledger in Hl. rewrite Hrow' in Hl. simpl in Hl. injection Hl as <- Hunc. to_prop.
  destruct Hsame as [->|]; [|done]. exists (decode_challenge id row). unfold sql_ledger. rewrite Hrow, Hrow'. simpl.
  rewrite bool_decide_true by done. by split_and!.
Qed.

(** What an allowing publish leaves in the database, up to the audit. *)
Lemma publish_trace_steps s env peer sub db en publisher nonce db3 db4 db5 :
  env_typed env -> publish_trace s env peer sub db en publisher nonce db3 db4 db5 ->
  steps db3 db5 /\ steps db db5.
Proof.
  intros He [_ _ _ _ _ Hc (n & Hpr) Hpu].
  pose proof (pruneNodeEvidence_steps s env (sb_ClusterID sub) db3 He) as Sp. rewrite Hpr in Sp. simpl in Sp.
  assert (steps db4 db5) as Su.
  { eapply steps_trans; [by apply (steps_at env AtPut)|]. unfold put_evidence in Hpu. case_hyp Hpu.
    - exists [OPutEnrolledNodeEvidence (e_clock env AtPut) (accepted_evidence s env sub) (en_Revision en)].
      simpl. rewrite Hpu. split; [by ops_typed | done].
    - exists [OPutNodeEvidence (e_clock env AtPut) (accepted_evidence s env sub)].
      simpl. rewrite Hpu. split; [by ops_typed | done]. }
  pose proof (steps_trans _ _ _ Sp Su) as S35. split; [done|].
  eapply steps_trans; [by apply (steps_at env AtEnrollment)|].
  eapply steps_trans; [by apply (steps_at env AtNonce)|].
  eapply steps_trans; [by apply (steps_at env AtConsume)|]. eapply steps_trans; [|exact S35].
  exists [OConsumeChallenge (sb_ChallengeID sub) (sb_ClusterID sub) (submission_subject sub publisher)
            OPERATION_ENROLL (e_clock env AtNonce)].
  simpl. rewrite Hc. split; [by ops_typed | done].
Qed.

Lemma submission_trimmed req sub :
  nodeEvidenceSubmissionFromProto req = Ok sub ->
  TrimSpace (sb_ClusterID sub) = sb_ClusterID sub /\ TrimSpace (sb_NodeName sub) = sb_NodeName sub /\
  TrimSpace (sb_NodeUID sub) = sb_NodeUID sub /\ TrimSpace (sb_Provider sub) = sb_Provider sub.
Proof.
  unfold nodeEvidenceSubmissionFromProto. intros Hs. inv_ok. unfold NormalizeSubmission in *. inv_ok. simpl.
  by rewrite !TrimSpace_idem.
Qed.

Lemma Normalize_fields e n :
  Normalize e = Ok n ->
  ne_ClusterID n = TrimSpace (ne_ClusterID e) /\ ne_NodeName n = TrimSpace (ne_NodeName e) /\
  ne_NodeUID n = TrimSpace (ne_NodeUID e) /\ ne_Provider n = TrimSpace (ne_Provider e) /\
  ne_EvidenceHash n = TrimSpace (ne_EvidenceHash e).
Proof. unfold Normalize. intros Hn. inv_ok. done. Qed.

(** The challenge of an allowing publish is spent for good. *)
Lemma publish_trace_spent s env peer sub db en publisher nonce db3 db4 db5 :
  env_typed env -> store_inv db -> publish_trace s env peer sub db en publisher nonce db3 db4 db5 ->
  store_inv db5 /\ spent db5 (sb_ChallengeID sub).
Proof.
  intros He Hi Ht. destruct (publish_trace_steps _ _ _ _ _ _ _ _ _ _ _ He Ht) as [S35 S05].
  destruct (steps_le _ _ Hi S05) as [_ Hi5]. split; [done|]. pose proof (pt_consumed _ _ _ _ _ _ _ _ _ _ _ Ht) as Hc.
  assert (store_inv (at_ env AtConsume (at_ env AtNonce (at_ env AtEnrollment db)))) as Hc0 by auto using at_inv.
  destruct (consume_step _ _ _ _ _ _ _ Hc0 int32_enroll Hc) as [Hi3 _].
  destruct (steps_le _ _ Hi3 S35) as [Hle _]. apply (spent_mono _ _ _ Hle). by eapply consume_spends.
Qed.
End PublishSound.

(** Where the challenge stands that a submission answers: this broker issued it, for
    exactly this cluster, node, UID, provider and publisher, it is unspent, and it
    has not expired at [now]. *)
Definition open_challenge `{Hashes} (db : DB) (sub : Submission) (publisher nonce : string) (now : Time) : Prop :=
  exists ch, sql_ledger db (sb_ChallengeID sub) = Some (ch, false) /\ ch_Nonce ch = nonce /\
    ch_Subject ch = submission_subject sub publisher /\ ch_ClusterID ch = sb_ClusterID sub /\
    ch_Operation ch = OPERATION_ENROLL /\ now < ch_ExpiresAt ch.

(** The record is the submission's own. *)
Definition stored_as `{Hashes} (sub : Submission) (k : evidenceKey) (row : node_evidence_row) : Prop :=
  k = (sb_ClusterID sub, sb_NodeName sub) /\ ner_provider row = sb_Provider sub /\
  ner_evidence_hash row = nodeEvidencePayloadHash (sb_Payload sub).

Section PublishStores.
Context `{Hashes, TpmLib, EvidenceJSON}.

Lemma payload_hash_trimmed payload : TrimSpace (nodeEvidencePayloadHash payload) = nodeEvidencePayloadHash payload.
Proof. apply TrimSpace_visible. unfold nodeEvidencePayloadHash. rewrite string_forall_app. by rewrite hex_visible. Qed.

Lemma accepted_fields s env req sub n :
  nodeEvidenceSubmissionFromProto req = Ok sub -> Normalize (accepted_evidence s env sub) = Ok n ->
  ne_ClusterID n = sb_ClusterID sub /\ ne_NodeName n = sb_NodeName sub /\ ne_NodeUID n = sb_NodeUID sub /\
  ne_Provider n = sb_Provider sub /\ ne_EvidenceHash n = nodeEvidencePayloadHash (sb_Payload sub).
Proof.
  intros Hs Hn. destruct (submission_trimmed _ _ Hs) as (T1 & T2 & T3 & T4).
  destruct (Normalize_fields _ _ Hn) as (-> & -> & -> & -> & ->). simpl. by rewrite payload_hash_trimmed.
Qed.

(** The challenge that an allowing publish answers. *)
Lemma publish_trace_open s env peer sub db en publisher nonce db3 db4 db5 :
  env_typed env -> store_inv db -> publish_trace s env peer sub db en publisher nonce db3 db4 db5 ->
  open_challenge (at_ env AtNonce (at_ env AtEnrollment db)) sub publisher nonce (e_clock env AtNonce).
Proof.
  intros He Hi Ht. assert (store_inv (at_ env AtNonce (at_ env AtEnrollment db))) as I2 by auto using at_inv.
  destruct (nonce_consumed _ (e_others env AtConsume) _ _ _ _ _ _ _ _ I2 (He AtConsume) int32_enroll
    (pt_nonce _ _ _ _ _ _ _ _ _ _ _ Ht) (pt_consumed _ _ _ _ _ _ _ _ _ _ _ Ht)) as (ch & L1 & _ & C1 & C2 & C3 & C4 & C5).
  by exists ch.
Qed.

(** A successful put stores the submission's record and nothing else; a failing
    one stores nothing. *)
Lemma put_evidence_stores s env req sub en db r db' :
  nodeEvidenceSubmissionFromProto req = Ok sub -> put_evidence s env sub en db = (r, db') ->
  r <> Ok tt /\ no_more_evidence (at_ env AtPut db) db' \/
  exists k row, r = Ok tt /\ stored_as sub k row /\
    node_evidence db' = <[k := row]> (node_evidence (at_ env AtPut db)).
Proof.
  intros Hs Hp. assert (r <> Ok tt /\ no_more_evidence (at_ env AtPut db) db' \/ exists n row, r = Ok tt /\
    Normalize (accepted_evidence s env sub) = Ok n /\
    row = evidence_row (e_clock env AtPut) n (ner_enrollment_revision row) /\
    node_evidence db' = <[(ne_ClusterID n, ne_NodeName n) := row]> (node_evidence (at_ env AtPut db)))
    as [?|(n & row & Hr & Hn & Hrow & Hdb)]; [|by left|right].
  { unfold put_evidence in Hp. case_hyp Hp; [by eapply put_enrolled_stores | by eapply put_stores]. }
  exists (ne_ClusterID n, ne_NodeName n), row. split_and!; [done | | done].
  destruct (accepted_fields _ _ _ _ _ Hs Hn) as (-> & -> & _ & N4 & N5). rewrite Hrow. unfold stored_as. simpl.
  by rewrite N4, N5.
Qed.

(** While nobody else stores evidence, the steps between two accesses only lose some. *)
Lemma at_no_more env p db : (forall p, stores_none (e_others env p)) -> no_more_evidence db (at_ env p db).
Proof. intros Hq. apply no_more_evidence_run, Hq. Qed.

Lemma consume_no_more db id c subject op t : no_more_evidence db (sql_ConsumeChallenge db id c subject op t).2.
Proof. apply (no_more_evidence_step (OConsumeChallenge id c subject op t)). by intros []. Qed.

Lemma prune_no_more s env c db :
  (forall p, stores_none (e_others env p)) -> no_more_evidence db (pruneNodeEvidence s env c db).2.
Proof.
  intros Hq. unfold pruneNodeEvidence. case_goal; [done|]. cbv zeta. etrans; [by apply (at_no_more env AtPrune)|].
  set (t := e_clock env AtPrune - _). apply (no_more_evidence_step (OPruneNodeEvidence (e_clock env AtPrune) c t)). by intros [].
Qed.

Lemma audit_no_more s env op c n h d b :
  (forall p, stores_none (e_others env p)) -> no_more_evidence (b_db b) (b_db (auditNodeEvidence s env op c n h d b)).
Proof.
  intros Hq. unfold auditNodeEvidence. case_goal; [done|].
  destruct (newNodeEvidenceAuditEvent _ _ _ _ _ _) as [event|]; [|done]. simpl.
  destruct (ad_auditStore s); [|done]. etrans; [by apply (at_no_more env AtAudit)|].
  apply (no_more_evidence_step (OInsertAuditEvent event)). by intros [].
Qed.

(** The whole effect of a publish on the evidence records, on every branch. *)
Lemma Publish_stores s env peer req b resp b' :
  (forall p, stores_none (e_others env p)) ->
  PublishNodeEvidence s env peer req b = (resp, b') ->
  no_more_evidence (b_db b) (b_db b') \/
  exists sub k row, pd_State (np_Decision resp) = POLICY_DECISION_STATE_ALLOW /\
    nodeEvidenceSubmissionFromProto req = Ok sub /\ stored_as sub k row /\
    node_evidence (b_db b') ⊆ <[k := row]> (node_evidence (b_db b)).
Proof.
  intros Hq. destruct (PublishNodeEvidence s env peer req b) as [r0 b0] eqn:E. intros [= <- <-].
  pose proof (audit_no_more s env adminOperationNodeEvidencePublish) as Hau.
  assert (forall db, no_more_evidence (b_db b) db -> forall c n h d, no_more_evidence (b_db b)
    (b_db (auditNodeEvidence s env adminOperationNodeEvidencePublish c n h d (mkBroker db (b_file b))))) as Hend.
  { intros db Hdb c n h d. etrans; [exact Hdb|]. by apply (Hau c n h d (mkBroker db (b_file b))). }
  unfold PublishNodeEvidence in E. case_hyp E; [injection E as _ <-; left; by apply Hau|].
  destruct (nodeEvidenceSubmissionFromProto req) as [sub|] eqn:Hs; [|injection E as _ <-; left; by apply Hau]. cbv zeta in E.
  case_hyp E; [injection E as _ <-; left; by apply Hend|].
  case_hyp E; [injection E as _ <-; left; by apply Hend|].
  pose proof (at_no_more env AtEnrollment (b_db b) Hq) as N1. set (db1 := at_ env AtEnrollment (b_db b)) in *.
  destruct (authorizeNodeEvidencePublisher _ _ _ _ _ _ _) as [en publisher|code reason];
    [|injection E as _ <-; left; by apply Hend].
  pose proof (transitivity N1 (at_no_more env AtNonce db1 Hq)) as N2. set (db2 := at_ env AtNonce db1) in *.
  destruct (sql_ChallengeNonce _ _ _ _ _ _) as [nonce|]; [|injection E as _ <-; left; by apply Hend].
  destruct (verifyNodeEvidenceSubmission sub nonce en) as [ev|] eqn:Ev; [|injection E as _ <-; left; by apply Hend].
  pose proof (verifyNodeEvidenceSubmission_Ok _ _ _ _ Ev) as ->. fold (submission_subject sub publisher) in E.
  pose proof (transitivity N2 (at_no_more env AtConsume db2 Hq)) as N3.
  pose proof (transitivity N3 (consume_no_more _ (sb_ChallengeID sub) (sb_ClusterID sub)
    (submission_subject sub publisher) OPERATION_ENROLL (e_clock env AtNonce))) as N4.
  destruct (sql_ConsumeChallenge _ _ _ _ _ _) as [[[]|] db3]; [|injection E as _ <-; left; by apply Hend].
  cbn [ne_ClusterID ne_NodeName ne_NodeUID ne_Provider ne_EvidenceHash] in E. fold (accepted_evidence s env sub) in E.
  pose proof (transitivity N4 (prune_no_more s env (sb_ClusterID sub) db3 Hq)) as N5.
  destruct (pruneNodeEvidence _ _ _ _) as [[n|] db4]; [|injection E as _ <-; left; by apply Hend].
  fold (put_evidence s env sub en db4) in E. pose proof (transitivity N5 (at_no_more env AtPut db4 Hq)) as N6.
  destruct (put_evidence s env sub en db4) as [r db5] eqn:Hput.
  destruct (put_evidence_stores _ _ _ _ _ _ _ _ Hs Hput) as [[Hr Hno]|(k & row & -> & Hst & Hdb)].
  - left. destruct r as [[]|err]; [done|]. case_hyp E; injection E as _ <-; apply Hend; by etrans.
  - right. injection E as <- <-. exists sub, k, row. split_and!; [done..|].
    etrans; [apply (Hau _ _ _ _ (mkBroker db5 (b_file b)) Hq)|]. simpl. rewrite Hdb. by apply insert_mono.
Qed.
(** The states of an allowing publish follow each other. *)
Lemma publish_trace_le s env peer sub db en publisher nonce db3 db4 db5 :
  env_typed env -> store_inv db -> publish_trace s env peer sub db en publisher nonce db3 db4 db5 ->
  let db1 := at_ env AtEnrollment db in let db2 := at_ env AtNonce db1 in
  store_le db db1 /\ store_le db1 db2 /\ store_le db2 db5.
Proof.
  intros He Hi Ht db1 db2. assert (store_inv db1) as I1 by (by apply at_inv). assert (store_inv db2) as I2 by (by apply at_inv).
  split; [by apply at_le|]. split; [by apply at_le|]. apply (steps_le _ _ I2).
  destruct (publish_trace_steps _ _ _ _ _ _ _ _ _ _ _ He Ht) as [S35 _].
  eapply steps_trans; [by apply (steps_at env AtConsume)|]. eapply steps_trans; [|exact S35].
  pose proof (pt_consumed _ _ _ _ _ _ _ _ _ _ _ Ht) as Hc.
  exists [OConsumeChallenge (sb_ChallengeID sub) (sb_ClusterID sub) (submission_subject sub publisher)
            OPERATION_ENROLL (e_clock env AtNonce)].
  simpl. unfold db2, db1. rewrite Hc. split; [by ops_typed | done].
Qed.

(** Without a TPM, the payload is the digest over the nonce. *)
Lemma publish_trace_fake s env peer sub db en publisher nonce db3 db4 db5 :
  publish_trace s env peer sub db en publisher nonce db3 db4 db5 -> sb_Provider sub <> ProviderTPM2Quote ->
  sb_Provider sub = ProviderFakeLocal /\ publisher = EmptyString /\
  FakeLocalPayload (mkChallengeRequest (sb_ClusterID sub) (sb_NodeName sub) (sb_NodeUID sub) (sb_Provider sub))
    (mkNodeChallenge (sb_ChallengeID sub) nonce 0) = Ok (sb_Payload sub).
Proof.
  intros Ht Hne. pose proof (pt_authorized _ _ _ _ _ _ _ _ _ _ _ Ht) as Hau.
  unfold authorizeNodeEvidencePublisher in Hau. case_hyp Hau; [injection Hau as _ <- | by to_prop].
  pose proof (pt_verified _ _ _ _ _ _ _ _ _ _ _ Ht) as Hv. apply is_ok_Ok in Hv as [ev Hv].
  unfold verifyNodeEvidenceSubmission in Hv. inv_ok. destruct (String.eqb _ ProviderFakeLocal) eqn:Ef.
  - unfold verifyFakeLocalSubmission in *. inv_ok. to_prop. by subst.
  - case_match; [by to_prop | done].
Qed.

(** With a TPM, the quote was verified under the enrollment that the record names. *)
Lemma publish_trace_tpm s env peer req sub db en publisher nonce db3 db4 db5 :
  nodeEvidenceSubmissionFromProto req = Ok sub ->
  publish_trace s env peer sub db en publisher nonce db3 db4 db5 -> sb_Provider sub = ProviderTPM2Quote ->
  exists e er row, node_evidence db5 !! (sb_ClusterID sub, sb_NodeName sub) = Some row /\
    nodeEvidenceClientCertificateHash peer = Ok publisher /\ AuthorizesPublisher en publisher = true /\
    sql_ActiveNodeEvidenceEnrollment (at_ env AtEnrollment db) (sb_ClusterID sub) (sb_NodeName sub) = Ok en /\
    en_NodeUID en = sb_NodeUID sub /\
    UnmarshalEvidence (sb_Payload sub) = Ok e /\ ev_ChallengeID e = sb_ChallengeID sub /\
    quote_signed e /\ tp_EnrolledAKPublicHash (en_TPMPolicy en) = PublicDigest (ev_AKPublic e) /\
    (exists claims, EvaluatePolicy e nonce (en_TPMPolicy en) = Ok claims) /\
    (exists sel digest, quote_attests e nonce sel digest) /\
    ner_enrollment_revision row = Some (en_Revision en) /\
    node_evidence_enrollments db5 !! (sb_ClusterID sub, sb_NodeName sub) = Some er /\
    enr_revoked_at er = None /\ enr_revision er = en_Revision en /\ enr_node_uid er = sb_NodeUID sub.
Proof.
  intros Hs Ht Htpm.
  pose proof (pt_authorized _ _ _ _ _ _ _ _ _ _ _ Ht) as Hau1. rewrite Htpm in Hau1.
  apply authorize_tpm in Hau1 as (Hcert & Hpub & Hact & Huid).
  destruct (verified_tpm _ _ _ Htpm (pt_verified _ _ _ _ _ _ _ _ _ _ _ Ht)) as (e & claims & Hu & Hid & Hev & _).
  destruct (EvaluatePolicy_quote _ _ _ _ Hev) as (_ & Hsig & Hak & Hatt).
  specialize (Hak (active_enrollment_has_ak _ _ _ _ Hact)).
  pose proof (pt_put _ _ _ _ _ _ _ _ _ _ _ Ht) as Hput. unfold put_evidence in Hput.
  rewrite Htpm, String.eqb_refl in Hput. pose proof (active_revision_pos _ _ _ _ Hact) as Hpos.
  apply put_enrolled_Ok in Hput as (n & er & Hn & Her & Hnone & Hrev & _ & Hnu & _ & _ & ->); [|lia].
  destruct (accepted_fields _ _ _ _ _ Hs Hn) as (N1 & N2 & N3 & _ & _). rewrite N1, N2 in *. rewrite N3 in Hnu.
  exists e, er, (evidence_row (e_clock env AtPut) n (Some (en_Revision en))). simpl. rewrite lookup_insert_eq.
  split_and!; eauto.
Qed.
End PublishStores.

(** ** Properties of the admin service *)

(** C9: what the broker publishes as node evidence was verified and answers a fresh
    challenge.  Whatever runs in between, an allowing [PublishNodeEvidence] means
    that the cluster and the provider are configured; that the submission named a
    challenge that this broker issued for exactly this cluster, node, UID, provider
    and publisher, that was unspent and unexpired and is now spent; that the stored
    record is the submission's own; and that the payload was verified against the
    nonce of that challenge: for the TPM provider it carries a quote, signed by the
    enrolled attestation key, over that nonce, the peer presented a certificate that
    the node's active enrollment names as a publisher, and the record belongs to an
    enrollment that at that moment was not revoked, at the very revision that the
    quote was verified under; for every other provider it is the fake-local digest
    over that nonce.  And unless some other request stores evidence in between, a
    publish adds or changes no evidence record of any node, but the submission's
    own record when the answer allows. *)
Theorem publish_sound `{Hashes, TpmLib, EvidenceJSON} s env peer req b resp b' :
  env_typed env -> reachable (b_db b) ->
  PublishNodeEvidence s env peer req b = (resp, b') ->
  (pd_State (np_Decision resp) = POLICY_DECISION_STATE_ALLOW ->
   exists sub publisher nonce db1 db2 db5 row, nodeEvidenceSubmissionFromProto req = Ok sub /\
    acceptsNodeEvidenceCluster s (sb_ClusterID sub) = true /\
    canPublishNodeEvidenceProvider s (sb_Provider sub) = true /\
    open_challenge db2 sub publisher nonce (e_clock env AtNonce) /\
    spent (b_db b') (sb_ChallengeID sub) /\
    node_evidence db5 !! (sb_ClusterID sub, sb_NodeName sub) = Some row /\
    stored_as sub (sb_ClusterID sub, sb_NodeName sub) row /\
    store_le (b_db b) db1 /\ store_le db1 db2 /\ store_le db2 db5 /\ store_le db5 (b_db b') /\
    (sb_Provider sub <> ProviderTPM2Quote ->
     sb_Provider sub = ProviderFakeLocal /\ publisher = EmptyString /\
     FakeLocalPayload (mkChallengeRequest (sb_ClusterID sub) (sb_NodeName sub) (sb_NodeUID sub) (sb_Provider sub))
       (mkNodeChallenge (sb_ChallengeID sub) nonce 0) = Ok (sb_Payload sub)) /\
    (sb_Provider sub = ProviderTPM2Quote ->
     exists en e er,
       nodeEvidenceClientCertificateHash peer = Ok publisher /\ AuthorizesPublisher en publisher = true /\
       sql_ActiveNodeEvidenceEnrollment db1 (sb_ClusterID sub) (sb_NodeName sub) = Ok en /\
       en_NodeUID en = sb_NodeUID sub /\
       UnmarshalEvidence (sb_Payload sub) = Ok e /\ ev_ChallengeID e = sb_ChallengeID sub /\
       quote_signed e /\ tp_EnrolledAKPublicHash (en_TPMPolicy en) = PublicDigest (ev_AKPublic e) /\
       (exists claims, EvaluatePolicy e nonce (en_TPMPolicy en) = Ok claims) /\
       (exists sel digest, quote_attests e nonce sel digest) /\
       ner_enrollment_revision row = Some (en_Revision en) /\
       node_evidence_enrollments db5 !! (sb_ClusterID sub, sb_NodeName sub) = Some er /\
       enr_revoked_at er = None /\ enr_revision er = en_Revision en /\ enr_node_uid er = sb_NodeUID sub)) /\
  ((forall p, stores_none (e_others env p)) ->
   forall k row, node_evidence (b_db b') !! k = Some row ->
     node_evidence (b_db b) !! k = Some row \/
     pd_State (np_Decision resp) = POLICY_DECISION_STATE_ALLOW /\
     exists sub, nodeEvidenceSubmissionFromProto req = Ok sub /\ stored_as sub k row).
Proof.
  intros He Hr Hp. split; [intros Ha | intros Hq k row Hrow].
  2:{ destruct (Publish_stores _ _ _ _ _ _ _ Hq Hp) as [Hno|(sub & k' & row' & Ha & Hs & Hst & Hsub)].
      - left. by apply (lookup_weaken _ _ _ _ Hrow).
      - apply (lookup_weaken _ _ _ _ Hrow), lookup_insert_Some in Hsub as [[<- <-]|[_ ?]]; [right; eauto | by left]. }
  pose proof (reachable_inv _ Hr) as Hi.
  destruct (Publish_allow _ _ _ _ _ _ _ Hp Ha) as (sub & en & publisher & nonce & db3 & db4 & db5 & _ & Hs & Ht & _ & ->).
  destruct (publish_trace_spent _ _ _ _ _ _ _ _ _ _ _ He Hi Ht) as [Hi5 Hsp].
  pose proof (auditNodeEvidence_steps s env adminOperationNodeEvidencePublish (sb_ClusterID sub) (sb_NodeName sub)
    (nodeEvidencePayloadHash (sb_Payload sub)) (Allow (ad_policyID s)) (mkBroker db5 (b_file b)) He) as Hau.
  destruct (steps_le _ _ Hi5 Hau) as [Hle5 _]. destruct (publish_trace_le _ _ _ _ _ _ _ _ _ _ _ He Hi Ht) as (L1 & L2 & L5).
  pose proof (pt_put _ _ _ _ _ _ _ _ _ _ _ Ht) as Hput.
  destruct (put_evidence_stores _ _ _ _ _ _ _ _ Hs Hput) as [[? _]|(k & row & _ & Hst & Hdb)]; [done|].
  exists sub, publisher, nonce, (at_ env AtEnrollment (b_db b)), (at_ env AtNonce (at_ env AtEnrollment (b_db b))), db5, row.
  assert (k = (sb_ClusterID sub, sb_NodeName sub)) as -> by apply Hst.
  split_and!; try done; [apply Ht | apply Ht | by eapply publish_trace_open | by eapply spent_mono | by rewrite Hdb, lookup_insert_eq | |].
  - intros Hne. by apply (publish_trace_fake _ _ _ _ _ _ _ _ _ _ _ Ht Hne).
  - intros Htpm. destruct (publish_trace_tpm _ _ _ _ _ _ _ _ _ _ _ _ Hs Ht Htpm) as (e & er & row' & Hrow' & ?).
    rewrite Hdb, lookup_insert_eq in Hrow'. injection Hrow' as <-. by exists en, e, er.
Qed.

(** A challenge publishes at most one evidence record: once a publish was
    allowed against it, every later publish that names it, by any peer, to any
    instance of the service and after any operations, is refused. *)
Theorem publish_challenge_not_replayable `{Hashes, TpmLib, EvidenceJSON}
  s env peer req b resp b' sub ops s2 env2 peer2 req2 sub2 :
  env_typed env -> reachable (b_db b) ->
  PublishNodeEvidence s env peer req b = (resp, b') ->
  pd_State (np_Decision resp) = POLICY_DECISION_STATE_ALLOW ->
  nodeEvidenceSubmissionFromProto req = Ok sub ->
  Forall op_typed ops -> env_typed env2 ->
  nodeEvidenceSubmissionFromProto req2 = Ok sub2 -> sb_ChallengeID sub2 = sb_ChallengeID sub ->
  pd_State (np_Decision (PublishNodeEvidence s2 env2 peer2 req2 (mkBroker (run ops (b_db b')) (b_file b'))).1)
  <> POLICY_DECISION_STATE_ALLOW.
Proof.
  intros He Hr Hp Ha Hs Hops He2 Hs2 Heq Ha2. pose proof (reachable_inv _ Hr) as Hi.
  destruct (Publish_allow _ _ _ _ _ _ _ Hp Ha) as (sub' & en & publisher & nonce & db3 & db4 & db5 & _ & Hs' & Ht & _ & ->).
  assert (sub' = sub) as -> by congruence.
  destruct (publish_trace_spent _ _ _ _ _ _ _ _ _ _ _ He Hi Ht) as [Hi5 Hsp].
  pose proof (auditNodeEvidence_steps s env adminOperationNodeEvidencePublish (sb_ClusterID sub) (sb_NodeName sub)
    (nodeEvidencePayloadHash (sb_Payload sub)) (Allow (ad_policyID s)) (mkBroker db5 (b_file b)) He) as Hau.
  destruct (PublishNodeEvidence s2 env2 peer2 req2 _) as [resp2 b2] eqn:E2. simpl in Ha2.
  destruct (Publish_allow _ _ _ _ _ _ _ E2 Ha2) as (sub3 & en2 & pub2 & nonce2 & d3 & d4 & d5 & _ & Hs3 & Ht2 & _).
  assert (sub3 = sub2) as -> by congruence. simpl in Ht2.
  pose proof (pt_consumed _ _ _ _ _ _ _ _ _ _ _ Ht2) as Hc. apply consume_spends in Hc as [_ Hns]. apply Hns.
  rewrite Heq. eapply spent_mono; [|exact Hsp].
  eapply steps_le; [exact Hi5|]. eapply steps_trans; [exact Hau|].
  eapply steps_trans; [by exists ops|]. eapply steps_trans; [by apply (steps_at env2 AtEnrollment)|].
  eapply steps_trans; [by apply (steps_at env2 AtNonce)|]. by apply steps_at.
Qed.

(** ** Every handler only performs store operations *)

Section HandlerSteps.
Context `{Hashes, TpmLib, EvidenceJSON, ProtoLib}.

Lemma consume_enroll_steps db id c subject t :
  steps db (sql_ConsumeChallenge db id c subject OPERATION_ENROLL t).2.
Proof. exists [OConsumeChallenge id c subject OPERATION_ENROLL t]. split; [by ops_typed | done]. Qed.

Lemma put_evidence_steps s env sub en db : env_typed env -> steps db (put_evidence s env sub en db).2.
Proof.
  intros He. eapply steps_trans; [by apply (steps_at env AtPut)|]. unfold put_evidence. case_goal.
  - exists [OPutEnrolledNodeEvidence (e_clock env AtPut) (accepted_evidence s env sub) (en_Revision en)].
    split; [by ops_typed | done].
  - exists [OPutNodeEvidence (e_clock env AtPut) (accepted_evidence s env sub)].
    split; [by ops_typed | done].
Qed.

Ltac audit_step := apply (auditNodeEvidence_steps _ _ _ _ _ _ _ (mkBroker _ _)); assumption.

Lemma Publish_steps s env peer req b :
  env_typed env -> steps (b_db b) (b_db (PublishNodeEvidence s env peer req b).2).
Proof.
  intros He. unfold PublishNodeEvidence. case_goal; [by apply auditNodeEvidence_steps|].
  destruct (nodeEvidenceSubmissionFromProto req) as [sub|]; [|by apply auditNodeEvidence_steps]. cbv zeta.
  case_goal; [audit_step|]. case_goal; [audit_step|].
  eapply steps_trans; [by apply (steps_at env AtEnrollment)|]. set (db1 := at_ env AtEnrollment (b_db b)).
  destruct (authorizeNodeEvidencePublisher _ _ _ _ _ _ _) as [en publisher|code reason]; [|audit_step].
  eapply steps_trans; [by apply (steps_at env AtNonce)|]. set (db2 := at_ env AtNonce db1).
  destruct (sql_ChallengeNonce _ _ _ _ _ _) as [nonce|]; [|audit_step].
  destruct (verifyNodeEvidenceSubmission sub nonce en) as [ev|] eqn:Ev; [|audit_step].
  pose proof (verifyNodeEvidenceSubmission_Ok _ _ _ _ Ev) as ->.
  eapply steps_trans; [by apply (steps_at env AtConsume)|].
  fold (submission_subject sub publisher).
  pose proof (consume_enroll_steps (at_ env AtConsume db2) (sb_ChallengeID sub) (sb_ClusterID sub)
    (submission_subject sub publisher) (e_clock env AtNonce)) as Hc.
  destruct (sql_ConsumeChallenge _ _ _ _ _ _) as [[[]|] db3]; (eapply steps_trans; [exact Hc|]); [|audit_step].
  cbn [ne_ClusterID ne_NodeName ne_NodeUID ne_Provider ne_EvidenceHash]. fold (accepted_evidence s env sub).
  pose proof (pruneNodeEvidence_steps s env (sb_ClusterID sub) db3 He) as Hpr. simpl in Hpr |- *.
  destruct (pruneNodeEvidence _ _ _ _) as [[n|] db4]; (eapply steps_trans; [exact Hpr|]); [|audit_step].
  fold (put_evidence s env sub en db4). pose proof (put_evidence_steps s env sub en db4 He) as Hpu.
  destruct (put_evidence s env sub en db4) as [[[]|err] db5]; (eapply steps_trans; [exact Hpu|]); [audit_step|].
  case_goal; audit_step.
Qed.

(** The clock and the lifetime keep the expiry in the years 1 to 9999. *)
Definition clock_typed (s : AdminService) (env : Env) : Prop :=
  time_ok (e_clock env AtPut) /\
  time_ok (e_clock env AtPut + (if ad_challengeTTL s <=? 0 then DefaultChallengeTTL else ad_challengeTTL s)).

Lemma Challenge_steps s env peer r1 r2 req b :
  env_typed env -> clock_typed s env ->
  steps (b_db b) (b_db (ChallengeNodeEvidence s env peer r1 r2 req b).2).
Proof.
  intros He [Ht1 Ht2]. unfold ChallengeNodeEvidence.
  destruct (nodeEvidenceChallengeRequestFromProto req) as [r|]; [|by apply auditNodeEvidence_steps]. cbv zeta.
  case_goal; [by apply auditNodeEvidence_steps|]. case_goal; [by apply auditNodeEvidence_steps|].
  eapply steps_trans; [by apply (steps_at env AtEnrollment)|]. set (db1 := at_ env AtEnrollment (b_db b)).
  destruct (authorizeNodeEvidencePublisher _ _ _ _ _ _ _) as [en publisher|code reason]; [|audit_step].
  destruct (randomID r1 _) as [id|]; [|apply steps_refl]. destruct (randomNonce r2) as [nonce|]; [|apply steps_refl].
  eapply steps_trans; [by apply (steps_at env AtPut)|].
  set (ch := mkChallenge _ _ _ _ _ _ _).
  assert (steps (at_ env AtPut db1) (sql_CreateChallenge (at_ env AtPut db1) ch).2) as Hc.
  { exists [OCreateChallenge ch]. split; [|done]. constructor; [|constructor]. by split_and!. }
  destruct (sql_CreateChallenge _ ch) as [[[]|] db3]; (eapply steps_trans; [exact Hc|]); audit_step.
Qed.

Lemma List_steps s env req b : env_typed env -> steps (b_db b) (b_db (ListNodeEvidence s env req b).2).
Proof.
  intros He. unfold ListNodeEvidence. case_goal; [by apply auditNodeEvidence_steps|].
  destruct (default (EmptyString, EmptyString) req) as [cluster node]. case_goal; [by apply auditNodeEvidence_steps|].
  pose proof (pruneNodeEvidence_steps s env cluster (b_db b) He) as Hpr.
  destruct (pruneNodeEvidence _ _ _ _) as [[n|] db4]; (eapply steps_trans; [exact Hpr|]); [|audit_step].
  eapply steps_trans; [by apply (steps_at env AtRead)|].
  destruct (sql_ListNodeEvidence _ _ _) as [records|err]; audit_step.
Qed.

Lemma Check_steps s env req b : env_typed env -> steps (b_db b) (b_db (CheckEvidence s env req b).2).
Proof.
  intros He. unfold CheckEvidence. cbv zeta. destruct (_ || _); [by apply auditNodeEvidence_steps|].
  destruct (ad_store s); cbn [negb]; [|by apply auditNodeEvidence_steps].
  destruct (default DevelopmentEvidenceVerifier _ _) as [vf|err]; [|by apply auditNodeEvidence_steps].
  match goal with |- context [evaluateSubjectAndNodeEvidence env ?pe ?r (b_db b)] =>
    pose proof (steps_subject env pe r (b_db b) He) as Hs;
    destruct (evaluateSubjectAndNodeEvidence env pe r (b_db b)) as [d db] end.
  eapply steps_trans; [exact Hs|]. eapply steps_trans; [by apply (steps_at env AtRead)|]. audit_step.
Qed.
End HandlerSteps.

(** ** Publishing succeeds when it should *)

(** No other request runs. *)
Definition alone (env : Env) : Prop := forall p, e_others env p = [].

Lemma at_alone env p db : alone env -> at_ env p db = db.
Proof. intros Ha. unfold at_. by rewrite Ha. Qed.

Lemma audit_alone s env op c n h d b :
  alone env -> exists t, b_db (auditNodeEvidence s env op c n h d b) = set_audit_events t (b_db b).
Proof.
  intros Ha. assert (exists t, b_db b = set_audit_events t (b_db b)) as Hsame.
  { exists (audit_events (b_db b)). by destruct (b_db b). }
  unfold auditNodeEvidence. rewrite at_alone by done. case_goal; [done|].
  destruct (newNodeEvidenceAuditEvent _ _ _ _ _ _) as [ev|]; [|done]. simpl.
  destruct (ad_auditStore s); [|done]. unfold InsertAuditEvent.
  apply (exec_inv (fun d => exists t, d = set_audit_events t (b_db b))); [done|]. intros db' Hi.
  unfold insert_audit_events in Hi. inv_ok. eauto.
Qed.

Section PublishAccepts.
Context `{Hashes, TpmLib, EvidenceJSON}.

Lemma Challenge_allow s env peer r1 r2 req b resp b1 :
  ChallengeNodeEvidence s env peer r1 r2 req b = (Ok resp, b1) ->
  pd_State (ncp_Decision resp) = POLICY_DECISION_STATE_ALLOW ->
  exists r en publisher db',
    nodeEvidenceChallengeRequestFromProto req = Ok r /\
    acceptsNodeEvidenceCluster s (cr_ClusterID r) = true /\
    canPublishNodeEvidenceProvider s (cr_Provider r) = true /\
    authorizeNodeEvidencePublisher s peer (cr_ClusterID r) (cr_NodeName r) (cr_NodeUID r) (cr_Provider r)
      (at_ env AtEnrollment (b_db b)) = Authorized en publisher /\
    sql_CreateChallenge (at_ env AtPut (at_ env AtEnrollment (b_db b)))
      (mkChallenge (ncp_ChallengeId resp) (ncp_Nonce resp) (cr_ClusterID r)
         (nodeEvidenceChallengeSubject r publisher) OPERATION_ENROLL
         (e_clock env AtPut + (if ad_challengeTTL s <=? 0 then DefaultChallengeTTL else ad_challengeTTL s))
         (e_clock env AtPut)) = (Ok tt, db') /\
    b1 = auditNodeEvidence s env adminOperationNodeEvidenceChallenge (cr_ClusterID r) (cr_NodeName r)
           EmptyString (Allow (ad_policyID s)) (mkBroker db' (b_file b)).
Proof.
  unfold ChallengeNodeEvidence. destruct (nodeEvidenceChallengeRequestFromProto req) as [r|]; [|by intros [= <- _]].
  cbv zeta. destruct (acceptsNodeEvidenceCluster _ _) eqn:Ec; cbn [negb]; [|by intros [= <- _]].
  destruct (canPublishNodeEvidenceProvider _ _) eqn:Ep; cbn [negb]; [|by intros [= <- _]].
  destruct (authorizeNodeEvidencePublisher _ _ _ _ _ _ _) as [en publisher|] eqn:Ea; [|by intros [= <- _]].
  destruct (randomID r1 _) as [id|]; [|done]. destruct (randomNonce r2) as [nonce|]; [|done].
  destruct (sql_CreateChallenge _ _) as [[[]|] db'] eqn:Ecr; [|by intros [= <- _]].
  intros [= <- <-] _. simpl. exists r, en, publisher, db'. by split_and!.
Qed.

(** An unspent challenge row answers with its nonce, and is spent. *)
Lemma challenge_row_answers db ch now :
  challenge_typed ch -> now < ch_ExpiresAt ch -> challenges db !! ch_ID ch = Some (challenge_row_of ch) ->
  sql_ChallengeNonce db (ch_ID ch) (ch_ClusterID ch) (ch_Subject ch) (ch_Operation ch) now = Ok (ch_Nonce ch) /\
  sql_ConsumeChallenge db (ch_ID ch) (ch_ClusterID ch) (ch_Subject ch) (ch_Operation ch) now
  = (Ok tt, set_challenges (<[ch_ID ch := challenge_consumed (FormatRFC3339Nano now) (challenge_row_of ch)]>
                              (challenges db)) db).
Proof.
  intros (_ & Ht & _) Hn Hl. unfold sql_ChallengeNonce, sql_ConsumeChallenge, transact, consume_tx, parse_time.
  rewrite Hl. cbn [of_option mbind result_bind]. simpl. rewrite !String.eqb_refl. cbn [check andb mbind result_bind].
  rewrite ParseRFC3339Nano_Format by done. cbn [of_option map_err mbind result_bind].
  unfold Before. apply Z.ltb_lt in Hn. rewrite Hn. done.
Qed.

Lemma acceptedTTL_pos s requested : 0 < requested -> 0 < acceptedNodeEvidenceTTL s requested.
Proof.
  unfold acceptedNodeEvidenceTTL, DefaultKubernetesNodeEvidenceTTL, Minute, Second. intros Hp.
  destruct (Z.leb_spec (ad_nodeEvidenceTTL s) 0); case_goal; lia.
Qed.

(** The record of an accepted submission is in normal form. *)
Lemma accepted_normal s env req sub :
  nodeEvidenceSubmissionFromProto req = Ok sub -> 0 < e_clock env AtNonce ->
  Normalize (accepted_evidence s env sub) = Ok (accepted_evidence s env sub) /\
  ne_CollectedAt (accepted_evidence s env sub) < ne_ExpiresAt (accepted_evidence s env sub).
Proof.
  intros Hs Hpos. destruct (submission_trimmed _ _ Hs) as (T1 & T2 & T3 & T4).
  unfold nodeEvidenceSubmissionFromProto, NormalizeSubmission, empty in Hs. inv_ok. to_prop. simpl in *.
  match goal with H : 0 < _ * Second |- _ => pose proof (acceptedTTL_pos s _ H) as Httl end.
  unfold Normalize, accepted_evidence. simpl. rewrite !TrimSpace_idem, payload_hash_trimmed. split; [|lia].
  unfold empty, IsZero, After.
  repeat match goal with H : TrimSpace ?x <> EmptyString |- _ => apply String.eqb_neq in H; rewrite H end.
  assert (String.eqb (nodeEvidencePayloadHash (nes_Payload x)) EmptyString = false) as -> by done.
  cbn [orb negb check mbind result_bind].
  assert ((e_clock env AtNonce =? 0) = false) as -> by lia.
  match goal with |- context [?a =? 0] => assert ((a =? 0) = false) as -> by lia end.
  cbn [orb negb check mbind result_bind].
  match goal with |- context [?a <? ?b] => assert ((a <? b) = true) as -> by lia end.
  done.
Qed.

(** A submission that answers its challenge from an authorized publisher is stored
    when nothing else runs. *)
Lemma publish_ready s env peer req sub b en publisher ch :
  alone env -> store_inv (b_db b) -> evidence_times_ok (b_db b) -> ad_nodeEvidence s = true ->
  nodeEvidenceSubmissionFromProto req = Ok sub -> sb_Provider sub = ProviderTPM2Quote ->
  acceptsNodeEvidenceCluster s (sb_ClusterID sub) = true ->
  canPublishNodeEvidenceProvider s (sb_Provider sub) = true ->
  has (clusters (b_db b)) (sb_ClusterID sub) = true ->
  authorizeNodeEvidencePublisher s peer (sb_ClusterID sub) (sb_NodeName sub) (sb_NodeUID sub)
    (sb_Provider sub) (b_db b) = Authorized en publisher ->
  challenge_typed ch -> e_clock env AtNonce < ch_ExpiresAt ch -> 0 < e_clock env AtNonce ->
  challenges (b_db b) !! ch_ID ch = Some (challenge_row_of ch) -> ch_ID ch = sb_ChallengeID sub ->
  ch_ClusterID ch = sb_ClusterID sub -> ch_Subject ch = submission_subject sub publisher ->
  ch_Operation ch = OPERATION_ENROLL ->
  is_ok (verifyNodeEvidenceSubmission sub (ch_Nonce ch) en) = true ->
  exists b', PublishNodeEvidence s env peer req b
    = (mkNodeEvidencePublishResponse
         (Some (nodeEvidenceToProto (accepted_evidence s env sub) (e_clock env AtReply)))
         (Proto (Allow (ad_policyID s))), b') /\
    node_evidence (b_db b') !! (sb_ClusterID sub, sb_NodeName sub)
    = Some (evidence_row (e_clock env AtPut) (accepted_evidence s env sub) (Some (en_Revision en))).
Proof.
  intros Hal Hi Hev Hne Hs Htpm Hacc Hcan Hcl Hauth Hty Hfresh Hpos Hrow Hid Hc Hsubj Hop Hver.
  destruct (challenge_row_answers _ _ _ Hty Hfresh Hrow) as [Hnonce Hcons].
  rewrite Hid, Hc, Hsubj, Hop in Hnonce, Hcons.
  apply is_ok_Ok in Hver as [ev Hver]. pose proof (verifyNodeEvidenceSubmission_Ok _ _ _ _ Hver) as ->.
  unfold PublishNodeEvidence. rewrite Hne, Hs. cbn [negb]. cbv zeta. rewrite Hacc, Hcan. cbn [negb].
  rewrite !at_alone by done. rewrite Hauth. fold (submission_subject sub publisher). rewrite Hnonce, Hver, Hcons.
  cbn [ne_ClusterID ne_NodeName ne_NodeUID ne_Provider ne_EvidenceHash]. fold (accepted_evidence s env sub).
  set (db3 := set_challenges _ (b_db b)).
  assert (exists n db4, pruneNodeEvidence s env (sb_ClusterID sub) db3 = (Ok n, db4) /\
            db4 = set_node_evidence (node_evidence db4) db3) as (n & db4 & Hpr & Hdb4).
  { unfold pruneNodeEvidence. rewrite Hne, at_alone by done. cbn [negb]. cbv zeta.
    set (cut := e_clock env AtPrune - _).
    destruct (prune_tx_exact (TrimSpace (sb_ClusterID sub)) (or_now (e_clock env AtPrune) cut) db3 Hev)
      as (n & db4 & Htx & Hdb & _). exists n, db4. unfold sql_PruneNodeEvidence, transact. by rewrite Htx. }
  rewrite Hpr. rewrite at_alone by done. rewrite Htpm, String.eqb_refl.
  rewrite Htpm in Hauth. apply authorize_tpm in Hauth as (_ & _ & Hact & Huid).
  destruct (active_enrollment_row _ _ _ _ (si_nodes _ Hi) Hact) as (row & Hl & Hn & Hr & Hb & Hu & Hp & _).
  destruct (submission_trimmed _ _ Hs) as (T1 & T2 & T3 & T4). unfold key_of in Hl. rewrite T1, T2 in Hl.
  destruct (accepted_normal s env _ _ Hs Hpos) as [Hnorm _].
  set (db5 := set_node_evidence (<[(sb_ClusterID sub, sb_NodeName sub) :=
    evidence_row (e_clock env AtPut) (accepted_evidence s env sub) (Some (en_Revision en))]> (node_evidence db4)) db4).
  assert (sql_PutEnrolledNodeEvidence (e_clock env AtPut) db4 (accepted_evidence s env sub) (en_Revision en)
          = (Ok tt, db5)) as Hput.
  { apply put_enrolled_Ok; [lia|]. exists (accepted_evidence s env sub), row. simpl.
    assert (node_evidence_enrollments db4 = node_evidence_enrollments (b_db b)) as -> by (by rewrite Hdb4).
    assert (clusters db4 = clusters (b_db b)) as -> by (by rewrite Hdb4).
    split_and!; first [assumption | reflexivity | congruence | lia]. }
  rewrite Hput. eexists. split; [reflexivity|].
  destruct (audit_alone s env adminOperationNodeEvidencePublish (sb_ClusterID sub) (sb_NodeName sub)
    (nodeEvidencePayloadHash (sb_Payload sub)) (Allow (ad_policyID s)) (mkBroker db5 (b_file b)) Hal) as [t Ht].
  simpl in Ht |- *. rewrite Ht. simpl. apply lookup_insert_eq.
Qed.
End PublishAccepts.

(** An enrolled node gets its evidence accepted: after an allowed challenge,
    with nothing else running, publishing a payload that quotes the challenge nonce
    and satisfies the enrolled policy, from the same client certificate and before
    the challenge expires, is allowed, and the policy engine finds exactly this
    record fresh until the lifetime that the broker granted has passed. *)
Theorem enrolled_node_publishes `{Hashes, TpmLib, EvidenceJSON}
  s env1 env2 peer r1 r2 creq cresp req sub b b1 en e claims :
  alone env1 -> alone env2 -> reachable (b_db b) -> evidence_times_ok (b_db b) ->
  clock_typed s env1 -> ad_nodeEvidence s = true ->
  ChallengeNodeEvidence s env1 peer r1 r2 creq b = (Ok cresp, b1) ->
  pd_State (ncp_Decision cresp) = POLICY_DECISION_STATE_ALLOW ->
  nodeEvidenceSubmissionFromProto req = Ok sub ->
  nodeEvidenceChallengeRequestFromProto creq
  = Ok (mkChallengeRequest (sb_ClusterID sub) (sb_NodeName sub) (sb_NodeUID sub) (sb_Provider sub)) ->
  sb_Provider sub = ProviderTPM2Quote -> sb_Format sub = Tpm.EvidenceFormat ->
  len (sb_Payload sub) <= maxNodeEvidencePayloadSize -> sb_ChallengeID sub = ncp_ChallengeId cresp ->
  sql_ActiveNodeEvidenceEnrollment (b_db b) (sb_ClusterID sub) (sb_NodeName sub) = Ok en ->
  UnmarshalEvidence (sb_Payload sub) = Ok e -> ev_ChallengeID e = sb_ChallengeID sub ->
  EvaluatePolicy e (ncp_Nonce cresp) (en_TPMPolicy en) = Ok claims ->
  0 < e_clock env2 AtNonce ->
  e_clock env2 AtNonce
  < e_clock env1 AtPut + (if ad_challengeTTL s <=? 0 then DefaultChallengeTTL else ad_challengeTTL s) ->
  time_ok (e_clock env2 AtNonce) ->
  time_ok (e_clock env2 AtNonce + acceptedNodeEvidenceTTL s (sb_RequestedTTL sub)) ->
  exists b2, PublishNodeEvidence s env2 peer req b1
    = (mkNodeEvidencePublishResponse
         (Some (nodeEvidenceToProto (accepted_evidence s env2 sub) (e_clock env2 AtReply)))
         (Proto (Allow (ad_policyID s))), b2) /\
    forall wall now,
      or_now wall now < e_clock env2 AtNonce + acceptedNodeEvidenceTTL s (sb_RequestedTTL sub) ->
      sql_FreshNodeEvidence wall (b_db b2) (sb_ClusterID sub) (sb_NodeName sub) now
      = Ok (accepted_evidence s env2 sub).
Proof.
  intros Ha1 Ha2 Hr Hev Hct Hne Hch Hd Hs Hreq Htpm Hfmt Hlen Hid Hact Hu Heid Hpol Hpos Hfresh Ht1 Ht2.
  destruct (Challenge_allow _ _ _ _ _ _ _ _ _ Hch Hd) as (r & en' & publisher & db' & Hr' & Hacc & Hcan & Hau & Hcr & ->).
  rewrite Hreq in Hr'. injection Hr' as <-. simpl in Hacc, Hcan, Hau, Hcr. rewrite !at_alone in * by done.
  fold (submission_subject sub publisher) in Hcr.
  set (ch := mkChallenge _ _ _ _ _ _ _) in Hcr.
  assert (en' = en) as ->.
  { rewrite Htpm in Hau. apply authorize_tpm in Hau as (_ & _ & Hact' & _). congruence. }
  unfold sql_CreateChallenge, exec in Hcr.
  destruct (insert_challenges _ _ _) as [d|] eqn:Ein; [|done]. injection Hcr as ->.
  apply insert_challenges_Ok in Ein as (_ & _ & Hcl & Hdb').
  match goal with |- context [auditNodeEvidence s env1 ?o ?c ?n ?h ?d (mkBroker db' ?f)] =>
    destruct (audit_alone s env1 o c n h d (mkBroker db' f) Ha1) as [t Hb1];
    set (b1 := auditNodeEvidence s env1 o c n h d (mkBroker db' f)) in * end.
  simpl in Hb1.
  assert (store_inv (b_db b1)) as Hi1.
  { eapply steps_le; [by apply reachable_inv|].
    pose proof (Challenge_steps s env1 peer r1 r2 creq b ltac:(intros p; by rewrite Ha1) Hct) as Hst.
    by rewrite Hch in Hst. }
  destruct (publish_ready s env2 peer req sub b1 en publisher ch) as (b2 & Hp & Hrow); try done.
  - intros k row Hl. apply (Hev k row). by rewrite Hb1, Hdb' in Hl.
  - by rewrite Hb1, Hdb'.
  - by rewrite Hb1, Hdb'.
  - split; [done|]. split; apply Hct.
  - rewrite Hb1, Hdb'. simpl. apply lookup_insert_eq.
  - destruct (active_enrollment_row _ _ _ _ (si_nodes _ (reachable_inv _ Hr)) Hact)
      as (row & _ & _ & _ & _ & Hnu & _ & Hc & Hn & _ & _ & Hav).
    destruct (submission_trimmed _ _ Hs) as (T1 & T2 & T3 & _).
    rewrite Htpm in Hau. apply authorize_tpm in Hau as (_ & _ & _ & Huid).
    unfold verifyNodeEvidenceSubmission, verifyTPMNodeEvidenceSubmission.
    assert (maxNodeEvidencePayloadSize <? len (sb_Payload sub) = false) as -> by lia.
    rewrite Htpm, Hfmt, Hav, Hc, Hn, T1, T2, Huid, T3, !String.eqb_refl. simpl.
    rewrite Hu. cbn [map_err mbind result_bind]. rewrite Heid, String.eqb_refl. cbn [check mbind result_bind].
    by rewrite Hpol.
  - exists b2. split; [done|]. intros wall now Hnow. destruct (submission_trimmed _ _ Hs) as (T1 & T2 & T3 & _).
    unfold sql_FreshNodeEvidence, sql_NodeEvidence, key_of. rewrite T1, T2, Hrow. cbn [of_option mbind result_bind].
    unfold scanNodeEvidence, parse_time, evidence_row. simpl.
    rewrite !ParseRFC3339Nano_Format by done. cbn [of_option map_err mbind result_bind].
    unfold After. cbn [ne_ExpiresAt]. apply Z.ltb_lt in Hnow. rewrite Hnow. cbn [negb].
    f_equal. unfold accepted_evidence. f_equal. unfold nullableString.
    by destruct (String.eqb_spec (sb_NodeUID sub) EmptyString) as [->|].
Qed.

(** ** Examples *)

(** The payload is the challenge identifier; it decodes to a quote over "nonce". *)
Definition toy_EvidenceJSON : EvidenceJSON := {| json_Unmarshal_Evidence payload :=
  Ok (mkEvidence 1 payload (@NonceDigest toy_Hashes "nonce") "ak" "nonce" (toy_Sum HashSHA256 "nonce")
        (mkPCRSelection "SHA256" [7]) [("7"%string, hex_EncodeToString (toy_Sum HashSHA256 "p"))]
        "" "" "" "") |}.

Definition example_admin : AdminService :=
  newAdminService (mkAdminService true true true true None 0 0 0 " cluster-a " "policy-1" false
    [ProviderTPM2Quote] true).
Definition example_peer : option (option AuthInfo) := Some (Some (TLSInfo ["cert"%string])).
Definition example_publisher : string := @nodeEvidencePayloadHash toy_Hashes "cert".
Definition example_node_enrollment : EnrollmentRequest :=
  mkEnrollmentRequest "cluster-a" "node-1" "uid-1" ProviderTPM2Quote example_policy [example_publisher]
    example_time.
Definition example_enrolled : DB := run [OEnrollNodeEvidence example_node_enrollment] example_store.
Definition example_admin_env (others : point -> list store_op) : Env :=
  mkEnv (Ok tt) (fun _ => example_time) (Ok "0123456789abcdef01"%string) (Ok "nonce-nonce-"%string) "peer" (Ok tt) others.
Definition example_quiet : Env := example_admin_env (fun _ => []).
Definition example_challenged : result NodeEvidenceChallengeResponse * Broker :=
  @ChallengeNodeEvidence toy_Hashes example_admin example_quiet example_peer (Ok "id"%string) (Ok "nonce"%string)
    (Some (mkNodeEvidenceChallengeRequest " cluster-a" "node-1" "uid-1" ProviderTPM2Quote))
    (mkBroker example_enrolled []).
Definition example_challenge_response : NodeEvidenceChallengeResponse :=
  match example_challenged.1 with
  | Ok r => r
  | Err _ => mkNodeEvidenceChallengeResponse EmptyString EmptyString 0 (mkProtoDecision 0 EmptyString [])
  end.
Definition example_submission : NodeEvidenceSubmission :=
  mkNodeEvidenceSubmission "cluster-a" "node-1" "uid-1" ProviderTPM2Quote Tpm.EvidenceFormat
    (ncp_ChallengeId example_challenge_response) (ncp_ChallengeId example_challenge_response) 3600.
Definition example_published : NodeEvidencePublishResponse * Broker :=
  @PublishNodeEvidence toy_Hashes toy_TpmLib toy_EvidenceJSON example_admin example_quiet example_peer
    (Some example_submission) example_challenged.2.

Example example_publish_allowed :
  pd_State (np_Decision example_published.1) = POLICY_DECISION_STATE_ALLOW.
Proof. vm_compute. reflexivity. Qed.

Lemma example_quiet_alone : alone example_quiet.
Proof. by intros p. Qed.
Lemma example_quiet_typed : env_typed example_quiet.
Proof. intros p. constructor. Qed.
Lemma example_enrolled_reachable : reachable example_enrolled.
Proof.
  apply run_reachable; [exact example_store_reachable|]. repeat constructor; vm_compute; congruence.
Qed.
Lemma example_admin_clock : clock_typed example_admin example_quiet.
Proof. split; vm_compute; split; congruence. Qed.
Lemma example_challenged_reachable : reachable (b_db example_challenged.2).
Proof.
  eapply steps_reachable; [|exact example_enrolled_reachable].
  apply (@Challenge_steps toy_Hashes example_admin example_quiet example_peer (Ok "id"%string) (Ok "nonce"%string)
    (Some (mkNodeEvidenceChallengeRequest " cluster-a" "node-1" "uid-1" ProviderTPM2Quote))
    (mkBroker example_enrolled []) example_quiet_typed example_admin_clock).
Qed.

Definition example_parsed : Submission :=
  match nodeEvidenceSubmissionFromProto (Some example_submission) with
  | Ok sub => sub
  | Err _ => mkSubmission EmptyString EmptyString EmptyString EmptyString EmptyString EmptyString EmptyString 0
  end.

Lemma publish_sound_witness :
  spent (b_db example_published.2) (ncp_ChallengeId example_challenge_response) /\
  (exists en publisher, @nodeEvidenceClientCertificateHash toy_Hashes example_peer = Ok publisher /\
    AuthorizesPublisher en publisher = true) /\
  forall k row, node_evidence (b_db example_published.2) !! k = Some row ->
    @stored_as toy_Hashes example_parsed k row.
Proof.
  assert (forall sub, nodeEvidenceSubmissionFromProto (Some example_submission) = Ok sub -> sub = example_parsed)
    as Hsub by (intros sub Hs; unfold example_parsed; rewrite Hs; reflexivity).
  destruct (@publish_sound toy_Hashes toy_TpmLib toy_EvidenceJSON example_admin example_quiet example_peer
    (Some example_submission) example_challenged.2 example_published.1 example_published.2) as [Hallow Hstored].
  - exact example_quiet_typed.
  - exact example_challenged_reachable.
  - apply surjective_pairing.
  - destruct Hallow as (sub & publisher & nonce & db1 & db2 & db5 & row & Hs & _ & _ & _ & Hspent & _ & _ & _ & _ & _ & _ & _ & Htpm).
    { vm_compute. reflexivity. }
    apply Hsub in Hs. rewrite Hs in *. split; [|split].
    + replace (ncp_ChallengeId example_challenge_response) with (sb_ChallengeID example_parsed); [exact Hspent|].
      vm_compute. reflexivity.
    + destruct Htpm as (en & _ & _ & Hc & Hp & _); [vm_compute; reflexivity|]. exists en, publisher. split; [exact Hc | exact Hp].
    + intros k r Hr. destruct (Hstored (fun p => List.Forall_nil _) k r Hr) as [Hold|(_ & sub' & Hs' & Hst)].
      * assert (forall m : gmap evidenceKey node_evidence_row, m = ∅ -> m !! k = Some r -> False) as Hno
          by (intros m -> Hm; discriminate Hm).
        destruct (Hno _ ltac:(vm_compute; reflexivity) Hold).
      * apply Hsub in Hs'. rewrite Hs' in Hst. exact Hst.
Defined.

Lemma publish_challenge_not_replayable_witness :
  pd_State (np_Decision (@PublishNodeEvidence toy_Hashes toy_TpmLib toy_EvidenceJSON example_admin example_quiet
    example_peer (Some example_submission)
    (mkBroker (run [ORevokeNodeEvidence "cluster-a" "node-1" example_time] (b_db example_published.2))
       (b_file example_published.2))).1)
  <> POLICY_DECISION_STATE_ALLOW.
Proof.
  apply (@publish_challenge_not_replayable toy_Hashes toy_TpmLib toy_EvidenceJSON example_admin example_quiet
    example_peer (Some example_submission) example_challenged.2 example_published.1 example_published.2
    example_parsed [ORevokeNodeEvidence "cluster-a" "node-1" example_time] example_admin example_quiet example_peer
    (Some example_submission) example_parsed).
  - exact example_quiet_typed.
  - exact example_challenged_reachable.
  - apply surjective_pairing.
  - vm_compute. reflexivity.
  - vm_compute. reflexivity.
  - repeat constructor; vm_compute; congruence.
  - exact example_quiet_typed.
  - vm_compute. reflexivity.
  - reflexivity.
Defined.

Definition example_active : Enrollment :=
  match sql_ActiveNodeEvidenceEnrollment example_enrolled "cluster-a" "node-1" with
  | Ok en => en
  | Err _ => zero_enrollment
  end.
Definition example_node_quote : Evidence :=
  match @UnmarshalEvidence toy_EvidenceJSON (sb_Payload example_parsed) with
  | Ok e => e
  | Err _ => example_evidence
  end.

Lemma enrolled_node_publishes_witness :
  exists b2, @PublishNodeEvidence toy_Hashes toy_TpmLib toy_EvidenceJSON example_admin example_quiet example_peer
    (Some example_submission) example_challenged.2
  = (mkNodeEvidencePublishResponse
       (Some (nodeEvidenceToProto (@accepted_evidence toy_Hashes example_admin example_quiet example_parsed) example_time))
       (Proto (Allow "policy-1")), b2) /\
  sql_FreshNodeEvidence 0 (b_db b2) "cluster-a" "node-1" (example_time + Minute)
  = Ok (@accepted_evidence toy_Hashes example_admin example_quiet example_parsed).
Proof.
  destruct (@EvaluatePolicy toy_Hashes toy_TpmLib example_node_quote (ncp_Nonce example_challenge_response)
    (en_TPMPolicy example_active)) as [claims|err] eqn:Ec; [|vm_compute in Ec; discriminate Ec].
  destruct (@enrolled_node_publishes toy_Hashes toy_TpmLib toy_EvidenceJSON example_admin example_quiet example_quiet
    example_peer (Ok "id"%string) (Ok "nonce"%string)
    (Some (mkNodeEvidenceChallengeRequest " cluster-a" "node-1" "uid-1" ProviderTPM2Quote))
    example_challenge_response (Some example_submission) example_parsed (mkBroker example_enrolled [])
    example_challenged.2 example_active example_node_quote claims) as (b2 & Hp & Hf);
    [exact example_quiet_alone | exact example_quiet_alone | exact example_enrolled_reachable
    | intros k row H; vm_compute in H; discriminate H | exact example_admin_clock | | | | | | | | | | | | | exact Ec | | | |
    | exists b2; split; [exact Hp | apply Hf; vm_compute; reflexivity]].
  all: first [vm_compute; reflexivity | vm_compute; congruence | vm_compute; split; congruence].
Defined.
