(* ===== verification/Enrollment.v ===== *)
(** * The enrollment service (internal/broker/enrollment_service.go)

    Operators enroll and revoke node trust.  A caller is authorized by its client
    certificate against the configured control-plane identities, and the audit
    record of an allowed change is written before the change is made: a change
    that cannot be audited is refused. *)

From S2P Require Import Prelude GoStrings GoTime Keyring KeyProtection Tpm NodeEvidence Config.
From S2P Require Import Sql Store Challenges SqlNodeEvidence StoreInv StoreOps Policy Kubernetes Admin.
From Stdlib Require Import Ascii.
Local Open Scope Z_scope.

Definition enrollmentOperationNodeEvidenceEnroll : string := "NODE_EVIDENCE_ENROLL".
Definition enrollmentOperationNodeEvidenceRevoke : string := "NODE_EVIDENCE_REVOKE".
Definition enrollmentOperationNodeEvidenceList : string := "NODE_EVIDENCE_ENROLLMENT_LIST".

(** ** Messages *)

(** The fields of the audit context that the broker reads. *)
Record AuditContext := mkAuditContext { ac_CorrelationId : string; ac_RequestId : string }.
Record NodeEvidencePCRPolicy := mkNodeEvidencePCRPolicy {
  npp_Hash : string; npp_Pcrs : list Z; npp_ExpectedDigest : string; npp_Profile : string;
}.
Record NodeEvidenceTPMPolicy := mkNodeEvidenceTPMPolicy {
  ntp_Mode : string; ntp_EnrolledAkPublicHash : string; ntp_ProviderProfile : string;
  ntp_PcrPolicy : option NodeEvidencePCRPolicy;
}.
Record NodeEvidenceEnrollmentRequest := mkNodeEvidenceEnrollmentRequest {
  neq_ClusterId : string; neq_NodeName : string; neq_NodeUid : string; neq_ProviderId : string;
  neq_TpmPolicy : option NodeEvidenceTPMPolicy; neq_PublisherCertificateSha256 : list string;
  neq_Reason : string; neq_Audit : option AuditContext;
}.
Record NodeEvidenceRevocationRequest := mkNodeEvidenceRevocationRequest {
  nrq_ClusterId : string; nrq_NodeName : string; nrq_Reason : string; nrq_Audit : option AuditContext;
}.
Record NodeEvidenceEnrollmentListRequest := mkNodeEvidenceEnrollmentListRequest {
  nlq_ClusterId : string; nlq_NodeName : string; nlq_IncludeRevoked : bool; nlq_Audit : option AuditContext;
}.
Record NodeEvidenceEnrollmentRecord := mkNodeEvidenceEnrollmentRecord {
  ner_ClusterId : string; ner_NodeName : string; ner_NodeUid : string; ner_ProviderId : string;
  ner_TpmPolicy : NodeEvidenceTPMPolicy; ner_PublisherCertificateSha256 : list string; ner_Revision : Z;
  ner_EnrolledUnixSeconds : Z; ner_UpdatedUnixSeconds : Z; ner_RevokedUnixSeconds : Z;
}.
(** Enroll and Revoke answer with the record, if any, and the decision. *)
Record NodeEvidenceEnrollmentResponse := mkNodeEvidenceEnrollmentResponse {
  nep_Enrollment : option NodeEvidenceEnrollmentRecord; nep_Decision : ProtoDecision;
}.
Record NodeEvidenceEnrollmentListResponse := mkNodeEvidenceEnrollmentListResponse {
  nelp_Enrollments : list NodeEvidenceEnrollmentRecord; nelp_Decision : ProtoDecision;
}.

(** ** The service *)

Record EnrollmentService := mkEnrollmentService {
  es_store : bool;
  es_auditStore : bool;
  es_audit : bool;
  es_identities : gmap string ControlPlaneIdentity;
  es_clusterID : string;
  es_policyID : string;
}.

Definition newEnrollmentService (config : EnrollmentService) : EnrollmentService :=
  mkEnrollmentService (es_store config) (es_auditStore config) (es_audit config) (es_identities config)
    (TrimSpace (es_clusterID config)) (TrimSpace (es_policyID config)).

(** ** Conversions *)

Definition normalizeEnrollmentReason (value : string) : result string :=
  let value := TrimSpace value in
  check (negb (String.eqb value EmptyString)) (errorf "reason is required");;
  check (negb (1024 <? len value)) (errorf "reason exceeds maximum size");;
  Ok value.

(** The loop over the PCR indexes, which are unsigned. *)
Fixpoint pcr_indexes (pcrs : list Z) : result (list Z) :=
  match pcrs with
  | [] => Ok []
  | index :: r =>
      check (negb (23 <? index)) (errorf ("PCR index " +:+ FormatUint index +:+ " is out of range"));;
      rest ← pcr_indexes r;
      Ok (index :: rest)
  end.

Definition tpmPolicyFromProto (policy : NodeEvidenceTPMPolicy) : result TPMPolicy :=
  pcr ← match ntp_PcrPolicy policy with
        | None => Ok None
        | Some pcr =>
            indexes ← pcr_indexes (npp_Pcrs pcr);
            Ok (Some (mkPCRPolicy (mkPCRSelection (TrimSpace (npp_Hash pcr)) indexes)
                        (TrimSpace (npp_ExpectedDigest pcr)) [] (TrimSpace (npp_Profile pcr))))
        end;
  Ok (mkTPMPolicy (TrimSpace (ntp_Mode policy)) (TrimSpace (ntp_EnrolledAkPublicHash policy)) pcr
        (TrimSpace (ntp_ProviderProfile policy))).

Definition nodeEvidenceEnrollmentRequestFromProto (req : option NodeEvidenceEnrollmentRequest) (now : Time)
  : result (EnrollmentRequest * string) :=
  '(req, policy) ← of_option (errorf "node evidence enrollment and TPM policy are required")
    (req ← req; policy ← neq_TpmPolicy req; Some (req, policy));
  reason ← normalizeEnrollmentReason (neq_Reason req);
  policy ← tpmPolicyFromProto policy;
  request ← NormalizeEnrollmentRequest
    (mkEnrollmentRequest (neq_ClusterId req) (neq_NodeName req) (neq_NodeUid req) (neq_ProviderId req)
       policy (neq_PublisherCertificateSha256 req) now);
  Ok (request, reason).

(** The cluster and node are returned even when the request is refused. *)
Definition nodeEvidenceRevocationRequestFromProto (req : option NodeEvidenceRevocationRequest)
  : string * string * result string :=
  match req with
  | None => (EmptyString, EmptyString, Err (errorf "node evidence revocation request is required"))
  | Some req =>
      let clusterID := TrimSpace (nrq_ClusterId req) in
      let nodeName := TrimSpace (nrq_NodeName req) in
      (clusterID, nodeName,
       check (negb (String.eqb clusterID EmptyString || String.eqb nodeName EmptyString))
         (errorf "cluster_id and node_name are required");;
       normalizeEnrollmentReason (nrq_Reason req))
  end.

Definition unixSecondsOrZero (t : Time) : Z := if IsZero t then 0 else Unix t.

Definition policyToProto (p : TPMPolicy) : NodeEvidenceTPMPolicy :=
  mkNodeEvidenceTPMPolicy (tp_Mode p) (tp_EnrolledAKPublicHash p) (tp_ProviderProfile p)
    ((fun pcr => mkNodeEvidencePCRPolicy (sel_Hash (pp_Selection pcr))
        ((fun index => index mod (uint32_max + 1)) <$> sel_PCRs (pp_Selection pcr))
        (pp_ExpectedDigest pcr) (pp_Profile pcr)) <$> tp_PCRPolicy p).

Definition nodeEvidenceEnrollmentToProto (e : Enrollment) : NodeEvidenceEnrollmentRecord :=
  mkNodeEvidenceEnrollmentRecord (en_ClusterID e) (en_NodeName e) (en_NodeUID e) (en_Provider e)
    (policyToProto (en_TPMPolicy e)) (en_PublisherCertificateHashes e) (en_Revision e)
    (Unix (en_EnrolledAt e)) (Unix (en_UpdatedAt e)) (unixSecondsOrZero (en_RevokedAt e)).

Definition decisionWithReason (d : PolicyDecision) (reason : string) : PolicyDecision :=
  mkPolicyDecision (d_State d) (d_ErrorCode d) (d_PolicyID d) reason.

(** ** Authorization and audit *)

(** The caller's certificate hash, empty when there is none, and the error code
    and reason of a refusal, if it is refused. *)
Definition authorize `{Hashes} (s : EnrollmentService) (peer : Peer) (clusterID : string)
  : string * option (ErrorCode * string) :=
  match nodeEvidenceClientCertificateHash peer with
  | Err _ => (EmptyString, Some (ERROR_CODE_UNAUTHENTICATED,
                "control-plane operation requires an authenticated client certificate"%string))
  | Ok certificateHash =>
      (certificateHash,
       match es_identities s !! certificateHash with
       | Some identity =>
           if negb (existsb (String.eqb ControlPlaneRoleNodeEvidenceAdmin) (cp_Roles identity))
           then Some (ERROR_CODE_PERMISSION_DENIED,
                  "control-plane identity lacks the node-evidence-admin role"%string)
           else if negb (existsb (String.eqb (TrimSpace clusterID)) (cp_ClusterIDs identity))
           then Some (ERROR_CODE_PERMISSION_DENIED,
                  "control-plane identity is not authorized for this cluster"%string)
           else None
       | None => Some (ERROR_CODE_PERMISSION_DENIED,
                   "control-plane identity lacks the node-evidence-admin role"%string)
       end)
  end.

Definition acceptsCluster (s : EnrollmentService) (clusterID : string) : bool :=
  String.eqb (es_clusterID s) EmptyString || String.eqb (es_clusterID s) (TrimSpace clusterID).

Definition enrollment_event (env : Env) (auditID operation actor clusterID nodeName : string)
  (auditContext : option AuditContext) (decision : PolicyDecision) : AuditEvent :=
  mkAuditEvent 1 auditID (FormatRFC3339Nano (e_clock env AtAudit)) actor operation clusterID EmptyString 0
    (PolicyDecisionState_String (d_State decision)) (d_PolicyID decision) (d_Reason decision) EmptyString
    (e_remote env) (auditErrorCode decision) actor nodeName
    (match auditContext with Some a => TrimSpace (ac_CorrelationId a) | None => EmptyString end)
    (match auditContext with Some a => TrimSpace (ac_RequestId a) | None => EmptyString end).

(** Both sinks must take the record; the file is not written when the table
    refused it. *)
Definition auditEnrollmentDecision (s : EnrollmentService) (env : Env)
  (operation actor clusterID nodeName : string) (auditContext : option AuditContext)
  (decision : PolicyDecision) (b : Broker) : result unit * Broker :=
  if negb (es_auditStore s) && negb (es_audit s)
  then (Err (errorf "security audit sink is not configured"), b)
  else
    match randomID (e_audit_random env) "audit" with
    | Err e => (Err e, b)
    | Ok auditID =>
        let actor := if String.eqb actor EmptyString then "unauthenticated"%string else actor in
        let event := enrollment_event env auditID operation actor clusterID nodeName auditContext decision in
        let '(stored, db) :=
          if es_auditStore s then InsertAuditEvent event (at_ env AtAudit (b_db b)) else (Ok tt, b_db b) in
        match stored with
        | Err e => (Err e, mkBroker db (b_file b))
        | Ok _ =>
            let '(written, file) :=
              if es_audit s then audit_Write (e_ctx env) (e_audit_io env) event (b_file b)
              else (Ok tt, b_file b) in
            (written, mkBroker db file)
        end
    end.

(** ** The handlers

    [late] is the environment of the second audit record, written when the store
    refuses an allowed change. *)

Definition EnrollNodeEvidence `{Hashes} (s : EnrollmentService) (env late : Env) (peer : Peer)
  (req : option NodeEvidenceEnrollmentRequest) (b : Broker) : NodeEvidenceEnrollmentResponse * Broker :=
  let audit := match req with Some r => neq_Audit r | None => None end in
  let refuse (env : Env) (actor cluster node : string) (d : PolicyDecision) (b : Broker) :=
    (mkNodeEvidenceEnrollmentResponse None (Proto d),
     (auditEnrollmentDecision s env enrollmentOperationNodeEvidenceEnroll actor cluster node audit d b).2) in
  match nodeEvidenceEnrollmentRequestFromProto req (e_clock env AtEnrollment) with
  | Err err => refuse env EmptyString EmptyString EmptyString
                 (Deny (es_policyID s) ERROR_CODE_INVALID_REQUEST (err_msg err)) b
  | Ok (request, reason) =>
      let cluster := er_ClusterID request in
      let node := er_NodeName request in
      let '(actor, refused) := authorize s peer cluster in
      match refused with
      | Some (code, message) => refuse env actor cluster node (Deny (es_policyID s) code message) b
      | None =>
          if negb (acceptsCluster s cluster)
          then refuse env actor cluster node
                 (Deny (es_policyID s) ERROR_CODE_PERMISSION_DENIED
                    "node evidence cluster is not configured") b
          else if negb (es_store s)
          then refuse env actor cluster node
                 (Deny (es_policyID s) ERROR_CODE_INTERNAL
                    "node evidence enrollment storage is unavailable") b
          else
            let decision := Allow (es_policyID s) in
            match auditEnrollmentDecision s env enrollmentOperationNodeEvidenceEnroll actor cluster node audit
                    (decisionWithReason decision reason) b with
            | (Err _, b) =>
                (mkNodeEvidenceEnrollmentResponse None
                   (Proto (Deny (es_policyID s) ERROR_CODE_INTERNAL "node evidence enrollment audit failed")), b)
            | (Ok _, b) =>
                match sql_EnrollNodeEvidence (at_ env AtPut (b_db b)) request with
                | (Err _, db) =>
                    refuse late actor cluster node
                      (Deny (es_policyID s) ERROR_CODE_INTERNAL "node evidence enrollment failed")
                      (mkBroker db (b_file b))
                | (Ok enrollment, db) =>
                    (mkNodeEvidenceEnrollmentResponse (Some (nodeEvidenceEnrollmentToProto enrollment))
                       (Proto decision), mkBroker db (b_file b))
                end
            end
      end
  end.

Definition RevokeNodeEvidence `{Hashes} (s : EnrollmentService) (env late : Env) (peer : Peer)
  (req : option NodeEvidenceRevocationRequest) (b : Broker) : NodeEvidenceEnrollmentResponse * Broker :=
  let audit := match req with Some r => nrq_Audit r | None => None end in
  let '(cluster, node, parsed) := nodeEvidenceRevocationRequestFromProto req in
  let refuse (env : Env) (actor : string) (d : PolicyDecision) (b : Broker) :=
    (mkNodeEvidenceEnrollmentResponse None (Proto d),
     (auditEnrollmentDecision s env enrollmentOperationNodeEvidenceRevoke actor cluster node audit d b).2) in
  match parsed with
  | Err err => refuse env EmptyString (Deny (es_policyID s) ERROR_CODE_INVALID_REQUEST (err_msg err)) b
  | Ok reason =>
      let '(actor, refused) := authorize s peer cluster in
      match refused with
      | Some (code, message) => refuse env actor (Deny (es_policyID s) code message) b
      | None =>
          if negb (acceptsCluster s cluster)
          then refuse env actor
                 (Deny (es_policyID s) ERROR_CODE_PERMISSION_DENIED
                    "node evidence cluster is not configured") b
          else if negb (es_store s)
          then refuse env actor
                 (Deny (es_policyID s) ERROR_CODE_INTERNAL
                    "node evidence enrollment storage is unavailable") b
          else
            let decision := Allow (es_policyID s) in
            match auditEnrollmentDecision s env enrollmentOperationNodeEvidenceRevoke actor cluster node audit
                    (decisionWithReason decision reason) b with
            | (Err _, b) =>
                (mkNodeEvidenceEnrollmentResponse None
                   (Proto (Deny (es_policyID s) ERROR_CODE_INTERNAL "node evidence revocation audit failed")), b)
            | (Ok _, b) =>
                match sql_RevokeNodeEvidence (at_ env AtPut (b_db b)) cluster node (e_clock env AtPut) with
                | (Err err, db) =>
                    let failure :=
                      if errors_Is err ErrEnrollmentNotFound || errors_Is err ErrEnrollmentRevoked
                      then Deny (es_policyID s) ERROR_CODE_INVALID_REQUEST (err_msg err)
                      else Deny (es_policyID s) ERROR_CODE_INTERNAL "node evidence revocation failed" in
                    refuse late actor failure (mkBroker db (b_file b))
                | (Ok enrollment, db) =>
                    (mkNodeEvidenceEnrollmentResponse (Some (nodeEvidenceEnrollmentToProto enrollment))
                       (Proto decision), mkBroker db (b_file b))
                end
            end
      end
  end.

Definition ListNodeEvidenceEnrollments `{Hashes} (s : EnrollmentService) (env : Env) (peer : Peer)
  (req : option NodeEvidenceEnrollmentListRequest) (b : Broker)
  : NodeEvidenceEnrollmentListResponse * Broker :=
  let audit := match req with Some r => nlq_Audit r | None => None end in
  let answer (actor cluster node : string) (out : list NodeEvidenceEnrollmentRecord) (d : PolicyDecision)
    (b : Broker) :=
    (mkNodeEvidenceEnrollmentListResponse out (Proto d),
     (auditEnrollmentDecision s env enrollmentOperationNodeEvidenceList actor cluster node audit d b).2) in
  let cluster := match req with Some r => TrimSpace (nlq_ClusterId r) | None => EmptyString end in
  let node := match req with Some r => TrimSpace (nlq_NodeName r) | None => EmptyString end in
  if String.eqb cluster EmptyString
  then answer EmptyString EmptyString EmptyString []
         (Deny (es_policyID s) ERROR_CODE_INVALID_REQUEST "cluster_id is required") b
  else
    let '(actor, refused) := authorize s peer cluster in
    match refused with
    | Some (code, message) => answer actor cluster node [] (Deny (es_policyID s) code message) b
    | None =>
        if negb (acceptsCluster s cluster)
        then answer actor cluster node []
               (Deny (es_policyID s) ERROR_CODE_PERMISSION_DENIED
                  "node evidence cluster is not configured") b
        else if negb (es_store s)
        then answer actor cluster node []
               (Deny (es_policyID s) ERROR_CODE_INTERNAL
                  "node evidence enrollment storage is unavailable") b
        else
          let db := at_ env AtRead (b_db b) in
          match sql_ListNodeEvidenceEnrollments db cluster node
                  (match req with Some r => nlq_IncludeRevoked r | None => false end) with
          | Err err =>
              answer actor cluster node []
                (if errors_Is err ErrEnrollmentNotFound then Allow (es_policyID s)
                 else Deny (es_policyID s) ERROR_CODE_INTERNAL "node evidence enrollment lookup failed")
                (mkBroker db (b_file b))
          | Ok enrollments =>
              answer actor cluster node (nodeEvidenceEnrollmentToProto <$> enrollments)
                (Allow (es_policyID s)) (mkBroker db (b_file b))
          end
    end.

(** ** What the handlers do to the store and the audit *)

(** The caller presents a certificate whose identity administers node evidence of
    the cluster, which the broker serves. *)
Definition permitted `{Hashes} (s : EnrollmentService) (peer : Peer) (cluster actor : string) : Prop :=
  nodeEvidenceClientCertificateHash peer = Ok actor /\ acceptsCluster s cluster = true /\
  exists identity, es_identities s !! actor = Some identity /\
    In ControlPlaneRoleNodeEvidenceAdmin (cp_Roles identity) /\ In (TrimSpace cluster) (cp_ClusterIDs identity).

(** At least one audit sink is configured, and each configured one holds the event. *)
Definition recorded (s : EnrollmentService) (event : AuditEvent) (b : Broker) : Prop :=
  es_auditStore s || es_audit s = true /\
  (es_auditStore s = true -> audit_events (b_db b) !! ae_AuditID event = Some event) /\
  (es_audit s = true -> event ∈ b_file b).

(** All that happened since [db] is, at most, one audit record after the other
    requests that came before it. *)
Definition audit_only (env : Env) (db db' : DB) : Prop :=
  db' = db \/
  exists event, db' = (InsertAuditEvent event (at_ env AtAudit db)).2.

(** The two calls that change node trust. *)
Inductive trust_change :=
| Enroll (req : option NodeEvidenceEnrollmentRequest)
| Revoke (req : option NodeEvidenceRevocationRequest).

Definition handle `{Hashes} (s : EnrollmentService) (env late : Env) (peer : Peer) (c : trust_change)
  (b : Broker) : NodeEvidenceEnrollmentResponse * Broker :=
  match c with
  | Enroll req => EnrollNodeEvidence s env late peer req b
  | Revoke req => RevokeNodeEvidence s env late peer req b
  end.

Definition operation_of (c : trust_change) : string :=
  match c with
  | Enroll _ => enrollmentOperationNodeEvidenceEnroll
  | Revoke _ => enrollmentOperationNodeEvidenceRevoke
  end.
Definition audit_of (c : trust_change) : option AuditContext :=
  match c with
  | Enroll req => match req with Some r => neq_Audit r | None => None end
  | Revoke req => match req with Some r => nrq_Audit r | None => None end
  end.

(** The one store operation of the call, with the stated reason. *)
Definition store_change (env : Env) (c : trust_change) (cluster node reason : string) (o : store_op) : Prop :=
  match c with
  | Enroll req => exists request,
      nodeEvidenceEnrollmentRequestFromProto req (e_clock env AtEnrollment) = Ok (request, reason) /\
      er_ClusterID request = cluster /\ er_NodeName request = node /\ o = OEnrollNodeEvidence request
  | Revoke req =>
      nodeEvidenceRevocationRequestFromProto req = (cluster, node, Ok reason) /\
      o = ORevokeNodeEvidence cluster node (e_clock env AtPut)
  end.

Section Trust.
Context `{Hashes}.

Lemma authorize_permitted s peer cluster actor :
  authorize s peer cluster = (actor, None) -> acceptsCluster s cluster = true ->
  permitted s peer cluster actor.
Proof.
  unfold authorize, permitted. destruct (nodeEvidenceClientCertificateHash peer) as [hash|]; [|done].
  destruct (es_identities s !! hash) as [identity|] eqn:Hid; [|done]. case_goal; [done|]. case_goal; [done|].
  to_prop. intros [= <-] Ha. split_and!; [done..|]. exists identity.
  repeat match goal with E : existsb _ _ = true |- _ => apply existsb_exists in E as (? & ? & E); to_prop; subst end.
  done.
Qed.

(** A successful audit wrote the event to every sink. *)
Lemma audited s env op actor cluster node ac d b b' :
  actor <> EmptyString ->
  auditEnrollmentDecision s env op actor cluster node ac d b = (Ok tt, b') ->
  exists id, let event := enrollment_event env id op actor cluster node ac d in
    recorded s event b' /\
    b_db b' = (if es_auditStore s then (InsertAuditEvent event (at_ env AtAudit (b_db b))).2 else b_db b).
Proof.
  intros Ha. unfold auditEnrollmentDecision, recorded. case_goal; [done|].
  destruct (randomID _ _) as [id|]; [|done]. rewrite (proj2 (String.eqb_neq actor EmptyString) Ha). cbv zeta.
  set (event := enrollment_event env id op actor cluster node ac d). intros Hr. exists id. fold event.
  destruct (es_auditStore s) eqn:Es, (es_audit s) eqn:Ea; try done.
  - unfold InsertAuditEvent, exec in *. case_hyp Hr; [|done]. unfold audit_Write in Hr.
    repeat (case_hyp Hr; try done). injection Hr as <-. simpl.
    match goal with E : insert_audit_events _ _ _ = Ok _ |- _ => unfold insert_audit_events in E; inv_ok end.
    split_and!; [done | intros _; apply lookup_insert_eq | intros _; set_solver | done].
  - unfold InsertAuditEvent, exec in *. case_hyp Hr; [|done]. injection Hr as <-. simpl.
    match goal with E : insert_audit_events _ _ _ = Ok _ |- _ => unfold insert_audit_events in E; inv_ok end.
    split_and!; [done | intros _; apply lookup_insert_eq | done | done].
  - unfold audit_Write in Hr. repeat (case_hyp Hr; try done). injection Hr as <-. simpl.
    split_and!; [done | done | intros _; set_solver | done].
Qed.

Lemma audit_writes_only s env op actor cluster node ac d b :
  audit_only env (b_db b) (b_db (auditEnrollmentDecision s env op actor cluster node ac d b).2).
Proof.
  unfold auditEnrollmentDecision, audit_only. case_goal; [by left|].
  destruct (randomID _ _) as [id|]; [|by left]. cbv zeta. set (event := enrollment_event _ _ _ _ _ _ _ _).
  destruct (es_auditStore s) eqn:Es.
  - right. exists event. destruct (InsertAuditEvent event _) as [[[]|] db]; simpl; [|done].
    by destruct (if es_audit s then _ else _).
  - simpl. left. by destruct (if es_audit s then _ else _).
Qed.

Lemma audit_steps s env op actor cluster node ac d b :
  env_typed env -> steps (b_db b) (b_db (auditEnrollmentDecision s env op actor cluster node ac d b).2).
Proof.
  intros He. destruct (audit_writes_only s env op actor cluster node ac d b) as [-> | (event & ->)]; [apply steps_refl|].
  eapply steps_trans; [by apply (steps_at env AtAudit)|]. exists [OInsertAuditEvent event]. split; [by ops_typed | done].
Qed.

Lemma actor_nonempty s peer cluster actor : permitted s peer cluster actor -> actor <> EmptyString.
Proof. intros (Hc & _). unfold nodeEvidenceClientCertificateHash in Hc. repeat (case_hyp Hc; try done). by injection Hc as <-. Qed.

Lemma recorded_other_file s event db db' file :
  audit_events db' = audit_events db -> recorded s event (mkBroker db file) -> recorded s event (mkBroker db' file).
Proof. unfold recorded. simpl. by intros ->. Qed.

(** The store carried the operation out and answered with the record. *)
Definition applied (o : store_op) (db : DB) (en : Enrollment) : Prop :=
  match o with
  | OEnrollNodeEvidence r => (sql_EnrollNodeEvidence db r).1 = Ok en
  | ORevokeNodeEvidence c n t => (sql_RevokeNodeEvidence db c n t).1 = Ok en
  | _ => False
  end.

(** How an allowed change proceeds: permission, audit, store, and at most another
    audit record. *)
Definition performed (s : EnrollmentService) (env late : Env) (peer : Peer) (c : trust_change)
  (resp : NodeEvidenceEnrollmentResponse) (b b' : Broker) : Prop :=
  exists actor cluster node reason id o b1,
    permitted s peer cluster actor /\ store_change env c cluster node reason o /\
    recorded s (enrollment_event env id (operation_of c) actor cluster node (audit_of c)
                  (decisionWithReason (Allow (es_policyID s)) reason)) b1 /\
    audit_only env (b_db b) (b_db b1) /\
    (pd_State (nep_Decision resp) = POLICY_DECISION_STATE_ALLOW /\
     b' = mkBroker (store_step o (at_ env AtPut (b_db b1))) (b_file b1) /\
     (exists en, applied o (at_ env AtPut (b_db b1)) en /\
        nep_Enrollment resp = Some (nodeEvidenceEnrollmentToProto en)) \/
     pd_State (nep_Decision resp) <> POLICY_DECISION_STATE_ALLOW /\
     audit_only late (store_step o (at_ env AtPut (b_db b1))) (b_db b')).

Lemma Enroll_trace s env late peer req b resp b' :
  EnrollNodeEvidence s env late peer req b = (resp, b') ->
  (pd_State (nep_Decision resp) <> POLICY_DECISION_STATE_ALLOW /\ audit_only env (b_db b) (b_db b')) \/
  performed s env late peer (Enroll req) resp b b'.
Proof.
  unfold EnrollNodeEvidence. cbv zeta.
  destruct (nodeEvidenceEnrollmentRequestFromProto req _) as [[request reason]|] eqn:Ereq.
  2:{ intros [= <- <-]. left. split; [done | apply audit_writes_only]. }
  destruct (authorize s peer (er_ClusterID request)) as [actor [[code message]|]] eqn:Eau.
  { intros [= <- <-]. left. split; [done | apply audit_writes_only]. }
  case_goal; [intros [= <- <-]; left; split; [done | apply audit_writes_only]|].
  case_goal; [intros [= <- <-]; left; split; [done | apply audit_writes_only]|]. to_prop.
  assert (permitted s peer (er_ClusterID request) actor) as Hp by (by apply authorize_permitted).
  set (d := decisionWithReason _ reason).
  pose proof (audit_writes_only s env enrollmentOperationNodeEvidenceEnroll actor (er_ClusterID request)
    (er_NodeName request) (audit_of (Enroll req)) d b) as Honly.
  change (match req with Some r => neq_Audit r | None => None end) with (audit_of (Enroll req)).
  destruct (auditEnrollmentDecision s env _ actor _ _ _ d b) as [[[]|] b1] eqn:Ea; simpl in Honly;
    [|intros [= <- <-]; by left].
  apply audited in Ea as (id & Hrec & _); [|by eapply actor_nonempty].
  intros Hr. right. exists actor, (er_ClusterID request), (er_NodeName request), reason, id, (OEnrollNodeEvidence request), b1.
  split_and!; [done | by exists request | done | done |]. simpl.
  destruct (sql_EnrollNodeEvidence _ request) as [[en|] db2]; injection Hr as <- <-; [left; split_and!; [done | done | by exists en] | right].
  split; [done | apply (audit_writes_only _ _ _ _ _ _ _ _ (mkBroker db2 (b_file b1)))].
Qed.

Lemma Revoke_trace s env late peer req b resp b' :
  RevokeNodeEvidence s env late peer req b = (resp, b') ->
  (pd_State (nep_Decision resp) <> POLICY_DECISION_STATE_ALLOW /\ audit_only env (b_db b) (b_db b')) \/
  performed s env late peer (Revoke req) resp b b'.
Proof.
  unfold RevokeNodeEvidence. cbv zeta.
  destruct (nodeEvidenceRevocationRequestFromProto req) as [[cluster node] [reason|]] eqn:Ereq.
  2:{ intros [= <- <-]. left. split; [done | apply audit_writes_only]. }
  destruct (authorize s peer cluster) as [actor [[code message]|]] eqn:Eau.
  { intros [= <- <-]. left. split; [done | apply audit_writes_only]. }
  case_goal; [intros [= <- <-]; left; split; [done | apply audit_writes_only]|].
  case_goal; [intros [= <- <-]; left; split; [done | apply audit_writes_only]|]. to_prop.
  assert (permitted s peer cluster actor) as Hp by (by apply authorize_permitted).
  set (d := decisionWithReason _ reason).
  pose proof (audit_writes_only s env enrollmentOperationNodeEvidenceRevoke actor cluster node
    (audit_of (Revoke req)) d b) as Honly.
  change (match req with Some r => nrq_Audit r | None => None end) with (audit_of (Revoke req)).
  destruct (auditEnrollmentDecision s env _ actor _ _ _ d b) as [[[]|] b1] eqn:Ea; simpl in Honly;
    [|intros [= <- <-]; by left].
  apply audited in Ea as (id & Hrec & _); [|by eapply actor_nonempty].
  intros Hr. right. exists actor, cluster, node, reason, id, (ORevokeNodeEvidence cluster node (e_clock env AtPut)), b1.
  split_and!; [done | done | done | done |]. simpl.
  destruct (sql_RevokeNodeEvidence _ _ _ _) as [[en|err] db2]; injection Hr as <- <-; [left; split_and!; [done | done | by exists en] | right].
  split; [by case_goal | apply (audit_writes_only _ _ _ _ _ _ _ _ (mkBroker db2 (b_file b1)))].
Qed.
End Trust.

(** The operation leaves the records of every other node alone. *)
Definition touches_only (o : store_op) (k : evidenceKey) : Prop :=
  forall db k', k' <> k ->
    node_evidence_enrollments (store_step o db) !! k' = node_evidence_enrollments db !! k' /\
    node_evidence (store_step o db) !! k' = node_evidence db !! k'.

Lemma enroll_touches r n :
  NormalizeEnrollmentRequest r = Ok n -> touches_only (OEnrollNodeEvidence r) (key_of (er_ClusterID r) (er_NodeName r)).
Proof.
  intros Hn db k' Hk. simpl. unfold sql_EnrollNodeEvidence, transact. rewrite Hn.
  destruct (enroll_tx n db) as [[rev db']|] eqn:E; [simpl | done].
  apply enroll_tx_effect in E as (_ & _ & _ & -> & ->). rewrite (normalized_key _ _ Hn).
  by rewrite lookup_insert_ne, lookup_delete_ne by done.
Qed.

Lemma revoke_touches c n t : touches_only (ORevokeNodeEvidence c n t) (key_of c n).
Proof.
  intros db k' Hk. simpl. unfold sql_RevokeNodeEvidence, transact. case_goal; [done|].
  destruct (revoke_tx (key_of c n) t db) as [[e db']|] eqn:E; [simpl | done].
  unfold revoke_tx in E. inv_ok. simpl. destruct (enr_revoked_at _); simpl;
    by rewrite ?lookup_insert_ne, lookup_delete_ne by done.
Qed.

Lemma reason_accepted value reason :
  normalizeEnrollmentReason value = Ok reason -> reason <> EmptyString /\ len reason <= 1024.
Proof. unfold normalizeEnrollmentReason. intros H. inv_ok. by to_prop. Qed.

Lemma enroll_request_Ok req now request reason :
  nodeEvidenceEnrollmentRequestFromProto req now = Ok (request, reason) ->
  NormalizeEnrollmentRequest request = Ok request /\ er_EnrolledAt request = now /\
  reason <> EmptyString /\ len reason <= 1024.
Proof.
  unfold nodeEvidenceEnrollmentRequestFromProto. intros H.
  apply bind_Ok in H as ([r policy] & _ & H). apply bind_Ok in H as (reason' & Hreason & H). inv_ok.
  match goal with H : NormalizeEnrollmentRequest _ = Ok _ |- _ =>
    pose proof (NormalizeEnrollmentRequest_idem _ _ H); apply Normalize_EnrolledAt in H end.
  split_and!; try done; by eapply reason_accepted.
Qed.

(** The change concerns the node of the audit record, for a stated reason. *)
Lemma store_change_spec env c cluster node reason o :
  store_change env c cluster node reason o ->
  reason <> EmptyString /\ len reason <= 1024 /\ touches_only o (key_of cluster node) /\
  (time_ok (e_clock env AtEnrollment) -> time_ok (e_clock env AtPut) -> op_typed o).
Proof.
  destruct c as [req|req]; simpl.
  - intros (request & Hreq & <- & <- & ->). apply enroll_request_Ok in Hreq as (Hn & Ht & Hr & Hl).
    split_and!; [done | done | by eapply enroll_touches | simpl; by rewrite Ht].
  - intros [Hreq ->]. unfold nodeEvidenceRevocationRequestFromProto in Hreq.
    destruct req as [r|]; [|done]. injection Hreq as _ _ Hreq. inv_ok.
    match goal with H : normalizeEnrollmentReason _ = Ok _ |- _ => apply reason_accepted in H as [??] end.
    split_and!; [done | done | apply revoke_touches | done].
Qed.

Section Properties.
Context `{Hashes}.

(** C10: node trust changes only on behalf of a permitted operator, and never
    unaudited.  Whatever else runs in between, an enroll or revoke call either is
    not allowed and writes at most its audit record, or: the caller's certificate
    belongs to a node-evidence administrator of the cluster, every configured
    audit sink (at least one) already holds the record of the change with the
    actor, the node and the stated reason, and the call then runs one store
    operation, which touches that node's records alone; it answers ALLOW with
    exactly that effect, or is refused by the store and audited again. *)
Theorem trust_change_permitted_and_audited s env late peer c b resp b' :
  handle s env late peer c b = (resp, b') ->
  (pd_State (nep_Decision resp) <> POLICY_DECISION_STATE_ALLOW /\ audit_only env (b_db b) (b_db b')) \/
  exists actor cluster node reason id o b1,
    permitted s peer cluster actor /\ reason <> EmptyString /\
    store_change env c cluster node reason o /\ touches_only o (key_of cluster node) /\
    audit_only env (b_db b) (b_db b1) /\
    recorded s (enrollment_event env id (operation_of c) actor cluster node (audit_of c)
                  (decisionWithReason (Allow (es_policyID s)) reason)) b1 /\
    (pd_State (nep_Decision resp) = POLICY_DECISION_STATE_ALLOW /\
     b' = mkBroker (store_step o (at_ env AtPut (b_db b1))) (b_file b1) /\
     (exists en, applied o (at_ env AtPut (b_db b1)) en /\
        nep_Enrollment resp = Some (nodeEvidenceEnrollmentToProto en)) \/
     pd_State (nep_Decision resp) <> POLICY_DECISION_STATE_ALLOW /\
     audit_only late (store_step o (at_ env AtPut (b_db b1))) (b_db b')).
Proof.
  intros Hh. assert ((pd_State (nep_Decision resp) <> POLICY_DECISION_STATE_ALLOW /\ audit_only env (b_db b) (b_db b'))
    \/ performed s env late peer c resp b b') as [Hr | Hp].
  { destruct c; simpl in Hh; [by apply Enroll_trace | by apply Revoke_trace]. }
  - by left.
  - right. destruct Hp as (actor & cluster & node & reason & id & o & b1 & Hp & Hc & Hrec & Ha & Hout).
    destruct (store_change_spec _ _ _ _ _ _ Hc) as (Hr & _ & Ht & _).
    by exists actor, cluster, node, reason, id, o, b1.
Qed.

(** The clock of the two calls stays in the years 1 to 9999. *)
Definition trust_typed (env late : Env) : Prop :=
  env_typed env /\ env_typed late /\ time_ok (e_clock env AtEnrollment) /\ time_ok (e_clock env AtPut).

Lemma audit_only_steps env db db' : env_typed env -> audit_only env db db' -> steps db db'.
Proof.
  intros He [-> | (event & ->)]; [apply steps_refl|].
  eapply steps_trans; [by apply (steps_at env AtAudit)|]. exists [OInsertAuditEvent event]. split; [by ops_typed | done].
Qed.

Lemma handle_steps s env late peer c b :
  trust_typed env late -> steps (b_db b) (b_db (handle s env late peer c b).2).
Proof.
  intros (He & Hl & Ht1 & Ht2). destruct (handle s env late peer c b) as [resp b'] eqn:Hh. simpl.
  assert ((pd_State (nep_Decision resp) <> POLICY_DECISION_STATE_ALLOW /\ audit_only env (b_db b) (b_db b'))
    \/ performed s env late peer c resp b b') as [[_ Hr] | Hp].
  { destruct c; simpl in Hh; [by apply Enroll_trace | by apply Revoke_trace]. }
  - by apply (audit_only_steps env).
  - destruct Hp as (actor & cluster & node & reason & id & o & b1 & Hp & Hc & Hrec & Ha & Hout).
    apply store_change_spec in Hc as (_ & _ & _ & Ho).
    eapply steps_trans; [by apply (audit_only_steps env)|].
    eapply steps_trans; [by apply (steps_at env AtPut)|].
    assert (steps (at_ env AtPut (b_db b1)) (store_step o (at_ env AtPut (b_db b1)))) as Hs.
    { exists [o]. split; [ops_typed; by apply Ho | done]. }
    destruct Hout as [(_ & -> & _) | [_ Hout]]; [done|]. eapply steps_trans; [exact Hs | by apply (audit_only_steps late)].
Qed.

Lemma ListEnrollments_steps s env peer req b :
  env_typed env -> steps (b_db b) (b_db (ListNodeEvidenceEnrollments s env peer req b).2).
Proof.
  intros He. unfold ListNodeEvidenceEnrollments. destruct req as [req|]; [|by apply audit_steps]. cbv zeta.
  case_goal; [by apply audit_steps|].
  destruct (authorize _ _ _) as [actor [[code message]|]]; [by apply audit_steps|].
  case_goal; [by apply audit_steps|]. case_goal; [by apply audit_steps|].
  eapply steps_trans; [by apply (steps_at env AtRead)|].
  destruct (sql_ListNodeEvidenceEnrollments _ _ _ _) as [en|err];
    apply (audit_steps _ _ _ _ _ _ _ _ (mkBroker _ _)); done.
Qed.

(** An allowed change is in effect when it is answered.  After an allowed
    enrollment the node's active enrollment is the normalised request, is the one
    returned, and evidence of before is gone; after an allowed revocation the node
    has neither an active enrollment nor evidence, whatever else ran before. *)
Theorem allowed_change_takes_effect s env late peer c b resp b' :
  trust_typed env late -> reachable (b_db b) ->
  handle s env late peer c b = (resp, b') ->
  pd_State (nep_Decision resp) = POLICY_DECISION_STATE_ALLOW ->
  exists cluster node en, nep_Enrollment resp = Some (nodeEvidenceEnrollmentToProto en) /\
    sql_NodeEvidence (b_db b') cluster node = Err ErrNotFound /\
    match c with
    | Enroll req => exists request reason,
        nodeEvidenceEnrollmentRequestFromProto req (e_clock env AtEnrollment) = Ok (request, reason) /\
        er_ClusterID request = cluster /\ er_NodeName request = node /\
        en = enrollment_of request (en_Revision en) /\
        sql_ActiveNodeEvidenceEnrollment (b_db b') cluster node = Ok en
    | Revoke req =>
        (exists r, req = Some r /\ cluster = TrimSpace (nrq_ClusterId r) /\ node = TrimSpace (nrq_NodeName r)) /\
        sql_ActiveNodeEvidenceEnrollment (b_db b') cluster node = Err ErrEnrollmentRevoked
    end.
Proof.
  intros (He & Hl & Ht1 & Ht2) Hr Hh Ha.
  assert ((pd_State (nep_Decision resp) <> POLICY_DECISION_STATE_ALLOW /\ audit_only env (b_db b) (b_db b'))
    \/ performed s env late peer c resp b b') as [[? _] | Hp]; [|done|].
  { destruct c; simpl in Hh; [by apply Enroll_trace | by apply Revoke_trace]. }
  destruct Hp as (actor & cluster & node & reason & id & o & b1 & Hp & Hc & Hrec & Hau & Hout).
  destruct Hout as [(_ & -> & en & Hen & Hresp) | [? _]]; [|done]. clear Hh.
  assert (node_inv (at_ env AtPut (b_db b1))) as Hi.
  { apply si_nodes, reachable_inv. eapply steps_reachable; [|exact Hr].
    eapply steps_trans; [by apply (audit_only_steps env) | by apply (steps_at env)]. }
  exists cluster, node, en. split; [done|]. destruct c as [req|req]; simpl in Hc.
  - destruct Hc as (request & Hreq & Hcl & Hn & ->). simpl in Hen |- *.
    destruct (enroll_request_Ok _ _ _ _ Hreq) as (Hid & Ht & _).
    destruct (sql_EnrollNodeEvidence _ request) as [r db'] eqn:E. simpl in Hen |- *. subst r.
    apply sql_enroll_effect in E as (n & Hn' & Hen & Hact & Hev); [|done | by rewrite Ht].
    rewrite Hid in Hn'. injection Hn' as <-. subst cluster node. split; [done|]. by exists request, reason.
  - destruct Hc as [Hreq ->]. simpl in Hen |- *.
    destruct (sql_RevokeNodeEvidence _ cluster node _) as [r db'] eqn:E. simpl in Hen |- *. subst r.
    apply (er_revoke_invalidates (EnrollmentContract := SQLite_EnrollmentContract 0)) in E as (Hev & Hact & _); [|done..].
    split; [done|]. split; [|done]. unfold nodeEvidenceRevocationRequestFromProto in Hreq.
    destruct req as [r|]; [|done]. injection Hreq as <- <- _. by exists r.
Qed.
End Properties.

(** ** Examples *)

Definition example_operators : EnrollmentService :=
  newEnrollmentService (mkEnrollmentService true true true
    {[ example_publisher := mkControlPlaneIdentity [ControlPlaneRoleNodeEvidenceAdmin] ["cluster-a"%string] ]}
    "cluster-a" "policy-1").
Definition example_revocation : trust_change :=
  Revoke (Some (mkNodeEvidenceRevocationRequest " cluster-a" "node-1" "decommissioned" None)).
Definition example_revoked : NodeEvidenceEnrollmentResponse * Broker :=
  @handle toy_Hashes example_operators example_quiet example_quiet example_peer example_revocation
    (mkBroker example_enrolled []).

Lemma trust_change_permitted_and_audited_witness :
  exists actor, @permitted toy_Hashes example_operators example_peer "cluster-a" actor.
Proof.
  destruct (@trust_change_permitted_and_audited toy_Hashes example_operators example_quiet example_quiet example_peer
    example_revocation (mkBroker example_enrolled []) example_revoked.1 example_revoked.2)
    as [[Hne _] | (actor & cluster & node & reason & id & o & b1 & Hp & _ & [Hc _] & _)].
  - apply surjective_pairing.
  - exfalso. apply Hne. vm_compute. reflexivity.
  - exists actor. injection Hc as <- _ _. exact Hp.
Defined.

Lemma allowed_change_takes_effect_witness :
  sql_ActiveNodeEvidenceEnrollment (b_db example_revoked.2) "cluster-a" "node-1" = Err ErrEnrollmentRevoked.
Proof.
  destruct (@allowed_change_takes_effect toy_Hashes example_operators example_quiet example_quiet example_peer
    example_revocation (mkBroker example_enrolled []) example_revoked.1 example_revoked.2)
    as (cluster & node & en & _ & _ & (r & Hr & Hc & Hn) & Hact).
  - split; [exact example_quiet_typed|]. split; [exact example_quiet_typed|].
    split; vm_compute; split; congruence.
  - exact example_enrolled_reachable.
  - apply surjective_pairing.
  - vm_compute. reflexivity.
  - injection Hr as <-. rewrite Hc, Hn in Hact. exact Hact.
Defined.
