(* ===== verification/Ctl.v ===== *)
(** * bao-unsealctl: operator commands on the broker state
    (internal/baounsealctl/command.go)

    What the commands do once their flags are parsed, up to the value they print.
    A command runs on the database and the audit file and returns its output or an
    error with an exit code.  The files it reads are the outcomes of reading them;
    the clock, the random identifiers and the I/O that can fail are its
    environment. *)

From S2P Require Import Prelude GoStrings Json GoTime Keyring KeyProtection Tpm NodeEvidence Config.
From S2P Require Import Sql Store Challenges Policy Recovery Grants.
Local Open Scope Z_scope.

(** ** Exit codes (internal/cli/exit.go) *)

Definition ExitOK : Z := 0.
Definition ExitError : Z := 1.
Definition ExitUsage : Z := 2.
Definition ExitConfig : Z := 3.
Definition ExitCheckFailed : Z := 4.
Definition ExitRuntime : Z := 5.

Record ExitErrorWithCode := mkExit { ex_Code : Z; ex_Err : error }.

(** A command on the database and the audit file. *)
Definition cmd (A : Type) : Type := Broker -> (A + ExitErrorWithCode) * Broker.
Global Instance cmd_ret : MRet cmd := fun A a b => (inl a, b).
Global Instance cmd_bind : MBind cmd := fun A B f m b =>
  match m b with (inl a, b') => f a b' | (inr e, b') => (inr e, b') end.

(** [if err != nil { return cli.WithExitCode(code, err) }]. *)
Definition or_exit {A} (code : Z) (m : result A) : cmd A := fun b =>
  match m with Ok a => (inl a, b) | Err e => (inr (mkExit code e), b) end.

Definition exit_with {A} (code : Z) (e : error) : cmd A := or_exit code (Err e).

(** A store method. *)
Definition on_store {A} (code : Z) (f : DB -> result A * DB) : cmd A := fun b =>
  let '(r, db) := f (b_db b) in or_exit code r (mkBroker db (b_file b)).

(** A read of the store. *)
Definition reading {A} (f : DB -> result A) : DB -> result A * DB := fun db => (f db, db).

(** ** The environment *)

Inductive moment := AtSession | AtTarget | AtCommand | AtAuditing.

Record CtlEnv := mkCtlEnv {
  ce_clock : moment -> Time;
  ce_random : string -> result bytes;
  ce_key : result bytes;
  ce_coefficients : list Z;
  ce_open : result unit;
  ce_audit_io : result unit;
  ce_write : result unit;
}.

(** [ce_key] are the random bytes of a new key and [ce_coefficients] those that
    [recovery.Create] reads.  [randomID(prefix)]; at most one identifier of a prefix per command. *)
Definition ctl_randomID (env : CtlEnv) (prefix : string) : result string :=
  raw ← map_err (errorp "generate ID") (ce_random env prefix);
  Ok (prefix +:+ "_" +:+ hex_EncodeToString raw).

(** ** Audit *)

Record auditInput := mkAuditInput {
  ai_Subject : string;
  ai_Operation : string;
  ai_ClusterID : string;
  ai_KeyID : string;
  ai_Version : Z;
  ai_Decision : string;
  ai_PolicyID : string;
  ai_Reason : string;
}.

Definition DecisionAllow : string := "POLICY_DECISION_STATE_ALLOW".
Definition DecisionDeny : string := "POLICY_DECISION_STATE_DENY".

Definition audit_event (auditID : string) (now : Time) (input : auditInput) : AuditEvent :=
  mkAuditEvent 1 auditID (FormatRFC3339Nano now) (ai_Subject input) (ai_Operation input) (ai_ClusterID input)
    (ai_KeyID input) (ai_Version input) (ai_Decision input) (ai_PolicyID input) (ai_Reason input)
    EmptyString EmptyString EmptyString EmptyString EmptyString EmptyString EmptyString.

(** [store] is false for a nil store. *)
Definition audit (env : CtlEnv) (store : bool) (auditPath : string) (input : auditInput) (b : Broker)
  : result string * Broker :=
  match ctl_randomID env "audit" with
  | Err e => (Err e, b)
  | Ok auditID =>
      let event := audit_event auditID (ce_clock env AtAuditing) input in
      let '(inserted, db) := if store then InsertAuditEvent event (b_db b) else (Ok tt, b_db b) in
      match inserted with
      | Err e => (Err e, mkBroker db (b_file b))
      | Ok _ =>
          if empty (TrimSpace auditPath) then (Ok auditID, mkBroker db (b_file b))
          else
            let '(written, file) := audit_Write (Ok tt) (ce_audit_io env) event (b_file b) in
            match written with
            | Err e => (Err e, mkBroker db file)
            | Ok _ => (Ok auditID, mkBroker db file)
            end
      end
  end.

Definition auditing (code : Z) (env : CtlEnv) (auditPath : string) (input : auditInput) : cmd string := fun b =>
  let '(r, b') := audit env true auditPath input b in or_exit code r b'.

(** [OpenSQLiteStore] for an audit only, when a state path was given. *)
Definition auditWithStatePath (env : CtlEnv) (statePath auditPath : string) (input : auditInput) (b : Broker)
  : result string * Broker :=
  if empty (TrimSpace statePath) then audit env false auditPath input b
  else match ce_open env with
       | Err e => (Err e, b)
       | Ok _ => audit env true auditPath input b
       end.

(** ** Flags *)

Definition validateKeyringProfile (profile : string) : cmd unit :=
  if String.eqb (TrimSpace profile) DevelopmentProfile then mret tt
  else exit_with ExitUsage (errorf ("unsupported keyring profile " +:+ quoted profile)).

Definition validateFormat (format : string) : cmd unit :=
  if String.eqb format "text" || String.eqb format "json" then mret tt
  else exit_with ExitUsage (errorf ("unsupported format " +:+ quoted format)).

Definition approvalModeSingleOperator : string := "single-operator".

Definition validateApprovalMode (mode : string) : cmd string :=
  let mode := ToLower (TrimSpace mode) in
  if empty mode || String.eqb mode approvalModeSingleOperator then mret approvalModeSingleOperator
  else if String.eqb mode "quorum"
  then exit_with ExitUsage (errorf "quorum approval mode is reserved for a later policy implementation")
  else exit_with ExitUsage (errorf ("unsupported approval mode " +:+ quoted mode)).

Definition revocationModeBroker : string := "broker".
Definition revocationModeLocalTPM : string := "local-tpm".

Definition validateRevocationMode (mode : string) : cmd string :=
  let mode := ToLower (TrimSpace mode) in
  if empty mode || String.eqb mode revocationModeBroker then mret revocationModeBroker
  else if String.eqb mode revocationModeLocalTPM then mret revocationModeLocalTPM
  else exit_with ExitUsage (errorf ("unsupported revocation mode " +:+ quoted mode)).

Definition revocationWarnings (mode : string) : list string :=
  if negb (String.eqb mode revocationModeLocalTPM) then []
  else ["local TPM revocation does not remove TPM-sealed key material";
        "rotate the wrapping key and assess old backups before treating the node as revoked"]%string.

(** ** Keys *)

Definition protectDevelopmentKey (ref : KeyRef) (status : Status) (policyID : string) (material : bytes)
  : result ProtectedKey :=
  Development_Protect (Ok tt) (mkKeyVersion ref status AlgorithmAES256GCM policyID material).

(** The request without its key is given as a function of it. *)
Definition bootstrapDevelopmentKeyring (unlockedKey : KeyVersion) (request : ProtectedKey -> BootstrapKeyringRequest)
  (db : DB) : result unit * DB :=
  match Development_Protect (Ok tt) unlockedKey with
  | Err e => (Err e, db)
  | Ok protectedKey => BootstrapKeyring (request protectedKey) db
  end.

(** [developmentKeyringLoader(store).LoadKeyring]. *)
Definition loadDevelopmentKeyring (db : DB) (clusterID : string) : result Ring :=
  @LoadKeyring DB SQLite_Repository DevelopmentProtector (Ok tt) db clusterID.

Definition checkBrokerReady (clusterID : string) (db : DB) : result unit :=
  ring ← map_err (errorp "broker status check failed") (loadDevelopmentKeyring db clusterID);
  map_err (errorp "broker status check failed") (Active (Some ring));;
  Ok tt.

Definition metadata_json (m : PackageMetadata) : json :=
  JObject [("schema_version"%string, JNumber (FormatInt (pm_SchemaVersion m)));
           ("recovery_package_id"%string, JString (pm_PackageID m));
           ("cluster_id"%string, JString (pm_ClusterID m));
           ("key_id"%string, JString (pm_KeyID m));
           ("created_at"%string, JString (pm_CreatedAt m));
           ("threshold"%string, JNumber (FormatInt (pm_Threshold m)));
           ("shares"%string, JNumber (FormatInt (pm_Shares m)));
           ("kdf"%string, JString (pm_KDF m));
           ("wrapping_algorithm"%string, JString (pm_WrappingAlgorithm m));
           ("secret_checksum"%string, JString (pm_SecretChecksum m));
           ("allowed_operations"%string, JArray (JString <$> pm_AllowedOperations m))].

(** The bootstrap request of [initCommand] and of [bootstrapRecoveredKeyring]. *)
Definition recovery_bootstrap (m : PackageMetadata) (now : Time) (key : ProtectedKey) : BootstrapKeyringRequest :=
  mkBootstrapKeyringRequest key (pm_PackageID m) (pm_Threshold m) (pm_Shares m) (pm_SecretChecksum m)
    (json_MarshalIndent (metadata_json m)) now.

Definition first_version (clusterID keyID policyID : string) (material : bytes) : KeyVersion :=
  mkKeyVersion (mkKeyRef clusterID keyID 1) StatusActive AlgorithmAES256GCM policyID material.

Definition sealConfigSnippet (clusterID keyID : string) : string :=
  let nl := newline in
  "seal " +:+ quoted "attested-unseal" +:+ " {" +:+ nl +:+ "  cluster_id = " +:+ quoted clusterID +:+ nl +:+
  "  key_id     = " +:+ quoted keyID +:+ nl +:+ "}".

(** ** init *)

Record initOptions := mkInitOptions {
  in_statePath : string;
  in_auditPath : string;
  in_recoveryPath : string;
  in_clusterID : string;
  in_keyID : string;
  in_policyID : string;
  in_keyringProfile : string;
  in_shares : Z;
  in_threshold : Z;
  in_format : string;
}.

Record initOutput := mkInitOutput {
  io_AuditID : string;
  io_RecoveryPackage : PackageMetadata;
  io_RecoveryPackagePath : string;
  io_RecoveryShares : list string;
  io_KeyringProfile : string;
  io_SealConfig : string;
}.

Section Commands.
Context `{Hashes}.

Definition initCommand (options : initOptions) (env : CtlEnv) : cmd initOutput :=
  validateFormat (in_format options) ≫= fun _ =>
  (if empty (TrimSpace (in_statePath options)) then exit_with ExitUsage (errorf "-state is required") else mret tt) ≫= fun _ =>
  validateKeyringProfile (in_keyringProfile options) ≫= fun _ =>
  let recoveryPath := if empty (TrimSpace (in_recoveryPath options))
                      then in_statePath options +:+ ".recovery.json" else in_recoveryPath options in
  let now := ce_clock env AtCommand in
  or_exit ExitRuntime (GenerateKey (ce_key env)) ≫= fun material =>
  or_exit ExitRuntime (ctl_randomID env "rpkg") ≫= fun packageID =>
  or_exit ExitUsage (Create packageID (in_clusterID options) (in_keyID options) material (in_threshold options)
                       (in_shares options) now (ce_coefficients env)) ≫= fun package =>
  let metadata := pkg_Metadata package in
  or_exit ExitConfig (ce_open env) ≫= fun _ =>
  on_store ExitRuntime (bootstrapDevelopmentKeyring
      (first_version (in_clusterID options) (in_keyID options) (in_policyID options) material)
      (recovery_bootstrap metadata now)) ≫= fun _ =>
  or_exit ExitConfig (ce_write env) ≫= fun _ =>
  auditing ExitRuntime env (in_auditPath options)
    (mkAuditInput "operator" "OPERATION_INIT" (in_clusterID options) (in_keyID options) 1 DecisionAllow
       (in_policyID options) "cluster initialized") ≫= fun auditID =>
  mret (mkInitOutput auditID metadata recoveryPath (pkg_Shares package) (TrimSpace (in_keyringProfile options))
          (sealConfigSnippet (in_clusterID options) (in_keyID options))).

(** ** rotate *)

Definition auditRotationWithDecision (env : CtlEnv) (auditPath : string) (operation : RotationOperation)
  (policyID decision reason : string) : cmd string :=
  auditing ExitRuntime env auditPath
    (mkAuditInput "operator" (Operation_String OPERATION_ROTATE) (ro_ClusterID operation) (ro_KeyID operation)
       (ro_ToVersion operation) decision policyID reason).

Definition auditRotation (env : CtlEnv) (auditPath : string) (operation : RotationOperation) (policyID reason : string)
  : cmd string := auditRotationWithDecision env auditPath operation policyID DecisionAllow reason.

Record rotateOutput := mkRotateOutput {
  rt_AuditID : string; rt_OperationID : string; rt_ClusterID : string; rt_KeyID : string;
  rt_FromVersion : Z; rt_ToVersion : Z; rt_Status : string;
}.

Definition rotateOutputFromOperation (operation : RotationOperation) (auditID : string) : rotateOutput :=
  mkRotateOutput auditID (ro_OperationID operation) (ro_ClusterID operation) (ro_KeyID operation)
    (ro_FromVersion operation) (ro_ToVersion operation) (ro_Status operation).

Definition startRotation (auditPath clusterID keyID policyID : string) (env : CtlEnv) : cmd rotateOutput :=
  or_exit ExitRuntime (GenerateKey (ce_key env)) ≫= fun material =>
  or_exit ExitRuntime (ctl_randomID env "rot") ≫= fun operationID =>
  or_exit ExitConfig (ce_open env) ≫= fun _ =>
  on_store ExitCheckFailed (reading (fun db => NextRotationKeyRef db clusterID keyID)) ≫= fun ref =>
  or_exit ExitRuntime (protectDevelopmentKey ref StatusPending policyID material) ≫= fun protectedKey =>
  let now := ce_clock env AtCommand in
  on_store ExitCheckFailed (StartRotation now (mkRotationStartRequest operationID protectedKey now)) ≫= fun operation =>
  auditRotation env auditPath operation policyID "rotation started" ≫= fun auditID =>
  mret (rotateOutputFromOperation operation auditID).

(** The policy of the new version, "rotation" when it cannot be read. *)
Definition rotation_policy (operation : RotationOperation) (db : DB) : string :=
  match store_ProtectedKey db (mkKeyRef (ro_ClusterID operation) (ro_KeyID operation) (ro_ToVersion operation)) with
  | Ok keyVersion => pk_PolicyID keyVersion
  | Err _ => "rotation"
  end.

Definition rotateActivateCommand (format statePath auditPath operationID : string) (env : CtlEnv) : cmd rotateOutput :=
  validateFormat format ≫= fun _ =>
  (if empty (TrimSpace statePath) || empty (TrimSpace operationID)
   then exit_with ExitUsage (errorf "-state and -operation-id are required") else mret tt) ≫= fun _ =>
  or_exit ExitConfig (ce_open env) ≫= fun _ =>
  let now := ce_clock env AtCommand in
  on_store ExitCheckFailed (ActivateRotation now (TrimSpace operationID) now) ≫= fun operation =>
  on_store ExitRuntime (reading (fun db => Ok (rotation_policy operation db))) ≫= fun policyID =>
  auditRotation env auditPath operation policyID "rotation activated" ≫= fun auditID =>
  mret (rotateOutputFromOperation operation auditID).

(** ** revoke *)

Record revokeSubjectOptions := mkRevokeSubjectOptions {
  rv_auditPath : string; rv_clusterID : string; rv_subjectID : string; rv_mode : string; rv_rotationPlan : string;
}.

Record revokeSubjectOutput := mkRevokeSubjectOutput {
  rvo_AuditID : string; rvo_ClusterID : string; rvo_SubjectID : string; rvo_Revoked : bool;
  rvo_Mode : string; rvo_RotationPlan : string; rvo_Warnings : list string;
}.

Definition revokeSubject (options : revokeSubjectOptions) (env : CtlEnv) : cmd revokeSubjectOutput :=
  or_exit ExitConfig (ce_open env) ≫= fun _ =>
  on_store ExitCheckFailed (RevokeSubject (ce_clock env AtCommand) (rv_clusterID options) (rv_subjectID options)) ≫= fun _ =>
  auditing ExitRuntime env (rv_auditPath options)
    (mkAuditInput (rv_subjectID options) "OPERATION_REVOKE" (rv_clusterID options) EmptyString 0 DecisionAllow
       "revocation" "subject revoked") ≫= fun auditID =>
  mret (mkRevokeSubjectOutput auditID (rv_clusterID options) (rv_subjectID options) true (rv_mode options)
          (rv_rotationPlan options) (revocationWarnings (rv_mode options))).

(** The flags of [revoke subject]: the raw values in, the trimmed options out. *)
Definition revokeSubjectCommand (format statePath : string) (raw : revokeSubjectOptions) (env : CtlEnv)
  : cmd revokeSubjectOutput :=
  validateFormat format ≫= fun _ =>
  validateRevocationMode (rv_mode raw) ≫= fun normalizedMode =>
  (if empty (TrimSpace statePath) || empty (TrimSpace (rv_subjectID raw))
   then exit_with ExitUsage (errorf "-state and -subject-id are required") else mret tt) ≫= fun _ =>
  (if String.eqb normalizedMode revocationModeLocalTPM && empty (TrimSpace (rv_rotationPlan raw))
   then exit_with ExitUsage (errorf "-rotation-plan is required for local-tpm revocation") else mret tt) ≫= fun _ =>
  revokeSubject (mkRevokeSubjectOptions (rv_auditPath raw) (TrimSpace (rv_clusterID raw))
    (TrimSpace (rv_subjectID raw)) normalizedMode (TrimSpace (rv_rotationPlan raw))) env.

(** ** recover *)

Record recoverySession := mkRecoverySession {
  rc_SchemaVersion : Z;
  rc_SessionID : string;
  rc_RecoveryPackageID : string;
  rc_ClusterID : string;
  rc_KeyID : string;
  rc_SecretChecksum : string;
  rc_ExpiresAt : string;
}.

Definition recoverySession_Validate (s : recoverySession) (metadata : PackageMetadata) (now : Time) : result unit :=
  check (rc_SchemaVersion s =? 1) (errorf "unsupported recovery session schema version");;
  check (String.eqb (rc_RecoveryPackageID s) (pm_PackageID metadata) && String.eqb (rc_ClusterID s) (pm_ClusterID metadata) &&
         String.eqb (rc_KeyID s) (pm_KeyID metadata))
    (errorf "recovery session does not match package metadata");;
  check (String.eqb (rc_SecretChecksum s) (pm_SecretChecksum metadata)) (errorf "recovery session checksum mismatch");;
  expiresAt ← of_option (errorf "invalid recovery session expiry") (ParseRFC3339Nano (rc_ExpiresAt s));
  check (Before now expiresAt) (errorf "recovery session expired").

(** The scanner's lines: the text up to each newline, at most [MaxScanTokenSize]
    bytes of it at a time. *)
Definition MaxScanTokenSize : Z := 65536.

(** What a decode into [[]string] leaves behind, an error included. *)
Definition decoded_strings (v : json) : list string :=
  match v with
  | JArray vs => (fun v => match v with JString s => s | _ => EmptyString end) <$> vs
  | _ => []
  end.

Definition readSharesFile (file : result bytes) : result (list string) :=
  raw ← file;
  let v := json_Parse raw in
  match v ≫= (fun v => match decode_list EmptyString decode_string v with Ok l => Some l | Err _ => None end) with
  | Some shares => Ok shares
  | None =>
      let before := match v with Some v => decoded_strings v | None => [] end in
      let lines := Split raw (chr 10) in
      check (forallb (fun line => len line <? MaxScanTokenSize) lines)
        (errorf "scan shares file: bufio.Scanner: token too long");;
      Ok (before ++ filter (fun line => line <> EmptyString) (TrimSpace <$> lines))
  end.

Record recoverEnrollOptions := mkRecoverEnrollOptions {
  re_auditPath : string;
  re_policyID : string;
}.

Definition auditRecoveryDeny (env : CtlEnv) (options : recoverEnrollOptions) (metadata : PackageMetadata)
  (subjectID reason : string) : cmd string := fun b =>
  let subjectID := if empty (TrimSpace subjectID) then "operator"%string else subjectID in
  let '(r, b') := audit env true (re_auditPath options)
    (mkAuditInput subjectID (Operation_String OPERATION_RECOVER) (pm_ClusterID metadata) (pm_KeyID metadata) 0
       DecisionDeny (re_policyID options) reason) b in
  or_exit ExitRuntime (map_err (errorp "write recovery denial audit") r) b'.

(** A refusal: the denial is audited, then [err] is returned. *)
Definition refuse {A} (env : CtlEnv) (options : recoverEnrollOptions) (metadata : PackageMetadata)
  (subjectID reason : string) (err : error) : cmd A :=
  auditRecoveryDeny env options metadata subjectID reason ≫= fun _ => exit_with ExitCheckFailed err.

Definition validateRecoverySessionForEnroll (env : CtlEnv) (options : recoverEnrollOptions)
  (metadata : PackageMetadata) (session : recoverySession) : cmd unit :=
  match recoverySession_Validate session metadata (ce_clock env AtSession) with
  | Ok _ => mret tt
  | Err err => refuse env options metadata "operator" "recovery session rejected" err
  end.

Definition readRecoveryTargetRequest (env : CtlEnv) (options : recoverEnrollOptions) (metadata : PackageMetadata)
  (file : result Request) : cmd Request :=
  or_exit ExitConfig file ≫= fun targetRequest =>
  match Request_Validate targetRequest (ce_clock env AtTarget) with
  | Err err => refuse env options metadata (rq_SubjectID targetRequest) "recovery target request rejected" err
  | Ok _ =>
      if negb (String.eqb (rq_ClusterID targetRequest) (pm_ClusterID metadata))
      then refuse env options metadata (rq_SubjectID targetRequest) "recovery target cluster mismatch"
             (errorf ("target request cluster " +:+ quoted (rq_ClusterID targetRequest) +:+
                " does not match recovery package cluster " +:+ quoted (pm_ClusterID metadata)))
      else mret targetRequest
  end.

Definition recoverSecretForEnroll (env : CtlEnv) (options : recoverEnrollOptions) (metadata : PackageMetadata)
  (subjectID : string) (sharesFile : result bytes) : cmd bytes :=
  or_exit ExitConfig (readSharesFile sharesFile) ≫= fun shares =>
  match Recover metadata shares with
  | Err err => refuse env options metadata subjectID "recovery shares rejected" err
  | Ok secret => mret secret
  end.

Definition bootstrapRecoveredKeyring (options : recoverEnrollOptions) (metadata : PackageMetadata) (secret : bytes)
  (targetRequest : Request) (now : Time) : cmd unit :=
  on_store ExitRuntime (bootstrapDevelopmentKeyring
      (first_version (pm_ClusterID metadata) (pm_KeyID metadata) (re_policyID options) secret)
      (recovery_bootstrap metadata now)) ≫= fun _ =>
  on_store ExitRuntime (InsertSubject (rq_ClusterID targetRequest) (rq_SubjectID targetRequest) now).

Record recoverEnrollOutput := mkRecoverEnrollOutput {
  reo_AuditID : string; reo_ClusterID : string; reo_KeyID : string; reo_SubjectID : string;
}.

Definition recoverEnroll (options : recoverEnrollOptions) (env : CtlEnv) (packageFile : result PackageMetadata)
  (sessionFile : result recoverySession) (requestFile : result Request) (sharesFile : result bytes)
  : cmd recoverEnrollOutput :=
  or_exit ExitConfig packageFile ≫= fun metadata =>
  or_exit ExitConfig sessionFile ≫= fun session =>
  or_exit ExitConfig (ce_open env) ≫= fun _ =>
  validateRecoverySessionForEnroll env options metadata session ≫= fun _ =>
  readRecoveryTargetRequest env options metadata requestFile ≫= fun targetRequest =>
  recoverSecretForEnroll env options metadata (rq_SubjectID targetRequest) sharesFile ≫= fun secret =>
  bootstrapRecoveredKeyring options metadata secret targetRequest (ce_clock env AtCommand) ≫= fun _ =>
  auditing ExitRuntime env (re_auditPath options)
    (mkAuditInput (rq_SubjectID targetRequest) (Operation_String OPERATION_RECOVER) (pm_ClusterID metadata)
       (pm_KeyID metadata) 1 DecisionAllow (re_policyID options) "recovery enrollment restored broker keyring") ≫= fun auditID =>
  mret (mkRecoverEnrollOutput auditID (pm_ClusterID metadata) (pm_KeyID metadata) (rq_SubjectID targetRequest)).

(** ** recover begin and finish *)

Record recoverBeginOutput := mkRecoverBeginOutput { rb_AuditID : string; rb_Session : recoverySession }.

(** The session is written with an expiry [ttl] after the clock; it is part of the
    output here. *)
Definition recoverBegin (statePath auditPath : string) (ttl : Duration) (env : CtlEnv)
  (packageFile : result PackageMetadata) (sharesFile : result bytes) : cmd recoverBeginOutput :=
  let recover_audit metadata decision reason := mkAuditInput "operator" (Operation_String OPERATION_RECOVER)
    (pm_ClusterID metadata) (pm_KeyID metadata) 0 decision "recovery" reason in
  let with_path what input : cmd string := fun b =>
    let '(r, b') := auditWithStatePath env statePath auditPath input b in or_exit ExitRuntime (map_err what r) b' in
  or_exit ExitConfig packageFile ≫= fun metadata =>
  or_exit ExitConfig (readSharesFile sharesFile) ≫= fun shares =>
  match Recover metadata shares with
  | Err err =>
      with_path (errorp "write recovery denial audit") (recover_audit metadata DecisionDeny "recovery shares rejected") ≫= fun _ =>
      exit_with ExitCheckFailed err
  | Ok _ =>
      or_exit ExitRuntime (ctl_randomID env "rsess") ≫= fun sessionID =>
      with_path id (recover_audit metadata DecisionAllow "recovery session opened") ≫= fun auditID =>
      let session := mkRecoverySession 1 sessionID (pm_PackageID metadata) (pm_ClusterID metadata) (pm_KeyID metadata)
        (pm_SecretChecksum metadata) (FormatRFC3339Nano (ce_clock env AtSession + ttl)) in
      or_exit ExitConfig (ce_write env) ≫= fun _ =>
      mret (mkRecoverBeginOutput auditID session)
  end.

(** ** enroll *)

Section Enroll.
Context `{Ed25519} (range : list (string * string) -> list (string * string)).

Definition request_json (r : Request) : json :=
  JObject ([("schema_version"%string, JNumber (FormatInt (rq_SchemaVersion r)));
            ("request_id"%string, JString (rq_RequestID r));
            ("cluster_id"%string, JString (rq_ClusterID r));
            ("subject_id"%string, JString (rq_SubjectID r));
            ("mode"%string, JString (rq_Mode r));
            ("allowed_operations"%string, operations_json (rq_AllowedOperations r));
            ("evidence_format"%string, JString (rq_EvidenceFormat r))] ++
           (if empty (rq_EvidencePayload r) then [] else [("evidence_payload"%string, JString (rq_EvidencePayload r))]) ++
           [("evidence_hash"%string, JString (rq_EvidenceHash r));
            ("public_identity"%string, JString (rq_PublicIdentity r));
            ("nonce"%string, JString (rq_Nonce r));
            ("expires_at"%string, JString (rq_ExpiresAt r))]).

Definition grant_json (g : Grant) : json :=
  match unsigned_json g with
  | JObject members => JObject (members ++ [("signature"%string, JString (g_Signature g))])
  | v => v
  end.

Record enrollIssueOptions := mkEnrollIssueOptions {
  ei_auditPath : string; ei_keyID : string; ei_policyID : string; ei_approvalMode : string; ei_ttl : Duration;
}.

(** A time text whose parse error is ignored. *)
Definition time_or_zero (text : string) : Time := default 0 (ParseRFC3339Nano text).

(** [issuer] is the new key pair of [GenerateIssuer]. *)
Definition issueEnrollmentGrant (options : enrollIssueOptions) (env : CtlEnv) (issuer : result bytes)
  (requestFile : result Request) : cmd (Grant * string) :=
  or_exit ExitConfig requestFile ≫= fun request =>
  let now := ce_clock env AtCommand in
  or_exit ExitRuntime (map_err (errorp "generate enrollment issuer key") issuer) ≫= fun privateKey =>
  or_exit ExitRuntime (ctl_randomID env "grant") ≫= fun grantID =>
  or_exit ExitUsage (IssueGrant range request privateKey
     (mkGrantOptions grantID (ei_keyID options) (ei_policyID options) (ei_approvalMode options) (now + ei_ttl options) true)
     now) ≫= fun grant =>
  let grantBody := json_MarshalIndent (grant_json grant) in
  let requestBody := json_MarshalIndent (request_json request) in
  or_exit ExitConfig (ce_open env) ≫= fun _ =>
  on_store ExitRuntime (InsertSubject (rq_ClusterID request) (rq_SubjectID request) now) ≫= fun _ =>
  on_store ExitRuntime (InsertEnrollmentRequest (mkEnrollmentRequestRecord (rq_RequestID request) (rq_ClusterID request)
     (rq_SubjectID request) requestBody (time_or_zero (rq_ExpiresAt request)) now)) ≫= fun _ =>
  on_store ExitRuntime (InsertEnrollmentGrant (mkEnrollmentGrantRecord (g_GrantID grant) (g_RequestID grant)
     (g_ClusterID grant) (g_SubjectID grant) grantBody (time_or_zero (g_ExpiresAt grant)) now)) ≫= fun _ =>
  or_exit ExitConfig (ce_write env) ≫= fun _ =>
  auditing ExitRuntime env (ei_auditPath options)
    (mkAuditInput (rq_SubjectID request) (Operation_String OPERATION_ENROLL) (rq_ClusterID request) (ei_keyID options) 0
       DecisionAllow (ei_policyID options) "enrollment grant issued") ≫= fun auditID =>
  mret (grant, auditID).

Record enrollApplyOptions := mkEnrollApplyOptions { ea_auditPath : string; ea_expectedClusterID : string }.
Record enrollApplyOutput := mkEnrollApplyOutput {
  eao_AuditID : string; eao_GrantID : string; eao_SubjectID : string;
}.

Definition applyEnrollmentGrant (options : enrollApplyOptions) (env : CtlEnv) (grantFile : result Grant)
  : cmd enrollApplyOutput :=
  or_exit ExitConfig grantFile ≫= fun grant =>
  let now := ce_clock env AtCommand in
  or_exit ExitCheckFailed (Verify range grant now) ≫= fun _ =>
  (if negb (empty (ea_expectedClusterID options)) && negb (String.eqb (g_ClusterID grant) (ea_expectedClusterID options))
   then exit_with ExitCheckFailed (errorf ("grant cluster " +:+ quoted (g_ClusterID grant) +:+
          " does not match expected cluster " +:+ quoted (ea_expectedClusterID options)))
   else mret tt) ≫= fun _ =>
  or_exit ExitConfig (ce_open env) ≫= fun _ =>
  on_store ExitCheckFailed (reading (checkBrokerReady (g_ClusterID grant))) ≫= fun _ =>
  on_store ExitCheckFailed (ConsumeEnrollmentGrant (g_GrantID grant) now) ≫= fun _ =>
  on_store ExitRuntime (InsertSubject (g_ClusterID grant) (g_SubjectID grant) now) ≫= fun _ =>
  or_exit ExitConfig (ce_write env) ≫= fun _ =>
  auditing ExitRuntime env (ea_auditPath options)
    (mkAuditInput (g_SubjectID grant) (Operation_String OPERATION_ENROLL) (g_ClusterID grant) (g_KeyID grant) 0
       DecisionAllow (g_PolicyID grant) "enrollment grant applied") ≫= fun auditID =>
  mret (mkEnrollApplyOutput auditID (g_GrantID grant) (g_SubjectID grant)).
End Enroll.
End Commands.
