(* ===== verification/Service.v ===== *)
(** * The unseal service (internal/broker/service.go)

    The handlers Challenge, Wrap, Unwrap and Status over the SQLite store, the
    keyring loader and the policy engine, and what they guarantee together:
    plaintext is released only to an enrolled, unrevoked subject that spends a
    fresh challenge, a challenge is spent once whatever runs in between, and what
    was wrapped before a rotation is unwrapped after it. *)

From S2P Require Import Prelude GoStrings GoTime Keyring KeyProtection Tpm NodeEvidence Config.
From S2P Require Import Sql Store Challenges SqlNodeEvidence StoreInv StoreOps Policy.
Local Open Scope Z_scope.

(** ** Messages *)

Record WrappedBlob := mkWrappedBlob {
  wb_Ciphertext : bytes; wb_Iv : bytes; wb_Key : option KeyRef; wb_Mechanism : Z;
}.
Record ChallengeRequest := mkChallengeRequest {
  cq_ClusterId : string; cq_NodeId : string; cq_Operation : Operation;
}.
Record ChallengeResponse := mkChallengeResponse {
  cp_ChallengeId : string; cp_Nonce : bytes; cp_ExpiresUnixSeconds : Z;
}.
Record WrapRequest := mkWrapRequest {
  wq_RequestedKey : option KeyRef; wq_Plaintext : bytes; wq_Aad : bytes;
  wq_Evidence : option EvidenceEnvelope;
}.
Record WrapResponse := mkWrapResponse { wp_Blob : option WrappedBlob; wp_Decision : ProtoDecision }.
Record UnwrapRequest := mkUnwrapRequest {
  uq_Blob : option WrappedBlob; uq_Aad : bytes; uq_Evidence : option EvidenceEnvelope;
}.
Record UnwrapResponse := mkUnwrapResponse { up_Plaintext : bytes; up_Decision : ProtoDecision }.
Record ProtoKeyVersion := mkProtoKeyVersion {
  pv_Ref : KeyRef; pv_Status : Z; pv_Algorithm : string; pv_PolicyId : string;
}.
Record StatusResponse := mkStatusResponse {
  st_Ready : bool; st_ActiveKeyId : string; st_Keys : list ProtoKeyVersion; st_Errors : list BrokerError;
}.
Definition KEY_STATUS_ACTIVE : Z := 2.

(** The generated getters of possibly nil messages. *)
Definition GetKey (b : option WrappedBlob) : option KeyRef :=
  match b with Some b => wb_Key b | None => None end.

(** ** The service *)

Record Service := mkService {
  sv_config : Config;
  sv_policy : PolicyEngine;
  sv_verifier : option EvidenceVerifier;
}.

Definition NewService (c : Config) : Service :=
  mkService c (mkPolicyEngine None (Config_Policy c)) (Some DevelopmentEvidenceVerifier).

Definition NewServiceWithEvidenceVerifier (c : Config) (verifier : option EvidenceVerifier) : Service :=
  let service := NewService c in
  match verifier with
  | Some v => mkService c (sv_policy service) (Some v)
  | None => service
  end.

Definition NewServiceWithEvidenceVerifierAndNodeEvidence (c : Config) (verifier : option EvidenceVerifier)
  (nodeEvidence : option NodeEvidenceReader) : Service :=
  let service := NewServiceWithEvidenceVerifier c verifier in
  mkService c (mkPolicyEngine nodeEvidence (pe_policyID (sv_policy service))) (sv_verifier service).

Definition empty_event : AuditEvent :=
  mkAuditEvent 0 EmptyString EmptyString EmptyString EmptyString EmptyString EmptyString 0 EmptyString
    EmptyString EmptyString EmptyString EmptyString EmptyString EmptyString EmptyString EmptyString EmptyString.

Definition wrappedBlobToProto (blob : BlobInfo) : option WrappedBlob :=
  match BKeyInfo blob with
  | None => match ParseKeyRef EmptyString with
            | Ok ref => Some (mkWrappedBlob (Ciphertext blob) (Iv blob) (Some ref) 0)
            | Err _ => None
            end
  | Some info => match ParseKeyRef (KeyId info) with
                 | Ok ref => Some (mkWrappedBlob (Ciphertext blob) (Iv blob) (Some ref) (Mechanism info))
                 | Err _ => None
                 end
  end.

Definition protoToBlobInfo (blob : option WrappedBlob) : BlobInfo :=
  match blob with
  | Some b =>
      match wb_Key b with
      | Some ref => mkBlobInfo (wb_Ciphertext b) (wb_Iv b)
                      (Some (mkKeyInfo (wb_Mechanism b) (KeyRef_String ref)))
      | None => mkBlobInfo EmptyString EmptyString None
      end
  | None => mkBlobInfo EmptyString EmptyString None
  end.

Section Handlers.
Context `{AEAD, Protector, ProtoLib, Hashes}.

(** The provider is the loader over the store; [newRuntimeService] never leaves it nil. *)
Definition loadKeyring (env : Env) (db : DB) (clusterID : string) : result Ring :=
  LoadKeyring (e_ctx env) db clusterID.

Definition auditDecision (env : Env) (subject : string) (operation : Operation) (clusterID : string)
  (ref : keyRefView) (decision : PolicyDecision) (evidence : option EvidenceEnvelope) (b : Broker)
  : AuditEvent * Broker :=
  match newAuditEvent (e_audit_random env) (e_clock env AtAudit) subject operation clusterID ref decision
          evidence (e_remote env) with
  | Err _ => (empty_event, b)
  | Ok event =>
      (event, mkBroker (InsertAuditEvent event (at_ env AtAudit (b_db b))).2
                (audit_Write (e_ctx env) (e_audit_io env) event (b_file b)).2)
  end.

Definition evidenceSubject (s : Service) (evidence : option EvidenceEnvelope)
  : VerifiedEvidence * PolicyDecision :=
  let verifier := match sv_verifier s with Some v => v | None => DevelopmentEvidenceVerifier end in
  match verifier evidence with
  | Err _ => (mkVerifiedEvidence EmptyString no_workload,
              Deny (Config_Policy (sv_config s)) ERROR_CODE_ATTESTATION_FAILED
                "attestation verification failed")
  | Ok verified => (verified, Allow (Config_Policy (sv_config s)))
  end.

Definition zero_ref : KeyRef := mkKeyRef EmptyString EmptyString 0.

Definition wrapKeyRef (s : Service) (env : Env) (requested : option KeyRef) (db : DB)
  : KeyRef * PolicyDecision :=
  let policy := Config_Policy (sv_config s) in
  let active_ref :=
    match loadKeyring env db (c_ClusterID (sv_config s)) with
    | Err _ => (zero_ref, Deny policy ERROR_CODE_KEY_NOT_USABLE "active key is unavailable")
    | Ok ring =>
        match Active (Some ring) with
        | Err _ => (zero_ref, Deny policy ERROR_CODE_KEY_NOT_USABLE "active key is unavailable")
        | Ok active => (Ref active, Allow policy)
        end
    end in
  match requested with
  | Some r =>
      if negb (Version r =? 0)
      then match keyRefFromProto requested with
           | Err _ => (zero_ref, Deny policy ERROR_CODE_INVALID_REQUEST "requested key reference is invalid")
           | Ok ref => (ref, Allow policy)
           end
      else active_ref
  | None => active_ref
  end.

Definition Challenge_handler (s : Service) (now : Time) (random1 random2 : result bytes)
  (req : option ChallengeRequest) (db : DB) : result ChallengeResponse * DB :=
  match req with
  | None => (Err (errorf "challenge request is required"), db)
  | Some req =>
      if String.eqb (cq_ClusterId req) EmptyString || String.eqb (cq_NodeId req) EmptyString
      then (Err (errorf "cluster_id and node_id are required"), db)
      else
        match randomID random1 "chal" with
        | Err e => (Err e, db)
        | Ok challengeID =>
            match randomNonce random2 with
            | Err e => (Err e, db)
            | Ok nonce =>
                let expiresAt := now + ChallengeTTL (sv_config s) in
                match sql_CreateChallenge db (mkChallenge challengeID nonce (cq_ClusterId req)
                        (cq_NodeId req) (cq_Operation req) expiresAt now) with
                | (Err e, db) => (Err e, db)
                | (Ok _, db) => (Ok (mkChallengeResponse challengeID nonce (Unix expiresAt)), db)
                end
            end
        end
  end.

Definition deny_wrap (d : PolicyDecision) (b : Broker) : WrapResponse * Broker :=
  (mkWrapResponse None (Proto d), b).
Definition deny_unwrap (d : PolicyDecision) (b : Broker) : UnwrapResponse * Broker :=
  (mkUnwrapResponse EmptyString (Proto d), b).

Definition Wrap (s : Service) (env : Env) (req : option WrapRequest) (b : Broker) : WrapResponse * Broker :=
  let policy := Config_Policy (sv_config s) in
  let cluster := c_ClusterID (sv_config s) in
  match req with
  | None => deny_wrap (Deny policy ERROR_CODE_INVALID_REQUEST "wrap request is required") b
  | Some req =>
      let '(verified, evidenceDecision) := evidenceSubject s (wq_Evidence req) in
      let subject := vf_Subject verified in
      if negb (Allowed evidenceDecision)
      then deny_wrap evidenceDecision
             (auditDecision env subject OPERATION_WRAP cluster no_key evidenceDecision (wq_Evidence req) b).2
      else
        let db := at_ env AtRef (b_db b) in
        let '(ref, decision) := wrapKeyRef s env (wq_RequestedKey req) db in
        if negb (Allowed decision)
        then deny_wrap decision
               (auditDecision env subject OPERATION_WRAP cluster no_key decision (wq_Evidence req)
                  (mkBroker db (b_file b))).2
        else
          let '(decision, db) :=
            evaluate env (sv_policy s) (mkPolicyRequest (ClusterID ref) subject (vf_Workload verified)
              OPERATION_WRAP (GetChallengeId (wq_Evidence req)) ref) db in
          let audited (db : DB) :=
            (auditDecision env subject OPERATION_WRAP (ClusterID ref) (mkKeyRefView (KeyID ref) (Version ref))
               decision (wq_Evidence req) (mkBroker db (b_file b))).2 in
          if negb (Allowed decision) then deny_wrap decision (audited db)
          else
            let db := at_ env AtLoad db in
            match loadKeyring env db (ClusterID ref) with
            | Err _ => deny_wrap (Deny policy ERROR_CODE_INTERNAL "keyring load failed") (mkBroker db (b_file b))
            | Ok ring =>
                match Encrypt (e_ctx env) (e_seal_random env) (Some ring) (wq_Plaintext req) (wq_Aad req) with
                | Err _ => deny_wrap (Deny policy ERROR_CODE_INTERNAL "wrap failed") (mkBroker db (b_file b))
                | Ok blob => (mkWrapResponse (wrappedBlobToProto blob) (Proto decision), audited db)
                end
            end
  end.

Definition Unwrap (s : Service) (env : Env) (req : option UnwrapRequest) (b : Broker)
  : UnwrapResponse * Broker :=
  let policy := Config_Policy (sv_config s) in
  let cluster := c_ClusterID (sv_config s) in
  match req with
  | None => deny_unwrap (Deny policy ERROR_CODE_INVALID_REQUEST "unwrap request is required") b
  | Some req =>
      let '(verified, evidenceDecision) := evidenceSubject s (uq_Evidence req) in
      let subject := vf_Subject verified in
      if negb (Allowed evidenceDecision)
      then deny_unwrap evidenceDecision
             (auditDecision env subject OPERATION_UNWRAP cluster no_key evidenceDecision (uq_Evidence req) b).2
      else
        match keyRefFromProto (GetKey (uq_Blob req)) with
        | Err _ =>
            let decision := Deny policy ERROR_CODE_INVALID_REQUEST "blob key reference is invalid" in
            deny_unwrap decision
              (auditDecision env subject OPERATION_UNWRAP cluster no_key decision (uq_Evidence req) b).2
        | Ok ref =>
            let '(decision, db) :=
              evaluate env (sv_policy s) (mkPolicyRequest (ClusterID ref) subject (vf_Workload verified)
                OPERATION_UNWRAP (GetChallengeId (uq_Evidence req)) ref) (b_db b) in
            let audited (db : DB) :=
              (auditDecision env subject OPERATION_UNWRAP (ClusterID ref)
                 (mkKeyRefView (KeyID ref) (Version ref)) decision (uq_Evidence req)
                 (mkBroker db (b_file b))).2 in
            if negb (Allowed decision) then deny_unwrap decision (audited db)
            else
              let db := at_ env AtLoad db in
              match loadKeyring env db (ClusterID ref) with
              | Err _ => deny_unwrap (Deny policy ERROR_CODE_INTERNAL "keyring load failed")
                           (mkBroker db (b_file b))
              | Ok ring =>
                  match Decrypt (e_ctx env) (Some ring) (Some (protoToBlobInfo (uq_Blob req))) (uq_Aad req) with
                  | Err _ => deny_unwrap (Deny policy ERROR_CODE_INTERNAL "unwrap failed")
                               (mkBroker db (b_file b))
                  | Ok plaintext => (mkUnwrapResponse plaintext (Proto decision), audited db)
                  end
              end
        end
  end.

Definition not_ready (message : string) : StatusResponse :=
  mkStatusResponse false EmptyString [] [mkBrokerError ERROR_CODE_KEY_NOT_USABLE message].

(** [requested] is the request's cluster, empty when there is none. *)
Definition Status_handler (s : Service) (env : Env) (requested : string) (db : DB) : StatusResponse :=
  let clusterID := if String.eqb requested EmptyString then c_ClusterID (sv_config s) else requested in
  match loadKeyring env db clusterID with
  | Err _ => not_ready "keyring is not ready"
  | Ok ring =>
      match Active (Some ring) with
      | Err _ => not_ready "active key is unavailable"
      | Ok active =>
          mkStatusResponse true (KeyRef_String (Ref active))
            [mkProtoKeyVersion (Ref active) KEY_STATUS_ACTIVE (Algorithm active) (PolicyID active)] []
      end
  end.

End Handlers.

(** ** What the handlers do *)

Lemma keyRef_Ok o ref : keyRefFromProto o = Ok ref -> o = Some ref /\ KeyRef_Validate ref = Ok tt.
Proof. unfold keyRefFromProto. destruct o; [|done]. intros H. inv_ok. by units. Qed.

Lemma store_Subject_ok db c s :
  is_ok (store_Subject db c s) = true -> store_Subject db c s = Ok (mkSubject c s false).
Proof. unfold store_Subject. destruct (subjects db !! (c, s)); [|done]. by case_goal. Qed.

Section Properties.
Context `{AEAD, Protector, ProtoLib, Hashes}.

Lemma auditDecision_db env subject op c ref d ev b :
  (auditDecision env subject op c ref d ev b).2
  = match newAuditEvent (e_audit_random env) (e_clock env AtAudit) subject op c ref d ev (e_remote env) with
    | Err _ => b
    | Ok event => mkBroker (run (e_others env AtAudit ++ [OInsertAuditEvent event]) (b_db b))
                    (audit_Write (e_ctx env) (e_audit_io env) event (b_file b)).2
    end.
Proof.
  unfold auditDecision. destruct (newAuditEvent _ _ _ _ _ _ _ _ _); [|done]. simpl.
  rewrite run_app. done.
Qed.

Lemma auditDecision_le env subject op c ref d ev b :
  env_typed env -> store_inv (b_db b) ->
  store_le (b_db b) (b_db (auditDecision env subject op c ref d ev b).2) /\
  store_inv (b_db (auditDecision env subject op c ref d ev b).2).
Proof.
  intros He Hi. rewrite auditDecision_db. destruct (newAuditEvent _ _ _ _ _ _ _ _ _); [|done]. simpl.
  assert (Forall op_typed (e_others env AtAudit ++ [OInsertAuditEvent a])) as Ht by (by ops_typed).
  split; [by apply run_le | by apply run_inv].
Qed.

(** What an allowing [Unwrap] did. *)
Definition unwrap_request (verified : VerifiedEvidence) (ref : KeyRef) (req : UnwrapRequest) : policyRequest :=
  mkPolicyRequest (ClusterID ref) (vf_Subject verified) (vf_Workload verified) OPERATION_UNWRAP
    (GetChallengeId (uq_Evidence req)) ref.

Definition verifier_of (s : Service) : EvidenceVerifier :=
  match sv_verifier s with Some v => v | None => DevelopmentEvidenceVerifier end.

Lemma evidenceSubject_Allowed s ev verified d :
  evidenceSubject s ev = (verified, d) -> Allowed d = true -> verifier_of s ev = Ok verified.
Proof. unfold evidenceSubject, verifier_of. destruct (match sv_verifier s with _ => _ end ev); by intros [= <- <-]. Qed.

Lemma Unwrap_allow s env req b p pd b' :
  Unwrap s env (Some req) b = (mkUnwrapResponse p pd, b') -> pd_State pd = POLICY_DECISION_STATE_ALLOW ->
  exists verified ref d db4 ring,
    verifier_of s (uq_Evidence req) = Ok verified /\ keyRefFromProto (GetKey (uq_Blob req)) = Ok ref /\
    evaluate env (sv_policy s) (unwrap_request verified ref req) (b_db b) = (d, db4) /\ Allowed d = true /\
    LoadKeyring (e_ctx env) (at_ env AtLoad db4) (ClusterID ref) = Ok ring /\
    Decrypt (e_ctx env) (Some ring) (Some (protoToBlobInfo (uq_Blob req))) (uq_Aad req) = Ok p /\
    b' = (auditDecision env (vf_Subject verified) OPERATION_UNWRAP (ClusterID ref)
            (mkKeyRefView (KeyID ref) (Version ref)) d (uq_Evidence req)
            (mkBroker (at_ env AtLoad db4) (b_file b))).2.
Proof.
  unfold Unwrap. destruct (evidenceSubject s (uq_Evidence req)) as [verified d0] eqn:E0.
  destruct (Allowed d0) eqn:A0; cbn [negb]; [|intros [= <- <- <-]; simpl; intros Hs; unfold Allowed in A0; by rewrite Hs in A0].
  pose proof (evidenceSubject_Allowed _ _ _ _ E0 A0) as Hv.
  destruct (keyRefFromProto (GetKey (uq_Blob req))) as [ref|] eqn:Er; [|by intros [= <- <- <-]].
  fold (unwrap_request verified ref req).
  destruct (evaluate env (sv_policy s) (unwrap_request verified ref req) (b_db b)) as [d db4] eqn:Ee.
  destruct (Allowed d) eqn:A; cbn [negb]; [|intros [= <- <- <-]; simpl; intros Hs; unfold Allowed in A; by rewrite Hs in A].
  unfold loadKeyring. destruct (LoadKeyring _ _ _) as [ring|] eqn:El; [|by intros [= <- <- <-]].
  destruct (Decrypt _ _ _ _) as [q|] eqn:Ed; [|by intros [= <- <- <-]].
  intros [= <- <- <-] _. exists verified, ref, d, db4, ring. by split_and!.
Qed.

Lemma Unwrap_no_plaintext s env req b p pd b' :
  Unwrap s env req b = (mkUnwrapResponse p pd, b') -> pd_State pd <> POLICY_DECISION_STATE_ALLOW ->
  p = EmptyString.
Proof.
  unfold Unwrap. destruct req as [req|]; [|by intros [= <- _ _]].
  destruct (evidenceSubject s (uq_Evidence req)) as [verified d0].
  case_goal; [by intros [= <- _ _]|]. case_goal; [|by intros [= <- _ _]].
  destruct (evaluate _ _ _ _) as [d db4]. destruct (Allowed d) eqn:A; cbn [negb]; [|by intros [= <- _ _]].
  destruct (loadKeyring _ _ _) as [ring|]; [|by intros [= <- _ _]].
  destruct (Decrypt _ _ _ _) as [q|]; [|by intros [= <- _ _]].
  intros [= _ <- _] Hn. simpl in Hn. unfold Allowed in A. by to_prop.
Qed.

(** An allowing engine spent the challenge, and it stays spent up to the keyring load. *)
Lemma allowed_spent env s vf ref req db d db4 :
  env_typed env -> store_inv db ->
  evaluate env (sv_policy s) (unwrap_request vf ref req) db = (d, db4) -> Allowed d = true ->
  spent (at_ env AtLoad db4) (GetChallengeId (uq_Evidence req)).
Proof.
  intros He Hi Hev Hd.
  assert (store_inv db4) as Hi4.
  { rewrite (evaluate_run _ _ _ _ _ _ Hev Hd). apply run_inv; [done | by apply req_ops_typed]. }
  apply (evaluate_Allowed _ _ _ _ _ _ Hev) in Hd as (_ & _ & _ & _ & dbc & key & Hc & Hk & _).
  pose proof (consume_spends _ _ _ _ _ _ _ Hc) as [Hsp _]. simpl in Hsp, Hc.
  assert (store_inv dbc) as Hic.
  { eapply (consume_step _ _ _ _ _ _ _); [| |exact Hc]; [by auto using at_inv | done]. }
  eapply spent_mono; [by apply at_le|]. rewrite Hk. eapply spent_mono; [by apply at_le | exact Hsp].
Qed.

(** The spent challenge survives the rest of the request. *)
Lemma Unwrap_allow_spent s env req b p pd b' :
  env_typed env -> store_inv (b_db b) ->
  Unwrap s env (Some req) b = (mkUnwrapResponse p pd, b') -> pd_State pd = POLICY_DECISION_STATE_ALLOW ->
  store_inv (b_db b') /\ spent (b_db b') (GetChallengeId (uq_Evidence req)).
Proof.
  intros He Hi Hu Ha. destruct (Unwrap_allow _ _ _ _ _ _ _ Hu Ha) as (vf & ref & d & db4 & ring & _ & _ & Hev & Hd & _ & _ & ->).
  assert (store_inv db4) as Hi4.
  { rewrite (evaluate_run _ _ _ _ _ _ Hev Hd). apply run_inv; [done | by apply req_ops_typed]. }
  pose proof (allowed_spent env s vf ref req (b_db b) d db4 He Hi Hev Hd) as Hs.
  destruct (auditDecision_le env (vf_Subject vf) OPERATION_UNWRAP (ClusterID ref) (mkKeyRefView (KeyID ref) (Version ref))
    d (uq_Evidence req) (mkBroker (at_ env AtLoad db4) (b_file b)) He) as [Hle Hi']; [by apply at_inv|].
  split; [done|]. by eapply spent_mono.
Qed.

Lemma steps_audit env subject op c ref d ev b :
  env_typed env -> steps (b_db b) (b_db (auditDecision env subject op c ref d ev b).2).
Proof.
  intros He. rewrite auditDecision_db. destruct (newAuditEvent _ _ _ _ _ _ _ _ _); [|apply steps_refl].
  eexists. split; [|done]. by ops_typed.
Qed.

Lemma Unwrap_steps s env req b : env_typed env -> steps (b_db b) (b_db (Unwrap s env req b).2).
Proof.
  intros He. unfold Unwrap. destruct req as [req|]; [|apply steps_refl].
  destruct (evidenceSubject s (uq_Evidence req)) as [vf d0]. case_goal; [by apply steps_audit|].
  destruct (keyRefFromProto (GetKey (uq_Blob req))) as [ref|]; [|by apply steps_audit].
  pose proof (steps_evaluate env (sv_policy s) (unwrap_request vf ref req) (b_db b) He int32_unwrap) as Hs.
  fold (unwrap_request vf ref req).
  destruct (evaluate env (sv_policy s) (unwrap_request vf ref req) (b_db b)) as [d db4]. simpl in Hs.
  destruct (Allowed d); cbn [negb].
  - pose proof (steps_trans _ _ _ Hs (steps_at env AtLoad db4 He)) as Hl.
    destruct (loadKeyring _ _ _) as [ring|]; [|exact Hl]. destruct (Decrypt _ _ _ _) as [q|]; [|exact Hl].
    eapply steps_trans; [exact Hl|]. by apply (steps_audit env _ _ _ _ _ _ (mkBroker (at_ env AtLoad db4) (b_file b))).
  - eapply steps_trans; [exact Hs|]. by apply (steps_audit env _ _ _ _ _ _ (mkBroker db4 (b_file b))).
Qed.

Definition wrap_policy_request (verified : VerifiedEvidence) (ref : KeyRef) (req : WrapRequest) : policyRequest :=
  mkPolicyRequest (ClusterID ref) (vf_Subject verified) (vf_Workload verified) OPERATION_WRAP
    (GetChallengeId (wq_Evidence req)) ref.

Lemma Wrap_steps s env req b : env_typed env -> steps (b_db b) (b_db (Wrap s env req b).2).
Proof.
  intros He. unfold Wrap. destruct req as [req|]; [|apply steps_refl].
  destruct (evidenceSubject s (wq_Evidence req)) as [vf d0]. case_goal; [by apply steps_audit|].
  pose proof (steps_at env AtRef (b_db b) He) as Hr.
  destruct (wrapKeyRef s env (wq_RequestedKey req) (at_ env AtRef (b_db b))) as [ref d1].
  case_goal.
  { eapply steps_trans; [exact Hr|]. by apply (steps_audit env _ _ _ _ _ _ (mkBroker (at_ env AtRef (b_db b)) (b_file b))). }
  pose proof (steps_evaluate env (sv_policy s) (wrap_policy_request vf ref req) (at_ env AtRef (b_db b)) He ltac:(done)) as Hs.
  fold (wrap_policy_request vf ref req).
  destruct (evaluate env (sv_policy s) (wrap_policy_request vf ref req) (at_ env AtRef (b_db b))) as [d db4]. simpl in Hs.
  pose proof (steps_trans _ _ _ Hr Hs) as Hs'. destruct (Allowed d); cbn [negb].
  - pose proof (steps_trans _ _ _ Hs' (steps_at env AtLoad db4 He)) as Hl.
    destruct (loadKeyring _ _ _) as [ring|]; [|exact Hl]. destruct (Encrypt _ _ _ _ _) as [q|]; [|exact Hl].
    eapply steps_trans; [exact Hl|]. by apply (steps_audit env _ _ _ _ _ _ (mkBroker (at_ env AtLoad db4) (b_file b))).
  - eapply steps_trans; [exact Hs'|]. by apply (steps_audit env _ _ _ _ _ _ (mkBroker db4 (b_file b))).
Qed.

(** What an allowing [Wrap] did. *)
Lemma Wrap_blob s env req b blob pd b' :
  Wrap s env (Some req) b = (mkWrapResponse (Some blob) pd, b') ->
  exists verified ref d db4 ring info,
    verifier_of s (wq_Evidence req) = Ok verified /\
    wrapKeyRef s env (wq_RequestedKey req) (at_ env AtRef (b_db b)) = (ref, Allow (Config_Policy (sv_config s))) /\
    evaluate env (sv_policy s) (wrap_policy_request verified ref req) (at_ env AtRef (b_db b)) = (d, db4) /\
    Allowed d = true /\ pd = Proto d /\
    LoadKeyring (e_ctx env) (at_ env AtLoad db4) (ClusterID ref) = Ok ring /\
    Encrypt (e_ctx env) (e_seal_random env) (Some ring) (wq_Plaintext req) (wq_Aad req) = Ok info /\
    wrappedBlobToProto info = Some blob /\
    b' = (auditDecision env (vf_Subject verified) OPERATION_WRAP (ClusterID ref)
            (mkKeyRefView (KeyID ref) (Version ref)) d (wq_Evidence req)
            (mkBroker (at_ env AtLoad db4) (b_file b))).2.
Proof.
  unfold Wrap. destruct (evidenceSubject s (wq_Evidence req)) as [verified d0] eqn:E0.
  destruct (Allowed d0) eqn:A0; cbn [negb]; [|done].
  pose proof (evidenceSubject_Allowed _ _ _ _ E0 A0) as Hv.
  destruct (wrapKeyRef s env (wq_RequestedKey req) (at_ env AtRef (b_db b))) as [ref d1] eqn:Er.
  destruct (Allowed d1) eqn:A1; cbn [negb]; [|done].
  assert (d1 = Allow (Config_Policy (sv_config s))) as ->.
  { unfold wrapKeyRef in Er. repeat case_hyp Er; by injection Er as <- <-. }
  fold (wrap_policy_request verified ref req).
  destruct (evaluate env (sv_policy s) (wrap_policy_request verified ref req) (at_ env AtRef (b_db b))) as [d db4] eqn:Ee.
  destruct (Allowed d) eqn:A; cbn [negb]; [|done].
  unfold loadKeyring. destruct (LoadKeyring _ _ _) as [ring|] eqn:El; [|done].
  destruct (Encrypt _ _ _ _ _) as [info|] eqn:Ed; [|done].
  intros [= Hb <- <-]. exists verified, ref, d, db4, ring, info. by split_and!.
Qed.
End Properties.

(** ** Properties of the service *)

(** C2: release safety: whatever other requests run in between, [Unwrap] returns
    plaintext only with an allow decision, and allows only when the evidence
    verified to a non-empty subject, that subject was enrolled and not revoked in
    the blob's cluster, the node evidence was acceptable, the presented challenge
    had been issued to that subject for unwrapping in that cluster, was unspent
    and unexpired and is now spent, the blob's key version was active or
    decrypt-only, and the plaintext is what the loaded keyring decrypts. *)
Theorem unwrap_sound `{AEAD, Protector, ProtoLib, Hashes} s env req b p pd b' :
  env_typed env -> reachable (b_db b) ->
  Unwrap s env (Some req) b = (mkUnwrapResponse p pd, b') ->
  (p <> EmptyString -> pd_State pd = POLICY_DECISION_STATE_ALLOW) /\
  (pd_State pd = POLICY_DECISION_STATE_ALLOW ->
   exists verified ref ch key ring db1 db2 db3 db4 db5,
     verifier_of s (uq_Evidence req) = Ok verified /\ vf_Subject verified <> EmptyString /\
     GetKey (uq_Blob req) = Some ref /\ KeyRef_Validate ref = Ok tt /\
     store_Subject db1 (ClusterID ref) (vf_Subject verified)
     = Ok (mkSubject (ClusterID ref) (vf_Subject verified) false) /\
     Allowed (evaluateNodeEvidence env (sv_policy s) (unwrap_request verified ref req) db2) = true /\
     sql_ledger db3 (GetChallengeId (uq_Evidence req)) = Some (ch, false) /\
     ch_ClusterID ch = ClusterID ref /\ ch_Subject ch = vf_Subject verified /\
     ch_Operation ch = OPERATION_UNWRAP /\ e_clock env AtConsume < ch_ExpiresAt ch /\
     spent (b_db b') (GetChallengeId (uq_Evidence req)) /\
     store_ProtectedKey db4 ref = Ok key /\
     (pk_Status key = StatusActive \/ pk_Status key = StatusDecryptOnly) /\
     LoadKeyring (e_ctx env) db5 (ClusterID ref) = Ok ring /\
     Decrypt (e_ctx env) (Some ring) (Some (protoToBlobInfo (uq_Blob req))) (uq_Aad req) = Ok p /\
     store_le (b_db b) db1 /\ store_le db1 db2 /\ store_le db2 db3 /\ store_le db3 db4 /\
     store_le db4 db5 /\ store_le db5 (b_db b')).
Proof.
  intros He Hr Hu. pose proof (reachable_inv _ Hr) as Hi. split.
  { intros Hp. destruct (decide (pd_State pd = POLICY_DECISION_STATE_ALLOW)); [done|].
    by apply Unwrap_no_plaintext in Hu. }
  intros Ha. destruct (Unwrap_allow_spent _ _ _ _ _ _ _ He Hi Hu Ha) as [_ Hspent].
  destruct (Unwrap_allow _ _ _ _ _ _ _ Hu Ha) as (vf & ref & d & db4 & ring & Hv & Hk & Hev & Hd & Hl & Hdec & Hb).
  apply (evaluate_Allowed _ _ _ _ _ _ Hev) in Hd as (Hs & Hsub & Hnode & _ & dbc & key & Hc & Hdb4 & Hkey & Hst).
  clear Hu. simpl in Hs, Hsub, Hc, Hkey, Hst.
  set (db1 := at_ env AtSubject (b_db b)) in *. set (db2 := at_ env AtNode db1) in *. set (db3 := at_ env AtConsume db2) in *.
  assert (store_inv db1) as I1 by (by apply at_inv). assert (store_inv db2) as I2 by (by apply at_inv).
  assert (store_inv db3) as I3 by (by apply at_inv).
  destruct (consume_ledger _ _ _ _ _ _ _ (si_challenges _ I3) int32_unwrap Hc) as (ch & Hch & C1 & C2 & C3 & C4).
  destruct (consume_step _ _ _ _ _ _ _ I3 int32_unwrap Hc) as [Ic Lc].
  assert (store_inv db4) as I4 by (subst db4; by apply at_inv).
  apply keyRef_Ok in Hk as [Hk Hval]. apply store_Subject_ok in Hsub.
  exists vf, ref, ch, key, ring, db1, db2, db3, db4, (at_ env AtLoad db4).
  split_and!; try done; try (by apply at_le); [by apply Hst | |].
  - etransitivity; [exact Lc|]. subst db4. by apply at_le.
  - subst b'. by apply (auditDecision_le env _ _ _ _ _ _ (mkBroker (at_ env AtLoad db4) (b_file b)) He (at_inv env AtLoad db4 He I4)).
Qed.

(** A concrete broker: one keyring, one enrolled subject, a challenge to wrap and
    two to unwrap. *)
Definition toy_ProtoLib : ProtoLib := {| Marshal_EvidenceEnvelope e := Ok (ev_Payload e) |}.
Definition example_chal (id nonce : string) (op : Operation) : Challenge :=
  mkChallenge id nonce "cluster-a" "openbao-0" op (example_time + Hour) example_time.
Definition example_setup : list store_op :=
  [OInsertSubject "cluster-a" "openbao-0" example_time;
   OCreateChallenge (example_chal "chal_w" "n1" OPERATION_WRAP);
   OCreateChallenge (example_chal "chal_u" "n2" OPERATION_UNWRAP);
   OCreateChallenge (example_chal "chal_v" "n3" OPERATION_UNWRAP)].
Definition example_broker : Broker := mkBroker (run example_setup example_store) [].
Definition example_env (others : point -> list store_op) : Env :=
  mkEnv (Ok tt) (fun _ => example_time) (Ok "0123456789abcdef01"%string) (Ok "nonce-nonce-"%string) "peer" (Ok tt) others.
Definition quiet : point -> list store_op := fun _ => [].
Definition example_evidence (challenge : string) : option EvidenceEnvelope :=
  Some (mkEvidenceEnvelope 0 "development" "openbao-0" challenge []).
Definition example_service : Service := NewService example_config.
Definition example_wrap_request : WrapRequest :=
  mkWrapRequest None "root key" "aad" (example_evidence "chal_w").
Definition example_wrap (others : point -> list store_op) : WrapResponse * Broker :=
  @Wrap toy_AEAD DevelopmentProtector toy_ProtoLib toy_Hashes example_service (example_env others)
    (Some example_wrap_request) example_broker.
Definition example_unwrap_request : UnwrapRequest :=
  mkUnwrapRequest (wp_Blob (example_wrap quiet).1) "aad" (example_evidence "chal_u").
Definition example_wrapped : Broker := (example_wrap quiet).2.
Definition example_unwrap : UnwrapResponse * Broker :=
  @Unwrap toy_AEAD DevelopmentProtector toy_ProtoLib toy_Hashes example_service (example_env quiet)
    (Some example_unwrap_request) example_wrapped.

Lemma example_setup_typed : Forall op_typed example_setup.
Proof. repeat constructor; vm_compute; congruence. Qed.
Lemma example_broker_reachable : reachable (b_db example_broker).
Proof. apply run_reachable; [exact example_store_reachable | exact example_setup_typed]. Qed.
Lemma quiet_typed : env_typed (example_env quiet).
Proof. intros p. constructor. Qed.

Example example_unwrap_plaintext : up_Plaintext example_unwrap.1 = "root key"%string.
Proof. vm_compute. reflexivity. Qed.

Lemma example_wrapped_reachable : reachable (b_db example_wrapped).
Proof.
  eapply steps_reachable; [|exact example_broker_reachable]. apply Wrap_steps. exact quiet_typed.
Qed.

Lemma unwrap_sound_witness :
  up_Plaintext example_unwrap.1 = "root key"%string /\
  spent (b_db example_unwrap.2) "chal_u".
Proof.
  split; [vm_compute; reflexivity|].
  destruct (@unwrap_sound toy_AEAD DevelopmentProtector toy_ProtoLib toy_Hashes example_service
    (example_env quiet) example_unwrap_request example_wrapped (up_Plaintext example_unwrap.1)
    (up_Decision example_unwrap.1) example_unwrap.2 quiet_typed example_wrapped_reachable) as [_ Hs].
  - unfold example_unwrap. destruct (Unwrap _ _ _ _) as [[p pd] b']. reflexivity.
  - destruct Hs as (vf & ref & ch & key & ring & db1 & db2 & db3 & db4 & db5 & _ & _ & _ & _ & _ & _ & _ & _ & _ & _ & _ & Hsp & _);
      [vm_compute; reflexivity|].
    exact Hsp.
Defined.

(** Every handler, whatever it is asked and whatever runs beside it, only
    performs store operations: reachable states stay reachable, so that all
    guarantees of the store (one active key version, revocation, single use of
    challenges) hold under the service. *)
Theorem handlers_preserve_store `{AEAD, Protector, ProtoLib, Hashes} s env wreq ureq b :
  env_typed env -> reachable (b_db b) ->
  reachable (b_db (Wrap s env wreq b).2) /\ store_le (b_db b) (b_db (Wrap s env wreq b).2) /\
  reachable (b_db (Unwrap s env ureq b).2) /\ store_le (b_db b) (b_db (Unwrap s env ureq b).2).
Proof.
  intros He Hr. pose proof (reachable_inv _ Hr) as Hi.
  pose proof (Wrap_steps s env wreq b He) as Hw. pose proof (Unwrap_steps s env ureq b He) as Hu.
  split_and!; try (by eapply steps_reachable); by apply steps_le.
Qed.

Lemma handlers_preserve_store_witness : reachable (b_db example_unwrap.2).
Proof.
  apply (@handlers_preserve_store toy_AEAD DevelopmentProtector toy_ProtoLib toy_Hashes example_service
    (example_env quiet) None (Some example_unwrap_request) example_wrapped quiet_typed example_wrapped_reachable).
Defined.

(** C4: no replay: once [Unwrap] released plaintext against a challenge, no later
    [Wrap] or [Unwrap], by any service instance and after any operations, is
    allowed with the same challenge; [Unwrap] then returns no plaintext and
    [Wrap] no blob. *)
Theorem unwrap_challenge_not_replayable `{AEAD, Protector, ProtoLib, Hashes}
  s env req b p pd b' ops s2 env2 ureq wreq :
  env_typed env -> reachable (b_db b) ->
  Unwrap s env (Some req) b = (mkUnwrapResponse p pd, b') -> pd_State pd = POLICY_DECISION_STATE_ALLOW ->
  Forall op_typed ops -> env_typed env2 ->
  GetChallengeId (uq_Evidence ureq) = GetChallengeId (uq_Evidence req) ->
  GetChallengeId (wq_Evidence wreq) = GetChallengeId (uq_Evidence req) ->
  let b2 := mkBroker (run ops (b_db b')) (b_file b') in
  up_Plaintext (Unwrap s2 env2 (Some ureq) b2).1 = EmptyString /\
  pd_State (up_Decision (Unwrap s2 env2 (Some ureq) b2).1) <> POLICY_DECISION_STATE_ALLOW /\
  wp_Blob (Wrap s2 env2 (Some wreq) b2).1 = None.
Proof.
  intros He Hr Hu Ha Hops He2 Eu Ew b2.
  destruct (Unwrap_allow_spent _ _ _ _ _ _ _ He (reachable_inv _ Hr) Hu Ha) as [Hi' Hs].
  assert (store_inv (b_db b2)) as Hi2 by (by apply run_inv).
  assert (spent (b_db b2) (GetChallengeId (uq_Evidence req))) as Hs2 by (eapply spent_mono; [by apply run_le | done]).
  assert (pd_State (up_Decision (Unwrap s2 env2 (Some ureq) b2).1) <> POLICY_DECISION_STATE_ALLOW) as Hd.
  { destruct (Unwrap s2 env2 (Some ureq) b2) as [[p2 pd2] b3] eqn:E. simpl. intros Ha2.
    destruct (Unwrap_allow _ _ _ _ _ _ _ E Ha2) as (vf & ref & d & db4 & ring & _ & _ & Hev & Hd & _).
    assert (Allowed d = false); [|congruence].
    refine (evaluate_spent _ _ (unwrap_request vf ref ureq) _ _ _ He2 Hi2 int32_unwrap _ Hev). simpl. by rewrite Eu. }
  split; [|split; [done|]].
  - destruct (Unwrap s2 env2 (Some ureq) b2) as [[p2 pd2] b3] eqn:E. by apply Unwrap_no_plaintext in E.
  - destruct (Wrap s2 env2 (Some wreq) b2) as [[[blob|] pd2] b3] eqn:E; [exfalso | done].
    destruct (Wrap_blob _ _ _ _ _ _ _ E) as (vf & ref & d & db4 & ring & info & _ & _ & Hev & Hd2 & _).
    assert (Allowed d = false); [|congruence].
    refine (evaluate_spent _ _ (wrap_policy_request vf ref wreq) _ _ _ He2 (at_inv _ _ _ He2 Hi2) int32_wrap _ Hev).
    simpl. rewrite Ew. eapply spent_mono; [by apply at_le | done].
Qed.

Lemma unwrap_challenge_not_replayable_witness :
  up_Plaintext (@Unwrap toy_AEAD DevelopmentProtector toy_ProtoLib toy_Hashes example_service
    (example_env quiet) (Some example_unwrap_request) (mkBroker (run [] (b_db example_unwrap.2)) (b_file example_unwrap.2))).1
  = EmptyString.
Proof.
  apply (@unwrap_challenge_not_replayable toy_AEAD DevelopmentProtector toy_ProtoLib toy_Hashes example_service
    (example_env quiet) example_unwrap_request example_wrapped (up_Plaintext example_unwrap.1)
    (up_Decision example_unwrap.1) example_unwrap.2 [] example_service (example_env quiet) example_unwrap_request
    (mkWrapRequest None "p" "" (example_evidence "chal_u")) quiet_typed example_wrapped_reachable).
  - unfold example_unwrap. destruct (Unwrap _ _ _ _) as [[p pd] b']. reflexivity.
  - vm_compute. reflexivity.
  - constructor.
  - exact quiet_typed.
  - reflexivity.
  - reflexivity.
Defined.

(** ** Wrapping, rotating, unwrapping *)

(** The version of a ring that stands for a row. *)
Definition opens_row (k : key3) (row : key_version_row) (v : KeyVersion) : Prop :=
  Ref v = row_ref k /\ KStatus v = kvr_status row /\ Material v = kvr_protected_payload row /\
  PolicyID v = kvr_policy_id row /\ KeyVersion_Validate v = Ok tt.

Lemma Development_Unprotect_row ctx k row v :
  Development_Unprotect ctx (row_key k row) = Ok v -> ctx = Ok tt /\ opens_row k row v.
Proof. unfold Development_Unprotect. intros H. destruct ctx as [[]|]; [|done]. inv_ok. by units. Qed.

Lemma Forall2_elem_l {A B} (R : A -> B -> Prop) l k x : Forall2 R l k -> x ∈ l -> exists y, y ∈ k /\ R x y.
Proof.
  induction 1 as [|a b l k Hab _ IH]; intros Hx; [by apply not_elem_of_nil in Hx|].
  apply elem_of_cons in Hx as [->|Hx]; [exists b; split; [left | done]|].
  destruct (IH Hx) as (y & Hy & Hr). exists y. split; [by right | done].
Qed.

Lemma Forall2_elem_r {A B} (R : A -> B -> Prop) l k y : Forall2 R l k -> y ∈ k -> exists x, x ∈ l /\ R x y.
Proof. intros HF Hy. apply Forall2_flip in HF. by apply (Forall2_elem_l _ _ _ _ HF). Qed.

(** The ring that the development loader builds. *)
Lemma loaded_ring ctx db cluster ring :
  keys_inv db -> @LoadKeyring DB SQLite_Repository DevelopmentProtector ctx db cluster = Ok ring ->
  exists vs, ring = mkRing vs /\ ring_ok vs /\ ctx = Ok tt /\
    (forall v, v ∈ vs -> exists k row, key_versions db !! k = Some row /\ k.1.1 = cluster /\ opens_row k row v) /\
    (forall k row, key_versions db !! k = Some row -> k.1.1 = cluster -> exists v, v ∈ vs /\ opens_row k row v).
Proof.
  intros Hi Hl. unfold LoadKeyring in Hl. cbn [ProtectedKeys SQLite_Repository] in Hl.
  destruct (decide (cluster_key_rows db cluster = [])) as [E|E].
  { unfold store_ProtectedKeys in Hl. by rewrite E in Hl. }
  rewrite ProtectedKeys_inv in Hl; [|done|].
  2:{ destruct (cluster_key_rows db cluster) as [|p l]; [done|]. exists p. left. }
  cbn [mbind result_bind] in Hl. apply bind_Ok in Hl as (vs & Hvs & Hring).
  apply (@unprotect_loop_inv DevelopmentProtector) in Hvs as (us & -> & HF). simpl in Hring.
  apply NewRing_spec in Hring as [Hok ->]. apply Forall2_fmap_l in HF. exists us. split; [done|]. split; [done|].
  split_and!.
  - destruct (cluster_key_rows db cluster) as [|p l]; [done|]. inversion HF as [|? v ? ? [_ Hu] _]; subst.
    by apply Development_Unprotect_row in Hu as [? _].
  - intros v Hv. destruct (Forall2_elem_r _ _ _ _ HF Hv) as ([k row] & Hp & _ & Hu).
    apply cluster_rows_elem in Hp as [Hc Hk]. apply Development_Unprotect_row in Hu as [_ Hu]. by exists k, row.
  - intros k row Hk Hc. destruct (Forall2_elem_l _ _ _ (k, row) HF) as (v & Hv & _ & Hu).
    { by apply cluster_rows_elem. }
    exists v. split; [done|]. by apply Development_Unprotect_row in Hu as [_ ?].
Qed.

Lemma filter_one {A} (P : A -> Prop) `{forall x, Decision (P x)} l :
  length (filter P l) = 1%nat -> exists x, forall y, y ∈ l -> P y -> y = x.
Proof.
  intros Hl. destruct (filter P l) as [|x [|]] eqn:E; try done. exists x. intros y Hy HP.
  apply list_elem_of_singleton. rewrite <- E. by apply list_elem_of_filter.
Qed.

(** A cluster whose keyring loads has one active row. *)
Lemma active_row_unique db cluster ring ctx k row ref :
  keys_inv db -> @LoadKeyring DB SQLite_Repository DevelopmentProtector ctx db cluster = Ok ring ->
  key_versions db !! k = Some row -> k.1.1 = cluster -> kvr_status row = StatusActive ->
  ClusterID ref = cluster ->
  (exists r, key_versions db !! (ClusterID ref, KeyID ref, Version ref) = Some r /\ kvr_status r = StatusActive) ->
  row_ref k = ref.
Proof.
  intros Hi Hl Hk Hc Hs Hrc (r & Hr & Hrs). destruct (loaded_ring _ _ _ _ Hi Hl) as (vs & _ & (_ & _ & Hcount) & _ & Hfrom & Hto).
  destruct (Hto k row Hk Hc) as (v & Hv & Rv & Sv & _). destruct (Hto _ r Hr Hrc) as (w & Hw & Rw & Sw & _).
  assert (v = w) as ->.
  { destruct (filter_one (fun v => KStatus v = StatusActive) vs) as (x & Hx).
    - unfold count_status in Hcount. lia.
    - rewrite (Hx v), (Hx w); [done | done | congruence | done | congruence]. }
  rewrite <- Rv, Rw. by destruct ref.
Qed.

Section WrapUnwrap.
Context `{AEADLaws, ProtoLib, Hashes}.

Lemma opens_row_uint32 db k row v :
  keys_inv db -> key_versions db !! k = Some row -> opens_row k row v -> uint32 (Version (Ref v)).
Proof.
  intros Hi Hl (-> & _). destruct k as [k n]. destruct (ki_row _ Hi k n row Hl) as (Hv & _). simpl.
  unfold uint32. lia.
Qed.

(** An encryption under a loaded ring: the blob is sealed by the active version. *)
Lemma encrypted_sealed ctx db cluster ring random p aad info nonce :
  keys_inv db -> @LoadKeyring DB SQLite_Repository DevelopmentProtector ctx db cluster = Ok ring ->
  random = Ok nonce -> Encrypt ctx random (Some ring) p aad = Ok info ->
  exists k row v, key_versions db !! k = Some row /\ k.1.1 = cluster /\ opens_row k row v /\
    kvr_status row = StatusActive /\ info = sealed v nonce p aad.
Proof.
  intros Hi Hl -> He. destruct (loaded_ring _ _ _ _ Hi Hl) as (vs & -> & (Hval & _ & Hc) & -> & Hfrom & _).
  destruct (active_loop_exists vs ltac:(lia)) as (v & Ha). destruct (active_loop_Ok _ _ Ha) as [Hin Hst].
  destruct (Hfrom v Hin) as (k & row & Hk & Hcl & Ho). exists k, row, v. split_and!; try done.
  - destruct Ho as (_ & <- & _). done.
  - rewrite (Encrypt_active _ v) in He; [by injection He as <- | done | by eapply opens_row_uint32 |].
    by apply (proj1 (Forall_forall _ _) Hval).
Qed.

Lemma sealed_to_proto v nonce p aad :
  uint32 (Version (Ref v)) -> KeyVersion_Validate v = Ok tt ->
  wrappedBlobToProto (sealed v nonce p aad)
  = Some (mkWrappedBlob (Ciphertext (sealed v nonce p aad)) nonce (Some (Ref v)) BlobMechanismAES256GCM) /\
  protoToBlobInfo (wrappedBlobToProto (sealed v nonce p aad)) = sealed v nonce p aad.
Proof.
  intros Hu Hv. unfold wrappedBlobToProto, sealed. simpl.
  rewrite ParseKeyRef_String_ok; [done|]. apply KeyRef_Validate_Ok; [done|]. by apply KeyVersion_Validate_len.
Qed.
(** A blob sealed by an active version is opened by every ring loaded later. *)
Lemma decrypts_later db db' ctx cluster k row v ring nonce p aad :
  keys_inv db -> keys_inv db' -> store_le db db' -> key_versions db !! k = Some row ->
  kvr_status row = StatusActive -> opens_row k row v -> len nonce = NonceSize -> cluster = k.1.1 ->
  @LoadKeyring DB SQLite_Repository DevelopmentProtector ctx db' cluster = Ok ring ->
  Decrypt ctx (Some ring) (Some (sealed v nonce p aad)) aad = Ok p.
Proof.
  intros Hi Hi' Hle Hk Hact Ho Hlen -> Hl.
  pose proof (opens_row_uint32 _ _ _ _ Hi Hk Ho) as Hu32. destruct Ho as (Href & _ & Hmat & Hpol & Hval).
  destruct (le_keys _ _ Hle k row Hk) as (st & Hk5 & Hstat).
  destruct (loaded_ring _ _ _ _ Hi' Hl) as (vs2 & -> & (_ & Hnd & _) & -> & _ & Hto).
  destruct (Hto k _ Hk5 eq_refl) as (v' & Hv' & Href' & Hst' & Hmat' & Hpol' & Hval').
  simpl in Hst', Hmat', Hpol'.
  assert (canDecrypt v' = true) as Hcan.
  { unfold canDecrypt. rewrite Hst'. rewrite Hact in Hstat. unfold status_le in Hstat.
    destruct Hstat as [->|[[Hx _]|[_ ->]]]; done. }
  erewrite Decrypt_sealed; try done; [|congruence..]. by rewrite Hcan.
Qed.

(** What [Wrap] returned is sealed by a version that was active when it was loaded. *)
Lemma Wrap_sealed s env wreq b blob pd b1 nonce :
  env_typed env -> store_inv (b_db b) -> e_seal_random env = Ok nonce -> len nonce = NonceSize ->
  @Wrap _ DevelopmentProtector _ _ s env (Some wreq) b = (mkWrapResponse (Some blob) pd, b1) ->
  exists k row v db, steps (b_db b) db /\ steps db (b_db b1) /\ store_inv db /\
    key_versions db !! k = Some row /\ kvr_status row = StatusActive /\ opens_row k row v /\ uint32 (Version (Ref v)) /\
    wb_Key blob = Some (Ref v) /\ wb_Mechanism blob = BlobMechanismAES256GCM /\
    protoToBlobInfo (Some blob) = sealed v nonce (wq_Plaintext wreq) (wq_Aad wreq).
Proof.
  intros He Hi Hnonce Hlen Hw.
  destruct (Wrap_blob _ _ _ _ _ _ _ Hw) as (vf & ref1 & d & db4 & ring & info & _ & _ & Hev & Hd & _ & Hl & Henc & Hblob & Hb1).
  pose proof (steps_trans _ _ _ (steps_at env AtRef (b_db b) He)
    (steps_evaluate env (sv_policy s) (wrap_policy_request vf ref1 wreq) (at_ env AtRef (b_db b)) He int32_wrap)) as Hs4.
  rewrite Hev in Hs4. pose proof (steps_trans _ _ _ Hs4 (steps_at env AtLoad db4 He)) as HsL.
  destruct (steps_le _ _ Hi HsL) as [_ HiL].
  destruct (encrypted_sealed _ _ _ _ _ _ _ _ _ (si_keys _ HiL) Hl Hnonce Henc) as (k & row & v & Hk & Hcl & Ho & Hact & ->).
  pose proof (opens_row_uint32 _ _ _ _ (si_keys _ HiL) Hk Ho) as Hu32.
  pose proof Ho as (Href & _ & _ & _ & Hval).
  destruct (sealed_to_proto v nonce (wq_Plaintext wreq) (wq_Aad wreq) Hu32 Hval) as [Hp1 Hp2].
  rewrite Hblob in Hp1, Hp2. injection Hp1 as ->. exists k, row, v, (at_ env AtLoad db4). split_and!; try done.
  rewrite Hb1. by apply (steps_audit env _ _ _ _ _ _ (mkBroker (at_ env AtLoad db4) (b_file b))).
Qed.

(** The answer of [Unwrap] when all its parts succeed. *)
Lemma Unwrap_answer s env req b verified ref p :
  verifier_of s (uq_Evidence req) = Ok verified -> keyRefFromProto (GetKey (uq_Blob req)) = Ok ref ->
  let ev := evaluate env (sv_policy s) (unwrap_request verified ref req) (b_db b) in
  Allowed ev.1 = true ->
  (exists ring, @LoadKeyring DB SQLite_Repository DevelopmentProtector (e_ctx env) (at_ env AtLoad ev.2) (ClusterID ref) = Ok ring /\
     Decrypt (e_ctx env) (Some ring) (Some (protoToBlobInfo (uq_Blob req))) (uq_Aad req) = Ok p) ->
  (@Unwrap _ DevelopmentProtector _ _ s env (Some req) b).1
  = mkUnwrapResponse p (Proto (Allow (pe_policyID (sv_policy s)))).
Proof.
  intros Hver Href ev Ha (ring & Hl & Hd). unfold Unwrap, evidenceSubject.
  unfold verifier_of in Hver. rewrite Hver. cbn -[evaluate LoadKeyring loadKeyring auditDecision Decrypt keyRefFromProto].
  rewrite Href. fold (unwrap_request verified ref req). fold ev. destruct ev as [d db] eqn:E. simpl in Ha, Hl.
  rewrite Ha. cbn [negb]. unfold loadKeyring. rewrite Hl, Hd. simpl.
  by rewrite (evaluate_Allow _ _ _ _ _ _ E Ha).
Qed.
End WrapUnwrap.

(** Availability across rotations: what [Wrap] sealed, [Unwrap] opens to the
    same plaintext after any sequence of store operations, rotations included,
    whenever the policy engine allows the unwrapping request and the keyring of
    the blob's cluster still loads. *)
Theorem wrap_rotate_unwrap `{AEADLaws, ProtoLib, Hashes} s env wreq b blob pd b1 nonce ops s2 env2 ureq verified ref :
  env_typed env -> reachable (b_db b) -> e_seal_random env = Ok nonce -> len nonce = NonceSize ->
  @Wrap _ DevelopmentProtector _ _ s env (Some wreq) b = (mkWrapResponse (Some blob) pd, b1) ->
  Forall op_typed ops -> env_typed env2 ->
  uq_Blob ureq = Some blob -> uq_Aad ureq = wq_Aad wreq ->
  let b2 := mkBroker (run ops (b_db b1)) (b_file b1) in
  verifier_of s2 (uq_Evidence ureq) = Ok verified -> wb_Key blob = Some ref ->
  let ev := evaluate env2 (sv_policy s2) (unwrap_request verified ref ureq) (b_db b2) in
  Allowed ev.1 = true ->
  is_ok (@LoadKeyring DB SQLite_Repository DevelopmentProtector (e_ctx env2) (at_ env2 AtLoad ev.2) (ClusterID ref)) = true ->
  (@Unwrap _ DevelopmentProtector _ _ s2 env2 (Some ureq) b2).1
  = mkUnwrapResponse (wq_Plaintext wreq) (Proto (Allow (pe_policyID (sv_policy s2)))).
Proof.
  intros He Hr Hnonce Hlen Hw Hops He2 Eb Ea b2 Hver Hkey ev Hallow Hload.
  destruct (Wrap_sealed _ _ _ _ _ _ _ _ He (reachable_inv _ Hr) Hnonce Hlen Hw)
    as (k & row & v & db & _ & Hs1 & HiL & Hk & Hact & Ho & Hu32 & Hk2 & _ & Hp2).
  rewrite Hk2 in Hkey. injection Hkey as <-. pose proof Ho as (Href & _ & _ & _ & Hval).
  pose proof (steps_trans _ _ _ Hs1 (ex_intro _ ops (conj Hops eq_refl))) as Hs2.
  pose proof (steps_evaluate env2 (sv_policy s2) (unwrap_request verified (Ref v) ureq) (b_db b2) He2 int32_unwrap) as Hs3.
  pose proof (steps_trans _ _ _ (steps_trans _ _ _ Hs2 Hs3) (steps_at env2 AtLoad ev.2 He2)) as Hs5.
  destruct (steps_le _ _ HiL Hs5) as [Hle Hi5].
  apply (Unwrap_answer s2 env2 ureq b2 verified (Ref v)); [done | | done |].
  { rewrite Eb. unfold keyRefFromProto, GetKey. rewrite Hk2. simpl. by rewrite (proj2 (KeyVersion_Validate_len v Hval)). }
  fold ev. destruct (LoadKeyring _ _ _) as [ring2|] eqn:El2; [|done]. exists ring2. split; [done|].
  rewrite Eb, Hp2, Ea. eapply (decrypts_later _ _ _ (ClusterID (Ref v)) k row); try done; [by apply si_keys.. | by rewrite Href].
Qed.

Definition example_blob_out : WrappedBlob :=
  match wp_Blob (example_wrap quiet).1 with Some blob => blob | None => mkWrappedBlob "" "" None 0 end.
Definition example_rotation : list store_op :=
  [OStartRotation 0 example_start; OActivateRotation 0 "op-1" example_time].

Lemma wrap_rotate_unwrap_witness :
  (@Unwrap toy_AEAD DevelopmentProtector toy_ProtoLib toy_Hashes example_service (example_env quiet)
     (Some example_unwrap_request)
     (mkBroker (run example_rotation (b_db example_wrapped)) (b_file example_wrapped))).1
  = mkUnwrapResponse "root key" (Proto (Allow "policy-1")).
Proof.
  apply (@wrap_rotate_unwrap toy_AEAD toy_AEADLaws toy_ProtoLib toy_Hashes example_service (example_env quiet)
    example_wrap_request example_broker example_blob_out (wp_Decision (example_wrap quiet).1) example_wrapped
    "nonce-nonce-" example_rotation example_service (example_env quiet) example_unwrap_request
    (mkVerifiedEvidence "openbao-0" no_workload) (mkKeyRef "cluster-a" "root" 1)).
  - exact quiet_typed.
  - exact example_broker_reachable.
  - reflexivity.
  - reflexivity.
  - vm_compute. reflexivity.
  - repeat constructor; vm_compute; congruence.
  - exact quiet_typed.
  - vm_compute. reflexivity.
  - reflexivity.
  - vm_compute. reflexivity.
  - vm_compute. reflexivity.
  - vm_compute. reflexivity.
  - vm_compute. reflexivity.
Defined.

(** When no other request runs between the policy decision and the loading of
    the keyring, the blob that [Wrap] returns is sealed under exactly the key
    version that the policy checked and the audit names; that is the version the
    client asked for, when it asked for one. *)
Theorem wrap_uses_checked_key `{AEADLaws, ProtoLib, Hashes} s env wreq b blob pd b' nonce :
  env_typed env -> reachable (b_db b) -> e_others env AtLoad = [] ->
  e_seal_random env = Ok nonce -> len nonce = NonceSize ->
  @Wrap _ DevelopmentProtector _ _ s env (Some wreq) b = (mkWrapResponse (Some blob) pd, b') ->
  exists ref verified d db, wb_Key blob = Some ref /\
    (forall r, wq_RequestedKey wreq = Some r -> Version r <> 0 -> r = ref) /\
    evaluate env (sv_policy s) (wrap_policy_request verified ref wreq) (at_ env AtRef (b_db b)) = (d, db) /\
    Allowed d = true /\
    b' = (auditDecision env (vf_Subject verified) OPERATION_WRAP (ClusterID ref)
            (mkKeyRefView (KeyID ref) (Version ref)) d (wq_Evidence wreq) (mkBroker db (b_file b))).2.
Proof.
  intros He Hr Hq Hnonce Hlen Hw.
  destruct (Wrap_blob _ _ _ _ _ _ _ Hw) as (vf & ref & d & db4 & ring & info & _ & Href & Hev & Hd & _ & Hl & Henc & Hblob & Hb1).
  assert (at_ env AtLoad db4 = db4) as Hload by (unfold at_; by rewrite Hq).
  rewrite Hload in *. pose proof (reachable_inv _ Hr) as Hi.
  pose proof (steps_trans _ _ _ (steps_at env AtRef (b_db b) He)
    (steps_evaluate env (sv_policy s) (wrap_policy_request vf ref wreq) (at_ env AtRef (b_db b)) He int32_wrap)) as Hs4.
  rewrite Hev in Hs4. destruct (steps_le _ _ Hi Hs4) as [_ Hi4]. pose proof (si_keys _ Hi4) as Hk4. simpl in Hk4.
  destruct (encrypted_sealed _ _ _ _ _ _ _ _ _ Hk4 Hl Hnonce Henc) as (k & row & v & Hk & Hcl & Ho & Hact & ->).
  pose proof (opens_row_uint32 _ _ _ _ Hk4 Hk Ho) as Hu32. pose proof Ho as (Hrv & _ & _ & _ & Hval).
  destruct (sealed_to_proto v nonce (wq_Plaintext wreq) (wq_Aad wreq) Hu32 Hval) as [Hp1 _].
  rewrite Hblob in Hp1. injection Hp1 as ->. exists ref, vf, d, db4.
  split; [|split; [|by split_and!]].
  - simpl. f_equal. apply (evaluate_Allowed _ _ _ _ _ _ Hev) in Hd as (_ & _ & _ & _ & dbc & key & _ & _ & Hkey & Hst & _).
    simpl in Hkey, Hst. rewrite Hrv. eapply (active_row_unique db4 (ClusterID ref) ring); try done.
    unfold store_ProtectedKey in Hkey. inv_ok. eexists. split; [done|]. by apply Hst.
  - intros r Hreq Hne. unfold wrapKeyRef in Href. rewrite Hreq in Href.
    destruct (Z.eqb_spec (Version r) 0); [done|]. cbn [negb] in Href.
    unfold keyRefFromProto in Href. destruct (KeyRef_Validate r); simpl in Href; by injection Href as <-.
Qed.

Lemma wrap_uses_checked_key_witness :
  exists ref, wb_Key example_blob_out = Some ref /\ ref = mkKeyRef "cluster-a" "root" 1.
Proof.
  destruct (@wrap_uses_checked_key toy_AEAD toy_AEADLaws toy_ProtoLib toy_Hashes example_service (example_env quiet)
    example_wrap_request example_broker example_blob_out (wp_Decision (example_wrap quiet).1) example_wrapped
    "nonce-nonce-") as (ref & vf & d & db & H1 & _).
  - exact quiet_typed.
  - exact example_broker_reachable.
  - reflexivity.
  - reflexivity.
  - reflexivity.
  - vm_compute. reflexivity.
  - exists ref. split; [exact H1|]. vm_compute in H1. injection H1 as H1. symmetry. exact H1.
Defined.

(** The rotation completes between the policy decision and the keyring load. *)
Definition racing : point -> list store_op :=
  fun p => match p with AtLoad => example_rotation | _ => [] end.

(** Without that atomicity the audit can name the wrong key: when a rotation
    is activated between the policy decision and the keyring load, [Wrap] is
    allowed for version 1, seals under version 2, which the policy never checked,
    and records version 1 in the audit file and table. *)
Theorem wrap_race_misreports_key :
  env_typed (example_env racing) /\ reachable (b_db example_broker) /\
  wb_Key (default example_blob_out (wp_Blob (example_wrap racing).1)) = Some (mkKeyRef "cluster-a" "root" 2) /\
  wp_Blob (example_wrap racing).1 <> None /\
  (fun e => (ae_KeyID e, ae_KeyVersion e, ae_Decision e)) <$> b_file (example_wrap racing).2
  = [("root", 1, "POLICY_DECISION_STATE_ALLOW")%string] /\
  (fun e => ae_KeyVersion e) <$> AuditEvents (b_db (example_wrap racing).2) = [1].
Proof.
  split; [intros p; destruct p; repeat constructor; vm_compute; congruence|].
  split; [exact example_broker_reachable|]. split; [vm_compute; reflexivity|].
  split; [vm_compute; congruence|]. split; vm_compute; reflexivity.
Qed.

(** ** The audit trail *)

Section Audit.
Context `{AEAD, Protector, ProtoLib, Hashes}.

(** The audit sinks work. *)
Definition audit_works (env : Env) : Prop :=
  e_ctx env = Ok tt /\ e_audit_io env = Ok tt /\ exists r, e_audit_random env = Ok r.

Lemma audit_file env subject op c ref d ev b :
  audit_works env ->
  exists event, b_file (auditDecision env subject op c ref d ev b).2 = b_file b ++ [event] /\
    ae_Subject event = subject /\ ae_Operation event = Operation_String op /\ ae_ClusterID event = c /\
    ae_KeyID event = kv_KeyID ref /\ ae_KeyVersion event = kv_Version ref /\
    ae_Decision event = PolicyDecisionState_String (d_State d) /\ ae_Reason event = d_Reason d.
Proof.
  intros (H1' & H2' & r & H3'). unfold auditDecision, newAuditEvent, randomID. rewrite H3'. cbn [map_err mbind result_bind].
  simpl. unfold audit_Write. rewrite H1', H2'. eexists. by split_and!.
Qed.

End Audit.

(** C40: the audit trail of [Unwrap].  While the audit sinks work, every request but
    the missing one, which is denied without a trace, appends exactly one record, with
    its verified subject and the decision and reason that it answered, except in one
    case: when the policy allowed and then the keyring could not be loaded or the blob
    not be decrypted, the request is denied as internal, its challenge is spent and no
    record is written, although the threat model asks to audit every key release
    decision.  Plaintext is never released without a record. *)
Theorem unwrap_audited_or_failed_late `{AEAD, Protector, ProtoLib, Hashes} s env req b p pd b' :
  env_typed env -> reachable (b_db b) -> audit_works env ->
  Unwrap s env req b = (mkUnwrapResponse p pd, b') ->
  match req with
  | None => b' = b /\ p = EmptyString /\
      pd = Proto (Deny (Config_Policy (sv_config s)) ERROR_CODE_INVALID_REQUEST "unwrap request is required")
  | Some req =>
      (exists event d, b_file b' = b_file b ++ [event] /\ pd = Proto d /\ ae_Operation event = "OPERATION_UNWRAP"%string /\
         ae_Subject event = vf_Subject (evidenceSubject s (uq_Evidence req)).1 /\
         ae_Decision event = PolicyDecisionState_String (d_State d) /\ ae_Reason event = d_Reason d) \/
      (b_file b' = b_file b /\ p = EmptyString /\ spent (b_db b') (GetChallengeId (uq_Evidence req)) /\
       (pd = Proto (Deny (Config_Policy (sv_config s)) ERROR_CODE_INTERNAL "keyring load failed") \/
        pd = Proto (Deny (Config_Policy (sv_config s)) ERROR_CODE_INTERNAL "unwrap failed")))
  end.
Proof.
  intros He Hr Hw. unfold Unwrap. destruct req as [req|]; [|by intros [= <- <- <-]].
  destruct (evidenceSubject s (uq_Evidence req)) as [vf d0]. cbn [fst].
  assert (forall c ref d b0, b_file b0 = b_file b -> exists event d',
    b_file (auditDecision env (vf_Subject vf) OPERATION_UNWRAP c ref d (uq_Evidence req) b0).2 = b_file b ++ [event] /\ Proto d = Proto d' /\ ae_Operation event = "OPERATION_UNWRAP"%string /\
    ae_Subject event = vf_Subject vf /\ ae_Decision event = PolicyDecisionState_String (d_State d') /\
    ae_Reason event = d_Reason d') as Haud.
  { intros c ref d b0 <-. destruct (audit_file env (vf_Subject vf) OPERATION_UNWRAP c ref d (uq_Evidence req) b0 Hw) as (ev0 & Hf & Hsub & Ho & _ & _ & _ & Hd & Hre). exists ev0, d. by rewrite Hf. }
  case_goal; [intros [= <- <- <-]; left; by apply Haud|].
  destruct (keyRefFromProto (GetKey (uq_Blob req))) as [ref|].
  2:{ intros [= <- <- <-]. left. by apply Haud. }
  fold (unwrap_request vf ref req).
  destruct (evaluate env (sv_policy s) (unwrap_request vf ref req) (b_db b)) as [d db4] eqn:Ee.
  destruct (Allowed d) eqn:A; cbn [negb]; [|intros [= <- <- <-]; left; by apply Haud].
  assert (spent (at_ env AtLoad db4) (GetChallengeId (uq_Evidence req))) as Hsp by (eapply allowed_spent; [exact He | by apply reachable_inv | exact Ee | exact A]).
  destruct (loadKeyring _ _ _) as [ring|]; [destruct (Decrypt _ _ _ _) as [q|]|]; intros [= <- <- <-].
  - left. by apply Haud.
  - right. split_and!; auto.
  - right. split_and!; auto.
Qed.

Lemma unwrap_audited_or_failed_late_witness :
  exists event, b_file example_unwrap.2 = b_file example_wrapped ++ [event] /\
    ae_Operation event = "OPERATION_UNWRAP"%string.
Proof.
  destruct (@unwrap_audited_or_failed_late toy_AEAD DevelopmentProtector toy_ProtoLib toy_Hashes example_service
    (example_env quiet) (Some example_unwrap_request) example_wrapped (up_Plaintext example_unwrap.1)
    (up_Decision example_unwrap.1) example_unwrap.2 quiet_typed example_wrapped_reachable)
    as [(event & d & Hf & _ & Ho & _)|(_ & Hp & _)].
  - split; [reflexivity|]. split; [reflexivity|]. eexists. reflexivity.
  - unfold example_unwrap. destruct (Unwrap _ _ _ _) as [[p pd] b']. reflexivity.
  - exists event. split; [exact Hf | exact Ho].
  - exfalso. vm_compute in Hp. discriminate Hp.
Defined.
