(* ===== verification/KmsConfig.v ===== *)
(** * The seal wrapper's configuration (internal/kmsplugin/config.go, internal/config/kubernetes.go)

    The string map of OpenBao's seal stanza becomes a typed configuration or an error.
    Go iterates over a map in no particular order: the map is the list of its entries
    in the order one iteration takes, and the outcome is shown not to depend on it. *)

From S2P Require Import Prelude GoStrings Keyring KeyProtection.
From Stdlib Require Import Ascii.
Local Open Scope Z_scope.

Definition ErrInvalidParameter : error := sentinel "wrapping.ErrInvalidParameter" "invalid parameter".
Definition wrappingConfigError : error := errorp "invalid parameter" ErrInvalidParameter.

(** [fmt.Errorf("what: %w", wrappingConfigError())]. *)
Definition config_error (what : string) : error := errorp what wrappingConfigError.

Definition configKeyMode : string := "mode".
Definition configKeyBrokerAddress : string := "broker_addr".
Definition configKeyBrokerPlaintext : string := "broker_plaintext".
Definition configKeyBrokerCACert : string := "broker_ca_cert".
Definition configKeyBrokerTLSServerName : string := "broker_tls_server_name".
Definition configKeyBrokerClientCert : string := "broker_client_cert".
Definition configKeyBrokerClientKey : string := "broker_client_key".
Definition configKeyClusterID : string := "cluster_id".
Definition configKeyKeyID : string := "key_id".
Definition configKeyKeyVersion : string := "key_version".
Definition configKeyNodeID : string := "node_id".
Definition configKeyPolicyID : string := "policy_id".
Definition configKeyEvidenceMode : string := "evidence_mode".
Definition configKeyKubernetesTokenFile : string := "kubernetes_token_file".
Definition configKeyStatePath : string := "state_path".
Definition configKeyTPMDevice : string := "tpm_device".

Definition ModeBroker : string := "broker".
Definition ModeLocalTPM : string := "local-tpm".
Definition EvidenceModeDevelopmentSubject : string := "development-subject".
Definition EvidenceModeKubernetesWorkload : string := "kubernetes-workload".

Record KmsConfig := mkKmsConfig {
  k_Mode : string;
  k_BrokerAddress : string;
  k_BrokerPlaintext : bool;
  k_BrokerCACertPath : string;
  k_BrokerTLSServerName : string;
  k_BrokerClientCertPath : string;
  k_BrokerClientKeyPath : string;
  k_ClusterID : string;
  k_KeyID : string;
  k_KeyVersion : Z;
  k_NodeID : string;
  k_PolicyID : string;
  k_EvidenceMode : string;
  k_KubernetesTokenFile : string;
  k_StatePath : string;
  k_TPMDevice : string;
}.

(** [Config{}]. *)
Definition zero_kms_config : KmsConfig :=
  mkKmsConfig EmptyString EmptyString false EmptyString EmptyString EmptyString EmptyString EmptyString EmptyString 0
    EmptyString EmptyString EmptyString EmptyString EmptyString EmptyString.

Definition known_keys : list string :=
  [configKeyMode; configKeyBrokerAddress; configKeyClusterID;
   configKeyBrokerPlaintext; configKeyBrokerCACert; configKeyBrokerTLSServerName;
   configKeyBrokerClientCert; configKeyBrokerClientKey;
   configKeyKeyID; configKeyKeyVersion; configKeyPolicyID;
   configKeyNodeID; configKeyEvidenceMode; configKeyKubernetesTokenFile;
   configKeyStatePath; configKeyTPMDevice].

Definition knownConfigKey (key : string) : bool := existsb (String.eqb key) known_keys.

Definition BrokerEvidenceMode (c : KmsConfig) : string :=
  if String.eqb (k_EvidenceMode c) EmptyString then EvidenceModeDevelopmentSubject else k_EvidenceMode c.

Definition validateBrokerEvidenceMode (c : KmsConfig) : result unit :=
  check (String.eqb (BrokerEvidenceMode c) EvidenceModeDevelopmentSubject ||
         String.eqb (BrokerEvidenceMode c) EvidenceModeKubernetesWorkload)
    (config_error ("evidence_mode must be " +:+ quoted EvidenceModeDevelopmentSubject +:+ " or " +:+
                   quoted EvidenceModeKubernetesWorkload)).

Definition validateBrokerConfig (c : KmsConfig) : result unit :=
  check (negb (String.eqb (k_BrokerAddress c) EmptyString)) (config_error "broker_addr is required");;
  check (negb (String.eqb (k_NodeID c) EmptyString)) (config_error "node_id is required for broker");;
  check (Bool.eqb (String.eqb (k_BrokerClientCertPath c) EmptyString) (String.eqb (k_BrokerClientKeyPath c) EmptyString))
    (config_error "broker_client_cert and broker_client_key must be configured together");;
  validateBrokerEvidenceMode c.

Definition validateLocalTPMConfig (c : KmsConfig) : result unit :=
  check (negb (String.eqb (k_StatePath c) EmptyString)) (config_error "state_path is required");;
  check (negb (String.eqb (k_KeyID c) EmptyString)) (config_error "key_id is required for local-tpm").

(** [if value != "" { ValidateIdentifier(value) }]. *)
Definition optional_identifier (what value : string) : result unit :=
  if String.eqb value EmptyString then Ok tt else map_err (errorp ("invalid " +:+ what)) (ValidateIdentifier value).

Definition KmsConfig_Validate (c : KmsConfig) : result unit :=
  (if String.eqb (k_Mode c) ModeBroker then validateBrokerConfig c
   else if String.eqb (k_Mode c) ModeLocalTPM then validateLocalTPMConfig c
   else Err (config_error ("mode must be " +:+ quoted ModeBroker +:+ " or " +:+ quoted ModeLocalTPM)));;
  map_err (errorp "invalid cluster_id") (ValidateIdentifier (k_ClusterID c));;
  optional_identifier "key_id" (k_KeyID c);;
  optional_identifier "node_id" (k_NodeID c);;
  optional_identifier "policy_id" (k_PolicyID c).

(** [values[key]]: empty when absent. *)
Fixpoint value_of (values : list (string * string)) (key : string) : string :=
  match values with
  | [] => EmptyString
  | (k, v) :: r => if String.eqb k key then v else value_of r key
  end.
Definition trimmed (values : list (string * string)) (key : string) : string := TrimSpace (value_of values key).

(** [strconv.ParseBool]. *)
Definition ParseBool (s : string) : option bool :=
  if existsb (String.eqb s) ["1"; "t"; "T"; "TRUE"; "true"; "True"]%string then Some true
  else if existsb (String.eqb s) ["0"; "f"; "F"; "FALSE"; "false"; "False"]%string then Some false
  else None.

(** The loop over the keys: the first unknown one is reported. *)
Definition check_known (values : list (string * string)) : result unit :=
  foldR (fun _ e => check (knownConfigKey e.1)
                      (config_error ("unknown attested unseal config key " +:+ quoted e.1))) tt values.

Definition parseConfig (values : list (string * string)) : result KmsConfig :=
  check_known values;;
  let get := trimmed values in
  plaintext ← (if String.eqb (get configKeyBrokerPlaintext) EmptyString then Ok false
               else of_option (config_error "invalid broker_plaintext") (ParseBool (get configKeyBrokerPlaintext)));
  version ← (if String.eqb (get configKeyKeyVersion) EmptyString then Ok 0
             else of_option (config_error "invalid key_version") (ParseUint32 (get configKeyKeyVersion)));
  let config := mkKmsConfig (get configKeyMode) (get configKeyBrokerAddress) plaintext (get configKeyBrokerCACert)
    (get configKeyBrokerTLSServerName) (get configKeyBrokerClientCert) (get configKeyBrokerClientKey)
    (get configKeyClusterID) (get configKeyKeyID) version (get configKeyNodeID) (get configKeyPolicyID)
    (get configKeyEvidenceMode) (get configKeyKubernetesTokenFile) (get configKeyStatePath) (get configKeyTPMDevice) in
  KmsConfig_Validate config;;
  Ok config.

(** Empty without a key ID or a version. *)
Definition ConfiguredKeyID (c : KmsConfig) : string :=
  if String.eqb (k_KeyID c) EmptyString || (k_KeyVersion c =? 0) then EmptyString
  else KeyRef_String (mkKeyRef (k_ClusterID c) (k_KeyID c) (k_KeyVersion c)).

(** ** Kubernetes defaults *)

Definition KubernetesServiceAccountTokenPath : string := "/var/run/secrets/kubernetes.io/serviceaccount/token".
Definition KubernetesServiceAccountCAPath : string := "/var/run/secrets/kubernetes.io/serviceaccount/ca.crt".

(** [net.JoinHostPort]: a host with a colon is bracketed. *)
Definition JoinHostPort (host port : string) : string :=
  if string_forall (fun c => negb (Ascii.eqb c ":")) host then host +:+ ":" +:+ port
  else "[" +:+ host +:+ "]:" +:+ port.

(** [env] is the environment of the process. *)
Definition KubernetesAPIServer (env : string -> string) (explicit : string) : result string :=
  if negb (String.eqb (TrimSpace explicit) EmptyString) then Ok (TrimSpace explicit)
  else
    let host := TrimSpace (env "KUBERNETES_SERVICE_HOST"%string) in
    check (negb (String.eqb host EmptyString))
      (errorf "kubernetes.api_server is required outside an in-cluster environment");;
    let port := TrimSpace (env "KUBERNETES_SERVICE_PORT"%string) in
    let port := if String.eqb port EmptyString then "443"%string else port in
    Ok ("https://" +:+ JoinHostPort host port).

Definition KubernetesBearerTokenFile (explicit : string) : string :=
  if negb (String.eqb (TrimSpace explicit) EmptyString) then TrimSpace explicit else KubernetesServiceAccountTokenPath.

(** [exists_] is whether a file exists. *)
Definition KubernetesCAFile (exists_ : string -> bool) (explicit : string) : string :=
  if negb (String.eqb (TrimSpace explicit) EmptyString) then TrimSpace explicit
  else if exists_ KubernetesServiceAccountCAPath then KubernetesServiceAccountCAPath else EmptyString.

(** ** What a parsed configuration guarantees *)

Lemma value_of_elem values key :
  value_of values key = EmptyString \/ (key, value_of values key) ∈ values.
Proof.
  induction values as [|[k v] values IH]; [by left|]. cbn [value_of]. destruct (String.eqb_spec k key) as [->|]; [right; left|].
  destruct IH as [IH|IH]; [by left | right; by right].
Qed.

(** A Go map has each key once: what is looked up does not depend on the order. *)
Lemma value_of_lookup values key v : NoDup values.*1 -> (key, v) ∈ values -> value_of values key = v.
Proof.
  induction values as [|[k w] values IH]; intros Hnd Hin; [by apply not_elem_of_nil in Hin|]. cbn [value_of].
  rewrite fmap_cons in Hnd. apply NoDup_cons in Hnd as [Hn Hnd]. apply elem_of_cons in Hin as [[= -> ->]|Hin]; [by rewrite String.eqb_refl|].
  destruct (String.eqb_spec k key) as [->|]; [|by apply IH]. exfalso. apply Hn. apply (list_elem_of_fmap_2 fst) in Hin. exact Hin.
Qed.

Lemma value_of_absent values key : key ∉ values.*1 -> value_of values key = EmptyString.
Proof.
  destruct (value_of_elem values key) as [|Hin]; [done|]. intros Hn. exfalso. apply Hn. apply (list_elem_of_fmap_2 fst) in Hin. exact Hin.
Qed.

Lemma value_of_perm values values' key : NoDup values.*1 -> values ≡ₚ values' -> value_of values key = value_of values' key.
Proof.
  intros Hnd Hp. assert (NoDup values'.*1) as Hnd' by (by rewrite <- Hp).
  destruct (decide (key ∈ values.*1)) as [Hin|Hn].
  - apply list_elem_of_fmap in Hin as ([k v] & -> & Hin). cbn [fst].
    rewrite (value_of_lookup values k v), (value_of_lookup values' k v); [done | done | by rewrite <- Hp | done | done].
  - rewrite !value_of_absent; [done | by rewrite <- Hp | done].
Qed.

Lemma check_known_Ok values : check_known values = Ok tt <-> Forall (fun e => knownConfigKey e.1 = true) values.
Proof.
  unfold check_known. induction values as [|e values IH]; [done|]. cbn [foldR]. rewrite Forall_cons. destruct (knownConfigKey e.1); cbn.
  - rewrite IH. tauto.
  - split; [done | by intros [? _]].
Qed.

(** Whether and to what a configuration parses does not depend on the order in which
    Go iterates over the map. *)
Theorem parseConfig_order_irrelevant values values' c :
  NoDup values.*1 -> values ≡ₚ values' -> parseConfig values = Ok c -> parseConfig values' = Ok c.
Proof.
  intros Hnd Hp. unfold parseConfig. intros H. apply bind_Ok in H as ([] & Hk & H). apply check_known_Ok in Hk. rewrite Hp in Hk.
  apply check_known_Ok in Hk. rewrite Hk. cbn [mbind result_bind].
  unfold trimmed in *. by rewrite <- !(value_of_perm values values' _ Hnd Hp).
Qed.

(** What [Validate] demands, mode by mode. *)
Definition broker_config_ok (c : KmsConfig) : Prop :=
  k_BrokerAddress c <> EmptyString /\ validIdentifier (k_NodeID c) = true /\
  (k_BrokerClientCertPath c = EmptyString <-> k_BrokerClientKeyPath c = EmptyString) /\
  (BrokerEvidenceMode c = EvidenceModeDevelopmentSubject \/ BrokerEvidenceMode c = EvidenceModeKubernetesWorkload).
Definition local_config_ok (c : KmsConfig) : Prop :=
  k_StatePath c <> EmptyString /\ validIdentifier (k_KeyID c) = true.
Definition optional_ok (s : string) : Prop := s = EmptyString \/ validIdentifier s = true.

Definition kms_config_ok (c : KmsConfig) : Prop :=
  (k_Mode c = ModeBroker /\ broker_config_ok c \/ k_Mode c = ModeLocalTPM /\ local_config_ok c) /\
  validIdentifier (k_ClusterID c) = true /\ optional_ok (k_KeyID c) /\ optional_ok (k_NodeID c) /\ optional_ok (k_PolicyID c).

Lemma optional_identifier_Ok what s : optional_identifier what s = Ok tt <-> optional_ok s.
Proof.
  unfold optional_identifier, optional_ok. destruct (String.eqb_spec s EmptyString) as [->|Hne]; [tauto|].
  rewrite map_err_Ok. unfold ValidateIdentifier. rewrite check_Ok. tauto.
Qed.

Lemma validateBrokerConfig_Ok c :
  optional_ok (k_NodeID c) -> validateBrokerConfig c = Ok tt <-> broker_config_ok c.
Proof.
  unfold validateBrokerConfig, broker_config_ok, validateBrokerEvidenceMode. intros Hn. split.
  - intros H. inv_ok. to_prop. destruct Hn as [?|?]; [done|].
    match goal with E : Bool.eqb _ _ = true |- _ => apply Bool.eqb_prop in E; rename E into He end.
    match goal with E : _ || _ = true |- _ => rewrite orb_true_iff, !String.eqb_eq in E end.
    split_and!; try done. rewrite <- !String.eqb_eq. by rewrite He.
  - intros (H1 & H2 & H3 & H4). rewrite (proj2 (String.eqb_neq _ _) H1). cbn [negb check mbind result_bind].
    destruct (String.eqb_spec (k_NodeID c) EmptyString) as [E|]; [by rewrite E in H2|]. cbn [negb check mbind result_bind].
    assert (Bool.eqb (String.eqb (k_BrokerClientCertPath c) EmptyString) (String.eqb (k_BrokerClientKeyPath c) EmptyString) = true) as ->.
    { apply Bool.eqb_true_iff, Bool.eq_iff_eq_true. rewrite !String.eqb_eq. done. }
    cbn [check mbind result_bind]. apply check_Ok, orb_true_iff. by rewrite !String.eqb_eq.
Qed.

Lemma validateLocalTPMConfig_Ok c :
  optional_ok (k_KeyID c) -> validateLocalTPMConfig c = Ok tt <-> local_config_ok c.
Proof.
  unfold validateLocalTPMConfig, local_config_ok. intros Hk. split.
  - intros H. inv_ok. to_prop. destruct Hk; [done|]. by split.
  - intros (H1 & H2). rewrite (proj2 (String.eqb_neq _ _) H1). cbn [negb check mbind result_bind].
    destruct (String.eqb_spec (k_KeyID c) EmptyString) as [E|]; [by rewrite E in H2 | done].
Qed.

Lemma KmsConfig_Validate_Ok c : KmsConfig_Validate c = Ok tt <-> kms_config_ok c.
Proof.
  unfold KmsConfig_Validate, kms_config_ok. split.
  - intros H. apply bind_Ok in H as ([] & Hm & H). apply bind_Ok in H as ([] & Hc & H). apply bind_Ok in H as ([] & Hk & H).
    apply bind_Ok in H as ([] & Hn & Hp). apply optional_identifier_Ok in Hk, Hn, Hp.
    apply map_err_Ok, check_Ok in Hc. split_and!; try done.
    destruct (String.eqb_spec (k_Mode c) ModeBroker) as [E|]; [left; split; [done|]; by apply validateBrokerConfig_Ok|].
    destruct (String.eqb_spec (k_Mode c) ModeLocalTPM) as [E|]; [right; split; [done|]; by apply validateLocalTPMConfig_Ok | done].
  - intros (Hm & Hc & Hk & Hn & Hp). unfold ValidateIdentifier. rewrite Hc.
    pose proof (proj2 (optional_identifier_Ok "key_id" _) Hk) as ->. pose proof (proj2 (optional_identifier_Ok "node_id" _) Hn) as ->.
    pose proof (proj2 (optional_identifier_Ok "policy_id" _) Hp) as ->. destruct Hm as [[-> Hm]|[-> Hm]].
    + rewrite (proj2 (validateBrokerConfig_Ok c Hn) Hm). done.
    + change (String.eqb ModeLocalTPM ModeBroker) with false. change (String.eqb ModeLocalTPM ModeLocalTPM) with true. cbv iota.
      by rewrite (proj2 (validateLocalTPMConfig_Ok c Hk) Hm).
Qed.

Lemma ParseUint32_bounds s n : ParseUint32 s = Some n -> 0 <= n <= uint32_max.
Proof.
  unfold ParseUint32. destruct s as [|c s]; [done|]. destruct (parse_digits (String c s) 0) as [v|] eqn:E; [|done].
  apply parse_digits_nonneg in E; [|done]. case_goal; [|done]. intros [= <-]. to_prop. lia.
Qed.

Lemma parseConfig_Ok values c :
  parseConfig values = Ok c ->
  kms_config_ok c /\ Forall (fun e => knownConfigKey e.1 = true) values /\ 0 <= k_KeyVersion c <= uint32_max /\
  k_Mode c = trimmed values configKeyMode /\ k_NodeID c = trimmed values configKeyNodeID /\
  k_BrokerPlaintext c = bool_decide (ParseBool (trimmed values configKeyBrokerPlaintext) = Some true).
Proof.
  unfold parseConfig. intros H. apply bind_Ok in H as ([] & Hk & H). apply bind_Ok in H as (plain & Hp & H).
  apply bind_Ok in H as (version & Hv & H). apply bind_Ok in H as ([] & Hval & [= <-]).
  apply KmsConfig_Validate_Ok in Hval. apply check_known_Ok in Hk. split; [done|]. split; [done|].
  cbn [k_KeyVersion k_Mode k_NodeID k_BrokerPlaintext]. split; [|split_and!; try done].
  - case_hyp Hv; [injection Hv as <-; unfold uint32_max; lia|]. apply of_option_Ok in Hv. by apply ParseUint32_bounds in Hv.
  - destruct (String.eqb_spec (trimmed values configKeyBrokerPlaintext) EmptyString) as [E|]; [rewrite E; by injection Hp as <-|].
    apply of_option_Ok in Hp. rewrite Hp. by destruct plain.
Qed.

(** C28: a configuration that parses is complete for its mode: known keys only, valid
    identifiers, a 32-bit version, a broker address, node and evidence mode for the
    broker and a state path and key for the local TPM, and plaintext transport only when
    the stanza says so. *)
Theorem parseConfig_sound values c :
  parseConfig values = Ok c ->
  kms_config_ok c /\ Forall (fun e => knownConfigKey e.1 = true) values /\ 0 <= k_KeyVersion c <= uint32_max /\
  (k_BrokerPlaintext c = true -> exists text, ParseBool (trimmed values configKeyBrokerPlaintext) = Some true /\
     (configKeyBrokerPlaintext, text) ∈ values).
Proof.
  intros H. destruct (parseConfig_Ok _ _ H) as (H1 & H2 & H3 & _ & _ & Hp).
  split; [done|]. split; [done|]. split; [done|]. rewrite Hp. intros Hb.
  apply bool_decide_eq_true in Hb. exists (value_of values configKeyBrokerPlaintext). split; [done|].
  destruct (value_of_elem values configKeyBrokerPlaintext) as [E|]; [|done]. unfold trimmed in Hb. by rewrite E in Hb.
Qed.

(** A stanza without a mode is refused, whatever else it says. *)
Lemma no_mode_refused values : configKeyMode ∉ values.*1 -> is_ok (parseConfig values) = false.
Proof.
  intros Hn. destruct (parseConfig values) as [c|] eqn:E; [|done]. exfalso.
  destruct (parseConfig_Ok _ _ E) as ((Hm & _) & _ & _ & Hmode & _). unfold trimmed in Hmode. rewrite value_of_absent in Hmode by done.
  rewrite Hmode in Hm. by destruct Hm as [[? _]|[? _]].
Qed.

Definition example_stanza : list (string * string) :=
  [(configKeyMode, "broker"); (configKeyBrokerAddress, " broker:8201 "); (configKeyClusterID, "cluster-a");
   (configKeyNodeID, "openbao-0"); (configKeyBrokerPlaintext, "true"); (configKeyKeyVersion, "7")]%string.
Definition example_kms_config : KmsConfig :=
  mkKmsConfig ModeBroker "broker:8201" true EmptyString EmptyString EmptyString EmptyString "cluster-a" EmptyString 7 "openbao-0"
    EmptyString EmptyString EmptyString EmptyString EmptyString.

Lemma parseConfig_order_irrelevant_witness : parseConfig (rev example_stanza) = Ok example_kms_config.
Proof.
  apply (parseConfig_order_irrelevant example_stanza).
  - apply (bool_decide_unpack _). vm_compute. reflexivity.
  - apply Permutation_rev.
  - vm_compute. reflexivity.
Defined.

Lemma parseConfig_sound_witness :
  kms_config_ok example_kms_config /\ Forall (fun e => knownConfigKey e.1 = true) example_stanza /\
  0 <= k_KeyVersion example_kms_config <= uint32_max /\
  (k_BrokerPlaintext example_kms_config = true ->
   exists text, ParseBool (trimmed example_stanza configKeyBrokerPlaintext) = Some true /\
     (configKeyBrokerPlaintext, text) ∈ example_stanza).
Proof. apply (parseConfig_sound example_stanza example_kms_config). vm_compute. reflexivity. Defined.
