(* ===== verification/KmsPlugin.v ===== *)
(** * The seal wrapper (internal/kmsplugin: wrapper.go, backend.go, broker.go, local_tpm.go)

    OpenBao's go-kms-wrapping interface over two backends: the broker, through the
    generated client, and a keyring in local TPM state.  Everything outside the
    process is a world [W] that the operations pass on; classes say what they use of
    it.  What the wrapping library extracts from its options is an argument. *)

From S2P Require Import Prelude GoStrings GoTime Keyring KeyProtection Tpm TpmSeal NodeEvidence LocalState Config.
From S2P Require Import Sql Store Challenges Policy Kubernetes EvidenceText Service KmsConfig.
Local Open Scope Z_scope.

(** ** backend.go *)

Definition ErrNotInitialized : error :=
  sentinel "kmsplugin.ErrNotInitialized" "attested unseal wrapper is not initialized".
Definition ErrBackendUnavailable : error :=
  sentinel "kmsplugin.ErrBackendUnavailable" "attested unseal backend is unavailable".

Record EncryptRequest := mkEncryptRequest { er_Plaintext : bytes; er_AAD : bytes; er_KeyID : string }.
Record DecryptRequest := mkDecryptRequest { dr_Blob : option BlobInfo; dr_AAD : bytes; dr_KeyID : string }.
Record BackendStatus := mkBackendStatus { bs_Ready : bool; bs_KeyID : string; bs_Mode : string }.

(** A call that may fail and that changes the world. *)
Definition call (W A : Type) : Type := W -> result A * W.

Section Calls.
Context {W : Type}.
Global Instance call_ret : MRet (call W) := fun A a w => (Ok a, w).
Global Instance call_bind : MBind (call W) := fun A B f m w =>
  match m w with (Ok a, w') => f a w' | (Err e, w') => (Err e, w') end.
Definition pure {A} (r : result A) : call W A := fun w => (r, w).
Definition wrap_error {A} (f : error -> error) (m : call W A) : call W A := fun w =>
  let '(r, w') := m w in (map_err f r, w').
End Calls.

(** The interface; the first argument of each is [ctx.Err()] on entry. *)
Record Backend (W : Type) := mkBackend {
  be_Encrypt : result unit -> EncryptRequest -> call W BlobInfo;
  be_Decrypt : result unit -> DecryptRequest -> call W bytes;
  be_KeyID : result unit -> call W string;
  be_Status : result unit -> call W BackendStatus;
  be_Close : result unit -> call W unit;
}.
Arguments mkBackend {W}.
Arguments be_Encrypt {W}.
Arguments be_Decrypt {W}.
Arguments be_KeyID {W}.
Arguments be_Status {W}.
Arguments be_Close {W}.

Definition unavailableBackend {W} (config : KmsConfig) : Backend W :=
  let unavailable {A} : call W A := pure (Err (errorw ErrBackendUnavailable "broker backend is not implemented")) in
  mkBackend (fun _ _ => unavailable) (fun _ _ => unavailable)
    (fun _ => pure (check (negb (String.eqb (ConfiguredKeyID config) EmptyString))
                      (errorw ErrBackendUnavailable "active broker key is unknown");; Ok (ConfiguredKeyID config)))
    (fun _ => mret (mkBackendStatus false (ConfiguredKeyID config) (k_Mode config)))
    (fun _ => mret tt).

(** ** wrapper.go *)

Definition WrapperType : string := "attested".

(** What [wrapping.GetOpts] extracts. *)
Record Options := mkOptions { o_ConfigMap : list (string * string); o_Aad : bytes; o_KeyId : string }.

Section Wrapper.
Context {W : Type}.

Definition backendFactory : Type := result unit -> KmsConfig -> call W (Backend W).

Record Wrapper := mkWrapper {
  w_config : KmsConfig;
  w_factory : option backendFactory;
  w_backend : option (Backend W);
}.

Definition NewWrapperWithFactory (factory : option backendFactory) : Wrapper := mkWrapper zero_kms_config factory None.

(** The methods read and write the wrapper and the world. *)
Definition method (A : Type) : Type := Wrapper * W -> result A * (Wrapper * W).

(** Run a call of the backend; the wrapper stays. *)
Definition of_call {A} (m : call W A) (w : Wrapper) : method A := fun s =>
  let '(r, world) := m s.2 in (r, (w, world)).

Definition newBackendLocked (ctx : result unit) (w : Wrapper) (config : KmsConfig) : call W (Backend W) :=
  match w_factory w with
  | None => pure (Err (errorw ErrBackendUnavailable "backend factory is missing"))
  | Some factory => factory ctx config
  end.

Definition currentBackend (w : Wrapper) : result (Backend W) := of_option ErrNotInitialized (w_backend w).

Definition wrapper_metadata (config : KmsConfig) (keyID : string) : list (string * string) :=
  [("broker_addr"%string, k_BrokerAddress config); ("cluster_id"%string, k_ClusterID config); ("key_id"%string, keyID);
   ("mode"%string, k_Mode config); ("state_path"%string, k_StatePath config); ("tpm_device"%string, k_TPMDevice config);
   ("type"%string, WrapperType)].

Definition SetConfig (ctx : result unit) (opts : result Options) : method (list (string * string)) := fun '(w, world) =>
  match opts ≫= (fun opts => parseConfig (o_ConfigMap opts)) with
  | Err e => (Err e, (w, world))
  | Ok config =>
      match w_backend w with
      | Some _ => (Err (errorp "wrapper is already initialized" ErrInvalidParameter), (w, world))
      | None =>
          match newBackendLocked ctx w config world with
          | (Err e, world) => (Err e, (w, world))
          | (Ok backend, world) =>
              let '(keyID, world) := be_KeyID backend ctx world in
              let keyID := match keyID with Ok keyID => keyID | Err _ => ConfiguredKeyID config end in
              (Ok (wrapper_metadata config keyID), (mkWrapper config (w_factory w) (Some backend), world))
          end
      end
  end.

Definition Init (ctx : result unit) : method unit := fun '(w, world) =>
  match ctx with
  | Err e => (Err e, (w, world))
  | Ok _ =>
      if String.eqb (k_Mode (w_config w)) EmptyString
      then (Err (errorw ErrNotInitialized "SetConfig must be called before Init"), (w, world))
      else match w_backend w with
           | Some _ => (Ok tt, (w, world))
           | None =>
               match newBackendLocked ctx w (w_config w) world with
               | (Err e, world) => (Err e, (w, world))
               | (Ok backend, world) => (Ok tt, (mkWrapper (w_config w) (w_factory w) (Some backend), world))
               end
           end
  end.

Definition Wrapper_Encrypt (ctx : result unit) (opts : result Options) (plaintext : bytes) : method BlobInfo := fun s =>
  match opts, currentBackend s.1 with
  | Err e, _ | Ok _, Err e => (Err e, s)
  | Ok opts, Ok backend =>
      of_call (be_Encrypt backend ctx (mkEncryptRequest plaintext (o_Aad opts) (o_KeyId opts))) s.1 s
  end.

Definition Wrapper_Decrypt (ctx : result unit) (opts : result Options) (ciphertext : option BlobInfo) : method bytes := fun s =>
  match opts, currentBackend s.1 with
  | Err e, _ | Ok _, Err e => (Err e, s)
  | Ok opts, Ok backend =>
      of_call (be_Decrypt backend ctx (mkDecryptRequest ciphertext (o_Aad opts) (o_KeyId opts))) s.1 s
  end.

Definition Wrapper_KeyId (ctx : result unit) : method string := fun s =>
  match currentBackend s.1 with
  | Err e => (Err e, s)
  | Ok backend => of_call (be_KeyID backend ctx) s.1 s
  end.

Definition Finalize (ctx : result unit) : method unit := fun s =>
  let w := mkWrapper (w_config s.1) (w_factory s.1) None in
  match w_backend s.1 with
  | None => (Ok tt, (w, s.2))
  | Some backend => of_call (be_Close backend ctx) w s
  end.
End Wrapper.
Arguments Wrapper : clear implicits.
Arguments backendFactory : clear implicits.

(** ** broker.go *)

(** The generated client: each call may fail on the way. *)
Class UnsealClient (W : Type) := {
  client_Challenge : ChallengeRequest -> call W ChallengeResponse;
  client_Wrap : WrapRequest -> call W WrapResponse;
  client_Unwrap : UnwrapRequest -> call W UnwrapResponse;
  client_Status : string -> call W StatusResponse;
  client_Close : call W unit;
}.

(** Files of the process, X.509 and the names of the protocol's error codes. *)
Class KmsEnv (W : Type) := {
  env_ReadFile : string -> call W bytes;
  CertPool : Type;
  SystemCertPool : option CertPool;
  EmptyCertPool : CertPool;
  AppendCertsFromPEM : CertPool -> bytes -> option CertPool;
  ClientCertificate : Type;
  LoadX509KeyPair : string -> string -> call W ClientCertificate;
  grpc_NewClient : string -> result unit;
  ErrorCode_String : ErrorCode -> string;
}.

(** Transport credentials: none, or TLS 1.3 at least. *)
Inductive TransportCredentials `{KmsEnv W} :=
| Insecure
| TLS (serverName : string) (roots : option CertPool) (certificates : list ClientCertificate).

Section BrokerBackend.
Context {W : Type} `{!UnsealClient W, !KmsEnv W}.

Definition brokerErrors (fallback : string) (errs : list BrokerError) : error :=
  match errs with
  | [] => errorw ErrBackendUnavailable fallback
  | first :: _ => errorw ErrBackendUnavailable (ErrorCode_String (be_Code first) +:+ ": " +:+ be_Message first)
  end.

Definition requireAllow (decision : ProtoDecision) (fallback : string) : result unit :=
  check (pd_State decision =? POLICY_DECISION_STATE_ALLOW) (brokerErrors fallback (pd_Errors decision)).

Definition readKubernetesWorkloadToken (path : string) : call W string :=
  wrap_error (errorp "read Kubernetes workload token file") (env_ReadFile (KubernetesBearerTokenFile path)) ≫= fun raw =>
  let token := TrimSpace raw in
  pure (check (negb (String.eqb token EmptyString)) (errorf "kubernetes workload token file is empty");; Ok token).

(** [config.BrokerCACertPath != ""]: the pool of the system, empty when it cannot be
    read, with the file's certificates added. *)
Definition broker_roots (config : KmsConfig) : call W (option CertPool) :=
  if String.eqb (k_BrokerCACertPath config) EmptyString then mret None
  else
    wrap_error (errorp "read broker CA certificate") (env_ReadFile (k_BrokerCACertPath config)) ≫= fun caPEM =>
    pure (pool ← of_option (errorf "broker CA certificate did not contain a PEM certificate")
                   (AppendCertsFromPEM (default EmptyCertPool SystemCertPool) caPEM);
          Ok (Some pool)).

Definition brokerDialOptions (config : KmsConfig) : call W TransportCredentials :=
  if k_BrokerPlaintext config then mret Insecure
  else
    broker_roots config ≫= fun roots =>
    (if String.eqb (k_BrokerClientCertPath config) EmptyString then mret []
     else wrap_error (errorp "load broker client certificate")
            (LoadX509KeyPair (k_BrokerClientCertPath config) (k_BrokerClientKeyPath config)) ≫= fun cert =>
          mret [cert]) ≫= fun certificates =>
    mret (TLS (k_BrokerTLSServerName config) roots certificates).

Definition requestedKeyFromString (raw : string) : result (option KeyRef) :=
  if String.eqb raw EmptyString then Ok None else ref ← ParseKeyRef raw; Ok (Some ref).

(** The key a decryption asks for must be the blob's. *)
Definition validateDecryptRequestKey (keyID : string) (blob : option BlobInfo) : result unit :=
  if String.eqb keyID EmptyString then Ok tt
  else match blob ≫= BKeyInfo with
       | None => Err (errorw ErrInvalidMetadata "missing blob key info")
       | Some info =>
           check (String.eqb keyID (KeyId info))
             (errorw ErrInvalidMetadata ("requested key " +:+ quoted keyID +:+ " does not match blob key " +:+
                                         quoted (KeyId info)))
       end.

Definition blobInfoToProto (blob : option BlobInfo) : WrappedBlob :=
  let empty := mkWrappedBlob EmptyString EmptyString None 0 in
  match blob with
  | None => empty
  | Some blob =>
      match BKeyInfo blob with
      | None => empty
      | Some info =>
          match ParseKeyRef (KeyId info) with
          | Err _ => empty
          | Ok ref => mkWrappedBlob (Ciphertext blob) (Iv blob) (Some ref) (Mechanism info)
          end
      end
  end.

Definition broker_evidence (config : KmsConfig) (challengeID : string) : call W EvidenceEnvelope :=
  if String.eqb (BrokerEvidenceMode config) EvidenceModeDevelopmentSubject
  then mret (mkEvidenceEnvelope 0 "development-subject" (k_NodeID config) challengeID [])
  else if String.eqb (BrokerEvidenceMode config) EvidenceModeKubernetesWorkload
  then readKubernetesWorkloadToken (k_KubernetesTokenFile config) ≫= fun token =>
       mret (NewEvidenceEnvelope challengeID token)
  else pure (Err (errorw ErrBackendUnavailable ("unsupported evidence mode " +:+ quoted (BrokerEvidenceMode config)))).

(** A cancelled context fails the call before anything is sent. *)
Definition rpc {A} (ctx : result unit) (what : string) (m : call W A) : call W A :=
  wrap_error (errorp what) (pure ctx ≫= fun _ => m).

Definition broker_challenge (config : KmsConfig) (ctx : result unit) (operation : Operation) : call W ChallengeResponse :=
  rpc ctx "broker challenge call failed"
    (client_Challenge (mkChallengeRequest (k_ClusterID config) (k_NodeID config) operation)) ≫= fun challenge =>
  pure (check (negb (String.eqb (cp_ChallengeId challenge) EmptyString))
          (errorw ErrBackendUnavailable "broker challenge response is missing challenge_id");; Ok challenge).

Definition broker_Encrypt (config : KmsConfig) (ctx : result unit) (req : EncryptRequest) : call W BlobInfo :=
  broker_challenge config ctx OPERATION_WRAP ≫= fun challenge =>
  pure (requestedKeyFromString (er_KeyID req)) ≫= fun requested =>
  broker_evidence config (cp_ChallengeId challenge) ≫= fun evidence =>
  rpc ctx "broker wrap call failed"
    (client_Wrap (mkWrapRequest requested (er_Plaintext req) (er_AAD req) (Some evidence))) ≫= fun resp =>
  pure (requireAllow (wp_Decision resp) "broker wrap denied") ≫= fun _ =>
  mret (protoToBlobInfo (wp_Blob resp)).

Definition broker_Decrypt (config : KmsConfig) (ctx : result unit) (req : DecryptRequest) : call W bytes :=
  pure (validateDecryptRequestKey (dr_KeyID req) (dr_Blob req)) ≫= fun _ =>
  broker_challenge config ctx OPERATION_UNWRAP ≫= fun challenge =>
  broker_evidence config (cp_ChallengeId challenge) ≫= fun evidence =>
  rpc ctx "broker unwrap call failed"
    (client_Unwrap (mkUnwrapRequest (Some (blobInfoToProto (dr_Blob req))) (dr_AAD req) (Some evidence))) ≫= fun resp =>
  pure (requireAllow (up_Decision resp) "broker unwrap denied") ≫= fun _ =>
  mret (up_Plaintext resp).

Definition broker_Status (config : KmsConfig) (ctx : result unit) : call W BackendStatus :=
  rpc ctx "broker status call failed" (client_Status (k_ClusterID config)) ≫= fun resp =>
  pure (check (st_Ready resp) (brokerErrors "broker is not ready" (st_Errors resp))) ≫= fun _ =>
  mret (mkBackendStatus true (st_ActiveKeyId resp) (k_Mode config)).

Definition broker_KeyID (config : KmsConfig) (ctx : result unit) : call W string :=
  broker_Status config ctx ≫= fun status =>
  pure (check (negb (String.eqb (bs_KeyID status) EmptyString))
          (errorw ErrBackendUnavailable "broker active key is empty");; Ok (bs_KeyID status)).

Definition brokerBackend (config : KmsConfig) : Backend W :=
  mkBackend (broker_Encrypt config) (broker_Decrypt config) (broker_KeyID config) (broker_Status config)
    (fun _ => client_Close).

(** The connection is closed again when the broker is not ready. *)
Definition or_close {A} (m : call W A) : call W A := fun w =>
  match m w with
  | (Err e, w) => (Err e, (client_Close w).2)
  | (Ok a, w) => (Ok a, w)
  end.

Definition newBrokerBackend (ctx : result unit) (config : KmsConfig) : call W (Backend W) :=
  brokerDialOptions config ≫= fun _ =>
  wrap_error (errorp "create broker client") (pure (grpc_NewClient (k_BrokerAddress config))) ≫= fun _ =>
  or_close (broker_Status config ctx) ≫= fun _ =>
  mret (brokerBackend config).
End BrokerBackend.

(** ** local_tpm.go *)

(** The node: file system, TPM and random source. *)
Class LocalNode (W : Type) `{TpmDevice} := {
  node_os : W -> OS;
  node_fs : W -> FS;
  node_open : string -> W -> result unit;
  node_tpm : W -> tpm;
  node_set_tpm : tpm -> W -> W;
  node_random : call W bytes;
}.

Record localTPMBackend := mkLocalTPMBackend {
  lb_config : KmsConfig; lb_active : KeyRef; lb_ring : Ring; lb_metadata : list LocalKeyMetadata;
}.

Definition metadataContainsVersion (metadata : list LocalKeyMetadata) (version : Z) : bool :=
  existsb (fun record => lm_Version record =? version) metadata.

Section LocalBackend.
Context {W : Type} `{TpmDevice, !LocalNode W, AEAD}.

Definition load_keyring (ctx : result unit) (config : KmsConfig) : call W (Ring * list LocalKeyMetadata) := fun w =>
  let '(r, t) := LoadLocalKeyring (node_os w) ctx (node_open (k_TPMDevice config) w) (k_StatePath config)
                   (k_ClusterID config) (k_KeyID config) (node_fs w) (node_tpm w) in
  (r, node_set_tpm t w).

Definition newLocalTPMBackend (ctx : result unit) (config : KmsConfig) : call W localTPMBackend :=
  wrap_error (errorp "load local TPM keyring") (load_keyring ctx config) ≫= fun loaded =>
  pure (ctx;; Active (Some loaded.1)) ≫= fun active =>
  pure (check ((k_KeyVersion config =? 0) || metadataContainsVersion loaded.2 (k_KeyVersion config))
          (errorw ErrKeyNotFound "configured local TPM key version was not found")) ≫= fun _ =>
  mret (mkLocalTPMBackend config (Ref active) loaded.1 loaded.2).

Definition validateEncryptRequestKey (b : localTPMBackend) (keyID : string) : result unit :=
  check (String.eqb keyID EmptyString || String.eqb keyID (KeyRef_String (lb_active b)))
    (errorw ErrKeyNotUsable ("requested key " +:+ quoted keyID +:+ " does not match active key " +:+
                             quoted (KeyRef_String (lb_active b)))).

(** What the random source would give is drawn first; [Encrypt] looks at it only for
    the nonce. *)
Definition with_random {A} (k : result bytes -> result A) : call W A := fun w =>
  let '(random, w) := node_random w in (k random, w).

Definition local_Encrypt (b : localTPMBackend) (ctx : result unit) (req : EncryptRequest) : call W BlobInfo :=
  pure (validateEncryptRequestKey b (er_KeyID req)) ≫= fun _ =>
  with_random (fun random => Encrypt ctx random (Some (lb_ring b)) (er_Plaintext req) (er_AAD req)).

Definition local_Decrypt (b : localTPMBackend) (ctx : result unit) (req : DecryptRequest) : call W bytes :=
  pure (validateDecryptRequestKey (dr_KeyID req) (dr_Blob req);;
        Decrypt ctx (Some (lb_ring b)) (dr_Blob req) (dr_AAD req)).

Definition local_backend (b : localTPMBackend) : Backend W :=
  mkBackend (local_Encrypt b) (local_Decrypt b)
    (fun _ => mret (KeyRef_String (lb_active b)))
    (fun _ => mret (mkBackendStatus true (KeyRef_String (lb_active b)) (k_Mode (lb_config b))))
    (fun _ => mret tt).

(** ** The production factory *)

Context `{!UnsealClient W, !KmsEnv W}.

Definition productionFactory : backendFactory W := fun ctx config =>
  if String.eqb (k_Mode config) ModeLocalTPM then newLocalTPMBackend ctx config ≫= fun b => mret (local_backend b)
  else if String.eqb (k_Mode config) ModeBroker then newBrokerBackend ctx config
  else mret (unavailableBackend config).

Definition NewWrapper : Wrapper W := NewWrapperWithFactory (Some productionFactory).
End LocalBackend.
