(* ===== verification/BrokerAdmin.v ===== *)
(** * Clients of the broker's admin API (internal/brokeradmin: client.go,
    node_evidence.go, node_enrollment.go)

    Transport options, the challenge and submission protocol of node agents, the
    enrollment calls of operators, and what operators get to read.  The generated gRPC
    clients are classes. *)

From S2P Require Import Prelude GoStrings GoTime Keyring KeyProtection Tpm NodeEvidence Config.
From S2P Require Import Sql Store Challenges SqlNodeEvidence StoreInv StoreOps Policy Kubernetes Admin Enrollment Service KmsConfig KmsPlugin.
Local Open Scope Z_scope.

(** [fmt.Errorf("%w: %w", base, err)]. *)
Definition errorww (base err : error) : error :=
  mkError (err_is base ++ err_is err) (err_msg base +:+ ": " +:+ err_msg err).

(** [time.Unix(seconds, 0).UTC()]. *)
Definition time_Unix (seconds : Z) : Time := (seconds + unix_epoch) * Second.

(** ** client.go *)

Definition DefaultNodeEvidenceTTL : Duration := 5 * Minute.
Definition DefaultRequestTimeout : Duration := 10 * Second.

Record ClientOptions := mkClientOptions {
  co_Plaintext : bool; co_CACertPath : string; co_TLSServerName : string; co_ClientCertPath : string; co_ClientKeyPath : string;
}.

Definition normalizeClientOptions (o : ClientOptions) : ClientOptions :=
  mkClientOptions (co_Plaintext o) (TrimSpace (co_CACertPath o)) (TrimSpace (co_TLSServerName o))
    (TrimSpace (co_ClientCertPath o)) (TrimSpace (co_ClientKeyPath o)).

Section Dial.
Context {W : Type} `{!KmsEnv W}.

Definition client_roots (path : string) : call W (option CertPool) :=
  if String.eqb path EmptyString then mret None
  else
    wrap_error (errorp "read broker CA certificate") (env_ReadFile path) ≫= fun caPEM =>
    pure (pool ← of_option (errorf "broker CA certificate did not contain a PEM certificate")
                   (AppendCertsFromPEM (default EmptyCertPool SystemCertPool) caPEM);
          Ok (Some pool)).

Definition DialOptions (options : ClientOptions) : call W TransportCredentials :=
  let options := normalizeClientOptions options in
  pure (check (Bool.eqb (String.eqb (co_ClientCertPath options) EmptyString) (String.eqb (co_ClientKeyPath options) EmptyString))
          (errorf "client certificate and key must be provided together")) ≫= fun _ =>
  if co_Plaintext options then mret Insecure
  else
    client_roots (co_CACertPath options) ≫= fun roots =>
    (if String.eqb (co_ClientCertPath options) EmptyString then mret []
     else wrap_error (errorp "load broker client certificate")
            (LoadX509KeyPair (co_ClientCertPath options) (co_ClientKeyPath options)) ≫= fun cert =>
          mret [cert]) ≫= fun certificates =>
    mret (TLS (co_TLSServerName options) roots certificates).
End Dial.

(** ** node_evidence.go: decisions *)

Definition ErrPublishNodeEvidence : error := sentinel "brokeradmin.ErrPublishNodeEvidence" "publish node evidence".
Definition ErrChallengeNodeEvidence : error := sentinel "brokeradmin.ErrChallengeNodeEvidence" "challenge node evidence".

Definition DecisionMessages (decision : ProtoDecision) : list string :=
  filter (fun message => message <> EmptyString) (be_Message <$> pd_Errors decision).

Definition DecisionMessage (decision : ProtoDecision) (fallback : string) : string :=
  match DecisionMessages decision with
  | [] => fallback
  | messages => Join messages "; "
  end.

Definition DecisionDeniedError_Error (Operation : string) (Messages : list string) : string :=
  let operation := if String.eqb (TrimSpace Operation) EmptyString then "operation"%string else TrimSpace Operation in
  match Messages with
  | [] => "broker denied " +:+ operation
  | _ => "broker denied " +:+ operation +:+ ": " +:+ Join Messages "; "
  end.

(** The error type, as [errors.As] finds it. *)
Definition DecisionDeniedError : error := sentinel "brokeradmin.DecisionDeniedError" EmptyString.

Definition denied (Operation : string) (Messages : list string) : error :=
  mkError (err_is DecisionDeniedError) (DecisionDeniedError_Error Operation Messages).

Definition RequireAllowDecision (decision : ProtoDecision) (operation : string) : result unit :=
  check (pd_State decision =? POLICY_DECISION_STATE_ALLOW) (denied operation (DecisionMessages decision)).

(** ** node_evidence.go: what operators read *)

(** A whole second has no fraction to print. *)
Definition UnixSecondsOutput (value : Z) : string :=
  if value <=? 0 then EmptyString else FormatRFC3339Nano (time_Unix value).

Definition NODE_EVIDENCE_STATUS_MISSING : Z := 3.
Definition NODE_EVIDENCE_STATUS_INVALID : Z := 4.

Definition NodeEvidenceStatusOutput (status : Z) : string :=
  if status =? NODE_EVIDENCE_STATUS_FRESH then "fresh"
  else if status =? NODE_EVIDENCE_STATUS_STALE then "stale"
  else if status =? NODE_EVIDENCE_STATUS_MISSING then "missing"
  else if status =? NODE_EVIDENCE_STATUS_INVALID then "invalid"
  else "unspecified".

Definition PolicyDecisionOutput (state : PolicyDecisionState) : string :=
  if state =? POLICY_DECISION_STATE_ALLOW then "allow"
  else if state =? POLICY_DECISION_STATE_DENY then "deny"
  else "unspecified".

(** [duration / time.Second] rounds towards zero. *)
Definition durationSecondsCeiling (duration : Duration) : Z :=
  Z.quot duration Second + (if negb (Z.rem duration Second =? 0) then 1 else 0).

Definition nodeEvidenceFromProto (record : option NodeEvidenceRecord) : result NodeEvidence :=
  record ← of_option (errorw ErrPublishNodeEvidence "response record is required") record;
  Normalize (mkNodeEvidence (nr_ClusterId record) (nr_NodeName record) (nr_NodeUid record) (nr_ProviderId record)
               (nr_EvidenceHash record) (time_Unix (nr_CollectedUnixSeconds record)) (time_Unix (nr_ExpiresUnixSeconds record))).

(** ** node_evidence.go: the protocol *)

Class AdminClient (W : Type) := {
  client_ChallengeNodeEvidence : NodeEvidenceChallengeRequest -> call W NodeEvidenceChallengeResponse;
  client_PublishNodeEvidence : NodeEvidenceSubmission -> call W NodeEvidencePublishResponse;
}.

(** The client remembers the last record and decision it was sent. *)
Record NodeEvidenceClient := mkNodeEvidenceClient {
  nec_Evidence : option NodeEvidenceRecord; nec_Decision : option ProtoDecision;
}.

Section Client.
Context {W : Type} `{!AdminClient W}.

(** A method of the client: its fields and the world. *)
Definition on_world {S A} (m : call W A) : call (S * W) A := fun '(s, w) => let '(r, w) := m w in (r, (s, w)).
Definition modify {S} (f : S -> S) : call (S * W) unit := fun '(s, w) => (Ok tt, (f s, w)).

Definition RequestNodeEvidenceChallenge (ctx : result unit) (request : NodeEvidence.ChallengeRequest) : call (NodeEvidenceClient * W) NodeChallenge :=
  pure (NormalizeChallengeRequest request) ≫= fun request : NodeEvidence.ChallengeRequest =>
  on_world (wrap_error (errorww ErrChallengeNodeEvidence) (pure ctx ≫= fun _ =>
    client_ChallengeNodeEvidence (mkNodeEvidenceChallengeRequest (cr_ClusterID request) (cr_NodeName request)
                                    (cr_NodeUID request) (cr_Provider request)))) ≫= fun response =>
  modify (fun c => mkNodeEvidenceClient (nec_Evidence c) (Some (ncp_Decision response))) ≫= fun _ =>
  pure (RequireAllowDecision (ncp_Decision response) "challenge node evidence") ≫= fun _ =>
  pure (NormalizeChallenge (mkNodeChallenge (ncp_ChallengeId response) (ncp_Nonce response)
                              (time_Unix (ncp_ExpiresUnixSeconds response)))).

Definition SubmitNodeEvidence (ctx : result unit) (submission : Submission) : call (NodeEvidenceClient * W) NodeEvidence :=
  pure (NormalizeSubmission submission) ≫= fun submission =>
  on_world (wrap_error (errorww ErrPublishNodeEvidence) (pure ctx ≫= fun _ =>
    client_PublishNodeEvidence (mkNodeEvidenceSubmission (sb_ClusterID submission) (sb_NodeName submission)
      (sb_NodeUID submission) (sb_Provider submission) (sb_Format submission) (sb_Payload submission)
      (sb_ChallengeID submission) (durationSecondsCeiling (sb_RequestedTTL submission))))) ≫= fun response =>
  modify (fun _ => mkNodeEvidenceClient (np_Evidence response) (Some (np_Decision response))) ≫= fun _ =>
  pure (RequireAllowDecision (np_Decision response) "publish node evidence") ≫= fun _ =>
  pure (nodeEvidenceFromProto (np_Evidence response)).
End Client.

(** ** node_enrollment.go *)

Definition ErrEnrollNodeEvidence : error := sentinel "brokeradmin.ErrEnrollNodeEvidence" "enroll node evidence".
Definition ErrRevokeNodeEvidence : error := sentinel "brokeradmin.ErrRevokeNodeEvidence" "revoke node evidence".
Definition ErrListNodeEvidenceEnrollments : error :=
  sentinel "brokeradmin.ErrListNodeEvidenceEnrollments" "list node evidence enrollments".

Definition tpmPolicyToProto (policy : TPMPolicy) : NodeEvidenceTPMPolicy :=
  mkNodeEvidenceTPMPolicy (tp_Mode policy) (tp_EnrolledAKPublicHash policy) (tp_ProviderProfile policy)
    ((fun pcr => mkNodeEvidencePCRPolicy (sel_Hash (pp_Selection pcr))
        ((fun index => index mod (uint32_max + 1)) <$> sel_PCRs (pp_Selection pcr))
        (pp_ExpectedDigest pcr) (pp_Profile pcr)) <$> tp_PCRPolicy policy).

Definition timeFromUnixOrZero (value : Z) : Time := if value =? 0 then 0 else time_Unix value.

(** The loop over the registers of the response, which are unsigned. *)
Fixpoint response_indexes (pcrs : list Z) : result (list Z) :=
  match pcrs with
  | [] => Ok []
  | index :: r =>
      check (negb (23 <? index)) (errorf ("invalid response PCR index " +:+ FormatUint index));;
      rest ← response_indexes r;
      Ok (index :: rest)
  end.

Definition policy_from_response (policy : NodeEvidenceTPMPolicy) : result TPMPolicy :=
  pcr ← match ntp_PcrPolicy policy with
        | None => Ok None
        | Some pcr =>
            indexes ← response_indexes (npp_Pcrs pcr);
            Ok (Some (mkPCRPolicy (mkPCRSelection (npp_Hash pcr) indexes) (npp_ExpectedDigest pcr) [] (npp_Profile pcr)))
        end;
  Ok (mkTPMPolicy (ntp_Mode policy) (ntp_EnrolledAkPublicHash policy) pcr (ntp_ProviderProfile policy)).

(** A record always carries its policy here. *)
Definition nodeEnrollmentFromProto (record : option NodeEvidenceEnrollmentRecord) : result Enrollment :=
  record ← of_option (errorf "node evidence enrollment response is incomplete") record;
  policy ← policy_from_response (ner_TpmPolicy record);
  NormalizeEnrollment (mkEnrollment (ner_ClusterId record) (ner_NodeName record) (ner_NodeUid record) (ner_ProviderId record)
    policy (ner_PublisherCertificateSha256 record) (ner_Revision record) (time_Unix (ner_EnrolledUnixSeconds record))
    (time_Unix (ner_UpdatedUnixSeconds record)) (timeFromUnixOrZero (ner_RevokedUnixSeconds record))).

Class EnrollmentClient (W : Type) := {
  client_EnrollNodeEvidence : NodeEvidenceEnrollmentRequest -> call W NodeEvidenceEnrollmentResponse;
  client_RevokeNodeEvidence : NodeEvidenceRevocationRequest -> call W NodeEvidenceEnrollmentResponse;
  client_ListNodeEvidenceEnrollments : NodeEvidenceEnrollmentListRequest -> call W NodeEvidenceEnrollmentListResponse;
}.

Section EnrollmentCalls.
Context {W : Type} `{!EnrollmentClient W}.

(** [now] is what [time.Now()] returns. *)
Definition Enroll (ctx : result unit) (now : Time) (request : EnrollmentRequest) (reason : string) (audit : option AuditContext)
  : call W Enrollment :=
  let request := mkEnrollmentRequest (er_ClusterID request) (er_NodeName request) (er_NodeUID request) (er_Provider request)
    (er_TPMPolicy request) (er_PublisherCertificateHashes request)
    (if IsZero (er_EnrolledAt request) then now else er_EnrolledAt request) in
  pure (NormalizeEnrollmentRequest request) ≫= fun request =>
  wrap_error (errorww ErrEnrollNodeEvidence) (pure ctx ≫= fun _ =>
    client_EnrollNodeEvidence (mkNodeEvidenceEnrollmentRequest (er_ClusterID request) (er_NodeName request) (er_NodeUID request)
      (er_Provider request) (Some (tpmPolicyToProto (er_TPMPolicy request))) (er_PublisherCertificateHashes request)
      (TrimSpace reason) audit)) ≫= fun response =>
  pure (RequireAllowDecision (nep_Decision response) "enroll node evidence") ≫= fun _ =>
  pure (nodeEnrollmentFromProto (nep_Enrollment response)).

Definition Revoke (ctx : result unit) (clusterID nodeName reason : string) (audit : option AuditContext) : call W Enrollment :=
  wrap_error (errorww ErrRevokeNodeEvidence) (pure ctx ≫= fun _ =>
    client_RevokeNodeEvidence (mkNodeEvidenceRevocationRequest (TrimSpace clusterID) (TrimSpace nodeName) (TrimSpace reason) audit))
  ≫= fun response =>
  pure (RequireAllowDecision (nep_Decision response) "revoke node evidence") ≫= fun _ =>
  pure (nodeEnrollmentFromProto (nep_Enrollment response)).

Definition ListEnrollments (ctx : result unit) (clusterID nodeName : string) (includeRevoked : bool) (audit : option AuditContext)
  : call W (list Enrollment) :=
  wrap_error (errorww ErrListNodeEvidenceEnrollments) (pure ctx ≫= fun _ =>
    client_ListNodeEvidenceEnrollments (mkNodeEvidenceEnrollmentListRequest (TrimSpace clusterID) (TrimSpace nodeName) includeRevoked audit))
  ≫= fun response =>
  pure (RequireAllowDecision (nelp_Decision response) "list node evidence enrollments") ≫= fun _ =>
  pure (map_err (errorww ErrListNodeEvidenceEnrollments)
          (mapR (fun record => nodeEnrollmentFromProto (Some record)) (nelp_Enrollments response))).
End EnrollmentCalls.

(** ** Conversions there and back *)

Lemma Unix_time_Unix n : Unix (time_Unix n) = n.
Proof. unfold Unix, time_Unix. rewrite Z.div_mul by done. lia. Qed.

(** An instant without its fraction of a second. *)
Definition whole_seconds (t : Time) : Time := t / Second * Second.

Lemma time_Unix_Unix t : time_Unix (Unix t) = whole_seconds t.
Proof. unfold time_Unix, Unix, whole_seconds. f_equal. lia. Qed.

Lemma whole_seconds_bounds t : t - Second < whole_seconds t <= t.
Proof.
  unfold whole_seconds. pose proof (Z.div_mod t Second ltac:(done)). pose proof (Z.mod_pos_bound t Second ltac:(done)). unfold Second in *. lia.
Qed.

Lemma whole_seconds_mono t u : t <= u -> whole_seconds t <= whole_seconds u.
Proof. intros Htu. unfold whole_seconds. pose proof (Z.div_le_mono t u Second ltac:(done) Htu). by apply Z.mul_le_mono_nonneg_r. Qed.

Lemma durationSecondsCeiling_bounds d : 0 < d -> d <= durationSecondsCeiling d * Second < d + Second.
Proof.
  intros Hd. unfold durationSecondsCeiling. rewrite Z.quot_div_nonneg, Z.rem_mod_nonneg by (done || lia).
  pose proof (Z.div_mod d Second ltac:(done)). pose proof (Z.mod_pos_bound d Second ltac:(done)).
  destruct (Z.eqb_spec (d mod Second) 0); cbn [negb]; unfold Second in *; lia.
Qed.

(** What the response does not carry: the captured register values. *)
Definition without_captured (p : TPMPolicy) : TPMPolicy :=
  mkTPMPolicy (tp_Mode p) (tp_EnrolledAKPublicHash p)
    ((fun pcr => mkPCRPolicy (pp_Selection pcr) (pp_ExpectedDigest pcr) [] (pp_Profile pcr)) <$> tp_PCRPolicy p)
    (tp_ProviderProfile p).

Definition registers_in_range (p : TPMPolicy) : Prop :=
  match tp_PCRPolicy p with Some pcr => Forall (fun i => 0 <= i <= 23) (sel_PCRs (pp_Selection pcr)) | None => True end.

Lemma response_indexes_Ok l : Forall (fun i => 0 <= i <= 23) l ->
  response_indexes ((fun index => index mod (uint32_max + 1)) <$> l) = Ok l.
Proof.
  induction l as [|i l IH]; [done|]. intros [Hi Hl]%Forall_cons. cbn [fmap list_fmap response_indexes].
  rewrite Z.mod_small by (unfold uint32_max; lia). rewrite (proj2 (Z.ltb_ge _ _)) by lia. cbn [negb check mbind result_bind].
  change (list_fmap _ _ _ l) with ((fun index => index mod (uint32_max + 1)) <$> l). by rewrite IH.
Qed.

Lemma policy_response p : registers_in_range p -> policy_from_response (policyToProto p) = Ok (without_captured p).
Proof.
  destruct p as [m ak [pcr|] prof]; [|done]. unfold registers_in_range. cbn [tp_PCRPolicy]. intros Hr.
  unfold policy_from_response, policyToProto. cbn [ntp_PcrPolicy tp_PCRPolicy fmap option_fmap option_map npp_Pcrs].
  rewrite response_indexes_Ok by done. cbn [mbind result_bind]. destruct pcr as [[h l] d c pr]. done.
Qed.

(** The client's conversion is the broker's. *)
Lemma tpmPolicyToProto_broker p : tpmPolicyToProto p = policyToProto p.
Proof. done. Qed.

Lemma Policy_Validate_captured p : Policy_Validate (without_captured p) = Policy_Validate p.
Proof. destruct p as [m ak [[sel d c pr]|] prof]; [|done]. reflexivity. Qed.

Definition enrollment_as_reported (e : Enrollment) : Enrollment :=
  mkEnrollment (en_ClusterID e) (en_NodeName e) (en_NodeUID e) (en_Provider e) (without_captured (en_TPMPolicy e))
    (en_PublisherCertificateHashes e) (en_Revision e) (whole_seconds (en_EnrolledAt e)) (whole_seconds (en_UpdatedAt e))
    (if IsZero (en_RevokedAt e) then 0 else whole_seconds (en_RevokedAt e)).

Lemma revoked_time_response t :
  t = 0 \/ (unix_epoch + 1) * Second <= t ->
  timeFromUnixOrZero (unixSecondsOrZero t) = (if IsZero t then 0 else whole_seconds t).
Proof.
  intros Ht. unfold timeFromUnixOrZero, unixSecondsOrZero, IsZero. destruct (Z.eqb_spec t 0) as [|Hne]; [done|].
  destruct Ht as [|Ht]; [done|]. rewrite time_Unix_Unix. destruct (Z.eqb_spec (Unix t) 0) as [Hu|]; [|done]. exfalso.
  unfold Unix in Hu. pose proof (Z.div_le_lower_bound t Second (unix_epoch + 1) ltac:(done)). lia.
Qed.

Lemma whole_seconds_after_epoch t : (unix_epoch + 1) * Second <= t -> 0 < whole_seconds t.
Proof. intros Ht. pose proof (whole_seconds_bounds t). unfold Second, unix_epoch in *. lia. Qed.

(** What the broker reports of an enrollment the operator's client reads back: a
    normalised enrollment after the epoch comes back as itself, its times in whole seconds
    and without the captured register values, revoked exactly if it was revoked. *)
Theorem enrollment_report_roundtrip e :
  NormalizeEnrollment e = Ok e -> registers_in_range (en_TPMPolicy e) -> (unix_epoch + 1) * Second <= en_EnrolledAt e ->
  nodeEnrollmentFromProto (Some (nodeEvidenceEnrollmentToProto e)) = Ok (enrollment_as_reported e) /\
  Enrollment_Active (enrollment_as_reported e) = Enrollment_Active e.
Proof.
  intros Hn Hr He. unfold nodeEnrollmentFromProto, nodeEvidenceEnrollmentToProto.
  cbn [of_option mbind result_bind ner_ClusterId ner_NodeName ner_NodeUid ner_ProviderId ner_TpmPolicy
       ner_PublisherCertificateSha256 ner_Revision ner_EnrolledUnixSeconds ner_UpdatedUnixSeconds ner_RevokedUnixSeconds].
  rewrite policy_response, !time_Unix_Unix by done. cbn [mbind result_bind].
  unfold NormalizeEnrollment in Hn. apply bind_Ok in Hn as (r & Hreq & Hn). pose proof Hreq as Hreq'.
  apply NormalizeEnrollmentRequest_Ok in Hreq as (P1 & P2 & P3 & P4 & P5 & P6 & P7 & P8 & P9 & P10 & ->). inv_ok. units. to_prop.
  destruct e as [c n u p pol hashes rev en up re]. cbn [request_of er_ClusterID er_NodeName er_NodeUID er_Provider er_TPMPolicy
    er_PublisherCertificateHashes er_EnrolledAt en_ClusterID en_NodeName en_NodeUID en_Provider en_TPMPolicy
    en_PublisherCertificateHashes en_Revision en_EnrolledAt en_UpdatedAt en_RevokedAt] in *.
  injection H2 as Hc Hnn Hu Hp Hh. unfold IsZero, Before in *. to_prop.
  assert (re = 0 \/ up <= re) as Hre.
  { destruct (Z.eqb_spec re 0); [by left|]. right. cbn [negb andb] in *. to_prop. lia. }
  rewrite revoked_time_response by lia. pose proof (whole_seconds_after_epoch en He). pose proof (whole_seconds_mono en up ltac:(lia)).
  split.
  2:{ unfold Enrollment_Active, enrollment_as_reported, IsZero. cbn [en_RevokedAt]. destruct (Z.eqb_spec re 0); [done|].
      apply Z.eqb_neq. pose proof (whole_seconds_after_epoch re ltac:(lia)). lia. }
  unfold NormalizeEnrollment. erewrite (proj2 (NormalizeEnrollmentRequest_Ok _ _)).
  2:{ unfold request_of. cbn [er_ClusterID er_NodeName er_NodeUID er_Provider er_TPMPolicy er_PublisherCertificateHashes er_EnrolledAt
        en_ClusterID en_NodeName en_NodeUID en_Provider en_TPMPolicy en_PublisherCertificateHashes en_EnrolledAt].
      split_and!; try done; [by rewrite Policy_Validate_captured | lia]. }
  cbn [mbind result_bind request_of er_ClusterID er_NodeName er_NodeUID er_Provider er_TPMPolicy er_PublisherCertificateHashes er_EnrolledAt
        en_ClusterID en_NodeName en_NodeUID en_Provider en_TPMPolicy en_PublisherCertificateHashes en_EnrolledAt en_Revision en_UpdatedAt
        en_RevokedAt]. unfold IsZero, Before. rewrite (proj2 (Z.eqb_neq rev 0)), (proj2 (Z.eqb_neq (whole_seconds up) 0)) by lia.
  cbn [orb negb check mbind result_bind]. rewrite (proj2 (Z.ltb_ge (whole_seconds up) (whole_seconds en))) by lia. cbn [negb check mbind result_bind].
  rewrite Hc, Hnn, Hu, Hp, Hh. unfold enrollment_as_reported, IsZero. cbn [en_ClusterID en_NodeName en_NodeUID en_Provider en_TPMPolicy
    en_PublisherCertificateHashes en_Revision en_EnrolledAt en_UpdatedAt en_RevokedAt].
  destruct (Z.eqb_spec re 0) as [|Hne]; [done|]. destruct Hre as [|Hre]; [done|]. pose proof (whole_seconds_mono up re Hre).
  rewrite (proj2 (Z.eqb_neq (whole_seconds re) 0)), (proj2 (Z.ltb_ge _ _)) by lia. done.
Qed.

(** The enrollment of the example node, as its operator reads it. *)
Lemma enrollment_report_roundtrip_witness :
  nodeEnrollmentFromProto (Some (nodeEvidenceEnrollmentToProto example_active)) = Ok (enrollment_as_reported example_active) /\
  Enrollment_Active (enrollment_as_reported example_active) = Enrollment_Active example_active.
Proof.
  apply (enrollment_report_roundtrip example_active).
  - vm_compute. reflexivity.
  - unfold registers_in_range. replace (tp_PCRPolicy (en_TPMPolicy example_active)) with (Some example_pcr_policy) by (vm_compute; reflexivity).
    cbn. apply Forall_singleton. lia.
  - vm_compute. congruence.
Defined.
