(* ===== verification/NodeAgent.v ===== *)
(** * Publishing node evidence (internal/nodeagent: publisher.go, tpm_provider.go)

    A publisher asks the broker for a challenge, has a provider answer it and submits
    the answer; the providers quote with the node's TPM or, in a lab, compute the fake
    answer. *)

From S2P Require Import Prelude GoStrings GoTime Keyring KeyProtection Tpm TpmSeal NodeEvidence Config.
From S2P Require Import Sql Store Challenges SqlNodeEvidence StoreInv StoreOps Policy Kubernetes Admin Service KmsConfig KmsPlugin.
From S2P Require Import Tpm NodeEvidence EvidenceText TpmAttest BrokerAdmin.
Local Open Scope Z_scope.

(** ** publisher.go *)

Definition ErrInvalidPublishRequest : error :=
  sentinel "nodeagent.ErrInvalidPublishRequest" "invalid node evidence publish request".
Definition ErrInvalidProviderEvidence : error :=
  sentinel "nodeagent.ErrInvalidProviderEvidence" "invalid node evidence provider result".

Record PublishRequest := mkPublishRequest {
  pq_ClusterID : string; pq_NodeName : string; pq_NodeUID : string; pq_TTL : Duration;
}.
Record ProviderEvidence := mkProviderEvidence { pe_Format : string; pe_Payload : bytes }.

(** What the world says while a request is handled: the context on entry, and around
    the opening of the TPM; the clock. *)
Record Moment := mkMoment { mo_ctx : result unit; mo_before : result unit; mo_after : result unit; mo_now : Time }.

(** The interfaces: a provider of evidence and the broker's publishing protocol. *)
Record Provider (W : Type) := mkProvider {
  ProviderID : string;
  CollectNodeEvidence : Moment -> PublishRequest -> NodeChallenge -> call W ProviderEvidence;
}.
Arguments mkProvider {W}.
Arguments ProviderID {W}.
Arguments CollectNodeEvidence {W}.

Record PublisherClient (W : Type) := mkPublisherClient {
  pc_Request : result unit -> NodeEvidence.ChallengeRequest -> call W NodeChallenge;
  pc_Submit : result unit -> Submission -> call W NodeEvidence;
}.
Arguments mkPublisherClient {W}.
Arguments pc_Request {W}.
Arguments pc_Submit {W}.

Definition normalizePublishRequest (request : PublishRequest) : result PublishRequest :=
  let request := mkPublishRequest (TrimSpace (pq_ClusterID request)) (TrimSpace (pq_NodeName request))
                   (TrimSpace (pq_NodeUID request)) (pq_TTL request) in
  check (negb (empty (pq_ClusterID request) || empty (pq_NodeName request)))
    (errorw ErrInvalidPublishRequest "cluster_id and node_name are required");;
  check (negb (pq_TTL request <=? 0)) (errorw ErrInvalidPublishRequest "ttl must be greater than zero");;
  Ok request.

Definition normalizeProviderEvidence (evidence : ProviderEvidence) : ProviderEvidence :=
  mkProviderEvidence (TrimSpace (pe_Format evidence)) (pe_Payload evidence).

Section Publisher.
Context {W : Type}.

(** [None] for a nil client or provider. *)
Definition Publish (client : option (PublisherClient W)) (provider : option (Provider W)) (m : Moment) (request : PublishRequest)
  : call W NodeEvidence :=
  pure (normalizePublishRequest request) ≫= fun request =>
  pure (of_option (errorw ErrInvalidPublishRequest "client is required") client) ≫= fun client =>
  pure (of_option (errorw ErrInvalidPublishRequest "provider is required") provider) ≫= fun provider =>
  let providerID := TrimSpace (ProviderID provider) in
  pure (check (negb (empty providerID)) (errorw ErrInvalidProviderEvidence "provider_id is required")) ≫= fun _ =>
  wrap_error (errorp "request node evidence challenge")
    (pc_Request client (mo_ctx m) (NodeEvidence.mkChallengeRequest (pq_ClusterID request) (pq_NodeName request)
                                     (pq_NodeUID request) providerID)) ≫= fun challenge =>
  pure (map_err (fun e => errorw ErrInvalidProviderEvidence (err_msg e)) (NormalizeChallenge challenge)) ≫= fun challenge =>
  pure (check (After (nc_ExpiresAt challenge) (mo_now m)) (errorw ErrInvalidProviderEvidence "broker challenge is expired")) ≫= fun _ =>
  wrap_error (errorp "collect node evidence") (CollectNodeEvidence provider m request challenge) ≫= fun providerEvidence =>
  let providerEvidence := normalizeProviderEvidence providerEvidence in
  pure (check (negb (empty (pe_Format providerEvidence) || (len (pe_Payload providerEvidence) =? 0)))
          (errorw ErrInvalidProviderEvidence "format and payload are required")) ≫= fun _ =>
  wrap_error (errorp "publish node evidence")
    (pc_Submit client (mo_ctx m) (mkSubmission (pq_ClusterID request) (pq_NodeName request) (pq_NodeUID request) providerID
       (pe_Format providerEvidence) (pe_Payload providerEvidence) (nc_ID challenge) (pq_TTL request))).

(** The development provider. *)
Definition FakeLocalProvider `{Hashes} : Provider W := mkProvider ProviderFakeLocal (fun m request challenge =>
  pure (request ← normalizePublishRequest request;
        payload ← FakeLocalPayload (NodeEvidence.mkChallengeRequest (pq_ClusterID request) (pq_NodeName request)
                                      (pq_NodeUID request) ProviderFakeLocal) challenge;
        Ok (mkProviderEvidence FormatFakeLocal payload))).
End Publisher.

(** [*brokeradmin.NodeEvidenceClient] is such a client. *)
Definition NodeEvidenceClient_interface {W} `{!AdminClient W} : PublisherClient (NodeEvidenceClient * W) :=
  mkPublisherClient RequestNodeEvidenceChallenge SubmitNodeEvidence.

(** ** tpm_provider.go *)

Definition ErrTPMNodeEvidence : error := sentinel "nodeagent.ErrTPMNodeEvidence" "TPM node evidence failed".

Definition wrap_tpm (what : string) (e : error) : error :=
  mkError (err_is ErrTPMNodeEvidence ++ err_is e) (err_msg ErrTPMNodeEvidence +:+ ": " +:+ what +:+ ": " +:+ err_msg e).

(** A node with a TPM. *)
Class TpmNode (W : Type) `{TpmDevice} := { get_tpm : W -> tpm; set_tpm : tpm -> W -> W }.

(** [collector] is the configured collector, if any; nil for the local device. *)
Record TPMProvider (W : Type) := mkTPMProvider {
  tv_Device : string;
  tv_Selection : PCRSelection;
  tv_PlatformHint : string;
  tv_Collector : option (Moment -> string -> bytes -> PCRSelection -> string -> call W Evidence);
}.
Arguments mkTPMProvider {W}.
Arguments tv_Device {W}.
Arguments tv_Selection {W}.
Arguments tv_PlatformHint {W}.
Arguments tv_Collector {W}.

Section TpmProvider.
Context {W : Type} `{TpmAttestor, !TpmNode W, Hashes, TpmLib, EvidenceJSON}.

Definition on_tpm {A} (m : tpm_cmd A) : call W A := fun w =>
  let '(r, t) := m (get_tpm w) in (r, set_tpm t w).

Definition localTPMQuoteCollector (device : string) (m : Moment) (challengeID : string) (nonce : bytes)
  (selection : PCRSelection) (platformHint : string) : call W Evidence :=
  on_tpm (Provider_Collect (mo_before m) (mo_after m) device challengeID nonce selection platformHint (mo_now m)) ≫= fun envelope =>
  pure (UnmarshalEvidence (ev_Payload envelope)).

Definition quoteCollector (p : TPMProvider W) : Moment -> string -> bytes -> PCRSelection -> string -> call W Evidence :=
  match tv_Collector p with
  | Some collector => collector
  | None => localTPMQuoteCollector (tv_Device p)
  end.

Definition pcrSelection (p : TPMProvider W) : result PCRSelection :=
  let selection := tv_Selection p in
  Selection_Normalize
    (if String.eqb (sel_Hash selection) EmptyString && bool_decide (sel_PCRs selection = [])
     then mkPCRSelection HashSHA256 [7] else selection).

(** [ctx.Err()] is checked first. *)
Definition TPM_CollectNodeEvidence (p : TPMProvider W) (m : Moment) (challenge : NodeChallenge) : call W ProviderEvidence :=
  pure (mo_ctx m) ≫= fun _ =>
  pure (map_err (errorww ErrTPMNodeEvidence) (pcrSelection p)) ≫= fun selection =>
  pure (map_err (wrap_tpm "invalid broker challenge") (NormalizeChallenge challenge)) ≫= fun challenge =>
  wrap_error (wrap_tpm "collect quote")
    (quoteCollector p m (nc_ID challenge) (nc_Nonce challenge) selection (TrimSpace (tv_PlatformHint p))) ≫= fun evidence =>
  pure (map_err (wrap_tpm "verify quote") (VerifyQuote evidence (nc_Nonce challenge))) ≫= fun _ =>
  pure (map_err (wrap_tpm "marshal quote") (Evidence_Marshal evidence)) ≫= fun payload =>
  mret (mkProviderEvidence Tpm.EvidenceFormat payload).

Definition TPMProvider_interface (p : TPMProvider W) : Provider W :=
  mkProvider ProviderTPM2Quote (fun m request challenge => TPM_CollectNodeEvidence p m challenge).
End TpmProvider.
