(* ===== verification/Runtime.v ===== *)
(** * The broker process (internal/broker/server.go, kubernetes_runtime.go)

    How the parts are put together: the configuration is loaded and validated, the
    development keyring seeded, the unseal service wired to its evidence verifier
    and node-evidence reader, and the admin and enrollment services to the same
    store and audit file.  The theorems are about the whole broker: what a
    validated configuration promises of the transport, what an allowed Unwrap of a
    Kubernetes workload rests on, and what every call does to the store. *)

From S2P Require Import Prelude GoStrings GoTime Keyring KeyProtection Tpm NodeEvidence Config.
From S2P Require Import Sql Store Challenges SqlNodeEvidence StoreInv StoreOps Lockout Policy Kubernetes Admin Enrollment Service.
From Stdlib Require Import Ascii.
Local Open Scope Z_scope.

(** ** Transport security *)

Inductive ClientAuth := NoClientCert | VerifyClientCertIfGiven | RequireAndVerifyClientCert.

Record TLSConfig := mkTLSConfig { tls_ClientCAs : bool; tls_ClientAuth : ClientAuth }.

(** Reading certificates: files and PEM parsing. *)
Class CertFiles := {
  LoadX509KeyPair : string -> string -> result unit;
  ReadCertFile : string -> result bytes;
  AppendCertsFromPEM : bytes -> bool;
}.

Definition loadTLSConfig `{CertFiles} (c : Config) : result TLSConfig :=
  map_err (errorp "load broker TLS keypair") (LoadX509KeyPair (c_TLSCertFile c) (c_TLSKeyFile c));;
  if String.eqb (c_ClientCAFile c) EmptyString then Ok (mkTLSConfig false NoClientCert)
  else
    caPEM ← map_err (errorp "read client CA file") (ReadCertFile (c_ClientCAFile c));
    check (AppendCertsFromPEM caPEM) (errorf "client CA file does not contain certificates");;
    Ok (mkTLSConfig true (if c_RequireClientCert c then RequireAndVerifyClientCert
                          else VerifyClientCertIfGiven)).

(** [None] is plaintext. *)
Definition grpcServerOptions `{CertFiles} (c : Config) : result (option TLSConfig) :=
  if c_AllowPlaintextForTests c && String.eqb (c_TLSCertFile c) EmptyString &&
     String.eqb (c_TLSKeyFile c) EmptyString
  then Ok None
  else tlsConfig ← loadTLSConfig c; Ok (Some tlsConfig).

(** ** Wiring *)

(** The clients of the Kubernetes API, built from the configured endpoint, bearer
    token file and CA file. *)
Abbreviation KubernetesClients := (KubernetesConfig -> result (TokenReviewer * PodLookup)) (only parsing).

(** The service, and whether the broker stores node evidence. *)
Definition newRuntimeService `{PayloadJSON} (clients : KubernetesClients) (wall : Time) (c : Config)
  : result (Service * bool) :=
  if negb (k_Enabled (c_Kubernetes c)) then Ok (NewService c, false)
  else
    '(reviewer, lookup) ← clients (c_Kubernetes c);
    Ok (NewServiceWithEvidenceVerifierAndNodeEvidence c
          (Some (KubernetesEvidenceVerifier (newKubernetesRuntimeDependencies reviewer lookup (c_Kubernetes c))))
          (Some (sql_FreshNodeEvidence wall)), true).

Record Runtime := mkRuntime {
  rt_Config : Config;
  rt_Service : Service;
  rt_Enrollment : EnrollmentService;
  rt_Admin : AdminService;
  rt_TLS : option TLSConfig;
}.

Definition has_audit_file (c : Config) : bool := negb (String.eqb (c_AuditFilePath c) EmptyString).

(** [NewGRPCServer] on a service, whose store and audit sink the others share. *)
Definition NewGRPCServer `{CertFiles} (c : Config) (service : Service) (nodeEvidence : bool) : result Runtime :=
  tls ← grpcServerOptions c;
  Ok (mkRuntime c service
        (newEnrollmentService (mkEnrollmentService true true (has_audit_file c) (c_Identities c)
           (c_ClusterID c) (Config_Policy c)))
        (newAdminService (mkAdminService nodeEvidence true (has_audit_file c) true (sv_verifier service)
           (ChallengeTTL c) (NodeEvidenceTTL (c_Kubernetes c)) (NodeEvidenceRetention (c_Kubernetes c))
           (c_ClusterID c) (Config_Policy c) (k_AllowFakeNodeEvidencePublish (c_Kubernetes c))
           (k_NodeEvidencePublishProviders (c_Kubernetes c)) true))
        tls).

(** Seeding the development key and subjects. *)
Definition seedDevelopment (ctx : result unit) (wall : Time) (c : Config) (db : DB) : result unit * DB :=
  if bool_decide (DevelopmentSubjects c = []) then (Ok tt, db)
  else
    match (key ← DevelopmentWrappingKey c; Development_Protect ctx (development_version c key)) with
    | Err e => (Err e, db)
    | Ok protectedKey => ConfigureDevelopment wall c protectedKey db
    end.

(** [NewRuntime] on an opened store; [loaded] is the outcome of reading the policy
    file and [telemetry] that of starting telemetry. *)
Definition NewRuntime `{CertFiles, PayloadJSON} (loaded : string -> result PolicyDocument)
  (clients : KubernetesClients) (telemetry ctx : result unit) (wall : Time) (c : Config) (db : DB)
  : result Runtime * DB :=
  match (c ← WithLoadedPolicy loaded c; Config_Validate c;; Ok c) with
  | Err e => (Err e, db)
  | Ok c =>
      match seedDevelopment ctx wall c db with
      | (Err e, db) => (Err e, db)
      | (Ok _, db) =>
          (telemetry;; '(service, nodeEvidence) ← newRuntimeService clients wall c;
           NewGRPCServer c service nodeEvidence, db)
      end
  end.

(** A runtime that started was built from a configuration that passed validation. *)
Lemma NewRuntime_Ok `{CertFiles, PayloadJSON} loaded clients telemetry ctx wall c db rt db' :
  NewRuntime loaded clients telemetry ctx wall c db = (Ok rt, db') ->
  Config_Validate (rt_Config rt) = Ok tt /\ seedDevelopment ctx wall (rt_Config rt) db = (Ok tt, db') /\
  exists service nodeEvidence, newRuntimeService clients wall (rt_Config rt) = Ok (service, nodeEvidence) /\
    NewGRPCServer (rt_Config rt) service nodeEvidence = Ok rt.
Proof.
  unfold NewRuntime. destruct (c ← WithLoadedPolicy loaded c; Config_Validate c;; Ok c) as [c'|] eqn:Ec; [|done].
  apply bind_Ok in Ec as (c0 & _ & Ec). apply bind_Ok in Ec as ([] & Hv & Ec). injection Ec as ->.
  destruct (seedDevelopment ctx wall c' db) as [[[]|] db1] eqn:Es; [|done]. intros [= Hr <-].
  apply bind_Ok in Hr as (? & _ & Hr). apply bind_Ok in Hr as ([service ne] & Hs & Hg).
  assert (rt_Config rt = c') as -> by (unfold NewGRPCServer in Hg; by inv_ok).
  split_and!; [done | done | by exists service, ne].
Qed.

Lemma NewRuntime_steps `{CertFiles, PayloadJSON} loaded clients telemetry ctx wall c db :
  steps db (NewRuntime loaded clients telemetry ctx wall c db).2.
Proof.
  unfold NewRuntime. destruct (c ← WithLoadedPolicy loaded c; Config_Validate c;; Ok c) as [c'|]; [|apply steps_refl].
  assert (steps db (seedDevelopment ctx wall c' db).2) as Hs.
  { unfold seedDevelopment. case_goal; [apply steps_refl|].
    destruct (key ← DevelopmentWrappingKey c'; Development_Protect ctx (development_version c' key)) as [pk|];
      [|apply steps_refl].
    exists [OConfigureDevelopment wall c' pk]. split; [by ops_typed | done]. }
  by destruct (seedDevelopment ctx wall c' db) as [[[]|] db1].
Qed.

(** ** What a started broker guarantees *)

Lemma secure_transport `{CertFiles} c tls :
  Config_Validate c = Ok tt -> grpcServerOptions c = Ok tls ->
  c_AllowPlaintextForTests c = false -> c_RequireClientCert c = true ->
  tls = Some (mkTLSConfig true RequireAndVerifyClientCert).
Proof.
  intros (Ht & _)%Config_Validate_parts Hg Hp Hr. unfold grpcServerOptions, loadTLSConfig in Hg.
  unfold validateTLS in Ht. apply bind_Ok in Ht as (? & _ & Ht). apply check_Ok in Ht.
  rewrite Hp, Hr in *. simpl in *. to_prop. apply bind_Ok in Hg as (t & Hg & [= <-]).
  apply bind_Ok in Hg as (? & _ & Hg). case_hyp Hg.
  - to_prop. match goal with E : c_ClientCAFile c = _ |- _ => rewrite E in Ht; done end.
  - by inv_ok.
Qed.

(** A broker that has started never serves TPM publishing or control-plane
    identities over a connection without a verified client certificate: if the
    admin service accepts TPM evidence or any operator identity is configured,
    the transport is TLS that requires and verifies client certificates; and TPM
    publishing implies that some configured certificate may enroll nodes of the
    broker's cluster. *)
Theorem started_broker_transport_safe `{CertFiles, PayloadJSON, Hashes}
  loaded clients telemetry ctx wall c db rt db' :
  NewRuntime loaded clients telemetry ctx wall c db = (Ok rt, db') ->
  canPublishNodeEvidenceProvider (rt_Admin rt) ProviderTPM2Quote = true \/ es_identities (rt_Enrollment rt) <> ∅ ->
  rt_TLS rt = Some (mkTLSConfig true RequireAndVerifyClientCert) /\
  (canPublishNodeEvidenceProvider (rt_Admin rt) ProviderTPM2Quote = true ->
   exists hash identity, es_identities (rt_Enrollment rt) !! hash = Some identity /\
     ControlPlaneRoleNodeEvidenceAdmin ∈ cp_Roles identity /\ c_ClusterID (rt_Config rt) ∈ cp_ClusterIDs identity).
Proof.
  intros Hn Hor. apply NewRuntime_Ok in Hn as (Hv & _ & service & ne & _ & Hg).
  unfold NewGRPCServer in Hg. apply bind_Ok in Hg as (tls & Ht & Hg). set (c' := rt_Config rt) in *.
  assert (canPublishNodeEvidenceProvider (rt_Admin rt) ProviderTPM2Quote = true ->
          c_AllowPlaintextForTests c' = false /\ c_RequireClientCert c' = true /\
          controlPlaneHasRole c' ControlPlaneRoleNodeEvidenceAdmin (c_ClusterID c') = true) as Hpub.
  { injection Hg as Hg. rewrite <- Hg. simpl. unfold canPublishNodeEvidenceProvider. simpl. intros Hc.
    assert (exists p, p ∈ k_NodeEvidencePublishProviders (c_Kubernetes c') /\ TrimSpace p = ProviderTPM2Quote)
      as (p & Hin & Hp).
    { apply existsb_exists in Hc as (p & Hin%list_elem_of_In & Hp). exists p. by to_prop. }
    apply Config_Validate_parts in Hv as (_ & _ & _ & _ & _ & _ & Hk).
    unfold validateKubernetes, validateKubernetesNodeEvidence, validateNodeEvidenceProviders in Hk.
    apply bind_Ok in Hk as ([] & Hk & _). apply bind_Ok in Hk as (enabled & He & Hk).
    apply bind_Ok in He as (? & _ & He). injection He as <-.
    apply validateTPM_transport in Hk; [done | by eapply provider_enabled]. }
  assert (es_identities (rt_Enrollment rt) = c_Identities c') as Hid by (injection Hg as Hg; by rewrite <- Hg).
  assert (rt_TLS rt = tls) as -> by (injection Hg as Hg; by rewrite <- Hg).
  rewrite Hid in *. split.
  - apply (secure_transport c'); try done.
    + destruct Hor as [Hc|Hne]; [by apply Hpub|].
      apply Config_Validate_parts in Hv as (_ & _ & _ & _ & _ & Hv & _). unfold validateControlPlane in Hv.
      rewrite bool_decide_false in Hv by done. apply bind_Ok in Hv as (? & Hv & _). apply check_Ok in Hv. by to_prop.
    + destruct Hor as [Hc|Hne]; [by apply Hpub|].
      apply Config_Validate_parts in Hv as (_ & _ & _ & _ & _ & Hv & _). unfold validateControlPlane in Hv.
      rewrite bool_decide_false in Hv by done. apply bind_Ok in Hv as (? & _ & Hv).
      apply bind_Ok in Hv as (? & Hv & _). by apply check_Ok in Hv.
  - intros Hc. by apply controlPlaneHasRole_spec, Hpub.
Qed.

Lemma evaluateNodeEvidence_Allowed env pe read req db :
  pe_nodeEvidence pe = Some read -> wi_NodeName (pr_Workload req) <> EmptyString ->
  Allowed (evaluateNodeEvidence env pe req db) = true ->
  exists e, read db (pr_ClusterID req) (wi_NodeName (pr_Workload req)) (e_clock env AtNode) = Ok e /\
    (wi_NodeUID (pr_Workload req) = EmptyString \/ ne_NodeUID e = EmptyString \/
     wi_NodeUID (pr_Workload req) = ne_NodeUID e).
Proof.
  intros Hr Hn. unfold evaluateNodeEvidence. rewrite Hr, (proj2 (String.eqb_neq _ EmptyString) Hn).
  destruct (read _ _ _ _) as [e|err]; [|by rewrite nodeEvidenceDeny_denies]. cbv zeta.
  case_goal; [done|]. intros _. exists e. split; [done|].
  match goal with E : _ && _ = false |- _ => apply andb_false_iff in E as [E|E] end; to_prop; auto.
  match goal with E : _ && _ = false |- _ => apply andb_false_iff in E as [E|E] end; to_prop; auto.
Qed.

Lemma fresh_unexpired wall db c n now e :
  sql_FreshNodeEvidence wall db c n now = Ok e -> or_now wall now < ne_ExpiresAt e.
Proof.
  unfold sql_FreshNodeEvidence. intros H. apply bind_Ok in H as (e' & _ & H). unfold After in H.
  case_hyp H; [done|]. injection H as <-. by to_prop.
Qed.

(** The audiences a review asks for: the configured one, if any. *)
Definition configured_audiences (k : KubernetesConfig) : list string :=
  if String.eqb (TrimSpace (k_TokenReviewAudience k)) EmptyString then [] else [TrimSpace (k_TokenReviewAudience k)].

(** The API server's word for a token of account [sa] of [ns]: it is authenticated,
    for the configured audience, and within the configured restrictions. *)
Definition token_vouched (k : KubernetesConfig) (reviewer : TokenReviewer) (token : string)
  (status : TokenReviewStatus) (ns sa : string) : Prop :=
  reviewer token (configured_audiences k) = Ok status /\
  tr_Authenticated status = true /\ tr_Error status = EmptyString /\
  (TrimSpace (k_TokenReviewAudience k) = EmptyString \/ TrimSpace (k_TokenReviewAudience k) ∈ tr_Audiences status) /\
  ui_Username (tr_User status) = "system:serviceaccount:" +:+ ns +:+ ":" +:+ sa /\
  restricts (k_Namespace k) ns /\ restricts (k_ServiceAccount k) sa.

(** The node a reviewed token runs on: that of the API server's record of the
    token's pod when tokens must be bound to a pod, and otherwise the one the token
    names, if it names any. *)
Definition node_vouched (k : KubernetesConfig) (lookup : PodLookup) (status : TokenReviewStatus)
  (ns node : string) : Prop :=
  if RequirePodBoundToken k
  then exists pod, lookup ns (claim status extraPodName) = Ok pod /\ claim status extraPodUID <> EmptyString /\
       pi_UID pod = claim status extraPodUID /\ node = pi_NodeName pod /\ node <> EmptyString
  else node = claim status extraNodeName.

(** The store's evidence of a node: unexpired, not of another machine than the token
    names, and, for TPM evidence, of the node's active enrollment. *)
Definition node_attested (wall : Time) (db : DB) (clusterID node nodeUID : string) (now : Time) : Prop :=
  exists evidence, sql_FreshNodeEvidence wall db clusterID node now = Ok evidence /\
    or_now wall now < ne_ExpiresAt evidence /\
    (nodeUID = EmptyString \/ ne_NodeUID evidence = EmptyString \/ nodeUID = ne_NodeUID evidence) /\
    (ne_Provider evidence = ProviderTPM2Quote ->
     exists row en, node_evidence db !! key_of clusterID node = Some row /\
       queryEnrollment db (key_of clusterID node) = Ok en /\ Enrollment_Active en = true /\
       en_NodeUID en = ne_NodeUID evidence /\ ner_enrollment_revision row = Some (en_Revision en)).

Lemma kubernetes_verifier_vouches `{PayloadJSON} reviewer lookup k envelope vf :
  KubernetesEvidenceVerifier (newKubernetesRuntimeDependencies reviewer lookup k) envelope = Ok vf ->
  exists e token status ns sa node,
    envelope = Some e /\ ev_Provider e = ATTESTATION_PROVIDER_KUBERNETES_WORKLOAD /\
    json_Unmarshal_token (ev_Payload e) = Ok token /\ token_vouched k reviewer token status ns sa /\
    node_vouched k lookup status ns node /\ vf_Subject vf = ns +:+ "." +:+ sa /\
    wi_NodeName (vf_Workload vf) = node /\ wi_NodeUID (vf_Workload vf) = claim status extraNodeUID.
Proof.
  intros Hv. apply verifier_accepts in Hv
    as (e & token & rv & status & ns & sa & pod & He & Hp & Hj & _ & Hrv & Hst & Hrev & -> & Hpod).
  injection Hrv as <-. exists e, token, status, ns, sa. eexists. split_and!; try done.
  - destruct (rv_authenticated _ _ _ _ Hrev) as [A1 A2]. destruct (rv_allowed _ _ _ _ Hrev) as [R1 R2].
    split_and!; try done; [apply (rv_audience _ _ _ _ Hrev) | apply (rv_account _ _ _ _ Hrev)].
  - unfold node_vouched. simpl in Hpod. unfold newKubernetesRuntimeDependencies in Hpod.
    destruct (RequirePodBoundToken k) eqn:Eb; simpl in Hpod; destruct pod as [pod|]; try done.
    destruct Hpod as (Hl & Huid & Hnode). exists pod. split_and!; try done.
    apply (rv_pod _ _ _ _ Hrev). by left.
Qed.

(** C1: the chain of trust of a Kubernetes broker.  When it allows an Unwrap, then
    the API server, asked for the configured audience, authenticated the very token
    in the request's evidence, as one of a service account within the configured
    restrictions; the subject of that account is enrolled and not revoked; and if
    the token is of a workload on some node, then that node had unexpired evidence,
    which does not name another machine than the token and, when it is TPM evidence,
    belongs to an active enrollment of that very node at the recorded revision.  When
    the configuration requires pod-bound tokens there always is a node, the one in
    the API server's record of the pod with the token's name and UID.  The store's
    part is read from states between the one the request found and the one it
    left. *)
Theorem kubernetes_unwrap_sound `{AEAD, Protector, ProtoLib, Hashes, PayloadJSON}
  clients wall c reviewer lookup service ne env req b p pd b' :
  k_Enabled (c_Kubernetes c) = true -> clients (c_Kubernetes c) = Ok (reviewer, lookup) ->
  newRuntimeService clients wall c = Ok (service, ne) ->
  env_typed env -> reachable (b_db b) ->
  Unwrap service env (Some req) b = (mkUnwrapResponse p pd, b') ->
  pd_State pd = POLICY_DECISION_STATE_ALLOW ->
  exists ref e token status ns sa node db1 db2,
    GetKey (uq_Blob req) = Some ref /\
    uq_Evidence req = Some e /\ ev_Provider e = ATTESTATION_PROVIDER_KUBERNETES_WORKLOAD /\
    json_Unmarshal_token (ev_Payload e) = Ok token /\
    token_vouched (c_Kubernetes c) reviewer token status ns sa /\
    node_vouched (c_Kubernetes c) lookup status ns node /\
    store_Subject db1 (ClusterID ref) (ns +:+ "." +:+ sa)
    = Ok (mkSubject (ClusterID ref) (ns +:+ "." +:+ sa) false) /\
    (node <> EmptyString ->
     node_attested wall db2 (ClusterID ref) node (claim status extraNodeUID) (e_clock env AtNode)) /\
    store_le (b_db b) db1 /\ store_le db1 db2 /\ store_le db2 (b_db b').
Proof.
  intros Hk Hcl Hs He Hr Hu Ha. pose proof (reachable_inv _ Hr) as Hi.
  unfold newRuntimeService in Hs. rewrite Hk in Hs. simpl in Hs. rewrite Hcl in Hs. injection Hs as <- <-.
  destruct (Unwrap_allow _ _ _ _ _ _ _ Hu Ha) as (vf & ref & d & db4 & ring & Hv & Href & Hev & Hd & _ & _ & Hb).
  apply kubernetes_verifier_vouches in Hv as (e & token & status & ns & sa & node & Hevi & Hpr & Hj & Ht & Hnode & Hsu & Hwn & Hwu).
  pose proof (evaluate_run _ _ _ _ _ _ Hev Hd) as Hrun.
  apply (evaluate_Allowed _ _ _ _ _ _ Hev) in Hd as (_ & Hsub & Hn & _ & dbc & key & Hc & Hdb4 & _).
  set (db1 := at_ env AtSubject (b_db b)) in *. set (db2 := at_ env AtNode db1) in *.
  assert (store_inv db1) as I1 by (by apply at_inv). assert (store_inv db2) as I2 by (by apply at_inv).
  simpl in Hsub. rewrite Hsu in Hsub. apply store_Subject_ok in Hsub. apply keyRef_Ok in Href as [Href _].
  exists ref, e, token, status, ns, sa, node, db1, db2. split_and!; try done.
  - intros Hne. eapply evaluateNodeEvidence_Allowed in Hn as (evidence & Hf & Hm); [|reflexivity | by simpl; rewrite Hwn].
    simpl in Hf, Hm. rewrite Hwn in Hf. rewrite Hwu in Hm. exists evidence. split_and!; try done.
    + by apply (fresh_unexpired _ _ _ _ _ _ Hf).
    + intros Hp. by apply (fresh_enrolled _ _ _ _ _ _ (si_nodes _ I2) Hf Hp).
  - by apply at_le.
  - by apply at_le.
  - subst b'. assert (store_inv (at_ env AtConsume db2)) as I3 by (by apply at_inv).
    destruct (consume_step _ _ _ _ _ _ _ I3 int32_unwrap Hc) as [I4 L4].
    assert (store_inv db4) as I5 by (rewrite Hdb4; by apply at_inv).
    assert (store_inv (at_ env AtLoad db4)) as I6 by (by apply at_inv).
    transitivity (at_ env AtConsume db2); [by apply at_le|]. etransitivity; [exact L4|].
    transitivity db4; [rewrite Hdb4; by apply at_le|]. transitivity (at_ env AtLoad db4); [by apply at_le|].
    by apply (auditDecision_le env _ _ _ _ _ _ (mkBroker (at_ env AtLoad db4) (b_file b))).
Qed.

(** An allowed revocation locks the node out. *)
Lemma revocation_locks_out `{Hashes} es env late peer rev b resp b1 :
  trust_typed env late -> reachable (b_db b) ->
  RevokeNodeEvidence es env late peer (Some rev) b = (resp, b1) ->
  pd_State (nep_Decision resp) = POLICY_DECISION_STATE_ALLOW ->
  locked_out (key_of (nrq_ClusterId rev) (nrq_NodeName rev)) (b_db b1) /\ TrimSpace (nrq_NodeName rev) <> EmptyString.
Proof.
  intros Ht Hr Hh Ha. destruct (Revoke_trace _ _ _ _ _ _ _ _ Hh) as [[? _]|Hp]; [done|].
  destruct Hp as (actor & cluster & node & reason & id & o & b0 & _ & [Hreq ->] & _ & Hau & Hout).
  destruct Hout as [(_ & -> & en & Hen & _) | [? _]]; [|done].
  destruct Ht as (He & _ & _ & Ht). unfold nodeEvidenceRevocationRequestFromProto in Hreq.
  injection Hreq as <- <- Hreq. apply bind_Ok in Hreq as (? & Hc & _). apply check_Ok in Hc. to_prop.
  split; [|done]. simpl in Hen |- *. destruct (sql_RevokeNodeEvidence _ _ _ _) as [r db'] eqn:E. simpl in Hen. subst r.
  assert (forall c n, key_of (TrimSpace c) (TrimSpace n) = key_of c n) as Hk by (intros; unfold key_of; by rewrite !TrimSpace_idem).
  rewrite <- Hk. eapply revoked_locked_out; [|exact Ht | exact E]. apply si_nodes, reachable_inv.
  eapply steps_reachable; [|exact Hr].
  eapply steps_trans; [by apply (audit_only_steps env) | by apply (steps_at env)].
Qed.

(** C7: revocation reaches the workloads.  After an operator's revocation of a
    node was allowed, and as long as nobody enrolls that node again or submits
    evidence for it outside of enrollment (of another provider than the TPM), a broker that reads node evidence
    denies every Unwrap of a workload whose pod runs there and releases no
    plaintext, whatever else happened in between and happens meanwhile. *)
Theorem revoked_node_workloads_locked_out `{AEAD, Protector, ProtoLib, Hashes}
  es env late peer rev b resp b1 ops wall s env2 file req vf ref :
  trust_typed env late -> reachable (b_db b) ->
  handle es env late peer (Revoke (Some rev)) b = (resp, b1) ->
  pd_State (nep_Decision resp) = POLICY_DECISION_STATE_ALLOW ->
  Forall (fun o => ~ readmits (key_of (nrq_ClusterId rev) (nrq_NodeName rev)) o) ops ->
  (forall p, Forall (fun o => ~ readmits (key_of (nrq_ClusterId rev) (nrq_NodeName rev)) o) (e_others env2 p)) ->
  pe_nodeEvidence (sv_policy s) = Some (sql_FreshNodeEvidence wall) ->
  verifier_of s (uq_Evidence req) = Ok vf -> GetKey (uq_Blob req) = Some ref ->
  key_of (ClusterID ref) (wi_NodeName (vf_Workload vf)) = key_of (nrq_ClusterId rev) (nrq_NodeName rev) ->
  let answer := (Unwrap s env2 (Some req) (mkBroker (run ops (b_db b1)) file)).1 in
  pd_State (up_Decision answer) <> POLICY_DECISION_STATE_ALLOW /\ up_Plaintext answer = EmptyString.
Proof.
  intros Ht Hr Hh Ha Hops Hoth Hpe Hv Hk Hkey answer. subst answer.
  set (k := key_of (nrq_ClusterId rev) (nrq_NodeName rev)) in *.
  destruct (revocation_locks_out _ _ _ _ _ _ _ _ Ht Hr Hh Ha) as [Hl Hnode].
  destruct (Unwrap s env2 (Some req) _) as [[p pd] b2] eqn:Hu. simpl.
  destruct (decide (pd_State pd = POLICY_DECISION_STATE_ALLOW)) as [Hal|Hne].
  2:{ split; [done|]. by apply Unwrap_no_plaintext in Hu. }
  exfalso. destruct (Unwrap_allow _ _ _ _ _ _ _ Hu Hal) as (vf' & ref' & d & db4 & ring & Hv' & Hk' & Hev & Hd & _).
  rewrite Hv in Hv'. injection Hv' as <-. apply keyRef_Ok in Hk' as [Hk' _]. rewrite Hk in Hk'. injection Hk' as <-.
  apply (evaluate_Allowed _ _ _ _ _ _ Hev) in Hd as (_ & _ & Hn & _).
  eapply evaluateNodeEvidence_Allowed in Hn as (e & Hf & _); [|exact Hpe |].
  - simpl in Hf. rewrite locked_out_stale in Hf; [done|]. rewrite Hkey. unfold at_.
    by apply locked_out_run, locked_out_run, locked_out_run.
  - simpl. intros Hz. apply Hnode. apply (f_equal snd) in Hkey. simpl in Hkey. by rewrite Hz in Hkey.
Qed.

(** ** Serving: the calls of the three services *)

Inductive call :=
| CallChallenge (now : Time) (r1 r2 : result bytes) (req : option ChallengeRequest)
| CallWrap (env : Env) (req : option WrapRequest)
| CallUnwrap (env : Env) (req : option UnwrapRequest)
| CallStatus (env : Env) (cluster : string)
| CallChallengeNodeEvidence (env : Env) (peer : Peer) (r1 r2 : result bytes)
    (req : option NodeEvidenceChallengeRequest)
| CallPublishNodeEvidence (env : Env) (peer : Peer) (req : option NodeEvidenceSubmission)
| CallListNodeEvidence (env : Env) (req : option (string * string))
| CallCheckEvidence (env : Env) (req : option EvidenceCheckRequest)
| CallTrust (env late : Env) (peer : Peer) (c : trust_change)
| CallListEnrollments (env : Env) (peer : Peer) (req : option NodeEvidenceEnrollmentListRequest).

Section Serving.
Context `{AEAD, Protector, ProtoLib, Hashes, TpmLib, EvidenceJSON}.

(** The state that the broker is left in by a call. *)
Definition serve (rt : Runtime) (c : call) (b : Broker) : Broker :=
  match c with
  | CallChallenge now r1 r2 req =>
      mkBroker (Challenge_handler (rt_Service rt) now r1 r2 req (b_db b)).2 (b_file b)
  | CallWrap env req => (Wrap (rt_Service rt) env req b).2
  | CallUnwrap env req => (Unwrap (rt_Service rt) env req b).2
  | CallStatus env cluster => let _ := Status_handler (rt_Service rt) env cluster (b_db b) in b
  | CallChallengeNodeEvidence env peer r1 r2 req => (ChallengeNodeEvidence (rt_Admin rt) env peer r1 r2 req b).2
  | CallPublishNodeEvidence env peer req => (PublishNodeEvidence (rt_Admin rt) env peer req b).2
  | CallListNodeEvidence env req => (ListNodeEvidence (rt_Admin rt) env req b).2
  | CallCheckEvidence env req => (CheckEvidence (rt_Admin rt) env req b).2
  | CallTrust env late peer c => (handle (rt_Enrollment rt) env late peer c b).2
  | CallListEnrollments env peer req => (ListNodeEvidenceEnrollments (rt_Enrollment rt) env peer req b).2
  end.

(** The clocks are in the years 1 to 9999, expiries included, and enums are 32 bits wide. *)
Definition call_typed (rt : Runtime) (c : call) : Prop :=
  match c with
  | CallChallenge now _ _ req =>
      time_ok now /\ time_ok (now + ChallengeTTL (sv_config (rt_Service rt))) /\
      forall r, req = Some r -> int32 (cq_Operation r)
  | CallWrap env _ | CallUnwrap env _ | CallPublishNodeEvidence env _ _ | CallListNodeEvidence env _
  | CallCheckEvidence env _ | CallListEnrollments env _ _ => env_typed env
  | CallStatus _ _ => True
  | CallChallengeNodeEvidence env _ _ _ _ => env_typed env /\ clock_typed (rt_Admin rt) env
  | CallTrust env late _ _ => trust_typed env late
  end.

Lemma Challenge_handler_steps s now r1 r2 req db :
  time_ok now -> time_ok (now + ChallengeTTL (sv_config s)) ->
  (forall r, req = Some r -> int32 (cq_Operation r)) ->
  steps db (Challenge_handler s now r1 r2 req db).2.
Proof.
  intros Ht1 Ht2 Ho. unfold Challenge_handler. destruct req as [req|]; [|apply steps_refl].
  case_goal; [apply steps_refl|]. destruct (randomID r1 _) as [id|]; [|apply steps_refl].
  destruct (randomNonce r2) as [nonce|]; [|apply steps_refl]. cbv zeta. set (ch := mkChallenge _ _ _ _ _ _ _).
  assert (steps db (sql_CreateChallenge db ch).2) as Hs.
  { exists [OCreateChallenge ch]. split; [|done]. constructor; [|constructor].
    split_and!; simpl; try done. by apply Ho. }
  by destruct (sql_CreateChallenge db ch) as [[[]|] db'].
Qed.

Lemma serve_steps rt c b : call_typed rt c -> steps (b_db b) (b_db (serve rt c b)).
Proof.
  destruct c; simpl; intros Ht.
  - destruct Ht as (? & ? & ?). by apply Challenge_handler_steps.
  - by apply Wrap_steps.
  - by apply Unwrap_steps.
  - apply steps_refl.
  - destruct Ht. by apply Challenge_steps.
  - by apply Publish_steps.
  - by apply List_steps.
  - by apply Check_steps.
  - by apply handle_steps.
  - by apply ListEnrollments_steps.
Qed.

Lemma serve_all_steps rt calls b :
  Forall (call_typed rt) calls -> steps (b_db b) (b_db (foldl (fun b c => serve rt c b) b calls)).
Proof.
  intros Hc. revert b. induction Hc as [|c calls Ht _ IH]; intros b; simpl; [apply steps_refl|].
  eapply steps_trans; [by apply (serve_steps rt) | apply IH].
Qed.

(** Whatever the broker is asked, by whomever and however calls interleave,
    it only performs store operations: serving any list of calls keeps the
    database reachable, so that every invariant of the store holds between any
    two calls, and undoes nothing: keys, revocations, spent challenges and
    consumed grants stay as they are. *)
Theorem serving_preserves_store rt calls b :
  Forall (call_typed rt) calls -> reachable (b_db b) ->
  let b' := foldl (fun b c => serve rt c b) b calls in
  reachable (b_db b') /\ store_le (b_db b) (b_db b').
Proof.
  intros Hc Hr b'. pose proof (serve_all_steps rt calls b Hc) as Hs.
  split; [by eapply steps_reachable | by apply steps_le; [apply reachable_inv|]].
Qed.
End Serving.

(** ** A concrete broker, from its configuration to an unwrapped key *)

Definition toy_CertFiles : CertFiles := {|
  LoadX509KeyPair _ _ := Ok tt; ReadCertFile _ := Ok "pem"%string; AppendCertsFromPEM _ := true |}.
Definition example_kubernetes_config : Config :=
  mkConfig "0.0.0.0:8443" "tls.crt" "tls.key" "ca.crt" true false "state.db" "audit.log" false EmptyString
    EmptyString EmptyString "cluster-a" "key-1" "policy-1"
    {[ example_publisher := mkControlPlaneIdentity [ControlPlaneRoleNodeEvidenceAdmin] ["cluster-a"%string] ]}
    "openbao.agent" (c_DevelopmentWrappingKeyB64 example_config) 300 example_kubernetes
    (mkPolicyDocument EmptyString EmptyString []).
Definition example_clients (_ : KubernetesConfig) : result (TokenReviewer * PodLookup) :=
  Ok (example_reviewer, example_lookup).
Definition no_policy_file (_ : string) : result PolicyDocument := Err (errorf "no policy file").
Definition example_started : result Runtime * DB :=
  @NewRuntime toy_CertFiles toy_PayloadJSON no_policy_file example_clients (Ok tt) (Ok tt) example_time
    example_kubernetes_config empty_db.
Definition empty_runtime : Runtime :=
  mkRuntime example_config Service.example_service example_operators example_admin None.
Definition example_runtime : Runtime := match example_started.1 with Ok rt => rt | Err _ => empty_runtime end.

Example example_starts : is_ok example_started.1 = true.
Proof. vm_compute. reflexivity. Qed.

Definition example_start : Broker := mkBroker example_started.2 [].
Definition example_enroll_request : trust_change :=
  Enroll (Some (mkNodeEvidenceEnrollmentRequest "cluster-a" "node-1" "uid-1" ProviderTPM2Quote
    (Some (policyToProto example_policy)) [example_publisher] "new node" None)).
Definition id_of (random : bytes) (prefix : string) : string :=
  match randomID (Ok random) prefix with Ok id => id | Err _ => EmptyString end.
Definition example_token (challenge : string) : option EvidenceEnvelope :=
  Some (mkEvidenceEnvelope ATTESTATION_PROVIDER_KUBERNETES_WORKLOAD Kubernetes.EvidenceFormat "token" challenge []).
Definition env_with (id : bytes) : Env :=
  mkEnv (Ok tt) (fun _ => example_time) (Ok id) (Ok "nonce-nonce-"%string) "peer" (Ok tt) (fun _ => []).
Definition node_submission : NodeEvidenceSubmission :=
  mkNodeEvidenceSubmission "cluster-a" "node-1" "uid-1" ProviderTPM2Quote Tpm.EvidenceFormat
    (id_of "n" "node_chal") (id_of "n" "node_chal") 3600.
(** An operator enrolls the node, the node publishes evidence, the workload wraps,
    and asks for a challenge to unwrap. *)
Definition example_calls : list call :=
  [CallTrust (env_with "a1") (env_with "a2") example_peer example_enroll_request;
   CallChallengeNodeEvidence (env_with "a3") example_peer (Ok "n"%string) (Ok "nonce"%string)
     (Some (mkNodeEvidenceChallengeRequest "cluster-a" "node-1" "uid-1" ProviderTPM2Quote));
   CallPublishNodeEvidence (env_with "a4") example_peer (Some node_submission);
   CallChallenge example_time (Ok "w"%string) (Ok "n1"%string)
     (Some (Service.mkChallengeRequest "cluster-a" "openbao.agent" OPERATION_WRAP));
   CallChallenge example_time (Ok "u"%string) (Ok "n2"%string)
     (Some (Service.mkChallengeRequest "cluster-a" "openbao.agent" OPERATION_UNWRAP))].
Definition served (calls : list call) : Broker :=
  foldl (fun b c => @serve toy_AEAD DevelopmentProtector toy_ProtoLib toy_Hashes toy_TpmLib toy_EvidenceJSON
                     example_runtime c b) example_start calls.
(** The unseal service of that broker. *)
Definition example_workload_service : Service :=
  NewServiceWithEvidenceVerifierAndNodeEvidence example_kubernetes_config
    (Some (@KubernetesEvidenceVerifier toy_PayloadJSON
             (newKubernetesRuntimeDependencies example_reviewer example_lookup example_kubernetes)))
    (Some (sql_FreshNodeEvidence example_time)).
Definition example_wrap_call : WrapResponse * Broker :=
  @Wrap toy_AEAD DevelopmentProtector toy_ProtoLib toy_Hashes example_workload_service (env_with "a5")
    (Some (mkWrapRequest None "root key" "aad" (example_token (id_of "w" "chal")))) (served example_calls).
Definition example_blob : option WrappedBlob := wp_Blob example_wrap_call.1.
Definition example_unwrap_req : UnwrapRequest :=
  mkUnwrapRequest example_blob "aad" (example_token (id_of "u" "chal")).
Definition example_unwrap_call : UnwrapResponse * Broker :=
  @Unwrap toy_AEAD DevelopmentProtector toy_ProtoLib toy_Hashes example_workload_service (env_with "a6")
    (Some example_unwrap_req) example_wrap_call.2.

(** The key comes back. *)
Example example_unwraps : up_Plaintext example_unwrap_call.1 = "root key"%string.
Proof. vm_compute. reflexivity. Qed.

Lemma example_calls_typed : Forall (call_typed example_runtime) example_calls.
Proof.
  assert (forall id, env_typed (env_with id)) as He by (intros id p; constructor).
  assert (time_ok example_time) as Ht by (vm_compute; split; congruence).
  assert (time_ok (example_time + ChallengeTTL (sv_config (rt_Service example_runtime)))) as Httl
    by (vm_compute; split; congruence).
  assert (clock_typed (rt_Admin example_runtime) (env_with "a3")) as Hclock
    by (vm_compute; repeat split; congruence).
  unfold example_calls. repeat apply Forall_cons_2; [| | | | | apply Forall_nil_2]; cbn [call_typed].
  - split; [apply He|]. split; [apply He|]. split; exact Ht.
  - split; [apply He | exact Hclock].
  - apply He.
  - split; [exact Ht|]. split; [exact Httl|]. by intros r [= <-].
  - split; [exact Ht|]. split; [exact Httl|]. by intros r [= <-].
Qed.

Example example_serves_tpm : canPublishNodeEvidenceProvider (rt_Admin example_runtime) ProviderTPM2Quote = true.
Proof. vm_compute. reflexivity. Qed.

Lemma example_started_Ok : example_started = (Ok example_runtime, example_started.2).
Proof. unfold example_runtime. pose proof example_starts as Hs. destruct example_started as [[rt|] db]; [reflexivity | discriminate Hs]. Qed.

Lemma example_start_reachable : reachable (b_db example_start).
Proof.
  eapply steps_reachable; [|exact reach_empty].
  unfold example_start, example_started. cbn [b_db]. apply NewRuntime_steps.
Qed.

Lemma started_broker_transport_safe_witness :
  rt_TLS example_runtime = Some (mkTLSConfig true RequireAndVerifyClientCert).
Proof.
  apply (@started_broker_transport_safe toy_CertFiles toy_PayloadJSON toy_Hashes no_policy_file example_clients
    (Ok tt) (Ok tt) example_time example_kubernetes_config empty_db example_runtime example_started.2).
  - exact example_started_Ok.
  - left. exact example_serves_tpm.
Defined.

Lemma serving_preserves_store_witness :
  reachable (b_db (served example_calls)) /\ store_le (b_db example_start) (b_db (served example_calls)).
Proof.
  exact (@serving_preserves_store toy_AEAD DevelopmentProtector toy_ProtoLib toy_Hashes toy_TpmLib toy_EvidenceJSON
    example_runtime example_calls example_start example_calls_typed example_start_reachable).
Defined.

Lemma example_wrap_call_reachable : reachable (b_db example_wrap_call.2).
Proof.
  eapply steps_reachable; [apply Wrap_steps; intros p; constructor|].
  apply (steps_reachable (b_db example_start)); [|exact example_start_reachable].
  apply serve_all_steps. exact example_calls_typed.
Qed.

Lemma kubernetes_unwrap_sound_witness :
  up_Plaintext example_unwrap_call.1 = "root key"%string /\
  exists (token : string) (db : DB) (evidence : NodeEvidence), @json_Unmarshal_token toy_PayloadJSON "token" = Ok token /\
    is_ok (example_reviewer token (configured_audiences example_kubernetes)) = true /\
    sql_FreshNodeEvidence example_time db "cluster-a" "node-1" example_time = Ok evidence.
Proof.
  split; [vm_compute; reflexivity|].
  destruct (@kubernetes_unwrap_sound toy_AEAD DevelopmentProtector toy_ProtoLib toy_Hashes toy_PayloadJSON
    example_clients example_time example_kubernetes_config example_reviewer example_lookup
    example_workload_service true (env_with "a6") example_unwrap_req example_wrap_call.2
    (up_Plaintext example_unwrap_call.1) (up_Decision example_unwrap_call.1) example_unwrap_call.2)
    as (ref & e & token & status & ns & sa & node & db1 & db2 & Href & He & _ & Hj & (Hrv & _) & Hn & _ & Hf & _).
  - reflexivity.
  - reflexivity.
  - reflexivity.
  - intros p. constructor.
  - exact example_wrap_call_reachable.
  - unfold example_unwrap_call. destruct (Unwrap _ _ _ _) as [[p pd] b']. reflexivity.
  - vm_compute. reflexivity.
  - destruct Hn as (pod & Hl & _ & _ & -> & Hne). unfold example_lookup in Hl.
    case_hyp Hl; [injection Hl as <- | discriminate Hl].
    destruct (Hf Hne) as (evidence & Hfr & _). exists token, db2, evidence.
    unfold example_unwrap_req in He. cbn [uq_Evidence] in He. injection He as <-.
    split; [exact Hj|]. split; [cbn [c_Kubernetes example_kubernetes_config] in Hrv; rewrite Hrv; reflexivity|].
    replace "cluster-a"%string with (ClusterID ref); [exact Hfr|]. vm_compute in Href. injection Href as <-. reflexivity.
Defined.

(** The same broker after the operator revoked the node: the workload is denied. *)
Definition example_revocation_request : NodeEvidenceRevocationRequest :=
  mkNodeEvidenceRevocationRequest "cluster-a" "node-1" "decommissioned" None.
Definition example_revoke_call : NodeEvidenceEnrollmentResponse * Broker :=
  @handle toy_Hashes example_operators (env_with "a7") (env_with "a8") example_peer
    (Revoke (Some example_revocation_request)) example_wrap_call.2.

Lemma revoked_node_workloads_locked_out_witness :
  pd_State (nep_Decision example_revoke_call.1) = POLICY_DECISION_STATE_ALLOW /\
  up_Plaintext (@Unwrap toy_AEAD DevelopmentProtector toy_ProtoLib toy_Hashes example_workload_service (env_with "a9")
    (Some example_unwrap_req) (mkBroker (run [] (b_db example_revoke_call.2)) [])).1 = EmptyString.
Proof.
  split; [vm_compute; reflexivity|].
  apply (@revoked_node_workloads_locked_out toy_AEAD DevelopmentProtector toy_ProtoLib toy_Hashes
    example_operators (env_with "a7") (env_with "a8") example_peer example_revocation_request example_wrap_call.2
    example_revoke_call.1 example_revoke_call.2 [] example_time example_workload_service (env_with "a9") []
    example_unwrap_req example_identity (mkKeyRef "cluster-a" "key-1" 1)).
  - split; [intros p; constructor|]. split; [intros p; constructor|]. split; vm_compute; split; congruence.
  - exact example_wrap_call_reachable.
  - apply surjective_pairing.
  - vm_compute. reflexivity.
  - constructor.
  - intros p. constructor.
  - reflexivity.
  - exact example_verified.
  - vm_compute. reflexivity.
  - vm_compute. reflexivity.
Defined.
