(* ===== verification/CtlProps.v ===== *)
(** * Properties of the operator commands

    Every command is a run of store operations; [init], [rotate] and
    [recover enroll] together: what a recovered broker can open; [enroll apply]:
    what a grant can do. *)

From S2P Require Import Prelude GoStrings Json GoTime Keyring KeyProtection Tpm NodeEvidence Config.
From S2P Require Import Sql Store Challenges SqlNodeEvidence StoreInv StoreOps Policy Gf256 Shamir Recovery Grants Ctl Service.
Local Open Scope Z_scope.

(** ** Running commands *)

Lemma cmd_bind_Done {A B} (m : cmd A) (f : A -> cmd B) b x b' :
  (m ≫= f) b = (inl x, b') <-> exists a b1, m b = (inl a, b1) /\ f a b1 = (inl x, b').
Proof.
  unfold mbind, cmd_bind. destruct (m b) as [[a|e] b1].
  - split; [by eauto|]. by intros (a' & b2 & [= <- <-] & ?).
  - split; [done|]. by intros (? & ? & ? & _).
Qed.

Lemma cmd_ret_Done {A} (a x : A) b b' : (mret a : cmd A) b = (inl x, b') <-> x = a /\ b' = b.
Proof. unfold mret, cmd_ret. split; [by intros [= -> ->] | by intros [-> ->]]. Qed.

Lemma or_exit_Done {A} code (m : result A) b x b' : or_exit code m b = (inl x, b') <-> m = Ok x /\ b' = b.
Proof.
  unfold or_exit. destruct m; [split; [by intros [= -> ->] | by intros [[= ->] ->]]|].
  split; [done | by intros [? _]].
Qed.

Lemma exit_with_Done {A} code e b (x : A) b' : exit_with code e b = (inl x, b') <-> False.
Proof. done. Qed.

Lemma on_store_Done {A} code (f : DB -> result A * DB) b x b' :
  on_store code f b = (inl x, b') <-> exists db, f (b_db b) = (Ok x, db) /\ b' = mkBroker db (b_file b).
Proof.
  unfold on_store. destruct (f (b_db b)) as [r db]. rewrite or_exit_Done. split.
  - intros [-> ->]. by exists db.
  - by intros (db' & [= -> ->] & ->).
Qed.

Lemma reading_Done {A} (f : DB -> result A) db x db' : reading f db = (Ok x, db') <-> f db = Ok x /\ db' = db.
Proof. unfold reading. split; [by intros [= -> ->] | by intros [-> ->]]. Qed.

Lemma flag_check_Done (c : bool) code e b u b' :
  (if c then exit_with code e else mret tt : cmd unit) b = (inl u, b') <-> c = false /\ b' = b.
Proof. destruct c, u; unfold mret, cmd_ret; simpl; naive_solver. Qed.

(** Take a successful run of a command apart. *)
Ltac inv_cmd :=
  repeat match goal with
  | H : (_ ≫= _) _ = (inl _, _) |- _ => apply cmd_bind_Done in H as (? & ? & ? & H)
  | H : (mret _) _ = (inl _, _) |- _ => apply cmd_ret_Done in H as [? ?]; subst
  | H : or_exit _ _ _ = (inl _, _) |- _ => apply or_exit_Done in H as [? ?]; subst
  | H : exit_with _ _ _ = (inl _, _) |- _ => destruct (proj1 (exit_with_Done _ _ _ _ _) H)
  | H : on_store _ _ _ = (inl _, _) |- _ => apply on_store_Done in H as (? & H & ?); subst
  | H : reading _ _ = (Ok _, _) |- _ => apply reading_Done in H as [? ?]; subst
  | H : (if _ then exit_with _ _ else mret tt) _ = (inl _, _) |- _ => apply flag_check_Done in H as [? ?]; subst
  | H : validateFormat _ _ = (inl _, _) |- _ => unfold validateFormat in H; case_hyp H
  | H : validateKeyringProfile _ _ = (inl _, _) |- _ => unfold validateKeyringProfile in H; case_hyp H
  end.

(** ** Commands are runs of store operations *)

Definition cmd_steps {A} (m : cmd A) : Prop := forall b, steps (b_db b) (b_db (m b).2).

Lemma cmd_steps_bind {A B} (m : cmd A) (f : A -> cmd B) :
  cmd_steps m -> (forall a, cmd_steps (f a)) -> cmd_steps (m ≫= f).
Proof.
  intros Hm Hf b. unfold mbind, cmd_bind. specialize (Hm b). destruct (m b) as [[a|e] b1]; [|done].
  eapply steps_trans; [exact Hm | apply Hf].
Qed.

Lemma cmd_steps_ret {A} (a : A) : cmd_steps (mret a).
Proof. intros b. apply steps_refl. Qed.

Lemma cmd_steps_or_exit {A} code (m : result A) : cmd_steps (or_exit code m).
Proof. intros b. unfold or_exit. destruct m; apply steps_refl. Qed.

Lemma cmd_steps_exit {A} code e : cmd_steps (exit_with code e : cmd A).
Proof. apply cmd_steps_or_exit. Qed.

Lemma cmd_steps_store {A} code (f : DB -> result A * DB) : (forall db, steps db (f db).2) -> cmd_steps (on_store code f).
Proof.
  intros Hf b. unfold on_store. specialize (Hf (b_db b)). destruct (f (b_db b)) as [[a|e] db]; exact Hf.
Qed.

Lemma steps_one o db : op_typed o -> steps db (store_step o db).
Proof. intros Ho. exists [o]. split; [by repeat constructor | done]. Qed.

Lemma ctl_audit_steps env store path input b : steps (b_db b) (b_db (audit env store path input b).2).
Proof.
  unfold audit. destruct (ctl_randomID env "audit") as [auditID|e]; [|apply steps_refl]. set (event := audit_event _ _ _).
  assert (forall r db, (if store then InsertAuditEvent event (b_db b) else (Ok tt, b_db b)) = (r, db) -> steps (b_db b) db) as Hs.
  { intros r db He. destruct store; [|injection He as _ <-; apply steps_refl].
    pose proof (steps_one (OInsertAuditEvent event) (b_db b) I) as H. simpl in H. by rewrite He in H. }
  destruct (if store then _ else _) as [[u|e] db]; specialize (Hs _ _ eq_refl); [|exact Hs].
  destruct (empty _); [exact Hs|]. destruct (audit_Write _ _ _ _) as [[]]; exact Hs.
Qed.

Lemma auditing_steps code env path input : cmd_steps (auditing code env path input).
Proof.
  intros b. unfold auditing. pose proof (ctl_audit_steps env true path input b) as Hs.
  destruct (audit env true path input b) as [[r|e] b']; exact Hs.
Qed.

Lemma cmd_reachable {A} (m : cmd A) b : cmd_steps m -> reachable (b_db b) -> reachable (b_db (m b).2).
Proof. intros Hm. by apply steps_reachable. Qed.

Create HintDb ctl discriminated.
#[export] Hint Resolve cmd_steps_ret cmd_steps_or_exit cmd_steps_exit auditing_steps : ctl.

(** Walk through a command, leaving its store methods. *)
Ltac walk :=
  repeat first
    [ progress auto with ctl
    | apply cmd_steps_bind; [|intros ?]
    | apply cmd_steps_store; intros ?
    | progress cbv zeta
    | progress case_goal ].

Lemma reading_steps {A} (f : DB -> result A) db : steps db (reading f db).2.
Proof. apply steps_refl. Qed.

Lemma bootstrap_steps v r db : steps db (bootstrapDevelopmentKeyring v r db).2.
Proof.
  unfold bootstrapDevelopmentKeyring. destruct (Development_Protect _ _) as [key|]; [|apply steps_refl].
  by apply (steps_one (OBootstrapKeyring (r key))).
Qed.
#[export] Hint Resolve reading_steps bootstrap_steps : ctl.

(** The environment's clock stays in the years 1 to 9999. *)
Definition ctl_typed (env : CtlEnv) : Prop := forall m, 0 < ce_clock env m /\ time_ok (ce_clock env m).

Lemma or_now_typed env m : ctl_typed env -> time_ok (or_now (ce_clock env m) (ce_clock env m)).
Proof. intros He. unfold or_now. case_goal; by destruct (He m). Qed.

Section Steps.
Context `{Hashes, Ed25519} (range : list (string * string) -> list (string * string)).

Lemma init_steps options env : cmd_steps (initCommand options env).
Proof. unfold initCommand, validateFormat, validateKeyringProfile. walk. Qed.

Lemma startRotation_steps path c k p env : ctl_typed env -> cmd_steps (startRotation path c k p env).
Proof.
  intros He. unfold startRotation, auditRotation, auditRotationWithDecision. walk.
  match goal with |- steps ?d _ => eapply (steps_one (OStartRotation _ _) d) end. by apply or_now_typed.
Qed.

Lemma rotateActivate_steps f s path id env : ctl_typed env -> cmd_steps (rotateActivateCommand f s path id env).
Proof.
  intros He. unfold rotateActivateCommand, validateFormat, auditRotation, auditRotationWithDecision. walk.
  match goal with |- steps ?d _ => eapply (steps_one (OActivateRotation _ _ _) d) end. by apply or_now_typed.
Qed.

Lemma revokeSubject_steps f s options env : cmd_steps (revokeSubjectCommand f s options env).
Proof.
  unfold revokeSubjectCommand, revokeSubject, validateFormat, validateRevocationMode. walk.
  match goal with |- steps ?d _ => by eapply (steps_one (ORevokeSubject _ _ _) d) end.
Qed.

Lemma refuse_steps {A} env options m s r e : cmd_steps (refuse env options m s r e : cmd A).
Proof.
  unfold refuse. apply cmd_steps_bind; [|auto with ctl]. intros b. unfold auditRecoveryDeny.
  match goal with |- context [audit env true ?p ?i b] => pose proof (ctl_audit_steps env true p i b) as Hs;
    destruct (audit env true p i b) as [[r'|e'] b'] end; exact Hs.
Qed.
#[local] Hint Resolve refuse_steps : ctl.

Lemma recoverEnroll_steps options env f1 f2 f3 f4 : cmd_steps (recoverEnroll options env f1 f2 f3 f4).
Proof.
  unfold recoverEnroll, validateRecoverySessionForEnroll, readRecoveryTargetRequest, recoverSecretForEnroll,
    bootstrapRecoveredKeyring. walk.
  match goal with |- steps ?d _ => by eapply (steps_one (OInsertSubject _ _ _) d) end.
Qed.

Lemma issue_steps options env issuer f : cmd_steps (issueEnrollmentGrant range options env issuer f).
Proof.
  unfold issueEnrollmentGrant. walk.
  - match goal with |- steps ?d _ => by eapply (steps_one (OInsertSubject _ _ _) d) end.
  - match goal with |- steps ?d (InsertEnrollmentRequest ?r _).2 => by apply (steps_one (OInsertEnrollmentRequest r) d) end.
  - match goal with |- steps ?d (InsertEnrollmentGrant ?r _).2 => by apply (steps_one (OInsertEnrollmentGrant r) d) end.
Qed.

Lemma apply_steps options env f : cmd_steps (applyEnrollmentGrant range options env f).
Proof.
  unfold applyEnrollmentGrant. walk.
  - match goal with |- steps ?d _ => by eapply (steps_one (OConsumeEnrollmentGrant _ _) d) end.
  - match goal with |- steps ?d _ => by eapply (steps_one (OInsertSubject _ _ _) d) end.
Qed.

Lemma recoverBegin_steps s path ttl env f1 f2 : cmd_steps (recoverBegin s path ttl env f1 f2).
Proof.
  assert (forall what input, cmd_steps (fun b => let '(r, b') := auditWithStatePath env s path input b in
    or_exit ExitRuntime (map_err what r) b' : (string + _) * Broker)) as Ha.
  { assert (forall store what input b, steps (b_db b) (b_db (let '(r, b') := audit env store path input b in
      or_exit ExitRuntime (map_err what r) b' : (string + _) * Broker).2)) as Ha.
    { intros st what input b. pose proof (ctl_audit_steps env st path input b) as Hs.
      destruct (audit env st path input b) as [[r'|e'] b']; exact Hs. }
    intros what input b. unfold auditWithStatePath. case_goal; [apply Ha|]. destruct (ce_open env); [apply Ha | apply steps_refl]. }
  unfold recoverBegin. walk.
Qed.

(** A command with its parsed flags and the files it reads. *)
Inductive command :=
| CInit (options : initOptions)
| CRotateStart (auditPath clusterID keyID policyID : string)
| CRotateActivate (format statePath auditPath operationID : string)
| CRevokeSubject (format statePath : string) (options : revokeSubjectOptions)
| CRecoverBegin (statePath auditPath : string) (ttl : Duration) (package : result PackageMetadata) (shares : result bytes)
| CRecoverEnroll (options : recoverEnrollOptions) (package : result PackageMetadata) (session : result recoverySession)
    (request : result Request) (shares : result bytes)
| CEnrollIssue (options : enrollIssueOptions) (issuer : result bytes) (request : result Request)
| CEnrollApply (options : enrollApplyOptions) (grant : result Grant).

(** The database and the audit file after it: every command, whatever its flags and
    files, works on the store by its operations only, so that what holds of all runs of
    store operations holds across commands. *)
Definition run_command (c : command) (env : CtlEnv) (b : Broker) : Broker :=
  match c with
  | CInit options => (initCommand options env b).2
  | CRotateStart path cluster key policy => (startRotation path cluster key policy env b).2
  | CRotateActivate f s path id => (rotateActivateCommand f s path id env b).2
  | CRevokeSubject f s options => (revokeSubjectCommand f s options env b).2
  | CRecoverBegin s path ttl f1 f2 => (recoverBegin s path ttl env f1 f2 b).2
  | CRecoverEnroll options f1 f2 f3 f4 => (recoverEnroll options env f1 f2 f3 f4 b).2
  | CEnrollIssue options issuer f => (issueEnrollmentGrant range options env issuer f b).2
  | CEnrollApply options f => (applyEnrollmentGrant range options env f b).2
  end.

Lemma run_command_steps c env b : ctl_typed env -> steps (b_db b) (b_db (run_command c env b)).
Proof.
  intros He. destruct c; cbn [run_command].
  - apply init_steps.
  - by apply startRotation_steps.
  - by apply rotateActivate_steps.
  - apply revokeSubject_steps.
  - apply recoverBegin_steps.
  - apply recoverEnroll_steps.
  - apply issue_steps.
  - apply apply_steps.
Qed.
End Steps.

(** ** A keyring of one version *)

(** The rows of the cluster come only from this key. *)
Definition sole_row (db : DB) (c key : string) (row : key_version_row) : Prop :=
  key_versions db !! (c, key, 1) = Some row /\ forall k r, key_versions db !! k = Some r -> k.1.1 = c -> k = (c, key, 1).

Lemma sole_cluster_rows db c key row : sole_row db c key row -> cluster_key_rows db c = [((c, key, 1), row)].
Proof.
  intros [Hl Hu]. apply singleton_of_unique.
  - eapply NoDup_fmap_1, cluster_rows_NoDup.
  - by apply cluster_rows_elem.
  - intros [k r] [Hc Hk]%cluster_rows_elem. cbn [fst snd] in *. pose proof (Hu k r Hk Hc) as ->.
    rewrite Hl in Hk. by injection Hk as ->.
Qed.

Lemma opens_itself v : KeyVersion_Validate v = Ok tt ->
  exists key, Development_Protect (Ok tt) v = Ok key /\ pk_Ref key = Ref v /\ pk_Status key = KStatus v /\
    pk_PolicyID key = PolicyID v /\ pk_Payload key = Material v /\ pk_ProtectorProfile key = ProfileDevelopment /\ ProtectedKey_Validate key = Ok tt /\
    Development_Unprotect (Ok tt) key = Ok v.
Proof.
  intros Hv. destruct (Protect_valid v Hv) as (k & Hk & Hval & Hr & Hst & Ha & Hp & Hprof). exists k.
  assert (pk_Payload k = Material v) as Hpay by (by apply Development_Protect_Ok in Hk as [_ ->]).
  split; [done|]. split_and!; try done.
  assert (known_status (KStatus v) = true) as Hks by (apply KeyVersion_Validate_Ok in Hv; tauto).
  pose proof (@Unprotect_Protect _ Development_Laws v k (KStatus v) Hk Hks) as Hu.
  rewrite <- Hst in Hu at 1. by destruct k, v.
Qed.

Lemma one_ring v : KeyVersion_Validate v = Ok tt -> KStatus v = StatusActive -> NewRing [v] = Ok (mkRing [v]).
Proof.
  intros Hv Hs. apply NewRing_spec. split; [|done]. split; [by repeat constructor|]. split; [apply NoDup_singleton|].
  unfold count_status. rewrite filter_cons, decide_True by done. done.
Qed.

(** The ring of a cluster whose only row protects [v]. *)
Lemma sole_ring db c key v now record :
  KeyVersion_Validate v = Ok tt -> Ref v = mkKeyRef c key 1 -> KStatus v = StatusActive ->
  Development_Protect (Ok tt) v = Ok record -> sole_row db c key (key_row record now) ->
  loadDevelopmentKeyring db c = Ok (mkRing [v]).
Proof.
  intros Hv Hr Hs Hp Hsole. destruct (opens_itself v Hv) as (rec & Hp' & Hpr & _ & _ & _ & Hprof & Hval & Hun).
  rewrite Hp in Hp'. injection Hp' as <-.
  unfold loadDevelopmentKeyring, LoadKeyring. cbn [ProtectedKeys SQLite_Repository]. unfold store_ProtectedKeys.
  rewrite (sole_cluster_rows _ _ _ _ Hsole). cbn [mapR]. unfold scan_key. cbn [fst snd].
  rewrite uint32KeyVersion_Ok by (unfold uint32_max; lia). cbn [mbind result_bind].
  pose proof (row_key_key_row record now) as Hrow. rewrite Hpr, Hr in Hrow. cbn [ClusterID KeyID Version] in Hrow.
  rewrite Hrow, Hval. cbn [mbind result_bind foldR]. unfold unprotect_step. cbn [Unprotect DevelopmentProtector].
  rewrite Hun. cbn [mbind result_bind app]. rewrite Hprof. rewrite String.eqb_refl. by apply one_ring.
Qed.

Lemma loadDevelopmentKeyring_same db db' c :
  key_versions db' = key_versions db -> loadDevelopmentKeyring db' c = loadDevelopmentKeyring db c.
Proof.
  intros E. unfold loadDevelopmentKeyring, LoadKeyring. cbn [ProtectedKeys SQLite_Repository].
  unfold store_ProtectedKeys, cluster_key_rows. by rewrite E.
Qed.

(** ** Bootstrapping *)

(** Nothing of the cluster nor the recovery package is in the store yet. *)
Definition vacant (db : DB) (c package : string) : Prop :=
  clusters db !! c = None /\ (forall p, policies db !! (c, p) = None) /\ (forall s, subjects db !! (c, s) = None) /\
  recovery_packages db !! package = None.

Lemma has_insert {K} `{Countable K} {V} (m : gmap K V) k v : has (<[k := v]> m) k = true.
Proof. apply has_true. exists v. apply lookup_insert_eq. Qed.

Lemma cluster_empty db c : keys_inv db -> clusters db !! c = None ->
  (forall k, keyrings db !! (c, k) = None) /\ forall k v, key_versions db !! (c, k, v) = None.
Proof.
  intros Hi Hc. assert (forall k, keyrings db !! (c, k) = None) as Hk.
  { intros k. destruct (keyrings db !! (c, k)) eqn:E; [|done].
    destruct (ki_cluster _ Hi (c, k)) as [? H]; [by eexists|]. simpl in H. congruence. }
  split; [done|]. intros k v. destruct (key_versions db !! (c, k, v)) eqn:E; [|done].
  destruct (ki_row _ Hi _ _ _ E) as (_ & _ & [? H]). by rewrite Hk in H.
Qed.

Lemma BootstrapKeyring_tables r db db' :
  BootstrapKeyring r db = (Ok tt, db') ->
  let ref := pk_Ref (bk_Key r) in
  clusters db !! ClusterID ref = None /\ is_Some (clusters db' !! ClusterID ref) /\
  key_versions db' = <[(ClusterID ref, KeyID ref, 1) :=
    key_row (bk_Key r) (FormatRFC3339Nano (bk_CreatedAt r))]> (key_versions db) /\ subjects db' = subjects db.
Proof.
  intros Hb ref. unfold BootstrapKeyring in Hb. destruct (ProtectedKey_Validate (bk_Key r)) as [[]|]; [|done].
  destruct (negb _ || negb _) eqn:E; [done|]. apply orb_false_iff in E as [_ E%negb_false_iff%Z.eqb_eq].
  unfold transact in Hb. destruct (bootstrap_tx r db) as [[[] db1]|] eqn:Ht; [|done]. injection Hb as ->.
  unfold bootstrap_tx in Ht. cbv zeta in Ht. fold ref in E, Ht. rewrite E in Ht.
  apply bind_Ok in Ht as (db2 & H1 & Ht). apply bind_Ok in Ht as (db3 & H2 & Ht). apply bind_Ok in Ht as (db4 & H3 & Ht).
  apply bind_Ok in Ht as (db5 & H4 & Ht). apply bind_Ok in Ht as (db6 & H5 & Ht). inv_ok.
  apply insert_keyrings_Ok in H2 as (_ & _ & ->). apply insert_key_versions_Ok in H3 as (_ & _ & _ & _ & ->).
  unfold insert_clusters in H1. unfold insert_policies in H4. inv_ok. to_prop.
  repeat match goal with H : has (clusters db) _ = false |- _ => apply has_false in H end.
  assert (clusters db' = <[ClusterID ref := mkClusterRow (nullableString (bk_RecoveryPackageID r))
    (FormatRFC3339Nano (bk_CreatedAt r))]> (clusters db) /\ key_versions db' = <[(ClusterID ref, KeyID ref, 1) :=
    key_row (bk_Key r) (FormatRFC3339Nano (bk_CreatedAt r))]> (key_versions db) /\ subjects db' = subjects db) as (-> & -> & ->).
  { case_hyp H5; unfold insert_recovery_packages in H5; inv_ok; done. }
  split_and!; try done. eexists. apply lookup_insert_eq.
Qed.

(** A new cluster holds the bootstrapped key and nothing else. *)
Lemma BootstrapKeyring_effect r db db' :
  keys_inv db -> BootstrapKeyring r db = (Ok tt, db') ->
  let ref := pk_Ref (bk_Key r) in
  sole_row db' (ClusterID ref) (KeyID ref) (key_row (bk_Key r) (FormatRFC3339Nano (bk_CreatedAt r))).
Proof.
  intros Hi Hb ref. destruct (BootstrapKeyring_tables _ _ _ Hb) as (Hc & _ & Hk & _). fold ref in Hc, Hk.
  destruct (cluster_empty _ _ Hi Hc) as [_ Hfree]. split; rewrite Hk; [apply lookup_insert_eq|].
  intros [[c' k'] v'] row' [[<- _]|[_ Hl]]%lookup_insert_Some Hc'; [done|]. simpl in Hc'. subst.
  by rewrite Hfree in Hl.
Qed.

Lemma BootstrapKeyring_vacant r db :
  keys_inv db -> ProtectedKey_Validate (bk_Key r) = Ok tt -> pk_Status (bk_Key r) = StatusActive ->
  Version (pk_Ref (bk_Key r)) = 1 -> vacant db (ClusterID (pk_Ref (bk_Key r))) (bk_RecoveryPackageID r) ->
  exists db', BootstrapKeyring r db = (Ok tt, db').
Proof.
  intros Hi Hval Hs Hv (Hc & Hp & _ & Hr). destruct (cluster_empty _ _ Hi Hc) as [Hk Hfree].
  unfold BootstrapKeyring, transact, bootstrap_tx. cbv zeta. rewrite Hval, Hs, Hv. set (c := ClusterID _) in *.
  cbn [negb orb String.eqb Z.eqb]. rewrite String.eqb_refl. cbn [negb orb].
  unfold insert_clusters. rewrite (proj2 (has_false _ _) Hc). cbn [negb check mbind result_bind map_err].
  unfold insert_keyrings. cbn [keyrings set_clusters clusters]. rewrite (proj2 (has_false _ _) (Hk _)).
  cbn [fst]. rewrite has_insert. cbn [negb check mbind result_bind map_err].
  match goal with |- context [insert_key_versions ?k ?row ?d] => set (d1 := d);
    assert (insert_key_versions k row d1 = Ok (set_key_versions (<[k := row]> (key_versions d1)) d1)) as -> end.
  { apply insert_key_versions_Ok. split_and!; [done | apply Hfree | | | done].
    - intros _ w (row & Hl & _). cbn in Hl. by rewrite Hfree in Hl.
    - subst d1. simpl. eexists. apply lookup_insert_eq. }
  cbn [mbind result_bind map_err]. unfold insert_policies. subst d1. cbn.
  rewrite (proj2 (has_false _ _) (Hp _)), has_insert. cbn. case_goal; [by eexists|].
  unfold insert_recovery_packages. cbn. rewrite (proj2 (has_false _ _) Hr), has_insert. cbn. by eexists.
Qed.

(** ** Init and recovery *)

Lemma audit_tables env store path input b :
  let b' := (audit env store path input b).2 in
  key_versions (b_db b') = key_versions (b_db b) /\ subjects (b_db b') = subjects (b_db b) /\
  enrollment_grants (b_db b') = enrollment_grants (b_db b).
Proof.
  unfold audit. destruct (ctl_randomID env "audit") as [auditID|e]; [|done]. set (event := audit_event _ _ _).
  assert (forall r db, (if store then InsertAuditEvent event (b_db b) else (Ok tt, b_db b)) = (r, db) ->
    key_versions db = key_versions (b_db b) /\ subjects db = subjects (b_db b) /\
    enrollment_grants db = enrollment_grants (b_db b)) as Hs.
  { intros r db He. destruct store; [|by injection He as _ <-]. unfold InsertAuditEvent, exec in He.
    destruct (insert_audit_events _ _ _) eqn:E; injection He as _ <-; [|done]. unfold insert_audit_events in E. by inv_ok. }
  destruct (if store then _ else _) as [[u|e] db]; specialize (Hs _ _ eq_refl); [|exact Hs].
  destruct (empty _); [exact Hs|]. destruct (audit_Write _ _ _ _) as [[]]; exact Hs.
Qed.

Lemma auditing_tables code env path input b :
  let b' := (auditing code env path input b).2 in
  key_versions (b_db b') = key_versions (b_db b) /\ subjects (b_db b') = subjects (b_db b) /\
  enrollment_grants (b_db b') = enrollment_grants (b_db b).
Proof.
  unfold auditing. pose proof (audit_tables env true path input b) as Hs.
  destruct (audit env true path input b) as [[r|e] b']; exact Hs.
Qed.

Section Recovered.
Context `{Hashes}.

(** What a successful [init] leaves. *)
Lemma init_effect options env b out b1 :
  keys_inv (b_db b) -> initCommand options env b = (inl out, b1) ->
  exists material packageID pkg, let v := first_version (in_clusterID options) (in_keyID options) (in_policyID options) material in
    Create packageID (in_clusterID options) (in_keyID options) material (in_threshold options) (in_shares options)
      (ce_clock env AtCommand) (ce_coefficients env) = Ok pkg /\
    io_RecoveryPackage out = pkg_Metadata pkg /\ io_RecoveryShares out = pkg_Shares pkg /\
    KeyVersion_Validate v = Ok tt /\
    exists record now, Development_Protect (Ok tt) v = Ok record /\
      sole_row (b_db b1) (in_clusterID options) (in_keyID options) (key_row record now).
Proof.
  intros Hi Hr. unfold initCommand in Hr. inv_cmd.
  match goal with H : Create _ _ _ _ _ _ _ _ = Ok ?p |- _ => rename H into Hc; set (pkg := p) in * end.
  match goal with H : bootstrapDevelopmentKeyring _ _ _ = _ |- _ => rename H into Hb end.
  match goal with H : auditing _ _ _ _ ?b0 = (_, ?b') |- _ => pose proof (auditing_tables ExitRuntime env (in_auditPath options)
    (mkAuditInput "operator" "OPERATION_INIT" (in_clusterID options) (in_keyID options) 1 DecisionAllow
       (in_policyID options) "cluster initialized") b0) as (Hk & _); rewrite H in Hk end.
  unfold bootstrapDevelopmentKeyring in Hb. destruct (Development_Protect _ _) as [record|] eqn:Hp; [|done].
  units. apply BootstrapKeyring_effect in Hb; [|done].
  pose proof (proj1 (Development_Protect_Ok _ _) Hp) as [Hv Hrec].
  do 3 eexists. split; [exact Hc|]. split_and!; [done..|].
  exists record. eexists. split; [done|]. subst record. cbn [bk_Key recovery_bootstrap pk_Ref Ref first_version ClusterID KeyID] in Hb.
  unfold sole_row in *. simpl in Hk. rewrite Hk. exact Hb.
Qed.

(** The command when session, request and shares are accepted, up to its audit. *)
Lemma recoverEnroll_effect options env metadata session request file chosen secret b :
  keys_inv (b_db b) -> vacant (b_db b) (pm_ClusterID metadata) (pm_PackageID metadata) -> ce_open env = Ok tt ->
  recoverySession_Validate session metadata (ce_clock env AtSession) = Ok tt ->
  Request_Validate request (ce_clock env AtTarget) = Ok tt -> rq_ClusterID request = pm_ClusterID metadata ->
  readSharesFile file = Ok chosen -> Recover metadata chosen = Ok secret ->
  let v := first_version (pm_ClusterID metadata) (pm_KeyID metadata) (re_policyID options) secret in
  KeyVersion_Validate v = Ok tt ->
  let b' := (recoverEnroll options env (Ok metadata) (Ok session) (Ok request) file b).2 in
  exists record now, Development_Protect (Ok tt) v = Ok record /\
    sole_row (b_db b') (pm_ClusterID metadata) (pm_KeyID metadata) (key_row record now) /\
    store_Subject (b_db b') (pm_ClusterID metadata) (rq_SubjectID request)
      = Ok (mkSubject (pm_ClusterID metadata) (rq_SubjectID request) false).
Proof.
  intros Hi Hvac Ho Hs Hr Hc Hf Hrec v Hv b'. destruct (opens_itself v Hv) as (record & Hp & Hpr & Hst & _ & _ & _ & Hval & _).
  exists record. destruct (BootstrapKeyring_vacant (recovery_bootstrap metadata (ce_clock env AtCommand) record) (b_db b)) as (db1 & Hb);
    [done | done | by cbn; rewrite Hst | by cbn; rewrite Hpr | by cbn [recovery_bootstrap bk_Key bk_RecoveryPackageID]; rewrite Hpr |].
  destruct (BootstrapKeyring_tables _ _ _ Hb) as (_ & Hcl & _ & Hsub). apply BootstrapKeyring_effect in Hb as Hsole; [|done].
  cbn [recovery_bootstrap bk_Key] in Hsole, Hcl. rewrite Hpr in Hsole, Hcl.
  exists (FormatRFC3339Nano (ce_clock env AtCommand)). split; [done|].
  assert (exists code input db2, b' = (auditing code env (re_auditPath options) input (mkBroker db2 (b_file b))).2 /\
    InsertSubject (rq_ClusterID request) (rq_SubjectID request) (ce_clock env AtCommand) db1 = (Ok tt, db2)) as (code & input & db2 & -> & Hins).
  { assert (exists db2, InsertSubject (rq_ClusterID request) (rq_SubjectID request) (ce_clock env AtCommand) db1 = (Ok tt, db2)) as (db2 & Hins).
    { unfold InsertSubject, exec, insert_or_ignore_subjects. case_goal; [by eexists|]. cbn [fst v first_version Ref ClusterID] in *. rewrite Hc.
      rewrite (proj2 (has_true _ _) Hcl). by eexists. }
    do 3 eexists. split; [|exact Hins]. subst b'.
    unfold recoverEnroll, mbind, cmd_bind, or_exit. cbv beta iota. rewrite Ho. cbv beta iota.
    unfold validateRecoverySessionForEnroll. rewrite Hs. unfold mret, cmd_ret. cbv beta iota.
    unfold readRecoveryTargetRequest, mbind, cmd_bind, or_exit. cbv beta iota. rewrite Hr, Hc, String.eqb_refl. cbn [negb].
    unfold mret, cmd_ret. cbv beta iota. unfold recoverSecretForEnroll, mbind, cmd_bind, or_exit.
    rewrite Hf. cbv beta iota. rewrite Hrec. unfold mret, cmd_ret. cbv beta iota.
    unfold bootstrapRecoveredKeyring, mbind, cmd_bind, on_store, or_exit, bootstrapDevelopmentKeyring. fold v.
    rewrite Hp, Hb. cbn [b_db b_file]. rewrite Hins. cbv beta iota.
    match goal with |- snd (match ?m with (s, b1) => _ end) = _ => destruct m as [[i|x] b1] eqn:E end;
      symmetry; exact (f_equal snd E). }
  destruct (auditing_tables code env (re_auditPath options) input (mkBroker db2 (b_file b))) as (Hk & Hsu & _).
  cbn [b_db] in Hk, Hsu. unfold InsertSubject, exec in Hins.
  destruct (insert_or_ignore_subjects _ _ _) as [db3|] eqn:Hio; [|done]. injection Hins as ->.
  unfold store_Subject. rewrite Hsu. split.
  - unfold sole_row in *. rewrite Hk. apply insert_subjects_frame in Hio as (_ & _ & <- & _). exact Hsole.
  - destruct Hvac as (_ & _ & Hns & _). unfold insert_or_ignore_subjects in Hio. rewrite Hc in Hio.
    rewrite (proj2 (has_false _ _)) in Hio by (rewrite Hsub; apply Hns). inv_ok. cbn. by rewrite lookup_insert_eq.
Qed.
End Recovered.

(** ** Grants *)

Section Apply.
Context `{Hashes, Ed25519} (range : list (string * string) -> list (string * string)).

(** The stored grant of an identifier was consumed. *)
Definition grant_spent (db : DB) (id : string) : Prop :=
  exists row, enrollment_grants db !! id = Some row /\ egr_consumed_at row <> None.

Lemma grant_spent_mono a b id : store_le a b -> grant_spent a id -> grant_spent b id.
Proof. intros Hle (row & Hl & Hc). exists row. split; [by apply (le_grants _ _ Hle) | done]. Qed.

Lemma ConsumeEnrollmentGrant_Ok id now db db' :
  ConsumeEnrollmentGrant id now db = (Ok tt, db') ->
  (exists row, enrollment_grants db !! id = Some row /\ egr_consumed_at row = None) /\ grant_spent db' id /\
  subjects db' = subjects db.
Proof.
  unfold ConsumeEnrollmentGrant. destruct (enrollment_grants db !! id) as [row|] eqn:El; [|done].
  destruct (egr_consumed_at row) eqn:Ec; [done|]. destruct (parse_time _ _); [|done]. case_goal; [done|].
  intros [= <-]. split; [by exists row|]. split; [|done]. eexists. split; [apply lookup_insert_eq | done].
Qed.

Lemma InsertSubject_Ok c s now db db' :
  InsertSubject c s now db = (Ok tt, db') ->
  is_Some (subjects db' !! (c, s)) /\ (forall k row, subjects db !! k = Some row -> subjects db' !! k = Some row) /\
  enrollment_grants db' = enrollment_grants db.
Proof.
  unfold InsertSubject, exec. destruct (insert_or_ignore_subjects _ _ _) as [db1|] eqn:E; [|done]. intros [= <-].
  split; [|split; [by eapply insert_subjects_mono|]]; unfold insert_or_ignore_subjects in E; case_hyp E; inv_ok; try done.
  - match goal with H : has _ _ = true |- _ => by apply has_true in H end.
  - eexists. apply lookup_insert_eq.
Qed.

Lemma apply_effect options env grant b out b' :
  applyEnrollmentGrant range options env (Ok grant) b = (inl out, b') ->
  Verify range grant (ce_clock env AtCommand) = Ok tt /\
  (exists row, enrollment_grants (b_db b) !! g_GrantID grant = Some row /\ egr_consumed_at row = None) /\
  grant_spent (b_db b') (g_GrantID grant) /\
  is_Some (subjects (b_db b') !! (g_ClusterID grant, g_SubjectID grant)) /\
  forall k row, subjects (b_db b) !! k = Some row -> subjects (b_db b') !! k = Some row.
Proof.
  intros Hr. unfold applyEnrollmentGrant in Hr. inv_cmd. units.
  match goal with H : Ok grant = Ok _ |- _ => injection H as <- end.
  repeat match goal with H : ConsumeEnrollmentGrant _ _ _ = _ |- _ => apply ConsumeEnrollmentGrant_Ok in H as (Hg & Hsp & Hs1)
    | H : InsertSubject _ _ _ _ = _ |- _ => apply InsertSubject_Ok in H as (Hin & Hkeep & Hg1)
    | H : auditing ?c ?e ?p ?i ?b = _ |- _ => pose proof (auditing_tables c e p i b) as (_ & Hs2 & Hg2); rewrite H in Hs2, Hg2; clear H end.
  cbn [b_db b_file snd] in *. split; [done|]. split; [done|]. unfold grant_spent. rewrite Hg2, Hg1, Hs2. split; [done|].
  split; [done|]. intros k row Hk. apply Hkeep. by rewrite Hs1.
Qed.

Lemma apply_spent options env grant b :
  grant_spent (b_db b) (g_GrantID grant) -> exists e b', applyEnrollmentGrant range options env (Ok grant) b = (inr e, b').
Proof.
  intros (row & Hl & Hc). destruct (applyEnrollmentGrant range options env (Ok grant) b) as [[out|e] b'] eqn:E; [|by do 2 eexists].
  apply apply_effect in E as (_ & (r & Hl' & Hc') & _). congruence.
Qed.

(** C17: [enroll apply] accepts only a grant that verifies at that time and whose
    stored row was not consumed; afterwards the subject is known to the broker, one
    that was already known keeps its row (a revoked subject stays revoked), and the
    grant is used up: every later [enroll apply] with its identifier fails, whatever
    commands or requests run in between. *)
Theorem grant_applied_once options env grant b out b' :
  reachable (b_db b) -> ctl_typed env ->
  applyEnrollmentGrant range options env (Ok grant) b = (inl out, b') ->
  Verify range grant (ce_clock env AtCommand) = Ok tt /\ ~ grant_spent (b_db b) (g_GrantID grant) /\
  is_Some (subjects (b_db b') !! (g_ClusterID grant, g_SubjectID grant)) /\
  (forall k row, subjects (b_db b) !! k = Some row -> subjects (b_db b') !! k = Some row) /\
  forall ops options2 env2 grant2 file, Forall op_typed ops -> g_GrantID grant2 = g_GrantID grant ->
    exists e b2, applyEnrollmentGrant range options2 env2 (Ok grant2) (mkBroker (run ops (b_db b')) file) = (inr e, b2).
Proof.
  intros Hr He Ha. pose proof (apply_steps range options env (Ok grant) b) as Hs. rewrite Ha in Hs.
  destruct (steps_le _ _ (reachable_inv _ Hr) Hs) as [_ Hi'].
  apply apply_effect in Ha as (Hv & (row & Hl & Hc) & Hsp & Hin & Hkeep). split; [done|]. split.
  - intros (r & Hl' & Hc'). congruence.
  - split; [done|]. split; [done|]. intros ops o2 e2 g2 file Ho Eg. apply apply_spent. cbn [b_db]. rewrite Eg.
    eapply grant_spent_mono; [by apply run_le | done].
Qed.
End Apply.

(** ** What a recovered broker opens *)

Section Opens.
Context `{AEADLaws, Hashes}.

Lemma Active_elem vs v : Active (Some (mkRing vs)) = Ok v -> v ∈ vs.
Proof. intros Ha. by destruct (active_loop_Ok _ _ Ha). Qed.

(** A ring of one version opens what that version sealed and nothing else. *)
Lemma one_ring_opens v1 v nonce p aad :
  KeyVersion_Validate v1 = Ok tt -> KStatus v1 = StatusActive -> KeyVersion_Validate v = Ok tt -> uint32 (Version (Ref v)) ->
  len nonce = NonceSize -> (Ref v = Ref v1 -> Material v = Material v1 /\ PolicyID v = PolicyID v1) ->
  Decrypt (Ok tt) (Some (mkRing [v1])) (Some (sealed v nonce p aad)) aad
  = if sameRef (Ref v) (Ref v1) then Ok p else Err ErrKeyNotFound.
Proof.
  intros Hv1 Hs Hv Hu Hn Hsame. destruct (sameRef (Ref v) (Ref v1)) eqn:E.
  - apply sameRef_spec in E. destruct (Hsame E) as [Hm Hp].
    rewrite (Decrypt_sealed [v1] v v1); try done; [|apply NoDup_singleton | left].
    unfold canDecrypt. by rewrite Hs.
  - unfold Decrypt. cbn [mbind result_bind]. rewrite validateBlob_sealed by done. cbn [mbind result_bind keyForDecrypt versions].
    rewrite decrypt_loop_missing; [done|]. intros Hin%list_elem_of_singleton.
    rewrite Hin in E. by rewrite (proj2 (sameRef_spec _ _) eq_refl) in E.
Qed.

(** The versions that a later ring holds under the reference of [v1] are [v1]. *)
Lemma later_same db1 c key v1 record now ops ring v :
  store_inv db1 -> sole_row db1 c key (key_row record now) -> Development_Protect (Ok tt) v1 = Ok record ->
  Ref v1 = mkKeyRef c key 1 -> Forall op_typed ops -> loadDevelopmentKeyring (run ops db1) c = Ok (mkRing ring) ->
  v ∈ ring -> KeyVersion_Validate v = Ok tt /\ uint32 (Version (Ref v)) /\
    (Ref v = Ref v1 -> Material v = Material v1 /\ PolicyID v = PolicyID v1).
Proof.
  intros Hi [Hrow _] Hp Hr1 Ho Hl Hv. pose proof (run_inv ops db1 Hi Ho) as [Hi' _ _].
  destruct (loaded_ring _ _ _ _ Hi' Hl) as (vs & [= <-] & _ & _ & Hfrom & _).
  destruct (Hfrom v Hv) as (k & row & Hk & Hc & Hop). pose proof (opens_row_uint32 _ _ _ _ Hi' Hk Hop) as Hu.
  destruct Hop as (Href & _ & Hmat & Hpol & Hval). split; [done|]. split; [done|]. intros E.
  assert (k = (c, key, 1)) as -> by (apply row_ref_inj; by rewrite <- Href, E, Hr1).
  destruct (le_keys _ _ (run_le ops db1 Hi Ho) _ _ Hrow) as (s & Hk' & _). rewrite Hk in Hk'. injection Hk' as ->.
  apply Development_Protect_Ok in Hp as [_ ->]. by rewrite Hmat, Hpol.
Qed.
End Opens.

(** C11: disaster recovery: after [init], [recover enroll] on any other store that
    knows neither the cluster nor the package, with the recovery package, any
    [threshold] of the shares, a session and a request that it accepts (for the
    package and the cluster, unexpired) and the policy ID that [init] was given, which
    the package does not carry, restores the keyring that [init] made and enrolls the
    requesting node, whatever its audit does.  The recovered keyring opens exactly what
    version 1 sealed: a blob sealed after rotations by another version stays closed. *)
Theorem recovered_broker_opens `{AEADLaws, Hashes} options env b out b1 options2 env2 b2 session request file chosen :
  reachable (b_db b) -> ctl_typed env -> Forall is_byte (ce_coefficients env) ->
  initCommand options env b = (inl out, b1) ->
  let c := in_clusterID options in
  let package := io_RecoveryPackage out in
  reachable (b_db b2) -> vacant (b_db b2) c (pm_PackageID package) -> ce_open env2 = Ok tt ->
  re_policyID options2 = in_policyID options ->
  recoverySession_Validate session package (ce_clock env2 AtSession) = Ok tt ->
  Request_Validate request (ce_clock env2 AtTarget) = Ok tt -> rq_ClusterID request = c ->
  readSharesFile file = Ok chosen -> NoDup chosen -> chosen ⊆ io_RecoveryShares out ->
  in_threshold options <= Z.of_nat (length chosen) ->
  let b3 := (recoverEnroll options2 env2 (Ok package) (Ok session) (Ok request) file b2).2 in
  exists v1, Ref v1 = mkKeyRef c (in_keyID options) 1 /\
    loadDevelopmentKeyring (b_db b1) c = Ok (mkRing [v1]) /\
    loadDevelopmentKeyring (b_db b3) c = Ok (mkRing [v1]) /\
    store_Subject (b_db b3) c (rq_SubjectID request) = Ok (mkSubject c (rq_SubjectID request) false) /\
    forall ops ring v nonce p aad info, Forall op_typed ops -> loadDevelopmentKeyring (run ops (b_db b1)) c = Ok ring ->
      Active (Some ring) = Ok v -> len nonce = NonceSize -> Encrypt (Ok tt) (Ok nonce) (Some ring) p aad = Ok info ->
      Decrypt (Ok tt) (Some (mkRing [v1])) (Some info) aad = if sameRef (Ref v) (Ref v1) then Ok p else Err ErrKeyNotFound.
Proof.
  intros Hr He Hb Hinit c package Hr2 Hvac Ho Hpol Hses Hreq Hrc Hf Hnd Hch Hth b3.
  pose proof (init_steps options env b) as Hst. rewrite Hinit in Hst.
  destruct (steps_le _ _ (reachable_inv _ Hr) Hst) as [_ Hi1]. pose proof (reachable_inv _ Hr) as [Hk _ _].
  destruct (init_effect _ _ _ _ _ Hk Hinit) as (material & id & pkg & Hcr & Ep & Es & Hv & record & now & Hp & Hsole).
  fold package in Ep. rewrite Es in Hch. set (v1 := first_version _ _ _ _) in *.
  pose proof (Recover_chosen _ _ _ _ _ _ _ _ _ _ Hcr (proj2 (He AtCommand)) Hb Hnd Hch Hth) as Hrec. rewrite <- Ep in Hrec.
  apply Create_Ok in Hcr as (_ & _ & Epkg). rewrite Epkg in Ep. cbn [created pkg_Metadata] in Ep.
  assert (pm_ClusterID package = c /\ pm_KeyID package = in_keyID options) as [Ec Ek] by (by rewrite Ep).
  assert (first_version (pm_ClusterID package) (pm_KeyID package) (re_policyID options2) material = v1) as Ev
    by (by rewrite Ec, Ek, Hpol).
  destruct (recoverEnroll_effect options2 env2 package session request file chosen material b2) as (record' & now' & Hp' & Hsole' & Hsub);
    [exact (si_keys _ (reachable_inv _ Hr2)) | by rewrite Ec | done | done | done | by rewrite Ec | done | done | by rewrite Ev |].
  rewrite Ev in Hp'. fold b3 in Hsole', Hsub. rewrite Ec in Hsole', Hsub. rewrite Ek in Hsole'.
  exists v1. split; [done|]. split_and!; [exact (sole_ring _ _ _ v1 now record Hv eq_refl eq_refl Hp Hsole) | exact (sole_ring _ _ _ v1 now' record' Hv eq_refl eq_refl Hp' Hsole') | done |].
  intros ops ring v nonce p aad info Hops Hl Ha Hn Henc.
  destruct (loaded_ring _ _ _ _ (si_keys _ (run_inv ops _ Hi1 Hops)) Hl) as (vs & -> & _).
  destruct (later_same _ _ _ v1 record now ops vs v Hi1 Hsole Hp eq_refl Hops Hl (Active_elem _ _ Ha)) as (Hval & Hu & Hsame).
  rewrite (Encrypt_active _ v) in Henc by done. injection Henc as <-. by apply one_ring_opens.
Qed.

(** ** Examples *)

(** One random identifier and one time for the whole command. *)
Definition example_env_with (random : N) (now : Time) : CtlEnv :=
  mkCtlEnv (fun _ => now) (fun _ => Ok (repeat_byte 16 (chr random))) (Ok example_material)
    (Z.of_nat <$> seq 7 32) (Ok tt) (Ok tt) (Ok tt).
Definition example_ctl_env : CtlEnv := example_env_with 114 example_time.
Definition example_issue_env : CtlEnv := example_env_with 105 (example_time + Second).
Definition example_apply_env : CtlEnv := example_env_with 97 (example_time + 2 * Second).
Definition example_init_options : initOptions :=
  mkInitOptions "state.db" "audit.log" EmptyString "cluster-a" "root" "policy-1" "development" 3 2 "json".
Definition no_broker : Broker := mkBroker empty_db [].
Definition example_init := @initCommand toy_Hashes example_init_options example_ctl_env no_broker.
Definition example_init_output : initOutput :=
  match example_init.1 with
  | inl out => out
  | inr _ => mkInitOutput EmptyString (mkPackageMetadata 0 EmptyString EmptyString EmptyString EmptyString 0 0
               EmptyString EmptyString EmptyString []) EmptyString [] EmptyString EmptyString
  end.
Definition example_session : recoverySession :=
  let m := io_RecoveryPackage example_init_output in
  mkRecoverySession 1 "rsess-1" (pm_PackageID m) (pm_ClusterID m) (pm_KeyID m) (pm_SecretChecksum m)
    (FormatRFC3339Nano (example_time + Hour)).
Definition example_target : Request :=
  mkRequest 1 "req-1" "cluster-a" "node-b" ModeBroker (Some ["unwrap"%string]) "format" EmptyString "sha256:00"
    "identity" "nonce" (FormatRFC3339Nano (example_time + Hour)).
Definition example_chosen : list string := drop 1 (io_RecoveryShares example_init_output).
Definition example_shares_file : result bytes := Ok (Join example_chosen newline).
Definition example_recovered : Broker :=
  (@recoverEnroll toy_Hashes (mkRecoverEnrollOptions "audit.log" "policy-1") example_ctl_env
    (Ok (io_RecoveryPackage example_init_output)) (Ok example_session) (Ok example_target) example_shares_file no_broker).2.

Lemma example_ctl_typed : ctl_typed example_ctl_env.
Proof. intros m. vm_compute. repeat split; congruence. Qed.

Lemma example_apply_typed : ctl_typed example_apply_env.
Proof. intros m. vm_compute. repeat split; congruence. Qed.

Lemma recovered_broker_opens_witness :
  exists v1, loadDevelopmentKeyring (b_db example_init.2) "cluster-a" = Ok (mkRing [v1]) /\
    loadDevelopmentKeyring (b_db example_recovered) "cluster-a" = Ok (mkRing [v1]).
Proof.
  destruct (@recovered_broker_opens toy_AEAD toy_AEADLaws toy_Hashes example_init_options example_ctl_env no_broker
    example_init_output example_init.2 (mkRecoverEnrollOptions "audit.log" "policy-1") example_ctl_env no_broker example_session
    example_target example_shares_file example_chosen) as (v1 & _ & H1 & H3 & _).
  - apply reach_empty.
  - exact example_ctl_typed.
  - apply (bool_decide_unpack _). vm_compute. exact I.
  - vm_compute. reflexivity.
  - apply reach_empty.
  - split_and!; [reflexivity | intros; reflexivity.. | reflexivity].
  - reflexivity.
  - reflexivity.
  - vm_compute. reflexivity.
  - vm_compute. reflexivity.
  - vm_compute. reflexivity.
  - vm_compute. reflexivity.
  - apply (bool_decide_unpack _). vm_compute. exact I.
  - intros x Hx. unfold example_chosen in Hx. by apply subseteq_drop in Hx.
  - vm_compute. discriminate.
  - exists v1. split; [exact H1 | exact H3].
Defined.

(** A grant issued and applied on the cluster of [example_init]. *)
Definition example_issue :=
  @issueEnrollmentGrant toy_Ed25519 id (mkEnrollIssueOptions "audit.log" "root" "policy-1" EmptyString Hour)
    example_issue_env (Ok example_key) (Ok example_target) example_init.2.
Definition example_issued_grant : Grant := match example_issue.1 with inl (g, _) => g | inr _ => the_grant end.
Definition example_apply :=
  @applyEnrollmentGrant toy_Ed25519 id (mkEnrollApplyOptions "audit.log" "cluster-a") example_apply_env
    (Ok example_issued_grant) example_issue.2.

Lemma example_init_reachable : reachable (b_db example_init.2).
Proof. unfold example_init. apply cmd_reachable; [apply init_steps | apply reach_empty]. Qed.

Lemma example_issue_reachable : reachable (b_db example_issue.2).
Proof. unfold example_issue. apply cmd_reachable; [apply issue_steps | exact example_init_reachable]. Qed.

Lemma grant_applied_once_witness :
  is_Some (subjects (b_db example_apply.2) !! ("cluster-a", "node-b")%string) /\
  exists e b2, @applyEnrollmentGrant toy_Ed25519 id (mkEnrollApplyOptions EmptyString EmptyString) example_ctl_env
    (Ok example_issued_grant) (mkBroker (run [] (b_db example_apply.2)) []) = (inr e, b2).
Proof.
  destruct (@grant_applied_once toy_Ed25519 id (mkEnrollApplyOptions "audit.log" "cluster-a") example_apply_env
    example_issued_grant example_issue.2 (match example_apply.1 with inl out => out | inr _ => mkEnrollApplyOutput EmptyString EmptyString EmptyString end)
    example_apply.2) as (_ & _ & Hs & _ & Hn).
  - exact example_issue_reachable.
  - exact example_apply_typed.
  - vm_compute. reflexivity.
  - split; [exact Hs|]. apply Hn; [constructor | reflexivity].
Defined.

(** [enroll apply] takes the issuer's key from the grant itself and looks only at the
    identifier of the stored grant: the same identifier signed with another key for
    another subject is applied as well. *)
Definition example_foreign_target : Request :=
  mkRequest 1 "req-1" "cluster-a" "node-x" ModeBroker (Some ["unwrap"%string]) "format" EmptyString "sha256:00"
    "identity" "nonce" (FormatRFC3339Nano (example_time + Hour)).
Definition example_foreign_grant : result Grant :=
  @IssueGrant toy_Ed25519 id example_foreign_target (repeat_byte 64 (chr 109))
    (mkGrantOptions (g_GrantID example_issued_grant) "root" "policy-1" EmptyString (example_time + Hour) true) example_time.

Lemma apply_accepts_foreign_grant :
  let '(out, b') := @applyEnrollmentGrant toy_Ed25519 id (mkEnrollApplyOptions "audit.log" "cluster-a") example_apply_env
    example_foreign_grant example_issue.2 in
  eao_SubjectID <$> (match out with inl o => Some o | inr _ => None end) = Some "node-x"%string /\
  store_Subject (b_db b') "cluster-a" "node-x" = Ok (mkSubject "cluster-a" "node-x" false).
Proof. vm_compute. by split. Qed.
