(* ===== verification/KmsProps.v ===== *)
(** * Properties of the seal wrapper

    The life cycle of the wrapper as a state machine; the broker backend against the
    broker's own handlers; the local backend against local TPM state. *)

From S2P Require Import Prelude GoStrings GoTime Keyring KeyProtection Tpm TpmSeal NodeEvidence LocalState StateText LocalStateProps Config.
From S2P Require Import Sql Store Challenges SqlNodeEvidence StoreInv StoreOps Policy Kubernetes EvidenceText Service Runtime KmsConfig KmsPlugin.
Local Open Scope Z_scope.

(** ** The life cycle of a wrapper *)

Section LifeCycle.
Context {W : Type} (factory : backendFactory W).

(** One call of the interface, or something that happens elsewhere. *)
Inductive wrapper_step : Wrapper W * W -> Wrapper W * W -> Prop :=
| StepSetConfig ctx opts s : wrapper_step s (SetConfig ctx opts s).2
| StepInit ctx s : wrapper_step s (Init ctx s).2
| StepEncrypt ctx opts p s : wrapper_step s (Wrapper_Encrypt ctx opts p s).2
| StepDecrypt ctx opts blob s : wrapper_step s (Wrapper_Decrypt ctx opts blob s).2
| StepKeyId ctx s : wrapper_step s (Wrapper_KeyId ctx s).2
| StepFinalize ctx s : wrapper_step s (Finalize ctx s).2
| StepWorld w world world' : wrapper_step (w, world) (w, world').

Definition wrapper_reachable (s : Wrapper W * W) : Prop :=
  exists world, rtc wrapper_step (NewWrapperWithFactory (Some factory), world) s.

(** A backend is there only with the valid configuration it was made from. *)
Definition wrapper_inv (w : Wrapper W) : Prop :=
  w_factory w = Some factory /\
  (w_config w = zero_kms_config \/ exists values, parseConfig values = Ok (w_config w)) /\
  forall b, w_backend w = Some b ->
    (exists values, parseConfig values = Ok (w_config w)) /\
    exists ctx world world', factory ctx (w_config w) world = (Ok b, world').

Lemma of_call_wrapper {A} (m : call W A) (w : Wrapper W) s : (of_call m w s).2.1 = w.
Proof. unfold of_call. by destruct (m s.2). Qed.

Lemma SetConfig_inv ctx opts s : wrapper_inv s.1 -> wrapper_inv (SetConfig ctx opts s).2.1.
Proof.
  destruct s as [w world]. cbn [fst]. intros Hi. unfold SetConfig. destruct (opts ≫= _) as [config|e] eqn:E; [|exact Hi].
  destruct (w_backend w) as [b|] eqn:Eb; [exact Hi|]. pose proof Hi as (Hf & _ & _).
  unfold newBackendLocked. rewrite Hf. destruct (factory ctx config world) as [[b|e] world1] eqn:En; [|exact Hi].
  destruct (be_KeyID b ctx world1) as [keyID world2]. cbn [snd fst].
  assert (exists values, parseConfig values = Ok config) as Hp.
  { destruct opts as [o|]; [|done]. by exists (o_ConfigMap o). }
  split_and!; cbn [w_factory w_config w_backend]; [done | by right |]. intros b' [= <-]. split; [done|]. by exists ctx, world, world1.
Qed.

Lemma Init_inv ctx s : wrapper_inv s.1 -> wrapper_inv (Init ctx s).2.1.
Proof.
  destruct s as [w world]. cbn [fst]. intros Hi. unfold Init. destruct ctx as [u|e]; [|exact Hi].
  destruct (String.eqb_spec (k_Mode (w_config w)) EmptyString) as [E|Hne]; [exact Hi|].
  destruct (w_backend w) as [b|] eqn:Eb; [exact Hi|]. pose proof Hi as (Hf & Hc & _).
  unfold newBackendLocked. rewrite Hf. destruct (factory (Ok u) (w_config w) world) as [[b|e] world1] eqn:En; [|exact Hi].
  split_and!; cbn [w_factory w_config w_backend fst snd]; [done.. |]. intros b' [= <-]. split; [|by exists (Ok u), world, world1].
  destruct Hc as [Hc|]; [|done]. by rewrite Hc in Hne.
Qed.

Lemma wrapper_step_inv s s' : wrapper_step s s' -> wrapper_inv s.1 -> wrapper_inv s'.1.
Proof.
  intros Hs Hi. destruct Hs as [ctx opts s|ctx s|ctx opts p s|ctx opts blob s|ctx s|ctx s|w world world'].
  - by apply SetConfig_inv.
  - by apply Init_inv.
  - unfold Wrapper_Encrypt. destruct opts as [o|]; [|done]. destruct (currentBackend s.1); [|done]. by rewrite of_call_wrapper.
  - unfold Wrapper_Decrypt. destruct opts as [o|]; [|done]. destruct (currentBackend s.1); [|done]. by rewrite of_call_wrapper.
  - unfold Wrapper_KeyId. destruct (currentBackend s.1); [|done]. by rewrite of_call_wrapper.
  - destruct Hi as (Hf & Hc & _). unfold Finalize. destruct (w_backend s.1); rewrite ?of_call_wrapper; split_and!; done.
  - done.
Qed.

(** In every state a wrapper can get into, whatever calls were made and failed: a
    backend was made by the factory from the configuration the wrapper holds, and that
    configuration came out of the parser. *)
Theorem wrapper_backend_configured s b :
  wrapper_reachable s -> w_backend s.1 = Some b ->
  kms_config_ok (w_config s.1) /\
  exists ctx world world', factory ctx (w_config s.1) world = (Ok b, world').
Proof.
  intros (world & Hr). assert (wrapper_inv s.1) as (_ & _ & Hb).
  { assert (wrapper_inv (NewWrapperWithFactory (Some factory), world).1) as Hi by (split_and!; [done | by left | done]).
    revert Hi. induction Hr as [|s1 s2 s3 Hs _ IH]; [done|]. intros Hi. apply IH. by eapply wrapper_step_inv. }
  intros (Hp & Hf)%Hb. split; [|done]. destruct Hp as (values & Hp). by apply parseConfig_Ok in Hp as (? & _).
Qed.

(** Without a backend nothing is wrapped, unwrapped or named, and nothing happens. *)
Lemma wrapper_uninitialized ctx opts p blob (s : Wrapper W * W) :
  w_backend s.1 = None ->
  Wrapper_Encrypt ctx (Ok opts) p s = (Err ErrNotInitialized, s) /\ Wrapper_Decrypt ctx (Ok opts) blob s = (Err ErrNotInitialized, s) /\
  Wrapper_KeyId ctx s = (Err ErrNotInitialized, s).
Proof. intros Hb. unfold Wrapper_Encrypt, Wrapper_Decrypt, Wrapper_KeyId, currentBackend. by rewrite Hb. Qed.
End LifeCycle.

(** ** Successful calls *)

Section CallLemmas.
Context {W : Type}.

Lemma bind_call_Ok {A B} (m : call W A) (f : A -> call W B) w b w' :
  (m ≫= f) w = (Ok b, w') -> exists a w1, m w = (Ok a, w1) /\ f a w1 = (Ok b, w').
Proof. unfold mbind, call_bind. destruct (m w) as [[a|] w1]; [eauto | done]. Qed.

Lemma pure_call_Ok {A} (r : result A) (w : W) a w' : pure r w = (Ok a, w') -> r = Ok a /\ w' = w.
Proof. unfold pure. by intros [= -> ->]. Qed.

Lemma ret_call_Ok {A} (x : A) (w : W) a w' : (mret x : call W A) w = (Ok a, w') -> x = a /\ w' = w.
Proof. unfold mret, call_ret. by intros [= -> ->]. Qed.

Lemma wrap_call_Ok {A} f (m : call W A) w a w' : wrap_error f m w = (Ok a, w') -> m w = (Ok a, w').
Proof. unfold wrap_error. destruct (m w) as [[x|] w1]; [by intros [= -> ->] | done]. Qed.

Lemma rpc_Ok {A} ctx what (m : call W A) w a w' : rpc ctx what m w = (Ok a, w') -> ctx = Ok tt /\ m w = (Ok a, w').
Proof.
  unfold rpc. intros Hr%wrap_call_Ok. apply bind_call_Ok in Hr as ([] & w1 & [-> ->]%pure_call_Ok & Hm). by split.
Qed.
End CallLemmas.

Ltac inv_call :=
  repeat match goal with
  | H : (_ ≫= _) _ = (Ok _, _) |- _ => apply bind_call_Ok in H as (? & ? & ? & H)
  | H : pure _ _ = (Ok _, _) |- _ => apply pure_call_Ok in H as [H ?]
  | H : mret _ _ = (Ok _, _) |- _ => apply ret_call_Ok in H as [H ?]
  | H : rpc _ _ _ _ = (Ok _, _) |- _ => apply rpc_Ok in H as [? H]
  | H : wrap_error _ _ _ = (Ok _, _) |- _ => apply wrap_call_Ok in H
  end; subst.

(** A blob keeps its identity on the way to OpenBao's storage and back. *)
Lemma blob_roundtrip `{AEAD} v nonce p aad :
  uint32 (Version (Ref v)) -> KeyVersion_Validate v = Ok tt ->
  protoToBlobInfo (Some (blobInfoToProto (Some (sealed v nonce p aad)))) = sealed v nonce p aad /\
  wb_Key (blobInfoToProto (Some (sealed v nonce p aad))) = Some (Ref v).
Proof.
  intros Hu Hv. unfold blobInfoToProto. cbn [sealed BKeyInfo KeyId].
  rewrite ParseKeyRef_String_ok; [done|]. apply KeyRef_Validate_Ok; [done|]. by apply KeyVersion_Validate_len.
Qed.

(** ** The broker backend against the broker *)

Section Broker.
Context `{AEADLaws, ProtoLib, Hashes}.

(** The broker as the plugin sees it: the number of calls so far and the broker's
    state.  For the [n]-th call: what the handlers draw from their environment, what
    [Challenge] reads from clock and random source, whether the request gets through and
    whether the response does, and what other clients did in between. *)
Context (svc : Service) (env : nat -> Env) (draws : nat -> Time * result bytes * result bytes)
  (sent received : nat -> result unit) (others : nat -> list store_op).

Definition served : Type := nat * Broker.

Definition over_wire {A} (handler : Broker -> result A * Broker) : call served A := fun '(n, b) =>
  let b := mkBroker (run (others n) (b_db b)) (b_file b) in
  match sent n with
  | Err e => (Err e, (S n, b))
  | Ok _ => let '(r, b) := handler b in (received n;; r, (S n, b))
  end.

#[local] Instance broker_client : UnsealClient served := {|
  client_Challenge req := fun w =>
    over_wire (fun b => let '(r, db) := Challenge_handler svc (draws w.1).1.1 (draws w.1).1.2 (draws w.1).2 (Some req) (b_db b) in
                    (r, mkBroker db (b_file b))) w;
  client_Wrap req := fun w =>
    over_wire (fun b => let '(r, b) := @Wrap _ DevelopmentProtector _ _ svc (env w.1) (Some req) b in (Ok r, b)) w;
  client_Unwrap req := fun w =>
    over_wire (fun b => let '(r, b) := @Unwrap _ DevelopmentProtector _ _ svc (env w.1) (Some req) b in (Ok r, b)) w;
  client_Status cluster := fun w =>
    over_wire (fun b => (Ok (@Status_handler DevelopmentProtector svc (env w.1) cluster (b_db b)), b)) w;
  client_Close := mret tt;
|}.

Context `{!KmsEnv served}.
Hypothesis files_unchanged : forall path w, (env_ReadFile path w).2 = w.
Hypothesis envs_typed : forall n, env_typed (env n).
Hypothesis others_typed : forall n, Forall op_typed (others n).
Hypothesis nonces : forall n x, e_seal_random (env n) = Ok x -> len x = NonceSize.

Lemma wire_steps {A} (handler : Broker -> result A * Broker) w r w' :
  (forall b, steps (b_db b) (b_db (handler b).2)) -> over_wire handler w = (r, w') -> steps (b_db w.2) (b_db w'.2).
Proof.
  intros Hh. destruct w as [n b]. unfold over_wire. assert (steps (b_db b) (run (others n) (b_db b))) as Ho by (eexists; split; [apply others_typed | done]).
  destruct (sent n); [|by intros [= _ <-]]. pose proof (Hh (mkBroker (run (others n) (b_db b)) (b_file b))) as Hs.
  destruct (handler _) as [r' b']. intros [= _ <-]. by eapply steps_trans.
Qed.

Hypothesis draws_typed : forall n, time_ok (draws n).1.1 /\ time_ok ((draws n).1.1 + ChallengeTTL (sv_config svc)).

Lemma challenge_steps config ctx op w r w' :
  int32 op -> broker_challenge config ctx op w = (r, w') -> steps (b_db w.2) (b_db w'.2).
Proof.
  intros Hop. unfold broker_challenge, rpc, mbind, call_bind, wrap_error, pure. cbn [mbind call_bind].
  destruct ctx as [u|e]; [|by intros [= _ <-]; apply steps_refl].
  destruct (client_Challenge _ w) as [r1 w1] eqn:E. intros Hr.
  assert (steps (b_db w.2) (b_db w1.2)) as Hs.
  { eapply wire_steps; [|exact E]. intros b. pose proof (draws_typed w.1) as [Ht1 Ht2].
    pose proof (Challenge_handler_steps svc (draws w.1).1.1 (draws w.1).1.2 (draws w.1).2
      (Some (mkChallengeRequest (k_ClusterID config) (k_NodeID config) op)) (b_db b) Ht1 Ht2 ltac:(by intros r0 [= <-])) as Hc.
    destruct (Challenge_handler _ _ _ _ _ _). exact Hc. }
  destruct r1; by injection Hr as _ <-.
Qed.

Lemma evidence_steps config id w r w' : broker_evidence config id w = (r, w') -> w' = w.
Proof.
  unfold broker_evidence. case_goal; [by intros [= _ <-]|]. case_goal; [|by intros [= _ <-]].
  unfold readKubernetesWorkloadToken, mbind, call_bind, wrap_error, pure, mret, call_ret.
  pose proof (files_unchanged (KubernetesBearerTokenFile (k_KubernetesTokenFile config)) w) as Hw.
  destruct (env_ReadFile _ w) as [[raw|] w1]; cbn [snd map_err] in *; subst; [|by intros [= _ <-]].
  intros Hr. case_hyp Hr; by injection Hr as _ <-.
Qed.

Lemma over_wire_Ok {A} (handler : Broker -> result A * Broker) w a w' :
  over_wire handler w = (Ok a, w') ->
  exists b1, handler (mkBroker (run (others w.1) (b_db w.2)) (b_file w.2)) = (Ok a, b1) /\ w' = (S w.1, b1).
Proof.
  destruct w as [n b]. unfold over_wire. cbn [fst snd]. destruct (sent n); [|done]. destruct (handler _) as [r b1].
  intros [= Hr <-]. inv_ok. exists b1. split; [congruence | done].
Qed.

Definition disturbed (w : served) : Broker := mkBroker (run (others w.1) (b_db w.2)) (b_file w.2).

Lemma disturbed_steps w : steps (b_db w.2) (b_db (disturbed w)).
Proof. eexists. split; [apply others_typed | done]. Qed.

Lemma requireAllow_Ok d fallback : requireAllow d fallback = Ok tt <-> pd_State d = POLICY_DECISION_STATE_ALLOW.
Proof. unfold requireAllow. rewrite check_Ok. apply Z.eqb_eq. Qed.

(** What a successful encryption was: the call of [Wrap] and what came back. *)
Lemma broker_Encrypt_Ok config ctx req w blob w' :
  broker_Encrypt config ctx req w = (Ok blob, w') ->
  exists w1 wreq resp b', steps (b_db w.2) (b_db w1.2) /\ wq_Plaintext wreq = er_Plaintext req /\ wq_Aad wreq = er_AAD req /\
    @Wrap _ DevelopmentProtector _ _ svc (env w1.1) (Some wreq) (disturbed w1) = (resp, b') /\
    pd_State (wp_Decision resp) = POLICY_DECISION_STATE_ALLOW /\ blob = protoToBlobInfo (wp_Blob resp) /\ w' = (S w1.1, b').
Proof.
  unfold broker_Encrypt. intros He. apply bind_call_Ok in He as (challenge & w1 & Hc & He).
  apply challenge_steps in Hc; [|exact int32_wrap].
  apply bind_call_Ok in He as (requested & w2 & [Hreq ->]%pure_call_Ok & He). apply bind_call_Ok in He as (ev & w3 & Hev & He).
  apply evidence_steps in Hev as ->. apply bind_call_Ok in He as (resp & w4 & [-> Hw]%rpc_Ok & He).
  apply bind_call_Ok in He as ([] & w5 & [Ha%requireAllow_Ok ->]%pure_call_Ok & [<- <-]%ret_call_Ok).
  apply over_wire_Ok in Hw as (b1 & Hw & ->). fold (disturbed w1) in Hw.
  destruct (Wrap _ _ (Some _) _) as [resp' b2] eqn:Ew. injection Hw as -> ->. exists w1. eexists. exists resp, b1. split_and!; [done | | | exact Ew | done..]; done.
Qed.

Lemma broker_Decrypt_Ok config ctx req w p w' :
  broker_Decrypt config ctx req w = (Ok p, w') ->
  exists w1 ureq resp b', steps (b_db w.2) (b_db w1.2) /\ uq_Blob ureq = Some (blobInfoToProto (dr_Blob req)) /\ uq_Aad ureq = dr_AAD req /\
    @Unwrap _ DevelopmentProtector _ _ svc (env w1.1) (Some ureq) (disturbed w1) = (resp, b') /\
    pd_State (up_Decision resp) = POLICY_DECISION_STATE_ALLOW /\ p = up_Plaintext resp /\ w' = (S w1.1, b').
Proof.
  unfold broker_Decrypt. intros He. apply bind_call_Ok in He as ([] & w0 & [_ ->]%pure_call_Ok & He).
  apply bind_call_Ok in He as (challenge & w1 & Hc & He). apply challenge_steps in Hc; [|exact int32_unwrap].
  apply bind_call_Ok in He as (ev & w3 & Hev & He).
  apply evidence_steps in Hev as ->. apply bind_call_Ok in He as (resp & w4 & [-> Hw]%rpc_Ok & He).
  apply bind_call_Ok in He as ([] & w5 & [Ha%requireAllow_Ok ->]%pure_call_Ok & [<- <-]%ret_call_Ok).
  apply over_wire_Ok in Hw as (b1 & Hw & ->). fold (disturbed w1) in Hw.
  destruct (Unwrap _ _ _ _) as [resp' b2] eqn:Ew. injection Hw as -> ->. exists w1. eexists. exists resp, b1.
  split_and!; [done | | | exact Ew | done..]; done.
Qed.

(** C6: over the broker, what the wrapper decrypted is what it encrypted: whatever blob
    [Encrypt] returned, however many calls, rotations and restarts later, through
    whichever node's configuration, [Decrypt] of that blob never returns anything but
    the plaintext. *)
Theorem broker_backend_roundtrip config ctx req w0 blob w1 w2 config2 ctx2 req2 p w3 :
  reachable (b_db w0.2) ->
  broker_Encrypt config ctx req w0 = (Ok blob, w1) -> steps (b_db w1.2) (b_db w2.2) ->
  dr_Blob req2 = Some blob -> dr_AAD req2 = er_AAD req ->
  broker_Decrypt config2 ctx2 req2 w2 = (Ok p, w3) -> p = er_Plaintext req.
Proof.
  intros Hr (wa & wreq & resp & b1 & Hs1 & Hpt & Haad & Hw & Ha1 & -> & ->)%broker_Encrypt_Ok Hs2 Hblob Haad2
    (wb & ureq & resp2 & b2 & Hs3 & Hub & Hua & Hu & Ha2 & -> & ->)%broker_Decrypt_Ok.
  destruct resp2 as [p2 pd2]. cbn [up_Plaintext up_Decision] in *.
  destruct (Unwrap_allow _ _ _ _ _ _ _ Hu Ha2) as (vf & ref & d & db4 & ring & _ & Href & Hev & Hd & Hl & Hdec & _).
  apply keyRef_Ok in Href as [Href _]. rewrite Hub, Hblob in Href. cbn [GetKey] in Href.
  destruct resp as [[wblob|] pd1]; cbn [wp_Blob wp_Decision] in *; [|by cbn in Href].
  pose proof (steps_trans _ _ _ Hs1 (disturbed_steps wa)) as Hsd. pose proof (steps_reachable _ _ Hsd Hr) as Hra.
  destruct (e_seal_random (env wa.1)) as [nonce|e] eqn:En.
  2:{ destruct (Wrap_blob _ _ _ _ _ _ _ Hw) as (? & ? & ? & ? & ? & ? & _ & _ & _ & _ & _ & _ & Henc & _).
      rewrite En in Henc. unfold Encrypt in Henc. cbn [map_err] in Henc. inv_ok. }
  destruct (Wrap_sealed _ _ _ _ _ _ _ nonce (envs_typed _) (reachable_inv _ Hra) En (nonces _ _ En) Hw)
    as (k & row & v & db & _ & Hs4 & HiL & Hk & Hact & Ho & Hu32 & Hkey & _ & Hp).
  pose proof Ho as (Hrv & _ & _ & _ & Hval). rewrite Hp in *.
  destruct (blob_roundtrip v nonce (wq_Plaintext wreq) (wq_Aad wreq) Hu32 Hval) as [Hb1 Hb2].
  rewrite Hb2 in Href. injection Href as <-. rewrite Hub, Hblob, Hb1, Hua, Haad2, <- Haad in Hdec.
  pose proof (steps_evaluate (env wb.1) (sv_policy svc) (unwrap_request vf (Ref v) ureq) (b_db (disturbed wb)) (envs_typed _) int32_unwrap) as Hs5.
  rewrite Hev in Hs5. cbn [snd] in Hs5.
  pose proof (steps_trans _ _ _ Hs4 (steps_trans _ _ _ Hs2 (steps_trans _ _ _ Hs3 (steps_trans _ _ _ (disturbed_steps wb)
    (steps_trans _ _ _ Hs5 (steps_at (env wb.1) AtLoad db4 (envs_typed _))))))) as Hsteps.
  destruct (steps_le _ _ HiL Hsteps) as [Hle Hi5].
  pose proof (decrypts_later db _ (e_ctx (env wb.1)) (ClusterID (Ref v)) k row v ring nonce (wq_Plaintext wreq) (wq_Aad wreq)
    (si_keys _ HiL) (si_keys _ Hi5) Hle Hk Hact Ho (nonces _ _ En) ltac:(by rewrite Hrv) Hl) as Hd2. congruence.
Qed.
End Broker.

(** ** A node and a broker in miniature *)

#[export] Instance toy_kms_env : KmsEnv served := {|
  env_ReadFile path w := (Ok "header.payload.signature"%string, w);
  CertPool := unit; SystemCertPool := Some tt; EmptyCertPool := tt; AppendCertsFromPEM p pem := Some p;
  ClientCertificate := unit; LoadX509KeyPair _ _ := fun w => (Ok tt, w);
  grpc_NewClient _ := Ok tt; ErrorCode_String _ := "ERROR_CODE"%string;
|}.

Definition toy_draws (n : nat) : Time * result bytes * result bytes :=
  (example_time, Ok ("random bytes no. " +:+ FormatUint (Z.of_nat n)), Ok ("nonce no. " +:+ FormatUint (Z.of_nat n))).
Definition toy_env (n : nat) : Env := example_env quiet.
Definition no_loss : nat -> result unit := fun _ => Ok tt.
Definition toy_served : served := (O, mkBroker (run [OInsertSubject "cluster-a" "openbao-0" example_time] example_store) []).
Definition toy_client : UnsealClient served :=
  @broker_client toy_AEAD toy_ProtoLib toy_Hashes example_service toy_env toy_draws no_loss no_loss (fun _ => []).
Definition toy_encrypt : result BlobInfo * served :=
  @broker_Encrypt served toy_client toy_kms_env example_kms_config (Ok tt) (mkEncryptRequest "root key" "aad" EmptyString) toy_served.
Definition toy_decrypt (blob : BlobInfo) (w : served) : result bytes * served :=
  @broker_Decrypt served toy_client toy_kms_env example_kms_config (Ok tt) (mkDecryptRequest (Some blob) "aad" EmptyString) w.

(** The outcome of encrypting and decrypting at once. *)
Definition toy_run : result bytes :=
  match toy_encrypt with (Ok blob, w) => (toy_decrypt blob w).1 | (Err e, _) => Err e end.

Lemma toy_run_ok : is_ok toy_run = true.
Proof. vm_cast_no_check (@eq_refl _ true). Qed.

Lemma toy_served_reachable : reachable (b_db toy_served.2).
Proof. apply run_reachable; [exact example_store_reachable | repeat constructor]. Qed.

Lemma toy_draws_typed n : time_ok (toy_draws n).1.1 /\ time_ok ((toy_draws n).1.1 + ChallengeTTL (sv_config example_service)).
Proof. split; vm_compute; split; congruence. Qed.

Lemma broker_backend_roundtrip_witness :
  exists blob w1 p w2, toy_encrypt = (Ok blob, w1) /\ toy_decrypt blob w1 = (Ok p, w2) /\ p = "root key"%string.
Proof.
  pose proof toy_run_ok as Hrun. unfold toy_run in Hrun. destruct toy_encrypt as [[blob|] w1] eqn:Ee; [|done].
  destruct (toy_decrypt blob w1) as [[p|] w2] eqn:Ed; [|done]. exists blob, w1, p, w2. split_and!; [done..|].
  apply (@broker_backend_roundtrip toy_AEAD toy_AEADLaws toy_ProtoLib toy_Hashes example_service toy_env toy_draws no_loss no_loss (fun _ => [])
    toy_kms_env ltac:(reflexivity) (fun _ => quiet_typed) ltac:(constructor) ltac:(by intros n x [= <-]) toy_draws_typed
    example_kms_config (Ok tt) (mkEncryptRequest "root key" "aad" EmptyString) toy_served blob w1 w1
    example_kms_config (Ok tt) (mkDecryptRequest (Some blob) "aad" EmptyString) p w2 toy_served_reachable Ee (steps_refl _)
    ltac:(reflexivity) ltac:(reflexivity) Ed).
Defined.

Definition toy_factory : backendFactory served := fun ctx config => @newBrokerBackend served toy_client toy_kms_env ctx config.
Definition toy_wrapper : Wrapper served * served :=
  (SetConfig (Ok tt) (Ok (mkOptions example_stanza EmptyString EmptyString)) (NewWrapperWithFactory (Some toy_factory), toy_served)).2.

Lemma wrapper_backend_configured_witness :
  kms_config_ok (w_config toy_wrapper.1) /\
  exists ctx world world', toy_factory ctx (w_config toy_wrapper.1) world = (Ok (@brokerBackend served toy_client toy_kms_env example_kms_config), world').
Proof.
  apply (wrapper_backend_configured toy_factory toy_wrapper (@brokerBackend served toy_client toy_kms_env example_kms_config)).
  - exists toy_served. eapply rtc_l; [apply StepSetConfig | apply rtc_refl].
  - reflexivity.
Defined.
