(* ===== verification/KmsLive.v ===== *)
(** * An enrolled node seals and unseals

    The wrapper's broker backend with the development evidence, against a broker that
    nothing else disturbs: whenever the broker issues the challenges, encryption
    succeeds and decryption returns the plaintext. *)

From S2P Require Import Prelude GoStrings GoTime Keyring KeyProtection Tpm TpmSeal NodeEvidence LocalState Config.
From S2P Require Import Sql Store Challenges SqlNodeEvidence StoreInv StoreOps Policy Kubernetes Service Runtime KmsConfig KmsPlugin KmsProps.
Local Open Scope Z_scope.

Lemma TrimSpace_identifier s : validIdentifier s = true -> TrimSpace s = s.
Proof.
  intros Hs%validIdentifier_chars. apply TrimSpace_visible. revert Hs. apply string_forall_impl.
  intros c. by destruct c as [[] [] [] [] [] [] [] []].
Qed.

Section Ready.
Context `{AEADLaws, ProtoLib, Hashes}.

(** What the broker must hold for a subject of a cluster: the subject, enrolled and not
    revoked, and a keyring that loads. *)
Record ready (cluster subject : string) (ring : Ring) (db : DB) : Prop := {
  rd_inv : store_inv db;
  rd_subject : is_ok (store_Subject db cluster subject) = true;
  rd_ring : @LoadKeyring DB SQLite_Repository DevelopmentProtector (Ok tt) db cluster = Ok ring;
}.

(** The tables that decide it. *)
Definition ready_view (db : DB) := (subjects db, key_versions db).

Lemma ready_frame cluster subject ring db db' :
  ready cluster subject ring db -> store_inv db' -> ready_view db' = ready_view db -> ready cluster subject ring db'.
Proof.
  intros [_ Hs Hl] Hi [= Hsub Hkeys]. split; [done | |].
  - unfold store_Subject in *. by rewrite Hsub.
  - rewrite <- Hl. unfold LoadKeyring. cbn [ProtectedKeys SQLite_Repository]. unfold store_ProtectedKeys, cluster_key_rows.
    by rewrite Hkeys.
Qed.

(** The active version of a loaded keyring is a readable row with status active. *)
Lemma ready_active cluster subject ring db :
  ready cluster subject ring db ->
  exists v k row, Active (Some ring) = Ok v /\ key_versions db !! k = Some row /\ kvr_status row = StatusActive /\
    opens_row k row v /\ k.1.1 = cluster /\ store_ProtectedKey db (Ref v) = Ok (row_key k row) /\
    uint32 (Version (Ref v)) /\ ClusterID (Ref v) = cluster /\
    forall nonce p aad, Encrypt (Ok tt) (Ok nonce) (Some ring) p aad = Ok (sealed v nonce p aad).
Proof.
  intros [Hi _ Hl]. pose proof (si_keys _ Hi) as Hki.
  destruct (loaded_ring _ _ _ _ Hki Hl) as (vs & -> & (Hval & _ & Hc) & _ & Hfrom & _).
  destruct (active_loop_exists vs ltac:(lia)) as (v & Ha). destruct (active_loop_Ok _ _ Ha) as [Hin Hst].
  destruct (Hfrom v Hin) as (k & row & Hk & Hcl & Ho). exists v, k, row. pose proof (opens_row_uint32 _ _ _ _ Hki Hk Ho) as Hu.
  pose proof Ho as (Hr & Hs & _ & _ & Hv). split_and!; try done.
  - congruence.
  - rewrite Hr. unfold store_ProtectedKey, row_ref. destruct k as [[c n] i]. cbn [ClusterID KeyID Version fst snd] in *. rewrite Hk.
    cbn [of_option mbind result_bind]. destruct (ki_row _ Hki (c, n) i row Hk) as (_ & Hpk & _). by rewrite Hpk.
  - by rewrite Hr.
  - intros nonce p aad. apply Encrypt_active; [done | done |]. by apply (proj1 (Forall_forall _ _) Hval).
Qed.

(** A row of a challenge that [subject] may spend before [deadline]. *)
Definition spendable (db : DB) (id cluster subject : string) (op : Operation) (deadline : Time) : Prop :=
  exists row, challenges db !! id = Some row /\ chr_cluster_id row = cluster /\ chr_subject_id row = subject /\
    chr_operation row = Operation_String op /\ chr_consumed_at row = None /\ chr_expires_at row = FormatRFC3339Nano deadline.

Lemma consume_spendable db id cluster subject op deadline now :
  spendable db id cluster subject op deadline -> time_ok deadline -> now < deadline ->
  exists db', sql_ConsumeChallenge db id cluster subject op now = (Ok tt, db') /\ ready_view db' = ready_view db.
Proof.
  intros (row & Hrow & Hc & Hs & Ho & Hn & He) Ht Hlt. unfold sql_ConsumeChallenge, transact, consume_tx.
  rewrite Hrow. cbn [of_option mbind result_bind]. rewrite Hc, Hs, Ho, Hn, He, !String.eqb_refl. cbn [andb check mbind result_bind].
  rewrite bool_decide_eq_true_2 by done. unfold parse_time. rewrite ParseRFC3339Nano_Format by done.
  cbn [check of_option mbind result_bind]. unfold Before. rewrite (proj2 (Z.ltb_lt _ _) Hlt). cbn [check mbind result_bind]. by eexists.
Qed.

(** The engine's answer for a ready subject with a spendable challenge. *)
Lemma evaluate_ready env pe cluster subject ring db id op deadline ref key :
  env_typed env -> (forall p, e_others env p = []) -> int32 op -> ready cluster subject ring db -> subject <> EmptyString -> id <> EmptyString ->
  spendable db id cluster subject op deadline -> time_ok deadline -> e_clock env AtConsume < deadline ->
  store_ProtectedKey db ref = Ok key -> status_allows op (pk_Status key) ->
  let ev := evaluate env pe (mkPolicyRequest cluster subject no_workload op id ref) db in
  ev.1 = Allow (pe_policyID pe) /\ ready cluster subject ring ev.2.
Proof.
  intros He Hq Hop Hr Hsub Hid Hsp Ht Hlt Hkey Hst ev. assert (forall p db, at_ env p db = db) as Hat by (intros p d; unfold at_; by rewrite Hq).
  destruct (consume_spendable _ _ _ _ _ _ _ Hsp Ht Hlt) as (db' & Hc & Hv).
  pose proof (steps_evaluate env pe (mkPolicyRequest cluster subject no_workload op id ref) db He Hop) as Hs. fold ev in Hs.
  destruct (steps_le _ _ (rd_inv _ _ _ _ Hr) Hs) as [_ Hi2].
  assert (ev = (Allow (pe_policyID pe), db')) as Hev.
  { unfold ev, evaluate, evaluateSubjectAndNodeEvidence, evaluateNodeEvidence, consumeChallenge.
    cbn [pr_Subject pr_ClusterID pr_Workload wi_NodeName no_workload pr_ChallengeID pr_Operation pr_KeyRef]. rewrite !Hat.
    rewrite (proj2 (String.eqb_neq _ _) Hsub). pose proof (rd_subject _ _ _ _ Hr) as Hss.
    destruct (store_Subject db cluster subject) as [sub|]; [|done].
    assert (forall A (x : option A), match x with Some _ => Allow (pe_policyID pe) | None => Allow (pe_policyID pe) end = Allow (pe_policyID pe)) as Hx by (by intros A []).
    cbn [String.eqb no_workload wi_NodeName]. rewrite Hx. cbn [Allowed Allow negb]. change (Allowed (Allow (pe_policyID pe))) with true. cbn [negb].
    rewrite (proj2 (String.eqb_neq _ _) Hid), !Hat, Hc, !Hat. f_equal. apply key_decision_Allow, key_decision_Allowed. exists key.
    injection Hv as _ Hk. unfold store_ProtectedKey in *. by rewrite Hk. }
  rewrite Hev in *. cbn [fst snd] in *. split; [done|]. by eapply ready_frame.
Qed.
End Ready.

(** ** A quiet broker *)

Section Quiet.
Context `{AEADLaws, ProtoLib, Hashes}.
Context (svc : Service) (env : nat -> Env) (draws : nat -> Time * result bytes * result bytes) (nonce : nat -> bytes).

(** No request or response is lost and no other client calls. *)
Definition fine : nat -> result unit := fun _ => Ok tt.
Definition nobody : nat -> list store_op := fun _ => [].
#[local] Instance quiet_client : UnsealClient served := broker_client svc env draws fine fine nobody.

Record quiet_broker : Prop := {
  qb_others n p : e_others (env n) p = [];
  qb_ctx n : e_ctx (env n) = Ok tt;
  qb_random n : e_seal_random (env n) = Ok (nonce n);
  qb_nonce n : len (nonce n) = NonceSize;
  qb_time n : time_ok (draws n).1.1 /\ time_ok ((draws n).1.1 + ChallengeTTL (sv_config svc));
  qb_clock n : e_clock (env (S n)) AtConsume < (draws n).1.1 + ChallengeTTL (sv_config svc);
  qb_verifier : forall e, verifier_of svc e = DevelopmentEvidenceVerifier e;
}.

Context `{!KmsEnv served} (config : KmsConfig) (ring : Ring).
Hypothesis quiet : quiet_broker.
Hypothesis development : BrokerEvidenceMode config = EvidenceModeDevelopmentSubject.
Hypothesis node_valid : validIdentifier (k_NodeID config) = true.
Hypothesis same_cluster : k_ClusterID config = c_ClusterID (sv_config svc).

Definition node_ready : DB -> Prop := ready (k_ClusterID config) (k_NodeID config) ring.

Lemma quiet_env_typed n : env_typed (env n).
Proof. intros p. by rewrite (qb_others quiet). Qed.

Lemma quiet_at n p db : at_ (env n) p db = db.
Proof. unfold at_. by rewrite (qb_others quiet). Qed.

(** The evidence names the node. *)
Definition node_evidence_of (id : string) : EvidenceEnvelope :=
  mkEvidenceEnvelope 0 "development-subject" (k_NodeID config) id [].

Lemma quiet_evidence id w : broker_evidence config id w = (Ok (node_evidence_of id), w).
Proof. unfold broker_evidence. by rewrite development. Qed.

Lemma quiet_verified id : verifier_of svc (Some (node_evidence_of id)) = Ok (mkVerifiedEvidence (k_NodeID config) no_workload).
Proof.
  rewrite (qb_verifier quiet). unfold DevelopmentEvidenceVerifier. cbn [GetPayload node_evidence_of ev_Payload].
  by rewrite TrimSpace_identifier.
Qed.

(** An issued challenge is there for the node to spend. *)
Lemma quiet_challenge op n b resp w1 :
  int32 op -> node_ready (b_db b) -> broker_challenge config (Ok tt) op (n, b) = (Ok resp, w1) ->
  exists b1, w1 = (S n, b1) /\ node_ready (b_db b1) /\ cp_ChallengeId resp <> EmptyString /\
    spendable (b_db b1) (cp_ChallengeId resp) (k_ClusterID config) (k_NodeID config) op
      ((draws n).1.1 + ChallengeTTL (sv_config svc)).
Proof.
  intros Hop Hr Hc. pose proof Hc as Hsteps.
  eapply (challenge_steps svc env draws fine fine nobody) in Hsteps; [| by intros | by apply (qb_time quiet) | exact Hop].
  unfold broker_challenge in Hc. apply bind_call_Ok in Hc as (resp' & w' & [_ Hc]%rpc_Ok & [Hne ->]%pure_call_Ok). inv_ok. to_prop. units.
  cbv [client_Challenge quiet_client broker_client] in Hc. apply over_wire_Ok in Hc as (b1 & Hc & ->). cbn [fst snd nobody run foldl] in Hc. exists b1. split; [done|].
  cbn [fst snd] in Hsteps. pose proof (proj2 (steps_le _ _ (rd_inv _ _ _ _ Hr) Hsteps)) as Hi1.
  unfold Challenge_handler in Hc. cbn [cq_ClusterId cq_NodeId cq_Operation] in Hc. case_hyp Hc; [done|].
  destruct (randomID _ _) as [id|]; [|done]. destruct (randomNonce _) as [cnonce|]; [|done].
  destruct (sql_CreateChallenge _ _) as [[[]|] db1] eqn:E; [|done]. injection Hc as <- <-. cbn [b_db cp_ChallengeId] in *.
  unfold sql_CreateChallenge, exec in E. destruct (insert_challenges _ _ _) as [db2|] eqn:Ei; [|done]. injection E as ->.
  apply insert_challenges_Ok in Ei as (_ & _ & _ & ->). cbn [ch_ID] in *.
  split; [by eapply ready_frame|]. split; [done|]. eexists. cbn [challenges set_challenges]. rewrite lookup_insert_eq. by split_and!.
Qed.

Lemma audit_ready n subject op c ref d ev b :
  node_ready (b_db b) -> node_ready (b_db (auditDecision (env n) subject op c ref d ev b).2).
Proof.
  intros Hr. pose proof (steps_audit (env n) subject op c ref d ev b (quiet_env_typed n)) as Hs.
  eapply ready_frame; [exact Hr | by apply (proj2 (steps_le _ _ (rd_inv _ _ _ _ Hr) Hs)) |].
  rewrite auditDecision_db. destruct (newAuditEvent _ _ _ _ _ _ _ _ _) as [event|]; [|done]. rewrite (qb_others quiet).
  cbn [app run foldl store_step b_db]. unfold InsertAuditEvent, exec, insert_audit_events. by destruct (check _ _).
Qed.

(** The request a node makes of the engine. *)
Lemma quiet_evaluate n b op id ref key :
  int32 op -> node_ready (b_db b) -> id <> EmptyString ->
  spendable (b_db b) id (k_ClusterID config) (k_NodeID config) op ((draws n).1.1 + ChallengeTTL (sv_config svc)) ->
  store_ProtectedKey (b_db b) ref = Ok key -> status_allows op (pk_Status key) ->
  exists db, evaluate (env (S n)) (sv_policy svc) (mkPolicyRequest (k_ClusterID config) (k_NodeID config) no_workload op id ref) (b_db b)
    = (Allow (pe_policyID (sv_policy svc)), db) /\ node_ready db.
Proof.
  intros Hop Hr Hid Hsp Hkey Hst.
  assert (k_NodeID config <> EmptyString) as Hne by (intros E; by rewrite E in node_valid).
  pose proof (evaluate_ready (env (S n)) (sv_policy svc) _ _ ring (b_db b) id op _ ref key (quiet_env_typed _) (qb_others quiet _) Hop Hr Hne Hid
    Hsp (proj2 (qb_time quiet n)) (qb_clock quiet n) Hkey Hst) as [Hev1 Hev2].
  destruct (evaluate _ _ _ _) as [d db]. cbn [fst snd] in *. subst. by exists db.
Qed.

Definition allowed : ProtoDecision := Proto (Allow (pe_policyID (sv_policy svc))).

Lemma quiet_wrap n b id p aad v k row :
  node_ready (b_db b) -> id <> EmptyString ->
  spendable (b_db b) id (k_ClusterID config) (k_NodeID config) OPERATION_WRAP ((draws n).1.1 + ChallengeTTL (sv_config svc)) ->
  Active (Some ring) = Ok v -> store_ProtectedKey (b_db b) (Ref v) = Ok (row_key k row) -> kvr_status row = StatusActive ->
  ClusterID (Ref v) = k_ClusterID config ->
  (forall nonce p aad, Encrypt (Ok tt) (Ok nonce) (Some ring) p aad = Ok (sealed v nonce p aad)) ->
  exists b1, @Wrap _ DevelopmentProtector _ _ svc (env (S n)) (Some (mkWrapRequest None p aad (Some (node_evidence_of id)))) b
    = (mkWrapResponse (wrappedBlobToProto (sealed v (nonce (S n)) p aad)) allowed, b1) /\ node_ready (b_db b1).
Proof.
  intros Hr Hid Hsp Ha Hkey Hst Hcl Henc.
  destruct (quiet_evaluate n b OPERATION_WRAP id (Ref v) _ int32_wrap Hr Hid Hsp Hkey) as (db & Hev & Hr'); [by split|].
  unfold Wrap, evidenceSubject. pose proof (quiet_verified id) as Hvf. unfold verifier_of in Hvf. cbn [wq_Evidence]. rewrite Hvf.
  change (Allowed (Allow (Config_Policy (sv_config svc)))) with true. cbn [negb]. rewrite quiet_at.
  unfold wrapKeyRef, loadKeyring. cbn [wq_RequestedKey]. rewrite (qb_ctx quiet), <- same_cluster, (rd_ring _ _ _ _ Hr), Ha.
  change (Allowed (Allow (Config_Policy (sv_config svc)))) with true. cbn [negb vf_Subject vf_Workload GetChallengeId node_evidence_of ev_ChallengeId].
  rewrite Hcl, Hev. change (Allowed (Allow (pe_policyID (sv_policy svc)))) with true. cbn [negb]. rewrite quiet_at, (rd_ring _ _ _ _ Hr').
  cbn [wq_Plaintext wq_Aad]. rewrite (qb_random quiet), Henc. eexists. split; [reflexivity|]. by apply audit_ready.
Qed.

Lemma quiet_unwrap n b id blob p aad v k row :
  node_ready (b_db b) -> id <> EmptyString ->
  spendable (b_db b) id (k_ClusterID config) (k_NodeID config) OPERATION_UNWRAP ((draws n).1.1 + ChallengeTTL (sv_config svc)) ->
  store_ProtectedKey (b_db b) (Ref v) = Ok (row_key k row) -> status_allows OPERATION_UNWRAP (kvr_status row) ->
  ClusterID (Ref v) = k_ClusterID config -> KeyRef_Validate (Ref v) = Ok tt -> wb_Key blob = Some (Ref v) ->
  Decrypt (Ok tt) (Some ring) (Some (protoToBlobInfo (Some blob))) aad = Ok p ->
  exists b1, @Unwrap _ DevelopmentProtector _ _ svc (env (S n)) (Some (mkUnwrapRequest (Some blob) aad (Some (node_evidence_of id)))) b
    = (mkUnwrapResponse p allowed, b1) /\ node_ready (b_db b1).
Proof.
  intros Hr Hid Hsp Hkey Hst Hcl Hval Hb Hdec.
  destruct (quiet_evaluate n b OPERATION_UNWRAP id (Ref v) _ int32_unwrap Hr Hid Hsp Hkey Hst) as (db & Hev & Hr').
  unfold Unwrap, evidenceSubject. pose proof (quiet_verified id) as Hvf. unfold verifier_of in Hvf. cbn [uq_Evidence]. rewrite Hvf.
  change (Allowed (Allow (Config_Policy (sv_config svc)))) with true. cbn [negb uq_Blob GetKey]. rewrite Hb.
  unfold keyRefFromProto. rewrite Hval. cbn [mbind result_bind vf_Subject vf_Workload GetChallengeId node_evidence_of ev_ChallengeId].
  rewrite Hcl, Hev. change (Allowed (Allow (pe_policyID (sv_policy svc)))) with true. cbn [negb].
  unfold loadKeyring. rewrite (qb_ctx quiet), quiet_at, (rd_ring _ _ _ _ Hr'). cbn [uq_Aad]. rewrite Hdec.
  eexists. split; [reflexivity|]. by apply audit_ready.
Qed.
End Quiet.

(** Calls that go through. *)
Lemma bind_call {W A B} (m : call W A) (f : A -> call W B) w a w1 : m w = (Ok a, w1) -> (m ≫= f) w = f a w1.
Proof. unfold mbind, call_bind. by intros ->. Qed.

Lemma bind_pure {W A B} (a : A) (f : A -> call W B) w : (pure (Ok a) ≫= f) w = f a w.
Proof. done. Qed.

Lemma bind_pure_tt {W B} (r : result unit) (f : unit -> call W B) w : r = Ok tt -> (pure r ≫= f) w = f tt w.
Proof. by intros ->. Qed.

Lemma rpc_fine {W A} what (m : call W A) w a w1 : m w = (Ok a, w1) -> rpc (Ok tt) what m w = (Ok a, w1).
Proof. unfold rpc, wrap_error, mbind, call_bind, pure. by intros ->. Qed.

Lemma wire_fine {A} (handler : Broker -> result A * Broker) n b a b1 :
  handler b = (Ok a, b1) -> over_wire fine fine nobody handler (n, b) = (Ok a, (S n, b1)).
Proof. unfold over_wire, fine, nobody. cbn [run foldl]. destruct b as [db file]. cbn [b_db b_file]. by intros ->. Qed.

(** A stored row in a later state: the same but for a status that still decrypts. *)
Lemma later_row db db' k row :
  store_inv db -> steps db db' -> key_versions db !! k = Some row -> kvr_status row = StatusActive ->
  exists row', key_versions db' !! k = Some row' /\ store_ProtectedKey db' (row_ref k) = Ok (row_key k row') /\
    status_allows OPERATION_UNWRAP (kvr_status row').
Proof.
  intros Hi Hs Hk Hact. destruct (steps_le _ _ Hi Hs) as [Hle Hi']. destruct (le_keys _ _ Hle k row Hk) as (st & Hk' & Hst).
  eexists. split; [exact Hk'|]. split.
  - destruct k as [[c n] i]. unfold store_ProtectedKey, row_ref. cbn [ClusterID KeyID Version fst snd]. rewrite Hk'.
    cbn [of_option mbind result_bind]. destruct (ki_row _ (si_keys _ Hi') (c, n) i _ Hk') as (_ & Hpk & _). by rewrite Hpk.
  - split; [done|]. intros _. cbn. rewrite Hact in Hst. destruct Hst as [->|[[Hx _]|[_ ->]]]; [by left | done | by right].
Qed.

(** What the broker draws for a challenge: two successful reads of random bytes whose
    identifier and nonce no stored challenge has. *)
Definition fresh_draw (draw : Time * result bytes * result bytes) (db : DB) : Prop :=
  exists id nonce, randomID draw.1.2 "chal" = Ok id /\ randomNonce draw.2 = Ok nonce /\
    challenges db !! id = None /\ nonce_used db nonce = false.

(** With such a draw the broker does issue the challenge. *)
Lemma quiet_issue `{AEADLaws, ProtoLib, Hashes} svc env draws nonce `{!KmsEnv served} config ring n b op :
  quiet_broker svc env draws nonce -> validIdentifier (k_NodeID config) = true ->
  node_ready config ring (b_db b) -> fresh_draw (draws n) (b_db b) ->
  let client := quiet_client svc env draws in
  exists resp w1, broker_challenge config (Ok tt) op (n, b) = (Ok resp, w1).
Proof.
  intros Hq Hnode Hr (id & cnonce & Hrid & Hrn & Hid & Hnonce) client.
  destruct (ready_active _ _ _ _ Hr) as (v & k & row & _ & Hk & _ & Ho & Hkc & _ & _ & Hvc & _).
  pose proof Ho as (_ & _ & _ & _ & Hval).
  assert (validIdentifier (k_ClusterID config) = true) as Hcluster.
  { rewrite <- Hvc. apply KeyVersion_Validate_len in Hval as [_ Hval]. unfold KeyRef_Validate in Hval.
    apply bind_Ok in Hval as (? & Hval & _). by apply check_Ok in Hval. }
  assert (is_Some (clusters (b_db b) !! k_ClusterID config)) as [crow Hcrow].
  { pose proof (si_keys _ (rd_inv _ _ _ _ Hr)) as Hki. rewrite <- Hkc. apply (ki_cluster _ Hki k.1).
    destruct k as [k i]. by destruct (ki_row _ Hki k i row Hk) as (_ & _ & ?). }
  unfold broker_challenge. eexists. eexists. erewrite bind_call.
  2:{ apply rpc_fine, wire_fine. cbn [fst]. unfold Challenge_handler. cbn [cq_ClusterId cq_NodeId cq_Operation].
    assert (String.eqb (k_ClusterID config) EmptyString || String.eqb (k_NodeID config) EmptyString = false) as ->.
    { destruct (k_ClusterID config); [done|]. by destruct (k_NodeID config). }
    rewrite Hrid, Hrn.
    unfold sql_CreateChallenge, exec, insert_challenges, has. cbn [ch_ID challenge_row_of chr_nonce chr_cluster_id ch_Nonce ch_ClusterID].
    rewrite Hid, Hnonce, Hcrow. reflexivity. }
  unfold pure. cbn [cp_ChallengeId].
  assert (String.eqb id EmptyString = false) as ->; [|reflexivity].
  unfold randomID in Hrid. by apply bind_Ok in Hrid as (? & _ & [= <-]).
Qed.

(** C5: sealing and unsealing through the broker work.  The plugin uses development
    evidence and the broker verifies it; the broker is quiet: nothing is lost, nobody
    else calls during the node's own calls, and its draws of challenge identifiers and
    nonces succeed and do not collide.  Then, for a node whose subject is enrolled and
    unrevoked and whose cluster's keyring loads, encryption without a requested key
    succeeds, and any time later, whatever store operations and rotations came in
    between, decryption of the blob returns the plaintext, as long as the node is still
    enrolled and unrevoked and the cluster's keyring, as it is then, still loads. *)
Theorem enrolled_node_unseals `{AEADLaws, ProtoLib, Hashes} svc env draws nonce `{!KmsEnv served} config ring n b req :
  quiet_broker svc env draws nonce -> BrokerEvidenceMode config = EvidenceModeDevelopmentSubject ->
  validIdentifier (k_NodeID config) = true -> k_ClusterID config = c_ClusterID (sv_config svc) ->
  node_ready config ring (b_db b) -> er_KeyID req = EmptyString -> fresh_draw (draws n) (b_db b) ->
  let client := quiet_client svc env draws in
  exists blob b1, broker_Encrypt config (Ok tt) req (n, b) = (Ok blob, (S (S n), b1)) /\ node_ready config ring (b_db b1) /\
    forall m b2 ring2, steps (b_db b1) (b_db b2) -> node_ready config ring2 (b_db b2) -> fresh_draw (draws m) (b_db b2) ->
      exists b3, broker_Decrypt config (Ok tt) (mkDecryptRequest (Some blob) (er_AAD req) EmptyString) (m, b2)
        = (Ok (er_Plaintext req), (S (S m), b3)) /\ node_ready config ring2 (b_db b3).
Proof.
  intros Hq Hdev Hnode Hcl Hr Hkid Hdraw client.
  destruct (quiet_issue _ _ _ _ config ring n b OPERATION_WRAP Hq Hnode Hr Hdraw) as (resp & w1 & Ec).
  destruct (quiet_challenge _ _ _ _ _ _ Hq _ _ _ _ _ int32_wrap Hr Ec) as (b0 & -> & Hr0 & Hid & Hsp).
  destruct (ready_active _ _ _ _ Hr0) as (v & k & row & Ha & Hk & Hact & Ho & Hkc & Hkey & Hu & Hvc & Henc).
  pose proof Ho as (Href & _ & _ & _ & Hval).
  destruct (quiet_wrap _ _ _ _ _ _ Hq Hnode Hcl n b0 _ (er_Plaintext req) (er_AAD req) v k row Hr0 Hid Hsp Ha Hkey Hact Hvc Henc)
    as (b1 & Hw & Hr1).
  pose proof (Wrap_steps svc (env (S n)) (Some (mkWrapRequest None (er_Plaintext req) (er_AAD req) (Some (node_evidence_of config (cp_ChallengeId resp))))) b0
    (quiet_env_typed _ _ _ _ Hq _)) as Hs1. rewrite Hw in Hs1. cbn [snd] in Hs1.
  destruct (sealed_to_proto v (nonce (S n)) (er_Plaintext req) (er_AAD req) Hu Hval) as [_ Hp2].
  exists (sealed v (nonce (S n)) (er_Plaintext req) (er_AAD req)), b1. split_and!; [| done |].
  - unfold broker_Encrypt. rewrite (bind_call _ _ _ _ _ Ec), Hkid. change (requestedKeyFromString EmptyString) with (Ok (@None KeyRef)).
    rewrite bind_pure, (bind_call _ _ _ _ _ (quiet_evidence config Hdev _ _)). erewrite bind_call.
    2:{ apply rpc_fine, wire_fine. cbn [fst]. rewrite Hw. reflexivity. }
    rewrite bind_pure_tt by done. cbn [wp_Blob]. by rewrite Hp2.
  - intros m b2 ring2 Hs2 Hr2 Hdraw2.
    destruct (quiet_issue _ _ _ _ config ring2 m b2 OPERATION_UNWRAP Hq Hnode Hr2 Hdraw2) as (resp2 & w2 & Ec2).
    destruct (quiet_challenge _ _ _ _ _ _ Hq _ _ _ _ _ int32_unwrap Hr2 Ec2) as (b3 & -> & Hr3 & Hid2 & Hsp2).
    pose proof Ec2 as Hs3. eapply (challenge_steps svc env draws fine fine nobody) in Hs3; [| by intros | by apply (qb_time _ _ _ _ Hq) | exact int32_unwrap].
    cbn [snd] in Hs3. pose proof (steps_trans _ _ _ Hs1 (steps_trans _ _ _ Hs2 Hs3)) as Hs.
    pose proof (rd_inv _ _ _ _ Hr0) as Hi0. destruct (later_row _ _ _ _ Hi0 Hs Hk Hact) as (row' & Hk' & Hkey' & Hst').
    rewrite <- Href in Hkey'. destruct (blob_roundtrip v (nonce (S n)) (er_Plaintext req) (er_AAD req) Hu Hval) as [Hb1 Hb2].
    destruct (steps_le _ _ Hi0 Hs) as [Hle Hi3].
    pose proof (decrypts_later (b_db b0) (b_db b3) (Ok tt) (k_ClusterID config) k row v ring2 (nonce (S n)) (er_Plaintext req) (er_AAD req)
      (si_keys _ Hi0) (si_keys _ Hi3) Hle Hk Hact Ho (qb_nonce _ _ _ _ Hq _) (eq_sym Hkc) (rd_ring _ _ _ _ Hr3)) as Hdec.
    rewrite <- Hb1 in Hdec.
    destruct (quiet_unwrap _ _ _ _ _ _ Hq Hnode m b3 _ _ _ (er_AAD req) v k row' Hr3 Hid2 Hsp2 Hkey' Hst' Hvc
      (proj2 (KeyVersion_Validate_len v Hval)) Hb2 Hdec) as (b4 & Hun & Hr4).
    exists b4. split; [|done]. unfold broker_Decrypt. cbn [dr_KeyID dr_Blob dr_AAD].
    change (validateDecryptRequestKey EmptyString _) with (Ok tt). rewrite bind_pure, (bind_call _ _ _ _ _ Ec2),
      (bind_call _ _ _ _ _ (quiet_evidence config Hdev _ _)). erewrite bind_call.
    2:{ apply rpc_fine, wire_fine. cbn [fst]. rewrite Hun. reflexivity. }
    by rewrite bind_pure_tt.
Qed.

(** ** A witness: the node and the broker in miniature of KmsProps *)

Definition toy_ring : Ring :=
  match @LoadKeyring DB SQLite_Repository DevelopmentProtector (Ok tt) (b_db toy_served.2) "cluster-a" with
  | Ok ring => ring
  | Err _ => mkRing []
  end.
Definition toy_quiet : UnsealClient served := @quiet_client toy_AEAD toy_ProtoLib toy_Hashes example_service toy_env toy_draws.
Definition toy_quiet_encrypt : result BlobInfo * served :=
  @broker_Encrypt served toy_quiet toy_kms_env example_kms_config (Ok tt) (mkEncryptRequest "root key" "aad" EmptyString) toy_served.

Lemma toy_quiet_broker : quiet_broker example_service toy_env toy_draws (fun _ => "nonce-nonce-"%string).
Proof.
  split; try (intros; reflexivity). apply toy_draws_typed.
Qed.

Lemma toy_ready : node_ready example_kms_config toy_ring (b_db toy_served.2).
Proof. split; [exact (reachable_inv _ toy_served_reachable) | reflexivity | vm_cast_no_check (@eq_refl _ (Ok toy_ring))]. Qed.

Lemma toy_fresh_draw : fresh_draw (toy_draws O) (b_db toy_served.2).
Proof. do 2 eexists. split; [reflexivity|]. split; [reflexivity|]. split; vm_compute; reflexivity. Qed.

(** So is the draw for the next challenge, after the encryption. *)
Lemma toy_fresh_draw2 : fresh_draw (toy_draws 2) (b_db toy_quiet_encrypt.2.2).
Proof. do 2 eexists. split; [reflexivity|]. split; [reflexivity|]. split; vm_compute; reflexivity. Qed.

Lemma enrolled_node_unseals_witness :
  exists blob b1 b3, toy_quiet_encrypt = (Ok blob, (2%nat, b1)) /\
    @broker_Decrypt served toy_quiet toy_kms_env example_kms_config (Ok tt) (mkDecryptRequest (Some blob) "aad" EmptyString) (2%nat, b1)
    = (Ok "root key"%string, (4%nat, b3)).
Proof.
  destruct (@enrolled_node_unseals toy_AEAD toy_AEADLaws toy_ProtoLib toy_Hashes example_service toy_env toy_draws
    (fun _ => "nonce-nonce-"%string) toy_kms_env example_kms_config toy_ring O toy_served.2
    (mkEncryptRequest "root key" "aad" EmptyString) toy_quiet_broker ltac:(reflexivity) ltac:(reflexivity) ltac:(reflexivity)
    toy_ready ltac:(reflexivity) toy_fresh_draw) as (blob & b1 & Henc & Hr & Hlater).
  assert (toy_quiet_encrypt = (Ok blob, (2%nat, b1))) as He by exact Henc.
  assert (b1 = toy_quiet_encrypt.2.2) as Hb by (rewrite He; reflexivity).
  destruct (Hlater 2%nat b1 toy_ring) as (b3 & Hdec & _); [exact (steps_refl _) | exact Hr | rewrite Hb; exact toy_fresh_draw2 |].
  exists blob, b1, b3. split; [exact He | exact Hdec].
Defined.
