(* ===== verification/NodeAgentProps.v ===== *)
(** * An attested node publishes

    The publisher with the TPM provider, the node's TPM and the broker's admin handlers
    put together: the loop every node of a cluster runs, from the quote to the record the
    policy engine finds fresh. *)

From S2P Require Import Prelude GoStrings Base64 GoTime Json JsonText Keyring KeyProtection Tpm TpmSeal NodeEvidence Config.
From S2P Require Import Sql Store Challenges SqlNodeEvidence StoreInv StoreOps Policy Kubernetes Admin Service KmsConfig KmsPlugin.
From S2P Require Import Tpm NodeEvidence StateText EvidenceText TpmAttest BrokerAdmin NodeAgent.
Local Open Scope Z_scope.

(** ** The text of evidence does not depend on the order of its map *)

Lemma sorted_keys m : Sorted String.le (sorted_entries m).*1.
Proof.
  assert (Sorted entry_le (sorted_entries m)) as Hs.
  { apply Sorted_merge_sort. intros a b. destruct (String.le_total a.1 b.1) as [Hl|Hl]; [left | right]; by apply Is_true_true in Hl. }
  apply (Sorted_fmap fst entry_le String.le); [|exact Hs]. intros a b Hab. by apply Is_true_true.
Qed.

(** Maps with the same entries are written alike. *)
Lemma sorted_entries_perm m m' : m ≡ₚ m' -> NoDup m.*1 -> sorted_entries m = sorted_entries m'.
Proof.
  intros Hp Hnd. assert (sorted_entries m ≡ₚ m) as H1 by apply merge_sort_Permutation.
  assert (sorted_entries m' ≡ₚ m') as H2 by apply merge_sort_Permutation.
  assert ((sorted_entries m).*1 = (sorted_entries m').*1) as Hk.
  { apply (Sorted_unique String.le); [apply sorted_keys..|]. by rewrite H1, H2, Hp. }
  assert (NoDup (sorted_entries m).*1) as Hnd1 by (by rewrite H1). assert (sorted_entries m ≡ₚ sorted_entries m') as H3 by (by rewrite H1, H2). clear H1 Hp H2 Hnd.
  revert Hk Hnd1 H3. generalize (sorted_entries m) (sorted_entries m'). intros l l'. revert l'.
  induction l as [|[k v] l IH]; intros [|[k' v'] l'] Hk Hnd Hp; try done. cbn in Hk. injection Hk as <- Hk.
  cbn in Hnd. apply NoDup_cons in Hnd as [Hni Hnd].
  assert ((k, v) ∈ (k, v') :: l') as Hin by (rewrite <- Hp; left). apply elem_of_cons in Hin as [[= ->]|Hin].
  - f_equal. apply IH; [done..|]. by apply Permutation_cons_inv in Hp.
  - exfalso. apply Hni. change (list_fmap _ _ fst l) with l.*1. fold (l'.*1) in Hk. change (k ∈ l.*1). rewrite Hk. by apply (list_elem_of_fmap_2 fst) in Hin.
Qed.

Lemma Evidence_json_ordered e : evidence_typed e -> Evidence_json (ordered_evidence e) = Evidence_json e.
Proof.
  intros (_ & _ & _ & _ & Hnd & _). destruct e as [v c nh ak q sig sel vals ek hint by_ at_]. unfold Evidence_json.
  cbn [ordered_evidence set_ev_PCRValues ev_SchemaVersion ev_ChallengeID ev_NonceHash ev_AKPublic ev_Quote ev_Signature ev_PCRSelection
    ev_PCRValues ev_EKPublicHash ev_PlatformHint ev_CollectedBy ev_CollectedAtUTC] in *.
  unfold string_map_json. by rewrite (sorted_entries_perm (sorted_entries vals) vals) by (unfold sorted_entries; by rewrite merge_sort_Permutation).
Qed.

Lemma Evidence_Marshal_ordered e payload :
  evidence_typed e -> Evidence_Marshal e = Ok payload -> Evidence_Marshal (ordered_evidence e) = Ok payload.
Proof.
  unfold Evidence_Marshal. intros Ht Hm. apply bind_Ok in Hm as ([] & Hv & Hm). rewrite Evidence_Validate_ordered by done.
  cbn [mbind result_bind]. by rewrite Evidence_json_ordered.
Qed.

(** ** Identifiers of the broker *)

Lemma b64_visible s : string_forall visible (b64_EncodeToString s) = true.
Proof.
  assert (forall d, 0 <= d < 64 -> visible (b64_char d) = true) as Hc
    by (intros d Hd; by apply (Z_below_forall (fun d => visible (b64_char d)) 64 eq_refl d)).
  induction s as [s IH] using string_len_ind. destruct s as [|a [|b [|c r]]]; cbn [b64_EncodeToString string_forall]; [done|..];
    rewrite !Hc by sextets; try done.
  cbn [andb]. apply IH. simpl. lia.
Qed.

Lemma rawurl_visible s : string_forall visible s = true -> string_forall visible (rawurl s) = true.
Proof.
  induction s as [|c s IH]; [done|]. cbn [string_forall rawurl]. intros [Hc Hs]%andb_true_iff. case_goal; [done|].
  cbn [string_forall]. rewrite IH by done. repeat case_goal; try done. by rewrite Hc.
Qed.

Lemma randomID_text random prefix id :
  string_forall visible prefix = true -> randomID random prefix = Ok id -> TrimSpace id = id /\ text id /\ id <> EmptyString.
Proof.
  unfold randomID, RawURL_EncodeToString. intros Hp Hr. inv_ok. subst. match goal with |- context [b64_EncodeToString ?x] => set (raw := x) end.
  assert (string_forall visible (prefix +:+ "_" +:+ rawurl (b64_EncodeToString raw)) = true) as Hv.
  { rewrite !string_forall_app, Hp. cbn. by apply rawurl_visible, b64_visible. }
  split_and!; [by apply TrimSpace_visible | by apply ascii_valid, visible_ascii |]. by destruct prefix.
Qed.

(** ** The world of a node: its calls to the broker so far, the broker, its TPM *)

Section AgentAndBroker.
Context `{TpmQuoteLaws}.
Context (s : AdminService) (env : nat -> Env) (peer : option (option AuthInfo)) (random : nat -> result bytes * result bytes).

Record node_world := mkNodeWorld { nw_calls : nat; nw_broker : Broker; nw_tpm : tpm }.

#[local] Existing Instance Evidence_JSON.

#[local] Instance agent_client : AdminClient node_world := {|
  client_ChallengeNodeEvidence req := fun w =>
    let '(r, b) := ChallengeNodeEvidence s (env (nw_calls w)) peer (random (nw_calls w)).1 (random (nw_calls w)).2 (Some req) (nw_broker w) in
    (r, mkNodeWorld (S (nw_calls w)) b (nw_tpm w));
  client_PublishNodeEvidence req := fun w =>
    let '(r, b) := PublishNodeEvidence s (env (nw_calls w)) peer (Some req) (nw_broker w) in
    (Ok r, mkNodeWorld (S (nw_calls w)) b (nw_tpm w));
|}.

#[local] Instance agent_node : TpmNode (NodeEvidenceClient * node_world) := {|
  get_tpm w := nw_tpm w.2;
  set_tpm t w := (w.1, mkNodeWorld (nw_calls w.2) (nw_broker w.2) t);
|}.

Definition request_of_node (r : PublishRequest) : NodeEvidence.ChallengeRequest :=
  NodeEvidence.mkChallengeRequest (pq_ClusterID r) (pq_NodeName r) (pq_NodeUID r) ProviderTPM2Quote.

Lemma issued_challenge (request : NodeEvidence.ChallengeRequest) c w ch w1 :
  RequestNodeEvidenceChallenge (Ok tt) request (c, w) = (Ok ch, w1) ->
  exists req resp b1, NormalizeChallengeRequest request = Ok req /\
    ChallengeNodeEvidence s (env (nw_calls w)) peer (random (nw_calls w)).1 (random (nw_calls w)).2
      (Some (mkNodeEvidenceChallengeRequest (cr_ClusterID req) (cr_NodeName req) (cr_NodeUID req) (cr_Provider req))) (nw_broker w)
    = (Ok resp, b1) /\ pd_State (ncp_Decision resp) = POLICY_DECISION_STATE_ALLOW /\
    w1.2 = mkNodeWorld (S (nw_calls w)) b1 (nw_tpm w) /\
    NormalizeChallenge (mkNodeChallenge (ncp_ChallengeId resp) (ncp_Nonce resp) (time_Unix (ncp_ExpiresUnixSeconds resp))) = Ok ch.
Proof.
  unfold RequestNodeEvidenceChallenge, mbind, call_bind, pure, on_world, wrap_error, modify.
  destruct (NormalizeChallengeRequest request) as [req|] eqn:En; [|done]. cbn [client_ChallengeNodeEvidence agent_client].
  destruct (ChallengeNodeEvidence _ _ _ _ _ _ _) as [[resp|] b1] eqn:Ec; [|done]. cbn [map_err].
  unfold RequireAllowDecision. destruct (Z.eqb_spec (pd_State (ncp_Decision resp)) POLICY_DECISION_STATE_ALLOW) as [Hd|]; [|done].
  cbn [check]. intros [= Hn <-]. exists req, resp, b1. by split_and!.
Qed.

Lemma issued_identifier e r1 r2 req b resp b1 :
  ChallengeNodeEvidence s e peer r1 r2 req b = (Ok resp, b1) -> pd_State (ncp_Decision resp) = POLICY_DECISION_STATE_ALLOW ->
  randomID r1 "node_chal" = Ok (ncp_ChallengeId resp).
Proof.
  unfold ChallengeNodeEvidence. destruct (nodeEvidenceChallengeRequestFromProto req) as [r|]; [|by intros [= <- _]].
  cbv zeta. destruct (acceptsNodeEvidenceCluster _ _); cbn [negb]; [|by intros [= <- _]].
  destruct (canPublishNodeEvidenceProvider _ _); cbn [negb]; [|by intros [= <- _]].
  destruct (authorizeNodeEvidencePublisher _ _ _ _ _ _ _) as [en publisher|]; [|by intros [= <- _]].
  destruct (randomID r1 _) as [id|]; [|done]. destruct (randomNonce r2) as [nonce|]; [|done].
  destruct (sql_CreateChallenge _ _) as [[[]|] db']; [|by intros [= <- _]]. by intros [= <- <-] _.
Qed.

(** The provider's self-check accepts what an honest TPM quoted, and the payload is the
    text of genuine evidence. *)
Lemma provider_answers p m ch sel envelope w t1 :
  tv_Collector p = None -> mo_ctx m = Ok tt -> pcrSelection p = Ok sel -> (length (sel_PCRs sel) <= 8)%nat ->
  NormalizeChallenge ch = Ok ch -> text (nc_ID ch) -> text (TrimSpace (tv_PlatformHint p)) ->
  Provider_Collect (mo_before m) (mo_after m) (tv_Device p) (nc_ID ch) (nc_Nonce ch) sel (TrimSpace (tv_PlatformHint p)) (mo_now m)
    (nw_tpm w.2) = (Ok envelope, t1) ->
  TPM_CollectNodeEvidence p m ch w = (Ok (mkProviderEvidence Tpm.EvidenceFormat (ev_Payload envelope)), set_tpm t1 w) /\
  exists e, UnmarshalEvidence (ev_Payload envelope) = Ok e /\ ev_ChallengeID e = nc_ID ch /\
    genuine (ak_public (nw_tpm w.2)) (registers (nw_tpm w.2) sel) (nc_Nonce ch) sel e /\ ev_Payload envelope <> EmptyString.
Proof.
  intros Hcol Hctx Hsel Hlen Hch Hid Hhint Hc.
  assert (Selection_Normalize sel = Ok sel) as Hn.
  { unfold pcrSelection in Hsel. apply Selection_Normalize_ok in Hsel as [Hok _]. by apply Selection_Normalize_id. }
  destruct (Provider_Collect_genuine _ _ _ _ _ _ _ _ _ _ _ _ Hc Hn Hlen Hid Hhint) as (e & payload & -> & Hm & Ht & Hg & Hi).
  cbn [ev_Payload quote_envelope]. pose proof (Evidence_roundtrip _ _ Ht Hm) as Hu. split.
  - unfold TPM_CollectNodeEvidence, quoteCollector, localTPMQuoteCollector, on_tpm, mbind, call_bind, pure, wrap_error, mret, call_ret.
    rewrite Hctx, Hsel. cbn [map_err]. rewrite Hch. cbn [map_err]. rewrite Hcol. cbn [get_tpm agent_node]. rewrite Hc.
    cbn [ev_Payload quote_envelope]. rewrite Hu. cbn [map_err]. rewrite (genuine_verifies _ _ _ _ _ (genuine_ordered _ _ _ _ _ Hg)).
    cbn [map_err]. by rewrite (Evidence_Marshal_ordered _ _ Ht Hm).
  - exists (ordered_evidence e). split_and!; [done | by destruct e | by apply genuine_ordered |].
    intros ->. unfold Evidence_Marshal in Hm. apply bind_Ok in Hm as (? & _ & Hm). by injection Hm.
Qed.

(** What the broker makes of the node's submission. *)
Definition node_submission (r : PublishRequest) (payload : bytes) (id : string) : Submission :=
  mkSubmission (pq_ClusterID r) (pq_NodeName r) (pq_NodeUID r) ProviderTPM2Quote Tpm.EvidenceFormat payload id
    (durationSecondsCeiling (pq_TTL r) * Second).

Lemma normalized_request r n :
  normalizePublishRequest r = Ok n ->
  TrimSpace (pq_ClusterID n) = pq_ClusterID n /\ TrimSpace (pq_NodeName n) = pq_NodeName n /\ TrimSpace (pq_NodeUID n) = pq_NodeUID n /\
  pq_ClusterID n <> EmptyString /\ pq_NodeName n <> EmptyString /\ 0 < pq_TTL n.
Proof.
  unfold normalizePublishRequest, empty. intros Hn. inv_ok. units. to_prop. cbn in *. split_and!; try done; apply TrimSpace_idem.
Qed.

Lemma trimmed_submission r payload id ttl :
  TrimSpace (pq_ClusterID r) = pq_ClusterID r -> TrimSpace (pq_NodeName r) = pq_NodeName r -> TrimSpace (pq_NodeUID r) = pq_NodeUID r ->
  pq_ClusterID r <> EmptyString -> pq_NodeName r <> EmptyString -> payload <> EmptyString -> TrimSpace id = id -> id <> EmptyString -> 0 < ttl ->
  let sub := mkSubmission (pq_ClusterID r) (pq_NodeName r) (pq_NodeUID r) ProviderTPM2Quote Tpm.EvidenceFormat payload id ttl in
  NormalizeSubmission sub = Ok sub.
Proof.
  intros T1 T2 T3 N1 N2 N3 T4 N4 Ht sub. unfold NormalizeSubmission, sub, empty.
  cbn [sb_ClusterID sb_NodeName sb_NodeUID sb_Provider sb_Format sb_Payload sb_ChallengeID sb_RequestedTTL].
  rewrite T1, T2, T3, T4. change (TrimSpace ProviderTPM2Quote) with ProviderTPM2Quote.
  change (TrimSpace Tpm.EvidenceFormat) with Tpm.EvidenceFormat.
  rewrite !(proj2 (String.eqb_neq _ _)) by done. rewrite (proj2 (Z.ltb_lt _ _)) by done. done.
Qed.

Lemma submission_read_back r payload id :
  TrimSpace (pq_ClusterID r) = pq_ClusterID r -> TrimSpace (pq_NodeName r) = pq_NodeName r -> TrimSpace (pq_NodeUID r) = pq_NodeUID r ->
  pq_ClusterID r <> EmptyString -> pq_NodeName r <> EmptyString -> payload <> EmptyString -> TrimSpace id = id -> id <> EmptyString ->
  0 < pq_TTL r <= 365 * 24 * Hour ->
  nodeEvidenceSubmissionFromProto (Some (mkNodeEvidenceSubmission (pq_ClusterID r) (pq_NodeName r) (pq_NodeUID r) ProviderTPM2Quote
    Tpm.EvidenceFormat payload id (durationSecondsCeiling (pq_TTL r)))) = Ok (node_submission r payload id).
Proof.
  intros T1 T2 T3 N1 N2 N3 T4 N4 Ht. unfold nodeEvidenceSubmissionFromProto. cbn [of_option mbind result_bind nes_RequestedTtlSeconds].
  pose proof (durationSecondsCeiling_bounds (pq_TTL r) ltac:(lia)) as Hb.
  assert (0 < durationSecondsCeiling (pq_TTL r) <= (365 * 24 * Hour) / Second) as Hc.
  { change ((365 * 24 * Hour) / Second) with 31536000. unfold Hour, Minute, Second in *. lia. }
  rewrite (proj2 (Z.leb_gt _ _)), (proj2 (Z.ltb_ge _ _)) by lia. cbn [orb negb check mbind result_bind].
  apply trimmed_submission; try done. unfold Second. lia.
Qed.

(** The broker's record of a submission, as the client reads the reply. *)
Definition reported (e : NodeEvidence) : NodeEvidence :=
  mkNodeEvidence (ne_ClusterID e) (ne_NodeName e) (ne_NodeUID e) (ne_Provider e) (ne_EvidenceHash e)
    (whole_seconds (ne_CollectedAt e)) (whole_seconds (ne_ExpiresAt e)).

Lemma reported_evidence e now :
  Normalize e = Ok e -> Second <= ne_CollectedAt e -> ne_CollectedAt e + Second <= ne_ExpiresAt e ->
  nodeEvidenceFromProto (Some (nodeEvidenceToProto e now)) = Ok (reported e).
Proof.
  intros Hn Hc He. unfold nodeEvidenceFromProto, nodeEvidenceToProto.
  cbn [of_option mbind result_bind nr_ClusterId nr_NodeName nr_NodeUid nr_ProviderId nr_EvidenceHash nr_CollectedUnixSeconds
       nr_ExpiresUnixSeconds]. rewrite !time_Unix_Unix. unfold Normalize in *. inv_ok. units. to_prop.
  pose proof (whole_seconds_bounds (ne_CollectedAt e)) as B1.
  assert (whole_seconds (ne_CollectedAt e) + Second <= whole_seconds (ne_ExpiresAt e)) as B2.
  { pose proof (whole_seconds_mono _ _ He) as Hm. unfold whole_seconds in *.
    replace (ne_CollectedAt e + Second) with (ne_CollectedAt e + 1 * Second) in Hm by lia.
    rewrite (Z.div_add (ne_CollectedAt e) 1 Second) in Hm by done. unfold Second in *. lia. }
  destruct e as [c n u p h co ex]. cbn [ne_ClusterID ne_NodeName ne_NodeUID ne_Provider ne_EvidenceHash ne_CollectedAt ne_ExpiresAt] in *.
  match goal with H : mkNodeEvidence _ _ _ _ _ _ _ = _ |- _ => injection H as T1 T2 T3 T4 T5 end. rewrite T1, T2, T3, T4, T5 in *. use_eqs.
  unfold IsZero, After. rewrite !(proj2 (Z.eqb_neq _ 0)) by (unfold Second in *; lia).
  rewrite (proj2 (Z.ltb_lt (whole_seconds co) (whole_seconds ex))) by (unfold Second in *; lia). done.
Qed.

(** C31: an attested node gets its evidence accepted.  Suppose that nothing else runs at
    the broker meanwhile, the node has an active enrollment, the broker issues the agent a
    challenge, which is still open when the submission arrives, the collection of a quote
    of at most eight registers succeeds, within the size limit, on a TPM that works as
    specified, the registers satisfy the enrolled policy, the requested lifetime is at
    most a year, the granted one at least a second, and the clock stays in the years that
    timestamps can show.  Then one run of the publisher returns the broker's record, and in
    the state that it leaves the policy engine finds exactly this record fresh for the
    node until the granted lifetime has passed. *)
Theorem attested_node_publishes p m request nreq c w ch w1 en sel envelope t1 :
  let env2 := env (S (nw_calls w)) in
  let record := accepted_evidence s env2 (node_submission nreq (ev_Payload envelope) (nc_ID ch)) in
  let lifetime := acceptedNodeEvidenceTTL s (durationSecondsCeiling (pq_TTL nreq) * Second) in
  (forall i, alone (env i)) -> (forall i, clock_typed s (env i)) ->
  reachable (b_db (nw_broker w)) -> evidence_times_ok (b_db (nw_broker w)) -> ad_nodeEvidence s = true ->
  normalizePublishRequest request = Ok nreq -> pq_TTL nreq <= 365 * 24 * Hour ->
  mo_ctx m = Ok tt ->
  RequestNodeEvidenceChallenge (Ok tt) (request_of_node nreq) (c, w) = (Ok ch, w1) -> mo_now m < nc_ExpiresAt ch ->
  sql_ActiveNodeEvidenceEnrollment (b_db (nw_broker w)) (pq_ClusterID nreq) (pq_NodeName nreq) = Ok en ->
  tv_Collector p = None -> pcrSelection p = Ok sel -> (length (sel_PCRs sel) <= 8)%nat -> text (TrimSpace (tv_PlatformHint p)) ->
  policy_accepts (en_TPMPolicy en) (ak_public (nw_tpm w)) (registers (nw_tpm w) sel) sel ->
  Provider_Collect (mo_before m) (mo_after m) (tv_Device p) (nc_ID ch) (nc_Nonce ch) sel (TrimSpace (tv_PlatformHint p)) (mo_now m)
    (nw_tpm w) = (Ok envelope, t1) ->
  len (ev_Payload envelope) <= maxNodeEvidencePayloadSize ->
  Second <= e_clock env2 AtNonce ->
  e_clock env2 AtNonce
  < e_clock (env (nw_calls w)) AtPut + (if ad_challengeTTL s <=? 0 then DefaultChallengeTTL else ad_challengeTTL s) ->
  Second <= lifetime -> time_ok (e_clock env2 AtNonce) -> time_ok (e_clock env2 AtNonce + lifetime) ->
  exists w2, Publish (Some NodeEvidenceClient_interface) (Some (TPMProvider_interface p)) m request (c, w) = (Ok (reported record), w2) /\
    forall wall now, or_now wall now < e_clock env2 AtNonce + lifetime ->
      sql_FreshNodeEvidence wall (b_db (nw_broker w2.2)) (pq_ClusterID nreq) (pq_NodeName nreq) now = Ok record.
Proof.
  intros env2 record lifetime Hal Hct Hr Hev Hne Hreq Hmax Hctx Hissue Hnow Hact Hcol Hsel Hlen Hhint Hpol Hcollect Hsize Hc1 Hc2 Hlife Ht1 Ht2.
  destruct (normalized_request _ _ Hreq) as (T1 & T2 & T3 & N1 & N2 & Httl).
  destruct (issued_challenge _ _ _ _ _ Hissue) as (creq & resp & b1 & Hcreq & Hch & Hd & Hw1 & Hnorm).
  assert (creq = request_of_node nreq) as ->.
  { unfold NormalizeChallengeRequest, request_of_node in Hcreq. cbn [cr_ClusterID cr_NodeName cr_NodeUID cr_Provider] in Hcreq.
    rewrite T1, T2, T3 in Hcreq. inv_ok. done. }
  destruct (randomID_text _ "node_chal" _ ltac:(reflexivity) (issued_identifier _ _ _ _ _ _ _ Hch Hd)) as (Hid1 & Hid2 & Hid3).
  assert (nc_ID ch = ncp_ChallengeId resp /\ nc_Nonce ch = ncp_Nonce resp /\ NormalizeChallenge ch = Ok ch) as (Hi & Hn & Hch2).
  { unfold NormalizeChallenge in *. cbn [nc_ID nc_Nonce nc_ExpiresAt] in Hnorm. rewrite Hid1 in Hnorm. inv_ok.
    cbn [nc_ID nc_Nonce nc_ExpiresAt]. rewrite Hid1. by use_eqs. }
  destruct w1 as [c1 w1]. cbn [snd] in Hw1. subst w1.
  destruct (provider_answers p m ch sel envelope (c1, mkNodeWorld (S (nw_calls w)) b1 (nw_tpm w)) t1 Hcol Hctx Hsel Hlen Hch2
    ltac:(by rewrite Hi) Hhint Hcollect) as (Hans & e & Hu & Hie & Hg & Hpne). cbn [nw_tpm snd] in Hg.
  destruct (enrolled_node_publishes s (env (nw_calls w)) env2 peer (random (nw_calls w)).1 (random (nw_calls w)).2
    (Some (mkNodeEvidenceChallengeRequest (pq_ClusterID nreq) (pq_NodeName nreq) (pq_NodeUID nreq) ProviderTPM2Quote)) resp
    (Some (mkNodeEvidenceSubmission (pq_ClusterID nreq) (pq_NodeName nreq) (pq_NodeUID nreq) ProviderTPM2Quote
       Tpm.EvidenceFormat (ev_Payload envelope) (nc_ID ch) (durationSecondsCeiling (pq_TTL nreq))))
    (node_submission nreq (ev_Payload envelope) (nc_ID ch)) (nw_broker w) b1 en e
    (accepted_claims (en_TPMPolicy en) (genuine_claims (ak_public (nw_tpm w)) (registers (nw_tpm w) sel) (nc_Nonce ch) sel)))
    as (b2 & Hpub & Hfresh); try done; try exact Hch; try apply Hal; try apply Hct.
  - apply submission_read_back; try done. { by rewrite Hi. } { by rewrite Hi. }
  - rewrite <- Hn. by apply genuine_accepted.
  - unfold Second in *. lia.
  - pose proof (submission_read_back nreq (ev_Payload envelope) (nc_ID ch) T1 T2 T3 N1 N2 Hpne ltac:(by rewrite Hi) ltac:(by rewrite Hi)
      ltac:(done)) as Hread.
    destruct (accepted_normal s env2 _ _ Hread ltac:(unfold Second in *; lia)) as [Hnr _].
    exists (mkNodeEvidenceClient (Some (nodeEvidenceToProto record (e_clock env2 AtReply))) (Some (Proto (Allow (ad_policyID s)))),
            mkNodeWorld (S (S (nw_calls w))) b2 t1). split; [|exact Hfresh].
    unfold Publish, mbind, call_bind, pure, wrap_error. rewrite Hreq. cbn [of_option ProviderID TPMProvider_interface].
    change (TrimSpace ProviderTPM2Quote) with ProviderTPM2Quote. change (empty ProviderTPM2Quote) with false. cbn [negb check].
    cbn [pc_Request NodeEvidenceClient_interface]. rewrite Hctx. unfold request_of_node in Hissue. rewrite Hissue. cbn [map_err].
    rewrite Hch2. cbn [map_err]. unfold After. rewrite (proj2 (Z.ltb_lt _ _) Hnow). cbn [check CollectNodeEvidence TPMProvider_interface].
    rewrite Hans. cbn [map_err pe_Format pe_Payload normalizeProviderEvidence].
    change (TrimSpace Tpm.EvidenceFormat) with Tpm.EvidenceFormat. change (empty Tpm.EvidenceFormat) with false.
    rewrite (proj2 (Z.eqb_neq _ _)) by (by rewrite len_zero). cbn [orb negb check pc_Submit NodeEvidenceClient_interface].
    unfold SubmitNodeEvidence, mbind, call_bind, pure, on_world, wrap_error, modify.
    match goal with |- context [NormalizeSubmission ?x] => change x with (mkSubmission (pq_ClusterID nreq) (pq_NodeName nreq)
      (pq_NodeUID nreq) ProviderTPM2Quote Tpm.EvidenceFormat (ev_Payload envelope) (nc_ID ch) (pq_TTL nreq)) end.
    rewrite trimmed_submission; try done. 2:{ by rewrite Hi. } 2:{ by rewrite Hi. }
    cbn [client_PublishNodeEvidence agent_client set_tpm agent_node nw_calls nw_broker nw_tpm fst snd
      sb_ClusterID sb_NodeName sb_NodeUID sb_Provider sb_Format sb_Payload sb_ChallengeID sb_RequestedTTL].
    fold env2. rewrite Hpub. cbn [map_err np_Evidence np_Decision]. change (RequireAllowDecision _ _) with (Ok tt). cbv beta iota zeta.
    fold record. rewrite reported_evidence; [done | exact Hnr | exact Hc1 |].
    unfold record, accepted_evidence. cbn [ne_CollectedAt ne_ExpiresAt]. unfold lifetime in Hlife. cbn [sb_RequestedTTL node_submission]. lia.
Qed.
End AgentAndBroker.

(** ** A node and a broker in miniature *)

(** The value of a call that succeeded. *)
Definition value {A} (d : A) (r : result A) : A := match r with Ok a => a | Err _ => d end.

Lemma run_value {A W} (d : A) (x : result A * W) : is_ok x.1 = true -> x = (Ok (value d x.1), x.2).
Proof. by destruct x as [[a|] w]. Qed.

Definition toy_enrollment : EnrollmentRequest :=
  mkEnrollmentRequest "cluster-a" "node-1" "uid-1" ProviderTPM2Quote toy_node_policy [example_publisher] example_time.
Definition toy_enrolled : DB := run [OEnrollNodeEvidence toy_enrollment] example_store.
Definition toy_node : node_world := mkNodeWorld O (mkBroker toy_enrolled []) toy_start.
Definition toy_random (n : nat) : result bytes * result bytes := (Ok "id"%string, Ok "nonce"%string).
Definition toy_admin : AdminClient (node_world (H := toy_device)) :=
  @agent_client toy_device toy_Hashes toy_quote_lib example_admin (fun _ => example_quiet) example_peer toy_random.
Definition toy_provider : TPMProvider (NodeEvidenceClient * node_world) := mkTPMProvider EmptyString toy_selection " lab" None.
Definition toy_publish : PublishRequest := mkPublishRequest "cluster-a" " node-1" "uid-1" (5 * Minute).
Definition toy_request : PublishRequest := mkPublishRequest "cluster-a" "node-1" "uid-1" (5 * Minute).
Definition toy_moment : Moment := mkMoment (Ok tt) (Ok tt) (Ok tt) example_time.
Definition no_memory : NodeEvidenceClient := mkNodeEvidenceClient None None.
Definition toy_issued : result NodeChallenge * (NodeEvidenceClient * node_world) :=
  @RequestNodeEvidenceChallenge _ toy_admin (Ok tt) (request_of_node toy_request) (no_memory, toy_node).
Definition toy_challenge : NodeChallenge := value (mkNodeChallenge EmptyString EmptyString 0) toy_issued.1.
Definition toy_quoted : result EvidenceEnvelope * toy_tpm :=
  @Provider_Collect toy_device toy_attestor toy_Hashes (Ok tt) (Ok tt) EmptyString (nc_ID toy_challenge) (nc_Nonce toy_challenge)
    toy_selection "lab" example_time toy_start.
Definition toy_envelope : EvidenceEnvelope := value (Policy.mkEvidenceEnvelope 0 EmptyString EmptyString EmptyString []) toy_quoted.1.
Definition toy_active : result Enrollment := sql_ActiveNodeEvidenceEnrollment toy_enrolled "cluster-a" "node-1".
Definition toy_en : Enrollment := value zero_enrollment toy_active.

Lemma toy_enrolled_reachable : reachable toy_enrolled.
Proof. apply run_reachable; [exact example_store_reachable|]. repeat constructor; vm_compute; congruence. Qed.

Lemma attested_node_publishes_witness :
  exists record w2,
    @Publish _ (Some (@NodeEvidenceClient_interface _ toy_admin))
      (Some (@TPMProvider_interface _ toy_device toy_attestor (@agent_node toy_device) toy_Hashes toy_quote_lib Evidence_JSON toy_provider))
      toy_moment toy_publish (no_memory, toy_node) = (Ok record, w2) /\
    ne_NodeName record = "node-1"%string /\
    is_ok (sql_FreshNodeEvidence 0 (b_db (nw_broker w2.2)) "cluster-a" "node-1" (example_time + Minute)) = true.
Proof.
  assert (is_ok toy_quoted.1 = true) as Hq by (vm_cast_no_check (@eq_refl _ true)).
  assert (is_ok toy_issued.1 = true) as Hi by (vm_cast_no_check (@eq_refl _ true)).
  assert (is_ok toy_active = true) as Ha by (vm_cast_no_check (@eq_refl _ true)).
  destruct (@attested_node_publishes toy_device toy_attestor toy_Hashes toy_quote_lib toy_quote_laws example_admin
    (fun _ => example_quiet) example_peer toy_random toy_provider toy_moment toy_publish toy_request no_memory toy_node
    toy_challenge toy_issued.2 toy_en toy_selection toy_envelope toy_quoted.2) as (w2 & Hp & Hf).
  - intros _. exact example_quiet_alone.
  - intros _. exact example_admin_clock.
  - exact toy_enrolled_reachable.
  - intros k row Hk. vm_compute in Hk. discriminate Hk.
  - reflexivity.
  - reflexivity.
  - vm_compute. congruence.
  - reflexivity.
  - apply (run_value (mkNodeChallenge EmptyString EmptyString 0) toy_issued Hi).
  - vm_compute. reflexivity.
  - revert Ha. unfold toy_en. change (sql_ActiveNodeEvidenceEnrollment _ _ _) with toy_active. by destruct toy_active.
  - reflexivity.
  - reflexivity.
  - cbn. lia.
  - reflexivity.
  - assert (en_TPMPolicy toy_en = toy_node_policy) as -> by (vm_compute; reflexivity).
    split; [vm_compute; reflexivity | by right |]. right. split; [reflexivity|]. eexists _, ProfileGenericPCSecureBoot.
    split; vm_compute; reflexivity.
  - apply (run_value (Policy.mkEvidenceEnvelope 0 EmptyString EmptyString EmptyString []) toy_quoted Hq).
  - vm_compute. congruence.
  - vm_compute. congruence.
  - vm_compute. reflexivity.
  - vm_compute. congruence.
  - vm_compute. split; congruence.
  - vm_compute. split; congruence.
  - eexists _, w2. split; [exact Hp|]. split; [reflexivity|]. pose proof (Hf 0 (example_time + Minute) ltac:(vm_compute; reflexivity)) as Hfresh.
    change (pq_ClusterID toy_request) with "cluster-a"%string in Hfresh. change (pq_NodeName toy_request) with "node-1"%string in Hfresh.
    by rewrite Hfresh.
Defined.
