(* ===== verification/Agent.v ===== *)
(** * bao-unseal-agent (internal/baounsealagent: command.go, run.go)

    From the flags of [publish-once] and [run] to what the agent prints: validation of
    the options, one publication, and the loop that publishes until its context ends or
    too many publications in a row have failed.  An error of a command carries its exit
    code; one that has none in Go has the code of unclassified errors. *)

From S2P Require Import Prelude GoStrings GoTime Json Keyring KeyProtection Tpm TpmSeal NodeEvidence Config LocalState.
From S2P Require Import Sql Store Policy Kubernetes Admin Service Ctl KmsConfig KmsPlugin TpmAttest BrokerAdmin NodeAgent.
From Stdlib Require Import Ascii.
Local Open Scope Z_scope.

(** ** Errors with exit codes *)

Definition outcome (A : Type) : Type := (A + ExitErrorWithCode)%type.
Global Instance outcome_ret : MRet outcome := fun A a => inl a.
Global Instance outcome_bind : MBind outcome := fun A B f m =>
  match m with inl a => f a | inr e => inr e end.

(** [if err != nil { return cli.WithExitCode(code, err) }], and [return err]. *)
Definition coded {A} (code : Z) (r : result A) : outcome A :=
  match r with Ok a => inl a | Err e => inr (mkExit code e) end.
Definition uncoded {A} (r : result A) : outcome A := coded ExitError r.

(** A command on a world. *)
Definition action (W A : Type) : Type := W -> outcome A * W.

Section Actions.
Context {W : Type}.
Global Instance action_ret : MRet (action W) := fun A a w => (inl a, w).
Global Instance action_bind : MBind (action W) := fun A B f m w =>
  match m w with (inl a, w') => f a w' | (inr e, w') => (inr e, w') end.
Definition of_outcome {A} (r : outcome A) : action W A := fun w => (r, w).
Definition acting {A} (code : Z) (m : call W A) : action W A := fun w => let '(r, w') := m w in (coded code r, w').
End Actions.

(** ** Options *)

Definition formatText : string := "text".
Definition formatJSON : string := "json".
Definition commandPublishOnce : string := "publish-once".
Definition commandRun : string := "run".
Definition defaultRunInterval : Duration := Minute.

(** The values of the flags once parsed. *)
Record publishFlagValues := mkFlagValues {
  pf_address : string; pf_plaintext : bool; pf_caCertPath : string; pf_tlsServerName : string;
  pf_clientCertPath : string; pf_clientKeyPath : string; pf_clusterID : string; pf_nodeName : string;
  pf_nodeUID : string; pf_providerID : string; pf_tpmDevice : string; pf_tpmPCRBank : string;
  pf_tpmPCRsRaw : string; pf_platformHint : string; pf_ttl : Duration; pf_timeout : Duration; pf_format : string;
}.

Record publishOnceOptions := mkPublishOptions {
  po_address : string; po_plaintext : bool; po_caCertPath : string; po_tlsServerName : string;
  po_clientCertPath : string; po_clientKeyPath : string; po_clusterID : string; po_nodeName : string;
  po_nodeUID : string; po_providerID : string; po_tpmDevice : string; po_tpmPCRBank : string;
  po_tpmPCRs : list Z; po_platformHint : string; po_ttl : Duration; po_timeout : Duration; po_format : string;
}.

Record runOptions := mkRunOptions { ro_publish : publishOnceOptions; ro_interval : Duration; ro_maxFailures : Z }.

(** config/env.go; [getenv] is the process environment. *)
Definition EnvOrDefault (getenv : string -> string) (name fallback : string) : string :=
  if empty (TrimSpace (getenv name)) then fallback else TrimSpace (getenv name).

(** The values of the flags that are not given. *)
Definition addPublishFlags (getenv : string -> string) : publishFlagValues :=
  mkFlagValues (EnvOrDefault getenv "BAO_UNSEALD_ADDR" "127.0.0.1:8443") false EmptyString EmptyString
    EmptyString EmptyString (EnvOrDefault getenv "BAO_UNSEAL_CLUSTER_ID" "prod-eu1") (EnvOrDefault getenv "NODE_NAME" EmptyString)
    (EnvOrDefault getenv "NODE_UID" EmptyString) ProviderFakeLocal EmptyString HashSHA256
    "7" EmptyString DefaultNodeEvidenceTTL DefaultRequestTimeout formatText.

Definition validateFormat (format : string) : outcome unit :=
  coded ExitUsage (check (String.eqb format formatText || String.eqb format formatJSON)
    (errorf ("unsupported format " +:+ quoted format))).

(** One element of the list; the indexes seen so far are those collected. *)
Definition add_pcr_index (pcrs : list Z) (part : string) : outcome (list Z) :=
  let part := TrimSpace part in
  if empty part then mret pcrs
  else
    coded ExitUsage (of_option (errorf ("invalid TPM PCR index " +:+ quoted part)) (Atoi part)) ≫= fun pcr =>
    coded ExitUsage (check (negb ((pcr <? 0) || (23 <? pcr))) (errorf ("TPM PCR index " +:+ FormatInt pcr +:+ " is out of range"))) ≫= fun _ =>
    mret (if existsb (Z.eqb pcr) pcrs then pcrs else pcrs ++ [pcr]).

Fixpoint add_pcr_indexes (pcrs : list Z) (parts : list string) : outcome (list Z) :=
  match parts with
  | [] => mret pcrs
  | part :: rest => add_pcr_index pcrs part ≫= fun pcrs => add_pcr_indexes pcrs rest
  end.

Definition parseAgentPCRIndexes (raw : string) : outcome (list Z) :=
  add_pcr_indexes [] (Split raw ","%char) ≫= fun pcrs =>
  coded ExitUsage (check (negb (bool_decide (pcrs = []))) (errorf "at least one TPM PCR index is required")) ≫= fun _ =>
  mret pcrs.

Definition publishOptionsFromFlags (v : publishFlagValues) : outcome publishOnceOptions :=
  let usage b e := coded ExitUsage (check b e) in
  validateFormat (pf_format v) ≫= fun _ =>
  usage (negb (empty (TrimSpace (pf_address v)) || empty (TrimSpace (pf_clusterID v)) || empty (TrimSpace (pf_nodeName v))))
    (errorf "-addr, -cluster-id, and -node-name are required") ≫= fun _ =>
  let providerID := TrimSpace (pf_providerID v) in
  usage (String.eqb providerID ProviderFakeLocal || String.eqb providerID ProviderTPM2Quote)
    (errorf ("unsupported node evidence provider " +:+ quoted (pf_providerID v))) ≫= fun _ =>
  parseAgentPCRIndexes (pf_tpmPCRsRaw v) ≫= fun tpmPCRs =>
  usage (negb (pf_ttl v <=? 0)) (errorf "-ttl must be greater than zero") ≫= fun _ =>
  usage (negb (pf_timeout v <=? 0)) (errorf "-timeout must be greater than zero") ≫= fun _ =>
  usage (Bool.eqb (empty (TrimSpace (pf_clientCertPath v))) (empty (TrimSpace (pf_clientKeyPath v))))
    (errorf "-client-cert and -client-key must be provided together") ≫= fun _ =>
  mret (mkPublishOptions (TrimSpace (pf_address v)) (pf_plaintext v) (TrimSpace (pf_caCertPath v)) (TrimSpace (pf_tlsServerName v))
    (TrimSpace (pf_clientCertPath v)) (TrimSpace (pf_clientKeyPath v)) (TrimSpace (pf_clusterID v)) (TrimSpace (pf_nodeName v))
    (TrimSpace (pf_nodeUID v)) providerID (TrimSpace (pf_tpmDevice v)) (TrimSpace (pf_tpmPCRBank v))
    tpmPCRs (TrimSpace (pf_platformHint v)) (pf_ttl v) (pf_timeout v) (pf_format v)).

(** From the parsed flags; [interval] and [maxFailures] are the flags of [run] alone. *)
Definition parseRunOptions (values : publishFlagValues) (interval : Duration) (maxFailures : Z) : outcome runOptions :=
  publishOptionsFromFlags values ≫= fun publishOptions =>
  coded ExitUsage (check (negb (interval <=? 0)) (errorf "-interval must be greater than zero")) ≫= fun _ =>
  coded ExitUsage (check (negb (po_ttl publishOptions <=? interval)) (errorf "-interval must be shorter than -ttl")) ≫= fun _ =>
  mret (mkRunOptions publishOptions interval maxFailures).

(** ** One publication *)

Record publishOnceOutput := mkPublishOutput {
  ou_ClusterID : string; ou_NodeName : string; ou_NodeUID : string; ou_ProviderID : string; ou_EvidenceHash : string;
  ou_CollectedAt : string; ou_ExpiresAt : string; ou_Status : string; ou_Decision : string;
}.

(** The generated getters read a nil message as the zero value. *)
Definition publishOnceOutputFromProto (evidence : option NodeEvidenceRecord) (decision : option ProtoDecision) : publishOnceOutput :=
  let e := default (mkNodeEvidenceRecord EmptyString EmptyString EmptyString EmptyString EmptyString 0 0 0) evidence in
  mkPublishOutput (nr_ClusterId e) (nr_NodeName e) (nr_NodeUid e) (nr_ProviderId e) (nr_EvidenceHash e)
    (UnixSecondsOutput (nr_CollectedUnixSeconds e)) (UnixSecondsOutput (nr_ExpiresUnixSeconds e))
    (NodeEvidenceStatusOutput (nr_Status e)) (PolicyDecisionOutput (match decision with Some d => pd_State d | None => 0 end)).

Definition publishOnceExitError (err : error) : ExitErrorWithCode :=
  if errors_Is err DecisionDeniedError then mkExit ExitCheckFailed err
  else if errors_Is err ErrPublishNodeEvidence then mkExit ExitRuntime err
  else mkExit ExitError err.

Section Agent.
Context {W : Type} `{!KmsEnv W, !AdminClient W, TpmAttestor, !TpmNode (NodeEvidenceClient * W), Hashes, TpmLib, EvidenceJSON}.

Definition brokerAdminConn (options : publishOnceOptions) : action W TransportCredentials :=
  acting ExitConfig (DialOptions (mkClientOptions (po_plaintext options) (po_caCertPath options) (po_tlsServerName options)
                                    (po_clientCertPath options) (po_clientKeyPath options))) ≫= fun credentials =>
  acting ExitConfig (wrap_error (errorp "create broker client") (pure (grpc_NewClient (po_address options)))) ≫= fun _ =>
  mret credentials.

Definition publishOnceProvider (options : publishOnceOptions) : outcome (Provider (NodeEvidenceClient * W)) :=
  if String.eqb (po_providerID options) ProviderFakeLocal then mret FakeLocalProvider
  else if String.eqb (po_providerID options) ProviderTPM2Quote
  then mret (TPMProvider_interface (mkTPMProvider (po_tpmDevice options)
               (mkPCRSelection (po_tpmPCRBank options) (po_tpmPCRs options)) (po_platformHint options) None))
  else coded ExitUsage (Err (errorf ("unsupported node evidence provider " +:+ quoted (po_providerID options)))).

(** [done] is [ctx.Err()] after the publication. *)
Definition publishWithClient (m : Moment) (done : result unit) (provider : Provider (NodeEvidenceClient * W))
  (options : publishOnceOptions) : action W publishOnceOutput := fun w =>
  let '(r, (writer, w')) :=
    Publish (Some NodeEvidenceClient_interface) (Some provider) m
      (mkPublishRequest (po_clusterID options) (po_nodeName options) (po_nodeUID options) (po_ttl options))
      (mkNodeEvidenceClient None None, w) in
  (match r with
   | Ok _ => inl (publishOnceOutputFromProto (nec_Evidence writer) (nec_Decision writer))
   | Err err => inr (if is_ok done then publishOnceExitError err else mkExit ExitError err)
   end, w').

Definition publishOnce (m : Moment) (done : result unit) (options : publishOnceOptions) : action W publishOnceOutput :=
  brokerAdminConn options ≫= fun _ =>
  of_outcome (publishOnceProvider options) ≫= fun provider =>
  publishWithClient m done provider options.

(** ** Events *)

Definition runEventPublished : string := "node_evidence_published".
Definition runEventFailed : string := "node_evidence_publish_failed".

Record runEvent := mkRunEvent {
  rv_Event : string; rv_Time : string; rv_Attempt : Z; rv_FailureCount : Z; rv_ClusterID : string; rv_NodeName : string;
  rv_NodeUID : string; rv_ProviderID : string; rv_EvidenceHash : string; rv_CollectedAt : string; rv_ExpiresAt : string;
  rv_Status : string; rv_Decision : string; rv_Error : string;
}.

Definition runEvent_json (e : runEvent) : json :=
  JObject ([("event"%string, JString (rv_Event e)); ("time"%string, JString (rv_Time e)); ("attempt"%string, int_json (rv_Attempt e))] ++
           (if rv_FailureCount e =? 0 then [] else [("failure_count"%string, int_json (rv_FailureCount e))]) ++
           [("cluster_id"%string, JString (rv_ClusterID e)); ("node_name"%string, JString (rv_NodeName e))] ++
           omit_empty "node_uid" (rv_NodeUID e) ++ [("provider_id"%string, JString (rv_ProviderID e))] ++
           omit_empty "evidence_hash" (rv_EvidenceHash e) ++ omit_empty "collected_at" (rv_CollectedAt e) ++
           omit_empty "expires_at" (rv_ExpiresAt e) ++ omit_empty "status" (rv_Status e) ++ omit_empty "decision" (rv_Decision e) ++
           omit_empty "error" (rv_Error e)).

(** What [runEventWriter.Write] prints: one line. *)
Definition runEvent_line (format : string) (e : runEvent) : string :=
  if String.eqb format formatJSON then json_Print (runEvent_json e) +:+ newline
  else
    rv_Time e +:+ " " +:+ rv_Event e +:+
    (if String.eqb (rv_Event e) runEventPublished then
       " node=" +:+ rv_NodeName e +:+ " cluster=" +:+ rv_ClusterID e +:+ " provider=" +:+ rv_ProviderID e +:+
       " status=" +:+ rv_Status e +:+ " decision=" +:+ rv_Decision e +:+ " expires=" +:+ rv_ExpiresAt e
     else if String.eqb (rv_Event e) runEventFailed then
       " node=" +:+ rv_NodeName e +:+ " cluster=" +:+ rv_ClusterID e +:+ " provider=" +:+ rv_ProviderID e +:+
       " failure_count=" +:+ FormatUint (rv_FailureCount e) +:+ " error=" +:+ rv_Error e
     else EmptyString) +:+ newline.

(** The standard output. *)
Class Stdout := { stdout_Write : string -> call W unit }.

Definition runEventWriter_Write `{!Stdout} (format : string) (e : runEvent) : call W unit := stdout_Write (runEvent_line format e).

(** ** The loop *)

(** What the world says in one round: around the publication, whether the context has
    ended after it, the clock, what the timer or the context answer first, and whether
    the context has ended then. *)
Record Round := mkRound {
  rd_Moment : Moment; rd_attempt : result unit; rd_done : bool; rd_now : Time; rd_wait : result unit; rd_done_after_wait : bool;
}.

Record agentRunLoop := mkRunLoop {
  lo_interval : Duration;
  lo_maxFailures : Z;
  lo_publish : option (Round -> action W publishOnceOutput);
  lo_write : option (runEvent -> call W unit);
  lo_wait : option (Round -> Duration -> call W unit);
}.

Definition successEvent (rd : Round) (out : publishOnceOutput) (attempt : Z) : runEvent :=
  mkRunEvent runEventPublished (FormatRFC3339Nano (rd_now rd)) attempt 0 (ou_ClusterID out) (ou_NodeName out) (ou_NodeUID out)
    (ou_ProviderID out) (ou_EvidenceHash out) (ou_CollectedAt out) (ou_ExpiresAt out) (ou_Status out) (ou_Decision out) EmptyString.

Definition failureEvent (rd : Round) (options : publishOnceOptions) (attempt failures : Z) (err : error) : runEvent :=
  mkRunEvent runEventFailed (FormatRFC3339Nano (rd_now rd)) attempt failures (po_clusterID options) (po_nodeName options)
    (po_nodeUID options) (po_providerID options) EmptyString EmptyString EmptyString EmptyString EmptyString (err_msg err).

Definition waitForNext (l : agentRunLoop) (rd : Round) (interval : Duration) : call W unit :=
  match lo_wait l with Some wait => wait rd interval | None => pure (rd_wait rd) end.

(** How a round ends: with the counters of the next one, or the loop returns. *)
Inductive round_end := Next (attempt failures : Z) | Return (r : outcome unit).

Definition end_of_round (l : agentRunLoop) (interval : Duration) (rd : Round) (attempt failures : Z) (w : W) : round_end * W :=
  match waitForNext l rd interval w with
  | (Ok _, w) => (Next attempt failures, w)
  | (Err err, w) => (Return (if rd_done_after_wait rd then inl tt else inr (mkExit ExitRuntime err)), w)
  end.

Definition round (l : agentRunLoop) (publish : Round -> action W publishOnceOutput) (write : runEvent -> call W unit)
  (interval : Duration) (options : publishOnceOptions) (rd : Round) (attempt failures : Z) (w : W) : round_end * W :=
  let attempt := wrap_uint64 (attempt + 1) in
  let '(out, w) := publish rd w in
  if rd_done rd then (Return (inl tt), w)
  else match out with
  | inr err =>
      let failures := wrap_uint64 (failures + 1) in
      match write (failureEvent rd options attempt failures (ex_Err err)) w with
      | (Err writeErr, w) => (Return (inr (mkExit ExitRuntime writeErr)), w)
      | (Ok _, w) =>
          if (0 <? lo_maxFailures l) && (lo_maxFailures l <=? failures)
          then (Return (inr (mkExit ExitRuntime (ex_Err err))), w)
          else end_of_round l interval rd attempt failures w
      end
  | inl out =>
      match write (successEvent rd out attempt) w with
      | (Err writeErr, w) => (Return (inr (mkExit ExitRuntime writeErr)), w)
      | (Ok _, w) => end_of_round l interval rd attempt 0 w
      end
  end.

(** From round [n] on; [None] when [fuel] rounds were not enough. *)
Fixpoint run_rounds (fuel : nat) (l : agentRunLoop) (publish : Round -> action W publishOnceOutput) (write : runEvent -> call W unit)
  (interval : Duration) (options : publishOnceOptions) (rounds : nat -> Round) (n : nat) (attempt failures : Z) (w : W)
  : option (outcome unit) * W :=
  match fuel with
  | O => (None, w)
  | S fuel =>
      match round l publish write interval options (rounds n) attempt failures w with
      | (Return r, w) => (Some r, w)
      | (Next attempt failures, w) =>
          run_rounds fuel l publish write interval options rounds (S n) attempt failures w
      end
  end.

Definition Run (fuel : nat) (l : agentRunLoop) (options : publishOnceOptions) (rounds : nat -> Round) (w : W)
  : option (outcome unit) * W :=
  match lo_publish l, lo_write l with
  | None, _ => (Some (coded ExitUsage (Err (errorf "publish function is required"))), w)
  | _, None => (Some (coded ExitUsage (Err (errorf "event writer is required"))), w)
  | Some publish, Some write =>
      run_rounds fuel l publish write (if lo_interval l <=? 0 then defaultRunInterval else lo_interval l) options rounds O 0 0 w
  end.

Definition agent_loop `{!Stdout} (options : runOptions) (provider : Provider (NodeEvidenceClient * W)) : agentRunLoop :=
  mkRunLoop (ro_interval options) (ro_maxFailures options)
    (Some (fun rd => publishWithClient (rd_Moment rd) (rd_attempt rd) provider (ro_publish options)))
    (Some (runEventWriter_Write (po_format (ro_publish options)))) None.

Definition runAgent `{!Stdout} (fuel : nat) (options : runOptions) (rounds : nat -> Round) (w : W) : option (outcome unit) * W :=
  match (brokerAdminConn (ro_publish options) ≫= fun _ => of_outcome (publishOnceProvider (ro_publish options))) w with
  | (inr e, w) => (Some (inr e), w)
  | (inl provider, w) => Run fuel (agent_loop options provider) (ro_publish options) rounds w
  end.

(** ** Output of [publish-once] *)

Definition publishOnceOutput_json (o : publishOnceOutput) : json :=
  JObject ([("cluster_id"%string, JString (ou_ClusterID o)); ("node_name"%string, JString (ou_NodeName o))] ++
           omit_empty "node_uid" (ou_NodeUID o) ++
           [("provider_id"%string, JString (ou_ProviderID o)); ("evidence_hash"%string, JString (ou_EvidenceHash o));
            ("collected_at"%string, JString (ou_CollectedAt o)); ("expires_at"%string, JString (ou_ExpiresAt o));
            ("status"%string, JString (ou_Status o)); ("decision"%string, JString (ou_Decision o))]).

(** [writeOutput] for this command; the text form ignores write errors. *)
Definition writeOutput `{!Stdout} (format : string) (value : json) (lines : list string) : call W unit :=
  if String.eqb format formatJSON then stdout_Write (json_MarshalIndent value +:+ newline)
  else fun w => (Ok tt, foldl (fun w line => (stdout_Write (line +:+ newline) w).2) w lines).

Definition publishOnceCommand `{!Stdout} (m : Moment) (done : result unit) (values : publishFlagValues) : action W unit :=
  of_outcome (publishOptionsFromFlags values) ≫= fun options =>
  publishOnce m done options ≫= fun out =>
  acting ExitError (writeOutput (po_format options) (publishOnceOutput_json out)
    ["Published node evidence for " +:+ ou_NodeName out; "Cluster: " +:+ ou_ClusterID out;
     "Provider: " +:+ ou_ProviderID out; "Status: " +:+ ou_Status out; "Decision: " +:+ ou_Decision out]%string).
End Agent.
