(* ===== verification/AgentProps.v ===== *)
(** * What the agent's options and its loop guarantee

    Accepted options are complete and clean; the loop counts its rounds and its
    consecutive failures, gives up exactly when the limit is reached, and runs on
    otherwise. *)

From S2P Require Import Prelude GoStrings GoTime Json Keyring KeyProtection Tpm TpmSeal NodeEvidence Config LocalState.
From S2P Require Import Sql Store Challenges SqlNodeEvidence StoreInv StoreOps EvidenceText Policy Kubernetes Admin Service Ctl KmsConfig KmsPlugin TpmAttest BrokerAdmin NodeAgent NodeAgentProps Agent.
From Stdlib Require Import Ascii.
Local Open Scope Z_scope.

(** ** Options *)

Lemma coded_inl {A} code (r : result A) a : coded code r = inl a <-> r = Ok a.
Proof. destruct r; naive_solver. Qed.

Lemma outcome_bind_inl {A B} (m : outcome A) (f : A -> outcome B) b : (m ≫= f) = inl b <-> exists a, m = inl a /\ f a = inl b.
Proof. destruct m; naive_solver. Qed.

Ltac inv_outcome :=
  repeat match goal with
  | H : (_ ≫= _) = inl _ |- _ => apply outcome_bind_inl in H as (? & ? & ?)
  | H : coded _ _ = inl _ |- _ => apply coded_inl in H
  | H : mret _ = inl _ |- _ => injection H as H; subst
  | H : @inl _ _ _ = inl _ |- _ => injection H as H; subst
  | H : validateFormat _ = inl _ |- _ => unfold validateFormat in H
  | _ => progress inv_ok
  end.

Lemma existsb_Z (i : Z) l : existsb (Z.eqb i) l = true <-> i ∈ l.
Proof.
  rewrite existsb_exists. setoid_rewrite Z.eqb_eq. rewrite list_elem_of_In. split; [by intros (j & ? & ->) | eauto].
Qed.

(** The index a part of the list names, if it is not blank. *)
Definition part_index (part : string) : option Z := if empty (TrimSpace part) then None else Atoi (TrimSpace part).

Definition pcr_list (parts : list string) (pcrs : list Z) : Prop :=
  NoDup pcrs /\ Forall (fun i => 0 <= i <= 23) pcrs /\ (forall i, i ∈ pcrs <-> exists part, part ∈ parts /\ part_index part = Some i).

Lemma add_pcr_index_ok parts pcrs part pcrs' :
  pcr_list parts pcrs -> add_pcr_index pcrs part = inl pcrs' -> pcr_list (parts ++ [part]) pcrs'.
Proof.
  intros (Hnd & Hr & He) H.
  assert (forall i, (exists q, q ∈ parts ++ [part] /\ part_index q = Some i) <-> i ∈ pcrs \/ part_index part = Some i) as Hs.
  { intros i. rewrite He. setoid_rewrite elem_of_app. setoid_rewrite list_elem_of_singleton. naive_solver. }
  assert (forall i, part_index part = Some i -> 0 <= i <= 23 /\ pcrs' = if existsb (Z.eqb i) pcrs then pcrs else pcrs ++ [i]) as Hi.
  { intros i. unfold part_index, add_pcr_index in *. destruct (empty _); [done|]. intros Ha. rewrite Ha in H. cbn in H.
    inv_outcome. to_prop. split; [lia | done]. }
  assert (part_index part = None -> pcrs' = pcrs) as Hn.
  { unfold part_index, add_pcr_index in *. destruct (empty _). - intros _. by injection H as ->. - intros Ha. by rewrite Ha in H. }
  unfold pcr_list. setoid_rewrite Hs. destruct (part_index part) as [i|].
  - destruct (Hi i eq_refl) as [Hb ->]. destruct (existsb (Z.eqb i) pcrs) eqn:E.
    + apply existsb_Z in E. split_and!; [done..|]. naive_solver.
    + assert (i ∉ pcrs) as Hni by (intros Hin; apply existsb_Z in Hin; congruence).
      setoid_rewrite elem_of_app. setoid_rewrite list_elem_of_singleton. split_and!; [| apply Forall_app; by rewrite Forall_singleton | naive_solver].
      apply NoDup_app. split_and!; [done | | apply NoDup_singleton]. by intros j Hj ->%list_elem_of_singleton.
  - rewrite Hn by done. split_and!; [done..|]. naive_solver.
Qed.

Lemma add_pcr_indexes_ok rest parts pcrs pcrs' :
  pcr_list parts pcrs -> add_pcr_indexes pcrs rest = inl pcrs' -> pcr_list (parts ++ rest) pcrs'.
Proof.
  revert parts pcrs. induction rest as [|part rest IH]; intros parts pcrs Hp H; cbn in H.
  - rewrite app_nil_r. by inv_outcome.
  - apply outcome_bind_inl in H as (pcrs1 & H1 & H). rewrite cons_middle, app_assoc. eapply IH; [|exact H].
    by eapply add_pcr_index_ok.
Qed.

(** The registers to quote are exactly those the list names, each once. *)
Lemma parseAgentPCRIndexes_ok raw pcrs :
  parseAgentPCRIndexes raw = inl pcrs -> pcr_list (Split raw ","%char) pcrs /\ pcrs <> [].
Proof.
  unfold parseAgentPCRIndexes. intros H. inv_outcome. to_prop. split; [|done]. eapply (add_pcr_indexes_ok _ []); [|done].
  split_and!; [constructor | constructor |]. intros i. split; [by intros ?%elem_of_nil | by intros (q & ?%elem_of_nil & _)].
Qed.

(** A selection of distinct registers in range under a known bank normalises. *)
Lemma Selection_Normalize_distinct h pcrs :
  known_hash h = true -> NoDup pcrs -> Forall (fun i => 0 <= i <= 23) pcrs -> pcrs <> [] ->
  Selection_Normalize (mkPCRSelection h pcrs) = Ok (mkPCRSelection h (merge_sort Z.le pcrs)).
Proof.
  intros Hk Hnd Hf Hne. assert (merge_sort Z.le pcrs ≡ₚ pcrs) as Hp by apply merge_sort_Permutation.
  assert (selection_ok (mkPCRSelection h (merge_sort Z.le pcrs))) as Hok.
  { split_and!; cbn; [done | | apply (Sorted_merge_sort Z.le) | by rewrite Hp..].
    intros E. rewrite E in Hp. by apply Permutation_nil_l in Hp. }
  rewrite <- (Selection_Normalize_id _ Hok). unfold Selection_Normalize. cbn [sel_Hash sel_PCRs].
  assert (merge_sort Z.le (merge_sort Z.le pcrs) = merge_sort Z.le pcrs) as ->.
  { apply (Sorted_unique Z.le); [apply (Sorted_merge_sort Z.le)..|apply merge_sort_Permutation]. }
  rewrite !bool_decide_false; [done | by destruct Hok as (_ & ? & _) | done].
Qed.

Section Options.
Context {W : Type} `{!KmsEnv W, !AdminClient W, TpmAttestor, !TpmNode (NodeEvidenceClient * W), Hashes, TpmLib, EvidenceJSON}.

Definition request_of_options (p : publishOnceOptions) : PublishRequest :=
  mkPublishRequest (po_clusterID p) (po_nodeName p) (po_nodeUID p) (po_ttl p).

(** The options that [run] accepts are complete and clean: the interval is positive
    and shorter than the lifetime asked for, the registers are exactly those named, each
    once and in range, the publisher accepts the request unchanged, a provider exists,
    and for a known bank its selection is these registers in order. *)
Theorem run_options_sound v interval maxFailures o :
  parseRunOptions v interval maxFailures = inl o ->
  let p := ro_publish o in
  0 < ro_interval o < po_ttl p /\ 0 < po_timeout p /\ ro_interval o = interval /\ ro_maxFailures o = maxFailures /\
  pcr_list (Split (pf_tpmPCRsRaw v) ","%char) (po_tpmPCRs p) /\
  normalizePublishRequest (request_of_options p) = Ok (request_of_options p) /\
  (po_clientCertPath p = EmptyString <-> po_clientKeyPath p = EmptyString) /\
  (po_providerID p = ProviderFakeLocal /\ publishOnceProvider p = inl FakeLocalProvider \/
   po_providerID p = ProviderTPM2Quote /\
   exists provider, publishOnceProvider p = inl (TPMProvider_interface (W := NodeEvidenceClient * W) provider) /\
     (known_hash (po_tpmPCRBank p) = true ->
      pcrSelection provider = Ok (mkPCRSelection (po_tpmPCRBank p) (merge_sort Z.le (po_tpmPCRs p))))).
Proof.
  unfold parseRunOptions, publishOptionsFromFlags, empty. intros Hrun. inv_outcome. to_prop.
  match goal with H : parseAgentPCRIndexes _ = inl ?l |- _ => destruct (parseAgentPCRIndexes_ok _ _ H) as [Hl Hne] end.
  cbn [ro_publish ro_interval ro_maxFailures po_ttl po_timeout po_tpmPCRs po_clientCertPath po_clientKeyPath po_providerID po_tpmPCRBank] in *.
  split_and!; try done; try lia.
  - unfold normalizePublishRequest, request_of_options, empty. cbn [po_clusterID po_nodeName po_nodeUID po_ttl pq_ClusterID pq_NodeName
      pq_NodeUID pq_TTL]. rewrite !TrimSpace_idem, !(proj2 (String.eqb_neq _ _)), (proj2 (Z.leb_gt _ _)) by done. done.
  - match goal with H : Bool.eqb _ _ = true |- _ => apply eqb_prop in H; rewrite <- !String.eqb_eq, H end. done.
  - unfold publishOnceProvider. cbn [po_providerID po_tpmDevice po_tpmPCRBank po_tpmPCRs po_platformHint].
    match goal with H : String.eqb _ ProviderFakeLocal || _ = true |- _ => apply orb_true_iff in H as [H|H]; to_prop; rewrite H end;
      [by left | right]. split; [done|]. eexists. split; [reflexivity|]. intros Hk. unfold pcrSelection. cbn [tv_Selection sel_Hash sel_PCRs].
    rewrite (bool_decide_false _ Hne), andb_false_r. by apply Selection_Normalize_distinct; [|apply Hl..|].
Qed.
End Options.

Definition example_flags : publishFlagValues :=
  mkFlagValues " 127.0.0.1:8443" true EmptyString EmptyString EmptyString EmptyString "prod-eu1" " kind-worker " EmptyString
    ProviderTPM2Quote "/dev/tpmrm0" HashSHA256 "7, 0,7" EmptyString (5 * Minute) Second formatJSON.

Definition example_run : runOptions :=
  mkRunOptions (mkPublishOptions "127.0.0.1:8443" true EmptyString EmptyString EmptyString EmptyString "prod-eu1" "kind-worker" EmptyString
    ProviderTPM2Quote "/dev/tpmrm0" HashSHA256 [7; 0] EmptyString (5 * Minute) Second formatJSON) Minute 3.

Lemma run_options_sound_witness :
  exists provider : TPMProvider (NodeEvidenceClient * node_world),
    parseRunOptions example_flags Minute 3 = inl example_run /\
    pcrSelection provider = Ok (mkPCRSelection HashSHA256 [0; 7]).
Proof.
  assert (parseRunOptions example_flags Minute 3 = inl example_run) as Hp by (vm_compute; reflexivity).
  destruct (run_options_sound (W := node_world) (H := toy_device) (H0 := toy_attestor) (TpmNode0 := agent_node) (H1 := toy_Hashes)
    (H2 := toy_quote_lib) (H3 := Evidence_JSON) _ _ _ _ Hp) as (_ & _ & _ & _ & _ & _ & _ & [[Hf _]|(_ & provider & _ & Hs)]).
  - discriminate Hf.
  - exists provider. split; [exact Hp|]. apply Hs. reflexivity.
Defined.

(** ** The loop *)

(** Failures at the end of the list of events. *)
Fixpoint leading_failures (es : list runEvent) : nat :=
  match es with
  | e :: es => if String.eqb (rv_Event e) runEventFailed then S (leading_failures es) else O
  | [] => O
  end.
Definition consecutive_failures (es : list runEvent) : nat := leading_failures (rev es).

Lemma consecutive_failures_snoc es e :
  consecutive_failures (es ++ [e]) = if String.eqb (rv_Event e) runEventFailed then S (consecutive_failures es) else O.
Proof. unfold consecutive_failures. by rewrite rev_app_distr. Qed.

Section Loop.
Context {W : Type} (l : agentRunLoop (W := W)) (publish : Round -> action W publishOnceOutput) (write : runEvent -> call W unit).
Context (interval : Duration) (options : publishOnceOptions).

Notation one_round := (round l publish write interval options).

(** The event of a round. *)
Definition round_event (rd : Round) (attempt failures : Z) (w : W) : runEvent :=
  match (publish rd w).1 with
  | inl out => successEvent rd out (wrap_uint64 (attempt + 1))
  | inr err => failureEvent rd options (wrap_uint64 (attempt + 1)) (wrap_uint64 (failures + 1)) (ex_Err err)
  end.

(** The states between rounds: how many there were, the events written, the counters. *)
Inductive running (rounds : nat -> Round) (w0 : W) : nat -> list runEvent -> Z -> Z -> W -> Prop :=
| running_start : running rounds w0 O [] 0 0 w0
| running_next n es attempt failures w attempt' failures' w' :
    running rounds w0 n es attempt failures w ->
    one_round (rounds n) attempt failures w = (Next attempt' failures', w') ->
    running rounds w0 (S n) (es ++ [round_event (rounds n) attempt failures w]) attempt' failures' w'.

Lemma round_next rd attempt failures w attempt' failures' w' :
  one_round rd attempt failures w = (Next attempt' failures', w') ->
  attempt' = wrap_uint64 (attempt + 1) /\
  match (publish rd w).1 with
  | inl _ => failures' = 0
  | inr _ => failures' = wrap_uint64 (failures + 1) /\ (0 < lo_maxFailures l -> failures' < lo_maxFailures l)
  end.
Proof.
  unfold round, end_of_round. destruct (publish rd w) as [[out|err] w1]; destruct (rd_done rd); try done; cbn [fst].
  - destruct (write _ w1) as [[]]; [|done]. destruct (waitForNext _ _ _ _) as [[]]; [|done]. by intros [= <- <- <-].
  - destruct (write _ w1) as [[]]; [|done]. destruct (_ && _) eqn:E; [done|]. destruct (waitForNext _ _ _ _) as [[]]; [|done].
    intros [= <- <- <-]. split_and!; [done..|]. intros Hm. rewrite andb_false_iff, Z.ltb_ge, Z.leb_gt in E. lia.
Qed.

(** Counters and events agree: the attempts are numbered from 1, the failure counter is
    the number of failures since the last success, below the limit if there is one. *)
Lemma running_counters rounds w0 n es attempt failures w :
  running rounds w0 n es attempt failures w ->
  length es = n /\ attempt = wrap_uint64 (Z.of_nat n) /\ failures = wrap_uint64 (Z.of_nat (consecutive_failures es)) /\
  (0 < lo_maxFailures l < 2 ^ 64 -> Z.of_nat (consecutive_failures es) < lo_maxFailures l).
Proof.
  induction 1 as [|n es a f w a' f' w' Hr (IH1 & IH2 & IH3 & IH4) Hn]; [by split_and!; cbn; try lia|].
  apply round_next in Hn as [-> Hn]. rewrite length_app, consecutive_failures_snoc. unfold round_event.
  assert (forall x, wrap_uint64 (wrap_uint64 x + 1) = wrap_uint64 (x + 1)) as Hw
    by (intros x; unfold wrap_uint64; by rewrite Zplus_mod_idemp_l).
  destruct (publish (rounds n) w).1 as [out|err]; cbn [rv_Event successEvent failureEvent].
  - subst f'. change (String.eqb runEventPublished runEventFailed) with false. split_and!; [cbn; lia | | done | lia].
    rewrite IH2, Hw. f_equal. lia.
  - destruct Hn as [-> Hn]. change (String.eqb runEventFailed runEventFailed) with true. split_and!.
    + cbn. lia.
    + rewrite IH2, Hw. f_equal. lia.
    + rewrite IH3, Hw. f_equal. lia.
    + intros Hm. specialize (IH4 Hm). specialize (Hn ltac:(lia)). rewrite IH3, Hw in Hn. unfold wrap_uint64 in Hn.
      rewrite Z.mod_small in Hn; lia.
Qed.

(** The events of a run, in the order written. *)
Lemma running_events rounds w0 n es attempt failures w :
  running rounds w0 n es attempt failures w ->
  forall i e, es !! i = Some e -> rv_Attempt e = wrap_uint64 (Z.of_nat i + 1).
Proof.
  induction 1 as [|n es a f w a' f' w' Hr IH Hn]; intros i e; [done|].
  pose proof (running_counters _ _ _ _ _ _ _ Hr) as (Hl & Ha & _). intros [Hi|[Hi He]]%lookup_app_Some; [by apply IH|].
  apply list_lookup_singleton_Some in He as [Hi0 <-]. assert (i = n) as -> by lia.
  assert (wrap_uint64 (a + 1) = wrap_uint64 (Z.of_nat n + 1)) as <- by (rewrite Ha; unfold wrap_uint64; by rewrite Zplus_mod_idemp_l).
  unfold round_event. by destruct (publish _ w).1.
Qed.

Lemma running_unique rounds w0 n es a f w :
  running rounds w0 n es a f w ->
  forall es' a' f' w', running rounds w0 n es' a' f' w' -> es' = es /\ a' = a /\ f' = f /\ w' = w.
Proof.
  induction 1 as [|n es a f w a1 f1 w1 Hr IH Hn]; intros es' a' f' w' H'; inversion H' as [|? es2 a2 f2 w2 ? ? ? Hr2 Hn2]; subst; [done|].
  destruct (IH _ _ _ _ Hr2) as (-> & -> & -> & ->). rewrite Hn in Hn2. by injection Hn2 as <- <- <-.
Qed.

Lemma running_before rounds w0 m es a f w n :
  running rounds w0 m es a f w -> (n < m)%nat ->
  exists es1 a1 f1 w1 a2 f2 w2, running rounds w0 n es1 a1 f1 w1 /\ one_round (rounds n) a1 f1 w1 = (Next a2 f2, w2).
Proof.
  induction 1 as [|m es a f w a1 f1 w1 Hr IH Hn]; intros Hlt; [lia|].
  destruct (decide (n = m)) as [->|]; [by repeat eexists | apply IH; lia].
Qed.

(** From a state between rounds, running the loop is following these states until a
    round returns. *)
Lemma run_rounds_from rounds w0 fuel n es a f w r w' :
  running rounds w0 n es a f w ->
  run_rounds fuel l publish write interval options rounds n a f w = (r, w') <->
  match r with
  | Some r => exists m es1 a1 f1 w1, (n <= m < n + fuel)%nat /\ running rounds w0 m es1 a1 f1 w1 /\
                one_round (rounds m) a1 f1 w1 = (Return r, w')
  | None => exists es1 a1 f1, running rounds w0 (n + fuel) es1 a1 f1 w'
  end.
Proof.
  revert n es a f w. induction fuel as [|fuel IH]; intros n es a f w Hr; cbn [run_rounds].
  - rewrite Nat.add_0_r. split.
    + intros [= <- <-]. eauto.
    + destruct r; [intros (m & ? & ? & ? & ? & ? & ?); lia|]. intros (? & ? & ? & H).
      by destruct (running_unique _ _ _ _ _ _ _ Hr _ _ _ _ H) as (_ & _ & _ & ->).
  - destruct (one_round (rounds n) a f w) as [[a1 f1|r1] w1] eqn:E.
    + rewrite (IH (S n) _ _ _ _ (running_next _ _ _ _ _ _ _ _ _ _ Hr E)). replace (n + S fuel)%nat with (S n + fuel)%nat by lia.
      destruct r as [r|]; [|done]. split; intros (m & es2 & a2 & f2 & w2 & Hm & Hr2 & E2).
      * exists m, es2, a2, f2, w2. split_and!; [lia | lia | done..].
      * exists m, es2, a2, f2, w2. split; [|done]. destruct (decide (n = m)) as [->|]; [|lia].
        destruct (running_unique _ _ _ _ _ _ _ Hr _ _ _ _ Hr2) as (-> & -> & -> & ->). congruence.
    + split.
      * intros [= <- <-]. exists n, es, a, f, w. split_and!; [lia | lia | done..].
      * assert (forall m es2 a2 f2 w2, (n < m)%nat -> running rounds w0 m es2 a2 f2 w2 -> False) as Hno.
        { intros m es2 a2 f2 w2 Hlt Hm. destruct (running_before _ _ _ _ _ _ _ n Hm Hlt) as (es3 & a3 & f3 & w3 & a4 & f4 & w4 & Hr3 & E3).
          destruct (running_unique _ _ _ _ _ _ _ Hr _ _ _ _ Hr3) as (-> & -> & -> & ->). congruence. }
        destruct r as [r|].
        -- intros (m & es2 & a2 & f2 & w2 & Hm & Hr2 & E2). destruct (decide (n = m)) as [->|]; [|by destruct (Hno m es2 a2 f2 w2); [lia|]].
           destruct (running_unique _ _ _ _ _ _ _ Hr _ _ _ _ Hr2) as (-> & -> & -> & ->). by rewrite E in E2; injection E2 as -> ->.
        -- intros (es2 & a2 & f2 & Hr2). by destruct (Hno (n + S fuel)%nat es2 a2 f2 w'); [lia|].
Qed.

(** Nothing ends the loop from outside: the context goes on, writing and waiting work. *)
Record steady (rounds : nat -> Round) : Prop := {
  steady_alive n : rd_done (rounds n) = false;
  steady_write e w : exists w', write e w = (Ok tt, w');
  steady_wait n w : exists w', waitForNext l (rounds n) interval w = (Ok tt, w');
}.

Lemma steady_return rounds n a f w r w' :
  steady rounds ->
  one_round (rounds n) a f w = (Return r, w') <->
  exists err w1, publish (rounds n) w = (inr err, w1) /\ write (round_event (rounds n) a f w) w1 = (Ok tt, w') /\
    0 < lo_maxFailures l <= wrap_uint64 (f + 1) /\ r = inr (mkExit ExitRuntime (ex_Err err)).
Proof.
  intros [Ha Hw Ht]. unfold round, end_of_round, round_event. rewrite Ha.
  destruct (publish (rounds n) w) as [[out|err] w1]; cbn [fst].
  - destruct (Hw (successEvent (rounds n) out (wrap_uint64 (a + 1))) w1) as [w2 ->]. destruct (Ht n w2) as [w3 ->].
    split; [done | by intros (? & ? & ? & _)].
  - destruct (Hw (failureEvent (rounds n) options (wrap_uint64 (a + 1)) (wrap_uint64 (f + 1)) (ex_Err err)) w1) as [w2 E].
    rewrite E. destruct (_ && _) eqn:El.
    + to_prop. split; [intros [= <- <-]; by exists err, w1 | intros (e & w3 & [= <- <-] & E2 & _ & ->); congruence].
    + destruct (Ht n w2) as [w3 ->]. split; [done|]. intros (e & w4 & [= <- <-] & _ & Hm & _).
      rewrite andb_false_iff, Z.ltb_ge, Z.leb_gt in El. lia.
Qed.

Lemma failing_rounds rounds w0 n es a f w k es' a' f' w' :
  running rounds w0 n es a f w ->
  (forall i w, (n <= i)%nat -> exists err w1, publish (rounds i) w = (inr err, w1)) ->
  running rounds w0 (n + k) es' a' f' w' -> (k <= consecutive_failures es')%nat.
Proof.
  intros Hr Hfail. revert es' a' f' w'. induction k as [|k IH]; intros es' a' f' w' H'; [lia|].
  replace (n + S k)%nat with (S (n + k)) in H' by lia. inversion H' as [|? es2 a2 f2 w2 ? ? ? Hr2 Hn2]; subst.
  rewrite consecutive_failures_snoc. unfold round_event. destruct (Hfail (n + k)%nat w2 ltac:(lia)) as (err & w3 & ->).
  cbn [fst rv_Event failureEvent]. change (String.eqb runEventFailed runEventFailed) with true. apply IH in Hr2. cbv iota. lia.
Qed.

(** How a round ends the loop, after the events [es], when its own event is [event]:
    the context ended during the publication; the event could not be written; the
    publication failed and the failures in a row reached the limit; or waiting for the
    next round failed, which is no error when the context ended meanwhile. *)
Inductive ending (rd : Round) (es : list runEvent) (event : runEvent) (w : W) : outcome unit -> W -> Prop :=
| ending_context w' :
    (publish rd w).2 = w' -> rd_done rd = true -> ending rd es event w (inl tt) w'
| ending_output err w' :
    rd_done rd = false -> write event (publish rd w).2 = (Err err, w') ->
    ending rd es event w (inr (mkExit ExitRuntime err)) w'
| ending_limit err w1 w' :
    rd_done rd = false -> publish rd w = (inr err, w1) -> write event w1 = (Ok tt, w') ->
    Z.of_nat (consecutive_failures es) + 1 = lo_maxFailures l ->
    ending rd es event w (inr (mkExit ExitRuntime (ex_Err err))) w'
| ending_wait err w2 w' :
    rd_done rd = false -> write event (publish rd w).2 = (Ok tt, w2) ->
    ((exists out, (publish rd w).1 = inl out) \/ Z.of_nat (consecutive_failures es) + 1 <> lo_maxFailures l) ->
    waitForNext l rd interval w2 = (Err err, w') ->
    ending rd es event w (if rd_done_after_wait rd then inl tt else inr (mkExit ExitRuntime err)) w'.

(** The failure that reaches the limit. *)
Lemma limit_reached rounds w0 n es a f w :
  running rounds w0 n es a f w -> 0 <= lo_maxFailures l < 2 ^ 64 ->
  (0 <? lo_maxFailures l) && (lo_maxFailures l <=? wrap_uint64 (f + 1)) = true <->
  Z.of_nat (consecutive_failures es) + 1 = lo_maxFailures l.
Proof.
  intros Hr Hm. destruct (running_counters _ _ _ _ _ _ _ Hr) as (_ & _ & -> & Hlim).
  rewrite andb_true_iff, Z.ltb_lt, Z.leb_le. destruct (decide (0 < lo_maxFailures l)) as [Hp|]; [|lia].
  specialize (Hlim ltac:(lia)). unfold wrap_uint64. rewrite (Z.mod_small (Z.of_nat _)), Z.mod_small by lia. lia.
Qed.

Lemma round_ends rounds w0 n es a f w r w' :
  running rounds w0 n es a f w -> 0 <= lo_maxFailures l < 2 ^ 64 ->
  one_round (rounds n) a f w = (Return r, w') <-> ending (rounds n) es (round_event (rounds n) a f w) w r w'.
Proof.
  intros Hr Hm. pose proof (limit_reached _ _ _ _ _ _ _ Hr Hm) as Hlim.
  unfold round, end_of_round. split.
  - unfold round_event. destruct (publish (rounds n) w) as [out w1] eqn:Ep. destruct (rd_done (rounds n)) eqn:Ed.
    { intros [= <- <-]. apply ending_context; [by rewrite Ep | done]. }
    destruct out as [out|err]; cbn [fst].
    + destruct (write _ w1) as [[[]|e] w2] eqn:Ew; [|intros [= <- <-]; apply ending_output; [done | by rewrite Ep]].
      destruct (waitForNext _ _ _ w2) as [[|e] w3] eqn:Ewt; [done|]. intros [= <- <-].
      eapply ending_wait; [done | by rewrite Ep | by left; exists out; rewrite Ep | done].
    + destruct (write _ w1) as [[[]|e] w2] eqn:Ew; [|intros [= <- <-]; apply ending_output; [done | by rewrite Ep]].
      destruct (_ && _) eqn:El.
      * intros [= <- <-]. eapply ending_limit; [done | done | done | by apply Hlim].
      * destruct (waitForNext _ _ _ w2) as [[|e] w3] eqn:Ewt; [done|]. intros [= <- <-].
        eapply ending_wait; [done | by rewrite Ep | | done]. right. intros Hx%Hlim. congruence.
  - unfold round_event. destruct (publish (rounds n) w) as [out w1] eqn:Ep. intros He.
    destruct He as [w2 Hw Hd|e w2 Hd Hw|e w1' w2 Hd Hp Hw Hl|e w2 w3 Hd Hw Hl Hwt]; rewrite Hd; [rewrite Ep in Hw; by subst | ..].
    + rewrite Ep in Hw. cbn [snd] in Hw. destruct out; cbn [fst] in Hw; by rewrite Hw.
    + rewrite Ep in Hp. injection Hp as -> <-. cbn [fst] in Hw. rewrite Hw, (proj2 Hlim Hl). done.
    + rewrite Ep in Hw, Hl. cbn [snd fst] in Hw, Hl. destruct out; cbn [fst] in Hw; rewrite Hw.
      * by rewrite Hwt.
      * destruct Hl as [[? ?]|Hl]; [done|]. destruct (_ && _) eqn:El; [by destruct Hl; apply Hlim | by rewrite Hwt].
Qed.

Lemma steady_ending rounds n es event w r w' :
  steady rounds -> ending (rounds n) es event w r w' ->
  exists err w1, publish (rounds n) w = (inr err, w1) /\ write event w1 = (Ok tt, w') /\
    Z.of_nat (consecutive_failures es) + 1 = lo_maxFailures l /\ r = inr (mkExit ExitRuntime (ex_Err err)).
Proof.
  intros [Ha Hw Ht] [w2 _ Hd|e w2 _ He|e w1 w2 _ Hp He Hl|e w2 w3 _ _ _ He].
  - by rewrite Ha in Hd.
  - destruct (Hw event (publish (rounds n) w).2) as [w3 E]. congruence.
  - by exists e, w1.
  - destruct (Ht n w2) as [w4 E]. congruence.
Qed.

(** Without a limit the agent never gives up. *)
Lemma unlimited_agent_goes_on rounds w0 fuel :
  lo_publish l = Some publish -> lo_write l = Some write ->
  interval = (if lo_interval l <=? 0 then defaultRunInterval else lo_interval l) ->
  steady rounds -> lo_maxFailures l <= 0 ->
  exists w' es a f, Run fuel l options rounds w0 = (None, w') /\ running rounds w0 fuel es a f w' /\ length es = fuel.
Proof.
  intros Hp Hw Hi Hs Hm. unfold Run. rewrite Hp, Hw, <- Hi.
  destruct (run_rounds fuel l publish write interval options rounds O 0 0 w0) as [[r|] w'] eqn:E.
  - apply (run_rounds_from _ w0 _ O [] 0 0 w0 (Some r)) in E as (n & es & a & f & w & _ & _ & E); [|constructor].
    apply steady_return in E as (err & w1 & _ & _ & ? & _); [lia | done].
  - apply (run_rounds_from _ w0 _ O [] 0 0 w0 None) in E as (es & a & f & Hr); [|constructor]. exists w', es, a, f.
    split_and!; try done. by destruct (running_counters _ _ _ _ _ _ _ Hr).
Qed.

(** C34: when the agent's loop returns, and with what.  It returns in a round exactly
    when the context ended during the round's publication, the round's event cannot be
    written, waiting for the next round fails, or the publication failed and the failures
    since the last success, which the events show, reach the configured limit; this last
    with the exit code of runtime errors and the publication's error.  So as long as the
    context goes on and output and waiting work, an agent with a limit gives up exactly
    when that many publications in a row have failed, and it does if they keep failing;
    and an agent without a limit, the default, never returns. *)
Theorem agent_gives_up_exactly rounds w0 :
  lo_publish l = Some publish -> lo_write l = Some write ->
  interval = (if lo_interval l <=? 0 then defaultRunInterval else lo_interval l) ->
  0 <= lo_maxFailures l < 2 ^ 64 ->
  (forall fuel r w', Run fuel l options rounds w0 = (Some r, w') <->
     exists n es a f w, (n < fuel)%nat /\ running rounds w0 n es a f w /\
       ending (rounds n) es (round_event (rounds n) a f w) w r w') /\
  (steady rounds -> forall fuel r w', Run fuel l options rounds w0 = (Some r, w') ->
     exists n es a f w err w1, running rounds w0 n es a f w /\ publish (rounds n) w = (inr err, w1) /\
       Z.of_nat (consecutive_failures es) + 1 = lo_maxFailures l /\ r = inr (mkExit ExitRuntime (ex_Err err))) /\
  (0 < lo_maxFailures l -> forall n es a f w, running rounds w0 n es a f w ->
     (forall i w, (n <= i)%nat -> exists err w1, publish (rounds i) w = (inr err, w1)) ->
     exists r w', Run (n + Z.to_nat (lo_maxFailures l)) l options rounds w0 = (Some r, w')) /\
  (lo_maxFailures l = 0 -> steady rounds -> forall fuel, (Run fuel l options rounds w0).1 = None).
Proof.
  intros Hp Hw Hi Hm.
  assert (forall fuel r w', Run fuel l options rounds w0 = (Some r, w') <->
     exists n es a f w, (n < fuel)%nat /\ running rounds w0 n es a f w /\
       ending (rounds n) es (round_event (rounds n) a f w) w r w') as Hret.
  { intros fuel r w'. unfold Run. rewrite Hp, Hw, <- Hi. rewrite (run_rounds_from _ w0 _ O [] 0 0 w0 (Some r)) by constructor. split.
    - intros (n & es & a & f & w & Hn & Hr & E). exists n, es, a, f, w. split_and!; [lia | done |]. by eapply round_ends.
    - intros (n & es & a & f & w & Hn & Hr & E). exists n, es, a, f, w. split_and!; [lia | lia | done |]. by eapply round_ends. }
  split_and!; [exact Hret | | |].
  - intros Hs fuel r w' (n & es & a & f & w & _ & Hr & E)%Hret. apply steady_ending in E as (err & w1 & Hpub & _ & Hc & ->); [|done].
    by exists n, es, a, f, w, err, w1.
  - intros Hpos n es a f w Hr Hfail. unfold Run. rewrite Hp, Hw, <- Hi.
    destruct (run_rounds (n + Z.to_nat (lo_maxFailures l)) l publish write interval options rounds O 0 0 w0) as [[r|] w'] eqn:E;
      [by exists r, w'|]. exfalso.
    apply (run_rounds_from _ w0 _ O [] 0 0 w0 None) in E as (es' & a' & f' & E); [|constructor].
    pose proof (failing_rounds _ _ _ _ _ _ _ _ _ _ _ _ Hr Hfail E) as Hk.
    destruct (running_counters _ _ _ _ _ _ _ E) as (_ & _ & _ & Hlim). specialize (Hlim ltac:(lia)). lia.
  - intros Hz Hs fuel. destruct (unlimited_agent_goes_on rounds w0 fuel Hp Hw Hi Hs ltac:(lia)) as (w' & es & a & f & -> & _). done.
Qed.

(** The end of the context ends the loop after the current publication, without an
    error and without an event. *)
Lemma context_end_stops_agent rounds w0 n es a f w :
  lo_publish l = Some publish -> lo_write l = Some write ->
  interval = (if lo_interval l <=? 0 then defaultRunInterval else lo_interval l) ->
  running rounds w0 n es a f w -> rd_done (rounds n) = true ->
  Run (S n) l options rounds w0 = (Some (inl tt), (publish (rounds n) w).2).
Proof.
  intros Hp Hw Hi Hr Hd. unfold Run. rewrite Hp, Hw, <- Hi.
  apply (run_rounds_from _ w0 _ O [] 0 0 w0 (Some _)); [constructor|]. exists n, es, a, f, w. split_and!; [lia | lia | done |].
  unfold round. destruct (publish (rounds n) w) as [out w1]. by rewrite Hd.
Qed.
End Loop.

(** *** A publisher that always fails *)

Definition example_options : publishOnceOptions :=
  mkPublishOptions "127.0.0.1:8443" true EmptyString EmptyString EmptyString EmptyString "prod-eu1" "kind-worker" "uid-1"
    ProviderFakeLocal EmptyString HashSHA256 [7] EmptyString Minute Second formatJSON.
Definition failing_publish (rd : Round) : action (list runEvent) publishOnceOutput :=
  acting ExitRuntime (pure (Err (errorf "publish failed"))).
Definition recording_write (e : runEvent) : call (list runEvent) unit := fun es => (Ok tt, es ++ [e]).
Definition failing_loop : agentRunLoop := mkRunLoop Second 2 (Some failing_publish) (Some recording_write) None.
Definition example_round (n : nat) : Round := mkRound (mkMoment (Ok tt) (Ok tt) (Ok tt) 0) (Ok tt) false (Z.of_nat n * Second) (Ok tt) false.

Lemma agent_gives_up_exactly_witness :
  exists es, Run 2 failing_loop example_options example_round [] = (Some (inr (mkExit ExitRuntime (errorf "publish failed"))), es) /\
    (rv_FailureCount <$> es) = [1; 2].
Proof.
  destruct (agent_gives_up_exactly failing_loop failing_publish recording_write Second example_options example_round [])
    as (_ & Hgive & Hstop & _); [reflexivity | reflexivity | reflexivity | vm_compute; split; [discriminate | reflexivity] |].
  destruct (Hstop ltac:(reflexivity) O [] 0 0 [] ltac:(constructor) ltac:(intros i w _; by eexists _, _)) as (r & es & E).
  exists es. change (O + Z.to_nat (lo_maxFailures failing_loop))%nat with 2%nat in E. split.
  - assert (@steady (list runEvent) failing_loop recording_write Second example_round) as Hs
      by (split; [reflexivity | by eexists | by eexists]).
    destruct (Hgive Hs _ _ _ E) as (n & es' & a & f & w & err & w1 & _ & Hp & _ & ->). injection Hp as <- <-. exact E.
  - vm_compute in E. injection E as <- <-. reflexivity.
Defined.
