(* ===== verification/CtlRotate.v ===== *)
(** * bao-unsealctl: the end of a rotation, and what operators can look at
    (internal/baounsealctl/command.go)

    [rotate openbao-root] and [rotate verify-restart] call the OpenBao server and record
    what it answered; [status], [rotate status] and [revoke status] only read.  The
    server and its connection are classes; a command runs on the broker state and the
    server. *)

From S2P Require Import Prelude GoStrings Json JsonText GoTime Keyring KeyProtection Tpm NodeEvidence Config.
From S2P Require Import Sql Store Challenges SqlNodeEvidence StoreInv StoreOps Policy Recovery Grants Ctl KmsConfig KmsPlugin Agent.
From Stdlib Require Import Ascii.
Local Open Scope Z_scope.

(** ** The server *)

(** net/url as far as an endpoint is built with it: [url_SetPath] sets the path and
    drops the query and the fragment. *)
Class UrlLib := {
  URL : Type;
  url_Parse : string -> result URL;
  url_Scheme : URL -> string;
  url_Host : URL -> string;
  url_Path : URL -> string;
  url_SetPath : string -> URL -> URL;
  url_String : URL -> string;
}.

Record HttpRequest := mkHttpRequest { hr_Method : string; hr_URL : string; hr_Headers : list (string * string) }.

(** The body as far as it can be read. *)
Record HttpResponse := mkHttpResponse { hs_StatusCode : Z; hs_Body : result bytes }.

(** The client: TLS 1.2 at least with a server name and roots, or Go's default
    transport; redirects are not followed. *)
Record openBaoClient `{KmsEnv W} := mkOpenBaoClient { oc_TLS : option (string * option CertPool); oc_Timeout : Duration }.
Arguments openBaoClient W {_}.
Arguments mkOpenBaoClient {W _}.
Arguments oc_TLS {W _}.
Arguments oc_Timeout {W _}.

(** The operator's machine with the connection to the server. *)
Class OpenBaoServer (O : Type) `{KmsEnv O} := {
  http_NewRequest : string -> string -> result unit;
  client_Do : openBaoClient O -> HttpRequest -> call O HttpResponse;
}.

(** [strings.TrimRight(s, "/")]. *)
Fixpoint TrimRightSlash (s : string) : string :=
  match s with
  | EmptyString => EmptyString
  | String c r => let r' := TrimRightSlash r in if empty r' && Ascii.eqb c "/" then EmptyString else String c r'
  end.

Definition openBaoEndpoint `{UrlLib} (address path : string) : result string :=
  check (negb (empty (TrimSpace address))) (errorf "OpenBao address is required");;
  parsed ← map_err (errorp "parse OpenBao address") (url_Parse address);
  check (String.eqb (url_Scheme parsed) "http" || String.eqb (url_Scheme parsed) "https")
    (errorf "OpenBao address must use http or https");;
  check (negb (empty (url_Host parsed))) (errorf "OpenBao address must include a host");;
  Ok (url_String (url_SetPath (TrimRightSlash (url_Path parsed) +:+ path) parsed)).

(** ** What the server reports *)

Record openBaoSealStatus := mkSealStatus { ss_Type : string; ss_Initialized : bool; ss_Sealed : bool }.

Definition seal_status_fields : list (string * (json -> openBaoSealStatus -> result openBaoSealStatus)) :=
  [("type"%string, field decode_string (fun x s => mkSealStatus x (ss_Initialized s) (ss_Sealed s)));
   ("initialized"%string, field decode_bool (fun x s => mkSealStatus (ss_Type s) x (ss_Sealed s)));
   ("sealed"%string, field decode_bool (fun x s => mkSealStatus (ss_Type s) (ss_Initialized s) x))].

Definition decode_seal_status : result bytes -> result openBaoSealStatus :=
  decode_first 4096 seal_status_fields (mkSealStatus EmptyString false false).

(** ** Verifications *)

Record rotationVerificationOutput := mkVerificationOutput {
  vo_Name : string; vo_Verified : bool; vo_VerifiedAt : string; vo_Detail : string;
}.

Definition rotationVerificationOutputFromRecord (record : RotationVerification) : rotationVerificationOutput :=
  mkVerificationOutput (rv_Name record) true (FormatRFC3339Nano (rv_VerifiedAt record)) (rv_Detail record).

(** Of several records of a name the last one is taken. *)
Definition last_verification (records : list RotationVerification) (name : string) : option RotationVerification :=
  last (filter (fun record => rv_Name record = name) records).

Definition rotationVerificationOutputs (records : list RotationVerification) : list rotationVerificationOutput :=
  (fun name => match last_verification records name with
               | Some record => rotationVerificationOutputFromRecord record
               | None => mkVerificationOutput name false EmptyString EmptyString
               end) <$> [RotationVerificationOpenBAORoot; RotationVerificationRestart; RotationVerificationKeyVersion].

Definition hasRotationVerification (records : list RotationVerification) (name : string) : bool :=
  existsb (fun record => String.eqb (rv_Name record) name) records.

(** ** Commands on the broker state and the server *)

Section Rotate.
Context {O : Type} `{!KmsEnv O, !OpenBaoServer O, UrlLib}.

Definition on_broker {A} (m : cmd A) : action (Broker * O) A := fun '(b, o) => let '(r, b) := m b in (r, (b, o)).

(** The outcome of a call as a value. *)
Definition attempt {A} (m : call O A) : action (Broker * O) (result A) := fun '(b, o) =>
  let '(r, o) := m o in (inl r, (b, o)).

(** [newOpenBaoClient] and the roots it loads. *)
Definition openbao_roots (caCertPath : string) : call O (option CertPool) :=
  if empty caCertPath then mret None
  else
    wrap_error (errorp "read CA certificate") (env_ReadFile caCertPath) ≫= fun caPEM =>
    pure (pool ← of_option (errorf "CA certificate did not contain a PEM certificate")
                   (AppendCertsFromPEM (default EmptyCertPool SystemCertPool) caPEM);
          Ok (Some pool)).

Definition newOpenBaoClient (caCertPath tlsServerName : string) (timeout : Duration) : call O (openBaoClient O) :=
  if negb (empty caCertPath) || negb (empty tlsServerName)
  then openbao_roots caCertPath ≫= fun roots => mret (mkOpenBaoClient (Some (tlsServerName, roots)) timeout)
  else mret (mkOpenBaoClient None timeout).

(** The options of both commands. *)
Record rotateServerOptions := mkServerOptions {
  so_auditPath : string; so_operationID : string; so_address : string; so_caCertPath : string;
  so_tlsServerName : string; so_timeout : Duration;
}.

Definition rotate_root_request (endpoint token : string) : HttpRequest :=
  mkHttpRequest "POST" endpoint
    [("X-Vault-Request", "true"); ("X-Vault-Token", token); ("User-Agent", "bao-unsealctl")]%string.

Definition success_status (code : Z) : bool := negb ((code <? 200) || (300 <=? code)).

Definition callOpenBaoRotateRoot (options : rotateServerOptions) (endpoint token : string) : call O Z :=
  newOpenBaoClient (so_caCertPath options) (so_tlsServerName options) (so_timeout options) ≫= fun client =>
  pure (map_err (errorp "create OpenBao request") (http_NewRequest "POST" endpoint)) ≫= fun _ =>
  wrap_error (errorp "call OpenBao root rotation endpoint") (client_Do client (rotate_root_request endpoint token)) ≫= fun resp =>
  pure (check (success_status (hs_StatusCode resp))
    (errorf ("OpenBao root rotation failed with HTTP status " +:+ FormatInt (hs_StatusCode resp)))) ≫= fun _ =>
  mret (hs_StatusCode resp).

Record rotateOpenBAORootOutput := mkRotateRootOutput {
  rr_Operation : rotateOutput; rr_Endpoint : string; rr_HTTPStatus : Z; rr_Verification : rotationVerificationOutput;
}.

(** [requested] is the environment of the audit record before the call. *)
Definition rotateOpenBAORoot (options : rotateServerOptions) (getenv : string -> string) (requested env : CtlEnv)
  : action (Broker * O) rotateOpenBAORootOutput :=
  let token := TrimSpace (getenv "BAO_TOKEN") in
  of_outcome (coded ExitConfig (check (negb (empty token)) (errorf "BAO_TOKEN is required"))) ≫= fun _ =>
  of_outcome (coded ExitConfig (ce_open env)) ≫= fun _ =>
  on_broker (on_store ExitCheckFailed (reading (fun db => queryRotationOperation db (so_operationID options)))) ≫= fun operation =>
  of_outcome (coded ExitCheckFailed (check (String.eqb (ro_Status operation) RotationStatusActivated)
    (errorw ErrRotationInvalidTransition ("rotation must be activated before OpenBao root rotation; status is " +:+
       quoted (ro_Status operation))))) ≫= fun _ =>
  on_broker (on_store ExitRuntime (reading (fun db => Ok (rotation_policy operation db)))) ≫= fun policyID =>
  of_outcome (coded ExitConfig (openBaoEndpoint (so_address options) "/v1/sys/rotate/root")) ≫= fun endpoint =>
  on_broker (auditRotationWithDecision requested (so_auditPath options) operation policyID DecisionAllow
    "openbao root key rotation requested") ≫= fun _ =>
  attempt (callOpenBaoRotateRoot options endpoint token) ≫= fun called =>
  on_broker (auditRotationWithDecision env (so_auditPath options) operation policyID
    (if is_ok called then DecisionAllow else DecisionDeny)
    (if is_ok called then "openbao root key rotation completed" else "openbao root key rotation failed")) ≫= fun auditID =>
  of_outcome (coded ExitRuntime called) ≫= fun statusCode =>
  let now := ce_clock env AtCommand in
  on_broker (on_store ExitRuntime (RecordRotationVerification now (ro_OperationID operation) RotationVerificationOpenBAORoot
    ("OpenBao /sys/rotate/root returned HTTP " +:+ FormatInt statusCode) now)) ≫= fun verification =>
  mret (mkRotateRootOutput (rotateOutputFromOperation operation auditID) endpoint statusCode
          (rotationVerificationOutputFromRecord verification)).

(** The flags of both commands: the raw values in, the trimmed options out. *)
Definition server_options (format statePath : string) (raw : rotateServerOptions) : outcome rotateServerOptions :=
  validateFormat format ≫= fun _ =>
  coded ExitUsage (check (negb (empty (TrimSpace statePath) || empty (TrimSpace (so_operationID raw))))
    (errorf "-state and -operation-id are required")) ≫= fun _ =>
  coded ExitUsage (check (negb (so_timeout raw <=? 0)) (errorf "-timeout must be greater than zero")) ≫= fun _ =>
  mret (mkServerOptions (so_auditPath raw) (TrimSpace (so_operationID raw)) (TrimSpace (so_address raw))
          (TrimSpace (so_caCertPath raw)) (TrimSpace (so_tlsServerName raw)) (so_timeout raw)).

Definition rotateOpenBAORootCommand (format statePath : string) (raw : rotateServerOptions) (getenv : string -> string)
  (requested env : CtlEnv) : action (Broker * O) rotateOpenBAORootOutput :=
  of_outcome (server_options format statePath raw) ≫= fun options => rotateOpenBAORoot options getenv requested env.

(** ** Restart *)

Definition seal_status_request (endpoint : string) : HttpRequest :=
  mkHttpRequest "GET" endpoint [("X-Vault-Request", "true"); ("User-Agent", "bao-unsealctl")]%string.

Definition callOpenBaoSealStatus (options : rotateServerOptions) (endpoint : string) : call O openBaoSealStatus :=
  newOpenBaoClient (so_caCertPath options) (so_tlsServerName options) (so_timeout options) ≫= fun client =>
  pure (map_err (errorp "create OpenBao seal-status request") (http_NewRequest "GET" endpoint)) ≫= fun _ =>
  wrap_error (errorp "call OpenBao seal-status endpoint") (client_Do client (seal_status_request endpoint)) ≫= fun resp =>
  pure (check (success_status (hs_StatusCode resp))
    (errorf ("OpenBao seal-status failed with HTTP status " +:+ FormatInt (hs_StatusCode resp)))) ≫= fun _ =>
  pure (map_err (errorp "decode OpenBao seal-status") (decode_seal_status (hs_Body resp))).

Record rotateVerifyRestartOutput := mkVerifyRestartOutput {
  vr_Operation : rotateOutput; vr_Endpoint : string; vr_Status : openBaoSealStatus; vr_Verification : rotationVerificationOutput;
}.

Definition bool_text (b : bool) : string := if b then "true" else "false".

(** A refusal is audited, whether or not that works. *)
Definition refuse_restart {A} (env : CtlEnv) (options : rotateServerOptions) (operation : RotationOperation) (err : error)
  : action (Broker * O) A := fun '(b, o) =>
  let '(_, b) := auditRotationWithDecision env (so_auditPath options) operation "rotation" DecisionDeny
                   "openbao restart verification failed" b in
  (inr (mkExit ExitCheckFailed err), (b, o)).

Definition rotateVerifyRestart (options : rotateServerOptions) (env : CtlEnv) : action (Broker * O) rotateVerifyRestartOutput :=
  of_outcome (coded ExitConfig (ce_open env)) ≫= fun _ =>
  on_broker (on_store ExitCheckFailed (reading (fun db => queryRotationOperation db (so_operationID options)))) ≫= fun operation =>
  of_outcome (coded ExitCheckFailed (check (String.eqb (ro_Status operation) RotationStatusActivated)
    (errorw ErrRotationInvalidTransition ("rotation must be activated before restart verification; status is " +:+
       quoted (ro_Status operation))))) ≫= fun _ =>
  on_broker (on_store ExitCheckFailed (reading (fun db => RotationVerifications db (ro_OperationID operation)))) ≫= fun verifications =>
  of_outcome (coded ExitCheckFailed (check (hasRotationVerification verifications RotationVerificationOpenBAORoot)
    (errorw ErrRotationInvalidTransition "openbao-root verification is required first"))) ≫= fun _ =>
  of_outcome (coded ExitConfig (openBaoEndpoint (so_address options) "/v1/sys/seal-status")) ≫= fun endpoint =>
  attempt (callOpenBaoSealStatus options endpoint) ≫= fun called =>
  match called with
  | Err err => refuse_restart env options operation err
  | Ok status =>
      if negb (ss_Initialized status) || ss_Sealed status
      then refuse_restart env options operation
             (errorf ("OpenBao seal status initialized=" +:+ bool_text (ss_Initialized status) +:+ " sealed=" +:+
                bool_text (ss_Sealed status) +:+ ", want initialized=true sealed=false"))
      else
        let now := ce_clock env AtCommand in
        on_broker (on_store ExitRuntime (RecordRotationVerification now (ro_OperationID operation) RotationVerificationRestart
          ("OpenBao seal-status initialized=" +:+ bool_text (ss_Initialized status) +:+ " sealed=" +:+
             bool_text (ss_Sealed status) +:+ " type=" +:+ ss_Type status) now)) ≫= fun verification =>
        on_broker (auditRotationWithDecision env (so_auditPath options) operation "rotation" DecisionAllow
          "openbao restart verification completed") ≫= fun auditID =>
        mret (mkVerifyRestartOutput (rotateOutputFromOperation operation auditID) endpoint status
                (rotationVerificationOutputFromRecord verification))
  end.

Definition rotateVerifyRestartCommand (format statePath : string) (raw : rotateServerOptions) (env : CtlEnv)
  : action (Broker * O) rotateVerifyRestartOutput :=
  of_outcome (server_options format statePath raw) ≫= fun options => rotateVerifyRestart options env.
End Rotate.

(** ** Commands that only read *)

(** What [rotate status] prints. *)
Definition rotateStatusCommand (format statePath operationID : string) (env : CtlEnv)
  : cmd (rotateOutput * list rotationVerificationOutput) :=
  Ctl.validateFormat format ≫= fun _ =>
  (if empty (TrimSpace statePath) || empty (TrimSpace operationID)
   then exit_with ExitUsage (errorf "-state and -operation-id are required") else mret tt) ≫= fun _ =>
  or_exit ExitConfig (ce_open env) ≫= fun _ =>
  on_store ExitCheckFailed (reading (fun db => queryRotationOperation db (TrimSpace operationID))) ≫= fun operation =>
  on_store ExitCheckFailed (reading (fun db => RotationVerifications db (ro_OperationID operation))) ≫= fun verifications =>
  mret (rotateOutputFromOperation operation EmptyString, rotationVerificationOutputs verifications).

Record statusOutput := mkStatusOutput { st_ClusterID : string; st_Ready : bool; st_ActiveKeyID : string }.

Definition statusCommand (format statePath clusterID : string) (env : CtlEnv) : cmd statusOutput :=
  Ctl.validateFormat format ≫= fun _ =>
  (if empty (TrimSpace statePath) then exit_with ExitUsage (errorf "-state is required") else mret tt) ≫= fun _ =>
  or_exit ExitConfig (ce_open env) ≫= fun _ =>
  on_store ExitCheckFailed (reading (fun db => loadDevelopmentKeyring db clusterID)) ≫= fun ring =>
  or_exit ExitCheckFailed (Active (Some ring)) ≫= fun active =>
  mret (mkStatusOutput clusterID true (KeyRef_String (Ref active))).

Record revokeStatusOutput := mkRevokeStatusOutput { rvs_ClusterID : string; rvs_SubjectID : string; rvs_Revoked : bool }.

Definition revokeStatusCommand (format statePath clusterID subjectID : string) (env : CtlEnv) : cmd revokeStatusOutput :=
  Ctl.validateFormat format ≫= fun _ =>
  (if empty (TrimSpace statePath) || empty (TrimSpace subjectID)
   then exit_with ExitUsage (errorf "-state and -subject-id are required") else mret tt) ≫= fun _ =>
  let cluster := TrimSpace clusterID in
  let subject := TrimSpace subjectID in
  or_exit ExitConfig (ce_open env) ≫= fun _ =>
  on_store ExitCheckFailed (reading (fun db =>
    match store_Subject db cluster subject with
    | Ok _ => Ok false
    | Err err => if errors_Is err ErrSubjectRevoked then Ok true else Err err
    end)) ≫= fun revoked =>
  mret (mkRevokeStatusOutput cluster subject revoked).
