(* ===== verification/CtlRotateProps.v ===== *)
(** * What the record of a finished rotation says

    The verifications of a rotation are recorded in order, only for activated
    rotations, and only for what the OpenBao server answered. *)

From S2P Require Import Prelude GoStrings Json GoTime Keyring KeyProtection Tpm NodeEvidence Config.
From S2P Require Import Sql Store Challenges SqlNodeEvidence StoreInv StoreOps Policy Recovery Grants Ctl CtlProps KmsConfig KmsPlugin Agent AgentProps CtlRotate.
Local Open Scope Z_scope.

(** ** Which operations touch the tables of rotations *)

Definition rotation_view (db : DB) := (rotation_operations db, rotation_verifications db).

Lemma bootstrap_rotation r db : rotation_view (BootstrapKeyring r db).2 = rotation_view db.
Proof.
  unfold BootstrapKeyring. case_goal; [|done]. case_goal; [done|]. apply transact_frame. intros [] db' H.
  unfold bootstrap_tx in H. cbv zeta in H. unfold insert_policies, insert_keyrings, insert_clusters in H.
  apply bind_Ok in H as (db1 & H1 & H). apply bind_Ok in H as (db2 & H2 & H). apply bind_Ok in H as (db3 & H3 & H).
  apply bind_Ok in H as (db4 & H4 & H). apply bind_Ok in H as (db5 & H5 & H). inv_ok.
  apply insert_key_versions_Ok in H3 as (_ & _ & _ & _ & ->). case_hyp H5; [by inv_ok|]. unfold insert_recovery_packages in H5. by inv_ok.
Qed.

Lemma configure_rotation w c key db : rotation_view (ConfigureDevelopment w c key db).2 = rotation_view db.
Proof.
  unfold ConfigureDevelopment. case_goal; [|done]. apply transact_frame. intros [] db' H. unfold configure_tx in H.
  apply bind_Ok in H as (db1 & H1 & H). apply bind_Ok in H as (db2 & H2 & H). apply bind_Ok in H as (db3 & H3 & H).
  apply bind_Ok in H as (db4 & H4 & H). apply bind_Ok in H as (db5 & H5 & H). inv_ok.
  apply insert_clusters_only in H1. apply insert_keyrings_only in H2. apply insert_key_versions_only in H3.
  apply insert_policies_only in H4. apply seed_subjects_only in H5. by rewrite H5, H4, H3, H2, H1.
Qed.

Lemma node_ops_rotation db :
  (forall r, rotation_view (sql_EnrollNodeEvidence db r).2 = rotation_view db) /\
  (forall c n t, rotation_view (sql_RevokeNodeEvidence db c n t).2 = rotation_view db) /\
  (forall w e rev, rotation_view (sql_PutEnrolledNodeEvidence w db e rev).2 = rotation_view db) /\
  (forall w e, rotation_view (sql_PutNodeEvidence w e db).2 = rotation_view db) /\
  (forall w c t, rotation_view (sql_PruneNodeEvidence w c t db).2 = rotation_view db).
Proof.
  split_and!; intros.
  - unfold sql_EnrollNodeEvidence, transact. destruct (NormalizeEnrollmentRequest r) as [n|]; [|done].
    destruct (enroll_tx n db) as [[rev db']|] eqn:E; [|done]. simpl. unfold enroll_tx in E. inv_ok.
    match goal with H : foldR _ _ _ = Ok _ |- _ => apply insert_publishers_only in H; rewrite H end.
    unfold upsert_enrollment in *. inv_ok. done.
  - unfold sql_RevokeNodeEvidence, transact. case_goal; [done|].
    destruct (revoke_tx _ t db) as [[e db']|] eqn:E; [|done]. simpl. unfold revoke_tx in E. inv_ok.
    by destruct (enr_revoked_at _).
  - unfold sql_PutEnrolledNodeEvidence. destruct (Normalize e) as [n|]; [|done]. case_goal; [done|].
    apply transact_frame. intros [] db' H. unfold put_enrolled_tx, upsertNodeEvidence in H. by inv_ok.
  - unfold sql_PutNodeEvidence, upsertNodeEvidence. destruct (Normalize e) as [n|]; [|done].
    case_goal; [done|]. by destruct (has (clusters db) (ne_ClusterID n)).
  - apply transact_frame. intros m db' H. unfold prune_tx in H. inv_ok.
    match goal with H : foldl _ _ ?x = _ |- _ => pose proof (prune_fold_only (TrimSpace c) x 0 db) as Hp; rewrite H in Hp end.
    simpl in Hp. by rewrite Hp.
Qed.

Lemma other_ops_rotation db :
  (forall c s t, rotation_view (InsertSubject c s t db).2 = rotation_view db) /\
  (forall w c s, rotation_view (RevokeSubject w c s db).2 = rotation_view db) /\
  (forall r, rotation_view (InsertRecoveryPackage r db).2 = rotation_view db) /\
  (forall r, rotation_view (InsertEnrollmentRequest r db).2 = rotation_view db) /\
  (forall r, rotation_view (InsertEnrollmentGrant r db).2 = rotation_view db) /\
  (forall id t, rotation_view (ConsumeEnrollmentGrant id t db).2 = rotation_view db) /\
  (forall e, rotation_view (InsertAuditEvent e db).2 = rotation_view db).
Proof.
  split_and!; intros.
  - apply exec_frame. intros db' H. unfold insert_or_ignore_subjects in H. case_hyp H; by inv_ok.
  - unfold RevokeSubject. by case_goal.
  - apply exec_frame. intros db' H. unfold insert_or_ignore_recovery_packages, insert_recovery_packages in H.
    case_hyp H; by inv_ok.
  - apply exec_frame. intros db' H. unfold insert_or_replace_enrollment_requests in H. by inv_ok.
  - apply exec_frame. intros db' H. unfold insert_enrollment_grants in H. by inv_ok.
  - unfold ConsumeEnrollmentGrant. by repeat case_goal.
  - apply exec_frame. intros db' H. unfold insert_audit_events in H. by inv_ok.
Qed.

(** A rotation that was activated. *)
Definition activated (db : DB) (id : string) : Prop :=
  exists row, rotation_operations db !! id = Some row /\ ror_status row = RotationStatusActivated.

Definition verified (db : DB) (id name : string) : Prop := is_Some (rotation_verifications db !! (id, name)).

(** What keeps the record: nothing verified is added, no activation is taken back. *)
Definition record_kept (a b : DB) : Prop :=
  rotation_verifications b = rotation_verifications a /\ forall id, activated a id -> activated b id.

Lemma record_kept_view a b : rotation_view b = rotation_view a -> record_kept a b.
Proof. intros [= H1 H2]. split; [done|]. intros id. unfold activated. by rewrite H1. Qed.

Global Instance record_kept_preorder : PreOrder record_kept.
Proof. split; [by split|]. intros a b c [H1 H2] [H3 H4]. split; [congruence | auto]. Qed.

Definition records_verification (o : store_op) : bool :=
  match o with ORecordRotationVerification _ _ _ _ _ => true | _ => false end.

Lemma record_kept_step o db : records_verification o = false -> record_kept db (store_step o db).
Proof.
  intros Ho. destruct (node_ops_rotation db) as (N1 & N2 & N3 & N4 & N5). destruct (other_ops_rotation db) as (P1 & P2 & P3 & P4 & P5 & P6 & P7).
  destruct (challenge_ops_frame db) as [C1 C2].
  destruct o; simpl in *; try done; try (by apply record_kept_view);
    try (by apply record_kept_view, bootstrap_rotation); try (by apply record_kept_view, configure_rotation);
    try (by apply record_kept_view; rewrite C1); try (by apply record_kept_view; rewrite C2).
  - unfold StartRotation. case_goal; [|done]. apply transact_inv; [done|]. intros op db' H.
    apply start_tx_effect in H as (from & to & _ & _ & _ & Hn & _ & _ & -> & _). split; [done|].
    intros id (row & Hl & Hs). exists row. split; [|done]. simpl. rewrite lookup_insert_ne; [done|]. intros <-. congruence.
  - unfold ActivateRotation. apply transact_inv; [done|]. intros op db' H. unfold activate_tx in H.
    apply bind_Ok in H as (x & _ & H). case_hyp H; [by inv_ok|]. case_hyp H; [|done].
    apply bind_Ok in H as (d1 & H1 & H). apply bind_Ok in H as (d2 & H2 & H). inv_ok.
    apply updateKeyStatus_only in H1, H2. rewrite H2, H1. split; [done|].
    intros i (row & Hl & Hs). unfold activated. simpl. destruct (decide (i = id)) as [->|Hne].
    + rewrite lookup_alter_eq, Hl. by eexists.
    + rewrite lookup_alter_ne by done. eauto.
Qed.

(** ** Commands *)

Section History.
Context {O : Type} `{!KmsEnv O, !OpenBaoServer O, UrlLib}.

Notation command A := (action (Broker * O) A).

(** A command that keeps the record. *)
Definition keeps {A} (m : command A) : Prop := forall b o, record_kept (b_db b) (b_db (m (b, o)).2.1).

Lemma stays_bind {A B} (m : command A) (f : A -> command B) : keeps m -> (forall a, keeps (f a)) -> keeps (m ≫= f).
Proof.
  intros Hm Hf b o. unfold mbind, action_bind. specialize (Hm b o). destruct (m (b, o)) as [[a|e] [b1 o1]]; [|exact Hm].
  etransitivity; [exact Hm | apply Hf].
Qed.

Lemma keeps_outcome {A} (r : outcome A) : keeps (of_outcome r).
Proof. by intros b o. Qed.

Lemma stays_ret {A} (a : A) : keeps (mret a).
Proof. by intros b o. Qed.

Lemma keeps_attempt {A} (m : call O A) : keeps (attempt m).
Proof. intros b o. unfold attempt. by destruct (m o) as [r o1]. Qed.

Lemma keeps_reading {A} code (f : DB -> result A) : keeps (on_broker (on_store code (reading f))).
Proof. intros b o. unfold on_broker, on_store, reading, or_exit. by destruct (f (b_db b)). Qed.

Lemma audit_kept env store path input b : record_kept (b_db b) (b_db (audit env store path input b).2).
Proof.
  unfold audit. destruct (ctl_randomID env "audit") as [auditID|e]; [|done]. set (event := audit_event _ _ _).
  pose proof (record_kept_step (OInsertAuditEvent event) (b_db b) eq_refl) as Hs. simpl in Hs.
  destruct store; [|by repeat case_goal]. destruct (InsertAuditEvent event (b_db b)) as [[u|e] db]; [|exact Hs].
  destruct (empty _); [exact Hs|]. destruct (audit_Write _ _ _ _) as [[]]; exact Hs.
Qed.

Lemma keeps_audit env path operation policyID decision reason :
  keeps (on_broker (auditRotationWithDecision env path operation policyID decision reason)).
Proof.
  intros b o. unfold on_broker, auditRotationWithDecision, auditing, or_exit.
  pose proof (audit_kept env true path (mkAuditInput "operator" (Operation_String OPERATION_ROTATE) (ro_ClusterID operation)
    (ro_KeyID operation) (ro_ToVersion operation) decision policyID reason) b) as Hs.
  by destruct (audit _ _ _ _ b) as [[r|e] b'].
Qed.

(** The parts of the two commands before the server is called. *)
Definition root_rotation_asked (options : rotateServerOptions) (getenv : string -> string) (requested env : CtlEnv)
  : command (RotationOperation * string * string) :=
  of_outcome (coded ExitConfig (check (negb (empty (TrimSpace (getenv "BAO_TOKEN")))) (errorf "BAO_TOKEN is required"))) ≫= fun _ =>
  of_outcome (coded ExitConfig (ce_open env)) ≫= fun _ =>
  on_broker (on_store ExitCheckFailed (reading (fun db => queryRotationOperation db (so_operationID options)))) ≫= fun operation =>
  of_outcome (coded ExitCheckFailed (check (String.eqb (ro_Status operation) RotationStatusActivated)
    (errorw ErrRotationInvalidTransition ("rotation must be activated before OpenBao root rotation; status is " +:+
       quoted (ro_Status operation))))) ≫= fun _ =>
  on_broker (on_store ExitRuntime (reading (fun db => Ok (rotation_policy operation db)))) ≫= fun policyID =>
  of_outcome (coded ExitConfig (openBaoEndpoint (so_address options) "/v1/sys/rotate/root")) ≫= fun endpoint =>
  on_broker (auditRotationWithDecision requested (so_auditPath options) operation policyID DecisionAllow
    "openbao root key rotation requested") ≫= fun _ =>
  mret (operation, policyID, endpoint).

Definition root_rotation_told (options : rotateServerOptions) (env : CtlEnv) (operation : RotationOperation) (policyID endpoint : string)
  (called : result Z) : command rotateOpenBAORootOutput :=
  on_broker (auditRotationWithDecision env (so_auditPath options) operation policyID
    (if is_ok called then DecisionAllow else DecisionDeny)
    (if is_ok called then "openbao root key rotation completed" else "openbao root key rotation failed")) ≫= fun auditID =>
  of_outcome (coded ExitRuntime called) ≫= fun statusCode =>
  let now := ce_clock env AtCommand in
  on_broker (on_store ExitRuntime (RecordRotationVerification now (ro_OperationID operation) RotationVerificationOpenBAORoot
    ("OpenBao /sys/rotate/root returned HTTP " +:+ FormatInt statusCode) now)) ≫= fun verification =>
  mret (mkRotateRootOutput (rotateOutputFromOperation operation auditID) endpoint statusCode
          (rotationVerificationOutputFromRecord verification)).

Lemma action_assoc {A B C} (m : command A) (f : A -> command B) (g : B -> command C) w :
  ((m ≫= f) ≫= g) w = (m ≫= (fun a => f a ≫= g)) w.
Proof. unfold mbind, action_bind. by destruct (m w) as [[a|e] w1]. Qed.

Lemma bind_ext {A B} (m : command A) (f g : A -> command B) w : (forall a w', f a w' = g a w') -> (m ≫= f) w = (m ≫= g) w.
Proof. intros Hf. unfold mbind, action_bind. destruct (m w) as [[a|e] w1]; [apply Hf | done]. Qed.

Lemma rotateOpenBAORoot_parts options getenv requested env w :
  rotateOpenBAORoot options getenv requested env w =
  (root_rotation_asked options getenv requested env ≫= fun '(operation, policyID, endpoint) =>
   attempt (callOpenBaoRotateRoot options endpoint (TrimSpace (getenv "BAO_TOKEN"))) ≫=
   root_rotation_told options env operation policyID endpoint) w.
Proof.
  unfold rotateOpenBAORoot, root_rotation_asked. cbv zeta.
  repeat (rewrite action_assoc; apply bind_ext; clear w; intros ? w). reflexivity.
Qed.

Definition restart_asked (options : rotateServerOptions) (env : CtlEnv) : command (RotationOperation * string) :=
  of_outcome (coded ExitConfig (ce_open env)) ≫= fun _ =>
  on_broker (on_store ExitCheckFailed (reading (fun db => queryRotationOperation db (so_operationID options)))) ≫= fun operation =>
  of_outcome (coded ExitCheckFailed (check (String.eqb (ro_Status operation) RotationStatusActivated)
    (errorw ErrRotationInvalidTransition ("rotation must be activated before restart verification; status is " +:+
       quoted (ro_Status operation))))) ≫= fun _ =>
  on_broker (on_store ExitCheckFailed (reading (fun db => RotationVerifications db (ro_OperationID operation)))) ≫= fun verifications =>
  of_outcome (coded ExitCheckFailed (check (hasRotationVerification verifications RotationVerificationOpenBAORoot)
    (errorw ErrRotationInvalidTransition "openbao-root verification is required first"))) ≫= fun _ =>
  of_outcome (coded ExitConfig (openBaoEndpoint (so_address options) "/v1/sys/seal-status")) ≫= fun endpoint =>
  mret (operation, endpoint).

Definition restart_told (options : rotateServerOptions) (env : CtlEnv) (operation : RotationOperation) (endpoint : string)
  (called : result openBaoSealStatus) : command rotateVerifyRestartOutput :=
  match called with
  | Err err => refuse_restart env options operation err
  | Ok status =>
      if negb (ss_Initialized status) || ss_Sealed status
      then refuse_restart env options operation
             (errorf ("OpenBao seal status initialized=" +:+ bool_text (ss_Initialized status) +:+ " sealed=" +:+
                bool_text (ss_Sealed status) +:+ ", want initialized=true sealed=false"))
      else
        let now := ce_clock env AtCommand in
        on_broker (on_store ExitRuntime (RecordRotationVerification now (ro_OperationID operation) RotationVerificationRestart
          ("OpenBao seal-status initialized=" +:+ bool_text (ss_Initialized status) +:+ " sealed=" +:+
             bool_text (ss_Sealed status) +:+ " type=" +:+ ss_Type status) now)) ≫= fun verification =>
        on_broker (auditRotationWithDecision env (so_auditPath options) operation "rotation" DecisionAllow
          "openbao restart verification completed") ≫= fun auditID =>
        mret (mkVerifyRestartOutput (rotateOutputFromOperation operation auditID) endpoint status
                (rotationVerificationOutputFromRecord verification))
  end.

Lemma rotateVerifyRestart_parts options env w :
  rotateVerifyRestart options env w =
  (restart_asked options env ≫= fun '(operation, endpoint) =>
   attempt (callOpenBaoSealStatus options endpoint) ≫= restart_told options env operation endpoint) w.
Proof.
  unfold rotateVerifyRestart, restart_asked. repeat (rewrite action_assoc; apply bind_ext; clear w; intros ? w). reflexivity.
Qed.

(** What was found before the server was called. *)
Lemma query_activated db id operation :
  queryRotationOperation db id = Ok operation -> ro_Status operation = RotationStatusActivated ->
  ro_OperationID operation = id /\ activated db id.
Proof.
  unfold queryRotationOperation, scanRotationOperation. intros Hq Hs. inv_ok. cbn in *. split; [done|]. by eexists.
Qed.

Lemma action_bind_Done {A B} (m : command A) (f : A -> command B) w x w' :
  (m ≫= f) w = (inl x, w') <-> exists a w1, m w = (inl a, w1) /\ f a w1 = (inl x, w').
Proof.
  unfold mbind, action_bind. destruct (m w) as [[a|e] w1]; [|by split; [|intros (? & ? & ? & _)]].
  split; [by eauto|]. by intros (a' & w2 & [= <- <-] & ?).
Qed.

Lemma on_broker_Done {A} (m : cmd A) b (o : O) x w' : on_broker m (b, o) = (inl x, w') <-> exists b', m b = (inl x, b') /\ w' = (b', o).
Proof. unfold on_broker. destruct (m b) as [r b1]. split; [intros [= -> <-]; by eexists | by intros (b' & [= -> ->] & ->)]. Qed.

Lemma of_outcome_Done {A} (r : outcome A) (w : Broker * O) x w' : of_outcome r w = (inl x, w') <-> r = inl x /\ w' = w.
Proof. unfold of_outcome. split; [by intros [= -> ->] | by intros [-> ->]]. Qed.

Lemma listed_verified db id records name :
  RotationVerifications db id = Ok records -> hasRotationVerification records name = true -> verified db id name.
Proof.
  unfold RotationVerifications, hasRotationVerification. intros Hr Hh. inv_ok.
  match goal with Hm : mapR _ _ = Ok _ |- _ => apply mapR_Ok in Hm; rename Hm into Hf end.
  apply existsb_exists in Hh as (record & Hin & Hn). to_prop. apply list_elem_of_In, list_elem_of_lookup in Hin as [i Hi].
  destruct (Forall2_lookup_r _ _ _ _ _ Hf Hi) as ([[id' name'] row] & Hl & Hx). apply list_elem_of_lookup_2 in Hl.
  rewrite merge_sort_Permutation in Hl. apply list_elem_of_filter in Hl as [Hid Hl]. apply elem_of_map_to_list in Hl.
  inv_ok. cbn in *. subst. by eexists.
Qed.

(** Take a successful run apart. *)
Ltac inv_action :=
  repeat match goal with
  | H : (_ ≫= _) _ = (inl _, _) |- _ => apply action_bind_Done in H as (? & [? ?] & ? & H)
  | H : of_outcome _ _ = (inl _, _) |- _ => apply of_outcome_Done in H as [? [= -> ->]]
  | H : on_broker _ _ = (inl _, _) |- _ => apply on_broker_Done in H as (? & ? & [= -> ->])
  | H : mret _ _ = (inl _, _) |- _ => injection H as <- <- <-
  | H : coded _ _ = inl _ |- _ => apply coded_inl in H
  | _ => progress inv_cmd
  | _ => progress inv_ok
  end.

Ltac keep := repeat (apply stays_bind; [first [apply keeps_outcome | apply keeps_reading | apply keeps_audit] | intros ?]); apply stays_ret.

Lemma keeps_root_asked options getenv requested env : keeps (root_rotation_asked options getenv requested env).
Proof. unfold root_rotation_asked. keep. Qed.

Lemma keeps_restart_asked options env : keeps (restart_asked options env).
Proof. unfold restart_asked. keep. Qed.

Lemma asked_root options getenv requested env b o operation policyID endpoint b1 o1 :
  root_rotation_asked options getenv requested env (b, o) = (inl (operation, policyID, endpoint), (b1, o1)) ->
  o1 = o /\ ro_OperationID operation = so_operationID options /\ activated (b_db b) (so_operationID options) /\
  record_kept (b_db b) (b_db b1) /\ openBaoEndpoint (so_address options) "/v1/sys/rotate/root" = Ok endpoint.
Proof.
  intros Ha. assert (record_kept (b_db b) (b_db b1)) as Hk.
  { pose proof (keeps_root_asked options getenv requested env b o) as Hk. by rewrite Ha in Hk. }
  unfold root_rotation_asked in Ha. inv_action. to_prop.
  match goal with Hq : queryRotationOperation _ _ = Ok _ |- _ => destruct (query_activated _ _ _ Hq) as [Hid Hact]; [done|] end.
  by split_and!.
Qed.

Lemma asked_restart options env b o operation endpoint b1 o1 :
  restart_asked options env (b, o) = (inl (operation, endpoint), (b1, o1)) ->
  o1 = o /\ b1 = b /\ ro_OperationID operation = so_operationID options /\ activated (b_db b) (so_operationID options) /\
  verified (b_db b) (so_operationID options) RotationVerificationOpenBAORoot /\
  openBaoEndpoint (so_address options) "/v1/sys/seal-status" = Ok endpoint.
Proof.
  intros Ha. unfold restart_asked in Ha. inv_action. to_prop.
  match goal with Hq : queryRotationOperation _ _ = Ok _ |- _ => destruct (query_activated _ _ _ Hq) as [Hid Hact]; [done|] end.
  split_and!; try done; [by destruct b|].
  match goal with Hid : ro_OperationID _ = _ |- _ => rewrite <- Hid end. by eapply (listed_verified (b_db b)).
Qed.

(** One verification recorded, nothing else of the record changed. *)
Definition recorded (a b : DB) (id name : string) : Prop :=
  (exists row, rotation_verifications b = <[(id, name) := row]> (rotation_verifications a)) /\
  forall i, activated a i -> activated b i.

Lemma recorded_kept a b c id name : recorded a b id name -> record_kept b c -> recorded a c id name.
Proof. intros [[row Hr] Ha] [Hv Hb]. split; [exists row; congruence | auto]. Qed.

Lemma kept_recorded a b c id name : record_kept a b -> recorded b c id name -> recorded a c id name.
Proof. intros [Hv Hb] [[row Hr] Ha]. split; [exists row; congruence | auto]. Qed.

Lemma record_recorded wall id name detail now db r db' :
  RecordRotationVerification wall id name detail now db = (r, db') ->
  match r with Ok _ => recorded db db' id name | Err _ => db' = db end.
Proof.
  unfold RecordRotationVerification, transact. case_goal; [|by intros [= <- <-]].
  destruct (queryRotationOperation db id) as [op|]; cbn; intros [= <- <-]; [|done]. split; [by eexists | done].
Qed.

Lemma told_root options env operation policyID endpoint called b o r b' o' :
  root_rotation_told options env operation policyID endpoint called (b, o) = (r, (b', o')) ->
  o' = o /\ (record_kept (b_db b) (b_db b') \/
            is_ok called = true /\ recorded (b_db b) (b_db b') (ro_OperationID operation) RotationVerificationOpenBAORoot).
Proof.
  unfold root_rotation_told, mbind, action_bind.
  match goal with |- context [on_broker ?m (b, o)] => pose proof (keeps_audit env (so_auditPath options) operation policyID
    (if is_ok called then DecisionAllow else DecisionDeny)
    (if is_ok called then "openbao root key rotation completed" else "openbao root key rotation failed")%string b o) as Hk end.
  unfold on_broker at 1 in Hk. unfold on_broker at 1. destruct (auditRotationWithDecision _ _ _ _ _ _ b) as [[auditID|e] b1]; cbn in Hk.
  2:{ intros [= <- <- <-]. by auto. }
  unfold of_outcome, coded. destruct called as [code|e]; [|intros [= <- <- <-]; by auto].
  unfold on_broker, on_store. destruct (RecordRotationVerification _ _ _ _ _ _) as [[v|e] db] eqn:Er; apply record_recorded in Er;
    cbn; intros [= <- <- <-]; (split; [done|]); [right | left].
  - split; [done|]. by eapply kept_recorded.
  - cbn. by subst.
Qed.

Lemma told_restart options env operation endpoint called b o r b' o' :
  restart_told options env operation endpoint called (b, o) = (r, (b', o')) ->
  o' = o /\ (record_kept (b_db b) (b_db b') \/
            (exists status, called = Ok status /\ ss_Initialized status = true /\ ss_Sealed status = false) /\
            recorded (b_db b) (b_db b') (ro_OperationID operation) RotationVerificationRestart).
Proof.
  assert (forall err, (refuse_restart env options operation err : command rotateVerifyRestartOutput) (b, o) = (r, (b', o')) ->
    o' = o /\ record_kept (b_db b) (b_db b')) as Href.
  { intros err. unfold refuse_restart.
    pose proof (keeps_audit env (so_auditPath options) operation "rotation" DecisionDeny "openbao restart verification failed" b o) as Hk.
    unfold on_broker in Hk. destruct (auditRotationWithDecision _ _ _ _ _ _ b) as [x b1]. by intros [= <- <- <-]. }
  unfold restart_told. destruct called as [status|err]; [|intros Hx; apply Href in Hx as [-> ?]; by auto].
  destruct (negb (ss_Initialized status) || ss_Sealed status) eqn:Es; [intros Hx; apply Href in Hx as [-> ?]; by auto|].
  to_prop. unfold mbind, action_bind, on_broker at 1, on_store.
  destruct (RecordRotationVerification _ _ _ _ _ _) as [[v|e] db] eqn:Er; apply record_recorded in Er; cbn.
  2:{ intros [= <- <- <-]. cbn. rewrite Er. split; [done|]. by left. }
  pose proof (keeps_audit env (so_auditPath options) operation "rotation" DecisionAllow "openbao restart verification completed"
    (mkBroker db (b_file b)) o) as Hk.
  destruct (on_broker _ (mkBroker db (b_file b), o)) as [[auditID|e] [b1 o1]] eqn:Ea; cbn in Hk;
    unfold on_broker in Ea; destruct (auditRotationWithDecision _ _ _ _ _ _ _) as [x b2]; injection Ea as -> -> ->;
    intros [= <- <- <-]; (split; [done|]); right; (split; [by exists status|]); by eapply recorded_kept.
Qed.
(** Before the activation of a rotation [rotate openbao-root] refuses, and neither the
    state nor the server sees anything of it. *)
Lemma openbao_root_needs_activation options getenv requested env b o operation :
  TrimSpace (getenv "BAO_TOKEN"%string) <> EmptyString -> ce_open env = Ok tt ->
  queryRotationOperation (b_db b) (so_operationID options) = Ok operation ->
  ro_Status operation <> RotationStatusActivated ->
  exists err, rotateOpenBAORoot options getenv requested env (b, o) = (inr (mkExit ExitCheckFailed err), (b, o)) /\
    errors_Is err ErrRotationInvalidTransition = true.
Proof.
  intros Ht Ho Hq Hs. unfold rotateOpenBAORoot, mbind, action_bind, of_outcome, on_broker, on_store, reading, or_exit, coded, check. cbv zeta.
  replace (empty (TrimSpace (getenv "BAO_TOKEN"%string))) with false by (by destruct (TrimSpace _)).
  simpl. rewrite Ho, Hq. destruct (String.eqb _ _) eqn:E; [to_prop; congruence|].
  eexists. destruct b. split; reflexivity.
Qed.
End History.

(** ** What the server was asked and what it answered *)

(** A request that reached the connection, and what came of it. *)
Record exchange := mkExchange { ex_request : HttpRequest; ex_response : result HttpResponse }.

(** An answer with one of HTTP's codes of success. *)
Definition answered_with_success (e : exchange) (resp : HttpResponse) : Prop :=
  ex_response e = Ok resp /\ 200 <= hs_StatusCode resp <= 299.

(** Of a JSON object the last value of a key that is not null, however it is capitalised. *)
Definition says (name : string) (m : string * json) : bool :=
  String.eqb (fold_name name) (fold_name m.1) && match m.2 with JNull => false | _ => true end.
Definition said (ms : list (string * json)) (name : string) : option json :=
  snd <$> last (filter (fun m => says name m = true) ms).

(** A body whose first JSON value, within its first 4096 bytes, is an object that says
    the server is initialized and does not say that it is sealed. *)
Definition body_reports_unsealed (body : result bytes) : Prop :=
  exists raw ms rest, body = Ok raw /\
    parse_value (json_fuel (string_take 4096 raw)) 0 (string_take 4096 raw) = Some (JObject ms, rest) /\
    said ms "initialized" = Some (JBool true) /\ said ms "sealed" <> Some (JBool true).

Section Recording.
Context {O : Type} `{!KmsEnv O, !OpenBaoServer O, UrlLib}.

(** The same server with a log of the exchanges, which the commands do not see. *)
Definition recorder : Type := O * list exchange.
Definition unlogged {A} (m : call O A) : call recorder A := fun '(o, log) => let '(r, o') := m o in (r, (o', log)).

#[local] Instance recorder_env : KmsEnv recorder := {|
  env_ReadFile path := unlogged (env_ReadFile (W := O) path);
  CertPool := CertPool (W := O); SystemCertPool := SystemCertPool (W := O); EmptyCertPool := EmptyCertPool (W := O);
  AppendCertsFromPEM := AppendCertsFromPEM (W := O); ClientCertificate := ClientCertificate (W := O);
  LoadX509KeyPair cert key := unlogged (LoadX509KeyPair (W := O) cert key);
  grpc_NewClient := grpc_NewClient (W := O); ErrorCode_String := ErrorCode_String (W := O) |}.

#[local] Instance recorder_server : OpenBaoServer recorder := {|
  http_NewRequest := http_NewRequest (O := O);
  client_Do (client : openBaoClient recorder) request := fun '(o, log) =>
    let '(r, o') := client_Do (O := O) (@mkOpenBaoClient O _ (@oc_TLS recorder recorder_env client) (@oc_Timeout recorder recorder_env client)) request o in
    (r, (o', log ++ [mkExchange request r])) |}.

(** The server confirmed a root rotation: it answered a POST to its [/v1/sys/rotate/root]
    with success. *)
Definition root_confirmed (address : string) (log : list exchange) : Prop :=
  exists e url resp, e ∈ log /\ openBaoEndpoint address "/v1/sys/rotate/root" = Ok url /\
    hr_Method (ex_request e) = "POST"%string /\ hr_URL (ex_request e) = url /\ answered_with_success e resp.

(** The server reported to be initialized and unsealed: so says its successful answer to a
    GET of its [/v1/sys/seal-status]. *)
Definition unsealed_reported (address : string) (log : list exchange) : Prop :=
  exists e url resp, e ∈ log /\ openBaoEndpoint address "/v1/sys/seal-status" = Ok url /\
    hr_Method (ex_request e) = "GET"%string /\ hr_URL (ex_request e) = url /\ answered_with_success e resp /\
    body_reports_unsealed (hs_Body resp).

Lemma call_bind_Done {A B} (m : call recorder A) (f : A -> call recorder B) w x w' :
  (m ≫= f) w = (Ok x, w') -> exists a w1, m w = (Ok a, w1) /\ f a w1 = (Ok x, w').
Proof. unfold mbind, call_bind. destruct (m w) as [[a|e] w1]; [by eauto | done]. Qed.

(** An exchange that the client completed is the last of the log. *)
Lemma recorded_Do what client request w resp w' :
  wrap_error what (client_Do (O := recorder) client request) w = (Ok resp, w') ->
  mkExchange request (Ok resp) ∈ w'.2.
Proof.
  destruct w as [o log]. unfold wrap_error. cbn [client_Do recorder_server].
  destruct (client_Do _ request o) as [[r|e] o']; intros [= <- <-]. cbn. set_solver.
Qed.

Lemma success_status_codes code : success_status code = true -> 200 <= code <= 299.
Proof. unfold success_status. intros Hs. to_prop. lia. Qed.

Lemma root_call_confirmed options endpoint token w code w' :
  openBaoEndpoint (so_address options) "/v1/sys/rotate/root" = Ok endpoint ->
  callOpenBaoRotateRoot (O := recorder) options endpoint token w = (Ok code, w') -> root_confirmed (so_address options) w'.2.
Proof.
  intros He Hc. unfold callOpenBaoRotateRoot in Hc. apply call_bind_Done in Hc as (client & w1 & _ & Hc).
  apply call_bind_Done in Hc as (? & w2 & _ & Hc). apply call_bind_Done in Hc as (resp & w3 & Hdo & Hc).
  apply call_bind_Done in Hc as (? & w4 & Hs & Hc). unfold pure in Hs. injection Hs as Hs <-. injection Hc as _ <-.
  apply check_Ok, success_status_codes in Hs. apply recorded_Do in Hdo. do 3 eexists. split; [exact Hdo|]. by split_and!.
Qed.

(** Decoding reads the members as [said] does. *)
Lemma said_snoc ms m name : said (ms ++ [m]) name = if says name m then Some m.2 else said ms name.
Proof.
  unfold said. rewrite filter_app, filter_cons, filter_nil. destruct (says name m).
  - rewrite decide_True by done. by rewrite last_snoc.
  - rewrite decide_False by done. by rewrite app_nil_r.
Qed.

Lemma seal_status_field key :
  find_field seal_status_fields key =
  if String.eqb (fold_name "type") (fold_name key)
  then Some (field decode_string (fun x s => mkSealStatus x (ss_Initialized s) (ss_Sealed s)))
  else if String.eqb (fold_name "initialized") (fold_name key)
  then Some (field decode_bool (fun x s => mkSealStatus (ss_Type s) x (ss_Sealed s)))
  else if String.eqb (fold_name "sealed") (fold_name key)
  then Some (field decode_bool (fun x s => mkSealStatus (ss_Type s) (ss_Initialized s) x)) else None.
Proof.
  unfold find_field, seal_status_fields. cbn [List.find fst snd].
  destruct (String.eqb_spec "type" key) as [<-|_]; [done|].
  destruct (String.eqb_spec "initialized" key) as [<-|_]; [done|].
  destruct (String.eqb_spec "sealed" key) as [<-|_]; [done|].
  by repeat case_goal.
Qed.

Definition saying (ms : list (string * json)) (name : string) (b : bool) : Prop :=
  said ms name = Some (JBool b) \/ b = false /\ said ms name = None.

Lemma seal_status_saying ms st :
  decode_struct seal_status_fields (JObject ms) (mkSealStatus EmptyString false false) = Ok st ->
  saying ms "initialized" (ss_Initialized st) /\ saying ms "sealed" (ss_Sealed st).
Proof.
  cbn [decode_struct]. revert st. induction ms as [|[key v] ms IH] using rev_ind; intros st.
  - intros [= <-]. by split; right.
  - rewrite foldR_app. intros (st1 & H1 & H2)%bind_Ok. apply IH in H1 as [Hi Hs]. unfold saying. rewrite !said_snoc.
    cbn [foldR fst snd] in H2. rewrite seal_status_field in H2. unfold says. cbn [fst snd].
    destruct (String.eqb_spec (fold_name "type") (fold_name key)) as [E|_]; [rewrite <- E; cbn|
      destruct (String.eqb_spec (fold_name "initialized") (fold_name key)) as [E|_]; [rewrite <- E; cbn|
        destruct (String.eqb_spec (fold_name "sealed") (fold_name key)) as [_|_]; cbn]];
      apply bind_Ok in H2 as (st2 & H2 & [= ->]); unfold field, decode_string, decode_bool in H2; destruct v; inv_ok; cbn; auto.
Qed.

Lemma decoded_reports_unsealed body st :
  decode_seal_status body = Ok st -> ss_Initialized st = true -> ss_Sealed st = false -> body_reports_unsealed body.
Proof.
  unfold decode_seal_status, decode_first. intros (raw & -> & Hd)%bind_Ok Hi Hs.
  apply bind_Ok in Hd as (v & Hp & Hd). apply of_option_Ok in Hp. change (Z.to_nat 4096) with 4096%nat in Hp.
  destruct (parse_value _ _ _) as [[v' rest]|] eqn:Ep; [|done]. injection Hp as ->.
  assert (exists ms, v = JObject ms) as [ms ->].
  { destruct v; try done; [|by eexists]. injection Hd as <-. done. }
  apply seal_status_saying in Hd as [H1 H2]. rewrite Hi in H1. rewrite Hs in H2.
  exists raw, ms, rest. split_and!; [done | done | by destruct H1 as [?|[? _]] |]. destruct H2 as [->|[_ ->]]; congruence.
Qed.

Lemma seal_call_reported options endpoint w st w' :
  openBaoEndpoint (so_address options) "/v1/sys/seal-status" = Ok endpoint ->
  callOpenBaoSealStatus (O := recorder) options endpoint w = (Ok st, w') -> ss_Initialized st = true -> ss_Sealed st = false ->
  unsealed_reported (so_address options) w'.2.
Proof.
  intros He Hc Hi Hse. unfold callOpenBaoSealStatus in Hc. apply call_bind_Done in Hc as (client & w1 & _ & Hc).
  apply call_bind_Done in Hc as (? & w2 & _ & Hc). apply call_bind_Done in Hc as (resp & w3 & Hdo & Hc).
  apply call_bind_Done in Hc as (? & w4 & Hs & Hc). unfold pure in Hs, Hc. injection Hs as Hs <-. injection Hc as Hc <-.
  apply check_Ok, success_status_codes in Hs. apply recorded_Do in Hdo. apply map_err_Ok in Hc.
  do 3 eexists. split; [exact Hdo|]. split_and!; try done. by eapply decoded_reports_unsealed.
Qed.

(** What a command leaves on a server with an empty log. *)
Definition root_run (options : rotateServerOptions) (getenv : string -> string) (requested env : CtlEnv) (b : Broker) (o : O)
  : Broker * recorder := (rotateOpenBAORoot options getenv requested env (b, (o, []))).2.
Definition restart_run (options : rotateServerOptions) (env : CtlEnv) (b : Broker) (o : O) : Broker * recorder :=
  (rotateVerifyRestart options env (b, (o, []))).2.

Lemma root_step options getenv requested env b o :
  let '(b', (_, log)) := root_run options getenv requested env b o in
  record_kept (b_db b) (b_db b') \/
  root_confirmed (so_address options) log /\ activated (b_db b) (so_operationID options) /\
  recorded (b_db b) (b_db b') (so_operationID options) RotationVerificationOpenBAORoot.
Proof.
  unfold root_run. rewrite rotateOpenBAORoot_parts. unfold mbind, action_bind, attempt.
  pose proof (keeps_root_asked options getenv requested env b (o, [] : list exchange)) as Hk. destruct (root_rotation_asked options getenv requested env (b, (o, []))) as [[[[op pol] ep]|e] [b1 [o1 log1]]] eqn:Ea;
    [|by left].
  apply asked_root in Ea as ([= -> ->] & Hid & Hact & Hk1 & Hep). cbv beta iota zeta.
  destruct (callOpenBaoRotateRoot _ _ _ (o, [] : list exchange)) as [called [o2 log2]] eqn:Ec. cbv beta iota zeta.
  destruct (root_rotation_told _ _ _ _ _ _ _) as [r [b' o']] eqn:Et. apply told_root in Et as [-> [Hk2|[Hok Hr]]].
  - left. by etransitivity.
  - right. destruct called as [code|]; [|done]. apply root_call_confirmed in Ec; [|done]. rewrite Hid in Hr.
    split_and!; [done | done |]. exact (kept_recorded _ _ _ _ _ Hk1 Hr).
Qed.

Lemma restart_step options env b o :
  let '(b', (_, log)) := restart_run options env b o in
  record_kept (b_db b) (b_db b') \/
  unsealed_reported (so_address options) log /\ activated (b_db b) (so_operationID options) /\
  verified (b_db b) (so_operationID options) RotationVerificationOpenBAORoot /\
  recorded (b_db b) (b_db b') (so_operationID options) RotationVerificationRestart.
Proof.
  unfold restart_run. rewrite rotateVerifyRestart_parts. unfold mbind, action_bind, attempt.
  pose proof (keeps_restart_asked options env b (o, [] : list exchange)) as Hk. destruct (restart_asked options env (b, (o, []))) as [[[op ep]|e] [b1 [o1 log1]]] eqn:Ea; [|by left].
  apply asked_restart in Ea as ([= -> ->] & -> & Hid & Hact & Hroot & Hep). cbv beta iota zeta.
  destruct (callOpenBaoSealStatus _ _ (o, [] : list exchange)) as [called [o2 log2]] eqn:Ec. cbv beta iota zeta.
  destruct (restart_told _ _ _ _ _ _) as [r [b' o']] eqn:Et. apply told_restart in Et as [-> [Hk2|[(st & -> & Hi & Hs) Hr]]].
  - by left.
  - right. apply seal_call_reported in Ec; [|done..]. rewrite Hid in Hr. by split_and!.
Qed.

(** A command that ran, for an operation and a server, with the exchanges it had. *)
Inductive run_of := RootCommand (id address : string) (log : list exchange) | RestartCommand (id address : string) (log : list exchange).

(** A life of a broker's state next to its OpenBao server: store operations of any
    kind but records of verifications, whatever the server does, and the two commands,
    each with the exchanges that the server saw. *)
Inductive history : list run_of -> Broker * O -> Prop :=
| history_start b o : rotation_verifications (b_db b) = ∅ -> history [] (b, o)
| history_store op file g b o :
    records_verification op = false -> history g (b, o) -> history g (mkBroker (store_step op (b_db b)) file, o)
| history_server o' g b o : history g (b, o) -> history g (b, o')
| history_root options getenv requested env g b o b' o' log :
    history g (b, o) -> root_run options getenv requested env b o = (b', (o', log)) ->
    history (g ++ [RootCommand (so_operationID options) (so_address options) log]) (b', o')
| history_restart options env g b o b' o' log :
    history g (b, o) -> restart_run options env b o = (b', (o', log)) ->
    history (g ++ [RestartCommand (so_operationID options) (so_address options) log]) (b', o').

(** A run for the operation whose server confirmed the root rotation, and one whose
    server reported to be unsealed. *)
Definition RootRotated (g : list run_of) (id : string) : Prop :=
  exists address log, RootCommand id address log ∈ g /\ root_confirmed address log.
Definition RestartReported (g : list run_of) (id : string) : Prop :=
  exists address log, RestartCommand id address log ∈ g /\ unsealed_reported address log.

(** What the record says, on its own. *)
Definition record_attested (g : list run_of) (db : DB) : Prop := forall id,
  (verified db id RotationVerificationOpenBAORoot -> activated db id /\ RootRotated g id) /\
  (verified db id RotationVerificationRestart ->
     activated db id /\ exists g1 g2, g = g1 ++ g2 /\ RootRotated g1 id /\ RestartReported g2 id).

Lemma RootRotated_more g g' id : RootRotated g id -> RootRotated (g ++ g') id.
Proof. intros (a & log & Hin & Hc). exists a, log. split; [set_solver | done]. Qed.

Lemma RestartReported_more g g' id : RestartReported g id -> RestartReported (g ++ g') id.
Proof. intros (a & log & Hin & Hc). exists a, log. split; [set_solver | done]. Qed.

Lemma attested_more g g' db : record_attested g db -> record_attested (g ++ g') db.
Proof.
  intros Hg id. destruct (Hg id) as [H1 H2]. split.
  - intros Hv. destruct (H1 Hv). split; [done|]. by apply RootRotated_more.
  - intros Hv. destruct (H2 Hv) as (Ha & g1 & g2 & -> & ? & ?). split; [done|]. exists g1, (g2 ++ g').
    rewrite <- app_assoc. split_and!; [done | done |]. by apply RestartReported_more.
Qed.

Lemma attested_kept g a b : record_kept a b -> record_attested g a -> record_attested g b.
Proof.
  intros [Hv Ha] Hg id. destruct (Hg id) as [H1 H2]. unfold verified in *. rewrite Hv.
  split; intros Hx; [destruct (H1 Hx) | destruct (H2 Hx) as [? ?]]; auto.
Qed.

Lemma verified_recorded a b id name i n : recorded a b id name -> verified b i n -> (i, n) = (id, name) \/ verified a i n.
Proof.
  intros [[row Hr] _]. unfold verified. rewrite Hr. destruct (decide ((id, name) = (i, n))) as [->|Hne]; [by left|].
  rewrite lookup_insert_ne by done. by right.
Qed.

Lemma attested_root g a b id address log :
  record_attested g a -> root_confirmed address log -> activated a id -> recorded a b id RotationVerificationOpenBAORoot ->
  record_attested (g ++ [RootCommand id address log]) b.
Proof.
  intros Hg Hc Hact Hr i. pose proof (attested_more g [RootCommand id address log] a Hg i) as [H1 H2]. pose proof Hr as [_ Ha].
  split; intros Hv; apply (verified_recorded _ _ _ _ _ _ Hr) in Hv as [[= ->]|Hv].
  - split; [auto|]. exists address, log. split; [set_solver | done].
  - destruct (H1 Hv). auto.
  - destruct (H2 Hv) as [? ?]. auto.
Qed.

Lemma attested_restart g a b id address log :
  record_attested g a -> unsealed_reported address log -> activated a id -> verified a id RotationVerificationOpenBAORoot ->
  recorded a b id RotationVerificationRestart -> record_attested (g ++ [RestartCommand id address log]) b.
Proof.
  intros Hg Hc Hact Hroot Hr i. pose proof (attested_more g [RestartCommand id address log] a Hg i) as [H1 H2]. pose proof Hr as [_ Ha].
  split; intros Hv; apply (verified_recorded _ _ _ _ _ _ Hr) in Hv as [[= ->]|Hv].
  - destruct (H1 Hv). auto.
  - split; [auto|]. exists g, [RestartCommand id address log]. split_and!; [done | by apply Hg |].
    exists address, log. split; [set_solver | done].
  - destruct (H2 Hv) as [? ?]. auto.
Qed.

Lemma history_attested g w : history g w -> record_attested g (b_db w.1).
Proof.
  induction 1 as [b o Hv|op file g b o Hop _ IH|o' g b o _ IH|options getenv requested env g b o b' o' log _ IH Hrun
    |options env g b o b' o' log _ IH Hrun]; simpl in *.
  - intros id. unfold verified. rewrite Hv, !lookup_empty. by split; intros [? ?].
  - eapply attested_kept; [by apply record_kept_step | done].
  - done.
  - pose proof (root_step options getenv requested env b o) as Hs. rewrite Hrun in Hs. destruct Hs as [Hk|(Hc & Hact & Hr)].
    + eapply attested_more, attested_kept; done.
    + by eapply attested_root.
  - pose proof (restart_step options env b o) as Hs. rewrite Hrun in Hs. destruct Hs as [Hk|(Hc & Hact & Hroot & Hr)].
    + eapply attested_more, attested_kept; done.
    + by eapply attested_restart.
Qed.

(** C18: The record of a finished rotation can be believed: in every state a broker can
    get to, [openbao-root] is recorded only for an activated rotation for which [rotate
    openbao-root] sent the OpenBao server a POST to [/v1/sys/rotate/root] that it
    answered with an HTTP status from 200 to 299; and [restart] only for one of these,
    where after that a GET of [/v1/sys/seal-status] was answered with such a status and a
    body that says initialized and does not say sealed. *)
Theorem verifications_attested g b o id :
  history g (b, o) ->
  (verified (b_db b) id RotationVerificationOpenBAORoot -> activated (b_db b) id /\ RootRotated g id) /\
  (verified (b_db b) id RotationVerificationRestart ->
     activated (b_db b) id /\ exists g1 g2, g = g1 ++ g2 /\ RootRotated g1 id /\ RestartReported g2 id).
Proof. intros Hg. exact (history_attested _ _ Hg id). Qed.
End Recording.

(** ** A rotation carried to its end *)

(** A server that rotates when it is asked and is unsealed. *)
#[local] Instance example_kms_env : KmsEnv unit := {|
  env_ReadFile path w := (Ok "pem"%string, w);
  CertPool := unit; SystemCertPool := Some tt; EmptyCertPool := tt; AppendCertsFromPEM p pem := Some p;
  ClientCertificate := unit; LoadX509KeyPair _ _ := fun w => (Ok tt, w);
  grpc_NewClient _ := Ok tt; ErrorCode_String _ := "ERROR_CODE"%string;
|}.
#[local] Instance example_url : UrlLib := {|
  URL := string; url_Parse s := Ok s; url_Scheme _ := "https"%string; url_Host _ := "openbao"%string;
  url_Path _ := "/"%string; url_SetPath path _ := ("https://openbao" +:+ path)%string; url_String s := s;
|}.
Definition example_report : string :=
  json_Print (JObject [("type", JString "attested"); ("initialized", JBool true); ("sealed", JBool false)])%string.
#[local] Instance example_server : OpenBaoServer unit := {|
  http_NewRequest _ _ := Ok tt;
  client_Do _ request w := (Ok (mkHttpResponse 200 (Ok (if String.eqb (hr_Method request) "GET" then example_report else EmptyString))), w);
|}.
Definition example_options : rotateServerOptions :=
  mkServerOptions EmptyString "op-1" "https://openbao" EmptyString EmptyString (30 * Second).
Definition example_getenv (name : string) : string := if String.eqb name "BAO_TOKEN" then "token" else EmptyString.
Definition example_activated : Broker * unit := (mkBroker (store_step (OActivateRotation 0 "op-1" example_time) example_rotated) [], tt).
Definition example_asking : CtlEnv := example_env_with 98 (example_time + Second).
Definition example_root_rotated : Broker * recorder :=
  root_run example_options example_getenv example_asking example_apply_env example_activated.1 tt.
Definition example_verified : Broker * recorder := restart_run example_options example_issue_env example_root_rotated.1 tt.
Definition example_runs : list run_of :=
  ([] ++ [RootCommand "op-1" "https://openbao" example_root_rotated.2.2]) ++
  [RestartCommand "op-1" "https://openbao" example_verified.2.2].

Lemma example_history : history example_runs (example_verified.1, tt).
Proof.
  apply (history_restart example_options example_issue_env _ example_root_rotated.1 tt _ _ example_verified.2.2);
    [|unfold example_verified; by destruct (restart_run _ _ _ _) as [b' [[] log]]].
  apply (history_root example_options example_getenv example_asking example_apply_env _ example_activated.1 tt _ _ example_root_rotated.2.2);
    [|unfold example_root_rotated; by destruct (root_run _ _ _ _ _ _) as [b' [[] log]]].
  unfold example_activated. apply (history_store (OActivateRotation 0 "op-1" example_time) [] _ (mkBroker example_rotated []) tt); [reflexivity|].
  apply history_start. apply (bool_decide_unpack _). vm_compute. exact I.
Qed.

Lemma example_is_verified : verified (b_db example_verified.1) "op-1" RotationVerificationRestart.
Proof. apply (bool_decide_unpack _). vm_compute. exact I. Qed.

Lemma verifications_attested_witness :
  exists g1 g2, example_runs = g1 ++ g2 /\ RootRotated g1 "op-1" /\ RestartReported g2 "op-1".
Proof.
  destruct (verifications_attested example_runs example_verified.1 tt "op-1" example_history) as [_ H].
  destruct (H example_is_verified) as [_ Hg]. exact Hg.
Defined.
