(* ===== verification/CtlK8s.v ===== *)
(** * bao-unsealctl k8s (internal/baounsealctl: kubernetes.go, kubernetes_admin_client.go,
    kubernetes_nodes.go, kubernetes_evidence.go, kubernetes_publish.go, kubernetes_check.go)

    What operators do to a broker from afar: enroll, revoke and list the trust of nodes,
    look at node evidence, publish evidence of a lab node, and check that a node and a
    workload on it are accepted.  A command goes from the parsed flags to the value it
    prints; the broker is behind the classes of its generated clients. *)

From S2P Require Import Prelude GoStrings GoTime Keyring KeyProtection Tpm NodeEvidence Config.
From S2P Require Import Sql Store Policy Kubernetes EvidenceText Admin Enrollment Service Ctl KmsConfig KmsPlugin BrokerAdmin NodeAgent Agent.
From Stdlib Require Import Ascii.
Local Open Scope Z_scope.

(** ** kubernetes.go *)

Definition kubernetesProviderFakeLocal : string := "fake-local".
Definition k8sDiagnosticNodeEvidence : string := "node-evidence".
Definition k8sDiagnosticNodeWorkloadEvidence : string := "node-and-workload-evidence".
Definition k8sEvidenceStatusDenied : string := "denied".
Definition k8sEvidenceStatusFresh : string := "fresh".
Definition k8sEvidenceStatusInvalid : string := "invalid".
Definition k8sEvidenceStatusMissing : string := "missing".
Definition k8sEvidenceStatusStale : string := "stale".
Definition k8sEvidenceStatusUnavailable : string := "unavailable".
Definition k8sEvidenceStatusUnknown : string := "unknown".
Definition k8sEvidenceStatusVerified : string := "verified".

Record k8sAdminClientOptions := mkK8sAdminClientOptions {
  ka_address : string; ka_plaintext : bool; ka_caCertPath : string; ka_tlsServerName : string;
  ka_clientCertPath : string; ka_clientKeyPath : string; ka_timeout : Duration; ka_format : string;
}.

Record k8sEvidenceOptions := mkK8sEvidenceOptions {
  ke_address : string; ke_plaintext : bool; ke_caCertPath : string; ke_tlsServerName : string;
  ke_clientCertPath : string; ke_clientKeyPath : string; ke_clusterID : string; ke_nodeName : string;
  ke_timeout : Duration; ke_format : string;
}.

Record k8sNodeEvidenceOutput := mkK8sNodeEvidenceOutput {
  kn_ClusterID : string; kn_NodeName : string; kn_NodeUID : string; kn_ProviderID : string; kn_EvidenceHash : string;
  kn_CollectedAt : string; kn_ExpiresAt : string; kn_Status : string;
}.

(** ** kubernetes_admin_client.go *)

Definition k8sEvidenceAdminClientOptions (o : k8sEvidenceOptions) : k8sAdminClientOptions :=
  mkK8sAdminClientOptions (ke_address o) (ke_plaintext o) (ke_caCertPath o) (ke_tlsServerName o)
    (ke_clientCertPath o) (ke_clientKeyPath o) (ke_timeout o) (ke_format o).

(** The generated getters read a nil message as the zero value. *)
Definition k8sNodeEvidenceOutputFromProto (evidence : option NodeEvidenceRecord) : k8sNodeEvidenceOutput :=
  let e := default (mkNodeEvidenceRecord EmptyString EmptyString EmptyString EmptyString EmptyString 0 0 0) evidence in
  mkK8sNodeEvidenceOutput (nr_ClusterId e) (nr_NodeName e) (nr_NodeUid e) (nr_ProviderId e) (nr_EvidenceHash e)
    (UnixSecondsOutput (nr_CollectedUnixSeconds e)) (UnixSecondsOutput (nr_ExpiresUnixSeconds e))
    (NodeEvidenceStatusOutput (nr_Status e)).

Section Connect.
Context {W : Type} `{!KmsEnv W}.

Definition brokerAdminDialOptions (o : k8sAdminClientOptions) : call W TransportCredentials :=
  DialOptions (mkClientOptions (ka_plaintext o) (ka_caCertPath o) (ka_tlsServerName o) (ka_clientCertPath o) (ka_clientKeyPath o)).

(** How every command gets its connection. *)
Definition connect (o : k8sAdminClientOptions) : action W TransportCredentials :=
  acting ExitConfig (brokerAdminDialOptions o) ≫= fun credentials =>
  acting ExitConfig (wrap_error (errorp "create broker client") (pure (grpc_NewClient (ka_address o)))) ≫= fun _ =>
  mret credentials.
End Connect.

(** ** kubernetes_nodes.go: options *)

Definition envOrDefault (getenv : string -> string) (name fallback : string) : string :=
  let value := TrimSpace (getenv name) in
  if empty value then fallback else value.

Record k8sNodeControlOptions := mkK8sNodeControlOptions {
  kc_address : string; kc_caCertPath : string; kc_tlsServerName : string; kc_clientCertPath : string; kc_clientKeyPath : string;
  kc_clusterID : string; kc_nodeName : string; kc_timeout : Duration; kc_format : string;
}.

Record k8sNodeControlFlagValues := mkK8sNodeControlFlagValues {
  kv_address : string; kv_caCertPath : string; kv_tlsServerName : string; kv_clientCertPath : string; kv_clientKeyPath : string;
  kv_clusterID : string; kv_nodeName : string; kv_timeout : Duration; kv_format : string; kv_requireNode : bool;
}.

(** The values of the flags that are not given. *)
Definition addK8sNodeControlFlags (getenv : string -> string) (requireNode : bool) : k8sNodeControlFlagValues :=
  mkK8sNodeControlFlagValues (envOrDefault getenv "BAO_UNSEALD_ADDR" "127.0.0.1:8443") EmptyString EmptyString EmptyString EmptyString
    "prod-eu1" EmptyString DefaultRequestTimeout formatText requireNode.

Definition usage (b : bool) (e : error) : outcome unit := coded ExitUsage (check b e).

Definition node_control_options (v : k8sNodeControlFlagValues) : outcome k8sNodeControlOptions :=
  validateFormat (kv_format v) ≫= fun _ =>
  usage (negb (empty (TrimSpace (kv_address v)) || empty (TrimSpace (kv_clusterID v)))) (errorf "-addr and -cluster-id are required") ≫= fun _ =>
  usage (negb (kv_requireNode v && empty (TrimSpace (kv_nodeName v)))) (errorf "-node-name is required") ≫= fun _ =>
  usage (negb (empty (TrimSpace (kv_clientCertPath v)) || empty (TrimSpace (kv_clientKeyPath v))))
    (errorf "-client-cert and -client-key are required") ≫= fun _ =>
  usage (negb (kv_timeout v <=? 0)) (errorf "-timeout must be greater than zero") ≫= fun _ =>
  mret (mkK8sNodeControlOptions (TrimSpace (kv_address v)) (TrimSpace (kv_caCertPath v)) (TrimSpace (kv_tlsServerName v))
    (TrimSpace (kv_clientCertPath v)) (TrimSpace (kv_clientKeyPath v)) (TrimSpace (kv_clusterID v)) (TrimSpace (kv_nodeName v))
    (kv_timeout v) (kv_format v)).

Fixpoint certificate_hashes (parts : list string) : outcome (list string) :=
  match parts with
  | [] => mret []
  | part :: rest =>
      let part := TrimSpace part in
      if empty part then certificate_hashes rest
      else
        coded ExitUsage (map_err (errorp "invalid publisher certificate hash") (CanonicalSHA256Digest part)) ≫= fun canonical =>
        certificate_hashes rest ≫= fun hashes =>
        mret (canonical :: hashes)
  end.

Definition parseCertificateHashes (value : string) : outcome (list string) :=
  certificate_hashes (Split value ","%char) ≫= fun hashes =>
  usage (negb (bool_decide (hashes = []))) (errorf "-publisher-cert-sha256 is required") ≫= fun _ =>
  mret hashes.

(** ** kubernetes_nodes.go: the commands *)

Record k8sNodeEnrollmentOutput := mkK8sNodeEnrollmentOutput {
  no_RequestID : string; no_ClusterID : string; no_NodeName : string; no_NodeUID : string; no_ProviderID : string;
  no_PolicyMode : string; no_EnrolledAKPublicHash : string; no_PublisherCertificateSHA256 : list string; no_Revision : Z;
  no_EnrolledAt : string; no_UpdatedAt : string; no_RevokedAt : string; no_Status : string;
}.

(** [Format(time.RFC3339)] of an instant in UTC prints no fraction. *)
Definition FormatRFC3339 (t : Time) : string := FormatRFC3339Nano (whole_seconds t).

Definition formatOptionalTime (t : Time) : string := if IsZero t then EmptyString else FormatRFC3339 t.

Definition k8sNodeEnrollmentOutputFromDomain (e : Enrollment) (requestID : string) : k8sNodeEnrollmentOutput :=
  mkK8sNodeEnrollmentOutput requestID (en_ClusterID e) (en_NodeName e) (en_NodeUID e) (en_Provider e) (tp_Mode (en_TPMPolicy e))
    (tp_EnrolledAKPublicHash (en_TPMPolicy e)) (en_PublisherCertificateHashes e) (en_Revision e) (FormatRFC3339 (en_EnrolledAt e))
    (FormatRFC3339 (en_UpdatedAt e)) (formatOptionalTime (en_RevokedAt e)) (if Enrollment_Active e then "active" else "revoked").

Definition k8sNodeControlExitError (err : error) : ExitErrorWithCode :=
  mkExit (if errors_Is err DecisionDeniedError then ExitCheckFailed else ExitRuntime) err.

Section Nodes.
Context {W : Type} `{!KmsEnv W, !EnrollmentClient W}.

Definition newK8sNodeEnrollmentClient (o : k8sNodeControlOptions) : action W TransportCredentials :=
  connect (mkK8sAdminClientOptions (kc_address o) false (kc_caCertPath o) (kc_tlsServerName o) (kc_clientCertPath o)
             (kc_clientKeyPath o) (kc_timeout o) (kc_format o)).

(** The error of a call of the client. *)
Definition controlling {A} (m : call W A) : action W A := fun w =>
  let '(r, w) := m w in (match r with Ok a => inl a | Err e => inr (k8sNodeControlExitError e) end, w).

(** [policyFile] is what [readJSONFile] gives for [-tpm-policy], [ctx] whether the
    context has ended when the call is made. *)
Definition k8sNodesEnrollCommand (values : k8sNodeControlFlagValues) (nodeUID policyPath publisherHashes reason : string)
  (policyFile : result TPMPolicy) (env : CtlEnv) (ctx : result unit) : action W k8sNodeEnrollmentOutput :=
  of_outcome (node_control_options values) ≫= fun options =>
  of_outcome (usage (negb (empty (TrimSpace nodeUID) || empty (TrimSpace policyPath) || empty (TrimSpace reason)))
    (errorf "-node-uid, -tpm-policy, and -reason are required")) ≫= fun _ =>
  of_outcome (parseCertificateHashes publisherHashes) ≫= fun hashes =>
  of_outcome (coded ExitConfig policyFile) ≫= fun policy =>
  of_outcome (coded ExitRuntime (ctl_randomID env "request")) ≫= fun requestID =>
  let now := ce_clock env AtCommand in
  of_outcome (coded ExitConfig (NormalizeEnrollmentRequest
    (mkEnrollmentRequest (kc_clusterID options) (kc_nodeName options) (TrimSpace nodeUID) ProviderTPM2Quote policy hashes now)))
  ≫= fun enrollmentRequest =>
  newK8sNodeEnrollmentClient options ≫= fun _ =>
  controlling (BrokerAdmin.Enroll ctx now enrollmentRequest (TrimSpace reason) (Some (mkAuditContext EmptyString requestID))) ≫= fun enrollment =>
  mret (k8sNodeEnrollmentOutputFromDomain enrollment requestID).

Definition k8sNodesRevokeCommand (values : k8sNodeControlFlagValues) (reason : string) (env : CtlEnv) (ctx : result unit)
  : action W k8sNodeEnrollmentOutput :=
  of_outcome (node_control_options values) ≫= fun options =>
  of_outcome (usage (negb (empty (TrimSpace reason))) (errorf "-reason is required")) ≫= fun _ =>
  of_outcome (coded ExitRuntime (ctl_randomID env "request")) ≫= fun requestID =>
  newK8sNodeEnrollmentClient options ≫= fun _ =>
  controlling (BrokerAdmin.Revoke ctx (kc_clusterID options) (kc_nodeName options) (TrimSpace reason)
                 (Some (mkAuditContext EmptyString requestID))) ≫= fun enrollment =>
  mret (k8sNodeEnrollmentOutputFromDomain enrollment requestID).

Definition k8sNodesListCommand (values : k8sNodeControlFlagValues) (includeRevoked : bool) (env : CtlEnv) (ctx : result unit)
  : action W (list k8sNodeEnrollmentOutput) :=
  of_outcome (node_control_options values) ≫= fun options =>
  of_outcome (coded ExitRuntime (ctl_randomID env "request")) ≫= fun requestID =>
  newK8sNodeEnrollmentClient options ≫= fun _ =>
  controlling (ListEnrollments ctx (kc_clusterID options) (kc_nodeName options) includeRevoked
                 (Some (mkAuditContext EmptyString requestID))) ≫= fun enrollments =>
  mret ((fun enrollment => k8sNodeEnrollmentOutputFromDomain enrollment requestID) <$> enrollments).
End Nodes.

(** ** kubernetes_evidence.go *)

(** The messages of the calls that only read. *)
Class EvidenceReader (W : Type) := {
  client_Status : call W AdminStatusResponse;
  client_ListNodeEvidence : string * string -> call W NodeEvidenceListResponse;
  client_CheckEvidence : EvidenceCheckRequest -> call W EvidenceCheckResponse;
}.

(** The values of the flags that these commands share. *)
Record k8sFlagValues := mkK8sFlagValues {
  fv_address : string; fv_plaintext : bool; fv_caCertPath : string; fv_tlsServerName : string; fv_clientCertPath : string;
  fv_clientKeyPath : string; fv_clusterID : string; fv_nodeName : string; fv_timeout : Duration; fv_format : string;
}.

Definition evidence_options (v : k8sFlagValues) : k8sEvidenceOptions :=
  mkK8sEvidenceOptions (TrimSpace (fv_address v)) (fv_plaintext v) (TrimSpace (fv_caCertPath v)) (TrimSpace (fv_tlsServerName v))
    (TrimSpace (fv_clientCertPath v)) (TrimSpace (fv_clientKeyPath v)) (TrimSpace (fv_clusterID v)) (TrimSpace (fv_nodeName v))
    (fv_timeout v) (fv_format v).

(** A certificate comes with its key, or neither is given. *)
Definition certificate_pair (v : k8sFlagValues) : outcome unit :=
  usage (Bool.eqb (empty (TrimSpace (fv_clientCertPath v))) (empty (TrimSpace (fv_clientKeyPath v))))
    (errorf "-client-cert and -client-key must be provided together").

Definition parseK8sEvidenceOptions (requireNodeName : bool) (v : k8sFlagValues) : outcome k8sEvidenceOptions :=
  validateFormat (fv_format v) ≫= fun _ =>
  usage (negb (empty (TrimSpace (fv_address v)) || empty (TrimSpace (fv_clusterID v)))) (errorf "-addr and -cluster-id are required") ≫= fun _ =>
  usage (negb (requireNodeName && empty (TrimSpace (fv_nodeName v)))) (errorf "-node-name is required") ≫= fun _ =>
  usage (negb (fv_timeout v <=? 0)) (errorf "-timeout must be greater than zero") ≫= fun _ =>
  certificate_pair v ≫= fun _ =>
  mret (evidence_options v).

Record k8sEvidenceListOutput := mkK8sEvidenceListOutput {
  kl_ClusterID : string; kl_NodeName : string; kl_Count : Z; kl_Evidence : list k8sNodeEvidenceOutput; kl_Decision : string;
}.
Record k8sEvidenceInspectOutput := mkK8sEvidenceInspectOutput { ki_Evidence : k8sNodeEvidenceOutput; ki_Decision : string }.

Section Evidence.
Context {W : Type} `{!KmsEnv W, !EvidenceReader W}.

Definition list_node_evidence (o : k8sEvidenceOptions) (ctx : result unit) : action W NodeEvidenceListResponse :=
  acting ExitRuntime (wrap_error (errorp "list node evidence") (pure ctx ≫= fun _ =>
    client_ListNodeEvidence (ke_clusterID o, ke_nodeName o))).

Definition fetchK8sNodeEvidence (o : k8sEvidenceOptions) (ctx : result unit) : action W (list k8sNodeEvidenceOutput * string) :=
  connect (k8sEvidenceAdminClientOptions o) ≫= fun _ =>
  list_node_evidence o ctx ≫= fun response =>
  of_outcome (coded ExitCheckFailed (RequireAllowDecision (nl_Decision response) "list node evidence")) ≫= fun _ =>
  mret ((fun evidence => k8sNodeEvidenceOutputFromProto (Some evidence)) <$> nl_Evidence response,
        PolicyDecisionOutput (pd_State (nl_Decision response))).

Definition listK8sNodeEvidence (o : k8sEvidenceOptions) (ctx : result unit) : action W k8sEvidenceListOutput :=
  fetchK8sNodeEvidence o ctx ≫= fun '(records, decision) =>
  mret (mkK8sEvidenceListOutput (ke_clusterID o) (ke_nodeName o) (Z.of_nat (length records)) records decision).

Definition one_record (node : string) (n : nat) : error :=
  errorf ("expected one node evidence record for " +:+ quoted node +:+ ", got " +:+ FormatInt (Z.of_nat n)).

Definition inspectK8sNodeEvidence (o : k8sEvidenceOptions) (ctx : result unit) : action W k8sEvidenceInspectOutput :=
  fetchK8sNodeEvidence o ctx ≫= fun '(records, decision) =>
  match records with
  | [record] => mret (mkK8sEvidenceInspectOutput record decision)
  | _ => of_outcome (coded ExitCheckFailed (Err (one_record (ke_nodeName o) (length records))))
  end.

Definition k8sEvidenceListCommand (v : k8sFlagValues) (ctx : result unit) : action W k8sEvidenceListOutput :=
  of_outcome (parseK8sEvidenceOptions false v) ≫= fun options => listK8sNodeEvidence options ctx.
Definition k8sEvidenceInspectCommand (v : k8sFlagValues) (ctx : result unit) : action W k8sEvidenceInspectOutput :=
  of_outcome (parseK8sEvidenceOptions true v) ≫= fun options => inspectK8sNodeEvidence options ctx.
End Evidence.

(** ** kubernetes_publish.go *)

Record k8sPublishNodeOptions := mkK8sPublishNodeOptions {
  kp_evidence : k8sEvidenceOptions; kp_nodeUID : string; kp_providerID : string; kp_ttl : Duration;
}.

Definition parseK8sPublishNodeOptions (v : k8sFlagValues) (nodeUID providerID : string) (ttl : Duration) : outcome k8sPublishNodeOptions :=
  validateFormat (fv_format v) ≫= fun _ =>
  usage (negb (empty (TrimSpace (fv_address v)) || empty (TrimSpace (fv_clusterID v)) || empty (TrimSpace (fv_nodeName v))))
    (errorf "-addr, -cluster-id, and -node-name are required") ≫= fun _ =>
  usage (negb (empty (TrimSpace providerID))) (errorf "-provider-id is required") ≫= fun _ =>
  usage (String.eqb (TrimSpace providerID) kubernetesProviderFakeLocal)
    (errorf "k8s publish-node supports only the fake-local lab provider") ≫= fun _ =>
  usage (negb (ttl <=? 0)) (errorf "-ttl must be greater than zero") ≫= fun _ =>
  usage (negb (fv_timeout v <=? 0)) (errorf "-timeout must be greater than zero") ≫= fun _ =>
  certificate_pair v ≫= fun _ =>
  mret (mkK8sPublishNodeOptions (evidence_options v) (TrimSpace nodeUID) (TrimSpace providerID) ttl).

Record k8sPublishNodeOutput := mkK8sPublishNodeOutput { ku_Evidence : k8sNodeEvidenceOutput; ku_Decision : string }.

Definition k8sPublishNodeOutputFromProto (evidence : option NodeEvidenceRecord) (decision : option ProtoDecision) : k8sPublishNodeOutput :=
  mkK8sPublishNodeOutput (k8sNodeEvidenceOutputFromProto evidence)
    (PolicyDecisionOutput (match decision with Some d => pd_State d | None => 0 end)).

Definition k8sPublishNodeExitError (err : error) : ExitErrorWithCode :=
  if errors_Is err DecisionDeniedError then mkExit ExitCheckFailed err
  else if errors_Is err ErrPublishNodeEvidence then mkExit ExitRuntime err
  else mkExit ExitError err.

Section Publishing.
Context {W : Type} `{!KmsEnv W, !AdminClient W, Hashes}.

Definition publish_with_client (m : Moment) (o : k8sPublishNodeOptions) : action W k8sPublishNodeOutput := fun w =>
  let '(r, (writer, w)) :=
    Publish (Some NodeEvidenceClient_interface) (Some FakeLocalProvider) m
      (mkPublishRequest (ke_clusterID (kp_evidence o)) (ke_nodeName (kp_evidence o)) (kp_nodeUID o) (kp_ttl o))
      (mkNodeEvidenceClient None None, w) in
  (match r with
   | Ok _ => inl (k8sPublishNodeOutputFromProto (nec_Evidence writer) (nec_Decision writer))
   | Err err => inr (k8sPublishNodeExitError err)
   end, w).

Definition publishK8sNodeEvidence (m : Moment) (o : k8sPublishNodeOptions) : action W k8sPublishNodeOutput :=
  connect (k8sEvidenceAdminClientOptions (kp_evidence o)) ≫= fun _ => publish_with_client m o.

Definition k8sPublishNodeCommand (m : Moment) (v : k8sFlagValues) (nodeUID providerID : string) (ttl : Duration)
  : action W k8sPublishNodeOutput :=
  of_outcome (parseK8sPublishNodeOptions v nodeUID providerID ttl) ≫= fun options => publishK8sNodeEvidence m options.
End Publishing.

(** ** kubernetes_check.go *)

Record k8sCheckOptions := mkK8sCheckOptions { ko_evidence : k8sEvidenceOptions; ko_tokenFile : string }.

Record k8sWorkloadOutput := mkK8sWorkloadOutput {
  kw_Namespace : string; kw_ServiceAccount : string; kw_PodName : string; kw_PodUID : string; kw_NodeName : string; kw_NodeUID : string;
}.

Record k8sCheckOutput := mkK8sCheckOutput {
  kk_ClusterID : string; kk_NodeName : string; kk_Status : string; kk_EvidenceStatus : string; kk_WorkloadStatus : string;
  kk_BrokerAdminAPI : bool; kk_DiagnosticScope : string; kk_Evidence : option k8sNodeEvidenceOutput; kk_Subject : string;
  kk_Workload : option k8sWorkloadOutput; kk_Decision : string; kk_Message : string;
}.

Definition parseK8sCheckOptions (v : k8sFlagValues) (tokenFile : string) : outcome k8sCheckOptions :=
  validateFormat (fv_format v) ≫= fun _ =>
  usage (negb (empty (TrimSpace (fv_address v)) || empty (TrimSpace (fv_clusterID v)) || empty (TrimSpace (fv_nodeName v))))
    (errorf "-addr, -cluster-id, and -node-name are required") ≫= fun _ =>
  usage (negb (fv_timeout v <=? 0)) (errorf "-timeout must be greater than zero") ≫= fun _ =>
  certificate_pair v ≫= fun _ =>
  mret (mkK8sCheckOptions (evidence_options v) (TrimSpace tokenFile)).

(** The loops over the errors of a decision end at the first known code. *)
Fixpoint k8sCheckStatus (errors : list BrokerError) : string :=
  match errors with
  | [] => k8sEvidenceStatusDenied
  | e :: r =>
      if be_Code e =? ERROR_CODE_ATTESTATION_FAILED then k8sEvidenceStatusMissing
      else if be_Code e =? ERROR_CODE_INVALID_REQUEST then k8sEvidenceStatusInvalid
      else if be_Code e =? ERROR_CODE_INTERNAL then k8sEvidenceStatusUnavailable
      else k8sCheckStatus r
  end.
Definition k8sCheckStatusFromDecision (decision : ProtoDecision) : string := k8sCheckStatus (pd_Errors decision).

Fixpoint k8sWorkloadStatus (errors : list BrokerError) : string :=
  match errors with
  | [] => k8sEvidenceStatusDenied
  | e :: r =>
      if (be_Code e =? ERROR_CODE_UNAUTHENTICATED) || (be_Code e =? ERROR_CODE_ATTESTATION_FAILED) ||
         (be_Code e =? ERROR_CODE_INVALID_REQUEST) then k8sEvidenceStatusInvalid
      else if (be_Code e =? ERROR_CODE_BROKER_UNAVAILABLE) || (be_Code e =? ERROR_CODE_INTERNAL) then k8sEvidenceStatusUnavailable
      else if be_Code e =? ERROR_CODE_PERMISSION_DENIED then k8sEvidenceStatusDenied
      else k8sWorkloadStatus r
  end.
Definition k8sWorkloadStatusFromDecision (decision : ProtoDecision) : string := k8sWorkloadStatus (pd_Errors decision).

Definition k8sWorkloadOutputFromProto (workload : option WorkloadIdentity) : option k8sWorkloadOutput :=
  (fun w => mkK8sWorkloadOutput (wi_Namespace w) (wi_ServiceAccount w) (wi_PodName w) (wi_PodUID w) (wi_NodeName w) (wi_NodeUID w)) <$> workload.

Definition availabilityOutput (available : bool) : string := if available then "available" else "unavailable".

Section Check.
Context {W : Type} `{!KmsEnv W, !EvidenceReader W}.

Definition readK8sWorkloadTokenFile (path : string) : call W string :=
  pure (check (negb (empty (TrimSpace path))) (errorf "-token-file is required for workload evidence diagnostics")) ≫= fun _ =>
  wrap_error (errorp "read Kubernetes workload token file") (env_ReadFile path) ≫= fun raw =>
  pure (check (negb (empty (TrimSpace raw))) (errorf "kubernetes workload token file is empty")) ≫= fun _ =>
  mret (TrimSpace raw).

(** A check prints what it found and ends with an exit code of its own. *)
Definition checked : Type := (k8sCheckOutput * option ExitErrorWithCode)%type.
Definition passed (out : k8sCheckOutput) : checked := (out, None).
Definition failed (out : k8sCheckOutput) : checked := (out, Some (mkExit ExitCheckFailed (errorf (kk_Message out)))).

(** The output of the node's own check, [out], with what the broker says of the workload. *)
Definition workload_output (out : k8sCheckOutput) (response : EvidenceCheckResponse) : k8sCheckOutput :=
  let evidence := (fun e => k8sNodeEvidenceOutputFromProto (Some e)) <$> ecp_NodeEvidence response in
  let allowed := pd_State (ecp_Decision response) =? POLICY_DECISION_STATE_ALLOW in
  let status := if allowed then k8sEvidenceStatusVerified else k8sWorkloadStatusFromDecision (ecp_Decision response) in
  mkK8sCheckOutput (kk_ClusterID out) (kk_NodeName out) status
    (match evidence with Some e => kn_Status e | None => kk_EvidenceStatus out end) status (kk_BrokerAdminAPI out)
    k8sDiagnosticNodeWorkloadEvidence (match evidence with Some e => Some e | None => kk_Evidence out end)
    (ecp_Subject response) (k8sWorkloadOutputFromProto (ecp_Workload response))
    (PolicyDecisionOutput (pd_State (ecp_Decision response)))
    (if allowed then kk_Message out else DecisionMessage (ecp_Decision response) "broker denied workload evidence check").

Definition token_invalid (out : k8sCheckOutput) (err : error) : checked :=
  (mkK8sCheckOutput (kk_ClusterID out) (kk_NodeName out) k8sEvidenceStatusInvalid (kk_EvidenceStatus out) k8sEvidenceStatusInvalid
     (kk_BrokerAdminAPI out) k8sDiagnosticNodeWorkloadEvidence (kk_Evidence out) (kk_Subject out) (kk_Workload out)
     (kk_Decision out) (err_msg err), Some (mkExit ExitCheckFailed err)).

Definition check_interrupted (out : k8sCheckOutput) (err : error) : checked :=
  (mkK8sCheckOutput (kk_ClusterID out) (kk_NodeName out) (kk_Status out) (kk_EvidenceStatus out)
     k8sEvidenceStatusUnavailable (kk_BrokerAdminAPI out) k8sDiagnosticNodeWorkloadEvidence (kk_Evidence out)
     (kk_Subject out) (kk_Workload out) (kk_Decision out) (kk_Message out), Some (mkExit ExitRuntime err)).

Definition evidence_check_request (o : k8sCheckOptions) (token : string) : EvidenceCheckRequest :=
  mkEvidenceCheckRequest (ke_clusterID (ko_evidence o)) OPERATION_WRAP (Some (NewEvidenceEnvelope EmptyString token)).

(** [ctx] is the context at the call. *)
Definition checkK8sWorkloadEvidence (o : k8sCheckOptions) (ctx : result unit) (out : k8sCheckOutput) : W -> checked * W := fun w =>
  match readK8sWorkloadTokenFile (ko_tokenFile o) w with
  | (Err err, w) => (token_invalid out err, w)
  | (Ok token, w) =>
      match wrap_error (errorp "check workload evidence") (pure ctx ≫= fun _ => client_CheckEvidence (evidence_check_request o token)) w with
      | (Err err, w) => (check_interrupted out err, w)
      | (Ok response, w) =>
          (if pd_State (ecp_Decision response) =? POLICY_DECISION_STATE_ALLOW then passed (workload_output out response)
           else failed (workload_output out response), w)
      end
  end.

(** A check that has come this far prints its output. *)
Definition concluding (m : W -> checked * W) : action W checked := fun w => let '(c, w) := m w in (inl c, w).

(** The output before anything is known, with the parts that a check of the node fills in. *)
Definition node_output (o : k8sEvidenceOptions) (status evidenceStatus : string) (available : bool)
  (evidence : option k8sNodeEvidenceOutput) (decision message : string) : k8sCheckOutput :=
  mkK8sCheckOutput (ke_clusterID o) (ke_nodeName o) status evidenceStatus EmptyString available k8sDiagnosticNodeEvidence evidence
    EmptyString None decision message.

Definition checkK8sNodeEvidence (options : k8sCheckOptions) (ctx : result unit) : action W checked :=
  let o := ko_evidence options in
  connect (k8sEvidenceAdminClientOptions o) ≫= fun _ =>
  acting ExitRuntime (wrap_error (errorp "read broker admin status") (pure ctx ≫= fun _ => client_Status)) ≫= fun status =>
  if negb (as_Implemented status)
  then mret (node_output o k8sEvidenceStatusUnavailable k8sEvidenceStatusUnknown false None k8sEvidenceStatusUnknown (as_Message status),
             Some (mkExit ExitCheckFailed (errorf "broker admin node evidence API is unavailable")))
  else
    list_node_evidence o ctx ≫= fun response =>
    let decision := PolicyDecisionOutput (pd_State (nl_Decision response)) in
    if negb (pd_State (nl_Decision response) =? POLICY_DECISION_STATE_ALLOW)
    then
      let status := k8sCheckStatusFromDecision (nl_Decision response) in
      mret (failed (node_output o status status true None decision
                      (DecisionMessage (nl_Decision response) "broker denied node evidence lookup")))
    else
      match nl_Evidence response with
      | [record] =>
          let evidence := k8sNodeEvidenceOutputFromProto (Some record) in
          let found status message := node_output o status (kn_Status evidence) true (Some evidence) decision message in
          if String.eqb (kn_Status evidence) k8sEvidenceStatusFresh
          then
            let out := found k8sEvidenceStatusFresh EmptyString in
            if empty (ko_tokenFile options) then mret (passed out)
            else concluding (checkK8sWorkloadEvidence options ctx out)
          else if String.eqb (kn_Status evidence) k8sEvidenceStatusStale
          then mret (failed (found k8sEvidenceStatusStale "node evidence is stale"%string))
          else mret (failed (found (kn_Status evidence) "node evidence is not fresh"%string))
      | records =>
          mret (failed (node_output o k8sEvidenceStatusMissing k8sEvidenceStatusMissing true None decision
                          (err_msg (one_record (ke_nodeName o) (length records)))))
      end.

(** What is printed, if anything, and how the command ends. *)
Definition k8sCheckCommand (v : k8sFlagValues) (tokenFile : string) (ctx : result unit) (w : W)
  : (option k8sCheckOutput * outcome unit) * W :=
  match (of_outcome (parseK8sCheckOptions v tokenFile) ≫= fun options => checkK8sNodeEvidence options ctx) w with
  | (inr e, w) => ((None, inr e), w)
  | (inl (out, None), w) => ((Some out, inl tt), w)
  | (inl (out, Some e), w) => ((Some out, inr e), w)
  end.
End Check.
