(* ===== verification/CtlK8sProps.v ===== *)
(** * What the Kubernetes commands of operators achieve

    [k8s nodes revoke] and [k8s nodes enroll] next to the broker that serves them: what
    has happened when they end with success.  [k8s check]: when it ends with success, and
    what that says of the broker. *)

From S2P Require Import Prelude GoStrings GoTime Keyring KeyProtection Tpm NodeEvidence Config.
From S2P Require Import Sql Store Challenges SqlNodeEvidence StoreInv StoreOps Lockout Policy Kubernetes EvidenceText Admin Enrollment Service Runtime.
From S2P Require Import Ctl CtlProps KmsConfig KmsPlugin BrokerAdmin NodeAgent KmsProps Agent AgentProps CtlK8s.
Local Open Scope Z_scope.

(** ** Successful runs *)

Section Runs.
Context {W : Type}.

Lemma bind_Done {A B} (m : action W A) (f : A -> action W B) w x w' :
  (m ≫= f) w = (inl x, w') <-> exists a w1, m w = (inl a, w1) /\ f a w1 = (inl x, w').
Proof.
  unfold mbind, action_bind. destruct (m w) as [[a|e] w1]; [|by split; [|intros (? & ? & ? & _)]].
  split; [by eauto|]. by intros (a' & w2 & [= <- <-] & ?).
Qed.

Lemma outcome_Done {A} (r : outcome A) (w : W) x w' : of_outcome r w = (inl x, w') <-> r = inl x /\ w' = w.
Proof. unfold of_outcome. split; [by intros [= -> ->] | by intros [-> ->]]. Qed.

Lemma return_Done {A} (a : A) (w : W) x w' : (mret a : action W A) w = (inl x, w') <-> x = a /\ w' = w.
Proof. unfold mret, action_ret. split; [by intros [= -> ->] | by intros [-> ->]]. Qed.

Lemma acting_Done {A} code (m : call W A) w x w' : acting code m w = (inl x, w') <-> m w = (Ok x, w').
Proof. unfold acting. destruct (m w) as [[a|e] w1]; cbn; naive_solver. Qed.

Lemma controlling_Done {A} (m : call W A) w x w' : controlling m w = (inl x, w') <-> m w = (Ok x, w').
Proof. unfold controlling. destruct (m w) as [[a|e] w1]; cbn; naive_solver. Qed.
End Runs.

Ltac inv_run :=
  repeat match goal with
  | H : (_ ≫= _) _ = (inl _, _) |- _ => apply bind_Done in H as (? & ? & ? & H)
  | H : of_outcome _ _ = (inl _, _) |- _ => apply outcome_Done in H as [? ?]; subst
  | H : mret _ _ = (inl _, _) |- _ => apply return_Done in H as [? ?]; subst
  | H : acting _ _ _ = (inl _, _) |- _ => apply acting_Done in H
  | H : controlling _ _ = (inl _, _) |- _ => apply controlling_Done in H
  | _ => progress inv_call
  | _ => progress inv_outcome
  end.

(** ** Options *)

Lemma not_empty s : empty s = false -> s <> EmptyString.
Proof. by destruct s. Qed.
Lemma is_empty s : empty s = true -> s = EmptyString.
Proof. by destruct s. Qed.

Lemma node_options_ok v o :
  node_control_options v = inl o ->
  kc_clusterID o = TrimSpace (kv_clusterID v) /\ kc_nodeName o = TrimSpace (kv_nodeName v) /\ kc_clusterID o <> EmptyString /\
  (kv_requireNode v = true -> kc_nodeName o <> EmptyString).
Proof.
  unfold node_control_options, usage. intros H. inv_outcome. to_prop. cbn. split_and!; try done; [by apply not_empty|].
  intros Hr. apply not_empty. by rewrite Hr in *.
Qed.

(** Accepted hashes are canonical. *)
Lemma certificate_hashes_ok parts hashes :
  certificate_hashes parts = inl hashes ->
  Forall (fun h => exists part, part ∈ parts /\ TrimSpace part <> EmptyString /\ CanonicalSHA256Digest (TrimSpace part) = Ok h) hashes /\
  (forall part, part ∈ parts -> TrimSpace part <> EmptyString -> exists h, h ∈ hashes /\ CanonicalSHA256Digest (TrimSpace part) = Ok h).
Proof.
  revert hashes. induction parts as [|part parts IH]; intros hashes H; cbn in H.
  - inv_outcome. split; [constructor | by intros part ?%elem_of_nil].
  - destruct (empty (TrimSpace part)) eqn:He; [apply is_empty in He | apply not_empty in He].
    + apply IH in H as [H1 H2]. split; [eapply Forall_impl; [exact H1|]; set_solver|].
      intros p [->|Hp]%elem_of_cons Hne; [done | auto].
    + inv_outcome. match goal with H : certificate_hashes parts = _ |- _ => apply IH in H as [H1 H2] end.
      split; [constructor; [by exists part; set_solver|]; eapply Forall_impl; [exact H1|]; set_solver|].
      intros p [->|Hp]%elem_of_cons Hne; [by eexists; split; [left|]|]. destruct (H2 p Hp Hne) as (h & ? & ?). exists h. set_solver.
Qed.

(** ** Operators and the broker *)

Section Operators.
Context `{Hashes}.

(** The [n]-th call runs in [env n], a second audit record in [late n]; [peer] is the
    operator's certificate. *)
Context (s : EnrollmentService) (env late : nat -> Env) (peer : Peer).

Definition answering {A} (handler : nat -> Broker -> A * Broker) : call served A := fun '(n, b) =>
  let '(a, b) := handler n b in (Ok a, (S n, b)).

#[local] Instance operator_client : EnrollmentClient served := {|
  client_EnrollNodeEvidence req := answering (fun n => EnrollNodeEvidence s (env n) (late n) peer (Some req));
  client_RevokeNodeEvidence req := answering (fun n => RevokeNodeEvidence s (env n) (late n) peer (Some req));
  client_ListNodeEvidenceEnrollments req := answering (fun n => ListNodeEvidenceEnrollments s (env n) peer (Some req));
|}.

Context `{!KmsEnv served}.
Hypothesis files_unchanged : forall path w, (env_ReadFile path w).2 = w.
Hypothesis pairs_unchanged : forall cert key w, (LoadX509KeyPair cert key w).2 = w.

Lemma connect_unchanged o w c w' : connect o w = (inl c, w') -> w' = w.
Proof.
  unfold connect, brokerAdminDialOptions, DialOptions. intros Hc. inv_run. case_hyp H0; [by inv_run|]. inv_run.
  assert (forall path (x y : served) r, client_roots path x = (Ok r, y) -> y = x) as Hroots.
  { intros path x y r Hr. unfold client_roots in Hr. case_hyp Hr; inv_call; [done|].
    match goal with Hf : env_ReadFile ?p ?x = (Ok _, ?y) |- _ => pose proof (files_unchanged p x) as Hu; rewrite Hf in Hu end. done. }
  match goal with Hr : client_roots _ _ = _ |- _ => apply Hroots in Hr; subst end.
  match goal with Hp : (if _ then _ else _) _ = (Ok _, _) |- _ => case_hyp Hp; inv_call; [done|] end.
  match goal with Hf : LoadX509KeyPair ?p ?q ?x = (Ok _, ?y) |- _ => pose proof (pairs_unchanged p q x) as Hu; rewrite Hf in Hu end. done.
Qed.
Lemma answering_Ok {A} (handler : nat -> Broker -> A * Broker) n b a w :
  answering handler (n, b) = (Ok a, w) -> exists b', handler n b = (a, b') /\ w = (S n, b').
Proof. unfold answering. destruct (handler n b) as [x b']. intros [= <- <-]. by exists b'. Qed.

Lemma allowed_Ok d operation u : RequireAllowDecision d operation = Ok u <-> pd_State d = POLICY_DECISION_STATE_ALLOW.
Proof. unfold RequireAllowDecision. destruct u. rewrite check_Ok. apply Z.eqb_eq. Qed.

(** The call behind a successful [k8s nodes revoke]. *)
Lemma revoke_call values reason ctl ctx n b out w' :
  k8sNodesRevokeCommand values reason ctl ctx (n, b) = (inl out, w') ->
  exists resp b' en, w' = (S n, b') /\
    RevokeNodeEvidence s (env n) (late n) peer
      (Some (mkNodeEvidenceRevocationRequest (TrimSpace (kv_clusterID values)) (TrimSpace (kv_nodeName values)) (TrimSpace reason)
               (Some (mkAuditContext EmptyString (no_RequestID out))))) b = (resp, b') /\
    pd_State (nep_Decision resp) = POLICY_DECISION_STATE_ALLOW /\ nodeEnrollmentFromProto (nep_Enrollment resp) = Ok en /\
    out = k8sNodeEnrollmentOutputFromDomain en (no_RequestID out) /\ ctl_randomID ctl "request" = Ok (no_RequestID out).
Proof.
  unfold k8sNodesRevokeCommand, newK8sNodeEnrollmentClient. intros Hrun. inv_run.
  match goal with Ho : node_control_options _ = inl _ |- _ => apply node_options_ok in Ho as (Hc & Hn & _) end.
  lazymatch goal with K : connect _ _ = _ |- _ => apply connect_unchanged in K as -> end.
  unfold BrokerAdmin.Revoke in *. inv_run. cbn [client_RevokeNodeEvidence operator_client] in *.
  match goal with Ha : answering _ _ = (Ok _, _) |- _ => apply answering_Ok in Ha as (b' & Hr & ->) end.
  rewrite Hc, Hn, !TrimSpace_idem in Hr.
  match goal with Ha : RequireAllowDecision _ _ = Ok _ |- _ => apply allowed_Ok in Ha end.
  do 3 eexists. split_and!; [done | exact Hr | done..].
Qed.

(** C8: when [k8s nodes revoke] ends with success the node is out: the operator's
    certificate administers the cluster, every configured audit sink took the record with
    the stated reason and the request identifier that the command prints, the node has no
    active enrollment, and the broker finds no fresh evidence of it until it is enrolled
    again or evidence without enrollment, which only the other providers than the TPM can
    give, is stored for it. *)
Theorem operator_revocation_effective values reason ctl ctx n b out w' :
  (forall i, trust_typed (env i) (late i)) -> reachable (b_db b) ->
  k8sNodesRevokeCommand values reason ctl ctx (n, b) = (inl out, w') ->
  let cluster := TrimSpace (kv_clusterID values) in
  let node := TrimSpace (kv_nodeName values) in
  exists actor id b1,
    permitted s peer cluster actor /\
    recorded s (enrollment_event (env n) id enrollmentOperationNodeEvidenceRevoke actor cluster node
                  (Some (mkAuditContext EmptyString (no_RequestID out)))
                  (decisionWithReason (Allow (es_policyID s)) (TrimSpace reason))) b1 /\
    steps (b_db b) (b_db b1) /\ steps (b_db b1) (b_db w'.2) /\ TrimSpace reason <> EmptyString /\
    sql_ActiveNodeEvidenceEnrollment (b_db w'.2) cluster node = Err ErrEnrollmentRevoked /\
    forall ops wall now, Forall (fun o => ~ readmits (key_of cluster node) o) ops ->
      sql_FreshNodeEvidence wall (run ops (b_db w'.2)) cluster node now = Err ErrNotFound.
Proof.
  intros Ht Hr Hrun cluster node. destruct (revoke_call _ _ _ _ _ _ _ _ Hrun) as (resp & b' & en & -> & Hh & Ha & _ & _ & _).
  set (req := mkNodeEvidenceRevocationRequest _ _ _ _) in Hh.
  destruct (revocation_locks_out _ _ _ _ _ _ _ _ (Ht n) Hr Hh Ha) as [Hl _].
  destruct (allowed_change_takes_effect s (env n) (late n) peer (Enrollment.Revoke (Some req)) b resp b' (Ht n) Hr Hh Ha)
    as (c & m & en' & _ & _ & (r & [= <-] & -> & ->) & Hact).
  assert (steps (b_db b) (b_db b')) as Hs.
  { pose proof (handle_steps s (env n) (late n) peer (Enrollment.Revoke (Some req)) b (Ht n)) as Hs. cbn [handle] in Hs. by rewrite Hh in Hs. }
  destruct (Revoke_trace _ _ _ _ _ _ _ _ Hh) as [[? _]|Hp]; [done|].
  destruct Hp as (actor & c & m & why & id & o & b1 & Hperm & [Hreq ->] & Hrec & Hau & Hout).
  destruct Hout as [(_ & Hb & _) | [? _]]; [|done].
  unfold nodeEvidenceRevocationRequestFromProto, req in Hreq. cbn [nrq_ClusterId nrq_NodeName nrq_Reason] in Hreq.
  rewrite !TrimSpace_idem in Hreq. injection Hreq as <- <- Hreq. inv_ok. unfold normalizeEnrollmentReason in *. inv_ok. to_prop.
  cbn [req nrq_ClusterId nrq_NodeName] in Hact, Hl. unfold req in Hact, Hl. cbn [nrq_ClusterId nrq_NodeName] in Hact, Hl.
  rewrite !TrimSpace_idem in Hact. fold cluster node in Hact, Hl. rewrite !TrimSpace_idem in *.
  destruct (Ht n) as (He & Hlt & Ht1 & Ht2).
  exists actor, id, b1. split_and!; try done.
  - by apply (audit_only_steps (env n)).
  - cbn [snd b_db]. eapply steps_trans; [by apply (steps_at (env n) AtPut)|].
    exists [ORevokeNodeEvidence cluster node (e_clock (env n) AtPut)]. split; [by ops_typed | done].
  - intros ops wall now Hf. apply locked_out_stale. cbn [snd]. by apply locked_out_run.
Qed.
End Operators.

(** ** When a check passes *)

Section Checks.
Context {W : Type} `{!KmsEnv W, !EvidenceReader W}.

(** The broker is reached, offers the interface and reports one fresh record of the node. *)
Definition node_accepted (o : k8sEvidenceOptions) (ctx : result unit) (w : W) (response : NodeEvidenceListResponse)
  (record : NodeEvidenceRecord) (w' : W) : Prop :=
  exists credentials w0 status w1, connect (k8sEvidenceAdminClientOptions o) w = (inl credentials, w0) /\ ctx = Ok tt /\
    client_Status w0 = (Ok status, w1) /\ as_Implemented status = true /\
    client_ListNodeEvidence (ke_clusterID o, ke_nodeName o) w1 = (Ok response, w') /\
    pd_State (nl_Decision response) = POLICY_DECISION_STATE_ALLOW /\ nl_Evidence response = [record] /\
    nr_Status record = NODE_EVIDENCE_STATUS_FRESH.

(** The token is there and the broker allows the workload that holds it. *)
Definition workload_accepted (o : k8sCheckOptions) (w : W) (response : EvidenceCheckResponse) (w' : W) : Prop :=
  exists token w1, readK8sWorkloadTokenFile (ko_tokenFile o) w = (Ok token, w1) /\
    client_CheckEvidence (evidence_check_request o token) w1 = (Ok response, w') /\
    pd_State (ecp_Decision response) = POLICY_DECISION_STATE_ALLOW.

(** What is printed for a fresh node. *)
Definition fresh_output (o : k8sEvidenceOptions) (record : NodeEvidenceRecord) : k8sCheckOutput :=
  node_output o k8sEvidenceStatusFresh k8sEvidenceStatusFresh true (Some (k8sNodeEvidenceOutputFromProto (Some record))) "allow" EmptyString.

Lemma status_fresh status : NodeEvidenceStatusOutput status = k8sEvidenceStatusFresh <-> status = NODE_EVIDENCE_STATUS_FRESH.
Proof.
  unfold NodeEvidenceStatusOutput. destruct (Z.eqb_spec status NODE_EVIDENCE_STATUS_FRESH) as [->|Hne]; [done|].
  split; [|done]. by repeat case_goal.
Qed.

Lemma concluding_Done (m : W -> checked * W) w c w' : concluding m w = (inl c, w') <-> m w = (c, w').
Proof. unfold concluding. destruct (m w) as [c1 w1]. naive_solver. Qed.

Lemma workload_passed o ctx out w out' w' :
  checkK8sWorkloadEvidence o ctx out w = (passed out', w') <->
  ctx = Ok tt /\ exists response, workload_accepted o w response w' /\ out' = workload_output out response.
Proof.
  unfold checkK8sWorkloadEvidence, workload_accepted. destruct (readK8sWorkloadTokenFile _ w) as [[token|err] w1].
  2:{ split; [done|]. by intros (_ & response & (token & w2 & [=] & _) & _). }
  unfold wrap_error, mbind, call_bind, pure. destruct ctx as [[]|e]; [|by split; [|intros [? _]]].
  destruct (client_CheckEvidence _ w1) as [[response|err] w2] eqn:Ec; cbn.
  - destruct (Z.eqb_spec (pd_State (ecp_Decision response)) POLICY_DECISION_STATE_ALLOW) as [Ha|Ha]; split.
    + intros [= <- <-]. split; [done|]. exists response. split; [|done]. by exists token, w1.
    + intros (_ & r & (t & w3 & [= -> ->] & Hc & _) & ->). rewrite Ec in Hc. by injection Hc as -> ->.
    + done.
    + intros (_ & r & (t & w3 & [= -> ->] & Hc & Ha') & ->). rewrite Ec in Hc. by injection Hc as -> ->.
  - split; [done|]. intros (_ & r & (t & w3 & [= -> ->] & Hc & _) & _). congruence.
Qed.

(** A check of the node alone, and one of a workload too. *)
Lemma check_passed options ctx w out w' :
  let o := ko_evidence options in
  checkK8sNodeEvidence options ctx w = (inl (passed out), w') <->
  exists response record w2, node_accepted o ctx w response record w2 /\
    (ko_tokenFile options = EmptyString /\ w' = w2 /\ out = fresh_output o record \/
     ko_tokenFile options <> EmptyString /\
     exists workload, workload_accepted options w2 workload w' /\ out = workload_output (fresh_output o record) workload).
Proof.
  intros o. unfold checkK8sNodeEvidence, node_accepted. fold o. rewrite bind_Done. split.
  - intros (credentials & w0 & Hc & H). apply bind_Done in H as (status & w1 & Hst%acting_Done & H). apply wrap_call_Ok in Hst.
    apply bind_call_Ok in Hst as ([] & ? & [-> ->]%pure_call_Ok & Hst). destruct (as_Implemented status) eqn:Hi; [|by apply return_Done in H as [? _]].
    cbn [negb] in H. apply bind_Done in H as (response & w2 & Hl%acting_Done & H). apply wrap_call_Ok in Hl.
    apply bind_call_Ok in Hl as ([] & ? & [_ ->]%pure_call_Ok & Hl).
    destruct (Z.eqb_spec (pd_State (nl_Decision response)) POLICY_DECISION_STATE_ALLOW) as [Ha|]; [|by apply return_Done in H as [? _]].
    cbn [negb] in H. rewrite Ha in H. destruct (nl_Evidence response) as [|record [|]] eqn:He; try by apply return_Done in H as [? _].
    cbv zeta in H. destruct (String.eqb_spec (kn_Status (k8sNodeEvidenceOutputFromProto (Some record))) k8sEvidenceStatusFresh) as [Hf|].
    2:{ case_hyp H; by apply return_Done in H as [? _]. }
    exists response, record, w2. pose proof Hf as Hf'. apply status_fresh in Hf'. cbn [default] in Hf'.
    split; [by exists credentials, w0, status, w1|]. rewrite Hf in H.
    destruct (empty (ko_tokenFile options)) eqn:Ht.
    + left. apply is_empty in Ht. apply return_Done in H as [[= ->] ->]. by split_and!.
    + right. split; [by apply not_empty|]. apply concluding_Done, workload_passed in H as (_ & workload & Hw & ->). by exists workload.
  - intros (response & record & w2 & (credentials & w0 & status & w1 & Hc & -> & Hst & Hi & Hl & Ha & He & Hf) & Hout).
    exists credentials, w0. split; [done|]. unfold list_node_evidence. apply bind_Done. exists status, w1. split.
    { apply acting_Done. unfold wrap_error, mbind, call_bind, pure. by rewrite Hst. }
    rewrite Hi. cbn [negb]. apply bind_Done. exists response, w2. split.
    { apply acting_Done. unfold wrap_error, mbind, call_bind, pure. by rewrite Hl. }
    rewrite Ha, He. cbv zeta. cbn [negb]. change (POLICY_DECISION_STATE_ALLOW =? POLICY_DECISION_STATE_ALLOW) with true. cbn [negb].
    assert (kn_Status (k8sNodeEvidenceOutputFromProto (Some record)) = k8sEvidenceStatusFresh) as Hk by (by apply status_fresh).
    rewrite Hk. change (String.eqb k8sEvidenceStatusFresh k8sEvidenceStatusFresh) with true. cbv iota.
    destruct Hout as [(-> & -> & ->) | (Hne & workload & Hw & ->)]; [by apply return_Done|].
    destruct (ko_tokenFile options) as [|c r] eqn:Et; [done|]. cbn [empty]. apply concluding_Done, workload_passed.
    split; [done|]. exists workload. by split.
Qed.

Lemma k8s_check_passed v tokenFile ctx w out w' :
  k8sCheckCommand v tokenFile ctx w = ((Some out, inl tt), w') <->
  exists options response record w2, parseK8sCheckOptions v tokenFile = inl options /\
    node_accepted (ko_evidence options) ctx w response record w2 /\
    (ko_tokenFile options = EmptyString /\ w' = w2 /\ out = fresh_output (ko_evidence options) record \/
     ko_tokenFile options <> EmptyString /\
     exists workload, workload_accepted options w2 workload w' /\ out = workload_output (fresh_output (ko_evidence options) record) workload).
Proof.
  unfold k8sCheckCommand. destruct ((of_outcome (parseK8sCheckOptions v tokenFile) ≫= fun options => checkK8sNodeEvidence options ctx) w)
    as [[[out1 [e|]]|e] w1] eqn:E.
  - split; [done|]. intros (options & response & record & w2 & Hp & Hn & Hout). exfalso.
    assert (checkK8sNodeEvidence options ctx w = (inl (passed out), w')) as Hc by (apply check_passed; eauto 6).
    unfold mbind, action_bind, of_outcome in E. rewrite Hp, Hc in E. done.
  - split.
    + intros [= <- <-]. apply bind_Done in E as (options & w2 & [Hp ->]%outcome_Done & Hc).
      apply check_passed in Hc as (response & record & w2 & Hc). by exists options, response, record, w2.
    + intros (options & response & record & w2 & Hp & Hn & Hout).
      assert (checkK8sNodeEvidence options ctx w = (inl (passed out), w')) as Hc by (apply check_passed; eauto 6).
      unfold mbind, action_bind, of_outcome in E. rewrite Hp, Hc in E. by injection E as <- <-.
  - split; [done|]. intros (options & response & record & w2 & Hp & Hn & Hout). exfalso.
    assert (checkK8sNodeEvidence options ctx w = (inl (passed out), w')) as Hc by (apply check_passed; eauto 6).
    unfold mbind, action_bind, of_outcome in E. rewrite Hp, Hc in E. done.
Qed.
(** [k8s check] ends with success exactly when the broker could be reached and offers
    its interface, reports exactly one record of the node and that it is fresh, and, if a
    token file is named, the token can be read and the broker allows the workload; what is
    printed is then what the broker said. *)
Theorem k8s_check_exact v tokenFile ctx w out w' :
  k8sCheckCommand v tokenFile ctx w = ((Some out, inl tt), w') <->
  exists options response record w2, parseK8sCheckOptions v tokenFile = inl options /\
    node_accepted (ko_evidence options) ctx w response record w2 /\
    (ko_tokenFile options = EmptyString /\ w' = w2 /\ out = fresh_output (ko_evidence options) record \/
     ko_tokenFile options <> EmptyString /\
     exists workload, workload_accepted options w2 workload w' /\ out = workload_output (fresh_output (ko_evidence options) record) workload).
Proof. apply k8s_check_passed. Qed.
End Checks.

(** ** What a passed check says of the broker *)

Section CheckedBroker.
Context `{Hashes, ProtoLib} (a : AdminService) (env : nat -> Env).

#[local] Instance reader_client : EvidenceReader served := {|
  client_Status := fun '(n, b) => (Ok (AdminStatus a), (S n, b));
  client_ListNodeEvidence request := answering (fun n => ListNodeEvidence a (env n) (Some request));
  client_CheckEvidence request := answering (fun n => CheckEvidence a (env n) (Some request));
|}.

Context `{!KmsEnv served}.
Hypothesis files_unchanged : forall path w, (env_ReadFile path w).2 = w.
Hypothesis pairs_unchanged : forall cert key w, (LoadX509KeyPair cert key w).2 = w.
Hypothesis envs_typed : forall n, env_typed (env n).

Lemma token_read path w token w' :
  readK8sWorkloadTokenFile path w = (Ok token, w') -> w' = w /\ exists raw, (env_ReadFile path w).1 = Ok raw /\ token = TrimSpace raw.
Proof.
  unfold readK8sWorkloadTokenFile. intros Hr. inv_call.
  match goal with Hf : env_ReadFile path ?x = (Ok ?raw, ?y) |- _ => pose proof (files_unchanged path x) as Hu; rewrite Hf in Hu; cbn in Hu;
    subst; split; [done|]; exists raw; by rewrite Hf end.
Qed.

(** What the broker checked when it allowed a workload. *)
Lemma evidence_allowed e cluster evidence b response b' :
  CheckEvidence a e (Some (mkEvidenceCheckRequest cluster OPERATION_WRAP (Some evidence))) b = (response, b') ->
  pd_State (ecp_Decision response) = POLICY_DECISION_STATE_ALLOW ->
  exists vf, default DevelopmentEvidenceVerifier (ad_verifier a) (Some evidence) = Ok vf /\ ecp_Subject response = vf_Subject vf /\
    store_Subject (at_ e AtSubject (b_db b)) (TrimSpace cluster) (vf_Subject vf) = Ok (mkSubject (TrimSpace cluster) (vf_Subject vf) false) /\
    (ad_nodeEvidence a = true -> wi_NodeName (vf_Workload vf) <> EmptyString ->
     exists ne, sql_FreshNodeEvidence (e_clock e AtNode) (at_ e AtNode (at_ e AtSubject (b_db b))) (TrimSpace cluster)
                  (wi_NodeName (vf_Workload vf)) (e_clock e AtNode) = Ok ne /\
       (wi_NodeUID (vf_Workload vf) = EmptyString \/ ne_NodeUID ne = EmptyString \/ wi_NodeUID (vf_Workload vf) = ne_NodeUID ne)).
Proof.
  unfold CheckEvidence. cbn [ecq_ClusterId ecq_Operation ecq_Evidence]. cbv zeta. intros Hc Ha.
  case_hyp Hc; [by injection Hc as <- _|]. case_hyp Hc; [by injection Hc as <- _|].
  destruct (default DevelopmentEvidenceVerifier (ad_verifier a) (Some evidence)) as [vf|err].
  2:{ injection Hc as <- _. cbn in Ha. unfold evidenceCheckVerificationDeny in Ha. by repeat case_hyp Ha. }
  change (OPERATION_WRAP =? OPERATION_UNSPECIFIED) with false in Hc. cbv iota in Hc.
  destruct (evaluateSubjectAndNodeEvidence _ _ _ _) as [d db] eqn:Ed. injection Hc as <- _. cbn [ecp_Decision ecp_Subject] in *.
  exists vf. split; [done|]. split; [done|]. apply Z.eqb_eq, (evaluateSubject_Allowed _ _ _ _ _ _ Ed) in Ha as (_ & Hs & Hn).
  cbn [pr_ClusterID pr_Subject] in Hs. split; [by apply store_Subject_ok|]. intros Hne Hnode.
  eapply evaluateNodeEvidence_Allowed in Hn as (ne & Hf & Hu); [|by rewrite Hne|done]. by exists ne.
Qed.

(** C19: what [k8s check] with a token file shows when it ends with success: the broker's
    verifier accepts the token in the file, its subject, which is the one printed, is
    enrolled and not revoked, and, on a broker that reads node evidence, the node of the
    workload has fresh evidence that does not contradict the workload's node. *)
Theorem verified_workload_admitted v tokenFile ctx n b out w' :
  k8sCheckCommand v tokenFile ctx (n, b) = ((Some out, inl tt), w') -> TrimSpace tokenFile <> EmptyString ->
  let cluster := TrimSpace (fv_clusterID v) in
  exists raw token vf i b1, TrimSpace raw = token /\ steps (b_db b) (b_db b1) /\
    (exists w1, (env_ReadFile (TrimSpace tokenFile) w1).1 = Ok raw) /\
    default DevelopmentEvidenceVerifier (ad_verifier a) (Some (NewEvidenceEnvelope EmptyString token)) = Ok vf /\
    kk_Status out = k8sEvidenceStatusVerified /\ kk_Subject out = vf_Subject vf /\
    store_Subject (at_ (env i) AtSubject (b_db b1)) cluster (vf_Subject vf) = Ok (mkSubject cluster (vf_Subject vf) false) /\
    (wi_NodeName (vf_Workload vf) <> EmptyString ->
     exists ne, sql_FreshNodeEvidence (e_clock (env i) AtNode) (at_ (env i) AtNode (at_ (env i) AtSubject (b_db b1))) cluster
                  (wi_NodeName (vf_Workload vf)) (e_clock (env i) AtNode) = Ok ne /\
       (wi_NodeUID (vf_Workload vf) = EmptyString \/ ne_NodeUID ne = EmptyString \/ wi_NodeUID (vf_Workload vf) = ne_NodeUID ne)).
Proof.
  intros Hc Htok cluster. apply k8s_check_passed in Hc as (options & response & record & w2 & Hp & Hn & Hout).
  assert (ke_clusterID (ko_evidence options) = cluster /\ ko_tokenFile options = TrimSpace tokenFile) as [Hcl Hfile].
  { unfold parseK8sCheckOptions, certificate_pair, usage in Hp. by inv_outcome. }
  destruct Hout as [[Hz _]|(_ & workload & (token & w3 & Hread & Hcheck & Ha) & ->)]; [congruence|].
  destruct Hn as (credentials & w0 & status & w1 & Hconn & _ & Hst & Himp & Hl & _ & _ & _).
  apply connect_unchanged in Hconn as ->; [|done..]. cbn [client_Status reader_client] in Hst. injection Hst as <- <-.
  cbn [client_ListNodeEvidence reader_client] in Hl. apply answering_Ok in Hl as (b1 & Hl & ->).
  apply token_read in Hread as (-> & raw & Hraw & ->). cbn [client_CheckEvidence reader_client] in Hcheck.
  apply answering_Ok in Hcheck as (b2 & Hcheck & ->). unfold evidence_check_request in Hcheck. rewrite Hcl in Hcheck.
  destruct (evidence_allowed _ _ _ _ _ _ Hcheck Ha) as (vf & Hv & Hs & Hsub & Hne). unfold cluster in Hsub, Hne. rewrite TrimSpace_idem in *.
  assert (ad_nodeEvidence a = true) as Had.
  { unfold AdminStatus in Himp. by destruct (ad_nodeEvidence a). }
  exists raw, (TrimSpace raw), vf, (S (S n)), b1. split_and!; try done.
  - pose proof (List_steps a (env (S n)) (Some (ke_clusterID (ko_evidence options), ke_nodeName (ko_evidence options))) b (envs_typed _)) as Hsteps.
    by rewrite Hl in Hsteps.
  - eexists. rewrite <- Hfile. exact Hraw.
  - unfold workload_output. cbn [kk_Status]. by rewrite Ha.
  - by apply Hne.
Qed.
End CheckedBroker.

(** ** An operator, a broker and its cluster *)

(** Files are there and the connection is not lost. *)
#[local] Instance desk : KmsEnv served := {|
  env_ReadFile _ w := (Ok " token "%string, w);
  CertPool := unit; SystemCertPool := Some tt; EmptyCertPool := tt; AppendCertsFromPEM p _ := Some p;
  ClientCertificate := unit; LoadX509KeyPair _ _ := fun w => (Ok tt, w);
  grpc_NewClient _ := Ok tt; ErrorCode_String _ := "ERROR_CODE"%string;
|}.
Definition desk_env (n : nat) : Env := env_with (FormatUint (Z.of_nat n)).
Definition desk_late (n : nat) : Env := env_with (FormatUint (Z.of_nat (100 + n))).
Definition desk_values : k8sNodeControlFlagValues :=
  mkK8sNodeControlFlagValues "broker:8443" "ca.crt" EmptyString "admin.crt" "admin.key" "cluster-a" " node-1" (10 * Second) "text" true.
Definition desk_world : served := (7%nat, Runtime.served example_calls).
Definition desk_revocation : outcome k8sNodeEnrollmentOutput * served :=
  @k8sNodesRevokeCommand served desk (@operator_client toy_Hashes example_operators desk_env desk_late example_peer)
    desk_values "decommissioned" example_ctl_env (Ok tt) desk_world.
Definition desk_flags : k8sFlagValues :=
  mkK8sFlagValues "broker:8443" true EmptyString EmptyString EmptyString EmptyString "cluster-a" "node-1" (10 * Second) "text".
Definition desk_admin : AdminService :=
  newAdminService (mkAdminService true true true true
    (Some (@KubernetesEvidenceVerifier Token_JSON (newKubernetesRuntimeDependencies example_reviewer example_lookup example_kubernetes)))
    0 0 0 " cluster-a " "policy-1" false [ProviderTPM2Quote] true).
Definition desk_reader : EvidenceReader served := @reader_client toy_Hashes toy_ProtoLib desk_admin desk_env.
Definition desk_check : (option k8sCheckOutput * outcome unit) * served :=
  @k8sCheckCommand served desk desk_reader desk_flags "/run/token" (Ok tt) desk_world.

Definition desk_revoked : k8sNodeEnrollmentOutput :=
  match desk_revocation.1 with
  | inl out => out
  | inr _ => mkK8sNodeEnrollmentOutput EmptyString EmptyString EmptyString EmptyString EmptyString EmptyString EmptyString [] 0
               EmptyString EmptyString EmptyString EmptyString
  end.
Definition desk_printed : k8sCheckOutput :=
  match desk_check.1 with
  | (Some out, _) => out
  | (None, _) => node_output (evidence_options desk_flags) EmptyString EmptyString false None EmptyString EmptyString
  end.

Lemma desk_reachable : reachable (b_db (Runtime.served example_calls)).
Proof.
  apply (steps_reachable (b_db example_start)); [|exact example_start_reachable].
  apply serve_all_steps. exact example_calls_typed.
Qed.

Lemma desk_revocation_ends : desk_revocation = (inl desk_revoked, desk_revocation.2).
Proof.
  assert (match desk_revocation.1 with inl _ => true | inr _ => false end = true) as H by (vm_cast_no_check (@eq_refl _ true)).
  unfold desk_revoked. destruct desk_revocation as [[out|e] w]; [reflexivity | discriminate H].
Qed.

Lemma desk_check_ends : desk_check = ((Some desk_printed, inl tt), desk_check.2).
Proof.
  assert (match desk_check.1 with (Some _, inl tt) => true | _ => false end = true) as H by (vm_cast_no_check (@eq_refl _ true)).
  unfold desk_printed. destruct desk_check as [[[out|] [[]|e]] w]; [reflexivity | discriminate H..].
Qed.

Lemma desk_typed n : env_typed (desk_env n) /\ env_typed (desk_late n).
Proof. split; intros p; constructor. Qed.

Lemma operator_revocation_effective_witness :
  no_Status desk_revoked = "revoked"%string /\
  sql_FreshNodeEvidence example_time (b_db desk_revocation.2.2) "cluster-a" "node-1" example_time = Err ErrNotFound.
Proof.
  split; [vm_compute; reflexivity|].
  destruct (@operator_revocation_effective toy_Hashes example_operators desk_env desk_late example_peer desk
    (fun _ _ => eq_refl) (fun _ _ _ => eq_refl) desk_values "decommissioned" example_ctl_env (Ok tt) 7%nat
    (Runtime.served example_calls) desk_revoked desk_revocation.2) as (actor & id & b1 & _ & _ & _ & _ & _ & _ & Hf).
  - intros i. destruct (desk_typed i). split; [assumption|]. split; [assumption|]. split; vm_compute; split; congruence.
  - exact desk_reachable.
  - exact desk_revocation_ends.
  - exact (Hf [] example_time example_time (Forall_nil_2 _)).
Defined.

Lemma verified_workload_admitted_witness :
  kk_Status desk_printed = "verified"%string /\ exists subject b db, kk_Subject desk_printed = subject /\
    store_Subject db "cluster-a" subject = Ok (mkSubject "cluster-a" subject false) /\ steps (b_db (Runtime.served example_calls)) b.
Proof.
  destruct (@verified_workload_admitted toy_Hashes toy_ProtoLib desk_admin desk_env desk (fun _ _ => eq_refl) (fun _ _ _ => eq_refl)
    (fun n => proj1 (desk_typed n)) desk_flags "/run/token" (Ok tt) 7%nat (Runtime.served example_calls) desk_printed desk_check.2)
    as (raw & token & vf & i & b1 & _ & Hs & _ & _ & Hst & Hsub & Hstore & _).
  - exact desk_check_ends.
  - discriminate.
  - split; [exact Hst|]. exists (vf_Subject vf), (b_db b1), (at_ (desk_env i) AtSubject (b_db b1)).
    split; [exact Hsub|]. split; [exact Hstore | exact Hs].
Defined.
