(* ===== verification/CtlProvision.v ===== *)
(** * bao-unsealctl: keys in a node's TPM, and what commands leave in files
    (internal/baounsealctl/command.go)

    [tpm provision] puts the key of a recovery package into the local TPM state of a node
    and prints the stanza of OpenBao's seal; [tpm status] reads that state.  [enroll
    request], [recover finish] and the trust state that [enroll apply] leaves complete the
    commands of the broker state.  Files of JSON are the values that they hold. *)

From S2P Require Import Prelude GoStrings Json JsonText GoTime Keyring KeyProtection Tpm TpmSeal NodeEvidence LocalState Config Gf256 Shamir Recovery Grants.
From S2P Require Import Sql Store Policy Service Ctl KmsConfig Agent.
From Stdlib Require Import Ascii.
Local Open Scope Z_scope.

(** ** Flags *)

Definition usage_error {A} (text : string) : outcome A := coded ExitUsage (Err (errorf text)).

Definition validateTPMPolicyMode (mode : string) : outcome string :=
  let mode := ToLower (TrimSpace mode) in
  if String.eqb mode PolicyModeTPMOnly || String.eqb mode PolicyModeSecureBoot then mret mode
  else if String.eqb mode PolicyModeMeasured then usage_error "measured TPM policy is reserved for later milestones"
  else usage_error ("unsupported TPM policy " +:+ quoted mode).

(** One element of the list; the indexes seen so far are those collected. *)
Definition add_pcr (pcrs : list Z) (part : string) : outcome (list Z) :=
  let part := TrimSpace part in
  if empty part then mret pcrs
  else
    coded ExitUsage (of_option (errorf ("invalid PCR index " +:+ quoted part)) (Atoi part)) ≫= fun pcr =>
    coded ExitUsage (check (negb ((pcr <? 0) || (23 <? pcr))) (errorf ("PCR index " +:+ FormatInt pcr +:+ " is out of range"))) ≫= fun _ =>
    mret (if existsb (Z.eqb pcr) pcrs then pcrs else pcrs ++ [pcr]).

Fixpoint add_pcrs (pcrs : list Z) (parts : list string) : outcome (list Z) :=
  match parts with
  | [] => mret pcrs
  | part :: rest => add_pcr pcrs part ≫= fun pcrs => add_pcrs pcrs rest
  end.

Definition parsePCRIndexes (raw : string) : outcome (list Z) :=
  add_pcrs [] (Split raw ","%char) ≫= fun pcrs =>
  if bool_decide (pcrs = []) then usage_error "at least one PCR index is required" else mret pcrs.

(** The flag is a [uint]. *)
Definition parseKeyVersion (value : Z) : outcome Z :=
  if value =? 0 then usage_error "-key-version must be greater than zero"
  else if uint32_max <? value then usage_error "-key-version must fit in uint32"
  else mret value.

Fixpoint add_operations (operations parts : list string) : outcome (list string) :=
  match parts with
  | [] => mret operations
  | part :: rest =>
      let operation := ToLower (TrimSpace part) in
      if empty operation then add_operations operations rest
      else if String.eqb operation "wrap" || String.eqb operation "unwrap"
      then add_operations (if existsb (String.eqb operation) operations then operations else operations ++ [operation]) rest
      else usage_error ("unsupported operation " +:+ quoted operation)
  end.

Definition parseOperations (raw : string) : outcome (list string) :=
  add_operations [] (Split raw ","%char) ≫= fun operations =>
  if bool_decide (operations = []) then usage_error "at least one operation is required" else mret operations.

(** ** tpm provision *)

Record tpmProvisionOptions := mkTpmProvisionOptions {
  pv_statePath : string; pv_packagePath : string; pv_sharesPath : string; pv_expectedClusterID : string; pv_keyVersion : Z;
  pv_policyMode : string; pv_pcrBank : string; pv_pcrs : list Z; pv_policyID : string; pv_tpmDevice : string; pv_format : string;
}.

(** [pcrs] and [version] are the raw flags. *)
Definition parseTPMProvisionOptions (raw : tpmProvisionOptions) (pcrs : string) (version : Z) : outcome tpmProvisionOptions :=
  validateFormat (pv_format raw) ≫= fun _ =>
  coded ExitUsage (check (negb (empty (TrimSpace (pv_statePath raw)) || empty (TrimSpace (pv_packagePath raw)) ||
                                empty (TrimSpace (pv_sharesPath raw))))
    (errorf "-state-path, -package, and -shares-file are required")) ≫= fun _ =>
  validateTPMPolicyMode (pv_policyMode raw) ≫= fun mode =>
  parsePCRIndexes pcrs ≫= fun indexes =>
  parseKeyVersion version ≫= fun parsed =>
  coded ExitUsage (ValidateIdentifier (pv_policyID raw)) ≫= fun _ =>
  mret (mkTpmProvisionOptions (pv_statePath raw) (pv_packagePath raw) (pv_sharesPath raw) (TrimSpace (pv_expectedClusterID raw)) parsed
    mode (ToLower (TrimSpace (pv_pcrBank raw))) indexes (TrimSpace (pv_policyID raw)) (TrimSpace (pv_tpmDevice raw)) (pv_format raw)).

(** The members of the stanza, and its text. *)
Definition local_seal_members (ref : KeyRef) (statePath tpmDevice : string) : list (string * string) :=
  [("mode", "local-tpm"); ("cluster_id", ClusterID ref); ("key_id", KeyID ref); ("key_version", FormatUint (Version ref));
   ("state_path", statePath); ("tpm_device", tpmDevice)]%string.

Definition localTPMSealConfigSnippet (ref : KeyRef) (statePath tpmDevice : string) : string :=
  Join [("seal " +:+ quoted "attested-unseal" +:+ " {");
        ("  mode        = " +:+ quoted "local-tpm");
        ("  cluster_id  = " +:+ quoted (ClusterID ref));
        ("  key_id      = " +:+ quoted (KeyID ref));
        ("  key_version = " +:+ quoted (FormatUint (Version ref)));
        ("  state_path  = " +:+ quoted statePath);
        ("  tpm_device  = " +:+ quoted tpmDevice); "}"]%string newline.

Record tpmProvisionOutput := mkTpmProvisionOutput {
  to_StatePath : string; to_KeyID : string; to_PolicyMode : string; to_Warnings : list string; to_SealConfig : string;
}.

Section Provision.
Context (os : OS) `{TpmDevice, Hashes}.

(** A node: its files below the state path and its TPM. *)
Definition node_state : Type := (FS * tpm)%type.

Definition provisioned_version (options : tpmProvisionOptions) (metadata : PackageMetadata) (secret : bytes) : KeyVersion :=
  mkKeyVersion (mkKeyRef (pm_ClusterID metadata) (pm_KeyID metadata) (pv_keyVersion options)) StatusActive AlgorithmAES256GCM
    (pv_policyID options) secret.

Definition pcr_selection (options : tpmProvisionOptions) : PCRSelection :=
  if String.eqb (pv_policyMode options) PolicyModeSecureBoot then mkPCRSelection (pv_pcrBank options) (pv_pcrs options)
  else mkPCRSelection EmptyString [].

Definition on_state {A} (m : FS -> tpm -> result A * FS * tpm) : action node_state A := fun '(fs, t) =>
  let '(r, fs, t) := m fs t in (coded ExitRuntime r, (fs, t)).

(** [ctx] and [open]: whether the context has ended and the device opens; [now] and
    [later] are what the clock says when the key is sealed and when its metadata is made. *)
Definition provisionLocalTPM (options : tpmProvisionOptions) (packageFile : result PackageMetadata) (sharesFile : result bytes)
  (ctx open : result unit) (now later : Time) : action node_state tpmProvisionOutput :=
  of_outcome (coded ExitConfig packageFile) ≫= fun metadata =>
  of_outcome (coded ExitCheckFailed (check (empty (pv_expectedClusterID options) ||
                                            String.eqb (pm_ClusterID metadata) (pv_expectedClusterID options))
    (errorf ("recovery package cluster " +:+ quoted (pm_ClusterID metadata) +:+ " does not match expected cluster " +:+
       quoted (pv_expectedClusterID options))))) ≫= fun _ =>
  of_outcome (coded ExitConfig (readSharesFile sharesFile)) ≫= fun shares =>
  of_outcome (coded ExitCheckFailed (Recover metadata shares)) ≫= fun secret =>
  let version := provisioned_version options metadata secret in
  on_state (StoreLocalKey os ctx open (pv_statePath options) version (pv_policyMode options) (pcr_selection options) now later)
  ≫= fun localMetadata =>
  mret (mkTpmProvisionOutput (pv_statePath options) (KeyRef_String (Ref version)) (tp_Mode (lm_TPMPolicy localMetadata))
          [RevocationWarning] (localTPMSealConfigSnippet (Ref version) (pv_statePath options) (pv_tpmDevice options))).

Definition tpmProvisionCommand (raw : tpmProvisionOptions) (pcrs : string) (version : Z) (packageFile : result PackageMetadata)
  (sharesFile : result bytes) (ctx open : result unit) (now later : Time) : action node_state tpmProvisionOutput :=
  of_outcome (parseTPMProvisionOptions raw pcrs version) ≫= fun options =>
  provisionLocalTPM options packageFile sharesFile ctx open now later.

(** ** tpm status *)

Record tpmStatusOptions := mkTpmStatusOptions {
  ts_statePath : string; ts_clusterID : string; ts_keyID : string; ts_keyVersion : Z; ts_format : string;
}.

Definition parseTPMStatusOptions (raw : tpmStatusOptions) : outcome tpmStatusOptions :=
  validateFormat (ts_format raw) ≫= fun _ =>
  coded ExitUsage (check (negb (empty (TrimSpace (ts_statePath raw)))) (errorf "-state-path is required")) ≫= fun _ =>
  parseKeyVersion (ts_keyVersion raw) ≫= fun version =>
  mret (mkTpmStatusOptions (ts_statePath raw) (TrimSpace (ts_clusterID raw)) (TrimSpace (ts_keyID raw)) version (ts_format raw)).

Record tpmStatusOutput := mkTpmStatusOutput {
  tu_StatePath : string; tu_Ready : bool; tu_KeyID : string; tu_PolicyMode : string; tu_Warnings : list string; tu_Errors : list string;
}.

(** The command succeeds whether or not the key is ready. *)
Definition tpmStatusCommand (raw : tpmStatusOptions) (fs : FS) : outcome tpmStatusOutput :=
  parseTPMStatusOptions raw ≫= fun options =>
  let ref := mkKeyRef (ts_clusterID options) (ts_keyID options) (ts_keyVersion options) in
  let status := StatusLocal os (ts_statePath options) fs ref in
  mret (mkTpmStatusOutput (ts_statePath options) (ls_Ready status) (KeyRef_String ref) (ls_Mode status) (ls_Warnings status)
          (ls_Errors status)).
End Provision.

(** ** enroll request *)

Record enrollRequestOutput := mkEnrollRequestOutput { eq_AuditID : string; eq_RequestID : string; eq_Path : string }.

(** [late] is the clock when the request is validated. *)
Definition new_enroll_request `{Hashes} (format clusterID subjectID outPath operationsRaw : string) (ttl : Duration)
  (env : CtlEnv) (late : Time) : outcome Request :=
  validateFormat format ≫= fun _ =>
  coded ExitUsage (check (negb (empty (TrimSpace subjectID) || empty (TrimSpace outPath)))
    (errorf "-subject-id and -out are required")) ≫= fun _ =>
  parseOperations operationsRaw ≫= fun operations =>
  coded ExitRuntime (ctl_randomID env "req") ≫= fun requestID =>
  coded ExitRuntime (ctl_randomID env "nonce") ≫= fun nonce =>
  coded ExitUsage (NewRequest (mkRequestOptions requestID clusterID subjectID operations "development-subject" subjectID
    ("development:" +:+ subjectID) nonce (ce_clock env AtCommand + ttl)) late).

(** The request that the file then holds, and the outcome; the audit identifier is only
    printed. *)
Definition enrollRequestCommand `{Hashes} (format clusterID subjectID outPath operationsRaw : string) (ttl : Duration)
  (env : CtlEnv) (late : Time) : option Request * outcome enrollRequestOutput :=
  match new_enroll_request format clusterID subjectID outPath operationsRaw ttl env late with
  | inr e => (None, inr e)
  | inl request =>
      match ce_write env with
      | Err e => (None, coded ExitConfig (Err e))
      | Ok _ => (Some request, coded ExitRuntime (ctl_randomID env "audit") ≫= fun auditID =>
                   mret (mkEnrollRequestOutput auditID (rq_RequestID request) outPath))
      end
  end.

(** ** The trust state that [enroll apply] writes *)

Record localTrustState := mkLocalTrustState {
  tr_SchemaVersion : Z; tr_GrantID : string; tr_RequestID : string; tr_ClusterID : string; tr_KeyID : string; tr_SubjectID : string;
  tr_ApprovalMode : string; tr_AllowedOperations : option (list string); tr_PolicyID : string; tr_IssuerPublicKey : string;
  tr_AppliedAt : string; tr_StatusCheckedAt : string;
}.

Definition localTrustState_of (grant : Grant) (now : Time) : localTrustState :=
  mkLocalTrustState 1 (g_GrantID grant) (g_RequestID grant) (g_ClusterID grant) (g_KeyID grant) (g_SubjectID grant)
    (g_ApprovalMode grant) (g_AllowedOperations grant) (g_PolicyID grant) (g_IssuerPublicKey grant)
    (FormatRFC3339Nano now) (FormatRFC3339Nano now).

(** ** recover finish *)

Record recoverFinishOutput := mkRecoverFinishOutput { rf_AuditID : string; rf_SessionID : string }.

Definition audit_closed (env : CtlEnv) (statePath auditPath : string) (session : recoverySession) : cmd string := fun b =>
  let '(r, b') := auditWithStatePath env statePath auditPath
    (mkAuditInput "operator" (Operation_String OPERATION_RECOVER) (rc_ClusterID session) (rc_KeyID session) 0 DecisionAllow
       "recovery" "recovery session closed") b in
  or_exit ExitRuntime r b'.

(** [removed] is what removing the session file gives. *)
Definition recoverFinishCommand (format statePath auditPath sessionPath : string) (env : CtlEnv) (sessionFile : result recoverySession)
  (removed : result unit) : cmd recoverFinishOutput :=
  Ctl.validateFormat format ≫= fun _ =>
  (if empty (TrimSpace sessionPath) then exit_with ExitUsage (errorf "-session is required") else mret tt) ≫= fun _ =>
  or_exit ExitConfig sessionFile ≫= fun session =>
  or_exit ExitRuntime (map_err (errorp "remove recovery session") removed) ≫= fun _ =>
  audit_closed env statePath auditPath session ≫= fun auditID =>
  mret (mkRecoverFinishOutput auditID (rc_SessionID session)).
