(* ===== verification/CtlProvisionProps.v ===== *)
(** * What provisioning a node achieves

    [init] makes a key and its shares; [tpm provision] on a node with enough of the shares
    puts that key into the node's TPM state, from which OpenBao's plugin, configured with
    the printed stanza, opens what the broker sealed.  A second provisioned version stops
    all of them from loading. *)

From S2P Require Import Prelude GoStrings Base64 Json JsonText GoTime Keyring KeyProtection Tpm TpmSeal NodeEvidence LocalState StateText LocalStateProps Config.
From S2P Require Import Gf256 Shamir Recovery Grants Sql Store Challenges SqlNodeEvidence StoreInv StoreOps Policy Service Ctl CtlProps KmsConfig KmsPlugin KmsProps KmsLive.
From S2P Require Import Agent AgentProps CtlK8sProps CtlProvision.
From Stdlib Require Import Ascii.
Local Open Scope Z_scope.

(** ** The files of a new key *)

Section Files.
Context (os : OS).
Hypothesis reads_ok : forall p, os_read os p = Ok tt.

Lemma make_dirs_other ps fs r fs' q : make_dirs os fs ps = (r, fs') -> q ∉ ps -> fs' !! q = fs !! q.
Proof.
  revert fs. induction ps as [|p ps IH]; intros fs; [by intros [= _ <-]|]. cbn [make_dirs]. intros Hm Hq. apply not_elem_of_cons in Hq as [Hp Hq].
  unfold make_dir in Hm. destruct (fs !! p) as [[| |]|]; try (by apply IH); try (by injection Hm as _ <-).
  destruct (os_write os p); cbn [mbind result_bind] in Hm; [|by injection Hm as _ <-].
  apply IH in Hm; [|done]. by rewrite Hm, lookup_insert_ne by done.
Qed.

(** A directory that was missing is made private. *)
Lemma make_dirs_new ps fs fs' q : make_dirs os fs ps = (Ok tt, fs') -> q ∈ ps -> fs !! q = None -> fs' !! q = Some (Dir 448).
Proof.
  revert fs. induction ps as [|p ps IH]; intros fs; [by intros _ ?%elem_of_nil|]. cbn [make_dirs]. intros Hm Hq Hn.
  unfold make_dir in Hm. destruct (decide (p = q)) as [->|Hne].
  - rewrite Hn in Hm. destruct (os_write os q); cbn [mbind result_bind] in Hm; [|done].
    eapply make_dirs_grows; [exact Hm|]. apply lookup_insert_eq.
  - apply elem_of_cons in Hq as [->|Hq]; [done|]. destruct (fs !! p) as [[| |]|] eqn:Ep; try done; [by eapply IH|].
    destruct (os_write os p); cbn [mbind result_bind] in Hm; [|done]. eapply IH; [exact Hm | done |]. by rewrite lookup_insert_ne.
Qed.

Lemma prefixes_dirs keyID : prefixes [] (key_dir keyID) = [[]; [LocalStateDir]; keys_dir; key_dir keyID].
Proof. done. Qed.

(** No directory of this key. *)
Definition no_key_dir (fs : FS) (keyID : string) : Prop := forall rest, fs !! (key_dir keyID ++ rest) = None.

Lemma no_key_plain fs keyID : no_key_dir fs keyID -> plain_files fs keyID.
Proof. intros Hn name t. by rewrite Hn. Qed.

Lemma written_new_key statePath ref sealed metadata fs fs' :
  writeLocalState os statePath ref sealed metadata fs = (Ok tt, fs') -> no_key_dir fs (KeyID ref) ->
  fs' !! key_dir (KeyID ref) = Some (Dir 448) /\
  forall name, is_Some (fs' !! (key_dir (KeyID ref) ++ [name])) ->
    name ∈ [version_name (Version ref) +:+ ".sealed"; version_name (Version ref) +:+ metadata_suffix; "pcr-policy.json"%string].
Proof.
  intros (paths & fs1 & fs2 & Hp & Er & _ & Ek & Hw)%writeLocalState_dirs Hnew. rewrite Hw by (by apply no_key_plain). clear Hw.
  destruct (written_lookup ref paths sealed metadata fs2 Hp) as (_ & _ & Lo).
  apply localKeyPaths_Ok in Hp as (_ & ->). cbn [kp_dir kp_sealed kp_metadata kp_pcr] in *. set (dir := key_dir (KeyID ref)) in *.
  assert (forall rest, fs1 !! (dir ++ rest) = None) as H1.
  { intros rest. etransitivity; [eapply make_dirs_other; [exact Er|]; cbn; set_solver|]. apply Hnew. }
  assert (fs2 !! dir = Some (Dir 448)) as H2.
  { eapply make_dirs_new; [exact Ek | unfold dir; rewrite prefixes_dirs; set_solver |]. rewrite <- (app_nil_r dir). apply H1. }
  assert (forall name, fs2 !! (dir ++ [name]) = None) as H3.
  { intros name. etransitivity; [eapply make_dirs_other; [exact Ek|]; unfold dir; rewrite prefixes_dirs; cbn; set_solver|]. apply H1. }
  assert (forall name, dir <> dir ++ [name]) as Hd by (intros name E; apply (f_equal length) in E; rewrite length_app in E; cbn in E; lia).
  assert (forall v w, dir ++ [v] = dir ++ [w] -> v = w) as Hi by (intros v w E; apply app_inv_head in E; by injection E).
  split; [by rewrite Lo|]. intros name [n Hn]. rewrite !elem_of_cons.
  destruct (decide (name = "pcr-policy.json"%string)) as [->|N1]; [tauto|].
  destruct (decide (name = version_name (Version ref) +:+ metadata_suffix)) as [->|N2]; [tauto|].
  destruct (decide (name = version_name (Version ref) +:+ ".sealed")) as [->|N3]; [tauto|].
  rewrite Lo in Hn by (intros ?%Hi; done). by rewrite H3 in Hn.
Qed.

Lemma NoDup_omap_inj {A B} (f : A -> option B) l :
  (forall x y b, f x = Some b -> f y = Some b -> x = y) -> NoDup l -> NoDup (omap f l).
Proof.
  intros Hf. induction 1 as [|x l Hx _ IH]; [constructor|]. cbn. destruct (f x) as [b|] eqn:E; [|done]. constructor; [|done].
  intros (y & Hy & Hb)%list_elem_of_omap. by rewrite (Hf x y b E Hb) in Hx.
Qed.

(** The path of a metadata file, and its name. *)
Definition metadata_entry (keyID : string) (p : path) : option string :=
  match p with
  | [a; b; k; name] =>
      if String.eqb a LocalStateDir && String.eqb b "keys" && String.eqb k keyID &&
         HasPrefix name "v" && HasSuffix (string_drop 1 name) metadata_suffix
      then Some name else None
  | _ => None
  end.

(** The listing names each metadata file once. *)
Lemma metadata_names_spec fs keyID :
  NoDup (metadata_names fs keyID) /\
  forall name, name ∈ metadata_names fs keyID <->
    is_Some (fs !! (key_dir keyID ++ [name])) /\ HasPrefix name "v" = true /\ HasSuffix (string_drop 1 name) metadata_suffix = true.
Proof.
  change (metadata_names fs keyID) with (sort_strings (omap (metadata_entry keyID) (fst <$> map_to_list fs))). set (f := metadata_entry keyID). rewrite sort_strings_perm.
  assert (forall p name, f p = Some name <-> p = key_dir keyID ++ [name] /\ HasPrefix name "v" = true /\
    HasSuffix (string_drop 1 name) metadata_suffix = true) as Hf.
  { intros p name. unfold f, metadata_entry, key_dir. destruct p as [|a [|b [|k [|n [|]]]]]; try (split; [done|]; by intros [[=] _]).
    destruct (String.eqb_spec a LocalStateDir) as [->|]; [|split; [done | by intros [[=] _]]].
    destruct (String.eqb_spec b "keys") as [->|]; [|split; [done | by intros [[=] _]]].
    destruct (String.eqb_spec k keyID) as [->|]; [|split; [done | by intros [[=] _]]]. cbn [andb].
    destruct (HasPrefix n "v" && HasSuffix (string_drop 1 n) metadata_suffix) eqn:E.
    - apply andb_true_iff in E as [E1 E2]. split; [by intros [= <-] | by intros [[= <-] _]].
    - split; [done|]. intros ([= <-] & E1 & E2). by rewrite E1, E2 in E. }
  split.
  - apply NoDup_omap_inj; [|apply NoDup_fst_map_to_list]. intros p q name (-> & _)%Hf (-> & _)%Hf. done.
  - intros name. rewrite sort_strings_perm. setoid_rewrite list_elem_of_omap. setoid_rewrite Hf. split.
    + intros (p & Hin & -> & H1 & H2). split_and!; try done. apply list_elem_of_fmap in Hin as ([q n] & E & Hin). cbn in E. subst q.
      apply elem_of_map_to_list in Hin. by exists n.
    + intros ([n Hn] & H1 & H2). exists (key_dir keyID ++ [name]). split; [|done].
      by apply elem_of_map_to_list, (list_elem_of_fmap_2 fst) in Hn.
Qed.

Lemma only_metadata statePath ref sealed metadata fs fs' :
  writeLocalState os statePath ref sealed metadata fs = (Ok tt, fs') -> no_key_dir fs (KeyID ref) ->
  metadata_names fs' (KeyID ref) = [version_name (Version ref) +:+ metadata_suffix].
Proof.
  intros Hw Hnew. destruct (written_new_key _ _ _ _ _ _ Hw Hnew) as [_ Hnames]. destruct (metadata_names_spec fs' (KeyID ref)) as [Hnd Hin].
  set (name := version_name (Version ref) +:+ metadata_suffix) in *.
  assert (forall n, n ∈ metadata_names fs' (KeyID ref) -> n = name) as Hall.
  { intros n (Hs & Hp & Hx)%Hin. apply Hnames in Hs. rewrite !elem_of_cons in Hs. destruct Hs as [->|[->|[->|?%elem_of_nil]]]; [|done..].
    unfold HasSuffix, HasPrefix, version_name in Hx. rewrite <- sapp_assoc in Hx. change (string_drop 1 ("v" +:+ ?x)) with x in Hx.
    rewrite srev_app in Hx. done. }
  assert (name ∈ metadata_names fs' (KeyID ref)) as Hn.
  { apply writeLocalState_Ok in Hw as (paths & fs0 & Hp & _ & _ & ->); [|done|by apply no_key_plain]. pose proof (written_lookup ref paths sealed metadata fs0 Hp) as (Lm & _ & _).
    apply localKeyPaths_Ok in Hp as (_ & ->). cbn [kp_metadata] in Lm. eapply metadata_name_listed; [exact Lm | |].
    - apply (proj1 (TrimPrefix_app "v" (FormatUint (Version ref) +:+ metadata_suffix))).
    - unfold name, HasSuffix, HasPrefix, version_name. rewrite <- sapp_assoc.
      change (string_drop 1 ("v" +:+ ?x)) with x. rewrite srev_app. by rewrite prefix_app. }
  destruct (metadata_names fs' (KeyID ref)) as [|a [|b l]]; [by apply elem_of_nil in Hn | f_equal; apply Hall; by left |].
  rewrite (Hall a), (Hall b) in Hnd by set_solver. apply NoDup_cons in Hnd as [Hx _]. set_solver.
Qed.
End Files.

(** ** Loading what was provisioned *)

Section Loading.
Context (os : OS) `{TpmDevice, Hashes}.
Hypothesis reads_ok : forall p, os_read os p = Ok tt.

Lemma validateStateRoot_blank p fs : validateStateRoot os p fs = Ok tt -> TrimSpace p <> EmptyString.
Proof. unfold validateStateRoot. intros Hv. inv_ok. by to_prop. Qed.

(** The path matters only as far as it may be blank. *)
Lemma validateStateRoot_path p p' fs :
  validateStateRoot os p fs = Ok tt -> TrimSpace p' <> EmptyString -> validateStateRoot os p' fs = Ok tt.
Proof.
  intros Hv Hp'. pose proof (validateStateRoot_blank _ _ Hv) as Hp. unfold validateStateRoot in *.
  rewrite (proj2 (String.eqb_neq _ _) Hp) in Hv. by rewrite (proj2 (String.eqb_neq _ _) Hp').
Qed.

(** The one key of a directory is the one usable key. *)
Lemma only_usable statePath fs ref sealed m clusterID keyID :
  ReadLocalState os statePath fs ref = Ok (sealed, m) -> ClusterID ref = clusterID -> KeyID ref = keyID ->
  fs !! key_dir keyID = Some (Dir 448) -> metadata_names fs keyID = [version_name (Version ref) +:+ metadata_suffix] ->
  lm_Status m = StatusActive -> localUsableKeyRefs os statePath fs clusterID keyID = Ok [ref].
Proof.
  intros Hr Hc Hk Hd Hn Hs. unfold ReadLocalState in Hr. inv_ok. units. simplify_eq.
  match goal with E : localKeyPaths _ = Ok _ |- _ => apply localKeyPaths_Ok in E as (_ & ->) end. cbn [kp_metadata] in *.
  assert (mkKeyRef (lm_ClusterID m) (lm_KeyID m) (lm_Version m) = ref) as Href.
  { match goal with E : LocalKeyMetadata_Validate _ _ = _ |- _ => unfold LocalKeyMetadata_Validate in E; inv_ok; to_prop end.
    destruct ref; cbn in *; congruence. }
  unfold localUsableKeyRefs. match goal with E : validateStateRoot _ _ _ = _ |- _ => rewrite E end. cbn [mbind result_bind].
  unfold Lstat. rewrite reads_ok. cbn [mbind result_bind]. rewrite Hd. cbn [of_option map_err mbind result_bind check negb].
  change (writable_by_others (Dir 448)) with false. cbn [negb check mbind result_bind]. rewrite Hn. cbn [foldR].
  unfold usable_step. match goal with E : readLocalKeyMetadata _ _ _ = _ |- _ => rewrite E end. cbn [mbind result_bind].
  rewrite Href. match goal with E : LocalKeyMetadata_Validate _ _ = _ |- _ => rewrite E end. cbn [mbind result_bind].
  rewrite !String.eqb_refl. cbn [andb check mbind result_bind]. by rewrite Hs.
Qed.

(** A key stored where the node had none loads alone. *)
Lemma stored_alone_loads statePath version mode sel now later fs t metadata fs' t' :
  pcrs_typed -> uint32 (Version (Ref version)) -> KStatus version = StatusActive -> no_key_dir fs (KeyID (Ref version)) ->
  StoreLocalKey os (Ok tt) (Ok tt) statePath version mode sel now later fs t = (Ok metadata, fs', t') ->
  KeyRef_Validate (Ref version) = Ok tt /\ KeyVersion_Validate version = Ok tt /\ TrimSpace statePath <> EmptyString /\
  exists sealed t1, UnsealKey sealed t1 = (Ok (Material version), t') /\
    forall statePath' t2 t3, TrimSpace statePath' <> EmptyString -> UnsealKey sealed t2 = (Ok (Material version), t3) ->
      LoadLocalKeyring os (Ok tt) (Ok tt) statePath' (ClusterID (Ref version)) (KeyID (Ref version)) fs' t2
      = (Ok (mkRing [version], [ordered_metadata metadata]), t3).
Proof.
  intros Hty Hu Hact Hnew (Hr & Hl & sealed & t1 & Hs & Hun & Hm & Hv & Hw)%StoreLocalKey_Ok.
  apply SealKey_typed in Hs as (Hst & Hsv & _ & Hmode); [|done].
  assert (text mode) as Htm by (by destruct Hmode as [->| ->]).
  assert (metadata_typed metadata) as Hmt by (subst; by apply local_metadata_typed).
  destruct (written_new_key os reads_ok _ _ _ _ _ _ Hw Hnew) as [Hdir _].
  pose proof (only_metadata os reads_ok _ _ _ _ _ _ Hw Hnew) as Hnames.
  apply (writeLocalState_Ok os reads_ok) in Hw as (paths & fs0 & Hp & Hroot & _ & ->); [|by apply no_key_plain].
  assert (KeyVersion_Validate version = Ok tt) as Hver by (apply (stored_version_valid version mode sealed later); [by subst | done]).
  assert (local_version (Ref version) (ordered_metadata metadata) (Material version) = version) as Heq
    by (subst metadata; by destruct version).
  assert (ValidateIdentifier (ClusterID (Ref version)) = Ok tt /\ ValidateIdentifier (KeyID (Ref version)) = Ok tt) as [Hc Hk].
  { unfold KeyRef_Validate in Hr. unfold ValidateIdentifier. inv_ok. to_prop. by rewrite !check_Ok. }
  split; [done|]. split; [done|]. split; [by apply validateStateRoot_blank in Hroot|]. exists sealed, t1. split; [done|].
  intros statePath' t2 t3 Hpath Hun2. apply (validateStateRoot_path _ statePath') in Hroot; [|done].
  pose proof (written_is_read os reads_ok statePath' _ _ _ _ _ Hp Hroot Hst Hmt Hsv Hv) as Hread. unfold LoadLocalKeyring.
  rewrite (only_usable _ _ (Ref version) (ordered_sealed sealed) (ordered_metadata metadata)); try done; [|by subst].
  rewrite Hc, Hk. unfold mbind, tpm_bind, lift, mret, tpm_ret. cbn [load_refs map_err]. unfold lift, mbind, tpm_bind, mret, tpm_ret.
  rewrite Hread. cbn [fst snd]. unfold map_error. rewrite UnsealKey_ordered, Hun2. cbn [fst snd map_err]. by rewrite Heq, active_alone.
Qed.
End Loading.

(** ** Provisioning again *)

Section Again.
Context (os : OS) `{TpmDevice, Hashes}.
Hypothesis reads_ok : forall p, os_read os p = Ok tt.

Lemma readLocalJSON_kept {A} (fields : list (string * (json -> A -> result A))) zero fs fs' p x :
  (forall n, fs !! p = Some n -> fs' !! p = Some n) -> readLocalJSON os fields zero fs p = Ok x -> readLocalJSON os fields zero fs' p = Ok x.
Proof.
  intros Hk Hr. destruct (readLocalJSON_private os _ _ _ _ _ Hr) as (perm & content & Hf & _). specialize (Hk _ Hf).
  unfold readLocalJSON, Lstat, ReadFile in *. rewrite !resolve_plain in * by (by eapply plain_node). cbn [mbind result_bind] in *.
  by rewrite Hf in Hr; rewrite Hk.
Qed.

Lemma digits_dot d1 d2 r1 r2 :
  string_forall is_digit d1 = true -> string_forall is_digit d2 = true ->
  d1 +:+ String "." r1 = d2 +:+ String "." r2 -> d1 = d2.
Proof.
  revert d2. induction d1 as [|c d1 IH]; intros [|c2 d2]; cbn; try done.
  - intros _ (Hd & _)%andb_true_iff [= <- _]. by vm_compute in Hd.
  - intros (Hd & _)%andb_true_iff _ [= -> _]. by vm_compute in Hd.
  - intros (_ & H1)%andb_true_iff (_ & H2)%andb_true_iff [= -> E]. f_equal. by apply IH.
Qed.

(** The files of two versions have different names. *)
Lemma version_files_differ v w r1 r2 :
  0 <= v <= uint32_max -> 0 <= w <= uint32_max -> version_name v +:+ String "." r1 = version_name w +:+ String "." r2 -> v = w.
Proof.
  unfold version_name. rewrite <- !sapp_assoc. intros Hv Hw E. apply sapp_inv_l in E.
  apply digits_dot in E; [|apply FormatUint_digits; lia..]. apply FormatUint_inj in E; unfold uint32_max in *; lia.
Qed.

(** What one version left is read after another version was written. *)
Lemma other_version_kept statePath r s metadata fs fs' ref x :
  writeLocalState os statePath r s metadata fs = (Ok tt, fs') -> plain_files fs (KeyID r) -> Version ref <> Version r -> uint32 (Version ref) -> uint32 (Version r) ->
  ReadLocalState os statePath fs ref = Ok x -> ReadLocalState os statePath fs' ref = Ok x.
Proof.
  intros Hw Hplain Hne H1 H2 Hr. apply (writeLocalState_Ok os reads_ok) in Hw as (paths & fs0 & Hp & Hroot & Hg & ->); [|done].
  destruct (written_lookup r paths s metadata fs0 Hp) as (_ & _ & Lo). apply localKeyPaths_Ok in Hp as (_ & ->). cbn [kp_metadata kp_sealed kp_pcr] in Lo.
  assert (forall k q n, q = key_dir (KeyID ref) ++ [version_name (Version ref) +:+ String "." k] -> fs !! q = Some n ->
    written (mkKeyPaths (key_dir (KeyID r)) (key_dir (KeyID r) ++ [version_name (Version r) +:+ ".sealed"])
      (key_dir (KeyID r) ++ [version_name (Version r) +:+ metadata_suffix]) (key_dir (KeyID r) ++ ["pcr-policy.json"%string]))
      s metadata fs0 !! q = Some n) as Hkeep.
  { intros k q n -> Hq. rewrite Lo; [by apply Hg | intros [_ E]%List.app_inj_tail..]; [apply Hne.. | done].
    - by eapply (version_files_differ _ _ k "metadata.json").
    - by eapply (version_files_differ _ _ k "sealed"). }
  unfold ReadLocalState in *. inv_ok. units. simplify_eq.
  match goal with E : localKeyPaths _ = Ok _ |- _ => pose proof E as Hp; apply localKeyPaths_Ok in E as (_ & ->) end.
  rewrite (validateStateRoot_kept os reads_ok statePath fs0); [|done|].
  - rewrite Hp. cbn [mbind result_bind kp_metadata kp_sealed] in *.
    unfold readLocalKeyMetadata, readSealedBlob in *.
    match goal with E : readLocalJSON _ metadata_fields _ _ ?p = Ok _ |- _ =>
      rewrite (readLocalJSON_kept _ _ _ _ p _ (fun n => Hkeep "metadata.json"%string p n eq_refl) E) end. cbn [mbind result_bind].
    match goal with E : LocalKeyMetadata_Validate _ _ = _ |- _ => rewrite E end. cbn [mbind result_bind].
    match goal with E : readLocalJSON _ sealed_fields _ _ ?p = Ok _ |- _ =>
      rewrite (readLocalJSON_kept _ _ _ _ p _ (fun n => Hkeep "sealed"%string p n eq_refl) E) end. cbn [mbind result_bind].
    match goal with E : SealedBlob_Validate _ = _ |- _ => rewrite E end. done.
  - intros p q Hl Hq. rewrite Lo; [done | intros ->..]; cbn in Hl; lia.
Qed.
End Again.

(** ** The printed stanza *)

Definition local_config (ref : KeyRef) (statePath tpmDevice : string) : KmsConfig :=
  mkKmsConfig ModeLocalTPM EmptyString false EmptyString EmptyString EmptyString EmptyString (ClusterID ref) (KeyID ref) (Version ref)
    EmptyString EmptyString EmptyString EmptyString (TrimSpace statePath) (TrimSpace tpmDevice).

(** The plugin accepts what [tpm provision] prints. *)
Lemma printed_stanza_parses ref statePath tpmDevice :
  KeyRef_Validate ref = Ok tt -> uint32 (Version ref) -> TrimSpace statePath <> EmptyString ->
  parseConfig (local_seal_members ref statePath tpmDevice) = Ok (local_config ref statePath tpmDevice).
Proof.
  intros Hr Hu Hp. unfold KeyRef_Validate in Hr. inv_ok. to_prop. unfold uint32, uint32_max in Hu.
  assert (TrimSpace (FormatUint (Version ref)) = FormatUint (Version ref)) as Ht.
  { apply TrimSpace_visible. eapply string_forall_impl; [|apply FormatUint_digits; lia]. intros c'. by destruct c' as [[] [] [] [] [] [] [] []]. }
  set (ms := local_seal_members _ _ _). unfold parseConfig. change (check_known ms) with (Ok tt : result unit). cbn [mbind result_bind]. unfold trimmed.
  change (value_of ms configKeyMode) with "local-tpm"%string. change (value_of ms configKeyClusterID) with (ClusterID ref).
  change (value_of ms configKeyKeyID) with (KeyID ref). change (value_of ms configKeyKeyVersion) with (FormatUint (Version ref)).
  change (value_of ms configKeyStatePath) with statePath. change (value_of ms configKeyTPMDevice) with tpmDevice.
  repeat match goal with |- context [value_of ms ?x] => change (value_of ms x) with EmptyString end.
  rewrite TrimSpace_empty, Ht, !TrimSpace_identifier by done. change (TrimSpace "local-tpm") with "local-tpm"%string.
  rewrite String.eqb_refl. cbn [mbind result_bind]. rewrite (proj2 (String.eqb_neq _ _) (FormatUint_nonempty _)), ParseUint32_FormatUint by done.
  cbn [of_option mbind result_bind].
  assert (KmsConfig_Validate (local_config ref statePath tpmDevice) = Ok tt) as Hv.
  { apply KmsConfig_Validate_Ok. unfold kms_config_ok, optional_ok, local_config, local_config_ok. cbn. tauto. }
  unfold local_config in *. change ModeLocalTPM with "local-tpm"%string in *. by rewrite Hv.
Qed.

(** ** Provisioning *)

Section Provision.
Context (os : OS) `{TpmDevice, Hashes}.

Lemma provisionLocalTPM_Ok options package file chosen ctx open now later fs t out fs' t' secret :
  provisionLocalTPM os options (Ok package) file ctx open now later (fs, t) = (inl out, (fs', t')) ->
  readSharesFile file = Ok chosen -> Recover package chosen = Ok secret ->
  exists metadata, StoreLocalKey os ctx open (pv_statePath options) (provisioned_version options package secret) (pv_policyMode options)
    (pcr_selection options) now later fs t = (Ok metadata, fs', t').
Proof.
  unfold provisionLocalTPM. intros Hr Hf Hs. inv_run. simplify_eq.
  match goal with E : on_state _ _ = _ |- _ => unfold on_state in E; destruct (StoreLocalKey _ _ _ _ _ _ _ _ _ _ _) as [[r fs1] t1] eqn:Es; injection E as Er ? ? end.
  apply coded_inl in Er. rewrite Hf in *. simplify_eq. rewrite Hs in *. simplify_eq. by eexists.
Qed.

Hypothesis reads_ok : forall p, os_read os p = Ok tt.
Context `{AEADLaws}.

(** What the node's plugin makes of its configuration when the sealed key opens. *)
Definition plugin_opens (config : KmsConfig) (sealed : SealedBlob) (fs : FS) (v : KeyVersion) : Prop :=
  forall W (node : LocalNode W) (w : W) t', node_os w = os -> node_fs w = fs -> node_open (k_TPMDevice config) w = Ok tt ->
    UnsealKey sealed (node_tpm w) = (Ok (Material v), t') ->
    exists b, newLocalTPMBackend (Ok tt) config w = (Ok b, node_set_tpm t' w) /\ lb_ring b = mkRing [v] /\ lb_active b = Ref v.

(** A key stored where the node had none is the key of the plugin. *)
Lemma plugin_opens_stored statePath version mode sel now later fs t metadata fs' t' tpmDevice :
  pcrs_typed -> uint32 (Version (Ref version)) -> KStatus version = StatusActive -> no_key_dir fs (KeyID (Ref version)) ->
  StoreLocalKey os (Ok tt) (Ok tt) statePath version mode sel now later fs t = (Ok metadata, fs', t') ->
  KeyVersion_Validate version = Ok tt /\ exists sealed t1, UnsealKey sealed t1 = (Ok (Material version), t') /\
    exists config, parseConfig (local_seal_members (Ref version) statePath tpmDevice) = Ok config /\ plugin_opens config sealed fs' version.
Proof.
  intros Hty Hu Hact Hnew Hst. pose proof Hst as (_ & _ & s0 & u0 & _ & _ & Hm & _)%StoreLocalKey_Ok.
  destruct (stored_alone_loads os reads_ok _ _ _ _ _ _ _ _ _ _ _ Hty Hu Hact Hnew Hst) as (Hr & Hv & Hp & sealed & t1 & Hun & Hload).
  split; [done|]. exists sealed, t1. split; [done|]. exists (local_config (Ref version) statePath tpmDevice).
  split; [by apply printed_stanza_parses|]. intros W node w t2 Hos Hfs Hop Hun2.
  unfold newLocalTPMBackend, load_keyring, mbind, call_bind, wrap_error, pure, mret, call_ret.
  cbn [local_config k_StatePath k_ClusterID k_KeyID k_KeyVersion k_TPMDevice] in *. rewrite Hos, Hfs, Hop.
  rewrite (Hload _ _ t2); [| by rewrite TrimSpace_idem | done]. cbn [fst snd].
  assert (Active (Some (mkRing [version])) = Ok version) as Ha by (cbn; unfold canEncrypt; by rewrite Hact).
  assert (metadataContainsVersion [ordered_metadata metadata] (Version (Ref version)) = true) as Hc.
  { subst metadata. unfold metadataContainsVersion. cbn. by rewrite Z.eqb_refl. }
  cbn [map_err fst snd result_bind]. rewrite Ha, Hc, orb_true_r. by eexists.
Qed.
End Provision.

(** C13: what [init] printed is enough for a node: a [tpm provision] that succeeds, of
    key version 1, with the recovery package, any threshold of the shares and the policy
    ID that [init] was given, on a node whose files can be read and that has no
    directory for the key, leaves a sealed key such that OpenBao's plugin, configured
    with the printed stanza, holds the broker's keyring whenever the device opens that
    key: and it opens exactly what version 1 of the broker sealed, whatever happened to
    the broker's store since.  The policy ID has to be given: it is bound to every blob,
    and its defaults are [development] in [init] and [local-tpm] in [tpm provision]. *)
Theorem provisioned_node_opens (os : OS) `{TpmDevice, Hashes, AEADLaws} options env b out b1 pv file chosen now later fs t pout fs' t' :
  (forall p, os_read os p = Ok tt) -> pcrs_typed ->
  reachable (b_db b) -> ctl_typed env -> Forall is_byte (ce_coefficients env) ->
  initCommand options env b = (inl out, b1) ->
  readSharesFile file = Ok chosen -> NoDup chosen -> chosen ⊆ io_RecoveryShares out ->
  in_threshold options <= Z.of_nat (length chosen) ->
  pv_keyVersion pv = 1 -> pv_policyID pv = in_policyID options -> no_key_dir fs (in_keyID options) ->
  provisionLocalTPM os pv (Ok (io_RecoveryPackage out)) file (Ok tt) (Ok tt) now later (fs, t) = (inl pout, (fs', t')) ->
  let c := in_clusterID options in
  exists v1 sealed t1 config, loadDevelopmentKeyring (b_db b1) c = Ok (mkRing [v1]) /\
    UnsealKey sealed t1 = (Ok (Material v1), t') /\
    parseConfig (local_seal_members (Ref v1) (pv_statePath pv) (pv_tpmDevice pv)) = Ok config /\
    plugin_opens os config sealed fs' v1 /\
    forall ops ring v nonce p aad info, Forall op_typed ops -> loadDevelopmentKeyring (run ops (b_db b1)) c = Ok ring ->
      Active (Some ring) = Ok v -> len nonce = NonceSize -> Encrypt (Ok tt) (Ok nonce) (Some ring) p aad = Ok info ->
      Decrypt (Ok tt) (Some (mkRing [v1])) (Some info) aad = if sameRef (Ref v) (Ref v1) then Ok p else Err ErrKeyNotFound.
Proof.
  intros Hos Hty Hr He Hb Hinit Hf Hnd Hch Hth Hn1 Hpol Hnew Hpv c.
  pose proof (init_steps options env b) as Hst. rewrite Hinit in Hst.
  destruct (steps_le _ _ (reachable_inv _ Hr) Hst) as [_ Hi1]. pose proof (reachable_inv _ Hr) as [Hk _ _].
  destruct (init_effect _ _ _ _ _ Hk Hinit) as (material & id & pkg & Hcr & Ep & Es & Hv & record & at1 & Hp & Hsole).
  rewrite Es in Hch. set (v1 := first_version _ _ _ _) in *.
  pose proof (Recover_chosen _ _ _ _ _ _ _ _ _ _ Hcr (proj2 (He AtCommand)) Hb Hnd Hch Hth) as Hrec. rewrite <- Ep in Hrec.
  destruct (provisionLocalTPM_Ok os _ _ _ _ _ _ _ _ _ _ _ _ _ _ Hpv Hf Hrec) as (metadata & Hstore).
  assert (provisioned_version pv (io_RecoveryPackage out) material = v1) as Ev.
  { apply Create_Ok in Hcr as (_ & _ & ->). unfold provisioned_version. by rewrite Ep, Hn1, Hpol. }
  rewrite Ev in Hstore.
  assert (uint32 (Version (Ref v1))) as Hu1 by (unfold uint32, uint32_max; cbn; lia).
  destruct (plugin_opens_stored os Hos _ v1 _ _ _ _ _ _ _ _ _ (pv_tpmDevice pv) Hty Hu1 eq_refl Hnew Hstore)
    as (_ & sealed & t1 & Hun & config & Hcfg & Hopens).
  exists v1, sealed, t1, config. split; [exact (sole_ring _ _ _ v1 at1 record Hv eq_refl eq_refl Hp Hsole)|].
  split; [done|]. split; [done|]. split; [done|].
  intros ops ring v nonce p aad info Hops Hl Ha Hn Henc.
  destruct (loaded_ring _ _ _ _ (si_keys _ (run_inv ops _ Hi1 Hops)) Hl) as (vs & -> & _).
  destruct (later_same _ _ _ v1 record at1 ops vs v Hi1 Hsole Hp eq_refl Hops Hl (Active_elem _ _ Ha)) as (Hval & Hu & Hsame).
  rewrite (Encrypt_active _ v) in Henc by done. injection Henc as <-. by apply one_ring_opens.
Qed.

(** ** A second version *)

Section Second.
Context (os : OS) `{TpmDevice, Hashes}.
Hypothesis reads_ok : forall p, os_read os p = Ok tt.

(** Two versions marked active stop every load. *)
Lemma two_active_never_load ctx open statePath c k fs t r t' ref1 ref2 x1 x2 :
  ClusterID ref1 = c -> KeyID ref1 = k -> ClusterID ref2 = c -> KeyID ref2 = k -> ref1 <> ref2 ->
  ReadLocalState os statePath fs ref1 = Ok x1 -> lm_Status x1.2 = StatusActive ->
  ReadLocalState os statePath fs ref2 = Ok x2 -> lm_Status x2.2 = StatusActive ->
  LoadLocalKeyring os ctx open statePath c k fs t <> (Ok r, t').
Proof.
  intros C1 K1 C2 K2 Hne R1 A1 R2 A2 Hl. destruct r as [ring ms]. apply LoadLocalKeyring_Ok in Hl as (Hn & Hf & Hu).
  apply NewRing_spec in Hn as [(_ & _ & Hcount) _]. apply usable_refs_listed in Hu as [_ Hall].
  assert (forall ref x, ClusterID ref = c -> KeyID ref = k -> ReadLocalState os statePath fs ref = Ok x -> lm_Status x.2 = StatusActive ->
    exists v, v ∈ filter (fun v => KStatus v = StatusActive) (versions ring) /\ Ref v = ref) as Hactive.
  { intros ref [s m] Hc Hk Hr Ha. cbn [snd] in Ha. pose proof (Hall ref s m Hc Hk Hr (or_introl Ha)) as (v & -> & Hv)%list_elem_of_fmap.
    exists v. split; [|done]. apply list_elem_of_filter. split; [|done].
    apply list_elem_of_lookup in Hv as (i & Hi). destruct (Forall2_lookup_l _ _ _ _ _ Hf Hi) as (m' & _ & s' & t1 & t2 & Hr' & _ & Hv).
    rewrite Hr in Hr'. injection Hr' as <- <-. by rewrite Hv. }
  destruct (Hactive _ _ C1 K1 R1 A1) as (v1 & H1 & <-). destruct (Hactive _ _ C2 K2 R2 A2) as (v2 & H2 & <-).
  unfold count_status in Hcount. destruct (filter _ _) as [|a [|b l]]; [by apply elem_of_nil in H1 | | cbn [length] in Hcount; lia].
  apply list_elem_of_singleton in H1, H2. congruence.
Qed.

Lemma stored_is_read ctx open statePath version mode sel now later fs t metadata fs' t' :
  pcrs_typed -> uint32 (Version (Ref version)) -> plain_files fs (KeyID (Ref version)) ->
  StoreLocalKey os ctx open statePath version mode sel now later fs t = (Ok metadata, fs', t') ->
  plain_files fs' (KeyID (Ref version)) /\
  exists sealed, ReadLocalState os statePath fs' (Ref version) = Ok (sealed, ordered_metadata metadata) /\
    lm_Status (ordered_metadata metadata) = KStatus version /\
    forall ref x, Version ref <> Version (Ref version) -> uint32 (Version ref) ->
      ReadLocalState os statePath fs ref = Ok x -> ReadLocalState os statePath fs' ref = Ok x.
Proof.
  intros Hty Hu Hplain (Hr & Hl & sealed & t1 & Hs & Hun & Hm & Hv & Hw)%StoreLocalKey_Ok.
  apply SealKey_typed in Hs as (Hst & Hsv & _ & Hmode); [|done].
  assert (text mode) as Htm by (by destruct Hmode as [->| ->]).
  assert (metadata_typed metadata) as Hmt by (subst; by apply local_metadata_typed).
  split; [by eapply writeLocalState_plain|]. exists (ordered_sealed sealed). split; [|split; [by subst | intros ref x Hne Hu' Hx; by eapply other_version_kept]].
  apply (writeLocalState_Ok os reads_ok) in Hw as (paths & fs0 & Hp & Hroot & _ & ->); [|done]. by apply written_is_read.
Qed.

(** [tpm provision] stores every version as active, also after a rotation: once a node
    holds two versions of a key, none of them loads again.  (None of the key's files is a
    symbolic link.) *)
Lemma second_version_blocks_loading pv1 pv2 package1 package2 file1 file2 chosen1 chosen2 secret1 secret2 c k
    ctx1 open1 now1 later1 ctx2 open2 now2 later2 s1 out1 s1' t2 out2 s2' :
  pcrs_typed -> pv_statePath pv1 = pv_statePath pv2 -> plain_files s1.1 k ->
  pm_ClusterID package1 = c -> pm_KeyID package1 = k -> pm_ClusterID package2 = c -> pm_KeyID package2 = k ->
  pv_keyVersion pv1 <> pv_keyVersion pv2 -> uint32 (pv_keyVersion pv1) -> uint32 (pv_keyVersion pv2) ->
  readSharesFile file1 = Ok chosen1 -> Recover package1 chosen1 = Ok secret1 ->
  readSharesFile file2 = Ok chosen2 -> Recover package2 chosen2 = Ok secret2 ->
  provisionLocalTPM os pv1 (Ok package1) file1 ctx1 open1 now1 later1 s1 = (inl out1, s1') ->
  provisionLocalTPM os pv2 (Ok package2) file2 ctx2 open2 now2 later2 (s1'.1, t2) = (inl out2, s2') ->
  forall ctx open t r t', LoadLocalKeyring os ctx open (pv_statePath pv1) c k s2'.1 t <> (Ok r, t').
Proof.
  destruct s1 as [fs t], s1' as [fs1 t1], s2' as [fs2 t3]. cbn [fst].
  intros Hty Hpath Hplain C1 K1 C2 K2 Hne U1 U2 F1 R1 F2 R2 P1 P2.
  destruct (provisionLocalTPM_Ok os _ _ _ _ _ _ _ _ _ _ _ _ _ _ P1 F1 R1) as (m1 & S1).
  destruct (provisionLocalTPM_Ok os _ _ _ _ _ _ _ _ _ _ _ _ _ _ P2 F2 R2) as (m2 & S2).
  set (v1 := provisioned_version pv1 package1 secret1) in *. set (v2 := provisioned_version pv2 package2 secret2) in *.
  assert (KeyID (Ref v1) = k /\ KeyID (Ref v2) = k) as [E1 E2] by done.
  destruct (stored_is_read _ _ _ v1 _ _ _ _ _ _ _ _ _ Hty U1 ltac:(by rewrite E1) S1) as (Hplain1 & sealed1 & Q1 & A1 & _).
  rewrite E1 in Hplain1.
  destruct (stored_is_read _ _ _ v2 _ _ _ _ _ _ _ _ _ Hty U2 ltac:(by rewrite E2) S2) as (_ & sealed2 & Q2 & A2 & Hkeep).
  intros ctx open t4 r t5. rewrite <- Hpath in Hkeep, Q2. pose proof (Hkeep (Ref v1) _ Hne U1 Q1) as Q1'.
  apply (two_active_never_load ctx open _ c k fs2 t4 r t5 (Ref v1) (Ref v2) _ _ C1 K1 C2 K2) with (2 := Q1') (4 := Q2); [|done..].
  intros [=]. done.
Qed.
End Second.

(** ** Closing a recovery *)

(** [recover finish] changes nothing of the store but its audit records. *)
Lemma recoverFinish_steps format statePath auditPath sessionPath env sessionFile removed :
  cmd_steps (recoverFinishCommand format statePath auditPath sessionPath env sessionFile removed).
Proof.
  unfold recoverFinishCommand, Ctl.validateFormat. walk. intros b. unfold audit_closed, auditWithStatePath.
  assert (forall store input, steps (b_db b) (b_db (let '(r, b') := audit env store auditPath input b in
    or_exit ExitRuntime r b' : (string + _) * Broker).2)) as Ha.
  { intros store input. pose proof (ctl_audit_steps env store auditPath input b) as Hs. by destruct (audit env store auditPath input b) as [[r|e] b']. }
  case_goal; [apply Ha|]. destruct (ce_open env); [apply Ha | apply steps_refl].
Qed.

(** ** A provisioned node *)

Definition example_pv : tpmProvisionOptions :=
  mkTpmProvisionOptions "/var/lib/node" "package.json" "shares.json" "cluster-a" 1 PolicyModeSecureBoot "sha256" [7] "policy-1" "/dev/tpmrm0" "json".
Definition example_provision : outcome tpmProvisionOutput * (FS * tpm) :=
  @provisionLocalTPM toy_os toy_device toy_Hashes example_pv (Ok (io_RecoveryPackage example_init_output)) example_shares_file (Ok tt) (Ok tt)
    example_time (example_time + Second) (toy_fs, toy_start).

Definition is_done {A : Type} (r : outcome A) : bool := match r with inl _ => true | inr _ => false end.

Lemma is_done_run {A : Type} (r : outcome A * (FS * tpm)) : is_done r.1 = true -> exists out, r = (inl out, (r.2.1, r.2.2)).
Proof. destruct r as [[out|e] [fs t]]; [by exists out | done]. Qed.

Lemma provisioned_node_opens_witness :
  exists v1 sealed t1 config, loadDevelopmentKeyring (b_db example_init.2) "cluster-a" = Ok (mkRing [v1]) /\
    @UnsealKey toy_device sealed t1 = (Ok (Material v1), example_provision.2.2) /\
    parseConfig (local_seal_members (Ref v1) "/var/lib/node" "/dev/tpmrm0") = Ok config /\
    plugin_opens toy_os config sealed example_provision.2.1 v1.
Proof.
  destruct (is_done_run example_provision) as (out & Hout); [vm_cast_no_check (@eq_refl _ true)|].
  destruct (@provisioned_node_opens toy_os toy_device toy_Hashes toy_AEAD toy_AEADLaws example_init_options example_ctl_env no_broker
    example_init_output example_init.2 example_pv example_shares_file example_chosen example_time (example_time + Second) toy_fs toy_start
    out example_provision.2.1 example_provision.2.2)
    as (v1 & sealed & t1 & config & H1 & H2 & H3 & H4 & _).
  - exact toy_reads_ok.
  - exact toy_pcrs_typed.
  - apply reach_empty.
  - exact example_ctl_typed.
  - apply (bool_decide_unpack _). vm_compute. exact I.
  - vm_compute. reflexivity.
  - vm_compute. reflexivity.
  - apply (bool_decide_unpack _). vm_compute. exact I.
  - intros x Hx. unfold example_chosen in Hx. by apply subseteq_drop in Hx.
  - vm_compute. discriminate.
  - reflexivity.
  - reflexivity.
  - intros rest. by apply lookup_singleton_ne.
  - exact Hout.
  - exists v1, sealed, t1, config. split; [exact H1|]. split; [exact H2|]. split; [exact H3 | exact H4].
Defined.
