(* ===== verification/KubeApi.v ===== *)
(** * The Kubernetes API as the broker asks it
    (internal/attestation/providers/kubernetes/tokenreview.go and pod.go,
    internal/broker/kubernetes_runtime.go)

    The clients behind the interfaces of the workload verifier: the requests they send,
    what they read of the answers, and how the broker builds them from its configuration,
    its environment and its files. *)

From S2P Require Import Prelude GoStrings Json JsonText GoTime Keyring KeyProtection Tpm NodeEvidence LocalState Config.
From S2P Require Import Sql Store Policy Kubernetes KmsConfig CtlRotate.
From Stdlib Require Import Ascii.
Local Open Scope Z_scope.

(** ** The machine of the broker *)

(** Environment and files as the process finds them at its start, and certificate pools
    as far as files are added to them. *)
Class Machine := {
  os_Getenv : string -> string;
  os_FileExists : string -> bool;
  os_ReadFile : string -> result bytes;
  KubeCertPool : Type;
  kube_SystemCertPool : option KubeCertPool;
  kube_NewCertPool : KubeCertPool;
  kube_AppendCertsFromPEM : KubeCertPool -> bytes -> option KubeCertPool;
}.

(** [http.Client]: its time limit, and its roots if it has a transport of its own, which
    then wants TLS 1.2 at least. *)
Record kubeClient `{Machine} := mkKubeClient { kh_Timeout : Duration; kh_RootCAs : option KubeCertPool }.
Arguments kubeClient {_}.
Arguments mkKubeClient {_}.
Arguments kh_Timeout {_}.
Arguments kh_RootCAs {_}.

Record kubeRequest := mkKubeRequest {
  kq_Method : string; kq_URL : string; kq_Headers : list (string * string); kq_Body : option bytes;
}.

(** What the API server answers, the end of the context included. *)
Class KubeServer `{Machine} := {
  kube_NewRequest : string -> string -> result unit;
  kube_Do : kubeClient -> kubeRequest -> result HttpResponse;
}.

(** ** tokenreview.go *)

Definition tokenReviewPath : string := "/apis/authentication.k8s.io/v1/tokenreviews".
Definition protocolMaxPayloadSize : Z := Z.shiftl 1 20.

Record tokenReviewSpec := mkTokenReviewSpec { rs_Token : string; rs_Audiences : list string }.
Record tokenReview := mkTokenReview {
  rv_APIVersion : string; rv_Kind : string; rv_Spec : tokenReviewSpec; rv_Status : TokenReviewStatus;
}.

Definition zero_user : UserInfo := mkUserInfo EmptyString EmptyString [] ∅.
Definition zero_status : TokenReviewStatus := mkTokenReviewStatus false zero_user [] EmptyString.
Definition zero_review : tokenReview := mkTokenReview EmptyString EmptyString (mkTokenReviewSpec EmptyString []) zero_status.

(** A map of string lists: entries are added to the map there is; null clears it. *)
Definition decode_extra (v : json) (m : gmap string (list string)) : result (gmap string (list string)) :=
  match v with
  | JNull => Ok ∅
  | JObject ms => foldR (fun m e => l ← decode_list EmptyString decode_string e.2; Ok (<[e.1 := l]> m)) m ms
  | _ => Err (mismatch "value into Go value of type map[string][]string")
  end.

Definition user_fields : list (string * (json -> UserInfo -> result UserInfo)) :=
  [("username"%string, field decode_string (fun x u => mkUserInfo x (ui_UID u) (ui_Groups u) (ui_Extra u)));
   ("uid"%string, field decode_string (fun x u => mkUserInfo (ui_Username u) x (ui_Groups u) (ui_Extra u)));
   ("groups"%string, list_field EmptyString decode_string (fun x u => mkUserInfo (ui_Username u) (ui_UID u) x (ui_Extra u)));
   ("extra"%string, in_place decode_extra ui_Extra (fun x u => mkUserInfo (ui_Username u) (ui_UID u) (ui_Groups u) x))].

Definition status_fields : list (string * (json -> TokenReviewStatus -> result TokenReviewStatus)) :=
  [("authenticated"%string, field decode_bool (fun x s => mkTokenReviewStatus x (tr_User s) (tr_Audiences s) (tr_Error s)));
   ("user"%string, in_place (decode_struct user_fields) tr_User
      (fun x s => mkTokenReviewStatus (tr_Authenticated s) x (tr_Audiences s) (tr_Error s)));
   ("audiences"%string, list_field EmptyString decode_string
      (fun x s => mkTokenReviewStatus (tr_Authenticated s) (tr_User s) x (tr_Error s)));
   ("error"%string, field decode_string (fun x s => mkTokenReviewStatus (tr_Authenticated s) (tr_User s) (tr_Audiences s) x))].

Definition spec_fields : list (string * (json -> tokenReviewSpec -> result tokenReviewSpec)) :=
  [("token"%string, field decode_string (fun x s => mkTokenReviewSpec x (rs_Audiences s)));
   ("audiences"%string, list_field EmptyString decode_string (fun x s => mkTokenReviewSpec (rs_Token s) x))].

Definition review_fields : list (string * (json -> tokenReview -> result tokenReview)) :=
  [("apiVersion"%string, field decode_string (fun x r => mkTokenReview x (rv_Kind r) (rv_Spec r) (rv_Status r)));
   ("kind"%string, field decode_string (fun x r => mkTokenReview (rv_APIVersion r) x (rv_Spec r) (rv_Status r)));
   ("spec"%string, in_place (decode_struct spec_fields) rv_Spec (fun x r => mkTokenReview (rv_APIVersion r) (rv_Kind r) x (rv_Status r)));
   ("status"%string, in_place (decode_struct status_fields) rv_Status
      (fun x r => mkTokenReview (rv_APIVersion r) (rv_Kind r) (rv_Spec r) x))].

Definition omit_empty_list (name : string) (l : list string) : list (string * json) :=
  match l with [] => [] | _ => [(name, JArray (JString <$> l))] end.

(** [json.Marshal] of a review to ask for: [omitempty] does not leave out structs. *)
Definition tokenReview_json (token : string) (audiences : list string) : json :=
  JObject [("apiVersion"%string, JString "authentication.k8s.io/v1"); ("kind"%string, JString "TokenReview");
           ("spec"%string, JObject (omit_empty "token" token ++ omit_empty_list "audiences" audiences));
           ("status"%string, JObject [("user"%string, JObject [])])].

(** An endpoint must be an absolute URL; [base] is the error of the caller. *)
Definition absolute_url `{UrlLib} (base : error) (endpoint : string) : result URL :=
  match url_Parse endpoint with
  | Err _ => Err (errorw base "endpoint must be an absolute URL")
  | Ok parsed =>
      check (negb (empty (url_Scheme parsed) || empty (url_Host parsed))) (errorw base "endpoint must be an absolute URL");;
      Ok parsed
  end.

Definition tokenReviewEndpoint `{UrlLib} (endpoint : string) : result string :=
  let endpoint := TrimSpace endpoint in
  check (negb (empty endpoint)) (errorw ErrTokenReview "endpoint is required");;
  parsed ← absolute_url ErrTokenReview endpoint;
  Ok (url_String (url_SetPath (TrimRightSlash (url_Path parsed) +:+ tokenReviewPath) parsed)).

Section Clients.
Context `{Machine, !KubeServer, UrlLib}.

Record HTTPTokenReviewClient := mkHTTPTokenReviewClient {
  ht_Endpoint : string; ht_BearerToken : string; ht_HTTPClient : option kubeClient;
}.

(** A nil client is one with a time limit of ten seconds. *)
Definition client_or_default (client : option kubeClient) : kubeClient := default (mkKubeClient (10 * Second) None) client.

Definition authorization (bearer : string) : list (string * string) :=
  if empty (TrimSpace bearer) then [] else [("Authorization"%string, "Bearer " +:+ TrimSpace bearer)].

Definition review_request (endpoint bearer token : string) (audiences : list string) : kubeRequest :=
  mkKubeRequest "POST" endpoint
    ([("Accept", "application/json"); ("Content-Type", "application/json")]%string ++ authorization bearer)
    (Some (json_Print (tokenReview_json token audiences))).

(** The answer to a request: its error, its status, then the value in its body. *)
Definition api_call {A} (base : error) (client : option kubeClient) (request : kubeRequest)
  (fields : list (string * (json -> A -> result A))) (zero : A) : result A :=
  match kube_NewRequest (kq_Method request) (kq_URL request) with
  | Err _ => Err (errorw base "create request")
  | Ok _ =>
      match kube_Do (client_or_default client) request with
      | Err _ => Err (errorw base "request failed")
      | Ok resp =>
          check (success_status (hs_StatusCode resp)) (errorw base ("API returned HTTP " +:+ FormatInt (hs_StatusCode resp)));;
          match decode_first protocolMaxPayloadSize fields zero (hs_Body resp) with
          | Err _ => Err (errorw base "decode response")
          | Ok decoded => Ok decoded
          end
      end
  end.

Definition ReviewToken (c : HTTPTokenReviewClient) : TokenReviewer := fun token audiences =>
  check (negb (empty (TrimSpace token))) (errorw ErrTokenReview "token is required");;
  endpoint ← tokenReviewEndpoint (ht_Endpoint c);
  decoded ← api_call ErrTokenReview (ht_HTTPClient c) (review_request endpoint (ht_BearerToken c) token audiences)
              review_fields zero_review;
  Ok (rv_Status decoded).

(** ** pod.go *)

Record podMetadata := mkPodMetadata { pm_Namespace : string; pm_Name : string; pm_UID : string }.
Record podResponse := mkPodResponse { po_Metadata : podMetadata; po_NodeName : string }.
Definition zero_pod : podResponse := mkPodResponse (mkPodMetadata EmptyString EmptyString EmptyString) EmptyString.

Definition pod_metadata_fields : list (string * (json -> podMetadata -> result podMetadata)) :=
  [("namespace"%string, field decode_string (fun x m => mkPodMetadata x (pm_Name m) (pm_UID m)));
   ("name"%string, field decode_string (fun x m => mkPodMetadata (pm_Namespace m) x (pm_UID m)));
   ("uid"%string, field decode_string (fun x m => mkPodMetadata (pm_Namespace m) (pm_Name m) x))].

(** [podSpec] is its node name. *)
Definition pod_spec_fields : list (string * (json -> string -> result string)) :=
  [("nodeName"%string, field decode_string (fun x _ => x))].

Definition pod_fields : list (string * (json -> podResponse -> result podResponse)) :=
  [("metadata"%string, in_place (decode_struct pod_metadata_fields) po_Metadata (fun x p => mkPodResponse x (po_NodeName p)));
   ("spec"%string, in_place (decode_struct pod_spec_fields) po_NodeName (fun x p => mkPodResponse (po_Metadata p) x))].

(** [url.PathEscape]: the characters that a path segment may hold as they are. *)
Definition segment_char (c : ascii) : bool :=
  is_digit c || between 65 90 (byte_val c) || between 97 122 (byte_val c) ||
  existsb (Ascii.eqb c) ["-"; "_"; "."; "~"; "$"; "&"; "+"; ":"; "="; "@"]%char.
Definition upper_hex (z : Z) : ascii := byte_chr (if z <? 10 then 48 + z else 55 + z).
Definition escape_char (c : ascii) : string :=
  if segment_char c then String c EmptyString
  else String "%" (String (upper_hex (byte_val c / 16)) (String (upper_hex (byte_val c mod 16)) EmptyString)).
Fixpoint PathEscape (s : string) : string :=
  match s with EmptyString => EmptyString | String c r => escape_char c +:+ PathEscape r end.

Definition pod_path (namespace name : string) : string :=
  "/api/v1/namespaces/" +:+ PathEscape namespace +:+ "/pods/" +:+ PathEscape name.

Definition podEndpoint (endpoint namespace name : string) : result string :=
  let endpoint := TrimSpace endpoint in
  let namespace := TrimSpace namespace in
  let name := TrimSpace name in
  check (negb (empty endpoint)) (errorw ErrPodLookup "endpoint is required");;
  check (negb (empty namespace || empty name)) (errorw ErrPodLookup "namespace and pod name are required");;
  parsed ← absolute_url ErrPodLookup endpoint;
  Ok (url_String (url_SetPath (TrimRightSlash (url_Path parsed) +:+ pod_path namespace name) parsed)).

Definition pod_request (endpoint bearer : string) : kubeRequest :=
  mkKubeRequest "GET" endpoint ([("Accept"%string, "application/json"%string)] ++ authorization bearer) None.

Record HTTPPodLookupClient := mkHTTPPodLookupClient {
  hp_Endpoint : string; hp_BearerToken : string; hp_HTTPClient : option kubeClient;
}.

Definition LookupPod (c : HTTPPodLookupClient) : PodLookup := fun namespace name =>
  endpoint ← podEndpoint (hp_Endpoint c) namespace name;
  decoded ← api_call ErrPodLookup (hp_HTTPClient c) (pod_request endpoint (hp_BearerToken c)) pod_fields zero_pod;
  let m := po_Metadata decoded in
  Ok (mkPodInfo (pm_Namespace m) (pm_Name m) (pm_UID m) (po_NodeName decoded)).

(** ** kubernetes_runtime.go *)

Definition readKubernetesBearerToken (path : string) : result string :=
  raw ← map_err (errorp "read Kubernetes bearer token file") (os_ReadFile (KubernetesBearerTokenFile path));
  check (negb (empty (TrimSpace raw))) (errorf "kubernetes bearer token file is empty");;
  Ok (TrimSpace raw).

Definition newKubernetesHTTPClient (k : KubernetesConfig) : result kubeClient :=
  let caFile := KubernetesCAFile os_FileExists (k_CACertFile k) in
  if empty caFile then Ok (mkKubeClient (APITimeout k) None)
  else
    caPEM ← map_err (errorp "read Kubernetes CA file") (os_ReadFile caFile);
    roots ← of_option (errorf "kubernetes CA file does not contain certificates")
              (kube_AppendCertsFromPEM (default kube_NewCertPool kube_SystemCertPool) caPEM);
    Ok (mkKubeClient (APITimeout k) (Some roots)).

(** Both clients of the verifier, which takes the second one only where it needs pods. *)
Definition newKubernetesClients (k : KubernetesConfig) : result (TokenReviewer * PodLookup) :=
  endpoint ← KubernetesAPIServer os_Getenv (k_APIServer k);
  token ← readKubernetesBearerToken (k_BearerTokenFile k);
  httpClient ← newKubernetesHTTPClient k;
  Ok (ReviewToken (mkHTTPTokenReviewClient endpoint token (Some httpClient)),
      LookupPod (mkHTTPPodLookupClient endpoint token (Some httpClient))).
End Clients.
