(* ===== verification/KubeApiProps.v ===== *)
(** * What the broker and the Kubernetes API say to each other

    The request names exactly the token and, for pods, exactly one pod; and a workload
    that the broker's verifier accepts was vouched for in answers of the API server to
    requests with the broker's own credentials. *)

From S2P Require Import Prelude GoStrings Json JsonText GoTime Keyring KeyProtection Tpm NodeEvidence LocalState StateText Config.
From S2P Require Import Sql Store Policy Kubernetes EvidenceText KmsConfig CtlRotate KubeApi.
From Stdlib Require Import Ascii.
Local Open Scope Z_scope.

(** ** The request for a review *)

Lemma decode_strings l : decode_list EmptyString decode_string (JArray (JString <$> l)) = Ok l.
Proof. unfold decode_list. apply mapR_Ok, Forall2_fmap_l, Forall_Forall2_diag, Forall_true. done. Qed.

Lemma strings_printable d l : Forall text l -> printable (S d) (JArray (JString <$> l)).
Proof. intros Hl. cbn. apply Forall_fmap. eapply Forall_impl; [exact Hl|]. intros s Hs. by apply string_printable. Qed.

Lemma spec_printable token audiences :
  text token -> Forall text audiences ->
  printable 2 (JObject (omit_empty "token" token ++ omit_empty_list "audiences" audiences)).
Proof.
  intros Ht Ha. apply members_printable, Forall_app. split; [by apply omit_printable|].
  unfold omit_empty_list. destruct audiences as [|a l]; [exact (List.Forall_nil _)|]. members. by apply strings_printable.
Qed.

Lemma decode_spec token audiences :
  decode_struct spec_fields (JObject (omit_empty "token" token ++ omit_empty_list "audiences" audiences)) (mkTokenReviewSpec EmptyString [])
  = Ok (mkTokenReviewSpec token audiences).
Proof.
  rewrite decode_app. rewrite (omit_empty_decode _ _ (fun x s => mkTokenReviewSpec x (rs_Audiences s))) by done.
  cbn [mbind result_bind]. unfold omit_empty_list. destruct audiences as [|a l]; [done|].
  erewrite decode_member by reflexivity. unfold list_field. cbn [snd]. rewrite (decode_strings (a :: l)). cbn [mbind result_bind]. by rewrite decode_end.
Qed.

(** The server reads of the request what the broker was given. *)
Lemma review_body_exact token audiences :
  text token -> Forall text audiences ->
  unmarshal review_fields zero_review (json_Print (tokenReview_json token audiences))
  = Ok (mkTokenReview "authentication.k8s.io/v1" "TokenReview" (mkTokenReviewSpec token audiences) zero_status).
Proof.
  intros Ht Ha. rewrite (unmarshal_print _ _ _ 3); [| |done].
  - unfold tokenReview_json. do 2 (decode_step; rewrite field_string; cbn [mbind result_bind]).
    decode_step. unfold in_place at 1. cbn [rv_Spec zero_review]. rewrite decode_spec. cbn [mbind result_bind]. reflexivity.
  - apply members_printable. members; [done | done | by apply spec_printable |]. apply members_printable. members. exact (List.Forall_nil _).
Qed.

(** ** The path of a pod *)

(** Reading one escaped character back. *)
Definition hex_value (c : ascii) : Z := if byte_val c <? 65 then byte_val c - 48 else byte_val c - 55.
Definition unescape_char (s : string) : option (ascii * string) :=
  match s with
  | String p (String a (String b r)) => if Ascii.eqb p "%" then Some (byte_chr (16 * hex_value a + hex_value b), r) else Some (p, String a (String b r))
  | String p r => Some (p, r)
  | EmptyString => None
  end.

Lemma unescape_escape c r : unescape_char (escape_char c +:+ r) = Some (c, r).
Proof. destruct c as [[] [] [] [] [] [] [] []]; try reflexivity; by destruct r as [|a [|b r]]. Qed.

Lemma PathEscape_inj s t : PathEscape s = PathEscape t -> s = t.
Proof.
  revert t. induction s as [|c s IH]; intros [|d t]; cbn [PathEscape]; [done | ..]; intros E.
  - pose proof (unescape_escape d (PathEscape t)) as H. by rewrite <- E in H.
  - pose proof (unescape_escape c (PathEscape s)) as H. by rewrite E in H.
  - pose proof (unescape_escape c (PathEscape s)) as H. rewrite E, unescape_escape in H. injection H as <- H. f_equal. by apply IH.
Qed.

Lemma escape_char_safe c : no_char "/" (escape_char c) = true.
Proof. by destruct c as [[] [] [] [] [] [] [] []]. Qed.

Lemma PathEscape_safe s : no_char "/" (PathEscape s) = true.
Proof.
  induction s as [|c s IH]; [done|]. cbn [PathEscape]. pose proof (escape_char_safe c) as Hc. unfold no_char in *. by rewrite string_forall_app, Hc, IH.
Qed.

(** Whatever a token claims, the path names one namespace and one pod of it. *)
Lemma pod_path_injective ns n ns' n' : pod_path ns n = pod_path ns' n' -> ns = ns' /\ n = n'.
Proof.
  unfold pod_path. intros E%sapp_inv_l. change ("/pods/" +:+ ?x) with (String "/" ("pods/" +:+ x)) in E.
  apply no_char_until in E as [E1 E2%sapp_inv_l]; [|apply PathEscape_safe..]. by apply PathEscape_inj in E1, E2.
Qed.

(** ** Answers *)

Section Wire.
Context `{Machine, !KubeServer, UrlLib, PayloadJSON}.

(** The server took the request and answered it with a value, whole within the limit. *)
Definition answered {A} (client : kubeClient) (request : kubeRequest) (fields : list (string * (json -> A -> result A))) (zero a : A) : Prop :=
  exists resp, kube_Do client request = Ok resp /\ 200 <= hs_StatusCode resp < 300 /\
    decode_first protocolMaxPayloadSize fields zero (hs_Body resp) = Ok a.

Lemma api_call_Ok {A} base client request (fields : list (string * (json -> A -> result A))) zero a :
  api_call base (Some client) request fields zero = Ok a -> answered client request fields zero a.
Proof.
  unfold api_call. destruct (kube_NewRequest _ _); [|done]. change (client_or_default (Some client)) with client.
  destruct (kube_Do client request) as [resp|] eqn:E; [|done]. intros (u & Hs & Hd)%bind_Ok. apply check_Ok in Hs.
  destruct (decode_first _ _ _ _) as [d|] eqn:Ed; [|done]. injection Hd as ->. exists resp. split_and!; try done.
  all: unfold success_status in Hs; to_prop; lia.
Qed.

Lemma ReviewToken_Ok c client token audiences status :
  ht_HTTPClient c = Some client -> ReviewToken c token audiences = Ok status ->
  TrimSpace token <> EmptyString /\ exists url review, tokenReviewEndpoint (ht_Endpoint c) = Ok url /\
    answered client (review_request url (ht_BearerToken c) token audiences) review_fields zero_review review /\ rv_Status review = status.
Proof.
  unfold ReviewToken. intros Hc Hr. inv_ok. rewrite Hc in *. to_prop. split; [by apply String.eqb_neq|].
  match goal with E : api_call _ _ _ _ _ = Ok _ |- _ => apply api_call_Ok in E end. by eexists _, _.
Qed.

Lemma LookupPod_Ok c client ns name pod :
  hp_HTTPClient c = Some client -> LookupPod c ns name = Ok pod ->
  exists url answer, podEndpoint (hp_Endpoint c) ns name = Ok url /\
    answered client (pod_request url (hp_BearerToken c)) pod_fields zero_pod answer /\
    pm_UID (po_Metadata answer) = pi_UID pod /\ po_NodeName answer = pi_NodeName pod.
Proof.
  unfold LookupPod. intros Hc Hl. inv_ok. rewrite Hc in *.
  match goal with E : api_call _ _ _ _ _ = Ok _ |- _ => apply api_call_Ok in E end. by eexists _, _.
Qed.
(** The audience that the broker asks for. *)
Definition audiences_of (k : KubernetesConfig) : list string :=
  if blank (k_TokenReviewAudience k) then [] else [TrimSpace (k_TokenReviewAudience k)].

(** C3: the verdict of a Kubernetes broker on a workload comes from the API server, under
    the broker's own credentials.  When its verifier accepts, the server that the
    configuration or the environment of the pod names answered with success to a review
    request that carries the token in the workload's evidence (for text: read back exactly)
    and the broker's bearer token, and its answer authenticates that account; and when
    pod-bound tokens are required it also answered for the pod that the token names: the
    pod has the token's UID, and the node reported to the policy is the one it runs on. *)
Theorem workload_vouched_by_api k reviewer lookup envelope vf :
  newKubernetesClients k = Ok (reviewer, lookup) ->
  let v := newKubernetesRuntimeDependencies reviewer lookup k in
  KubernetesEvidenceVerifier v envelope = Ok vf ->
  exists base raw client e token url review ns sa,
    KubernetesAPIServer os_Getenv (k_APIServer k) = Ok base /\
    os_ReadFile (KubernetesBearerTokenFile (k_BearerTokenFile k)) = Ok raw /\ TrimSpace raw <> EmptyString /\
    newKubernetesHTTPClient k = Ok client /\
    envelope = Some e /\ json_Unmarshal_token (ev_Payload e) = Ok token /\ TrimSpace token <> EmptyString /\
    tokenReviewEndpoint base = Ok url /\
    let request := review_request url (TrimSpace raw) token (audiences_of k) in
    (text token -> Forall text (audiences_of k) -> exists body, kq_Body request = Some body /\
       unmarshal review_fields zero_review body
       = Ok (mkTokenReview "authentication.k8s.io/v1" "TokenReview" (mkTokenReviewSpec token (audiences_of k)) zero_status)) /\
    answered client request review_fields zero_review review /\
    reviewed v (rv_Status review) ns sa /\ vf_Subject vf = ns +:+ "." +:+ sa /\
    (RequirePodBoundToken k = true -> exists podURL pod,
       podEndpoint base ns (claim (rv_Status review) extraPodName) = Ok podURL /\
       answered client (pod_request podURL (TrimSpace raw)) pod_fields zero_pod pod /\
       pm_UID (po_Metadata pod) = claim (rv_Status review) extraPodUID /\ po_NodeName pod <> EmptyString /\
       wi_NodeName (vf_Workload vf) = po_NodeName pod).
Proof.
  intros Hc v Hv. unfold newKubernetesClients, readKubernetesBearerToken in Hc. inv_ok. to_prop.
  match goal with E : KubernetesAPIServer _ _ = Ok ?b |- _ => rename b into base end.
  match goal with E : os_ReadFile _ = Ok ?r |- _ => rename r into raw end.
  match goal with E : newKubernetesHTTPClient _ = Ok ?c |- _ => rename c into client end. simplify_eq.
  apply verifier_accepts in Hv as (e & token & rv & status & ns & sa & pod & -> & _ & Hj & _ & Hr & Hs & Hrev & -> & Hpod).
  cbn [v v_Reviewer newKubernetesRuntimeDependencies NewKubernetesEvidenceVerifierWithPodLookup] in Hr. injection Hr as <-.
  apply (ReviewToken_Ok _ client) in Hs as (Ht & url & review & Hurl & Hans & <-); [|done].
  exists base, raw, client, e, token, url, review, ns, sa. cbv zeta. split_and!; try done.
  - by apply String.eqb_neq.
  - intros Htext Haud. eexists. split; [reflexivity|]. by apply review_body_exact.
  - intros Hb. unfold v, newKubernetesRuntimeDependencies in Hpod. rewrite Hb in Hpod. cbn [NewKubernetesEvidenceVerifierWithPodLookup v_PodLookup] in Hpod.
    destruct pod as [pod|]; [|done]. destruct Hpod as (Hl & Hu & Hn).
    apply (LookupPod_Ok _ client) in Hl as (podURL & answer & Hp & Ha & Hau & Han); [|done]. exists podURL, answer.
    split_and!; [done | done | by rewrite Hau | by rewrite Han | by rewrite Han].
Qed.
End Wire.

(** ** A cluster with one workload *)

Definition toy_url : UrlLib := {|
  URL := string * string;
  url_Parse s := if HasPrefix s "https://" then Ok (string_drop 8 s, EmptyString) else Err (errorf "no URL");
  url_Scheme u := "https"%string;
  url_Host u := u.1;
  url_Path u := u.2;
  url_SetPath p u := (u.1, p);
  url_String u := "https://" +:+ u.1 +:+ u.2;
|}.

Definition toy_machine : Machine := {|
  os_Getenv name := if String.eqb name "KUBERNETES_SERVICE_HOST" then "10.0.0.1"%string else EmptyString;
  os_FileExists path := false;
  os_ReadFile path := if String.eqb path KubernetesServiceAccountTokenPath then Ok ("broker-token" +:+ newline) else Err (errorf "no such file");
  KubeCertPool := unit;
  kube_SystemCertPool := None;
  kube_NewCertPool := tt;
  kube_AppendCertsFromPEM pool pem := None;
|}.

(** What the server says of the token and of the pod it is bound to. *)
Definition toy_review : string := json_Print (JObject [("kind"%string, JString "TokenReview"); ("status"%string, JObject
  [("authenticated"%string, JBool true); ("audiences"%string, JArray [JString "broker"]);
   ("user"%string, JObject [("username"%string, JString "system:serviceaccount:openbao:openbao");
      ("extra"%string, JObject [(extraPodName, JArray [JString "openbao-0"]); (extraPodUID, JArray [JString "uid-1"])])])])]).
Definition toy_pod : string := json_Print (JObject
  [("metadata"%string, JObject [("namespace"%string, JString "openbao"); ("name"%string, JString "openbao-0"); ("uid"%string, JString "uid-1")]);
   ("spec"%string, JObject [("nodeName"%string, JString "node-1")])]).

Definition toy_kube : @KubeServer toy_machine := @Build_KubeServer toy_machine (fun _ _ => Ok tt) (fun _ request =>
  if negb (existsb (fun h => String.eqb h.1 "Authorization" && String.eqb h.2 "Bearer broker-token") (kq_Headers request))
  then Ok (mkHttpResponse 401 (Ok EmptyString))
  else if String.eqb (kq_URL request) "https://10.0.0.1:443/apis/authentication.k8s.io/v1/tokenreviews" then Ok (mkHttpResponse 201 (Ok toy_review))
  else if String.eqb (kq_URL request) "https://10.0.0.1:443/api/v1/namespaces/openbao/pods/openbao-0" then Ok (mkHttpResponse 200 (Ok toy_pod))
  else Ok (mkHttpResponse 404 (Ok EmptyString))).

Definition toy_kubernetes : KubernetesConfig :=
  mkKubernetesConfig true EmptyString EmptyString EmptyString "broker" "openbao" EmptyString 0 0 0 false false [].
Definition toy_clients : result (TokenReviewer * PodLookup) := @newKubernetesClients toy_machine toy_kube toy_url toy_kubernetes.
Definition toy_evidence : EvidenceEnvelope := NewEvidenceEnvelope EmptyString "workload-token".
Definition toy_verdict : result VerifiedEvidence :=
  '(reviewer, lookup) ← toy_clients;
  @KubernetesEvidenceVerifier Token_JSON (newKubernetesRuntimeDependencies reviewer lookup toy_kubernetes) (Some toy_evidence).

Example toy_identity : toy_verdict = Ok (mkVerifiedEvidence "openbao.openbao"
  (mkWorkloadIdentity "openbao" "openbao" "openbao-0" "uid-1" "node-1" EmptyString)).
Proof. vm_compute. reflexivity. Qed.

Definition toy_http : @kubeClient toy_machine := @mkKubeClient toy_machine (10 * Second) None.
Definition toy_reviewer : TokenReviewer :=
  @ReviewToken toy_machine toy_kube toy_url (@mkHTTPTokenReviewClient toy_machine "https://10.0.0.1:443" "broker-token" (Some toy_http)).
Definition toy_lookup : PodLookup :=
  @LookupPod toy_machine toy_kube toy_url (@mkHTTPPodLookupClient toy_machine "https://10.0.0.1:443" "broker-token" (Some toy_http)).
Definition toy_vouched : VerifiedEvidence :=
  mkVerifiedEvidence "openbao.openbao" (mkWorkloadIdentity "openbao" "openbao" "openbao-0" "uid-1" "node-1" EmptyString).

Lemma workload_vouched_by_api_witness :
  exists url pod, @answered toy_machine toy_kube podResponse toy_http (pod_request url "broker-token") pod_fields zero_pod pod /\
    po_NodeName pod = "node-1"%string.
Proof.
  destruct (@workload_vouched_by_api toy_machine toy_kube toy_url Token_JSON toy_kubernetes toy_reviewer toy_lookup (Some toy_evidence) toy_vouched)
    as (base & raw & client & e & token & url & review & ns & sa & _ & Hraw & _ & Hclient & _ & _ & _ & _ & _ & _ & _ & _ & Hpod).
  - reflexivity.
  - vm_compute. reflexivity.
  - destruct (Hpod eq_refl) as (podURL & pod & _ & Ha & _ & _ & Hn). exists podURL, pod.
    injection Hraw as <-. injection Hclient as <-. split; [exact Ha | symmetry; exact Hn].
Defined.
