(* ===== verification/Daemon.v ===== *)
(** * bao-unseald (internal/baounseald/command.go, LoadConfig of internal/broker/config.go,
    ListenAndServe of internal/broker/server.go)

    The broker's configuration as the JSON text of a file, and the daemon from its command
    line to the end of serving. *)

From S2P Require Import Prelude GoStrings Json JsonText GoTime Keyring KeyProtection Tpm NodeEvidence LocalState Config.
From S2P Require Import Sql Store Challenges SqlNodeEvidence StoreInv StoreOps Policy Kubernetes EvidenceText Admin Enrollment Service.
From S2P Require Import Ctl KmsConfig Runtime Agent CtlRotate KubeApi.
From Stdlib Require Import Ascii.
Local Open Scope Z_scope.

(** ** The text of a configuration *)

Definition set_k_Enabled x k :=
  mkKubernetesConfig x (k_APIServer k) (k_CACertFile k) (k_BearerTokenFile k) (k_TokenReviewAudience k)
    (k_Namespace k) (k_ServiceAccount k) (k_NodeEvidenceTTLSeconds k) (k_NodeEvidenceRetentionSeconds k)
    (k_APITimeoutSeconds k) (k_AllowUnboundServiceAccountTokens k) (k_AllowFakeNodeEvidencePublish k)
    (k_NodeEvidencePublishProviders k).
Definition set_k_APIServer x k :=
  mkKubernetesConfig (k_Enabled k) x (k_CACertFile k) (k_BearerTokenFile k) (k_TokenReviewAudience k) (k_Namespace k)
    (k_ServiceAccount k) (k_NodeEvidenceTTLSeconds k) (k_NodeEvidenceRetentionSeconds k) (k_APITimeoutSeconds k)
    (k_AllowUnboundServiceAccountTokens k) (k_AllowFakeNodeEvidencePublish k) (k_NodeEvidencePublishProviders k).
Definition set_k_CACertFile x k :=
  mkKubernetesConfig (k_Enabled k) (k_APIServer k) x (k_BearerTokenFile k) (k_TokenReviewAudience k) (k_Namespace k)
    (k_ServiceAccount k) (k_NodeEvidenceTTLSeconds k) (k_NodeEvidenceRetentionSeconds k) (k_APITimeoutSeconds k)
    (k_AllowUnboundServiceAccountTokens k) (k_AllowFakeNodeEvidencePublish k) (k_NodeEvidencePublishProviders k).
Definition set_k_BearerTokenFile x k :=
  mkKubernetesConfig (k_Enabled k) (k_APIServer k) (k_CACertFile k) x (k_TokenReviewAudience k) (k_Namespace k)
    (k_ServiceAccount k) (k_NodeEvidenceTTLSeconds k) (k_NodeEvidenceRetentionSeconds k) (k_APITimeoutSeconds k)
    (k_AllowUnboundServiceAccountTokens k) (k_AllowFakeNodeEvidencePublish k) (k_NodeEvidencePublishProviders k).
Definition set_k_TokenReviewAudience x k :=
  mkKubernetesConfig (k_Enabled k) (k_APIServer k) (k_CACertFile k) (k_BearerTokenFile k) x (k_Namespace k)
    (k_ServiceAccount k) (k_NodeEvidenceTTLSeconds k) (k_NodeEvidenceRetentionSeconds k) (k_APITimeoutSeconds k)
    (k_AllowUnboundServiceAccountTokens k) (k_AllowFakeNodeEvidencePublish k) (k_NodeEvidencePublishProviders k).
Definition set_k_Namespace x k :=
  mkKubernetesConfig (k_Enabled k) (k_APIServer k) (k_CACertFile k) (k_BearerTokenFile k) (k_TokenReviewAudience k) x
    (k_ServiceAccount k) (k_NodeEvidenceTTLSeconds k) (k_NodeEvidenceRetentionSeconds k) (k_APITimeoutSeconds k)
    (k_AllowUnboundServiceAccountTokens k) (k_AllowFakeNodeEvidencePublish k) (k_NodeEvidencePublishProviders k).
Definition set_k_ServiceAccount x k :=
  mkKubernetesConfig (k_Enabled k) (k_APIServer k) (k_CACertFile k) (k_BearerTokenFile k) (k_TokenReviewAudience k)
    (k_Namespace k) x (k_NodeEvidenceTTLSeconds k) (k_NodeEvidenceRetentionSeconds k) (k_APITimeoutSeconds k)
    (k_AllowUnboundServiceAccountTokens k) (k_AllowFakeNodeEvidencePublish k) (k_NodeEvidencePublishProviders k).
Definition set_k_NodeEvidenceTTLSeconds x k :=
  mkKubernetesConfig (k_Enabled k) (k_APIServer k) (k_CACertFile k) (k_BearerTokenFile k) (k_TokenReviewAudience k)
    (k_Namespace k) (k_ServiceAccount k) x (k_NodeEvidenceRetentionSeconds k) (k_APITimeoutSeconds k)
    (k_AllowUnboundServiceAccountTokens k) (k_AllowFakeNodeEvidencePublish k) (k_NodeEvidencePublishProviders k).
Definition set_k_NodeEvidenceRetentionSeconds x k :=
  mkKubernetesConfig (k_Enabled k) (k_APIServer k) (k_CACertFile k) (k_BearerTokenFile k) (k_TokenReviewAudience k)
    (k_Namespace k) (k_ServiceAccount k) (k_NodeEvidenceTTLSeconds k) x (k_APITimeoutSeconds k)
    (k_AllowUnboundServiceAccountTokens k) (k_AllowFakeNodeEvidencePublish k) (k_NodeEvidencePublishProviders k).
Definition set_k_APITimeoutSeconds x k :=
  mkKubernetesConfig (k_Enabled k) (k_APIServer k) (k_CACertFile k) (k_BearerTokenFile k) (k_TokenReviewAudience k)
    (k_Namespace k) (k_ServiceAccount k) (k_NodeEvidenceTTLSeconds k) (k_NodeEvidenceRetentionSeconds k) x
    (k_AllowUnboundServiceAccountTokens k) (k_AllowFakeNodeEvidencePublish k) (k_NodeEvidencePublishProviders k).
Definition set_k_AllowUnboundServiceAccountTokens x k :=
  mkKubernetesConfig (k_Enabled k) (k_APIServer k) (k_CACertFile k) (k_BearerTokenFile k) (k_TokenReviewAudience k)
    (k_Namespace k) (k_ServiceAccount k) (k_NodeEvidenceTTLSeconds k) (k_NodeEvidenceRetentionSeconds k)
    (k_APITimeoutSeconds k) x (k_AllowFakeNodeEvidencePublish k) (k_NodeEvidencePublishProviders k).
Definition set_k_AllowFakeNodeEvidencePublish x k :=
  mkKubernetesConfig (k_Enabled k) (k_APIServer k) (k_CACertFile k) (k_BearerTokenFile k) (k_TokenReviewAudience k)
    (k_Namespace k) (k_ServiceAccount k) (k_NodeEvidenceTTLSeconds k) (k_NodeEvidenceRetentionSeconds k)
    (k_APITimeoutSeconds k) (k_AllowUnboundServiceAccountTokens k) x (k_NodeEvidencePublishProviders k).
Definition set_k_NodeEvidencePublishProviders x k :=
  mkKubernetesConfig (k_Enabled k) (k_APIServer k) (k_CACertFile k) (k_BearerTokenFile k) (k_TokenReviewAudience k)
    (k_Namespace k) (k_ServiceAccount k) (k_NodeEvidenceTTLSeconds k) (k_NodeEvidenceRetentionSeconds k)
    (k_APITimeoutSeconds k) (k_AllowUnboundServiceAccountTokens k) (k_AllowFakeNodeEvidencePublish k) x.

Definition set_c_ListenAddress x c :=
  mkConfig x (c_TLSCertFile c) (c_TLSKeyFile c) (c_ClientCAFile c) (c_RequireClientCert c)
    (c_AllowPlaintextForTests c) (c_SQLitePath c) (c_AuditFilePath c) (c_AuditFsync c) (c_OTelExporter c)
    (c_DefaultPolicyPath c) (c_KeyringProtectionProfile c) (c_ClusterID c) (c_KeyID c) (c_PolicyID c) (c_Identities c)
    (c_DevelopmentSubject c) (c_DevelopmentWrappingKeyB64 c) (c_ChallengeTTLSeconds c) (c_Kubernetes c)
    (c_DefaultPolicy c).
Definition set_c_TLSCertFile x c :=
  mkConfig (c_ListenAddress c) x (c_TLSKeyFile c) (c_ClientCAFile c) (c_RequireClientCert c)
    (c_AllowPlaintextForTests c) (c_SQLitePath c) (c_AuditFilePath c) (c_AuditFsync c) (c_OTelExporter c)
    (c_DefaultPolicyPath c) (c_KeyringProtectionProfile c) (c_ClusterID c) (c_KeyID c) (c_PolicyID c) (c_Identities c)
    (c_DevelopmentSubject c) (c_DevelopmentWrappingKeyB64 c) (c_ChallengeTTLSeconds c) (c_Kubernetes c)
    (c_DefaultPolicy c).
Definition set_c_TLSKeyFile x c :=
  mkConfig (c_ListenAddress c) (c_TLSCertFile c) x (c_ClientCAFile c) (c_RequireClientCert c)
    (c_AllowPlaintextForTests c) (c_SQLitePath c) (c_AuditFilePath c) (c_AuditFsync c) (c_OTelExporter c)
    (c_DefaultPolicyPath c) (c_KeyringProtectionProfile c) (c_ClusterID c) (c_KeyID c) (c_PolicyID c) (c_Identities c)
    (c_DevelopmentSubject c) (c_DevelopmentWrappingKeyB64 c) (c_ChallengeTTLSeconds c) (c_Kubernetes c)
    (c_DefaultPolicy c).
Definition set_c_ClientCAFile x c :=
  mkConfig (c_ListenAddress c) (c_TLSCertFile c) (c_TLSKeyFile c) x (c_RequireClientCert c)
    (c_AllowPlaintextForTests c) (c_SQLitePath c) (c_AuditFilePath c) (c_AuditFsync c) (c_OTelExporter c)
    (c_DefaultPolicyPath c) (c_KeyringProtectionProfile c) (c_ClusterID c) (c_KeyID c) (c_PolicyID c) (c_Identities c)
    (c_DevelopmentSubject c) (c_DevelopmentWrappingKeyB64 c) (c_ChallengeTTLSeconds c) (c_Kubernetes c)
    (c_DefaultPolicy c).
Definition set_c_RequireClientCert x c :=
  mkConfig (c_ListenAddress c) (c_TLSCertFile c) (c_TLSKeyFile c) (c_ClientCAFile c) x (c_AllowPlaintextForTests c)
    (c_SQLitePath c) (c_AuditFilePath c) (c_AuditFsync c) (c_OTelExporter c) (c_DefaultPolicyPath c)
    (c_KeyringProtectionProfile c) (c_ClusterID c) (c_KeyID c) (c_PolicyID c) (c_Identities c)
    (c_DevelopmentSubject c) (c_DevelopmentWrappingKeyB64 c) (c_ChallengeTTLSeconds c) (c_Kubernetes c)
    (c_DefaultPolicy c).
Definition set_c_AllowPlaintextForTests x c :=
  mkConfig (c_ListenAddress c) (c_TLSCertFile c) (c_TLSKeyFile c) (c_ClientCAFile c) (c_RequireClientCert c) x
    (c_SQLitePath c) (c_AuditFilePath c) (c_AuditFsync c) (c_OTelExporter c) (c_DefaultPolicyPath c)
    (c_KeyringProtectionProfile c) (c_ClusterID c) (c_KeyID c) (c_PolicyID c) (c_Identities c)
    (c_DevelopmentSubject c) (c_DevelopmentWrappingKeyB64 c) (c_ChallengeTTLSeconds c) (c_Kubernetes c)
    (c_DefaultPolicy c).
Definition set_c_SQLitePath x c :=
  mkConfig (c_ListenAddress c) (c_TLSCertFile c) (c_TLSKeyFile c) (c_ClientCAFile c) (c_RequireClientCert c)
    (c_AllowPlaintextForTests c) x (c_AuditFilePath c) (c_AuditFsync c) (c_OTelExporter c) (c_DefaultPolicyPath c)
    (c_KeyringProtectionProfile c) (c_ClusterID c) (c_KeyID c) (c_PolicyID c) (c_Identities c)
    (c_DevelopmentSubject c) (c_DevelopmentWrappingKeyB64 c) (c_ChallengeTTLSeconds c) (c_Kubernetes c)
    (c_DefaultPolicy c).
Definition set_c_AuditFilePath x c :=
  mkConfig (c_ListenAddress c) (c_TLSCertFile c) (c_TLSKeyFile c) (c_ClientCAFile c) (c_RequireClientCert c)
    (c_AllowPlaintextForTests c) (c_SQLitePath c) x (c_AuditFsync c) (c_OTelExporter c) (c_DefaultPolicyPath c)
    (c_KeyringProtectionProfile c) (c_ClusterID c) (c_KeyID c) (c_PolicyID c) (c_Identities c)
    (c_DevelopmentSubject c) (c_DevelopmentWrappingKeyB64 c) (c_ChallengeTTLSeconds c) (c_Kubernetes c)
    (c_DefaultPolicy c).
Definition set_c_AuditFsync x c :=
  mkConfig (c_ListenAddress c) (c_TLSCertFile c) (c_TLSKeyFile c) (c_ClientCAFile c) (c_RequireClientCert c)
    (c_AllowPlaintextForTests c) (c_SQLitePath c) (c_AuditFilePath c) x (c_OTelExporter c) (c_DefaultPolicyPath c)
    (c_KeyringProtectionProfile c) (c_ClusterID c) (c_KeyID c) (c_PolicyID c) (c_Identities c)
    (c_DevelopmentSubject c) (c_DevelopmentWrappingKeyB64 c) (c_ChallengeTTLSeconds c) (c_Kubernetes c)
    (c_DefaultPolicy c).
Definition set_c_OTelExporter x c :=
  mkConfig (c_ListenAddress c) (c_TLSCertFile c) (c_TLSKeyFile c) (c_ClientCAFile c) (c_RequireClientCert c)
    (c_AllowPlaintextForTests c) (c_SQLitePath c) (c_AuditFilePath c) (c_AuditFsync c) x (c_DefaultPolicyPath c)
    (c_KeyringProtectionProfile c) (c_ClusterID c) (c_KeyID c) (c_PolicyID c) (c_Identities c)
    (c_DevelopmentSubject c) (c_DevelopmentWrappingKeyB64 c) (c_ChallengeTTLSeconds c) (c_Kubernetes c)
    (c_DefaultPolicy c).
Definition set_c_DefaultPolicyPath x c :=
  mkConfig (c_ListenAddress c) (c_TLSCertFile c) (c_TLSKeyFile c) (c_ClientCAFile c) (c_RequireClientCert c)
    (c_AllowPlaintextForTests c) (c_SQLitePath c) (c_AuditFilePath c) (c_AuditFsync c) (c_OTelExporter c) x
    (c_KeyringProtectionProfile c) (c_ClusterID c) (c_KeyID c) (c_PolicyID c) (c_Identities c)
    (c_DevelopmentSubject c) (c_DevelopmentWrappingKeyB64 c) (c_ChallengeTTLSeconds c) (c_Kubernetes c)
    (c_DefaultPolicy c).
Definition set_c_KeyringProtectionProfile x c :=
  mkConfig (c_ListenAddress c) (c_TLSCertFile c) (c_TLSKeyFile c) (c_ClientCAFile c) (c_RequireClientCert c)
    (c_AllowPlaintextForTests c) (c_SQLitePath c) (c_AuditFilePath c) (c_AuditFsync c) (c_OTelExporter c)
    (c_DefaultPolicyPath c) x (c_ClusterID c) (c_KeyID c) (c_PolicyID c) (c_Identities c) (c_DevelopmentSubject c)
    (c_DevelopmentWrappingKeyB64 c) (c_ChallengeTTLSeconds c) (c_Kubernetes c) (c_DefaultPolicy c).
Definition set_c_ClusterID x c :=
  mkConfig (c_ListenAddress c) (c_TLSCertFile c) (c_TLSKeyFile c) (c_ClientCAFile c) (c_RequireClientCert c)
    (c_AllowPlaintextForTests c) (c_SQLitePath c) (c_AuditFilePath c) (c_AuditFsync c) (c_OTelExporter c)
    (c_DefaultPolicyPath c) (c_KeyringProtectionProfile c) x (c_KeyID c) (c_PolicyID c) (c_Identities c)
    (c_DevelopmentSubject c) (c_DevelopmentWrappingKeyB64 c) (c_ChallengeTTLSeconds c) (c_Kubernetes c)
    (c_DefaultPolicy c).
Definition set_c_KeyID x c :=
  mkConfig (c_ListenAddress c) (c_TLSCertFile c) (c_TLSKeyFile c) (c_ClientCAFile c) (c_RequireClientCert c)
    (c_AllowPlaintextForTests c) (c_SQLitePath c) (c_AuditFilePath c) (c_AuditFsync c) (c_OTelExporter c)
    (c_DefaultPolicyPath c) (c_KeyringProtectionProfile c) (c_ClusterID c) x (c_PolicyID c) (c_Identities c)
    (c_DevelopmentSubject c) (c_DevelopmentWrappingKeyB64 c) (c_ChallengeTTLSeconds c) (c_Kubernetes c)
    (c_DefaultPolicy c).
Definition set_c_PolicyID x c :=
  mkConfig (c_ListenAddress c) (c_TLSCertFile c) (c_TLSKeyFile c) (c_ClientCAFile c) (c_RequireClientCert c)
    (c_AllowPlaintextForTests c) (c_SQLitePath c) (c_AuditFilePath c) (c_AuditFsync c) (c_OTelExporter c)
    (c_DefaultPolicyPath c) (c_KeyringProtectionProfile c) (c_ClusterID c) (c_KeyID c) x (c_Identities c)
    (c_DevelopmentSubject c) (c_DevelopmentWrappingKeyB64 c) (c_ChallengeTTLSeconds c) (c_Kubernetes c)
    (c_DefaultPolicy c).
Definition set_c_Identities x c :=
  mkConfig (c_ListenAddress c) (c_TLSCertFile c) (c_TLSKeyFile c) (c_ClientCAFile c) (c_RequireClientCert c)
    (c_AllowPlaintextForTests c) (c_SQLitePath c) (c_AuditFilePath c) (c_AuditFsync c) (c_OTelExporter c)
    (c_DefaultPolicyPath c) (c_KeyringProtectionProfile c) (c_ClusterID c) (c_KeyID c) (c_PolicyID c) x
    (c_DevelopmentSubject c) (c_DevelopmentWrappingKeyB64 c) (c_ChallengeTTLSeconds c) (c_Kubernetes c)
    (c_DefaultPolicy c).
Definition set_c_DevelopmentSubject x c :=
  mkConfig (c_ListenAddress c) (c_TLSCertFile c) (c_TLSKeyFile c) (c_ClientCAFile c) (c_RequireClientCert c)
    (c_AllowPlaintextForTests c) (c_SQLitePath c) (c_AuditFilePath c) (c_AuditFsync c) (c_OTelExporter c)
    (c_DefaultPolicyPath c) (c_KeyringProtectionProfile c) (c_ClusterID c) (c_KeyID c) (c_PolicyID c) (c_Identities c)
    x (c_DevelopmentWrappingKeyB64 c) (c_ChallengeTTLSeconds c) (c_Kubernetes c) (c_DefaultPolicy c).
Definition set_c_DevelopmentWrappingKeyB64 x c :=
  mkConfig (c_ListenAddress c) (c_TLSCertFile c) (c_TLSKeyFile c) (c_ClientCAFile c) (c_RequireClientCert c)
    (c_AllowPlaintextForTests c) (c_SQLitePath c) (c_AuditFilePath c) (c_AuditFsync c) (c_OTelExporter c)
    (c_DefaultPolicyPath c) (c_KeyringProtectionProfile c) (c_ClusterID c) (c_KeyID c) (c_PolicyID c) (c_Identities c)
    (c_DevelopmentSubject c) x (c_ChallengeTTLSeconds c) (c_Kubernetes c) (c_DefaultPolicy c).
Definition set_c_ChallengeTTLSeconds x c :=
  mkConfig (c_ListenAddress c) (c_TLSCertFile c) (c_TLSKeyFile c) (c_ClientCAFile c) (c_RequireClientCert c)
    (c_AllowPlaintextForTests c) (c_SQLitePath c) (c_AuditFilePath c) (c_AuditFsync c) (c_OTelExporter c)
    (c_DefaultPolicyPath c) (c_KeyringProtectionProfile c) (c_ClusterID c) (c_KeyID c) (c_PolicyID c) (c_Identities c)
    (c_DevelopmentSubject c) (c_DevelopmentWrappingKeyB64 c) x (c_Kubernetes c) (c_DefaultPolicy c).
Definition set_c_Kubernetes x c :=
  mkConfig (c_ListenAddress c) (c_TLSCertFile c) (c_TLSKeyFile c) (c_ClientCAFile c) (c_RequireClientCert c)
    (c_AllowPlaintextForTests c) (c_SQLitePath c) (c_AuditFilePath c) (c_AuditFsync c) (c_OTelExporter c)
    (c_DefaultPolicyPath c) (c_KeyringProtectionProfile c) (c_ClusterID c) (c_KeyID c) (c_PolicyID c) (c_Identities c)
    (c_DevelopmentSubject c) (c_DevelopmentWrappingKeyB64 c) (c_ChallengeTTLSeconds c) x (c_DefaultPolicy c).

Definition kubernetes_fields : list (string * (json -> KubernetesConfig -> result KubernetesConfig)) :=
  [("enabled"%string, field decode_bool set_k_Enabled);
   ("api_server"%string, field decode_string set_k_APIServer);
   ("ca_cert_file"%string, field decode_string set_k_CACertFile);
   ("bearer_token_file"%string, field decode_string set_k_BearerTokenFile);
   ("token_review_audience"%string, field decode_string set_k_TokenReviewAudience);
   ("namespace"%string, field decode_string set_k_Namespace);
   ("service_account"%string, field decode_string set_k_ServiceAccount);
   ("node_evidence_ttl_seconds"%string, field decode_int64 set_k_NodeEvidenceTTLSeconds);
   ("node_evidence_retention_seconds"%string, field decode_int64 set_k_NodeEvidenceRetentionSeconds);
   ("api_timeout_seconds"%string, field decode_int64 set_k_APITimeoutSeconds);
   ("allow_unbound_service_account_tokens"%string, field decode_bool set_k_AllowUnboundServiceAccountTokens);
   ("allow_fake_node_evidence_publish"%string, field decode_bool set_k_AllowFakeNodeEvidencePublish);
   ("node_evidence_publish_providers"%string, list_field EmptyString decode_string set_k_NodeEvidencePublishProviders)].

Definition identity_fields : list (string * (json -> ControlPlaneIdentity -> result ControlPlaneIdentity)) :=
  [("roles"%string, list_field EmptyString decode_string (fun x i => mkControlPlaneIdentity x (cp_ClusterIDs i)));
   ("cluster_ids"%string, list_field EmptyString decode_string (fun x i => mkControlPlaneIdentity (cp_Roles i) x))].

(** A map of structs: each entry is decoded into a new one. *)
Definition decode_identities (v : json) (m : gmap string ControlPlaneIdentity) : result (gmap string ControlPlaneIdentity) :=
  match v with
  | JNull => Ok ∅
  | JObject ms =>
      foldR (fun m e => identity ← decode_struct identity_fields e.2 (mkControlPlaneIdentity [] []); Ok (<[e.1 := identity]> m)) m ms
  | _ => Err (mismatch "value into Go value of type map[string]ControlPlaneIdentity")
  end.

(** [ControlPlaneConfig] is its map. *)
Definition control_plane_fields : list (string * (json -> gmap string ControlPlaneIdentity -> result (gmap string ControlPlaneIdentity))) :=
  [("identities"%string, decode_identities)].

Definition config_fields : list (string * (json -> Config -> result Config)) :=
  [("listen_address"%string, field decode_string set_c_ListenAddress);
   ("tls_cert_file"%string, field decode_string set_c_TLSCertFile);
   ("tls_key_file"%string, field decode_string set_c_TLSKeyFile);
   ("client_ca_file"%string, field decode_string set_c_ClientCAFile);
   ("require_client_cert"%string, field decode_bool set_c_RequireClientCert);
   ("allow_plaintext_for_tests"%string, field decode_bool set_c_AllowPlaintextForTests);
   ("sqlite_path"%string, field decode_string set_c_SQLitePath);
   ("audit_file_path"%string, field decode_string set_c_AuditFilePath);
   ("audit_fsync"%string, field decode_bool set_c_AuditFsync);
   ("otel_exporter"%string, field decode_string set_c_OTelExporter);
   ("default_policy_path"%string, field decode_string set_c_DefaultPolicyPath);
   ("keyring_protection_profile"%string, field decode_string set_c_KeyringProtectionProfile);
   ("cluster_id"%string, field decode_string set_c_ClusterID);
   ("key_id"%string, field decode_string set_c_KeyID);
   ("policy_id"%string, field decode_string set_c_PolicyID);
   ("control_plane"%string, in_place (decode_struct control_plane_fields) c_Identities set_c_Identities);
   ("development_subject"%string, field decode_string set_c_DevelopmentSubject);
   ("development_wrapping_key_b64"%string, field decode_string set_c_DevelopmentWrappingKeyB64);
   ("challenge_ttl_seconds"%string, field decode_int64 set_c_ChallengeTTLSeconds);
   ("kubernetes"%string, in_place (decode_struct kubernetes_fields) c_Kubernetes set_c_Kubernetes)].

Definition zero_kubernetes : KubernetesConfig :=
  mkKubernetesConfig false EmptyString EmptyString EmptyString EmptyString EmptyString EmptyString 0 0 0 false false [].
Definition zero_policy_document : PolicyDocument := mkPolicyDocument EmptyString EmptyString [].
Definition zero_config : Config :=
  mkConfig EmptyString EmptyString EmptyString EmptyString false false EmptyString EmptyString false EmptyString EmptyString EmptyString
    EmptyString EmptyString EmptyString ∅ EmptyString EmptyString 0 zero_kubernetes zero_policy_document.

Definition policy_document_fields : list (string * (json -> PolicyDocument -> result PolicyDocument)) :=
  [("policy_id"%string, field decode_string (fun x p => mkPolicyDocument x (pd_Mode p) (pd_DevelopmentSubjects p)));
   ("mode"%string, field decode_string (fun x p => mkPolicyDocument (pd_PolicyID p) x (pd_DevelopmentSubjects p)));
   ("development_subjects"%string, list_field EmptyString decode_string (fun x p => mkPolicyDocument (pd_PolicyID p) (pd_Mode p) x))].

(** Trust that was once configured here: whether each member is there, null included. *)
Definition deprecated_kubernetes_fields : list (string * (json -> bool * bool -> result (bool * bool))) :=
  [("node_evidence_tpm_policies"%string, fun _ seen => Ok (true, seen.2));
   ("node_evidence_publishers"%string, fun _ seen => Ok (seen.1, true))].
Definition deprecated_fields : list (string * (json -> bool * bool -> result (bool * bool))) :=
  [("kubernetes"%string, decode_struct deprecated_kubernetes_fields)].

Definition rejectDeprecatedNodeTrustConfig (raw : bytes) : result unit :=
  seen ← map_err (errorp "parse broker config") (unmarshal deprecated_fields (false, false) raw);
  check (negb (seen.1 || seen.2)) (errorf
    "static node evidence TPM policies and publishers are no longer supported; use authenticated node enrollment").

Section Daemon.
Context `{Machine, !KubeServer, UrlLib, CertFiles, PayloadJSON}.

Definition LoadPolicyDocument (path : string) : result PolicyDocument :=
  raw ← map_err (errorp "read default policy") (os_ReadFile path);
  policy ← map_err (errorp "parse default policy") (unmarshal policy_document_fields zero_policy_document raw);
  PolicyDocument_Validate policy;;
  Ok policy.

Definition LoadConfig (path : string) : result Config :=
  raw ← map_err (errorp "read broker config") (os_ReadFile path);
  rejectDeprecatedNodeTrustConfig raw;;
  config ← map_err (errorp "parse broker config") (unmarshal config_fields zero_config raw);
  config ← WithLoadedPolicy LoadPolicyDocument config;
  Config_Validate config;;
  Ok config.

(** ** Serving *)

Definition ErrServerStopped : error := sentinel "grpc.ErrServerStopped" "grpc: the server has been stopped".
Definition Canceled : error := sentinel "context.Canceled" "context canceled".

(** How serving ends: the context, or what [Serve] returns. *)
Inductive ending := ContextDone (err : error) | Served (r : result unit).

Definition ended (e : ending) : result unit :=
  match e with
  | ContextDone err => Err err
  | Served (Err err) => if errors_Is err ErrServerStopped then Ok tt else Err err
  | Served (Ok _) => Ok tt
  end.

Context `{AEAD, Protector, ProtoLib, Hashes, TpmLib, EvidenceJSON}.

(** The circumstances of a start: telemetry, context, clock, the listener, and then the
    calls that are served. *)
Record Start := mkStart {
  st_telemetry : result unit; st_ctx : result unit; st_wall : Time; st_listen : result unit; st_calls : list call; st_end : ending;
}.

(** The daemon's runtime, with the clients of the Kubernetes API and the files it reads. *)
Definition new_runtime (s : Start) : Config -> DB -> result Runtime * DB :=
  NewRuntime LoadPolicyDocument newKubernetesClients (st_telemetry s) (st_ctx s) (st_wall s).

Definition ListenAndServe (s : Start) (config : Config) (b : Broker) : result unit * Broker :=
  match new_runtime s config (b_db b) with
  | (Err e, db) => (Err e, mkBroker db (b_file b))
  | (Ok runtime, db) =>
      let b := mkBroker db (b_file b) in
      match map_err (errorp "listen on broker address") (st_listen s) with
      | Err e => (Err e, b)
      | Ok _ => (ended (st_end s), foldl (fun b c => Runtime.serve runtime c b) b (st_calls s))
      end
  end.

(** ** Commands *)

Definition config_of (configPath : string) : outcome Config :=
  coded ExitUsage (check (negb (empty (TrimSpace configPath))) (errorf "-config is required")) ≫= fun _ =>
  coded ExitConfig (LoadConfig configPath).

(** A daemon that was told to stop has not failed. *)
Definition serve_command (s : Start) (configPath : string) : action Broker unit := fun b =>
  match config_of configPath with
  | inr e => (inr e, b)
  | inl config =>
      let '(r, b) := ListenAndServe s config b in
      (match r with
       | Err err => if errors_Is err Canceled then inl tt else coded ExitRuntime (Err err)
       | Ok _ => inl tt
       end, b)
  end.

Definition configCommand (configPath : string) : outcome string :=
  config_of configPath ≫= fun _ => mret "broker config is valid"%string.
End Daemon.
