(* ===== verification/DaemonProps.v ===== *)
(** * What the daemon runs on

    A configuration that loads is validated, typed and the one the daemon starts with;
    trust in nodes can no longer be configured; and serving, from the command line on,
    keeps every promise of the store. *)

From S2P Require Import Prelude GoStrings Json JsonText GoTime Keyring KeyProtection Tpm NodeEvidence LocalState StateText Config.
From S2P Require Import Sql Store Challenges SqlNodeEvidence StoreInv StoreOps Policy Kubernetes EvidenceText Admin Enrollment Service.
From S2P Require Import Ctl KmsConfig Runtime Agent AgentProps CtlRotate KubeApi KubeApiProps Daemon.
Local Open Scope Z_scope.

(** ** Decoding keeps what each field keeps *)

Lemma find_field_elem {A} (fields : list (string * A)) key x : find_field fields key = Some x -> exists name, (name, x) ∈ fields.
Proof.
  unfold find_field. destruct (List.find _ fields) as [[n y]|] eqn:E.
  - intros [= <-]. apply List.find_some in E as [E _]. exists n. by apply list_elem_of_In.
  - intros Hf. apply fmap_Some in Hf as ([n y] & Hf & ->). apply List.find_some in Hf as [Hf _]. exists n. by apply list_elem_of_In.
Qed.

Lemma decode_struct_keeps {St} (P : St -> Prop) (fields : list (string * (json -> St -> result St))) v st st' :
  Forall (fun f => forall v st st', f.2 v st = Ok st' -> P st -> P st') fields ->
  decode_struct fields v st = Ok st' -> P st -> P st'.
Proof.
  intros Hf. destruct v as [| | | | |ms]; cbn [decode_struct]; try done; [by intros [= ->]|].
  revert st. induction ms as [|[key x] ms IH]; intros st; cbn [foldR fst snd]; [by intros [= ->]|].
  destruct (find_field fields key) as [set|] eqn:E; cbn [mbind result_bind]; [|apply IH].
  intros (st1 & Hs & Hr)%bind_Ok Hp. eapply IH; [exact Hr|]. apply find_field_elem in E as (name & Hin).
  rewrite Forall_forall in Hf. by apply (Hf _ Hin) in Hs.
Qed.

(** A member that establishes what every field keeps. *)
Lemma decode_struct_reaches {St} (P : St -> Prop) (fields : list (string * (json -> St -> result St))) ms key v set st st' :
  Forall (fun f => forall v st st', f.2 v st = Ok st' -> P st -> P st') fields ->
  decode_struct fields (JObject ms) st = Ok st' -> (key, v) ∈ ms -> find_field fields key = Some set ->
  (forall s s', set v s = Ok s' -> P s') -> P st'.
Proof.
  intros Hf Hd Hin Hs Hset. revert st Hd. induction ms as [|[k x] ms IH]; intros st; [by apply not_elem_of_nil in Hin|].
  cbn [decode_struct foldR fst snd]. apply elem_of_cons in Hin as [[= <- <-]|Hin].
  - rewrite Hs. intros (s1 & H1 & Hr)%bind_Ok. apply Hset in H1.
    by apply (decode_struct_keeps P fields (JObject ms) s1 st').
  - intros (s1 & _ & Hr)%bind_Ok. by apply (IH Hin s1).
Qed.

(** ** Trust that may no longer be configured *)

Definition seen_any (seen : bool * bool) : Prop := seen.1 || seen.2 = true.

Lemma deprecated_keeps : Forall (fun f => forall v st st', f.2 v st = Ok st' -> seen_any st -> seen_any st') deprecated_kubernetes_fields.
Proof. repeat constructor; cbn; intros v s s' [= <-] _; unfold seen_any; cbn; [done | apply orb_true_r]. Qed.

Lemma deprecated_seen ks key v st st' :
  decode_struct deprecated_kubernetes_fields (JObject ks) st = Ok st' -> (key, v) ∈ ks -> is_Some (find_field deprecated_kubernetes_fields key) ->
  seen_any st'.
Proof.
  intros Hd Hin [set Hs]. eapply decode_struct_reaches; [exact deprecated_keeps | exact Hd | exact Hin | exact Hs |].
  intros s s' Hset. apply find_field_elem in Hs as (name & Hn). unfold deprecated_kubernetes_fields in Hn.
  rewrite !elem_of_cons in Hn. destruct Hn as [[= -> ->]|[[= -> ->]|?%elem_of_nil]]; [..|done]; injection Hset as <-; unfold seen_any; cbn;
    [done | apply orb_true_r].
Qed.

Section Loading.
Context `{Machine, !KubeServer, UrlLib, CertFiles, PayloadJSON}.

(** A file that still configures the trust in nodes, whatever it says of it and however
    the keys are capitalised, is no configuration. *)
Lemma deprecated_trust_refused path raw ms name ks key v c :
  os_ReadFile path = Ok raw -> json_Parse raw = Some (JObject ms) -> (name, JObject ks) ∈ ms ->
  is_Some (find_field deprecated_fields name) -> (key, v) ∈ ks -> is_Some (find_field deprecated_kubernetes_fields key) ->
  LoadConfig path <> Ok c.
Proof.
  intros Hr Hp Hname [set Hset] Hkey Hs Hl. unfold LoadConfig in Hl. rewrite Hr in Hl. cbn [map_err mbind result_bind] in Hl.
  apply bind_Ok in Hl as (u & Hd & _). unfold rejectDeprecatedNodeTrustConfig, unmarshal in Hd. rewrite Hp in Hd. inv_ok.
  match goal with E : decode_struct deprecated_fields _ _ = Ok ?s |- _ => assert (seen_any s) as Hseen end.
  { eapply decode_struct_reaches; [| eassumption | exact Hname | exact Hset |].
    - constructor; [|constructor]. intros w s s'. cbn [snd]. apply decode_struct_keeps. exact deprecated_keeps.
    - intros s s' Hd'. apply find_field_elem in Hset as (n & Hn). unfold deprecated_fields in Hn.
      apply list_elem_of_singleton in Hn. injection Hn as -> ->. by eapply deprecated_seen. }
  unfold seen_any in Hseen. match goal with E : negb _ = true |- _ => by rewrite Hseen in E end.
Qed.

(** ** A configuration that loads *)

Lemma WithLoadedPolicy_again loaded c0 c : WithLoadedPolicy loaded c0 = Ok c -> WithLoadedPolicy loaded c = Ok c.
Proof.
  unfold WithLoadedPolicy. intros Hl. destruct (String.eqb (TrimSpace (c_DefaultPolicyPath c0)) EmptyString) eqn:E; [injection Hl as ->; by rewrite E|].
  apply bind_Ok in Hl as (policy & Hp & Hl). apply bind_Ok in Hl as (u & Hc & Hl). injection Hl as <-.
  cbn [c_DefaultPolicyPath c_PolicyID]. rewrite E, Hp. cbn [mbind result_bind c_PolicyID]. rewrite Hc. reflexivity.
Qed.

Definition int64 (n : Z) : Prop := - int64_max - 1 <= n <= int64_max.

Definition config_typed (c : Config) : Prop :=
  int64 (c_ChallengeTTLSeconds c) /\ int64 (k_NodeEvidenceTTLSeconds (c_Kubernetes c)) /\
  int64 (k_NodeEvidenceRetentionSeconds (c_Kubernetes c)) /\ int64 (k_APITimeoutSeconds (c_Kubernetes c)).
Definition kubernetes_typed (k : KubernetesConfig) : Prop :=
  int64 (k_NodeEvidenceTTLSeconds k) /\ int64 (k_NodeEvidenceRetentionSeconds k) /\ int64 (k_APITimeoutSeconds k).

Lemma field_keeps {A St} (decode : json -> result A) (set : A -> St -> St) (P : St -> Prop) v st st' :
  field decode set v st = Ok st' -> (forall x, decode v = Ok x -> P st -> P (set x st)) -> P st -> P st'.
Proof. unfold field. intros Hf Hset Hp. destruct v; [by injection Hf as -> | ..]; apply bind_Ok in Hf as (x & Hd & [= <-]); by apply Hset. Qed.

Lemma list_field_keeps {A St} (zero : A) decode (set : list A -> St -> St) (P : St -> Prop) v st st' :
  list_field zero decode set v st = Ok st' -> (forall x, P st -> P (set x st)) -> P st -> P st'.
Proof. unfold list_field. intros (x & _ & [= <-])%bind_Ok Hset. apply Hset. Qed.

Lemma decode_int64_range v n : decode_int64 v = Ok n -> int64 n.
Proof.
  unfold decode_int64, decode_int. destruct v; try done. destruct (parse_int _) as [z|]; [|done].
  destruct (between _ _ z) eqn:E; [|done]. intros [= ->]. unfold between in E. to_prop. unfold int64. lia.
Qed.

Ltac keeps_typed P :=
  let v := fresh in let st := fresh in let st' := fresh in let Hd := fresh in let x := fresh in let Hx := fresh in
  intros v st st' Hd; cbn [snd] in Hd;
  first [ apply (field_keeps _ _ P _ _ _ Hd); intros x Hx; first [apply decode_int64_range in Hx | clear Hx]
        | apply (list_field_keeps _ _ _ P _ _ _ Hd); intros x ];
  unfold P; cbn; tauto.

Lemma kubernetes_fields_typed : Forall (fun f => forall v st st', f.2 v st = Ok st' -> kubernetes_typed st -> kubernetes_typed st') kubernetes_fields.
Proof. unfold kubernetes_fields. repeat (apply Forall_cons_2; [keeps_typed kubernetes_typed|]). by apply Forall_nil_2. Qed.

Lemma in_place_keeps {A St} (decode : json -> A -> result A) get (set : A -> St -> St) (P : St -> Prop) v st st' :
  in_place decode get set v st = Ok st' -> (forall x, decode v (get st) = Ok x -> P (set x st)) -> P st'.
Proof. unfold in_place. intros (x & Hd & [= <-])%bind_Ok Hset. by apply Hset. Qed.

Lemma config_fields_typed : Forall (fun f => forall v st st', f.2 v st = Ok st' -> config_typed st -> config_typed st') config_fields.
Proof.
  unfold config_fields. repeat (apply Forall_cons_2; [first [keeps_typed config_typed | idtac]|]); [..|by apply Forall_nil_2];
    intros v st st' Hd; cbn [snd] in Hd; intros (Hc & Hk).
  - apply (in_place_keeps _ _ _ config_typed _ _ _ Hd). intros x _. by split.
  - apply (in_place_keeps _ _ _ config_typed _ _ _ Hd). intros x Hx. split; [exact Hc|].
    by apply (decode_struct_keeps _ _ _ _ _ kubernetes_fields_typed Hx).
Qed.

Lemma loaded_config path c :
  LoadConfig path = Ok c -> Config_Validate c = Ok tt /\ WithLoadedPolicy LoadPolicyDocument c = Ok c /\ config_typed c.
Proof.
  unfold LoadConfig. intros Hl. apply bind_Ok in Hl as (raw & _ & Hl). apply bind_Ok in Hl as ([] & _ & Hl).
  apply bind_Ok in Hl as (c0 & Hu & Hl). apply bind_Ok in Hl as (c1 & Hw & Hl). apply bind_Ok in Hl as ([] & Hv & [= <-]).
  split_and!; [exact Hv | by eapply WithLoadedPolicy_again |].
  assert (config_typed c0) as Ht.
  { apply map_err_Ok in Hu. unfold unmarshal in Hu. apply bind_Ok in Hu as (v & _ & Hu).
    apply (decode_struct_keeps _ _ _ _ _ config_fields_typed Hu). vm_compute. intuition congruence. }
  unfold WithLoadedPolicy in Hw. case_hyp Hw; [by injection Hw as <-|]. by inv_ok.
Qed.
End Loading.

(** ** Serving the configuration *)

Section Serving.
Context `{Machine, !KubeServer, UrlLib, CertFiles, PayloadJSON}.

(** A runtime of a configuration that loaded has it as it is, and is put together from it. *)
Lemma new_runtime_of s path c db rt db' :
  LoadConfig path = Ok c -> new_runtime s c db = (Ok rt, db') ->
  rt_Config rt = c /\ grpcServerOptions c = Ok (rt_TLS rt) /\
  exists service nodeEvidence, newRuntimeService newKubernetesClients (st_wall s) c = Ok (service, nodeEvidence) /\ rt_Service rt = service.
Proof.
  intros (Hv & Hw & _)%loaded_config Hn. assert (rt_Config rt = c) as Hc.
  { unfold new_runtime, NewRuntime in Hn. rewrite Hw in Hn. cbn [mbind result_bind] in Hn. rewrite Hv in Hn. cbn [mbind result_bind] in Hn.
    destruct (seedDevelopment _ _ _ _) as [[[]|] d1]; [|done]. injection Hn as Hn _. apply bind_Ok in Hn as (? & _ & Hn). apply bind_Ok in Hn as ([service ne] & _ & Hg).
    unfold NewGRPCServer in Hg. by inv_ok. }
  split; [done|]. apply NewRuntime_Ok in Hn as (_ & _ & service & ne & Hs & Hg). rewrite Hc in Hs, Hg.
  unfold NewGRPCServer in Hg. apply bind_Ok in Hg as (tls & Htls & [= <-]). split; [done|]. by exists service, ne.
Qed.

Context `{AEAD, Protector, ProtoLib, Hashes, TpmLib, EvidenceJSON}.

Lemma ListenAndServe_steps s c b :
  (forall rt db, new_runtime s c (b_db b) = (Ok rt, db) -> Forall (call_typed rt) (st_calls s)) ->
  steps (b_db b) (b_db (ListenAndServe s c b).2).
Proof.
  intros Hcalls. pose proof (NewRuntime_steps LoadPolicyDocument newKubernetesClients (st_telemetry s) (st_ctx s) (st_wall s) c (b_db b)) as Hs.
  unfold ListenAndServe. fold (new_runtime s c (b_db b)) in Hs.
  destruct (new_runtime s c (b_db b)) as [[rt|e] db] eqn:E; [|exact Hs].
  destruct (map_err _ (st_listen s)) as [u|e]; [|exact Hs].
  eapply steps_trans; [exact Hs|]. apply serve_all_steps. by eapply Hcalls.
Qed.

(** The transport a configuration asks for.  Plaintext only when it is allowed and no
    certificate is configured.  Otherwise TLS with a key pair that loads; with a client
    CA file, whose certificates are then the trusted ones, every client certificate is
    verified, and it must be there when the configuration requires it. *)
Inductive transport_of (c : Config) : option TLSConfig -> Prop :=
  | transport_plaintext :
      c_AllowPlaintextForTests c = true -> c_TLSCertFile c = EmptyString -> c_TLSKeyFile c = EmptyString ->
      transport_of c None
  | transport_server_only :
      LoadX509KeyPair (c_TLSCertFile c) (c_TLSKeyFile c) = Ok tt -> c_ClientCAFile c = EmptyString ->
      transport_of c (Some (mkTLSConfig false NoClientCert))
  | transport_mutual ca auth :
      LoadX509KeyPair (c_TLSCertFile c) (c_TLSKeyFile c) = Ok tt -> c_ClientCAFile c <> EmptyString ->
      ReadCertFile (c_ClientCAFile c) = Ok ca -> Runtime.AppendCertsFromPEM ca = true ->
      (c_RequireClientCert c = true -> auth = RequireAndVerifyClientCert) ->
      (c_RequireClientCert c = false -> auth = VerifyClientCertIfGiven) ->
      transport_of c (Some (mkTLSConfig true auth)).

Lemma grpcServerOptions_transport c tls : grpcServerOptions c = Ok tls -> transport_of c tls.
Proof.
  unfold grpcServerOptions, loadTLSConfig. case_goal; [intros [= <-]; to_prop; by constructor|].
  intros (t & Ht & [= <-])%bind_Ok. apply bind_Ok in Ht as ([] & Hk%map_err_Ok & Ht). case_hyp Ht.
  - to_prop. injection Ht as <-. by constructor.
  - to_prop. apply bind_Ok in Ht as (ca & Hca%map_err_Ok & Ht). apply bind_Ok in Ht as (? & Hp%check_Ok & [= <-]).
    destruct (c_RequireClientCert c) eqn:E; apply (transport_mutual c ca); congruence.
Qed.

(** The unseal service a configuration asks for: with Kubernetes workloads its verifier
    asks the configured API server and its policy reads the node evidence of the store;
    without, it takes development evidence and reads none. *)
Definition service_of (wall : Time) (c : Config) (service : Service) : Prop :=
  if k_Enabled (c_Kubernetes c)
  then exists reviewer lookup, newKubernetesClients (c_Kubernetes c) = Ok (reviewer, lookup) /\
    service = NewServiceWithEvidenceVerifierAndNodeEvidence c
      (Some (KubernetesEvidenceVerifier (newKubernetesRuntimeDependencies reviewer lookup (c_Kubernetes c))))
      (Some (sql_FreshNodeEvidence wall))
  else service = NewService c /\ (forall evidence, verifier_of service evidence = DevelopmentEvidenceVerifier evidence) /\
    pe_nodeEvidence (sv_policy service) = None.

(** C12: when [bao-unseald serve] exits without an error, its file is a configuration
    that [bao-unseald config validate] accepts, with numbers that fit their 64 bits.
    Whatever runtime was started has exactly that configuration, the transport it asks
    for, plaintext only when that is allowed and no certificate is configured, client
    certificates demanded and verified when they are required; and the unseal service it
    asks for: its evidence verifier asks the configured API server when Kubernetes
    workloads are enabled and takes development evidence otherwise.  The store that is
    left is reachable and kept everything it had. *)
Theorem daemon_runs_its_config s path b b' :
  reachable (b_db b) ->
  (forall c rt db, LoadConfig path = Ok c -> new_runtime s c (b_db b) = (Ok rt, db) -> Forall (call_typed rt) (st_calls s)) ->
  serve_command s path b = (inl tt, b') ->
  exists c,
    LoadConfig path = Ok c /\ configCommand path = inl "broker config is valid"%string /\ Config_Validate c = Ok tt /\ config_typed c /\
    (forall rt db, new_runtime s c (b_db b) = (Ok rt, db) ->
       rt_Config rt = c /\
       transport_of c (rt_TLS rt) /\
       (c_AllowPlaintextForTests c = false -> c_RequireClientCert c = true -> rt_TLS rt = Some (mkTLSConfig true RequireAndVerifyClientCert)) /\
       service_of (st_wall s) c (rt_Service rt) /\
       (st_listen s = Ok tt -> b' = foldl (fun b c => Runtime.serve rt c b) (mkBroker db (b_file b)) (st_calls s))) /\
    reachable (b_db b') /\ store_le (b_db b) (b_db b').
Proof.
  intros Hr Hcalls Hs. unfold serve_command in Hs. destruct (config_of path) as [c|e] eqn:Ec; [|done].
  destruct (ListenAndServe s c b) as [r b1] eqn:El. assert (b1 = b') as -> by (by destruct r as [|err]; [|destruct (errors_Is err Canceled)]; injection Hs).
  assert (LoadConfig path = Ok c) as Hl.
  { unfold config_of in Ec. destruct (negb (empty (TrimSpace path))); [|done]. by destruct (LoadConfig path); cbn in Ec; simplify_eq. }
  destruct (loaded_config path c Hl) as (Hv & _ & Ht).
  pose proof (ListenAndServe_steps s c b (fun rt db => Hcalls c rt db Hl)) as Hst. rewrite El in Hst. cbn [snd] in Hst.
  exists c. split_and!; [done | by unfold configCommand; rewrite Ec | done | done | | by eapply steps_reachable |
    by apply (steps_le _ _ (reachable_inv _ Hr) Hst)].
  intros rt db Hn. destruct (new_runtime_of _ _ _ _ _ _ Hl Hn) as (Hc & Hg & service & ne & Hsv & Hrt). split_and!; [done | by apply grpcServerOptions_transport | | |].
  - intros Hp Hcc. by eapply secure_transport.
  - subst service. unfold service_of. unfold newRuntimeService in Hsv. destruct (k_Enabled (c_Kubernetes c)); cbn [negb] in Hsv.
    + apply bind_Ok in Hsv as ([reviewer lookup] & Hcl & [= <- _]). by exists reviewer, lookup.
    + by injection Hsv as <- _.
  - intros Hlis. unfold ListenAndServe in El. rewrite Hn, Hlis in El. by injection El.
Qed.
End Serving.

(** ** A broker from its file *)

Definition toy_config_json : json := JObject
  [("listen_address"%string, JString "0.0.0.0:8443"); ("tls_cert_file"%string, JString "tls.crt"); ("tls_key_file"%string, JString "tls.key");
   ("client_ca_file"%string, JString "ca.crt"); ("require_client_cert"%string, JBool true); ("sqlite_path"%string, JString "state.db");
   ("audit_file_path"%string, JString "audit.log"); ("cluster_id"%string, JString "cluster-a"); ("key_id"%string, JString "key-1");
   ("policy_id"%string, JString "policy-1"); ("development_subject"%string, JString "openbao.agent");
   ("development_wrapping_key_b64"%string, JString (c_DevelopmentWrappingKeyB64 example_config)); ("challenge_ttl_seconds"%string, JNumber "300");
   ("control_plane"%string, JObject [("identities"%string, JObject [(example_publisher, JObject
      [("roles"%string, JArray [JString ControlPlaneRoleNodeEvidenceAdmin]); ("cluster_ids"%string, JArray [JString "cluster-a"])])])]);
   ("kubernetes"%string, JObject [("enabled"%string, JBool true); ("token_review_audience"%string, JString "openbao");
      ("namespace"%string, JString "openbao"); ("service_account"%string, JString "agent");
      ("node_evidence_publish_providers"%string, JArray [JString ProviderTPM2Quote])])].

Definition toy_files (path : string) : result bytes :=
  if String.eqb path "broker.json" then Ok (json_Print toy_config_json)
  else if String.eqb path "old.json" then
    Ok (json_Print (JObject [("Kubernetes"%string, JObject [("node_evidence_publishers"%string, JNull)])]))
  else @os_ReadFile toy_machine path.
Definition toy_host : Machine := {|
  os_Getenv := @os_Getenv toy_machine; os_FileExists := @os_FileExists toy_machine; os_ReadFile := toy_files;
  KubeCertPool := unit; kube_SystemCertPool := None; kube_NewCertPool := tt; kube_AppendCertsFromPEM := fun _ _ => None |}.
Definition silent_kube : @KubeServer toy_host := @Build_KubeServer toy_host (fun _ _ => Ok tt) (fun _ _ => Ok (mkHttpResponse 404 (Ok EmptyString))).

Definition toy_load (path : string) : result Config := @LoadConfig toy_host path.

(** Keys are found whatever their case, and what is no longer trusted is refused even when it is null. *)
Example toy_file_loads : is_ok (toy_load "broker.json") = true.
Proof. vm_compute. reflexivity. Qed.
Example toy_old_file_refused : is_ok (toy_load "old.json") = false.
Proof. vm_compute. reflexivity. Qed.

(** An operator enrolls a node, and then the daemon is told to stop. *)
Definition toy_calls : list call := [CallTrust (env_with "a1") (env_with "a2") example_peer example_enroll_request].
Definition toy_start : Start := mkStart (Ok tt) (Ok tt) example_time (Ok tt) toy_calls (ContextDone Canceled).
Local Abbreviation toy_serve := (@serve_command toy_host silent_kube toy_url toy_CertFiles toy_PayloadJSON toy_AEAD DevelopmentProtector toy_ProtoLib toy_Hashes toy_TpmLib
    toy_EvidenceJSON toy_start "broker.json" (mkBroker empty_db [])).

Example toy_enrolled : size (node_evidence_enrollments (b_db toy_serve.2)) = 1%nat.
Proof. vm_compute. reflexivity. Qed.

Lemma toy_calls_typed rt : Forall (call_typed rt) toy_calls.
Proof.
  assert (time_ok example_time) as Ht by (vm_compute; split; congruence).
  apply Forall_cons_2; [|apply Forall_nil_2]. split; [by intros p; constructor|]. split; [by intros p; constructor|]. by split.
Qed.

Lemma ends_well (o : outcome unit * Broker) : (if o.1 then true else false) = true -> o = (inl tt, o.2).
Proof. by destruct o as [[[]|] b]. Qed.

Lemma daemon_runs_its_config_witness : exists c, toy_load "broker.json" = Ok c /\ config_typed c /\ reachable (b_db toy_serve.2).
Proof.
  destruct (@daemon_runs_its_config toy_host silent_kube toy_url toy_CertFiles toy_PayloadJSON toy_AEAD DevelopmentProtector toy_ProtoLib
    toy_Hashes toy_TpmLib toy_EvidenceJSON toy_start "broker.json" (mkBroker empty_db []) toy_serve.2)
    as (c & Hl & _ & _ & Ht & _ & Hr & _).
  - exact reach_empty.
  - intros c rt db _ _. apply toy_calls_typed.
  - apply ends_well. vm_compute. reflexivity.
  - exists c. split; [exact Hl|]. split; [exact Ht | exact Hr].
Defined.
