(* ===== verification/CtlFiles.v ===== *)
(** * bao-unsealctl: files and flags of the commands on the broker state
    (internal/baounsealctl/command.go)

    The operator carries recovery packages, sessions, enrollment requests and grants
    between machines as JSON files.  Here these files are text: how they are written, and
    how strictly they are read.  The commands of [Ctl] that read them are completed to
    commands from the values of their flags. *)

From S2P Require Import Prelude GoStrings Json JsonText GoTime Keyring KeyProtection Tpm TpmSeal NodeEvidence LocalState Config Recovery Grants.
From S2P Require Import Sql Store Policy Ctl.
From Stdlib Require Import Ascii.
Local Open Scope Z_scope.

(** ** Paths

    A path of the command line is relative to the working directory, the root of the tree
    of [LocalState], or starts at "/", which is a component of its own. *)

(** One component of [filepath.Clean]; [done] are those before it, last one first. *)
Definition clean_step (done : list string) (c : string) : list string :=
  if String.eqb c EmptyString || String.eqb c "." then done
  else if String.eqb c ".." then
    match done with
    | [] => [".."%string]
    | d :: r => if String.eqb d ".." then ".."%string :: done else if String.eqb d "/" then done else r
    end
  else c :: done.

Definition Clean (s : string) : path :=
  rev (foldl clean_step (if HasPrefix s "/" then ["/"%string] else []) (Split s "/"%char)).

(** [filepath.Dir] of the components before the last slash. *)
Definition Dir_of (s : string) : path :=
  rev (foldl clean_step (if HasPrefix s "/" then ["/"%string] else []) (removelast (Split s "/"%char))).

(** ** Reading *)

(** [Decode] with [DisallowUnknownFields]. *)
Definition decode_strict {St} (fields : list (string * (json -> St -> result St))) (v : json) (st : St) : result St :=
  match v with
  | JNull => Ok st
  | JObject ms =>
      foldR (fun st m => match find_field fields m.1 with
                         | Some set => set m.2 st
                         | None => Err (errorf ("json: unknown field " +:+ quoted m.1))
                         end) st ms
  | _ => Err (mismatch "value into Go struct")
  end.

(** The [%04o] of permission bits. *)
Definition octal_digit (n : Z) : string := String (byte_chr (48 + n)) EmptyString.
Definition octal (perm : Z) : string :=
  "0" +:+ octal_digit (perm / 64 mod 8) +:+ octal_digit (perm / 8 mod 8) +:+ octal_digit (perm mod 8).

(** A [[]string] that may be nil. *)
Definition option_list_field {St} (set : option (list string) -> St -> St) (v : json) (st : St) : result St :=
  match v with
  | JNull => Ok (set None st)
  | _ => xs ← decode_list EmptyString decode_string v; Ok (set (Some xs) st)
  end.

Definition set_pm_SchemaVersion x m := mkPackageMetadata x (pm_PackageID m) (pm_ClusterID m) (pm_KeyID m)
  (pm_CreatedAt m) (pm_Threshold m) (pm_Shares m) (pm_KDF m) (pm_WrappingAlgorithm m) (pm_SecretChecksum m)
  (pm_AllowedOperations m) .
Definition set_pm_PackageID x m := mkPackageMetadata (pm_SchemaVersion m) x (pm_ClusterID m) (pm_KeyID m)
  (pm_CreatedAt m) (pm_Threshold m) (pm_Shares m) (pm_KDF m) (pm_WrappingAlgorithm m) (pm_SecretChecksum m)
  (pm_AllowedOperations m) .
Definition set_pm_ClusterID x m := mkPackageMetadata (pm_SchemaVersion m) (pm_PackageID m) x (pm_KeyID m)
  (pm_CreatedAt m) (pm_Threshold m) (pm_Shares m) (pm_KDF m) (pm_WrappingAlgorithm m) (pm_SecretChecksum m)
  (pm_AllowedOperations m) .
Definition set_pm_KeyID x m := mkPackageMetadata (pm_SchemaVersion m) (pm_PackageID m) (pm_ClusterID m) x
  (pm_CreatedAt m) (pm_Threshold m) (pm_Shares m) (pm_KDF m) (pm_WrappingAlgorithm m) (pm_SecretChecksum m)
  (pm_AllowedOperations m) .
Definition set_pm_CreatedAt x m := mkPackageMetadata (pm_SchemaVersion m) (pm_PackageID m) (pm_ClusterID m)
  (pm_KeyID m) x (pm_Threshold m) (pm_Shares m) (pm_KDF m) (pm_WrappingAlgorithm m) (pm_SecretChecksum m)
  (pm_AllowedOperations m) .
Definition set_pm_Threshold x m := mkPackageMetadata (pm_SchemaVersion m) (pm_PackageID m) (pm_ClusterID m)
  (pm_KeyID m) (pm_CreatedAt m) x (pm_Shares m) (pm_KDF m) (pm_WrappingAlgorithm m) (pm_SecretChecksum m)
  (pm_AllowedOperations m) .
Definition set_pm_Shares x m := mkPackageMetadata (pm_SchemaVersion m) (pm_PackageID m) (pm_ClusterID m)
  (pm_KeyID m) (pm_CreatedAt m) (pm_Threshold m) x (pm_KDF m) (pm_WrappingAlgorithm m) (pm_SecretChecksum m)
  (pm_AllowedOperations m) .
Definition set_pm_KDF x m := mkPackageMetadata (pm_SchemaVersion m) (pm_PackageID m) (pm_ClusterID m) (pm_KeyID m)
  (pm_CreatedAt m) (pm_Threshold m) (pm_Shares m) x (pm_WrappingAlgorithm m) (pm_SecretChecksum m)
  (pm_AllowedOperations m) .
Definition set_pm_WrappingAlgorithm x m := mkPackageMetadata (pm_SchemaVersion m) (pm_PackageID m) (pm_ClusterID m)
  (pm_KeyID m) (pm_CreatedAt m) (pm_Threshold m) (pm_Shares m) (pm_KDF m) x (pm_SecretChecksum m)
  (pm_AllowedOperations m) .
Definition set_pm_SecretChecksum x m := mkPackageMetadata (pm_SchemaVersion m) (pm_PackageID m) (pm_ClusterID m)
  (pm_KeyID m) (pm_CreatedAt m) (pm_Threshold m) (pm_Shares m) (pm_KDF m) (pm_WrappingAlgorithm m) x
  (pm_AllowedOperations m) .
Definition set_pm_AllowedOperations x m := mkPackageMetadata (pm_SchemaVersion m) (pm_PackageID m) (pm_ClusterID m)
  (pm_KeyID m) (pm_CreatedAt m) (pm_Threshold m) (pm_Shares m) (pm_KDF m) (pm_WrappingAlgorithm m)
  (pm_SecretChecksum m) x.
Definition package_fields : list (string * (json -> PackageMetadata -> result PackageMetadata)) :=
  [("schema_version"%string, field decode_uint32 set_pm_SchemaVersion);
   ("recovery_package_id"%string, field decode_string set_pm_PackageID);
   ("cluster_id"%string, field decode_string set_pm_ClusterID);
   ("key_id"%string, field decode_string set_pm_KeyID);
   ("created_at"%string, field decode_string set_pm_CreatedAt);
   ("threshold"%string, field decode_int64 set_pm_Threshold);
   ("shares"%string, field decode_int64 set_pm_Shares);
   ("kdf"%string, field decode_string set_pm_KDF);
   ("wrapping_algorithm"%string, field decode_string set_pm_WrappingAlgorithm);
   ("secret_checksum"%string, field decode_string set_pm_SecretChecksum);
   ("allowed_operations"%string, list_field EmptyString decode_string set_pm_AllowedOperations)].

Definition set_rc_SchemaVersion x s := mkRecoverySession x (rc_SessionID s) (rc_RecoveryPackageID s)
  (rc_ClusterID s) (rc_KeyID s) (rc_SecretChecksum s) (rc_ExpiresAt s) .
Definition set_rc_SessionID x s := mkRecoverySession (rc_SchemaVersion s) x (rc_RecoveryPackageID s)
  (rc_ClusterID s) (rc_KeyID s) (rc_SecretChecksum s) (rc_ExpiresAt s) .
Definition set_rc_RecoveryPackageID x s := mkRecoverySession (rc_SchemaVersion s) (rc_SessionID s) x
  (rc_ClusterID s) (rc_KeyID s) (rc_SecretChecksum s) (rc_ExpiresAt s) .
Definition set_rc_ClusterID x s := mkRecoverySession (rc_SchemaVersion s) (rc_SessionID s) (rc_RecoveryPackageID s)
  x (rc_KeyID s) (rc_SecretChecksum s) (rc_ExpiresAt s) .
Definition set_rc_KeyID x s := mkRecoverySession (rc_SchemaVersion s) (rc_SessionID s) (rc_RecoveryPackageID s)
  (rc_ClusterID s) x (rc_SecretChecksum s) (rc_ExpiresAt s) .
Definition set_rc_SecretChecksum x s := mkRecoverySession (rc_SchemaVersion s) (rc_SessionID s)
  (rc_RecoveryPackageID s) (rc_ClusterID s) (rc_KeyID s) x (rc_ExpiresAt s) .
Definition set_rc_ExpiresAt x s := mkRecoverySession (rc_SchemaVersion s) (rc_SessionID s) (rc_RecoveryPackageID s)
  (rc_ClusterID s) (rc_KeyID s) (rc_SecretChecksum s) x.
Definition session_fields : list (string * (json -> recoverySession -> result recoverySession)) :=
  [("schema_version"%string, field decode_uint32 set_rc_SchemaVersion);
   ("session_id"%string, field decode_string set_rc_SessionID);
   ("recovery_package_id"%string, field decode_string set_rc_RecoveryPackageID);
   ("cluster_id"%string, field decode_string set_rc_ClusterID);
   ("key_id"%string, field decode_string set_rc_KeyID);
   ("secret_checksum"%string, field decode_string set_rc_SecretChecksum);
   ("expires_at"%string, field decode_string set_rc_ExpiresAt)].

Definition set_rq_SchemaVersion x r := mkRequest x (rq_RequestID r) (rq_ClusterID r) (rq_SubjectID r) (rq_Mode r)
  (rq_AllowedOperations r) (rq_EvidenceFormat r) (rq_EvidencePayload r) (rq_EvidenceHash r) (rq_PublicIdentity r)
  (rq_Nonce r) (rq_ExpiresAt r) .
Definition set_rq_RequestID x r := mkRequest (rq_SchemaVersion r) x (rq_ClusterID r) (rq_SubjectID r) (rq_Mode r)
  (rq_AllowedOperations r) (rq_EvidenceFormat r) (rq_EvidencePayload r) (rq_EvidenceHash r) (rq_PublicIdentity r)
  (rq_Nonce r) (rq_ExpiresAt r) .
Definition set_rq_ClusterID x r := mkRequest (rq_SchemaVersion r) (rq_RequestID r) x (rq_SubjectID r) (rq_Mode r)
  (rq_AllowedOperations r) (rq_EvidenceFormat r) (rq_EvidencePayload r) (rq_EvidenceHash r) (rq_PublicIdentity r)
  (rq_Nonce r) (rq_ExpiresAt r) .
Definition set_rq_SubjectID x r := mkRequest (rq_SchemaVersion r) (rq_RequestID r) (rq_ClusterID r) x (rq_Mode r)
  (rq_AllowedOperations r) (rq_EvidenceFormat r) (rq_EvidencePayload r) (rq_EvidenceHash r) (rq_PublicIdentity r)
  (rq_Nonce r) (rq_ExpiresAt r) .
Definition set_rq_Mode x r := mkRequest (rq_SchemaVersion r) (rq_RequestID r) (rq_ClusterID r) (rq_SubjectID r) x
  (rq_AllowedOperations r) (rq_EvidenceFormat r) (rq_EvidencePayload r) (rq_EvidenceHash r) (rq_PublicIdentity r)
  (rq_Nonce r) (rq_ExpiresAt r) .
Definition set_rq_AllowedOperations x r := mkRequest (rq_SchemaVersion r) (rq_RequestID r) (rq_ClusterID r)
  (rq_SubjectID r) (rq_Mode r) x (rq_EvidenceFormat r) (rq_EvidencePayload r) (rq_EvidenceHash r)
  (rq_PublicIdentity r) (rq_Nonce r) (rq_ExpiresAt r) .
Definition set_rq_EvidenceFormat x r := mkRequest (rq_SchemaVersion r) (rq_RequestID r) (rq_ClusterID r)
  (rq_SubjectID r) (rq_Mode r) (rq_AllowedOperations r) x (rq_EvidencePayload r) (rq_EvidenceHash r)
  (rq_PublicIdentity r) (rq_Nonce r) (rq_ExpiresAt r) .
Definition set_rq_EvidencePayload x r := mkRequest (rq_SchemaVersion r) (rq_RequestID r) (rq_ClusterID r)
  (rq_SubjectID r) (rq_Mode r) (rq_AllowedOperations r) (rq_EvidenceFormat r) x (rq_EvidenceHash r)
  (rq_PublicIdentity r) (rq_Nonce r) (rq_ExpiresAt r) .
Definition set_rq_EvidenceHash x r := mkRequest (rq_SchemaVersion r) (rq_RequestID r) (rq_ClusterID r)
  (rq_SubjectID r) (rq_Mode r) (rq_AllowedOperations r) (rq_EvidenceFormat r) (rq_EvidencePayload r) x
  (rq_PublicIdentity r) (rq_Nonce r) (rq_ExpiresAt r) .
Definition set_rq_PublicIdentity x r := mkRequest (rq_SchemaVersion r) (rq_RequestID r) (rq_ClusterID r)
  (rq_SubjectID r) (rq_Mode r) (rq_AllowedOperations r) (rq_EvidenceFormat r) (rq_EvidencePayload r)
  (rq_EvidenceHash r) x (rq_Nonce r) (rq_ExpiresAt r) .
Definition set_rq_Nonce x r := mkRequest (rq_SchemaVersion r) (rq_RequestID r) (rq_ClusterID r) (rq_SubjectID r)
  (rq_Mode r) (rq_AllowedOperations r) (rq_EvidenceFormat r) (rq_EvidencePayload r) (rq_EvidenceHash r)
  (rq_PublicIdentity r) x (rq_ExpiresAt r) .
Definition set_rq_ExpiresAt x r := mkRequest (rq_SchemaVersion r) (rq_RequestID r) (rq_ClusterID r) (rq_SubjectID r)
  (rq_Mode r) (rq_AllowedOperations r) (rq_EvidenceFormat r) (rq_EvidencePayload r) (rq_EvidenceHash r)
  (rq_PublicIdentity r) (rq_Nonce r) x.
Definition request_fields : list (string * (json -> Request -> result Request)) :=
  [("schema_version"%string, field decode_uint32 set_rq_SchemaVersion);
   ("request_id"%string, field decode_string set_rq_RequestID);
   ("cluster_id"%string, field decode_string set_rq_ClusterID);
   ("subject_id"%string, field decode_string set_rq_SubjectID);
   ("mode"%string, field decode_string set_rq_Mode);
   ("allowed_operations"%string, option_list_field set_rq_AllowedOperations);
   ("evidence_format"%string, field decode_string set_rq_EvidenceFormat);
   ("evidence_payload"%string, field decode_string set_rq_EvidencePayload);
   ("evidence_hash"%string, field decode_string set_rq_EvidenceHash);
   ("public_identity"%string, field decode_string set_rq_PublicIdentity);
   ("nonce"%string, field decode_string set_rq_Nonce);
   ("expires_at"%string, field decode_string set_rq_ExpiresAt)].

Definition set_g_SchemaVersion x g := mkGrant x (g_GrantID g) (g_RequestID g) (g_ClusterID g) (g_KeyID g)
  (g_SubjectID g) (g_Mode g) (g_ApprovalMode g) (g_AllowedOperations g) (g_PolicyID g) (g_EvidenceHash g)
  (g_ExpiresAt g) (g_OneTime g) (g_IssuerPublicKey g) (g_Signature g) .
Definition set_g_GrantID x g := mkGrant (g_SchemaVersion g) x (g_RequestID g) (g_ClusterID g) (g_KeyID g)
  (g_SubjectID g) (g_Mode g) (g_ApprovalMode g) (g_AllowedOperations g) (g_PolicyID g) (g_EvidenceHash g)
  (g_ExpiresAt g) (g_OneTime g) (g_IssuerPublicKey g) (g_Signature g) .
Definition set_g_RequestID x g := mkGrant (g_SchemaVersion g) (g_GrantID g) x (g_ClusterID g) (g_KeyID g)
  (g_SubjectID g) (g_Mode g) (g_ApprovalMode g) (g_AllowedOperations g) (g_PolicyID g) (g_EvidenceHash g)
  (g_ExpiresAt g) (g_OneTime g) (g_IssuerPublicKey g) (g_Signature g) .
Definition set_g_ClusterID x g := mkGrant (g_SchemaVersion g) (g_GrantID g) (g_RequestID g) x (g_KeyID g)
  (g_SubjectID g) (g_Mode g) (g_ApprovalMode g) (g_AllowedOperations g) (g_PolicyID g) (g_EvidenceHash g)
  (g_ExpiresAt g) (g_OneTime g) (g_IssuerPublicKey g) (g_Signature g) .
Definition set_g_KeyID x g := mkGrant (g_SchemaVersion g) (g_GrantID g) (g_RequestID g) (g_ClusterID g) x
  (g_SubjectID g) (g_Mode g) (g_ApprovalMode g) (g_AllowedOperations g) (g_PolicyID g) (g_EvidenceHash g)
  (g_ExpiresAt g) (g_OneTime g) (g_IssuerPublicKey g) (g_Signature g) .
Definition set_g_SubjectID x g := mkGrant (g_SchemaVersion g) (g_GrantID g) (g_RequestID g) (g_ClusterID g)
  (g_KeyID g) x (g_Mode g) (g_ApprovalMode g) (g_AllowedOperations g) (g_PolicyID g) (g_EvidenceHash g)
  (g_ExpiresAt g) (g_OneTime g) (g_IssuerPublicKey g) (g_Signature g) .
Definition set_g_Mode x g := mkGrant (g_SchemaVersion g) (g_GrantID g) (g_RequestID g) (g_ClusterID g) (g_KeyID g)
  (g_SubjectID g) x (g_ApprovalMode g) (g_AllowedOperations g) (g_PolicyID g) (g_EvidenceHash g) (g_ExpiresAt g)
  (g_OneTime g) (g_IssuerPublicKey g) (g_Signature g) .
Definition set_g_ApprovalMode x g := mkGrant (g_SchemaVersion g) (g_GrantID g) (g_RequestID g) (g_ClusterID g)
  (g_KeyID g) (g_SubjectID g) (g_Mode g) x (g_AllowedOperations g) (g_PolicyID g) (g_EvidenceHash g) (g_ExpiresAt g)
  (g_OneTime g) (g_IssuerPublicKey g) (g_Signature g) .
Definition set_g_AllowedOperations x g := mkGrant (g_SchemaVersion g) (g_GrantID g) (g_RequestID g) (g_ClusterID g)
  (g_KeyID g) (g_SubjectID g) (g_Mode g) (g_ApprovalMode g) x (g_PolicyID g) (g_EvidenceHash g) (g_ExpiresAt g)
  (g_OneTime g) (g_IssuerPublicKey g) (g_Signature g) .
Definition set_g_PolicyID x g := mkGrant (g_SchemaVersion g) (g_GrantID g) (g_RequestID g) (g_ClusterID g)
  (g_KeyID g) (g_SubjectID g) (g_Mode g) (g_ApprovalMode g) (g_AllowedOperations g) x (g_EvidenceHash g)
  (g_ExpiresAt g) (g_OneTime g) (g_IssuerPublicKey g) (g_Signature g) .
Definition set_g_EvidenceHash x g := mkGrant (g_SchemaVersion g) (g_GrantID g) (g_RequestID g) (g_ClusterID g)
  (g_KeyID g) (g_SubjectID g) (g_Mode g) (g_ApprovalMode g) (g_AllowedOperations g) (g_PolicyID g) x (g_ExpiresAt g)
  (g_OneTime g) (g_IssuerPublicKey g) (g_Signature g) .
Definition set_g_ExpiresAt x g := mkGrant (g_SchemaVersion g) (g_GrantID g) (g_RequestID g) (g_ClusterID g)
  (g_KeyID g) (g_SubjectID g) (g_Mode g) (g_ApprovalMode g) (g_AllowedOperations g) (g_PolicyID g)
  (g_EvidenceHash g) x (g_OneTime g) (g_IssuerPublicKey g) (g_Signature g) .
Definition set_g_OneTime x g := mkGrant (g_SchemaVersion g) (g_GrantID g) (g_RequestID g) (g_ClusterID g)
  (g_KeyID g) (g_SubjectID g) (g_Mode g) (g_ApprovalMode g) (g_AllowedOperations g) (g_PolicyID g)
  (g_EvidenceHash g) (g_ExpiresAt g) x (g_IssuerPublicKey g) (g_Signature g) .
Definition set_g_IssuerPublicKey x g := mkGrant (g_SchemaVersion g) (g_GrantID g) (g_RequestID g) (g_ClusterID g)
  (g_KeyID g) (g_SubjectID g) (g_Mode g) (g_ApprovalMode g) (g_AllowedOperations g) (g_PolicyID g)
  (g_EvidenceHash g) (g_ExpiresAt g) (g_OneTime g) x (g_Signature g) .
Definition set_g_Signature x g := mkGrant (g_SchemaVersion g) (g_GrantID g) (g_RequestID g) (g_ClusterID g)
  (g_KeyID g) (g_SubjectID g) (g_Mode g) (g_ApprovalMode g) (g_AllowedOperations g) (g_PolicyID g)
  (g_EvidenceHash g) (g_ExpiresAt g) (g_OneTime g) (g_IssuerPublicKey g) x.
Definition grant_fields : list (string * (json -> Grant -> result Grant)) :=
  [("schema_version"%string, field decode_uint32 set_g_SchemaVersion);
   ("grant_id"%string, field decode_string set_g_GrantID);
   ("request_id"%string, field decode_string set_g_RequestID);
   ("cluster_id"%string, field decode_string set_g_ClusterID);
   ("key_id"%string, field decode_string set_g_KeyID);
   ("subject_id"%string, field decode_string set_g_SubjectID);
   ("mode"%string, field decode_string set_g_Mode);
   ("approval_mode"%string, field decode_string set_g_ApprovalMode);
   ("allowed_operations"%string, option_list_field set_g_AllowedOperations);
   ("policy_id"%string, field decode_string set_g_PolicyID);
   ("evidence_hash"%string, field decode_string set_g_EvidenceHash);
   ("expires_at"%string, field decode_string set_g_ExpiresAt);
   ("one_time"%string, field decode_bool set_g_OneTime);
   ("issuer_public_key"%string, field decode_string set_g_IssuerPublicKey);
   ("signature"%string, field decode_string set_g_Signature)].

Definition session_json (s : recoverySession) : json :=
  JObject [("schema_version"%string, int_json (rc_SchemaVersion s)); ("session_id"%string, JString (rc_SessionID s));
           ("recovery_package_id"%string, JString (rc_RecoveryPackageID s)); ("cluster_id"%string, JString (rc_ClusterID s));
           ("key_id"%string, JString (rc_KeyID s)); ("secret_checksum"%string, JString (rc_SecretChecksum s));
           ("expires_at"%string, JString (rc_ExpiresAt s))].

(** The types of which the commands keep values in files. *)
Class JSONFile (A : Type) := {
  jf_fields : list (string * (json -> A -> result A));
  jf_zero : A;
  jf_json : A -> json;
}.

Local Abbreviation E := EmptyString.
Global Instance Package_file : JSONFile PackageMetadata :=
  {| jf_fields := package_fields; jf_zero := mkPackageMetadata 0 E E E E 0 0 E E E []; jf_json := metadata_json |}.
Global Instance Session_file : JSONFile recoverySession :=
  {| jf_fields := session_fields; jf_zero := mkRecoverySession 0 E E E E E E; jf_json := session_json |}.
Global Instance Request_file : JSONFile Request :=
  {| jf_fields := request_fields; jf_zero := mkRequest 0 E E E E None E E E E E E; jf_json := request_json |}.
Global Instance Grant_file : JSONFile Grant :=
  {| jf_fields := grant_fields; jf_zero := mkGrant 0 E E E E E E E None E E E false E E; jf_json := grant_json |}.

Section Files.
Context (os : OS).

Definition rejectUnsafePermissions (fs : FS) (name : string) : result unit :=
  info ← map_err (errorp "stat file") (Stat os fs (Clean name));
  check (negb (accessible_by_others info))
    (errorf ("refusing to read " +:+ name +:+ " with permissions " +:+ octal (perm_of info))).

(** The first value of the text is decoded; only white space may follow. *)
Definition readJSONFile {A} `{JSONFile A} (fs : FS) (name : string) : result A :=
  rejectUnsafePermissions fs name;;
  raw ← map_err (errorp "read JSON file") (ReadFile os fs (Clean name));
  '(v, rest) ← map_err (errorp "parse JSON file") (of_option (errorf "invalid JSON") (parse_value (json_fuel raw) 0 raw));
  value ← map_err (errorp "parse JSON file") (decode_strict jf_fields v jf_zero);
  check (String.eqb (skip_space rest) EmptyString) (errorf "JSON file has trailing content");;
  Ok value.

(** ** Writing *)

(** [os.Rename] of a file or a link; the links themselves are moved and replaced. *)
Definition Rename (fs : FS) (from to : path) : result unit * FS :=
  match os_write os to, fs !! from, fs !! to with
  | Err e, _, _ => (Err e, fs)
  | _, None, _ => (Err no_such_file, fs)
  | _, _, Some (Dir _) => (Err (errorf "file exists"), fs)
  | _, Some n, _ => (Ok tt, <[to := n]> (delete from fs))
  end.

Definition marshalStrict {A} `{JSONFile A} (v : A) : bytes := json_MarshalIndent (jf_json v).

Definition writeJSONFile {A} `{JSONFile A} (v : A) (name : string) (fs : FS) : result unit * FS :=
  if empty (TrimSpace name) then (Err (errorf "path is required"), fs)
  else
    then_fs (wrapped (errorp "create parent directory") (MkdirAll os fs (Dir_of name))) (fun fs =>
    let temp := Clean (name +:+ ".tmp") in
    then_fs (wrapped (errorp "write temporary JSON file") (WriteFile os fs temp (marshalStrict v +:+ newline) 384)) (fun fs =>
    then_fs (wrapped (errorp "chmod temporary JSON file") (Chmod os fs temp 384)) (fun fs =>
    wrapped (errorp "rename JSON file") (Rename fs temp (Clean name))))).
End Files.

(** ** Commands that read files

    A command sees the files as they are when it starts; what it writes itself is in its
    output, and [ce_write] says whether writing succeeded. *)

Definition required (present : bool) (text : string) : cmd unit := if present then mret tt else exit_with ExitUsage (errorf text).
Definition given (values : list string) : bool := forallb (fun v => negb (empty (TrimSpace v))) values.

Section Reading.
Context (os : OS) (fs : FS).

Definition readSharesPath (name : string) : result bytes :=
  rejectUnsafePermissions os fs name;;
  map_err (errorp "read shares file") (ReadFile os fs (Clean name)).

Record rotateStartOptions := mkRotateStartOptions {
  rs_statePath : string; rs_auditPath : string; rs_clusterID : string; rs_keyID : string; rs_policyID : string; rs_format : string;
}.

Definition rotateStartCommand (raw : rotateStartOptions) (env : CtlEnv) : cmd rotateOutput :=
  validateFormat (rs_format raw) ≫= fun _ =>
  required (given [rs_statePath raw]) "-state is required" ≫= fun _ =>
  startRotation (rs_auditPath raw) (TrimSpace (rs_clusterID raw)) (TrimSpace (rs_keyID raw)) (TrimSpace (rs_policyID raw)) env.

(** *** enroll issue *)

(** The values of the flags, and what they are normalised to. *)
Record enrollIssueFlags := mkEnrollIssueFlags {
  if_statePath : string; if_auditPath : string; if_requestPath : string; if_grantPath : string; if_keyID : string;
  if_policyID : string; if_approvalMode : string; if_ttl : Duration; if_format : string;
}.
Record enrollGrantOutput := mkEnrollGrantOutput { ego_AuditID : string; ego_GrantID : string; ego_Path : string }.

Definition parseEnrollIssueOptions (raw : enrollIssueFlags) : cmd enrollIssueFlags :=
  validateFormat (if_format raw) ≫= fun _ =>
  required (given [if_statePath raw; if_requestPath raw; if_grantPath raw]) "-state, -request, and -grant are required" ≫= fun _ =>
  validateApprovalMode (if_approvalMode raw) ≫= fun mode =>
  mret (mkEnrollIssueFlags (if_statePath raw) (if_auditPath raw) (if_requestPath raw) (if_grantPath raw) (if_keyID raw)
          (if_policyID raw) mode (if_ttl raw) (if_format raw)).

(** The output, and the grant that the file at its path holds. *)
Definition enrollIssueCommand `{Ed25519} (range : list (string * string) -> list (string * string)) (raw : enrollIssueFlags)
  (env : CtlEnv) (issuer : result bytes) : cmd (enrollGrantOutput * Grant) :=
  parseEnrollIssueOptions raw ≫= fun options =>
  issueEnrollmentGrant range
    (mkEnrollIssueOptions (if_auditPath options) (if_keyID options) (if_policyID options) (if_approvalMode options) (if_ttl options))
    env issuer (readJSONFile os fs (if_requestPath options)) ≫= fun '(grant, auditID) =>
  mret (mkEnrollGrantOutput auditID (g_GrantID grant) (if_grantPath options), grant).

(** *** enroll apply *)

Record enrollApplyFlags := mkEnrollApplyFlags {
  af_statePath : string; af_auditPath : string; af_grantPath : string; af_clusterID : string; af_localState : string; af_format : string;
}.

Definition parseEnrollApplyOptions (raw : enrollApplyFlags) : cmd enrollApplyFlags :=
  validateFormat (af_format raw) ≫= fun _ =>
  required (given [af_statePath raw; af_grantPath raw]) "-state and -grant are required" ≫= fun _ =>
  let localState := if empty (TrimSpace (af_localState raw)) then af_grantPath raw +:+ ".local.json" else af_localState raw in
  mret (mkEnrollApplyFlags (af_statePath raw) (af_auditPath raw) (af_grantPath raw) (TrimSpace (af_clusterID raw)) localState
          (af_format raw)).

(** The output, and the path of the local trust state. *)
Definition enrollApplyCommand `{Hashes, Ed25519} (range : list (string * string) -> list (string * string)) (raw : enrollApplyFlags)
  (env : CtlEnv) : cmd (enrollApplyOutput * string) :=
  parseEnrollApplyOptions raw ≫= fun options =>
  applyEnrollmentGrant range (mkEnrollApplyOptions (af_auditPath options) (af_clusterID options)) env
    (readJSONFile os fs (af_grantPath options)) ≫= fun out =>
  mret (out, af_localState options).

(** *** recover begin and enroll *)

Record recoverFlags := mkRecoverFlags {
  rf_statePath : string; rf_auditPath : string; rf_packagePath : string; rf_sharesPath : string; rf_sessionPath : string;
  rf_requestPath : string; rf_policyID : string; rf_keyringProfile : string; rf_format : string;
}.

(** The output, and the path of the session file. *)
Definition recoverBeginCommand `{Hashes} (raw : recoverFlags) (ttl : Duration) (env : CtlEnv) : cmd (recoverBeginOutput * string) :=
  validateFormat (rf_format raw) ≫= fun _ =>
  required (given [rf_packagePath raw; rf_sharesPath raw]) "-package and -shares-file are required" ≫= fun _ =>
  let sessionPath := if empty (TrimSpace (rf_sessionPath raw)) then rf_packagePath raw +:+ ".session" else rf_sessionPath raw in
  recoverBegin (rf_statePath raw) (rf_auditPath raw) ttl env (readJSONFile os fs (rf_packagePath raw))
    (readSharesPath (rf_sharesPath raw)) ≫= fun out =>
  mret (out, sessionPath).

Definition parseRecoverEnrollOptions (raw : recoverFlags) : cmd recoverFlags :=
  validateFormat (rf_format raw) ≫= fun _ =>
  required (given [rf_statePath raw; rf_packagePath raw; rf_sharesPath raw; rf_sessionPath raw; rf_requestPath raw])
    "-state, -package, -shares-file, -session, and -request are required" ≫= fun _ =>
  validateKeyringProfile (rf_keyringProfile raw) ≫= fun _ =>
  mret (mkRecoverFlags (rf_statePath raw) (rf_auditPath raw) (rf_packagePath raw) (rf_sharesPath raw) (rf_sessionPath raw)
          (rf_requestPath raw) (rf_policyID raw) (TrimSpace (rf_keyringProfile raw)) (rf_format raw)).

Definition recoverEnrollCommand `{Hashes} (raw : recoverFlags) (env : CtlEnv) : cmd recoverEnrollOutput :=
  parseRecoverEnrollOptions raw ≫= fun options =>
  recoverEnroll (mkRecoverEnrollOptions (rf_auditPath options) (rf_policyID options)) env
    (readJSONFile os fs (rf_packagePath options)) (readJSONFile os fs (rf_sessionPath options))
    (readJSONFile os fs (rf_requestPath options)) (readSharesPath (rf_sharesPath options)).
End Reading.
