(* ===== verification/CtlFilesProps.v ===== *)
(** * What the files of bao-unsealctl carry

    A value that a command writes is the value that a command reads, files that others may
    read or that hold anything else are refused, and an enrollment carried out through
    files ends with the node enrolled. *)

From S2P Require Import Prelude GoStrings Base64 Json JsonText GoTime Keyring KeyProtection Tpm TpmSeal NodeEvidence LocalState StateText LocalStateProps.
From S2P Require Import Config Sql Store StoreInv StoreOps Policy Service Recovery Grants Ctl CtlProps CtlFiles.
Local Open Scope Z_scope.

(** ** The texts *)

Lemma strict_member {St} (fields : list (string * (json -> St -> result St))) name v ms st set :
  find_field fields name = Some set ->
  decode_strict fields (JObject ((name, v) :: ms)) st = (st' ← set v st; decode_strict fields (JObject ms) st').
Proof. intros H. unfold decode_strict. cbn [foldR fst snd]. by rewrite H. Qed.

Lemma strict_end {St} (fields : list (string * (json -> St -> result St))) st : decode_strict fields (JObject []) st = Ok st.
Proof. done. Qed.

Lemma decode_texts l : decode_list EmptyString decode_string (JArray (JString <$> l)) = Ok l.
Proof. unfold decode_list. apply mapR_Ok, Forall2_fmap_l, Forall_Forall2_diag. by apply Forall_true. Qed.

Lemma field_operations {St} (set : option (list string) -> St -> St) l st : option_list_field set (operations_json l) st = Ok (set l st).
Proof. destruct l as [l|]; [|done]. cbn [operations_json]. unfold option_list_field. by rewrite decode_texts. Qed.

Lemma texts_printable d l : Forall text l -> printable (S d) (JArray (JString <$> l)).
Proof. intros Hf. apply Forall_fmap. eapply Forall_impl; [exact Hf|]. intros s. by apply string_printable. Qed.

Definition texts (l : option (list string)) : Prop := Forall text (default [] l).
Lemma operations_printable d l : texts l -> printable (S d) (operations_json l).
Proof. destruct l; [apply texts_printable | done]. Qed.

Lemma field_int64 {St} (set : Z -> St -> St) n st :
  - int64_max - 1 <= n <= int64_max -> field decode_int64 set (JNumber (FormatInt n)) st = Ok (set n st).
Proof. intros Hn. unfold field, decode_int64. rewrite decode_int_Print by (unfold int64_max in *; lia). done. Qed.

Lemma field_version {St} (set : Z -> St -> St) n st :
  0 <= n <= uint32_max -> field decode_uint32 set (JNumber (FormatInt n)) st = Ok (set n st).
Proof. apply field_uint32. Qed.

Lemma version_printable d n : 0 <= n <= uint32_max -> printable d (JNumber (FormatInt n)).
Proof. apply uint32_printable. Qed.

Lemma number_printable d n : - int64_max - 1 <= n <= int64_max -> printable d (JNumber (FormatInt n)).
Proof. apply int_printable. Qed.

Lemma field_bool {St} (set : bool -> St -> St) b st : field decode_bool set (JBool b) st = Ok (set b st).
Proof. done. Qed.

#[local] Hint Resolve texts_printable operations_printable version_printable number_printable : printing.

Ltac strict_step := erewrite strict_member by reflexivity; cbn [snd mbind result_bind];
  first [rewrite field_string | rewrite field_version by eassumption | rewrite field_operations | rewrite field_int64 by eassumption
        | rewrite field_bool | unfold list_field at 1; rewrite decode_texts]; cbn [mbind result_bind].

(** The promise of an instance: what Go's types and UTF-8 text guarantee suffices for a
    value to survive its text. *)
Class JSONFileLaws (A : Type) `{JSONFile A} := {
  jf_typed : A -> Prop;
  jf_decodes v : jf_typed v -> decode_strict jf_fields (jf_json v) jf_zero = Ok v;
  jf_printable v : jf_typed v -> printable 2 (jf_json v);
}.

Definition uint32 (n : Z) : Prop := 0 <= n <= uint32_max.

Definition session_typed (s : recoverySession) : Prop :=
  uint32 (rc_SchemaVersion s) /\ text (rc_SessionID s) /\ text (rc_RecoveryPackageID s) /\ text (rc_ClusterID s) /\
  text (rc_KeyID s) /\ text (rc_SecretChecksum s) /\ text (rc_ExpiresAt s).

Lemma session_decodes s : session_typed s -> decode_strict jf_fields (jf_json s) jf_zero = Ok s.
Proof. intros (Hv & _). cbn [jf_fields jf_json jf_zero Session_file]. unfold session_json, int_json. repeat strict_step. by destruct s. Qed.

Lemma session_printable s : session_typed s -> printable 2 (jf_json s).
Proof. intros (H1 & H2 & H3 & H4 & H5 & H6 & H7). cbn [jf_json Session_file]. unfold session_json, int_json. apply members_printable. members; auto with printing. Qed.

Global Instance Session_laws : JSONFileLaws recoverySession :=
  {| jf_typed := session_typed; jf_decodes := session_decodes; jf_printable := session_printable |}.

Definition package_typed (m : PackageMetadata) : Prop :=
  uint32 (pm_SchemaVersion m) /\ text (pm_PackageID m) /\ text (pm_ClusterID m) /\ text (pm_KeyID m) /\ text (pm_CreatedAt m) /\
  (- int64_max - 1 <= pm_Threshold m <= int64_max) /\ (- int64_max - 1 <= pm_Shares m <= int64_max) /\ text (pm_KDF m) /\
  text (pm_WrappingAlgorithm m) /\ text (pm_SecretChecksum m) /\ Forall text (pm_AllowedOperations m).

Lemma package_decodes m : package_typed m -> decode_strict jf_fields (jf_json m) jf_zero = Ok m.
Proof.
  intros (Hv & _ & _ & _ & _ & Ht & Hs & _). cbn [jf_fields jf_json jf_zero Package_file]. unfold metadata_json. repeat strict_step. by destruct m.
Qed.

Lemma package_printable m : package_typed m -> printable 2 (jf_json m).
Proof. intros (H1 & H2 & H3 & H4 & H5 & H6 & H7 & H8 & H9 & H10 & H11). cbn [jf_json Package_file]. unfold metadata_json. apply members_printable. members; auto with printing. Qed.

Global Instance Package_laws : JSONFileLaws PackageMetadata :=
  {| jf_typed := package_typed; jf_decodes := package_decodes; jf_printable := package_printable |}.

Definition request_typed (r : Request) : Prop :=
  uint32 (rq_SchemaVersion r) /\ text (rq_RequestID r) /\ text (rq_ClusterID r) /\ text (rq_SubjectID r) /\ text (rq_Mode r) /\
  texts (rq_AllowedOperations r) /\ text (rq_EvidenceFormat r) /\ text (rq_EvidencePayload r) /\ text (rq_EvidenceHash r) /\
  text (rq_PublicIdentity r) /\ text (rq_Nonce r) /\ text (rq_ExpiresAt r).

Lemma request_decodes r : request_typed r -> decode_strict jf_fields (jf_json r) jf_zero = Ok r.
Proof.
  intros (Hv & _). cbn [jf_fields jf_json jf_zero Request_file]. unfold request_json, empty.
  destruct (String.eqb_spec (rq_EvidencePayload r) EmptyString) as [Hp|Hp]; cbn [app]; repeat strict_step; destruct r; [|done].
  cbn in Hp. by subst.
Qed.

Lemma request_printable r : request_typed r -> printable 2 (jf_json r).
Proof.
  intros (H1 & H2 & H3 & H4 & H5 & H6 & H7 & H8 & H9 & H10 & H11 & H12). cbn [jf_json Request_file]. unfold request_json. apply members_printable. rewrite !Forall_app. split_and!.
  - members; auto with printing.
  - case_goal; [constructor | members; auto with printing].
  - members; auto with printing.
Qed.

Global Instance Request_laws : JSONFileLaws Request :=
  {| jf_typed := request_typed; jf_decodes := request_decodes; jf_printable := request_printable |}.

Definition grant_typed (g : Grant) : Prop :=
  uint32 (g_SchemaVersion g) /\ text (g_GrantID g) /\ text (g_RequestID g) /\ text (g_ClusterID g) /\ text (g_KeyID g) /\
  text (g_SubjectID g) /\ text (g_Mode g) /\ text (g_ApprovalMode g) /\ texts (g_AllowedOperations g) /\ text (g_PolicyID g) /\
  text (g_EvidenceHash g) /\ text (g_ExpiresAt g) /\ text (g_IssuerPublicKey g) /\ text (g_Signature g).

Lemma grant_decodes g : grant_typed g -> decode_strict jf_fields (jf_json g) jf_zero = Ok g.
Proof.
  intros (Hv & _). cbn [jf_fields jf_json jf_zero Grant_file]. unfold grant_json, unsigned_json. cbn [app]. repeat strict_step. by destruct g.
Qed.

Lemma grant_printable g : grant_typed g -> printable 2 (jf_json g).
Proof.
  intros (H1 & H2 & H3 & H4 & H5 & H6 & H7 & H8 & H9 & H10 & H11 & H12 & H13 & H14). cbn [jf_json Grant_file]. unfold grant_json, unsigned_json. cbn [app]. apply members_printable.
  members; auto with printing. done.
Qed.

Global Instance Grant_laws : JSONFileLaws Grant :=
  {| jf_typed := grant_typed; jf_decodes := grant_decodes; jf_printable := grant_printable |}.

(** ** The files *)

Section Files.
Context (os : OS).

Definition file_of {A} `{JSONFile A} (v : A) : node := File 384 (marshalStrict v +:+ newline).

Lemma Rename_Ok fs from to fs' :
  Rename os fs from to = (Ok tt, fs') -> exists n, fs !! from = Some n /\ fs' = <[to := n]> (delete from fs).
Proof.
  unfold Rename. destruct (os_write os to); [|done]. destruct (fs !! from) as [n|]; [|done].
  destruct (fs !! to) as [[]|]; intros Hr; simplify_eq; by exists n.
Qed.

(** A write through a temporary path that is no symbolic link leaves the value in a
    private file; all other files but the temporary one stay. *)
Lemma writeJSONFile_Ok {A} `{JSONFile A} (v : A) name fs fs' :
  plain fs (Clean (name +:+ ".tmp")) -> writeJSONFile os v name fs = (Ok tt, fs') ->
  empty (TrimSpace name) = false /\ fs' !! Clean name = Some (file_of v) /\
  forall p n, p <> Clean name -> p <> Clean (name +:+ ".tmp") -> fs !! p = Some n -> fs' !! p = Some n.
Proof.
  unfold writeJSONFile. intros Hplain Hw. destruct (empty _); [done|]. split; [done|].
  apply then_fs_Ok in Hw as (fs1 & Em%wrapped_Ok & Hw). cbv zeta in Hw.
  apply then_fs_Ok in Hw as (fs2 & Ew & Hw). apply then_fs_Ok in Hw as (fs3 & Ec & Er%wrapped_Ok).
  assert (fs3 = <[Clean (name +:+ ".tmp") := file_of v]> fs1) as ->.
  { eapply (write_private os); [eapply make_dirs_plain; [exact Em | exact Hplain]|].
    match goal with E : wrapped ?w1 (WriteFile _ _ _ _ _) = _ |- then_fs (wrapped ?x _) _ = _ => unify x w1; rewrite E end. exact Ec. }
  apply Rename_Ok in Er as (n & Hn & ->). rewrite lookup_insert_eq in Hn. injection Hn as <-. split; [by rewrite lookup_insert_eq|].
  intros p n Hp Ht Hl. rewrite lookup_insert_ne by congruence. rewrite lookup_delete_ne by congruence.
  rewrite lookup_insert_ne by congruence. by eapply make_dirs_grows.
Qed.

(** Reading is what it is on the value there. *)
Lemma readJSONFile_there {A} `{JSONFileLaws A} (v : A) name fs :
  os_read os (Clean name) = Ok tt -> fs !! Clean name = Some (file_of v) -> jf_typed v -> readJSONFile os fs name = Ok v.
Proof.
  intros Hr Hf Hv. unfold readJSONFile, rejectUnsafePermissions, Stat, ReadFile.
  rewrite resolve_plain by (by eapply plain_node). rewrite Hr. cbn [mbind result_bind]. rewrite Hf.
  cbn [mbind result_bind of_option map_err file_of].
  assert (json_Parse (marshalStrict v +:+ newline) = Some (jf_json v)) as Hp.
  { apply (json_Parse_MarshalIndent 2); [by apply jf_printable | done | done | right; by eexists]. }
  unfold json_Parse in Hp. destruct (parse_value _ 0 _) as [[w rest]|]; [|done]. destruct (String.eqb (skip_space rest) EmptyString) eqn:Es; [|done].
  injection Hp as ->. cbn [accessible_by_others perm_of negb check mbind result_bind of_option map_err].
  change (negb (Z.land 384 63 =? 0)) with false. cbn [negb check mbind result_bind]. by rewrite jf_decodes, Es.
Qed.

Lemma decode_strict_known {St} (fields : list (string * (json -> St -> result St))) ms st st' :
  decode_strict fields (JObject ms) st = Ok st' -> Forall (fun m => is_Some (find_field fields m.1)) ms.
Proof.
  revert st. induction ms as [|m ms IH]; intros st; [constructor|]. unfold decode_strict. cbn [foldR].
  intros (s1 & Hm & Hr)%bind_Ok. constructor; [|by eapply IH].
  destruct (find_field fields m.1); [by eexists | done].
Qed.

(** What is read at all is private where its links lead, one JSON value without any
    member that the type lacks. *)
Lemma readJSONFile_Ok {A} `{JSONFile A} (v : A) name fs :
  readJSONFile os fs name = Ok v ->
  exists p perm raw j, resolve fs (Clean name) = Ok p /\ fs !! p = Some (File perm raw) /\ Z.land perm 63 = 0 /\ json_Parse raw = Some j /\
    (j = JNull \/ exists ms, j = JObject ms /\ Forall (fun m => is_Some (find_field jf_fields m.1)) ms).
Proof.
  unfold readJSONFile, rejectUnsafePermissions, Stat, ReadFile. intros Hr.
  destruct (os_read os (Clean name)); [|by inv_ok]. cbn [mbind result_bind] in Hr.
  destruct (resolve fs (Clean name)) as [p|]; [|by inv_ok]. cbn [mbind result_bind] in Hr.
  destruct (fs !! p) as [[perm|perm raw|]|] eqn:Ef; cbn [mbind result_bind of_option map_err] in Hr; try done;
    [by destruct (check _ _)|].
  apply bind_Ok in Hr as ([] & Hp & Hr). apply check_Ok in Hp. apply bind_Ok in Hr as ([j rest] & Hj & Hr).
  apply map_err_Ok, of_option_Ok in Hj. apply bind_Ok in Hr as (w & Hd & Hr). apply map_err_Ok in Hd.
  apply bind_Ok in Hr as ([] & Hs & _). apply check_Ok in Hs. exists p, perm, raw, j. split; [done|]. split; [done|]. split.
  { unfold accessible_by_others in Hp. cbn [perm_of] in Hp. to_prop. lia. }
  split; [unfold json_Parse; by rewrite Hj, Hs|].
  destruct j as [| | | | |ms]; try done; [by left | right; exists ms; split; [done|]; by eapply decode_strict_known].
Qed.

(** The paths that a path's chain of links goes through. *)
Inductive leads (fs : FS) : path -> path -> Prop :=
| leads_here p : leads fs p p
| leads_link p target q : fs !! p = Some (Symlink target) -> leads fs target q -> leads fs p q.

(** A chain whose paths all stay as they are leads where it led. *)
Lemma follow_kept n fs fs' p q :
  follow_links n fs p = Ok q -> is_Some (fs !! q) -> (forall p', leads fs p p' -> forall x, fs !! p' = Some x -> fs' !! p' = Some x) ->
  follow_links n fs' p = Ok q /\ fs' !! q = fs !! q.
Proof.
  revert p. induction n as [|n IH]; intros p Hf [x Hx] Hk; cbn [follow_links] in *.
  - destruct (fs !! p) as [[| |t]|] eqn:E; [..|injection Hf as <-; congruence]; [..|done]; rewrite (Hk p (leads_here _ _) _ E);
      injection Hf as <-; (split; [done|]); rewrite E; by apply (Hk p (leads_here _ _) _ E).
  - destruct (fs !! p) as [[| |t]|] eqn:E; [..|injection Hf as <-; congruence]; rewrite (Hk p (leads_here _ _) _ E).
    1,2: injection Hf as <-; (split; [done|]); rewrite E; by apply (Hk p (leads_here _ _) _ E).
    apply IH; [done | by eexists |]. intros p' Hp'. apply Hk. by eapply leads_link.
Qed.

(** A file whose links and self stay is read as before. *)
Lemma readJSONFile_kept {A} `{JSONFile A} (v : A) name fs fs' :
  readJSONFile os fs name = Ok v ->
  (forall p, leads fs (Clean name) p -> forall x, fs !! p = Some x -> fs' !! p = Some x) -> readJSONFile os fs' name = Ok v.
Proof.
  intros Hr Hk. destruct (readJSONFile_Ok _ _ _ Hr) as (p & perm & raw & j & Hp & Hf & _).
  destruct (follow_kept 40 fs fs' (Clean name) p Hp ltac:(by eexists) Hk) as [Hp' Hf'].
  rewrite <- Hr. unfold readJSONFile, rejectUnsafePermissions, Stat, ReadFile, resolve in *. rewrite Hp, Hp'. cbn [mbind result_bind]. by rewrite Hf'.
Qed.

(** C26: what a command wrote a command reads, whichever of the file types it is: the
    recovery package of [init], the session of [recover begin], the request of [enroll
    request] or the grant of [enroll issue].  The file is private, and every file whose
    path leads, through whatever symbolic links, past neither this path nor the temporary
    one is read as it was before.  The temporary path itself is no symbolic link. *)
Theorem json_file_roundtrip {A} `{JSONFileLaws A} (v : A) name fs fs' :
  os_read os (Clean name) = Ok tt -> jf_typed v -> plain fs (Clean (name +:+ ".tmp")) -> writeJSONFile os v name fs = (Ok tt, fs') ->
  readJSONFile os fs' name = Ok v /\ rejectUnsafePermissions os fs' name = Ok tt /\
  forall B (HB : JSONFile B) (w : B) other, ~ leads fs (Clean other) (Clean name) -> ~ leads fs (Clean other) (Clean (name +:+ ".tmp")) ->
    readJSONFile os fs other = Ok w -> readJSONFile os fs' other = Ok w.
Proof.
  intros Hr Hv Hplain Hw. apply writeJSONFile_Ok in Hw as (_ & Hf & Hkeep); [|done]. split; [by apply readJSONFile_there|]. split.
  - unfold rejectUnsafePermissions, Stat. rewrite resolve_plain by (by eapply plain_node). rewrite Hr. cbn [mbind result_bind]. by rewrite Hf.
  - intros B HB w other Hn Ht Ho. eapply readJSONFile_kept; [exact Ho|]. intros p Hp x Hx. apply Hkeep; [..|done]; by intros ->.
Qed.
End Files.

(** ** Enrollment through files *)

Lemma has_text s : validIdentifier s = true -> text s.
Proof. intros Hs. by apply ascii_valid, identifier_ascii. Qed.

Section Enrollment.
Context `{Hashes, Ed25519} (range range' : list (string * string) -> list (string * string)).
Hypothesis range_perm : forall l, range l ≡ₚ l.
Hypothesis range_perm' : forall l, range' l ≡ₚ l.

Lemma operations_texts l : validateOperations l = Ok tt -> texts l.
Proof.
  intros (ops & -> & _ & Hf)%validateOperations_Ok. unfold texts. cbn [default]. eapply Forall_impl; [exact Hf|]. by intros o [->| ->].
Qed.

(** A grant that was issued is text wherever its request was. *)
Lemma IssueGrant_typed request key opts now g :
  IssueGrant range request key opts now = Ok g -> text (rq_EvidenceHash request) -> grant_typed g.
Proof.
  unfold IssueGrant. intros Hi Ht. apply bind_Ok in Hi as ([] & _ & Hi). apply bind_Ok in Hi as ([] & _ & Hi).
  apply bind_Ok in Hi as ([] & _ & Hi). apply bind_Ok in Hi as ([] & Hv & [= <-]). apply Verify_Ok in Hv as [Hv _]; [|exact range_perm].
  destruct Hv as (Hs & Hids & Hm & Ha & Ho & _ & _). unfold grant_identifiers in Hids. rewrite !Forall_cons in Hids. cbn [snd] in Hids.
  destruct Hids as (? & ? & ? & ? & ? & ? & _). unfold grant_typed, with_signature, unsigned_grant in *.
  cbn [g_SchemaVersion g_GrantID g_RequestID g_ClusterID g_KeyID g_SubjectID g_Mode g_ApprovalMode g_AllowedOperations g_PolicyID
       g_EvidenceHash g_ExpiresAt g_IssuerPublicKey g_Signature] in *.
  split_and!; try (by apply has_text); try done; try (apply ascii_valid, b64_ascii).
  - by destruct Ha as [->| ->].
  - by apply operations_texts.
  - apply FormatRFC3339Nano_text.
Qed.

Lemma IssueGrant_shape request key opts now g :
  IssueGrant range request key opts now = Ok g ->
  Verify range g now = Ok tt /\ g_GrantID g = go_GrantID opts /\ g_ExpiresAt g = FormatRFC3339Nano (go_ExpiresAt opts) /\
  g_ClusterID g = rq_ClusterID request /\ g_SubjectID g = rq_SubjectID request.
Proof.
  unfold IssueGrant. intros Hi. apply bind_Ok in Hi as ([] & _ & Hi). apply bind_Ok in Hi as ([] & _ & Hi).
  apply bind_Ok in Hi as ([] & _ & Hi). apply bind_Ok in Hi as ([] & Hv & [= <-]). done.
Qed.

(** What a successful [enroll issue] leaves in the store. *)
Lemma issue_effect options env key request b g auditID b' :
  issueEnrollmentGrant range options env key request b = (inl (g, auditID), b') ->
  exists r privateKey, request = Ok r /\
    IssueGrant range r privateKey (mkGrantOptions (g_GrantID g) (ei_keyID options) (ei_policyID options) (ei_approvalMode options)
      (ce_clock env AtCommand + ei_ttl options) true) (ce_clock env AtCommand) = Ok g /\
    exists row, enrollment_grants (b_db b') !! g_GrantID g = Some row /\ egr_consumed_at row = None /\
      egr_expires_at row = FormatRFC3339Nano (time_or_zero (g_ExpiresAt g)).
Proof.
  intros Hi. unfold issueEnrollmentGrant in Hi. inv_cmd. units. simplify_eq.
  match goal with E : IssueGrant _ ?x ?k _ _ = Ok ?y |- _ => exists x, k; destruct (IssueGrant_shape _ _ _ _ _ E) as (_ & Hid & _) end.
  cbn [go_GrantID] in Hid. rewrite Hid. split; [done|]. split; [done|].
  match goal with E : auditing ?c ?e ?p ?i ?b = _ |- _ => pose proof (auditing_tables c e p i b) as (_ & _ & Ht); rewrite E in Ht end.
  cbn [snd b_db] in Ht. rewrite Ht.
  match goal with E : InsertEnrollmentGrant _ _ = _ |- _ => unfold InsertEnrollmentGrant, exec in E; destruct (insert_enrollment_grants _ _ _) eqn:Eg in E; [|done];
    injection E as <- end.
  unfold insert_enrollment_grants in Eg. inv_ok. cbn [enrollment_grants set_enrollment_grants gr_GrantID] in *.
  eexists. split; [apply lookup_insert_eq | by split].
Qed.

Lemma ready_cluster db c : keys_inv db -> checkBrokerReady c db = Ok tt -> is_Some (clusters db !! c).
Proof.
  intros Hi Hr. destruct (clusters db !! c) eqn:Ec; [by eexists|]. exfalso. destruct (cluster_empty _ _ Hi Ec) as [_ Hk].
  unfold checkBrokerReady in Hr. apply bind_Ok in Hr as (ring & Hl & Hr). apply map_err_Ok in Hl.
  apply bind_Ok in Hr as (v & Ha & _). apply map_err_Ok in Ha.
  destruct (loaded_ring _ _ _ _ Hi Hl) as (vs & -> & _ & _ & Hin & _). apply Active_elem in Ha.
  destruct (Hin _ Ha) as ([[c' k] n] & row & Hrow & Hc & _). cbn in Hc. subst c'. by rewrite Hk in Hrow.
Qed.

(** A grant that verifies and is not used up is applied, whatever becomes of the files and the audit after it. *)
Lemma apply_proceeds options env g b row expiry :
  keys_inv (b_db b) -> Verify range' g (ce_clock env AtCommand) = Ok tt ->
  empty (ea_expectedClusterID options) = true \/ ea_expectedClusterID options = g_ClusterID g ->
  ce_open env = Ok tt -> checkBrokerReady (g_ClusterID g) (b_db b) = Ok tt ->
  enrollment_grants (b_db b) !! g_GrantID g = Some row -> egr_consumed_at row = None ->
  ParseRFC3339Nano (egr_expires_at row) = Some expiry -> ce_clock env AtCommand < expiry ->
  let b' := (applyEnrollmentGrant range' options env (Ok g) b).2 in
  grant_spent (b_db b') (g_GrantID g) /\ is_Some (subjects (b_db b') !! (g_ClusterID g, g_SubjectID g)) /\
  (forall k r, subjects (b_db b) !! k = Some r -> subjects (b_db b') !! k = Some r).
Proof.
  intros Hi Hv Hc Ho Hr Hrow Hcons Hp Hlt b'. set (now := ce_clock env AtCommand) in *.
  set (db1 := set_enrollment_grants (<[g_GrantID g := grant_consumed row (FormatRFC3339Nano now)]> (enrollment_grants (b_db b))) (b_db b)).
  assert (ConsumeEnrollmentGrant (g_GrantID g) now (b_db b) = (Ok tt, db1)) as Hcon.
  { unfold ConsumeEnrollmentGrant, parse_time. rewrite Hrow, Hcons, Hp. cbn [of_option]. unfold Before. by rewrite (proj2 (Z.ltb_lt _ _) Hlt). }
  assert (exists db2, InsertSubject (g_ClusterID g) (g_SubjectID g) now db1 = (Ok tt, db2)) as (db2 & Hins).
  { unfold InsertSubject, exec, insert_or_ignore_subjects. case_goal; [by eexists|]. cbn [fst].
    change (clusters db1) with (clusters (b_db b)). rewrite (proj2 (has_true _ _) (ready_cluster _ _ Hi Hr)). by eexists. }
  assert (exists b1, b_db b1 = db2 /\ (b' = b1 \/ exists code input, b' = (auditing code env (ea_auditPath options) input b1).2)) as (b1 & Hb1 & Hb').
  { exists (mkBroker db2 (b_file b)). split; [done|]. subst b'. unfold applyEnrollmentGrant, mbind, cmd_bind, or_exit. cbv beta iota.
    fold now. rewrite Hv. cbv beta iota.
    assert (negb (empty (ea_expectedClusterID options)) && negb (String.eqb (g_ClusterID g) (ea_expectedClusterID options)) = false) as ->.
    { destruct Hc as [->| ->]; [done|]. by rewrite String.eqb_refl, andb_false_r. }
    unfold mret, cmd_ret. cbv beta iota. rewrite Ho. cbv beta iota. unfold on_store, reading, or_exit. rewrite Hr. cbv beta iota. cbn [b_db b_file].
    rewrite Hcon. cbv beta iota. cbn [b_db b_file]. rewrite Hins. cbv beta iota.
    destruct (ce_write env); [right | by left].
    match goal with |- exists code input, (let (_, _) := auditing ?c env ?p ?i ?bb in _).2 = _ => exists c, i; by destruct (auditing c env p i bb) as [[]] end. }
  apply InsertSubject_Ok in Hins as (Hin & Hkeep & Hgr). unfold grant_spent.
  assert (enrollment_grants (b_db b') = enrollment_grants db1 /\ subjects (b_db b') = subjects db2) as [-> ->].
  { rewrite <- Hgr, <- Hb1. destruct Hb' as [->|(code & input & ->)]; [done|]. by destruct (auditing_tables code env (ea_auditPath options) input b1) as (_ & ? & ?). }
  split_and!; [| done | intros k r Hk; by apply Hkeep]. exists (grant_consumed row (FormatRFC3339Nano now)). split; [apply lookup_insert_eq | done].
Qed.

(** The subject of a grant is in the store once the grant was issued, applied or not. *)
Lemma issue_enrolls_already options env key request b g auditID b' :
  issueEnrollmentGrant range options env key request b = (inl (g, auditID), b') ->
  subjects (b_db b) !! (g_ClusterID g, g_SubjectID g) = None ->
  store_Subject (b_db b') (g_ClusterID g) (g_SubjectID g) = Ok (mkSubject (g_ClusterID g) (g_SubjectID g) false).
Proof.
  intros Hi Hnew. unfold issueEnrollmentGrant in Hi. inv_cmd. units. simplify_eq.
  match goal with E : IssueGrant _ _ _ _ _ = Ok _ |- _ => destruct (IssueGrant_shape _ _ _ _ _ E) as (_ & _ & _ & Hc & Hs) end.
  rewrite Hc, Hs in *.
  match goal with E : auditing ?c ?e ?p ?i ?b = _ |- _ => pose proof (auditing_tables c e p i b) as (_ & Ht & _); rewrite E in Ht end.
  cbn [snd b_db] in Ht. unfold store_Subject. rewrite Ht.
  repeat match goal with
  | E : InsertEnrollmentGrant _ _ = _ |- _ => unfold InsertEnrollmentGrant, exec in E; destruct (insert_enrollment_grants _ _ _) eqn:Eg in E; [|done];
      injection E as <-; unfold insert_enrollment_grants in Eg; inv_ok
  | E : InsertEnrollmentRequest _ _ = _ |- _ => unfold InsertEnrollmentRequest, exec in E; destruct (insert_or_replace_enrollment_requests _ _ _) eqn:Er in E; [|done];
      injection E as <-; unfold insert_or_replace_enrollment_requests in Er; inv_ok
  | E : InsertSubject _ _ _ _ = _ |- _ => unfold InsertSubject, exec in E; destruct (insert_or_ignore_subjects _ _ _) eqn:Es in E; [|done];
      injection E as <-; unfold insert_or_ignore_subjects in Es; rewrite (proj2 (has_false _ _) Hnew) in Es; inv_ok
  end.
  cbn. by rewrite lookup_insert_eq.
Qed.

Lemma enrollIssue_Ok os fs raw env issuer b out g b1 :
  enrollIssueCommand os fs range raw env issuer b = (inl (out, g), b1) ->
  String.eqb (if_format raw) "text" || String.eqb (if_format raw) "json" = true /\ ego_GrantID out = g_GrantID g /\
  exists mode b0 auditID,
    issueEnrollmentGrant range (mkEnrollIssueOptions (if_auditPath raw) (if_keyID raw) (if_policyID raw) mode (if_ttl raw)) env issuer
      (readJSONFile os fs (if_requestPath raw)) b0 = (inl (g, auditID), b1).
Proof.
  unfold enrollIssueCommand, parseEnrollIssueOptions, required. intros Hi. inv_cmd. split; [done|].
  match goal with E : issueEnrollmentGrant _ _ _ _ _ _ = (inl ?x, _) |- _ => destruct x as [g' auditID] end.
  apply cmd_ret_Done in Hi as [Hi ->]. injection Hi as -> ->. split; [done|]. do 3 eexists. eassumption.
Qed.

Lemma enrollApply_state os fs raw env b :
  String.eqb (af_format raw) "text" || String.eqb (af_format raw) "json" = true ->
  empty (TrimSpace (af_statePath raw)) = false -> empty (TrimSpace (af_grantPath raw)) = false ->
  (enrollApplyCommand os fs range' raw env b).2 =
  (applyEnrollmentGrant range' (mkEnrollApplyOptions (af_auditPath raw) (TrimSpace (af_clusterID raw))) env
     (readJSONFile os fs (af_grantPath raw)) b).2.
Proof.
  intros Hf Hs Hg. unfold enrollApplyCommand, parseEnrollApplyOptions, required, given, validateFormat. rewrite Hf. cbn [forallb].
  rewrite Hs, Hg. cbn [negb andb]. unfold mbind, cmd_bind, mret, cmd_ret. cbv beta iota zeta. cbn [af_auditPath af_clusterID af_grantPath].
  by destruct (applyEnrollmentGrant _ _ _ _ b) as [[]].
Qed.

(** C16: offline enrollment works through files: the grant that [enroll issue] wrote is
    read by [enroll apply] on any broker state that has it unused, for the cluster it is
    for and before it expires.  The grant is then used up and its subject known, a subject
    that was known already keeping its row. *)
Theorem issued_grant_enrolls os fs fs1 raw env issuer b out g b1 raw2 env2 b2 :
  enrollIssueCommand os fs range raw env issuer b = (inl (out, g), b1) ->
  time_ok (ce_clock env AtCommand + if_ttl raw) ->
  (forall r, readJSONFile os fs (if_requestPath raw) = Ok r -> text (rq_EvidenceHash r)) ->
  os_read os (Clean (if_grantPath raw)) = Ok tt -> plain fs (Clean (if_grantPath raw +:+ ".tmp")) ->
  writeJSONFile os g (if_grantPath raw) fs = (Ok tt, fs1) ->
  af_grantPath raw2 = if_grantPath raw -> af_format raw2 = if_format raw -> empty (TrimSpace (af_statePath raw2)) = false ->
  empty (TrimSpace (af_clusterID raw2)) = true \/ TrimSpace (af_clusterID raw2) = g_ClusterID g ->
  reachable (b_db b2) -> enrollment_grants (b_db b2) !! g_GrantID g = enrollment_grants (b_db b1) !! g_GrantID g ->
  checkBrokerReady (g_ClusterID g) (b_db b2) = Ok tt -> ce_open env2 = Ok tt ->
  ce_clock env2 AtCommand < ce_clock env AtCommand + if_ttl raw ->
  let b3 := (enrollApplyCommand os fs1 range' raw2 env2 b2).2 in
  readJSONFile os fs1 (if_grantPath raw) = Ok g /\ ego_GrantID out = g_GrantID g /\
  ~ grant_spent (b_db b2) (g_GrantID g) /\ grant_spent (b_db b3) (g_GrantID g) /\
  is_Some (subjects (b_db b3) !! (g_ClusterID g, g_SubjectID g)) /\
  forall k r, subjects (b_db b2) !! k = Some r -> subjects (b_db b3) !! k = Some r.
Proof.
  intros Hi Ht Htext Hread Hplain Hw Hpath Hformat Hstate Hc Hr Hsame Hready Ho Hlt b3. apply enrollIssue_Ok in Hi as (Hf & Hid & mode & b0 & auditID & Hi).
  apply issue_effect in Hi as (request & key & Hreq & Hg & row & Hrow & Hcons & Hexp). cbn [ei_ttl] in Hg.
  pose proof (IssueGrant_typed _ _ _ _ _ Hg (Htext _ Hreq)) as Hty. destruct (IssueGrant_shape _ _ _ _ _ Hg) as (Hv & _ & He & _).
  cbn [go_ExpiresAt] in He. rewrite He in Hexp. unfold time_or_zero in Hexp. rewrite ParseRFC3339Nano_Format in Hexp by done. cbn [default] in Hexp.
  pose proof (writeJSONFile_Ok _ _ _ _ _ Hplain Hw) as (Hne & Hfile & _).
  pose proof (readJSONFile_there os g _ _ Hread Hfile Hty) as Hfile'.
  destruct (apply_proceeds (mkEnrollApplyOptions (af_auditPath raw2) (TrimSpace (af_clusterID raw2))) env2 g b2 row
    (ce_clock env AtCommand + if_ttl raw)) as (Hspent & Hin & Hkeep); try done.
  - exact (si_keys _ (reachable_inv _ Hr)).
  - apply Verify_Ok in Hv as [Hvu Hsg]; [|exact range_perm].
    rewrite (Verify_until range' range_perm' g (ce_clock env AtCommand) (ce_clock env AtCommand + if_ttl raw)); [|done|done|].
    + by rewrite (proj2 (Z.ltb_lt _ _) Hlt).
    + rewrite He. by apply ParseRFC3339Nano_Format.
  - by rewrite Hsame.
  - rewrite Hexp. by apply ParseRFC3339Nano_Format.
  - split; [done|]. split; [done|]. split; [intros (r & Hl & Hn); congruence|].
    subst b3. rewrite enrollApply_state by (by rewrite ?Hformat, ?Hpath). rewrite Hpath, Hfile'. done.
Qed.
End Enrollment.

(** ** Commands on files are runs of store operations *)

Section Steps.
Context `{Hashes, Ed25519} (range : list (string * string) -> list (string * string)).

Ltac by_steps lemma :=
  repeat first [apply lemma | apply cmd_steps_ret | apply cmd_steps_exit | apply cmd_steps_or_exit
    | apply cmd_steps_bind; [|intros ?] | progress cbv zeta
    | match goal with |- cmd_steps (if ?c then _ else _) => destruct c | |- cmd_steps (let '(_, _) := ?x in _) => destruct x end].

Lemma enrollIssueCommand_steps os fs raw env issuer : cmd_steps (enrollIssueCommand os fs range raw env issuer).
Proof. unfold enrollIssueCommand, parseEnrollIssueOptions, required, validateFormat, validateApprovalMode. by_steps (@issue_steps H0 range). Qed.

Lemma enrollApplyCommand_steps os fs raw env : cmd_steps (enrollApplyCommand os fs range raw env).
Proof. unfold enrollApplyCommand, parseEnrollApplyOptions, required, validateFormat. by_steps (@apply_steps H0 range). Qed.

Lemma recoverBeginCommand_steps os fs raw ttl env : cmd_steps (recoverBeginCommand os fs raw ttl env).
Proof. unfold recoverBeginCommand, required, validateFormat. by_steps (@recoverBegin_steps H). Qed.

Lemma recoverEnrollCommand_steps os fs raw env : cmd_steps (recoverEnrollCommand os fs raw env).
Proof.
  unfold recoverEnrollCommand, parseRecoverEnrollOptions, required, validateFormat, validateKeyringProfile. by_steps (@recoverEnroll_steps H).
Qed.

Lemma rotateStartCommand_steps raw env : ctl_typed env -> cmd_steps (rotateStartCommand raw env).
Proof. intros He. unfold rotateStartCommand, required, validateFormat. by_steps (fun a b c d => startRotation_steps a b c d env He). Qed.
End Steps.

(** ** Examples *)

Definition example_written {A} `{JSONFile A} (v : A) (name : string) (fs : FS) : FS := (writeJSONFile toy_os v name fs).2.
Definition example_files : FS := example_written example_target "./in/request.json" {[ [] := Dir 448 ]}.
Definition example_issue_flags : enrollIssueFlags :=
  mkEnrollIssueFlags "state.db" "audit.log" "in/request.json" "out/grant.json" "root" "policy-1" " Single-Operator" Hour "json".
Local Abbreviation example_file_issue :=
  (@enrollIssueCommand toy_os example_files toy_Ed25519 id example_issue_flags example_issue_env (Ok example_key) example_init.2).
Local Abbreviation issued := (((enrollGrantOutput * Grant) + ExitErrorWithCode) * Broker)%type.
Definition issued_grant (o : issued) : Grant := match o.1 with inl (_, g) => g | inr _ => the_grant end.
Definition issued_output (o : issued) : enrollGrantOutput :=
  match o.1 with inl (out, _) => out | inr _ => mkEnrollGrantOutput EmptyString EmptyString EmptyString end.
Definition example_file_grant : Grant := issued_grant example_file_issue.

Lemma issued_parts (o : issued) : (if o.1 then true else false) = true -> o = (inl (issued_output o, issued_grant o), o.2).
Proof. by destruct o as [[[]|] b]. Qed.

Lemma written_parts (o : result unit * FS) : is_ok o.1 = true -> o = (Ok tt, o.2).
Proof. by destruct o as [[[]|] fs]. Qed.
Definition example_grant_files : FS := example_written example_file_grant "out/grant.json" example_files.
Definition example_apply_flags : enrollApplyFlags :=
  mkEnrollApplyFlags "state.db" "audit.log" "out/grant.json" " cluster-a" EmptyString "json".
Definition example_file_apply :=
  @enrollApplyCommand toy_os example_grant_files toy_Hashes toy_Ed25519 (@rev _) example_apply_flags example_apply_env example_file_issue.2.

Lemma plain_test (fs : FS) p : (match fs !! p with Some (Symlink _) => false | _ => true end) = true -> plain fs p.
Proof. intros Hp t E. by rewrite E in Hp. Qed.

(** The names of the files are cleaned. *)
Example example_clean : Clean "/srv//keys/./old/../grant.json" = ["/"; "srv"; "keys"; "grant.json"]%string.
Proof. reflexivity. Qed.

Example example_file_applied : (match example_file_apply.1 with inl (out, path) => Some (eao_SubjectID out, path) | inr _ => None end) =
  Some ("node-b", "out/grant.json.local.json")%string.
Proof. vm_compute. reflexivity. Qed.

(** A grant to which a member was added, or that others may read, is not read at all. *)
Example example_unknown_member_refused :
  is_ok (@readJSONFile toy_os Grant Grant_file {[ ["g"%string] := File 384 (json_Print (JObject [("grant_id"%string, JString "g"); ("admin"%string, JBool true)])) ]} "g") = false.
Proof. vm_compute. reflexivity. Qed.
Example example_open_file_refused :
  is_ok (@readJSONFile toy_os Grant Grant_file {[ ["g"%string] := File 420 (json_Print (jf_json example_file_grant)) ]} "g") = false.
Proof. vm_compute. reflexivity. Qed.

Lemma json_file_roundtrip_witness : readJSONFile toy_os example_files "./in/request.json" = Ok example_target.
Proof.
  refine (proj1 (@json_file_roundtrip toy_os Request Request_file Request_laws example_target "./in/request.json" {[ [] := Dir 448 ]}
    example_files _ _ _ _)).
  - reflexivity.
  - repeat split; try discriminate. repeat constructor.
  - intros t. rewrite lookup_singleton_ne by discriminate. discriminate.
  - apply written_parts. vm_compute. reflexivity.
Defined.

Lemma issued_grant_enrolls_witness :
  readJSONFile toy_os example_grant_files "out/grant.json" = Ok example_file_grant /\
  grant_spent (b_db example_file_apply.2) (g_GrantID example_file_grant).
Proof.
  destruct (@issued_grant_enrolls toy_Hashes toy_Ed25519 id (@rev _) (fun l => Permutation_refl l) (fun l => Permutation_sym (Permutation_rev l))
    toy_os example_files example_grant_files example_issue_flags example_issue_env (Ok example_key) example_init.2
    (issued_output example_file_issue) example_file_grant example_file_issue.2 example_apply_flags example_apply_env example_file_issue.2)
    as (Hf & _ & _ & Hs & _).
  - apply issued_parts. vm_compute. reflexivity.
  - vm_compute. split; congruence.
  - intros r Hr. assert (readJSONFile toy_os example_files "in/request.json" = Ok example_target) as Ht by (vm_compute; reflexivity).
    cbn [if_requestPath example_issue_flags] in Hr. rewrite Ht in Hr. injection Hr as <-. reflexivity.
  - reflexivity.
  - apply (plain_test example_files (Clean "out/grant.json.tmp")). vm_compute. reflexivity.
  - apply written_parts. vm_compute. reflexivity.
  - reflexivity.
  - reflexivity.
  - reflexivity.
  - right. vm_compute. reflexivity.
  - apply cmd_reachable; [apply enrollIssueCommand_steps | exact example_init_reachable].
  - reflexivity.
  - vm_compute. reflexivity.
  - reflexivity.
  - vm_compute. reflexivity.
  - split; [exact Hf | exact Hs].
Defined.
